(* ===== verification/_CoqProject ===== *)
-Q . S2P
Prelude.v
Crc32.v
QNCAccess.v
MtrrDefs.v
QuarkMsr.v
Math64.v
MtrrLib.v
MtrrSpec.v
MtrrQuark.v
MtrrRange.v
MtrrSet.v
MtrrFixed.v
MtrrGet.v
MtrrRestore.v
Smram.v
SmmAccessDxe.v
SmmAccessPei.v
UsbHcBits.v
UsbHcMem.v
UsbHcPool.v
UsbHcSpec.v
UsbHcClient.v
UsbHcTheorems.v
RtcDefs.v
RtcTime.v
RtcDriver.v
RtcClock.v
RtcOps.v
RtcSpec.v
RtcInit.v
RtcTheorems.v
LockBoxDefs.v
LockBoxSpec.v
LockBoxTheorems.v
LockBoxEntry.v
LockBoxWitness.v
FtwDefs.v
FtwSpec.v
FtwFlash.v
FtwRecover.v
FtwFlush.v
FtwReclaim.v
FtwTheorems.v
FtwRecords.v
FtwWitness.v
FvbDefs.v
FvbSpec.v
FvbRules.v
FvbImage.v
FvbTheorems.v
FvbWitness.v
MpDefs.v
MpLogic.v
MpInv.v
MpAp.v
MpBsp.v
MpServe.v
MpRun.v
MpTheorems.v
MpAlone.v
MpWitness.v
SpiDefs.v
SpiSpec.v
SpiSend.v
SpiExecute.v
SpiInit.v
SpiTrace.v
SpiTheorems.v
SpiStack.v
SpiWitness.v
UartDefs.v
UartRules.v
UartSettings.v
UartTheorems.v
SmiDefs.v
SmiRules.v
SmiData.v
SmiDispatch.v
SmiTheorems.v
SmiControl.v
