(* ===== verification/Prelude.v ===== *)
(** * The firmware of the Quark platform

    The repository is the UEFI firmware of Intel's Quark X1000 (IA32, so [UINTN] has 32 bits): the
    processor package ([src/IA32FamilyCpuBasePkg]), the SoC package ([src/QuarkSocPkg]: memory
    controller and host bridge in [QuarkNorthCluster], peripherals in [QuarkSouthCluster]) and the
    platform package ([src/QuarkPlatformPkg]). This development models parts with logic of their own
    that the rest relies on - memory types, the protection of SMRAM, services that untrusted software
    calls, allocation of memory for devices, the clock - and proves what each part promises.

    ** How code is modelled

    C functions are definitions of the same name. An integer of [w] bits is a [Z] with its
    conversions written out ([wrap], [u8] .. [u64]). Code that changes a state is a computation in the
    monad [M S A] of this file: a function from a state to a result and a state, or to [None] when an
    [ASSERT] fires or an array is accessed out of range. A theorem that says [exists a s', m s = Some
    (a, s')] therefore says that the code returns and that no assertion fires. [wp] and its rules are
    the program logic in which the rules of each component ("wp_...") are stated. Loops are
    [Fixpoint]s on a number of iterations; the theorems show that the number is enough (below).
    Status codes are [EFI_STATUS]. Hardware is modelled by what the code relies on (registers that keep
    what is written, protocols of ports). Headers, libraries and services outside the repository are
    type classes: one with the operations and constants, and one ("...Ok") with their documented
    behaviour; each is instantiated for the concrete runs that end the theorem files.

    ** The parts

    - Checksum ([Crc32]): [PlatformHelperLib/Crc32.c], table and routine, equal to the bit-serial
      definition of CRC-32; a change of one byte is always detected.
    - Message bus ([QNCAccess]): [QNCAccessLib.c] over a model of the registers MDR, MEA and MCR and of
      the units behind them; round trips, the order of writes that reprograms an isolated memory
      region, the protocol of the SMM control register.
    - Model-specific registers ([QuarkMsr], over [QNCAccess]): the BaseLib override ([QuarkMsr.c],
      [ReadMsr64.c], [WriteMsr64.c], [MsrUtils.S]), which sends the memory type registers over the bus.
      [Math64]: the shift routines in assembly.
    - Memory types: [UefiCpuPkg/Library/MtrrLib/MtrrLib.c]. [MtrrDefs] has the registers and the
      interface that the library needs of [AsmReadMsr64]/[AsmWriteMsr64]; [MtrrQuark] proves that
      [QuarkMsr] provides it. [MtrrLib] is the library, [MtrrSpec] the architecture's rules for the type
      of an address. [MtrrRange] plans a range as aligned blocks, [MtrrSet] and [MtrrFixed] set types
      above and below one megabyte, [MtrrGet] reads them, [MtrrRestore] saves and restores all.
    - SMRAM: [Smram] models opening, closing and locking in [QNCSmmLib.c] over [QNCAccess];
      [SmmAccessDxe] and [SmmAccessPei] the drivers [SmmAccessDriver.c] and [SmmAccessPei.c] over it:
      their state agrees with the chipset, and a lock is final.
    - The lock box driver, [SmmLockBox.c]: definitions in [LockBoxDefs], rules in [LockBoxSpec], the
      theorems on requests from an adversary in [LockBoxTheorems]; [LockBoxEntry] puts it on top of
      [SmmAccessDxe] through an interface, [LockBoxWitness] runs it.
    - The memory pool of the OHCI driver, [Ohci/Dxe/UsbHcMem.c]: [UsbHcBits] (bit arrays and first-fit
      search), [UsbHcMem] (the linked list of blocks in a heap), [UsbHcPool] and [UsbHcSpec] (invariant
      and rules), [UsbHcClient] (what clients see from creation to release),
      [UsbHcTheorems].
    - The clock driver, [PcatRealTimeClockRuntimeDxe/PcRtc.c]: [RtcDefs] (times and formats), [RtcTime]
      (the calendar and the chip's formats), [RtcDriver] (the chip and the operations),
      [RtcClock], [RtcOps] (rules), [RtcSpec] (the time that the clock shows, and the invariant),
      [RtcInit] (initialisation), [RtcTheorems].
    - The fault-tolerant write driver, [FaultTolerantWriteDxe]: [FtwDefs] is [UpdateWorkingBlock.c] and the
      work space in [FtwMisc.c]; [FtwSpec] says what flash memory does when the power fails; [FtwFlash]
      (loops over blocks), [FtwRecover] (which copy of the work space the flash holds), [FtwFlush] and [FtwReclaim] (rules
      of the copies and of reclaiming), [FtwTheorems], [FtwRecords] (the search of the records, and the header); [FtwWitness] runs
      it on a small chip and shows two losses that the driver does not prevent.
    - The flash block services, [SpiFvbServices/FwBlockService.c]: [FvbDefs] over the memory-mapped flash and the
      SPI protocol; [FvbSpec] (a chip as a function from offsets to bytes, and what it promises), [FvbRules], [FvbImage]
      (the services provide what [FtwSpec] asks of flash volumes), [FvbTheorems] (confinement, the lock of a volume, and the
      two drivers together), [FvbWitness].
    - The SPI host controller driver, [QuarkNorthCluster/Spi] with [SpiFlashDevice.c] and [SmmSpiInit] of [FwBlockService.c]: [SpiDefs]
      over accesses to registers; [SpiSpec] (the controller's registers, the cycle that a command starts, what the flash part
      does with it, step by step), [SpiSend] (rules of cycles and of their loop), [SpiExecute] and [SpiInit]
      (commands and configuration), [SpiTrace] (the driver on a bus that records what it reads: which status words decide the outcome of a
      command), [SpiTheorems]; [SpiStack] makes a controller that is ready the flash that [FvbSpec] asks for,
      and has the theorems on the three drivers together, down to the registers; [SpiWitness] has a controller with a part,
      and runs them on it.
    - The rendezvous of processors in SMM, [PiSmmCpuDxeSmm/MpService.c] with the parts of [CpuService.c], [SyncTimer.c],
      [SmmFeatures.c] and [SmmCpuPlatformHookLib.c] it needs: [MpDefs] is the code that any number of processors run at once,
      one atomic action at a time, over shared variables; [MpLogic] a logic for it (each processor has a role, an invariant ties
      the variables to all roles), [MpInv] the roles, the invariant and the steps that keep it; [MpAp] (check-in,
      election and the part of an AP), [MpBsp], [MpServe] (what SMI handlers ask for) and [MpRun] show that every processor keeps it;
      [MpTheorems] are its consequences, [MpAlone] follows a single processor to the end, [MpWitness] runs two.
    - The serial port driver, [Uart/Dxe/Serial.c]: [UartDefs] (the software queues, the run that moves bytes, the services of the
      protocol) over accesses to the port; [UartRules] (queues, the log of the port, what a port may answer; rules of a run, of writing and
      reading, and what no mode changes), [UartSettings] (control bits, attributes, reset; a peer that is never ready),
      [UartTheorems].
    - The dispatcher of SMIs, [DxeSmm/QncSmmDispatcher]: [SmiDefs] is the code of [QNCSmmCore.c], [QNCSmmHelpers.c] and the sources
      in [QNC], over accesses, the services of the SMM core and the children, which may register and unregister others while they are
      called; [SmiRules] (registers whose bits are cleared by ones; sources), [SmiData] (the invariant of the database, the timer,
      registration), [SmiDispatch] (rules of registration and of a dispatch), [SmiTheorems]. [SmiControl] has the start of the dispatcher
      and the other side: the services of [SmmControlDxe] and [SmmControlPei] that raise a software SMI, and the functions of
      [QNCSmmLib.c] that raise, recognise and clear one, down to the child that is called.

    ** The theorems

    Functional behaviour and refinement: blocks of volumes as ranges of a flash chip; setting and getting memory types against the architecture's
    rules; the time and the alarm against the calendar; allocation as first fit. Equivalence with
    reference definitions: checksum, shifts, the one-day check. Round trips: bus, MSRs, saving and
    restoring memory types, allocate and free, set and get the time, save and restore a box. Safety and
    invariants over every sequence of calls: the drivers' view of SMRAM and its lock, disjointness of
    allocated memory, confinement of requests to SMM, no write to a running clock, the lock of the SPI configuration; and over every moment at which the power
    can fail: the two blocks of the work space of writes hold the old or the new one, down to the cycles of the flash controller. For the serial port:
    every byte goes through once and in order, but for one that a full queue drops, the queues refine a bounded queue, settings are accepted exactly when valid and
    are read back; and two faults, bytes lost by the software loopback and a write that never returns. For the dispatcher of SMIs: the
    database in every sequence of calls, the children that one dispatch calls, what a registration and its end do to the enable bits;
    three faults, an SMI that is lost, a record that is used after it was freed, a rate that is never lowered; and when a
    command that is passed to the SMM control services reaches its child and no other, and when it is lost. Errors and bounds:
    what is refused, and that a refusal changes nothing. For processors that run at once, in all reachable states: no assertion
    of the rendezvous fails but the first of the arrival check, which SMI handlers may call, SMI handlers run only while all processors present have the memory types of SMM, a processor
    outside has its own again, procedures run once and in order. Liveness: a single processor comes out of every SMI whose
    handlers do not call that check. Termination is part of every statement of the
    form above; the wait for the clock has a theorem of its own.

    ** Bounds of loops

    65 iterations where a loop removes one bit of a 64-bit length per turn, 12 for the table of fixed
    registers, 257 for an index of 8 bits, the length of a list of blocks for searches in it, [8 * BitsLen + 1] for the
    search for free units, 600000 rounds of the wait for a cycle and one cycle per byte, the length of the work space for its records, [Timeout + 1] for the wait of the clock, 17 rounds of the
    software loopback, [Timeout / 10 + 2] waits for a byte: in each case a measure decreases
    with each iteration, and the theorems show that the result is reached. A run over the serial port has no bound of its own: its
    theorems ask for more rounds than there are bytes in the queues and reports of broken bytes or of a peer that is not ready, and
    one theorem shows that no number is enough when the peer is never ready. A dispatch looks at as many records as there are, with
    those that children register on the way: the theorems bound how many these are by a weight of each child.

    ** Not modelled

    What only prints or installs protocols; programming of registers whose meaning is in hardware
    manuals outside the repository (memory training, host controllers, SD cards); privileged assembly
    and the start of other processors; tables of data; host tools. In the parts that are modelled:
    concurrency outside of the rendezvous (the firmware runs the other parts on one processor, and the lock of the clock driver
    is checked rather than contended for); in the rendezvous, a timer that runs out in a processor that waits for the leader (the
    theorems assume that it does not; [MpWitness] shows a run that then hangs), the services for hot plug and for the identity of a processor, the order in which a processor's stores become
    visible, the MTRRs as more than one value per processor, the SMRR, debug agent and profile hooks; the passing of time inside one call of the clock driver; other accesses to the SPI
    controller while a command runs, and commands of flash parts beyond those that the program sends; and
    what an [ASSERT] does after it fires; the hardware raising an SMI between two steps of the dispatcher.

    Of the program's own logic remain: the search for firmware volumes of the
    fault-tolerant write driver, and the part of its start that ends a write which a power failure interrupted; the parsers of the flash headers; which controllers the
    serial port driver binds to; the start of the SMM control driver; the schedules of the USB host controllers; the boot options.

    This file: integers, status codes, the monad and its rules, bits and lists. *)

From Stdlib Require Export ZArith Lia Bool.
From stdpp Require Export base tactics numbers list option.

#[export] Set Default Goal Selector "!".
Global Open Scope Z_scope.

(** ** Machine integers *)

(** An unsigned integer of [w] bits is a [Z] in [0 .. 2^w - 1]; a C conversion to an unsigned type
    of [w] bits is [wrap w]. *)
Definition wrap (w x : Z) : Z := x mod 2 ^ w.

Abbreviation u8 := (wrap 8).
Abbreviation u16 := (wrap 16).
Abbreviation u32 := (wrap 32).
Abbreviation u64 := (wrap 64).

Definition in_width (w x : Z) : Prop := 0 <= x < 2 ^ w.

#[export] Instance in_width_dec w x : Decision (in_width w x).
Proof. unfold in_width. apply _. Defined.

(** ** Status codes *)

Inductive EFI_STATUS :=
| EFI_SUCCESS
| EFI_INVALID_PARAMETER
| EFI_UNSUPPORTED
| EFI_BAD_BUFFER_SIZE
| EFI_BUFFER_TOO_SMALL
| EFI_NOT_READY
| EFI_DEVICE_ERROR
| EFI_OUT_OF_RESOURCES
| EFI_NOT_FOUND
| EFI_ACCESS_DENIED
| EFI_ABORTED
| EFI_TIMEOUT.

#[export] Instance EFI_STATUS_eq_dec : EqDecision EFI_STATUS.
Proof. solve_decision. Defined.

(** [EFI_ERROR (Status)]: every code used here other than success is an error. *)
Definition EFI_ERROR (Status : EFI_STATUS) : bool := negb (bool_decide (Status = EFI_SUCCESS)).

(** ** Stateful code that may stop

    A computation over a state of type [S] returns a value and a new state, or [None] when an
    [ASSERT] fires or an array is accessed out of range: execution does not go past that point. *)
Definition M (S A : Type) : Type := S -> option (A * S).

#[export] Instance M_ret {S} : MRet (M S) := fun A a s => Some (a, s).
#[export] Instance M_bind {S} : MBind (M S) :=
  fun A B k m s => match m s with Some (a, s') => k a s' | None => None end.

Definition ASSERT {S} (b : bool) : M S unit := fun s => if b then Some (tt, s) else None.
Definition get {S} : M S S := fun s => Some (s, s).
Definition gets {S A} (f : S -> A) : M S A := fun s => Some (f s, s).
Definition modify {S} (f : S -> S) : M S unit := fun s => Some (tt, f s).

(** An array access: stop when it is out of range. *)
Definition lift {S A} (o : option A) : M S A :=
  fun s => match o with Some a => Some (a, s) | None => None end.
Definition stop {S A} : M S A := fun _ => None.

Lemma some_bind {A B} (f : A -> option B) x : Some x ≫= f = f x.
Proof. reflexivity. Qed.

(** [wp m Q s]: run from [s], [m] does not stop, and its result and final state satisfy [Q]. *)
Definition wp {S A} (m : M S A) (Q : A -> S -> Prop) (s : S) : Prop :=
  exists a s', m s = Some (a, s') /\ Q a s'.

Section wp_rules.
Context {S : Type}.

Lemma wp_ret {A} (a : A) (Q : A -> S -> Prop) s : Q a s -> wp (mret a) Q s.
Proof. intros HQ. exists a, s. done. Qed.

Lemma wp_bind {A B} (m : M S A) (k : A -> M S B) Q s :
  wp m (fun a s' => wp (k a) Q s') s -> wp (m ≫= k) Q s.
Proof.
  intros (a & s' & Hm & b & s'' & Hk & HQ). exists b, s''.
  unfold mbind, M_bind. rewrite Hm. done.
Qed.

Lemma wp_mono {A} (m : M S A) (Q Q' : A -> S -> Prop) s :
  wp m Q s -> (forall a s', Q a s' -> Q' a s') -> wp m Q' s.
Proof. intros (a & s' & Hm & HQ) HQQ. exists a, s'. split; [done | auto]. Qed.

Lemma wp_assert (b : bool) (Q : unit -> S -> Prop) s :
  b = true -> Q tt s -> wp (ASSERT b) Q s.
Proof. intros -> HQ. exists tt, s. done. Qed.

Lemma wp_lift {A} (o : option A) (a : A) (Q : A -> S -> Prop) s :
  o = Some a -> Q a s -> wp (lift o) Q s.
Proof. intros -> HQ. exists a, s. done. Qed.

Lemma wp_gets {A} (f : S -> A) (Q : A -> S -> Prop) s : Q (f s) s -> wp (gets f) Q s.
Proof. intros HQ. exists (f s), s. done. Qed.

Lemma wp_get (Q : S -> S -> Prop) s : Q s s -> wp get Q s.
Proof. intros HQ. exists s, s. done. Qed.

Lemma wp_modify (f : S -> S) (Q : unit -> S -> Prop) s : Q tt (f s) -> wp (modify f) Q s.
Proof. intros HQ. exists tt, (f s). done. Qed.

Lemma wp_run {A} (m : M S A) (Q : A -> S -> Prop) s a s' :
  wp m Q s -> m s = Some (a, s') -> Q a s'.
Proof. intros (a0 & s0 & Hm & HQ) Hm'. rewrite Hm in Hm'. by simplify_eq. Qed.

(** After a part that returns comes one that does not. *)
Lemma bind_hangs {A A'} (m : M S A) (k : A -> M S A') s : wp m (fun a s' => k a s' = None) s -> (m ≫= k) s = None.
Proof. intros (a & s' & Hm & Hk). unfold mbind, M_bind. by rewrite Hm. Qed.

Lemma first_hangs {A A'} (m : M S A) (k : A -> M S A') s : m s = None -> (m ≫= k) s = None.
Proof. intros Hm. unfold mbind, M_bind. by rewrite Hm. Qed.
End wp_rules.

(** [for_each l body]: [body] on the elements of [l] from left to right. *)
Fixpoint for_each {S A} (l : list A) (body : A -> M S unit) : M S unit :=
  match l with
  | [] => mret tt
  | x :: l => body x ≫= fun _ => for_each l body
  end.

(** The rule for [for_each]: an invariant [I] over the elements already visited. *)
Lemma wp_for_each {S A} (I : list A -> S -> Prop) (l : list A) (body : A -> M S unit)
    (Q : unit -> S -> Prop) s :
  I [] s ->
  (forall pre x post s, l = pre ++ x :: post -> I pre s ->
     wp (body x) (fun _ s' => I (pre ++ [x]) s') s) ->
  (forall s, I l s -> Q tt s) ->
  wp (for_each l body) Q s.
Proof.
  intros H0 Hstep HQ.
  enough (Hgen : forall pre post s, l = pre ++ post -> I pre s -> wp (for_each post body) Q s)
    by (by apply (Hgen [] l)).
  clear s H0. intros pre post. revert pre.
  induction post as [|x post IH]; intros pre s Hl HI.
  - apply wp_ret, HQ. rewrite Hl, app_nil_r. done.
  - simpl. apply wp_bind. eapply wp_mono; [by eapply Hstep|].
    intros [] s' HI'. eapply IH; [|done]. rewrite Hl. by rewrite <- app_assoc.
Qed.

(** ** Bits *)

Create HintDb fw discriminated.

Lemma wrap_bounds w x : 0 <= w -> 0 <= wrap w x < 2 ^ w.
Proof. intros. apply Z.mod_pos_bound. lia. Qed.

Lemma wrap_small w x : 0 <= x < 2 ^ w -> wrap w x = x.
Proof. apply Z.mod_small. Qed.

Lemma wrap_wrap w x : wrap w (wrap w x) = wrap w x.
Proof. apply Zmod_mod. Qed.

Lemma wrap_land w x : 0 <= w -> wrap w x = Z.land x (Z.ones w).
Proof. intros. by rewrite Z.land_ones. Qed.

Lemma wrap_bit w x i : 0 <= w -> Z.testbit (wrap w x) i = Z.testbit x i && (i <? w).
Proof.
  intros Hw. rewrite wrap_land by done. rewrite Z.land_spec.
  destruct (Z.ltb_spec i 0); [by rewrite !Z.testbit_neg_r|]. f_equal.
  destruct (Z.ltb_spec i w).
  - apply Z.ones_spec_low. lia.
  - apply Z.ones_spec_high. lia.
Qed.

(** Shifts at any index, negative ones included. *)
Lemma shiftl_bit x n i : 0 <= n -> Z.testbit (Z.shiftl x n) i = Z.testbit x (i - n).
Proof.
  intros Hn. destruct (Z.ltb_spec i 0); [by rewrite !Z.testbit_neg_r by lia|].
  by apply Z.shiftl_spec.
Qed.

Lemma shiftr_bit x n i : Z.testbit (Z.shiftr x n) i = (0 <=? i) && Z.testbit x (i + n).
Proof.
  destruct (Z.leb_spec 0 i); [by apply Z.shiftr_spec|by apply Z.testbit_neg_r].
Qed.

(** A value below [2^w] has no bit at [w] or above. *)
Lemma in_width_bit w x i : in_width w x -> w <= i -> Z.testbit x i = false.
Proof.
  unfold in_width. intros Hx Hi.
  destruct (Z.le_gt_cases 0 w) as [Hw | Hw].
  - rewrite <- (wrap_small w x Hx). rewrite wrap_bit by lia.
    destruct (Z.ltb_spec i w); [lia|]. apply andb_false_r.
  - rewrite Z.pow_neg_r in Hx by done. lia.
Qed.

Lemma in_width_of_bits w x :
  0 <= w -> 0 <= x -> (forall i, w <= i -> Z.testbit x i = false) -> in_width w x.
Proof.
  intros Hw Hx Hb. unfold in_width. split; [done|].
  destruct (Z.eq_dec x 0) as [-> |]; [lia|].
  apply Z.log2_lt_pow2; [lia|].
  destruct (Z.lt_ge_cases (Z.log2 x) w) as [|Hge]; [done|].
  specialize (Hb _ Hge). rewrite Z.bit_log2 in Hb; [done | lia].
Qed.

Lemma lxor_in_width w x y : 0 <= w -> in_width w x -> in_width w y -> in_width w (Z.lxor x y).
Proof.
  intros Hw Hx Hy. apply in_width_of_bits; [done| |].
  - apply Z.lxor_nonneg. unfold in_width in *. lia.
  - intros i Hi. by rewrite Z.lxor_spec, (in_width_bit w x), (in_width_bit w y).
Qed.

Lemma lor_in_width w x y : 0 <= w -> in_width w x -> in_width w y -> in_width w (Z.lor x y).
Proof.
  intros Hw Hx Hy. apply in_width_of_bits; [done| |].
  - apply Z.lor_nonneg. unfold in_width in *. lia.
  - intros i Hi. by rewrite Z.lor_spec, (in_width_bit w x), (in_width_bit w y).
Qed.

Lemma land_in_width w x y : 0 <= w -> in_width w x -> in_width w (Z.land x y).
Proof.
  intros Hw Hx. apply in_width_of_bits; [done| |].
  - apply Z.land_nonneg. left. unfold in_width in *. lia.
  - intros i Hi. by rewrite Z.land_spec, (in_width_bit w x).
Qed.

Lemma wrap_in_width w x : 0 <= w -> in_width w (wrap w x).
Proof. apply wrap_bounds. Qed.

Lemma shiftr_in_width w x k : 0 <= w -> 0 <= k -> in_width w x -> in_width w (Z.shiftr x k).
Proof.
  intros Hw Hk Hx. apply in_width_of_bits; [done| |].
  - apply Z.shiftr_nonneg. unfold in_width in *. lia.
  - intros i Hi. rewrite Z.shiftr_spec by lia. apply (in_width_bit w); [done | lia].
Qed.

#[export] Hint Resolve lxor_in_width lor_in_width land_in_width wrap_in_width shiftr_in_width : fw.

Lemma ones_bit n i : 0 <= n -> Z.testbit (Z.ones n) i = (0 <=? i) && (i <? n).
Proof.
  intros Hn. destruct (Z.leb_spec 0 i); [|by apply Z.testbit_neg_r].
  destruct (Z.ltb_spec i n).
  - apply Z.ones_spec_low. lia.
  - apply Z.ones_spec_high. lia.
Qed.

(** Two values are equal when their bits are: the goal becomes an equation between bits, rewritten
    with the equations of the bit operations. *)
Ltac bits i Hi :=
  apply Z.bits_inj'; intros i Hi;
  repeat first
    [ rewrite Z.lxor_spec | rewrite Z.lor_spec | rewrite Z.land_spec | rewrite Z.ldiff_spec
    | rewrite Z.lnot_spec by lia | rewrite Z.shiftr_spec by lia | rewrite shiftl_bit by lia
    | rewrite wrap_bit by lia | rewrite ones_bit by lia | rewrite Z.testbit_0_l
    | rewrite shiftr_bit ].
#[export] Hint Extern 1 (_ <= _) => lia : fw.

Lemma in_width_mono w w' x : 0 <= w <= w' -> in_width w x -> in_width w' x.
Proof.
  unfold in_width. intros Hw Hx. pose proof (Z.pow_le_mono_r 2 w w'). lia.
Qed.

Lemma in_width_nonneg w x : in_width w x -> 0 <= x.
Proof. unfold in_width. lia. Qed.

#[export] Hint Resolve in_width_nonneg : fw.

(** Case analysis on the comparisons of integers that a goal computes with. *)
Ltac bools :=
  repeat match goal with
    | |- context [?x <? ?y] => destruct (Z.ltb_spec x y); try lia
    | |- context [?x <=? ?y] => destruct (Z.leb_spec x y); try lia
    | |- context [?x =? ?y] => destruct (Z.eqb_spec x y); try lia
    end;
  rewrite ?andb_false_r, ?andb_true_r, ?orb_false_r, ?orb_true_r, ?andb_false_l, ?andb_true_l.

(** Bits outside a value are false. *)
Ltac out_of_width :=
  repeat match goal with
    | |- context [Z.testbit ?x ?i] => rewrite (Z.testbit_neg_r x i) by lia
    | H : in_width ?w ?x |- context [Z.testbit ?x ?i] =>
        rewrite (in_width_bit w x i) by (exact H || lia)
    end.

(** Close an equation between bits of shifted and masked fields. *)
Ltac bit_cases :=
  bools; out_of_width;
  rewrite ?andb_false_r, ?andb_true_r, ?orb_false_r, ?orb_true_r, ?andb_false_l, ?andb_true_l,
    ?orb_false_l, ?orb_true_l, ?xorb_false_l, ?xorb_false_r;
  try reflexivity; try (f_equal; lia).

(** A test of one bit. *)
Lemma flag_test x i : 0 <= i -> negb (Z.land x (2 ^ i) =? 0) = Z.testbit x i.
Proof.
  intros Hi. destruct (Z.testbit x i) eqn:E.
  - apply negb_true_iff, Z.eqb_neq. intros Hz. apply (f_equal (fun y => Z.testbit y i)) in Hz.
    rewrite Z.land_spec, Z.pow2_bits_true, E, Z.testbit_0_l in Hz by done. done.
  - apply negb_false_iff, Z.eqb_eq. apply Z.bits_inj'. intros k Hk.
    rewrite Z.land_spec, Z.pow2_bits_eqb, Z.testbit_0_l by done. destruct (Z.eqb_spec i k) as [<-|].
    + by rewrite E.
    + apply andb_false_r.
Qed.

(** ** Lists *)

Lemma filter_all {A} (P : A -> Prop) `{forall x, Decision (P x)} l : Forall P l -> base.filter P l = l.
Proof.
  induction 1 as [|x l Hx Hl IH]; [done|]. rewrite filter_cons, decide_True by done. by rewrite IH.
Qed.

Lemma filter_none {A} (P : A -> Prop) `{forall x, Decision (P x)} (l : list A) :
  Forall (fun x => ~ P x) l -> base.filter P l = [].
Proof.
  induction 1 as [|x l Hx Hl IH]; [done|]. by rewrite filter_cons, decide_False by done.
Qed.

Lemma filter_fmap_comm {A B} (f : A -> B) (P : B -> Prop) `{forall x, Decision (P x)} (l : list A) :
  base.filter P (f <$> l) = f <$> base.filter (fun x => P (f x)) l.
Proof.
  induction l as [|x l IH]; [done|]. cbn [fmap list_fmap]. rewrite !filter_cons.
  destruct (decide (P (f x))); cbn [fmap list_fmap]; by rewrite IH.
Qed.

(** A decidable statement about closed terms, by evaluation. *)
Ltac by_compute := eapply bool_decide_eq_true_1; vm_compute; reflexivity.
