(* ===== verification/Crc32.v ===== *)
(** * The CRC-32 of the platform helper library

    Models [QuarkPlatformPkg/Library/PlatformHelperLib/Crc32.c]: the table [mCrcTable] and
    [PlatformCalculateCrc32]. The table-driven routine is compared with the bit-serial definition
    of the checksum ([Spec]), which is what the table stands for. *)

From S2P Require Import Prelude.

Definition mCrcTable : list Z := [
   0x00000000; 0x77073096; 0xEE0E612C; 0x990951BA; 0x076DC419; 0x706AF48F; 0xE963A535; 0x9E6495A3;
   0x0EDB8832; 0x79DCB8A4; 0xE0D5E91E; 0x97D2D988; 0x09B64C2B; 0x7EB17CBD; 0xE7B82D07; 0x90BF1D91;
   0x1DB71064; 0x6AB020F2; 0xF3B97148; 0x84BE41DE; 0x1ADAD47D; 0x6DDDE4EB; 0xF4D4B551; 0x83D385C7;
   0x136C9856; 0x646BA8C0; 0xFD62F97A; 0x8A65C9EC; 0x14015C4F; 0x63066CD9; 0xFA0F3D63; 0x8D080DF5;
   0x3B6E20C8; 0x4C69105E; 0xD56041E4; 0xA2677172; 0x3C03E4D1; 0x4B04D447; 0xD20D85FD; 0xA50AB56B;
   0x35B5A8FA; 0x42B2986C; 0xDBBBC9D6; 0xACBCF940; 0x32D86CE3; 0x45DF5C75; 0xDCD60DCF; 0xABD13D59;
   0x26D930AC; 0x51DE003A; 0xC8D75180; 0xBFD06116; 0x21B4F4B5; 0x56B3C423; 0xCFBA9599; 0xB8BDA50F;
   0x2802B89E; 0x5F058808; 0xC60CD9B2; 0xB10BE924; 0x2F6F7C87; 0x58684C11; 0xC1611DAB; 0xB6662D3D;
   0x76DC4190; 0x01DB7106; 0x98D220BC; 0xEFD5102A; 0x71B18589; 0x06B6B51F; 0x9FBFE4A5; 0xE8B8D433;
   0x7807C9A2; 0x0F00F934; 0x9609A88E; 0xE10E9818; 0x7F6A0DBB; 0x086D3D2D; 0x91646C97; 0xE6635C01;
   0x6B6B51F4; 0x1C6C6162; 0x856530D8; 0xF262004E; 0x6C0695ED; 0x1B01A57B; 0x8208F4C1; 0xF50FC457;
   0x65B0D9C6; 0x12B7E950; 0x8BBEB8EA; 0xFCB9887C; 0x62DD1DDF; 0x15DA2D49; 0x8CD37CF3; 0xFBD44C65;
   0x4DB26158; 0x3AB551CE; 0xA3BC0074; 0xD4BB30E2; 0x4ADFA541; 0x3DD895D7; 0xA4D1C46D; 0xD3D6F4FB;
   0x4369E96A; 0x346ED9FC; 0xAD678846; 0xDA60B8D0; 0x44042D73; 0x33031DE5; 0xAA0A4C5F; 0xDD0D7CC9;
   0x5005713C; 0x270241AA; 0xBE0B1010; 0xC90C2086; 0x5768B525; 0x206F85B3; 0xB966D409; 0xCE61E49F;
   0x5EDEF90E; 0x29D9C998; 0xB0D09822; 0xC7D7A8B4; 0x59B33D17; 0x2EB40D81; 0xB7BD5C3B; 0xC0BA6CAD;
   0xEDB88320; 0x9ABFB3B6; 0x03B6E20C; 0x74B1D29A; 0xEAD54739; 0x9DD277AF; 0x04DB2615; 0x73DC1683;
   0xE3630B12; 0x94643B84; 0x0D6D6A3E; 0x7A6A5AA8; 0xE40ECF0B; 0x9309FF9D; 0x0A00AE27; 0x7D079EB1;
   0xF00F9344; 0x8708A3D2; 0x1E01F268; 0x6906C2FE; 0xF762575D; 0x806567CB; 0x196C3671; 0x6E6B06E7;
   0xFED41B76; 0x89D32BE0; 0x10DA7A5A; 0x67DD4ACC; 0xF9B9DF6F; 0x8EBEEFF9; 0x17B7BE43; 0x60B08ED5;
   0xD6D6A3E8; 0xA1D1937E; 0x38D8C2C4; 0x4FDFF252; 0xD1BB67F1; 0xA6BC5767; 0x3FB506DD; 0x48B2364B;
   0xD80D2BDA; 0xAF0A1B4C; 0x36034AF6; 0x41047A60; 0xDF60EFC3; 0xA867DF55; 0x316E8EEF; 0x4669BE79;
   0xCB61B38C; 0xBC66831A; 0x256FD2A0; 0x5268E236; 0xCC0C7795; 0xBB0B4703; 0x220216B9; 0x5505262F;
   0xC5BA3BBE; 0xB2BD0B28; 0x2BB45A92; 0x5CB36A04; 0xC2D7FFA7; 0xB5D0CF31; 0x2CD99E8B; 0x5BDEAE1D;
   0x9B64C2B0; 0xEC63F226; 0x756AA39C; 0x026D930A; 0x9C0906A9; 0xEB0E363F; 0x72076785; 0x05005713;
   0x95BF4A82; 0xE2B87A14; 0x7BB12BAE; 0x0CB61B38; 0x92D28E9B; 0xE5D5BE0D; 0x7CDCEFB7; 0x0BDBDF21;
   0x86D3D2D4; 0xF1D4E242; 0x68DDB3F8; 0x1FDA836E; 0x81BE16CD; 0xF6B9265B; 0x6FB077E1; 0x18B74777;
   0x88085AE6; 0xFF0F6A70; 0x66063BCA; 0x11010B5C; 0x8F659EFF; 0xF862AE69; 0x616BFFD3; 0x166CCF45;
   0xA00AE278; 0xD70DD2EE; 0x4E048354; 0x3903B3C2; 0xA7672661; 0xD06016F7; 0x4969474D; 0x3E6E77DB;
   0xAED16A4A; 0xD9D65ADC; 0x40DF0B66; 0x37D83BF0; 0xA9BCAE53; 0xDEBB9EC5; 0x47B2CF7F; 0x30B5FFE9;
   0xBDBDF21C; 0xCABAC28A; 0x53B39330; 0x24B4A3A6; 0xBAD03605; 0xCDD70693; 0x54DE5729; 0x23D967BF;
   0xB3667A2E; 0xC4614AB8; 0x5D681B02; 0x2A6F2B94; 0xB40BBE37; 0xC30C8EA1; 0x5A05DF1B; 0x2D02EF8D
].

(** One iteration of the loop: [Crc = (Crc >> 8) ^ mCrcTable[(UINT8) Crc ^ *Ptr]], with the byte
    read at [Ptr]; [None] where an array is read out of range. *)
Definition crc_step (Crc byte : Z) : option Z :=
  T ← mCrcTable !! Z.to_nat (Z.lxor (u8 Crc) byte);
  Some (Z.lxor (Z.shiftr Crc 8) T).

(** The [for] loop over the first [n] bytes at [Ptr]. *)
Fixpoint crc_loop (n : nat) (Ptr : list Z) (Crc : Z) : option Z :=
  match n with
  | O => Some Crc
  | S n =>
      match Ptr with
      | [] => None
      | byte :: Ptr => Crc ← crc_step Crc byte; crc_loop n Ptr Crc
      end
  end.

(** [Data] and [CrcOut] are pointers: [None] for NULL. The result is the status and the value left
    in [*CrcOut]. *)
Definition PlatformCalculateCrc32 (Data : option (list Z)) (DataSize : Z) (CrcOut : option Z) :
    option (EFI_STATUS * option Z) :=
  match Data, CrcOut with
  | Some Data, Some _ =>
      if DataSize =? 0 then Some (EFI_INVALID_PARAMETER, CrcOut)
      else
        Crc ← crc_loop (Z.to_nat DataSize) Data 0xFFFFFFFF;
        Some (EFI_SUCCESS, Some (Z.lxor Crc 0xFFFFFFFF))
  | _, _ => Some (EFI_INVALID_PARAMETER, CrcOut)
  end.

(** ** The bit-serial checksum *)
Module Spec.
(** The reflected CRC-32 polynomial. *)
Definition poly : Z := 0xEDB88320.

(** One bit: shift right, and add the polynomial when a one is shifted out. *)
Definition step1 (c : Z) : Z := Z.lxor (Z.shiftr c 1) (if Z.testbit c 0 then poly else 0).

Definition step8 (c : Z) : Z := Nat.iter 8 step1 c.

Definition crc_byte (c byte : Z) : Z := step8 (Z.lxor c byte).

Definition crc32 (data : list Z) : Z :=
  Z.lxor (foldl crc_byte 0xFFFFFFFF data) 0xFFFFFFFF.
End Spec.

(** ** Lemmas *)

Lemma mCrcTable_length : length mCrcTable = 256%nat.
Proof. reflexivity. Qed.

(** Every entry of the table is the eight-fold bit step of its index. *)
Lemma mCrcTable_step8 b : in_width 8 b -> mCrcTable !! Z.to_nat b = Some (Spec.step8 b).
Proof.
  intros Hb.
  assert (Hall : Forall (fun n => mCrcTable !! n = Some (Spec.step8 (Z.of_nat n))) (seq 0 256)).
  { apply Forall_forall. intros n Hn.
    assert (Hchk : forallb (fun n => bool_decide (mCrcTable !! n = Some (Spec.step8 (Z.of_nat n))))
                     (seq 0 256) = true) by (vm_compute; reflexivity).
    rewrite forallb_forall in Hchk. by eapply bool_decide_eq_true_1, Hchk. }
  rewrite Forall_forall in Hall. specialize (Hall (Z.to_nat b)).
  rewrite Z2Nat.id in Hall by (unfold in_width in Hb; lia).
  apply Hall. apply in_seq. unfold in_width in Hb. lia.
Qed.

(** The bit step is linear over exclusive or. *)
Lemma step1_lxor x y : Spec.step1 (Z.lxor x y) = Z.lxor (Spec.step1 x) (Spec.step1 y).
Proof.
  unfold Spec.step1. rewrite Z.lxor_spec, Z.shiftr_lxor.
  destruct (Z.testbit x 0), (Z.testbit y 0); cbn [xorb];
    rewrite ?Z.lxor_0_r; bits i Hi; by repeat destruct (Z.testbit _ _).
Qed.

Lemma iter_step1_lxor n x y :
  Nat.iter n Spec.step1 (Z.lxor x y) = Z.lxor (Nat.iter n Spec.step1 x) (Nat.iter n Spec.step1 y).
Proof. induction n as [|n IH]; [done|]. by rewrite !Nat.iter_succ, IH, step1_lxor. Qed.

(** Bits shifted in above the low ones come out again untouched. *)
Lemma iter_step1_shiftl n x : Nat.iter n Spec.step1 (Z.shiftl x (Z.of_nat n)) = x.
Proof.
  induction n as [|n IH]; [apply Z.shiftl_0_r|].
  rewrite Nat.iter_succ_r. rewrite <- IH at 2. f_equal.
  unfold Spec.step1. rewrite Z.shiftl_spec_low by lia. rewrite Z.lxor_0_r.
  rewrite Z.shiftr_shiftl_l by lia. f_equal. lia.
Qed.

Lemma low_high_split c : 0 <= c -> c = Z.lxor (u8 c) (Z.shiftl (Z.shiftr c 8) 8).
Proof.
  intros Hc. bits i Hi. bit_cases.
Qed.

Lemma step8_split c : 0 <= c -> Spec.step8 c = Z.lxor (Z.shiftr c 8) (Spec.step8 (u8 c)).
Proof.
  intros Hc. rewrite (low_high_split c) at 1 by done.
  unfold Spec.step8. rewrite iter_step1_lxor, (iter_step1_shiftl 8). apply Z.lxor_comm.
Qed.

(** One iteration of the table-driven loop is eight steps of the bit-serial definition. *)
Lemma crc_step_spec Crc byte :
  in_width 32 Crc -> in_width 8 byte -> crc_step Crc byte = Some (Spec.crc_byte Crc byte).
Proof.
  intros HC Hb. unfold crc_step.
  assert (Hx : in_width 8 (Z.lxor (u8 Crc) byte)) by auto with fw.
  rewrite mCrcTable_step8 by done. cbn [mbind option_bind]. f_equal.
  unfold Spec.crc_byte.
  rewrite (step8_split (Z.lxor Crc byte)) by (apply Z.lxor_nonneg; unfold in_width in *; split; lia).
  f_equal; [|f_equal].
  - bits i Hi. rewrite (in_width_bit 8 byte) by (done || lia). by rewrite xorb_false_r.
  - bits i Hi. destruct (Z.ltb_spec i 8); [by rewrite !andb_true_r|].
    rewrite !andb_false_r, (in_width_bit 8 byte) by (done || lia). done.
Qed.

Lemma step1_in_width c : in_width 32 c -> in_width 32 (Spec.step1 c).
Proof.
  intros Hc. unfold Spec.step1. apply lxor_in_width; [done|auto with fw|].
  destruct (Z.testbit c 0); by vm_compute.
Qed.

Lemma crc_byte_in_width c byte :
  in_width 32 c -> in_width 8 byte -> in_width 32 (Spec.crc_byte c byte).
Proof.
  intros Hc Hb. unfold Spec.crc_byte, Spec.step8.
  apply Nat.iter_invariant; [intros; by apply step1_in_width|].
  apply lxor_in_width; [done..|]. by apply (in_width_mono 8).
Qed.

Lemma crc_loop_spec data rest c :
  in_width 32 c -> Forall (in_width 8) data ->
  crc_loop (length data) (data ++ rest) c = Some (foldl Spec.crc_byte c data).
Proof.
  intros Hc Hd. revert c Hc. induction Hd as [|b data Hb Hd IH]; intros c Hc; [done|].
  cbn [length crc_loop app]. rewrite crc_step_spec by done. cbn [mbind option_bind].
  rewrite IH by (by apply crc_byte_in_width). done.
Qed.

Lemma crc32_fold_in_width data c :
  in_width 32 c -> Forall (in_width 8) data -> in_width 32 (foldl Spec.crc_byte c data).
Proof.
  intros Hc Hd. revert c Hc. induction Hd as [|b data Hb Hd IH]; intros c Hc; [done|].
  apply IH. by apply crc_byte_in_width.
Qed.

(** The bit step can be undone: bit 31 of its result tells whether a one was shifted out. *)
Definition unstep1 (d : Z) : Z :=
  if Z.testbit d 31 then Z.lor (Z.shiftl (Z.lxor d Spec.poly) 1) 1 else Z.shiftl d 1.

Lemma unstep1_step1 c : in_width 32 c -> unstep1 (Spec.step1 c) = c.
Proof.
  intros Hc. unfold unstep1, Spec.step1.
  assert (H32 : Z.testbit (Z.shiftr c 1) 31 = false).
  { rewrite Z.shiftr_spec by done. by apply (in_width_bit 32). }
  rewrite Z.lxor_spec, H32. destruct (Z.testbit c 0) eqn:H0.
  - replace (xorb false (Z.testbit Spec.poly 31)) with true by reflexivity.
    rewrite Z.lxor_assoc, Z.lxor_nilpotent, Z.lxor_0_r.
    bits i Hi. destruct (Z.eq_dec i 0) as [-> |Hne]; [by rewrite H0, orb_true_r|].
    replace (i - 1 + 1) with i by lia. destruct (Z.leb_spec 0 (i - 1)); [|lia]. cbn [andb].
    replace 1 with (2 ^ 0) by done. rewrite Z.pow2_bits_false by lia. by rewrite orb_false_r.
  - rewrite Z.lxor_0_r, Z.testbit_0_l. cbn [xorb].
    bits i Hi. destruct (Z.eq_dec i 0) as [-> |Hne]; [by rewrite H0|].
    bit_cases.
Qed.

Lemma step1_inj c d : in_width 32 c -> in_width 32 d -> Spec.step1 c = Spec.step1 d -> c = d.
Proof. intros Hc Hd He. rewrite <- (unstep1_step1 c), <- (unstep1_step1 d) by done. by rewrite He. Qed.

Lemma iter_step1_inj n c d :
  in_width 32 c -> in_width 32 d -> Nat.iter n Spec.step1 c = Nat.iter n Spec.step1 d -> c = d.
Proof.
  intros Hc Hd. induction n as [|n IH]; [done|]. rewrite !Nat.iter_succ. intros He.
  apply IH. apply step1_inj in He; [done|..];
    (apply Nat.iter_invariant; [intros; by apply step1_in_width|done]).
Qed.

Lemma crc_byte_inj c d b b' :
  in_width 32 c -> in_width 32 d -> in_width 8 b -> in_width 8 b' ->
  Spec.crc_byte c b = Spec.crc_byte d b' -> Z.lxor c b = Z.lxor d b'.
Proof.
  unfold Spec.crc_byte, Spec.step8. intros Hc Hd Hb Hb' He.
  apply (iter_step1_inj 8); [| |exact He];
    (apply lxor_in_width; [done..|by apply (in_width_mono 8)]).
Qed.

Lemma lxor_cancel_r x y z : Z.lxor x z = Z.lxor y z -> x = y.
Proof.
  intros He. apply (f_equal (fun v => Z.lxor v z)) in He.
  by rewrite !Z.lxor_assoc, Z.lxor_nilpotent, !Z.lxor_0_r in He.
Qed.

Lemma crc_fold_inj data c d :
  in_width 32 c -> in_width 32 d -> Forall (in_width 8) data ->
  foldl Spec.crc_byte c data = foldl Spec.crc_byte d data -> c = d.
Proof.
  intros Hc Hd Hdata. revert c d Hc Hd.
  induction Hdata as [|b data Hb Hdata IH]; intros c d Hc Hd He; [done|].
  apply IH in He; [|by apply crc_byte_in_width..].
  apply crc_byte_inj in He; [|done..]. by eapply lxor_cancel_r.
Qed.

(** ** Properties *)

(** C38: on a buffer of bytes, [PlatformCalculateCrc32] succeeds and leaves in [*CrcOut] the CRC-32
    of the first [DataSize] bytes as the bit-serial definition computes it; it reads nothing past
    them. *)
Theorem PlatformCalculateCrc32_correct (data rest : list Z) (out : Z) :
  Forall (in_width 8) data -> data <> [] ->
  PlatformCalculateCrc32 (Some (data ++ rest)) (Z.of_nat (length data)) (Some out) =
  Some (EFI_SUCCESS, Some (Spec.crc32 data)).
Proof.
  intros Hd Hne. unfold PlatformCalculateCrc32.
  destruct (Z.eqb_spec (Z.of_nat (length data)) 0) as [He|_].
  { destruct data; [done|]. simpl in He. lia. }
  rewrite Nat2Z.id, crc_loop_spec by done. done.
Qed.

(** The nine digits of the usual check value. *)
Lemma PlatformCalculateCrc32_correct_witness :
  PlatformCalculateCrc32 (Some ([49; 50; 51; 52; 53; 54; 55; 56; 57] ++ [0])) 9 (Some 0) =
    Some (EFI_SUCCESS, Some (Spec.crc32 [49; 50; 51; 52; 53; 54; 55; 56; 57]))
  /\ Spec.crc32 [49; 50; 51; 52; 53; 54; 55; 56; 57] = 0xCBF43926.
Proof.
  split; [|vm_compute; reflexivity].
  apply (PlatformCalculateCrc32_correct [49; 50; 51; 52; 53; 54; 55; 56; 57] [0] 0);
    [|discriminate].
  repeat constructor; discriminate.
Defined.

(** the checksum detects every change of a single byte: two buffers that differ in exactly one
    byte get different checksums. *)
Theorem crc32_detects_byte_change (pre post : list Z) (b b' out : Z) :
  Forall (in_width 8) (pre ++ b :: post) -> in_width 8 b' -> b <> b' ->
  forall r r',
  PlatformCalculateCrc32 (Some (pre ++ b :: post)) (Z.of_nat (length (pre ++ b :: post))) (Some out)
    = Some (EFI_SUCCESS, Some r) ->
  PlatformCalculateCrc32 (Some (pre ++ b' :: post)) (Z.of_nat (length (pre ++ b' :: post))) (Some out)
    = Some (EFI_SUCCESS, Some r') ->
  r <> r'.
Proof.
  intros Hall Hb' Hne r r' Hr Hr' <-.
  assert (Hall' : Forall (in_width 8) (pre ++ b' :: post)).
  { apply Forall_app in Hall as [? Hbp]. inversion_clear Hbp. apply Forall_app. by split; [|constructor]. }
  assert (Hrun : forall d, Forall (in_width 8) d -> d <> [] ->
    PlatformCalculateCrc32 (Some d) (Z.of_nat (length d)) (Some out) = Some (EFI_SUCCESS, Some r) ->
    foldl Spec.crc_byte 0xFFFFFFFF d = Z.lxor r 0xFFFFFFFF).
  { intros d Hd Hnil H. rewrite <- (app_nil_r d) in H at 1. unfold PlatformCalculateCrc32 in H.
    destruct (Z.eqb_spec (Z.of_nat (length d)) 0) as [He|_]; [destruct d; simpl in He; [done|lia]|].
    rewrite Nat2Z.id, crc_loop_spec in H by done. simplify_eq/=.
    by rewrite Z.lxor_assoc, Z.lxor_nilpotent, Z.lxor_0_r. }
  apply Hrun in Hr; [|done|by destruct pre]. apply Hrun in Hr'; [|done|by destruct pre].
  rewrite <- Hr' in Hr. rewrite !foldl_app in Hr. cbn [foldl] in Hr.
  apply Forall_app in Hall as [Hpre Hbp]. inversion_clear Hbp as [|? ? Hb Hpost].
  assert (Hacc : in_width 32 (foldl Spec.crc_byte 0xFFFFFFFF pre))
    by (by apply crc32_fold_in_width).
  apply crc_fold_inj in Hr; [|by apply crc_byte_in_width..|done].
  apply crc_byte_inj in Hr; [|done..].
  rewrite !(Z.lxor_comm (foldl _ _ _)) in Hr. by apply lxor_cancel_r in Hr.
Qed.

Lemma crc32_detects_byte_change_witness :
  in_width 8 8 /\ 7 <> 8 /\ forall r r',
  PlatformCalculateCrc32 (Some ([1; 2] ++ [7; 3])) 4 (Some 0) = Some (EFI_SUCCESS, Some r) ->
  PlatformCalculateCrc32 (Some ([1; 2] ++ [8; 3])) 4 (Some 0) = Some (EFI_SUCCESS, Some r') ->
  r <> r'.
Proof.
  split; [by vm_compute|]. split; [discriminate|].
  apply (crc32_detects_byte_change [1; 2] [3] 7 8 0); [|by vm_compute|discriminate].
  repeat constructor; discriminate.
Defined.
