(* ===== verification/QNCAccess.v ===== *)
(** * The message bus of the north cluster and its access library

    Models [QuarkNorthCluster/Library/QNCAccessLib/QNCAccessLib.c] and the macros of
    [QuarkNorthCluster/Include/Library/QNCAccessLib.h]. Every register of the SoC's internal units
    is reached through three registers in the configuration space of the host bridge: the message
    data register MDR, the extended address register MEA and the control register MCR, whose write
    sends the message. [msgbus] is the state of that hardware; how an addressed register takes a
    written value (lock bits, read-only bits) is the parameter [sb_store]. *)

From S2P Require Import Prelude.
From stdpp Require Import functions.
#[local] Open Scope Z_scope.

(** ** Constants of [QuarkNcSocId.h] *)
Definition QNC_MCR_OP_OFFSET : Z := 24.
Definition QNC_MCR_PORT_OFFSET : Z := 16.
Definition QNC_MCR_REG_OFFSET : Z := 8.
Definition QUARK_OPCODE_READ : Z := 0x10.
Definition QUARK_OPCODE_WRITE : Z := 0x11.
Definition QUARK_ALT_OPCODE_READ : Z := 0x06.
Definition QUARK_ALT_OPCODE_WRITE : Z := 0x07.
Definition QUARK_OPCODE_IO_READ : Z := 0x02.
Definition QUARK_OPCODE_IO_WRITE : Z := 0x03.
Definition QUARK_NC_HOST_BRIDGE_SB_PORT_ID : Z := 0x03.
Definition QUARK_NC_MEMORY_MANAGER_SB_PORT_ID : Z := 0x05.
Definition QUARK_ICLK_SB_PORT_ID : Z := 0x32.
Definition QUARK2_MC_DEVICE_ID : Z := 0x12C0.
Definition QUARK_NC_MEMORY_MANAGER_IMRXL : Z := 0x00.
Definition QUARK_NC_MEMORY_MANAGER_IMRXH : Z := 0x01.
Definition QUARK_NC_MEMORY_MANAGER_IMRXRM : Z := 0x02.
Definition QUARK_NC_MEMORY_MANAGER_IMRXWM : Z := 0x03.
Definition IMR_EN : Z := 2 ^ 30.
Definition IMRX_ALL_ACCESS : Z := 0xFFFFFFFF.
Definition QNC_MSG_FSBIC_REG_HSMMC : Z := 0x04.
Definition NON_HOST_SMM_WR_OPEN : Z := 2 ^ 18.
Definition NON_HOST_SMM_RD_OPEN : Z := 2 ^ 17.
Definition SMM_CTL_EN : Z := 2 ^ 3.
Definition SMM_WRITE_OPEN : Z := 2 ^ 2.
Definition SMM_READ_OPEN : Z := 2 ^ 1.
Definition SMM_LOCKED : Z := 2 ^ 0.

(** A bit-and with the complement of a mask, as in [x &= ~m]. *)
Abbreviation clear x m := (Z.ldiff x m).

(** ** The message control words *)

Definition MESSAGE (opcode Port Reg : Z) : Z :=
  u32 (Z.lor (Z.lor (Z.lor (Z.shiftl opcode QNC_MCR_OP_OFFSET)
                       (Z.land (Z.shiftl Port QNC_MCR_PORT_OFFSET) 0xFF0000))
                 (Z.land (Z.shiftl Reg QNC_MCR_REG_OFFSET) 0xFF00)) 0xF0).

Definition MESSAGE_READ_DW : Z -> Z -> Z := MESSAGE QUARK_OPCODE_READ.
Definition MESSAGE_WRITE_DW : Z -> Z -> Z := MESSAGE QUARK_OPCODE_WRITE.
Definition ALT_MESSAGE_READ_DW : Z -> Z -> Z := MESSAGE QUARK_ALT_OPCODE_READ.
Definition ALT_MESSAGE_WRITE_DW : Z -> Z -> Z := MESSAGE QUARK_ALT_OPCODE_WRITE.
Definition MESSAGE_IO_READ_DW : Z -> Z -> Z := MESSAGE QUARK_OPCODE_IO_READ.
Definition MESSAGE_IO_WRITE_DW : Z -> Z -> Z := MESSAGE QUARK_OPCODE_IO_WRITE.

(** ** The hardware *)

(** The three register spaces that the opcodes address. *)
Inductive space := SpReg | SpAlt | SpIo.

#[export] Instance space_eq_dec : EqDecision space.
Proof. solve_decision. Defined.

(** A register: its space, the port (unit) and the 32-bit register address. *)
Abbreviation sbreg := (space * Z * Z)%type.

(** How the addressed unit stores a written value: the value its register holds afterwards, from
    the one it held and the one written. *)
Class MessageBus := { sb_store : sbreg -> Z -> Z -> Z }.

Record msgbus := {
  MDR : Z;                       (* message data register *)
  MEA : Z;                       (* message extended address register *)
  DeviceId : Z;                  (* device identification of the host bridge *)
  regs : sbreg -> Z;             (* the units' registers *)
  writes : list (sbreg * Z)      (* the register writes performed, oldest first *)
}.

Section Access.
Context {MB : MessageBus}.

Definition set_MDR (v : Z) (s : msgbus) : msgbus :=
  {| MDR := v; MEA := s.(MEA); DeviceId := s.(DeviceId); regs := s.(regs); writes := s.(writes) |}.
Definition set_MEA (v : Z) (s : msgbus) : msgbus :=
  {| MDR := s.(MDR); MEA := v; DeviceId := s.(DeviceId); regs := s.(regs); writes := s.(writes) |}.
Definition store (r : sbreg) (v : Z) (s : msgbus) : msgbus :=
  {| MDR := s.(MDR); MEA := s.(MEA); DeviceId := s.(DeviceId);
     regs := <[r := sb_store r (s.(regs) r) v]> s.(regs); writes := s.(writes) ++ [(r, v)] |}.

(** What an opcode does: which space it addresses and whether it writes. *)
Definition opcode_space (op : Z) : option (space * bool) :=
  if op =? QUARK_OPCODE_READ then Some (SpReg, false)
  else if op =? QUARK_OPCODE_WRITE then Some (SpReg, true)
  else if op =? QUARK_ALT_OPCODE_READ then Some (SpAlt, false)
  else if op =? QUARK_ALT_OPCODE_WRITE then Some (SpAlt, true)
  else if op =? QUARK_OPCODE_IO_READ then Some (SpIo, false)
  else if op =? QUARK_OPCODE_IO_WRITE then Some (SpIo, true)
  else None.

(** A write to MCR sends the message: bits 31..24 are the opcode, 23..16 the port, 15..8 the low
    byte of the register address (MEA holds the rest), 7..4 the byte enables. A message that is
    not a double-word access with a known opcode is outside the model. *)
Definition write_MCR (m : Z) : M msgbus unit := fun s =>
  let port := Z.land (Z.shiftr m QNC_MCR_PORT_OFFSET) 0xFF in
  let addr := Z.lor (Z.land s.(MEA) 0xFFFFFF00) (Z.land (Z.shiftr m QNC_MCR_REG_OFFSET) 0xFF) in
  if Z.land (Z.shiftr m 4) 0xF =? 0xF then
    match opcode_space (Z.land (Z.shiftr m QNC_MCR_OP_OFFSET) 0xFF) with
    | Some (sp, false) => Some (tt, set_MDR (s.(regs) (sp, port, addr)) s)
    | Some (sp, true) => Some (tt, store (sp, port, addr) s.(MDR) s)
    | None => None
    end
  else None.

(** ** [QNCAccessLib.c] *)

Definition QNCPortRead (Port RegAddress : Z) : M msgbus Z :=
  _ ← modify (set_MEA (Z.land RegAddress 0xFFFFFF00));
  _ ← write_MCR (MESSAGE_READ_DW Port RegAddress);
  gets MDR.

Definition QNCPortWrite (Port RegAddress WriteValue : Z) : M msgbus unit :=
  _ ← modify (set_MDR WriteValue);
  _ ← modify (set_MEA (Z.land RegAddress 0xFFFFFF00));
  write_MCR (MESSAGE_WRITE_DW Port RegAddress).

Definition QNCAltPortRead (Port RegAddress : Z) : M msgbus Z :=
  _ ← modify (set_MEA (Z.land RegAddress 0xFFFFFF00));
  _ ← write_MCR (ALT_MESSAGE_READ_DW Port RegAddress);
  gets MDR.

Definition QNCAltPortWrite (Port RegAddress WriteValue : Z) : M msgbus unit :=
  _ ← modify (set_MDR WriteValue);
  _ ← modify (set_MEA (Z.land RegAddress 0xFFFFFF00));
  write_MCR (ALT_MESSAGE_WRITE_DW Port RegAddress).

Definition QNCPortIORead (Port RegAddress : Z) : M msgbus Z :=
  _ ← modify (set_MEA (Z.land RegAddress 0xFFFFFF00));
  _ ← write_MCR (MESSAGE_IO_READ_DW Port RegAddress);
  gets MDR.

Definition QNCPortIOWrite (Port RegAddress WriteValue : Z) : M msgbus unit :=
  _ ← modify (set_MDR WriteValue);
  _ ← modify (set_MEA (Z.land RegAddress 0xFFFFFF00));
  write_MCR (MESSAGE_IO_WRITE_DW Port RegAddress).

Definition QncHsmmcRead : M msgbus Z :=
  QNCPortRead QUARK_NC_HOST_BRIDGE_SB_PORT_ID QNC_MSG_FSBIC_REG_HSMMC.

Definition QncHsmmcWrite (WriteValue : Z) : M msgbus unit :=
  DeviceId ← gets DeviceId;
  let is2 := DeviceId =? QUARK2_MC_DEVICE_ID in
  WriteValue ←
    (if is2 then
       Data32 ← QncHsmmcRead;
       _ ← QNCPortWrite QUARK_NC_HOST_BRIDGE_SB_PORT_ID QNC_MSG_FSBIC_REG_HSMMC
             (clear Data32 SMM_CTL_EN);
       Data32 ← QncHsmmcRead;
       _ ← ASSERT (Z.land Data32 SMM_CTL_EN =? 0);
       mret (Z.lor WriteValue SMM_CTL_EN)
     else mret WriteValue);
  _ ← QNCPortWrite QUARK_NC_HOST_BRIDGE_SB_PORT_ID QNC_MSG_FSBIC_REG_HSMMC WriteValue;
  if is2 then
    Data32 ← QncHsmmcRead;
    ASSERT (negb (Z.land Data32 SMM_CTL_EN =? 0))
  else mret tt.

(** Reading and writing register [Reg] of the isolated memory region at [ImrBaseOffset]. *)
Abbreviation ImrRead ImrBaseOffset Reg :=
  (QNCPortRead QUARK_NC_MEMORY_MANAGER_SB_PORT_ID (u32 (ImrBaseOffset + Reg))).
Abbreviation ImrWrite ImrBaseOffset Reg v :=
  (QNCPortWrite QUARK_NC_MEMORY_MANAGER_SB_PORT_ID (u32 (ImrBaseOffset + Reg)) v).

Definition QncImrWrite (ImrBaseOffset ImrLow ImrHigh ImrReadMask ImrWriteMask : Z) :
    M msgbus unit :=
  DeviceId ← gets DeviceId;
  if DeviceId =? QUARK2_MC_DEVICE_ID then
    Data32 ← ImrRead ImrBaseOffset QUARK_NC_MEMORY_MANAGER_IMRXL;
    _ ← ImrWrite ImrBaseOffset QUARK_NC_MEMORY_MANAGER_IMRXL (clear Data32 IMR_EN);
    Data32 ← ImrRead ImrBaseOffset QUARK_NC_MEMORY_MANAGER_IMRXL;
    _ ← ASSERT (Z.land Data32 IMR_EN =? 0);
    _ ← ImrWrite ImrBaseOffset QUARK_NC_MEMORY_MANAGER_IMRXRM ImrReadMask;
    _ ← ImrWrite ImrBaseOffset QUARK_NC_MEMORY_MANAGER_IMRXWM ImrWriteMask;
    _ ← ImrWrite ImrBaseOffset QUARK_NC_MEMORY_MANAGER_IMRXH ImrHigh;
    _ ← ImrWrite ImrBaseOffset QUARK_NC_MEMORY_MANAGER_IMRXL ImrLow;
    Data32 ← ImrRead ImrBaseOffset QUARK_NC_MEMORY_MANAGER_IMRXL;
    ASSERT (Z.land Data32 IMR_EN =? Z.land ImrLow IMR_EN)
  else
    _ ← ImrWrite ImrBaseOffset QUARK_NC_MEMORY_MANAGER_IMRXRM IMRX_ALL_ACCESS;
    _ ← ImrWrite ImrBaseOffset QUARK_NC_MEMORY_MANAGER_IMRXWM IMRX_ALL_ACCESS;
    _ ← ImrWrite ImrBaseOffset QUARK_NC_MEMORY_MANAGER_IMRXL (clear ImrLow IMR_EN);
    _ ← ImrWrite ImrBaseOffset QUARK_NC_MEMORY_MANAGER_IMRXH ImrHigh;
    _ ← ImrWrite ImrBaseOffset QUARK_NC_MEMORY_MANAGER_IMRXRM ImrReadMask;
    ImrWrite ImrBaseOffset QUARK_NC_MEMORY_MANAGER_IMRXWM ImrWriteMask.

Definition QncIClkAndThenOr (RegAddress AndValue OrValue : Z) : M msgbus unit :=
  RegValue ← QNCAltPortRead QUARK_ICLK_SB_PORT_ID RegAddress;
  let RegValue := Z.lor (Z.land RegValue AndValue) OrValue in
  _ ← QNCAltPortWrite QUARK_ICLK_SB_PORT_ID RegAddress RegValue;
  QNCAltPortWrite QUARK_ICLK_SB_PORT_ID RegAddress RegValue.

Definition QncIClkOr (RegAddress OrValue : Z) : M msgbus unit :=
  RegValue ← QNCAltPortRead QUARK_ICLK_SB_PORT_ID RegAddress;
  let RegValue := Z.lor RegValue OrValue in
  _ ← QNCAltPortWrite QUARK_ICLK_SB_PORT_ID RegAddress RegValue;
  QNCAltPortWrite QUARK_ICLK_SB_PORT_ID RegAddress RegValue.
End Access.

(** *** Memory-mapped writes that are read back *)

Inductive QNC_MEM_IO_WIDTH := QNCMmioWidthUint8 | QNCMmioWidthUint16 | QNCMmioWidthUint32 | QNCMmioWidthUint64 | QNCMmioWidthMaximum.

Section MmIo.
Context {D : Type} (Mmio_read : Z -> Z -> M D Z) (Mmio_write : Z -> Z -> Z -> M D unit).

(** Accesses of [n] bytes. A value that is not read back is noted, and the loop goes on: the [break] leaves the switch. *)
Fixpoint mmio_checked (n MmIoAddress : Z) (pData : list Z) (Status : EFI_STATUS) : M D EFI_STATUS :=
  match pData with
  | [] => mret Status
  | x :: pData =>
      _ ← Mmio_write n MmIoAddress x;
      v ← Mmio_read n MmIoAddress;
      mmio_checked n MmIoAddress pData (if v =? x then Status else EFI_DEVICE_ERROR)
  end.

(** [pData] has [DataNumber] elements of the width. *)
Definition QNCMmIoWrite (MmIoAddress : Z) (Width : QNC_MEM_IO_WIDTH) (pData : list Z) : M D EFI_STATUS :=
  match Width with
  | QNCMmioWidthUint8 => mmio_checked 1 MmIoAddress pData EFI_SUCCESS
  | QNCMmioWidthUint16 => mmio_checked 2 MmIoAddress pData EFI_SUCCESS
  | QNCMmioWidthUint32 => mmio_checked 4 MmIoAddress pData EFI_SUCCESS
  | QNCMmioWidthUint64 => mmio_checked 8 MmIoAddress pData EFI_SUCCESS
  | QNCMmioWidthMaximum => mret EFI_SUCCESS
  end.

(** Every datum is written, whatever is read back in between, and the status says whether all were: with [stores x] whether the
    register gives [x] back. *)
Lemma wp_mmio_checked n MmIoAddress (stores : Z -> bool) (I : list Z -> D -> Prop) pData done_ Status d :
  (forall l x d, I l d -> wp (Mmio_write n MmIoAddress x) (fun _ d1 => wp (Mmio_read n MmIoAddress) (fun v d2 => (v =? x) = stores x /\ I (l ++ [x]) d2) d1) d) ->
  I done_ d ->
  wp (mmio_checked n MmIoAddress pData Status) (fun st d' => I (done_ ++ pData) d' /\ st = if forallb stores pData then Status else EFI_DEVICE_ERROR) d.
Proof.
  intros HI. revert done_ Status d. induction pData as [|x l IH]; intros done_ Status d Hd; cbn [mmio_checked forallb].
  - apply wp_ret. by rewrite app_nil_r.
  - apply wp_bind. eapply wp_mono; [by apply HI|]. intros [] d1 H1. apply wp_bind. eapply wp_mono; [exact H1|]. intros v d2 [Hv H2]. rewrite Hv.
    eapply wp_mono; [by apply IH|]. intros st d3 [H3 ->]. split; [by rewrite <- app_assoc in H3|]. by destruct (stores x), (forallb stores l).
Qed.

Theorem QNCMmIoWrite_status MmIoAddress Width (stores : Z -> bool) (I : list Z -> D -> Prop) pData d :
  (forall n l x d, I l d -> wp (Mmio_write n MmIoAddress x) (fun _ d1 => wp (Mmio_read n MmIoAddress) (fun v d2 => (v =? x) = stores x /\ I (l ++ [x]) d2) d1) d) ->
  I [] d -> Width <> QNCMmioWidthMaximum ->
  wp (QNCMmIoWrite MmIoAddress Width pData) (fun st d' => I pData d' /\ st = if forallb stores pData then EFI_SUCCESS else EFI_DEVICE_ERROR) d.
Proof.
  intros HI H0 HW. assert (HC : forall n, wp (mmio_checked n MmIoAddress pData EFI_SUCCESS)
    (fun st d' => I pData d' /\ st = if forallb stores pData then EFI_SUCCESS else EFI_DEVICE_ERROR) d).
  { intros n. by apply (wp_mmio_checked n MmIoAddress stores I pData []); [apply HI|]. }
  destruct Width; [apply HC|apply HC|apply HC|apply HC|done].
Qed.
End MmIo.

(** ** Lemmas *)

(** The fields that the unit decodes from a message are those it was made of. *)
Lemma MESSAGE_fields op P r :
  in_width 8 op -> in_width 8 P -> in_width 32 r ->
  Z.land (Z.shiftr (MESSAGE op P r) QNC_MCR_OP_OFFSET) 0xFF = op /\
  Z.land (Z.shiftr (MESSAGE op P r) QNC_MCR_PORT_OFFSET) 0xFF = P /\
  Z.land (Z.shiftr (MESSAGE op P r) QNC_MCR_REG_OFFSET) 0xFF = u8 r /\
  Z.land (Z.shiftr (MESSAGE op P r) 4) 0xF = 0xF.
Proof.
  intros Hop HP Hr. unfold MESSAGE, QNC_MCR_OP_OFFSET, QNC_MCR_PORT_OFFSET, QNC_MCR_REG_OFFSET.
  change 0xFF0000 with (Z.shiftl (Z.ones 8) 16). change 0xFF00 with (Z.shiftl (Z.ones 8) 8).
  change 0xFF with (Z.shiftl (Z.ones 8) 0). change 0xF0 with (Z.shiftl (Z.ones 4) 4).
  change 0xF with (Z.shiftl (Z.ones 4) 0).
  split_and!; bits i Hi; bit_cases.
Qed.

(** MEA and the register byte of the message make up the register address. *)
Lemma address_split r : in_width 32 r -> Z.lor (Z.land (Z.land r 0xFFFFFF00) 0xFFFFFF00) (u8 r) = r.
Proof.
  intros Hr. change 0xFFFFFF00 with (Z.shiftl (Z.ones 24) 8). bits i Hi.
  destruct (Z.testbit r i) eqn:E; bit_cases. by rewrite (in_width_bit 32) in E by (done || lia).
Qed.

(** The four registers of an isolated memory region have different addresses. *)
Lemma u32_offset_inj b i j :
  0 <= i < 2 ^ 32 -> 0 <= j < 2 ^ 32 -> u32 (b + i) = u32 (b + j) -> i = j.
Proof.
  unfold wrap. intros Hi Hj He.
  apply (f_equal (fun v => (v - b) mod 2 ^ 32)) in He.
  rewrite !Zminus_mod_idemp_l in He. rewrite !(Z.add_comm b), !Z.add_simpl_r in He.
  by rewrite !Z.mod_small in He by done.
Qed.

Section AccessLemmas.
Context {MB : MessageBus}.
Implicit Types s : msgbus.

(** Every opcode the library uses. *)
Definition read_opcode (sp : space) : Z :=
  match sp with
  | SpReg => QUARK_OPCODE_READ | SpAlt => QUARK_ALT_OPCODE_READ | SpIo => QUARK_OPCODE_IO_READ
  end.
Definition write_opcode (sp : space) : Z :=
  match sp with
  | SpReg => QUARK_OPCODE_WRITE | SpAlt => QUARK_ALT_OPCODE_WRITE | SpIo => QUARK_OPCODE_IO_WRITE
  end.

Lemma write_MCR_read sp P r s :
  in_width 8 P -> in_width 32 r -> s.(MEA) = Z.land r 0xFFFFFF00 ->
  write_MCR (MESSAGE (read_opcode sp) P r) s = Some (tt, set_MDR (s.(regs) (sp, P, r)) s).
Proof.
  intros HP Hr Hm. unfold write_MCR. rewrite Hm.
  destruct (MESSAGE_fields (read_opcode sp) P r) as (-> & -> & -> & ->);
    [by destruct sp|done|done|].
  rewrite address_split by done. by destruct sp.
Qed.

Lemma write_MCR_write sp P r s :
  in_width 8 P -> in_width 32 r -> s.(MEA) = Z.land r 0xFFFFFF00 ->
  write_MCR (MESSAGE (write_opcode sp) P r) s = Some (tt, store (sp, P, r) s.(MDR) s).
Proof.
  intros HP Hr Hm. unfold write_MCR. rewrite Hm.
  destruct (MESSAGE_fields (write_opcode sp) P r) as (-> & -> & -> & ->);
    [by destruct sp|done|done|].
  rewrite address_split by done. by destruct sp.
Qed.

(** The library's read and write of a register of space [sp]. *)
Definition port_read (sp : space) : Z -> Z -> M msgbus Z :=
  match sp with SpReg => QNCPortRead | SpAlt => QNCAltPortRead | SpIo => QNCPortIORead end.
Definition port_write (sp : space) : Z -> Z -> Z -> M msgbus unit :=
  match sp with SpReg => QNCPortWrite | SpAlt => QNCAltPortWrite | SpIo => QNCPortIOWrite end.

Lemma port_read_eq sp P r s :
  in_width 8 P -> in_width 32 r ->
  port_read sp P r s =
  Some (s.(regs) (sp, P, r),
        set_MDR (s.(regs) (sp, P, r)) (set_MEA (Z.land r 0xFFFFFF00) s)).
Proof.
  intros HP Hr.
  pose proof (write_MCR_read sp P r (set_MEA (Z.land r 0xFFFFFF00) s) HP Hr eq_refl) as E.
  destruct sp; unfold port_read, QNCPortRead, QNCAltPortRead, QNCPortIORead, mbind, M_bind, modify,
    MESSAGE_READ_DW, ALT_MESSAGE_READ_DW, MESSAGE_IO_READ_DW; cbn [read_opcode] in E; rewrite E; done.
Qed.

Lemma port_write_eq sp P r v s :
  in_width 8 P -> in_width 32 r ->
  port_write sp P r v s =
  Some (tt, store (sp, P, r) v (set_MEA (Z.land r 0xFFFFFF00) (set_MDR v s))).
Proof.
  intros HP Hr.
  pose proof (write_MCR_write sp P r (set_MEA (Z.land r 0xFFFFFF00) (set_MDR v s)) HP Hr eq_refl)
    as E.
  destruct sp; unfold port_write, QNCPortWrite, QNCAltPortWrite, QNCPortIOWrite, mbind, M_bind,
    modify, MESSAGE_WRITE_DW, ALT_MESSAGE_WRITE_DW, MESSAGE_IO_WRITE_DW; cbn [write_opcode] in E;
    rewrite E; done.
Qed.

Lemma wp_port_read sp P r (Q : Z -> msgbus -> Prop) s :
  in_width 8 P -> in_width 32 r ->
  (forall s', s'.(regs) = s.(regs) -> s'.(writes) = s.(writes) -> s'.(DeviceId) = s.(DeviceId) ->
     Q (s.(regs) (sp, P, r)) s') ->
  wp (port_read sp P r) Q s.
Proof. intros HP Hr HQ. eexists _, _. split; [by apply port_read_eq|]. by apply HQ. Qed.

Lemma wp_port_write sp P r v (Q : unit -> msgbus -> Prop) s :
  in_width 8 P -> in_width 32 r ->
  (forall s', s'.(regs) = <[(sp, P, r) := sb_store (sp, P, r) (s.(regs) (sp, P, r)) v]> s.(regs) ->
     s'.(writes) = s.(writes) ++ [((sp, P, r), v)] -> s'.(DeviceId) = s.(DeviceId) -> Q tt s') ->
  wp (port_write sp P r v) Q s.
Proof. intros HP Hr HQ. eexists _, _. split; [by apply port_write_eq|]. by apply HQ. Qed.
End AccessLemmas.

(** ** What the writers promise *)

Section Promises.
Context {MB : MessageBus}.
Implicit Types s : msgbus.

(** The registers after a sequence of writes. *)
Definition replay (m : sbreg -> Z) (ws : list (sbreg * Z)) : sbreg -> Z :=
  foldl (fun m w => <[w.1 := sb_store w.1 (m w.1) w.2]> m) m ws.

(** Register [k] of the isolated memory region at [base]. *)
Definition imr (base k : Z) : sbreg := (SpReg, QUARK_NC_MEMORY_MANAGER_SB_PORT_ID, u32 (base + k)).

Lemma imr_inj base k j :
  0 <= k < 2 ^ 32 -> 0 <= j < 2 ^ 32 -> imr base k = imr base j -> k = j.
Proof. unfold imr. intros Hk Hj [= He]. by eapply u32_offset_inj. Qed.

(** The configuration of a region: its two address registers and its two access masks. *)
Record imr_conf := { ImrL : Z; ImrH : Z; ImrRM : Z; ImrWM : Z }.

Definition imr_at (base : Z) (m : sbreg -> Z) : imr_conf :=
  {| ImrL := m (imr base QUARK_NC_MEMORY_MANAGER_IMRXL);
     ImrH := m (imr base QUARK_NC_MEMORY_MANAGER_IMRXH);
     ImrRM := m (imr base QUARK_NC_MEMORY_MANAGER_IMRXRM);
     ImrWM := m (imr base QUARK_NC_MEMORY_MANAGER_IMRXWM) |}.

Lemma imr_at_eq base m :
  imr_at base m =
  {| ImrL := m (imr base 0); ImrH := m (imr base 1); ImrRM := m (imr base 2);
     ImrWM := m (imr base 3) |}.
Proof. reflexivity. Qed.

(** No access is refused: on the second silicon variant the region has an enable bit, on the
    first one only the masks can let everything through. *)
Definition protection_off (is2 : bool) (c : imr_conf) : Prop :=
  if is2 then Z.land c.(ImrL) IMR_EN = 0
  else c.(ImrRM) = IMRX_ALL_ACCESS /\ c.(ImrWM) = IMRX_ALL_ACCESS.

(** [c] protects what [d] protects, possibly letting more accesses through. *)
Definition relaxes (c d : imr_conf) : Prop :=
  c.(ImrL) = d.(ImrL) /\ c.(ImrH) = d.(ImrH) /\
  (c.(ImrRM) = d.(ImrRM) \/ c.(ImrRM) = IMRX_ALL_ACCESS) /\
  (c.(ImrWM) = d.(ImrWM) \/ c.(ImrWM) = IMRX_ALL_ACCESS).

Definition imr_safe (is2 : bool) (old new c : imr_conf) : Prop :=
  relaxes c old \/ relaxes c new \/ protection_off is2 c.
End Promises.

Lemma land_clear x m : Z.land (clear x m) m = 0.
Proof. bits i Hi. by destruct (Z.testbit x i), (Z.testbit m i). Qed.

(** The prefixes of a list, for statements about every moment of a sequence of writes. *)
Lemma prefix_cons_cases {A} (p : list A) x l :
  p `prefix_of` x :: l -> p = [] \/ exists q, p = x :: q /\ q `prefix_of` l.
Proof.
  destruct p as [|y p]; [by left|]. intros Hp. right. exists p.
  split; [f_equal; by eapply prefix_cons_inv_1|by eapply prefix_cons_inv_2].
Qed.

Lemma in_width_u32 x : in_width 32 (u32 x).
Proof. by apply wrap_in_width. Qed.
#[export] Hint Resolve in_width_u32 : fw.

Section AfterRules.
Context {MB : MessageBus}.
Implicit Types s : msgbus.

(** [s] is the state after the register writes [ws] from [s0]. *)
Definition after s0 (ws : list (sbreg * Z)) s : Prop :=
  s.(regs) = replay s0.(regs) ws /\ s.(writes) = s0.(writes) ++ ws /\ s.(DeviceId) = s0.(DeviceId).

Lemma after_nil s : after s [] s.
Proof. unfold after. by rewrite app_nil_r. Qed.

Lemma wp_after_read sp P r Q s0 ws s :
  in_width 8 P -> in_width 32 r -> after s0 ws s ->
  (forall s', after s0 ws s' -> Q (replay s0.(regs) ws (sp, P, r)) s') ->
  wp (port_read sp P r) Q s.
Proof.
  intros HP Hr (Hregs & Hw & Hd) HQ. apply wp_port_read; [done..|]. intros s' E1 E2 E3.
  rewrite Hregs. apply HQ. unfold after. by rewrite E1, E2, E3.
Qed.

Lemma wp_after_write sp P r v Q s0 ws s :
  in_width 8 P -> in_width 32 r -> after s0 ws s ->
  (forall s', after s0 (ws ++ [((sp, P, r), v)]) s' -> Q tt s') ->
  wp (port_write sp P r v) Q s.
Proof.
  intros HP Hr (Hregs & Hw & Hd) HQ. apply wp_port_write; [done..|]. intros s' E1 E2 E3.
  apply HQ. unfold after, replay. rewrite foldl_app, E1, E2, E3, Hregs, Hw, Hd.
  by rewrite app_assoc.
Qed.
End AfterRules.

(** Every prefix of a concrete list, each in a goal of its own. *)
Ltac all_prefixes Hp :=
  first
    [ apply prefix_nil_inv in Hp; subst
    | apply prefix_cons_cases in Hp as [-> | (? & -> & Hp)]; [|all_prefixes Hp] ].

Ltac fits := first [solve [auto with fw] | by vm_compute].

(** Step through one operation of a program that accesses registers whose port and address fit,
    keeping the writes performed so far. *)
Ltac port_step :=
  match goal with
  | |- wp (_ ≫= _) _ _ => apply wp_bind
  | |- wp (gets _) _ _ => apply wp_gets
  | |- wp (mret _) _ _ => apply wp_ret
  | |- wp (ASSERT _) _ _ => apply wp_assert
  | H : after ?s0 ?ws ?s |- wp (QNCPortRead _ _) _ ?s =>
      apply (wp_after_read SpReg _ _ _ s0 ws); [fits|fits|exact H|clear H; intros ? H]
  | H : after ?s0 ?ws ?s |- wp (QNCPortWrite _ _ _) _ ?s =>
      apply (wp_after_write SpReg _ _ _ _ s0 ws); [fits|fits|exact H|clear H; intros ? H]
  | H : after ?s0 ?ws ?s |- wp (QNCAltPortRead _ _) _ ?s =>
      apply (wp_after_read SpAlt _ _ _ s0 ws); [fits|fits|exact H|clear H; intros ? H]
  | H : after ?s0 ?ws ?s |- wp (QNCAltPortWrite _ _ _) _ ?s =>
      apply (wp_after_write SpAlt _ _ _ _ s0 ws); [fits|fits|exact H|clear H; intros ? H]
  end.

(** Values of registers after concrete writes to the registers of one region. *)
Ltac replay_simp :=
  unfold replay; cbn [foldl fst snd app];
  repeat first
    [ rewrite fn_lookup_insert
    | rewrite fn_lookup_insert_ne by (intros E; apply imr_inj in E; lia) ].

Section ImrRuns.
Context {MB : MessageBus}.

(** The writes that [QncImrWrite] performs. *)
Definition imr_writes (is2 : bool) (base L H RM WM old : Z) : list (sbreg * Z) :=
  if is2 then
    [(imr base 0, clear old IMR_EN); (imr base 2, RM); (imr base 3, WM); (imr base 1, H);
     (imr base 0, L)]
  else
    [(imr base 2, IMRX_ALL_ACCESS); (imr base 3, IMRX_ALL_ACCESS); (imr base 0, clear L IMR_EN);
     (imr base 1, H); (imr base 2, RM); (imr base 3, WM)].

Lemma QncImrWrite_run base L H RM WM s :
  (forall k v0 v, 0 <= k < 4 -> sb_store (imr base k) v0 v = v) ->
  wp (QncImrWrite base L H RM WM)
    (fun _ => after s (imr_writes (s.(DeviceId) =? QUARK2_MC_DEVICE_ID) base L H RM WM
                         (s.(regs) (imr base 0)))) s.
Proof.
  intros Hst. pose proof (after_nil s) as Ha. unfold QncImrWrite.
  do 2 port_step. destruct (DeviceId s =? QUARK2_MC_DEVICE_ID);
    repeat port_step; cbn [app] in *; [| |exact Ha|exact Ha].
  - change ((Z.land (replay (regs s) [(imr base 0, clear (regs s (imr base 0)) IMR_EN)]
      (imr base 0)) IMR_EN =? 0) = true). replay_simp. rewrite Hst by lia. by rewrite land_clear.
  - change ((Z.land (replay (regs s) (imr_writes true base L H RM WM (regs s (imr base 0)))
      (imr base 0)) IMR_EN =? Z.land L IMR_EN) = true).
    unfold imr_writes. replay_simp. rewrite Hst by lia. by apply Z.eqb_eq.
Qed.

Lemma QncHsmmcWrite_run v s :
  let HSMMC : sbreg := (SpReg, QUARK_NC_HOST_BRIDGE_SB_PORT_ID, QNC_MSG_FSBIC_REG_HSMMC) in
  (forall v0 v, sb_store HSMMC v0 v = v) ->
  wp (QncHsmmcWrite v)
    (fun _ => after s
       (if s.(DeviceId) =? QUARK2_MC_DEVICE_ID then
          [(HSMMC, clear (s.(regs) HSMMC) SMM_CTL_EN); (HSMMC, Z.lor v SMM_CTL_EN)]
        else [(HSMMC, v)])) s.
Proof.
  intros HSMMC Hst. pose proof (after_nil s) as Ha. unfold QncHsmmcWrite, QncHsmmcRead.
  do 2 port_step. destruct (DeviceId s =? QUARK2_MC_DEVICE_ID); repeat port_step;
    cbn [app] in *; [| |exact Ha|exact Ha].
  - unfold replay. cbn [foldl fst snd]. rewrite fn_lookup_insert, Hst. by rewrite land_clear.
  - unfold replay. cbn [foldl fst snd]. rewrite fn_lookup_insert, Hst.
    apply negb_true_iff, Z.eqb_neq. intros He. apply (f_equal (fun x => Z.testbit x 3)) in He.
    rewrite Z.land_spec, Z.lor_spec, Z.testbit_0_l in He.
    change (Z.testbit SMM_CTL_EN 3) with true in He. by rewrite orb_true_r in He.
Qed.
End ImrRuns.

(** ** Properties *)

(** in each of the three register spaces, reading back a register just written gives what its
    unit stored of the value, and every other register of every space reads as before: the
    message's fields address exactly the register meant. *)
Theorem port_write_then_read {MB : MessageBus} (sp sp' : space) (P P' r r' v : Z) (s : msgbus) :
  in_width 8 P -> in_width 8 P' -> in_width 32 r -> in_width 32 r' ->
  exists s1 s2,
    port_write sp P r v s = Some (tt, s1) /\
    port_read sp' P' r' s1 =
      Some (if decide ((sp', P', r') = (sp, P, r)) then sb_store (sp, P, r) (s.(regs) (sp, P, r)) v
            else s.(regs) (sp', P', r'), s2) /\
    s2.(regs) = s1.(regs) /\ s1.(writes) = s.(writes) ++ [((sp, P, r), v)] /\
    s2.(writes) = s1.(writes).
Proof.
  intros HP HP' Hr Hr'. rewrite port_write_eq by done.
  eexists _, (set_MDR _ (set_MEA (Z.land r' 0xFFFFFF00) _)). split; [done|].
  rewrite port_read_eq by done. split; [|done]. f_equal. f_equal; cycle 1.
  destruct (decide _) as [He|He].
  - rewrite He. apply fn_lookup_insert.
  - by apply fn_lookup_insert_ne.
Qed.

(** [QncImrWrite] programs the region it is given, and at no moment between its writes does
    the region refuse accesses under a mixture of the old and the new address range: each
    intermediate configuration relaxes the old one, relaxes the new one, or lets everything
    through. No other register changes. On the first silicon variant the enable bit of the low
    address register is written as zero. *)
Theorem QncImrWrite_ordering {MB : MessageBus} (base L H RM WM : Z) (s : msgbus) :
  (forall k v0 v, 0 <= k < 4 -> sb_store (imr base k) v0 v = v) ->
  let is2 := s.(DeviceId) =? QUARK2_MC_DEVICE_ID in
  let new := {| ImrL := if is2 then L else clear L IMR_EN; ImrH := H; ImrRM := RM; ImrWM := WM |} in
  exists s' ws,
    QncImrWrite base L H RM WM s = Some (tt, s') /\
    s'.(writes) = s.(writes) ++ ws /\ s'.(regs) = replay s.(regs) ws /\
    imr_at base s'.(regs) = new /\
    (forall q, (forall k, 0 <= k < 4 -> q <> imr base k) -> s'.(regs) q = s.(regs) q) /\
    (forall p, p `prefix_of` ws ->
       imr_safe is2 (imr_at base s.(regs)) new (imr_at base (replay s.(regs) p))).
Proof.
  intros Hst is2 new.
  destruct (QncImrWrite_run base L H RM WM s Hst) as ([] & s' & Hrun & Hregs & Hw & _).
  exists s', (imr_writes is2 base L H RM WM (s.(regs) (imr base 0))).
  split_and!; [done|done|done| | |].
  - rewrite Hregs. rewrite imr_at_eq. unfold new, is2, imr_writes.
    destruct (_ =? _); replay_simp; by rewrite ?Hst by lia.
  - intros q Hq. rewrite Hregs. unfold imr_writes. 
    destruct (_ =? _); unfold replay; cbn [foldl fst snd];
      by rewrite !fn_lookup_insert_ne by (apply not_eq_sym, Hq; lia).
  - intros p Hp. unfold new. clearbody is2. clear new Hrun Hregs Hw.
    unfold imr_writes in Hp. destruct is2; all_prefixes Hp;
      unfold imr_safe, relaxes, protection_off; rewrite !imr_at_eq; cbn [ImrL ImrH ImrRM ImrWM];
      replay_simp; rewrite ?Hst by lia;
      first [left; by split_and!; auto | right; left; by split_and!; auto
            | right; right; apply land_clear | right; right; by split].
Qed.

(** A bus whose registers keep what is written to them. *)
Definition PlainBus : MessageBus := {| sb_store := fun _ _ v => v |}.
#[local] Existing Instance PlainBus.

Definition idle_bus (id : Z) : msgbus :=
  {| MDR := 0; MEA := 0; DeviceId := id; regs := fun _ => 0; writes := [] |}.

Lemma port_write_then_read_witness :
  in_width 8 3 /\ in_width 32 0x104 /\
  exists s1 s2,
    port_write SpReg 3 0x104 7 (idle_bus 0) = Some (tt, s1) /\
    port_read SpReg 3 0x104 s1 = Some (7, s2) /\
    s2.(regs) = s1.(regs) /\ s1.(writes) = [((SpReg, 3, 0x104), 7)] /\ s2.(writes) = s1.(writes).
Proof.
  split; [by vm_compute|]. split; [by vm_compute|].
  destruct (port_write_then_read SpReg SpReg 3 3 0x104 0x104 7 (idle_bus 0))
    as (s1 & s2 & Hw & Hr & Hrest); [by vm_compute..|].
  rewrite decide_True in Hr by reflexivity. exists s1, s2. split; [exact Hw|]. split; [exact Hr|exact Hrest].
Defined.

Lemma QncImrWrite_ordering_witness :
  let new := {| ImrL := Z.lor IMR_EN 0x1000; ImrH := 0x2000; ImrRM := 1; ImrWM := 2 |} in
  exists s' ws,
    QncImrWrite 0x40 (Z.lor IMR_EN 0x1000) 0x2000 1 2 (idle_bus QUARK2_MC_DEVICE_ID) =
      Some (tt, s') /\
    s'.(writes) = ws /\ s'.(regs) = replay (fun _ => 0) ws /\ imr_at 0x40 s'.(regs) = new /\
    (forall q, (forall k, 0 <= k < 4 -> q <> imr 0x40 k) -> s'.(regs) q = 0) /\
    (forall p, p `prefix_of` ws ->
       imr_safe true (imr_at 0x40 (fun _ => 0)) new (imr_at 0x40 (replay (fun _ => 0) p))).
Proof.
  apply (QncImrWrite_ordering 0x40 (Z.lor IMR_EN 0x1000) 0x2000 1 2 (idle_bus QUARK2_MC_DEVICE_ID)).
  reflexivity.
Defined.

(** [QncHsmmcWrite] leaves the value it is given in the HSMMC register; on the second silicon
    variant it first clears the control-enable bit, keeping the other bits, and sets that bit in
    the final value, so that the register is never rewritten while it is enabled. Nothing else
    changes, and the checks that it makes on the way hold. *)
Theorem QncHsmmcWrite_protocol {MB : MessageBus} (v : Z) (s : msgbus) :
  let HSMMC : sbreg := (SpReg, QUARK_NC_HOST_BRIDGE_SB_PORT_ID, QNC_MSG_FSBIC_REG_HSMMC) in
  (forall v0 v, sb_store HSMMC v0 v = v) ->
  exists s',
    QncHsmmcWrite v s = Some (tt, s') /\
    if s.(DeviceId) =? QUARK2_MC_DEVICE_ID then
      after s [(HSMMC, clear (s.(regs) HSMMC) SMM_CTL_EN); (HSMMC, Z.lor v SMM_CTL_EN)] s' /\
      s'.(regs) HSMMC = Z.lor v SMM_CTL_EN
    else after s [(HSMMC, v)] s' /\ s'.(regs) HSMMC = v.
Proof.
  intros HSMMC Hst. destruct (QncHsmmcWrite_run v s Hst) as ([] & s' & Hrun & Ha).
  exists s'. split; [done|]. destruct (_ =? _); (split; [exact Ha|]); destruct Ha as [-> _];
    unfold replay; cbn [foldl fst snd]; by rewrite fn_lookup_insert, Hst.
Qed.

Lemma QncHsmmcWrite_protocol_witness :
  let HSMMC : sbreg := (SpReg, QUARK_NC_HOST_BRIDGE_SB_PORT_ID, QNC_MSG_FSBIC_REG_HSMMC) in
  let s := idle_bus QUARK2_MC_DEVICE_ID in
  exists s', QncHsmmcWrite 6 s = Some (tt, s') /\
    after s [(HSMMC, clear (s.(regs) HSMMC) SMM_CTL_EN); (HSMMC, Z.lor 6 SMM_CTL_EN)] s' /\
    s'.(regs) HSMMC = Z.lor 6 SMM_CTL_EN.
Proof. apply (QncHsmmcWrite_protocol 6 (idle_bus QUARK2_MC_DEVICE_ID)). reflexivity. Defined.
