(* ===== verification/MtrrDefs.v ===== *)
(** * What the MTRR code takes from headers outside the repository

    The constants of [Library/MtrrLib.h] (and [MtrrLib.h]), which [QuarkMsr.c] and [MtrrLib.c]
    include and the repository does not contain. They are the fields of [MtrrHeader]; the values
    that the Intel architecture documents for them are the laws of [MtrrHeaderOk]. *)

From S2P Require Import Prelude.

(** [MTRR_MEMORY_CACHE_TYPE]: the memory types by their architectural encoding. *)
Abbreviation MTRR_MEMORY_CACHE_TYPE := Z (only parsing).

Class MtrrHeader := {
  MTRR_LIB_IA32_MTRR_CAP : Z;
  MTRR_LIB_IA32_MTRR_CAP_VCNT_MASK : Z;
  MTRR_LIB_IA32_MTRR_DEF_TYPE : Z;
  MTRR_LIB_IA32_MTRR_FIX64K_00000 : Z;
  MTRR_LIB_IA32_MTRR_FIX16K_80000 : Z;
  MTRR_LIB_IA32_MTRR_FIX16K_A0000 : Z;
  MTRR_LIB_IA32_MTRR_FIX4K_C0000 : Z;
  MTRR_LIB_IA32_MTRR_FIX4K_C8000 : Z;
  MTRR_LIB_IA32_MTRR_FIX4K_D0000 : Z;
  MTRR_LIB_IA32_MTRR_FIX4K_D8000 : Z;
  MTRR_LIB_IA32_MTRR_FIX4K_E0000 : Z;
  MTRR_LIB_IA32_MTRR_FIX4K_E8000 : Z;
  MTRR_LIB_IA32_MTRR_FIX4K_F0000 : Z;
  MTRR_LIB_IA32_MTRR_FIX4K_F8000 : Z;
  MTRR_LIB_IA32_VARIABLE_MTRR_BASE : Z;
  MTRR_LIB_CACHE_MTRR_ENABLED : Z;
  MTRR_LIB_CACHE_FIXED_MTRR_ENABLED : Z;
  MTRR_LIB_CACHE_VALID_ADDRESS : Z;
  MTRR_NUMBER_OF_VARIABLE_MTRR : Z;
  MTRR_NUMBER_OF_FIXED_MTRR : Z;
  RESERVED_FIRMWARE_VARIABLE_MTRR_NUMBER : Z;
  MTRR_CACHE_UNCACHEABLE : Z;
  MTRR_CACHE_WRITE_COMBINING : Z;
  MTRR_CACHE_WRITE_THROUGH : Z;
  MTRR_CACHE_WRITE_PROTECTED : Z;
  MTRR_CACHE_WRITE_BACK : Z;
  MTRR_CACHE_INVALID_TYPE : Z;
  CacheUncacheable : MTRR_MEMORY_CACHE_TYPE;
  CacheWriteCombining : MTRR_MEMORY_CACHE_TYPE;
  CacheWriteThrough : MTRR_MEMORY_CACHE_TYPE;
  CacheWriteProtected : MTRR_MEMORY_CACHE_TYPE;
  CacheWriteBack : MTRR_MEMORY_CACHE_TYPE
}.

(** The documented values: register numbers, bits and memory types of the architecture, and the
    number of each kind of register. Of the library's own limits only bounds are used. *)
Class MtrrHeaderOk `{MtrrHeader} : Prop := {
  CAP_val : MTRR_LIB_IA32_MTRR_CAP = 0xFE;
  VCNT_MASK_val : MTRR_LIB_IA32_MTRR_CAP_VCNT_MASK = 0xFF;
  DEF_TYPE_val : MTRR_LIB_IA32_MTRR_DEF_TYPE = 0x2FF;
  FIX64K_00000_val : MTRR_LIB_IA32_MTRR_FIX64K_00000 = 0x250;
  FIX16K_80000_val : MTRR_LIB_IA32_MTRR_FIX16K_80000 = 0x258;
  FIX16K_A0000_val : MTRR_LIB_IA32_MTRR_FIX16K_A0000 = 0x259;
  FIX4K_C0000_val : MTRR_LIB_IA32_MTRR_FIX4K_C0000 = 0x268;
  FIX4K_C8000_val : MTRR_LIB_IA32_MTRR_FIX4K_C8000 = 0x269;
  FIX4K_D0000_val : MTRR_LIB_IA32_MTRR_FIX4K_D0000 = 0x26A;
  FIX4K_D8000_val : MTRR_LIB_IA32_MTRR_FIX4K_D8000 = 0x26B;
  FIX4K_E0000_val : MTRR_LIB_IA32_MTRR_FIX4K_E0000 = 0x26C;
  FIX4K_E8000_val : MTRR_LIB_IA32_MTRR_FIX4K_E8000 = 0x26D;
  FIX4K_F0000_val : MTRR_LIB_IA32_MTRR_FIX4K_F0000 = 0x26E;
  FIX4K_F8000_val : MTRR_LIB_IA32_MTRR_FIX4K_F8000 = 0x26F;
  VARIABLE_BASE_val : MTRR_LIB_IA32_VARIABLE_MTRR_BASE = 0x200;
  ENABLED_val : MTRR_LIB_CACHE_MTRR_ENABLED = 0x800;
  FIXED_ENABLED_val : MTRR_LIB_CACHE_FIXED_MTRR_ENABLED = 0x400;
  NUMBER_VARIABLE_val : 8 <= MTRR_NUMBER_OF_VARIABLE_MTRR < 2 ^ 16;
  NUMBER_FIXED_val : MTRR_NUMBER_OF_FIXED_MTRR = 11;
  RESERVED_val : 0 <= RESERVED_FIRMWARE_VARIABLE_MTRR_NUMBER <= 8;
  UNCACHEABLE_val : MTRR_CACHE_UNCACHEABLE = 0;
  WRITE_COMBINING_val : MTRR_CACHE_WRITE_COMBINING = 1;
  WRITE_THROUGH_val : MTRR_CACHE_WRITE_THROUGH = 4;
  WRITE_PROTECTED_val : MTRR_CACHE_WRITE_PROTECTED = 5;
  WRITE_BACK_val : MTRR_CACHE_WRITE_BACK = 6;
  INVALID_TYPE_val : MTRR_CACHE_INVALID_TYPE = 7;
  CacheUncacheable_val : CacheUncacheable = 0;
  CacheWriteCombining_val : CacheWriteCombining = 1;
  CacheWriteThrough_val : CacheWriteThrough = 4;
  CacheWriteProtected_val : CacheWriteProtected = 5;
  CacheWriteBack_val : CacheWriteBack = 6
}.

(** The header as EDK II declares it, for concrete runs. *)
Module Edk2Header.
#[export] Instance header : MtrrHeader := {|
  MTRR_LIB_IA32_MTRR_CAP := 0xFE;
  MTRR_LIB_IA32_MTRR_CAP_VCNT_MASK := 0xFF;
  MTRR_LIB_IA32_MTRR_DEF_TYPE := 0x2FF;
  MTRR_LIB_IA32_MTRR_FIX64K_00000 := 0x250;
  MTRR_LIB_IA32_MTRR_FIX16K_80000 := 0x258;
  MTRR_LIB_IA32_MTRR_FIX16K_A0000 := 0x259;
  MTRR_LIB_IA32_MTRR_FIX4K_C0000 := 0x268;
  MTRR_LIB_IA32_MTRR_FIX4K_C8000 := 0x269;
  MTRR_LIB_IA32_MTRR_FIX4K_D0000 := 0x26A;
  MTRR_LIB_IA32_MTRR_FIX4K_D8000 := 0x26B;
  MTRR_LIB_IA32_MTRR_FIX4K_E0000 := 0x26C;
  MTRR_LIB_IA32_MTRR_FIX4K_E8000 := 0x26D;
  MTRR_LIB_IA32_MTRR_FIX4K_F0000 := 0x26E;
  MTRR_LIB_IA32_MTRR_FIX4K_F8000 := 0x26F;
  MTRR_LIB_IA32_VARIABLE_MTRR_BASE := 0x200;
  MTRR_LIB_CACHE_MTRR_ENABLED := 0x800;
  MTRR_LIB_CACHE_FIXED_MTRR_ENABLED := 0x400;
  MTRR_LIB_CACHE_VALID_ADDRESS := 0xFFFFFF000;
  MTRR_NUMBER_OF_VARIABLE_MTRR := 32;
  MTRR_NUMBER_OF_FIXED_MTRR := 11;
  RESERVED_FIRMWARE_VARIABLE_MTRR_NUMBER := 2;
  MTRR_CACHE_UNCACHEABLE := 0;
  MTRR_CACHE_WRITE_COMBINING := 1;
  MTRR_CACHE_WRITE_THROUGH := 4;
  MTRR_CACHE_WRITE_PROTECTED := 5;
  MTRR_CACHE_WRITE_BACK := 6;
  MTRR_CACHE_INVALID_TYPE := 7;
  CacheUncacheable := 0;
  CacheWriteCombining := 1;
  CacheWriteThrough := 4;
  CacheWriteProtected := 5;
  CacheWriteBack := 6
|}.

#[export] Instance header_ok : MtrrHeaderOk.
Proof. split; by vm_compute. Qed.
End Edk2Header.
