(* ===== verification/QuarkMsr.v ===== *)
(** * Model-specific registers of the Quark processor

    Models [QuarkSocPkg/Override/MdePkg/Library/BaseLib]: [QuarkMsr.c], [QuarkMsr.h],
    [ReadMsr64.c], [WriteMsr64.c] and the access stubs of [Ia32/MsrUtils.S]. Quark has no MTRR
    model-specific registers: accesses to their numbers go over the message bus to registers of
    the host bridge, the others use [rdmsr] and [wrmsr]. *)

From S2P Require Import Prelude QNCAccess MtrrDefs.
From stdpp Require Import functions.
#[local] Open Scope Z_scope.

(** The state that a processor sees: the message bus and its own model-specific registers. *)
Record cpu := { bus : msgbus; real_msr : Z -> Z }.

Definition set_bus (b : msgbus) (c : cpu) : cpu := {| bus := b; real_msr := c.(real_msr) |}.
Definition set_real_msr (f : Z -> Z) (c : cpu) : cpu := {| bus := c.(bus); real_msr := f |}.

(** A computation on the bus, run by the processor. *)
Definition on_bus {A} (m : M msgbus A) : M cpu A := fun c =>
  match m c.(bus) with Some (a, b) => Some (a, set_bus b c) | None => None end.

(** ** Host bridge registers ([QuarkNcSocId.h]) and register numbers ([QuarkMsr.h]) *)
Definition QUARK_NC_HOST_BRIDGE_IA32_MTRR_CAP : Z := 0x40.
Definition QUARK_NC_HOST_BRIDGE_IA32_MTRR_DEF_TYPE : Z := 0x41.
Definition QUARK_NC_HOST_BRIDGE_MTRR_FIX64K_00000 : Z := 0x42.
Definition QUARK_NC_HOST_BRIDGE_MTRR_FIX16K_80000 : Z := 0x44.
Definition QUARK_NC_HOST_BRIDGE_MTRR_FIX16K_A0000 : Z := 0x46.
Definition QUARK_NC_HOST_BRIDGE_MTRR_FIX4K_C0000 : Z := 0x48.
Definition QUARK_NC_HOST_BRIDGE_MTRR_FIX4K_C8000 : Z := 0x4A.
Definition QUARK_NC_HOST_BRIDGE_MTRR_FIX4K_D0000 : Z := 0x4C.
Definition QUARK_NC_HOST_BRIDGE_MTRR_FIX4K_D8000 : Z := 0x4E.
Definition QUARK_NC_HOST_BRIDGE_MTRR_FIX4K_E0000 : Z := 0x50.
Definition QUARK_NC_HOST_BRIDGE_MTRR_FIX4K_E8000 : Z := 0x52.
Definition QUARK_NC_HOST_BRIDGE_MTRR_FIX4K_F0000 : Z := 0x54.
Definition QUARK_NC_HOST_BRIDGE_MTRR_FIX4K_F8000 : Z := 0x56.
Definition QUARK_NC_HOST_BRIDGE_IA32_MTRR_SMRR_PHYSBASE : Z := 0x58.
Definition QUARK_NC_HOST_BRIDGE_IA32_MTRR_SMRR_PHYSMASK : Z := 0x59.
Definition QUARK_NC_HOST_BRIDGE_IA32_MTRR_PHYSBASE0 : Z := 0x5A.
Definition QUARK_NC_HOST_BRIDGE_IA32_MTRR_PHYSMASK0 : Z := 0x5B.
Definition QUARK_NC_HOST_BRIDGE_IA32_MTRR_PHYSBASE1 : Z := 0x5C.
Definition QUARK_NC_HOST_BRIDGE_IA32_MTRR_PHYSMASK1 : Z := 0x5D.
Definition QUARK_NC_HOST_BRIDGE_IA32_MTRR_PHYSBASE2 : Z := 0x5E.
Definition QUARK_NC_HOST_BRIDGE_IA32_MTRR_PHYSMASK2 : Z := 0x5F.
Definition QUARK_NC_HOST_BRIDGE_IA32_MTRR_PHYSBASE3 : Z := 0x60.
Definition QUARK_NC_HOST_BRIDGE_IA32_MTRR_PHYSMASK3 : Z := 0x61.
Definition QUARK_NC_HOST_BRIDGE_IA32_MTRR_PHYSBASE4 : Z := 0x62.
Definition QUARK_NC_HOST_BRIDGE_IA32_MTRR_PHYSMASK4 : Z := 0x63.
Definition QUARK_NC_HOST_BRIDGE_IA32_MTRR_PHYSBASE5 : Z := 0x64.
Definition QUARK_NC_HOST_BRIDGE_IA32_MTRR_PHYSMASK5 : Z := 0x65.
Definition QUARK_NC_HOST_BRIDGE_IA32_MTRR_PHYSBASE6 : Z := 0x66.
Definition QUARK_NC_HOST_BRIDGE_IA32_MTRR_PHYSMASK6 : Z := 0x67.
Definition QUARK_NC_HOST_BRIDGE_IA32_MTRR_PHYSBASE7 : Z := 0x68.
Definition QUARK_NC_HOST_BRIDGE_IA32_MTRR_PHYSMASK7 : Z := 0x69.
Definition EFI_MSR_IA32_APIC_BASE : Z := 0x1B.
Definition EFI_MSR_PENTIUM_SMRR_PHYS_BASE : Z := 0xA0.
Definition EFI_MSR_PENTIUM_SMRR_PHYS_MASK : Z := 0xA1.
Definition MTRR_LIB_IA32_MTRR_PHYSBASE0 : Z := 0x200.
Definition MTRR_LIB_IA32_MTRR_PHYSMASK0 : Z := 0x201.
Definition MTRR_LIB_IA32_MTRR_PHYSBASE1 : Z := 0x202.
Definition MTRR_LIB_IA32_MTRR_PHYSMASK1 : Z := 0x203.
Definition MTRR_LIB_IA32_MTRR_PHYSBASE2 : Z := 0x204.
Definition MTRR_LIB_IA32_MTRR_PHYSMASK2 : Z := 0x205.
Definition MTRR_LIB_IA32_MTRR_PHYSBASE3 : Z := 0x206.
Definition MTRR_LIB_IA32_MTRR_PHYSMASK3 : Z := 0x207.
Definition MTRR_LIB_IA32_MTRR_PHYSBASE4 : Z := 0x208.
Definition MTRR_LIB_IA32_MTRR_PHYSMASK4 : Z := 0x209.
Definition MTRR_LIB_IA32_MTRR_PHYSBASE5 : Z := 0x20A.
Definition MTRR_LIB_IA32_MTRR_PHYSMASK5 : Z := 0x20B.
Definition MTRR_LIB_IA32_MTRR_PHYSBASE6 : Z := 0x20C.
Definition MTRR_LIB_IA32_MTRR_PHYSMASK6 : Z := 0x20D.
Definition MTRR_LIB_IA32_MTRR_PHYSBASE7 : Z := 0x20E.
Definition MTRR_LIB_IA32_MTRR_PHYSMASK7 : Z := 0x20F.

Section Msr.
Context {MB : MessageBus} {MH : MtrrHeader}.

(** Each standard register number with its host bridge register; the last row ends the search. *)
Definition QuarkMtrrConversionTable : list (Z * Z) := [
  (MTRR_LIB_IA32_MTRR_CAP, QUARK_NC_HOST_BRIDGE_IA32_MTRR_CAP);
  (MTRR_LIB_IA32_MTRR_DEF_TYPE, QUARK_NC_HOST_BRIDGE_IA32_MTRR_DEF_TYPE);
  (MTRR_LIB_IA32_MTRR_FIX64K_00000, QUARK_NC_HOST_BRIDGE_MTRR_FIX64K_00000);
  (MTRR_LIB_IA32_MTRR_FIX16K_80000, QUARK_NC_HOST_BRIDGE_MTRR_FIX16K_80000);
  (MTRR_LIB_IA32_MTRR_FIX16K_A0000, QUARK_NC_HOST_BRIDGE_MTRR_FIX16K_A0000);
  (MTRR_LIB_IA32_MTRR_FIX4K_C0000, QUARK_NC_HOST_BRIDGE_MTRR_FIX4K_C0000);
  (MTRR_LIB_IA32_MTRR_FIX4K_C8000, QUARK_NC_HOST_BRIDGE_MTRR_FIX4K_C8000);
  (MTRR_LIB_IA32_MTRR_FIX4K_D0000, QUARK_NC_HOST_BRIDGE_MTRR_FIX4K_D0000);
  (MTRR_LIB_IA32_MTRR_FIX4K_D8000, QUARK_NC_HOST_BRIDGE_MTRR_FIX4K_D8000);
  (MTRR_LIB_IA32_MTRR_FIX4K_E0000, QUARK_NC_HOST_BRIDGE_MTRR_FIX4K_E0000);
  (MTRR_LIB_IA32_MTRR_FIX4K_E8000, QUARK_NC_HOST_BRIDGE_MTRR_FIX4K_E8000);
  (MTRR_LIB_IA32_MTRR_FIX4K_F0000, QUARK_NC_HOST_BRIDGE_MTRR_FIX4K_F0000);
  (MTRR_LIB_IA32_MTRR_FIX4K_F8000, QUARK_NC_HOST_BRIDGE_MTRR_FIX4K_F8000);
  (EFI_MSR_PENTIUM_SMRR_PHYS_BASE, QUARK_NC_HOST_BRIDGE_IA32_MTRR_SMRR_PHYSBASE);
  (EFI_MSR_PENTIUM_SMRR_PHYS_MASK, QUARK_NC_HOST_BRIDGE_IA32_MTRR_SMRR_PHYSMASK);
  (MTRR_LIB_IA32_MTRR_PHYSBASE0, QUARK_NC_HOST_BRIDGE_IA32_MTRR_PHYSBASE0);
  (MTRR_LIB_IA32_MTRR_PHYSMASK0, QUARK_NC_HOST_BRIDGE_IA32_MTRR_PHYSMASK0);
  (MTRR_LIB_IA32_MTRR_PHYSBASE1, QUARK_NC_HOST_BRIDGE_IA32_MTRR_PHYSBASE1);
  (MTRR_LIB_IA32_MTRR_PHYSMASK1, QUARK_NC_HOST_BRIDGE_IA32_MTRR_PHYSMASK1);
  (MTRR_LIB_IA32_MTRR_PHYSBASE2, QUARK_NC_HOST_BRIDGE_IA32_MTRR_PHYSBASE2);
  (MTRR_LIB_IA32_MTRR_PHYSMASK2, QUARK_NC_HOST_BRIDGE_IA32_MTRR_PHYSMASK2);
  (MTRR_LIB_IA32_MTRR_PHYSBASE3, QUARK_NC_HOST_BRIDGE_IA32_MTRR_PHYSBASE3);
  (MTRR_LIB_IA32_MTRR_PHYSMASK3, QUARK_NC_HOST_BRIDGE_IA32_MTRR_PHYSMASK3);
  (MTRR_LIB_IA32_MTRR_PHYSBASE4, QUARK_NC_HOST_BRIDGE_IA32_MTRR_PHYSBASE4);
  (MTRR_LIB_IA32_MTRR_PHYSMASK4, QUARK_NC_HOST_BRIDGE_IA32_MTRR_PHYSMASK4);
  (MTRR_LIB_IA32_MTRR_PHYSBASE5, QUARK_NC_HOST_BRIDGE_IA32_MTRR_PHYSBASE5);
  (MTRR_LIB_IA32_MTRR_PHYSMASK5, QUARK_NC_HOST_BRIDGE_IA32_MTRR_PHYSMASK5);
  (MTRR_LIB_IA32_MTRR_PHYSBASE6, QUARK_NC_HOST_BRIDGE_IA32_MTRR_PHYSBASE6);
  (MTRR_LIB_IA32_MTRR_PHYSMASK6, QUARK_NC_HOST_BRIDGE_IA32_MTRR_PHYSMASK6);
  (MTRR_LIB_IA32_MTRR_PHYSBASE7, QUARK_NC_HOST_BRIDGE_IA32_MTRR_PHYSBASE7);
  (MTRR_LIB_IA32_MTRR_PHYSMASK7, QUARK_NC_HOST_BRIDGE_IA32_MTRR_PHYSMASK7);
  (0xFFFFFFFF, 0xFF)
].

(** The [while] loop from one row of the table on. *)
Fixpoint TranslateMsrIndex_from (table : list (Z * Z)) (Index : Z) : Z :=
  match table with
  | [] => 0
  | (StandardMsr, QuarkMsr) :: table =>
      if StandardMsr =? 0xFFFFFFFF then 0
      else if Index =? StandardMsr then QuarkMsr
      else TranslateMsrIndex_from table Index
  end.

Definition TranslateMsrIndex (Index : Z) : Z := TranslateMsrIndex_from QuarkMtrrConversionTable Index.

(** The result in EDX:EAX. *)
Definition AsmReadMsrReturnResult (Index QuarkMsrDataLow QuarkMsrDataHigh : Z) : Z :=
  Z.lor (u32 QuarkMsrDataLow) (Z.shiftl (u32 QuarkMsrDataHigh) 32).

(** [rdmsr], except for the local APIC base, whose value is fixed. *)
Definition AsmReadMsrRealMsrAccess (Index : Z) : M cpu Z :=
  if Index =? EFI_MSR_IA32_APIC_BASE then mret 0xFEE00900
  else gets (fun c => u64 (c.(real_msr) Index)).

(** [wrmsr]; the result is what EDX:EAX were loaded with. *)
Definition AsmWriteMsrRealMsrAccess (Index QuarkMsrDataLow QuarkMsrDataHigh : Z) : M cpu Z :=
  let v := Z.lor (u32 QuarkMsrDataLow) (Z.shiftl (u32 QuarkMsrDataHigh) 32) in
  _ ← modify (fun c => set_real_msr (<[Index := v]> c.(real_msr)) c);
  mret v.

(** The two range tests that reads and writes make on the translated number. *)
Definition is_mtrr (QuarkMsrIndex : Z) : bool :=
  (QuarkMsrIndex >=? QUARK_NC_HOST_BRIDGE_IA32_MTRR_CAP) &&
  (QuarkMsrIndex <=? QUARK_NC_HOST_BRIDGE_IA32_MTRR_PHYSMASK7).
Definition is_fixed (QuarkMsrIndex : Z) : bool :=
  (QuarkMsrIndex >=? QUARK_NC_HOST_BRIDGE_MTRR_FIX64K_00000) &&
  (QuarkMsrIndex <=? QUARK_NC_HOST_BRIDGE_MTRR_FIX4K_F8000).

Definition AsmReadMsr64 (Index : Z) : M cpu Z :=
  let QuarkMsrIndex := TranslateMsrIndex Index in
  if is_mtrr QuarkMsrIndex then
    QuarkMsrDataLow ← on_bus (QNCPortRead QUARK_NC_HOST_BRIDGE_SB_PORT_ID QuarkMsrIndex);
    QuarkMsrDataHigh ←
      (if is_fixed QuarkMsrIndex then
         on_bus (QNCPortRead QUARK_NC_HOST_BRIDGE_SB_PORT_ID (u8 (QuarkMsrIndex + 1)))
       else mret 0);
    mret (AsmReadMsrReturnResult Index QuarkMsrDataLow QuarkMsrDataHigh)
  else AsmReadMsrRealMsrAccess Index.

Definition AsmWriteMsr64 (Index Value : Z) : M cpu Z :=
  let QuarkMsrIndex := TranslateMsrIndex Index in
  if is_mtrr QuarkMsrIndex then
    let QuarkMsrDataLow := Z.land Value 0xFFFFFFFF in
    _ ← on_bus (QNCPortWrite QUARK_NC_HOST_BRIDGE_SB_PORT_ID QuarkMsrIndex QuarkMsrDataLow);
    QuarkMsrDataHigh ←
      (if is_fixed QuarkMsrIndex then
         let QuarkMsrDataHigh := Z.land (Z.shiftr Value 32) 0xFFFFFFFF in
         _ ← on_bus (QNCPortWrite QUARK_NC_HOST_BRIDGE_SB_PORT_ID (u8 (QuarkMsrIndex + 1))
                       QuarkMsrDataHigh);
         mret QuarkMsrDataHigh
       else mret 0);
    mret (AsmReadMsrReturnResult Index QuarkMsrDataLow QuarkMsrDataHigh)
  else AsmWriteMsrRealMsrAccess Index 0 0.
End Msr.

(** ** Lemmas *)

(** The rows of the table before the last one, with the documented numbers. *)
Definition rows : list (Z * Z) :=
  [(0xFE, 0x40); (0x2FF, 0x41); (0x250, 0x42); (0x258, 0x44); (0x259, 0x46); (0x268, 0x48);
   (0x269, 0x4A); (0x26A, 0x4C); (0x26B, 0x4E); (0x26C, 0x50); (0x26D, 0x52); (0x26E, 0x54);
   (0x26F, 0x56); (0xA0, 0x58); (0xA1, 0x59); (0x200, 0x5A); (0x201, 0x5B); (0x202, 0x5C);
   (0x203, 0x5D); (0x204, 0x5E); (0x205, 0x5F); (0x206, 0x60); (0x207, 0x61); (0x208, 0x62);
   (0x209, 0x63); (0x20A, 0x64); (0x20B, 0x65); (0x20C, 0x66); (0x20D, 0x67); (0x20E, 0x68);
   (0x20F, 0x69)].

(** The host bridge registers behind a translated register number. *)
Definition ports (q : Z) : list Z := if is_fixed q then [q; q + 1] else [q].

Section MsrLemmas.
Context {MB : MessageBus} {MH : MtrrHeader} {MHO : MtrrHeaderOk}.
Implicit Types c : cpu.

Lemma QuarkMtrrConversionTable_eq : QuarkMtrrConversionTable = rows ++ [(0xFFFFFFFF, 0xFF)].
Proof.
  unfold QuarkMtrrConversionTable.
  rewrite CAP_val, DEF_TYPE_val, FIX64K_00000_val, FIX16K_80000_val, FIX16K_A0000_val.
  rewrite FIX4K_C0000_val, FIX4K_C8000_val, FIX4K_D0000_val, FIX4K_D8000_val.
  rewrite FIX4K_E0000_val, FIX4K_E8000_val, FIX4K_F0000_val, FIX4K_F8000_val. reflexivity.
Qed.

Lemma TranslateMsrIndex_eq i : TranslateMsrIndex i = TranslateMsrIndex_from (rows ++ [(0xFFFFFFFF, 0xFF)]) i.
Proof. unfold TranslateMsrIndex. by rewrite QuarkMtrrConversionTable_eq. Qed.

(** The search finds the row of the register, or there is none and the result is zero. *)
Lemma translate_from_cases table i :
  TranslateMsrIndex_from table i = 0 \/ In (i, TranslateMsrIndex_from table i) table.
Proof.
  induction table as [|[std q] table IH]; [by left|]. cbn [TranslateMsrIndex_from In].
  destruct (std =? 0xFFFFFFFF); [by left|].
  destruct (Z.eqb_spec i std) as [-> |]; [by right; left|].
  destruct IH as [IH|IH]; [by left|by right; right].
Qed.

(** What the rows satisfy, by evaluation: their host bridge registers are MTRR registers, and two
    rows with different numbers have no host bridge register in common. *)
Lemma rows_bounds : Forall (fun r => is_mtrr r.2 = true /\ r.2 < 0x6A) rows.
Proof. repeat constructor. Qed.

Definition disjoint_rows (r r' : Z * Z) : bool :=
  (r.1 =? r'.1) || forallb (fun p => forallb (fun p' => negb (p =? p')) (ports r'.2)) (ports r.2).

Lemma rows_disjoint : forallb (fun r => forallb (disjoint_rows r) rows) rows = true.
Proof. vm_compute. reflexivity. Qed.

(** The register numbers that go over the bus. *)
Definition mapped (i : Z) : Prop := is_mtrr (TranslateMsrIndex i) = true.

Lemma mapped_row i : mapped i -> In (i, TranslateMsrIndex i) rows.
Proof.
  unfold mapped. rewrite TranslateMsrIndex_eq.
  pose proof (translate_from_cases (rows ++ [(0xFFFFFFFF, 0xFF)]) i) as Hcases.
  revert Hcases. generalize (TranslateMsrIndex_from (rows ++ [(0xFFFFFFFF, 0xFF)]) i).
  intros q [-> |Hin] Hm; [discriminate|].
  apply in_app_or in Hin as [Hin|[Hin|[]]]; [exact Hin|]. injection Hin as _ <-. discriminate.
Qed.

Lemma mapped_bounds i : mapped i -> 0x40 <= TranslateMsrIndex i < 0x6A.
Proof.
  intros Hm%mapped_row. pose proof rows_bounds as Hr. rewrite List.Forall_forall in Hr.
  specialize (Hr _ Hm) as [Hr Hlt]. cbn [snd] in *.
  unfold is_mtrr in Hr. apply andb_prop in Hr as [Hge _].
  unfold QUARK_NC_HOST_BRIDGE_IA32_MTRR_CAP in Hge. lia.
Qed.

Lemma ports_disjoint i j p :
  mapped i -> mapped j -> i <> j ->
  In p (ports (TranslateMsrIndex i)) -> In p (ports (TranslateMsrIndex j)) -> False.
Proof.
  intros Hi%mapped_row Hj%mapped_row Hne Hp Hp'. pose proof rows_disjoint as Hd.
  rewrite forallb_forall in Hd. specialize (Hd _ Hi).
  rewrite forallb_forall in Hd. specialize (Hd _ Hj). unfold disjoint_rows in Hd. cbn [fst snd] in Hd.
  apply orb_prop in Hd as [He|Hd]; [lia|].
  rewrite forallb_forall in Hd. specialize (Hd _ Hp).
  rewrite forallb_forall in Hd. specialize (Hd _ Hp'). lia.
Qed.

(** The host bridge register [q]. *)
Definition hb (q : Z) : sbreg := (SpReg, QUARK_NC_HOST_BRIDGE_SB_PORT_ID, q).

(** The value that a register read over the bus has. *)
Definition msr_at c (i : Z) : Z :=
  let q := TranslateMsrIndex i in
  AsmReadMsrReturnResult i (c.(bus).(regs) (hb q)) (if is_fixed q then c.(bus).(regs) (hb (q + 1)) else 0).

Definition same_regs c c' : Prop :=
  c'.(bus).(regs) = c.(bus).(regs) /\ c'.(real_msr) = c.(real_msr).

Lemma wp_on_bus {A} (m : M msgbus A) (Q : A -> cpu -> Prop) c :
  wp m (fun a b => Q a (set_bus b c)) c.(bus) -> wp (on_bus m) Q c.
Proof.
  intros (a & b & Hm & HQ). exists a, (set_bus b c). split; [|done].
  unfold on_bus. by rewrite Hm.
Qed.

Lemma wp_hb_read q (Q : Z -> cpu -> Prop) c :
  0 <= q < 256 -> (forall c', same_regs c c' -> Q (c.(bus).(regs) (hb q)) c') ->
  wp (on_bus (QNCPortRead QUARK_NC_HOST_BRIDGE_SB_PORT_ID q)) Q c.
Proof.
  intros Hq HQ. apply wp_on_bus, (wp_port_read SpReg); [by vm_compute|unfold in_width; lia|].
  intros b E _ _. apply HQ. by split.
Qed.

Lemma wp_hb_write q v (Q : unit -> cpu -> Prop) c :
  0 <= q < 256 ->
  (forall c', c'.(bus).(regs) = <[hb q := sb_store (hb q) (c.(bus).(regs) (hb q)) v]> c.(bus).(regs) ->
     c'.(real_msr) = c.(real_msr) -> Q tt c') ->
  wp (on_bus (QNCPortWrite QUARK_NC_HOST_BRIDGE_SB_PORT_ID q v)) Q c.
Proof.
  intros Hq HQ. apply wp_on_bus, (wp_port_write SpReg); [by vm_compute|unfold in_width; lia|].
  intros b E _ _. apply HQ; [exact E|done].
Qed.

Lemma wp_AsmReadMsr64 i (Q : Z -> cpu -> Prop) c :
  mapped i -> (forall c', same_regs c c' -> Q (msr_at c i) c') -> wp (AsmReadMsr64 i) Q c.
Proof.
  intros Hm HQ. pose proof (mapped_bounds i Hm) as Hb. unfold AsmReadMsr64.
  unfold mapped in Hm. rewrite Hm. apply wp_bind, wp_hb_read; [lia|]. intros c1 [E1 R1].
  apply wp_bind. unfold msr_at in HQ. destruct (is_fixed (TranslateMsrIndex i)).
  - rewrite wrap_small by lia. apply wp_hb_read; [lia|]. intros c2 [E2 R2].
    apply wp_ret. rewrite E1. apply HQ. split; by etrans.
  - apply wp_ret, wp_ret, HQ. by split.
Qed.

(** The host bridge keeps what is written to its MTRR registers (all but the capability register,
    which is read-only). *)
Definition mtrr_plain : Prop := forall q v0 v, 0x40 < q < 0x6A -> sb_store (hb q) v0 v = v.

(** The part of a value that the register keeps. *)
Definition msr_fit (i v : Z) : Z := if is_fixed (TranslateMsrIndex i) then u64 v else u32 v.

Lemma edx_eax v :
  Z.lor (u32 (Z.land v 0xFFFFFFFF)) (Z.shiftl (u32 (Z.land (Z.shiftr v 32) 0xFFFFFFFF)) 32) = u64 v.
Proof.
  change 0xFFFFFFFF with (Z.ones 32). rewrite <- !wrap_land by lia. rewrite !wrap_wrap.
  bits i Hi. bit_cases.
Qed.

Lemma eax_only v : Z.lor (u32 (Z.land v 0xFFFFFFFF)) (Z.shiftl (u32 0) 32) = u32 v.
Proof. change 0xFFFFFFFF with (Z.ones 32). change (u32 0) with 0. bits i Hi. bit_cases. Qed.

Lemma mapped_above_cap i : mapped i -> i <> MTRR_LIB_IA32_MTRR_CAP -> 0x40 < TranslateMsrIndex i.
Proof.
  rewrite CAP_val. intros Hm%mapped_row Hne.
  assert (Hr : forallb (fun r : Z * Z => (r.1 =? 0xFE) || (0x40 <? r.2)) rows = true)
    by (vm_compute; reflexivity).
  rewrite forallb_forall in Hr. specialize (Hr _ Hm). cbn [fst snd] in Hr.
  apply orb_prop in Hr. lia.
Qed.

(** A value read over the bus depends on its own host bridge registers only. *)
Lemma msr_at_ext c c' i :
  (forall p, In p (ports (TranslateMsrIndex i)) -> c'.(bus).(regs) (hb p) = c.(bus).(regs) (hb p)) ->
  msr_at c' i = msr_at c i.
Proof.
  unfold msr_at. generalize (TranslateMsrIndex i). intros q Hp. unfold ports in Hp.
  destruct (is_fixed q).
  - rewrite (Hp q (or_introl eq_refl)), (Hp (q + 1) (or_intror (or_introl eq_refl))). reflexivity.
  - rewrite (Hp q (or_introl eq_refl)). reflexivity.
Qed.

Lemma hb_inj p q : hb p = hb q -> p = q.
Proof. by intros [= ->]. Qed.

(** The registers after a write, in the view of the values read. *)
Lemma msr_at_written c c' i v :
  let q := TranslateMsrIndex i in
  let low := Z.land v 0xFFFFFFFF in
  let high := Z.land (Z.shiftr v 32) 0xFFFFFFFF in
  mapped i ->
  c'.(bus).(regs) =
    (if is_fixed q then <[hb (q + 1) := high]> (<[hb q := low]> c.(bus).(regs))
     else <[hb q := low]> c.(bus).(regs)) ->
  forall j, mapped j -> msr_at c' j = if decide (j = i) then msr_fit i v else msr_at c j.
Proof.
  intros q low high Hi Hregs j Hj. destruct (decide (j = i)) as [-> |Hne].
  - unfold msr_at, msr_fit. fold q. rewrite Hregs. destruct (is_fixed q).
    + rewrite fn_lookup_insert, fn_lookup_insert_ne, fn_lookup_insert by (intros He%hb_inj; lia).
      apply edx_eax.
    + rewrite fn_lookup_insert. apply eax_only.
  - apply msr_at_ext. intros p Hp. rewrite Hregs.
    assert (Hn : forall r, In r (ports q) -> hb r <> hb p).
    { intros r Hr He%hb_inj. subst r.
      exact (ports_disjoint i j p Hi Hj (not_eq_sym Hne) Hr Hp). }
    clearbody q. unfold ports in Hn. destruct (is_fixed q).
    + rewrite fn_lookup_insert_ne by exact (Hn _ (or_intror (or_introl eq_refl))).
      apply fn_lookup_insert_ne, Hn. by left.
    + apply fn_lookup_insert_ne, Hn. by left.
Qed.

Lemma wp_AsmWriteMsr64 i v (Q : Z -> cpu -> Prop) c :
  mtrr_plain -> mapped i -> i <> MTRR_LIB_IA32_MTRR_CAP ->
  (forall c', (forall j, mapped j -> msr_at c' j = if decide (j = i) then msr_fit i v else msr_at c j) ->
     c'.(real_msr) = c.(real_msr) -> Q (msr_fit i v) c') ->
  wp (AsmWriteMsr64 i v) Q c.
Proof.
  intros Hst Hm Hcap HQ. pose proof (mapped_bounds i Hm) as Hb.
  pose proof (mapped_above_cap i Hm Hcap) as Hc. pose proof Hm as Hm'.
  unfold AsmWriteMsr64. unfold mapped in Hm. rewrite Hm. apply wp_bind, wp_hb_write; [lia|].
  intros c1 E1 R1. rewrite Hst in E1 by lia. apply wp_bind.
  destruct (is_fixed (TranslateMsrIndex i)) eqn:Hf.
  - assert (TranslateMsrIndex i <= 0x56).
    { unfold is_fixed, QUARK_NC_HOST_BRIDGE_MTRR_FIX4K_F8000 in Hf. apply andb_prop in Hf. lia. }
    assert (Hfit : msr_fit i v = u64 v) by (unfold msr_fit; by rewrite Hf).
    rewrite wrap_small by lia. apply wp_bind, wp_hb_write; [lia|]. intros c2 E2 R2.
    rewrite Hst in E2 by lia. apply wp_ret, wp_ret. unfold AsmReadMsrReturnResult.
    rewrite edx_eax, <- Hfit. apply HQ; [|by etrans].
    apply (msr_at_written c c2 i v Hm'). rewrite Hf, E2, E1. reflexivity.
  - assert (Hfit : msr_fit i v = u32 v) by (unfold msr_fit; by rewrite Hf).
    apply wp_ret, wp_ret. unfold AsmReadMsrReturnResult. rewrite eax_only, <- Hfit.
    apply HQ; [|done]. apply (msr_at_written c c1 i v Hm'). rewrite Hf. exact E1.
Qed.
End MsrLemmas.

#[global] Opaque TranslateMsrIndex.

(** ** Properties *)

(** writing an MTRR register and reading any MTRR register back: the register written reads as
    the value, cut to the 64 bits of a fixed-range register or the 32 bits of the others, and every
    other register reads as before. The capability register is read-only and excluded. *)
Theorem AsmWriteMsr64_then_read {MB : MessageBus} {MH : MtrrHeader} {MHO : MtrrHeaderOk}
    (i j v : Z) (c : cpu) :
  mtrr_plain -> mapped i -> i <> MTRR_LIB_IA32_MTRR_CAP -> mapped j ->
  exists c1 c2 c3 old,
    AsmReadMsr64 j c = Some (old, c1) /\
    AsmWriteMsr64 i v c1 = Some (msr_fit i v, c2) /\
    AsmReadMsr64 j c2 = Some (if decide (j = i) then msr_fit i v else old, c3) /\
    c3.(real_msr) = c.(real_msr).
Proof.
  intros Hst Hi Hcap Hj.
  enough (wp (old ← AsmReadMsr64 j; r ← AsmWriteMsr64 i v; now ← AsmReadMsr64 j; mret (old, r, now))
    (fun x c3 => x.1.2 = msr_fit i v /\ x.2 = (if decide (j = i) then msr_fit i v else x.1.1) /\
                 c3.(real_msr) = c.(real_msr)) c) as (x & c3 & Hrun & Hr & Hn & He).
  { unfold mbind, M_bind in Hrun. destruct (AsmReadMsr64 j c) as [[old c1]|] eqn:E1; [|done].
    destruct (AsmWriteMsr64 i v c1) as [[r c2]|] eqn:E2; [|done].
    destruct (AsmReadMsr64 j c2) as [[now c4]|] eqn:E3; [|done].
    injection Hrun as <- <-. cbn [fst snd] in *. subst. by exists c1, c2, c4, old. }
  apply wp_bind, wp_AsmReadMsr64; [exact Hj|]. intros c1 [E1 R1].
  apply wp_bind, wp_AsmWriteMsr64; [exact Hst|exact Hi|exact Hcap|]. intros c2 E2 R2.
  apply wp_bind, wp_AsmReadMsr64; [exact Hj|]. intros c3 [E3 R3].
  apply wp_ret. cbn [fst snd]. split; [reflexivity|]. split; [|congruence].
  rewrite E2 by exact Hj. destruct (decide (j = i)); [reflexivity|]. apply msr_at_ext. intros p _. by rewrite E1.
Qed.

#[local] Existing Instances PlainBus Edk2Header.header Edk2Header.header_ok.

(** A processor on an idle bus. *)
Definition idle_cpu : cpu := {| bus := idle_bus 0; real_msr := fun _ => 0 |}.

Lemma AsmWriteMsr64_then_read_witness :
  exists c1 c2 c3 old,
    AsmReadMsr64 0x250 idle_cpu = Some (old, c1) /\
    AsmWriteMsr64 0x250 0x0606060606060606 c1 = Some (msr_fit 0x250 0x0606060606060606, c2) /\
    AsmReadMsr64 0x250 c2 =
      Some (if decide (0x250 = 0x250) then msr_fit 0x250 0x0606060606060606 else old, c3) /\
    c3.(real_msr) = idle_cpu.(real_msr).
Proof.
  apply (AsmWriteMsr64_then_read 0x250 0x250 0x0606060606060606 idle_cpu);
    [intros q v0 v _; reflexivity|vm_compute; reflexivity|discriminate|vm_compute; reflexivity].
Defined.

(** a register that is not in the table is written with zero whatever the value, and the
    result is zero too: [AsmWriteMsr64] passes its local data words, which it has not set, to the
    access stub. *)
Lemma AsmWriteMsr64_real_loses_value {MB : MessageBus} {MH : MtrrHeader} (i v : Z) (c : cpu) :
  is_mtrr (TranslateMsrIndex i) = false ->
  AsmWriteMsr64 i v c = Some (0, set_real_msr (<[i := 0]> c.(real_msr)) c).
Proof. intros Hi. unfold AsmWriteMsr64. by rewrite Hi. Qed.

Lemma AsmWriteMsr64_real_loses_value_witness :
  AsmWriteMsr64 0xC0000080 0x100 idle_cpu =
  Some (0, set_real_msr (<[0xC0000080 := 0]> idle_cpu.(real_msr)) idle_cpu).
Proof.
  apply (AsmWriteMsr64_real_loses_value).
  vm_compute. reflexivity.
Defined.

