(* ===== verification/Math64.v ===== *)
(** * 64-bit shifts on a 32-bit processor

    Models the assembly bodies of [Ia32/LShiftU64.c] and [Ia32/RShiftU64.c] in
    [QuarkSocPkg/Override/MdePkg/Library/BaseLib]: the operand is in two 32-bit words and the
    double-precision shifts take their count modulo 32. *)

From S2P Require Import Prelude.

(** [shld edx, eax, cl] and [shrd eax, edx, cl]: the first word shifted by the count modulo 32,
    filled with bits of the second. *)
Definition shld (dst src cl : Z) : Z :=
  let n := cl mod 32 in u32 (Z.lor (Z.shiftl dst n) (Z.shiftr src (32 - n))).
Definition shrd (dst src cl : Z) : Z :=
  let n := cl mod 32 in u32 (Z.lor (Z.shiftr dst n) (Z.shiftl src (32 - n))).
Definition shl (dst cl : Z) : Z := u32 (Z.shiftl dst (cl mod 32)).
Definition shr (dst cl : Z) : Z := Z.shiftr dst (cl mod 32).

(** The result of a function in EDX:EAX. *)
Definition edx_eax (edx eax : Z) : Z := Z.lor (Z.shiftl edx 32) eax.

Definition InternalMathLShiftU64 (Operand Count : Z) : Z :=
  let cl := u8 Count in
  let eax := 0 in
  let edx := u32 Operand in
  let '(eax, edx) := if Z.land cl 32 =? 0 then (edx, u32 (Z.shiftr Operand 32)) else (eax, edx) in
  let edx := shld edx eax cl in
  let eax := shl eax cl in
  edx_eax edx eax.

Definition InternalMathRShiftU64 (Operand Count : Z) : Z :=
  let cl := u8 Count in
  let edx := 0 in
  let eax := u32 (Z.shiftr Operand 32) in
  let '(eax, edx) := if Z.land cl 32 =? 0 then (u32 Operand, eax) else (eax, edx) in
  let eax := shrd eax edx cl in
  let edx := shr edx cl in
  edx_eax edx eax.

(** The C operators. *)
Definition LShiftU64 (Operand Count : Z) : Z := u64 (Z.shiftl Operand Count).
Definition RShiftU64 (Operand Count : Z) : Z := Z.shiftr (u64 Operand) Count.

Lemma land_32 n : 0 <= n < 64 -> (Z.land n 32 =? 0) = (n <? 32).
Proof.
  intros Hn. assert (Hall : forallb (fun k => Bool.eqb (Z.land (Z.of_nat k) 32 =? 0) (Z.of_nat k <? 32))
    (seq 0 64) = true) by (vm_compute; reflexivity).
  rewrite forallb_forall in Hall. specialize (Hall (Z.to_nat n)).
  rewrite Z2Nat.id in Hall by lia. apply Bool.eqb_prop, Hall. apply in_seq. lia.
Qed.

Lemma mod_32 n : 0 <= n < 64 -> n mod 32 = if n <? 32 then n else n - 32.
Proof.
  intros Hn. destruct (Z.ltb_spec n 32); [apply Z.mod_small; lia|].
  symmetry. apply Z.mod_unique with 1; lia.
Qed.

(** the two assembly routines are the 64-bit shifts for every count from 0 to 63, the
    counts from 32 on included, where the processor's own shifts wrap around. *)
Theorem InternalMathShifts_correct (Operand Count : Z) :
  in_width 64 Operand -> 0 <= Count < 64 ->
  InternalMathLShiftU64 Operand Count = LShiftU64 Operand Count /\
  InternalMathRShiftU64 Operand Count = RShiftU64 Operand Count.
Proof.
  intros Ho Hc. unfold InternalMathLShiftU64, InternalMathRShiftU64, LShiftU64, RShiftU64, shld, shrd,
    shl, shr, edx_eax. rewrite (wrap_small 8 Count) by lia. rewrite land_32, mod_32 by lia.
  destruct (Z.ltb_spec Count 32); split; bits i Hi; bit_cases.
Qed.

Lemma InternalMathShifts_correct_witness :
  in_width 64 0x8000000000000001 /\ 0 <= 35 < 64 /\
  InternalMathLShiftU64 0x8000000000000001 35 = LShiftU64 0x8000000000000001 35 /\
  InternalMathRShiftU64 0x8000000000000001 35 = RShiftU64 0x8000000000000001 35.
Proof.
  split; [by vm_compute|]. split; [lia|].
  apply (InternalMathShifts_correct 0x8000000000000001 35); [by vm_compute|lia].
Defined.
