(* ===== verification/MtrrLib.v ===== *)
(** * The memory type range registers: operations

    Models [QuarkSocPkg/Override/UefiCpuPkg/Library/MtrrLib/MtrrLib.c]: every function but the
    debug print-out. The library reaches the processor through [MtrrCpu], whose operations are
    those it calls in the base and CPU libraries; [MtrrCpuOk] is what it relies on. *)

From S2P Require Import Prelude MtrrDefs Math64.
From stdpp Require Import gmap.
#[local] Open Scope Z_scope.

(** ** The processor, as the library sees it *)

(** The library calls outside the file. *)
Class MtrrCpu (C : Type) := {
  AsmReadMsr64 : Z -> M C Z;
  AsmWriteMsr64 : Z -> Z -> M C Z;
  AsmMsrBitFieldWrite64 : Z -> Z -> Z -> Z -> M C Z;
  SaveAndDisableInterrupts : M C bool;
  SetInterruptState : bool -> M C unit;
  AsmDisableCache : M C unit;
  AsmEnableCache : M C unit;
  AsmReadCr4 : M C Z;
  AsmWriteCr4 : Z -> M C unit;
  CpuFlushTlb : M C unit;
  AsmCpuid : Z -> M C Z;
  (* arithmetic helpers of the base library *)
  GetPowerOfTwo32 : Z -> Z;
  LowBitSet64 : Z -> Z
}.

(** ** Data *)

Record FIXED_MTRR := { Msr : Z; BaseAddress : Z; Length : Z }.

Record VARIABLE_MTRR := {
  vBaseAddress : Z; vLength : Z; vType : Z; vMsr : Z; vValid : bool; vUsed : bool
}.

(** An entry of a shadow array cleared by [ZeroMem]. *)
Definition zero_entry : VARIABLE_MTRR :=
  {| vBaseAddress := 0; vLength := 0; vType := 0; vMsr := 0; vValid := false; vUsed := false |}.

(** [MTRR_CONTEXT] *)
Record MTRR_CONTEXT := { Cr4 : Z; InterruptState : bool }.

(** [MTRR_VARIABLE_SETTINGS] (base and mask of each register pair), [MTRR_FIXED_SETTINGS] and
    [MTRR_SETTINGS] *)
Record MTRR_SETTINGS := {
  Fixed : list Z;
  Variables : list (Z * Z);
  MtrrDefType : Z
}.

Definition SIZE_4KB : Z := 0x1000.
Definition SIZE_16KB : Z := 0x4000.
Definition SIZE_64KB : Z := 0x10000.
Definition SIZE_1MB : Z := 0x100000.
Definition BASE_1MB : Z := 0x100000.

Section Lib.
Context {MH : MtrrHeader} {C : Type} {CPU : MtrrCpu C}.

Definition mMtrrLibFixedMtrrTable : list FIXED_MTRR := [
  {| Msr := MTRR_LIB_IA32_MTRR_FIX64K_00000; BaseAddress := 0; Length := SIZE_64KB |};
  {| Msr := MTRR_LIB_IA32_MTRR_FIX16K_80000; BaseAddress := 0x80000; Length := SIZE_16KB |};
  {| Msr := MTRR_LIB_IA32_MTRR_FIX16K_A0000; BaseAddress := 0xA0000; Length := SIZE_16KB |};
  {| Msr := MTRR_LIB_IA32_MTRR_FIX4K_C0000; BaseAddress := 0xC0000; Length := SIZE_4KB |};
  {| Msr := MTRR_LIB_IA32_MTRR_FIX4K_C8000; BaseAddress := 0xC8000; Length := SIZE_4KB |};
  {| Msr := MTRR_LIB_IA32_MTRR_FIX4K_D0000; BaseAddress := 0xD0000; Length := SIZE_4KB |};
  {| Msr := MTRR_LIB_IA32_MTRR_FIX4K_D8000; BaseAddress := 0xD8000; Length := SIZE_4KB |};
  {| Msr := MTRR_LIB_IA32_MTRR_FIX4K_E0000; BaseAddress := 0xE0000; Length := SIZE_4KB |};
  {| Msr := MTRR_LIB_IA32_MTRR_FIX4K_E8000; BaseAddress := 0xE8000; Length := SIZE_4KB |};
  {| Msr := MTRR_LIB_IA32_MTRR_FIX4K_F0000; BaseAddress := 0xF0000; Length := SIZE_4KB |};
  {| Msr := MTRR_LIB_IA32_MTRR_FIX4K_F8000; BaseAddress := 0xF8000; Length := SIZE_4KB |}
].

(** ** Counts and types *)

Definition IsMtrrSupported : bool := true.

Definition GetVariableMtrrCount : M C Z :=
  if negb IsMtrrSupported then mret 0 else
  v ← AsmReadMsr64 MTRR_LIB_IA32_MTRR_CAP;
  let VariableMtrrCount := u32 (Z.land v MTRR_LIB_IA32_MTRR_CAP_VCNT_MASK) in
  _ ← ASSERT (VariableMtrrCount <=? MTRR_NUMBER_OF_VARIABLE_MTRR);
  mret VariableMtrrCount.

Definition GetFirmwareVariableMtrrCount : M C Z :=
  VariableMtrrCount ← GetVariableMtrrCount;
  if VariableMtrrCount <? RESERVED_FIRMWARE_VARIABLE_MTRR_NUMBER then mret 0
  else mret (VariableMtrrCount - RESERVED_FIRMWARE_VARIABLE_MTRR_NUMBER).

Definition MtrrGetDefaultMemoryType : M C Z :=
  if negb IsMtrrSupported then mret CacheUncacheable else
  v ← AsmReadMsr64 MTRR_LIB_IA32_MTRR_DEF_TYPE;
  mret (Z.land v 0x7).

(** ** Preparation and clean-up *)

Definition PreMtrrChange : M C MTRR_CONTEXT :=
  InterruptState ← SaveAndDisableInterrupts;
  _ ← AsmDisableCache;
  Cr4 ← AsmReadCr4;
  _ ← AsmWriteCr4 (Z.ldiff Cr4 (2 ^ 7));
  _ ← CpuFlushTlb;
  _ ← AsmMsrBitFieldWrite64 MTRR_LIB_IA32_MTRR_DEF_TYPE 10 11 0;
  mret {| Cr4 := Cr4; InterruptState := InterruptState |}.

Definition PostMtrrChangeEnableCache (MtrrContext : MTRR_CONTEXT) : M C unit :=
  _ ← CpuFlushTlb;
  _ ← AsmEnableCache;
  _ ← AsmWriteCr4 MtrrContext.(Cr4);
  SetInterruptState MtrrContext.(InterruptState).

Definition PostMtrrChange (MtrrContext : MTRR_CONTEXT) : M C unit :=
  _ ← AsmMsrBitFieldWrite64 MTRR_LIB_IA32_MTRR_DEF_TYPE 10 11 3;
  PostMtrrChangeEnableCache MtrrContext.

(** ** Fixed ranges *)

Definition fixed_covers (Base : Z) (e : FIXED_MTRR) : bool :=
  (Base >=? e.(BaseAddress)) && (Base <? e.(BaseAddress) + 8 * e.(Length)).

(** The search for the fixed register that covers [Base], from [MsrNum] with [n] to go. *)
Fixpoint fixed_search (Base : Z) (n MsrNum : nat) : option nat :=
  match n with
  | O => Some MsrNum
  | S n =>
      e ← mMtrrLibFixedMtrrTable !! MsrNum;
      if fixed_covers Base e then Some MsrNum else fixed_search Base n (S MsrNum)
  end.

(** The search for the byte of [e] that starts at [Base]. *)
Fixpoint byte_search (Base : Z) (e : FIXED_MTRR) (n : nat) (ByteShift : Z) : Z :=
  match n with
  | O => ByteShift
  | S n =>
      if Base =? e.(BaseAddress) + ByteShift * e.(Length) then ByteShift
      else byte_search Base e n (ByteShift + 1)
  end.

(** The variables of the loop that collects the bytes to change. *)
Record fixed_state := {
  fsByteShift : Z; fsOrMask : Z; fsClearMask : Z; fsBase : Z; fsLength : Z
}.

Fixpoint byte_loop (MemoryCacheType : Z) (e : FIXED_MTRR) (n : nat) (s : fixed_state) : fixed_state :=
  match n with
  | O => s
  | S n =>
      if (s.(fsByteShift) <? 8) && (s.(fsLength) >=? e.(Length)) then
        byte_loop MemoryCacheType e n
          {| fsByteShift := s.(fsByteShift) + 1;
             fsOrMask := Z.lor s.(fsOrMask) (LShiftU64 MemoryCacheType (s.(fsByteShift) * 8));
             fsClearMask := Z.lor s.(fsClearMask) (LShiftU64 0xFF (s.(fsByteShift) * 8));
             fsBase := u64 (s.(fsBase) + e.(Length));
             fsLength := s.(fsLength) - e.(Length) |}
      else s
  end.

(** [Base] and [Length] are passed by reference: the result has their final values. *)
Definition ProgramFixedMtrr (MemoryCacheType Base Length : Z) : M C (EFI_STATUS * Z * Z) :=
  MsrNum ← lift (fixed_search Base (Z.to_nat MTRR_NUMBER_OF_FIXED_MTRR) 0);
  if Z.of_nat MsrNum =? MTRR_NUMBER_OF_FIXED_MTRR then mret (EFI_UNSUPPORTED, Base, Length) else
  e ← lift (mMtrrLibFixedMtrrTable !! MsrNum);
  let ByteShift := byte_search Base e 8 0 in
  if ByteShift =? 8 then mret (EFI_UNSUPPORTED, Base, Length) else
  let s := byte_loop MemoryCacheType e 8
             {| fsByteShift := ByteShift; fsOrMask := 0; fsClearMask := 0;
                fsBase := Base; fsLength := Length |} in
  if (s.(fsByteShift) <? 8) && negb (s.(fsLength) =? 0) then
    mret (EFI_UNSUPPORTED, s.(fsBase), s.(fsLength))
  else
    v ← AsmReadMsr64 e.(Msr);
    let TempQword := Z.lor (Z.ldiff v s.(fsClearMask)) s.(fsOrMask) in
    _ ← AsmWriteMsr64 e.(Msr) TempQword;
    mret (EFI_SUCCESS, s.(fsBase), s.(fsLength)).

(** ** Variable ranges: the shadow array *)

(** The scan over the register pairs; each enabled one takes the next entry. [n] bounds the
    iterations. *)
Fixpoint shadow_loop (n : nat) (ValidBits ValidAddr VariableMtrrEnd FirmwareCount : Z)
    (MsrNum Index : Z) (VariableMtrr : list VARIABLE_MTRR) (UsedMtrr : Z) :
    M C (Z * list VARIABLE_MTRR) :=
  match n with
  | O => stop
  | S n =>
      if (MsrNum <? VariableMtrrEnd) && (Index <? FirmwareCount) then
        mask ← AsmReadMsr64 (u32 (MsrNum + 1));
        if negb (Z.land mask MTRR_LIB_CACHE_MTRR_ENABLED =? 0) then
          base ← AsmReadMsr64 MsrNum;
          mask ← AsmReadMsr64 (u32 (MsrNum + 1));
          type ← AsmReadMsr64 MsrNum;
          _ ← lift (VariableMtrr !! Z.to_nat Index);
          let entry :=
            {| vMsr := MsrNum;
               vBaseAddress := Z.land base ValidAddr;
               vLength := u64 (Z.land (Z.lnot (Z.land mask ValidAddr)) ValidBits + 1);
               vType := Z.land type 0xFF;
               vValid := true; vUsed := true |} in
          shadow_loop n ValidBits ValidAddr VariableMtrrEnd FirmwareCount (u32 (MsrNum + 2))
            (Index + 1) (<[Z.to_nat Index := entry]> VariableMtrr) (u32 (UsedMtrr + 1))
        else
          shadow_loop n ValidBits ValidAddr VariableMtrrEnd FirmwareCount (u32 (MsrNum + 2))
            Index VariableMtrr UsedMtrr
      else mret (UsedMtrr, VariableMtrr)
  end.

(** [VARIABLE_MTRR] pairs and the last register number that starts one, as [VariableMtrrEnd]. *)
Definition variable_end (VariableMtrrCount : Z) : Z :=
  u32 (MTRR_LIB_IA32_VARIABLE_MTRR_BASE + 2 * VariableMtrrCount - 1).

(** The array that the function fills has [MTRR_NUMBER_OF_VARIABLE_MTRR] entries. *)
Definition MtrrGetMemoryAttributeInVariableMtrr (ValidBits ValidAddr : Z)
    (VariableMtrr : list VARIABLE_MTRR) : M C (Z * list VARIABLE_MTRR) :=
  if negb IsMtrrSupported then mret (0, VariableMtrr) else
  FirmwareVariableMtrrCount ← GetFirmwareVariableMtrrCount;
  VariableMtrrCount ← GetVariableMtrrCount;
  let VariableMtrr := replicate (Z.to_nat MTRR_NUMBER_OF_VARIABLE_MTRR) zero_entry in
  shadow_loop (S (Z.to_nat VariableMtrrCount)) ValidBits ValidAddr (variable_end VariableMtrrCount)
    FirmwareVariableMtrrCount MTRR_LIB_IA32_VARIABLE_MTRR_BASE 0 VariableMtrr 0.

(** Last address of an entry's range, in 64 bits. *)
Definition entry_end (e : VARIABLE_MTRR) : Z := u64 (e.(vBaseAddress) + e.(vLength) - 1).

Definition entry_overlaps (Start End : Z) (e : VARIABLE_MTRR) : bool :=
  e.(vValid) && negb ((Start >? entry_end e) || (End <? e.(vBaseAddress))).

Fixpoint overlap_loop (Start End : Z) (VariableMtrr : list VARIABLE_MTRR) (n Index : nat) : option bool :=
  match n with
  | O => Some false
  | S n =>
      e ← VariableMtrr !! Index;
      if entry_overlaps Start End e then Some true else overlap_loop Start End VariableMtrr n (S Index)
  end.

Definition CheckMemoryAttributeOverlap (Start End : Z) (VariableMtrr : list VARIABLE_MTRR) : option bool :=
  overlap_loop Start End VariableMtrr 6 0.

Definition set_valid (b : bool) (e : VARIABLE_MTRR) : VARIABLE_MTRR :=
  {| vBaseAddress := e.(vBaseAddress); vLength := e.(vLength); vType := e.(vType); vMsr := e.(vMsr);
     vValid := b; vUsed := e.(vUsed) |}.
Definition set_used (b : bool) (e : VARIABLE_MTRR) : VARIABLE_MTRR :=
  {| vBaseAddress := e.(vBaseAddress); vLength := e.(vLength); vType := e.(vType); vMsr := e.(vMsr);
     vValid := e.(vValid); vUsed := b |}.

(** The array and [UsedMtrr] afterwards. *)
Definition InvalidateShadowMtrr (Index : nat) (VariableMtrr : list VARIABLE_MTRR) (UsedMtrr : Z) :
    list VARIABLE_MTRR * Z :=
  (alter (set_valid false) Index VariableMtrr, u32 (UsedMtrr - 1)).

(** The variables of [CombineMemoryAttribute]. *)
Record combine_state := {
  csBase : Z; csLength : Z; csEndAddress : Z; csArray : list VARIABLE_MTRR; csUsedMtrr : Z;
  csOverwrite : bool; csCovered : bool
}.

(** One iteration of its loop: the state to go on with, or [inr] where the function returns
    RETURN_ACCESS_DENIED. *)
Definition combine_step (Attributes : Z) (Index : nat) (s : combine_state) :
    option (combine_state + combine_state) :=
  e ← s.(csArray) !! Index;
  let MtrrEnd := entry_end e in
  if negb e.(vValid) || (s.(csBase) >? MtrrEnd) || (s.(csEndAddress) <? e.(vBaseAddress)) then
    Some (inl s)
  else if Attributes =? e.(vType) then
    if (e.(vBaseAddress) <=? s.(csBase)) && (MtrrEnd >=? s.(csEndAddress)) then
      Some (inl {| csBase := s.(csBase); csLength := s.(csLength); csEndAddress := s.(csEndAddress);
                   csArray := s.(csArray); csUsedMtrr := s.(csUsedMtrr);
                   csOverwrite := s.(csOverwrite); csCovered := true |})
    else
      let CombineStart := if s.(csBase) <? e.(vBaseAddress) then s.(csBase) else e.(vBaseAddress) in
      let CombineEnd := if s.(csEndAddress) >? MtrrEnd then s.(csEndAddress) else MtrrEnd in
      let '(a, u) := InvalidateShadowMtrr Index s.(csArray) s.(csUsedMtrr) in
      Some (inl {| csBase := CombineStart; csLength := u64 (CombineEnd - CombineStart + 1);
                   csEndAddress := CombineEnd; csArray := a; csUsedMtrr := u;
                   csOverwrite := true; csCovered := s.(csCovered) |})
  else if (e.(vBaseAddress) =? s.(csBase)) && (MtrrEnd =? s.(csEndAddress)) then
    let '(a, u) := InvalidateShadowMtrr Index s.(csArray) s.(csUsedMtrr) in
    Some (inl {| csBase := s.(csBase); csLength := s.(csLength); csEndAddress := s.(csEndAddress);
                 csArray := a; csUsedMtrr := u;
                 csOverwrite := s.(csOverwrite); csCovered := s.(csCovered) |})
  else if ((Attributes =? MTRR_CACHE_WRITE_THROUGH) && (e.(vType) =? MTRR_CACHE_WRITE_BACK)) ||
          ((Attributes =? MTRR_CACHE_WRITE_BACK) && (e.(vType) =? MTRR_CACHE_WRITE_THROUGH)) ||
          (Attributes =? MTRR_CACHE_UNCACHEABLE) || (e.(vType) =? MTRR_CACHE_UNCACHEABLE) then
    Some (inl {| csBase := s.(csBase); csLength := s.(csLength); csEndAddress := s.(csEndAddress);
                 csArray := s.(csArray); csUsedMtrr := s.(csUsedMtrr);
                 csOverwrite := true; csCovered := s.(csCovered) |})
  else Some (inr s).

Fixpoint combine_loop (Attributes : Z) (n Index : nat) (s : combine_state) :
    option (combine_state + combine_state) :=
  match n with
  | O => Some (inl s)
  | S n =>
      r ← combine_step Attributes Index s;
      match r with
      | inl s => combine_loop Attributes n (S Index) s
      | inr s => Some (inr s)
      end
  end.

(** The status and the final values of what is passed by reference. *)
Definition CombineMemoryAttribute (Attributes Base Length : Z) (VariableMtrr : list VARIABLE_MTRR)
    (UsedMtrr : Z) : M C (EFI_STATUS * combine_state) :=
  FirmwareVariableMtrrCount ← GetFirmwareVariableMtrrCount;
  r ← lift (combine_loop Attributes (Z.to_nat FirmwareVariableMtrrCount) 0
              {| csBase := Base; csLength := Length; csEndAddress := u64 (Base + Length - 1);
                 csArray := VariableMtrr; csUsedMtrr := UsedMtrr;
                 csOverwrite := false; csCovered := false |});
  match r with
  | inr s => mret (EFI_ACCESS_DENIED, s)
  | inl s =>
      mret (EFI_SUCCESS,
            {| csBase := s.(csBase); csLength := if s.(csCovered) then 0 else s.(csLength);
               csEndAddress := s.(csEndAddress); csArray := s.(csArray);
               csUsedMtrr := s.(csUsedMtrr); csOverwrite := s.(csOverwrite);
               csCovered := s.(csCovered) |})
  end.

(** ** How a range is cut into registers *)

Definition Power2MaxMemory (MemoryLength : Z) : Z :=
  if negb (RShiftU64 MemoryLength 32 =? 0) then
    LShiftU64 (GetPowerOfTwo32 (u32 (RShiftU64 MemoryLength 32))) 32
  else GetPowerOfTwo32 (u32 MemoryLength).

(** Each do-while loop takes the number of iterations left; 64-bit values need at most 64 ([None]
    when they do not suffice). *)

(** The first loop of [GetMtrrNumberAndDirection]: the registers for the aligned blocks, and what
    is left of the range. *)
Fixpoint align_loop (n : nat) (BaseAddress Length MtrrNumber : Z) : option (Z * Z * Z) :=
  match n with
  | O => None
  | S n =>
      let Alignment := LShiftU64 1 (LowBitSet64 BaseAddress) in
      if Alignment >? Length then Some (BaseAddress, Length, MtrrNumber)
      else align_loop n (u64 (BaseAddress + Alignment)) (Length - Alignment) (u32 (MtrrNumber + 1))
  end.

(** The loops that count the powers of two of a length, from [count]. *)
Fixpoint count_loop (n : nat) (TempQword count : Z) : option Z :=
  match n with
  | O => None
  | S n =>
      let TempQword := u64 (TempQword - Power2MaxMemory TempQword) in
      if TempQword =? 0 then Some (count + 1) else count_loop n TempQword (count + 1)
  end.

Definition GetMtrrNumberAndDirection (BaseAddress Length : Z) : option (bool * Z) :=
  '(_, Length, MtrrNumber) ←
    (if negb (BaseAddress =? 0) then align_loop 65 BaseAddress Length 0
     else Some (BaseAddress, Length, 0));
  if negb (BaseAddress =? 0) && (Length =? 0) then Some (true, MtrrNumber)
  else
    Positive ← count_loop 65 Length 0;
    Subtractive ← count_loop 65 (u64 (Power2MaxMemory (LShiftU64 Length 1) - Length)) 1;
    if Positive <=? Subtractive then Some (true, u32 (MtrrNumber + Positive))
    else Some (false, u32 (MtrrNumber + Subtractive)).

(** ** Programming *)

Fixpoint invalidate_loop (n : nat) (Index : nat) (VariableMtrr : list VARIABLE_MTRR) :
    M C (list VARIABLE_MTRR) :=
  match n with
  | O => mret VariableMtrr
  | S n =>
      e ← lift (VariableMtrr !! Index);
      if negb e.(vValid) && e.(vUsed) then
        _ ← AsmWriteMsr64 e.(vMsr) 0;
        _ ← AsmWriteMsr64 (u32 (e.(vMsr) + 1)) 0;
        invalidate_loop n (S Index) (alter (set_used false) Index VariableMtrr)
      else invalidate_loop n (S Index) VariableMtrr
  end.

Definition InvalidateMtrr (VariableMtrr : list VARIABLE_MTRR) : M C (list VARIABLE_MTRR) :=
  MtrrContext ← PreMtrrChange;
  VariableMtrrCount ← GetVariableMtrrCount;
  VariableMtrr ← invalidate_loop (Z.to_nat VariableMtrrCount) 0 VariableMtrr;
  _ ← PostMtrrChange MtrrContext;
  mret VariableMtrr.

Definition ProgramVariableMtrr (MtrrNumber BaseAddress Length MemoryCacheType ValidAddr : Z) : M C unit :=
  MtrrContext ← PreMtrrChange;
  let TempQword := Z.lor (Z.land BaseAddress ValidAddr) MemoryCacheType in
  _ ← AsmWriteMsr64 MtrrNumber TempQword;
  let TempQword := Z.ldiff (Z.ones 64) (u64 (Length - 1)) in
  _ ← AsmWriteMsr64 (u32 (MtrrNumber + 1))
        (Z.lor (Z.land TempQword ValidAddr) MTRR_LIB_CACHE_MTRR_ENABLED);
  PostMtrrChange MtrrContext.

Definition GetMemoryCacheTypeFromMtrrType (MtrrType : Z) : M C Z :=
  if MtrrType =? MTRR_CACHE_UNCACHEABLE then mret CacheUncacheable
  else if MtrrType =? MTRR_CACHE_WRITE_COMBINING then mret CacheWriteCombining
  else if MtrrType =? MTRR_CACHE_WRITE_THROUGH then mret CacheWriteThrough
  else if MtrrType =? MTRR_CACHE_WRITE_PROTECTED then mret CacheWriteProtected
  else if MtrrType =? MTRR_CACHE_WRITE_BACK then mret CacheWriteBack
  else MtrrGetDefaultMemoryType.

(** The two masks: valid bits and valid address bits. *)
Definition MtrrLibInitializeMtrrMask : M C (Z * Z) :=
  RegEax ← AsmCpuid 0x80000000;
  if RegEax >=? 0x80000008 then
    RegEax ← AsmCpuid 0x80000008;
    let PhysicalAddressBits := u8 RegEax in
    let ValidBits := u64 (LShiftU64 1 PhysicalAddressBits - 1) in
    mret (ValidBits, Z.land ValidBits 0xfffffffffffff000)
  else mret (MTRR_LIB_CACHE_VALID_ADDRESS, 0xFFFFFFFF).

Definition MtrrPrecedence (MtrrType1 MtrrType2 : Z) : Z :=
  let MtrrType :=
    if MtrrType1 =? MTRR_CACHE_UNCACHEABLE then MTRR_CACHE_UNCACHEABLE
    else if MtrrType1 =? MTRR_CACHE_WRITE_COMBINING then
      if (MtrrType2 =? MTRR_CACHE_WRITE_COMBINING) || (MtrrType2 =? MTRR_CACHE_UNCACHEABLE)
      then MtrrType2 else MTRR_CACHE_INVALID_TYPE
    else if MtrrType1 =? MTRR_CACHE_WRITE_THROUGH then
      if (MtrrType2 =? MTRR_CACHE_WRITE_THROUGH) || (MtrrType2 =? MTRR_CACHE_WRITE_BACK)
      then MTRR_CACHE_WRITE_THROUGH
      else if MtrrType2 =? MTRR_CACHE_UNCACHEABLE then MTRR_CACHE_UNCACHEABLE
      else MTRR_CACHE_INVALID_TYPE
    else if MtrrType1 =? MTRR_CACHE_WRITE_PROTECTED then
      if (MtrrType2 =? MTRR_CACHE_WRITE_PROTECTED) || (MtrrType2 =? MTRR_CACHE_UNCACHEABLE)
      then MtrrType2 else MTRR_CACHE_INVALID_TYPE
    else if MtrrType1 =? MTRR_CACHE_WRITE_BACK then
      if (MtrrType2 =? MTRR_CACHE_UNCACHEABLE) || (MtrrType2 =? MTRR_CACHE_WRITE_THROUGH) ||
         (MtrrType2 =? MTRR_CACHE_WRITE_BACK)
      then MtrrType2 else MTRR_CACHE_INVALID_TYPE
    else if MtrrType1 =? MTRR_CACHE_INVALID_TYPE then MtrrType2
    else MTRR_CACHE_INVALID_TYPE in
  if MtrrType2 =? MTRR_CACHE_INVALID_TYPE then MtrrType1 else MtrrType.

(** The loops that look for a register pair that is not in use, from [MsrNum] on. *)
Fixpoint find_unused (n : nat) (VariableMtrrEnd MsrNum : Z) : M C Z :=
  match n with
  | O => stop
  | S n =>
      if MsrNum <? VariableMtrrEnd then
        mask ← AsmReadMsr64 (u32 (MsrNum + 1));
        if Z.land mask MTRR_LIB_CACHE_MTRR_ENABLED =? 0 then mret MsrNum
        else find_unused n VariableMtrrEnd (u32 (MsrNum + 2))
      else mret MsrNum
  end.

(** A bound on the iterations of [find_unused]: there are at most 255 register pairs. *)
Definition unused_fuel : nat := 257.

(** The loop of [MtrrSetMemoryAttribute] that programs the aligned blocks. *)
Fixpoint program_aligned (n : nat) (VariableMtrrEnd MemoryType ValidAddr : Z)
    (MsrNum BaseAddress Length : Z) : M C (Z * Z * Z) :=
  match n with
  | O => stop
  | S n =>
      let Alignment := LShiftU64 1 (LowBitSet64 BaseAddress) in
      if Alignment >? Length then mret (MsrNum, BaseAddress, Length)
      else
        MsrNum ← find_unused unused_fuel VariableMtrrEnd MsrNum;
        _ ← ProgramVariableMtrr MsrNum BaseAddress Alignment MemoryType ValidAddr;
        program_aligned n VariableMtrrEnd MemoryType ValidAddr MsrNum
          (u64 (BaseAddress + Alignment)) (Length - Alignment)
  end.

(** The last loop of [MtrrSetMemoryAttribute]: the powers of two of [TempQword], upwards from
    [BaseAddress] or downwards from it. *)
Fixpoint program_rest (n : nat) (VariableMtrrEnd MemoryType ValidAddr : Z) (Positive : bool)
    (MsrNum BaseAddress TempQword : Z) : M C unit :=
  match n with
  | O => stop
  | S n =>
      MsrNum ← find_unused unused_fuel VariableMtrrEnd MsrNum;
      let Length := Power2MaxMemory TempQword in
      let BaseAddress := if Positive then BaseAddress else u64 (BaseAddress - Length) in
      _ ← ProgramVariableMtrr MsrNum BaseAddress Length MemoryType ValidAddr;
      let BaseAddress := if Positive then u64 (BaseAddress + Length) else BaseAddress in
      let TempQword := u64 (TempQword - Length) in
      if TempQword >? 0 then
        program_rest n VariableMtrrEnd MemoryType ValidAddr Positive MsrNum BaseAddress TempQword
      else mret tt
  end.

(** The programming part of [MtrrSetMemoryAttribute], from the first search for a register. *)
Definition program_variable (VariableMtrrEnd MemoryType ValidAddr : Z) (Positive : bool)
    (BaseAddress Length : Z) : M C unit :=
  MsrNum ← find_unused unused_fuel VariableMtrrEnd MTRR_LIB_IA32_VARIABLE_MTRR_BASE;
  '(MsrNum, BaseAddress', Length) ←
    (if negb (BaseAddress =? 0)
     then program_aligned 65 VariableMtrrEnd MemoryType ValidAddr MsrNum BaseAddress Length
     else mret (MsrNum, BaseAddress, Length));
  if negb (BaseAddress =? 0) && (Length =? 0) then mret tt
  else
    let TempQword := Length in
    if Positive then
      program_rest 65 VariableMtrrEnd MemoryType ValidAddr true MsrNum BaseAddress' TempQword
    else
      let Length := Power2MaxMemory (LShiftU64 TempQword 1) in
      MsrNum ← find_unused unused_fuel VariableMtrrEnd MsrNum;
      _ ← ProgramVariableMtrr MsrNum BaseAddress' Length MemoryType ValidAddr;
      program_rest 65 VariableMtrrEnd MTRR_CACHE_UNCACHEABLE ValidAddr false MsrNum
        (u64 (BaseAddress' + Length)) (u64 (Length - TempQword)).

(** The loop of [MtrrSetMemoryAttribute] over the fixed ranges. *)
Fixpoint fixed_loop (n : nat) (MemoryType BaseAddress Length : Z) : M C (EFI_STATUS * Z * Z) :=
  match n with
  | O => stop
  | S n =>
      if (BaseAddress <? BASE_1MB) && (Length >? 0) then
        MtrrContext ← PreMtrrChange;
        '(Status, BaseAddress, Length) ← ProgramFixedMtrr MemoryType BaseAddress Length;
        _ ← PostMtrrChange MtrrContext;
        if EFI_ERROR Status then mret (Status, BaseAddress, Length)
        else fixed_loop n MemoryType BaseAddress Length
      else mret (EFI_SUCCESS, BaseAddress, Length)
  end.

(** [MtrrSetMemoryAttribute] from the variable ranges on. *)
Definition set_variable (ValidBits ValidAddr FirmwareVariableMtrrCount VariableMtrrEnd : Z)
    (BaseAddress Length Attribute : Z) : M C EFI_STATUS :=
  let '(BaseAddress, Length) :=
    if BaseAddress =? BASE_1MB then (0, u64 (Length + SIZE_1MB)) else (BaseAddress, Length) in
  let MemoryType := Attribute in
  '(UsedMtrr, VariableMtrr) ← MtrrGetMemoryAttributeInVariableMtrr ValidBits ValidAddr [];
  OverLap ← lift (CheckMemoryAttributeOverlap BaseAddress (u64 (BaseAddress + Length - 1)) VariableMtrr);
  '(Status, s) ←
    (if OverLap then CombineMemoryAttribute MemoryType BaseAddress Length VariableMtrr UsedMtrr
     else mret (EFI_SUCCESS,
       {| csBase := BaseAddress; csLength := Length; csEndAddress := 0; csArray := VariableMtrr;
          csUsedMtrr := UsedMtrr; csOverwrite := false; csCovered := false |}));
  if EFI_ERROR Status then mret Status
  else if OverLap && (s.(csLength) =? 0) then
    _ ← InvalidateMtrr s.(csArray);
    mret EFI_SUCCESS
  else
    default_type ← (if s.(csOverwrite) then mret None
                    else t ← MtrrGetDefaultMemoryType; mret (Some t));
    if bool_decide (default_type = Some Attribute) then
      _ ← InvalidateMtrr s.(csArray);
      mret EFI_SUCCESS
    else
      '(Positive, MtrrNumber) ← lift (GetMtrrNumberAndDirection s.(csBase) s.(csLength));
      if u32 (s.(csUsedMtrr) + MtrrNumber) >? FirmwareVariableMtrrCount then mret EFI_OUT_OF_RESOURCES
      else
        _ ← InvalidateMtrr s.(csArray);
        _ ← program_variable VariableMtrrEnd MemoryType ValidAddr Positive s.(csBase) s.(csLength);
        mret EFI_SUCCESS.

Definition MtrrSetMemoryAttribute (BaseAddress Length Attribute : Z) : M C EFI_STATUS :=
  if negb IsMtrrSupported then mret EFI_UNSUPPORTED else
  FirmwareVariableMtrrCount ← GetFirmwareVariableMtrrCount;
  VariableMtrrCount ← GetVariableMtrrCount;
  let VariableMtrrEnd := variable_end VariableMtrrCount in
  '(ValidBits, ValidAddr) ← MtrrLibInitializeMtrrMask;
  if Length =? 0 then mret EFI_INVALID_PARAMETER
  else if negb (Z.ldiff BaseAddress ValidAddr =? 0) || negb (Z.ldiff Length ValidAddr =? 0) then
    mret EFI_UNSUPPORTED
  else
    '(Status, BaseAddress, Length) ← fixed_loop 12 Attribute BaseAddress Length;
    if EFI_ERROR Status then mret Status
    else if Length =? 0 then mret Status
    else
      set_variable ValidBits ValidAddr FirmwareVariableMtrrCount VariableMtrrEnd
        BaseAddress Length Attribute.

(** ** Reading the attribute of an address *)

(** The search of the fixed register that covers [Address], from [MsrNum] with [n] to go: the
    memory type of its byte. *)
Fixpoint fixed_attribute (Address : Z) (n Index : nat) : M C (option Z) :=
  match n with
  | O => mret None
  | S n =>
      e ← lift (mMtrrLibFixedMtrrTable !! Index);
      if (Address >=? e.(BaseAddress)) && (Address <? e.(BaseAddress) + e.(Length) * 8) then
        let SubIndex := (u32 Address - e.(BaseAddress)) / e.(Length) in
        TempQword ← AsmReadMsr64 e.(Msr);
        mret (Some (Z.land (RShiftU64 TempQword (SubIndex * 8)) 0xFF))
      else fixed_attribute Address n (S Index)
  end.

Fixpoint attribute_loop (Address : Z) (VariableMtrr : list VARIABLE_MTRR) (n Index : nat)
    (MtrrType : Z) : option Z :=
  match n with
  | O => Some MtrrType
  | S n =>
      e ← VariableMtrr !! Index;
      let MtrrType :=
        if e.(vValid) && (Address >=? e.(vBaseAddress)) &&
           (Address <? u64 (e.(vBaseAddress) + e.(vLength)))
        then MtrrPrecedence MtrrType e.(vType) else MtrrType in
      attribute_loop Address VariableMtrr n (S Index) MtrrType
  end.

Definition MtrrGetMemoryAttribute (Address : Z) : M C Z :=
  if negb IsMtrrSupported then mret CacheUncacheable else
  TempQword ← AsmReadMsr64 MTRR_LIB_IA32_MTRR_DEF_TYPE;
  if Z.land TempQword MTRR_LIB_CACHE_MTRR_ENABLED =? 0 then mret CacheUncacheable
  else
    fixed ← (if (Address <? BASE_1MB) && negb (Z.land TempQword MTRR_LIB_CACHE_FIXED_MTRR_ENABLED =? 0)
             then fixed_attribute Address (Z.to_nat MTRR_NUMBER_OF_FIXED_MTRR) 0
             else mret None);
    match fixed with
    | Some MtrrType => GetMemoryCacheTypeFromMtrrType MtrrType
    | None =>
        '(ValidBits, ValidAddr) ← MtrrLibInitializeMtrrMask;
        '(_, VariableMtrr) ← MtrrGetMemoryAttributeInVariableMtrr ValidBits ValidAddr [];
        VariableMtrrCount ← GetVariableMtrrCount;
        _ ← ASSERT (VariableMtrrCount <=? MTRR_NUMBER_OF_VARIABLE_MTRR);
        MtrrType ← lift (attribute_loop Address VariableMtrr (Z.to_nat VariableMtrrCount) 0
                           MTRR_CACHE_INVALID_TYPE);
        GetMemoryCacheTypeFromMtrrType MtrrType
    end.

(** ** Saving and restoring all registers *)

Definition variable_msr (Index : nat) : Z :=
  u32 (MTRR_LIB_IA32_VARIABLE_MTRR_BASE + 2 * Z.of_nat Index).

(** The loop that reads the register pairs into the settings, which stay as they are beyond
    [VariableMtrrCount]. *)
Fixpoint get_variable_loop (n Index : nat) (Mtrr : list (Z * Z)) : M C (list (Z * Z)) :=
  match n with
  | O => mret Mtrr
  | S n =>
      _ ← lift (Mtrr !! Index);
      Base ← AsmReadMsr64 (variable_msr Index);
      Mask ← AsmReadMsr64 (u32 (variable_msr Index + 1));
      get_variable_loop n (S Index) (<[Index := (Base, Mask)]> Mtrr)
  end.

Definition MtrrGetVariableMtrr (VariableSettings : list (Z * Z)) : M C (list (Z * Z)) :=
  if negb IsMtrrSupported then mret VariableSettings else
  VariableMtrrCount ← GetVariableMtrrCount;
  _ ← ASSERT (VariableMtrrCount <=? MTRR_NUMBER_OF_VARIABLE_MTRR);
  get_variable_loop (Z.to_nat VariableMtrrCount) 0 VariableSettings.

Fixpoint set_variable_loop (n Index : nat) (Mtrr : list (Z * Z)) : M C unit :=
  match n with
  | O => mret tt
  | S n =>
      '(Base, Mask) ← lift (Mtrr !! Index);
      _ ← AsmWriteMsr64 (variable_msr Index) Base;
      _ ← AsmWriteMsr64 (u32 (variable_msr Index + 1)) Mask;
      set_variable_loop n (S Index) Mtrr
  end.

Definition MtrrSetVariableMtrrWorker (VariableSettings : list (Z * Z)) : M C unit :=
  VariableMtrrCount ← GetVariableMtrrCount;
  _ ← ASSERT (VariableMtrrCount <=? MTRR_NUMBER_OF_VARIABLE_MTRR);
  set_variable_loop (Z.to_nat VariableMtrrCount) 0 VariableSettings.

Definition MtrrSetVariableMtrr (VariableSettings : list (Z * Z)) : M C unit :=
  if negb IsMtrrSupported then mret tt else
  MtrrContext ← PreMtrrChange;
  _ ← MtrrSetVariableMtrrWorker VariableSettings;
  PostMtrrChange MtrrContext.

Fixpoint get_fixed_loop (n Index : nat) (Mtrr : list Z) : M C (list Z) :=
  match n with
  | O => mret Mtrr
  | S n =>
      e ← lift (mMtrrLibFixedMtrrTable !! Index);
      _ ← lift (Mtrr !! Index);
      v ← AsmReadMsr64 e.(Msr);
      get_fixed_loop n (S Index) (<[Index := v]> Mtrr)
  end.

Definition MtrrGetFixedMtrr (FixedSettings : list Z) : M C (list Z) :=
  if negb IsMtrrSupported then mret FixedSettings else
  get_fixed_loop (Z.to_nat MTRR_NUMBER_OF_FIXED_MTRR) 0 FixedSettings.

Fixpoint set_fixed_loop (n Index : nat) (Mtrr : list Z) : M C unit :=
  match n with
  | O => mret tt
  | S n =>
      e ← lift (mMtrrLibFixedMtrrTable !! Index);
      v ← lift (Mtrr !! Index);
      _ ← AsmWriteMsr64 e.(Msr) v;
      set_fixed_loop n (S Index) Mtrr
  end.

Definition MtrrSetFixedMtrrWorker (FixedSettings : list Z) : M C unit :=
  set_fixed_loop (Z.to_nat MTRR_NUMBER_OF_FIXED_MTRR) 0 FixedSettings.

Definition MtrrSetFixedMtrr (FixedSettings : list Z) : M C unit :=
  if negb IsMtrrSupported then mret tt else
  MtrrContext ← PreMtrrChange;
  _ ← MtrrSetFixedMtrrWorker FixedSettings;
  PostMtrrChange MtrrContext.

Definition MtrrGetAllMtrrs (MtrrSetting : MTRR_SETTINGS) : M C MTRR_SETTINGS :=
  if negb IsMtrrSupported then mret MtrrSetting else
  Fixed ← MtrrGetFixedMtrr MtrrSetting.(Fixed);
  Variables ← MtrrGetVariableMtrr MtrrSetting.(Variables);
  MtrrDefType ← AsmReadMsr64 MTRR_LIB_IA32_MTRR_DEF_TYPE;
  mret {| Fixed := Fixed; Variables := Variables; MtrrDefType := MtrrDefType |}.

Definition MtrrSetAllMtrrs (MtrrSetting : MTRR_SETTINGS) : M C unit :=
  if negb IsMtrrSupported then mret tt else
  MtrrContext ← PreMtrrChange;
  _ ← MtrrSetFixedMtrrWorker MtrrSetting.(Fixed);
  _ ← MtrrSetVariableMtrrWorker MtrrSetting.(Variables);
  _ ← AsmWriteMsr64 MTRR_LIB_IA32_MTRR_DEF_TYPE MtrrSetting.(MtrrDefType);
  PostMtrrChangeEnableCache MtrrContext.
End Lib.
