(* ===== verification/MtrrSpec.v ===== *)
(** * The memory type range registers: what the library relies on and what it means

    [mtrr_view] is the abstract state of the processor that the library acts on; [MtrrCpuOk] states
    how each library call outside [MtrrLib.c] acts on it. In particular a range register may only
    be written while the processor is quiesced (interrupts and caches off, MTRRs disabled): the
    interface promises nothing about other writes, so every theorem about [MtrrLib] also shows
    that it keeps to this rule. The second half is the architecture's meaning of the registers:
    the ranges they cover and the memory type of an address. *)

From S2P Require Import Prelude MtrrDefs Math64 MtrrLib.
From stdpp Require Import gmap.
#[local] Open Scope Z_scope.

Record mtrr_view := {
  msrs : gmap Z Z;       (* the registers, by number *)
  interrupts : bool;     (* interrupts enabled *)
  caching : bool;        (* caches enabled *)
  cr4 : Z
}.

(** The fixed-range registers, the variable-range pairs and all the library's registers. *)
Definition fixed_regs : list Z :=
  [0x250; 0x258; 0x259; 0x268; 0x269; 0x26A; 0x26B; 0x26C; 0x26D; 0x26E; 0x26F].
Definition variable_regs : list Z :=
  [0x200; 0x201; 0x202; 0x203; 0x204; 0x205; 0x206; 0x207;
   0x208; 0x209; 0x20A; 0x20B; 0x20C; 0x20D; 0x20E; 0x20F].
Definition mtrr_regs : list Z := 0xFE :: 0x2FF :: fixed_regs ++ variable_regs.

(** The bits of DEF_TYPE that enable the MTRRs and the fixed ranges. *)
Abbreviation DEF_TYPE := 0x2FF.
Abbreviation ENABLES := 0xC00.

Definition quiesced (v : mtrr_view) : Prop :=
  v.(interrupts) = false /\ v.(caching) = false /\ Z.land (v.(msrs) !!! DEF_TYPE) ENABLES = 0.

Definition set_msr (i x : Z) (v : mtrr_view) : mtrr_view :=
  {| msrs := <[i := x]> v.(msrs); interrupts := v.(interrupts); caching := v.(caching); cr4 := v.(cr4) |}.
Definition set_interrupts (b : bool) (v : mtrr_view) : mtrr_view :=
  {| msrs := v.(msrs); interrupts := b; caching := v.(caching); cr4 := v.(cr4) |}.
Definition set_caching (b : bool) (v : mtrr_view) : mtrr_view :=
  {| msrs := v.(msrs); interrupts := v.(interrupts); caching := b; cr4 := v.(cr4) |}.
Definition set_cr4 (x : Z) (v : mtrr_view) : mtrr_view :=
  {| msrs := v.(msrs); interrupts := v.(interrupts); caching := v.(caching); cr4 := x |}.

(** [x] with bits [s] to [e] replaced by [y]. *)
Definition set_field (s e y x : Z) : Z :=
  Z.lor (Z.ldiff x (Z.shiftl (Z.ones (e - s + 1)) s)) (Z.shiftl y s).

(** The interface between the library and the processor. *)
Class MtrrCpuOk (C : Type) {CPU : MtrrCpu C} := {
  view : C -> mtrr_view;
  (* bits that a register keeps *)
  reg_width : Z -> Z;
  (* bits of CR4 that the processor has *)
  cr4_supported : Z;
  (* results of CPUID, leaf EAX in, EAX out *)
  cpuid : Z -> Z;
  (* width of physical addresses, as CPUID reports it *)
  phys_bits : Z;

  wp_read i (Q : Z -> C -> Prop) c :
    i ∈ mtrr_regs -> (forall c', view c' = view c -> Q ((view c).(msrs) !!! i) c') ->
    wp (AsmReadMsr64 i) Q c;
  wp_write i x (Q : Z -> C -> Prop) c :
    i ∈ mtrr_regs -> i <> 0xFE -> in_width (reg_width i) x -> quiesced (view c) ->
    (forall c' r, view c' = set_msr i x (view c) -> Q r c') ->
    wp (AsmWriteMsr64 i x) Q c;
  (* the enable field of DEF_TYPE is the one field the library writes *)
  wp_bit_field y (Q : Z -> C -> Prop) c :
    0 <= y <= 3 -> (view c).(interrupts) = false -> (view c).(caching) = false ->
    (forall c' r, view c' = set_msr DEF_TYPE (set_field 10 11 y ((view c).(msrs) !!! DEF_TYPE)) (view c) ->
       Q r c') ->
    wp (AsmMsrBitFieldWrite64 DEF_TYPE 10 11 y) Q c;
  wp_save_interrupts (Q : bool -> C -> Prop) c :
    (forall c', view c' = set_interrupts false (view c) -> Q (view c).(interrupts) c') ->
    wp SaveAndDisableInterrupts Q c;
  wp_set_interrupts b (Q : unit -> C -> Prop) c :
    (forall c', view c' = set_interrupts b (view c) -> Q tt c') -> wp (SetInterruptState b) Q c;
  wp_disable_cache (Q : unit -> C -> Prop) c :
    (forall c', view c' = set_caching false (view c) -> Q tt c') -> wp AsmDisableCache Q c;
  wp_enable_cache (Q : unit -> C -> Prop) c :
    (forall c', view c' = set_caching true (view c) -> Q tt c') -> wp AsmEnableCache Q c;
  wp_read_cr4 (Q : Z -> C -> Prop) c :
    (forall c', view c' = view c -> Q (view c).(cr4) c') -> wp AsmReadCr4 Q c;
  wp_write_cr4 x (Q : unit -> C -> Prop) c :
    (forall c', view c' = set_cr4 (Z.land x cr4_supported) (view c) -> Q tt c') -> wp (AsmWriteCr4 x) Q c;
  wp_flush_tlb (Q : unit -> C -> Prop) c :
    (forall c', view c' = view c -> Q tt c') -> wp CpuFlushTlb Q c;
  wp_cpuid i (Q : Z -> C -> Prop) c :
    (forall c', view c' = view c -> Q (cpuid i) c') -> wp (AsmCpuid i) Q c;

  (* register contents fit *)
  reg_width_fixed i : i ∈ fixed_regs -> reg_width i = 64;
  reg_width_bounds i : i ∈ mtrr_regs -> 32 <= reg_width i <= 64;
  view_width c i : i ∈ mtrr_regs -> in_width (reg_width i) ((view c).(msrs) !!! i);
  view_cr4 c : Z.land (view c).(cr4) cr4_supported = (view c).(cr4);
  cpuid_max : cpuid 0x80000000 >= 0x80000008;
  cpuid_phys : u8 (cpuid 0x80000008) = phys_bits;
  phys_bits_ok : 12 < phys_bits <= 52 /\ forall i, i ∈ variable_regs -> phys_bits <= reg_width i;

  (* the two arithmetic helpers *)
  GetPowerOfTwo32_spec x : 0 < x < 2 ^ 32 -> GetPowerOfTwo32 x = 2 ^ Z.log2 x;
  GetPowerOfTwo32_0 : GetPowerOfTwo32 0 = 0;
  LowBitSet64_spec x :
    0 < x < 2 ^ 64 ->
    0 <= LowBitSet64 x < 64 /\ Z.testbit x (LowBitSet64 x) = true /\
    forall i, i < LowBitSet64 x -> Z.testbit x i = false
}.

(** ** The meaning of the registers *)

Section Meaning.
Context {C : Type} {CPU : MtrrCpu C} {OK : MtrrCpuOk C}.

(** The two masks, for physical addresses of [phys_bits] bits. *)
Definition VB : Z := Z.ones phys_bits.
Definition VA : Z := Z.ldiff (Z.ones phys_bits) (Z.ones 12).

(** Number of variable pairs. *)
Definition vcnt (m : gmap Z Z) : nat := Z.to_nat (Z.land (m !!! 0xFE) 0xFF).

(** A pair of registers: the base register and the mask register. *)
Abbreviation rpair := (Z * Z)%type.

Definition pair_at (m : gmap Z Z) (n : nat) : rpair :=
  (m !!! (0x200 + 2 * Z.of_nat n), m !!! (0x200 + 2 * Z.of_nat n + 1)).

Definition enabled (p : rpair) : bool := negb (Z.land p.2 0x800 =? 0).

(** The pairs in use. *)
Definition active (m : gmap Z Z) : list rpair :=
  base.filter (fun p => enabled p = true) (pair_at m <$> seq 0 (vcnt m)).

(** A pair covers the addresses that agree with its base where its mask has ones. *)
Definition covers (p : rpair) (a : Z) : bool :=
  Z.land a (Z.land p.2 VA) =? Z.land p.1 (Z.land p.2 VA).

Definition type_of (p : rpair) : Z := Z.land p.1 0xFF.

(** The memory types that the pairs in use give to an address. *)
Definition types_at (m : gmap Z Z) (a : Z) : list Z :=
  type_of <$> base.filter (fun p => covers p a = true) (active m).

(** The architecture's rule where ranges overlap: uncacheable wins, write-through wins over
    write-back, equal types agree; anything else is undefined. *)
Definition combined_type (ts : list Z) : option Z :=
  match ts with
  | [] => None
  | t :: _ =>
      if existsb (Z.eqb 0) ts then Some 0
      else if forallb (Z.eqb t) ts then Some t
      else if forallb (fun t => (t =? 4) || (t =? 6)) ts then Some 4
      else None
  end.
End Meaning.

(** ** The library's small operations, in the view *)

Section Basics.
Context {MH : MtrrHeader} {MHO : MtrrHeaderOk} {C : Type} {CPU : MtrrCpu C} {OK : MtrrCpuOk C}.
Implicit Types (c : C) (v : mtrr_view) (m : gmap Z Z).

(** Registers that firmware may use: all but the reserved ones. *)
Definition fwcnt m : Z := Z.max 0 (Z.of_nat (vcnt m) - RESERVED_FIRMWARE_VARIABLE_MTRR_NUMBER).

Lemma wp_GetVariableMtrrCount (Q : Z -> C -> Prop) c :
  (vcnt (view c).(msrs) <= 8)%nat ->
  (forall c', view c' = view c -> Q (Z.of_nat (vcnt (view c).(msrs))) c') ->
  wp GetVariableMtrrCount Q c.
Proof.
  intros Hv HQ. unfold GetVariableMtrrCount. cbn [negb IsMtrrSupported].
  rewrite CAP_val, VCNT_MASK_val. apply wp_bind, wp_read; [by_compute|]. intros c1 E1.
  assert (Hw : 0 <= Z.land (msrs (view c) !!! 0xFE) 0xFF <= 8).
  { unfold vcnt in Hv. split; [apply Z.land_nonneg; by right|lia]. }
  rewrite wrap_small by lia. apply wp_bind, wp_assert.
  - pose proof NUMBER_VARIABLE_val. lia.
  - apply wp_ret. specialize (HQ c1 E1). unfold vcnt in HQ. by rewrite Z2Nat.id in HQ by lia.
Qed.

Lemma wp_GetFirmwareVariableMtrrCount (Q : Z -> C -> Prop) c :
  (vcnt (view c).(msrs) <= 8)%nat ->
  (forall c', view c' = view c -> Q (fwcnt (view c).(msrs)) c') ->
  wp GetFirmwareVariableMtrrCount Q c.
Proof.
  intros Hv HQ. unfold GetFirmwareVariableMtrrCount.
  apply wp_bind, wp_GetVariableMtrrCount; [done|]. intros c1 E1. specialize (HQ c1 E1).
  unfold fwcnt in HQ. destruct (Z.ltb_spec (Z.of_nat (vcnt (msrs (view c)))) RESERVED_FIRMWARE_VARIABLE_MTRR_NUMBER).
  - apply wp_ret. by rewrite Z.max_l in HQ by lia.
  - apply wp_ret. by rewrite Z.max_r in HQ by lia.
Qed.

Lemma wp_MtrrGetDefaultMemoryType (Q : Z -> C -> Prop) c :
  (forall c', view c' = view c -> Q (Z.land ((view c).(msrs) !!! DEF_TYPE) 7) c') ->
  wp MtrrGetDefaultMemoryType Q c.
Proof.
  intros HQ. unfold MtrrGetDefaultMemoryType. cbn [negb IsMtrrSupported].
  rewrite DEF_TYPE_val. apply wp_bind, wp_read; [by_compute|]. intros c1 E1. by apply wp_ret, HQ.
Qed.

Lemma wp_MtrrLibInitializeMtrrMask (Q : Z * Z -> C -> Prop) c :
  (forall c', view c' = view c -> Q (VB, VA) c') -> wp MtrrLibInitializeMtrrMask Q c.
Proof.
  intros HQ. unfold MtrrLibInitializeMtrrMask. apply wp_bind, wp_cpuid. intros c1 E1.
  pose proof cpuid_max. pose proof phys_bits_ok as [Hp _].
  destruct (Z.geb_spec (cpuid 0x80000000) 0x80000008); [|lia].
  apply wp_bind, wp_cpuid. intros c2 E2. rewrite cpuid_phys.
  assert (HVB : u64 (LShiftU64 1 phys_bits - 1) = VB).
  { unfold LShiftU64, VB. rewrite Z.shiftl_1_l, Z.ones_equiv.
    assert (2 ^ phys_bits < 2 ^ 64) by (apply Z.pow_lt_mono_r; lia).
    assert (0 < 2 ^ phys_bits) by (apply Z.pow_pos_nonneg; lia).
    rewrite (wrap_small 64 (2 ^ phys_bits)) by lia. rewrite wrap_small by lia. lia. }
  assert (HVA : Z.land VB 0xfffffffffffff000 = VA).
  { unfold VA, VB. change 0xfffffffffffff000 with (Z.ldiff (Z.ones 64) (Z.ones 12)).
    bits i Hi. bit_cases. }
  rewrite HVB, HVA. apply wp_ret, HQ. by etrans.
Qed.

(** The state in which the library changes registers. *)
Definition quiesce v : mtrr_view :=
  {| msrs := <[DEF_TYPE := set_field 10 11 0 (v.(msrs) !!! DEF_TYPE)]> v.(msrs);
     interrupts := false; caching := false; cr4 := Z.land (Z.ldiff v.(cr4) (2 ^ 7)) cr4_supported |}.

Lemma quiesce_quiesced v : quiesced (quiesce v).
Proof.
  unfold quiesced, quiesce. cbn [interrupts caching msrs]. split_and!; [done..|].
  rewrite lookup_total_insert_eq. unfold set_field. change ENABLES with (Z.shiftl (Z.ones 2) 10).
  change (11 - 10 + 1) with 2. rewrite Z.shiftl_0_l, Z.lor_0_r.
  bits i Hi. bit_cases; by destruct (Z.testbit _ _).
Qed.

Lemma wp_PreMtrrChange (Q : MTRR_CONTEXT -> C -> Prop) c :
  (forall c', view c' = quiesce (view c) ->
     Q {| Cr4 := (view c).(cr4); InterruptState := (view c).(interrupts) |} c') ->
  wp PreMtrrChange Q c.
Proof.
  intros HQ. unfold PreMtrrChange.
  apply wp_bind, wp_save_interrupts. intros c1 E1. apply wp_bind, wp_disable_cache. intros c2 E2.
  apply wp_bind, wp_read_cr4. intros c3 E3. apply wp_bind, wp_write_cr4. intros c4 E4.
  apply wp_bind, wp_flush_tlb. intros c5 E5. apply wp_bind. rewrite DEF_TYPE_val.
  assert (E : view c5 = {| msrs := (view c).(msrs); interrupts := false; caching := false;
                           cr4 := Z.land (Z.ldiff (view c).(cr4) (2 ^ 7)) cr4_supported |}).
  { by rewrite E5, E4, E3, E2, E1. }
  assert (Ec : (view c2).(cr4) = (view c).(cr4)) by (by rewrite E2, E1).
  apply wp_bit_field; [lia|by rewrite E|by rewrite E|]. intros c6 r E6. apply wp_ret.
  rewrite Ec. apply HQ. by rewrite E6, E.
Qed.

Lemma wp_PostMtrrChangeEnableCache ctx (Q : unit -> C -> Prop) c :
  (forall c', view c' = {| msrs := (view c).(msrs); interrupts := ctx.(InterruptState); caching := true;
                           cr4 := Z.land ctx.(Cr4) cr4_supported |} -> Q tt c') ->
  wp (PostMtrrChangeEnableCache ctx) Q c.
Proof.
  intros HQ. unfold PostMtrrChangeEnableCache.
  apply wp_bind, wp_flush_tlb. intros c1 E1. apply wp_bind, wp_enable_cache. intros c2 E2.
  apply wp_bind, wp_write_cr4. intros c3 E3. apply wp_set_interrupts. intros c4 E4.
  apply HQ. by rewrite E4, E3, E2, E1.
Qed.

Lemma wp_PostMtrrChange ctx (Q : unit -> C -> Prop) c :
  quiesced (view c) ->
  (forall c', view c' =
     {| msrs := <[DEF_TYPE := set_field 10 11 3 ((view c).(msrs) !!! DEF_TYPE)]> (view c).(msrs);
        interrupts := ctx.(InterruptState); caching := true;
        cr4 := Z.land ctx.(Cr4) cr4_supported |} -> Q tt c') ->
  wp (PostMtrrChange ctx) Q c.
Proof.
  intros (Hi & Hc & _) HQ. unfold PostMtrrChange. rewrite DEF_TYPE_val.
  apply wp_bind, wp_bit_field; [lia|done|done|]. intros c1 r E1.
  apply wp_PostMtrrChangeEnableCache. intros c2 E2. apply HQ. by rewrite E2, E1.
Qed.

Lemma set_field_enable x : set_field 10 11 3 (set_field 10 11 0 x) = Z.lor x ENABLES.
Proof.
  unfold set_field. change (11 - 10 + 1) with 2. change 3 with (Z.ones 2).
  change ENABLES with (Z.shiftl (Z.ones 2) 10). rewrite Z.shiftl_0_l, Z.lor_0_r.
  bits i Hi. bit_cases; by destruct (Z.testbit _ _).
Qed.

(** The state after a complete change of registers: those in [ws] are written, the MTRRs and the
    caches are enabled, the interrupt state and CR4 are as before. *)
Definition write_regs (ws : list (Z * Z)) m : gmap Z Z := foldl (fun m w => <[w.1 := w.2]> m) m ws.

Definition changed (ws : list (Z * Z)) v : mtrr_view :=
  {| msrs := <[DEF_TYPE := Z.lor (v.(msrs) !!! DEF_TYPE) ENABLES]> (write_regs ws v.(msrs));
     interrupts := v.(interrupts); caching := true; cr4 := v.(cr4) |}.

Lemma write_regs_insert ws m i x :
  Forall (fun w => w.1 <> i) ws -> write_regs ws (<[i := x]> m) = <[i := x]> (write_regs ws m).
Proof.
  intros Hws. revert m. induction Hws as [|w ws Hw Hws IH]; intros m; [done|].
  cbn. rewrite insert_insert_ne by done. apply IH.
Qed.

Lemma write_regs_lookup ws m i :
  Forall (fun w => w.1 <> i) ws -> write_regs ws m !!! i = m !!! i.
Proof.
  intros Hws. revert m. induction Hws as [|w ws Hw Hws IH]; intros m; [done|].
  change (write_regs ws (<[w.1 := w.2]> m) !!! i = m !!! i). rewrite IH.
  by apply lookup_total_insert_ne.
Qed.

(** A register change between the two brackets. *)
Lemma wp_bracket {A B} (body : M C A) (k : A -> M C B) (Q : B -> C -> Prop) c :
  (forall c1, view c1 = quiesce (view c) ->
     wp body (fun a c2 => exists ws,
       Forall (fun w => w.1 <> DEF_TYPE) ws /\
       view c2 = {| msrs := write_regs ws (view c1).(msrs); interrupts := false; caching := false;
                    cr4 := (view c1).(cr4) |} /\
       forall c3, view c3 = changed ws (view c) -> wp (k a) Q c3) c1) ->
  wp (ctx ← PreMtrrChange; a ← body; _ ← PostMtrrChange ctx; k a) Q c.
Proof.
  intros HB. apply wp_bind, wp_PreMtrrChange. intros c1 E1. apply wp_bind.
  eapply wp_mono; [by apply HB|]. intros a c2 (ws & Hws & E2 & HQ).
  assert (Hd : msrs (view c2) !!! DEF_TYPE = set_field 10 11 0 (msrs (view c) !!! DEF_TYPE)).
  { rewrite E2, E1. cbn [msrs quiesce]. rewrite write_regs_lookup by done. apply lookup_total_insert_eq. }
  apply wp_bind, wp_PostMtrrChange.
  { destruct (quiesce_quiesced (view c)) as (_ & _ & Hq). rewrite <- E1 in Hq.
    unfold quiesced. rewrite E2. cbn [msrs interrupts caching]. split_and!; [done..|].
    rewrite write_regs_lookup by done. exact Hq. }
  intros c3 E3. apply HQ. rewrite E3. unfold changed. rewrite Hd, set_field_enable, E2, E1.
  cbn [msrs quiesce InterruptState Cr4]. rewrite view_cr4.
  rewrite write_regs_insert by done. by rewrite insert_insert_eq.
Qed.
End Basics.
