(* ===== verification/MtrrQuark.v ===== *)
(** * The MTRR library on the Quark processor

    [MtrrLib] is written against the interface [MtrrCpuOk]; here the register accesses of
    [QuarkMsr] (model-specific registers over the message bus) and plain models of the remaining
    processor operations discharge it. *)

From S2P Require Import Prelude QNCAccess MtrrDefs QuarkMsr Math64 MtrrLib MtrrSpec.
From stdpp Require Import gmap.
#[local] Open Scope Z_scope.

(** The processor: the registers that are reached over the bus, and the state that the library
    brackets its changes with. *)
Record quark := { q_cpu : cpu; q_interrupts : bool; q_caching : bool; q_cr4 : Z }.

Definition on_cpu {A} (m : M cpu A) : M quark A := fun s =>
  match m s.(q_cpu) with
  | Some (a, c) =>
      Some (a, {| q_cpu := c; q_interrupts := s.(q_interrupts); q_caching := s.(q_caching); q_cr4 := s.(q_cr4) |})
  | None => None
  end.

Definition q_set_interrupts (b : bool) (s : quark) : quark :=
  {| q_cpu := s.(q_cpu); q_interrupts := b; q_caching := s.(q_caching); q_cr4 := s.(q_cr4) |}.
Definition q_set_caching (b : bool) (s : quark) : quark :=
  {| q_cpu := s.(q_cpu); q_interrupts := s.(q_interrupts); q_caching := b; q_cr4 := s.(q_cr4) |}.
Definition q_set_cr4 (x : Z) (s : quark) : quark :=
  {| q_cpu := s.(q_cpu); q_interrupts := s.(q_interrupts); q_caching := s.(q_caching); q_cr4 := x |}.

(** The bits of CR4 that [AsmWriteCr4] of [Ia32/WriteCr4.c] keeps. *)
Definition CR4_MASK : Z := 0xFFFFF9F7.

(** The lowest bit set among [n] bits from [i], or -1. *)
Fixpoint low_bit (n : nat) (i x : Z) : Z :=
  match n with
  | O => -1
  | S n => if Z.testbit x i then i else low_bit n (i + 1) x
  end.

Lemma low_bit_spec n i x b :
  i <= b < i + Z.of_nat n -> Z.testbit x b = true ->
  let k := low_bit n i x in
  i <= k <= b /\ Z.testbit x k = true /\ forall j, i <= j < k -> Z.testbit x j = false.
Proof.
  revert i. induction n as [|n IH]; intros i Hb Hset; [lia|]. cbn [low_bit].
  destruct (Z.testbit x i) eqn:E.
  - split_and!; [lia|lia|done|lia].
  - destruct (IH (i + 1)) as (Hk & Hkb & Hlow); [|done|].
    { destruct (Z.eq_dec i b) as [-> |]; [congruence|lia]. }
    split_and!; [lia|lia|done|]. intros j Hj. destruct (Z.eq_dec j i) as [-> |]; [done|apply Hlow; lia].
Qed.

Section Quark.
Context {MB : MessageBus} {MH : MtrrHeader}.

#[export] Instance quark_mtrr : MtrrCpu quark := {|
  MtrrLib.AsmReadMsr64 i := on_cpu (QuarkMsr.AsmReadMsr64 i);
  MtrrLib.AsmWriteMsr64 i x := on_cpu (QuarkMsr.AsmWriteMsr64 i x);
  AsmMsrBitFieldWrite64 i s e y :=
    x ← on_cpu (QuarkMsr.AsmReadMsr64 i); on_cpu (QuarkMsr.AsmWriteMsr64 i (set_field s e y x));
  SaveAndDisableInterrupts :=
    b ← gets q_interrupts; _ ← modify (q_set_interrupts false); mret b;
  SetInterruptState b := modify (q_set_interrupts b);
  AsmDisableCache := modify (q_set_caching false);
  AsmEnableCache := modify (q_set_caching true);
  AsmReadCr4 := gets (fun s => Z.land s.(q_cr4) CR4_MASK);
  AsmWriteCr4 x := modify (q_set_cr4 (Z.land x CR4_MASK));
  CpuFlushTlb := mret tt;
  AsmCpuid i := mret (if i =? 0x80000000 then 0x80000008 else 32);
  GetPowerOfTwo32 x := if x =? 0 then 0 else 2 ^ Z.log2 x;
  LowBitSet64 x := low_bit 64 0 x
|}.

Definition quark_width (i : Z) : Z := if decide (i ∈ fixed_regs) then 64 else 32.

(** A map of the library's registers. *)
Definition reg_map (l : list Z) (f : Z -> Z) : gmap Z Z := list_to_map ((fun i => (i, f i)) <$> l).

Definition quark_view (s : quark) : mtrr_view :=
  {| msrs := reg_map mtrr_regs (msr_at s.(q_cpu));
     interrupts := s.(q_interrupts); caching := s.(q_caching); cr4 := Z.land s.(q_cr4) CR4_MASK |}.

Context {MHO : MtrrHeaderOk} (Hplain : mtrr_plain).

Lemma reg_map_lookup l f i : NoDup l -> i ∈ l -> reg_map l f !! i = Some (f i).
Proof.
  intros Hl Hi. unfold reg_map. apply elem_of_list_to_map_1.
  - rewrite <- list_fmap_compose. change (NoDup (id <$> l)). by rewrite list_fmap_id.
  - apply list_elem_of_fmap. by exists i.
Qed.

Lemma reg_map_lookup_none l f i : i ∉ l -> reg_map l f !! i = None.
Proof.
  intros Hi. unfold reg_map. apply not_elem_of_list_to_map_1.
  rewrite <- list_fmap_compose. change (i ∉ (id <$> l)). by rewrite list_fmap_id.
Qed.

Lemma reg_map_ext l f g : (forall i, f i = g i) -> reg_map l f = reg_map l g.
Proof. intros He. unfold reg_map. f_equal. apply list_fmap_ext. intros k i _. by rewrite He. Qed.

Lemma mtrr_regs_NoDup : NoDup mtrr_regs.
Proof. by_compute. Qed.

#[local] Opaque mtrr_regs.

Lemma quark_lookup s i : i ∈ mtrr_regs -> (quark_view s).(msrs) !! i = Some (msr_at s.(q_cpu) i).
Proof. intros Hi. apply reg_map_lookup; [apply mtrr_regs_NoDup|exact Hi]. Qed.

Lemma quark_lookup_none s i : i ∉ mtrr_regs -> (quark_view s).(msrs) !! i = None.
Proof. apply reg_map_lookup_none. Qed.

Lemma quark_total s i : i ∈ mtrr_regs -> (quark_view s).(msrs) !!! i = msr_at s.(q_cpu) i.
Proof. intros Hi. unfold lookup_total, map_lookup_total. by rewrite quark_lookup. Qed.

(** The library's registers are all reached over the bus, with the width of the interface. *)
Lemma mtrr_regs_mapped i : i ∈ mtrr_regs -> mapped i.
Proof.
  intros Hi. unfold mapped. rewrite TranslateMsrIndex_eq.
  assert (Hall : forallb (fun i => is_mtrr (TranslateMsrIndex_from (rows ++ [(0xFFFFFFFF, 0xFF)]) i)) mtrr_regs = true)
    by (vm_compute; reflexivity).
  rewrite forallb_forall in Hall. apply Hall. by apply list_elem_of_In.
Qed.

Lemma mtrr_regs_width i :
  i ∈ mtrr_regs -> is_fixed (TranslateMsrIndex i) = bool_decide (i ∈ fixed_regs).
Proof.
  intros Hi. rewrite TranslateMsrIndex_eq.
  assert (Hall : forallb (fun i => Bool.eqb (is_fixed (TranslateMsrIndex_from (rows ++ [(0xFFFFFFFF, 0xFF)]) i))
    (bool_decide (i ∈ fixed_regs))) mtrr_regs = true) by (vm_compute; reflexivity).
  rewrite forallb_forall in Hall. apply Bool.eqb_prop, Hall. by apply list_elem_of_In.
Qed.

Lemma msr_at_width s i : i ∈ mtrr_regs -> in_width (quark_width i) (msr_at s i).
Proof.
  intros Hi. unfold msr_at, quark_width, AsmReadMsrReturnResult. rewrite mtrr_regs_width by done.
  destruct (decide (i ∈ fixed_regs)) as [Hf|Hf].
  - rewrite bool_decide_eq_true_2 by done. apply lor_in_width; [lia| |].
    + apply (in_width_mono 32); [lia|]. by apply wrap_in_width.
    + assert (Hw : in_width 32 (u32 (regs (bus s) (hb (TranslateMsrIndex i + 1))))) by (by apply wrap_in_width).
      unfold in_width in *. rewrite Z.shiftl_mul_pow2 by lia. lia.
  - rewrite bool_decide_eq_false_2 by done. change (u32 0) with 0. rewrite Z.shiftl_0_l, Z.lor_0_r.
    by apply wrap_in_width.
Qed.

Lemma msr_fit_id i x : i ∈ mtrr_regs -> in_width (quark_width i) x -> msr_fit i x = x.
Proof.
  intros Hi. unfold quark_width, msr_fit. rewrite mtrr_regs_width by done.
  destruct (decide (i ∈ fixed_regs)); [rewrite bool_decide_eq_true_2 by done|rewrite bool_decide_eq_false_2 by done];
    apply wrap_small.
Qed.

Lemma wp_on_cpu {A} (m : M cpu A) (Q : A -> quark -> Prop) s :
  wp m (fun a c => Q a {| q_cpu := c; q_interrupts := s.(q_interrupts); q_caching := s.(q_caching);
                          q_cr4 := s.(q_cr4) |}) s.(q_cpu) ->
  wp (on_cpu m) Q s.
Proof. intros (a & c & Hm & HQ). eexists _, _. split; [|exact HQ]. unfold on_cpu. by rewrite Hm. Qed.

Lemma wp_quark_read i (Q : Z -> quark -> Prop) s :
  i ∈ mtrr_regs ->
  (forall s', quark_view s' = quark_view s -> Q ((quark_view s).(msrs) !!! i) s') ->
  wp (MtrrLib.AsmReadMsr64 i) Q s.
Proof.
  intros Hi HQ. apply wp_on_cpu, wp_AsmReadMsr64; [by apply mtrr_regs_mapped|]. intros c' [Hr _].
  rewrite <- (quark_total s) by done. apply HQ. unfold quark_view. cbn [q_cpu q_interrupts q_caching q_cr4].
  rewrite (reg_map_ext _ (msr_at c') (msr_at (q_cpu s))); [done|].
  intros j. apply msr_at_ext. intros p _. by rewrite Hr.
Qed.

Lemma wp_quark_write i x (Q : Z -> quark -> Prop) s :
  i ∈ mtrr_regs -> i <> 0xFE -> in_width (quark_width i) x ->
  (forall s' r, quark_view s' = set_msr i x (quark_view s) -> Q r s') ->
  wp (MtrrLib.AsmWriteMsr64 i x) Q s.
Proof.
  intros Hi Hne Hx HQ. apply wp_on_cpu, wp_AsmWriteMsr64; [done|by apply mtrr_regs_mapped|by rewrite CAP_val|].
  intros c' Hc _. apply HQ. set (s' := {| q_cpu := c' |}).
  enough (Hm : msrs (quark_view s') = <[i := x]> (msrs (quark_view s))).
  { unfold set_msr. rewrite <- Hm. done. }
  apply map_eq. intros j.
  destruct (decide (j ∈ mtrr_regs)) as [Hj|Hj].
  - rewrite quark_lookup by done. cbn [q_cpu s']. rewrite Hc by (by apply mtrr_regs_mapped).
    destruct (decide (j = i)) as [-> |Hji].
    + rewrite lookup_insert_eq. by rewrite msr_fit_id.
    + rewrite lookup_insert_ne by done. by rewrite quark_lookup.
  - rewrite quark_lookup_none by done. rewrite lookup_insert_ne by (intros ->; done).
    by rewrite quark_lookup_none.
Qed.

(** The interface holds of the Quark processor when the host bridge keeps what is written to its
    registers. *)
#[export] Program Instance quark_ok : MtrrCpuOk quark := {|
  view := quark_view; reg_width := quark_width; cr4_supported := CR4_MASK;
  cpuid i := if i =? 0x80000000 then 0x80000008 else 32; phys_bits := 32
|}.
Next Obligation. intros i Q c Hi HQ. by apply wp_quark_read. Qed.
Next Obligation. intros i x Q c Hi Hne Hx _ HQ. by apply wp_quark_write. Qed.
Next Obligation.
  intros y Q c Hy Hi Hc HQ. assert (HD : DEF_TYPE ∈ mtrr_regs) by by_compute.
  apply wp_bind. eapply (wp_quark_read DEF_TYPE); [exact HD|]. intros s' Es.
  eapply (wp_quark_write DEF_TYPE); [exact HD|done| |].
  - pose proof (msr_at_width (q_cpu c) DEF_TYPE HD) as Hw. rewrite <- quark_total in Hw by exact HD.
    assert (Hqw : quark_width DEF_TYPE = 32) by reflexivity. rewrite Hqw in *. unfold set_field. apply lor_in_width; [lia| |].
    + apply in_width_of_bits; [lia| |].
      * apply Z.ldiff_nonneg. left. apply Hw.
      * intros i Hi'. rewrite Z.ldiff_spec. by rewrite (in_width_bit 32).
    + unfold in_width. rewrite Z.shiftl_mul_pow2 by lia. change (2 ^ 10) with 1024. lia.
  - intros s2 r E2. apply HQ. by rewrite E2, Es.
Qed.
Next Obligation. intros Q c HQ. apply wp_bind, wp_gets, wp_bind, wp_modify, wp_ret. by apply HQ. Qed.
Next Obligation. intros b Q c HQ. apply wp_modify. by apply HQ. Qed.
Next Obligation. intros Q c HQ. apply wp_modify. by apply HQ. Qed.
Next Obligation. intros Q c HQ. apply wp_modify. by apply HQ. Qed.
Next Obligation. intros Q c HQ. apply wp_gets. by apply HQ. Qed.
Next Obligation.
  intros x Q c HQ. apply wp_modify, HQ. unfold quark_view, set_cr4. cbn [q_cr4 q_set_cr4 q_cpu q_interrupts q_caching].
  by rewrite <- !Z.land_assoc, Z.land_diag.
Qed.
Next Obligation. intros Q c HQ. apply wp_ret. by apply HQ. Qed.
Next Obligation. intros i Q c HQ. apply wp_ret. by apply HQ. Qed.
Next Obligation. intros i Hi. unfold quark_width. by rewrite decide_True. Qed.
Next Obligation. intros i Hi. unfold quark_width. destruct (decide _); lia. Qed.
Next Obligation. intros c i Hi. rewrite quark_total by done. by apply msr_at_width. Qed.
Next Obligation. intros c. unfold quark_view. cbn. by rewrite <- Z.land_assoc, Z.land_diag. Qed.
Next Obligation. done. Qed.
Next Obligation. done. Qed.
Next Obligation. split; [lia|]. intros i Hi. unfold quark_width. destruct (decide _); lia. Qed.
Next Obligation. intros x Hx. cbn. destruct (Z.eqb_spec x 0); [lia|done]. Qed.
Next Obligation. done. Qed.
Next Obligation.
  intros x Hx. change (LowBitSet64 x) with (low_bit 64 0 x).
  destruct (low_bit_spec 64 0 x (Z.log2 x)) as (Hk & Hb & Hlow).
  - assert (Z.log2 x < 64) by (apply Z.log2_lt_pow2; lia). pose proof (Z.log2_nonneg x). lia.
  - apply Z.bit_log2. lia.
  - assert (Z.log2 x < 64) by (apply Z.log2_lt_pow2; lia). split_and!; [lia|lia|done|].
    intros i Hi. destruct (Z.lt_ge_cases i 0); [by apply Z.testbit_neg_r|apply Hlow; lia].
Qed.
End Quark.

(** A Quark processor as reset leaves it, for concrete runs: eight register pairs, none in use. *)
Definition reset_quark : quark :=
  {| q_cpu := {| bus := {| MDR := 0; MEA := 0; DeviceId := 0;
                           regs := fun r => if decide (r = hb 0x40) then 0x508 else 0; writes := [] |};
                 real_msr := fun _ => 0 |};
     q_interrupts := true; q_caching := true; q_cr4 := 0 |}.

Lemma plain_mtrr : mtrr_plain (MB := PlainBus).
Proof. intros q v0 v _. reflexivity. Qed.
