(* ===== verification/MtrrRange.v ===== *)
(** * How [MtrrLib] cuts a memory range into registers

    The arithmetic of [MtrrLib.c]: [Power2MaxMemory], the counting loops of
    [GetMtrrNumberAndDirection], and the blocks that the programming loops of
    [MtrrSetMemoryAttribute] make of a range. *)

From S2P Require Import Prelude QNCAccess MtrrDefs QuarkMsr Math64 MtrrLib MtrrSpec MtrrQuark.
From stdpp Require Import gmap.
#[local] Open Scope Z_scope.

(** A block of addresses: base and length. *)
Abbreviation mblock := (Z * Z)%type.

Definition in_block (a : Z) (x : mblock) : bool := (x.1 <=? a) && (a <? x.1 + x.2).

(** Number of blocks that contain an address. *)
Definition hits (bs : list mblock) (a : Z) : nat := length (base.filter (fun x => in_block a x = true) bs).

Lemma hits_app bs1 bs2 a : hits (bs1 ++ bs2) a = (hits bs1 a + hits bs2 a)%nat.
Proof. unfold hits. by rewrite filter_app, length_app. Qed.

Lemma hits_cons x bs a : hits (x :: bs) a = ((if in_block a x then 1 else 0) + hits bs a)%nat.
Proof. unfold hits. rewrite filter_cons. by destruct (in_block a x). Qed.

Section Range.
Context {MH : MtrrHeader} {MHO : MtrrHeaderOk} {C : Type} {CPU : MtrrCpu C} {OK : MtrrCpuOk C}.

(** A block that one register pair can describe: a power of two of at least a page, aligned to its
    size, inside the physical address space. *)
Definition block_ok (x : mblock) : Prop :=
  exists k, 12 <= k /\ x.2 = 2 ^ k /\ (2 ^ k | x.1) /\ 0 <= x.1 /\ x.1 + x.2 <= 2 ^ phys_bits.

(** The blocks [bs] cover each address from [b] up to [e] exactly once, and no other. *)
Definition tiling (b e : Z) (bs : list mblock) : Prop :=
  Forall block_ok bs /\ b <= e /\
  forall a, hits bs a = if (b <=? a) && (a <? e) then 1%nat else 0%nat.

Lemma tiling_nil b : tiling b b [].
Proof. split_and!; [done|lia|]. intros a. unfold hits. cbn. bools; done. Qed.

Lemma tiling_app b m e bs1 bs2 : tiling b m bs1 -> tiling m e bs2 -> tiling b e (bs1 ++ bs2).
Proof.
  intros (H1 & Hle1 & Hh1) (H2 & Hle2 & Hh2). split_and!; [by apply Forall_app|lia|].
  intros a. rewrite hits_app, Hh1, Hh2. bools; done.
Qed.

Lemma tiling_single B L : block_ok (B, L) -> tiling B (B + L) [(B, L)].
Proof.
  intros Hb. split_and!; [by repeat constructor| |].
  - destruct Hb as (k & Hk & HL & _). cbn in *. subst L. assert (0 < 2 ^ k) by (apply Z.pow_pos_nonneg; lia). lia.
  - intros a. rewrite hits_cons. unfold in_block, hits. cbn. bools; done.
Qed.

Lemma tiling_app_rev b m e bs1 bs2 : tiling m e bs1 -> tiling b m bs2 -> tiling b e (bs1 ++ bs2).
Proof.
  intros (H1 & Hle1 & Hh1) (H2 & Hle2 & Hh2). split_and!; [by apply Forall_app|lia|].
  intros a. rewrite hits_app, Hh1, Hh2. bools; done.
Qed.

(** ** Powers of two *)

Lemma pow2_le_pow2 a b : 0 <= a <= b -> 2 ^ a <= 2 ^ b.
Proof. intros. apply Z.pow_le_mono_r; lia. Qed.

Lemma divide_pow2 a b x : 0 <= a <= b -> (2 ^ b | x) -> (2 ^ a | x).
Proof.
  intros Hab [q ->]. exists (q * 2 ^ (b - a)). rewrite <- Z.mul_assoc, <- Z.pow_add_r by lia.
  do 2 f_equal. lia.
Qed.

(** The logarithm of a positive multiple of [2^k] is at least [k]. *)
Lemma log2_multiple k x : 0 <= k -> 0 < x -> (2 ^ k | x) -> k <= Z.log2 x.
Proof.
  intros Hk Hx [q ->]. assert (0 < 2 ^ k) by (apply Z.pow_pos_nonneg; lia).
  apply Z.log2_le_pow2; [done|]. 
  assert (0 < q) by (apply (Z.mul_pos_cancel_r q (2 ^ k)); lia).
  rewrite <- (Z.mul_1_l (2 ^ k)) at 1. apply Z.mul_le_mono_nonneg_r; lia.
Qed.

Lemma Power2MaxMemory_pos x : 0 < x < 2 ^ 64 -> Power2MaxMemory x = 2 ^ Z.log2 x.
Proof.
  intros Hx. unfold Power2MaxMemory, RShiftU64, LShiftU64. rewrite (wrap_small 64 x) by lia.
  assert (Hlog : Z.log2 x < 64) by (apply Z.log2_lt_pow2; lia).
  assert (Hs : Z.shiftr x 32 = x / 2 ^ 32) by (apply Z.shiftr_div_pow2; lia).
  destruct (Z.lt_ge_cases x (2 ^ 32)) as [Hlt|Hge].
  - rewrite Hs, Z.div_small by lia. cbn [negb Z.eqb]. rewrite wrap_small by lia.
    apply GetPowerOfTwo32_spec. lia.
  - assert (Hhi : 0 < Z.shiftr x 32 < 2 ^ 32).
    { rewrite Hs. split; [apply Z.div_str_pos; lia|apply Z.div_lt_upper_bound; lia]. }
    destruct (Z.eqb_spec (Z.shiftr x 32) 0); [lia|]. cbn [negb].
    assert (32 <= Z.log2 x) by (apply Z.log2_le_pow2; lia).
    rewrite (wrap_small 32 (Z.shiftr x 32)), GetPowerOfTwo32_spec, Z.log2_shiftr, Z.shiftl_mul_pow2 by lia.
    rewrite Z.max_r, <- Z.pow_add_r by lia.
    replace (Z.log2 x - 32 + 32) with (Z.log2 x) by lia. apply wrap_small.
    split; [apply Z.pow_nonneg; lia|apply Z.pow_lt_mono_r; lia].
Qed.

Lemma Power2MaxMemory_0 : Power2MaxMemory 0 = 0.
Proof. unfold Power2MaxMemory. cbn. apply GetPowerOfTwo32_0. Qed.

(** The largest block at the start of [x] and what it leaves. *)
Lemma top_bit x : 0 < x -> 2 ^ Z.log2 x <= x /\ x - 2 ^ Z.log2 x < 2 ^ Z.log2 x.
Proof.
  intros Hx. destruct (Z.log2_spec x Hx) as [Hlo Hhi]. rewrite Z.pow_succ_r in Hhi by apply Z.log2_nonneg.
  lia.
Qed.

Lemma LowBitSet64_divide x :
  0 < x < 2 ^ 64 ->
  let k := LowBitSet64 x in
  0 <= k < 64 /\ (2 ^ k | x) /\ (2 ^ (k + 1) | x + 2 ^ k) /\ forall j, (2 ^ j | x) -> j <= k.
Proof.
  intros Hx k. destruct (LowBitSet64_spec x Hx) as (Hk & Hb & Hlow). fold k in Hk, Hb, Hlow.
  assert (Hp : 0 < 2 ^ k) by (apply Z.pow_pos_nonneg; lia).
  assert (Hmod : x mod 2 ^ k = 0).
  { rewrite <- Z.land_ones by lia. bits i Hi. bit_cases. by rewrite Hlow. }
  assert (Hd : x = 2 ^ k * (x / 2 ^ k)) by (apply Z.div_exact; lia).
  assert (Hodd : Z.odd (x / 2 ^ k) = true).
  { rewrite <- Z.shiftr_div_pow2 by lia. rewrite <- Z.bit0_odd, Z.shiftr_spec by lia. exact Hb. }
  split_and!; [lia|lia|..].
  - exists (x / 2 ^ k). lia.
  - apply Z.odd_spec in Hodd as [q Hq]. exists (q + 1). rewrite Z.pow_add_r by lia. nia.
  - intros j [q Hq]. destruct (Z.le_gt_cases j k) as [|Hgt]; [done|].
    exfalso. rewrite Hq in Hb. replace j with (k + 1 + (j - k - 1)) in Hb by lia.
    rewrite Z.pow_add_r, Z.mul_assoc, (Z.mul_comm q), <- Z.mul_assoc, Z.mul_comm in Hb by lia.
    rewrite <- Z.shiftl_mul_pow2 in Hb by lia. rewrite Z.shiftl_spec_low in Hb by lia. done.
Qed.

(** ** The blocks of the loops *)

(** The blocks that the last loop programs, from [B] upwards or downwards. *)
Fixpoint rest_blocks (n : nat) (up : bool) (B T : Z) : list mblock :=
  match n with
  | O => []
  | S n =>
      let L := Power2MaxMemory T in
      let B' := if up then B else u64 (B - L) in
      (B', L) :: (if u64 (T - L) =? 0 then []
                  else rest_blocks n up (if up then u64 (B + L) else B') (u64 (T - L)))
  end.

(** The aligned blocks at the start of a range, and what is left of it. *)
Fixpoint align_blocks (n : nat) (b l : Z) : list mblock * Z * Z :=
  match n with
  | O => ([], b, l)
  | S n =>
      let A := LShiftU64 1 (LowBitSet64 b) in
      if A >? l then ([], b, l)
      else let '(bs, b', l') := align_blocks n (u64 (b + A)) (l - A) in ((b, A) :: bs, b', l')
  end.

Lemma phys_bits_pow : 2 ^ 12 < 2 ^ phys_bits < 2 ^ 64.
Proof. destruct phys_bits_ok as [Hp _]. split; apply Z.pow_lt_mono_r; lia. Qed.

(** The length of the remaining range is the sum of its blocks, upwards or downwards. *)
Lemma rest_blocks_ok (n : nat) (up : bool) (B T K : Z) :
  12 <= K <= Z.of_nat n -> 0 < T < 2 ^ K -> (2 ^ 12 | T) -> (2 ^ K | B) ->
  (if up then 0 <= B /\ B + T <= 2 ^ phys_bits else T <= B <= 2 ^ phys_bits) ->
  (if up then tiling B (B + T) (rest_blocks n up B T) else tiling (B - T) B (rest_blocks n up B T)) /\
  forall c, count_loop n T c = Some (c + Z.of_nat (length (rest_blocks n up B T))).
Proof.
  pose proof phys_bits_pow as HP.
  revert B T K. induction n as [|n IH]; intros B T K HK HT Hpage HB Hfit; [lia|].
  pose proof (top_bit T ltac:(lia)) as [Htop Hrem].
  assert (Hk : 12 <= Z.log2 T) by (apply log2_multiple; [lia|lia|done]).
  assert (HkK : Z.log2 T < K) by (apply Z.log2_lt_pow2; lia).
  assert (HT64 : T < 2 ^ 64) by (destruct up; lia).
  assert (HpB : (2 ^ Z.log2 T | B)) by (apply (divide_pow2 _ K); [lia|done]).
  cbn [rest_blocks count_loop]. rewrite Power2MaxMemory_pos by lia.
  set (L := 2 ^ Z.log2 T) in *.
  assert (HL : 0 < L) by (apply Z.pow_pos_nonneg; lia).
  rewrite (wrap_small 64 (T - L)) by lia.
  (* the first block *)
  set (B0 := if up then B else B - L).
  assert (E0 : (if up then B else u64 (B - L)) = B0).
  { unfold B0. destruct up; [done|]. apply wrap_small. lia. }
  rewrite E0.
  assert (Hok : block_ok (B0, L)).
  { exists (Z.log2 T). unfold B0. cbn [fst snd]. split_and!; [lia|done|..]; destruct up; try lia.
    - done.
    - apply Z.divide_sub_r; [done|apply Z.divide_refl]. }
  apply tiling_single in Hok.
  destruct (Z.eqb_spec (T - L) 0) as [Hz|Hnz].
  { split; [|intros c; cbn [length]; f_equal; lia]. unfold B0 in *. destruct up.
    - by replace (B + T) with (B + L) by lia.
    - by replace (B - L + L) with B in Hok by lia; replace (B - T) with (B - L) by lia. }
  set (B1 := if up then B + L else B0).
  assert (E1 : (if up then u64 (B + L) else B0) = B1).
  { unfold B1. destruct up; [|done]. apply wrap_small. lia. }
  rewrite E1.
  assert (H12L : (2 ^ 12 | L)) by (apply (divide_pow2 _ (Z.log2 T)); [lia|apply Z.divide_refl]).
  destruct (IH B1 (T - L) (Z.log2 T)) as [Htil Hcount]; [lia|lia|by apply Z.divide_sub_r| |
    unfold B1, B0; destruct up; lia|].
  { unfold B1, B0. destruct up; [apply Z.divide_add_r|apply Z.divide_sub_r]; first [done|apply Z.divide_refl]. }
  split; [|intros c; rewrite Hcount; cbn [length]; f_equal; lia].
  unfold B1, B0 in *. destruct up.
  - replace (B + L + (T - L)) with (B + T) in Htil by lia. exact (tiling_app B (B + L) (B + T) [(B, L)] _ Hok Htil).
  - replace (B - L - (T - L)) with (B - T) in Htil by lia. replace (B - L + L) with B in Hok by lia.
    exact (tiling_app_rev (B - T) (B - L) B [(B - L, L)] _ Hok Htil).
Qed.

(** The aligned blocks and the rest: the rest is shorter than the alignment of its base. *)
Lemma align_blocks_ok n b l j :
  0 < b -> 0 <= l -> b + l <= 2 ^ phys_bits -> (2 ^ 12 | l) -> (2 ^ j | b) -> 12 <= j ->
  65 <= Z.of_nat n + j ->
  let '(bs, b', l') := align_blocks n b l in
  (forall c, 0 <= c -> c + Z.of_nat n < 2 ^ 32 ->
     align_loop n b l c = Some (b', l', c + Z.of_nat (length bs))) /\
  tiling b b' bs /\ 0 < b' /\ 0 <= l' /\ b' + l' = b + l /\ (2 ^ 12 | l') /\ Z.of_nat (length bs) <= Z.of_nat n /\
  exists K, 12 <= K < 64 /\ l' < 2 ^ K /\ (2 ^ K | b').
Proof.
  pose proof phys_bits_pow as HP.
  revert b l j. induction n as [|n IH]; intros b l j Hb Hl Hfit Hpl Hpb Hj Hn.
  { exfalso. apply Z.divide_pos_le in Hpb; [|lia].
    assert (2 ^ 64 <= 2 ^ j) by (apply Z.pow_le_mono_r; lia). lia. }
  destruct (LowBitSet64_divide b) as (Hk & Hdk & Hdk1 & Hmax); [lia|].
  set (k := LowBitSet64 b) in *. specialize (Hmax j Hpb).
  assert (HA : LShiftU64 1 k = 2 ^ k).
  { unfold LShiftU64. rewrite Z.shiftl_1_l. apply wrap_small.
    split; [apply Z.pow_nonneg; lia|apply Z.pow_lt_mono_r; lia]. }
  assert (Hpos : 0 < 2 ^ k) by (apply Z.pow_pos_nonneg; lia).
  cbn [align_blocks align_loop]. fold k. rewrite HA.
  destruct (Z.gtb_spec (2 ^ k) l) as [Hgt|Hle].
  { split_and!; [|apply tiling_nil|lia..|done|cbn; lia|].
    - intros c Hc Hcn. cbn [length]. do 2 f_equal. lia.
    - exists k. split_and!; [lia|lia|lia|done]. }
  rewrite (wrap_small 64 (b + 2 ^ k)) by lia.
  assert (H12k : (2 ^ 12 | 2 ^ k)) by (apply (divide_pow2 _ k); [lia|apply Z.divide_refl]).
  specialize (IH (b + 2 ^ k) (l - 2 ^ k) (k + 1)).
  destruct (align_blocks n (b + 2 ^ k) (l - 2 ^ k)) as [[bs b'] l'].
  destruct IH as (Hloop & Htil & Hb' & Hl' & Hsum & Hpl' & Hlen & HK);
    [lia|lia|lia|by apply Z.divide_sub_r|done|lia|lia|].
  split_and!; [|..|lia|lia|lia|done|cbn [length]; lia|done].
  - intros c Hc Hcn. rewrite (wrap_small 32 (c + 1)) by lia. rewrite Hloop by lia.
    cbn [length]. do 2 f_equal. lia.
  - apply (tiling_app b (b + 2 ^ k) b' [(b, 2 ^ k)]); [|done]. apply tiling_single.
    exists k. cbn [fst snd]. split_and!; [lia|done|done|lia|lia].
Qed.

Lemma rest_blocks_length n up up' B B' T :
  length (rest_blocks n up B T) = length (rest_blocks n up' B' T).
Proof.
  revert B B' T. induction n as [|n IH]; intros B B' T; [done|]. cbn [rest_blocks length]. f_equal.
  destruct (_ =? 0); [done|apply IH].
Qed.

(** The registers for a range [b, b+l): those that get the type asked for and, where rounding the
    length up takes fewer registers, the uncacheable ones over the excess. *)
Definition aligned_part (b l : Z) : list mblock * Z * Z := if b =? 0 then ([], b, l) else align_blocks 65 b l.

Definition plan (Positive : bool) (b l : Z) : list mblock * list mblock :=
  let '(bs, b', l') := aligned_part b l in
  if negb (b =? 0) && (l' =? 0) then (bs, [])
  else if Positive then (bs ++ rest_blocks 65 true b' l', [])
  else
    let P := Power2MaxMemory (LShiftU64 l' 1) in
    (bs ++ [(b', P)], rest_blocks 65 false (u64 (b' + P)) (u64 (P - l'))).

(** A range of whole pages in the physical address space. *)
Definition range_ok (b l : Z) : Prop :=
  0 <= b /\ 0 < l /\ b + l <= 2 ^ phys_bits /\ (2 ^ 12 | b) /\ (2 ^ 12 | l).

Lemma head_ok b l :
  range_ok b l ->
  let '(bs, b', l') := aligned_part b l in
  (if b =? 0 then Some (b, l, 0) else align_loop 65 b l 0) = Some (b', l', Z.of_nat (length bs)) /\
  tiling b b' bs /\ 0 <= b' /\ 0 <= l' /\ b' + l' = b + l /\ (2 ^ 12 | l') /\
  (b = 0 -> l' <> 0) /\ Z.of_nat (length bs) <= 65 /\
  exists K, 12 <= K <= 64 /\ l' < 2 ^ K /\ (2 ^ K | b').
Proof.
  intros (Hb & Hl & Hfit & Hpb & Hpl). pose proof phys_bits_pow as HP. unfold aligned_part.
  destruct (Z.eqb_spec b 0) as [-> |Hne].
  - split_and!; [done|apply tiling_nil|lia..|done|lia|cbn; lia|].
    exists 64. split_and!; [lia|lia|lia|apply Z.divide_0_r].
  - pose proof (align_blocks_ok 65 b l 12 ltac:(lia) ltac:(lia) Hfit Hpl Hpb ltac:(lia) ltac:(lia)) as Ha.
    destruct (align_blocks 65 b l) as [[bs b'] l'].
    destruct Ha as (Hloop & Htil & Hb' & Hl' & Hsum & Hpl' & Hlen & K & HK & HlK & HbK).
    split_and!; [rewrite Hloop by lia; do 2 f_equal; lia|done|lia..|done|done|lia|].
    exists K. split_and!; [lia..|done].
Qed.

Lemma multiple_step p x y : 0 < p -> (p | x) -> (p | y) -> x < y -> x + p <= y.
Proof.
  intros Hp [q ->] [r ->] Hlt. apply Z.mul_lt_mono_pos_r in Hlt; [|done].
  replace (q * p + p) with ((q + 1) * p) by lia. apply Z.mul_le_mono_nonneg_r; lia.
Qed.

Lemma rest_blocks_bound n up B T : (length (rest_blocks n up B T) <= n)%nat.
Proof.
  revert B T. induction n as [|n IH]; intros B T; [done|]. cbn [rest_blocks length].
  destruct (_ =? 0); [cbn; lia|]. specialize (IH (if up then u64 (B + Power2MaxMemory T) else
    (if up then B else u64 (B - Power2MaxMemory T))) (u64 (T - Power2MaxMemory T))). lia.
Qed.

Lemma rest_blocks_pow2 n up B j :
  0 <= j < 64 -> (0 < n)%nat -> length (rest_blocks n up B (2 ^ j)) = 1%nat.
Proof.
  intros Hj Hn. destruct n as [|n]; [lia|]. cbn [rest_blocks].
  assert (0 < 2 ^ j < 2 ^ 64) by (split; [apply Z.pow_pos_nonneg; lia|apply Z.pow_lt_mono_r; lia]).
  by rewrite Power2MaxMemory_pos, Z.log2_pow2, Z.sub_diag by lia.
Qed.

(** Twice the leading power of two of a length. *)
Lemma round_up l :
  0 < l <= 2 ^ phys_bits ->
  Power2MaxMemory (LShiftU64 l 1) = 2 ^ (Z.log2 l + 1) /\ l < 2 ^ (Z.log2 l + 1) <= 2 * l /\
  2 * l < 2 ^ 54.
Proof.
  intros Hl. pose proof phys_bits_ok as [Hpb _].
  assert (H53 : 2 ^ phys_bits <= 2 ^ 52) by (apply Z.pow_le_mono_r; lia).
  destruct (Z.log2_spec l) as [Hlo Hhi]; [lia|]. rewrite <- Z.add_1_r in Hhi.
  assert (E2 : 2 ^ (Z.log2 l + 1) = 2 * 2 ^ Z.log2 l).
  { pose proof (Z.log2_nonneg l). rewrite Z.pow_add_r by lia. lia. }
  split; [|lia]. unfold LShiftU64. rewrite Z.shiftl_mul_pow2 by lia. change (2 ^ 1) with 2.
  rewrite wrap_small by lia. rewrite Power2MaxMemory_pos by lia.
  f_equal. rewrite Z.mul_comm, Z.log2_double by lia. lia.
Qed.

(** The block of that size, with its excess over the range. *)
Lemma round_up_ok b' l' K :
  0 <= b' -> 0 < l' -> b' + l' <= 2 ^ phys_bits -> l' < 2 ^ phys_bits -> (2 ^ 12 | l') ->
  12 <= K <= 64 -> l' < 2 ^ K -> (2 ^ K | b') ->
  let P := 2 ^ (Z.log2 l' + 1) in
  block_ok (b', P) /\ b' + P <= 2 ^ phys_bits /\
  tiling (b' + l') (b' + P) (rest_blocks 65 false (b' + P) (P - l')).
Proof.
  intros Hb Hl Hfit HlP Hpl HK HlK HbK P. pose proof phys_bits_pow as HP.
  pose proof (phys_bits_ok) as [Hpb _]. destruct (round_up l') as (_ & HPl & _); [lia|].
  set (j := Z.log2 l') in *. assert (Hj : 12 <= j) by (apply log2_multiple; [lia|lia|done]).
  assert (HjK : j < K) by (apply Z.log2_lt_pow2; lia).
  assert (HjP : j < phys_bits) by (apply Z.log2_lt_pow2; lia).
  assert (HdB : (P | b')) by (apply (divide_pow2 _ K); [lia|done]).
  assert (HdP : (P | 2 ^ phys_bits)) by (apply (divide_pow2 _ phys_bits); [lia|apply Z.divide_refl]).
  assert (Hend : b' + P <= 2 ^ phys_bits) by (apply multiple_step; [lia|done|done|lia]).
  assert (Hok : block_ok (b', P)).
  { exists (j + 1). cbn [fst snd]. split_and!; [lia|done|done|lia|lia]. }
  split_and!; [done|lia|].
  destruct (rest_blocks_ok 65 false (b' + P) (P - l') (j + 1)) as [Htil _];
    [lia|fold P; lia| |apply Z.divide_add_r; [done|apply Z.divide_refl]|lia|].
  { apply Z.divide_sub_r; [|done]. apply (divide_pow2 _ (j + 1)); [lia|apply Z.divide_refl]. }
  by replace (b' + P - (P - l')) with (b' + l') in Htil by lia.
Qed.

#[local] Opaque count_loop align_loop rest_blocks align_blocks Power2MaxMemory aligned_part.

(** What [GetMtrrNumberAndDirection] returns, and what the plan it counts is. *)
Lemma number_and_direction b l :
  range_ok b l ->
  exists dir main uc e,
    GetMtrrNumberAndDirection b l = Some (dir, Z.of_nat (length main + length uc)) /\
    plan dir b l = (main, uc) /\ tiling b e main /\ tiling (b + l) e uc /\
    e <= b + 2 * l /\ (dir = true -> e = b + l /\ uc = []) /\
    (dir = false -> (aligned_part b l).2 < 2 ^ phys_bits) /\ Z.of_nat (length main + length uc) < 2 ^ 16 /\
    (length main + length uc <= length (plan true b l).1)%nat.
Proof.
  intros Hr. pose proof (head_ok b l Hr) as Hh. unfold GetMtrrNumberAndDirection, plan.
  destruct Hr as (Hb & Hl & Hfit & Hpb & Hpl). pose proof phys_bits_pow as HP.
  assert (EA : (if negb (b =? 0) then align_loop 65 b l 0 else Some (b, l, 0)) =
               (if b =? 0 then Some (b, l, 0) else align_loop 65 b l 0)) by (by destruct (b =? 0)).
  rewrite EA. clear EA. destruct (aligned_part b l) as [[bs b'] l'].
  destruct Hh as (-> & Htil & Hb' & Hl' & Hsum & Hpl' & Hb0 & Hlen & K & HK & HlK & HbK).
  rewrite some_bind. cbv beta iota.
  destruct (negb (b =? 0) && (l' =? 0)) eqn:Hdone.
  { assert (Hl0 : (l' =? 0) = true) by (apply andb_prop in Hdone as [_ ?]; done). exists true, bs, [], (b + l).
    rewrite Nat.add_0_r. split_and!; [done|done|by replace (b + l) with b' by lia|apply tiling_nil|lia|done|done|lia|cbn; lia]. }
  assert (Hpos : 0 < l').
  { destruct (Z.eqb_spec l' 0); [|lia]. rewrite andb_true_r in Hdone.
    apply negb_false_iff, Z.eqb_eq in Hdone. exfalso. by apply Hb0. }
  (* both ways of cutting the rest *)
  destruct (rest_blocks_ok 65 true b' l' K) as [Hup Hcup]; [lia|lia|done|done|lia|].
  rewrite Hcup, some_bind. cbv beta.
  destruct (round_up l') as (-> & HPl & H54); [lia|]. set (P := 2 ^ (Z.log2 l' + 1)) in *.
  rewrite (wrap_small 64 (P - l')) by lia.
  destruct (rest_blocks_ok 65 true 0 (P - l') 64) as [_ Hcd]; [lia|lia| |apply Z.divide_0_r|lia|].
  { apply Z.divide_sub_r; [|done]. apply (divide_pow2 _ (Z.log2 l' + 1)); [|apply Z.divide_refl].
    pose proof (log2_multiple 12 l' ltac:(lia) ltac:(lia) Hpl'). lia. }
  rewrite Hcd, some_bind. cbv beta. rewrite (rest_blocks_length 65 true false 0 (b' + P)).
  pose proof (rest_blocks_bound 65 true b' l') as Hbu.
  pose proof (rest_blocks_bound 65 false (b' + P) (P - l')) as Hbd.
  destruct (Z.leb_spec (0 + Z.of_nat (length (rest_blocks 65 true b' l')))
              (1 + Z.of_nat (length (rest_blocks 65 false (b' + P) (P - l'))))) as [Hle|Hgt].
  - exists true, (bs ++ rest_blocks 65 true b' l'), [], (b + l). rewrite length_app. cbn [length].
    rewrite wrap_small by lia. split_and!; [do 2 f_equal; lia|done| |apply tiling_nil|lia|done|done|lia|cbn [fst]; rewrite length_app; lia].
    apply (tiling_app b b'); [done|]. by rewrite <- Hsum.
  - (* the rest is not a power of two *)
    assert (Hlt : l' < 2 ^ phys_bits).
    { destruct (Z.eq_dec l' (2 ^ phys_bits)) as [E|]; [|lia]. pose proof phys_bits_ok as [Hp _].
      rewrite E in Hgt. rewrite (rest_blocks_pow2 65 true b' phys_bits) in Hgt by lia. lia. }
    destruct (round_up_ok b' l' K) as (Hok & HPe & Htd); [lia|lia|lia|lia|done|lia|lia|done|].
    fold P in Hok, HPe, Htd. rewrite (wrap_small 64 (b' + P)) by lia.
    exists false, (bs ++ [(b', P)]), (rest_blocks 65 false (b' + P) (P - l')), (b' + P).
    rewrite length_app. cbn [length]. rewrite wrap_small by lia.
    assert (b <= b') by apply Htil.
    split_and!; [do 2 f_equal; lia|done| | |lia|done|done|lia|cbn [fst]; rewrite length_app; lia].
    + apply (tiling_app b b'); [done|]. by apply tiling_single.
    + by rewrite <- Hsum.
Qed.
End Range.

(** ** Property *)

(** for a range of whole pages, [GetMtrrNumberAndDirection] terminates and its number is that
    of the registers the programming loops take for the direction it returns. The blocks of the
    plan are powers of two aligned to their size; those with the type asked for cover each address
    from the start of the range to [e] exactly once, those made uncacheable cover each address
    from the end of the range to [e] exactly once; in the positive direction there are none, and
    the number never exceeds that of the positive direction. *)
Theorem GetMtrrNumberAndDirection_plan {MH : MtrrHeader} {MHO : MtrrHeaderOk} {C : Type}
    {CPU : MtrrCpu C} {OK : MtrrCpuOk C} (b l : Z) :
  range_ok b l ->
  exists dir main uc e,
    GetMtrrNumberAndDirection b l = Some (dir, Z.of_nat (length main + length uc)) /\
    plan dir b l = (main, uc) /\
    tiling b e main /\ tiling (b + l) e uc /\ b + l <= e <= b + 2 * l /\
    (dir = true -> uc = []) /\ (length main + length uc <= length (plan true b l).1)%nat.
Proof.
  intros Hr. destruct (number_and_direction b l Hr) as
    (dir & main & uc & e & Hnd & Hplan & Hm & Hu & He & Hd1 & _ & _ & Hmin).
  exists dir, main, uc, e. split_and!; [done..|by apply Hu|done|by intros Hd; apply Hd1|done].
Qed.

#[local] Existing Instances PlainBus Edk2Header.header Edk2Header.header_ok.
#[local] Instance demo_ok : MtrrCpuOk quark := quark_ok plain_mtrr.

Lemma GetMtrrNumberAndDirection_plan_witness :
  exists dir main uc e,
    GetMtrrNumberAndDirection 0x100000 0xF00000 = Some (dir, Z.of_nat (length main + length uc)) /\
    plan dir 0x100000 0xF00000 = (main, uc) /\
    tiling 0x100000 e main /\ tiling (0x100000 + 0xF00000) e uc /\
    0x100000 + 0xF00000 <= e <= 0x100000 + 2 * 0xF00000 /\
    (dir = true -> uc = []) /\ (length main + length uc <= length (plan true 0x100000 0xF00000).1)%nat.
Proof.
  apply (GetMtrrNumberAndDirection_plan 0x100000 0xF00000).
  split_and!; [lia|lia|vm_compute; discriminate|by exists 0x100|by exists 0xF00].
Defined.
