(* ===== verification/MtrrSet.v ===== *)
(** * Programming the variable memory type range registers

    [MtrrSetMemoryAttribute] of [MtrrLib.c] on the variable ranges, against the meaning that the
    architecture gives to the registers ([MtrrSpec]): the pairs in use after the programming loops
    are those before and one for each block of the plan ([MtrrRange]). *)

From S2P Require Import Prelude QNCAccess MtrrDefs QuarkMsr Math64 MtrrLib MtrrSpec MtrrQuark MtrrRange.
From stdpp Require Import gmap.
#[local] Open Scope Z_scope.

Section Set_.
Context {MH : MtrrHeader} {MHO : MtrrHeaderOk} {C : Type} {CPU : MtrrCpu C} {OK : MtrrCpuOk C}.
Implicit Types (c : C) (v : mtrr_view) (m : gmap Z Z).

(** ** Pairs in use *)

Definition base_reg (n : nat) : Z := 0x200 + 2 * Z.of_nat n.

Lemma base_reg_in n : (n < 8)%nat -> base_reg n ∈ variable_regs /\ base_reg n + 1 ∈ variable_regs.
Proof.
  intros Hn. assert (Hall : Forall (fun n => base_reg n ∈ variable_regs /\ base_reg n + 1 ∈ variable_regs)
    (seq 0 8)) by by_compute.
  rewrite List.Forall_forall in Hall. apply Hall, in_seq. lia.
Qed.

Lemma variable_in_mtrr i : i ∈ variable_regs -> i ∈ mtrr_regs.
Proof. unfold mtrr_regs. intros Hi. do 2 right. apply elem_of_app. by right. Qed.

(** Same registers outside the variable ranges, same rest of the state. *)
Definition same_rest v v' : Prop :=
  (forall i, i ∉ variable_regs -> v'.(msrs) !!! i = v.(msrs) !!! i) /\
  v'.(interrupts) = v.(interrupts) /\ v'.(caching) = v.(caching) /\ v'.(cr4) = v.(cr4).

Lemma same_rest_trans v1 v2 v3 : same_rest v1 v2 -> same_rest v2 v3 -> same_rest v1 v3.
Proof.
  intros (H1 & H2 & H3 & H4) (K1 & K2 & K3 & K4). split_and!; [|congruence..].
  intros i Hi. by rewrite K1, H1.
Qed.

Lemma same_rest_vcnt v v' : same_rest v v' -> vcnt v'.(msrs) = vcnt v.(msrs).
Proof. intros (H & _). unfold vcnt. rewrite H; [done|]. by_compute. Qed.

(** The MTRRs are enabled and the caches are on, as every change leaves them. *)
Definition running v : Prop :=
  Z.lor (v.(msrs) !!! DEF_TYPE) ENABLES = v.(msrs) !!! DEF_TYPE /\ v.(caching) = true.

Lemma same_rest_running v v' : same_rest v v' -> running v -> running v'.
Proof.
  intros (H & _ & Hc & _) [Hd Hr]. unfold running. rewrite H, Hc; [done|].
  by_compute.
Qed.

(** Writing the pair [n], which was not in use, with an enabled mask adds it to those in use. *)
Lemma active_insert m n p :
  (n < vcnt m)%nat -> (vcnt m <= 8)%nat -> enabled (pair_at m n) = false -> enabled p = true ->
  active (write_regs [(base_reg n, p.1); (base_reg n + 1, p.2)] m) ≡ₚ p :: active m.
Proof.
  intros Hn H8 Hoff Hon. set (m' := write_regs _ m).
  assert (Hcap : vcnt m' = vcnt m).
  { unfold vcnt, m', write_regs. cbn [foldl fst snd].
    rewrite !lookup_total_insert_ne by (unfold base_reg; lia). done. }
  assert (Hn' : pair_at m' n = p).
  { unfold pair_at, m', write_regs. cbn [foldl fst snd]. fold (base_reg n).
    rewrite lookup_total_insert_ne by lia. rewrite !lookup_total_insert_eq. by destruct p. }
  assert (Hne : forall k, k <> n -> pair_at m' k = pair_at m k).
  { intros k Hk. unfold pair_at, m', write_regs. cbn [foldl fst snd].
    by rewrite !lookup_total_insert_ne by (unfold base_reg; lia). }
  unfold active. rewrite Hcap. replace (vcnt m) with (n + S (vcnt m - n - 1))%nat by lia.
  rewrite seq_app, !fmap_app, !filter_app. cbn [seq fmap list_fmap Nat.add].
  rewrite !filter_cons. rewrite Hn', Hoff, Hon. rewrite decide_True, decide_False by done.
  assert (Hext : forall a k, (n < a \/ a + k <= n)%nat -> pair_at m' <$> seq a k = pair_at m <$> seq a k).
  { intros a k Hak. apply list_fmap_ext. intros i x Hx. apply lookup_seq in Hx as [-> Hi]. apply Hne. lia. }
  rewrite !Hext by lia. by rewrite Permutation_middle.
Qed.

Lemma active_ext m m' : (forall i, m !!! i = m' !!! i) -> active m = active m'.
Proof.
  intros He. unfold active, vcnt. rewrite He. f_equal. apply list_fmap_ext.
  intros i n _. unfold pair_at. by rewrite !He.
Qed.

(** If not all pairs are in use, one is free. *)
Lemma active_full m p :
  (forall n, (n < p)%nat -> enabled (pair_at m n) = true) -> (vcnt m <= p)%nat ->
  length (active m) = vcnt m.
Proof.
  intros Hall Hp. unfold active. rewrite filter_all; [by rewrite length_fmap, length_seq|].
  apply Forall_fmap, List.Forall_forall. intros n Hn%in_seq. cbn. apply Hall. lia.
Qed.

(** ** One register pair *)

(** The registers that describe a block of memory type [t]. *)
Definition enc (t : Z) (x : mblock) : Z * Z :=
  (Z.lor (Z.land x.1 VA) t,
   Z.lor (Z.land (Z.ldiff (Z.ones 64) (u64 (x.2 - 1))) VA) 0x800).

Lemma enc_enabled t x : enabled (enc t x) = true.
Proof.
  unfold enabled, enc. cbn [snd]. apply negb_true_iff, Z.eqb_neq. intros He.
  apply (f_equal (fun y => Z.testbit y 11)) in He.
  rewrite Z.land_spec, Z.lor_spec, Z.testbit_0_l in He.
  change (Z.testbit 0x800 11) with true in He. by rewrite orb_true_r in He.
Qed.

Lemma VA_width : in_width phys_bits VA.
Proof.
  destruct phys_bits_ok as [Hp _]. apply in_width_of_bits; [lia| |].
  - unfold VA. apply Z.ldiff_nonneg. left. rewrite Z.ones_equiv.
    assert (0 < 2 ^ phys_bits) by (apply Z.pow_pos_nonneg; lia). lia.
  - intros i Hi. unfold VA. rewrite Z.ldiff_spec, !ones_bit by lia. bools; done.
Qed.

Lemma enc_width t x i :
  0 <= t < 256 -> i ∈ variable_regs -> in_width (reg_width i) (enc t x).1 /\ in_width (reg_width i) (enc t x).2.
Proof.
  intros Ht Hi. destruct phys_bits_ok as [Hp Hw]. specialize (Hw i Hi). pose proof VA_width as HV.
  assert (HVi : in_width (reg_width i) VA) by (apply (in_width_mono phys_bits); [lia|done]).
  unfold enc. cbn [fst snd]. split.
  - apply lor_in_width; [lia| |].
    + rewrite Z.land_comm. apply land_in_width; [lia|done].
    + apply (in_width_mono 8); [lia|]. unfold in_width. lia.
  - apply lor_in_width; [lia| |].
    + rewrite Z.land_comm. apply land_in_width; [lia|done].
    + apply (in_width_mono 12); [lia|]. unfold in_width. lia.
Qed.

(** The pair of registers describes a block: its address bits are the block's base, its mask has
    ones from the block's size up. *)
Definition describes (p : Z * Z) (x : mblock) : Prop :=
  block_ok x /\ Z.land p.1 VA = x.1 /\ Z.land p.2 VA = Z.ldiff (Z.ones phys_bits) (Z.ones (Z.log2 x.2)).

Lemma block_ok_bounds x k :
  x.2 = 2 ^ k -> 12 <= k -> 0 <= x.1 -> x.1 + x.2 <= 2 ^ phys_bits -> k <= phys_bits /\ 0 < 2 ^ k.
Proof.
  intros HL Hk H0 Hend. destruct phys_bits_ok as [Hp _].
  split; [|apply Z.pow_pos_nonneg; lia]. destruct (Z.le_gt_cases k phys_bits) as [|Hgt]; [done|].
  assert (2 ^ phys_bits < 2 ^ k) by (apply Z.pow_lt_mono_r; lia). lia.
Qed.

Lemma enc_describes t x : 0 <= t < 256 -> block_ok x -> describes (enc t x) x.
Proof.
  intros Ht Hok. split; [done|]. destruct Hok as (k & Hk & HL & Hd & H0 & Hend).
  destruct (block_ok_bounds x k HL Hk H0 Hend) as [HkP Hkpos]. pose proof phys_bits_pow as HP.
  destruct phys_bits_ok as [Hp _]. assert (in_width 8 t) by (unfold in_width; lia).
  unfold enc, VA. cbn [fst snd]. split.
  - assert (Hpage : Z.land x.1 (Z.ones 12) = 0).
    { rewrite Z.land_ones by lia. apply Z.mod_divide; [lia|]. by apply (divide_pow2 _ k); [lia|]. }
    assert (in_width phys_bits x.1).
    { split; [done|]. rewrite HL in Hend. lia. }
    bits i Hi. destruct (Z.ltb_spec i 12).
    + apply (f_equal (fun y => Z.testbit y i)) in Hpage.
      rewrite Z.land_spec, ones_bit, Z.testbit_0_l in Hpage by lia. revert Hpage. bools.
      intros ->. bit_cases.
    + bit_cases. 
  - rewrite HL, Z.log2_pow2 by lia. rewrite wrap_small by lia.
    replace (2 ^ k - 1) with (Z.ones k) by (rewrite Z.ones_equiv; lia).
    change 0x800 with (Z.shiftl (Z.ones 1) 11). bits i Hi. bit_cases.
Qed.

Lemma describes_covers p x a :
  describes p x -> 0 <= a < 2 ^ phys_bits -> covers p a = in_block a x.
Proof.
  intros (Hok & Hbase & Hmask) Ha. destruct Hok as (k & Hk & HL & Hd & H0 & Hend).
  destruct (block_ok_bounds x k HL Hk H0 Hend) as [HkP Hkpos]. destruct phys_bits_ok as [Hp _].
  rewrite HL, Z.log2_pow2 in Hmask by lia. unfold covers. rewrite Hmask.
  assert (Hb : Z.land p.1 (Z.ldiff (Z.ones phys_bits) (Z.ones k)) =
               Z.land x.1 (Z.ldiff (Z.ones phys_bits) (Z.ones k))).
  { rewrite <- Hbase. unfold VA. bits i Hi. bit_cases. }
  rewrite Hb.
  (* agreeing on these bits is having the same quotient *)
  assert (Hq : forall y, 0 <= y < 2 ^ phys_bits ->
    Z.land y (Z.ldiff (Z.ones phys_bits) (Z.ones k)) = 2 ^ k * (y / 2 ^ k)).
  { intros y Hy. rewrite Z.mul_comm, <- Z.shiftl_mul_pow2, <- Z.shiftr_div_pow2 by lia.
    assert (in_width phys_bits y) by done. bits i Hi. bit_cases. }
  rewrite !Hq by lia. unfold in_block. rewrite HL. destruct Hd as [q Hq0]. rewrite Hq0.
  rewrite Z.div_mul by lia. pose proof (Z.div_mod a (2 ^ k) ltac:(lia)) as Hdm.
  pose proof (Z.mod_pos_bound a (2 ^ k) Hkpos) as Hmb.
  destruct (Z.eqb_spec (2 ^ k * (a / 2 ^ k)) (2 ^ k * q)) as [He|He].
  - bools; done.
  - assert (Hne : a / 2 ^ k <> q) by congruence.
    destruct (Z.leb_spec (q * 2 ^ k) a); [|done]. destruct (Z.ltb_spec a (q * 2 ^ k + 2 ^ k)); [|done].
    exfalso. apply Hne. symmetry. apply (Z.div_unique _ _ _ (a - q * 2 ^ k)); lia.
Qed.

(** ** Searching and programming *)

(** All pairs below [p] are in use. *)
Definition used_below m (p : nat) : Prop := forall n, (n < p)%nat -> enabled (pair_at m n) = true.

Lemma variable_end_eq m : (vcnt m <= 8)%nat -> variable_end (Z.of_nat (vcnt m)) = base_reg (vcnt m) - 1.
Proof.
  intros H8. unfold variable_end, base_reg. rewrite VARIABLE_BASE_val. apply wrap_small. lia.
Qed.

Lemma wp_find_unused fuel p (Q : Z -> C -> Prop) c :
  let m := (view c).(msrs) in
  (vcnt m <= 8)%nat -> used_below m p -> (p <= vcnt m)%nat -> (vcnt m - p < fuel)%nat ->
  (forall c' p', view c' = view c -> (p' <= vcnt m)%nat -> used_below m p' ->
     ((length (active m) < vcnt m)%nat -> (p' < vcnt m)%nat /\ enabled (pair_at m p') = false) ->
     Q (base_reg p') c') ->
  wp (find_unused fuel (variable_end (Z.of_nat (vcnt m))) (base_reg p)) Q c.
Proof.
  intros m H8. unfold m in *. clear m. revert p c Q H8.
  induction fuel as [|fuel IH]; intros p c Q H8 Hused Hp Hf HQ; [lia|].
  cbn [find_unused]. rewrite variable_end_eq by done.
  destruct (Z.ltb_spec (base_reg p) (base_reg (vcnt (msrs (view c))) - 1)) as [Hlt|Hge].
  - unfold base_reg in Hlt. rewrite (wrap_small 32 (base_reg p + 1)) by (unfold base_reg; lia).
    apply wp_bind, wp_read; [apply variable_in_mtrr, base_reg_in; lia|]. intros c1 E1.
    rewrite ENABLED_val.
    assert (Hen : enabled (pair_at (msrs (view c)) p) =
                  negb (Z.land (msrs (view c) !!! (base_reg p + 1)) 0x800 =? 0)) by done.
    destruct (Z.land (msrs (view c) !!! (base_reg p + 1)) 0x800 =? 0) eqn:Hz.
    + apply wp_ret, HQ; [done|lia|done|]. intros _. split; [lia|done].
    + rewrite wrap_small by (unfold base_reg; lia).
      replace (base_reg p + 2) with (base_reg (S p)) by (unfold base_reg; lia).
      rewrite <- variable_end_eq by done. rewrite <- E1 in H8, HQ, Hp, Hf, Hlt, Hused, Hen |- *.
      apply IH; [done| |lia|lia|exact HQ].
      intros n Hn. destruct (Nat.eq_dec n p) as [-> |]; [done|apply Hused; lia].
  - unfold base_reg in Hge. apply wp_ret, HQ; [done|lia|done|].
    intros Hfree. exfalso. rewrite (active_full _ p) in Hfree by (done || lia). lia.
Qed.

(** Programming one free pair. *)
Lemma wp_ProgramVariableMtrr p t B L (Q : unit -> C -> Prop) c :
  let m := (view c).(msrs) in
  (vcnt m <= 8)%nat -> (p < vcnt m)%nat -> enabled (pair_at m p) = false -> 0 <= t < 256 ->
  running (view c) ->
  (forall c', same_rest (view c) (view c') ->
     active (view c').(msrs) ≡ₚ enc t (B, L) :: active m ->
     (forall n, n <> p -> pair_at (view c').(msrs) n = pair_at m n) ->
     enabled (pair_at (view c').(msrs) p) = true -> Q tt c') ->
  wp (ProgramVariableMtrr (base_reg p) B L t VA) Q c.
Proof.
  intros m H8 Hp Hoff Ht [Hdef Hcache] HQ. unfold ProgramVariableMtrr. rewrite ENABLED_val.
  destruct (base_reg_in p ltac:(lia)) as [Hb Hb1].
  destruct (enc_width t (B, L) _ Ht Hb) as [Hw1 _]. destruct (enc_width t (B, L) _ Ht Hb1) as [_ Hw2].
  assert (HneD : forall i, i ∈ variable_regs -> i <> DEF_TYPE).
  { intros i Hi ->. revert Hi. by_compute. }
  assert (HneC : forall i, i ∈ variable_regs -> i <> 0xFE).
  { intros i Hi ->. revert Hi. by_compute. }
  set (ws := [(base_reg p, (enc t (B, L)).1); (base_reg p + 1, (enc t (B, L)).2)]).
  (* the function is the bracket around the two writes *)
  enough (Hwp : wp (ctx ← PreMtrrChange;
                    u ← (_ ← AsmWriteMsr64 (base_reg p) (enc t (B, L)).1;
                         _ ← AsmWriteMsr64 (u32 (base_reg p + 1)) (enc t (B, L)).2; mret tt);
                    _ ← PostMtrrChange ctx; mret u) Q c).
  { destruct Hwp as (a & s & Hrun & HQa). exists a, s. split; [|done]. rewrite <- Hrun.
    unfold mbind, M_bind, mret, M_ret. destruct (PreMtrrChange c) as [[ctx c1]|]; [|done].
    cbn [enc fst snd]. destruct (AsmWriteMsr64 _ _ c1) as [[? c2]|]; [|done].
    destruct (AsmWriteMsr64 _ _ c2) as [[? c3]|]; [|done].
    by destruct (PostMtrrChange ctx c3) as [[[] c4]|]. }
  apply wp_bracket. intros c1 E1. pose proof (quiesce_quiesced (view c)) as Hq. rewrite <- E1 in Hq.
  rewrite wrap_small by (unfold base_reg; lia).
  apply wp_bind, wp_write; [by apply variable_in_mtrr|by apply HneC|done|done|]. intros c2 r2 E2.
  assert (Hq2 : quiesced (view c2)).
  { destruct Hq as (Hi & Hc & Hd). rewrite E2. unfold quiesced, set_msr. cbn [interrupts caching msrs].
    split_and!; [done|done|]. rewrite lookup_total_insert_ne by (by apply HneD). done. }
  apply wp_bind, wp_write; [by apply variable_in_mtrr|by apply HneC|done|done|]. intros c3 r3 E3.
  apply wp_ret. exists ws. split_and!.
  - repeat constructor; by apply HneD.
  - rewrite E3, E2. unfold set_msr, ws, write_regs. cbn. destruct Hq as (-> & -> & _). done.
  - intros c4 E4. apply wp_ret.
    assert (Hreg : forall i, msrs (view c4) !!! i = write_regs ws m !!! i).
    { intros i. rewrite E4. unfold changed. cbn [msrs]. destruct (Z.eq_dec i DEF_TYPE) as [-> |Hne].
      - rewrite lookup_total_insert_eq, Hdef. symmetry.
        apply write_regs_lookup. repeat constructor; by apply HneD.
      - by rewrite lookup_total_insert_ne. }
    assert (Hpair : forall n, pair_at (msrs (view c4)) n = pair_at (write_regs ws m) n).
    { intros n. unfold pair_at. by rewrite !Hreg. }
    assert (Hother : forall i, i <> base_reg p -> i <> base_reg p + 1 -> write_regs ws m !!! i = m !!! i).
    { intros i H1 H2. apply write_regs_lookup. by repeat constructor. }
    apply HQ.
    + split_and!; [|by rewrite E4|by rewrite E4|by rewrite E4].
      intros i Hi. rewrite Hreg. apply Hother; intros ->; by apply Hi.
    + rewrite <- (active_insert m p (enc t (B, L))) by (done || apply enc_enabled).
      by rewrite (active_ext (msrs (view c4)) (write_regs ws m)).
    + intros n Hn. rewrite Hpair. unfold pair_at.
      by rewrite !Hother by (unfold base_reg; lia).
    + rewrite Hpair. unfold pair_at, ws, write_regs. cbn [foldl fst snd]. fold (base_reg p).
      rewrite lookup_total_insert_ne, !lookup_total_insert_eq by lia. apply enc_enabled.
Qed.

(** [v'] is [v] with a pair added for each block. *)
Definition programmed (t : Z) (bs : list mblock) v v' : Prop :=
  same_rest v v' /\ active v'.(msrs) ≡ₚ (enc t <$> bs) ++ active v.(msrs).

Lemma programmed_nil t v : programmed t [] v v.
Proof. by split. Qed.

Lemma programmed_cons t x bs v1 v2 v3 :
  programmed t [x] v1 v2 -> programmed t bs v2 v3 -> programmed t (x :: bs) v1 v3.
Proof.
  intros [S1 A1] [S2 A2]. split; [by eapply same_rest_trans|]. rewrite A2, A1. cbn. by rewrite Permutation_middle.
Qed.

Lemma programmed_length t bs v v' :
  programmed t bs v v' -> length (active v'.(msrs)) = (length bs + length (active v.(msrs)))%nat.
Proof. intros [_ ->]. by rewrite length_app, length_fmap. Qed.

(** What the programming loops keep between two registers: enough free pairs for [n] blocks. *)
Definition slots (n p : nat) v : Prop :=
  (vcnt v.(msrs) <= 8)%nat /\ running v /\ used_below v.(msrs) p /\ (p <= vcnt v.(msrs))%nat /\
  (n + length (active v.(msrs)) <= vcnt v.(msrs))%nat.

(** The end of the variable registers, for the processor of [v]. *)
Abbreviation vend v := (variable_end (Z.of_nat (vcnt v.(msrs)))).

(** One search for a free pair and its programming. *)
Lemma wp_program_one n p t B L {A} (k : Z -> M C A) (Q : A -> C -> Prop) c :
  slots (S n) p (view c) -> 0 <= t < 256 ->
  (forall c' p', programmed t [(B, L)] (view c) (view c') -> slots n p' (view c') ->
     vend (view c') = vend (view c) -> wp (k (base_reg p')) Q c') ->
  wp (MsrNum ← find_unused unused_fuel (vend (view c)) (base_reg p);
      _ ← ProgramVariableMtrr MsrNum B L t VA; k MsrNum) Q c.
Proof.
  intros (H8 & Hrun & Hused & Hp & Hfree) Ht Hk.
  apply wp_bind, wp_find_unused; [done|done|done|unfold unused_fuel; lia|].
  intros c1 p1 E1 Hp1 Hused1 Hoff. destruct Hoff as [Hp1' Hoff]; [lia|]. rewrite <- E1 in *.
  apply wp_bind, wp_ProgramVariableMtrr; [done|done|done|done|done|].
  intros c2 Hsame Hact Hother Hon.
  assert (Hprog : programmed t [(B, L)] (view c1) (view c2)) by done.
  pose proof (same_rest_vcnt _ _ Hsame) as Hv. apply (Hk c2 p1); [done| |by rewrite Hv].
  split_and!; [by rewrite Hv|by eapply same_rest_running| |by rewrite Hv|].
  - intros i Hi. destruct (Nat.eq_dec i p1) as [-> |]; [done|]. rewrite Hother by done. by apply Hused1.
  - rewrite (programmed_length _ _ _ _ Hprog), Hv. cbn [length]. lia.
Qed.

(** The loop over the aligned blocks programs [align_blocks]. *)
Lemma wp_program_aligned n p t b l j r count (Q : Z * Z * Z -> C -> Prop) c :
  0 <= t < 256 -> align_loop n b l count = Some r ->
  let '(bs, b', l') := align_blocks n b l in
  slots (length bs + j) p (view c) ->
  (forall c' p', programmed t bs (view c) (view c') -> slots j p' (view c') ->
     vend (view c') = vend (view c) -> Q (base_reg p', b', l') c') ->
  wp (program_aligned n (vend (view c)) t VA (base_reg p) b l) Q c.
Proof.
  intros Ht. revert p b l count c Q.
  induction n as [|n IH]; intros p b l count c Q Hloop; [done|].
  cbn [align_loop align_blocks program_aligned] in *.
  set (A := LShiftU64 1 _) in *. destruct (A >? l).
  { intros Hs HQ. apply wp_ret, HQ; [apply programmed_nil|done|done]. }
  specialize (fun p => IH p (u64 (b + A)) (l - A)).
  destruct (align_blocks n _ _) as [[bs b'] l']. intros Hs HQ. cbn [length] in Hs.
  eapply wp_program_one; [exact Hs|done|]. intros c1 p1 H1 Hs1 E1. rewrite <- E1 in *.
  eapply IH; [exact Hloop|exact Hs1|]. intros c2 p2 H2 Hs2 E2.
  apply HQ; [by eapply programmed_cons|done|done].
Qed.

(** The last loop programs [rest_blocks]. *)
Lemma wp_program_rest n up p t B T count r (Q : unit -> C -> Prop) c :
  0 <= t < 256 -> count_loop n T count = Some r -> 0 <= T < 2 ^ 64 ->
  slots (length (rest_blocks n up B T)) p (view c) ->
  (forall c', programmed t (rest_blocks n up B T) (view c) (view c') -> Q tt c') ->
  wp (program_rest n (vend (view c)) t VA up (base_reg p) B T) Q c.
Proof.
  intros Ht. revert p B T count c Q.
  induction n as [|n IH]; intros p B T count c Q Hloop HT; [done|].
  cbn [count_loop rest_blocks program_rest] in *. intros Hs HQ. cbn [length] in Hs.
  eapply wp_program_one; [exact Hs|done|]. intros c1 p1 H1 Hs1 E1.
  set (T1 := u64 (T - Power2MaxMemory T)) in *.
  assert (HT1 : 0 <= T1 < 2 ^ 64) by (by apply wrap_bounds).
  destruct (Z.eqb_spec T1 0) as [Hz|Hnz].
  - rewrite Hz. cbn. apply wp_ret, HQ. done.
  - destruct (Z.gtb_spec T1 0); [|lia]. rewrite <- E1.
    destruct up; (eapply IH; [exact Hloop|done|exact Hs1|]; intros c2 H2; apply HQ;
                  by eapply programmed_cons).
Qed.

(** ** The shadow array *)

(** What the shadow array records of pair [n]. *)
Definition shadow_of m (n : nat) : VARIABLE_MTRR :=
  {| vBaseAddress := Z.land (pair_at m n).1 VA;
     vLength := u64 (Z.land (Z.lnot (Z.land (pair_at m n).2 VA)) VB + 1);
     vType := type_of (pair_at m n); vMsr := base_reg n; vValid := true; vUsed := true |}.

Definition used_pairs m (p : nat) : list nat := base.filter (fun n => enabled (pair_at m n) = true) (seq 0 p).

Lemma used_pairs_S m p :
  used_pairs m (S p) = used_pairs m p ++ (if enabled (pair_at m p) then [p] else []).
Proof.
  unfold used_pairs. rewrite seq_S, filter_app. f_equal. rewrite filter_cons. cbn [Nat.add].
  by destruct (enabled (pair_at m p)).
Qed.

Lemma active_used_pairs m : active m = pair_at m <$> used_pairs m (vcnt m).
Proof. unfold active, used_pairs. by rewrite filter_fmap_comm. Qed.

(** The array: the first pairs in use, as many as firmware may use, then empty entries. *)
Definition shadow_entries m : list VARIABLE_MTRR :=
  shadow_of m <$> take (Z.to_nat (fwcnt m)) (used_pairs m (vcnt m)).

Definition shadow_array (es : list VARIABLE_MTRR) : list VARIABLE_MTRR :=
  es ++ replicate (Z.to_nat MTRR_NUMBER_OF_VARIABLE_MTRR - length es) zero_entry.

Lemma shadow_array_insert es e :
  (length es < Z.to_nat MTRR_NUMBER_OF_VARIABLE_MTRR)%nat ->
  <[length es := e]> (shadow_array es) = shadow_array (es ++ [e]).
Proof.
  intros Hlen. unfold shadow_array. rewrite length_app. cbn [length].
  replace (Z.to_nat MTRR_NUMBER_OF_VARIABLE_MTRR - length es)%nat
    with (S (Z.to_nat MTRR_NUMBER_OF_VARIABLE_MTRR - (length es + 1))) by lia.
  cbn [replicate]. rewrite insert_app_r_alt by lia. rewrite Nat.sub_diag. cbn. by rewrite <- app_assoc.
Qed.

Lemma fwcnt_le m : (vcnt m <= 8)%nat -> (Z.to_nat (fwcnt m) <= vcnt m)%nat.
Proof. pose proof RESERVED_val. unfold fwcnt. lia. Qed.

Lemma wp_shadow_loop fuel p es (Q : Z * list VARIABLE_MTRR -> C -> Prop) c :
  let m := (view c).(msrs) in
  (vcnt m <= 8)%nat -> (p <= vcnt m)%nat -> (vcnt m - p < fuel)%nat ->
  es = shadow_of m <$> take (Z.to_nat (fwcnt m)) (used_pairs m p) ->
  (forall c', view c' = view c ->
     Q (Z.of_nat (length (shadow_entries m)), shadow_array (shadow_entries m)) c') ->
  wp (shadow_loop fuel VB VA (variable_end (Z.of_nat (vcnt m))) (fwcnt m) (base_reg p)
        (Z.of_nat (length es)) (shadow_array es) (Z.of_nat (length es))) Q c.
Proof.
  intros m. unfold m. clear m. revert p es c Q.
  induction fuel as [|fuel IH]; intros p es c Q H8 Hp Hf Hes HQ; [lia|].
  pose proof (fwcnt_le _ H8) as Hfw. pose proof NUMBER_VARIABLE_val as Hnum.
  cbn [shadow_loop]. rewrite variable_end_eq by done. set (m := msrs (view c)) in *.
  assert (Hlen : length es = Nat.min (Z.to_nat (fwcnt m)) (length (used_pairs m p))).
  { rewrite Hes, length_fmap, length_take. done. }
  destruct (Z.ltb_spec (base_reg p) (base_reg (vcnt m) - 1)) as [Hlt|Hge]; cycle 1.
  { cbn [andb]. apply wp_ret. unfold base_reg in Hge. replace p with (vcnt m) in Hes by lia.
    unfold shadow_entries in HQ. rewrite <- Hes in HQ. by apply HQ. }
  destruct (Z.ltb_spec (Z.of_nat (length es)) (fwcnt m)) as [Hidx|Hidx]; cycle 1; cbn [andb].
  { apply wp_ret. assert (He : shadow_entries m = es).
    { unfold shadow_entries. rewrite Hes. f_equal. 
      replace (vcnt m) with (p + (vcnt m - p))%nat by (unfold base_reg in Hlt; lia).
      unfold used_pairs. rewrite seq_app, filter_app, take_app_le; [done|].
      fold (used_pairs m p). lia. }
    rewrite He in HQ. by apply HQ. }
  assert (Hreg : base_reg p ∈ mtrr_regs /\ base_reg p + 1 ∈ mtrr_regs).
  { unfold base_reg in Hlt. destruct (base_reg_in p); [lia|]. split; by apply variable_in_mtrr. }
  destruct Hreg as [Hr0 Hr1]. unfold base_reg in Hlt.
  rewrite (wrap_small 32 (base_reg p + 1)) by (unfold base_reg; lia).
  rewrite (wrap_small 32 (base_reg p + 2)) by (unfold base_reg; lia).
  replace (base_reg p + 2) with (base_reg (S p)) by (unfold base_reg; lia).
  apply wp_bind, wp_read; [done|]. intros c1 E1. rewrite ENABLED_val.
  assert (Hen : enabled (pair_at m p) = negb (Z.land (m !!! (base_reg p + 1)) 0x800 =? 0)) by done.
  fold m. rewrite <- Hen. rewrite <- variable_end_eq by done.
  destruct (enabled (pair_at m p)) eqn:Hon.
  - apply wp_bind, wp_read; [done|]. intros c2 E2. apply wp_bind, wp_read; [done|]. intros c3 E3.
    apply wp_bind, wp_read; [done|]. intros c4 E4. rewrite E3, E2, E1. fold m.
    assert (E : view c4 = view c) by congruence.
    apply wp_bind. rewrite Nat2Z.id. eapply (wp_lift _ zero_entry).
    { unfold shadow_array. rewrite lookup_app_r by lia. rewrite Nat.sub_diag.
      apply lookup_replicate. split; [done|]. lia. }
    set (e := {| vMsr := _ |}). change e with (shadow_of m p) in *. clear e.
    rewrite shadow_array_insert by lia. rewrite (wrap_small 32 (Z.of_nat (length es) + 1)) by lia.
    replace (Z.of_nat (length es) + 1) with (Z.of_nat (length (es ++ [shadow_of m p])))
      by (rewrite length_app; cbn; lia).
    unfold m. rewrite <- E. apply IH; rewrite E; fold m; [done|lia|lia| |exact HQ].
    rewrite used_pairs_S, Hon, Hes.
    rewrite (take_ge (used_pairs m p)) by lia.
    rewrite take_ge by (rewrite length_app; cbn; lia). by rewrite fmap_app.
  - unfold m. rewrite <- E1. apply IH; rewrite E1; fold m; [done|lia|lia| |exact HQ].
    by rewrite used_pairs_S, Hon, app_nil_r.
Qed.

Lemma wp_shadow arr (Q : Z * list VARIABLE_MTRR -> C -> Prop) c :
  let m := (view c).(msrs) in
  (vcnt m <= 8)%nat ->
  (forall c', view c' = view c ->
     Q (Z.of_nat (length (shadow_entries m)), shadow_array (shadow_entries m)) c') ->
  wp (MtrrGetMemoryAttributeInVariableMtrr VB VA arr) Q c.
Proof.
  intros m H8 HQ. unfold MtrrGetMemoryAttributeInVariableMtrr. cbn [negb IsMtrrSupported].
  apply wp_bind, wp_GetFirmwareVariableMtrrCount; [done|]. intros c1 E1.
  apply wp_bind, wp_GetVariableMtrrCount; [by rewrite E1|]. intros c2 E2. rewrite E1 in *.
  rewrite Nat2Z.id, VARIABLE_BASE_val.
  change 0x200 with (base_reg 0). change 0 with (Z.of_nat (@length VARIABLE_MTRR [])).
  replace (replicate (Z.to_nat MTRR_NUMBER_OF_VARIABLE_MTRR) zero_entry) with (shadow_array [])
    by (unfold shadow_array; cbn [app length]; by rewrite Nat.sub_0_r).
  rewrite <- E2. apply wp_shadow_loop; rewrite E2; [done|lia|lia| |exact HQ].
  by destruct (Z.to_nat _).
Qed.

(** ** Setting a range *)

(** An array in which every entry in use is still valid: nothing to invalidate. *)
Lemma wp_InvalidateMtrr arr (Q : list VARIABLE_MTRR -> C -> Prop) c :
  (vcnt (view c).(msrs) <= 8)%nat -> (vcnt (view c).(msrs) <= length arr)%nat ->
  Forall (fun e => negb e.(vValid) && e.(vUsed) = false) arr ->
  (forall c', view c' = changed [] (view c) -> Q arr c') ->
  wp (InvalidateMtrr arr) Q c.
Proof.
  intros H8 Hlen Harr HQ. unfold InvalidateMtrr.
  enough (Hwp : wp (ctx ← PreMtrrChange;
                    a ← (n ← GetVariableMtrrCount; invalidate_loop (Z.to_nat n) 0 arr);
                    _ ← PostMtrrChange ctx; mret a) Q c).
  { destruct Hwp as (a & s & Hrun & HQa). exists a, s. split; [|done]. rewrite <- Hrun.
    unfold mbind, M_bind. destruct (PreMtrrChange c) as [[ctx c1]|]; [|done].
    destruct (GetVariableMtrrCount c1) as [[n c2]|]; [|done].
    by destruct (invalidate_loop (Z.to_nat n) 0 arr c2) as [[a' c3]|]. }
  apply wp_bracket. intros c1 E1.
  assert (Hv : vcnt (view c1).(msrs) = vcnt (view c).(msrs)).
  { rewrite E1. unfold vcnt, quiesce. cbn [msrs]. by rewrite lookup_total_insert_ne. }
  apply wp_bind, wp_GetVariableMtrrCount; [by rewrite Hv|]. intros c2 E2.
  rewrite Nat2Z.id, Hv.
  assert (Hloop : forall n k, (k + n <= length arr)%nat ->
    wp (invalidate_loop n k arr) (fun a c3 => a = arr /\ view c3 = view c2) c2).
  { intros n. induction n as [|n IH]; intros k Hk; [by apply wp_ret|]. cbn [invalidate_loop].
    destruct (lookup_lt_is_Some_2 arr k) as [e He]; [lia|]. eapply wp_bind, wp_lift; [exact He|].
    rewrite Forall_lookup in Harr. rewrite (Harr _ _ He). apply IH. lia. }
  eapply wp_mono; [apply (Hloop _ 0%nat); lia|]. intros a c3 [-> E3].
  exists []. split_and!; [done| |intros c4 E4; by apply wp_ret, HQ]. rewrite E3, E2.
  by rewrite E1.
Qed.

#[local] Opaque count_loop align_loop rest_blocks align_blocks aligned_part program_aligned program_rest find_unused.

Lemma programmed_app t bs1 bs2 v1 v2 v3 :
  programmed t bs1 v1 v2 -> programmed t bs2 v2 v3 -> programmed t (bs1 ++ bs2) v1 v3.
Proof.
  intros [S1 A1] [S2 A2]. split; [by eapply same_rest_trans|].
  rewrite A2, A1, fmap_app, !app_assoc. f_equiv. apply Permutation_app_comm.
Qed.

Lemma wp_head (p : nat) (b l t : Z) (j : nat) (Q : Z * Z * Z -> C -> Prop) c :
  range_ok b l -> 0 <= t < 256 ->
  let '(bs, b', l') := aligned_part b l in
  slots (length bs + j) p (view c) ->
  (forall c' p', programmed t bs (view c) (view c') -> slots j p' (view c') ->
     vend (view c') = vend (view c) -> Q (base_reg p', b', l') c') ->
  wp (if negb (b =? 0) then program_aligned 65 (vend (view c)) t VA (base_reg p) b l
      else mret (base_reg p, b, l)) Q c.
Proof.
  intros Hr Ht. pose proof (head_ok b l Hr) as Hh. destruct (Z.eqb_spec b 0) as [Hb|Hb].
  - Transparent aligned_part. unfold aligned_part in *. Opaque aligned_part. destruct (Z.eqb_spec b 0); [|done].
    intros Hs HQ. cbn [negb]. apply wp_ret, HQ; [apply programmed_nil|done|done].
  - pose proof (wp_program_aligned 65 p t b l j) as Hal.
    Transparent aligned_part. unfold aligned_part in *. Opaque aligned_part. destruct (Z.eqb_spec b 0); [done|].
    destruct (align_blocks 65 b l) as [[bs b'] l']. destruct Hh as (Hloop & _).
    intros Hs HQ. cbn [negb]. eapply Hal; [done|exact Hloop|done|done].
Qed.

(** The programming part of [MtrrSetMemoryAttribute] programs the plan: the blocks of the range
    with the type asked for, those of the excess as uncacheable. *)
Lemma wp_program_variable dir b l t main uc (Q : unit -> C -> Prop) c :
  range_ok b l -> 0 <= t < 256 -> plan dir b l = (main, uc) ->
  (dir = false -> (aligned_part b l).2 < 2 ^ phys_bits) ->
  slots (length main + length uc) 0 (view c) ->
  (forall c' v1, programmed t main (view c) v1 -> programmed 0 uc v1 (view c') -> Q tt c') ->
  wp (program_variable (vend (view c)) t VA dir b l) Q c.
Proof.
  intros Hr Ht Hplan Hdir Hs HQ. pose proof (head_ok b l Hr) as Hh.
  pose proof (wp_head) as Hhead. specialize (fun p => Hhead p b l t).
  assert (Hfit : b + l <= 2 ^ phys_bits) by apply Hr. pose proof phys_bits_pow as HP.
  unfold plan in Hplan. unfold program_variable. rewrite VARIABLE_BASE_val, UNCACHEABLE_val.
  change 0x200 with (base_reg 0). destruct Hs as (H8 & Hrun & Hused & Hp & Hfree).
  apply wp_bind, wp_find_unused; [done|done|done|unfold unused_fuel; lia|].
  intros c1 p1 E1 Hp1 Hused1 _. rewrite <- E1 in *.
  destruct (aligned_part b l) as [[bs b'] l'].
  destruct Hh as (_ & Htil & Hb' & Hl' & Hsum & Hpl' & Hb0 & Hlen & K & HK & HlK & HbK).
  cbn [snd] in Hdir. apply wp_bind.
  destruct (negb (b =? 0) && (l' =? 0)) eqn:Hdone.
  { injection Hplan as <- <-. cbn [length] in Hfree.
    apply (Hhead p1 0%nat); [done|done|by split_and!; [..|lia]|]. intros c2 p2 H2 Hs2 _.
    rewrite Hdone. apply wp_ret, (HQ c2 (view c2)); [done|apply programmed_nil]. }
  assert (Hpos : 0 < l').
  { destruct (Z.eqb_spec l' 0); [|lia]. rewrite andb_true_r in Hdone.
    apply negb_false_iff, Z.eqb_eq in Hdone. exfalso. by apply Hb0. }
  destruct dir; injection Hplan as <- <-.
  - rewrite length_app in Hfree. cbn [length] in Hfree.
    apply (Hhead p1 (length (rest_blocks 65 true b' l'))); [done|done|by split_and!; [..|lia]|].
    intros c2 p2 H2 Hs2 E2. rewrite Hdone, <- E2.
    destruct (rest_blocks_ok 65 true b' l' K) as [_ Hcount]; [lia|lia|done|done|lia|].
    eapply wp_program_rest; [done|apply (Hcount 0)|lia|exact Hs2|]. intros c3 H3.
    apply (HQ c3 (view c3)); [by eapply programmed_app|apply programmed_nil].
  - destruct (round_up l') as (EP & HPl & H54); [lia|]. rewrite EP in *.
    set (P := 2 ^ (Z.log2 l' + 1)) in *.
    destruct (round_up_ok b' l' K) as (Hok & HPe & Htd);
      [lia|lia|lia|by apply Hdir|done|lia|lia|done|]. fold P in Hok, HPe, Htd.
    rewrite (wrap_small 64 (b' + P)), (wrap_small 64 (P - l')) in * by lia.
    set (rest := rest_blocks 65 false (b' + P) (P - l')) in *.
    rewrite length_app in Hfree. cbn [length] in Hfree.
    apply (Hhead p1 (S (length rest))); [done|done|by split_and!; [..|lia]|].
    intros c2 p2 H2 Hs2 E2. rewrite Hdone, <- E2, EP. fold P.
    rewrite (wrap_small 64 (b' + P)), (wrap_small 64 (P - l')) by lia.
    eapply wp_program_one; [exact Hs2|done|]. intros c3 p3 H3 Hs3 E3. rewrite <- E3.
    destruct (rest_blocks_ok 65 false (b' + P) (P - l') (Z.log2 l' + 1)) as [_ Hcount].
    { pose proof (log2_multiple 12 l' ltac:(lia) ltac:(lia) Hpl').
      assert (Z.log2 l' < K) by (apply Z.log2_lt_pow2; lia). lia. }
    { fold P. lia. }
    { destruct Hok as (k & Hk & HPk & Hd & _). cbn in HPk, Hd. apply Z.divide_sub_r; [|done].
      rewrite HPk. apply (divide_pow2 _ k); [lia|apply Z.divide_refl]. }
    { fold P. destruct Hok as (k & Hk & HPk & Hd & _). cbn in HPk, Hd. rewrite HPk in *.
      apply Z.divide_add_r; [done|apply Z.divide_refl]. }
    { lia. }
    eapply wp_program_rest; [lia|apply (Hcount 0)|lia|exact Hs3|]. intros c4 H4.
    apply (HQ c4 (view c3)); [by eapply programmed_app|done].
Qed.

(** ** Types *)

Lemma types_of_blocks t bs a :
  0 <= t < 256 -> Forall block_ok bs -> 0 <= a < 2 ^ phys_bits ->
  type_of <$> base.filter (fun p => covers p a = true) (enc t <$> bs) = replicate (hits bs a) t.
Proof.
  intros Ht Hok Ha. destruct phys_bits_ok as [Hp _]. induction Hok as [|x bs Hx Hok IH]; [done|].
  cbn [fmap list_fmap]. rewrite filter_cons, hits_cons.
  assert (Hc : covers (enc t x) a = in_block a x) by (apply describes_covers; [by apply enc_describes|done]).
  rewrite Hc. assert (Hty : type_of (enc t x) = t).
  { unfold type_of, enc, VA. cbn [fst]. change 0xFF with (Z.ones 8).
    assert (in_width 8 t) by (unfold in_width; lia). bits i Hi. bit_cases. }
  destruct (in_block a x); [rewrite decide_True by done|rewrite decide_False by done; exact IH].
  cbn [fmap list_fmap Nat.add replicate]. by rewrite Hty, IH.
Qed.

Lemma types_at_programmed t bs v v' a :
  0 <= t < 256 -> Forall block_ok bs -> 0 <= a < 2 ^ phys_bits -> programmed t bs v v' ->
  types_at v'.(msrs) a ≡ₚ replicate (hits bs a) t ++ types_at v.(msrs) a.
Proof.
  intros Ht Hok Ha [_ Hact]. unfold types_at. rewrite Hact, filter_app, fmap_app.
  by rewrite types_of_blocks.
Qed.

Lemma combined_type_zero ts : In 0 ts -> combined_type ts = Some 0.
Proof.
  intros Hin. destruct ts as [|t ts]; [done|]. unfold combined_type.
  destruct (existsb (Z.eqb 0) (t :: ts)) eqn:E; [done|].
  exfalso. assert (existsb (Z.eqb 0) (t :: ts) = true); [|congruence].
  apply existsb_exists. by exists 0.
Qed.

Lemma combined_type_single t : combined_type [t] = Some t.
Proof.
  unfold combined_type. cbn [existsb forallb]. rewrite Z.eqb_refl, orb_false_r.
  by destruct (Z.eqb_spec 0 t) as [<-|].
Qed.

(** The range that the variable registers describe: a range that starts at 1 MiB is extended down
    to address zero, where the fixed ranges take precedence. *)
Definition variable_range (b l : Z) : Z * Z := if b =? BASE_1MB then (0, l + SIZE_1MB) else (b, l).

Definition apart (p : Z * Z) (b l : Z) : Prop :=
  exists x, describes p x /\ (x.1 + x.2 <= b \/ b + l <= x.1).

(** The entry of a pair that describes a block has its base and its length. *)
Lemma shadow_describes m n x :
  describes (pair_at m n) x ->
  (shadow_of m n).(vBaseAddress) = x.1 /\ (shadow_of m n).(vLength) = x.2.
Proof.
  intros (Hok & Hbase & Hmask). split; [exact Hbase|]. unfold shadow_of. cbn [vLength].
  destruct Hok as (k & Hk & HL & Hd & H0 & Hend). pose proof phys_bits_pow as HP.
  destruct (block_ok_bounds x k HL Hk H0 Hend) as [HkP Hkpos].
  rewrite Hmask, HL, Z.log2_pow2 by lia. destruct phys_bits_ok as [Hp _].
  replace (Z.land (Z.lnot (Z.ldiff (Z.ones phys_bits) (Z.ones k))) VB) with (Z.ones k).
  - rewrite Z.ones_equiv. rewrite wrap_small; [lia|]. rewrite <- HL. lia.
  - unfold VB. bits i Hi. bit_cases.
Qed.

(** No entry of the shadow array overlaps the range. *)
Lemma overlap_free m b l :
  range_ok b l -> Forall (fun p => apart p b l) (active m) ->
  CheckMemoryAttributeOverlap b (u64 (b + l - 1)) (shadow_array (shadow_entries m)) = Some false.
Proof.
  intros (Hb & Hl & Hfit & _) Hap. pose proof phys_bits_pow as HP. pose proof NUMBER_VARIABLE_val as Hnum.
  rewrite wrap_small by lia. unfold CheckMemoryAttributeOverlap.
  set (arr := shadow_array (shadow_entries m)).
  assert (Hlen : (6 <= length arr)%nat).
  { unfold arr, shadow_array. rewrite length_app, length_replicate. lia. }
  assert (Hall : Forall (fun e => entry_overlaps b (b + l - 1) e = false) arr).
  { apply Forall_app. split; [|by apply Forall_replicate].
    unfold shadow_entries. apply Forall_fmap. apply Forall_take. apply Forall_forall. intros n Hn.
    rewrite active_used_pairs, Forall_fmap, Forall_forall in Hap. specialize (Hap n Hn).
    destruct Hap as (x & (Hok & Hbase & Hmask) & Hx). change (entry_overlaps b (b + l - 1) (shadow_of m n) = false).
    unfold entry_overlaps, shadow_of. cbn [vValid vBaseAddress andb].
    destruct (shadow_describes m n x) as [_ HLen]; [by split_and!|]. unfold shadow_of in HLen. cbn [vLength] in HLen.
    destruct Hok as (k & Hk & HL & Hd & H0 & Hend).
    destruct (block_ok_bounds x k HL Hk H0 Hend) as [HkP Hkpos].
    unfold entry_end. cbn [vBaseAddress vLength]. rewrite Hbase, HLen, wrap_small by lia.
    destruct (Z.gtb_spec b (x.1 + x.2 - 1)); [done|]. destruct (Z.ltb_spec (b + l - 1) x.1); [done|]. lia. }
  clearbody arr. assert (Hgen : forall n k, (k + n <= length arr)%nat ->
    overlap_loop b (b + l - 1) arr n k = Some false).
  { intros n. induction n as [|n IH]; intros k Hk; [done|]. cbn [overlap_loop].
    destruct (lookup_lt_is_Some_2 arr k) as [e He]; [lia|]. rewrite He, some_bind.
    rewrite Forall_lookup in Hall. rewrite (Hall _ _ He). apply IH. lia. }
  apply Hgen. lia.
Qed.

Lemma shadow_entries_length m :
  (vcnt m <= 8)%nat ->
  Z.of_nat (length (shadow_entries m)) = Z.min (fwcnt m) (Z.of_nat (length (active m))).
Proof.
  intros H8. unfold shadow_entries. rewrite length_fmap, length_take, active_used_pairs, length_fmap.
  unfold fwcnt. lia.
Qed.

(** Enabling the MTRRs changes no pair. *)
Lemma changed_nil v :
  (vcnt v.(msrs) <= 8)%nat ->
  active (changed [] v).(msrs) = active v.(msrs) /\
  vcnt (changed [] v).(msrs) = vcnt v.(msrs) /\ running (changed [] v).
Proof.
  intros H8. assert (Hne : forall i, i <> DEF_TYPE -> msrs (changed [] v) !!! i = msrs v !!! i).
  { intros i Hi. unfold changed. cbn. by rewrite lookup_total_insert_ne. }
  assert (Hv : vcnt (changed [] v).(msrs) = vcnt v.(msrs)) by (unfold vcnt; by rewrite Hne).
  split_and!; [|done|].
  - unfold active. rewrite Hv. f_equal. apply list_fmap_ext. intros i n Hn.
    apply lookup_seq in Hn as [-> Hn]. unfold pair_at. by rewrite !Hne by lia.
  - unfold running, changed. cbn. rewrite lookup_total_insert_eq. split; [|done].
    rewrite <- Z.lor_assoc. by rewrite Z.lor_diag.
Qed.

(** What [MtrrSetMemoryAttribute] does from the variable ranges on, when nothing overlaps. *)
Lemma wp_set_variable b0 l0 b l t (Q : EFI_STATUS -> C -> Prop) c :
  let v := view c in
  variable_range b0 l0 = (b, l) -> range_ok b l -> 0 <= t < 256 -> (vcnt v.(msrs) <= 8)%nat ->
  Forall (fun p => apart p b l) (active v.(msrs)) -> t <> Z.land (v.(msrs) !!! DEF_TYPE) 7 ->
  (forall dir main uc,
     GetMtrrNumberAndDirection b l = Some (dir, Z.of_nat (length main + length uc)) ->
     plan dir b l = (main, uc) ->
     forall c',
     if Z.of_nat (length (active v.(msrs)) + (length main + length uc)) <=? fwcnt v.(msrs) then
       forall v1, programmed t main (changed [] v) v1 -> programmed 0 uc v1 (view c') -> Q EFI_SUCCESS c'
     else view c' = v -> Q EFI_OUT_OF_RESOURCES c') ->
  wp (set_variable VB VA (fwcnt v.(msrs)) (vend v) b0 l0 t) Q c.
Proof.
  intros v Hadj Hr Ht H8 Hap Hdef HQ. pose proof phys_bits_pow as HP. unfold set_variable.
  assert (Hadj' : (if b0 =? BASE_1MB then (0, u64 (l0 + SIZE_1MB)) else (b0, l0)) = (b, l)).
  { rewrite <- Hadj. unfold variable_range in *. destruct (b0 =? BASE_1MB); [|done].
    injection Hadj as <- <-. destruct Hr as (_ & ? & ? & _). by rewrite wrap_small by lia. }
  rewrite Hadj'. cbv beta iota. pose proof (fwcnt_le _ H8) as Hfw. pose proof NUMBER_VARIABLE_val as Hnum.
  assert (Hfw0 : 0 <= fwcnt (msrs v)) by (unfold fwcnt; lia).
  apply wp_bind, wp_shadow; [done|]. intros c1 E1. fold v.
  apply wp_bind. eapply wp_lift; [by apply overlap_free|].
  apply wp_bind, wp_ret. cbn [EFI_ERROR andb csLength csOverwrite].
  replace (EFI_ERROR EFI_SUCCESS) with false by reflexivity. cbn [andb].
  apply wp_bind, wp_bind, wp_MtrrGetDefaultMemoryType. intros c2 E2. apply wp_ret.
  rewrite E1. fold v. rewrite bool_decide_eq_false_2 by congruence.
  destruct (number_and_direction b l Hr) as (dir & main & uc & e & Hnd & Hplan & Hm & Hu & He & Hd1 & Hd0 & Hn16 & _).
  apply wp_bind. eapply wp_lift; [exact Hnd|]. cbn [csUsedMtrr csArray csBase csLength].
  specialize (HQ dir main uc Hnd Hplan).
  assert (Hmain : (0 < length main)%nat).
  { destruct main; [|cbn; lia]. exfalso. destruct Hm as (_ & Hbe & Hh). destruct Hu as (_ & Hle & _).
    specialize (Hh b). destruct Hr as (_ & Hl & _). revert Hh. unfold hits. cbn. bools; done. }
  rewrite shadow_entries_length by done. set (na := length (active (msrs v))) in *.
  rewrite wrap_small by lia.
  destruct (Z.leb_spec (Z.of_nat (na + (length main + length uc))) (fwcnt (msrs v))) as [Hfit|Hfit].
  - destruct (Z.gtb_spec (Z.min (fwcnt (msrs v)) (Z.of_nat na) + Z.of_nat (length main + length uc))
                (fwcnt (msrs v))); [lia|].
    apply wp_bind, wp_InvalidateMtrr.
    + by rewrite E2, E1.
    + rewrite E2, E1. unfold shadow_array. rewrite length_app, length_replicate. fold v. lia.
    + unfold shadow_array. apply Forall_app. split; [|by apply Forall_replicate].
      unfold shadow_entries. apply Forall_fmap, Forall_true. done.
    + intros c3 E3. rewrite E2, E1 in E3. fold v in E3. apply wp_bind.
      destruct (changed_nil v H8) as (Hact & Hv & Hrun).
      replace (vend v) with (vend (view c3)) by (by rewrite E3, Hv).
      eapply wp_program_variable; [done|done|exact Hplan|exact Hd0| |].
      * rewrite E3. unfold slots. rewrite Hact, Hv. fold na. split_and!; [done|done|intros n0 Hn0; lia|lia|].
        unfold fwcnt in Hfit. pose proof RESERVED_val. lia.
      * intros c4 v1 H1 H2. apply wp_ret, (HQ c4 v1); [by rewrite <- E3|done].
  - destruct (Z.gtb_spec (Z.min (fwcnt (msrs v)) (Z.of_nat na) + Z.of_nat (length main + length uc))
                (fwcnt (msrs v))); [|lia].
    apply wp_ret, HQ. by rewrite E2, E1.
Qed.

Lemma types_at_apart m b l a :
  Forall (fun p => apart p b l) (active m) -> 0 <= a < 2 ^ phys_bits -> b <= a < b + l ->
  types_at m a = [].
Proof.
  intros Hap Ha Hr. unfold types_at. rewrite filter_none; [done|].
  eapply Forall_impl; [exact Hap|]. intros p (x & Hd & Hx).
  rewrite (describes_covers p x a) by done. unfold in_block. bools; done.
Qed.

Lemma in_VA x : 0 <= x < 2 ^ phys_bits -> (2 ^ 12 | x) -> Z.ldiff x VA = 0.
Proof.
  intros Hx Hd. destruct phys_bits_ok as [Hp _]. assert (Hw : in_width phys_bits x) by done.
  assert (Hpage : Z.land x (Z.ones 12) = 0).
  { rewrite Z.land_ones by lia. by apply Z.mod_divide. }
  unfold VA. bits i Hi. destruct (Z.ltb_spec i 12).
  - apply (f_equal (fun y => Z.testbit y i)) in Hpage.
    rewrite Z.land_spec, ones_bit, Z.testbit_0_l in Hpage by lia. revert Hpage. bools. intros ->. done.
  - destruct (Z.ltb_spec i phys_bits); bit_cases; by destruct (Z.testbit x i).
Qed.

Lemma variable_range_ok b0 l0 b l :
  BASE_1MB <= b0 -> range_ok b0 l0 -> variable_range b0 l0 = (b, l) -> range_ok b l.
Proof.
  unfold variable_range, range_ok, BASE_1MB, SIZE_1MB. intros H1 (Hb & Hl & Hf & Hd & Hdl).
  destruct (Z.eqb_spec b0 0x100000); intros [= <- <-]; [|done].
  split_and!; [lia|lia|lia|apply Z.divide_0_r|]. apply Z.divide_add_r; [done|by exists 0x100].
Qed.
End Set_.

(** ** Properties *)

(** C1: setting the memory type of a range above 1 MiB that overlaps no range register in use,
    when the type is not the default one. If the registers that the plan takes are free the status
    is RETURN_SUCCESS and by the architecture's rules every address of the range gets the type;
    where the library rounds the length up, the addresses of the excess (less than the length of
    the range) become uncacheable; every other address keeps the types it had; the interrupt
    state and CR4 are restored, and MTRRs and caches are on. If they are not free the status is
    RETURN_OUT_OF_RESOURCES and no register has changed. The range that starts at 1 MiB is extended
    to address zero. *)
Theorem MtrrSetMemoryAttribute_variable {MH : MtrrHeader} {MHO : MtrrHeaderOk} {C : Type}
    {CPU : MtrrCpu C} {OK : MtrrCpuOk C} (b0 l0 b l t : Z) (c : C) :
  let v := view c in
  BASE_1MB <= b0 -> range_ok b0 l0 -> variable_range b0 l0 = (b, l) -> 0 <= t < 8 ->
  (vcnt v.(msrs) <= 8)%nat -> Forall (fun p => apart p b l) (active v.(msrs)) ->
  t <> Z.land (v.(msrs) !!! DEF_TYPE) 7 ->
  exists status c' dir n,
    MtrrSetMemoryAttribute b0 l0 t c = Some (status, c') /\
    GetMtrrNumberAndDirection b l = Some (dir, n) /\
    if Z.of_nat (length (active v.(msrs))) + n <=? fwcnt v.(msrs) then
      status = EFI_SUCCESS /\
      (exists e, b + l <= e <= b + 2 * l /\ (dir = true -> e = b + l) /\
       forall a, 0 <= a < 2 ^ phys_bits ->
         (b <= a < b + l -> combined_type (types_at (view c').(msrs) a) = Some t) /\
         (b + l <= a < e -> combined_type (types_at (view c').(msrs) a) = Some 0) /\
         (a < b \/ e <= a -> types_at (view c').(msrs) a ≡ₚ types_at v.(msrs) a)) /\
      (view c').(interrupts) = v.(interrupts) /\ (view c').(cr4) = v.(cr4) /\
      (view c').(caching) = true /\
      (view c').(msrs) !!! DEF_TYPE = Z.lor (v.(msrs) !!! DEF_TYPE) ENABLES
    else status = EFI_OUT_OF_RESOURCES /\ view c' = v.
Proof.
  intros v H1 Hr0 Hadj Ht H8 Hap Hdef. pose proof (variable_range_ok _ _ _ _ H1 Hr0 Hadj) as Hr.
  enough (Hwp : wp (MtrrSetMemoryAttribute b0 l0 t) (fun status c' =>
    exists dir main uc, GetMtrrNumberAndDirection b l = Some (dir, Z.of_nat (length main + length uc)) /\
      plan dir b l = (main, uc) /\
      if Z.of_nat (length (active v.(msrs)) + (length main + length uc)) <=? fwcnt v.(msrs) then
        status = EFI_SUCCESS /\ exists v1, programmed t main (changed [] v) v1 /\ programmed 0 uc v1 (view c')
      else status = EFI_OUT_OF_RESOURCES /\ view c' = v) c).
  { destruct Hwp as (status & c' & Hrun & dir & main & uc & Hnd & Hplan & Hres).
    exists status, c', dir, (Z.of_nat (length main + length uc)). split; [done|]. split; [done|].
    rewrite <- Nat2Z.inj_add. destruct (_ <=? _); [|done]. destruct Hres as (-> & v1 & P1 & P2).
    split; [done|]. destruct (number_and_direction b l Hr) as
      (dir' & main' & uc' & e & Hnd' & Hplan' & (Hok1 & _ & Hh1) & (Hok2 & He1 & Hh2) & He2 & Hdt & _).
    rewrite Hnd in Hnd'. injection Hnd' as <- Hn'. rewrite Hplan in Hplan'. injection Hplan' as <- <-.
    destruct (changed_nil v H8) as (Hact & _). split.
    - exists e. split; [lia|]. split; [intros Hd; by apply Hdt|]. intros a Ha.
      assert (Hty : types_at (view c').(msrs) a ≡ₚ
        replicate (hits uc a) 0 ++ replicate (hits main a) t ++ types_at v.(msrs) a).
      { rewrite (types_at_programmed 0 uc v1) by (done || lia).
        rewrite (types_at_programmed t main (changed [] v) v1) by (done || lia).
        unfold types_at. by rewrite Hact. }
      rewrite Hh1, Hh2 in Hty. split_and!.
      + intros Hab. rewrite (types_at_apart (msrs v) b l) in Hty by done. revert Hty. bools. intros Hty.
        cbn in Hty. apply Permutation_singleton_r in Hty as ->. apply combined_type_single.
      + intros Hab. apply combined_type_zero. revert Hty. bools. intros Hty.
        eapply Permutation_in; [symmetry; exact Hty|]. by left.
      + intros Hab. rewrite Hty. destruct Hab; bools; done.
    - destruct P1 as [(S1 & I1 & C1 & R1) _], P2 as [(S2 & I2 & C2 & R2) _].
      rewrite I2, I1, R2, R1, C2, C1, S2, S1 by by_compute.
      split_and!; [done..|]. cbn. apply lookup_total_insert_eq. }
  unfold MtrrSetMemoryAttribute. cbn [negb IsMtrrSupported].
  apply wp_bind, wp_GetFirmwareVariableMtrrCount; [done|]. intros c1 E1.
  apply wp_bind, wp_GetVariableMtrrCount; [by rewrite E1|]. intros c2 E2.
  apply wp_bind, wp_MtrrLibInitializeMtrrMask. intros c3 E3.
  destruct Hr0 as (Hb & Hl & Hf & Hdb & Hdl).
  destruct (Z.eqb_spec l0 0); [lia|]. unfold BASE_1MB in H1. rewrite !in_VA by (done || lia). cbn [Z.eqb negb orb].
  apply wp_bind. cbn [fixed_loop]. unfold BASE_1MB. destruct (Z.ltb_spec b0 0x100000); [lia|].
  cbn [andb]. apply wp_ret. replace (EFI_ERROR EFI_SUCCESS) with false by reflexivity.
  destruct (Z.eqb_spec l0 0); [lia|]. rewrite E1. fold v.
  assert (E : view c3 = v) by (unfold v; congruence). rewrite <- E.
  eapply wp_set_variable; rewrite ?E; [exact Hadj|done|lia|done|done|done|].
  intros dir main uc Hnd Hplan c'.
  destruct (_ <=? _) eqn:Hfit.
  - intros v1 P1 P2. exists dir, main, uc. rewrite Hfit. split_and!; [done..|]. by exists v1.
  - intros Ec. exists dir, main, uc. by rewrite Hfit.
Qed.

(** 3 MiB at 2 MiB as write-back on a processor that uses no range register yet. *)
#[local] Existing Instances PlainBus Edk2Header.header Edk2Header.header_ok.
#[local] Instance demo_ok : MtrrCpuOk quark := quark_ok plain_mtrr.

Lemma MtrrSetMemoryAttribute_variable_witness :
  let v := view reset_quark in
  exists status c' dir n,
    MtrrSetMemoryAttribute 0x200000 0x300000 6 reset_quark = Some (status, c') /\
    GetMtrrNumberAndDirection 0x200000 0x300000 = Some (dir, n) /\
    if Z.of_nat (length (active v.(msrs))) + n <=? fwcnt v.(msrs) then
      status = EFI_SUCCESS /\
      (exists e, 0x200000 + 0x300000 <= e <= 0x200000 + 2 * 0x300000 /\
       (dir = true -> e = 0x200000 + 0x300000) /\
       forall a, 0 <= a < 2 ^ phys_bits ->
         (0x200000 <= a < 0x200000 + 0x300000 -> combined_type (types_at (view c').(msrs) a) = Some 6) /\
         (0x200000 + 0x300000 <= a < e -> combined_type (types_at (view c').(msrs) a) = Some 0) /\
         (a < 0x200000 \/ e <= a -> types_at (view c').(msrs) a ≡ₚ types_at v.(msrs) a)) /\
      (view c').(interrupts) = v.(interrupts) /\ (view c').(cr4) = v.(cr4) /\
      (view c').(caching) = true /\
      (view c').(msrs) !!! DEF_TYPE = Z.lor (v.(msrs) !!! DEF_TYPE) ENABLES
    else status = EFI_OUT_OF_RESOURCES /\ view c' = v.
Proof.
  intros v.
  apply (MtrrSetMemoryAttribute_variable 0x200000 0x300000 0x200000 0x300000 6 reset_quark).
  - discriminate.
  - split_and!; [lia|lia|vm_compute; discriminate|by exists 0x200|by exists 0x300].
  - reflexivity.
  - lia.
  - vm_compute. lia.
  - assert (Ha : active (view reset_quark).(msrs) = []) by (vm_compute; reflexivity).
    rewrite Ha. constructor.
  - vm_compute. discriminate.
Defined.
