(* ===== verification/MtrrFixed.v ===== *)
(** * The fixed memory type range registers

    [ProgramFixedMtrr] of [MtrrLib.c] and the part of [MtrrSetMemoryAttribute] for the first
    megabyte, where each byte of eleven registers is the memory type of one unit of addresses. *)

From S2P Require Import Prelude QNCAccess MtrrDefs QuarkMsr Math64 MtrrLib MtrrSpec MtrrQuark MtrrRange MtrrSet.
From stdpp Require Import gmap.
#[local] Open Scope Z_scope.

(** Byte [i] of a register. *)
Definition byte (v i : Z) : Z := Z.land (Z.shiftr v (8 * i)) 0xFF.

Lemma byte_bit v i k : 0 <= k -> Z.testbit (byte v i) k = Z.testbit v (8 * i + k) && (k <? 8).
Proof.
  intros Hk. unfold byte. change 0xFF with (Z.ones 8). rewrite Z.land_spec, Z.shiftr_spec, ones_bit by lia.
  replace (k + 8 * i) with (8 * i + k) by lia. bools; done.
Qed.

Section Fixed.
Context {MH : MtrrHeader} {MHO : MtrrHeaderOk} {C : Type} {CPU : MtrrCpu C} {OK : MtrrCpuOk C}.
Implicit Types (c : C) (v : mtrr_view) (m : gmap Z Z) (e : FIXED_MTRR).

Lemma table_eq : mMtrrLibFixedMtrrTable = [
  Build_FIXED_MTRR 0x250 0 0x10000; Build_FIXED_MTRR 0x258 0x80000 0x4000;
  Build_FIXED_MTRR 0x259 0xA0000 0x4000; Build_FIXED_MTRR 0x268 0xC0000 0x1000;
  Build_FIXED_MTRR 0x269 0xC8000 0x1000; Build_FIXED_MTRR 0x26A 0xD0000 0x1000;
  Build_FIXED_MTRR 0x26B 0xD8000 0x1000; Build_FIXED_MTRR 0x26C 0xE0000 0x1000;
  Build_FIXED_MTRR 0x26D 0xE8000 0x1000; Build_FIXED_MTRR 0x26E 0xF0000 0x1000;
  Build_FIXED_MTRR 0x26F 0xF8000 0x1000].
Proof.
  unfold mMtrrLibFixedMtrrTable.
  rewrite FIX64K_00000_val, FIX16K_80000_val, FIX16K_A0000_val, FIX4K_C0000_val, FIX4K_C8000_val,
    FIX4K_D0000_val, FIX4K_D8000_val, FIX4K_E0000_val, FIX4K_E8000_val, FIX4K_F0000_val,
    FIX4K_F8000_val. reflexivity.
Qed.

(** End of the range of a register. *)
Definition fend e : Z := e.(BaseAddress) + 8 * e.(Length).

(** What every row of the table satisfies: its register number, its place, and that the next row
    starts where it ends. *)
Lemma table_row k e :
  mMtrrLibFixedMtrrTable !! k = Some e ->
  e.(Msr) ∈ fixed_regs /\ 0 <= e.(BaseAddress) /\ 0x1000 <= e.(Length) /\ (0x1000 | e.(Length)) /\
  (0x1000 | e.(BaseAddress)) /\ fend e <= BASE_1MB /\ (k < 11)%nat /\
  (if decide (k = 10%nat) then fend e = BASE_1MB
   else exists e', mMtrrLibFixedMtrrTable !! S k = Some e' /\ e'.(BaseAddress) = fend e).
Proof.
  rewrite table_eq. intros He.
  do 11 (destruct k as [|k]; [injection He as <-; split_and!;
    [by_compute|cbn; lia|cbn; lia|by apply Z.mod_divide|by apply Z.mod_divide|vm_compute; discriminate|lia|
     cbn; first [reflexivity|by eexists]]|]).
  done.
Qed.

(** The register whose range contains an address. *)
Definition fixed_at (a : Z) : option FIXED_MTRR := List.find (fixed_covers a) mMtrrLibFixedMtrrTable.

(** The memory type of an address of the first megabyte. *)
Definition fixed_type m (a : Z) : option Z :=
  e ← fixed_at a; Some (byte (m !!! e.(Msr)) ((a - e.(BaseAddress)) / e.(Length))).

Lemma fixed_covers_spec a e : fixed_covers a e = true <-> e.(BaseAddress) <= a < fend e.
Proof.
  unfold fixed_covers, fend. destruct (Z.geb_spec a e.(BaseAddress)); cbn [andb]; [|split; [done|lia]].
  rewrite Z.ltb_lt. lia.
Qed.

(** The ranges of two rows have no address in common. *)
Lemma rows_apart k k' e e' a :
  mMtrrLibFixedMtrrTable !! k = Some e -> mMtrrLibFixedMtrrTable !! k' = Some e' ->
  fixed_covers a e = true -> fixed_covers a e' = true -> k = k'.
Proof.
  assert (Hlt : forall n k e e', mMtrrLibFixedMtrrTable !! k = Some e ->
    mMtrrLibFixedMtrrTable !! (k + S n)%nat = Some e' -> fend e <= e'.(BaseAddress)).
  { intros n. induction n as [|n IH]; intros i x y Hx Hy.
    - apply table_row in Hx as (_ & _ & _ & _ & _ & _ & _ & Hnext).
      replace (i + 1)%nat with (S i) in Hy by lia. destruct (decide (i = 10%nat)) as [-> |].
      + apply table_row in Hy. lia.
      + destruct Hnext as (z & Hz & Hb). rewrite Hz in Hy. injection Hy as ->. lia.
    - pose proof Hx as Hx'. apply table_row in Hx' as (_ & _ & _ & _ & _ & _ & _ & Hnext).
      destruct (decide (i = 10%nat)) as [-> |]; [apply table_row in Hy; lia|].
      destruct Hnext as (z & Hz & Hb). replace (i + S (S n))%nat with (S i + S n)%nat in Hy by lia.
      specialize (IH _ _ _ Hz Hy). apply table_row in Hz. unfold fend in *. lia. }
  rewrite !fixed_covers_spec. intros He He' Ha Ha'.
  destruct (lt_eq_lt_dec k k') as [[Hk|Hk]|Hk]; [|done|]; exfalso.
  - specialize (Hlt (k' - k - 1)%nat k e e' He). replace (k + S (k' - k - 1))%nat with k' in Hlt by lia.
    specialize (Hlt He'). lia.
  - specialize (Hlt (k - k' - 1)%nat k' e' e He'). replace (k' + S (k - k' - 1))%nat with k in Hlt by lia.
    specialize (Hlt He). lia.
Qed.

Lemma fixed_at_row k e a :
  mMtrrLibFixedMtrrTable !! k = Some e -> fixed_covers a e = true -> fixed_at a = Some e.
Proof.
  intros He Ha. unfold fixed_at. destruct (List.find (fixed_covers a) mMtrrLibFixedMtrrTable) as [e'|] eqn:Hf.
  - apply List.find_some in Hf as [Hin Ha']. apply list_elem_of_In, list_elem_of_lookup_1 in Hin as [k' He'].
    pose proof (rows_apart _ _ _ _ _ He He' Ha Ha'). subst k'. congruence.
  - exfalso. apply list_elem_of_lookup_2, list_elem_of_In in He.
    pose proof (List.find_none _ _ Hf _ He). congruence.
Qed.

(** The search finds the row of every address of the first megabyte. *)
Lemma fixed_search_ok a :
  0 <= a < BASE_1MB ->
  exists k e, fixed_search a 11 0 = Some k /\ mMtrrLibFixedMtrrTable !! k = Some e /\
    fixed_covers a e = true /\ (k < 11)%nat.
Proof.
  intros Ha.
  (* from row k on, for an address at or above its base *)
  assert (Hgen : forall n k e, (n + k = 11)%nat -> mMtrrLibFixedMtrrTable !! k = Some e -> e.(BaseAddress) <= a ->
    exists k' e', fixed_search a n k = Some k' /\ mMtrrLibFixedMtrrTable !! k' = Some e' /\ fixed_covers a e' = true).
  { intros n. induction n as [|n IH]; intros k e Hn He Hb; [apply table_row in He; lia|].
    cbn [fixed_search]. rewrite He, some_bind. destruct (fixed_covers a e) eqn:Hc; [by exists k, e|].
    assert (fend e <= a).
    { destruct (Z.le_gt_cases (fend e) a); [done|]. exfalso.
      assert (fixed_covers a e = true) by (apply fixed_covers_spec; lia). congruence. }
    pose proof He as Hrow. apply table_row in Hrow as (_ & _ & _ & _ & _ & _ & _ & Hnext).
    destruct (decide (k = 10%nat)); [lia|]. destruct Hnext as (e' & He' & Hb').
    apply (IH (S k) e'); [lia|done|lia]. }
  destruct (Hgen 11%nat 0%nat (Build_FIXED_MTRR 0x250 0 0x10000)) as (k & e & Hs & He & Hc);
    [done|by rewrite table_eq|cbn; lia|]. exists k, e. apply table_row in He as Hrow.
  split_and!; [done..|]. apply Hrow.
Qed.

(** ** The bytes that one call changes *)

(** Masks for the bytes from [j0] up to [j1]: all ones, and the type in each byte. *)
Definition clear_bits (j0 j1 : Z) (x : Z) : Prop :=
  forall i, 0 <= i -> Z.testbit x i = (8 * j0 <=? i) && (i <? 8 * j1).
Definition type_bits (t j0 j1 : Z) (x : Z) : Prop :=
  0 <= x /\ forall i, 0 <= i -> Z.testbit x i = (8 * j0 <=? i) && (i <? 8 * j1) && Z.testbit t (i mod 8).

Lemma byte_of_masked (w x o t j0 j1 i : Z) :
  0 <= t < 256 -> 0 <= j0 <= j1 -> 0 <= i -> clear_bits j0 j1 x -> type_bits t j0 j1 o ->
  byte (Z.lor (Z.ldiff w x) o) i = if (j0 <=? i) && (i <? j1) then t else byte w i.
Proof.
  intros Ht Hj Hi Hx [_ Ho]. assert (Hw : in_width 8 t) by (unfold in_width; lia).
  apply Z.bits_inj'. intros k Hk. rewrite byte_bit, Z.lor_spec, Z.ldiff_spec, Hx, Ho by lia.
  destruct (Z.ltb_spec k 8) as [Hk8|Hk8]; cycle 1.
  { rewrite andb_false_r. destruct ((j0 <=? i) && (i <? j1)).
    - symmetry. by apply (in_width_bit 8).
    - rewrite byte_bit by done. bools; done. }
  replace ((8 * i + k) mod 8) with k by (apply (Z.mod_unique _ _ i); lia).
  rewrite andb_true_r. destruct ((j0 <=? i) && (i <? j1)) eqn:Hin.
  - apply andb_prop in Hin as [H1 H2]. bools. done.
  - rewrite byte_bit by done. revert Hin. bools; intros; try done;
      rewrite ?andb_true_r, ?andb_false_r, ?orb_false_r; done.
Qed.

Lemma type_bits_step t j0 j x :
  0 <= t < 256 -> 0 <= j0 <= j -> j < 8 -> type_bits t j0 j x ->
  type_bits t j0 (j + 1) (Z.lor x (LShiftU64 t (j * 8))).
Proof.
  intros Ht Hj0 Hj [Hx0 Hx]. assert (Hw : in_width 8 t) by (unfold in_width; lia).
  split; [apply Z.lor_nonneg; split; [done|by apply wrap_bounds]|]. intros i Hi.
  rewrite Z.lor_spec, Hx by done. unfold LShiftU64. rewrite wrap_bit, shiftl_bit by lia.
  destruct (Z.leb_spec (8 * j) i); cycle 1.
  - rewrite (Z.testbit_neg_r t (i - j * 8)) by lia. bools; by rewrite ?orb_false_r.
  - destruct (Z.ltb_spec i (8 * (j + 1))).
    + replace (i mod 8) with (i - j * 8) by (apply (Z.mod_unique _ _ j); lia). bools; done.
    + rewrite (in_width_bit 8 t (i - j * 8)) by (done || lia). bools; done.
Qed.

Lemma clear_bits_step j0 j x :
  0 <= j0 <= j -> j < 8 -> clear_bits j0 j x -> clear_bits j0 (j + 1) (Z.lor x (LShiftU64 0xFF (j * 8))).
Proof.
  intros Hj0 Hj Hx i Hi. rewrite Z.lor_spec, Hx by done. unfold LShiftU64. change 0xFF with (Z.ones 8).
  rewrite wrap_bit, shiftl_bit, ones_bit by lia. bools; done.
Qed.

(** The loop takes [k] bytes: as many as are left in the register, or as the length covers. *)
Lemma byte_loop_ok t e n s j0 :
  0 <= t < 256 -> 0 < e.(Length) -> 0 <= j0 <= s.(fsByteShift) -> s.(fsByteShift) <= 8 ->
  8 - s.(fsByteShift) <= Z.of_nat n -> 0 <= s.(fsLength) -> 0 <= s.(fsBase) ->
  s.(fsBase) + s.(fsLength) < 2 ^ 64 ->
  type_bits t j0 s.(fsByteShift) s.(fsOrMask) -> clear_bits j0 s.(fsByteShift) s.(fsClearMask) ->
  exists k, 0 <= k /\
    let s' := byte_loop t e n s in
    s'.(fsByteShift) = s.(fsByteShift) + k /\ s'.(fsByteShift) <= 8 /\
    s'.(fsBase) = s.(fsBase) + k * e.(Length) /\ s'.(fsLength) = s.(fsLength) - k * e.(Length) /\
    0 <= s'.(fsLength) /\ (s'.(fsByteShift) = 8 \/ s'.(fsLength) < e.(Length)) /\
    type_bits t j0 s'.(fsByteShift) s'.(fsOrMask) /\ clear_bits j0 s'.(fsByteShift) s'.(fsClearMask).
Proof.
  intros Ht He. revert s. induction n as [|n IH]; intros s Hj H8 Hn Hl Hb Hfit Ho Hc.
  { exists 0. cbn. split_and!; first [lia|done|left; lia]. }
  cbn [byte_loop]. destruct (Z.ltb_spec s.(fsByteShift) 8); cbn [andb]; cycle 1.
  { exists 0. split_and!; first [lia|done|left; lia]. }
  destruct (Z.geb_spec s.(fsLength) e.(Length)); cycle 1.
  { exists 0. split_and!; first [lia|done|right; lia]. }
  rewrite wrap_small by lia.
  destruct (IH {| fsByteShift := s.(fsByteShift) + 1;
             fsOrMask := Z.lor s.(fsOrMask) (LShiftU64 t (s.(fsByteShift) * 8));
             fsClearMask := Z.lor s.(fsClearMask) (LShiftU64 0xFF (s.(fsByteShift) * 8));
             fsBase := s.(fsBase) + e.(Length);
             fsLength := s.(fsLength) - e.(Length) |}) as (k & Hk & Hs); cbn in *; try lia.
  - by apply type_bits_step.
  - by apply clear_bits_step.
  - exists (k + 1). destruct Hs as (H1 & H2 & H3 & H4 & H5 & H6 & H7 & H9).
    split_and!; [lia|lia|lia|lia|lia|lia|done..].
Qed.

(** The search of the byte. *)
Lemma byte_search_ok a e n j :
  0 < e.(Length) ->
  let r := byte_search a e n j in
  (j <= r < j + Z.of_nat n /\ a = e.(BaseAddress) + r * e.(Length)) \/
  (r = j + Z.of_nat n /\ forall i, j <= i < j + Z.of_nat n -> a <> e.(BaseAddress) + i * e.(Length)).
Proof.
  intros He. cbv zeta. revert j. induction n as [|n IH]; intros j; cbn [byte_search]; [right; split; [lia|intros; lia]|].
  destruct (Z.eqb_spec a (e.(BaseAddress) + j * e.(Length))); [left; lia|].
  destruct (IH (j + 1)) as [[H1 H2]|[H1 H2]]; [left; lia|right]. split; [lia|].
  intros i Hi. destruct (Z.eq_dec i j) as [-> |]; [done|apply H2; lia].
Qed.

(** ** One call *)

(** Addresses at which a unit of the fixed ranges starts. *)
Definition unit_start (x : Z) : Prop :=
  x = BASE_1MB \/ exists e, fixed_at x = Some e /\ (e.(Length) | x - e.(BaseAddress)).

Lemma fend_unit_start k e : mMtrrLibFixedMtrrTable !! k = Some e -> unit_start (fend e).
Proof.
  intros He. apply table_row in He as (_ & _ & _ & _ & _ & _ & _ & Hnext).
  destruct (decide (k = 10%nat)); [by left|]. destruct Hnext as (e' & He' & Hb).
  right. exists e'. pose proof He' as Hrow. apply table_row in Hrow as (_ & _ & HL & _).
  split; [|rewrite <- Hb, Z.sub_diag; apply Z.divide_0_r].
  eapply fixed_at_row; [done|]. apply fixed_covers_spec. unfold fend in *. lia.
Qed.

Lemma rows_msr k k' e e' :
  mMtrrLibFixedMtrrTable !! k = Some e -> mMtrrLibFixedMtrrTable !! k' = Some e' ->
  e.(Msr) = e'.(Msr) -> k = k'.
Proof.
  intros He He' Hm. assert (Hnd : NoDup (Msr <$> mMtrrLibFixedMtrrTable)) by (rewrite table_eq; by_compute).
  eapply NoDup_lookup; [exact Hnd|rewrite list_lookup_fmap, He; reflexivity|].
  rewrite list_lookup_fmap, He'. cbn. by rewrite Hm.
Qed.

(** The types of the first megabyte after writing one register. *)
Lemma fixed_type_written m k e w a b b' t :
  mMtrrLibFixedMtrrTable !! k = Some e -> e.(BaseAddress) <= b <= b' -> b' <= fend e ->
  (forall i, 0 <= i < 8 ->
     byte w i = if (b <=? e.(BaseAddress) + i * e.(Length)) && (e.(BaseAddress) + i * e.(Length) <? b')
                then t else byte (m !!! e.(Msr)) i) ->
  (e.(Length) | b - e.(BaseAddress)) -> (e.(Length) | b' - e.(BaseAddress)) -> 0 <= a < BASE_1MB ->
  fixed_type (<[e.(Msr) := w]> m) a = if (b <=? a) && (a <? b') then Some t else fixed_type m a.
Proof.
  intros He Hb Hb' Hbytes [q Hq] [q' Hq'] Ha.
  destruct (fixed_search_ok a Ha) as (k' & e' & _ & He' & Hc & _).
  assert (Hfa : fixed_at a = Some e') by (by eapply fixed_at_row).
  unfold fixed_type. rewrite Hfa, !some_bind. pose proof He as Hrow. apply table_row in Hrow as (_ & _ & HL & _).
  apply fixed_covers_spec in Hc. destruct (Nat.eq_dec k k') as [<-|Hne].
  - rewrite He in He'. injection He' as <-. rewrite lookup_total_insert_eq.
    set (L := e.(Length)) in *. set (B := e.(BaseAddress)) in *.
    assert (Hi : 0 <= (a - B) / L < 8).
    { split; [apply Z.div_pos; lia|apply Z.div_lt_upper_bound; unfold fend in Hc; fold L B in Hc; lia]. }
    pose proof (Z.div_mod (a - B) L ltac:(lia)) as Hdm. pose proof (Z.mod_pos_bound (a - B) L ltac:(lia)) as Hmb.
    rewrite Hbytes by done. set (i := (a - B) / L) in *.
    assert (E1 : (b <=? B + i * L) = (b <=? a)).
    { destruct (Z.leb_spec b a); [apply Z.leb_le|apply Z.leb_gt]; [|lia].
      assert (q <= i) by (apply Z.lt_succ_r, (Z.mul_lt_mono_pos_r L); lia).
      assert (q * L <= i * L) by (apply Z.mul_le_mono_nonneg_r; lia). lia. }
    assert (E2 : (B + i * L <? b') = (a <? b')).
    { destruct (Z.ltb_spec a b'); [apply Z.ltb_lt; lia|apply Z.ltb_ge].
      assert (q' <= i) by (apply Z.lt_succ_r, (Z.mul_lt_mono_pos_r L); lia).
      assert (q' * L <= i * L) by (apply Z.mul_le_mono_nonneg_r; lia). lia. }
    rewrite E1, E2. by destruct (_ && _).
  - rewrite lookup_total_insert_ne by (intros Hm; apply Hne; by eapply rows_msr).
    destruct ((b <=? a) && (a <? b')) eqn:Hin; [|done]. exfalso. apply Hne.
    apply andb_prop in Hin as [H1 H2]. eapply (rows_apart _ _ _ _ a He He'); apply fixed_covers_spec; lia.
Qed.

Lemma unit_leb B L i j : 0 < L -> (B + i * L <=? B + j * L) = (i <=? j).
Proof.
  intros HL. destruct (Z.leb_spec i j); [apply Z.leb_le|apply Z.leb_gt].
  - assert (i * L <= j * L) by (apply Z.mul_le_mono_nonneg_r; lia). lia.
  - assert (j * L < i * L) by (apply Z.mul_lt_mono_pos_r; lia). lia.
Qed.

Lemma unit_ltb B L i j : 0 < L -> (B + i * L <? B + j * L) = (i <? j).
Proof. intros HL. rewrite !Z.ltb_antisym. f_equal. by apply unit_leb. Qed.

(** [ProgramFixedMtrr] either gives the type to a prefix of the range that ends with the register
    or with the range, or refuses and changes nothing, which it only does when the range does not
    start and end with a unit. *)
Lemma wp_ProgramFixedMtrr t b l (Q : EFI_STATUS * Z * Z -> C -> Prop) c :
  quiesced (view c) -> 0 <= t < 256 -> 0 <= b < BASE_1MB -> 0 < l -> b + l <= BASE_1MB ->
  (forall c' b' l', view c' = view c -> ~ (unit_start b /\ unit_start (b + l)) -> Q (EFI_UNSUPPORTED, b', l') c') ->
  (forall c' k e b' w, view c' = set_msr e.(Msr) w (view c) ->
     mMtrrLibFixedMtrrTable !! k = Some e -> b < b' <= b + l -> e.(BaseAddress) <= b -> b' <= fend e ->
     b' = fend e \/ b' = b + l ->
     (forall a, 0 <= a < BASE_1MB ->
        fixed_type (<[e.(Msr) := w]> (view c).(msrs)) a =
        if (b <=? a) && (a <? b') then Some t else fixed_type (view c).(msrs) a) ->
     Q (EFI_SUCCESS, b', b + l - b') c') ->
  wp (ProgramFixedMtrr t b l) Q c.
Proof.
  intros Hq Ht Hb Hl Hfit HU HS. unfold ProgramFixedMtrr. rewrite NUMBER_FIXED_val.
  destruct (fixed_search_ok b Hb) as (k & e & Hs & He & Hc & Hk).
  apply wp_bind. eapply wp_lift; [exact Hs|]. destruct (Z.eqb_spec (Z.of_nat k) 11); [lia|].
  apply wp_bind. eapply wp_lift; [exact He|].
  pose proof He as Hrow. apply table_row in Hrow as (Hmsr & HB & HL & _ & _ & Hend & _).
  assert (Hfb : fixed_at b = Some e) by (by eapply fixed_at_row).
  apply fixed_covers_spec in Hc.
  destruct (byte_search_ok b e 8 0) as [[Hr Hbr]|[Hr Hno]]; [lia| |]; cycle 1.
  { rewrite Hr. cbn. apply wp_ret, HU; [done|]. intros [[Hb1|(e' & He' & [q Hq'])] _]; [lia|].
    rewrite Hfb in He'. injection He' as <-. apply (Hno q); [|lia]. unfold fend in Hc. nia. }
  set (j0 := byte_search b e 8 0) in *. destruct (Z.eqb_spec j0 8); [lia|].
  destruct (byte_loop_ok t e 8 {| fsByteShift := j0; fsOrMask := 0; fsClearMask := 0; fsBase := b; fsLength := l |} j0)
    as (u & Hu & Hs'); cbn [fsByteShift fsBase fsLength fsOrMask fsClearMask]; try lia.
  { unfold BASE_1MB in *. lia. }
  { split; [done|]. intros i Hi. rewrite Z.testbit_0_l. bools; done. }
  { intros i Hi. rewrite Z.testbit_0_l. bools; done. }
  cbv zeta in Hs'. set (s' := byte_loop t e 8 _) in *. clearbody s'.
  destruct Hs' as (E1 & H8 & E2 & E3 & HL0 & Hstop & Hor & Hclr). cbn [fsByteShift fsBase fsLength] in E1, E2, E3.
  set (L := e.(Length)) in *. set (B := e.(BaseAddress)) in *.
  destruct ((fsByteShift s' <? 8) && negb (fsLength s' =? 0)) eqn:Hun.
  - apply andb_prop in Hun as [Hlt Hnz]. apply wp_ret, HU; [done|]. intros [_ [Hb1|(e' & He' & [q Hq'])]].
    + (* the range ends at 1 MiB, inside the register *)
      unfold fend in Hend. fold L B in Hend. nia.
    + assert (He2 : fixed_at (b + l) = Some e).
      { eapply fixed_at_row; [exact He|]. apply fixed_covers_spec. unfold fend. fold L B. nia. }
      rewrite He2 in He'. injection He' as <-. fold L B in Hq'.
      assert (fsLength s' = (q - j0 - u) * L) by lia. assert (0 < q - j0 - u) by nia. nia.
  - apply wp_bind, wp_read; [by unfold mtrr_regs; do 2 right; apply elem_of_app; left|]. intros c1 Ec1.
    assert (Hreg : e.(Msr) ∈ mtrr_regs) by (unfold mtrr_regs; do 2 right; apply elem_of_app; by left).
    set (w := Z.lor _ _). assert (Hne : e.(Msr) <> 0xFE) by (intros E; rewrite E in Hmsr; revert Hmsr; by_compute).
    assert (Hww : in_width (reg_width e.(Msr)) w).
    { rewrite reg_width_fixed by done. pose proof (view_width c _ Hreg) as Hv. rewrite reg_width_fixed in Hv by done.
      destruct Hor as [Hor0 Hor]. apply lor_in_width; [lia| |].
      - apply in_width_of_bits; [lia|apply Z.ldiff_nonneg; left; apply Hv|].
        intros i Hi. rewrite Z.ldiff_spec. by rewrite (in_width_bit 64).
      - apply in_width_of_bits; [lia|done|]. intros i Hi. rewrite Hor by lia. bools; done. }
    apply wp_bind, wp_write; [done|done|done|by rewrite Ec1|]. intros c2 r2 Ec2.
    rewrite Ec1 in Ec2. apply wp_ret. rewrite E2, E3.
    replace (l - u * L) with (b + l - (b + u * L)) by lia.
    assert (Hn1 : 0 < u).
    { destruct (Z.eq_dec u 0) as [-> |]; [|lia]. exfalso. rewrite E3 in Hun. destruct (Z.ltb_spec (fsByteShift s') 8); [|lia].
      destruct (Z.eqb_spec (l - 0 * L) 0); [lia|done]. }
    apply (HS c2 k e _ w); [done|done|nia|lia|unfold fend; fold L B; nia| |].
    + destruct (Z.eq_dec (fsByteShift s') 8) as [E8|Hn8]; [left; unfold fend; fold L B; nia|].
      right. destruct (Z.ltb_spec (fsByteShift s') 8); [|lia].
      destruct (Z.eqb_spec (fsLength s') 0); [lia|done].
    + intros a Ha. apply (fixed_type_written _ k); [done|fold B; nia|unfold fend; fold L B; nia| | | |done].
      * intros i Hi. fold L B. unfold w. rewrite (byte_of_masked _ _ _ t j0 (fsByteShift s') i) by (done || lia).
        rewrite Hbr, E1. fold w. replace (B + j0 * L + u * L) with (B + (j0 + u) * L) by lia.
        rewrite unit_leb, unit_ltb by lia. done.
      * exists j0. fold L B. lia.
      * exists (j0 + u). fold L B. lia.
Qed.

(** ** The loop *)

(** [v'] is [v] with the type given to the addresses from [b] up to [x]. *)
Definition typed (t b x : Z) v v' : Prop :=
  (forall a, 0 <= a < BASE_1MB ->
     fixed_type v'.(msrs) a = if (b <=? a) && (a <? x) then Some t else fixed_type v.(msrs) a) /\
  (forall i, i ∉ fixed_regs -> i <> DEF_TYPE -> v'.(msrs) !!! i = v.(msrs) !!! i) /\
  v'.(interrupts) = v.(interrupts) /\ v'.(cr4) = v.(cr4).

(** The processor state in which a change leaves it. *)
Definition left_on v v' : Prop :=
  v'.(caching) = true /\ v'.(msrs) !!! DEF_TYPE = Z.lor (v.(msrs) !!! DEF_TYPE) ENABLES.

Lemma typed_refl t b v : typed t b b v v.
Proof. split_and!; [|done..]. intros a Ha. bools; done. Qed.

Lemma typed_trans (t b x y : Z) v1 v2 v3 :
  b <= x <= y -> typed t b x v1 v2 -> typed t x y v2 v3 -> typed t b y v1 v3.
Proof.
  intros Hm (T1 & F1 & I1 & R1) (T2 & F2 & I2 & R2). split_and!; [| |congruence..].
  - intros a Ha. rewrite T2, T1 by done. bools; done.
  - intros i Hi Hd. by rewrite F2, F1.
Qed.

Lemma fixed_type_ext m m' a :
  (forall i, i ∈ fixed_regs -> m' !!! i = m !!! i) -> fixed_type m' a = fixed_type m a.
Proof.
  intros He. unfold fixed_type. destruct (fixed_at a) as [e|] eqn:Hf; [|done].
  rewrite !some_bind. unfold fixed_at in Hf. apply List.find_some in Hf as [Hin _].
  apply list_elem_of_In, list_elem_of_lookup_1 in Hin as [k Hk]. apply table_row in Hk as (Hm & _).
  by rewrite He.
Qed.

Lemma fixed_not_def i : i ∈ fixed_regs -> i <> DEF_TYPE.
Proof. intros Hi ->. revert Hi. by_compute. Qed.

(** One iteration. *)
Lemma changed_typed t b b' e w k v :
  mMtrrLibFixedMtrrTable !! k = Some e ->
  (forall a, 0 <= a < BASE_1MB ->
     fixed_type (<[e.(Msr) := w]> (quiesce v).(msrs)) a =
     if (b <=? a) && (a <? b') then Some t else fixed_type (quiesce v).(msrs) a) ->
  typed t b b' v (changed [(e.(Msr), w)] v) /\ left_on v (changed [(e.(Msr), w)] v).
Proof.
  intros He Ht. apply table_row in He as (Hmsr & _). pose proof (fixed_not_def _ Hmsr) as Hne.
  split; [split_and!; [| |done..]|split; [done|apply lookup_total_insert_eq]].
  - intros a Ha. assert (Hq : fixed_type (quiesce v).(msrs) a = fixed_type v.(msrs) a).
    { apply fixed_type_ext. intros i Hi. unfold quiesce. cbn [msrs].
      rewrite lookup_total_insert_ne; [done|]. intros <-. by apply fixed_not_def in Hi. }
    rewrite <- Hq, <- Ht by done. apply fixed_type_ext. intros i Hi. apply fixed_not_def in Hi.
    unfold changed, write_regs, quiesce. cbn [msrs foldl fst snd].
    rewrite lookup_total_insert_ne by done. destruct (Z.eq_dec e.(Msr) i) as [<-|Hei].
    + by rewrite !lookup_total_insert_eq.
    + by rewrite !lookup_total_insert_ne by done.
  - intros i Hi Hd. unfold changed, write_regs. cbn [msrs foldl fst snd].
    rewrite lookup_total_insert_ne by done. rewrite lookup_total_insert_ne.
    + unfold quiesce. cbn [msrs]. done.
    + intros E. apply Hi. by rewrite <- E.
Qed.

Lemma left_on_trans v1 v2 v3 : left_on v1 v2 -> left_on v2 v3 -> left_on v1 v3.
Proof.
  intros [C1 D1] [C2 D2]. split; [done|]. rewrite D2, D1. by rewrite <- Z.lor_assoc, Z.lor_diag.
Qed.

Lemma changed_nil_typed t b v : typed t b b v (changed [] v) /\ left_on v (changed [] v).
Proof.
  split; [split_and!; [| |done..]|split; [done|apply lookup_total_insert_eq]].
  - intros a Ha. replace ((b <=? a) && (a <? b)) with false by (bools; done).
    apply fixed_type_ext. intros i Hi%fixed_not_def. cbn. by rewrite lookup_total_insert_ne.
  - intros i _ Hi. cbn. by rewrite lookup_total_insert_ne.
Qed.

(** The triple may be taken apart before or after the clean-up. *)
Lemma wp_change_ext {X Y Z' B} (body : M C (X * Y * Z')) (k : X -> Y -> Z' -> M C B) Q c :
  wp (ctx ← PreMtrrChange; a ← body; _ ← PostMtrrChange ctx; (fun '(x, y, z) => k x y z) a) Q c ->
  wp (ctx ← PreMtrrChange; '(x, y, z) ← body; _ ← PostMtrrChange ctx; k x y z) Q c.
Proof.
  intros (a & s & Hrun & HQ). exists a, s. split; [|done]. rewrite <- Hrun.
  unfold mbind, M_bind. destruct (PreMtrrChange c) as [[ctx c1]|]; [|done].
  by destruct (body c1) as [[[[x y] z] c2]|].
Qed.

(** The loop ends within its iterations, and gives the type to the whole range or stops at an
    address before its end because the range does not start and end with a unit. *)
Lemma wp_fixed_loop n t b l (Q : EFI_STATUS * Z * Z -> C -> Prop) c :
  0 <= t < 256 -> 0 <= b -> 0 <= l -> b + l <= BASE_1MB -> (1 <= n)%nat ->
  (0 < l -> forall k e, mMtrrLibFixedMtrrTable !! k = Some e -> fixed_covers b e = true -> (11 - k < n)%nat) ->
  (forall c', typed t b (b + l) (view c) (view c') -> (0 < l -> left_on (view c) (view c')) ->
     (l = 0 -> view c' = view c) -> Q (EFI_SUCCESS, b + l, 0) c') ->
  (forall c' x b' l', b <= x < b + l -> typed t b x (view c) (view c') -> left_on (view c) (view c') ->
     ~ (unit_start b /\ unit_start (b + l)) -> Q (EFI_UNSUPPORTED, b', l') c') ->
  wp (fixed_loop n t b l) Q c.
Proof.
  intros Ht. revert b l c Q. induction n as [|n IH]; intros b l c Q Hb Hl Hfit Hn1 Hn HS HU; [lia|].
  cbn [fixed_loop]. destruct (Z.gtb_spec l 0) as [Hpos|Hz]; cycle 1.
  { rewrite andb_false_r. assert (l = 0) by lia. subst l. apply wp_ret.
    rewrite Z.add_0_r in *. apply HS; [apply typed_refl|lia|done]. }
  destruct (Z.ltb_spec b BASE_1MB) as [Hlt|]; [|lia]. cbn [andb].
  apply wp_change_ext.
  apply (wp_bracket (ProgramFixedMtrr t b l) (fun '(Status, BaseAddress, Length) =>
    if EFI_ERROR Status then mret (Status, BaseAddress, Length) else fixed_loop n t BaseAddress Length)).
  intros c1 E1. apply wp_ProgramFixedMtrr; [rewrite E1; apply quiesce_quiesced|done|lia|done|done| |].
  - intros c2 b' l' E2 Hun. exists []. split_and!; [done|by rewrite E2, E1|]. intros c3 E3.
    cbn. apply wp_ret. destruct (changed_nil_typed t b (view c)) as [Hty Hon]. rewrite <- E3 in Hty, Hon.
    apply (HU _ b); [lia|done|done|done].
  - intros c2 k e b' w E2 He Hbb Hbase Hend Hstop Hty. exists [(e.(Msr), w)].
    pose proof He as Hrow. apply table_row in Hrow as (Hmsr & _ & _ & _ & _ & Hf1 & Hk11 & Hnext).
    split_and!; [|by rewrite E2, E1|].
    { repeat constructor. by apply fixed_not_def. }
    intros c3 E3. rewrite E1 in Hty. destruct (changed_typed t b b' e w k (view c) He Hty) as [Hstep Hon].
    rewrite <- E3 in Hstep, Hon. cbn.
    assert (Hcov : fixed_covers b e = true) by (apply fixed_covers_spec; lia).
    specialize (Hn Hpos k e He Hcov). replace (b + l) with (b' + (b + l - b')) in HS, HU by lia.
    apply IH; [lia|lia|lia|lia| | |].
    + intros Hrest k' e' He' Hc'. destruct Hstop as [Hstop|Hstop]; [|lia].
      destruct (decide (k = 10%nat)) as [-> |].
      * apply table_row in He' as (_ & _ & _ & _ & _ & Hf2 & _). apply fixed_covers_spec in Hc'. lia.
      * destruct Hnext as (e2 & He2 & Hb2). assert (Hc2 : fixed_covers b' e2 = true).
        { apply fixed_covers_spec. pose proof He2 as Hr2. apply table_row in Hr2. unfold fend in *. lia. }
        rewrite (rows_apart _ _ _ _ _ He' He2 Hc' Hc2). lia.
    + intros c4 H4 Hon4 Hz4. apply HS; [eapply typed_trans; [|exact Hstep|exact H4]; lia| |lia].
      intros _. destruct (Z.eq_dec (b + l - b') 0) as [Hz0|Hz0]; [by rewrite (Hz4 Hz0)|].
      eapply left_on_trans; [exact Hon|]. apply Hon4. lia.
    + intros c4 e4 b4 l4 He4 H4 Hon4 Hun. apply (HU _ e4); [lia|eapply typed_trans; [|exact Hstep|exact H4]; lia| |].
      * by eapply left_on_trans.
      * intros [Hu1 Hu2]. apply Hun. split; [|done]. destruct Hstop as [-> |Hstop]; [by eapply fend_unit_start|].
        by replace (b' + (b + l - b')) with b' in Hu2 by lia.
Qed.
End Fixed.

(** ** Properties *)

(** C36: setting the memory type of a range of pages of the first megabyte. The call returns. Where
    the range starts and ends with a unit of the fixed ranges (64, 16 or 4 KiB, by address) the
    status is RETURN_SUCCESS and every address of the range has the type. Otherwise the status may
    be RETURN_UNSUPPORTED, and then the type was given to the addresses up to some [x] only. The
    other addresses keep their types, no other register than the default-type one changes, the
    interrupt state and CR4 are restored, and MTRRs and caches are on. *)
Theorem MtrrSetMemoryAttribute_fixed {MH : MtrrHeader} {MHO : MtrrHeaderOk} {C : Type}
    {CPU : MtrrCpu C} {OK : MtrrCpuOk C} (b l t : Z) (c : C) :
  let v := view c in
  0 <= b -> 0 < l -> b + l <= BASE_1MB -> (2 ^ 12 | b) -> (2 ^ 12 | l) -> BASE_1MB < 2 ^ phys_bits ->
  0 <= t < 256 -> (vcnt v.(msrs) <= 8)%nat ->
  exists status c' x,
    MtrrSetMemoryAttribute b l t c = Some (status, c') /\
    (status = EFI_SUCCESS /\ x = b + l \/
     status = EFI_UNSUPPORTED /\ b <= x < b + l /\ ~ (unit_start b /\ unit_start (b + l))) /\
    (forall a, 0 <= a < BASE_1MB ->
       fixed_type (view c').(msrs) a = if (b <=? a) && (a <? x) then Some t else fixed_type v.(msrs) a) /\
    (forall i, i ∉ fixed_regs -> i <> DEF_TYPE -> (view c').(msrs) !!! i = v.(msrs) !!! i) /\
    (view c').(interrupts) = v.(interrupts) /\ (view c').(cr4) = v.(cr4) /\ (view c').(caching) = true /\
    (view c').(msrs) !!! DEF_TYPE = Z.lor (v.(msrs) !!! DEF_TYPE) ENABLES.
Proof.
  intros v Hb Hl Hfit Hdb Hdl Hp Ht H8.
  enough (Hwp : wp (MtrrSetMemoryAttribute b l t) (fun status c' => exists x,
    (status = EFI_SUCCESS /\ x = b + l \/
     status = EFI_UNSUPPORTED /\ b <= x < b + l /\ ~ (unit_start b /\ unit_start (b + l))) /\
    typed t b x v (view c') /\ left_on v (view c')) c).
  { destruct Hwp as (status & c' & Hrun & x & Hst & (Hty & Hfr & Hi & Hr) & Hc & Hd).
    exists status, c', x. by split_and!. }
  unfold MtrrSetMemoryAttribute. cbn [negb IsMtrrSupported].
  apply wp_bind, wp_GetFirmwareVariableMtrrCount; [done|]. intros c1 E1.
  apply wp_bind, wp_GetVariableMtrrCount; [by rewrite E1|]. intros c2 E2.
  apply wp_bind, wp_MtrrLibInitializeMtrrMask. intros c3 E3.
  destruct (Z.eqb_spec l 0); [lia|]. rewrite !in_VA by (done || lia). cbn [Z.eqb negb orb].
  assert (E : view c3 = v) by (unfold v; congruence).
  apply wp_bind, wp_fixed_loop; [done|done|lia|done|lia|lia| |].
  - intros c4 Hty Hon _. rewrite E in Hty, Hon. apply wp_ret. exists (b + l).
    split; [by left|]. split; [done|]. by apply Hon.
  - intros c4 x b' l' Hx Hty Hon Hun. rewrite E in Hty, Hon. apply wp_ret. exists x.
    split; [by right|done].
Qed.

(** The video range as write-back. *)
#[local] Existing Instances PlainBus Edk2Header.header Edk2Header.header_ok.
#[local] Instance demo_ok : MtrrCpuOk quark := quark_ok plain_mtrr.

Lemma MtrrSetMemoryAttribute_fixed_witness :
  let v := view reset_quark in
  exists status c' x,
    MtrrSetMemoryAttribute 0xA0000 0x20000 6 reset_quark = Some (status, c') /\
    (status = EFI_SUCCESS /\ x = 0xA0000 + 0x20000 \/
     status = EFI_UNSUPPORTED /\ 0xA0000 <= x < 0xA0000 + 0x20000 /\
    ~ (unit_start 0xA0000 /\ unit_start (0xA0000 + 0x20000))) /\
    (forall a, 0 <= a < BASE_1MB ->
       fixed_type (view c').(msrs) a =
       if (0xA0000 <=? a) && (a <? x) then Some 6 else fixed_type v.(msrs) a) /\
    (forall i, i ∉ fixed_regs -> i <> DEF_TYPE -> (view c').(msrs) !!! i = v.(msrs) !!! i) /\
    (view c').(interrupts) = v.(interrupts) /\ (view c').(cr4) = v.(cr4) /\ (view c').(caching) = true /\
    (view c').(msrs) !!! DEF_TYPE = Z.lor (v.(msrs) !!! DEF_TYPE) ENABLES.
Proof.
  intros v. apply (MtrrSetMemoryAttribute_fixed 0xA0000 0x20000 6 reset_quark).
  - lia.
  - lia.
  - vm_compute. discriminate.
  - by exists 0xA0.
  - by exists 0x20.
  - reflexivity.
  - lia.
  - vm_compute. lia.
Defined.
