(* ===== verification/MtrrGet.v ===== *)
(** * Reading the memory type of an address

    [MtrrGetMemoryAttribute] of [MtrrLib.c] against the architecture's rules ([MtrrSpec]): which
    registers apply to an address and how overlapping variable ranges combine. *)

From S2P Require Import Prelude QNCAccess MtrrDefs QuarkMsr Math64 MtrrLib MtrrSpec MtrrQuark MtrrRange MtrrSet MtrrFixed.
From stdpp Require Import gmap.
#[local] Open Scope Z_scope.

(** The memory types that exist: the others are reserved, and a write of one faults. *)
Definition memory_types : list Z := [0; 1; 4; 5; 6].

Section Get.
Context {MH : MtrrHeader} {MHO : MtrrHeaderOk} {C : Type} {CPU : MtrrCpu C} {OK : MtrrCpuOk C}.
Implicit Types (c : C) (v : mtrr_view) (m : gmap Z Z).

(** The architecture's memory type of an address; [None] where it is undefined. *)
Definition memory_type m (a : Z) : option Z :=
  if Z.land (m !!! DEF_TYPE) 0x800 =? 0 then Some 0
  else if (a <? BASE_1MB) && negb (Z.land (m !!! DEF_TYPE) 0x400 =? 0) then fixed_type m a
  else match types_at m a with
       | [] => Some (Z.land (m !!! DEF_TYPE) 7)
       | ts => combined_type ts
       end.

(** ** Precedence *)

(** [MtrrPrecedence] on the values that the types have. *)
Definition prec (x y : Z) : Z :=
  if y =? 7 then x else
  if x =? 0 then 0
  else if x =? 1 then (if (y =? 1) || (y =? 0) then y else 7)
  else if x =? 4 then (if (y =? 4) || (y =? 6) then 4 else if y =? 0 then 0 else 7)
  else if x =? 5 then (if (y =? 5) || (y =? 0) then y else 7)
  else if x =? 6 then (if (y =? 0) || (y =? 4) || (y =? 6) then y else 7)
  else if x =? 7 then y else 7.

Lemma MtrrPrecedence_eq x y : MtrrPrecedence x y = prec x y.
Proof.
  unfold MtrrPrecedence. by rewrite UNCACHEABLE_val, WRITE_COMBINING_val, WRITE_THROUGH_val,
    WRITE_PROTECTED_val, WRITE_BACK_val, INVALID_TYPE_val.
Qed.

(** The facts about single steps, by evaluation on the types. *)
Lemma prec_facts x y :
  x ∈ 7 :: memory_types -> y ∈ memory_types ->
  prec x y ∈ 7 :: memory_types /\ prec x 0 = 0 /\ prec 0 y = 0 /\ prec 7 y = y /\ prec y y = y /\
  prec 4 6 = 4 /\ prec 6 4 = 4.
Proof.
  intros Hx Hy. assert (Hall : Forall (fun x => Forall (fun y => prec x y ∈ 7 :: memory_types /\
    prec x 0 = 0 /\ prec 0 y = 0 /\ prec 7 y = y /\ prec y y = y /\ prec 4 6 = 4 /\ prec 6 4 = 4)
    memory_types) (7 :: memory_types)) by by_compute.
  rewrite List.Forall_forall in Hall. apply list_elem_of_In in Hx, Hy. specialize (Hall x Hx).
  rewrite List.Forall_forall in Hall. by apply Hall.
Qed.

Lemma prec_zero ts x :
  Forall (fun t => t ∈ memory_types) ts -> x ∈ 7 :: memory_types -> x = 0 \/ In 0 ts -> foldl prec x ts = 0.
Proof.
  intros Hts. revert x. induction Hts as [|y ts Hy Hts IH]; intros x Hx H0; [by destruct H0|].
  cbn [foldl]. destruct (prec_facts x y Hx Hy) as (Hin & Hx0 & H0y & _). apply IH; [done|].
  destruct H0 as [-> |[-> |H0]]; [by left|by left|by right].
Qed.

Lemma prec_same ts t : Forall (fun x => x = t) ts -> t ∈ memory_types -> foldl prec t ts = t.
Proof.
  intros Hts Ht. induction Hts as [|y ts -> Hts IH]; [done|]. cbn [foldl].
  destruct (prec_facts 7 t) as (_ & _ & _ & _ & Hs & _); [by left|done|]. by rewrite Hs.
Qed.

Lemma prec_write ts x :
  Forall (fun t => t = 4 \/ t = 6) ts -> x = 4 \/ x = 6 ->
  foldl prec x ts = if (x =? 4) || existsb (Z.eqb 4) ts then 4 else 6.
Proof.
  intros Hts. revert x. induction Hts as [|y ts Hy Hts IH]; intros x Hx; cbn [foldl existsb].
  - by destruct Hx as [-> | ->].
  - rewrite IH by (destruct Hx as [-> | ->], Hy as [-> | ->]; vm_compute; auto).
    by destruct Hx as [-> | ->], Hy as [-> | ->].
Qed.

(** Combining the types of the ranges one by one gives the architecture's combination. *)
Lemma prec_combined ts t :
  Forall (fun t => t ∈ memory_types) ts -> combined_type ts = Some t -> foldl prec 7 ts = t.
Proof.
  intros Hts. destruct ts as [|x ts]; [done|]. unfold combined_type.
  destruct (existsb (Z.eqb 0) (x :: ts)) eqn:E0.
  { intros [= <-]. apply prec_zero; [done|by left|]. right.
    apply existsb_exists in E0 as (y & Hy & E). apply Z.eqb_eq in E as <-. done. }
  cbn [foldl]. apply Forall_cons in Hts as [Hx Hts].
  destruct (prec_facts 7 x) as (_ & _ & _ & H7 & _); [by left|done|]. rewrite H7.
  destruct (forallb (Z.eqb x) (x :: ts)) eqn:E1.
  { intros [= <-]. apply prec_same; [|done]. apply List.Forall_forall. intros y Hy.
    rewrite forallb_forall in E1. symmetry. apply Z.eqb_eq, E1. by right. }
  destruct (forallb (fun t0 => (t0 =? 4) || (t0 =? 6)) (x :: ts)) eqn:E2; [|done]. intros [= <-].
  assert (H46 : forall y, In y (x :: ts) -> y = 4 \/ y = 6).
  { rewrite forallb_forall in E2. intros y Hy%E2%orb_prop. rewrite !Z.eqb_eq in Hy. done. }
  rewrite prec_write; [|apply List.Forall_forall; intros y Hy; apply H46; by right|apply H46; by left].
  destruct ((x =? 4) || existsb (Z.eqb 4) ts) eqn:E4; [done|].
  (* no 4 in the list: all its elements are 6 *)
  exfalso. apply orb_false_iff in E4 as [E4 E5]. apply Z.eqb_neq in E4.
  assert (E6 : forallb (Z.eqb x) (x :: ts) = true); [|congruence]. apply forallb_forall. intros y Hy.
  assert (Hy6 : y <> 4 -> x = 6 -> y = 6) by (destruct (H46 y Hy); lia).
  destruct (H46 x (or_introl eq_refl)) as [|Hx6]; [lia|]. apply Z.eqb_eq. rewrite Hx6. symmetry. apply Hy6; [|done].
  intros ->. destruct Hy as [|Hy]; [lia|].
  assert (existsb (Z.eqb 4) ts = true); [|congruence]. apply existsb_exists. by exists 4.
Qed.

(** ** The loops *)

Lemma attribute_loop_ok a arr n k ty :
  (k + n <= length arr)%nat ->
  attribute_loop a arr n k ty =
  Some (foldl (fun ty e => if e.(vValid) && (a >=? e.(vBaseAddress)) &&
                              (a <? u64 (e.(vBaseAddress) + e.(vLength)))
                           then MtrrPrecedence ty e.(vType) else ty) ty (take n (drop k arr))).
Proof.
  revert k ty. induction n as [|n IH]; intros k ty Hk; [done|].
  destruct (lookup_lt_is_Some_2 arr k) as [e He]; [lia|]. cbn [attribute_loop].
  rewrite He, some_bind, IH by lia. rewrite (drop_S _ _ _ He). done.
Qed.

(** Over the shadow array it folds the types of the ranges that contain the address. *)
Lemma attribute_types m a :
  (vcnt m <= 8)%nat -> Z.of_nat (length (active m)) <= fwcnt m ->
  Forall (fun p => exists x, describes p x) (active m) -> 0 <= a < 2 ^ phys_bits ->
  attribute_loop a (shadow_array (shadow_entries m)) (vcnt m) 0 7 =
  Some (foldl prec 7 (types_at m a)).
Proof.
  intros H8 Hfw Hd Ha. pose proof NUMBER_VARIABLE_val as Hnum. pose proof (fwcnt_le _ H8) as Hle.
  pose proof (shadow_entries_length m H8) as Hlen.
  rewrite attribute_loop_ok by (unfold shadow_array; rewrite length_app, length_replicate; lia).
  f_equal. rewrite drop_0. unfold shadow_array. rewrite take_app, take_replicate, foldl_app.
  rewrite (take_ge (shadow_entries m)) by lia.
  match goal with |- foldl ?F ?x (replicate ?k zero_entry) = _ =>
    assert (Hz : foldl F x (replicate k zero_entry) = x); [generalize k, x; intros k0; induction k0; [done|exact IHk0]|];
    rewrite Hz; clear Hz end.
  unfold shadow_entries, types_at. rewrite active_used_pairs in Hd, Hfw |- *. rewrite length_fmap in Hfw.
  rewrite take_ge by lia. generalize 7 as ty. induction (used_pairs m (vcnt m)) as [|n ns IH]; intros ty; [done|].
  cbn [fmap list_fmap] in Hd. apply Forall_cons in Hd as [[x Hx] Hd].
  cbn [fmap list_fmap foldl length] in *. rewrite filter_cons, (describes_covers _ x) by done.
  destruct (shadow_describes m n x Hx) as [Hb Hl]. rewrite Hb, Hl. change (vValid (shadow_of m n)) with true.
  destruct Hx as ((k & Hk & HL & _ & H0 & Hend) & _). destruct (block_ok_bounds x k HL Hk H0 Hend) as [_ Hkp].
  pose proof phys_bits_pow as HP. rewrite wrap_small by lia. unfold in_block. rewrite Z.geb_leb. cbn [andb].
  specialize (IH ltac:(lia) Hd).
  destruct ((x.1 <=? a) && (a <? x.1 + x.2)).
  - rewrite decide_True by done. cbn [fmap list_fmap foldl]. rewrite MtrrPrecedence_eq. apply IH.
  - rewrite decide_False by done. apply IH.
Qed.

(** The search in the fixed registers. *)
Lemma wp_fixed_attribute a (Q : option Z -> C -> Prop) c :
  0 <= a < BASE_1MB ->
  (forall c', view c' = view c -> Q (fixed_type (view c).(msrs) a) c') ->
  wp (fixed_attribute a 11 0) Q c.
Proof.
  intros Ha HQ. destruct (fixed_search_ok a Ha) as (k & e & Hs & He & Hc & _).
  assert (Hfa : fixed_at a = Some e) by (by eapply fixed_at_row).
  unfold fixed_type in HQ. rewrite Hfa, some_bind in HQ.
  assert (Hgen : forall n i, fixed_search a n i = Some k -> (n + i = 11)%nat -> wp (fixed_attribute a n i) Q c).
  { intros n. induction n as [|n IH]; intros i Hi Hn.
    - injection Hi as ->. apply table_row in He. lia.
    - cbn [fixed_search fixed_attribute] in *. destruct (mMtrrLibFixedMtrrTable !! i) as [e'|] eqn:He'; [|done].
      rewrite some_bind in Hi. apply wp_bind, (wp_lift _ e'); [done|].
      unfold fixed_covers in Hi. rewrite (Z.mul_comm (Length e') 8). destruct (_ && _) eqn:Hcov; [|apply IH; [done|lia]].
      injection Hi as ->. rewrite He in He'. injection He' as <-.
      pose proof He as Hrow. apply table_row in Hrow as (Hm & HB & HL & _ & _ & Hend & _).
      apply fixed_covers_spec in Hc. unfold fend, BASE_1MB in *.
      apply wp_bind, wp_read; [unfold mtrr_regs; do 2 right; apply elem_of_app; by left|]. intros c1 E1.
      apply wp_ret. rewrite (wrap_small 32 a) by lia. specialize (HQ c1 E1). revert HQ. unfold byte, RShiftU64.
      rewrite (wrap_small 64 (msrs (view c) !!! Msr e)).
      + by rewrite (Z.mul_comm 8).
      + pose proof (view_width c (Msr e)) as Hw. rewrite reg_width_fixed in Hw by done. apply Hw.
        unfold mtrr_regs. do 2 right. apply elem_of_app. by left. }
  by apply (Hgen 11%nat 0%nat).
Qed.

Lemma wp_GetMemoryCacheTypeFromMtrrType t (Q : Z -> C -> Prop) c :
  (forall c', view c' = view c ->
     Q (if bool_decide (t ∈ memory_types) then t else Z.land ((view c).(msrs) !!! DEF_TYPE) 7) c') ->
  wp (GetMemoryCacheTypeFromMtrrType t) Q c.
Proof.
  intros HQ. unfold GetMemoryCacheTypeFromMtrrType.
  rewrite UNCACHEABLE_val, WRITE_COMBINING_val, WRITE_THROUGH_val, WRITE_PROTECTED_val, WRITE_BACK_val,
    CacheUncacheable_val, CacheWriteCombining_val, CacheWriteThrough_val, CacheWriteProtected_val,
    CacheWriteBack_val.
  destruct (Z.eqb_spec t 0) as [-> |]; [by apply wp_ret, HQ|].
  destruct (Z.eqb_spec t 1) as [-> |]; [by apply wp_ret, HQ|].
  destruct (Z.eqb_spec t 4) as [-> |]; [by apply wp_ret, HQ|].
  destruct (Z.eqb_spec t 5) as [-> |]; [by apply wp_ret, HQ|].
  destruct (Z.eqb_spec t 6) as [-> |]; [by apply wp_ret, HQ|].
  apply wp_MtrrGetDefaultMemoryType. intros c1 E1. specialize (HQ c1 E1).
  rewrite bool_decide_eq_false_2 in HQ; [done|]. unfold memory_types. rewrite !elem_of_cons, elem_of_nil. lia.
Qed.
End Get.

(** ** Property *)

(** C2: for an address, [MtrrGetMemoryAttribute] returns the memory type that the architecture
    gives to it, where that is defined, and changes nothing: uncacheable while the MTRRs are
    disabled, the type in the fixed registers below 1 MiB when those are enabled, and otherwise the
    combination of the types of the variable ranges that contain the address, or the default type
    if there is none. The library looks at as many variable ranges as firmware may use, so no more
    may be in use. *)
Theorem MtrrGetMemoryAttribute_correct {MH : MtrrHeader} {MHO : MtrrHeaderOk} {C : Type}
    {CPU : MtrrCpu C} {OK : MtrrCpuOk C} (a t : Z) (c : C) :
  let m := (view c).(msrs) in
  0 <= a < 2 ^ phys_bits -> (vcnt m <= 8)%nat -> Z.of_nat (length (active m)) <= fwcnt m ->
  Forall (fun p => (exists x, describes p x) /\ type_of p ∈ memory_types) (active m) ->
  t ∈ memory_types -> memory_type m a = Some t ->
  exists c', MtrrGetMemoryAttribute a c = Some (t, c') /\ view c' = view c.
Proof.
  intros m Ha H8 Hfw Hact Ht Hty.
  enough (Hwp : wp (MtrrGetMemoryAttribute a) (fun r c' => r = t /\ view c' = view c) c).
  { destruct Hwp as (r & c' & Hrun & -> & E). by exists c'. }
  unfold MtrrGetMemoryAttribute. cbn [negb IsMtrrSupported]. unfold memory_type in Hty.
  rewrite DEF_TYPE_val, ENABLED_val, FIXED_ENABLED_val, CacheUncacheable_val, INVALID_TYPE_val, NUMBER_FIXED_val.
  apply wp_bind, wp_read; [by_compute|]. intros c1 E1. fold m.
  destruct (Z.land (m !!! DEF_TYPE) 0x800 =? 0); [injection Hty as <-; by apply wp_ret|].
  assert (Hconv : forall c2, view c2 = view c ->
    wp (GetMemoryCacheTypeFromMtrrType t) (fun r c' => r = t /\ view c' = view c) c2).
  { intros c2 E2. apply wp_GetMemoryCacheTypeFromMtrrType. intros c3 E3.
    rewrite bool_decide_eq_true_2 by done. split; [done|congruence]. }
  apply wp_bind. destruct ((a <? BASE_1MB) && negb (Z.land (m !!! DEF_TYPE) 0x400 =? 0)) eqn:Hfix.
  { apply andb_prop in Hfix as [Hlt _]. apply wp_fixed_attribute; [lia|]. intros c2 E2.
    rewrite E1. fold m. rewrite Hty. apply Hconv. congruence. }
  apply wp_ret, wp_bind, wp_MtrrLibInitializeMtrrMask. intros c2 E2.
  apply wp_bind, wp_shadow; [by rewrite E2, E1|]. intros c3 E3.
  apply wp_bind, wp_GetVariableMtrrCount; [by rewrite E3, E2, E1|]. intros c4 E4.
  rewrite E3, E2, E1. fold m. pose proof NUMBER_VARIABLE_val. apply wp_bind, wp_assert; [lia|].
  rewrite Nat2Z.id. apply wp_bind. eapply wp_lift.
  { apply attribute_types; [done|done| |done]. eapply Forall_impl; [exact Hact|]. by intros p [Hd _]. }
  assert (Hts : Forall (fun t => t ∈ memory_types) (types_at m a)).
  { unfold types_at. apply Forall_fmap, Forall_forall. intros p [_ Hp]%list_elem_of_filter.
    rewrite Forall_forall in Hact. by apply Hact. }
  destruct (types_at m a) as [|x ts] eqn:E.
  - injection Hty as Hty. apply wp_GetMemoryCacheTypeFromMtrrType. intros c5 E5. cbn [foldl].
    rewrite bool_decide_eq_false_2 by (by_compute). rewrite E4, E3, E2, E1. fold m. split; [done|congruence].
  - rewrite (prec_combined _ t) by done. apply Hconv. congruence.
Qed.

(** A processor with MTRRs enabled and one pair in use: 2 MiB at 2 MiB, write-back. *)
Definition mapped_quark : quark :=
  {| q_cpu := {| bus := {| MDR := 0; MEA := 0; DeviceId := 0;
                           regs := fun r => if decide (r = hb 0x40) then 0x508
                                            else if decide (r = hb 0x41) then 0x800
                                            else if decide (r = hb 0x5A) then 0x200006
                                            else if decide (r = hb 0x5B) then 0xFFE00800 else 0;
                           writes := [] |};
                 real_msr := fun _ => 0 |};
     q_interrupts := true; q_caching := true; q_cr4 := 0 |}.

(** The last address of the range. *)
#[local] Existing Instances PlainBus Edk2Header.header Edk2Header.header_ok.
#[local] Instance demo_ok : MtrrCpuOk quark := quark_ok plain_mtrr.

Lemma MtrrGetMemoryAttribute_correct_witness :
  exists c', MtrrGetMemoryAttribute 0x3FFFFF mapped_quark = Some (6, c') /\ view c' = view mapped_quark.
Proof.
  apply (MtrrGetMemoryAttribute_correct 0x3FFFFF 6 mapped_quark).
  - split; [lia|reflexivity].
  - vm_compute. lia.
  - vm_compute. discriminate.
  - assert (Ha : active (view mapped_quark).(msrs) = [(0x200006, 0xFFE00800)]) by (vm_compute; reflexivity).
    rewrite Ha. constructor; [|constructor]. split; [|by_compute]. exists (0x200000, 0x200000).
    split; [|split; vm_compute; reflexivity]. exists 21. cbn [fst snd]. split_and!; [lia|reflexivity| |lia|].
    + by exists 1.
    + vm_compute. discriminate.
  - by_compute.
  - vm_compute. reflexivity.
Defined.
