(* ===== verification/MtrrRestore.v ===== *)
(** * Saving and restoring the memory type range registers

    [MtrrGetAllMtrrs] and [MtrrSetAllMtrrs] of [MtrrLib.c], which carry the registers of one
    processor over to another or across a sleep state. *)

From S2P Require Import Prelude QNCAccess MtrrDefs QuarkMsr Math64 MtrrLib MtrrSpec MtrrQuark MtrrRange MtrrSet MtrrFixed MtrrGet.
From stdpp Require Import gmap.
#[local] Open Scope Z_scope.

Section Restore.
Context {MH : MtrrHeader} {MHO : MtrrHeaderOk} {C : Type} {CPU : MtrrCpu C} {OK : MtrrCpuOk C}.
Implicit Types (c : C) (v : mtrr_view) (m : gmap Z Z).

(** The registers that are saved, for a processor with [n] pairs. *)
Definition saved_regs (n : nat) : list Z :=
  DEF_TYPE :: fixed_regs ++ concat ((fun k => [base_reg k; base_reg k + 1]) <$> seq 0 n).

(** [v'] is [v] with the registers [rs] as in [m]. *)
Definition restored (rs : list Z) m v v' : Prop :=
  (forall i, v'.(msrs) !!! i = if decide (i ∈ rs) then m !!! i else v.(msrs) !!! i) /\
  v'.(interrupts) = v.(interrupts) /\ v'.(caching) = v.(caching) /\ v'.(cr4) = v.(cr4).

Lemma restored_nil m v v' : v' = v -> restored [] m v v'.
Proof. intros ->. by split. Qed.

Lemma restored_app rs1 rs2 m v1 v2 v3 :
  restored rs1 m v1 v2 -> restored rs2 m v2 v3 -> restored (rs1 ++ rs2) m v1 v3.
Proof.
  intros (H1 & I1 & C1 & R1) (H2 & I2 & C2 & R2). split_and!; [|congruence..]. intros i. rewrite H2, H1.
  destruct (decide (i ∈ rs2)), (decide (i ∈ rs1)), (decide (i ∈ rs1 ++ rs2)) as [He|He];
    rewrite elem_of_app in He; tauto.
Qed.

Lemma restored_one i m v v' : v' = set_msr i (m !!! i) v -> restored [i] m v v'.
Proof.
  intros ->. split_and!; [|done..]. intros j. cbn [set_msr msrs]. destruct (decide (j ∈ [i])) as [Hj|Hj].
  - apply list_elem_of_singleton in Hj as ->. apply lookup_total_insert_eq.
  - rewrite lookup_total_insert_ne; [done|]. intros ->. apply Hj, list_elem_of_singleton. done.
Qed.

Lemma restored_quiesced rs m v v' : restored rs m v v' -> DEF_TYPE ∉ rs -> quiesced v -> quiesced v'.
Proof.
  intros (H & I & Cc & _) Hd (Qi & Qc & Qd). split_and!; [congruence|congruence|].
  by rewrite H, decide_False.
Qed.

(** ** Reading *)

Lemma table_length : length mMtrrLibFixedMtrrTable = 11%nat.
Proof. reflexivity. Qed.

Lemma wp_get_fixed_loop n k arr (Q : list Z -> C -> Prop) c :
  let m := (view c).(msrs) in
  (k + n = 11)%nat -> (length arr = 11)%nat ->
  (forall c', view c' = view c ->
     Q (take k arr ++ ((fun e => m !!! e.(Msr)) <$> drop k mMtrrLibFixedMtrrTable)) c') ->
  wp (get_fixed_loop n k arr) Q c.
Proof.
  revert k arr c Q. induction n as [|n IH]; intros k arr c Q m Hk Hlen HQ; cbn [get_fixed_loop].
  { apply wp_ret. specialize (HQ c eq_refl). rewrite take_ge, drop_ge, app_nil_r in HQ by (rewrite ?table_length; lia).
    exact HQ. }
  destruct (lookup_lt_is_Some_2 mMtrrLibFixedMtrrTable k) as [e He]; [rewrite table_length; lia|].
  destruct (lookup_lt_is_Some_2 arr k) as [x Hx]; [lia|].
  apply wp_bind, (wp_lift _ e); [done|]. apply wp_bind, (wp_lift _ x); [done|].
  pose proof He as Hrow. apply table_row in Hrow as (Hm & _).
  apply wp_bind, wp_read; [unfold mtrr_regs; do 2 right; apply elem_of_app; by left|]. intros c1 E1. fold m.
  apply IH; [lia|by rewrite length_insert|]. intros c2 E2. rewrite E1 in *. fold m.
  specialize (HQ c2 E2). rewrite (drop_S _ _ _ He) in HQ. cbn [fmap list_fmap] in HQ.
  rewrite (take_S_r _ _ (m !!! e.(Msr))) by (apply list_lookup_insert_eq; lia).
  rewrite take_insert_ge, <- app_assoc by lia. exact HQ.
Qed.

Lemma wp_get_variable_loop n k arr (Q : list (Z * Z) -> C -> Prop) c :
  let m := (view c).(msrs) in
  (k + n <= 8)%nat -> (k + n <= length arr)%nat ->
  (forall c', view c' = view c ->
     Q (take k arr ++ (pair_at m <$> seq k n) ++ drop (k + n) arr) c') ->
  wp (get_variable_loop n k arr) Q c.
Proof.
  revert k arr c Q. induction n as [|n IH]; intros k arr c Q m Hk Hlen HQ; cbn [get_variable_loop].
  { apply wp_ret. specialize (HQ c eq_refl). cbn [seq fmap list_fmap app] in HQ.
    rewrite Nat.add_0_r, take_drop in HQ. exact HQ. }
  destruct (lookup_lt_is_Some_2 arr k) as [x Hx]; [lia|]. apply wp_bind, (wp_lift _ x); [done|].
  destruct (base_reg_in k) as [Hb Hb1]; [lia|]. unfold variable_msr. rewrite VARIABLE_BASE_val.
  rewrite (wrap_small 32 (0x200 + 2 * Z.of_nat k)) by lia. fold (base_reg k).
  rewrite (wrap_small 32 (base_reg k + 1)) by (unfold base_reg; lia).
  apply wp_bind, wp_read; [by apply variable_in_mtrr|]. intros c1 E1. fold m.
  apply wp_bind, wp_read; [by apply variable_in_mtrr|]. intros c2 E2. rewrite E1. fold m.
  change (m !!! base_reg k, m !!! (base_reg k + 1)) with (pair_at m k).
  apply IH; [lia|rewrite length_insert; lia|]. intros c3 E3. rewrite E2, E1 in *. fold m.
  specialize (HQ c3 E3). cbn [seq fmap list_fmap] in HQ.
  rewrite (take_S_r _ _ (pair_at m k)) by (apply list_lookup_insert_eq; lia).
  rewrite take_insert_ge, drop_insert_lt, <- app_assoc by lia.
  replace (S k + n)%nat with (k + S n)%nat by lia. exact HQ.
Qed.

(** ** Writing *)

(** A write of a register that [rs] leaves quiesced, before more writes. *)
Lemma wp_restore_one i rs m {A} (k : M C A) (Q : A -> C -> Prop) c v0 :
  i ∈ mtrr_regs -> i <> 0xFE -> i <> DEF_TYPE -> in_width (reg_width i) (m !!! i) ->
  restored rs m v0 (view c) -> quiesced (view c) ->
  (forall c', restored (rs ++ [i]) m v0 (view c') -> quiesced (view c') -> wp k Q c') ->
  wp (_ ← AsmWriteMsr64 i (m !!! i); k) Q c.
Proof.
  intros Hi Hc Hd Hw Hr Hq Hk. apply wp_bind, wp_write; [done..|]. intros c1 r E1.
  pose proof (restored_one _ _ _ _ E1) as H1. apply Hk.
  - by eapply restored_app.
  - eapply restored_quiesced; [exact H1| |done]. rewrite list_elem_of_singleton. congruence.
Qed.

(** What a register saved from a processor fits into. *)
Definition fits m : Prop := forall i, i ∈ mtrr_regs -> in_width (reg_width i) (m !!! i).

Lemma fixed_reg_ok i : i ∈ fixed_regs -> i ∈ mtrr_regs /\ i <> 0xFE /\ i <> DEF_TYPE.
Proof.
  intros Hi. split_and!; [unfold mtrr_regs; do 2 right; apply elem_of_app; by left|intros ->; revert Hi; by_compute|by apply fixed_not_def].
Qed.

Lemma variable_reg_ok i : i ∈ variable_regs -> i ∈ mtrr_regs /\ i <> 0xFE /\ i <> DEF_TYPE.
Proof. intros Hi. split_and!; [by apply variable_in_mtrr|intros ->; revert Hi; by_compute..]. Qed.

Lemma wp_set_fixed_loop n k arr rs m v0 (Q : unit -> C -> Prop) c :
  fits m -> (k + n = 11)%nat -> arr = (fun e => m !!! e.(Msr)) <$> mMtrrLibFixedMtrrTable ->
  restored rs m v0 (view c) -> quiesced (view c) ->
  (forall c', restored (rs ++ (Msr <$> drop k mMtrrLibFixedMtrrTable)) m v0 (view c') ->
     quiesced (view c') -> Q tt c') ->
  wp (set_fixed_loop n k arr) Q c.
Proof.
  intros Hfit Hk Harr. revert k c rs Hk. induction n as [|n IH]; intros k c rs Hk Hr Hq HQ; cbn [set_fixed_loop].
  { apply wp_ret, HQ; [|done]. rewrite drop_ge by (rewrite table_length; lia). by rewrite app_nil_r. }
  destruct (lookup_lt_is_Some_2 mMtrrLibFixedMtrrTable k) as [e He]; [rewrite table_length; lia|].
  apply wp_bind, (wp_lift _ e); [done|]. apply wp_bind, (wp_lift _ (m !!! e.(Msr))).
  { rewrite Harr, list_lookup_fmap, He. done. }
  pose proof He as Hrow. apply table_row in Hrow as (Hm & _). destruct (fixed_reg_ok _ Hm) as (H1 & H2 & H3).
  eapply wp_restore_one; [done..|by apply Hfit|exact Hr|exact Hq|]. intros c1 Hr1 Hq1.
  apply (IH (S k) c1 (rs ++ [e.(Msr)])); [lia|done|done|]. intros c2 Hr2. apply HQ.
  rewrite (drop_S _ _ _ He). cbn [fmap list_fmap]. by rewrite <- app_assoc in Hr2.
Qed.

Lemma wp_set_variable_loop n k arr rs m v0 (Q : unit -> C -> Prop) c :
  fits m -> (k + n <= 8)%nat -> (forall i, (k <= i < k + n)%nat -> arr !! i = Some (pair_at m i)) ->
  restored rs m v0 (view c) -> quiesced (view c) ->
  (forall c', restored (rs ++ concat ((fun i => [base_reg i; base_reg i + 1]) <$> seq k n)) m v0 (view c') ->
     quiesced (view c') -> Q tt c') ->
  wp (set_variable_loop n k arr) Q c.
Proof.
  intros Hfit Hk Harr. revert k c rs Hk Harr. induction n as [|n IH]; intros k c rs Hk Harr Hr Hq HQ;
    cbn [set_variable_loop].
  { apply wp_ret, HQ; [|done]. cbn. by rewrite app_nil_r. }
  apply wp_bind, (wp_lift _ (pair_at m k)); [apply Harr; lia|]. unfold pair_at.
  destruct (base_reg_in k) as [Hb Hb1]; [lia|]. unfold variable_msr. rewrite VARIABLE_BASE_val.
  rewrite (wrap_small 32 (0x200 + 2 * Z.of_nat k)) by lia. fold (base_reg k).
  rewrite (wrap_small 32 (base_reg k + 1)) by (unfold base_reg; lia).
  destruct (variable_reg_ok _ Hb) as (H1 & H2 & H3). destruct (variable_reg_ok _ Hb1) as (H4 & H5 & H6).
  eapply wp_restore_one; [done..|by apply Hfit|exact Hr|exact Hq|]. intros c1 Hr1 Hq1.
  eapply wp_restore_one; [done..|by apply Hfit|exact Hr1|exact Hq1|]. intros c2 Hr2 Hq2.
  apply (IH (S k) c2 ((rs ++ [base_reg k]) ++ [base_reg k + 1])); [lia| |done|done|].
  - intros i Hi. apply Harr. lia.
  - intros c3 Hr3. apply HQ. rewrite <- !app_assoc in Hr3. exact Hr3.
Qed.

(** ** All registers *)

(** What [MtrrGetAllMtrrs] puts into settings whose arrays are [vs] long. *)
Definition settings_of m (vs : list (Z * Z)) : MTRR_SETTINGS :=
  {| Fixed := (fun e => m !!! e.(Msr)) <$> mMtrrLibFixedMtrrTable;
     Variables := (pair_at m <$> seq 0 (vcnt m)) ++ drop (vcnt m) vs;
     MtrrDefType := m !!! DEF_TYPE |}.

Lemma wp_MtrrGetAllMtrrs s (Q : MTRR_SETTINGS -> C -> Prop) c :
  let m := (view c).(msrs) in
  (vcnt m <= 8)%nat -> length s.(Fixed) = 11%nat ->
  Z.of_nat (length s.(Variables)) = MTRR_NUMBER_OF_VARIABLE_MTRR ->
  (forall c', view c' = view c -> Q (settings_of m s.(Variables)) c') ->
  wp (MtrrGetAllMtrrs s) Q c.
Proof.
  intros m H8 Hf Hv HQ. pose proof NUMBER_VARIABLE_val as Hnum.
  unfold MtrrGetAllMtrrs, MtrrGetFixedMtrr, MtrrGetVariableMtrr. cbn [negb IsMtrrSupported].
  rewrite NUMBER_FIXED_val. apply wp_bind, wp_get_fixed_loop; [done|done|]. intros c1 E1.
  apply wp_bind, wp_bind, wp_GetVariableMtrrCount; [by rewrite E1|]. intros c2 E2. rewrite E1. fold m.
  apply wp_bind, wp_assert; [lia|]. rewrite Nat2Z.id.
  apply wp_get_variable_loop; [lia|lia|]. intros c3 E3. rewrite DEF_TYPE_val.
  apply wp_bind, wp_read; [by_compute|]. intros c4 E4. apply wp_ret. rewrite E3, E2, E1. fold m.
  apply HQ. congruence.
Qed.

Lemma fixed_regs_of_table : Msr <$> mMtrrLibFixedMtrrTable = fixed_regs.
Proof. rewrite table_eq. reflexivity. Qed.

Lemma wp_MtrrSetAllMtrrs m vs (Q : unit -> C -> Prop) c :
  fits m -> (vcnt m <= 8)%nat -> vcnt (view c).(msrs) = vcnt m ->
  (forall c', 
     (forall i, (view c').(msrs) !!! i =
        if decide (i ∈ saved_regs (vcnt m)) then m !!! i else (view c).(msrs) !!! i) ->
     (view c').(interrupts) = (view c).(interrupts) -> (view c').(caching) = true ->
     (view c').(cr4) = (view c).(cr4) -> Q tt c') ->
  wp (MtrrSetAllMtrrs (settings_of m vs)) Q c.
Proof.
  intros Hfit H8 Hv HQ. pose proof NUMBER_VARIABLE_val as Hnum. pose proof (quiesce_quiesced (view c)) as Hq.
  unfold MtrrSetAllMtrrs, MtrrSetFixedMtrrWorker, MtrrSetVariableMtrrWorker. cbn [negb IsMtrrSupported].
  rewrite NUMBER_FIXED_val. apply wp_bind, wp_PreMtrrChange. intros c1 E1. rewrite <- E1 in Hq.
  cbn [Fixed Variables MtrrDefType settings_of].
  apply wp_bind. eapply (wp_set_fixed_loop _ _ _ [] m (view c1));
    [done|done|done|by apply restored_nil|done|]. intros c2 Hr2 Hq2.
  rewrite drop_0, app_nil_l, fixed_regs_of_table in Hr2.
  assert (Hv2 : vcnt (view c2).(msrs) = vcnt m).
  { rewrite <- Hv. unfold vcnt. destruct Hr2 as [-> _]. rewrite decide_False by by_compute.
    rewrite E1. unfold quiesce. cbn [msrs]. by rewrite lookup_total_insert_ne. }
  apply wp_bind, wp_bind, wp_GetVariableMtrrCount; [lia|]. intros c3 E3. rewrite Hv2.
  apply wp_bind, wp_assert; [lia|]. rewrite Nat2Z.id. rewrite <- E3 in Hr2, Hq2.
  eapply wp_set_variable_loop; [done|lia| |exact Hr2|exact Hq2|].
  { intros i Hi. rewrite lookup_app_l by (rewrite length_fmap, length_seq; lia).
    rewrite list_lookup_fmap, lookup_seq_lt by lia. done. }
  intros c4 Hr4 Hq4. rewrite DEF_TYPE_val.
  apply wp_bind, wp_write; [by_compute|done|apply Hfit; by_compute|done|]. intros c5 r5 E5.
  destruct (restored_app _ _ _ _ _ _ Hr4 (restored_one _ _ _ _ E5)) as (Hreg & Hi & Hc & Hcr).
  apply wp_PostMtrrChangeEnableCache. intros c6 E6. specialize (HQ c6). rewrite E6 in HQ.
  cbn [msrs interrupts caching cr4 Cr4 InterruptState] in HQ. apply HQ; [|done|done|by rewrite view_cr4].
  intros i. rewrite Hreg. unfold saved_regs. set (vr := concat _).
  destruct (decide (i ∈ (fixed_regs ++ vr) ++ [DEF_TYPE])) as [H1|H1];
    destruct (decide (i ∈ DEF_TYPE :: fixed_regs ++ vr)) as [H2|H2];
    rewrite elem_of_app, list_elem_of_singleton in H1; rewrite elem_of_cons in H2; [done|tauto|tauto|].
  rewrite E1. unfold quiesce. cbn [msrs]. rewrite lookup_total_insert_ne; [done|]. intros <-. tauto.
Qed.
End Restore.

(** ** Property *)

(** C33: saving and restoring. [MtrrGetAllMtrrs] changes nothing, and [MtrrSetAllMtrrs] with the
    settings it returned, on any processor state with as many register pairs (after any changes, or
    on another processor), gives every fixed register, every variable pair and the default-type
    register the value it had when saved, and changes no other register; the interrupt state and
    CR4 are restored and the caches are on. *)
Theorem MtrrSetAllMtrrs_restores {MH : MtrrHeader} {MHO : MtrrHeaderOk} {C : Type}
    {CPU : MtrrCpu C} {OK : MtrrCpuOk C} (s : MTRR_SETTINGS) (c d : C) :
  let m := (view c).(msrs) in
  (vcnt m <= 8)%nat -> length s.(Fixed) = 11%nat ->
  Z.of_nat (length s.(Variables)) = MTRR_NUMBER_OF_VARIABLE_MTRR -> vcnt (view d).(msrs) = vcnt m ->
  exists saved c' d',
    MtrrGetAllMtrrs s c = Some (saved, c') /\ view c' = view c /\
    MtrrSetAllMtrrs saved d = Some (tt, d') /\
    (forall i, (view d').(msrs) !!! i =
       if decide (i ∈ saved_regs (vcnt m)) then m !!! i else (view d).(msrs) !!! i) /\
    (view d').(interrupts) = (view d).(interrupts) /\ (view d').(caching) = true /\
    (view d').(cr4) = (view d).(cr4).
Proof.
  intros m H8 Hf Hv Hd.
  assert (Hget : wp (MtrrGetAllMtrrs s) (fun r c' => r = settings_of m s.(Variables) /\ view c' = view c) c)
    by (by apply wp_MtrrGetAllMtrrs).
  destruct Hget as (saved & c' & Hrun & -> & E).
  assert (Hset : wp (MtrrSetAllMtrrs (settings_of m s.(Variables))) (fun _ d' =>
    (forall i, (view d').(msrs) !!! i =
       if decide (i ∈ saved_regs (vcnt m)) then m !!! i else (view d).(msrs) !!! i) /\
    (view d').(interrupts) = (view d).(interrupts) /\ (view d').(caching) = true /\
    (view d').(cr4) = (view d).(cr4)) d).
  { apply wp_MtrrSetAllMtrrs; [|done|done|by intros]. intros i Hi. by apply view_width. }
  destruct Hset as ([] & d' & Hrun' & HQ). by exists (settings_of m s.(Variables)), c', d'.
Qed.

(** Settings carried from a processor with a mapped range to one just reset. *)
#[local] Existing Instances PlainBus Edk2Header.header Edk2Header.header_ok.
#[local] Instance demo_ok : MtrrCpuOk quark := quark_ok plain_mtrr.

Definition empty_settings : MTRR_SETTINGS :=
  {| Fixed := replicate 11 0; Variables := replicate (Z.to_nat MTRR_NUMBER_OF_VARIABLE_MTRR) (0, 0);
     MtrrDefType := 0 |}.

Lemma MtrrSetAllMtrrs_restores_witness :
  let m := (view mapped_quark).(msrs) in
  exists saved c' d',
    MtrrGetAllMtrrs empty_settings mapped_quark = Some (saved, c') /\ view c' = view mapped_quark /\
    MtrrSetAllMtrrs saved reset_quark = Some (tt, d') /\
    (forall i, (view d').(msrs) !!! i =
       if decide (i ∈ saved_regs (vcnt m)) then m !!! i else (view reset_quark).(msrs) !!! i) /\
    (view d').(interrupts) = (view reset_quark).(interrupts) /\ (view d').(caching) = true /\
    (view d').(cr4) = (view reset_quark).(cr4).
Proof.
  intros m. apply (MtrrSetAllMtrrs_restores empty_settings mapped_quark reset_quark).
  - vm_compute. lia.
  - reflexivity.
  - vm_compute. reflexivity.
  - vm_compute. reflexivity.
Defined.
