(* ===== verification/Smram.v ===== *)
(** * SMRAM: the chipset's access control

    Models [QuarkNorthCluster/Library/QNCSmmLib/QNCSmmLib.c] (opening, closing and locking SMRAM)
    and the data that the two SMM access drivers share. SMRAM is guarded by one register, HSMMC,
    reached over the message bus ([QNCAccess]); the drivers keep a software state of their own.
    The descriptor type and its state flags come from the PI headers, which are not part of the
    repository: [SmramHeader] has what the drivers use of them. *)

From S2P Require Import Prelude QNCAccess.
From stdpp Require Import functions.
#[local] Open Scope Z_scope.

Section SmmLib.
Context {MB : MessageBus}.

(** ** [QNCSmmLib.c] *)

Definition QNCOpenSmramRegion : M msgbus bool :=
  Smram ← QncHsmmcRead;
  if negb (Z.land Smram SMM_LOCKED =? 0) then mret false
  else
    let Smram := Z.lor Smram (Z.lor SMM_WRITE_OPEN SMM_READ_OPEN) in
    let Smram := clear Smram (Z.lor NON_HOST_SMM_WR_OPEN NON_HOST_SMM_RD_OPEN) in
    _ ← QncHsmmcWrite Smram;
    mret true.

Definition QNCCloseSmramRegion : M msgbus bool :=
  Smram ← QncHsmmcRead;
  if negb (Z.land Smram SMM_LOCKED =? 0) then mret false
  else
    let Smram := clear Smram (Z.lor (Z.lor (Z.lor SMM_WRITE_OPEN SMM_READ_OPEN) NON_HOST_SMM_WR_OPEN)
                                    NON_HOST_SMM_RD_OPEN) in
    _ ← QncHsmmcWrite Smram;
    mret true.

Definition QNCLockSmramRegion : M msgbus unit :=
  Smram ← QncHsmmcRead;
  QncHsmmcWrite (Z.lor Smram SMM_LOCKED).

(** ** The register *)

Definition HSMMC : sbreg := (SpReg, QUARK_NC_HOST_BRIDGE_SB_PORT_ID, QNC_MSG_FSBIC_REG_HSMMC).
Definition hsmmc (s : msgbus) : Z := s.(regs) HSMMC.

(** The register keeps what is written to it. *)
Definition hsmmc_plain : Prop := forall v0 v, sb_store HSMMC v0 v = v.

Definition locked (h : Z) : Prop := Z.testbit h 0 = true.
(** No access from outside SMM. *)
Definition closed (h : Z) : Prop :=
  Z.testbit h 1 = false /\ Z.testbit h 2 = false /\ Z.testbit h 17 = false /\ Z.testbit h 18 = false.
(** Access for the host, and for nobody else. *)
Definition host_open (h : Z) : Prop :=
  Z.testbit h 1 = true /\ Z.testbit h 2 = true /\ Z.testbit h 17 = false /\ Z.testbit h 18 = false.

#[export] Instance locked_dec h : Decision (locked h).
Proof. unfold locked. apply _. Defined.
#[export] Instance closed_dec h : Decision (closed h).
Proof. unfold closed. apply _. Defined.
#[export] Instance host_open_dec h : Decision (host_open h).
Proof. unfold host_open. apply _. Defined.

(** Access settings: all but the control-enable bit. *)
Definition same_access (h h' : Z) : Prop := forall i, i <> 3 -> Z.testbit h' i = Z.testbit h i.

Lemma locked_test h : negb (Z.land h SMM_LOCKED =? 0) = Z.testbit h 0.
Proof.
  change SMM_LOCKED with (Z.ones 1). rewrite Z.land_ones by lia. rewrite <- Z.bit0_mod.
  by destruct (Z.testbit h 0).
Qed.

Lemma wp_QncHsmmcRead (Q : Z -> msgbus -> Prop) s :
  (forall s', s'.(regs) = s.(regs) -> s'.(DeviceId) = s.(DeviceId) -> Q (hsmmc s) s') ->
  wp QncHsmmcRead Q s.
Proof.
  intros HQ. unfold QncHsmmcRead. apply (wp_port_read SpReg); [by vm_compute|by vm_compute|].
  intros s' Hr _ Hd. by apply HQ.
Qed.

Lemma wp_QncHsmmcWrite v (Q : unit -> msgbus -> Prop) s :
  hsmmc_plain ->
  (forall s', same_access v (hsmmc s') -> (forall r, r <> HSMMC -> s'.(regs) r = s.(regs) r) ->
     Q tt s') ->
  wp (QncHsmmcWrite v) Q s.
Proof.
  intros Hp HQ. eapply wp_mono; [exact (QncHsmmcWrite_run v s Hp)|].
  intros [] s' (Hregs & _ & _). fold HSMMC in Hregs. apply HQ.
  - intros i Hi. unfold hsmmc. rewrite Hregs. destruct (_ =? _); unfold replay; cbn [foldl fst snd];
      rewrite fn_lookup_insert, Hp; [|done].
    rewrite Z.lor_spec. change SMM_CTL_EN with (2 ^ 3). destruct (Z.ltb_spec i 0); [by rewrite !Z.testbit_neg_r|].
    rewrite Z.pow2_bits_eqb by lia. destruct (Z.eqb_spec 3 i); [lia|]. by rewrite orb_false_r.
  - intros r Hr. rewrite Hregs. destruct (_ =? _); unfold replay; cbn [foldl fst snd];
      rewrite ?fn_lookup_insert_ne by done; done.
Qed.

(** What the three operations do to the register. *)
Lemma wp_QNCOpenSmramRegion (Q : bool -> msgbus -> Prop) s :
  hsmmc_plain ->
  (locked (hsmmc s) -> forall s', hsmmc s' = hsmmc s -> Q false s') ->
  (~ locked (hsmmc s) -> forall s', host_open (hsmmc s') -> ~ locked (hsmmc s') -> Q true s') ->
  wp QNCOpenSmramRegion Q s.
Proof.
  intros Hp HL HU. unfold QNCOpenSmramRegion. apply wp_bind, wp_QncHsmmcRead. intros s1 E1 _.
  rewrite locked_test. unfold locked in *. destruct (Z.testbit (hsmmc s) 0) eqn:Hl.
  - apply wp_ret, HL; [done|]. unfold hsmmc. by rewrite E1.
  - apply wp_bind, wp_QncHsmmcWrite; [done|]. intros s2 Hs _. apply wp_ret, HU; [congruence| |].
    + unfold host_open. rewrite !Hs by lia. rewrite !Z.ldiff_spec, !Z.lor_spec.
      split_and!; by rewrite ?orb_true_r, ?andb_false_r.
    + rewrite Hs by lia. rewrite Z.ldiff_spec, Z.lor_spec, Hl. done.
Qed.

Lemma wp_QNCCloseSmramRegion (Q : bool -> msgbus -> Prop) s :
  hsmmc_plain ->
  (locked (hsmmc s) -> forall s', hsmmc s' = hsmmc s -> Q false s') ->
  (~ locked (hsmmc s) -> forall s', closed (hsmmc s') -> ~ locked (hsmmc s') -> Q true s') ->
  wp QNCCloseSmramRegion Q s.
Proof.
  intros Hp HL HU. unfold QNCCloseSmramRegion. apply wp_bind, wp_QncHsmmcRead. intros s1 E1 _.
  rewrite locked_test. unfold locked in *. destruct (Z.testbit (hsmmc s) 0) eqn:Hl.
  - apply wp_ret, HL; [done|]. unfold hsmmc. by rewrite E1.
  - apply wp_bind, wp_QncHsmmcWrite; [done|]. intros s2 Hs _. apply wp_ret, HU; [congruence| |].
    + unfold closed. rewrite !Hs by lia. rewrite !Z.ldiff_spec. split_and!; by rewrite ?andb_false_r.
    + rewrite Hs by lia. rewrite Z.ldiff_spec, Hl. done.
Qed.

Lemma wp_QNCLockSmramRegion (Q : unit -> msgbus -> Prop) s :
  hsmmc_plain ->
  (forall s', locked (hsmmc s') ->
     (closed (hsmmc s') <-> closed (hsmmc s)) -> (host_open (hsmmc s') <-> host_open (hsmmc s)) -> Q tt s') ->
  wp QNCLockSmramRegion Q s.
Proof.
  intros Hp HQ. unfold QNCLockSmramRegion. apply wp_bind, wp_QncHsmmcRead. intros s1 E1 _.
  apply wp_QncHsmmcWrite; [done|]. intros s2 Hs _.
  assert (Hb : forall i, i <> 3 -> i <> 0 -> Z.testbit (hsmmc s2) i = Z.testbit (hsmmc s) i).
  { intros i H3 H0. rewrite Hs, Z.lor_spec by done. change SMM_LOCKED with (2 ^ 0).
    destruct (Z.ltb_spec i 0); [by rewrite !Z.testbit_neg_r|].
    rewrite Z.pow2_bits_eqb by lia. destruct (Z.eqb_spec 0 i); [lia|]. by rewrite orb_false_r. }
  apply HQ; unfold locked, closed, host_open; rewrite ?Hb by lia; [|done|done].
  rewrite Hs, Z.lor_spec by lia. by rewrite orb_true_r.
Qed.
End SmmLib.

(** ** Descriptors *)

Record EFI_SMRAM_DESCRIPTOR := {
  PhysicalStart : Z; CpuStart : Z; PhysicalSize : Z; RegionState : Z
}.

(** The PI headers: the state flags, and the layout of a descriptor in memory. *)
Class SmramHeader := {
  EFI_SMRAM_OPEN : Z;
  EFI_SMRAM_CLOSED : Z;
  EFI_SMRAM_LOCKED : Z;
  EFI_ALLOCATED : Z;
  sizeof_EFI_SMRAM_DESCRIPTOR : Z;
  desc_bytes : EFI_SMRAM_DESCRIPTOR -> list Z
}.

(** Their documented values. *)
Class SmramHeaderOk `{SmramHeader} : Prop := {
  OPEN_val : EFI_SMRAM_OPEN = 1;
  CLOSED_val : EFI_SMRAM_CLOSED = 2;
  LOCKED_val : EFI_SMRAM_LOCKED = 4;
  ALLOCATED_val : EFI_ALLOCATED = 0x10;
  sizeof_val : sizeof_EFI_SMRAM_DESCRIPTOR = 32;
  desc_bytes_length d : Z.of_nat (length (desc_bytes d)) = sizeof_EFI_SMRAM_DESCRIPTOR
}.

(** Little-endian bytes. *)
Fixpoint le_bytes (n : nat) (x : Z) : list Z :=
  match n with
  | O => []
  | S n => Z.land x 0xFF :: le_bytes n (Z.shiftr x 8)
  end.

Lemma le_bytes_length n x : length (le_bytes n x) = n.
Proof. revert x. induction n as [|n IH]; intros x; cbn; [done|by rewrite IH]. Qed.

(** The headers as EDK II has them, for concrete runs. *)
Module PiHeader.
#[export] Instance header : SmramHeader := {|
  EFI_SMRAM_OPEN := 1; EFI_SMRAM_CLOSED := 2; EFI_SMRAM_LOCKED := 4; EFI_ALLOCATED := 0x10;
  sizeof_EFI_SMRAM_DESCRIPTOR := 32;
  desc_bytes d := le_bytes 8 d.(PhysicalStart) ++ le_bytes 8 d.(CpuStart) ++
                  le_bytes 8 d.(PhysicalSize) ++ le_bytes 8 d.(RegionState)
|}.
#[export] Instance header_ok : SmramHeaderOk.
Proof. split; try reflexivity. Qed.
End PiHeader.

(** The HOB that describes the reserved regions. *)
Record EFI_SMRAM_HOB_DESCRIPTOR_BLOCK := {
  NumberOfSmmReservedRegions : Z;
  Descriptor : list EFI_SMRAM_DESCRIPTOR
}.

Definition MAX_SMRAM_RANGES : Z := 4.

Definition zero_desc : EFI_SMRAM_DESCRIPTOR :=
  {| PhysicalStart := 0; CpuStart := 0; PhysicalSize := 0; RegionState := 0 |}.

(** [RegionState] changed in one descriptor. *)
Definition map_state (f : Z -> Z) (d : EFI_SMRAM_DESCRIPTOR) : EFI_SMRAM_DESCRIPTOR :=
  {| PhysicalStart := d.(PhysicalStart); CpuStart := d.(CpuStart); PhysicalSize := d.(PhysicalSize);
     RegionState := f d.(RegionState) |}.

(** [CopyMem] of [n] bytes from the start of one object to the start of another: stops when either
    object is shorter. *)
Definition CopyMem (dst src : list Z) (n : Z) : option (list Z) :=
  if (n <=? Z.of_nat (length src)) && (n <=? Z.of_nat (length dst))
  then Some (take (Z.to_nat n) src ++ drop (Z.to_nat n) dst) else None.

(** ** The state of an SMM access driver: its private data, and the hardware *)

Record driver (D : Type) := { data : D; hw : msgbus }.
Arguments data {D} _.
Arguments hw {D} _.

Definition on_hw {D A} (m : M msgbus A) : M (driver D) A := fun s =>
  match m s.(hw) with Some (a, b) => Some (a, {| data := s.(data); hw := b |}) | None => None end.

Definition update {D} (f : D -> D) : M (driver D) unit :=
  modify (fun s => {| data := f s.(data); hw := s.(hw) |}).

Lemma wp_on_hw {D A} (m : M msgbus A) (Q : A -> driver D -> Prop) s :
  wp m (fun a b => Q a {| data := s.(data); hw := b |}) s.(hw) -> wp (on_hw m) Q s.
Proof.
  intros (a & b & Hm & HQ). exists a, {| data := s.(data); hw := b |}. unfold on_hw. by rewrite Hm.
Qed.
