(* ===== verification/SmmAccessDxe.v ===== *)
(** * The SMM access protocol driver

    Models [QuarkNorthCluster/Smm/Dxe/SmmAccessDxe/SmmAccessDriver.c]: the driver that lets boot
    services open, close and lock SMRAM. Its private data and the chipset's register ([Smram]) are
    the two halves of its state; the theorems relate them over every sequence of calls. *)

From S2P Require Import Prelude QNCAccess Smram.
#[local] Open Scope Z_scope.

(** [SMM_ACCESS_PRIVATE_DATA]: what the operations read and change. *)
Record private_data := {
  NumberRegions : Z;
  SmramDesc : list EFI_SMRAM_DESCRIPTOR;
  TsegSize : Z;
  SMMRegionState : Z;
  LockState : bool;
  OpenState : bool
}.

(** The driver's private data, and the hardware. *)
Definition smm : Type := driver private_data.

Definition set_region_state (f : Z -> Z) (d : private_data) : private_data :=
  {| NumberRegions := d.(NumberRegions); SmramDesc := d.(SmramDesc); TsegSize := d.(TsegSize);
     SMMRegionState := f d.(SMMRegionState); LockState := d.(LockState); OpenState := d.(OpenState) |}.
Definition set_desc (l : list EFI_SMRAM_DESCRIPTOR) (d : private_data) : private_data :=
  {| NumberRegions := d.(NumberRegions); SmramDesc := l; TsegSize := d.(TsegSize);
     SMMRegionState := d.(SMMRegionState); LockState := d.(LockState); OpenState := d.(OpenState) |}.
Definition set_open (b : bool) (d : private_data) : private_data :=
  {| NumberRegions := d.(NumberRegions); SmramDesc := d.(SmramDesc); TsegSize := d.(TsegSize);
     SMMRegionState := d.(SMMRegionState); LockState := d.(LockState); OpenState := b |}.
Definition set_lock (b : bool) (d : private_data) : private_data :=
  {| NumberRegions := d.(NumberRegions); SmramDesc := d.(SmramDesc); TsegSize := d.(TsegSize);
     SMMRegionState := d.(SMMRegionState); LockState := b; OpenState := d.(OpenState) |}.

Section Driver.
Context {MB : MessageBus} {SH : SmramHeader}.

(** The loop of [SyncRegionState2SmramDesc]: [n] regions from [Index] on. *)
Fixpoint sync_loop (OrAnd : bool) (Value : Z) (n Index : nat) (SmramDesc : list EFI_SMRAM_DESCRIPTOR) :
    option (list EFI_SMRAM_DESCRIPTOR) :=
  match n with
  | O => Some SmramDesc
  | S n =>
      d ← SmramDesc !! Index;
      let d := map_state (fun st => if OrAnd then Z.lor st Value else Z.land st Value) d in
      sync_loop OrAnd Value n (S Index) (<[Index := d]> SmramDesc)
  end.

Definition SyncRegionState2SmramDesc (OrAnd : bool) (Value : Z) : M smm unit :=
  s ← get;
  l ← lift (sync_loop OrAnd Value (Z.to_nat s.(data).(NumberRegions)) 0 s.(data).(SmramDesc));
  update (set_desc l).

(** The loop of the entry point that copies the descriptors. *)
Fixpoint desc_loop (Block : EFI_SMRAM_HOB_DESCRIPTOR_BLOCK) (n Index : nat)
    (SmramDesc : list EFI_SMRAM_DESCRIPTOR) : option (list EFI_SMRAM_DESCRIPTOR) :=
  match n with
  | O => Some SmramDesc
  | S n =>
      d ← Block.(Descriptor) !! Index;
      _ ← SmramDesc !! Index;
      desc_loop Block n (S Index) (<[Index := d]> SmramDesc)
  end.

(** The statuses are those of the boot services it calls: locating the root bridge protocol,
    installing its own protocol, creating the ready-to-boot event. *)
Definition SmmAccessDriverEntryPoint (LocateStatus InstallStatus EventStatus : EFI_STATUS)
    (DescriptorBlock : EFI_SMRAM_HOB_DESCRIPTOR_BLOCK) : M smm EFI_STATUS :=
  _ ← ASSERT (negb (EFI_ERROR LocateStatus));
  _ ← ASSERT (DescriptorBlock.(NumberOfSmmReservedRegions) <=? MAX_SMRAM_RANGES);
  let n := Z.to_nat DescriptorBlock.(NumberOfSmmReservedRegions) in
  l ← lift (desc_loop DescriptorBlock n 0 (replicate (Z.to_nat MAX_SMRAM_RANGES) zero_desc));
  _ ← update (fun _ => {| NumberRegions := Z.of_nat n; SmramDesc := l; TsegSize := 0;
                          SMMRegionState := EFI_SMRAM_CLOSED; LockState := false; OpenState := false |});
  _ ← ASSERT (negb (EFI_ERROR InstallStatus));
  last ← lift (match n with O => None | S k => l !! k end);
  _ ← update (fun d => {| NumberRegions := d.(NumberRegions); SmramDesc := d.(SmramDesc);
                          TsegSize := u8 last.(PhysicalSize); SMMRegionState := d.(SMMRegionState);
                          LockState := d.(LockState); OpenState := d.(OpenState) |});
  _ ← ASSERT (negb (EFI_ERROR EventStatus));
  mret EFI_SUCCESS.

Definition Open : M smm EFI_STATUS :=
  s ← get;
  if negb (Z.land s.(data).(SMMRegionState) EFI_SMRAM_LOCKED =? 0) then mret EFI_DEVICE_ERROR
  else
    ok ← on_hw QNCOpenSmramRegion;
    if negb ok then
      _ ← update (set_region_state (fun x => Z.lor x EFI_SMRAM_LOCKED));
      mret EFI_DEVICE_ERROR
    else
      _ ← update (set_region_state (fun x => clear x (Z.lor EFI_SMRAM_CLOSED EFI_ALLOCATED)));
      _ ← SyncRegionState2SmramDesc false (u32 (Z.lnot (Z.lor EFI_SMRAM_CLOSED EFI_ALLOCATED)));
      _ ← update (set_region_state (fun x => Z.lor x EFI_SMRAM_OPEN));
      _ ← SyncRegionState2SmramDesc true EFI_SMRAM_OPEN;
      _ ← update (set_open true);
      mret EFI_SUCCESS.

(** The loop of [Close] that finds out whether any region is still open. *)
Fixpoint open_loop (SmramDesc : list EFI_SMRAM_DESCRIPTOR) (n Index : nat) (OpenState : bool) : option bool :=
  match n with
  | O => Some OpenState
  | S n =>
      d ← SmramDesc !! Index;
      open_loop SmramDesc n (S Index)
        (if Z.land d.(RegionState) EFI_SMRAM_OPEN =? EFI_SMRAM_OPEN then true else OpenState)
  end.

Definition Close : M smm EFI_STATUS :=
  s ← get;
  if negb (Z.land s.(data).(SMMRegionState) EFI_SMRAM_LOCKED =? 0) then mret EFI_DEVICE_ERROR
  else if negb (Z.land s.(data).(SMMRegionState) EFI_SMRAM_CLOSED =? 0) then mret EFI_DEVICE_ERROR
  else
    ok ← on_hw QNCCloseSmramRegion;
    if negb ok then
      _ ← update (set_region_state (fun x => Z.lor x EFI_SMRAM_LOCKED));
      mret EFI_DEVICE_ERROR
    else
      _ ← update (set_region_state (fun x => clear x EFI_SMRAM_OPEN));
      _ ← SyncRegionState2SmramDesc false (u32 (Z.lnot EFI_SMRAM_OPEN));
      _ ← update (set_region_state (fun x => Z.lor x (Z.lor EFI_SMRAM_CLOSED EFI_ALLOCATED)));
      _ ← SyncRegionState2SmramDesc true (Z.lor EFI_SMRAM_CLOSED EFI_ALLOCATED);
      s ← get;
      OpenState ← lift (open_loop s.(data).(SmramDesc) (Z.to_nat s.(data).(NumberRegions)) 0 false);
      _ ← update (set_open OpenState);
      mret EFI_SUCCESS.

Definition Lock : M smm EFI_STATUS :=
  s ← get;
  if s.(data).(OpenState) then mret EFI_DEVICE_ERROR
  else
    _ ← update (set_region_state (fun x => Z.lor x EFI_SMRAM_LOCKED));
    _ ← SyncRegionState2SmramDesc true EFI_SMRAM_LOCKED;
    _ ← update (set_lock true);
    _ ← on_hw QNCLockSmramRegion;
    mret EFI_SUCCESS.

(** The caller's buffer [SmramMap] and its size: the status, the size it is set to, and the buffer
    afterwards. *)
Definition GetCapabilities (SmramMapSize : Z) (SmramMap : list Z) : M smm (EFI_STATUS * Z * list Z) :=
  s ← get;
  let BufferSize := u32 (s.(data).(NumberRegions) * sizeof_EFI_SMRAM_DESCRIPTOR) in
  if SmramMapSize <? BufferSize then mret (EFI_BUFFER_TOO_SMALL, BufferSize, SmramMap)
  else
    SmramMap ← lift (CopyMem SmramMap (concat (desc_bytes <$> s.(data).(SmramDesc))) SmramMapSize);
    mret (EFI_SUCCESS, BufferSize, SmramMap).
End Driver.

(** ** What the operations do *)

Section Effects.
Context {MB : MessageBus} {SH : SmramHeader} {SHO : SmramHeaderOk}.
Implicit Types (s : smm) (d : private_data) (l : list EFI_SMRAM_DESCRIPTOR).

(** The regions that the driver manages fit into its array. *)
Definition wf d : Prop := (Z.to_nat d.(NumberRegions) <= length d.(SmramDesc))%nat.

(** [f] on the state of the first [n] regions. *)
Definition map_regions (f : Z -> Z) (n : nat) l : list EFI_SMRAM_DESCRIPTOR :=
  (map_state f <$> take n l) ++ drop n l.

Definition on_regions (f : Z -> Z) d : private_data :=
  set_desc (map_regions f (Z.to_nat d.(NumberRegions)) d.(SmramDesc)) d.

Lemma sync_loop_eq (OrAnd : bool) v n pre l :
  (n <= length l)%nat ->
  sync_loop OrAnd v n (length pre) (pre ++ l) =
  Some (pre ++ map_regions (fun st => if OrAnd then Z.lor st v else Z.land st v) n l).
Proof.
  revert pre l. induction n as [|n IH]; intros pre l Hn; [by rewrite app_nil_r || done|].
  destruct l as [|d l]; [cbn in Hn; lia|]. cbn [sync_loop]. rewrite list_lookup_middle by done.
  rewrite some_bind, insert_app_r_alt, Nat.sub_diag by lia. set (d' := map_state _ d).
  change (<[0%nat := d']> (d :: l)) with (d' :: l).
  specialize (IH (pre ++ [d']) l). rewrite length_app in IH. cbn [length] in IH.
  replace (length pre + 1)%nat with (S (length pre)) in IH by lia.
  rewrite <- app_assoc in IH. cbn [app] in IH. rewrite IH by (cbn in Hn; lia).
  by rewrite <- app_assoc.
Qed.

Lemma wp_Sync (OrAnd : bool) v (Q : unit -> smm -> Prop) s :
  wf s.(data) ->
  Q tt {| data := on_regions (fun st => if OrAnd then Z.lor st v else Z.land st v) s.(data);
          hw := s.(hw) |} ->
  wp (SyncRegionState2SmramDesc OrAnd v) Q s.
Proof.
  intros Hwf HQ. unfold SyncRegionState2SmramDesc. apply wp_bind, wp_get, wp_bind.
  eapply wp_lift; [exact (sync_loop_eq OrAnd v _ [] _ Hwf)|]. apply wp_modify, HQ.
Qed.

Lemma map_regions_length f n l : length (map_regions f n l) = length l.
Proof. unfold map_regions. rewrite length_app, length_fmap, length_take, length_drop. lia. Qed.

Lemma wf_on_regions f d : wf d -> wf (on_regions f d).
Proof. unfold wf, on_regions. cbn. by rewrite map_regions_length. Qed.

(** The state of a region after a change of all. *)
Lemma map_regions_lookup f n l i x :
  map_regions f n l !! i = Some x ->
  exists y, l !! i = Some y /\ x.(RegionState) = if decide (i < n)%nat then f y.(RegionState) else y.(RegionState).
Proof.
  unfold map_regions. rewrite lookup_app, list_lookup_fmap. destruct (decide (i < n)%nat) as [Hi|Hi].
  - rewrite lookup_take_lt by done. destruct (l !! i) as [y|] eqn:E; cbn.
    + intros [= <-]. by exists y.
    + rewrite lookup_drop, length_fmap, length_take, lookup_ge_None_2; [done|].
      apply lookup_ge_None_1 in E. lia.
  - rewrite lookup_take_ge by lia. cbn. rewrite lookup_drop, length_fmap, length_take. intros Hx.
    destruct (Nat.le_gt_cases n (length l)).
    + replace (n + (i - n `min` length l))%nat with i in Hx by lia. by exists x.
    + rewrite lookup_ge_None_2 in Hx by lia. done.
Qed.

(** The state of the driver after a successful call. *)
Definition opened d : private_data :=
  set_open true (on_regions (fun x => Z.lor (Z.land x 0xFFFFFFED) 1)
    (set_region_state (fun x => Z.lor (clear x 0x12) 1) d)).
Definition closed_data d : private_data :=
  set_open false (on_regions (fun x => Z.lor (Z.land x 0xFFFFFFFE) 0x12)
    (set_region_state (fun x => Z.lor (clear x 1) 0x12) d)).
Definition locked_data d : private_data :=
  set_lock true (on_regions (fun x => Z.lor x 4) (set_region_state (fun x => Z.lor x 4) d)).
Definition mark_locked : private_data -> private_data := set_region_state (fun x => Z.lor x 4).

Lemma map_regions_twice f g n l : map_regions g n (map_regions f n l) = map_regions (fun x => g (f x)) n l.
Proof.
  unfold map_regions. destruct (Nat.le_gt_cases n (length l)) as [Hn|Hn].
  - rewrite take_app_le, drop_app_ge by (rewrite length_fmap, length_take; lia).
    rewrite length_fmap, length_take. replace (n - n `min` length l)%nat with 0%nat by lia.
    rewrite drop_0. f_equal. rewrite take_ge by (rewrite length_fmap, length_take; lia).
    by rewrite <- list_fmap_compose.
  - rewrite (drop_ge l) by lia. rewrite app_nil_r. rewrite take_ge, drop_ge by (rewrite length_fmap, length_take; lia).
    rewrite !app_nil_r. by rewrite <- list_fmap_compose.
Qed.

Lemma regions_twice f g a b d :
  on_regions g (set_region_state b (on_regions f (set_region_state a d))) =
  on_regions (fun x => g (f x)) (set_region_state (fun x => b (a x)) d).
Proof. unfold on_regions. cbn. by rewrite map_regions_twice. Qed.

Lemma wp_Open (Q : EFI_STATUS -> smm -> Prop) s :
  hsmmc_plain -> wf s.(data) ->
  (Z.testbit s.(data).(SMMRegionState) 2 = true -> Q EFI_DEVICE_ERROR s) ->
  (locked (hsmmc s.(hw)) -> forall h, hsmmc h = hsmmc s.(hw) ->
     Q EFI_DEVICE_ERROR {| data := mark_locked s.(data); hw := h |}) ->
  (Z.testbit s.(data).(SMMRegionState) 2 = false -> ~ locked (hsmmc s.(hw)) ->
     forall h, host_open (hsmmc h) -> ~ locked (hsmmc h) ->
     Q EFI_SUCCESS {| data := opened s.(data); hw := h |}) ->
  wp Open Q s.
Proof.
  intros Hp Hwf H1 H2 H3. unfold Open. apply wp_bind, wp_get.
  rewrite LOCKED_val, OPEN_val, CLOSED_val, ALLOCATED_val. change 4 with (2 ^ 2). rewrite flag_test by lia.
  destruct (Z.testbit (SMMRegionState (data s)) 2) eqn:Hl; [by apply wp_ret, H1|].
  apply wp_bind, wp_on_hw, wp_QNCOpenSmramRegion; [done| |].
  - intros Hlk h Eh. cbn [negb]. apply wp_bind, wp_modify, wp_ret. by apply H2.
  - intros Hlk h Ho Hu. cbn [negb]. apply wp_bind, wp_modify, wp_bind, wp_Sync; [done|].
    apply wp_bind, wp_modify, wp_bind, wp_Sync; [by apply wf_on_regions|].
    apply wp_bind, wp_modify, wp_ret. specialize (H3 eq_refl Hlk h Ho Hu).
    unfold opened in H3.
    rewrite <- (regions_twice (fun x => Z.land x 0xFFFFFFED) (fun x => Z.lor x 1)
      (fun x => clear x 0x12) (fun x => Z.lor x 1)) in H3. exact H3.
Qed.

Lemma open_loop_closed f n l k :
  (k + n <= length l)%nat -> (forall x, Z.testbit (f x) 0 = false) ->
  (forall i, (k <= i < k + n)%nat -> exists y, l !! i = Some (map_state f y)) ->
  open_loop l n k false = Some false.
Proof.
  intros Hk Hf. revert k Hk. induction n as [|n IH]; intros k Hk Hl; [done|]. cbn [open_loop].
  destruct (Hl k) as [y Hy]; [lia|]. rewrite Hy, some_bind. cbn [map_state RegionState].
  replace (Z.land (f (RegionState y)) EFI_SMRAM_OPEN =? EFI_SMRAM_OPEN) with false.
  - apply IH; [lia|]. intros i Hi. apply Hl. lia.
  - symmetry. rewrite OPEN_val. apply Z.eqb_neq. intros E. apply (f_equal (fun x => Z.testbit x 0)) in E.
    rewrite Z.land_spec, Hf in E. done.
Qed.

Lemma wp_Close (Q : EFI_STATUS -> smm -> Prop) s :
  hsmmc_plain -> wf s.(data) ->
  (Z.testbit s.(data).(SMMRegionState) 2 = true \/ Z.testbit s.(data).(SMMRegionState) 1 = true ->
     Q EFI_DEVICE_ERROR s) ->
  (locked (hsmmc s.(hw)) -> forall h, hsmmc h = hsmmc s.(hw) ->
     Q EFI_DEVICE_ERROR {| data := mark_locked s.(data); hw := h |}) ->
  (Z.testbit s.(data).(SMMRegionState) 2 = false -> ~ locked (hsmmc s.(hw)) ->
     forall h, closed (hsmmc h) -> ~ locked (hsmmc h) ->
     Q EFI_SUCCESS {| data := closed_data s.(data); hw := h |}) ->
  wp Close Q s.
Proof.
  intros Hp Hwf H1 H2 H3. unfold Close. apply wp_bind, wp_get.
  rewrite LOCKED_val, OPEN_val, CLOSED_val, ALLOCATED_val. change 4 with (2 ^ 2). rewrite flag_test by lia.
  change (Z.land (SMMRegionState (data s)) 2) with (Z.land (SMMRegionState (data s)) (2 ^ 1)).
  rewrite flag_test by lia.
  destruct (Z.testbit (SMMRegionState (data s)) 2) eqn:Hl; [by apply wp_ret, H1; left|].
  destruct (Z.testbit (SMMRegionState (data s)) 1) eqn:Hc; [by apply wp_ret, H1; right|].
  apply wp_bind, wp_on_hw, wp_QNCCloseSmramRegion; [done| |].
  - intros Hlk h Eh. cbn [negb]. apply wp_bind, wp_modify, wp_ret. by apply H2.
  - intros Hlk h Ho Hu. cbn [negb]. apply wp_bind, wp_modify, wp_bind, wp_Sync; [done|].
    apply wp_bind, wp_modify, wp_bind, wp_Sync; [by apply wf_on_regions|].
    specialize (H3 eq_refl Hlk h Ho Hu). unfold closed_data in H3.
    pose proof (regions_twice (fun x => Z.land x 0xFFFFFFFE) (fun x => Z.lor x 0x12)
      (fun x => clear x 1) (fun x => Z.lor x 0x12) (data s)) as E. cbn beta in E. rewrite <- E in H3.
    apply wp_bind, wp_get, wp_bind. eapply wp_lift; [|apply wp_bind, wp_modify, wp_ret; exact H3].
    match goal with |- open_loop (SmramDesc ?d) _ _ _ = _ =>
      replace (SmramDesc d) with (SmramDesc (on_regions (fun x => Z.lor (Z.land x 0xFFFFFFFE) 0x12) (data s)))
        by (apply (f_equal SmramDesc) in E; symmetry; exact E) end.
    change (open_loop (map_regions (fun x => Z.lor (Z.land x 0xFFFFFFFE) 0x12)
      (Z.to_nat (NumberRegions (data s))) (SmramDesc (data s))) (Z.to_nat (NumberRegions (data s))) 0 false = Some false).
    eapply (open_loop_closed (fun x => Z.lor (Z.land x 0xFFFFFFFE) 0x12)).
    + rewrite map_regions_length. exact Hwf.
    + intros x. rewrite Z.lor_spec, Z.land_spec. by rewrite andb_false_r.
    + intros i Hi. unfold map_regions, wf in *. rewrite lookup_app_l by (rewrite length_fmap, length_take; lia).
      rewrite list_lookup_fmap, lookup_take_lt by lia.
      destruct (lookup_lt_is_Some_2 (SmramDesc (data s)) i) as [y ->]; [lia|]. by exists y.
Qed.

Lemma wp_Lock (Q : EFI_STATUS -> smm -> Prop) s :
  hsmmc_plain -> wf s.(data) ->
  (s.(data).(OpenState) = true -> Q EFI_DEVICE_ERROR s) ->
  (s.(data).(OpenState) = false -> forall h, locked (hsmmc h) ->
     (closed (hsmmc h) <-> closed (hsmmc s.(hw))) -> Q EFI_SUCCESS {| data := locked_data s.(data); hw := h |}) ->
  wp Lock Q s.
Proof.
  intros Hp Hwf H1 H2. unfold Lock. rewrite LOCKED_val. apply wp_bind, wp_get.
  destruct (OpenState (data s)); [by apply wp_ret, H1|].
  apply wp_bind, wp_modify, wp_bind, wp_Sync; [done|]. apply wp_bind, wp_modify, wp_bind, wp_on_hw.
  apply wp_QNCLockSmramRegion; [done|]. intros h Hl Hc _. apply wp_ret, H2; done.
Qed.

(** ** Sequences of calls *)

(** The protocol's calls, and another agent (such as the PEI driver) that locks the chipset's
    register on its own. *)
Inductive call := COpen | CClose | CLock | COtherLock.

Definition exec (k : call) : M smm EFI_STATUS :=
  match k with
  | COpen => Open | CClose => Close | CLock => Lock
  | COtherLock => _ ← on_hw QNCLockSmramRegion; mret EFI_SUCCESS
  end.

Fixpoint exec_all (ks : list call) : M smm (list EFI_STATUS) :=
  match ks with
  | [] => mret []
  | k :: ks => st ← exec k; sts ← exec_all ks; mret (st :: sts)
  end.

(** The private data and the register agree. *)
Record coherent s : Prop := {
  coh_wf : wf s.(data);
  coh_open : Z.testbit s.(data).(SMMRegionState) 0 = s.(data).(OpenState);
  coh_closed : Z.testbit s.(data).(SMMRegionState) 1 = negb s.(data).(OpenState);
  coh_hw : if s.(data).(OpenState) then host_open (hsmmc s.(hw)) else closed (hsmmc s.(hw));
  coh_locked : Z.testbit s.(data).(SMMRegionState) 2 = true -> locked (hsmmc s.(hw));
  coh_lock : s.(data).(LockState) = true ->
    s.(data).(OpenState) = false /\ Z.testbit s.(data).(SMMRegionState) 2 = true;
  coh_regions : forall i (d : EFI_SMRAM_DESCRIPTOR), s.(data).(SmramDesc) !! i = Some d -> (i < Z.to_nat s.(data).(NumberRegions))%nat ->
    Z.testbit d.(RegionState) 0 = s.(data).(OpenState) /\
    (s.(data).(LockState) = true -> Z.testbit d.(RegionState) 2 = true)
}.

(** Compute the fields of a changed state. *)
Ltac smm_simp :=
  unfold opened, closed_data, locked_data, mark_locked, on_regions, set_open, set_lock, set_desc,
    set_region_state;
  cbn [data hw NumberRegions SmramDesc TsegSize SMMRegionState LockState OpenState].

Lemma coherent_mark_locked s h :
  coherent s -> hsmmc h = hsmmc s.(hw) -> locked (hsmmc s.(hw)) ->
  coherent {| data := mark_locked s.(data); hw := h |}.
Proof.
  intros [Hwf Ho Hc Hh Hl Hk Hr] Eh Hlk. split; smm_simp; rewrite ?Z.lor_spec, ?Eh; [done| | |done|done| |done].
  - by rewrite Ho, orb_false_r.
  - by rewrite Hc, orb_false_r.
  - intros H. destruct (Hk H) as [? ->]. by rewrite orb_true_l.
Qed.

Lemma coherent_opened s h :
  coherent s -> Z.testbit s.(data).(SMMRegionState) 2 = false -> host_open (hsmmc h) -> ~ locked (hsmmc h) ->
  coherent {| data := opened s.(data); hw := h |}.
Proof.
  intros [Hwf Ho Hc Hh Hl Hk Hr] H2 Hopen Hu. split; smm_simp.
  - unfold wf. smm_simp. by rewrite map_regions_length.
  - by rewrite Z.lor_spec, orb_true_r.
  - by rewrite Z.lor_spec, Z.ldiff_spec, andb_false_r.
  - done.
  - rewrite Z.lor_spec, Z.ldiff_spec, H2. done.
  - intros H. destruct (Hk H) as [_ H2']. congruence.
  - intros i d Hd Hi. apply map_regions_lookup in Hd as (y & Hy & ->). rewrite decide_True by done.
    split; [by rewrite Z.lor_spec, orb_true_r|]. intros H. destruct (Hk H) as [_ H2']. congruence.
Qed.

Lemma coherent_closed_data s h :
  coherent s -> Z.testbit s.(data).(SMMRegionState) 2 = false -> closed (hsmmc h) -> ~ locked (hsmmc h) ->
  coherent {| data := closed_data s.(data); hw := h |}.
Proof.
  intros [Hwf Ho Hc Hh Hl Hk Hr] H2 Hcl Hu. split; smm_simp.
  - unfold wf. smm_simp. by rewrite map_regions_length.
  - by rewrite Z.lor_spec, Z.ldiff_spec, andb_false_r.
  - by rewrite Z.lor_spec, orb_true_r.
  - done.
  - rewrite Z.lor_spec, Z.ldiff_spec, H2. done.
  - intros H. destruct (Hk H) as [_ H2']. congruence.
  - intros i d Hd Hi. apply map_regions_lookup in Hd as (y & Hy & ->). rewrite decide_True by done.
    split; [by rewrite Z.lor_spec, Z.land_spec, andb_false_r|]. intros H. destruct (Hk H) as [_ H2']. congruence.
Qed.

Lemma coherent_locked_data s h :
  coherent s -> s.(data).(OpenState) = false -> locked (hsmmc h) -> closed (hsmmc h) ->
  coherent {| data := locked_data s.(data); hw := h |}.
Proof.
  intros [Hwf Ho Hc Hh Hl Hk Hr] Hoff Hlk Hcl. split; smm_simp; rewrite ?Z.lor_spec.
  - unfold wf. smm_simp. by rewrite map_regions_length.
  - by rewrite Ho, orb_false_r.
  - by rewrite Hc, orb_false_r.
  - by rewrite Hoff.
  - done.
  - by rewrite orb_true_r.
  - intros i d Hd Hi. apply map_regions_lookup in Hd as (y & Hy & ->). rewrite decide_True by done.
    rewrite !Z.lor_spec, orb_true_r. destruct (Hr i y Hy Hi) as [-> _]. by rewrite orb_false_r.
Qed.

Lemma coherent_other_lock s h :
  coherent s -> locked (hsmmc h) -> (closed (hsmmc h) <-> closed (hsmmc s.(hw))) ->
  (host_open (hsmmc h) <-> host_open (hsmmc s.(hw))) -> coherent {| data := s.(data); hw := h |}.
Proof.
  intros [Hwf Ho Hc Hh Hl Hk Hr] Hlk Hcl Hop. split; smm_simp; try done.
  destruct (OpenState (data s)); [by apply Hop|by apply Hcl].
Qed.

(** Every call returns, keeps the two halves of the state in agreement, and never undoes a lock. *)
Lemma wp_exec k s :
  hsmmc_plain -> coherent s ->
  wp (exec k) (fun st s' => coherent s' /\
    (locked (hsmmc s.(hw)) -> locked (hsmmc s'.(hw)) /\ (k = COpen \/ k = CClose -> st = EFI_DEVICE_ERROR)) /\
    (s.(data).(LockState) = true -> s'.(data).(LockState) = true)) s.
Proof.
  intros Hp Hc. pose proof (coh_wf _ Hc) as Hwf. destruct k; cbn [exec].
  - apply wp_Open; [done|done| | |].
    + intros _. by split_and!.
    + intros Hl h Eh. cbn. rewrite Eh. split; [by apply coherent_mark_locked|done].
    + intros H2 Hu h Ho Hu'. split; [by apply coherent_opened|]. done.
  - apply wp_Close; [done|done| | |].
    + intros _. by split_and!.
    + intros Hl h Eh. cbn. rewrite Eh. split; [by apply coherent_mark_locked|done].
    + intros H2 Hu h Ho Hu'. split; [by apply coherent_closed_data|]. done.
  - apply wp_Lock; [done|done| |].
    + intros _. split_and!; [done|intros Hl; split; [done|by intros [|]]|done].
    + intros Hoff h Hl Hcl. pose proof (coh_hw _ Hc) as Hh. rewrite Hoff in Hh.
      split; [apply coherent_locked_data; [done|done|done|by apply Hcl]|].
      cbn. split; [|done]. intros _. split; [done|by intros [|]].
  - apply wp_bind, wp_on_hw, wp_QNCLockSmramRegion; [done|]. intros h Hl Hcl Hop. apply wp_ret.
    split; [by apply coherent_other_lock|]. cbn. split; [|done]. intros _. split; [done|by intros [|]].
Qed.

Lemma wp_exec_all ks s :
  hsmmc_plain -> coherent s ->
  wp (exec_all ks) (fun sts s' => coherent s' /\ length sts = length ks /\
    (locked (hsmmc s.(hw)) -> locked (hsmmc s'.(hw)) /\
       forall i k st, ks !! i = Some k -> sts !! i = Some st -> k = COpen \/ k = CClose -> st = EFI_DEVICE_ERROR) /\
    (s.(data).(LockState) = true -> s'.(data).(LockState) = true)) s.
Proof.
  intros Hp. revert s. induction ks as [|k ks IH]; intros s Hc; cbn [exec_all].
  - apply wp_ret. split_and!; [done|done| |done]. intros Hl. split; [done|]. intros i k st Hk. by rewrite lookup_nil in Hk.
  - apply wp_bind. eapply wp_mono; [by apply wp_exec|]. intros st s1 (Hc1 & Hl1 & Hk1).
    apply wp_bind. eapply wp_mono; [by apply IH|]. intros sts s2 (Hc2 & Hlen & Hl2 & Hk2). apply wp_ret.
    split_and!; [done|cbn; by rewrite Hlen| |by auto]. intros Hl. destruct (Hl1 Hl) as [Hl1' He1].
    destruct (Hl2 Hl1') as [Hl2' He2]. split; [done|]. intros [|i] k' st' Hk' Hst'; cbn in *.
    + injection Hk' as <-. injection Hst' as <-. exact He1.
    + by eapply He2.
Qed.

(** The entry point, where the services it calls succeed. *)
Lemma desc_loop_eq Block n pre l :
  (length pre + n <= length Block.(Descriptor))%nat -> (n <= length l)%nat ->
  desc_loop Block n (length pre) (pre ++ l) =
  Some (pre ++ take n (drop (length pre) Block.(Descriptor)) ++ drop n l).
Proof.
  revert pre l. induction n as [|n IH]; intros pre l Hb Hn; [done|].
  destruct l as [|x l]; [cbn in Hn; lia|]. cbn [desc_loop length] in *.
  destruct (lookup_lt_is_Some_2 (Descriptor Block) (length pre)) as [d Hd]; [lia|].
  rewrite Hd, some_bind, list_lookup_middle, some_bind by done. rewrite insert_app_r_alt, Nat.sub_diag by lia.
  change (<[0%nat := d]> (x :: l)) with (d :: l). specialize (IH (pre ++ [d]) l).
  rewrite length_app in IH. cbn [length] in IH. replace (length pre + 1)%nat with (S (length pre)) in IH by lia.
  rewrite <- app_assoc in IH. cbn [app] in IH. rewrite IH by lia. rewrite (drop_S _ _ _ Hd).
  cbn [take drop app]. by rewrite <- app_assoc.
Qed.

(** A HOB that the driver accepts: between one and four regions, none of them marked open. *)
Definition block_ok (Block : EFI_SMRAM_HOB_DESCRIPTOR_BLOCK) : Prop :=
  1 <= Block.(NumberOfSmmReservedRegions) <= MAX_SMRAM_RANGES /\
  Block.(NumberOfSmmReservedRegions) <= Z.of_nat (length Block.(Descriptor)) /\
  Forall (fun d : EFI_SMRAM_DESCRIPTOR => Z.testbit d.(RegionState) 0 = false) Block.(Descriptor).

Lemma wp_EntryPoint Block (Q : EFI_STATUS -> smm -> Prop) s :
  block_ok Block -> closed (hsmmc s.(hw)) ->
  (forall s', coherent s' -> s'.(hw) = s.(hw) -> s'.(data).(NumberRegions) = Block.(NumberOfSmmReservedRegions) ->
     take (Z.to_nat Block.(NumberOfSmmReservedRegions)) s'.(data).(SmramDesc) =
       take (Z.to_nat Block.(NumberOfSmmReservedRegions)) Block.(Descriptor) ->
     s'.(data).(LockState) = false -> Q EFI_SUCCESS s') ->
  wp (SmmAccessDriverEntryPoint EFI_SUCCESS EFI_SUCCESS EFI_SUCCESS Block) Q s.
Proof.
  intros (Hn & Hlen & Hst) Hcl HQ. unfold MAX_SMRAM_RANGES in Hn. unfold SmmAccessDriverEntryPoint.
  apply wp_bind, wp_assert; [done|]. apply wp_bind, wp_assert; [unfold MAX_SMRAM_RANGES; lia|].
  set (n := Z.to_nat (NumberOfSmmReservedRegions Block)) in *.
  set (ds := take n (Descriptor Block)).
  assert (Hds : length ds = n) by (unfold ds; rewrite length_take; lia).
  apply wp_bind. eapply wp_lift.
  { apply (desc_loop_eq Block n [] (replicate (Z.to_nat MAX_SMRAM_RANGES) zero_desc)); cbn [length];
      rewrite ?length_replicate; unfold MAX_SMRAM_RANGES; lia. }
  cbn [app length drop]. rewrite drop_0. fold ds. set (l := ds ++ _).
  assert (Hl : length l = 4%nat).
  { unfold l. rewrite length_app, Hds, length_drop, length_replicate. unfold MAX_SMRAM_RANGES. lia. }
  destruct (lookup_lt_is_Some_2 l (n - 1)) as [last Hlast]; [lia|].
  apply wp_bind, wp_modify, wp_bind, wp_assert; [done|]. apply wp_bind, (wp_lift _ last).
  { destruct n as [|k] eqn:En; [lia|]. by rewrite Nat.sub_1_r in Hlast. }
  apply wp_bind, wp_modify, wp_bind, wp_assert; [done|]. apply wp_ret.
  assert (Htake : take n l = ds) by (unfold l; rewrite take_app_le, take_ge by lia; done).
  apply HQ; cbn; [|done|unfold n; lia|exact Htake|done].
  split; smm_simp; [unfold wf; smm_simp; rewrite Nat2Z.id; lia|by rewrite CLOSED_val|by rewrite CLOSED_val|done| |done|].
  - rewrite CLOSED_val. done.
  - intros i d Hd Hi. rewrite Nat2Z.id in Hi. split; [|done].
    assert (Hds' : ds !! i = Some d) by (unfold l in Hd; rewrite lookup_app_l in Hd by lia; done).
    unfold ds in Hds'. rewrite lookup_take_lt in Hds' by lia. by eapply Forall_lookup_1 in Hst.
Qed.
End Effects.

Section Capabilities.
Context {SH : SmramHeader} {SHO : SmramHeaderOk}.
Implicit Types l : list EFI_SMRAM_DESCRIPTOR.

Lemma bytes_length l :
  length (concat (desc_bytes <$> l)) = (32 * length l)%nat.
Proof.
  induction l as [|d l IH]; [done|]. cbn [fmap list_fmap concat length]. rewrite length_app, IH.
  pose proof (desc_bytes_length d) as Hd. rewrite sizeof_val in Hd. lia.
Qed.

Lemma bytes_take n l : concat (desc_bytes <$> take n l) = take (32 * n) (concat (desc_bytes <$> l)).
Proof.
  revert l. induction n as [|n IH]; intros l; [done|]. destruct l as [|d l]; [by rewrite take_nil|].
  cbn [take fmap list_fmap concat]. rewrite IH, take_app.
  pose proof (desc_bytes_length d) as Hd. rewrite sizeof_val in Hd.
  rewrite (take_ge (desc_bytes d)) by lia. do 2 f_equal. lia.
Qed.
End Capabilities.

(** ** Properties *)

(** C34: the driver starts on a platform whose SMRAM is closed and whose HOB lists one to four
    regions that are not open. Then every sequence of calls returns, also when another agent locks
    the chipset meanwhile, and afterwards the driver's [OpenState] says exactly whether the host
    can access SMRAM: if it is set the register opens SMRAM for the host only, if not the register
    lets nobody in; every region's OPEN flag agrees with it, and a reported lock means that the
    register is locked and closed. *)
Theorem smm_access_coherent {MB : MessageBus} {SH : SmramHeader} {SHO : SmramHeaderOk}
    (Block : EFI_SMRAM_HOB_DESCRIPTOR_BLOCK) (s : smm) (ks : list call) :
  hsmmc_plain -> block_ok Block -> closed (hsmmc s.(hw)) ->
  exists sts s1 s2,
    SmmAccessDriverEntryPoint EFI_SUCCESS EFI_SUCCESS EFI_SUCCESS Block s = Some (EFI_SUCCESS, s1) /\
    exec_all ks s1 = Some (sts, s2) /\ length sts = length ks /\
    let d := s2.(data) in
    let h := hsmmc s2.(hw) in
    (if d.(OpenState) then host_open h else closed h) /\
    (forall i r, d.(SmramDesc) !! i = Some r -> (i < Z.to_nat d.(NumberRegions))%nat ->
       Z.testbit r.(RegionState) 0 = d.(OpenState)) /\
    (d.(LockState) = true -> locked h /\ closed h).
Proof.
  intros Hp Hb Hcl.
  assert (He : wp (SmmAccessDriverEntryPoint EFI_SUCCESS EFI_SUCCESS EFI_SUCCESS Block)
    (fun st s1 => st = EFI_SUCCESS /\ coherent s1) s) by (by apply wp_EntryPoint).
  destruct He as (st & s1 & Hrun & -> & Hc).
  destruct (wp_exec_all ks s1 Hp Hc) as (sts & s2 & Hrun2 & Hc2 & Hlen & _ & _).
  exists sts, s1, s2. split_and!; [done..|]. destruct Hc2 as [Hwf Ho Hcd Hh Hl Hk Hr]. split_and!.
  - exact Hh.
  - intros i r Hi Hn. by apply (Hr i r).
  - intros H. destruct (Hk H) as [Hoff H2]. rewrite Hoff in Hh. by auto.
Qed.

(** C35: locking is final. From a state in which the driver and the register agree, once [Lock]
    has succeeded no sequence of calls opens SMRAM again: after every further sequence the register
    is locked and closed to all but SMM, the driver still reports the lock, and every [Open] and
    [Close] among the calls has returned EFI_DEVICE_ERROR. The theorem needs no locking by the
    hardware itself: the register is taken to hold whatever is written to it. *)
Theorem smm_lock_final {MB : MessageBus} {SH : SmramHeader} {SHO : SmramHeaderOk}
    (s s1 : smm) (ks : list call) :
  hsmmc_plain -> coherent s -> Lock s = Some (EFI_SUCCESS, s1) ->
  exists sts s2,
    exec_all ks s1 = Some (sts, s2) /\
    locked (hsmmc s2.(hw)) /\ closed (hsmmc s2.(hw)) /\ s2.(data).(LockState) = true /\
    forall i k st, ks !! i = Some k -> sts !! i = Some st -> k = COpen \/ k = CClose -> st = EFI_DEVICE_ERROR.
Proof.
  intros Hp Hc Hrun. pose proof (coh_wf _ Hc) as Hwf. pose proof (coh_hw _ Hc) as Hh.
  assert (Hl : wp Lock (fun st s' => st = EFI_SUCCESS ->
    coherent s' /\ locked (hsmmc s'.(hw)) /\ s'.(data).(LockState) = true) s).
  { apply wp_Lock; [done|done|done|]. intros Hoff h Hl Hcl _. rewrite Hoff in Hh.
    split_and!; [|done|done]. apply coherent_locked_data; [done|done|done|by apply Hcl]. }
  destruct (wp_run _ _ _ _ _ Hl Hrun eq_refl) as (Hc1 & Hl1 & Hk1).
  destruct (wp_exec_all ks s1 Hp Hc1) as (sts & s2 & Hrun2 & Hc2 & _ & Hl2 & Hk2).
  destruct (Hl2 Hl1) as [Hl2' He]. exists sts, s2. specialize (Hk2 Hk1).
  destruct (coh_lock _ Hc2 Hk2) as [Hoff _]. pose proof (coh_hw _ Hc2) as Hh2. rewrite Hoff in Hh2.
  by split_and!.
Qed.

Lemma GetCapabilities_run {SH : SmramHeader} {SHO : SmramHeaderOk} (s : smm) (size : Z) (map : list Z) :
  let d := s.(data) in
  let need := 32 * d.(NumberRegions) in
  0 <= d.(NumberRegions) <= 4 -> length d.(SmramDesc) = 4%nat -> 0 <= size <= Z.of_nat (length map) ->
  if size <? need then GetCapabilities size map s = Some ((EFI_BUFFER_TOO_SMALL, need, map), s)
  else if size <=? 128 then
    exists map', GetCapabilities size map s = Some ((EFI_SUCCESS, need, map'), s) /\
      length map' = length map /\
      take (Z.to_nat need) map' = concat (desc_bytes <$> take (Z.to_nat d.(NumberRegions)) d.(SmramDesc)) /\
      drop (Z.to_nat size) map' = drop (Z.to_nat size) map
  else GetCapabilities size map s = None.
Proof.
  intros d need HN Hlen Hs. unfold GetCapabilities, mbind, M_bind, get, lift. fold d.
  rewrite sizeof_val, wrap_small by lia. replace (NumberRegions d * 32) with need by lia.
  destruct (Z.ltb_spec size need); [done|]. unfold CopyMem. rewrite bytes_length, Hlen.
  destruct (Z.leb_spec size 128).
  - destruct (Z.leb_spec size (Z.of_nat (32 * 4))); [|lia].
    destruct (Z.leb_spec size (Z.of_nat (length map))); [|lia]. cbn [andb].
    set (src := concat _). assert (Hsrc : length src = 128%nat) by (unfold src; by rewrite bytes_length, Hlen).
    eexists. split; [done|]. rewrite length_app, length_take, length_drop. split_and!; [lia| |].
    + rewrite bytes_take. fold src. rewrite take_app_le by (rewrite length_take; lia).
      rewrite take_take. f_equal. lia.
    + rewrite drop_app_ge by (rewrite length_take; lia). rewrite length_take.
      replace (Z.to_nat size - Z.to_nat size `min` length src)%nat with 0%nat by lia. done.
  - destruct (Z.leb_spec size (Z.of_nat (32 * 4))); [lia|]. done.
Qed.

(** [GetCapabilities]. A buffer that is too small for the descriptors of the regions is left
    alone; otherwise the descriptors' bytes are at its start and the bytes beyond the size that the
    caller gave are left alone; in both cases the size becomes the one needed. The copy is as long
    as the size given by the caller: with more than the array's 128 bytes the function reads past
    the end of the array. *)
Lemma GetCapabilities_correct {SH : SmramHeader} {SHO : SmramHeaderOk} (s : smm) (size : Z) (map : list Z) :
  let d := s.(data) in
  let need := 32 * d.(NumberRegions) in
  0 <= d.(NumberRegions) <= 4 -> length d.(SmramDesc) = 4%nat -> 0 <= size <= Z.of_nat (length map) ->
  if size <? need then GetCapabilities size map s = Some ((EFI_BUFFER_TOO_SMALL, need, map), s)
  else if size <=? 128 then
    exists map', GetCapabilities size map s = Some ((EFI_SUCCESS, need, map'), s) /\
      length map' = length map /\
      take (Z.to_nat need) map' = concat (desc_bytes <$> take (Z.to_nat d.(NumberRegions)) d.(SmramDesc)) /\
      drop (Z.to_nat size) map' = drop (Z.to_nat size) map
  else GetCapabilities size map s = None.
Proof. apply GetCapabilities_run. Qed.

(** *** On a board with one region *)

#[local] Existing Instances PlainBus PiHeader.header PiHeader.header_ok.

Definition board_hob : EFI_SMRAM_HOB_DESCRIPTOR_BLOCK :=
  {| NumberOfSmmReservedRegions := 1;
     Descriptor := [{| PhysicalStart := 0xFE00000; CpuStart := 0xFE00000; PhysicalSize := 0x200000;
                       RegionState := 0x12 |}] |}.

Definition board : smm :=
  {| data := {| NumberRegions := 0; SmramDesc := []; TsegSize := 0; SMMRegionState := 0;
                LockState := false; OpenState := false |};
     hw := idle_bus 0 |}.

Definition board_started : smm :=
  {| data := {| NumberRegions := 1; SmramDesc := board_hob.(Descriptor) ++ replicate 3 zero_desc;
                TsegSize := 0; SMMRegionState := 2; LockState := false; OpenState := false |};
     hw := idle_bus 0 |}.

Lemma board_coherent : coherent board_started.
Proof.
  split; try done; [unfold wf; cbn; lia|]. intros [|i] d Hd Hi; [|cbn in Hi; lia].
  injection Hd as <-. done.
Qed.

Lemma smm_access_coherent_witness :
  exists sts s1 s2,
    SmmAccessDriverEntryPoint EFI_SUCCESS EFI_SUCCESS EFI_SUCCESS board_hob board = Some (EFI_SUCCESS, s1) /\
    exec_all [COpen; CLock; CClose; CLock; COpen] s1 = Some (sts, s2) /\
    length sts = length [COpen; CLock; CClose; CLock; COpen] /\
    let d := s2.(data) in
    let h := hsmmc s2.(hw) in
    (if d.(OpenState) then host_open h else closed h) /\
    (forall i r, d.(SmramDesc) !! i = Some r -> (i < Z.to_nat d.(NumberRegions))%nat ->
       Z.testbit r.(RegionState) 0 = d.(OpenState)) /\
    (d.(LockState) = true -> locked h /\ closed h).
Proof.
  apply (smm_access_coherent board_hob board [COpen; CLock; CClose; CLock; COpen]).
  - intros v0 v. reflexivity.
  - split_and!; [discriminate|discriminate|discriminate|]. repeat constructor.
  - split_and!; reflexivity.
Defined.

(** Lock, then attempts to open. *)
Lemma smm_lock_final_witness :
  exists s1, Lock board_started = Some (EFI_SUCCESS, s1) /\
  exists sts s2,
    exec_all [COpen; CClose; CLock; COpen] s1 = Some (sts, s2) /\
    locked (hsmmc s2.(hw)) /\ closed (hsmmc s2.(hw)) /\ s2.(data).(LockState) = true /\
    forall i k st, [COpen; CClose; CLock; COpen] !! i = Some k -> sts !! i = Some st ->
      k = COpen \/ k = CClose -> st = EFI_DEVICE_ERROR.
Proof.
  eexists. split; [reflexivity|].
  eapply (smm_lock_final board_started _ [COpen; CClose; CLock; COpen]).
  - intros v0 v. reflexivity.
  - exact board_coherent.
  - reflexivity.
Defined.

Lemma GetCapabilities_correct_witness :
  exists map', GetCapabilities 40 (replicate 64 0xFF) board_started = Some ((EFI_SUCCESS, 32, map'), board_started) /\
    length map' = 64%nat /\
    take 32 map' = concat (desc_bytes <$> take 1 board_started.(data).(SmramDesc)) /\
    drop 40 map' = drop 40 (replicate 64 0xFF).
Proof.
  apply (GetCapabilities_correct board_started 40 (replicate 64 0xFF)).
  - split; discriminate.
  - reflexivity.
  - split; discriminate.
Defined.
