(* ===== verification/SmmAccessPei.v ===== *)
(** * The SMM access PPI

    Models [QuarkNorthCluster/Smm/Pei/SmmAccessPei/SmmAccessPei.c]: the driver of the phase before
    DXE, which tracks every region of SMRAM separately although the chipset has one register for
    all of them ([Smram]). *)

From S2P Require Import Prelude QNCAccess Smram.
#[local] Open Scope Z_scope.

(** [SMM_ACCESS_PRIVATE_DATA]: what the operations read and change. *)
Record private_data := {
  NumberRegions : Z;
  SmramDesc : list EFI_SMRAM_DESCRIPTOR;
  TsegSize : Z;
  LockState : bool;
  OpenState : bool
}.

Definition pei : Type := driver private_data.

Definition set_desc (l : list EFI_SMRAM_DESCRIPTOR) (d : private_data) : private_data :=
  {| NumberRegions := d.(NumberRegions); SmramDesc := l; TsegSize := d.(TsegSize);
     LockState := d.(LockState); OpenState := d.(OpenState) |}.
Definition set_open (b : bool) (d : private_data) : private_data :=
  {| NumberRegions := d.(NumberRegions); SmramDesc := d.(SmramDesc); TsegSize := d.(TsegSize);
     LockState := d.(LockState); OpenState := b |}.
Definition set_lock (b : bool) (d : private_data) : private_data :=
  {| NumberRegions := d.(NumberRegions); SmramDesc := d.(SmramDesc); TsegSize := d.(TsegSize);
     LockState := b; OpenState := d.(OpenState) |}.

Section Driver.
Context {MB : MessageBus} {SH : SmramHeader}.

(** [SmmAccess->SmramDesc[Index].RegionState] is read and changed in place. *)
Definition region_state (Index : Z) : M pei Z :=
  s ← get;
  d ← lift (s.(data).(SmramDesc) !! Z.to_nat Index);
  mret d.(RegionState).
Definition set_region_state (Index : Z) (f : Z -> Z) : M pei unit :=
  s ← get;
  d ← lift (s.(data).(SmramDesc) !! Z.to_nat Index);
  update (set_desc (<[Z.to_nat Index := map_state f d]> s.(data).(SmramDesc))).

Definition Open (DescriptorIndex : Z) : M pei EFI_STATUS :=
  s ← get;
  if DescriptorIndex >=? s.(data).(NumberRegions) then mret EFI_INVALID_PARAMETER
  else
    st ← region_state DescriptorIndex;
    if negb (Z.land st EFI_SMRAM_LOCKED =? 0) then mret EFI_DEVICE_ERROR
    else
      ok ← on_hw QNCOpenSmramRegion;
      if negb ok then
        _ ← set_region_state DescriptorIndex (fun x => Z.lor x EFI_SMRAM_LOCKED);
        mret EFI_DEVICE_ERROR
      else
        _ ← set_region_state DescriptorIndex (fun x => clear x (Z.lor EFI_SMRAM_CLOSED EFI_ALLOCATED));
        _ ← set_region_state DescriptorIndex (fun x => Z.lor x EFI_SMRAM_OPEN);
        _ ← update (set_open true);
        mret EFI_SUCCESS.

(** The loop of [Close] that finds out whether any region is still open. *)
Fixpoint open_loop (SmramDesc : list EFI_SMRAM_DESCRIPTOR) (n Index : nat) (OpenState : bool) : option bool :=
  match n with
  | O => Some OpenState
  | S n =>
      d ← SmramDesc !! Index;
      open_loop SmramDesc n (S Index)
        (if Z.land d.(RegionState) EFI_SMRAM_OPEN =? EFI_SMRAM_OPEN then true else OpenState)
  end.

Definition Close (DescriptorIndex : Z) : M pei EFI_STATUS :=
  s ← get;
  if DescriptorIndex >=? s.(data).(NumberRegions) then mret EFI_INVALID_PARAMETER
  else
    st ← region_state DescriptorIndex;
    if negb (Z.land st EFI_SMRAM_LOCKED =? 0) then mret EFI_DEVICE_ERROR
    else if negb (Z.land st EFI_SMRAM_CLOSED =? 0) then mret EFI_DEVICE_ERROR
    else
      ok ← on_hw QNCCloseSmramRegion;
      if negb ok then
        _ ← set_region_state DescriptorIndex (fun x => Z.lor x EFI_SMRAM_LOCKED);
        mret EFI_DEVICE_ERROR
      else
        _ ← set_region_state DescriptorIndex (fun x => clear x EFI_SMRAM_OPEN);
        _ ← set_region_state DescriptorIndex (fun x => Z.lor x (Z.lor EFI_SMRAM_CLOSED EFI_ALLOCATED));
        s ← get;
        OpenState ← lift (open_loop s.(data).(SmramDesc) (Z.to_nat s.(data).(NumberRegions)) 0 false);
        _ ← update (set_open OpenState);
        mret EFI_SUCCESS.

Definition Lock (DescriptorIndex : Z) : M pei EFI_STATUS :=
  s ← get;
  if DescriptorIndex >=? s.(data).(NumberRegions) then mret EFI_INVALID_PARAMETER
  else if s.(data).(OpenState) then mret EFI_DEVICE_ERROR
  else
    _ ← set_region_state DescriptorIndex (fun x => Z.lor x EFI_SMRAM_LOCKED);
    _ ← update (set_lock true);
    _ ← on_hw QNCLockSmramRegion;
    mret EFI_SUCCESS.

Definition GetCapabilities (SmramMapSize : Z) (SmramMap : list Z) : M pei (EFI_STATUS * Z * list Z) :=
  s ← get;
  let BufferSize := u32 (s.(data).(NumberRegions) * sizeof_EFI_SMRAM_DESCRIPTOR) in
  if SmramMapSize <? BufferSize then mret (EFI_BUFFER_TOO_SMALL, BufferSize, SmramMap)
  else
    SmramMap ← lift (CopyMem SmramMap (concat (desc_bytes <$> s.(data).(SmramDesc))) SmramMapSize);
    mret (EFI_SUCCESS, BufferSize, SmramMap).

(** The loop of the entry point that copies the descriptors. *)
Fixpoint desc_loop (Block : EFI_SMRAM_HOB_DESCRIPTOR_BLOCK) (n Index : nat)
    (SmramDesc : list EFI_SMRAM_DESCRIPTOR) : option (list EFI_SMRAM_DESCRIPTOR) :=
  match n with
  | O => Some SmramDesc
  | S n =>
      d ← Block.(Descriptor) !! Index;
      _ ← SmramDesc !! Index;
      desc_loop Block n (S Index) (<[Index := d]> SmramDesc)
  end.

(** The private data is allocated and not cleared: [fresh] is what the memory holds. [Allocated]
    says whether both allocations succeed, [InstallStatus] is the status of installing the PPI. *)
Definition SmmAccessPeiEntryPoint (Allocated : bool) (fresh : list EFI_SMRAM_DESCRIPTOR)
    (InstallStatus : EFI_STATUS) (DescriptorBlock : EFI_SMRAM_HOB_DESCRIPTOR_BLOCK) : M pei EFI_STATUS :=
  _ ← ASSERT Allocated;
  _ ← ASSERT (DescriptorBlock.(NumberOfSmmReservedRegions) <=? MAX_SMRAM_RANGES);
  let n := Z.to_nat DescriptorBlock.(NumberOfSmmReservedRegions) in
  l ← lift (desc_loop DescriptorBlock n 0 fresh);
  _ ← update (fun d => {| NumberRegions := Z.of_nat n; SmramDesc := l; TsegSize := d.(TsegSize);
                          LockState := false; OpenState := false |});
  _ ← ASSERT (negb (EFI_ERROR InstallStatus));
  last ← lift (match n with O => None | S k => l !! k end);
  _ ← update (fun d => {| NumberRegions := d.(NumberRegions); SmramDesc := d.(SmramDesc);
                          TsegSize := u8 last.(PhysicalSize); LockState := d.(LockState);
                          OpenState := d.(OpenState) |});
  mret EFI_SUCCESS.
End Driver.

(** ** What the operations do *)

Section Effects.
Context {MB : MessageBus} {SH : SmramHeader} {SHO : SmramHeaderOk}.
Implicit Types (s : pei) (d : private_data) (l : list EFI_SMRAM_DESCRIPTOR).

Definition wf d : Prop := (Z.to_nat d.(NumberRegions) <= length d.(SmramDesc))%nat.

(** One region changed. *)
Definition on_region (i : nat) (f : Z -> Z) d : private_data :=
  set_desc (alter (map_state f) i d.(SmramDesc)) d.

Lemma wp_region_state i (Q : Z -> pei -> Prop) s (r : EFI_SMRAM_DESCRIPTOR) :
  s.(data).(SmramDesc) !! Z.to_nat i = Some r -> Q r.(RegionState) s -> wp (region_state i) Q s.
Proof.
  intros Hr HQ. unfold region_state. apply wp_bind, wp_get, wp_bind. eapply wp_lift; [exact Hr|]. by apply wp_ret.
Qed.

Lemma insert_alter f i l (r : EFI_SMRAM_DESCRIPTOR) :
  l !! i = Some r -> <[i := map_state f r]> l = alter (map_state f) i l.
Proof.
  intros Hr. apply list_eq. intros j. rewrite list_lookup_alter. destruct (decide (i = j)) as [<-|Hne].
  - rewrite Hr. apply list_lookup_insert_eq. by eapply lookup_lt_Some.
  - by apply list_lookup_insert_ne.
Qed.

Lemma wp_set_region_state i f (Q : unit -> pei -> Prop) s :
  is_Some (s.(data).(SmramDesc) !! Z.to_nat i) ->
  Q tt {| data := on_region (Z.to_nat i) f s.(data); hw := s.(hw) |} -> wp (set_region_state i f) Q s.
Proof.
  intros [r Hr] HQ. unfold set_region_state. apply wp_bind, wp_get, wp_bind. eapply wp_lift; [exact Hr|].
  apply wp_modify. by rewrite (insert_alter _ _ _ _ Hr).
Qed.

Lemma on_region_twice i f g d : on_region i g (on_region i f d) = on_region i (fun x => g (f x)) d.
Proof.
  unfold on_region, set_desc. cbn [NumberRegions SmramDesc TsegSize LockState OpenState]. f_equal.
  apply list_eq. intros j. rewrite !list_lookup_alter. destruct (decide (i = j)); [|done].
  subst j. rewrite decide_True by done. by destruct (SmramDesc d !! i).
Qed.

(** Some region is marked open. *)
Definition any_open d : bool :=
  existsb (fun r => Z.testbit r.(RegionState) 0) (take (Z.to_nat d.(NumberRegions)) d.(SmramDesc)).

Lemma open_loop_any l n k b :
  (k + n <= length l)%nat ->
  open_loop l n k b = Some (b || existsb (fun r => Z.testbit r.(RegionState) 0) (take n (drop k l))).
Proof.
  revert k b. induction n as [|n IH]; intros k b Hk; [by rewrite orb_false_r|]. cbn [open_loop].
  destruct (lookup_lt_is_Some_2 l k) as [r Hr]; [lia|]. rewrite Hr, some_bind, IH by lia.
  rewrite (drop_S _ _ _ Hr). cbn [take existsb]. f_equal. rewrite OPEN_val, orb_assoc. f_equal.
  change 1 with (Z.ones 1). rewrite Z.land_ones by lia. rewrite <- Z.bit0_mod.
  destruct (Z.testbit (RegionState r) 0); cbn; by rewrite ?orb_true_r, ?orb_false_r.
Qed.

(** The state after a successful call. *)
Definition opened i d : private_data := set_open true (on_region i (fun x => Z.lor (clear x 0x12) 1) d).
Definition closed_region i d : private_data := on_region i (fun x => Z.lor (clear x 1) 0x12) d.
Definition locked_data i d : private_data := set_lock true (on_region i (fun x => Z.lor x 4) d).
Definition mark_locked i d : private_data := on_region i (fun x => Z.lor x 4) d.

Lemma region_some i d : wf d -> i < d.(NumberRegions) -> 0 <= i -> is_Some (d.(SmramDesc) !! Z.to_nat i).
Proof. unfold wf. intros Hw Hi H0. apply lookup_lt_is_Some_2. lia. Qed.

Lemma wf_on_region i f d : wf d -> wf (on_region i f d).
Proof. unfold wf, on_region. cbn. by rewrite length_alter. Qed.

Lemma on_region_some i j f d : is_Some (d.(SmramDesc) !! j) -> is_Some ((on_region i f d).(SmramDesc) !! j).
Proof.
  intros [r Hr]. unfold on_region. cbn. rewrite list_lookup_alter. destruct (decide (i = j)) as [-> |]; [|by exists r].
  rewrite Hr. by eexists.
Qed.

(** The test that the first lines of the operations make. *)
Lemma wp_pei_Open i (Q : EFI_STATUS -> pei -> Prop) s :
  hsmmc_plain -> wf s.(data) -> 0 <= i ->
  (s.(data).(NumberRegions) <= i -> Q EFI_INVALID_PARAMETER s) ->
  (i < s.(data).(NumberRegions) -> Q EFI_DEVICE_ERROR s) ->
  (i < s.(data).(NumberRegions) -> locked (hsmmc s.(hw)) -> forall h, hsmmc h = hsmmc s.(hw) ->
     Q EFI_DEVICE_ERROR {| data := mark_locked (Z.to_nat i) s.(data); hw := h |}) ->
  (i < s.(data).(NumberRegions) -> ~ locked (hsmmc s.(hw)) ->
     forall h, host_open (hsmmc h) -> ~ locked (hsmmc h) ->
     Q EFI_SUCCESS {| data := opened (Z.to_nat i) s.(data); hw := h |}) ->
  wp (Open i) Q s.
Proof.
  intros Hp Hwf H0 HI HD HL HS. unfold Open. apply wp_bind, wp_get. rewrite Z.geb_leb.
  destruct (Z.leb_spec (NumberRegions (data s)) i) as [Hi|Hi]; [by apply wp_ret, HI|].
  destruct (region_some i _ Hwf Hi H0) as [r Hr]. apply wp_bind. eapply wp_region_state; [exact Hr|].
  rewrite LOCKED_val, OPEN_val, CLOSED_val, ALLOCATED_val.
  destruct (negb _); [by apply wp_ret, HD|].
  apply wp_bind, wp_on_hw, wp_QNCOpenSmramRegion; [done| |].
  - intros Hlk h Eh. cbn [negb]. apply wp_bind, wp_set_region_state; [by exists r|]. by apply wp_ret, HL.
  - intros Hlk h Ho Hu. cbn [negb]. apply wp_bind, wp_set_region_state; [by exists r|].
    apply wp_bind, wp_set_region_state; [apply on_region_some; by exists r|].
    apply wp_bind, wp_modify, wp_ret. specialize (HS Hi Hlk h Ho Hu). unfold opened in HS.
    rewrite <- (on_region_twice _ (fun x => clear x 0x12) (fun x => Z.lor x 1)) in HS. exact HS.
Qed.

Lemma wp_pei_Close i (Q : EFI_STATUS -> pei -> Prop) s :
  hsmmc_plain -> wf s.(data) -> 0 <= i ->
  (s.(data).(NumberRegions) <= i -> Q EFI_INVALID_PARAMETER s) ->
  (i < s.(data).(NumberRegions) -> Q EFI_DEVICE_ERROR s) ->
  (i < s.(data).(NumberRegions) -> locked (hsmmc s.(hw)) -> forall h, hsmmc h = hsmmc s.(hw) ->
     Q EFI_DEVICE_ERROR {| data := mark_locked (Z.to_nat i) s.(data); hw := h |}) ->
  (i < s.(data).(NumberRegions) -> ~ locked (hsmmc s.(hw)) ->
     forall h, closed (hsmmc h) -> ~ locked (hsmmc h) ->
     let d := closed_region (Z.to_nat i) s.(data) in
     Q EFI_SUCCESS {| data := set_open (any_open d) d; hw := h |}) ->
  wp (Close i) Q s.
Proof.
  intros Hp Hwf H0 HI HD HL HS. unfold Close. apply wp_bind, wp_get. rewrite Z.geb_leb.
  destruct (Z.leb_spec (NumberRegions (data s)) i) as [Hi|Hi]; [by apply wp_ret, HI|].
  destruct (region_some i _ Hwf Hi H0) as [r Hr]. apply wp_bind. eapply wp_region_state; [exact Hr|].
  rewrite LOCKED_val, CLOSED_val, ALLOCATED_val. do 2 (destruct (negb _); [by apply wp_ret, HD|]).
  apply wp_bind, wp_on_hw, wp_QNCCloseSmramRegion; [done| |].
  - intros Hlk h Eh. cbn [negb]. apply wp_bind, wp_set_region_state; [by exists r|]. by apply wp_ret, HL.
  - intros Hlk h Ho Hu. cbn [negb]. apply wp_bind, wp_set_region_state; [by exists r|].
    apply wp_bind, wp_set_region_state; [apply on_region_some; by exists r|].
    specialize (HS Hi Hlk h Ho Hu). cbv zeta in HS. unfold closed_region in HS. rewrite OPEN_val.
    pose proof (on_region_twice (Z.to_nat i) (fun x => clear x 1) (fun x => Z.lor x 0x12) (data s)) as E.
    cbn beta in E. rewrite <- E in HS. set (d := on_region _ _ (on_region _ _ _)) in *.
    apply wp_bind, wp_get, wp_bind. eapply (wp_lift _ (any_open d)).
    + change (open_loop (SmramDesc d) (Z.to_nat (NumberRegions d)) 0 false = Some (any_open d)).
      rewrite open_loop_any; [done|]. by apply wf_on_region, wf_on_region.
    + apply wp_bind, wp_modify, wp_ret. exact HS.
Qed.

Lemma wp_pei_Lock i (Q : EFI_STATUS -> pei -> Prop) s :
  hsmmc_plain -> wf s.(data) -> 0 <= i ->
  (s.(data).(NumberRegions) <= i -> Q EFI_INVALID_PARAMETER s) ->
  (s.(data).(OpenState) = true -> Q EFI_DEVICE_ERROR s) ->
  (i < s.(data).(NumberRegions) -> s.(data).(OpenState) = false -> forall h, locked (hsmmc h) ->
     (closed (hsmmc h) <-> closed (hsmmc s.(hw))) ->
     Q EFI_SUCCESS {| data := locked_data (Z.to_nat i) s.(data); hw := h |}) ->
  wp (Lock i) Q s.
Proof.
  intros Hp Hwf H0 HI HD HS. unfold Lock. rewrite LOCKED_val. apply wp_bind, wp_get. rewrite Z.geb_leb.
  destruct (Z.leb_spec (NumberRegions (data s)) i) as [Hi|Hi]; [by apply wp_ret, HI|].
  destruct (OpenState (data s)) eqn:Ho; [by apply wp_ret, HD|].
  apply wp_bind, wp_set_region_state; [by apply region_some|]. apply wp_bind, wp_modify, wp_bind, wp_on_hw.
  apply wp_QNCLockSmramRegion; [done|]. intros h Hl Hc _. by apply wp_ret, HS.
Qed.

(** ** Sequences of calls *)

Inductive call := COpen (i : Z) | CClose (i : Z) | CLock (i : Z).

Definition exec (k : call) : M pei EFI_STATUS :=
  match k with COpen i => Open i | CClose i => Close i | CLock i => Lock i end.

(** The index is an unsigned integer. *)
Definition call_ok (k : call) : Prop := 0 <= match k with COpen i | CClose i | CLock i => i end.

Fixpoint exec_all (ks : list call) : M pei (list EFI_STATUS) :=
  match ks with
  | [] => mret []
  | k :: ks => st ← exec k; sts ← exec_all ks; mret (st :: sts)
  end.

(** What holds between calls. *)
Definition safe s : Prop :=
  wf s.(data) /\
  (s.(data).(OpenState) = false -> closed (hsmmc s.(hw))) /\
  (s.(data).(LockState) = true -> locked (hsmmc s.(hw)) /\ s.(data).(OpenState) = false).

Lemma wp_pei_exec k s :
  hsmmc_plain -> call_ok k -> safe s ->
  wp (exec k) (fun st s' => safe s' /\
    (locked (hsmmc s.(hw)) -> locked (hsmmc s'.(hw)) /\ ((forall i, k <> CLock i) -> st <> EFI_SUCCESS)) /\
    (s.(data).(LockState) = true -> s'.(data).(LockState) = true)) s.
Proof.
  intros Hp Hk (Hwf & Ho & Hl). destruct k as [i|i|i]; cbn [exec call_ok] in *.
  - apply wp_pei_Open; [done..| | | |].
    + intros _. by split_and!.
    + intros _. by split_and!.
    + intros _ Hlk h Eh. unfold safe. cbn. rewrite Eh. split_and!; [by apply wf_on_region|done..].
    + intros _ Hu h Hh Hu'. unfold safe. cbn. split_and!; [by apply wf_on_region|done| |done|done].
      intros H. destruct (Hl H). done.
  - apply wp_pei_Close; [done..| | | |].
    + intros _. by split_and!.
    + intros _. by split_and!.
    + intros _ Hlk h Eh. unfold safe. cbn. rewrite Eh. split_and!; [by apply wf_on_region|done..].
    + intros _ Hu h Hh Hu'. unfold safe. cbn. split_and!; [by apply wf_on_region|done| |done|done].
      intros H. destruct (Hl H). done.
  - apply wp_pei_Lock; [done..| | |].
    + intros _. split_and!; [by split_and!| |done]. intros Hlk. split; [done|]. intros H. by destruct (H i).
    + intros _. split_and!; [by split_and!| |done]. intros Hlk. split; [done|]. intros H. by destruct (H i).
    + intros _ Hoff h Hlk Hc. unfold safe. cbn. split_and!; [by apply wf_on_region|intros _; by apply Hc, Ho|done| |done].
      intros _. split; [done|]. intros H. by destruct (H i).
Qed.

Lemma wp_pei_exec_all ks s :
  hsmmc_plain -> Forall call_ok ks -> safe s ->
  wp (exec_all ks) (fun sts s' => safe s' /\ length sts = length ks /\
    (locked (hsmmc s.(hw)) -> locked (hsmmc s'.(hw)) /\
       forall j k st, ks !! j = Some k -> sts !! j = Some st -> (forall i, k <> CLock i) -> st <> EFI_SUCCESS) /\
    (s.(data).(LockState) = true -> s'.(data).(LockState) = true)) s.
Proof.
  intros Hp Hks. revert s. induction Hks as [|k ks Hk Hks IH]; intros s Hc; cbn [exec_all].
  - apply wp_ret. split_and!; [done|done| |done]. intros Hl. split; [done|]. intros j k st Hk. by rewrite lookup_nil in Hk.
  - apply wp_bind. eapply wp_mono; [by apply wp_pei_exec|]. intros st s1 (Hc1 & Hl1 & Hk1).
    apply wp_bind. eapply wp_mono; [by apply IH|]. intros sts s2 (Hc2 & Hlen & Hl2 & Hk2). apply wp_ret.
    split_and!; [done|cbn; by rewrite Hlen| |by auto]. intros Hl. destruct (Hl1 Hl) as [Hl1' He1].
    destruct (Hl2 Hl1') as [Hl2' He2]. split; [done|]. intros [|j] k' st' Hk' Hst'; cbn in *.
    + injection Hk' as <-. injection Hst' as <-. exact He1.
    + by eapply He2.
Qed.
End Effects.

(** ** Properties *)

(** whatever sequence of calls is made to the PPI of a board whose SMRAM is closed at the
    start, every call returns, and SMRAM is locked only while it is closed and stays so: when
    the driver reports the lock, the register is locked and closed, and it is so after any further
    calls, in which no [Open] or [Close] succeeds. *)
Theorem pei_lock_final {MB : MessageBus} {SH : SmramHeader} {SHO : SmramHeaderOk}
    (s : pei) (ks ks' : list call) :
  hsmmc_plain -> wf s.(data) -> closed (hsmmc s.(hw)) -> s.(data).(LockState) = false ->
  Forall call_ok ks -> Forall call_ok ks' ->
  exists sts s1, exec_all ks s = Some (sts, s1) /\ length sts = length ks /\
    (s1.(data).(LockState) = true ->
     exists sts' s2, exec_all ks' s1 = Some (sts', s2) /\
       locked (hsmmc s1.(hw)) /\ closed (hsmmc s1.(hw)) /\ locked (hsmmc s2.(hw)) /\ closed (hsmmc s2.(hw)) /\
       s2.(data).(LockState) = true /\
       forall j k st, ks' !! j = Some k -> sts' !! j = Some st -> (forall i, k <> CLock i) -> st <> EFI_SUCCESS).
Proof.
  intros Hp Hwf Hcl Hl0 Hk Hk'. assert (Hs : safe s) by (split_and!; [done|done|congruence]).
  destruct (wp_pei_exec_all ks s Hp Hk Hs) as (sts & s1 & Hrun & Hs1 & Hlen & _ & _).
  exists sts, s1. split_and!; [done..|]. intros Hlock.
  destruct (wp_pei_exec_all ks' s1 Hp Hk' Hs1) as (sts' & s2 & Hrun' & Hs2 & _ & Hl2 & Hlk2).
  destruct Hs1 as (_ & Hc1 & Hlk1). destruct (Hlk1 Hlock) as [Hl1 Ho1]. destruct (Hl2 Hl1) as [Hl2' He].
  destruct Hs2 as (_ & Hc2 & Hlk2'). specialize (Hlk2 Hlock). destruct (Hlk2' Hlk2) as [_ Ho2].
  exists sts', s2. split_and!; auto.
Qed.

(** a successful [Close] of one region. The register closes SMRAM altogether, but only the
    region named is marked closed: the others keep their state, so that if one of them was marked
    open the driver still reports [OpenState], and refuses [Lock], although nothing is open. *)
Lemma pei_close_one {MB : MessageBus} {SH : SmramHeader} {SHO : SmramHeaderOk} (i : Z) (s s1 : pei) :
  hsmmc_plain -> wf s.(data) -> 0 <= i -> Close i s = Some (EFI_SUCCESS, s1) ->
  let d := s.(data) in
  let d1 := s1.(data) in
  closed (hsmmc s1.(hw)) /\
  (exists r r1, d.(SmramDesc) !! Z.to_nat i = Some r /\ d1.(SmramDesc) !! Z.to_nat i = Some r1 /\
     r1 = map_state (fun x => Z.lor (clear x 1) 0x12) r) /\
  (forall j, j <> Z.to_nat i -> d1.(SmramDesc) !! j = d.(SmramDesc) !! j) /\
  (forall j r, (j < Z.to_nat d.(NumberRegions))%nat -> j <> Z.to_nat i -> d.(SmramDesc) !! j = Some r ->
     Z.testbit r.(RegionState) 0 = true ->
     d1.(OpenState) = true /\ forall k, k < d.(NumberRegions) -> Lock k s1 = Some (EFI_DEVICE_ERROR, s1)).
Proof.
  intros Hp Hwf H0 Hrun d d1.
  assert (Hw : wp (Close i) (fun st s' => st = EFI_SUCCESS -> i < s.(data).(NumberRegions) /\
    closed (hsmmc s'.(hw)) /\
    s'.(data) = set_open (any_open (closed_region (Z.to_nat i) s.(data))) (closed_region (Z.to_nat i) s.(data))) s)
    by (apply wp_pei_Close; try done; intros; done).
  destruct (wp_run _ _ _ _ _ Hw Hrun eq_refl) as (Hi & Hcl & Hd1). fold d in Hi, Hd1. fold d1 in Hd1.
  destruct (region_some i d Hwf Hi H0) as [r Hr]. split; [done|].
  assert (Hdesc : d1.(SmramDesc) = alter (map_state (fun x => Z.lor (clear x 1) 0x12)) (Z.to_nat i) d.(SmramDesc))
    by (by rewrite Hd1).
  split_and!.
  - eexists _, _. split_and!; [exact Hr| |reflexivity]. rewrite Hdesc, list_lookup_alter_eq, Hr. done.
  - intros j Hj. rewrite Hdesc. by apply list_lookup_alter_ne.
  - intros j x Hj Hne Hx Hopen.
    assert (Ho : d1.(OpenState) = true).
    { rewrite Hd1. cbn [set_open OpenState]. unfold any_open. apply existsb_exists. exists x. split; [|done].
      apply list_elem_of_In. apply (list_elem_of_lookup_2 _ j). rewrite lookup_take_lt by exact Hj.
      change (alter (map_state (fun x => Z.lor (clear x 1) 0x12)) (Z.to_nat i) (SmramDesc d) !! j = Some x).
      by rewrite list_lookup_alter_ne. }
    split; [done|]. intros k Hk. unfold Lock, mbind, M_bind, get. fold d1. rewrite Ho.
    assert (HN : d1.(NumberRegions) = d.(NumberRegions)) by (by rewrite Hd1). rewrite HN, Z.geb_leb.
    destruct (Z.leb_spec (NumberRegions d) k); [lia|done].
Qed.

(** *** On a board with two regions *)
#[local] Existing Instances PlainBus PiHeader.header PiHeader.header_ok.

Definition two_regions (st : Z) (h : Z) : pei :=
  let r := {| PhysicalStart := 0xFE00000; CpuStart := 0xFE00000; PhysicalSize := 0x1000; RegionState := st |} in
  {| data := {| NumberRegions := 2; SmramDesc := [r; r; zero_desc; zero_desc]; TsegSize := 0;
                LockState := false; OpenState := negb (h =? 0) |};
     hw := {| MDR := 0; MEA := 0; DeviceId := 0;
              regs := fun q => if decide (q = HSMMC) then h else 0; writes := [] |} |}.

Lemma pei_lock_final_witness :
  exists sts s1, exec_all [COpen 0; CClose 0; CLock 1] (two_regions 0x12 0) = Some (sts, s1) /\
    length sts = length [COpen 0; CClose 0; CLock 1] /\
    (s1.(data).(LockState) = true ->
     exists sts' s2, exec_all [COpen 0; COpen 1] s1 = Some (sts', s2) /\
       locked (hsmmc s1.(hw)) /\ closed (hsmmc s1.(hw)) /\ locked (hsmmc s2.(hw)) /\ closed (hsmmc s2.(hw)) /\
       s2.(data).(LockState) = true /\
       forall j k st, [COpen 0; COpen 1] !! j = Some k -> sts' !! j = Some st -> (forall i, k <> CLock i) ->
         st <> EFI_SUCCESS).
Proof.
  apply (pei_lock_final (two_regions 0x12 0) [COpen 0; CClose 0; CLock 1] [COpen 0; COpen 1]).
  - intros v0 v. reflexivity.
  - unfold wf. cbn. lia.
  - split_and!; reflexivity.
  - reflexivity.
  - repeat (apply List.Forall_cons; [vm_compute; discriminate|]); apply List.Forall_nil.
  - repeat (apply List.Forall_cons; [vm_compute; discriminate|]); apply List.Forall_nil.
Defined.

(** Both regions open; the first is closed. *)
Lemma pei_close_one_witness :
  exists s1, Close 0 (two_regions 1 6) = Some (EFI_SUCCESS, s1) /\
  closed (hsmmc s1.(hw)) /\ s1.(data).(OpenState) = true.
Proof.
  eexists. split; [reflexivity|].
  edestruct (pei_close_one 0 (two_regions 1 6)) as (Hc & _ & _ & Ho).
  - intros v0 v. reflexivity.
  - unfold wf. cbn. lia.
  - lia.
  - reflexivity.
  - split; [exact Hc|]. eapply (Ho 1%nat); [cbn; lia|discriminate|reflexivity|reflexivity].
Defined.
