(* ===== verification/UsbHcBits.v ===== *)
(** * The USB host controller's memory pool: one block

    Models the part of [QuarkSouthCluster/Usb/Ohci/Dxe/UsbHcMem.c] and [UsbHcMem.h] that allocates
    from a single block of memory, whose units of 64 bytes are tracked by an array of bits, and
    proves it a first-fit allocator. *)

From S2P Require Import Prelude.
#[local] Open Scope Z_scope.

(** ** [UsbHcMem.h] *)

Definition USBHC_MEM_UNIT : Z := 64.
Definition USBHC_MEM_UNIT_MASK : Z := USBHC_MEM_UNIT - 1.
Definition USBHC_MEM_DEFAULT_PAGES : Z := 16.

Definition USB_HC_BIT (a : Z) : Z := u32 (Z.shiftl 1 a).
Definition USB_HC_BIT_IS_SET (Data Bit : Z) : bool := Z.land Data (USB_HC_BIT Bit) =? USB_HC_BIT Bit.
(** The conversion to a 32-bit UINTN comes first. *)
Definition USB_HC_HIGH_32BIT (Addr64 : Z) : Z := u32 (Z.land (Z.shiftr (u32 Addr64) 32) 0xFFFFFFFF).
Definition USBHC_MEM_ROUND (Len : Z) : Z := Z.land (u32 (Len + USBHC_MEM_UNIT_MASK)) (u32 (Z.lnot USBHC_MEM_UNIT_MASK)).

(** The byte and bit after [Byte] and [Bit]. *)
Definition NEXT_BIT (Byte Bit : Z) : Z * Z := if Bit + 1 >? 7 then (Byte + 1, 0) else (Byte, Bit + 1).

(** A block; [Bits] is the address of the bit array and [BitArray] its bytes. *)
Record USBHC_MEM_BLOCK := {
  Bits : Z;
  BitArray : list Z;
  BitsLen : Z;
  Buf : Z;
  BufHost : Z;
  BufLen : Z;
  Mapping : Z;
  Next : Z
}.

Definition set_BitArray (l : list Z) (b : USBHC_MEM_BLOCK) : USBHC_MEM_BLOCK :=
  {| Bits := b.(Bits); BitArray := l; BitsLen := b.(BitsLen); Buf := b.(Buf); BufHost := b.(BufHost);
     BufLen := b.(BufLen); Mapping := b.(Mapping); Next := b.(Next) |}.
Definition set_Next (p : Z) (b : USBHC_MEM_BLOCK) : USBHC_MEM_BLOCK :=
  {| Bits := b.(Bits); BitArray := b.(BitArray); BitsLen := b.(BitsLen); Buf := b.(Buf);
     BufHost := b.(BufHost); BufLen := b.(BufLen); Mapping := b.(Mapping); Next := p |}.

(** ** [UsbHcMem.c] *)

(** The search loop of [UsbHcAllocMemFromBlock]: the final [StartByte], [StartBit] and [Available].
    Each iteration takes one of the block's bits, so [8 * BitsLen + 1] iterations are enough. *)
Fixpoint search_loop (n : nat) (BitArray : list Z) (BitsLen Units : Z)
    (Byte Bit StartByte StartBit Available : Z) : option (Z * Z * Z) :=
  match n with
  | O => None
  | S n =>
      if Byte <? BitsLen then
        d ← BitArray !! Z.to_nat Byte;
        if negb (USB_HC_BIT_IS_SET d Bit) then
          let Available := Available + 1 in
          if Available >=? Units then Some (StartByte, StartBit, Available)
          else
            let '(Byte, Bit) := NEXT_BIT Byte Bit in
            search_loop n BitArray BitsLen Units Byte Bit StartByte StartBit Available
        else
          let '(Byte, Bit) := NEXT_BIT Byte Bit in
          search_loop n BitArray BitsLen Units Byte Bit Byte Bit 0
      else Some (StartByte, StartBit, Available)
  end.

(** The loop that marks [n] units. *)
Fixpoint mark_loop (n : nat) (BitArray : list Z) (Byte Bit : Z) : option (list Z) :=
  match n with
  | O => Some BitArray
  | S n =>
      d ← BitArray !! Z.to_nat Byte;
      if USB_HC_BIT_IS_SET d Bit then None
      else
        let '(Byte', Bit') := NEXT_BIT Byte Bit in
        mark_loop n (<[Z.to_nat Byte := u8 (Z.lor d (USB_HC_BIT Bit))]> BitArray) Byte' Bit'
  end.

(** The pointer returned (0 for NULL) and the block afterwards. *)
Definition UsbHcAllocMemFromBlock (Block : USBHC_MEM_BLOCK) (Units : Z) : option (Z * USBHC_MEM_BLOCK) :=
  if Units =? 0 then None
  else
    '(StartByte, StartBit, Available) ←
      search_loop (S (Z.to_nat (8 * Block.(BitsLen)))) Block.(BitArray) Block.(BitsLen) Units 0 0 0 0 0;
    if Available <? Units then Some (0, Block)
    else
      l ← mark_loop (Z.to_nat Units) Block.(BitArray) StartByte StartBit;
      Some (u32 (Block.(BufHost) + (StartByte * 8 + StartBit) * USBHC_MEM_UNIT), set_BitArray l Block).

(** The loop of [UsbHcFreeMem] that clears [n] units. *)
Fixpoint clear_loop (n : nat) (BitArray : list Z) (Byte Bit : Z) : option (list Z) :=
  match n with
  | O => Some BitArray
  | S n =>
      d ← BitArray !! Z.to_nat Byte;
      if USB_HC_BIT_IS_SET d Bit then
        let '(Byte', Bit') := NEXT_BIT Byte Bit in
        clear_loop n (<[Z.to_nat Byte := u8 (Z.lxor d (USB_HC_BIT Bit))]> BitArray) Byte' Bit'
      else None
  end.

Definition UsbHcIsMemBlockEmpty (Block : USBHC_MEM_BLOCK) : bool :=
  forallb (fun d => d =? 0) (take (Z.to_nat Block.(BitsLen)) Block.(BitArray)).

(** ** The meaning of the bits *)

(** Unit [k] is in use. *)
Definition used (l : list Z) (k : Z) : bool := Z.testbit (default 0 (l !! Z.to_nat (k / 8))) (k mod 8).

(** The [n] units from [s] on are free. *)
Definition free_run (l : list Z) (s n : Z) : Prop := forall k, s <= k < s + n -> used l k = false.

Definition bytes (l : list Z) : Prop := Forall (in_width 8) l.

Lemma USB_HC_BIT_eq b : 0 <= b < 8 -> USB_HC_BIT b = 2 ^ b.
Proof.
  intros Hb. unfold USB_HC_BIT. rewrite Z.shiftl_1_l. apply wrap_small. split; [lia|].
  apply Z.pow_lt_mono_r; lia.
Qed.

Lemma bit_is_set d b : 0 <= b < 8 -> USB_HC_BIT_IS_SET d b = Z.testbit d b.
Proof.
  intros Hb. unfold USB_HC_BIT_IS_SET. rewrite USB_HC_BIT_eq by done.
  pose proof (flag_test d b ltac:(lia)) as Hf. assert (Hp : 0 < 2 ^ b) by (apply Z.pow_pos_nonneg; lia).
  destruct (Z.testbit d b) eqn:E.
  - apply Z.eqb_eq. bits i Hi. rewrite Z.pow2_bits_eqb by lia. destruct (Z.eqb_spec b i) as [<-|].
    + by rewrite E.
    + apply andb_false_r.
  - apply negb_false_iff, Z.eqb_eq in Hf. rewrite Hf. apply Z.eqb_neq. lia.
Qed.

(** Byte and bit of a unit. *)
Lemma next_bit k : 0 <= k -> NEXT_BIT (k / 8) (k mod 8) = ((k + 1) / 8, (k + 1) mod 8).
Proof.
  intros Hk. unfold NEXT_BIT. pose proof (Z.div_mod k 8 ltac:(lia)). pose proof (Z.mod_pos_bound k 8 ltac:(lia)).
  destruct (Z.gtb_spec (k mod 8 + 1) 7).
  - replace (k + 1) with (8 * (k / 8 + 1) + 0) by lia. f_equal.
    + apply Z.div_unique with 0; lia.
    + apply Z.mod_unique with (k / 8 + 1); lia.
  - f_equal.
    + apply Z.div_unique with (k mod 8 + 1); lia.
    + apply Z.mod_unique with (k / 8); lia.
Qed.

Lemma unit_byte k n : 0 <= k < 8 * n -> 0 <= k / 8 < n.
Proof. intros Hk. split; [apply Z.div_pos; lia|apply Z.div_lt_upper_bound; lia]. Qed.

Lemma unit_mod k : 0 <= k mod 8 < 8.
Proof. apply Z.mod_pos_bound. lia. Qed.

Lemma unit_eq k j : 0 <= k -> 0 <= j -> k / 8 = j / 8 -> k mod 8 = j mod 8 -> k = j.
Proof. intros Hk Hj Hd Hm. rewrite (Z.div_mod k 8), (Z.div_mod j 8) by lia. congruence. Qed.

Lemma unit_lookup l k : 0 <= k < 8 * Z.of_nat (length l) ->
  exists d, l !! Z.to_nat (k / 8) = Some d /\ used l k = Z.testbit d (k mod 8).
Proof.
  intros Hk. apply unit_byte in Hk. destruct (lookup_lt_is_Some_2 l (Z.to_nat (k / 8))) as [d Hd]; [lia|].
  exists d. split; [done|]. unfold used. by rewrite Hd.
Qed.

(** A change of one bit. *)
Lemma used_insert l k x :
  0 <= k < 8 * Z.of_nat (length l) ->
  forall j, 0 <= j -> used (<[Z.to_nat (k / 8) := x]> l) j =
    if j / 8 =? k / 8 then Z.testbit x (j mod 8) else used l j.
Proof.
  intros Hk j Hj. pose proof (unit_byte _ _ Hk) as Hb. unfold used.
  destruct (Z.eqb_spec (j / 8) (k / 8)) as [E|E].
  - by rewrite E, list_lookup_insert_eq by lia.
  - rewrite list_lookup_insert_ne; [done|]. intros H. apply E.
    assert (0 <= j / 8) by (apply Z.div_pos; lia). lia.
Qed.

Lemma used_set l k d :
  0 <= k < 8 * Z.of_nat (length l) -> l !! Z.to_nat (k / 8) = Some d ->
  forall j, 0 <= j -> used (<[Z.to_nat (k / 8) := u8 (Z.lor d (USB_HC_BIT (k mod 8)))]> l) j =
    (j =? k) || used l j.
Proof.
  intros Hk Hd j Hj. rewrite used_insert by done. pose proof (unit_mod k) as Hm.
  rewrite USB_HC_BIT_eq by done. destruct (Z.eqb_spec (j / 8) (k / 8)) as [E|E].
  - pose proof (unit_mod j) as Hmj. rewrite wrap_bit, Z.lor_spec, Z.pow2_bits_eqb by lia.
    unfold used. rewrite E, Hd. cbn [default from_option id].
    destruct (Z.ltb_spec (j mod 8) 8); [|lia]. rewrite andb_true_r, orb_comm. f_equal.
    destruct (Z.eqb_spec j k) as [->|Hne]; [apply Z.eqb_refl|]. apply Z.eqb_neq. intros Hb.
    apply Hne, unit_eq; lia.
  - destruct (Z.eqb_spec j k) as [->|]; [done|]. done.
Qed.

Lemma used_flip l k d :
  0 <= k < 8 * Z.of_nat (length l) -> l !! Z.to_nat (k / 8) = Some d -> used l k = true ->
  forall j, 0 <= j -> used (<[Z.to_nat (k / 8) := u8 (Z.lxor d (USB_HC_BIT (k mod 8)))]> l) j =
    negb (j =? k) && used l j.
Proof.
  intros Hk Hd Hu j Hj. rewrite used_insert by done. pose proof (unit_mod k) as Hm.
  rewrite USB_HC_BIT_eq by done. unfold used in Hu. rewrite Hd in Hu. cbn [default from_option id] in Hu.
  destruct (Z.eqb_spec (j / 8) (k / 8)) as [E|E].
  - pose proof (unit_mod j) as Hmj. rewrite wrap_bit, Z.lxor_spec, Z.pow2_bits_eqb by lia.
    unfold used. rewrite E, Hd. cbn [default from_option id].
    destruct (Z.ltb_spec (j mod 8) 8); [|lia]. rewrite andb_true_r.
    destruct (Z.eqb_spec j k) as [->|Hne]; [by rewrite Z.eqb_refl, Hu|].
    replace (k mod 8 =? j mod 8) with false; [by rewrite xorb_false_r|].
    symmetry. apply Z.eqb_neq. intros Hb. apply Hne, unit_eq; lia.
  - destruct (Z.eqb_spec j k) as [->|]; [done|]. done.
Qed.

Lemma bytes_insert l k x : bytes l -> bytes (<[k := u8 x]> l).
Proof. intros Hl. apply Forall_insert; [done|]. apply wrap_bounds. lia. Qed.

(** The bits determine the bytes. *)
Lemma bytes_ext l l' :
  bytes l -> bytes l' -> length l = length l' -> (forall k, 0 <= k -> used l k = used l' k) -> l = l'.
Proof.
  intros Hb Hb' Hlen Hu. apply list_eq. intros i. destruct (Nat.lt_ge_cases i (length l)) as [Hi|Hi].
  - destruct (lookup_lt_is_Some_2 l i Hi) as [d Hd]. destruct (lookup_lt_is_Some_2 l' i) as [d' Hd']; [lia|].
    rewrite Hd, Hd'. f_equal. assert (Hw : in_width 8 d) by (by eapply Forall_lookup_1 in Hb).
    assert (Hw' : in_width 8 d') by (by eapply Forall_lookup_1 in Hb').
    bits j Hj. destruct (Z.lt_ge_cases j 8) as [Hj8|Hj8]; [|by rewrite !(in_width_bit 8)].
    specialize (Hu (8 * Z.of_nat i + j) ltac:(lia)). unfold used in Hu.
    replace ((8 * Z.of_nat i + j) / 8) with (Z.of_nat i) in Hu by (apply Z.div_unique with j; lia).
    replace ((8 * Z.of_nat i + j) mod 8) with j in Hu by (apply Z.mod_unique with (Z.of_nat i); lia).
    rewrite Nat2Z.id, Hd, Hd' in Hu. exact Hu.
  - by rewrite !lookup_ge_None_2 by lia.
Qed.

(** ** The loops *)

(** The search: at unit [k], the free units from [s] on are not yet enough, and no free run of the
    length wanted ends at or before [k]. *)
Lemma search_loop_ok n l N Units k s :
  N = Z.of_nat (length l) -> 0 < Units -> 0 <= s <= k -> k <= 8 * N -> 8 * N - k < Z.of_nat n ->
  k - s < Units -> free_run l s (k - s) -> (s = 0 \/ used l (s - 1) = true) ->
  (forall s', 0 <= s' -> s' + Units <= k -> ~ free_run l s' Units) ->
  exists s' A, search_loop n l N Units (k / 8) (k mod 8) (s / 8) (s mod 8) (k - s) = Some (s' / 8, s' mod 8, A) /\
    ((A = Units /\ 0 <= s' /\ s' + Units <= 8 * N /\ free_run l s' Units /\
      forall s0, 0 <= s0 < s' -> ~ free_run l s0 Units) \/
     (A < Units /\ forall s0, 0 <= s0 -> s0 + Units <= 8 * N -> ~ free_run l s0 Units)).
Proof.
  intros HN HU. revert k s. induction n as [|n IH]; intros k s Hs Hk Hn Hav Hrun Hprev Hnone; [lia|].
  cbn [search_loop]. destruct (Z.ltb_spec (k / 8) N) as [Hlt|Hge]; cycle 1.
  { assert (k = 8 * N).
    { destruct (Z.eq_dec k (8 * N)); [done|]. pose proof (unit_byte k N ltac:(lia)). lia. }
    exists s, (k - s). split; [done|]. right. split; [done|]. intros s0 H0 Hfit. apply Hnone; lia. }
  assert (Hk8 : 0 <= k < 8 * Z.of_nat (length l)).
  { pose proof (Z.div_mod k 8 ltac:(lia)). pose proof (unit_mod k). lia. }
  destruct (unit_lookup l k Hk8) as (d & Hd & Hu). rewrite Hd, some_bind, bit_is_set, <- Hu by apply unit_mod.
  assert (Hafter : used l k = true \/ k + 1 - s < Units ->
    forall s', 0 <= s' -> s' + Units <= k + 1 -> ~ free_run l s' Units).
  { intros Hor s' H0 Hfit Hr. destruct (Z.eq_dec (s' + Units) (k + 1)) as [E|]; [|apply (Hnone s'); [lia|lia|done]].
    destruct Hor as [Hused|Hshort]; [rewrite Hr in Hused by lia; done|].
    destruct Hprev as [->|Hprev]; [lia|]. rewrite Hr in Hprev by lia. done. }
  rewrite next_bit by lia. destruct (used l k) eqn:Huk; cbn [negb].
  - specialize (IH (k + 1) (k + 1)). rewrite Z.sub_diag in IH. apply IH; [lia|lia|lia|lia|intros j Hj; lia| |by apply Hafter; left].
    right. by replace (k + 1 - 1) with k by lia.
  - assert (Hrun' : free_run l s (k + 1 - s)).
    { intros j Hj. destruct (Z.eq_dec j k) as [->|]; [done|apply Hrun; lia]. }
    destruct (Z.geb_spec (k - s + 1) Units).
    + exists s, (k - s + 1). split; [done|]. left. split_and!; [lia|lia|lia| |].
      * by replace Units with (k + 1 - s) by lia.
      * intros s0 H0. apply Hnone; lia.
    + replace (k - s + 1) with (k + 1 - s) by lia. apply IH; [lia|lia|lia|lia|done|done|apply Hafter; right; lia].
Qed.

Lemma mark_loop_ok n l k :
  bytes l -> 0 <= k -> k + Z.of_nat n <= 8 * Z.of_nat (length l) -> free_run l k (Z.of_nat n) ->
  exists l', mark_loop n l (k / 8) (k mod 8) = Some l' /\ length l' = length l /\ bytes l' /\
    forall j, 0 <= j -> used l' j = ((k <=? j) && (j <? k + Z.of_nat n)) || used l j.
Proof.
  revert l k. induction n as [|n IH]; intros l k Hb Hk Hfit Hrun; cbn [mark_loop].
  { exists l. split_and!; [done..|]. intros j Hj. bools; done. }
  assert (Hk8 : 0 <= k < 8 * Z.of_nat (length l)) by lia.
  destruct (unit_lookup l k Hk8) as (d & Hd & Hu). rewrite Hd, some_bind, bit_is_set, <- Hu by apply unit_mod.
  rewrite Hrun by lia. rewrite next_bit by done. set (l1 := <[_ := _]> l).
  pose proof (used_set l k d Hk8 Hd) as Hset. fold l1 in Hset.
  destruct (IH l1 (k + 1)) as (l' & Hl' & Hlen & Hb' & Hused).
  - by apply bytes_insert.
  - lia.
  - unfold l1. rewrite length_insert. lia.
  - intros j Hj. rewrite Hset by lia. rewrite Hrun by lia. destruct (Z.eqb_spec j k); [lia|done].
  - exists l'. split_and!; [done|unfold l1 in Hlen; by rewrite length_insert in Hlen|done|].
    intros j Hj. rewrite Hused, Hset by done. destruct (Z.eqb_spec j k) as [->|].
    + bools; done.
    + cbn [orb]. bools; done.
Qed.

Lemma clear_loop_ok n l k :
  bytes l -> 0 <= k -> k + Z.of_nat n <= 8 * Z.of_nat (length l) ->
  (forall j, k <= j < k + Z.of_nat n -> used l j = true) ->
  exists l', clear_loop n l (k / 8) (k mod 8) = Some l' /\ length l' = length l /\ bytes l' /\
    forall j, 0 <= j -> used l' j = negb ((k <=? j) && (j <? k + Z.of_nat n)) && used l j.
Proof.
  revert l k. induction n as [|n IH]; intros l k Hb Hk Hfit Hrun; cbn [clear_loop].
  { exists l. split_and!; [done..|]. intros j Hj. bools; done. }
  assert (Hk8 : 0 <= k < 8 * Z.of_nat (length l)) by lia.
  destruct (unit_lookup l k Hk8) as (d & Hd & Hu). rewrite Hd, some_bind, bit_is_set, <- Hu by apply unit_mod.
  rewrite Hrun by lia. rewrite next_bit by done. set (l1 := <[_ := _]> l).
  pose proof (used_flip l k d Hk8 Hd ltac:(apply Hrun; lia)) as Hflip. fold l1 in Hflip.
  destruct (IH l1 (k + 1)) as (l' & Hl' & Hlen & Hb' & Hused).
  - by apply bytes_insert.
  - lia.
  - unfold l1. rewrite length_insert. lia.
  - intros j Hj. rewrite Hflip by lia. rewrite Hrun by lia. destruct (Z.eqb_spec j k); [lia|done].
  - exists l'. split_and!; [done|unfold l1 in Hlen; by rewrite length_insert in Hlen|done|].
    intros j Hj. rewrite Hused, Hflip by done. destruct (Z.eqb_spec j k) as [->|].
    + bools; done.
    + cbn [negb andb]. bools; done.
Qed.

(** ** Allocation from a block *)

(** A block that the pool made: the bit array has [BitsLen] bytes, one bit for each unit of the
    buffer, and the buffer does not wrap around. *)
Definition block_wf (b : USBHC_MEM_BLOCK) : Prop :=
  b.(BitsLen) = Z.of_nat (length b.(BitArray)) /\ bytes b.(BitArray) /\
  b.(BufLen) = 512 * b.(BitsLen) /\ b.(BufLen) < 2 ^ 31 /\ 0 < b.(BufHost) /\ b.(BufHost) + b.(BufLen) < 2 ^ 32.

Lemma alloc_from_block_ok b Units :
  block_wf b -> 0 < Units ->
  exists p b', UsbHcAllocMemFromBlock b Units = Some (p, b') /\
    ((p = 0 /\ b' = b /\ forall s, 0 <= s -> s + Units <= 8 * b.(BitsLen) -> ~ free_run b.(BitArray) s Units) \/
     (exists s l, p = b.(BufHost) + 64 * s /\ 0 <= s /\ s + Units <= 8 * b.(BitsLen) /\
        free_run b.(BitArray) s Units /\ (forall s0, 0 <= s0 < s -> ~ free_run b.(BitArray) s0 Units) /\
        b' = set_BitArray l b /\ block_wf b' /\
        forall j, 0 <= j -> used l j = ((s <=? j) && (j <? s + Units)) || used b.(BitArray) j)).
Proof.
  intros (HN & Hby & Hlen & H31 & Hh & Hend) HU. unfold UsbHcAllocMemFromBlock. destruct (Z.eqb_spec Units 0); [lia|].
  destruct (search_loop_ok (S (Z.to_nat (8 * b.(BitsLen)))) b.(BitArray) b.(BitsLen) Units 0 0)
    as (s & A & Hs & Hres); [done|done|lia|lia|lia|lia|intros j Hj; lia|by left|intros s' H0 Hf; lia|].
  change (0 / 8) with 0 in Hs. change (0 mod 8) with 0 in Hs. change (0 - 0) with 0 in Hs.
  rewrite Hs, some_bind. destruct Hres as [(-> & Hs0 & Hfit & Hrun & Hfirst)|(HA & Hnone)].
  - destruct (Z.ltb_spec Units Units); [lia|].
    destruct (mark_loop_ok (Z.to_nat Units) b.(BitArray) s) as (l & Hl & Hll & Hbl & Hul);
      [done|done|lia|by rewrite Z2Nat.id by lia|]. rewrite Z2Nat.id in Hul by lia.
    rewrite Hl, some_bind. eexists _, _. split; [done|]. right. exists s, l.
    pose proof (Z.div_mod s 8 ltac:(lia)). unfold USBHC_MEM_UNIT.
    split_and!; [rewrite wrap_small; lia|done|done|done|done|done| |done].
    split_and!; cbn; [congruence|done..].
  - destruct (Z.ltb_spec A Units); [|lia]. exists 0, b. split; [done|]. left. done.
Qed.

Lemma block_empty_ok b :
  block_wf b -> UsbHcIsMemBlockEmpty b = true <-> forall k, 0 <= k -> used b.(BitArray) k = false.
Proof.
  intros (HN & Hby & _). unfold UsbHcIsMemBlockEmpty. rewrite take_ge by lia. rewrite forallb_forall. split.
  - intros Hall k Hk. destruct (Z.lt_ge_cases k (8 * Z.of_nat (length b.(BitArray)))) as [Hlt|Hge].
    + destruct (unit_lookup b.(BitArray) k) as (d & Hd & ->); [lia|].
      apply list_elem_of_lookup_2, list_elem_of_In, Hall, Z.eqb_eq in Hd as ->. apply Z.testbit_0_l.
    + unfold used. rewrite lookup_ge_None_2; [apply Z.testbit_0_l|].
      assert (Z.of_nat (length b.(BitArray)) <= k / 8) by (apply Z.div_le_lower_bound; lia). lia.
  - intros Hall d Hd. apply Z.eqb_eq. apply list_elem_of_In, list_elem_of_lookup_1 in Hd as [i Hi].
    assert (Hw : in_width 8 d) by (by eapply Forall_lookup_1 in Hby).
    bits j Hj. destruct (Z.lt_ge_cases j 8) as [Hj8|Hj8]; [|by apply (in_width_bit 8)].
    specialize (Hall (8 * Z.of_nat i + j) ltac:(lia)). unfold used in Hall.
    replace ((8 * Z.of_nat i + j) / 8) with (Z.of_nat i) in Hall by (apply Z.div_unique with j; lia).
    replace ((8 * Z.of_nat i + j) mod 8) with j in Hall by (apply Z.mod_unique with (Z.of_nat i); lia).
    rewrite Nat2Z.id, Hi in Hall. exact Hall.
Qed.

(** ** Property *)

(** allocation from one block is first-fit. It always returns: if some [Units] consecutive
    units of the block are free, the result is the address of the first such run, whose units and
    no others have become used; otherwise it is NULL and the block is as before. *)
Theorem UsbHcAllocMemFromBlock_first_fit (b : USBHC_MEM_BLOCK) (Units : Z) :
  block_wf b -> 0 < Units ->
  exists p b', UsbHcAllocMemFromBlock b Units = Some (p, b') /\ block_wf b' /\
    if bool_decide (p = 0)
    then b' = b /\ forall s, 0 <= s -> s + Units <= 8 * b.(BitsLen) -> ~ free_run b.(BitArray) s Units
    else exists s l, p = b.(BufHost) + 64 * s /\ 0 <= s /\ s + Units <= 8 * b.(BitsLen) /\
      free_run b.(BitArray) s Units /\ (forall s0, 0 <= s0 < s -> ~ free_run b.(BitArray) s0 Units) /\
      b' = set_BitArray l b /\
      forall j, 0 <= j -> used l j = ((s <=? j) && (j <? s + Units)) || used b.(BitArray) j.
Proof.
  intros Hwf HU. destruct (alloc_from_block_ok b Units Hwf HU) as (p & b' & Hrun & [(-> & -> & Hno)|Hyes]).
  - exists 0, b. by split_and!.
  - destruct Hyes as (s & l & -> & Hs & Hfit & Hfree & Hfirst & -> & Hwf' & Hl).
    exists (b.(BufHost) + 64 * s), (set_BitArray l b). split_and!; [done|done|].
    destruct Hwf as (_ & _ & _ & _ & Hh & _). rewrite bool_decide_eq_false_2 by lia.
    exists s, l. by split_and!.
Qed.

(** Three units from a block of sixteen of which the first and the third are in use. *)
Definition some_block : USBHC_MEM_BLOCK :=
  {| Bits := 0x1000; BitArray := [0x05; 0x00]; BitsLen := 2; Buf := 0x20000; BufHost := 0x20000;
     BufLen := 1024; Mapping := 1; Next := 0 |}.

Lemma UsbHcAllocMemFromBlock_first_fit_witness :
  UsbHcAllocMemFromBlock some_block 3 = Some (0x200C0, set_BitArray [0x3D; 0x00] some_block) /\
  exists p b', UsbHcAllocMemFromBlock some_block 3 = Some (p, b') /\ block_wf b' /\
    if bool_decide (p = 0)
    then b' = some_block /\ forall s, 0 <= s -> s + 3 <= 16 -> ~ free_run some_block.(BitArray) s 3
    else exists s l, p = 0x20000 + 64 * s /\ 0 <= s /\ s + 3 <= 16 /\
      free_run some_block.(BitArray) s 3 /\ (forall s0, 0 <= s0 < s -> ~ free_run some_block.(BitArray) s0 3) /\
      b' = set_BitArray l some_block /\
      forall j, 0 <= j -> used l j = ((s <=? j) && (j <? s + 3)) || used some_block.(BitArray) j.
Proof.
  split; [reflexivity|]. apply (UsbHcAllocMemFromBlock_first_fit some_block 3).
  - split_and!; [done|repeat constructor; by vm_compute|done..].
  - lia.
Defined.
