(* ===== verification/UsbHcMem.v ===== *)
(** * The USB host controller's memory pool: operations

    Models [QuarkSouthCluster/Usb/Ohci/Dxe/UsbHcMem.c]: a pool is a linked list of blocks, each
    with its bit array ([UsbHcBits]) and a buffer that is mapped for the controller. The blocks
    live in a heap of their own, by address, so that the list's pointers are what they are in the
    code; the firmware's services are the interface [HcServices]. *)

From S2P Require Import Prelude UsbHcBits.
From stdpp Require Import gmap.
#[local] Open Scope Z_scope.

(** ** The services outside the file *)

Class HcServices (E : Type) := {
  AllocatePool : Z -> M E Z;
  AllocateZeroPool : Z -> M E Z;
  FreePool : Z -> M E unit;
  (* PciIo: pages to address; address and size to size, bus address and mapping *)
  AllocateBuffer : Z -> M E (EFI_STATUS * Z);
  Map : Z -> Z -> M E (EFI_STATUS * Z * Z * Z);
  Unmap : Z -> M E unit;
  FreeBuffer : Z -> Z -> M E unit;
  (* macros of the UEFI headers *)
  EFI_PAGE_SIZE : Z;
  EFI_PAGES_TO_SIZE : Z -> Z;
  EFI_SIZE_TO_PAGES : Z -> Z
}.

(** [Self] is the address of the pool. *)
Record USBHC_MEM_POOL := { Self : Z; Check4G : bool; Which4G : Z; Head : Z }.

(** Sizes of the two structures with 32-bit pointers. *)
Definition sizeof_USBHC_MEM_BLOCK : Z := 28.
Definition sizeof_USBHC_MEM_POOL : Z := 16.

(** The firmware, the blocks by address, and the bytes of memory. *)
Record hc (E : Type) := { env : E; heap : gmap Z USBHC_MEM_BLOCK; mem : Z -> Z }.
Arguments env {E} _.
Arguments heap {E} _.
Arguments mem {E} _.

Section Ops.
Context {E : Type} {HS : HcServices E}.

Definition on_env {A} (m : M E A) : M (hc E) A := fun s =>
  match m s.(env) with Some (a, e) => Some (a, {| env := e; heap := s.(heap); mem := s.(mem) |}) | None => None end.

(** A 32-bit signed difference of pointers. *)
Definition s32 (x : Z) : Z := if u32 x <? 2 ^ 31 then u32 x else u32 x - 2 ^ 32.

(** Access to a block: its address must be that of a block. *)
Definition deref (p : Z) : M (hc E) USBHC_MEM_BLOCK := s ← get; lift (s.(heap) !! p).
Definition put_block (p : Z) (b : USBHC_MEM_BLOCK) : M (hc E) unit :=
  modify (fun s => {| env := s.(env); heap := <[p := b]> s.(heap); mem := s.(mem) |}).

(** [gBS->FreePool] on a block: it is gone. *)
Definition free_block (p : Z) : M (hc E) unit :=
  _ ← on_env (FreePool p);
  modify (fun s => {| env := s.(env); heap := delete p s.(heap); mem := s.(mem) |}).

Definition ZeroMem (p Size : Z) : M (hc E) unit :=
  modify (fun s => {| env := s.(env); heap := s.(heap);
                      mem := fun a => if (p <=? a) && (a <? p + Size) then 0 else s.(mem) a |}).

(** A bound on the length of a list of blocks. *)
Definition list_fuel : M (hc E) nat := s ← get; mret (S (size s.(heap))).

Definition UsbHcAllocMemBlock (Pool : USBHC_MEM_POOL) (Pages : Z) : M (hc E) Z :=
  Block ← on_env (AllocateZeroPool sizeof_USBHC_MEM_BLOCK);
  if Block =? 0 then mret 0 else
  _ ← ASSERT (USBHC_MEM_UNIT * 8 <=? EFI_PAGE_SIZE);
  let BufLen := EFI_PAGES_TO_SIZE Pages in
  let BitsLen := BufLen / (USBHC_MEM_UNIT * 8) in
  Bits ← on_env (AllocateZeroPool BitsLen);
  let b := {| Bits := Bits; BitArray := replicate (Z.to_nat BitsLen) 0; BitsLen := BitsLen; Buf := 0;
              BufHost := 0; BufLen := BufLen; Mapping := 0; Next := 0 |} in
  _ ← put_block Block b;
  if Bits =? 0 then _ ← free_block Block; mret 0 else
  '(Status, BufHost) ← on_env (AllocateBuffer Pages);
  if EFI_ERROR Status then _ ← on_env (FreePool Bits); _ ← free_block Block; mret 0 else
  '(Status, Bytes, MappedAddr, Mapping) ← on_env (Map BufHost (EFI_PAGES_TO_SIZE Pages));
  if EFI_ERROR Status || negb (Bytes =? EFI_PAGES_TO_SIZE Pages) then
    _ ← on_env (FreeBuffer Pages BufHost); _ ← on_env (FreePool Bits); _ ← free_block Block; mret 0
  else if Pool.(Check4G) && negb (Pool.(Which4G) =? USB_HC_HIGH_32BIT MappedAddr) then
    _ ← on_env (Unmap Mapping);
    _ ← on_env (FreeBuffer Pages BufHost); _ ← on_env (FreePool Bits); _ ← free_block Block; mret 0
  else
    _ ← put_block Block {| Bits := Bits; BitArray := b.(BitArray); BitsLen := BitsLen; Buf := u32 MappedAddr;
                           BufHost := BufHost; BufLen := BufLen; Mapping := Mapping; Next := 0 |};
    mret Block.

Definition UsbHcFreeMemBlock (Pool : USBHC_MEM_POOL) (Block : Z) : M (hc E) unit :=
  _ ← ASSERT (negb (Block =? 0));
  b ← deref Block;
  _ ← on_env (Unmap b.(Mapping));
  _ ← on_env (FreeBuffer (EFI_SIZE_TO_PAGES b.(BufLen)) b.(BufHost));
  _ ← on_env (FreePool b.(Bits));
  free_block Block.

Definition contains (b : USBHC_MEM_BLOCK) (Mem AllocSize : Z) : bool :=
  (b.(BufHost) <=? Mem) && (u32 (Mem + AllocSize) <=? u32 (b.(BufHost) + b.(BufLen))).

(** The search for the block that contains a range: 0 when there is none. *)
Fixpoint find_loop (n : nat) (Mem AllocSize Block : Z) : M (hc E) Z :=
  match n with
  | O => stop
  | S n =>
      if Block =? 0 then mret 0
      else
        b ← deref Block;
        if contains b Mem AllocSize then mret Block else find_loop n Mem AllocSize b.(Next)
  end.

Definition UsbHcGetPciAddressForHostMem (Pool : USBHC_MEM_POOL) (Mem Size : Z) : M (hc E) Z :=
  let AllocSize := USBHC_MEM_ROUND Size in
  if Mem =? 0 then mret 0 else
  n ← list_fuel;
  Block ← find_loop n Mem AllocSize Pool.(Head);
  _ ← ASSERT (negb (Block =? 0));
  b ← deref Block;
  let Offset := u32 (Mem - b.(BufHost)) in
  mret (u32 (b.(Buf) + Offset)).

Definition UsbHcInsertMemBlockToPool (Head Block : Z) : M (hc E) unit :=
  _ ← ASSERT (negb (Head =? 0) && negb (Block =? 0));
  h ← deref Head;
  b ← deref Block;
  _ ← put_block Block (set_Next h.(Next) b);
  h ← deref Head;
  put_block Head (set_Next Block h).

Fixpoint unlink_loop (n : nat) (BlockToUnlink Block : Z) : M (hc E) unit :=
  match n with
  | O => stop
  | S n =>
      if Block =? 0 then mret tt
      else
        b ← deref Block;
        if b.(Next) =? BlockToUnlink then
          u ← deref BlockToUnlink;
          _ ← put_block Block (set_Next u.(Next) b);
          u ← deref BlockToUnlink;
          put_block BlockToUnlink (set_Next 0 u)
        else unlink_loop n BlockToUnlink b.(Next)
  end.

Definition UsbHcUnlinkMemBlock (Head BlockToUnlink : Z) : M (hc E) unit :=
  _ ← ASSERT (negb (Head =? 0) && negb (BlockToUnlink =? 0));
  n ← list_fuel;
  unlink_loop n BlockToUnlink Head.

(** The new pool, or nothing. *)
Definition UsbHcInitMemPool (Check4G : bool) (Which4G : Z) : M (hc E) (option USBHC_MEM_POOL) :=
  Pool ← on_env (AllocatePool sizeof_USBHC_MEM_POOL);
  if Pool =? 0 then mret None else
  Head ← UsbHcAllocMemBlock {| Self := Pool; Check4G := Check4G; Which4G := Which4G; Head := 0 |}
           USBHC_MEM_DEFAULT_PAGES;
  if Head =? 0 then _ ← on_env (FreePool Pool); mret None
  else mret (Some {| Self := Pool; Check4G := Check4G; Which4G := Which4G; Head := Head |}).

Fixpoint free_loop (n : nat) (Pool : USBHC_MEM_POOL) (Block : Z) : M (hc E) unit :=
  match n with
  | O => stop
  | S n =>
      if Block =? 0 then mret tt
      else
        _ ← UsbHcUnlinkMemBlock Pool.(Head) Block;
        _ ← UsbHcFreeMemBlock Pool Block;
        h ← deref Pool.(Head);
        free_loop n Pool h.(Next)
  end.

Definition UsbHcFreeMemPool (Pool : USBHC_MEM_POOL) : M (hc E) EFI_STATUS :=
  _ ← ASSERT (negb (Pool.(Head) =? 0));
  n ← list_fuel;
  h ← deref Pool.(Head);
  _ ← free_loop n Pool h.(Next);
  _ ← UsbHcFreeMemBlock Pool Pool.(Head);
  _ ← on_env (FreePool Pool.(Self));
  mret EFI_SUCCESS.

(** The loop of [UsbHcAllocateMem] over the blocks that exist. *)
Fixpoint alloc_loop (n : nat) (Size Units Block : Z) : M (hc E) Z :=
  match n with
  | O => stop
  | S n =>
      if Block =? 0 then mret 0
      else
        b ← deref Block;
        '(Mem, b) ← lift (UsbHcAllocMemFromBlock b Units);
        _ ← put_block Block b;
        if negb (Mem =? 0) then _ ← ZeroMem Mem Size; mret Mem
        else alloc_loop n Size Units b.(Next)
  end.

Definition UsbHcAllocateMem (Pool : USBHC_MEM_POOL) (Size : Z) : M (hc E) Z :=
  let AllocSize := USBHC_MEM_ROUND Size in
  _ ← ASSERT (negb (Pool.(Head) =? 0));
  n ← list_fuel;
  Mem ← alloc_loop n Size (AllocSize / USBHC_MEM_UNIT) Pool.(Head);
  if negb (Mem =? 0) then mret Mem else
  let Pages := if AllocSize >? EFI_PAGES_TO_SIZE USBHC_MEM_DEFAULT_PAGES
               then u32 (EFI_SIZE_TO_PAGES AllocSize + 1) else USBHC_MEM_DEFAULT_PAGES in
  NewBlock ← UsbHcAllocMemBlock Pool Pages;
  if NewBlock =? 0 then mret 0 else
  _ ← UsbHcInsertMemBlockToPool Pool.(Head) NewBlock;
  b ← deref NewBlock;
  '(Mem, b) ← lift (UsbHcAllocMemFromBlock b (AllocSize / USBHC_MEM_UNIT));
  _ ← put_block NewBlock b;
  if negb (Mem =? 0) then _ ← ZeroMem Mem Size; mret Mem else mret Mem.

Definition UsbHcFreeMem (Pool : USBHC_MEM_POOL) (Mem Size : Z) : M (hc E) unit :=
  let AllocSize := USBHC_MEM_ROUND Size in
  n ← list_fuel;
  Block ← find_loop n Mem AllocSize Pool.(Head);
  _ ← (if Block =? 0 then mret tt
       else
         b ← deref Block;
         let unit := Z.quot (s32 (Mem - b.(BufHost))) USBHC_MEM_UNIT in
         l ← lift (clear_loop (Z.to_nat (AllocSize / USBHC_MEM_UNIT)) b.(BitArray)
                     (u32 (Z.quot unit 8)) (u32 (Z.rem unit 8)));
         put_block Block (set_BitArray l b));
  _ ← ASSERT (negb (Block =? 0));
  b ← deref Block;
  if negb (Block =? Pool.(Head)) && UsbHcIsMemBlockEmpty b then
    _ ← UsbHcUnlinkMemBlock Pool.(Head) Block;
    UsbHcFreeMemBlock Pool Block
  else mret tt.
End Ops.
