(* ===== verification/UsbHcSpec.v ===== *)
(** * The USB host controller's memory pool: its specification

    The pool against an abstract account of the addresses in use: every operation keeps the
    invariant [pool_ok] and has the abstract effect expected of an allocator. *)

From S2P Require Import Prelude UsbHcBits UsbHcMem UsbHcPool.
From stdpp Require Import gmap.
#[local] Open Scope Z_scope.

(** ** The abstract state *)

(** The addresses of a block in use, and those of a list of blocks. *)
Definition block_uses (b : USBHC_MEM_BLOCK) (x : Z) : Prop :=
  b.(BufHost) <= x < b.(BufHost) + b.(BufLen) /\ used b.(BitArray) ((x - b.(BufHost)) / 64) = true.
Definition in_use (bs : list (Z * USBHC_MEM_BLOCK)) (x : Z) : Prop := Exists (fun y => block_uses y.2 x) bs.

Lemma in_use_middle pre a b post x :
  in_use (pre ++ (a, b) :: post) x <-> in_use pre x \/ block_uses b x \/ in_use post x.
Proof. unfold in_use. by rewrite Exists_app, Exists_cons. Qed.

(** The unit of an address. *)
Lemma unit_range h k U x :
  (h + 64 * k <= x < h + 64 * k + 64 * U) <-> k <= (x - h) / 64 < k + U.
Proof.
  pose proof (Z.div_mod (x - h) 64 ltac:(lia)). pose proof (Z.mod_pos_bound (x - h) 64 ltac:(lia)). lia.
Qed.

Lemma in_range_unit h k U x :
  (k <=? (x - h) / 64) && ((x - h) / 64 <? k + U) = true <-> h + 64 * k <= x < h + 64 * k + 64 * U.
Proof. rewrite unit_range. bools; intuition (lia || done). Qed.

Lemma in_use_buffer bs x : in_use bs x -> exists y, y ∈ bs /\ y.2.(BufHost) <= x < y.2.(BufHost) + y.2.(BufLen).
Proof. intros Hx. apply Exists_exists in Hx as (y & Hy & Hb & _). exists y. done. Qed.

(** Units [k .. k + U - 1] marked used or cleared. *)
Lemma block_uses_set b l k U x :
  0 <= k -> k + U <= 8 * b.(BitsLen) -> block_wf b ->
  (forall j, 0 <= j -> used l j = ((k <=? j) && (j <? k + U)) || used b.(BitArray) j) ->
  block_uses (set_BitArray l b) x <-> block_uses b x \/ b.(BufHost) + 64 * k <= x < b.(BufHost) + 64 * k + 64 * U.
Proof.
  intros Hk Hfit (_ & _ & Hl & _) Hu. unfold block_uses. cbn [set_BitArray BufHost BufLen BitArray].
  rewrite <- (in_range_unit (BufHost b) k U x). split.
  - intros [Hx Hus]. rewrite Hu in Hus by (apply Z.div_pos; lia). apply orb_prop in Hus as [Hus|Hus]; [by right|by left].
  - intros [[Hx Hus]|Hr].
    + split; [done|]. rewrite Hu, Hus by (apply Z.div_pos; lia). apply orb_true_r.
    + pose proof Hr as Hr'. apply in_range_unit in Hr'. split; [lia|]. rewrite Hu, Hr by (apply Z.div_pos; lia). done.
Qed.

Lemma block_uses_clear b l k U x :
  (forall j, 0 <= j -> used l j = negb ((k <=? j) && (j <? k + U)) && used b.(BitArray) j) ->
  block_uses (set_BitArray l b) x <-> block_uses b x /\ ~ b.(BufHost) + 64 * k <= x < b.(BufHost) + 64 * k + 64 * U.
Proof.
  intros Hu. unfold block_uses. cbn [set_BitArray BufHost BufLen BitArray].
  rewrite <- (in_range_unit (BufHost b) k U x). split.
  - intros [Hx Hus]. rewrite Hu in Hus by (apply Z.div_pos; lia). apply andb_prop in Hus as [Hr Hus].
    apply negb_true_iff in Hr. rewrite Hr. done.
  - intros [[Hx Hus] Hr]. split; [done|]. rewrite Hu, Hus by (apply Z.div_pos; lia). rewrite andb_true_r.
    apply negb_true_iff. by destruct (_ && _).
Qed.

Lemma nonempty_used b k : block_wf b -> 0 <= k -> used b.(BitArray) k = true -> UsbHcIsMemBlockEmpty b = false.
Proof.
  intros Hwf Hk Hu. destruct (UsbHcIsMemBlockEmpty b) eqn:He; [|done].
  rewrite block_empty_ok in He by done. rewrite He in Hu by done. done.
Qed.

(** ** Resources *)

Definition hosts (bs : list (Z * USBHC_MEM_BLOCK)) : list Z := (fun x => x.2.(BufHost)) <$> bs.
Definition mappings (bs : list (Z * USBHC_MEM_BLOCK)) : list Z := (fun x => x.2.(Mapping)) <$> bs.

(** The resources of all blocks given back. *)
Definition release_blocks (bs : list (Z * USBHC_MEM_BLOCK)) (v : live) : live :=
  {| pools := v.(pools) ∖ list_to_set (addresses bs); buffers := foldr delete v.(buffers) (hosts bs);
     maps := v.(maps) ∖ list_to_set (mappings bs) |}.

Lemma release_blocks_cons x bs v : release_blocks (x :: bs) v = release_blocks bs (release x v).
Proof.
  unfold release_blocks, release, del_pool, del_buffer, del_map, addresses, hosts, mappings. cbn. f_equal.
  - set_solver.
  - by rewrite delete_foldr_delete.
  - set_solver.
Qed.

(** ** The invariant *)

Section Spec.
Context {E : Type} {HS : HcServices E} {HSO : HcServicesOk E}.
Implicit Types (s : hc E) (P : USBHC_MEM_POOL) (b : USBHC_MEM_BLOCK) (bs pre post : list (Z * USBHC_MEM_BLOCK)).

Lemma addresses_app bs1 bs2 : addresses (bs1 ++ bs2) = addresses bs1 ++ addresses bs2.
Proof. unfold addresses. by rewrite fmap_app, concat_app. Qed.

(** One block has other bits. *)
Lemma pool_update P pre a b l post s s' :
  pool_ok P (pre ++ (a, b) :: post) s ->
  s'.(heap) = <[a := set_BitArray l b]> s.(heap) -> s'.(env) = s.(env) -> block_wf (set_BitArray l b) ->
  (pre = [] \/ UsbHcIsMemBlockEmpty (set_BitArray l b) = false) ->
  pool_ok P (pre ++ (a, set_BitArray l b) :: post) s'.
Proof.
  intros [Hc Hs Hnd Hwf Hsep Hus Hhp Hbt Hhd Had Hself Hmp] Eh Ee Hwf' Hne. constructor.
  - rewrite Eh. by eapply chain_update.
  - by destruct pre.
  - by rewrite fmap_app in *.
  - rewrite Forall_app, Forall_cons in *. intuition.
  - assert (Hsame : forall x, x ∈ pre ++ (a, set_BitArray l b) :: post ->
      exists y, y ∈ pre ++ (a, b) :: post /\ x.1 = y.1 /\ BufHost x.2 = BufHost y.2 /\ BufLen x.2 = BufLen y.2).
    { intros x Hx. apply elem_of_app in Hx as [Hx|[->|Hx]%elem_of_cons]; [exists x|exists (a, b)|exists x];
        (split; [|done]); apply elem_of_app; [by left|right; by left|right; by right]. }
    intros x y Hx Hy Hxy. destruct (Hsame x Hx) as (x' & Hx' & E1 & E2 & E3). destruct (Hsame y Hy) as (y' & Hy' & E4 & E5 & E6).
    unfold separate. rewrite E2, E3, E5, E6. apply Hsep; congruence.
  - destruct pre as [|x pre]; [done|]. cbn [tail app] in *. destruct Hne as [|Hne]; [done|].
    rewrite Forall_app, Forall_cons in *. intuition.
  - intros x Hx. rewrite Ee. apply Hhp. rewrite Eh, lookup_insert_is_Some in Hx. destruct Hx as [<-|[_ Hx]]; [|done].
    apply chain_in with (a := a) (b := b) in Hc as [Hc _]; [by eexists|]. apply elem_of_app. right. by left.
  - assert (Hha : is_Some (s.(heap) !! a)).
    { apply chain_in with (a := a) (b := b) in Hc as [Hc _]; [by eexists|]. apply elem_of_app. right. by left. }
    rewrite Eh. eapply Forall_impl with (P := fun x => s.(heap) !! x.2.(Bits) = None).
    { rewrite Forall_app, Forall_cons in *. exact Hbt. }
    intros x Hx. rewrite lookup_insert_ne; [done|]. intros ->. rewrite Hx in Hha. by destruct Hha.
  - rewrite Ee. rewrite Forall_app, Forall_cons in *. exact Hhd.
  - by rewrite addresses_app in *.
  - by rewrite Ee.
  - by rewrite fmap_app in *.
Qed.

Lemma addresses_in bs x : x ∈ bs -> x.1 ∈ addresses bs /\ x.2.(Bits) ∈ addresses bs.
Proof.
  intros Hx. apply list_elem_of_split in Hx as (l1 & l2 & ->). rewrite addresses_app. unfold addresses. cbn.
  split; apply elem_of_app; right; [by left|right; by left].
Qed.

Lemma addresses_held P bs s x : pool_ok P bs s -> x ∈ addresses bs -> x ∈ (view s.(env)).(pools).
Proof.
  intros Hok Hx. unfold addresses in Hx. apply list_elem_of_In, in_concat in Hx as (l & Hl & Hx).
  apply list_elem_of_In, list_elem_of_fmap in Hl as (y & -> & Hy). apply list_elem_of_In in Hx. pose proof (po_held _ _ _ Hok) as Hh. rewrite Forall_forall in Hh.
  destruct (Hh y Hy) as (H1 & H2 & _). set_solver.
Qed.

Lemma mappings_held P bs s x : pool_ok P bs s -> x ∈ mappings bs -> x ∈ (view s.(env)).(maps).
Proof.
  intros Hok Hx. apply list_elem_of_fmap in Hx as (y & -> & Hy). pose proof (po_held _ _ _ Hok) as Hh.
  rewrite Forall_forall in Hh. apply (Hh y Hy).
Qed.

Lemma pool_block P bs s x : pool_ok P bs s -> x ∈ bs -> block_wf x.2 /\ held (view s.(env)) x /\ x.1 <> 0.
Proof.
  intros Hok Hx. pose proof (po_wf _ _ _ Hok) as Hw. pose proof (po_held _ _ _ Hok) as Hh.
  rewrite Forall_forall in Hw, Hh. destruct x as [a b]. split_and!; [by apply (Hw (a, b))|by apply Hh|].
  by eapply chain_in; [apply (po_chain _ _ _ Hok)|].
Qed.

(** A new block comes second. *)
Lemma pool_add P hd tl a b s s' n :
  pool_ok P ((P.(Head), hd) :: tl) s -> a <> 0 -> a ∉ (view s.(env)).(pools) ->
  b.(Bits) ∉ (add_pool a (view s.(env))).(pools) -> b.(Mapping) ∉ (view s.(env)).(maps) ->
  block_wf b -> b.(BufLen) = 4096 * n -> 0 < n -> b.(Next) = hd.(Next) -> UsbHcIsMemBlockEmpty b = false ->
  (forall h' n', (view s.(env)).(buffers) !! h' = Some n' ->
     b.(BufHost) + 4096 * n <= h' \/ h' + 4096 * n' <= b.(BufHost)) ->
  s'.(heap) = <[a := b]> (<[P.(Head) := set_Next a hd]> s.(heap)) ->
  view s'.(env) = add_map b.(Mapping) (add_buffer b.(BufHost) n (add_pool b.(Bits) (add_pool a (view s.(env))))) ->
  pool_ok P ((P.(Head), set_Next a hd) :: (a, b) :: tl) s'.
Proof.
  intros Hok Ha Hap Hbp Hmp Hwf Hlen Hn Hnext Hne Hsep Eh Ev. set (v := view s.(env)) in *.
  assert (Hav : forall x, x ∈ ((P.(Head), hd) :: tl) -> x.1 <> a).
  { intros x Hx E0. apply Hap. rewrite <- E0. by apply (pool_block _ _ _ _ Hok Hx). }
  assert (Hah : P.(Head) <> a) by (apply (Hav (_, hd)); by left).
  assert (Hnew : forall x, x ∈ ((P.(Head), hd) :: tl) -> separate b x.2).
  { intros x Hx. destruct (pool_block _ _ _ _ Hok Hx) as (_ & (_ & _ & Hbuf & Hdiv & _) & _).
    unfold separate. rewrite Hlen. apply Hsep in Hbuf.
    destruct Hdiv as [z Hz]. rewrite Hz, Z.div_mul in Hbuf by lia. lia. }
  pose proof (po_chain _ _ _ Hok) as Hc. pose proof (po_nodup _ _ _ Hok) as Hnd. cbn [chain] in Hc.
  destruct Hc as (_ & Hh0 & Hhh & Hc). cbn [fmap list_fmap fst] in Hnd. apply NoDup_cons in Hnd as [Hni Hnd].
  assert (Hat : a ∉ tl.*1).
  { intros Hx. apply list_elem_of_fmap in Hx as (y & E0 & Hy). apply (Hav y); [by right|done]. }
  constructor.
  - rewrite Eh. cbn [chain set_Next Next]. split_and!; [done|done| |done|done|apply lookup_insert_eq|].
    + rewrite lookup_insert_ne by done. apply lookup_insert_eq.
    + rewrite Hnext. eapply chain_ext; [|exact Hc]. intros z Hz. rewrite !lookup_insert_ne; [done|..]; intros <-; done.
  - done.
  - cbn. apply NoDup_cons. split; [|by apply NoDup_cons]. rewrite elem_of_cons. by intros [?|?].
  - pose proof (po_wf _ _ _ Hok) as Hw. rewrite !Forall_cons in *. destruct Hw. done.
  - intros x y Hx Hy Hxy. pose proof (po_separate _ _ _ Hok) as Hs.
    assert (Hsame : forall z, z ∈ (P.(Head), set_Next a hd) :: (a, b) :: tl -> z = (a, b) \/
      exists z', z' ∈ (P.(Head), hd) :: tl /\ z.1 = z'.1 /\ BufHost z.2 = BufHost z'.2 /\ BufLen z.2 = BufLen z'.2).
    { intros z [->|[->|Hz]%elem_of_cons]%elem_of_cons; [right|by left|right].
      - exists (P.(Head), hd). split; [by left|done].
      - exists z. split; [by right|done]. }
    destruct (Hsame x Hx) as [-> |(x' & Hx' & E1 & E2 & E3)], (Hsame y Hy) as [-> |(y' & Hy' & E4 & E5 & E6)];
      unfold separate; cbn [snd].
    + done.
    + rewrite E5, E6. by apply Hnew.
    + rewrite E2, E3. apply Hnew in Hx'. unfold separate in Hx'. tauto.
    + rewrite E2, E3, E5, E6. apply Hs; congruence.
  - cbn [tail]. pose proof (po_used _ _ _ Hok) as Hu. cbn [tail] in Hu. by apply Forall_cons.
  - intros x Hx. rewrite Ev. cbn. rewrite Eh, !lookup_insert_is_Some in Hx.
    destruct (decide (x = a)) as [-> |Hxa]; [set_solver|]. assert (x ∈ v.(pools)); [|set_solver].
    destruct (decide (x = P.(Head))) as [-> |Hxh]; [apply (pool_block _ _ _ (P.(Head), hd) Hok); by left|].
    apply (po_heap _ _ _ Hok). destruct Hx as [?|[_ [?|[_ Hx]]]]; [congruence|congruence|done].
  - pose proof (po_bits _ _ _ Hok) as Hbt. rewrite !Forall_cons in *. destruct Hbt as [Hb1 Hb2].
    assert (Hold : forall x, x ∈ (P.(Head), hd) :: tl -> s.(heap) !! x.2.(Bits) = None -> s'.(heap) !! x.2.(Bits) = None).
    { intros x Hx Hbx. rewrite Eh, !lookup_insert_ne; [done|intros E0|intros E0].
      - rewrite <- E0, Hhh in Hbx. done.
      - apply Hap. rewrite E0. by apply (pool_block _ _ _ _ Hok Hx). }
    split_and!; [by apply (Hold (P.(Head), hd)); [left|]| |].
    + cbn. rewrite Eh, !lookup_insert_ne; [|intros E0..].
      * destruct (s.(heap) !! b.(Bits)) eqn:Hx; [|done]. exfalso. apply Hbp. cbn. apply elem_of_union. right.
        apply (po_heap _ _ _ Hok). by eexists.
      * apply Hbp. cbn. apply elem_of_union. right. rewrite <- E0. apply (po_heap _ _ _ Hok). by eexists.
      * apply Hbp. cbn. rewrite E0. set_solver.
    + rewrite Forall_forall in *. intros x Hx. apply Hold; [by right|by apply Hb2].
  - pose proof (po_held _ _ _ Hok) as Hhd. rewrite Ev. apply Forall_forall.
    assert (Hold : forall x, x ∈ (P.(Head), hd) :: tl ->
      held (add_map b.(Mapping) (add_buffer b.(BufHost) n (add_pool b.(Bits) (add_pool a v)))) x).
    { intros x Hx. destruct (pool_block _ _ _ _ Hok Hx) as ((_ & _ & _ & _ & Hp & _) & (H1 & H2 & H3 & H4 & H5 & H6) & _).
      pose proof (Hnew x Hx) as Hsx. unfold held, separate in *. cbn. split_and!; [set_solver|set_solver| |done|done|set_solver].
      rewrite lookup_insert_ne; [done|]. intros E0. lia. }
    intros x [->|[->|Hx]%elem_of_cons]%elem_of_cons.
    + apply (Hold (P.(Head), hd)). by left.
    + unfold held. cbn. rewrite Hlen. split_and!; [set_solver|set_solver| |by exists n; lia|lia|set_solver].
      rewrite lookup_insert_eq. rewrite Z.mul_comm, Z.div_mul by lia. done.
    + apply Hold. by right.
  - pose proof (po_addresses _ _ _ Hok) as Had. cbn in Had |- *.
    assert (Hall : forall z, z ∈ [P.(Self); P.(Head); hd.(Bits)] ++ addresses tl -> z ∈ v.(pools)).
    { intros z Hz. cbn [app] in Hz. apply elem_of_cons in Hz as [->|Hz]; [apply (po_self _ _ _ Hok)|].
      apply (addresses_held _ _ _ _ Hok). exact Hz. }
    cbn in Hbp. unfold addresses in Had, Hall |- *. cbn in Had, Hall |- *.
    assert (Hperm : P.(Self) :: P.(Head) :: hd.(Bits) :: a :: b.(Bits) :: concat ((fun x => [x.1; x.2.(Bits)]) <$> tl) ≡ₚ
      a :: b.(Bits) :: P.(Self) :: P.(Head) :: hd.(Bits) :: concat ((fun x => [x.1; x.2.(Bits)]) <$> tl)) by solve_Permutation.
    rewrite Hperm. apply NoDup_cons. split; [|apply NoDup_cons; split; [|done]].
    + intros [E0|Hx]%elem_of_cons; [set_solver|]. by apply Hap, Hall.
    + intros Hx. apply Hall in Hx. set_solver.
  - rewrite Ev. cbn. pose proof (po_self _ _ _ Hok). set_solver.
  - pose proof (po_maps _ _ _ Hok) as Hm. cbn in Hm |- *.
    assert (Hperm : hd.(Mapping) :: b.(Mapping) :: ((fun x => x.2.(Mapping)) <$> tl) ≡ₚ
      b.(Mapping) :: hd.(Mapping) :: ((fun x => x.2.(Mapping)) <$> tl)) by solve_Permutation.
    rewrite Hperm. apply NoDup_cons. split; [|done]. intros Hx. apply Hmp. by apply (mappings_held _ _ _ _ Hok).
Qed.

(** The blocks left when one is taken out of the list, in terms of those before. *)
Definition same_place (b b' : USBHC_MEM_BLOCK) : Prop :=
  b.(BufHost) = b'.(BufHost) /\ b.(BufLen) = b'.(BufLen) /\ b.(Bits) = b'.(Bits) /\ b.(Mapping) = b'.(Mapping).

Lemma after_remove pre q bq bq' a b post x :
  NoDup (pre ++ (q, bq) :: (a, b) :: post).*1 -> same_place bq' bq -> x ∈ pre ++ (q, bq') :: post ->
  exists y, y ∈ pre ++ (q, bq) :: (a, b) :: post /\ y.1 <> a /\ x.1 = y.1 /\ same_place x.2 y.2.
Proof.
  rewrite fmap_app. intros Hnd Hsame. apply NoDup_app in Hnd as (_ & Hd1 & Hd2). cbn in Hd2.
  apply NoDup_cons in Hd2 as [Hq Hd2]. apply NoDup_cons in Hd2 as [Ha Hd2].
  intros [Hx|[->|Hx]%elem_of_cons]%elem_of_app; [exists x|exists (q, bq)|exists x]; (split_and!; [| |done..]).
  - apply elem_of_app. by left.
  - intros E0. apply (Hd1 x.1); [by apply list_elem_of_fmap_2|]. rewrite E0. right. by left.
  - apply elem_of_app. right. by left.
  - cbn. intros ->. apply Hq. by left.
  - apply elem_of_app. right. right. by right.
  - intros E0. apply Ha. rewrite <- E0. by apply list_elem_of_fmap_2.
Qed.

(** A block that is not the first is taken out and given back. *)
Lemma pool_remove P pre q bq a b post s s' :
  pool_ok P (pre ++ (q, bq) :: (a, b) :: post) s ->
  s'.(heap) = delete a (<[q := set_Next b.(Next) bq]> s.(heap)) ->
  view s'.(env) = release (a, b) (view s.(env)) ->
  pool_ok P (pre ++ (q, set_Next b.(Next) bq) :: post) s'.
Proof.
  intros Hok Eh Ev. pose proof (po_nodup _ _ _ Hok) as Hnd.
  pose proof (fun x => after_remove pre q bq (set_Next b.(Next) bq) a b post x Hnd (conj eq_refl (conj eq_refl (conj eq_refl eq_refl)))) as Hsub.
  assert (Hina : (a, b) ∈ pre ++ (q, bq) :: (a, b) :: post) by (apply elem_of_app; right; right; by left).
  destruct (pool_block _ _ _ _ Hok Hina) as ((_ & _ & _ & _ & Hbp & _) & (_ & _ & _ & _ & Hblen & _) & Ha0).
  assert (Hadd : addresses (pre ++ (q, set_Next b.(Next) bq) :: post) ++ [a; b.(Bits)] ≡ₚ addresses (pre ++ (q, bq) :: (a, b) :: post)).
  { rewrite !addresses_app. unfold addresses. cbn. solve_Permutation. }
  assert (Hmap : mappings (pre ++ (q, set_Next b.(Next) bq) :: post) ++ [b.(Mapping)] ≡ₚ mappings (pre ++ (q, bq) :: (a, b) :: post)).
  { unfold mappings. rewrite !fmap_app. cbn. solve_Permutation. }
  pose proof (po_addresses _ _ _ Hok) as Had. rewrite <- Hadd, app_comm_cons in Had.
  apply NoDup_app in Had as (Had & Had2 & _).
  pose proof (po_maps _ _ _ Hok) as Hmd. fold (mappings (pre ++ (q, bq) :: (a, b) :: post)) in Hmd. rewrite <- Hmap in Hmd.
  apply NoDup_app in Hmd as (Hmd & Hmd2 & _).
  assert (Haq : q <> a).
  { destruct (Hsub (q, set_Next b.(Next) bq)) as (y & _ & Hy & E0 & _); [apply elem_of_app; right; by left|]. cbn in E0. congruence. }
  pose proof (po_chain _ _ _ Hok) as Hc. constructor.
  - eapply chain_unlink; [exact Hc|done|rewrite Eh, lookup_delete_ne by done; apply lookup_insert_eq|].
    intros x Hq Ha. by rewrite Eh, lookup_delete_ne, lookup_insert_ne.
  - by destruct pre.
  - eapply sublist_NoDup; [exact Hnd|]. rewrite !fmap_app. apply sublist_app; [done|]. cbn. apply sublist_skip. by apply sublist_cons.
  - pose proof (po_wf _ _ _ Hok) as Hw. rewrite Forall_app, !Forall_cons in *. intuition.
  - intros x y Hx Hy Hxy. destruct (Hsub x Hx) as (x' & Hx' & _ & E1 & E2 & E3 & _).
    destruct (Hsub y Hy) as (y' & Hy' & _ & E4 & E5 & E6 & _). unfold separate. rewrite E2, E3, E5, E6.
    apply (po_separate _ _ _ Hok); congruence.
  - pose proof (po_used _ _ _ Hok) as Hu. destruct pre as [|x pre]; cbn [app tail] in *; rewrite ?Forall_app, ?Forall_cons in *; intuition.
  - intros x Hx. rewrite Eh, lookup_delete_is_Some, lookup_insert_is_Some in Hx. destruct Hx as [Hxa Hx].
    rewrite Ev. cbn.
    assert (Hxp : x ∈ (view s.(env)).(pools)).
    { destruct Hx as [<-|[_ Hx]]; [|by apply (po_heap _ _ _ Hok)].
      apply (pool_block _ _ _ (q, bq) Hok). apply elem_of_app. right. by left. }
    (* the bit array of the block is not a block *)
    rewrite !elem_of_difference, !elem_of_singleton. split_and!; [done| |done]. intros ->.
    pose proof (po_bits _ _ _ Hok) as Hbt. rewrite Forall_forall in Hbt. specialize (Hbt _ Hina). cbn in Hbt.
    destruct Hx as [Hx|[_ Hx]]; [|rewrite Hbt in Hx; by destruct Hx].
    assert (Hq : is_Some (s.(heap) !! q)).
    { eapply chain_in with (a := q) (b := bq) in Hc as [Hc _]; [by eexists|]. apply elem_of_app. right. by left. }
    rewrite <- Hx in Hbt. rewrite Hbt in Hq. by destruct Hq.
  - pose proof (po_bits _ _ _ Hok) as Hbt. rewrite Forall_forall in *. intros x Hx.
    destruct (Hsub x Hx) as (y & Hy & _ & _ & _ & _ & E4 & _). rewrite E4. specialize (Hbt y Hy). cbn in Hbt.
    rewrite Eh. destruct (decide (y.2.(Bits) = a)) as [-> |]; [by rewrite lookup_delete_eq|].
    rewrite lookup_delete_ne, lookup_insert_ne; [done| |done]. intros E0. rewrite <- E0 in Hbt.
    eapply chain_in with (a := q) (b := bq) in Hc as [Hc _]; [congruence|]. apply elem_of_app. right. by left.
  - apply Forall_forall. intros x Hx.
    assert (Hxad : x.1 ∈ addresses (pre ++ (q, set_Next b.(Next) bq) :: post) /\ x.2.(Bits) ∈ addresses (pre ++ (q, set_Next b.(Next) bq) :: post)).
    { by apply addresses_in. }
    assert (Hxm : x.2.(Mapping) ∈ mappings (pre ++ (q, set_Next b.(Next) bq) :: post)) by (by apply (list_elem_of_fmap_2 (fun x => x.2.(Mapping)))).
    destruct Hxad as [Hx1 Hx2]. apply Hmd2 in Hxm. pose proof (Had2 x.1 ltac:(by right)) as Hx3. pose proof (Had2 x.2.(Bits) ltac:(by right)) as Hx4.
    rewrite !not_elem_of_cons in *. destruct Hx3 as (Hx3 & Hx3' & _), Hx4 as (Hx4 & Hx4' & _), Hxm as [Hxm _].
    destruct (Hsub x Hx) as (y & Hy & Hya & E1 & E2 & E3 & E4 & E5).
    destruct (pool_block _ _ _ _ Hok Hy) as ((_ & _ & _ & _ & Hyp & _) & (H1 & H2 & H3 & H4 & H5 & H6) & _).
    assert (Hsx : separate y.2 b) by (apply (po_separate _ _ _ Hok y (a, b)); done). unfold separate in Hsx.
    rewrite Ev. unfold held, release. cbn. rewrite E1, E2, E3, E4, E5 in *. rewrite !elem_of_difference, !elem_of_singleton.
    split_and!; try done. rewrite lookup_delete_ne; [done|]. cbn [snd] in *. intros E0. lia.
  - exact Had.
  - rewrite Ev. cbn. pose proof (po_self _ _ _ Hok). pose proof (Had2 P.(Self) ltac:(by left)) as Hx3.
    rewrite !not_elem_of_cons in *. rewrite !elem_of_difference, !elem_of_singleton. tauto.
  - exact Hmd.
Qed.

(** Services keep a mapping more than before. *)
Lemma pool_keep P bs s s' :
  pool_ok P bs s -> s'.(heap) = s.(heap) -> (view s'.(env)).(pools) = (view s.(env)).(pools) ->
  (view s'.(env)).(buffers) = (view s.(env)).(buffers) -> (view s.(env)).(maps) ⊆ (view s'.(env)).(maps) ->
  pool_ok P bs s'.
Proof.
  intros [Hc Hs Hnd Hwf Hsep Hus Hhp Hbt Hhd Had Hself Hmp] Eh Ep Eb Em. constructor; rewrite ?Eh, ?Ep; try done.
  - unfold heap_held. by rewrite Eh, Ep.
  - eapply Forall_impl; [exact Hhd|]. intros x (H1 & H2 & H3 & H4 & H5 & H6). unfold held. rewrite Ep, Eb. split_and!; auto.
Qed.

(** ** What was there before the pool *)

(** Without the pool's blocks and resources, the heap is [h0] and what has been handed out is
    [v0], up to mappings that were not given back. *)
Definition base (h0 : gmap Z USBHC_MEM_BLOCK) (v0 : live) P bs s : Prop :=
  foldr delete s.(heap) bs.*1 = h0 /\ (view s.(env)).(pools) ∖ list_to_set (P.(Self) :: addresses bs) = v0.(pools) /\
  foldr delete (view s.(env)).(buffers) (hosts bs) = v0.(buffers) /\
  v0.(maps) ⊆ (view s.(env)).(maps) ∖ list_to_set (mappings bs).

Lemma base_update h0 v0 P pre a b l post s s' :
  base h0 v0 P (pre ++ (a, b) :: post) s -> s'.(heap) = <[a := set_BitArray l b]> s.(heap) -> s'.(env) = s.(env) ->
  base h0 v0 P (pre ++ (a, set_BitArray l b) :: post) s'.
Proof.
  unfold base, hosts, mappings. rewrite !addresses_app, !fmap_app. cbn. intros (H1 & H2 & H3 & H4) -> ->.
  split_and!; [|done..]. rewrite foldr_delete_insert_in; [done|]. apply elem_of_app. right. by left.
Qed.

Lemma base_keep h0 v0 P bs s s' :
  base h0 v0 P bs s -> s'.(heap) = s.(heap) -> (view s'.(env)).(pools) = (view s.(env)).(pools) ->
  (view s'.(env)).(buffers) = (view s.(env)).(buffers) -> (view s.(env)).(maps) ⊆ (view s'.(env)).(maps) ->
  base h0 v0 P bs s'.
Proof. intros (H1 & H2 & H3 & H4) Eh Ep Eb Em. unfold base. rewrite Eh, Ep, Eb. split_and!; [done..|set_solver]. Qed.

Lemma base_add h0 v0 P hd tl a b s s' n :
  base h0 v0 P ((P.(Head), hd) :: tl) s -> a ∉ (view s.(env)).(pools) ->
  b.(Bits) ∉ (add_pool a (view s.(env))).(pools) -> b.(Mapping) ∉ (view s.(env)).(maps) ->
  (view s.(env)).(buffers) !! b.(BufHost) = None -> s.(heap) !! a = None ->
  s'.(heap) = <[a := b]> (<[P.(Head) := set_Next a hd]> s.(heap)) ->
  view s'.(env) = add_map b.(Mapping) (add_buffer b.(BufHost) n (add_pool b.(Bits) (add_pool a (view s.(env))))) ->
  base h0 v0 P ((P.(Head), set_Next a hd) :: (a, b) :: tl) s'.
Proof.
  unfold base, hosts, mappings, addresses. cbn. intros (H1 & H2 & H3 & H4) Ha Hb Hm Hh Hhp -> ->. cbn in *.
  split_and!.
  - rewrite <- H1, !delete_foldr_delete. f_equal. apply map_eq. intros z.
    destruct (decide (z = P.(Head))) as [-> |]; [by rewrite !lookup_delete_eq|]. rewrite !(lookup_delete_ne _ P.(Head)) by done.
    destruct (decide (z = a)) as [-> |]; [by rewrite lookup_delete_eq|].
    by rewrite lookup_delete_ne, !lookup_insert_ne.
  - set_solver.
  - rewrite (delete_foldr_delete _ _ b.(BufHost)). by rewrite delete_insert_id.
  - set_solver.
Qed.

Lemma base_remove h0 v0 P pre q bq bq' a b post s s' :
  base h0 v0 P (pre ++ (q, bq) :: (a, b) :: post) s ->
  bq'.(Bits) = bq.(Bits) -> bq'.(BufHost) = bq.(BufHost) -> bq'.(Mapping) = bq.(Mapping) ->
  s'.(heap) = delete a (<[q := bq']> s.(heap)) -> view s'.(env) = release (a, b) (view s.(env)) ->
  base h0 v0 P (pre ++ (q, bq') :: post) s'.
Proof.
  unfold base, hosts, mappings. rewrite !addresses_app. unfold addresses. rewrite !fmap_app. cbn.
  intros (H1 & H2 & H3 & H4) -> -> -> -> ->. cbn. split_and!.
  - rewrite <- H1, <- delete_foldr_delete, foldr_delete_insert_in by (apply elem_of_app; right; by left).
    rewrite !foldr_app. cbn. by rewrite !delete_foldr_delete, (delete_delete _ q a).
  - rewrite <- H2. rewrite !list_to_set_app_L. cbn. set_solver.
  - rewrite <- H3, !foldr_app. cbn. by rewrite !delete_foldr_delete, (delete_delete _ bq.(BufHost)).
  - set_solver.
Qed.
End Spec.
