(* ===== verification/UsbHcClient.v ===== *)
(** * The USB host controller's memory pool: clients

    The pool as its clients see it: any sequence of allocations and releases keeps the invariant,
    gives disjoint zeroed memory and, once the pool is released, leaves everything as before; and its life from creation to
    release, with clients that write only to the memory they hold. *)

From S2P Require Import Prelude UsbHcBits UsbHcMem UsbHcPool UsbHcSpec.
From stdpp Require Import gmap.
From stdpp Require Import gmap relations.
#[local] Open Scope Z_scope.

(** [U] units at [p], aligned within a block. *)
Definition fits (bs : list (Z * USBHC_MEM_BLOCK)) (p U : Z) : Prop :=
  exists a b k, (a, b) ∈ bs /\ 0 <= k /\ k + U <= 8 * b.(BitsLen) /\ p = b.(BufHost) + 64 * k.

Lemma fits_app bs1 bs2 p U : fits (bs1 ++ bs2) p U <-> fits bs1 p U \/ fits bs2 p U.
Proof.
  unfold fits. split.
  - intros (a & b & k & Hin & H). apply elem_of_app in Hin as [Hin|Hin]; [left|right]; by exists a, b, k.
  - intros [(a & b & k & Hin & H)|(a & b & k & Hin & H)]; exists a, b, k; (split; [|done]); apply elem_of_app; auto.
Qed.

Lemma fits_same a b b' p U :
  b'.(BufHost) = b.(BufHost) -> b'.(BitsLen) = b.(BitsLen) -> fits [(a, b)] p U -> fits [(a, b')] p U.
Proof.
  intros E1 E2 (a0 & b0 & k & [= -> ->]%list_elem_of_singleton & H). exists a, b', k.
  split; [by apply list_elem_of_singleton|]. by rewrite E1, E2.
Qed.

Lemma fits_middle pre a b b' post p U :
  b'.(BufHost) = b.(BufHost) -> b'.(BitsLen) = b.(BitsLen) ->
  fits (pre ++ (a, b) :: post) p U -> fits (pre ++ (a, b') :: post) p U.
Proof.
  intros E1 E2. change ((a, b) :: post) with ([(a, b)] ++ post). change ((a, b') :: post) with ([(a, b')] ++ post).
  rewrite !fits_app. intros [H|[H|H]]; [by left| |by right; right]. right; left. by eapply fits_same.
Qed.

Section Client.
Context {E : Type} {HS : HcServices E} {HSO : HcServicesOk E}.
Implicit Types (s : hc E) (P : USBHC_MEM_POOL) (bs : list (Z * USBHC_MEM_BLOCK)).

(** Two buffers of a pool: an address is in at most one. *)
Lemma in_one_buffer P bs s x y z :
  pool_ok P bs s -> x ∈ bs -> y ∈ bs -> x.2.(BufHost) <= z < x.2.(BufHost) + x.2.(BufLen) ->
  y.2.(BufHost) <= z < y.2.(BufHost) + y.2.(BufLen) -> x = y.
Proof.
  intros Hok Hx Hy Hxz Hyz. destruct (Z.eq_dec x.1 y.1) as [E0|Hne].
  - destruct x as [a b], y as [a' b']. cbn in *. subst a'. f_equal.
    eapply chain_in in Hx; [|apply (po_chain _ _ _ Hok)]. eapply chain_in in Hy; [|apply (po_chain _ _ _ Hok)].
    destruct Hx as [Hx _], Hy as [Hy _]. congruence.
  - pose proof (po_separate _ _ _ Hok x y Hx Hy Hne) as Hs. unfold separate in Hs. lia.
Qed.

(** The addresses of a block of a pool that are in use are those in use in the block. *)
Lemma in_use_block P bs s a b z :
  pool_ok P bs s -> (a, b) ∈ bs -> b.(BufHost) <= z < b.(BufHost) + b.(BufLen) -> in_use bs z <-> block_uses b z.
Proof.
  intros Hok Hin Hz. unfold in_use. rewrite Exists_exists. split.
  - intros (y & Hy & Hu). assert (E0 : y = (a, b)).
    { eapply in_one_buffer; [exact Hok|done|done|apply Hu|done]. }
    by rewrite E0 in Hu.
  - intros Hu. by exists (a, b).
Qed.

(** ** Allocation *)

(** The effect of [UsbHcAllocateMem] on the pool. *)
Definition alloc_effect P bs s Size p bs' s' : Prop :=
  pool_ok P bs' s' /\ (forall h0 v0, base h0 v0 P bs s -> base h0 v0 P bs' s') /\
  (forall q V, fits bs q V -> fits bs' q V) /\
  if bool_decide (p = 0)
  then bs' = bs /\ s'.(heap) = s.(heap) /\ s'.(mem) = s.(mem)
  else
    fits bs' p (USBHC_MEM_ROUND Size / USBHC_MEM_UNIT) /\ s'.(mem) = zeroed p Size s.(mem) /\
    (forall x, p <= x < p + USBHC_MEM_ROUND Size -> ~ in_use bs x) /\
    (forall x, in_use bs' x <-> in_use bs x \/ p <= x < p + USBHC_MEM_ROUND Size).

Lemma wp_alloc_effect P bs s Size :
  pool_ok P bs s -> 0 < Size <= 2 ^ 30 ->
  wp (UsbHcAllocateMem P Size) (fun p s' => exists bs', alloc_effect P bs s Size p bs' s') s.
Proof.
  intros Hok HS0. destruct (round_spec Size) as (U & HR & HU & Hb); [lia|].
  apply (wp_UsbHcAllocateMem P bs s Size U); [done|done|lia| | |].
  - intros s' Eh Em Ev. exists bs. unfold alloc_effect. rewrite bool_decide_eq_true_2 by done.
    assert (Hv : (view s'.(env)).(pools) = (view s.(env)).(pools) /\ (view s'.(env)).(buffers) = (view s.(env)).(buffers) /\
      (view s.(env)).(maps) ⊆ (view s'.(env)).(maps)).
    { destruct Ev as [-> |(m & _ & ->)]; [done|]. cbn. split_and!; [done..|set_solver]. }
    destruct Hv as (Hv1 & Hv2 & Hv3). split_and!; try done.
    + by eapply pool_keep.
    + intros h0 v0 Hbase. by eapply base_keep.
  - intros pre a b post k l s' -> Hk Hfit Hfree Hwf' Hl Eh Ee Em. exists (pre ++ (a, set_BitArray l b) :: post).
    assert (Hin : (a, b) ∈ pre ++ (a, b) :: post) by (apply elem_of_app; right; by left).
    destruct (pool_block _ _ _ _ Hok Hin) as (Hwf & _ & _). pose proof Hwf as (_ & _ & Hlen & _ & Hpos & _). cbn [snd] in *.
    assert (Hus : forall x, block_uses (set_BitArray l b) x <-> block_uses b x \/ b.(BufHost) + 64 * k <= x < b.(BufHost) + 64 * k + 64 * U).
    { intros x. by apply block_uses_set. }
    unfold alloc_effect. rewrite bool_decide_eq_false_2 by lia. rewrite HR. unfold USBHC_MEM_UNIT.
    replace (64 * U / 64) with U by (apply Z.div_unique with 0; lia). split_and!.
    + eapply pool_update; try done. right. apply (nonempty_used _ k); [done|done|]. cbn. rewrite Hl by done. bools; done.
    + intros h0 v0 Hbase. by eapply base_update.
    + intros q V. by apply fits_middle.
    + apply fits_app. right. exists a, (set_BitArray l b), k. split_and!; [by left|done|done|done].
    + exact Em.
    + intros x Hx Hu. rewrite (in_use_block P _ s a b x Hok Hin) in Hu by lia. destruct Hu as [_ Hu].
      apply unit_range in Hx. rewrite Hfree in Hu by lia. done.
    + intros x. rewrite !in_use_middle, Hus. tauto.
  - intros hd tl a b l s' -> Ha Hap Hbp Hmp Hbf Hnew Hsep Hwf' Hl Eh Ev Em. exists ((P.(Head), set_Next a hd) :: (a, set_Next hd.(Next) (set_BitArray l b)) :: tl).
    destruct (pages_for_ok U ltac:(lia)) as [Hpg HUp]. destruct Hnew as (Hwf & HBL & HN0 & Hz).
    pose proof Hwf as (_ & _ & Hlen & _ & Hpos & _).
    assert (Hus : forall x, block_uses (set_BitArray l b) x <-> b.(BufHost) + 64 * 0 <= x < b.(BufHost) + 64 * 0 + 64 * U).
    { intros x. rewrite (block_uses_set b l 0 U x); [|lia|lia|done|].
      - split; [|tauto]. intros [[_ Hu]|?]; [by rewrite Hz in Hu|done].
      - intros j Hj. rewrite Hl, Hz, orb_false_r by done. done. }
    rewrite Z.mul_0_r, Z.add_0_r in Hus.
    unfold alloc_effect. rewrite bool_decide_eq_false_2 by lia. rewrite HR. unfold USBHC_MEM_UNIT.
    replace (64 * U / 64) with U by (apply Z.div_unique with 0; lia). split_and!.
    + eapply (pool_add P hd tl a _ s s' (pages_for U)); try done; [lia|].
      apply (nonempty_used _ 0); [done|done|]. cbn. rewrite Hl by done. bools; done.
    + intros h0 v0 Hbase. eapply (base_add h0 v0 P hd tl a _ s s' (pages_for U)); try done.
      * destruct (s.(heap) !! a) eqn:Hx; [|done]. exfalso. apply Hap, (po_heap _ _ _ Hok). by eexists.
    + intros q V. change ((P.(Head), hd) :: tl) with ([] ++ (P.(Head), hd) :: tl). intros Hf.
      eapply (fits_middle _ _ _ (set_Next a hd)) in Hf; [|done|done]. cbn [app] in *.
      change (?x :: ?y :: tl) with ([x] ++ [y] ++ tl). change (?x :: tl) with ([x] ++ tl) in Hf. rewrite !fits_app in *. tauto.
    + exists a, (set_Next hd.(Next) (set_BitArray l b)), 0. cbn. split_and!; [right; by left|lia|lia|lia].
    + exact Em.
    + intros x Hx Hu. apply in_use_buffer in Hu as (y & Hy & Hyx).
      destruct (pool_block _ _ _ _ Hok Hy) as (_ & (_ & _ & Hbuf & [n Hn] & _) & _).
      apply Hsep in Hbuf. rewrite Hn, Z.div_mul in Hbuf by lia. lia.
    + intros x. change ((P.(Head), set_Next a hd) :: (a, ?y) :: tl) with ([(P.(Head), set_Next a hd)] ++ (a, y) :: tl).
      rewrite in_use_middle. unfold in_use at 1 3. rewrite Exists_cons, Exists_nil.
      change (block_uses (snd (P.(Head), set_Next a hd)) x) with (block_uses hd x).
      change (block_uses (set_Next hd.(Next) (set_BitArray l b)) x) with (block_uses (set_BitArray l b) x). rewrite Hus.
      unfold in_use. rewrite Exists_cons. cbn [snd]. tauto.
Qed.

(** ** Release *)

(** The effect of [UsbHcFreeMem]; what remains in use stays where it is. *)
Definition free_effect P bs s Size p bs' s' : Prop :=
  pool_ok P bs' s' /\ (forall h0 v0, base h0 v0 P bs s -> base h0 v0 P bs' s') /\ s'.(mem) = s.(mem) /\
  (forall x, in_use bs' x <-> in_use bs x /\ ~ p <= x < p + USBHC_MEM_ROUND Size) /\
  (forall q V, fits bs q V -> 0 < V -> in_use bs' q -> fits bs' q V).

(** A client may release the [Size] bytes at [p]. *)
Definition may_free bs Size p : Prop :=
  fits bs p (USBHC_MEM_ROUND Size / USBHC_MEM_UNIT) /\ forall x, p <= x < p + USBHC_MEM_ROUND Size -> in_use bs x.

(** The units of a range in use. *)
Lemma range_used P bs s a b k U :
  pool_ok P bs s -> (a, b) ∈ bs -> 0 <= k -> k + U <= 8 * b.(BitsLen) ->
  (forall x, b.(BufHost) + 64 * k <= x < b.(BufHost) + 64 * k + 64 * U -> in_use bs x) ->
  forall j, k <= j < k + U -> used b.(BitArray) j = true.
Proof.
  intros Hok Hin Hk Hfit Hu j Hj. destruct (pool_block _ _ _ _ Hok Hin) as ((_ & _ & Hlen & _) & _ & _). cbn [snd] in *.
  specialize (Hu (b.(BufHost) + 64 * j) ltac:(lia)). rewrite (in_use_block P _ s a b _ Hok Hin) in Hu by lia.
  destruct Hu as [_ Hu]. replace ((b.(BufHost) + 64 * j - b.(BufHost)) / 64) with j in Hu; [done|].
  apply Z.div_unique with 0; lia.
Qed.

Lemma in_use_remove pre q bq bq' a b post x :
  bq'.(BitArray) = bq.(BitArray) -> bq'.(BufHost) = bq.(BufHost) -> bq'.(BufLen) = bq.(BufLen) ->
  in_use (pre ++ (q, bq) :: (a, b) :: post) x <-> in_use (pre ++ (q, bq') :: post) x \/ block_uses b x.
Proof.
  intros E1 E2 E3. rewrite !in_use_middle. unfold in_use at 2. rewrite Exists_cons. cbn [snd]. unfold block_uses.
  rewrite E1, E2, E3. fold (in_use post x). tauto.
Qed.

Lemma block_wf_bits b l : block_wf b -> length l = length b.(BitArray) -> bytes l -> block_wf (set_BitArray l b).
Proof. intros (H1 & H2 & H3 & H4 & H5 & H6) Hl Hb. split_and!; cbn; congruence || done. Qed.

(** The units are cleared in place. *)
Lemma free_in_place P pre a b l k Size U post s s' :
  pool_ok P (pre ++ (a, b) :: post) s -> USBHC_MEM_ROUND Size = 64 * U -> 0 <= k -> k + U <= 8 * b.(BitsLen) ->
  length l = length b.(BitArray) -> bytes l ->
  (forall j, 0 <= j -> used l j = negb ((k <=? j) && (j <? k + U)) && used b.(BitArray) j) ->
  pre = [] \/ UsbHcIsMemBlockEmpty (set_BitArray l b) = false ->
  s'.(heap) = <[a := set_BitArray l b]> s.(heap) -> s'.(env) = s.(env) -> s'.(mem) = s.(mem) ->
  free_effect P (pre ++ (a, b) :: post) s Size (b.(BufHost) + 64 * k) (pre ++ (a, set_BitArray l b) :: post) s'.
Proof.
  intros Hok HR Hk Hfit Hll Hlb Hl Hne Eh Ee Em.
  assert (Hin : (a, b) ∈ pre ++ (a, b) :: post) by (apply elem_of_app; right; by left).
  destruct (pool_block _ _ _ _ Hok Hin) as (Hwf & _ & _). cbn [snd] in *. pose proof Hwf as (_ & _ & Hlen & _).
  unfold free_effect. rewrite HR. split_and!.
  - apply (pool_update P pre a b l post s s'); try done. by apply block_wf_bits.
  - intros h0 v0 Hbase. by eapply base_update.
  - exact Em.
  - intros x. rewrite !in_use_middle, (block_uses_clear b l k U x Hl).
    assert (Hothers : in_use (pre ++ post) x -> ~ b.(BufHost) + 64 * k <= x < b.(BufHost) + 64 * k + 64 * U).
    { intros Hx Hr. apply in_use_buffer in Hx as (y & Hy & Hyx).
      assert (E0 : y = (a, b)).
      { eapply (in_one_buffer P _ s y (a, b) x Hok); [|exact Hin|exact Hyx|cbn; lia].
        rewrite elem_of_app in *. rewrite elem_of_cons. tauto. }
      subst y. pose proof (po_nodup _ _ _ Hok) as Hnd. rewrite fmap_app in Hnd. apply NoDup_app in Hnd as (_ & Hd1 & Hd2).
      cbn in Hd2. apply NoDup_cons in Hd2 as [Hd2 _]. apply elem_of_app in Hy as [Hy|Hy]; apply (list_elem_of_fmap_2 fst) in Hy.
      - apply (Hd1 a Hy). by left.
      - done. }
    unfold in_use in *. rewrite Exists_app in Hothers. tauto.
  - intros q V Hf _ _. eapply fits_middle; [| |exact Hf]; done.
Qed.

(** The block is taken out. *)
Lemma free_remove P pre q bq a b l k Size U post s s' :
  pool_ok P (pre ++ (q, bq) :: (a, b) :: post) s -> USBHC_MEM_ROUND Size = 64 * U -> 0 <= k -> k + U <= 8 * b.(BitsLen) ->
  (forall j, k <= j < k + U -> used b.(BitArray) j = true) ->
  length l = length b.(BitArray) -> bytes l ->
  (forall j, 0 <= j -> used l j = negb ((k <=? j) && (j <? k + U)) && used b.(BitArray) j) ->
  UsbHcIsMemBlockEmpty (set_BitArray l b) = true ->
  s'.(heap) = delete a (<[q := set_Next b.(Next) bq]> s.(heap)) -> view s'.(env) = release (a, b) (view s.(env)) ->
  s'.(mem) = s.(mem) ->
  free_effect P (pre ++ (q, bq) :: (a, b) :: post) s Size (b.(BufHost) + 64 * k) (pre ++ (q, set_Next b.(Next) bq) :: post) s'.
Proof.
  intros Hok HR Hk Hfit Hused Hll Hlb Hl Hemp Eh Ev Em.
  assert (Hin : (a, b) ∈ pre ++ (q, bq) :: (a, b) :: post) by (apply elem_of_app; right; right; by left).
  destruct (pool_block _ _ _ _ Hok Hin) as (Hwf & _ & _). cbn [snd] in *. pose proof Hwf as (_ & _ & Hlen & _).
  rewrite block_empty_ok in Hemp by (by apply block_wf_bits).
  assert (Hbu : forall x, block_uses b x <-> b.(BufHost) + 64 * k <= x < b.(BufHost) + 64 * k + 64 * U).
  { intros x. pose proof (block_uses_clear b l k U x Hl) as Hc.
    assert (Hno : ~ block_uses (set_BitArray l b) x) by (intros [Hx Hx']; cbn in Hx, Hx'; rewrite Hemp in Hx' by (apply Z.div_pos; lia); done).
    split; [intros Hx|intros Hx; split; [lia|apply unit_range in Hx; by apply Hused]].
    destruct (decide (b.(BufHost) + 64 * k <= x < b.(BufHost) + 64 * k + 64 * U)); [done|]. exfalso. tauto. }
  assert (Huse : forall x, in_use (pre ++ (q, set_Next b.(Next) bq) :: post) x -> ~ b.(BufHost) <= x < b.(BufHost) + b.(BufLen)).
  { intros x Hx Hr. apply in_use_buffer in Hx as (y & Hy & Hyx).
    apply (after_remove pre q bq _ a b post y (po_nodup _ _ _ Hok)) in Hy as (y' & Hy' & Hne & _ & E2 & E3 & _); [|done].
    rewrite E2, E3 in Hyx. pose proof (in_one_buffer P _ s y' (a, b) x Hok Hy' Hin Hyx Hr) as ->. done. }
  unfold free_effect. rewrite HR. split_and!.
  - by eapply pool_remove.
  - intros h0 v0 Hbase. by eapply base_remove.
  - exact Em.
  - intros x. rewrite (in_use_remove pre q bq (set_Next b.(Next) bq) a b post x) by done. rewrite Hbu.
    split; [|tauto]. intros Hx. split; [by left|]. apply Huse in Hx. lia.
  - intros p V (a1 & b1 & k1 & Hi1 & Hk1 & Hf1 & ->) HV Hx.
    apply elem_of_app in Hi1 as [Hi1|[[= -> ->]|[[= -> ->]|Hi1]%elem_of_cons]%elem_of_cons].
    + exists a1, b1, k1. split; [apply elem_of_app; by left|done].
    + exists q, (set_Next (Next b) bq), k1. split; [apply elem_of_app; right; by left|done].
    + exfalso. apply (Huse _ Hx). lia.
    + exists a1, b1, k1. split; [apply elem_of_app; right; by right|done].
Qed.

Lemma wp_free_effect P bs s Size p :
  pool_ok P bs s -> 0 < Size <= 2 ^ 30 -> may_free bs Size p ->
  wp (UsbHcFreeMem P p Size) (fun _ s' => exists bs', free_effect P bs s Size p bs' s') s.
Proof.
  intros Hok HS0 [(a & b & k & Hin & Hk & Hfit & ->) Hu]. destruct (round_spec Size) as (U & HR & HU & Hb); [lia|].
  rewrite HR in Hfit, Hu. unfold USBHC_MEM_UNIT in Hfit. replace (64 * U / 64) with U in Hfit by (apply Z.div_unique with 0; lia).
  pose proof (range_used P bs s a b k U Hok Hin Hk Hfit Hu) as Hused. apply list_elem_of_split in Hin as (pre & post & ->).
  eapply (wp_UsbHcFreeMem P _ s pre a b post k Size U); try done.
  - intros l Hll Hlb Hl s' Hne Eh Ee Em. eexists. by eapply free_in_place.
  - intros l pre' q bq Hll Hlb Hl -> Hemp s' Eh Ev Em. rewrite <- app_assoc in *. eexists. by eapply free_remove.
Qed.
End Client.

(** ** Outstanding allocations *)

(** The addresses of an allocation of [r.2] bytes at [r.1]. *)
Definition in_range (r : Z * Z) (x : Z) : Prop := r.1 <= x < r.1 + USBHC_MEM_ROUND r.2.
Definition covered (out : list (Z * Z)) (x : Z) : Prop := Exists (fun r => in_range r x) out.

(** No address belongs to two allocations. *)
Fixpoint disjoint_ranges (out : list (Z * Z)) : Prop :=
  match out with
  | [] => True
  | r :: out => (forall x, in_range r x -> ~ covered out x) /\ disjoint_ranges out
  end.

Lemma disjoint_ranges_remove o1 r o2 :
  disjoint_ranges (o1 ++ r :: o2) -> disjoint_ranges (o1 ++ o2) /\ forall x, in_range r x -> ~ covered (o1 ++ o2) x.
Proof.
  induction o1 as [|r1 o1 IH]; cbn [app disjoint_ranges]; [tauto|]. intros [H1 H2]. apply IH in H2 as [H2 H3].
  unfold covered in *. split; [split; [|done]|].
  - intros x Hx Hc. apply (H1 x Hx). rewrite Exists_app in *. rewrite Exists_cons. tauto.
  - intros x Hx Hc. apply Exists_cons in Hc as [Hc|Hc]; [|by apply (H3 x)]. apply (H1 x Hc). rewrite Exists_app, Exists_cons. tauto.
Qed.

Section Life.
Context {E : Type} {HS : HcServices E} {HSO : HcServicesOk E}.
Implicit Types (s : hc E) (P : USBHC_MEM_POOL) (bs : list (Z * USBHC_MEM_BLOCK)) (out : list (Z * Z)).

(** A step of the pool's clients: allocate, release what is held, write to what is held. *)
Inductive pool_step P : hc E * list (Z * Z) -> hc E * list (Z * Z) -> Prop :=
| alloc_step s out Size p s' :
    0 < Size <= 2 ^ 30 -> UsbHcAllocateMem P Size s = Some (p, s') ->
    pool_step P (s, out) (s', if bool_decide (p = 0) then out else (p, Size) :: out)
| free_step s o1 p Size o2 s' :
    UsbHcFreeMem P p Size s = Some (tt, s') -> pool_step P (s, o1 ++ (p, Size) :: o2) (s', o1 ++ o2)
| write_step s out m :
    (forall x, m x <> s.(mem) x -> exists r, r ∈ out /\ r.1 <= x < r.1 + r.2) ->
    pool_step P (s, out) ({| env := s.(env); heap := s.(heap); mem := m |}, out).

(** What every sequence of steps preserves. *)
Definition client_inv P h0 v0 (c : hc E * list (Z * Z)) : Prop :=
  exists bs, pool_ok P bs c.1 /\ base h0 v0 P bs c.1 /\
    Forall (fun r => 0 < r.2 <= 2 ^ 30 /\ fits bs r.1 (USBHC_MEM_ROUND r.2 / USBHC_MEM_UNIT)) c.2 /\
    (forall x, in_use bs x <-> covered c.2 x) /\ disjoint_ranges c.2.

Lemma may_free_outstanding bs out r :
  Forall (fun r => 0 < r.2 <= 2 ^ 30 /\ fits bs r.1 (USBHC_MEM_ROUND r.2 / USBHC_MEM_UNIT)) out ->
  (forall x, in_use bs x <-> covered out x) -> r ∈ out -> 0 < r.2 <= 2 ^ 30 /\ may_free bs r.2 r.1.
Proof.
  intros Hout Hu Hr. rewrite Forall_forall in Hout. destruct (Hout r Hr) as [Hs Hf]. split; [done|]. split; [done|].
  intros x Hx. apply Hu. apply Exists_exists. by exists r.
Qed.

Lemma units_pos Size : 0 < Size <= 2 ^ 30 -> 0 < USBHC_MEM_ROUND Size / USBHC_MEM_UNIT.
Proof.
  intros HS0. destruct (round_spec Size) as (U & -> & HU & _); [lia|]. unfold USBHC_MEM_UNIT.
  replace (64 * U / 64) with U by (apply Z.div_unique with 0; lia). done.
Qed.

Lemma client_inv_step P h0 v0 c c' : client_inv P h0 v0 c -> pool_step P c c' -> client_inv P h0 v0 c'.
Proof.
  intros Hinv Hstep. destruct Hstep as [s out Size p s' HS0 Hrun|s o1 p Size o2 s' Hrun|s out m Hm].
  - destruct Hinv as (bs & Hok & Hbase & Hout & Hu & Hd). cbn [fst snd] in *.
    destruct (wp_run _ _ _ _ _ (wp_alloc_effect P bs s Size Hok HS0) Hrun) as (bs' & Hok' & Hb' & Hfits & Hres).
    exists bs'. cbn [fst snd]. split; [done|]. split; [by apply Hb'|].
    destruct (bool_decide (p = 0)).
    + destruct Hres as (-> & _ & _). done.
    + destruct Hres as (Hf & _ & Hfree & Huse). split_and!.
      * apply Forall_cons. split; [by cbn|]. eapply Forall_impl; [exact Hout|]. intros r [Hr1 Hr2]. split; [done|by apply Hfits].
      * intros x. rewrite Huse, Hu. unfold covered. rewrite Exists_cons. unfold in_range at 2. cbn [fst snd]. tauto.
      * cbn [disjoint_ranges]. split; [|done]. intros x Hx. rewrite <- Hu. by apply Hfree.
  - destruct Hinv as (bs & Hok & Hbase & Hout & Hu & Hd). cbn [fst snd] in *.
    destruct (may_free_outstanding bs _ (p, Size) Hout Hu) as [HS0 Hmay]; [apply elem_of_app; right; by left|]. cbn [fst snd] in *.
    destruct (wp_run _ _ _ _ _ (wp_free_effect P bs s Size p Hok HS0 Hmay) Hrun) as (bs' & Hok' & Hb' & _ & Huse & Hfits).
    apply disjoint_ranges_remove in Hd as [Hd Hdr]. rewrite Forall_app, Forall_cons in Hout. destruct Hout as (Ho1 & _ & Ho2).
    assert (Hu' : forall x, in_use bs' x <-> covered (o1 ++ o2) x).
    { intros x. rewrite Huse, Hu. specialize (Hdr x). unfold covered in *. rewrite !Exists_app, Exists_cons in *.
      unfold in_range at 1 in Hdr. unfold in_range at 2. cbn [fst snd] in *. tauto. }
    exists bs'. cbn [fst snd]. split_and!; try done; [by apply Hb'|].
    apply Forall_forall. intros r Hr. assert (Hr' : 0 < r.2 <= 2 ^ 30 /\ fits bs r.1 (USBHC_MEM_ROUND r.2 / USBHC_MEM_UNIT)).
    { rewrite Forall_forall in Ho1, Ho2. apply elem_of_app in Hr as [Hr|Hr]; auto. }
    destruct Hr' as [Hr1 Hr2]. split; [done|]. apply Hfits; [done|by apply units_pos|]. apply Hu', Exists_exists.
    exists r. split; [done|]. destruct (round_spec r.2) as (U & HR & HU & _); [lia|]. unfold in_range. lia.
  - destruct Hinv as (bs & Hok & Hbase & Hout & Hu & Hd). exists bs. cbn [fst snd] in *. split_and!; try done.
    by apply (pool_keep P bs s).
Qed.

Lemma client_inv_steps P h0 v0 c c' : client_inv P h0 v0 c -> rtc (pool_step P) c c' -> client_inv P h0 v0 c'.
Proof. intros Hinv Hr. revert Hinv. induction Hr; [done|]. intros Hinv. apply IHHr. by eapply client_inv_step. Qed.

(** ** Creation *)

Lemma heap_held_add s e a : heap_held s -> view e = add_pool a (view s.(env)) ->
  heap_held {| env := e; heap := s.(heap); mem := s.(mem) |}.
Proof. intros Hh He x Hx. cbn in *. rewrite He. apply elem_of_union. right. by apply Hh. Qed.

(** Without a pool everything is as before, up to a mapping. *)
Definition untouched s s' : Prop :=
  s'.(heap) = s.(heap) /\ s'.(mem) = s.(mem) /\ (view s'.(env)).(pools) = (view s.(env)).(pools) /\
  (view s'.(env)).(buffers) = (view s.(env)).(buffers) /\ (view s.(env)).(maps) ⊆ (view s'.(env)).(maps).

(** Membership in unions of singletons. *)
Ltac in_union := cbn; rewrite ?elem_of_union, ?elem_of_singleton; tauto.

(** A pool with its first block. *)
Lemma first_block P a b s s' :
  heap_held s -> P.(Head) = a -> a <> 0 -> new_block USBHC_MEM_DEFAULT_PAGES b -> (view s.(env)).(buffers) !! b.(BufHost) = None ->
  P.(Self) ∉ (view s.(env)).(pools) -> a ∉ (add_pool P.(Self) (view s.(env))).(pools) ->
  b.(Bits) ∉ (add_pool a (add_pool P.(Self) (view s.(env)))).(pools) -> b.(Mapping) ∉ (view s.(env)).(maps) ->
  s'.(heap) = <[a := b]> s.(heap) ->
  view s'.(env) = add_map b.(Mapping) (add_buffer b.(BufHost) USBHC_MEM_DEFAULT_PAGES (add_pool b.(Bits) (add_pool a (add_pool P.(Self) (view s.(env)))))) ->
  pool_ok P [(a, b)] s' /\ base s.(heap) (view s.(env)) P [(a, b)] s'.
Proof.
  intros Hheld HP Ha (Hwf & HBL & HN0 & Hz) Hbuf Hself Hap Hbp Hmp Eh Ev. cbn in Hap, Hbp.
  assert (Hna : forall x, x ∉ (view s.(env)).(pools) -> s.(heap) !! x = None).
  { intros x Hx. destruct (s.(heap) !! x) eqn:E0; [|done]. exfalso. apply Hx, Hheld. by eexists. }
  unfold USBHC_MEM_DEFAULT_PAGES in *.
  rewrite !not_elem_of_union, !not_elem_of_singleton in *. destruct Hap as [Hap1 Hap2], Hbp as (Hbp1 & Hbp2 & Hbp3). split.
  - constructor; cbn; rewrite ?Eh, ?Ev; cbn.
    + split_and!; [done|done|apply lookup_insert_eq|done].
    + done.
    + apply NoDup_singleton.
    + by apply Forall_singleton.
    + by intros x y ->%list_elem_of_singleton ->%list_elem_of_singleton.
    + by apply Forall_nil.
    + intros x Hx. rewrite Ev. rewrite Eh, lookup_insert_is_Some in Hx. cbn. rewrite !elem_of_union, !elem_of_singleton.
      destruct Hx as [<-|[_ Hx]]; [tauto|]. do 3 right. by apply Hheld.
    + apply Forall_singleton. cbn. rewrite lookup_insert_ne by done. by apply Hna.
    + apply Forall_singleton. unfold held. cbn. rewrite HBL. split_and!; [in_union|in_union| |by exists 16|lia|in_union].
      rewrite lookup_insert_eq. done.
    + rewrite !NoDup_cons, !not_elem_of_cons. split_and!; try apply not_elem_of_nil; try congruence. by apply NoDup_nil.
    + in_union.
    + apply NoDup_singleton.
  - unfold base, hosts, mappings, addresses. cbn. rewrite Eh, Ev. cbn. split_and!.
    + by apply delete_insert_id, Hna.
    + set_solver.
    + by apply delete_insert_id.
    + set_solver.
Qed.

Lemma wp_init Check4G Which4G s :
  heap_held s ->
  wp (UsbHcInitMemPool Check4G Which4G) (fun r s' => s'.(mem) = s.(mem) /\
    match r with
    | None => untouched s s'
    | Some P => client_inv P s.(heap) (view s.(env)) (s', [])
    end) s.
Proof.
  intros Hheld. unfold UsbHcInitMemPool. apply wp_bind, wp_on_env, wp_AllocatePool.
  { intros e He. cbn. apply wp_ret. split; [done|]. by split_and!; cbn; rewrite ?He. }
  intros p e Hp Hpf He. destruct (Z.eqb_spec p 0); [done|].
  apply wp_bind, wp_UsbHcAllocMemBlock; [by vm_compute|by eapply heap_held_add| |]; cbn [env heap mem].
  - intros s' Eh Em Ev. cbn. apply wp_bind, wp_on_env, wp_FreePool.
    { destruct Ev as [-> |(m & _ & ->)]; rewrite He; cbn; set_solver. }
    intros e2 He2. apply wp_ret. split; [done|]. unfold untouched. cbn [env heap mem]. rewrite He2.
    rewrite He in Ev. split_and!; try done; (destruct Ev as [-> |(m & _ & ->)]); cbn; try done; set_solver.
  - intros s' a b Ha Haf Hbf Hmf Hbuf Hnew Hsep Eh Em Ev. destruct (Z.eqb_spec a 0); [done|]. apply wp_ret.
    split; [done|]. rewrite He in *.
    set (P := {| Self := p; Check4G := Check4G; Which4G := Which4G; Head := a |}).
    destruct (first_block P a b s s') as [Hok Hbase]; try done.
    exists [(a, b)]. split_and!; cbn [fst snd]; [done|done|done| |done].
    intros x. unfold in_use, covered. rewrite Exists_cons, !Exists_nil. cbn [snd]. split; [|done].
    intros [[_ Hu]|[]]. by rewrite (proj2 (proj2 (proj2 Hnew))) in Hu.
Qed.

(** ** Release *)

Lemma wp_free_loop P n hd tl s :
  pool_ok P ((P.(Head), hd) :: tl) s -> (length tl < n)%nat ->
  wp (free_loop n P hd.(Next)) (fun _ s' => exists hd', pool_ok P [(P.(Head), hd')] s' /\ s'.(mem) = s.(mem) /\
    forall h0 v0, base h0 v0 P ((P.(Head), hd) :: tl) s -> base h0 v0 P [(P.(Head), hd')] s') s.
Proof.
  revert hd tl s. induction n as [|n IH]; intros hd tl s Hok Hn; [lia|]. cbn [free_loop].
  pose proof (po_chain _ _ _ Hok) as Hc. cbn [chain] in Hc. destruct Hc as (_ & _ & Hhd & Hc).
  destruct tl as [|[a b] tl]; cbn [chain] in Hc.
  { rewrite Hc. cbn. apply wp_ret. by exists hd. }
  destruct Hc as (-> & Ha & Hb & _). destruct (Z.eqb_spec a 0); [done|].
  pose proof (po_nodup _ _ _ Hok) as Hnd. cbn in Hnd. apply NoDup_cons in Hnd as [Hni Hnd].
  assert (Hha : P.(Head) <> a) by (intros E0; apply Hni; rewrite E0; by left).
  apply wp_bind. eapply (wp_UsbHcUnlinkMemBlock _ [] P.(Head) hd a b tl); [apply (po_chain _ _ _ Hok)|apply (po_nodup _ _ _ Hok)|].
  intros s1 Eh1 Ee1 Em1. destruct (pool_block _ _ _ (a, b) Hok) as (_ & Hheld & _); [right; by left|].
  assert (Hba : b.(Bits) <> a).
  { pose proof (po_addresses _ _ _ Hok) as Had. unfold addresses in Had. cbn in Had. rewrite !NoDup_cons, !elem_of_cons in Had. intros E0.
    rewrite E0 in Had. tauto. }
  apply wp_bind. eapply (wp_UsbHcFreeMemBlock P a (set_Next 0 b)); [done|rewrite Eh1; apply lookup_insert_eq|by rewrite Ee1|done|].
  intros s2 Eh2 Em2 Ev2. rewrite Ee1 in Ev2. rewrite Eh1, delete_insert_eq in Eh2.
  apply wp_bind, (wp_deref _ (set_Next b.(Next) hd)).
  { rewrite Eh2, lookup_delete_ne by done. apply lookup_insert_eq. }
  assert (Hok2 : pool_ok P ((P.(Head), set_Next b.(Next) hd) :: tl) s2) by (by apply (pool_remove P [] P.(Head) hd a b tl s)).
  eapply wp_mono; [apply (IH (set_Next b.(Next) hd) tl s2 Hok2); cbn in Hn; lia|]. cbn.
  intros _ s3 (hd' & Hok3 & Em3 & Hb3). exists hd'. split; [done|]. split; [congruence|]. intros h0 v0 Hbase. apply Hb3.
  by apply (base_remove h0 v0 P [] P.(Head) hd (set_Next b.(Next) hd) a b tl s).
Qed.

Lemma wp_free_pool P bs s h0 v0 :
  pool_ok P bs s -> base h0 v0 P bs s ->
  wp (UsbHcFreeMemPool P) (fun st s' => st = EFI_SUCCESS /\ s'.(heap) = h0 /\ s'.(mem) = s.(mem) /\
    (view s'.(env)).(pools) = v0.(pools) /\ (view s'.(env)).(buffers) = v0.(buffers) /\ v0.(maps) ⊆ (view s'.(env)).(maps)) s.
Proof.
  intros Hok Hbase. destruct (pool_head _ _ _ Hok) as (hd & tl & -> & Hh0 & Hhd). unfold UsbHcFreeMemPool.
  pose proof (chain_length _ _ _ (po_chain _ _ _ Hok) (po_nodup _ _ _ Hok)) as Hlen. cbn in Hlen.
  destruct (Z.eqb_spec P.(Head) 0); [done|]. apply wp_bind, wp_assert; [done|]. apply wp_bind, wp_list_fuel.
  apply wp_bind, (wp_deref _ hd); [done|]. apply wp_bind. eapply wp_mono; [apply (wp_free_loop P _ hd tl s Hok); lia|].
  intros _ s1 (hd' & Hok1 & Em1 & Hb1). destruct (Hb1 _ _ Hbase) as (B1 & B2 & B3 & B4). cbn in B1, B2, B3, B4.
  destruct (pool_head _ _ _ Hok1) as (hd2 & tl2 & [= -> <-] & _ & Hhd1).
  destruct (pool_block _ _ _ (P.(Head), hd2) Hok1) as (_ & Hheld & _); [by left|].
  pose proof (po_addresses _ _ _ Hok1) as Had. unfold addresses in Had. cbn in Had. rewrite !NoDup_cons, !elem_of_cons in Had.
  apply wp_bind. eapply (wp_UsbHcFreeMemBlock P P.(Head) hd2); [done|done|done|intros E0; rewrite E0 in Had; tauto|].
  intros s2 Eh2 Em2 Ev2. apply wp_bind, wp_on_env, wp_FreePool.
  { rewrite Ev2. cbn. pose proof (po_self _ _ _ Hok1). set_solver. }
  intros e He. apply wp_ret. cbn [env heap mem]. rewrite He, Ev2, Eh2, Em2. cbn. split_and!; try done.
  - set_solver.
  - set_solver.
Qed.
End Life.
