(* ===== verification/UsbHcTheorems.v ===== *)
(** * The USB host controller's memory pool: theorems

    The properties of a pool over its whole life, and a firmware that shows that the interface
    [HcServicesOk] can be met. *)

From S2P Require Import Prelude UsbHcBits UsbHcMem UsbHcPool UsbHcSpec UsbHcClient.
From stdpp Require Import gmap relations.
#[local] Open Scope Z_scope.

(** ** A firmware *)

Module Firmware.

(** A counter gives addresses that have not been used. *)
Record firm := { lv : live; counter : Z }.

Definition AllocatePool (n : Z) : M firm Z := fun e =>
  let a := e.(counter) in
  if bool_decide (a ≠ 0 /\ a ∉ e.(lv).(pools))
  then Some (a, {| lv := add_pool a e.(lv); counter := a + 0x1000 |}) else Some (0, e).

Definition FreePool (a : Z) : M firm unit := fun e =>
  Some (tt, {| lv := del_pool a e.(lv); counter := e.(counter) |}).

Definition AllocateBuffer (n : Z) : M firm (EFI_STATUS * Z) := fun e =>
  let h := e.(counter) in
  if bool_decide (0 < h /\ h + 4096 * n < 2 ^ 32 /\ e.(lv).(buffers) !! h = None /\
       map_Forall (fun h' n' => h + 4096 * n <= h' \/ h' + 4096 * n' <= h) e.(lv).(buffers))
  then Some ((EFI_SUCCESS, h), {| lv := add_buffer h n e.(lv); counter := h + 4096 * n |})
  else Some ((EFI_OUT_OF_RESOURCES, 0), e).

(** The bus address of a buffer is 2 GiB above the host's. *)
Definition Map (h n : Z) : M firm (EFI_STATUS * Z * Z * Z) := fun e =>
  let m := e.(counter) in
  if bool_decide (m ∉ e.(lv).(maps))
  then Some ((EFI_SUCCESS, n, h + 0x80000000, m), {| lv := add_map m e.(lv); counter := m + 0x1000 |})
  else Some ((EFI_DEVICE_ERROR, 0, 0, 0), e).

Definition Unmap (m : Z) : M firm unit := fun e => Some (tt, {| lv := del_map m e.(lv); counter := e.(counter) |}).
Definition FreeBuffer (n h : Z) : M firm unit := fun e =>
  Some (tt, {| lv := del_buffer h e.(lv); counter := e.(counter) |}).

#[export] Instance firm_services : HcServices firm := {|
  UsbHcMem.AllocatePool := AllocatePool;
  UsbHcMem.AllocateZeroPool := AllocatePool;
  UsbHcMem.FreePool := FreePool;
  UsbHcMem.AllocateBuffer := AllocateBuffer;
  UsbHcMem.Map := Map;
  UsbHcMem.Unmap := Unmap;
  UsbHcMem.FreeBuffer := FreeBuffer;
  EFI_PAGE_SIZE := 4096;
  EFI_PAGES_TO_SIZE n := u32 (4096 * n);
  EFI_SIZE_TO_PAGES n := n / 4096 + (if n mod 4096 =? 0 then 0 else 1)
|}.

Lemma wp_alloc n (Q : Z -> firm -> Prop) e :
  (forall e', e'.(lv) = e.(lv) -> Q 0 e') ->
  (forall a e', a <> 0 -> a ∉ e.(lv).(pools) -> e'.(lv) = add_pool a e.(lv) -> Q a e') ->
  wp (AllocatePool n) Q e.
Proof.
  intros H0 H1. unfold wp, AllocatePool. case_bool_decide as Hd; [|eexists _, _; split; [done|by apply H0]].
  destruct Hd as [Hd1 Hd2]. eexists _, _. split; [done|]. by apply H1.
Qed.

#[export] Instance firm_services_ok : HcServicesOk firm.
Proof.
  refine {| view := lv |}.
  - exact wp_alloc.
  - exact wp_alloc.
  - intros a Q e _ HQ. eexists _, _. split; [done|]. by apply HQ.
  - intros n Q e Hn H0 H1. unfold wp. cbn [UsbHcMem.AllocateBuffer firm_services]. unfold AllocateBuffer.
    case_bool_decide as Hd; (eexists _, _; split; [done|]); [|by apply H0].
    destruct Hd as (H2 & H3 & H4 & H5). apply H1; [done..| |done]. intros h' n' Hh. by apply (H5 h' n').
  - intros h n Q e _ H0 H1. unfold wp. cbn [UsbHcMem.Map firm_services]. unfold Map.
    case_bool_decide as Hd; (eexists _, _; split; [done|]); [by apply H1|by apply H0].
  - intros m Q e _ HQ. eexists _, _. split; [done|]. by apply HQ.
  - intros n h Q e _ HQ. eexists _, _. split; [done|]. by apply HQ.
  - done.
  - done.
  - done.
Defined.

(** Nothing has been handed out. *)
Definition boot : hc firm :=
  {| env := {| lv := {| pools := ∅; buffers := ∅; maps := ∅ |}; counter := 0x100000 |}; heap := ∅; mem := fun _ => 0xFF |}.

(** The state after an operation, from [boot]'s kind of state; the result of the operation. *)
Definition run {A} (m : M (hc firm) A) (s : hc firm) (d : A) : A * hc firm := default (d, s) (m s).

Lemma run_eq {A} (m : M (hc firm) A) s d a :
  option_map fst (m s) = Some a -> m s = Some (a, (run m s d).2).
Proof. unfold run. intros H. destruct (m s) as [[x s']|]; [|done]. cbn in *. by injection H as ->. Qed.

Definition pool0 : USBHC_MEM_POOL := {| Self := 0x100000; Check4G := false; Which4G := 0; Head := 0x101000 |}.

End Firmware.

Section Theorems.
Context {E : Type} {HS : HcServices E} {HSO : HcServicesOk E}.
Implicit Types (s : hc E) (P : USBHC_MEM_POOL) (bs : list (Z * USBHC_MEM_BLOCK)) (out : list (Z * Z)).

Lemma client_inv_reach Check4G Which4G s0 P s1 s out :
  heap_held s0 -> UsbHcInitMemPool Check4G Which4G s0 = Some (Some P, s1) -> rtc (pool_step P) (s1, []) (s, out) ->
  client_inv P s0.(heap) (view s0.(env)) (s, out).
Proof.
  intros Hheld Hinit Hr. eapply client_inv_steps; [|exact Hr].
  destruct (wp_run _ _ _ _ _ (wp_init Check4G Which4G s0 Hheld) Hinit) as [_ Hinv]. exact Hinv.
Qed.

(** The bus address of a range of a pool. *)
Lemma wp_bus_address P bs s a b Mem Size U (Q : Z -> hc E -> Prop) :
  pool_ok P bs s -> (a, b) ∈ bs -> USBHC_MEM_ROUND Size = 64 * U -> 0 < U -> b.(BufHost) <= Mem ->
  Mem + 64 * U <= b.(BufHost) + b.(BufLen) ->
  Q (u32 (b.(Buf) + (Mem - b.(BufHost)))) s -> wp (UsbHcGetPciAddressForHostMem P Mem Size) Q s.
Proof.
  intros Hok Hin HR HU Hlo Hhi HQ. destruct (pool_block _ _ _ _ Hok Hin) as ((_ & _ & _ & _ & Hpos & Hend) & _ & Ha). cbn [fst snd] in *.
  pose proof (chain_length _ _ _ (po_chain _ _ _ Hok) (po_nodup _ _ _ Hok)) as Hlen.
  eapply chain_in in Hin as Hh; [|apply (po_chain _ _ _ Hok)]. destruct Hh as [Hh _].
  unfold UsbHcGetPciAddressForHostMem. rewrite HR. destruct (Z.eqb_spec Mem 0); [lia|].
  apply wp_bind, wp_list_fuel, wp_bind. pose proof Hin as Hin'. apply list_elem_of_split in Hin as (pre & post & Ebs).
  eapply (wp_find_loop _ bs pre a b post); [apply Hok|done|lia|apply Hok| |lia|lia|lia|].
  { intros x Hx. apply (po_separate _ _ _ Hok x (a, b)); [rewrite Ebs; apply elem_of_app; by left|done|].
    pose proof (po_nodup _ _ _ Hok) as Hnd. rewrite Ebs, fmap_app in Hnd. apply NoDup_app in Hnd as (_ & Hnd & _). intros E0.
    apply (Hnd x.1); [by apply list_elem_of_fmap_2|]. rewrite E0. by left. }
  destruct (Z.eqb_spec a 0); [done|]. apply wp_bind, wp_assert; [done|]. apply wp_bind, (wp_deref _ b); [done|].
  apply wp_ret. by rewrite (wrap_small 32 (Mem - BufHost b)) by lia.
Qed.

(** The state [s2] has the blocks and holds the resources of [s]. *)
Definition restored s s2 : Prop := s2.(heap) = s.(heap) /\ view s2.(env) = view s.(env).

(** Bits set and then cleared. *)
Lemma bits_back b l l2 k U :
  block_wf b -> length l = length b.(BitArray) -> length l2 = length l -> bytes l2 -> free_run b.(BitArray) k U ->
  (forall j, 0 <= j -> used l j = ((k <=? j) && (j <? k + U)) || used b.(BitArray) j) ->
  (forall j, 0 <= j -> used l2 j = negb ((k <=? j) && (j <? k + U)) && used l j) -> l2 = b.(BitArray).
Proof.
  intros (_ & Hb & _) Hl1 Hll Hlb Hfree Hl Hl2. apply bytes_ext; [done|done|lia|]. intros j Hj. rewrite Hl2, Hl by done.
  specialize (Hfree j). destruct (Z.leb_spec k j), (Z.ltb_spec j (k + U)); cbn [andb orb negb]; try done. symmetry. apply Hfree. lia.
Qed.

(** An allocation from an existing block freed. *)
Lemma free_last_old P pre a b post k l s s1 Size U :
  pool_ok P (pre ++ (a, b) :: post) s -> USBHC_MEM_ROUND Size = 64 * U -> 0 < U -> 0 <= k -> k + U <= 8 * b.(BitsLen) ->
  free_run b.(BitArray) k U -> block_wf (set_BitArray l b) ->
  (forall j, 0 <= j -> used l j = ((k <=? j) && (j <? k + U)) || used b.(BitArray) j) ->
  s1.(heap) = <[a := set_BitArray l b]> s.(heap) -> s1.(env) = s.(env) ->
  wp (UsbHcFreeMem P (b.(BufHost) + 64 * k) Size) (fun _ s2 => restored s s2 /\ s2.(mem) = s1.(mem)) s1.
Proof.
  intros Hok HR HU Hk Hfit Hfree Hwf' Hl Eh Ee.
  assert (Hin : (a, b) ∈ pre ++ (a, b) :: post) by (apply elem_of_app; right; by left).
  destruct (pool_block _ _ _ _ Hok Hin) as (Hwf & _ & _). eapply chain_in in Hin as [Hh _]; [|apply Hok]. cbn [snd] in *.
  assert (Hused : forall j, k <= j < k + U -> used l j = true) by (intros j Hj; rewrite Hl by lia; bools; done).
  assert (Hlen : length l = length b.(BitArray)).
  { destruct Hwf as (Hw & _), Hwf' as (Hw' & _). cbn in Hw'. lia. }
  assert (Hok' : pool_ok P (pre ++ (a, set_BitArray l b) :: post) s1).
  { eapply pool_update; try done. right. apply (nonempty_used _ k); [done|done|]. apply Hused. lia. }
  change (BufHost b) with (BufHost (set_BitArray l b)).
  eapply (wp_UsbHcFreeMem P _ s1 pre a (set_BitArray l b) post k Size U); try done.
  - intros l2 Hll Hlb Hl2 s2 _ Eh2 Ee2 Em2. rewrite (bits_back b l l2 k U) in Eh2 by done. split; [|done].
    split; [|by rewrite Ee2, Ee]. rewrite Eh2, Eh, insert_insert_eq. apply insert_id. rewrite Hh. f_equal. by destruct b.
  - intros l2 pre' q bq Hll Hlb Hl2 -> Hemp. exfalso. rewrite (bits_back b l l2 k U) in Hemp by done.
    pose proof (po_used _ _ _ Hok) as Hu. rewrite Forall_forall in Hu. change (UsbHcIsMemBlockEmpty b = true) in Hemp.
    assert (E0 : UsbHcIsMemBlockEmpty (a, b).2 = false); [|cbn in E0; congruence]. apply Hu. rewrite <- app_assoc.
    destruct pre' as [|x pre']; cbn; [by left|]. apply elem_of_app. right. right. by left.
Qed.

(** An allocation from a new block freed. *)
Lemma free_last_new P hd tl a b l s s1 Size U :
  pool_ok P ((P.(Head), hd) :: tl) s -> USBHC_MEM_ROUND Size = 64 * U -> 0 < U <= 2 ^ 24 -> a <> 0 ->
  a ∉ (view s.(env)).(pools) -> b.(Bits) ∉ (add_pool a (view s.(env))).(pools) -> b.(Mapping) ∉ (view s.(env)).(maps) ->
  (view s.(env)).(buffers) !! b.(BufHost) = None -> new_block (pages_for U) b ->
  (forall h' n', (view s.(env)).(buffers) !! h' = Some n' ->
     b.(BufHost) + 4096 * pages_for U <= h' \/ h' + 4096 * n' <= b.(BufHost)) ->
  block_wf (set_BitArray l b) -> (forall j, 0 <= j -> used l j = (0 <=? j) && (j <? U)) ->
  s1.(heap) = <[a := set_Next hd.(Next) (set_BitArray l b)]> (<[P.(Head) := set_Next a hd]> s.(heap)) ->
  view s1.(env) = add_map b.(Mapping) (add_buffer b.(BufHost) (pages_for U) (add_pool b.(Bits) (add_pool a (view s.(env))))) ->
  wp (UsbHcFreeMem P b.(BufHost) Size) (fun _ s2 => restored s s2 /\ s2.(mem) = s1.(mem)) s1.
Proof.
  intros Hok HR HU Ha Hap Hbp Hmp Hbf (Hwf & HBL & HN0 & Hz) Hsep Hwf' Hl Eh Ev.
  destruct (pages_for_ok U ltac:(lia)) as [Hpg HUp].
  assert (Hlen : length l = length b.(BitArray)).
  { destruct Hwf as (Hw & _), Hwf' as (Hw' & _). cbn in Hw'. lia. }
  assert (Hused : forall j, 0 <= j < 0 + U -> used l j = true) by (intros j Hj; rewrite Hl by lia; bools; done).
  set (b1 := set_Next hd.(Next) (set_BitArray l b)) in *.
  assert (Hok1 : pool_ok P ((P.(Head), set_Next a hd) :: (a, b1) :: tl) s1).
  { apply (pool_add P hd tl a b1 s s1 (pages_for U)); try done; [lia|]. apply (nonempty_used _ 0); [done|done|]. apply Hused. lia. }
  assert (Hl2 : forall l2, (forall j, 0 <= j -> used l2 j = negb ((0 <=? j) && (j <? 0 + U)) && used l j) ->
    forall j, 0 <= j -> used l2 j = false).
  { intros l2 H j Hj. rewrite H, Hl, Z.add_0_l by done. by destruct ((0 <=? j) && (j <? U)). }
  assert (Hha : P.(Head) <> a).
  { pose proof (po_nodup _ _ _ Hok1) as Hnd. cbn in Hnd. apply NoDup_cons in Hnd as [Hnd _]. intros E0. apply Hnd. rewrite E0. by left. }
  destruct (pool_head _ _ _ Hok) as (hd' & tl' & [= <- <-] & _ & Hhh).
  assert (Hna : s.(heap) !! a = None).
  { destruct (s.(heap) !! a) eqn:Hx; [|done]. exfalso. apply Hap, (po_heap _ _ _ Hok). by eexists. }
  replace b.(BufHost) with (b1.(BufHost) + 64 * 0) by (cbn; lia).
  eapply (wp_UsbHcFreeMem P _ s1 [(P.(Head), set_Next a hd)] a b1 tl 0 Size U); try done; [lia|destruct Hwf as (_ & _ & Hw & _); cbn; lia| |].
  - intros l2 Hll Hlb Hus s2 [?|Hne]; [done|]. exfalso.
    assert (He : UsbHcIsMemBlockEmpty (set_BitArray l2 b1) = true); [|congruence].
    apply block_empty_ok; [by apply block_wf_bits|]. cbn. by apply Hl2.
  - intros l2 pre' q bq Hll Hlb Hus Hpre Hemp s2 Eh2 Ev2 Em2. split; [|done].
    destruct pre' as [|? [|]]; cbn in Hpre; try done. injection Hpre as <- <-. split.
    + rewrite Eh2, Eh. apply map_eq. intros z. destruct (decide (z = a)) as [-> |]; [by rewrite lookup_delete_eq|].
      rewrite lookup_delete_ne by done. destruct (decide (z = P.(Head))) as [-> |].
      * rewrite lookup_insert_eq, Hhh. by destruct hd.
      * by rewrite !lookup_insert_ne.
    + rewrite Ev2, Ev. unfold release. cbn [fst snd]. change (Mapping b1) with (Mapping b). change (BufHost b1) with (BufHost b).
      change (Bits b1) with (Bits b). by rewrite del_add_map, del_add_buffer, del_add_pool, del_add_pool.
Qed.

Lemma wp_free_last P bs s Size :
  pool_ok P bs s -> 0 < Size <= 2 ^ 30 ->
  wp (UsbHcAllocateMem P Size) (fun p s1 => p <> 0 ->
    wp (UsbHcFreeMem P p Size) (fun _ s2 => restored s s2 /\ s2.(mem) = s1.(mem)) s1) s.
Proof.
  intros Hok HS0. destruct (round_spec Size) as (U & HR & HU & Hb); [lia|].
  apply (wp_UsbHcAllocateMem P bs s Size U); [done|done|lia|done| |].
  - intros pre a b post k l s' -> Hk Hfit Hfree Hwf' Hl Eh Ee Em _. by eapply (free_last_old P pre a b post k l).
  - intros hd tl a b l s' -> Ha Hap Hbp Hmp Hbf Hnew Hsep Hwf' Hl Eh Ev Em _. eapply (free_last_new P hd tl a b l s); try done. lia.
Qed.

(** ** Properties *)

(** C16: the clients of a pool are safe, whatever the sequence of allocations, releases and writes
    they made since the pool was created: what they hold is pairwise disjoint and within buffers
    that the pool has obtained; an allocation returns, and either gives zeroed memory that nobody
    holds (no other byte of memory changes) or NULL with blocks and memory as before; and what a
    client holds can be released. *)
Theorem UsbHc_clients_safe (Check4G : bool) (Which4G : Z) (s0 s1 s : hc E) (P : USBHC_MEM_POOL) (out : list (Z * Z)) :
  heap_held s0 -> UsbHcInitMemPool Check4G Which4G s0 = Some (Some P, s1) -> rtc (pool_step P) (s1, []) (s, out) ->
  disjoint_ranges out /\
  (forall r, r ∈ out -> exists h n, (view s.(env)).(buffers) !! h = Some n /\
     0 < h <= r.1 /\ r.1 + USBHC_MEM_ROUND r.2 <= h + 4096 * n) /\
  (forall Size, 0 < Size <= 2 ^ 30 -> exists p s', UsbHcAllocateMem P Size s = Some (p, s') /\
     if bool_decide (p = 0) then s'.(heap) = s.(heap) /\ s'.(mem) = s.(mem)
     else (forall x, in_range (p, Size) x -> ~ covered out x) /\ s'.(mem) = zeroed p Size s.(mem)) /\
  (forall r, r ∈ out -> exists s', UsbHcFreeMem P r.1 r.2 s = Some (tt, s') /\ s'.(mem) = s.(mem)).
Proof.
  intros Hheld Hinit Hr. destruct (client_inv_reach _ _ _ _ _ _ _ Hheld Hinit Hr) as (bs & Hok & Hbase & Hout & Hu & Hd).
  cbn [fst snd] in *. split; [done|]. split_and!.
  - intros r Hro. rewrite Forall_forall in Hout. destruct (Hout r Hro) as (Hs & a & b & k & Hin & Hk & Hfit & ->).
    destruct (pool_block _ _ _ _ Hok Hin) as ((_ & _ & Hlen & _ & Hpos & _) & (_ & _ & Hbuf & [n Hn] & _) & _). cbn [snd] in *.
    exists b.(BufHost), n. rewrite Hn, Z.div_mul in Hbuf by lia.
    destruct (round_spec r.2) as (U & HR & HU & _); [lia|]. rewrite HR in *. unfold USBHC_MEM_UNIT in Hfit.
    replace (64 * U / 64) with U in Hfit by (apply Z.div_unique with 0; lia). split; [done|lia].
  - intros Size HS0. destruct (wp_alloc_effect P bs s Size Hok HS0) as (p & s' & Hrun & bs' & _ & _ & _ & Hres).
    exists p, s'. split; [done|]. destruct (bool_decide (p = 0)); [apply Hres|]. destruct Hres as (_ & Hm & Hfree & _).
    split; [|done]. intros x Hx. rewrite <- Hu. by apply Hfree.
  - intros r Hro. destruct (may_free_outstanding bs out r Hout Hu Hro) as [HS0 Hmay].
    destruct (wp_free_effect P bs s r.2 r.1 Hok HS0 Hmay) as ([] & s' & Hrun & bs' & _ & _ & Hm & _). by exists s'.
Qed.

(** a pool leaves nothing behind. Creation returns; without memory it leaves everything as it
    was; and a pool that was created, after any sequence of its clients' steps, is released by
    [UsbHcFreeMemPool] with success: the blocks, the pool memory and the buffers handed out are
    those from before the creation, and no mapping from before is lost. *)
Theorem UsbHc_pool_life (Check4G : bool) (Which4G : Z) (s0 : hc E) :
  heap_held s0 ->
  exists r s1, UsbHcInitMemPool Check4G Which4G s0 = Some (r, s1) /\
  match r with
  | None => untouched s0 s1
  | Some P => forall s out, rtc (pool_step P) (s1, []) (s, out) ->
      exists s2, UsbHcFreeMemPool P s = Some (EFI_SUCCESS, s2) /\ s2.(heap) = s0.(heap) /\ s2.(mem) = s.(mem) /\
        (view s2.(env)).(pools) = (view s0.(env)).(pools) /\ (view s2.(env)).(buffers) = (view s0.(env)).(buffers) /\
        (view s0.(env)).(maps) ⊆ (view s2.(env)).(maps)
  end.
Proof.
  intros Hheld. destruct (wp_init Check4G Which4G s0 Hheld) as ([P|] & s1 & Hinit & Hm & Hres); [|by exists None, s1].
  exists (Some P), s1. split; [done|]. intros s out Hr.
  destruct (client_inv_reach _ _ _ _ _ _ _ Hheld Hinit Hr) as (bs & Hok & Hbase & _).
  destruct (wp_free_pool P bs s _ _ Hok Hbase) as (st & s2 & Hrun & -> & H). by exists s2.
Qed.

(** releasing an allocation undoes it: after any sequence of its clients' steps, memory
    allocated from a pool and released again leaves the blocks (bit arrays and links) and all
    resources exactly as they were, whether the memory came from an existing block or from a new
    one. *)
Theorem UsbHcFreeMem_undoes_AllocateMem (Check4G : bool) (Which4G : Z) (s0 s1 s s' : hc E) (P : USBHC_MEM_POOL)
    (out : list (Z * Z)) (Size p : Z) :
  heap_held s0 -> UsbHcInitMemPool Check4G Which4G s0 = Some (Some P, s1) -> rtc (pool_step P) (s1, []) (s, out) ->
  0 < Size <= 2 ^ 30 -> UsbHcAllocateMem P Size s = Some (p, s') -> p <> 0 ->
  exists s2, UsbHcFreeMem P p Size s' = Some (tt, s2) /\ s2.(heap) = s.(heap) /\ view s2.(env) = view s.(env) /\
    s2.(mem) = zeroed p Size s.(mem).
Proof.
  intros Hheld Hinit Hr HS0 Hrun Hp. destruct (client_inv_reach _ _ _ _ _ _ _ Hheld Hinit Hr) as (bs & Hok & _).
  destruct (wp_run _ _ _ _ _ (wp_free_last P bs s Size Hok HS0) Hrun Hp) as ([] & s2 & Hfree & [H1 H2] & H3).
  destruct (wp_run _ _ _ _ _ (wp_alloc_effect P bs s Size Hok HS0) Hrun) as (bs' & _ & _ & _ & Hres).
  rewrite bool_decide_eq_false_2 in Hres by done. destruct Hres as (_ & Hm & _). exists s2. split_and!; congruence.
Qed.

(** bus addresses follow host addresses: for memory that a client holds,
    [UsbHcGetPciAddressForHostMem] returns without changing anything, and any part of that memory
    has the bus address of its beginning plus the offset. *)
Lemma UsbHcGetPciAddress_offset (Check4G : bool) (Which4G : Z) (s0 s1 s : hc E) (P : USBHC_MEM_POOL)
    (out : list (Z * Z)) (r : Z * Z) :
  heap_held s0 -> UsbHcInitMemPool Check4G Which4G s0 = Some (Some P, s1) -> rtc (pool_step P) (s1, []) (s, out) ->
  r ∈ out ->
  exists bus, UsbHcGetPciAddressForHostMem P r.1 r.2 s = Some (u32 bus, s) /\
    forall off Size, 0 <= off -> 0 < Size <= 2 ^ 30 -> off + USBHC_MEM_ROUND Size <= USBHC_MEM_ROUND r.2 ->
      UsbHcGetPciAddressForHostMem P (r.1 + off) Size s = Some (u32 (bus + off), s).
Proof.
  intros Hheld Hinit Hr Hro. destruct (client_inv_reach _ _ _ _ _ _ _ Hheld Hinit Hr) as (bs & Hok & _ & Hout & _).
  rewrite Forall_forall in Hout. destruct (Hout r Hro) as (Hs & a & b & k & Hin & Hk & Hfit & Hp). cbn [fst snd] in *.
  destruct (pool_block _ _ _ _ Hok Hin) as ((_ & _ & Hlen & _ & Hpos & _) & _ & _). cbn [snd] in *.
  destruct (round_spec r.2) as (U & HR & HU & _); [lia|]. rewrite HR in *. unfold USBHC_MEM_UNIT in Hfit.
  replace (64 * U / 64) with U in Hfit by (apply Z.div_unique with 0; lia).
  assert (Hbus : forall off Size, 0 <= off -> 0 < Size <= 2 ^ 30 -> off + USBHC_MEM_ROUND Size <= 64 * U ->
    UsbHcGetPciAddressForHostMem P (r.1 + off) Size s = Some (u32 (b.(Buf) + (r.1 + off - b.(BufHost))), s)).
  { intros off Size H0 HS0 Hle. destruct (round_spec Size) as (V & HV & HV0 & _); [lia|]. rewrite HV in Hle.
    destruct (wp_bus_address P bs s a b (r.1 + off) Size V (fun x s' => x = u32 (b.(Buf) + (r.1 + off - b.(BufHost))) /\ s' = s))
      as (x & s' & Hrun & -> & ->); try done; lia. }
  exists (b.(Buf) + (r.1 - b.(BufHost))). split.
  - rewrite <- (Z.add_0_r r.1) at 1. rewrite Hbus by lia. do 3 f_equal. lia.
  - intros off Size H0 HS0 Hle. rewrite Hbus by done. do 3 f_equal. lia.
Qed.
End Theorems.

(** ** Witnesses *)

Section Witnesses.
Import Firmware.

(** A pool after an allocation of 100 bytes. *)
Definition start : hc firm := (run (UsbHcInitMemPool false 0) boot None).2.
Definition held100 : Z := 0x103000.
Definition later : hc firm := (run (UsbHcAllocateMem pool0 100) start 0).2.

Lemma boot_held : heap_held boot.
Proof. intros a [x Hx]. done. Qed.

Lemma start_run : UsbHcInitMemPool false 0 boot = Some (Some pool0, start).
Proof. apply run_eq. vm_compute. reflexivity. Qed.

Lemma later_run : UsbHcAllocateMem pool0 100 start = Some (held100, later).
Proof. apply run_eq. vm_compute. reflexivity. Qed.

Lemma later_reach : rtc (pool_step pool0) (start, []) (later, [(held100, 100)]).
Proof. apply rtc_once. exact (alloc_step pool0 start [] 100 held100 later ltac:(lia) later_run). Qed.

(** One allocation is held; another one returns. *)
Lemma UsbHc_clients_safe_witness :
  disjoint_ranges [(held100, 100)] /\
  exists p s', UsbHcAllocateMem pool0 200 later = Some (p, s') /\
    if bool_decide (p = 0) then s'.(heap) = later.(heap) /\ s'.(mem) = later.(mem)
    else (forall x, in_range (p, 200) x -> ~ covered [(held100, 100)] x) /\ s'.(mem) = zeroed p 200 later.(mem).
Proof.
  destruct (UsbHc_clients_safe false 0 boot start later pool0 [(held100, 100)] boot_held start_run later_reach)
    as (Hd & _ & Ha & _).
  split; [exact Hd|]. apply Ha. lia.
Defined.

(** The pool with that allocation is released. *)
Lemma UsbHc_pool_life_witness :
  exists s2, UsbHcFreeMemPool pool0 later = Some (EFI_SUCCESS, s2) /\ s2.(heap) = ∅ /\
    (view s2.(env)).(pools) = ∅ /\ (view s2.(env)).(buffers) = ∅.
Proof.
  destruct (UsbHc_pool_life false 0 boot boot_held) as (r & s1 & Hinit & Hlife).
  rewrite start_run in Hinit. injection Hinit as <- <-.
  destruct (Hlife later _ later_reach) as (s2 & Hrun & Hh & _ & Hp & Hb & _). exists s2. by split_and!.
Defined.

Lemma UsbHcFreeMem_undoes_AllocateMem_witness :
  exists s2, UsbHcFreeMem pool0 held100 100 later = Some (tt, s2) /\ s2.(heap) = start.(heap) /\
    view s2.(env) = view start.(env) /\ s2.(mem) = zeroed held100 100 start.(mem).
Proof.
  apply (UsbHcFreeMem_undoes_AllocateMem false 0 boot start start later pool0 [] 100 held100 boot_held start_run).
  - apply rtc_refl.
  - lia.
  - exact later_run.
  - done.
Defined.

(** Half of the allocation. *)
Lemma UsbHcGetPciAddress_offset_witness :
  option_map fst (UsbHcGetPciAddressForHostMem pool0 (held100 + 64) 64 later) = Some 0x80103040 /\
  exists bus, UsbHcGetPciAddressForHostMem pool0 held100 100 later = Some (u32 bus, later) /\
    forall off Size, 0 <= off -> 0 < Size <= 2 ^ 30 -> off + USBHC_MEM_ROUND Size <= USBHC_MEM_ROUND 100 ->
      UsbHcGetPciAddressForHostMem pool0 (held100 + off) Size later = Some (u32 (bus + off), later).
Proof.
  split; [vm_compute; reflexivity|].
  apply (UsbHcGetPciAddress_offset false 0 boot start later pool0 _ (held100, 100) boot_held start_run later_reach). by left.
Defined.
End Witnesses.
