(* ===== verification/RtcDefs.v ===== *)
(** * The real-time clock driver: definitions

    Models [PcatRealTimeClockRuntimeDxe/PcRtc.c] (the platform's copy). The register map of the
    clock chip is the one of [ResetSystemLib.c], which drives the same chip; the bit fields of the
    registers, the default time and the time type's constants come from headers that are not part of
    the repository ([PcRtcHeader]), the variables "RTC" and "RTCALARM" from the variable services
    ([RtcVariables]). *)

From S2P Require Import Prelude.
#[local] Open Scope Z_scope.

(** ** [ResetSystemLib.c]: the chip's ports and registers *)

Definition PCAT_RTC_ADDRESS_REGISTER : Z := 0x70.
Definition PCAT_RTC_DATA_REGISTER : Z := 0x71.
Definition RTC_ADDRESS_SECONDS : Z := 0.
Definition RTC_ADDRESS_SECONDS_ALARM : Z := 1.
Definition RTC_ADDRESS_MINUTES : Z := 2.
Definition RTC_ADDRESS_MINUTES_ALARM : Z := 3.
Definition RTC_ADDRESS_HOURS : Z := 4.
Definition RTC_ADDRESS_HOURS_ALARM : Z := 5.
Definition RTC_ADDRESS_DAY_OF_THE_MONTH : Z := 7.
Definition RTC_ADDRESS_MONTH : Z := 8.
Definition RTC_ADDRESS_YEAR : Z := 9.
Definition RTC_ADDRESS_REGISTER_A : Z := 10.
Definition RTC_ADDRESS_REGISTER_B : Z := 11.
Definition RTC_ADDRESS_REGISTER_C : Z := 12.
Definition RTC_ADDRESS_REGISTER_D : Z := 13.
Definition RTC_ADDRESS_CENTURY : Z := 50.

(** ** The headers *)

(** [EFI_TIME]; [TimeZone] is signed. *)
Record EFI_TIME := {
  Year : Z; Month : Z; Day : Z; Hour : Z; Minute : Z; Second : Z; Nanosecond : Z; TimeZone : Z; Daylight : Z
}.

Record EFI_TIME_CAPABILITIES := { Resolution : Z; Accuracy : Z; SetsToZero : bool }.

Class PcRtcHeader := {
  (* bit numbers: update in progress, valid RAM and time, alarm flag; data mode, 24-hour mode,
     alarm interrupt enable and set (inhibit updates) of register B *)
  Uip : Z; Vrt : Z; Af : Z; Dm : Z; Mil : Z; Aie : Z; SetBit : Z;
  RTC_INIT_REGISTER_A : Z; RTC_INIT_REGISTER_B : Z; RTC_INIT_REGISTER_D : Z;
  RTC_INIT_SECOND : Z; RTC_INIT_MINUTE : Z; RTC_INIT_HOUR : Z;
  RTC_INIT_DAY : Z; RTC_INIT_MONTH : Z; RTC_INIT_YEAR : Z;
  EFI_UNSPECIFIED_TIMEZONE : Z; EFI_TIME_ADJUST_DAYLIGHT : Z; EFI_TIME_IN_DAYLIGHT : Z;
  (* BaseLib; both assert that their argument is in range *)
  DecimalToBcd8 : Z -> option Z;
  BcdToDecimal8 : Z -> option Z;
  PcdRealTimeClockUpdateTimeout : Z
}.

Class RtcVariables (E : Type) := {
  GetRTC : M E (EFI_STATUS * Z);
  SetRTC : Z -> M E EFI_STATUS;
  GetRTCALARM : M E (EFI_STATUS * EFI_TIME);
  SetRTCALARM : EFI_TIME -> M E EFI_STATUS
}.

Definition set_hour (h : Z) (t : EFI_TIME) : EFI_TIME :=
  {| Year := t.(Year); Month := t.(Month); Day := t.(Day); Hour := h; Minute := t.(Minute); Second := t.(Second);
     Nanosecond := t.(Nanosecond); TimeZone := t.(TimeZone); Daylight := t.(Daylight) |}.
Definition set_year (y : Z) (t : EFI_TIME) : EFI_TIME :=
  {| Year := y; Month := t.(Month); Day := t.(Day); Hour := t.(Hour); Minute := t.(Minute); Second := t.(Second);
     Nanosecond := t.(Nanosecond); TimeZone := t.(TimeZone); Daylight := t.(Daylight) |}.
Definition set_nanosecond (n : Z) (t : EFI_TIME) : EFI_TIME :=
  {| Year := t.(Year); Month := t.(Month); Day := t.(Day); Hour := t.(Hour); Minute := t.(Minute); Second := t.(Second);
     Nanosecond := n; TimeZone := t.(TimeZone); Daylight := t.(Daylight) |}.
Definition set_zone (z d : Z) (t : EFI_TIME) : EFI_TIME :=
  {| Year := t.(Year); Month := t.(Month); Day := t.(Day); Hour := t.(Hour); Minute := t.(Minute); Second := t.(Second);
     Nanosecond := t.(Nanosecond); TimeZone := z; Daylight := d |}.

(** ** Times *)

Definition IsLeapYear (Time : EFI_TIME) : bool :=
  if Time.(Year) mod 4 =? 0 then
    if Time.(Year) mod 100 =? 0 then Time.(Year) mod 400 =? 0 else true
  else false.

Definition DayOfMonth : list Z := [31; 29; 31; 30; 31; 30; 31; 31; 30; 31; 30; 31].

(** [None] when the month is out of range: the function asserts that it is not. *)
Definition DayValid (Time : EFI_TIME) : option bool :=
  if (1 <=? Time.(Month)) && (Time.(Month) <=? 12) then
    d ← DayOfMonth !! Z.to_nat (Time.(Month) - 1);
    Some (negb ((Time.(Day) <? 1) || (Time.(Day) >? d) ||
                ((Time.(Month) =? 2) && (negb (IsLeapYear Time) && (Time.(Day) >? 28)))))
  else None.

Section Times.
Context {H : PcRtcHeader}.

Definition RtcTimeFieldsValid (Time : EFI_TIME) : option EFI_STATUS :=
  if (Time.(Year) <? 1998) || (Time.(Year) >? 2099) || (Time.(Month) <? 1) || (Time.(Month) >? 12)
  then Some EFI_INVALID_PARAMETER
  else
    v ← DayValid Time;
    if negb v || (Time.(Hour) >? 23) || (Time.(Minute) >? 59) || (Time.(Second) >? 59) ||
       (Time.(Nanosecond) >? 999999999) ||
       negb ((Time.(TimeZone) =? EFI_UNSPECIFIED_TIMEZONE) ||
             ((Time.(TimeZone) >=? -1440) && (Time.(TimeZone) <=? 1440))) ||
       negb (Z.land Time.(Daylight) (Z.lnot (Z.lor EFI_TIME_ADJUST_DAYLIGHT EFI_TIME_IN_DAYLIGHT)) =? 0)
    then Some EFI_INVALID_PARAMETER else Some EFI_SUCCESS.

Definition CheckAndConvertBcd8ToDecimal8 (Value : Z) : option Z :=
  if (Value <? 0xa0) && (Z.land Value 0xf <? 0xa) then BcdToDecimal8 Value else Some 0xff.

(** The status, and the fields afterwards. *)
Definition ConvertRtcTimeToEfiTime (Time : EFI_TIME) (Century RegisterB : Z) : option (EFI_STATUS * EFI_TIME) :=
  let IsPM := negb (Z.land Time.(Hour) 0x80 =? 0) in
  let Time := set_hour (u8 (Z.land Time.(Hour) 0x7f)) Time in
  Time ← (if negb (Z.testbit RegisterB Dm) then
            y ← CheckAndConvertBcd8ToDecimal8 (u8 Time.(Year));
            mo ← CheckAndConvertBcd8ToDecimal8 Time.(Month);
            d ← CheckAndConvertBcd8ToDecimal8 Time.(Day);
            h ← CheckAndConvertBcd8ToDecimal8 Time.(Hour);
            mi ← CheckAndConvertBcd8ToDecimal8 Time.(Minute);
            s ← CheckAndConvertBcd8ToDecimal8 Time.(Second);
            Some {| Year := y; Month := mo; Day := d; Hour := h; Minute := mi; Second := s;
                    Nanosecond := Time.(Nanosecond); TimeZone := Time.(TimeZone); Daylight := Time.(Daylight) |}
          else Some Time);
  Century ← CheckAndConvertBcd8ToDecimal8 Century;
  if (Time.(Year) =? 0xff) || (Time.(Month) =? 0xff) || (Time.(Day) =? 0xff) || (Time.(Hour) =? 0xff) ||
     (Time.(Minute) =? 0xff) || (Time.(Second) =? 0xff) || (Century =? 0xff)
  then Some (EFI_INVALID_PARAMETER, Time)
  else
    let Time := set_year (u16 (Century * 100 + Time.(Year))) Time in
    let Time :=
      if negb (Z.testbit RegisterB Mil) then
        let Time := if IsPM && (Time.(Hour) <? 12) then set_hour (u8 (Time.(Hour) + 12)) Time else Time in
        if negb IsPM && (Time.(Hour) =? 12) then set_hour 0 Time else Time
      else Time in
    Some (EFI_SUCCESS, set_nanosecond 0 Time).

(** The time in the chip's format, and the century. *)
Definition ConvertEfiTimeToRtcTime (Time : EFI_TIME) (RegisterB : Z) : option (EFI_TIME * Z) :=
  let IsPM := if negb (Z.testbit RegisterB Mil) then negb (Time.(Hour) <? 12) else true in
  let Time :=
    if negb (Z.testbit RegisterB Mil) then
      if Time.(Hour) >=? 13 then set_hour (u8 (Time.(Hour) - 12)) Time
      else if Time.(Hour) =? 0 then set_hour 12 Time else Time
    else Time in
  Century ← DecimalToBcd8 (u8 (Time.(Year) / 100));
  let Time := set_year (u16 (Time.(Year) mod 100)) Time in
  Time ← (if negb (Z.testbit RegisterB Dm) then
            y ← DecimalToBcd8 (u8 Time.(Year));
            mo ← DecimalToBcd8 Time.(Month);
            d ← DecimalToBcd8 Time.(Day);
            h ← DecimalToBcd8 Time.(Hour);
            mi ← DecimalToBcd8 Time.(Minute);
            s ← DecimalToBcd8 Time.(Second);
            Some {| Year := y; Month := mo; Day := d; Hour := h; Minute := mi; Second := s;
                    Nanosecond := Time.(Nanosecond); TimeZone := Time.(TimeZone); Daylight := Time.(Daylight) |}
          else Some Time);
  let Time := if negb (Z.testbit RegisterB Mil) && IsPM then set_hour (u8 (Z.lor Time.(Hour) 0x80)) Time else Time in
  Some (Time, Century).
End Times.

(** Positive, zero or negative. *)
Definition CompareHMS (From To : EFI_TIME) : Z :=
  if (From.(Hour) >? To.(Hour)) || ((From.(Hour) =? To.(Hour)) && (From.(Minute) >? To.(Minute))) ||
     ((From.(Hour) =? To.(Hour)) && (From.(Minute) =? To.(Minute)) && (From.(Second) >? To.(Second))) then 1
  else if (From.(Hour) =? To.(Hour)) && (From.(Minute) =? To.(Minute)) && (From.(Second) =? To.(Second)) then 0
  else -1.

Definition IsWithinOneDay (From To : EFI_TIME) : option bool :=
  if (1 <=? From.(Month)) && (From.(Month) <=? 12) then
    if From.(Year) =? To.(Year) then
      if From.(Month) =? To.(Month) then
        if From.(Day) + 1 =? To.(Day) then Some (CompareHMS From To >=? 0)
        else if From.(Day) =? To.(Day) then Some (CompareHMS From To <=? 0)
        else Some false
      else if (From.(Month) + 1 =? To.(Month)) && (To.(Day) =? 1) then
        if (From.(Month) =? 2) && negb (IsLeapYear From) then
          if From.(Day) =? 28 then Some (CompareHMS From To >=? 0) else Some false
        else
          d ← DayOfMonth !! Z.to_nat (From.(Month) - 1);
          if From.(Day) =? d then Some (CompareHMS From To >=? 0) else Some false
      else Some false
    else if (From.(Year) + 1 =? To.(Year)) && (From.(Month) =? 12) && (From.(Day) =? 31) &&
            (To.(Month) =? 1) && (To.(Day) =? 1)
    then Some (CompareHMS From To >=? 0) else Some false
  else None.
