(* ===== verification/RtcTime.v ===== *)
(** * The real-time clock driver: times and the chip's format

    The functions of [PcRtc.c] on times against the calendar: which times are valid, the
    conversion to and from the chip's format - binary or BCD, 12 or 24 hours - and the comparison of two times. *)

From S2P Require Import Prelude RtcDefs.
From stdpp Require Import list.
#[local] Open Scope Z_scope.

(** ** The calendar *)

Definition leap (y : Z) : bool := (y mod 4 =? 0) && (negb (y mod 100 =? 0) || (y mod 400 =? 0)).
Definition days_in_month (y m : Z) : Z :=
  if m =? 2 then if leap y then 29 else 28
  else if (m =? 4) || (m =? 6) || (m =? 9) || (m =? 11) then 30 else 31.

(** Days before a year, of a year before a month, and before a date. *)
Definition days_before_year (y : Z) : Z := 365 * (y - 1) + (y - 1) / 4 - (y - 1) / 100 + (y - 1) / 400.
Fixpoint days_before_month (y : Z) (n : nat) : Z :=
  match n with O => 0 | S n => days_before_month y n + days_in_month y (Z.of_nat (S n)) end.
Definition day_number (t : EFI_TIME) : Z :=
  days_before_year t.(Year) + days_before_month t.(Year) (Z.to_nat (t.(Month) - 1)) + (t.(Day) - 1).

(** Seconds from the beginning of the calendar. *)
Definition seconds (t : EFI_TIME) : Z :=
  86400 * day_number t + 3600 * t.(Hour) + 60 * t.(Minute) + t.(Second).

(** The widths of the fields. *)
Definition time_wf (t : EFI_TIME) : Prop :=
  in_width 16 t.(Year) /\ in_width 8 t.(Month) /\ in_width 8 t.(Day) /\ in_width 8 t.(Hour) /\
  in_width 8 t.(Minute) /\ in_width 8 t.(Second) /\ in_width 32 t.(Nanosecond) /\
  - 2 ^ 15 <= t.(TimeZone) < 2 ^ 15 /\ in_width 8 t.(Daylight).

(** A date and time of the calendar. *)
Definition real_time (t : EFI_TIME) : Prop :=
  1 <= t.(Month) <= 12 /\ 1 <= t.(Day) <= days_in_month t.(Year) t.(Month) /\
  0 <= t.(Hour) <= 23 /\ 0 <= t.(Minute) <= 59 /\ 0 <= t.(Second) <= 59.

Lemma IsLeapYear_leap t : IsLeapYear t = leap t.(Year).
Proof.
  unfold IsLeapYear, leap. destruct (Year t mod 4 =? 0); [|done]. by destruct (Year t mod 100 =? 0).
Qed.

(** A month by cases. *)
Lemma month_cases (P : Z -> Prop) (m : Z) :
  1 <= m <= 12 -> P 1 -> P 2 -> P 3 -> P 4 -> P 5 -> P 6 -> P 7 -> P 8 -> P 9 -> P 10 -> P 11 -> P 12 -> P m.
Proof.
  intros. assert (m = 1 \/ m = 2 \/ m = 3 \/ m = 4 \/ m = 5 \/ m = 6 \/ m = 7 \/ m = 8 \/ m = 9 \/ m = 10 \/ m = 11 \/ m = 12)
    by lia. intuition (subst; assumption).
Qed.

(** Go through the twelve months. *)
Ltac by_month m Hm := pattern m; apply month_cases; [exact Hm|..].

(** Evaluate conversions of closed numbers. *)
Ltac close_nats :=
  repeat match goal with
    | |- context [Z.to_nat ?x] => let v := eval vm_compute in (Z.to_nat x) in progress change (Z.to_nat x) with v
    end.

(** The table: the days of a month, 29 for February. *)
Lemma DayOfMonth_ok y m :
  1 <= m <= 12 -> exists d, DayOfMonth !! Z.to_nat (m - 1) = Some d /\
    days_in_month y m = if (m =? 2) && negb (leap y) then 28 else d.
Proof.
  intros Hm. unfold days_in_month. by_month m Hm; (eexists; split; [reflexivity|]); cbn; by destruct (leap y).
Qed.

Lemma DayValid_ok t :
  1 <= t.(Month) <= 12 ->
  DayValid t = Some (bool_decide (1 <= t.(Day) <= days_in_month t.(Year) t.(Month))).
Proof.
  intros Hm. unfold DayValid. destruct (DayOfMonth_ok t.(Year) t.(Month) Hm) as (d & Hd & Hdim).
  destruct (Z.leb_spec 1 t.(Month)); [|lia]. destruct (Z.leb_spec t.(Month) 12); [|lia]. cbn [andb].
  rewrite Hd, some_bind, IsLeapYear_leap. f_equal. rewrite Hdim.
  assert (Hd28 : 28 <= d <= 31).
  { clear Hdim. revert Hd. by_month t.(Month) Hm; cbn; intros [= <-]; lia. }
  case_bool_decide as Hb; [apply negb_true_iff|apply negb_false_iff];
    destruct (Z.ltb_spec t.(Day) 1), (Z.gtb_spec t.(Day) d), (Z.gtb_spec t.(Day) 28), (t.(Month) =? 2), (leap t.(Year));
    cbn [andb orb negb] in *; lia || done.
Qed.

Section Times.
Context {H : PcRtcHeader}.

Definition zone_ok (t : EFI_TIME) : Prop :=
  (t.(TimeZone) = EFI_UNSPECIFIED_TIMEZONE \/ -1440 <= t.(TimeZone) <= 1440) /\
  Z.land t.(Daylight) (Z.lnot (Z.lor EFI_TIME_ADJUST_DAYLIGHT EFI_TIME_IN_DAYLIGHT)) = 0.

Definition valid (t : EFI_TIME) : Prop :=
  1998 <= t.(Year) <= 2099 /\ real_time t /\ t.(Nanosecond) <= 999999999 /\ zone_ok t.

(** The check never stops, and accepts exactly the times of the calendar of the years 1998 to
    2099. *)
Lemma RtcTimeFieldsValid_ok t :
  time_wf t -> exists st, RtcTimeFieldsValid t = Some st /\
    ((st = EFI_SUCCESS /\ valid t) \/ (st = EFI_INVALID_PARAMETER /\ ~ valid t)).
Proof.
  intros (HY & HM & HD & Hh & Hmi & Hs & Hn & Hz & Hdl). unfold in_width in *. unfold RtcTimeFieldsValid, valid, real_time, zone_ok.
  destruct (Z.ltb_spec t.(Year) 1998); [eexists; split; [done|]; right; split; [done|lia]|].
  destruct (Z.gtb_spec t.(Year) 2099); [eexists; split; [done|]; right; split; [done|lia]|].
  destruct (Z.ltb_spec t.(Month) 1); [eexists; split; [done|]; right; split; [done|lia]|].
  destruct (Z.gtb_spec t.(Month) 12); [eexists; split; [done|]; right; split; [done|lia]|]. cbn [orb].
  rewrite DayValid_ok, some_bind by lia. case_bool_decide as Hd; cbn [negb orb];
    [|eexists; split; [done|]; right; split; [done|tauto]].
  destruct (Z.gtb_spec t.(Hour) 23); [eexists; split; [done|]; right; split; [done|lia]|].
  destruct (Z.gtb_spec t.(Minute) 59); [eexists; split; [done|]; right; split; [done|lia]|].
  destruct (Z.gtb_spec t.(Second) 59); [eexists; split; [done|]; right; split; [done|lia]|].
  destruct (Z.gtb_spec t.(Nanosecond) 999999999); [eexists; split; [done|]; right; split; [done|lia]|]. cbn [orb].
  destruct (Z.eqb_spec t.(TimeZone) EFI_UNSPECIFIED_TIMEZONE), (Z.geb_spec t.(TimeZone) (-1440)),
    (Z.leb_spec t.(TimeZone) 1440),
    (Z.eqb_spec (Z.land t.(Daylight) (Z.lnot (Z.lor EFI_TIME_ADJUST_DAYLIGHT EFI_TIME_IN_DAYLIGHT))) 0);
    cbn [negb orb andb]; (eexists; split; [done|]); first [left; split; [done|]; intuition lia|right; split; [done|]; intuition lia].
Qed.
End Times.

(** ** The distance of two times *)

Lemma days_before_year_next y : days_before_year (y + 1) = days_before_year y + 365 + Z.b2z (leap y).
Proof.
  unfold days_before_year, leap. replace (y + 1 - 1) with y by lia.
  destruct (Z.eqb_spec (y mod 4) 0), (Z.eqb_spec (y mod 100) 0), (Z.eqb_spec (y mod 400) 0); cbn [andb orb negb Z.b2z];
    Z.to_euclidean_division_equations; lia.
Qed.

Lemma days_before_year_mono y y' : y <= y' -> days_before_year y + 365 * (y' - y) <= days_before_year y'.
Proof.
  intros Hy. replace y' with (y + Z.of_nat (Z.to_nat (y' - y))) by lia. generalize (Z.to_nat (y' - y)) as n.
  induction n as [|n IH]; [rewrite !Z.add_0_r; lia|].
  replace (y + Z.of_nat (S n)) with (y + Z.of_nat n + 1) by lia. rewrite days_before_year_next.
  destruct (leap (y + Z.of_nat n)); cbn [Z.b2z]; lia.
Qed.

Lemma days_in_month_bounds y m : 28 <= days_in_month y m <= 31.
Proof. unfold days_in_month. repeat case_match; lia. Qed.

Lemma days_before_month_mono y n k :
  days_before_month y n + 28 * Z.of_nat k <= days_before_month y (n + k).
Proof.
  induction k as [|k IH]; [rewrite Nat.add_0_r; lia|]. rewrite Nat.add_succ_r. cbn [days_before_month].
  pose proof (days_in_month_bounds y (Z.of_nat (S (n + k)))). lia.
Qed.

(** The day of the year, from 0. *)
Definition day_of_year (t : EFI_TIME) : Z := days_before_month t.(Year) (Z.to_nat (t.(Month) - 1)) + (t.(Day) - 1).

Lemma day_of_year_bounds t :
  real_time t -> 0 <= day_of_year t <= 364 + Z.b2z (leap t.(Year)) /\
    (day_of_year t = 0 <-> t.(Month) = 1 /\ t.(Day) = 1) /\
    (day_of_year t = 364 + Z.b2z (leap t.(Year)) <-> t.(Month) = 12 /\ t.(Day) = 31).
Proof.
  intros (Hm & Hd & _). unfold day_of_year. revert Hd. by_month t.(Month) Hm;
    close_nats; cbv [days_before_month days_in_month Z.of_nat Pos.of_succ_nat Pos.succ Z.eqb Pos.eqb orb andb];
    destruct (leap t.(Year)); cbn [Z.b2z]; lia.
Qed.

(** The seconds of the day, and what [CompareHMS] says of them. *)
Definition day_seconds (t : EFI_TIME) : Z := 3600 * t.(Hour) + 60 * t.(Minute) + t.(Second).

Lemma day_seconds_bounds t : real_time t -> 0 <= day_seconds t < 86400.
Proof. intros (_ & _ & ? & ? & ?). unfold day_seconds. lia. Qed.

Lemma CompareHMS_ge From To :
  real_time From -> real_time To -> (CompareHMS From To >=? 0) = bool_decide (day_seconds To <= day_seconds From).
Proof.
  intros (_ & _ & H1 & H2 & H3) (_ & _ & H4 & H5 & H6). unfold CompareHMS, day_seconds.
  destruct (Z.gtb_spec From.(Hour) To.(Hour)), (Z.eqb_spec From.(Hour) To.(Hour)), (Z.gtb_spec From.(Minute) To.(Minute)),
    (Z.eqb_spec From.(Minute) To.(Minute)), (Z.gtb_spec From.(Second) To.(Second)), (Z.eqb_spec From.(Second) To.(Second));
    cbn [andb orb]; (case_bool_decide; [reflexivity || lia|reflexivity || lia]).
Qed.

Lemma CompareHMS_le From To :
  real_time From -> real_time To -> (CompareHMS From To <=? 0) = bool_decide (day_seconds From <= day_seconds To).
Proof.
  intros (_ & _ & H1 & H2 & H3) (_ & _ & H4 & H5 & H6). unfold CompareHMS, day_seconds.
  destruct (Z.gtb_spec From.(Hour) To.(Hour)), (Z.eqb_spec From.(Hour) To.(Hour)), (Z.gtb_spec From.(Minute) To.(Minute)),
    (Z.eqb_spec From.(Minute) To.(Minute)), (Z.gtb_spec From.(Second) To.(Second)), (Z.eqb_spec From.(Second) To.(Second));
    cbn [andb orb]; (case_bool_decide; [reflexivity || lia|reflexivity || lia]).
Qed.

Lemma seconds_split t : seconds t = 86400 * (days_before_year t.(Year) + day_of_year t) + day_seconds t.
Proof. unfold seconds, day_number, day_of_year, day_seconds. lia. Qed.

(** Within a day of a date: the date itself and the next one. *)
Lemma within_day From To :
  real_time From -> real_time To ->
  let d := day_number To - day_number From in
  0 <= seconds To - seconds From <= 86400 <->
  (d = 0 /\ day_seconds From <= day_seconds To) \/ (d = 1 /\ day_seconds To <= day_seconds From).
Proof.
  intros HF HT d. rewrite !seconds_split. pose proof (day_seconds_bounds From HF). pose proof (day_seconds_bounds To HT).
  unfold d, day_number. fold (day_of_year From) (day_of_year To). unfold day_of_year. lia.
Qed.

(** The days between two dates, by the distance of their months or years. *)
Lemma days_apart From To :
  real_time From -> real_time To ->
  let d := day_number To - day_number From in
  (From.(Year) = To.(Year) ->
     (From.(Month) = To.(Month) -> d = To.(Day) - From.(Day)) /\
     (From.(Month) + 1 = To.(Month) -> d = days_in_month From.(Year) From.(Month) - From.(Day) + To.(Day)) /\
     (From.(Month) + 1 < To.(Month) -> 1 < d) /\ (To.(Month) < From.(Month) -> d < 0)) /\
  (From.(Year) + 1 = To.(Year) -> d = 365 + Z.b2z (leap From.(Year)) - day_of_year From + day_of_year To) /\
  (From.(Year) + 1 < To.(Year) -> 1 < d) /\ (To.(Year) < From.(Year) -> d < 0).
Proof.
  intros HF HT d. pose proof (day_of_year_bounds From HF) as (Hf & _). pose proof (day_of_year_bounds To HT) as (Ht & _).
  assert (Hb : forall y, 0 <= Z.b2z (leap y) <= 1) by (intros y; destruct (leap y); cbn; lia).
  pose proof (Hb From.(Year)) as HbF. pose proof (Hb To.(Year)) as HbT.
  assert (Hd : d = days_before_year To.(Year) + day_of_year To - days_before_year From.(Year) - day_of_year From)
    by (unfold d, day_number, day_of_year; lia).
  destruct HF as (Hm1 & Hd1 & _), HT as (Hm2 & Hd2 & _). split_and!.
  - intros HY. rewrite Hd, <- HY in *. unfold day_of_year in *. rewrite <- HY in *.
    set (n1 := Z.to_nat (From.(Month) - 1)). set (n2 := Z.to_nat (To.(Month) - 1)).
    assert (Hn1 : Z.of_nat (S n1) = From.(Month)) by lia. assert (Hn2 : Z.of_nat (S n2) = To.(Month)) by lia.
    assert (Hs1 : days_before_month From.(Year) (S n1) = days_before_month From.(Year) n1 + days_in_month From.(Year) From.(Month))
      by (cbn [days_before_month]; by rewrite Hn1).
    assert (Hs2 : days_before_month From.(Year) (S n2) = days_before_month From.(Year) n2 + days_in_month From.(Year) To.(Month))
      by (cbn [days_before_month]; by rewrite Hn2).
    split_and!; intros HM.
    + replace n2 with n1 by lia. lia.
    + replace n2 with (S n1) by lia. lia.
    + pose proof (days_before_month_mono From.(Year) (S n1) (n2 - S n1)) as Hmono. replace (S n1 + (n2 - S n1))%nat with n2 in Hmono by lia. lia.
    + pose proof (days_before_month_mono From.(Year) (S n2) (n1 - S n2)) as Hmono. replace (S n2 + (n1 - S n2))%nat with n1 in Hmono by lia. lia.
  - intros HY. rewrite Hd, <- HY, days_before_year_next. lia.
  - intros HY. pose proof (days_before_year_mono (From.(Year) + 1) To.(Year) ltac:(lia)). rewrite days_before_year_next in *. lia.
  - intros HY. pose proof (days_before_year_mono (To.(Year) + 1) From.(Year) ltac:(lia)). rewrite days_before_year_next in *. lia.
Qed.

(** The same, as the three answers of the check. *)
Lemma within_day_cases From To :
  real_time From -> real_time To ->
  let d := day_number To - day_number From in
  let w := bool_decide (0 <= seconds To - seconds From <= 86400) in
  (d = 0 -> w = bool_decide (day_seconds From <= day_seconds To)) /\
  (d = 1 -> w = bool_decide (day_seconds To <= day_seconds From)) /\ (d < 0 \/ 1 < d -> w = false).
Proof.
  intros HF HT d w. pose proof (within_day From To HF HT) as Hw. cbn zeta in Hw. fold d in Hw. unfold w. split_and!; intros Hd.
  - apply bool_decide_ext. rewrite Hw. lia.
  - apply bool_decide_ext. rewrite Hw. lia.
  - apply bool_decide_eq_false. rewrite Hw. lia.
Qed.

Lemma IsWithinOneDay_day (From To : EFI_TIME) :
  real_time From -> real_time To ->
  IsWithinOneDay From To = Some (bool_decide (0 <= seconds To - seconds From <= 86400)).
Proof.
  intros HF HT. destruct (within_day_cases From To HF HT) as (W0 & W1 & WN). destruct (days_apart From To HF HT) as (Hsame & Hnext & Hfar & Hback).
  cbn zeta in *. destruct (day_of_year_bounds From HF) as (HfB & _ & HfL). destruct (day_of_year_bounds To HT) as (HtB & HtF & _).
  assert (Hb : 0 <= Z.b2z (leap From.(Year))) by (destruct (leap From.(Year)); cbn; lia).
  destruct (DayOfMonth_ok From.(Year) From.(Month) (proj1 HF)) as (k & Hk & Hdim).
  unfold IsWithinOneDay. rewrite (CompareHMS_ge From To HF HT), (CompareHMS_le From To HF HT), Hk, some_bind, IsLeapYear_leap.
  destruct HF as (Hm1 & Hd1 & _), HT as (Hm2 & Hd2 & _).
  destruct (Z.leb_spec 1 From.(Month)); [|lia]. destruct (Z.leb_spec From.(Month) 12); [|lia]. cbn [andb].
  generalize dependent (bool_decide (0 <= seconds To - seconds From <= 86400)). intros w W0 W1 WN.
  destruct (Z.eqb_spec From.(Year) To.(Year)) as [HY|HY].
  - clear Hnext Hfar Hback HfL HtF. destruct (Hsame HY) as (S1 & S2 & S3 & S4). clear Hsame.
    destruct (Z.eqb_spec From.(Month) To.(Month)) as [HM|HM].
    + specialize (S1 HM). clear S2 S3 S4. destruct (Z.eqb_spec (From.(Day) + 1) To.(Day)); [rewrite W1 by lia; done|].
      destruct (Z.eqb_spec From.(Day) To.(Day)); [rewrite W0 by lia; done|rewrite WN by lia; done].
    + clear S1. destruct (Z.eqb_spec (From.(Month) + 1) To.(Month)) as [HM2|HM2]; cbn [andb].
      * specialize (S2 HM2). clear S3 S4. destruct (Z.eqb_spec To.(Day) 1); [|rewrite WN by lia; done].
        destruct ((From.(Month) =? 2) && negb (leap From.(Year))).
        -- destruct (Z.eqb_spec From.(Day) 28); [rewrite W1 by lia; done|rewrite WN by lia; done].
        -- destruct (Z.eqb_spec From.(Day) k); [rewrite W1 by lia; done|rewrite WN by lia; done].
      * rewrite WN; [done|]. destruct (Z.lt_ge_cases To.(Month) From.(Month)); [left; auto|right; apply S3; lia].
  - clear Hsame. destruct (Z.eqb_spec (From.(Year) + 1) To.(Year)) as [HY2|HY2]; cbn [andb].
    + specialize (Hnext HY2). clear Hfar Hback.
      destruct (Z.eqb_spec From.(Month) 12), (Z.eqb_spec From.(Day) 31), (Z.eqb_spec To.(Month) 1), (Z.eqb_spec To.(Day) 1); cbn [andb];
        first [rewrite W1 by lia; done|rewrite WN by lia; done].
    + rewrite WN; [done|]. destruct (Z.lt_ge_cases To.(Year) From.(Year)); [left; auto|right; apply Hfar; lia].
Qed.

(** the check that a wakeup time lies within the next day is exact: for every two times of the
    calendar it answers whether the second is not before the first and at most 24 hours after it,
    across the ends of months and years and through leap years. *)
Theorem IsWithinOneDay_exact (From To : EFI_TIME) :
  real_time From -> real_time To ->
  IsWithinOneDay From To = Some (bool_decide (0 <= seconds To - seconds From <= 86400)).
Proof. apply IsWithinOneDay_day. Qed.

(** What the driver relies on of the headers: BCD as BaseLib documents it, and bits of a byte. *)
Class PcRtcHeaderOk (H : PcRtcHeader) := {
  DecimalToBcd8_val v : 0 <= v < 100 -> DecimalToBcd8 v = Some (16 * (v / 10) + v mod 10);
  BcdToDecimal8_val v : 0 <= v < 0xa0 -> v mod 16 < 10 -> BcdToDecimal8 v = Some (10 * (v / 16) + v mod 16);
  bits_distinct : NoDup [Dm; Mil; Aie; SetBit];
  bits_range : Forall (fun b => 0 <= b < 8) [Uip; Vrt; Af; Dm; Mil; Aie; SetBit]
}.

Section Convert.
Context {H : PcRtcHeader} {HO : PcRtcHeaderOk H}.

Definition bcd (v : Z) : Z := 16 * (v / 10) + v mod 10.

(** Facts about two-digit numbers, by going through them. *)
Lemma two_digits (P : Z -> bool) : forallb P (seqZ 0 100) = true -> forall v, 0 <= v < 100 -> P v = true.
Proof.
  intros HP v Hv. rewrite forallb_forall in HP. apply HP. apply list_elem_of_In, elem_of_seqZ. lia.
Qed.

Lemma bcd_facts v : 0 <= v < 100 ->
  0 <= bcd v < 0xa0 /\ Z.land (bcd v) 0xf < 0xa /\ 10 * (bcd v / 16) + bcd v mod 16 = v /\ bcd v mod 16 < 10.
Proof.
  intros Hv. pose proof (two_digits (fun v => (0 <=? bcd v) && (bcd v <? 0xa0) && (Z.land (bcd v) 0xf <? 0xa) &&
    (10 * (bcd v / 16) + bcd v mod 16 =? v) && (bcd v mod 16 <? 10)) eq_refl v Hv) as Hc.
  cbn beta in Hc. rewrite !andb_true_iff, !Z.leb_le, !Z.ltb_lt, Z.eqb_eq in Hc. lia.
Qed.

Lemma to_bcd v : 0 <= v < 100 -> DecimalToBcd8 v = Some (bcd v).
Proof. apply DecimalToBcd8_val. Qed.

Lemma from_bcd v : 0 <= v < 100 -> CheckAndConvertBcd8ToDecimal8 (bcd v) = Some v.
Proof.
  intros Hv. destruct (bcd_facts v Hv) as (H1 & H2 & H3 & H4). unfold CheckAndConvertBcd8ToDecimal8.
  destruct (Z.ltb_spec (bcd v) 0xa0); [|lia]. destruct (Z.ltb_spec (Z.land (bcd v) 0xf) 0xa); [|lia]. cbn [andb].
  rewrite BcdToDecimal8_val by lia. by f_equal.
Qed.

(** The number that a mode gives. *)
Definition digits (dm : bool) (v : Z) : Z := if dm then v else bcd v.

(** The hour in a mode: without and with the bit for the afternoon. *)
Definition hour12 (mil : bool) (h : Z) : Z := if mil then h else if 13 <=? h then h - 12 else if h =? 0 then 12 else h.
Definition hour_code (dm mil : bool) (h : Z) : Z :=
  let c := digits dm (hour12 mil h) in if negb mil && (12 <=? h) then Z.lor c 0x80 else c.

Lemma hour_facts dm mil h : 0 <= h <= 23 ->
  let c := hour_code dm mil h in
  in_width 8 c /\ 0 <= hour12 mil h < 24 /\
  Z.land c 0x7f = digits dm (hour12 mil h) /\ negb (Z.land c 0x80 =? 0) = negb mil && (12 <=? h) /\
  (if mil then h = hour12 mil h else
     (let x := hour12 mil h in
      let y := if (12 <=? h) && (x <? 12) then x + 12 else x in
      if negb (12 <=? h) && (y =? 12) then 0 else y) = h).
Proof.
  intros Hh. cbn zeta.
  assert (Hc : forallb (fun h => forallb (fun dm => forallb (fun mil =>
    bool_decide (in_width 8 (hour_code dm mil h)) && (0 <=? hour12 mil h) && (hour12 mil h <? 24) &&
    (Z.land (hour_code dm mil h) 0x7f =? digits dm (hour12 mil h)) &&
    Bool.eqb (negb (Z.land (hour_code dm mil h) 0x80 =? 0)) (negb mil && (12 <=? h)) &&
    (if mil then h =? hour12 mil h else
       ((let x := hour12 mil h in let y := if (12 <=? h) && (x <? 12) then x + 12 else x in
         if negb (12 <=? h) && (y =? 12) then 0 else y) =? h))) [true; false]) [true; false]) (seqZ 0 24) = true)
    by (vm_compute; reflexivity).
  rewrite forallb_forall in Hc. specialize (Hc h ltac:(apply list_elem_of_In, elem_of_seqZ; lia)).
  rewrite forallb_forall in Hc. specialize (Hc dm ltac:(destruct dm; cbn; tauto)).
  rewrite forallb_forall in Hc. specialize (Hc mil ltac:(destruct mil; cbn; tauto)).
  rewrite !andb_true_iff, bool_decide_eq_true, Z.leb_le, Z.ltb_lt, Z.eqb_eq, Bool.eqb_true_iff in Hc.
  destruct Hc as (((((H1 & H2) & H3) & H4) & H5) & H6). split_and!; try done.
  destruct mil; by apply Z.eqb_eq.
Qed.

(** The chip's format of a valid time. *)
Definition rtc_format (t : EFI_TIME) (B : Z) : EFI_TIME :=
  let dm := Z.testbit B Dm in
  {| Year := digits dm (t.(Year) mod 100); Month := digits dm t.(Month); Day := digits dm t.(Day);
     Hour := hour_code dm (Z.testbit B Mil) t.(Hour); Minute := digits dm t.(Minute); Second := digits dm t.(Second);
     Nanosecond := t.(Nanosecond); TimeZone := t.(TimeZone); Daylight := t.(Daylight) |}.
Definition century (t : EFI_TIME) : Z := bcd (t.(Year) / 100).

(** The ranges of the fields of a time of the calendar. *)
Lemma field_ranges t : 1998 <= t.(Year) <= 2099 -> real_time t ->
  0 <= t.(Year) / 100 < 100 /\ 0 <= t.(Year) mod 100 < 100 /\ 0 <= t.(Month) < 100 /\ 0 <= t.(Day) < 100 /\
  0 <= t.(Hour) <= 23 /\ 0 <= t.(Minute) < 100 /\ 0 <= t.(Second) < 100.
Proof.
  intros HY (Hm & Hd & Hh & Hmi & Hs). pose proof (days_in_month_bounds t.(Year) t.(Month)).
  pose proof (Z.mod_pos_bound t.(Year) 100 ltac:(lia)). split_and!; try lia.
  - apply Z.div_pos; lia.
  - apply Z.div_lt_upper_bound; lia.
Qed.

Lemma digits_width dm v : 0 <= v < 100 -> in_width 8 (digits dm v) /\ digits dm v < 0xff.
Proof. intros Hv. destruct (bcd_facts v Hv) as (Hb & _). unfold digits, in_width. destruct dm; lia. Qed.

Lemma to_rtc t B : 1998 <= t.(Year) <= 2099 -> real_time t ->
  ConvertEfiTimeToRtcTime t B = Some (rtc_format t B, century t).
Proof.
  intros HY Hr. destruct (field_ranges t HY Hr) as (Hc & Hy & Hm & Hd & Hh & Hmi & Hs).
  pose proof (hour_facts (Z.testbit B Dm) (Z.testbit B Mil) t.(Hour) Hh) as (_ & Hh12 & _).
  unfold ConvertEfiTimeToRtcTime, rtc_format, century, hour_code.
  set (t1 := if negb (Z.testbit B Mil) then _ else t).
  assert (E1 : t1 = set_hour (hour12 (Z.testbit B Mil) t.(Hour)) t).
  { unfold t1, hour12. destruct (Z.testbit B Mil); cbn [negb]; [by destruct t|].
    destruct (Z.geb_spec t.(Hour) 13), (Z.leb_spec 13 t.(Hour)); try lia.
    - rewrite wrap_small by lia. done.
    - destruct (Z.eqb_spec t.(Hour) 0); [done|]. by destruct t. }
  assert (E2 : negb (t.(Hour) <? 12) = (12 <=? t.(Hour))) by (destruct (Z.ltb_spec t.(Hour) 12), (Z.leb_spec 12 t.(Hour)); lia || done).
  rewrite E1. clear t1 E1. rewrite E2. cbn [set_hour Year Month Day Hour Minute Second Nanosecond TimeZone Daylight].
  rewrite (wrap_small 8 (t.(Year) / 100)), (to_bcd (t.(Year) / 100)), some_bind by lia. rewrite (wrap_small 16 (t.(Year) mod 100)) by lia. unfold digits.
  destruct (Z.testbit B Dm); cbn [negb].
  - rewrite some_bind. destruct (Z.testbit B Mil); cbn [negb andb]; [done|].
    destruct (12 <=? t.(Hour)); [|done]. unfold set_hour. cbn [set_year Year Month Day Hour Minute Second Nanosecond TimeZone Daylight]. do 3 f_equal. apply wrap_small.
    apply lor_in_width; [lia|unfold in_width; lia|by vm_compute].
  - cbn [set_year set_hour Year Month Day Hour Minute Second Nanosecond TimeZone Daylight].
    rewrite (wrap_small 8 (t.(Year) mod 100)), !to_bcd by lia. cbn [mbind option_bind].
    destruct (Z.testbit B Mil); cbn [negb andb]; [done|]. destruct (12 <=? t.(Hour)); [|done]. unfold set_hour. cbn [set_year Year Month Day Hour Minute Second Nanosecond TimeZone Daylight]. do 3 f_equal.
    apply wrap_small. destruct (bcd_facts (hour12 false t.(Hour)) ltac:(lia)) as (Hb & _).
    apply lor_in_width; [lia|unfold in_width; lia|by vm_compute].
Qed.

(** Back: any nanoseconds are set to zero. *)
Lemma of_rtc t B n : 1998 <= t.(Year) <= 2099 -> real_time t ->
  ConvertRtcTimeToEfiTime (set_nanosecond n (rtc_format t B)) (century t) B = Some (EFI_SUCCESS, set_nanosecond 0 t).
Proof.
  intros HY Hr. destruct (field_ranges t HY Hr) as (Hc & Hy & Hm & Hd & Hh & Hmi & Hs).
  set (dm := Z.testbit B Dm). set (mil := Z.testbit B Mil).
  pose proof (hour_facts dm mil t.(Hour) Hh) as (Hw & Hh12 & H7f & H80 & Hback). cbn zeta in *.
  pose proof (digits_width dm _ Hy) as [Wy _]. pose proof (digits_width dm (hour12 mil t.(Hour)) ltac:(lia)) as [Wh _].
  unfold ConvertRtcTimeToEfiTime, rtc_format, century. fold dm mil.
  cbn [set_nanosecond set_hour Year Month Day Hour Minute Second Nanosecond TimeZone Daylight].
  rewrite H7f, H80, (wrap_small 8 (digits dm (hour12 mil t.(Hour)))), (wrap_small 8 (digits dm (t.(Year) mod 100))) by done.
  set (t1 := {| Year := t.(Year) mod 100; Month := t.(Month); Day := t.(Day); Hour := hour12 mil t.(Hour);
                Minute := t.(Minute); Second := t.(Second); Nanosecond := n; TimeZone := t.(TimeZone); Daylight := t.(Daylight) |}).
  set (conv := if negb dm then _ else _).
  assert (E : conv = Some t1).
  { unfold conv, digits, t1. destruct dm; cbn [negb]; [done|]. rewrite !from_bcd by lia. done. }
  rewrite E, some_bind, from_bcd, some_bind by lia. clear conv E. unfold t1. cbn [Year Month Day Hour Minute Second].
  destruct (Z.eqb_spec (t.(Year) mod 100) 0xff); [lia|]. destruct (Z.eqb_spec t.(Month) 0xff); [lia|].
  destruct (Z.eqb_spec t.(Day) 0xff); [lia|]. destruct (Z.eqb_spec (hour12 mil t.(Hour)) 0xff); [lia|].
  destruct (Z.eqb_spec t.(Minute) 0xff); [lia|]. destruct (Z.eqb_spec t.(Second) 0xff); [lia|].
  destruct (Z.eqb_spec (t.(Year) / 100) 0xff); [lia|]. cbn [orb].
  assert (EY : t.(Year) / 100 * 100 + t.(Year) mod 100 = t.(Year)) by (pose proof (Z.div_mod t.(Year) 100); lia).
  rewrite EY, (wrap_small 16 t.(Year)) by lia. do 2 f_equal.
  destruct mil; cbn [negb andb] in *.
  - rewrite <- Hback. by destruct t.
  - destruct (12 <=? t.(Hour)); cbn [negb andb set_year set_hour Hour] in *.
    + destruct (hour12 false t.(Hour) <? 12) eqn:Hlt; cbn [set_year set_hour Hour].
      * rewrite wrap_small by lia. rewrite Hback. by destruct t.
      * rewrite Hback. by destruct t.
    + destruct (hour12 false t.(Hour) =? 12); cbn [set_year set_hour Hour].
      * rewrite Hback. by destruct t.
      * rewrite Hback. by destruct t.
Qed.

(** the format of the chip loses nothing: for every date and time of the calendar of the
    years 1998 to 2099 and every content of register B - binary or BCD, 12 or 24 hours -
    [ConvertEfiTimeToRtcTime] returns, every register's value fits a byte, and
    [ConvertRtcTimeToEfiTime] on the values gives the time back, with no nanoseconds. *)
Theorem rtc_format_roundtrip (t : EFI_TIME) (RegisterB n : Z) :
  1998 <= t.(Year) <= 2099 -> real_time t ->
  exists r c, ConvertEfiTimeToRtcTime t RegisterB = Some (r, c) /\
    Forall (in_width 8) [r.(Year); r.(Month); r.(Day); r.(Hour); r.(Minute); r.(Second); c] /\
    ConvertRtcTimeToEfiTime (set_nanosecond n r) c RegisterB = Some (EFI_SUCCESS, set_nanosecond 0 t).
Proof.
  intros HY Hr. exists (rtc_format t RegisterB), (century t). destruct (field_ranges t HY Hr) as (Hc & Hy & Hm & Hd & Hh & Hmi & Hs).
  split_and!; [by apply to_rtc| |by apply of_rtc].
  pose proof (hour_facts (Z.testbit RegisterB Dm) (Z.testbit RegisterB Mil) t.(Hour) Hh) as (Hw & _).
  repeat (apply List.Forall_cons; [first [exact Hw|apply (digits_width _ _); done|apply (digits_width false); done]|]). apply List.Forall_nil.
Qed.
End Convert.
