(* ===== verification/RtcDriver.v ===== *)
(** * The real-time clock driver: the chip and the operations

    Models the rest of [PcRtc.c]: the access to the chip's registers, the wait for the end of an
    update, and the five operations of the driver. The chip is hardware: its registers keep what is
    written, except that bit [Uip] of register A shows whether an update is in progress, register C
    is cleared when it is read and register D cannot be written. That the time advances is not
    modelled: the driver's accesses are those between two updates. *)

From S2P Require Import Prelude RtcDefs.
From stdpp Require Import list.
#[local] Open Scope Z_scope.

(** ** The chip *)

(** [busy n] is the update flag at the [n]th reading of register A, [now] of which were made;
    [log] has the writes to the registers, the last first: address, data, and whether the SET bit
    of register B was set at that time. *)
Record chip := {
  latch : Z;
  cells : Z -> Z;
  busy : nat -> bool;
  now : nat;
  power : bool;
  alarm : bool;
  log : list (Z * Z * bool)
}.

Section Chip.
Context {H : PcRtcHeader}.

Definition index (c : chip) : Z := Z.land c.(latch) 0x7f.
Definition set_bit (x n : Z) (b : bool) : Z := if b then Z.setbit x n else Z.clearbit x n.
Definition set_latch (v : Z) (c : chip) : chip :=
  {| latch := v; cells := c.(cells); busy := c.(busy); now := c.(now); power := c.(power); alarm := c.(alarm); log := c.(log) |}.
Definition inhibited (c : chip) : bool := Z.testbit (c.(cells) RTC_ADDRESS_REGISTER_B) SetBit.

Definition IoRead8 (Port : Z) : M chip Z := fun c =>
  if Port =? PCAT_RTC_ADDRESS_REGISTER then Some (c.(latch), c)
  else if Port =? PCAT_RTC_DATA_REGISTER then
    if index c =? RTC_ADDRESS_REGISTER_A then
      Some (set_bit (c.(cells) RTC_ADDRESS_REGISTER_A) Uip (c.(busy) c.(now)),
            {| latch := c.(latch); cells := c.(cells); busy := c.(busy); now := S c.(now); power := c.(power);
               alarm := c.(alarm); log := c.(log) |})
    else if index c =? RTC_ADDRESS_REGISTER_C then
      Some (set_bit 0 Af c.(alarm),
            {| latch := c.(latch); cells := c.(cells); busy := c.(busy); now := c.(now); power := c.(power);
               alarm := false; log := c.(log) |})
    else if index c =? RTC_ADDRESS_REGISTER_D then Some (set_bit 0 Vrt c.(power), c)
    else Some (c.(cells) (index c), c)
  else None.

Definition IoWrite8 (Port Value : Z) : M chip unit := fun c =>
  if Port =? PCAT_RTC_ADDRESS_REGISTER then Some (tt, set_latch Value c)
  else if Port =? PCAT_RTC_DATA_REGISTER then
    let cells' := if (index c =? RTC_ADDRESS_REGISTER_C) || (index c =? RTC_ADDRESS_REGISTER_D) then c.(cells)
                  else fun a => if a =? index c then Value else c.(cells) a in
    Some (tt, {| latch := c.(latch); cells := cells'; busy := c.(busy); now := c.(now); power := c.(power);
                 alarm := c.(alarm); log := (index c, Value, inhibited c) :: c.(log) |})
  else None.

Definition RtcRead (Address : Z) : M chip Z :=
  v ← IoRead8 PCAT_RTC_ADDRESS_REGISTER;
  _ ← IoWrite8 PCAT_RTC_ADDRESS_REGISTER (u8 (Z.lor Address (u8 (Z.land v 0x80))));
  IoRead8 PCAT_RTC_DATA_REGISTER.

Definition RtcWrite (Address Data : Z) : M chip unit :=
  v ← IoRead8 PCAT_RTC_ADDRESS_REGISTER;
  _ ← IoWrite8 PCAT_RTC_ADDRESS_REGISTER (u8 (Z.lor Address (u8 (Z.land v 0x80))));
  IoWrite8 PCAT_RTC_DATA_REGISTER Data.

(** The loop of [RtcWaitToUpdate]: register A and the timeout at its end. One iteration takes one
    off the timeout, so that [Timeout + 1] iterations are enough. *)
Fixpoint wait_loop (n : nat) (RegisterA Timeout : Z) : M chip (Z * Z) :=
  match n with
  | O => stop
  | S n =>
      if Z.testbit RegisterA Uip && (Timeout >? 0) then
        RegisterA ← RtcRead RTC_ADDRESS_REGISTER_A;
        wait_loop n RegisterA (Timeout - 1)
      else mret (RegisterA, Timeout)
  end.

Definition RtcWaitToUpdate (Timeout : Z) : M chip EFI_STATUS :=
  RegisterD ← RtcRead RTC_ADDRESS_REGISTER_D;
  if negb (Z.testbit RegisterD Vrt) then mret EFI_DEVICE_ERROR
  else
    let Timeout := u32 (Timeout / 10 + 1) in
    RegisterA ← RtcRead RTC_ADDRESS_REGISTER_A;
    '(RegisterA, Timeout) ← wait_loop (S (Z.to_nat Timeout)) RegisterA Timeout;
    RegisterD ← RtcRead RTC_ADDRESS_REGISTER_D;
    if (Timeout =? 0) || negb (Z.testbit RegisterD Vrt) then mret EFI_DEVICE_ERROR else mret EFI_SUCCESS.
End Chip.

(** ** The driver *)

(** The globals of the module; [RtcLock] when the lock is held, [AtRuntime] the value of
    [EfiAtRuntime]. *)
Record rtc (E : Type) := {
  env : E;
  hw : chip;
  SavedTimeZone : Z;
  SavedDaylight : Z;
  RtcLock : bool;
  AtRuntime : bool
}.
Arguments env {E} _.
Arguments hw {E} _.
Arguments SavedTimeZone {E} _.
Arguments SavedDaylight {E} _.
Arguments RtcLock {E} _.
Arguments AtRuntime {E} _.

Section Driver.
Context {H : PcRtcHeader} {E : Type} {V : RtcVariables E}.

Definition on_chip {A} (m : M chip A) : M (rtc E) A := fun s =>
  match m s.(hw) with
  | Some (a, c) => Some (a, {| env := s.(env); hw := c; SavedTimeZone := s.(SavedTimeZone);
                               SavedDaylight := s.(SavedDaylight); RtcLock := s.(RtcLock); AtRuntime := s.(AtRuntime) |})
  | None => None
  end.
Definition on_var {A} (m : M E A) : M (rtc E) A := fun s =>
  match m s.(env) with
  | Some (a, e) => Some (a, {| env := e; hw := s.(hw); SavedTimeZone := s.(SavedTimeZone);
                               SavedDaylight := s.(SavedDaylight); RtcLock := s.(RtcLock); AtRuntime := s.(AtRuntime) |})
  | None => None
  end.
Definition set_lock (b : bool) (s : rtc E) : rtc E :=
  {| env := s.(env); hw := s.(hw); SavedTimeZone := s.(SavedTimeZone); SavedDaylight := s.(SavedDaylight);
     RtcLock := b; AtRuntime := s.(AtRuntime) |}.
Definition set_saved (z d : Z) (s : rtc E) : rtc E :=
  {| env := s.(env); hw := s.(hw); SavedTimeZone := z; SavedDaylight := d; RtcLock := s.(RtcLock); AtRuntime := s.(AtRuntime) |}.

Definition read (a : Z) : M (rtc E) Z := on_chip (RtcRead a).
Definition write (a d : Z) : M (rtc E) unit := on_chip (RtcWrite a d).
Definition wait : M (rtc E) EFI_STATUS := on_chip (RtcWaitToUpdate PcdRealTimeClockUpdateTimeout).

(** [if (!EfiAtRuntime ()) EfiAcquireLock (...)]; the lock may not be held already, or be free
    already. *)
Definition acquire : M (rtc E) unit :=
  s ← get;
  if negb s.(AtRuntime) then _ ← ASSERT (negb s.(RtcLock)); modify (set_lock true) else mret tt.
Definition release : M (rtc E) unit :=
  s ← get;
  if negb s.(AtRuntime) then _ ← ASSERT s.(RtcLock); modify (set_lock false) else mret tt.

(** The registers of the time; [zone] and [daylight] are filled in, and the nanoseconds are those
    that are there. *)
Definition read_time (ns zone daylight : Z) : M (rtc E) EFI_TIME :=
  s ← read RTC_ADDRESS_SECONDS;
  mi ← read RTC_ADDRESS_MINUTES;
  h ← read RTC_ADDRESS_HOURS;
  d ← read RTC_ADDRESS_DAY_OF_THE_MONTH;
  mo ← read RTC_ADDRESS_MONTH;
  y ← read RTC_ADDRESS_YEAR;
  mret {| Year := y; Month := mo; Day := d; Hour := h; Minute := mi; Second := s; Nanosecond := ns;
          TimeZone := zone; Daylight := daylight |}.

(** The alarm's registers, with the date of the clock. *)
Definition read_alarm (ns zone daylight : Z) : M (rtc E) EFI_TIME :=
  s ← read RTC_ADDRESS_SECONDS_ALARM;
  mi ← read RTC_ADDRESS_MINUTES_ALARM;
  h ← read RTC_ADDRESS_HOURS_ALARM;
  d ← read RTC_ADDRESS_DAY_OF_THE_MONTH;
  mo ← read RTC_ADDRESS_MONTH;
  y ← read RTC_ADDRESS_YEAR;
  mret {| Year := y; Month := mo; Day := d; Hour := h; Minute := mi; Second := s; Nanosecond := ns;
          TimeZone := zone; Daylight := daylight |}.

(** [ConvertRtcTimeToEfiTime], then [RtcTimeFieldsValid]: the time if both succeed. *)
Definition convert_checked (Time : EFI_TIME) (Century RegisterB : Z) : option (EFI_STATUS * EFI_TIME) :=
  '(Status, Time) ← ConvertRtcTimeToEfiTime Time Century RegisterB;
  if EFI_ERROR Status then Some (Status, Time)
  else Status ← RtcTimeFieldsValid Time; Some (Status, Time).

(** [Time] is what the pointer points to, [None] for NULL; the status and what it points to then. *)
Definition PcRtcGetTime (Time : option EFI_TIME) (Capabilities : bool)
    : M (rtc E) (EFI_STATUS * option EFI_TIME * option EFI_TIME_CAPABILITIES) :=
  match Time with
  | None => mret (EFI_INVALID_PARAMETER, None, None)
  | Some Time =>
      _ ← acquire;
      Status ← wait;
      if EFI_ERROR Status then _ ← release; mret (Status, Some Time, None) else
      RegisterB ← read RTC_ADDRESS_REGISTER_B;
      s ← get;
      Time ← read_time Time.(Nanosecond) s.(SavedTimeZone) s.(SavedDaylight);
      Century ← read RTC_ADDRESS_CENTURY;
      _ ← release;
      '(Status, Time) ← lift (convert_checked Time Century RegisterB);
      if EFI_ERROR Status then mret (EFI_DEVICE_ERROR, Some Time, None) else
      mret (EFI_SUCCESS, Some Time,
            if Capabilities then Some {| Resolution := 1; Accuracy := 50000000; SetsToZero := false |} else None)
  end.

(** [RegisterB.Bits.Set]. *)
Definition with_Set (RegisterB : Z) (b : bool) : Z := set_bit RegisterB SetBit b.

Definition PcRtcSetTime (Time : option EFI_TIME) : M (rtc E) EFI_STATUS :=
  match Time with
  | None => mret EFI_INVALID_PARAMETER
  | Some Time =>
      Status ← lift (RtcTimeFieldsValid Time);
      if EFI_ERROR Status then mret Status else
      _ ← acquire;
      Status ← wait;
      if EFI_ERROR Status then _ ← release; mret Status else
      let TimerVar := u32 (Z.lor (u32 (Z.shiftl Time.(Daylight) 16)) (u16 Time.(TimeZone))) in
      Status ← on_var (SetRTC TimerVar);
      if EFI_ERROR Status then _ ← release; mret EFI_DEVICE_ERROR else
      RegisterB ← read RTC_ADDRESS_REGISTER_B;
      let RegisterB := with_Set RegisterB true in
      _ ← write RTC_ADDRESS_REGISTER_B RegisterB;
      '(RtcTime, Century) ← lift (ConvertEfiTimeToRtcTime Time RegisterB);
      _ ← write RTC_ADDRESS_SECONDS RtcTime.(Second);
      _ ← write RTC_ADDRESS_MINUTES RtcTime.(Minute);
      _ ← write RTC_ADDRESS_HOURS RtcTime.(Hour);
      _ ← write RTC_ADDRESS_DAY_OF_THE_MONTH RtcTime.(Day);
      _ ← write RTC_ADDRESS_MONTH RtcTime.(Month);
      _ ← write RTC_ADDRESS_YEAR (u8 RtcTime.(Year));
      _ ← write RTC_ADDRESS_CENTURY Century;
      let RegisterB := with_Set RegisterB false in
      _ ← write RTC_ADDRESS_REGISTER_B RegisterB;
      _ ← release;
      _ ← modify (set_saved Time.(TimeZone) Time.(Daylight));
      mret EFI_SUCCESS
  end.

(** [Out] is what the pointers [Enabled], [Pending] and [Time] point to, [None] when one is NULL. *)
Definition PcRtcGetWakeupTime (Out : option (bool * bool * EFI_TIME)) : M (rtc E) (EFI_STATUS * option (bool * bool * EFI_TIME)) :=
  match Out with
  | None => mret (EFI_INVALID_PARAMETER, None)
  | Some (Enabled, Pending, Time) =>
      _ ← acquire;
      Status ← wait;
      if EFI_ERROR Status then _ ← release; mret (EFI_DEVICE_ERROR, Some (Enabled, Pending, Time)) else
      RegisterB ← read RTC_ADDRESS_REGISTER_B;
      RegisterC ← read RTC_ADDRESS_REGISTER_C;
      let Enabled := Z.testbit RegisterB Aie in
      let Pending := Z.testbit RegisterC Af in
      s ← get;
      Time ← read_alarm Time.(Nanosecond) s.(SavedTimeZone) s.(SavedDaylight);
      Century ← read RTC_ADDRESS_CENTURY;
      '(Status, RtcTime) ← on_var GetRTCALARM;
      let Time :=
        if negb (EFI_ERROR Status) then
          {| Year := RtcTime.(Year); Month := RtcTime.(Month); Day := RtcTime.(Day); Hour := Time.(Hour);
             Minute := Time.(Minute); Second := Time.(Second); Nanosecond := Time.(Nanosecond);
             TimeZone := Time.(TimeZone); Daylight := Time.(Daylight) |}
        else Time in
      _ ← release;
      '(Status, Time) ← lift (convert_checked Time Century RegisterB);
      if EFI_ERROR Status then mret (EFI_DEVICE_ERROR, Some (Enabled, Pending, Time))
      else mret (EFI_SUCCESS, Some (Enabled, Pending, Time))
  end.

Definition zero_time : EFI_TIME :=
  {| Year := 0; Month := 0; Day := 0; Hour := 0; Minute := 0; Second := 0; Nanosecond := 0; TimeZone := 0; Daylight := 0 |}.

(** The time to program, or the status to return. *)
Definition check_wakeup (Enable : bool) (Time : option EFI_TIME) : M (rtc E) (EFI_STATUS + EFI_TIME) :=
  if Enable then
    match Time with
    | None => mret (inl EFI_INVALID_PARAMETER)
    | Some Time =>
        Status ← lift (RtcTimeFieldsValid Time);
        if EFI_ERROR Status then mret (inl EFI_INVALID_PARAMETER) else
        '(_, RtcTime, _) ← PcRtcGetTime (Some zero_time) true;
        let RtcTime := default zero_time RtcTime in
        Status ← lift (RtcTimeFieldsValid RtcTime);
        if EFI_ERROR Status then mret (inl EFI_DEVICE_ERROR) else
        b ← lift (IsWithinOneDay RtcTime Time);
        if negb b then mret (inl EFI_UNSUPPORTED) else mret (inr Time)
    end
  else mret (inr zero_time).

(** The second half of [PcRtcSetWakeupTime]. *)
Definition program_wakeup (Enable : bool) (RtcTime : EFI_TIME) : M (rtc E) EFI_STATUS :=
  _ ← acquire;
  Status ← wait;
  if EFI_ERROR Status then _ ← release; mret EFI_DEVICE_ERROR else
  RegisterB ← read RTC_ADDRESS_REGISTER_B;
  s ← get;
  RtcTime ← (if Enable then '(t, _) ← lift (ConvertEfiTimeToRtcTime RtcTime RegisterB); mret t
             else read_alarm RtcTime.(Nanosecond) s.(SavedTimeZone) s.(SavedDaylight));
  Status ← on_var (SetRTCALARM RtcTime);
  if EFI_ERROR Status then _ ← release; mret EFI_DEVICE_ERROR else
  let RegisterB := with_Set RegisterB true in
  _ ← write RTC_ADDRESS_REGISTER_B RegisterB;
  RegisterB ← (if Enable then
                 _ ← write RTC_ADDRESS_SECONDS_ALARM RtcTime.(Second);
                 _ ← write RTC_ADDRESS_MINUTES_ALARM RtcTime.(Minute);
                 _ ← write RTC_ADDRESS_HOURS_ALARM RtcTime.(Hour);
                 mret (set_bit RegisterB Aie true)
               else mret (set_bit RegisterB Aie false));
  let RegisterB := with_Set RegisterB false in
  _ ← write RTC_ADDRESS_REGISTER_B RegisterB;
  _ ← release;
  mret EFI_SUCCESS.

Definition PcRtcSetWakeupTime (Enable : bool) (Time : option EFI_TIME) : M (rtc E) EFI_STATUS :=
  r ← check_wakeup Enable Time;
  match r with inl Status => mret Status | inr RtcTime => program_wakeup Enable RtcTime end.

Definition init_time (zone daylight : Z) : EFI_TIME :=
  {| Year := RTC_INIT_YEAR; Month := RTC_INIT_MONTH; Day := RTC_INIT_DAY; Hour := RTC_INIT_HOUR;
     Minute := RTC_INIT_MINUTE; Second := RTC_INIT_SECOND; Nanosecond := 0; TimeZone := zone; Daylight := daylight |}.

(** A conversion to a signed type of 16 bits. *)
Definition s16 (x : Z) : Z := if u16 x <? 2 ^ 15 then u16 x else u16 x - 2 ^ 16.

(** The second half of [PcRtcInit]: the alarm registers get a valid time. *)
Definition reset_alarm (RegisterB : Z) : M (rtc E) EFI_STATUS :=
  s ← get;
  let Time := init_time s.(SavedTimeZone) s.(SavedDaylight) in
  _ ← acquire;
  Status ← wait;
  if EFI_ERROR Status then _ ← release; mret EFI_DEVICE_ERROR else
  '(Time, Century) ← lift (ConvertEfiTimeToRtcTime Time RegisterB);
  Status ← on_var (SetRTCALARM Time);
  if EFI_ERROR Status then _ ← release; mret EFI_DEVICE_ERROR else
  RegisterB ← read RTC_ADDRESS_REGISTER_B;
  let RegisterB := with_Set RegisterB true in
  _ ← write RTC_ADDRESS_REGISTER_B RegisterB;
  _ ← write RTC_ADDRESS_SECONDS_ALARM Time.(Second);
  _ ← write RTC_ADDRESS_MINUTES_ALARM Time.(Minute);
  _ ← write RTC_ADDRESS_HOURS_ALARM Time.(Hour);
  let RegisterB := with_Set RegisterB false in
  _ ← write RTC_ADDRESS_REGISTER_B RegisterB;
  _ ← release;
  mret EFI_SUCCESS.

(** The first part of [PcRtcInit]: the chip is configured; the status to return, or what was read:
    the time, the century and the old register B. *)
Definition init_chip (Time : EFI_TIME) : M (rtc E) (EFI_STATUS + EFI_TIME * Z * Z) :=
  _ ← acquire;
  _ ← write RTC_ADDRESS_REGISTER_A RTC_INIT_REGISTER_A;
  RegisterB ← read RTC_ADDRESS_REGISTER_B;
  _ ← read RTC_ADDRESS_REGISTER_C;
  _ ← write RTC_ADDRESS_REGISTER_D RTC_INIT_REGISTER_D;
  Status ← wait;
  if EFI_ERROR Status then
    _ ← modify (set_saved EFI_UNSPECIFIED_TIMEZONE 0);
    _ ← release; mret (inl EFI_DEVICE_ERROR)
  else
  Time ← read_time Time.(Nanosecond) Time.(TimeZone) Time.(Daylight);
  Century ← read RTC_ADDRESS_CENTURY;
  _ ← write RTC_ADDRESS_REGISTER_B (u8 (Z.lor RTC_INIT_REGISTER_B (Z.land RegisterB 32)));
  _ ← release;
  mret (inr (Time, Century, RegisterB)).

(** [Enabled], [Pending] and [Time] are the local variables, which the function does not
    initialise. *)
Definition PcRtcInit (Enabled Pending : bool) (Time : EFI_TIME) : M (rtc E) EFI_STATUS :=
  r ← init_chip Time;
  match r with
  | inl Status => mret Status
  | inr (Time, Century, RegisterB) =>
      '(Status, TimerVar) ← on_var GetRTC;
      let Time := if negb (EFI_ERROR Status) then set_zone (s16 TimerVar) (u8 (Z.shiftr TimerVar 16)) Time
                  else set_zone EFI_UNSPECIFIED_TIMEZONE 0 Time in
      '(Status, Time) ← lift (convert_checked Time Century RegisterB);
      let Time := if EFI_ERROR Status then init_time EFI_UNSPECIFIED_TIMEZONE 0 else Time in
      Status ← PcRtcSetTime (Some Time);
      if EFI_ERROR Status then mret EFI_DEVICE_ERROR else
      '(Status, r) ← PcRtcGetWakeupTime (Some (Enabled, Pending, Time));
      let Enabled := match r with Some (Enabled, _, _) => Enabled | None => Enabled end in
      if Enabled || negb (EFI_ERROR Status) then mret EFI_SUCCESS
      else reset_alarm RegisterB
  end.
End Driver.
