(* ===== verification/RtcClock.v ===== *)
(** * The real-time clock driver: rules for the operations

    What each operation of [RtcDriver] does to the chip, the lock, the module's globals and the
    variables. *)

From S2P Require Import Prelude RtcDefs RtcTime RtcDriver.
From stdpp Require Import list.
#[local] Open Scope Z_scope.

(** ** The chip *)

(** The registers and the log of writes, and the effect of a list of writes on them. *)
Abbreviation regs_log := ((Z -> Z) * list (Z * Z * bool))%type.

Section Chip.
Context {H : PcRtcHeader} {HO : PcRtcHeaderOk H}.

Definition regs (c : chip) : regs_log := (c.(cells), c.(log)).
Definition put (w : Z * Z) (r : regs_log) : regs_log :=
  ((if (w.1 =? RTC_ADDRESS_REGISTER_C) || (w.1 =? RTC_ADDRESS_REGISTER_D) then r.1
    else fun a => if a =? w.1 then w.2 else r.1 a),
   (w.1, w.2, Z.testbit (r.1 RTC_ADDRESS_REGISTER_B) SetBit) :: r.2).
Definition puts (ws : list (Z * Z)) (r : regs_log) : regs_log := foldl (fun r w => put w r) r ws.

Lemma puts_app ws1 ws2 r : puts (ws1 ++ ws2) r = puts ws2 (puts ws1 r).
Proof. apply foldl_app. Qed.

(** The chip but for the index and the readings of the update flag. *)
Definition same_chip (c c' : chip) : Prop :=
  c'.(busy) = c.(busy) /\ c'.(power) = c.(power) /\ c'.(alarm) = c.(alarm) /\ regs c' = regs c.

Definition address (a : Z) : Prop := 0 <= a < 0x80.

Lemma index_of a v : address a -> Z.land (u8 (Z.lor a (u8 (Z.land v 0x80)))) 0x7f = a.
Proof.
  intros Ha. assert (Hw : in_width 7 a) by exact Ha. change 0x7f with (Z.ones 7). change 0x80 with (Z.shiftl 1 7).
  bits i Hi. destruct (Z.ltb_spec i 7).
  - destruct (Z.ltb_spec i 8); [|lia]. destruct (Z.leb_spec 0 i); [|lia]. rewrite (Z.testbit_neg_r 1 (i - 7)) by lia.
    rewrite ?andb_false_r, ?andb_true_r, ?orb_false_r. done.
  - rewrite (in_width_bit 7 a i) by done. by rewrite ?andb_false_r.
Qed.

(** The index is selected, and nothing else changes. *)
Lemma RtcRead_select a c : address a ->
  exists l, Z.land l 0x7f = a /\ RtcRead a c = IoRead8 PCAT_RTC_DATA_REGISTER (set_latch l c).
Proof. intros Ha. eexists. split; [by apply (index_of a c.(latch))|]. done. Qed.

Lemma RtcWrite_select a v c : address a ->
  exists l, Z.land l 0x7f = a /\ RtcWrite a v c = IoWrite8 PCAT_RTC_DATA_REGISTER v (set_latch l c).
Proof. intros Ha. eexists. split; [by apply (index_of a c.(latch))|]. done. Qed.

Lemma wp_eq {S A} (m m' : M S A) (Q : A -> S -> Prop) s s0 : m s = m' s0 -> wp m' Q s0 -> wp m Q s.
Proof. intros E (a & s' & Hm & HQ). exists a, s'. by rewrite E. Qed.

(** A register other than A, C and D. *)
Definition plain (a : Z) : Prop :=
  address a /\ a <> RTC_ADDRESS_REGISTER_A /\ a <> RTC_ADDRESS_REGISTER_C /\ a <> RTC_ADDRESS_REGISTER_D.

Lemma wp_read_plain a (Q : Z -> chip -> Prop) c :
  plain a -> (forall c', same_chip c c' -> c'.(now) = c.(now) -> Q (c.(cells) a) c') -> wp (RtcRead a) Q c.
Proof.
  intros (Ha & HA & HC & HD) HQ. destruct (RtcRead_select a c Ha) as (l & Hl & E). eapply wp_eq; [exact E|].
  unfold wp, IoRead8. cbn [Z.eqb PCAT_RTC_DATA_REGISTER PCAT_RTC_ADDRESS_REGISTER Pos.eqb]. unfold index. cbn [latch set_latch]. rewrite Hl.
  destruct (Z.eqb_spec a RTC_ADDRESS_REGISTER_A); [done|]. destruct (Z.eqb_spec a RTC_ADDRESS_REGISTER_C); [done|].
  destruct (Z.eqb_spec a RTC_ADDRESS_REGISTER_D); [done|]. eexists _, _. split; [done|]. by apply HQ.
Qed.

Lemma wp_read_A (Q : Z -> chip -> Prop) c :
  (forall c', same_chip c c' -> c'.(now) = S c.(now) ->
     Q (set_bit (c.(cells) RTC_ADDRESS_REGISTER_A) Uip (c.(busy) c.(now))) c') ->
  wp (RtcRead RTC_ADDRESS_REGISTER_A) Q c.
Proof.
  intros HQ. destruct (RtcRead_select RTC_ADDRESS_REGISTER_A c) as (l & Hl & E); [by unfold address, RTC_ADDRESS_REGISTER_A|].
  eapply wp_eq; [exact E|]. unfold wp, IoRead8. cbn [Z.eqb PCAT_RTC_DATA_REGISTER PCAT_RTC_ADDRESS_REGISTER Pos.eqb]. unfold index. cbn [latch set_latch].
  rewrite Hl, Z.eqb_refl. eexists _, _. split; [done|]. by apply HQ.
Qed.

Lemma wp_read_C (Q : Z -> chip -> Prop) c :
  (forall c', c'.(busy) = c.(busy) -> c'.(power) = c.(power) -> c'.(alarm) = false -> regs c' = regs c ->
     c'.(now) = c.(now) -> Q (set_bit 0 Af c.(alarm)) c') ->
  wp (RtcRead RTC_ADDRESS_REGISTER_C) Q c.
Proof.
  intros HQ. destruct (RtcRead_select RTC_ADDRESS_REGISTER_C c) as (l & Hl & E); [by unfold address, RTC_ADDRESS_REGISTER_C|].
  eapply wp_eq; [exact E|]. unfold wp, IoRead8. cbn [Z.eqb PCAT_RTC_DATA_REGISTER PCAT_RTC_ADDRESS_REGISTER Pos.eqb]. unfold index. cbn [latch set_latch].
  rewrite Hl, Z.eqb_refl. eexists _, _. split; [done|]. by apply HQ.
Qed.

Lemma wp_read_D (Q : Z -> chip -> Prop) c :
  (forall c', same_chip c c' -> c'.(now) = c.(now) -> Q (set_bit 0 Vrt c.(power)) c') ->
  wp (RtcRead RTC_ADDRESS_REGISTER_D) Q c.
Proof.
  intros HQ. destruct (RtcRead_select RTC_ADDRESS_REGISTER_D c) as (l & Hl & E); [by unfold address, RTC_ADDRESS_REGISTER_D|].
  eapply wp_eq; [exact E|]. unfold wp, IoRead8. cbn [Z.eqb PCAT_RTC_DATA_REGISTER PCAT_RTC_ADDRESS_REGISTER Pos.eqb]. unfold index. cbn [latch set_latch].
  rewrite Hl, Z.eqb_refl. eexists _, _. split; [done|]. by apply HQ.
Qed.

(** A write, with its effect on the registers and the log. *)
Definition wrote (ws : list (Z * Z)) (c c' : chip) : Prop :=
  c'.(busy) = c.(busy) /\ c'.(power) = c.(power) /\ c'.(alarm) = c.(alarm) /\ c'.(now) = c.(now) /\ regs c' = puts ws (regs c).

Lemma wp_write_reg a v (Q : unit -> chip -> Prop) c :
  address a -> (forall c', wrote [(a, v)] c c' -> Q tt c') -> wp (RtcWrite a v) Q c.
Proof.
  intros Ha HQ. destruct (RtcWrite_select a v c Ha) as (l & Hl & E). eapply wp_eq; [exact E|].
  unfold wp, IoWrite8. cbn [Z.eqb PCAT_RTC_DATA_REGISTER PCAT_RTC_ADDRESS_REGISTER Pos.eqb]. unfold index. cbn [latch set_latch cells log]. rewrite Hl.
  eexists _, _. split; [done|]. apply HQ. unfold wrote, regs, puts, put. by cbn.
Qed.

(** ** Waiting for the end of an update *)

Lemma set_bit_same x n b : 0 <= n -> Z.testbit (set_bit x n b) n = b.
Proof. intros Hn. unfold set_bit. destruct b; [by apply Z.setbit_eq|by apply Z.clearbit_eq]. Qed.

Lemma set_bit_other x n m b : 0 <= n -> n <> m -> Z.testbit (set_bit x n b) m = Z.testbit x m.
Proof. intros Hn Hm. unfold set_bit. destruct b; [by apply Z.setbit_neq|by apply Z.clearbit_neq]. Qed.

Lemma bit_range b : b ∈ [Uip; Vrt; Af; Dm; Mil; Aie; SetBit] -> 0 <= b < 8.
Proof. intros Hb. pose proof bits_range as Hr. rewrite Forall_forall in Hr. by apply Hr. Qed.

Lemma set_bit_width x n b : 0 <= n < 8 -> in_width 8 x -> in_width 8 (set_bit x n b).
Proof.
  intros Hn Hx. apply in_width_of_bits; [lia| |].
  - destruct b; cbn; unfold Z.setbit, Z.clearbit; [apply Z.lor_nonneg|apply Z.ldiff_nonneg]; unfold in_width in Hx;
      [|left; lia]. split; [lia|]. apply Z.shiftl_nonneg. lia.
  - intros i Hi. rewrite set_bit_other by lia. by apply (in_width_bit 8).
Qed.

(** The number of readings of the flag that count. *)
Definition polls : Z := u32 (PcdRealTimeClockUpdateTimeout / 10 + 1).

(** The chip has power, and one of the next [polls] readings finds no update in progress. *)
Definition ready (c : chip) : bool :=
  c.(power) && existsb (fun j => negb (c.(busy) (c.(now) + j)%nat)) (seq 0 (Z.to_nat polls)).

(** The end of the loop: [T] is 0 exactly when all readings found an update in progress, the last
    one left aside. *)
Lemma wp_wait_loop n A T (Q : Z * Z -> chip -> Prop) c k :
  0 <= T -> (Z.to_nat T < n)%nat -> c.(now) = S k -> Z.testbit A Uip = c.(busy) k ->
  (forall A' T' c', same_chip c c' -> 0 <= T' ->
     (T' =? 0) = negb (existsb (fun j => negb (c.(busy) (k + j)%nat)) (seq 0 (Z.to_nat T))) -> Q (A', T') c') ->
  wp (wait_loop n A T) Q c.
Proof.
  revert A T c k. induction n as [|n IH]; intros A T c k HT Hn Hnow HA HQ; [lia|]. cbn [wait_loop]. rewrite HA.
  destruct (c.(busy) k) eqn:Hb; cbn [andb].
  - destruct (Z.gtb_spec T 0).
    + apply wp_bind, wp_read_A. intros c1 (Hb1 & Hp1 & Ha1 & Hr1) Hn1.
      apply (IH _ _ _ (S k)); [lia|lia|congruence| |].
      * rewrite set_bit_same by (apply bit_range; left; done). by rewrite Hb1, Hnow.
      * intros A' T' c' (Hb2 & Hp2 & Ha2 & Hr2) HT' Hex. apply HQ; [split_and!; congruence|done|].
        rewrite Hex. replace (Z.to_nat T) with (S (Z.to_nat (T - 1))) by lia. cbn [seq existsb].
        rewrite Nat.add_0_r, Hb. cbn [negb orb]. f_equal. rewrite <- seq_shift, Hb1.
        clear. induction (seq 0 (Z.to_nat (T - 1))) as [|x l IHl]; [done|]. cbn [map existsb]. rewrite IHl. by rewrite Nat.add_succ_comm.
    + apply wp_ret, HQ; [done|done|]. replace T with 0 by lia. done.
  - apply wp_ret, HQ; [done|done|]. destruct (Z.eqb_spec T 0) as [-> |]; [done|].
    replace (Z.to_nat T) with (S (Z.to_nat (T - 1))) by lia. cbn [seq existsb]. by rewrite Nat.add_0_r, Hb.
Qed.

Lemma wp_wait_chip (Q : EFI_STATUS -> chip -> Prop) c :
  (forall c', same_chip c c' -> Q (if ready c then EFI_SUCCESS else EFI_DEVICE_ERROR) c') ->
  wp (RtcWaitToUpdate PcdRealTimeClockUpdateTimeout) Q c.
Proof.
  intros HQ. unfold RtcWaitToUpdate. apply wp_bind, wp_read_D. intros c1 (Hb1 & Hp1 & Ha1 & Hr1) Hn1.
  assert (Hvrt : 0 <= Vrt) by (apply bit_range; right; left; done).
  rewrite set_bit_same by done. unfold ready in HQ. destruct (power c) eqn:Hpw; cbn [negb andb] in *; cycle 1.
  { apply wp_ret, HQ. split_and!; congruence. }
  fold polls. apply wp_bind, wp_read_A. intros c2 (Hb2 & Hp2 & Ha2 & Hr2) Hn2. apply wp_bind.
  assert (HT : 0 <= polls) by (apply wrap_bounds; lia).
  apply (wp_wait_loop _ _ _ _ _ c.(now)); [done|lia|congruence| |].
  { rewrite set_bit_same by (apply bit_range; left; done). congruence. }
  intros A' T' c3 (Hb3 & Hp3 & Ha3 & Hr3) HT' Hex. apply wp_bind, wp_read_D. intros c4 (Hb4 & Hp4 & Ha4 & Hr4) Hn4.
  rewrite set_bit_same by done. rewrite Hp3, Hp2, Hp1. cbn [negb]. rewrite orb_false_r, Hex, Hb2, Hb1.
  assert (Hs : same_chip c c4) by (split_and!; congruence).
  destruct (existsb _ _); cbn [negb]; by apply wp_ret, HQ.
Qed.
End Chip.

(** ** The variables *)

(** Reading gives what was written last, if anything was; writing may fail, and then nothing
    changes. *)
Class RtcVariablesOk (E : Type) {V : RtcVariables E} := {
  stored_rtc : E -> option Z;
  stored_alarm : E -> option EFI_TIME;
  wp_GetRTC (Q : EFI_STATUS * Z -> E -> Prop) e :
    (forall st v e', stored_rtc e' = stored_rtc e -> stored_alarm e' = stored_alarm e ->
       match stored_rtc e with Some x => st = EFI_SUCCESS /\ v = x | None => EFI_ERROR st = true end -> Q (st, v) e') ->
    wp GetRTC Q e;
  wp_SetRTC x (Q : EFI_STATUS -> E -> Prop) e :
    (forall st e', EFI_ERROR st = true -> stored_rtc e' = stored_rtc e -> stored_alarm e' = stored_alarm e -> Q st e') ->
    (forall e', stored_rtc e' = Some x -> stored_alarm e' = stored_alarm e -> Q EFI_SUCCESS e') ->
    wp (SetRTC x) Q e;
  wp_GetRTCALARM (Q : EFI_STATUS * EFI_TIME -> E -> Prop) e :
    (forall st v e', stored_rtc e' = stored_rtc e -> stored_alarm e' = stored_alarm e ->
       match stored_alarm e with Some x => st = EFI_SUCCESS /\ v = x | None => EFI_ERROR st = true end -> Q (st, v) e') ->
    wp GetRTCALARM Q e;
  wp_SetRTCALARM x (Q : EFI_STATUS -> E -> Prop) e :
    (forall st e', EFI_ERROR st = true -> stored_rtc e' = stored_rtc e -> stored_alarm e' = stored_alarm e -> Q st e') ->
    (forall e', stored_rtc e' = stored_rtc e -> stored_alarm e' = Some x -> Q EFI_SUCCESS e') ->
    wp (SetRTCALARM x) Q e
}.

Section Driver.
Context {H : PcRtcHeader} {HO : PcRtcHeaderOk H} {E : Type} {V : RtcVariables E} {VO : RtcVariablesOk E}.
Implicit Types s : rtc E.

(** ** The lock *)

Definition idle s : Prop := s.(AtRuntime) = false -> s.(RtcLock) = false.
Definition held s : Prop := s.(AtRuntime) = false -> s.(RtcLock) = true.

(** The writes [ws] were made to the chip; nothing else of it changed, but for the index and the
    readings of the update flag. *)
Definition chip_after (ws : list (Z * Z)) s s' : Prop :=
  s'.(AtRuntime) = s.(AtRuntime) /\ s'.(hw).(busy) = s.(hw).(busy) /\ s'.(hw).(power) = s.(hw).(power) /\
  s'.(hw).(alarm) = s.(hw).(alarm) /\ regs s'.(hw) = puts ws (regs s.(hw)).

(** The globals of the module and the variables are as before. *)
Definition same_rest s s' : Prop :=
  s'.(env) = s.(env) /\ s'.(SavedTimeZone) = s.(SavedTimeZone) /\ s'.(SavedDaylight) = s.(SavedDaylight).

Lemma chip_after_trans ws1 ws2 s1 s2 s3 :
  chip_after ws1 s1 s2 -> chip_after ws2 s2 s3 -> chip_after (ws1 ++ ws2) s1 s3.
Proof.
  intros (A1 & A2 & A3 & A4 & A5) (B1 & B2 & B3 & B4 & B5). unfold chip_after. rewrite puts_app, <- A5. split_and!; congruence.
Qed.

Lemma rtc_rest_trans s1 s2 s3 : same_rest s1 s2 -> same_rest s2 s3 -> same_rest s1 s3.
Proof. unfold same_rest. intros (A1 & A2 & A3) (B1 & B2 & B3). split_and!; congruence. Qed.

Lemma wp_on_chip {A} (m : M chip A) (Q : A -> rtc E -> Prop) s :
  wp m (fun a c => forall s', s'.(hw) = c -> same_rest s s' -> s'.(AtRuntime) = s.(AtRuntime) -> s'.(RtcLock) = s.(RtcLock) -> Q a s') s.(hw) ->
  wp (on_chip m) Q s.
Proof. intros (a & c & Hm & HQ). eexists _, _. split; [unfold on_chip; by rewrite Hm|]. by apply HQ. Qed.

Lemma wp_on_var {A} (m : M E A) (Q : A -> rtc E -> Prop) s :
  wp m (fun a e => forall s', s'.(env) = e -> s'.(hw) = s.(hw) -> s'.(SavedTimeZone) = s.(SavedTimeZone) ->
    s'.(SavedDaylight) = s.(SavedDaylight) -> s'.(AtRuntime) = s.(AtRuntime) -> s'.(RtcLock) = s.(RtcLock) -> Q a s') s.(env) ->
  wp (on_var m) Q s.
Proof. intros (a & e & Hm & HQ). eexists _, _. split; [unfold on_var; by rewrite Hm|]. by apply HQ. Qed.

Lemma wp_acquire (Q : unit -> rtc E -> Prop) s :
  idle s -> (forall s', s'.(hw) = s.(hw) -> chip_after [] s s' -> same_rest s s' -> held s' -> Q tt s') -> wp acquire Q s.
Proof.
  intros Hi HQ. unfold acquire. apply wp_bind, wp_get. unfold idle in Hi. destruct (AtRuntime s) eqn:Ha; cbn [negb].
  - apply wp_ret, HQ; [done..|]. intros E0. congruence.
  - rewrite Hi by done. apply wp_bind, wp_assert; [done|]. apply wp_modify, HQ; done.
Qed.

Lemma wp_release (Q : unit -> rtc E -> Prop) s :
  held s -> (forall s', chip_after [] s s' -> same_rest s s' -> idle s' -> Q tt s') -> wp release Q s.
Proof.
  intros Hi HQ. unfold release. apply wp_bind, wp_get. unfold held in Hi. destruct (AtRuntime s) eqn:Ha; cbn [negb].
  - apply wp_ret, HQ; [done|done|]. intros E0. congruence.
  - rewrite Hi by done. apply wp_bind, wp_assert; [done|]. apply wp_modify, HQ; done.
Qed.

Lemma held_kept s s' : held s -> s'.(AtRuntime) = s.(AtRuntime) -> s'.(RtcLock) = s.(RtcLock) -> held s'.
Proof. unfold held. intros Hh -> ->. done. Qed.

Lemma wp_read a (Q : Z -> rtc E -> Prop) s :
  plain a -> held s -> (forall s', chip_after [] s s' -> same_rest s s' -> held s' -> Q (s.(hw).(cells) a) s') ->
  wp (read a) Q s.
Proof.
  intros Ha Hh HQ. apply wp_on_chip, wp_read_plain; [done|]. intros c' (H1 & H2 & H3 & H4) _ s' <- Hr Hat Hl.
  apply HQ; [by split_and!|done|by eapply held_kept].
Qed.

Lemma wp_write a v (Q : unit -> rtc E -> Prop) s :
  address a -> held s -> (forall s', chip_after [(a, v)] s s' -> same_rest s s' -> held s' -> Q tt s') ->
  wp (write a v) Q s.
Proof.
  intros Ha Hh HQ. apply wp_on_chip, wp_write_reg; [done|]. intros c' (H1 & H2 & H3 & _ & H4) s' <- Hr Hat Hl.
  apply HQ; [by split_and!|done|by eapply held_kept].
Qed.

Lemma wp_wait (Q : EFI_STATUS -> rtc E -> Prop) s :
  held s ->
  (forall s', chip_after [] s s' -> same_rest s s' -> held s' -> Q (if ready s.(hw) then EFI_SUCCESS else EFI_DEVICE_ERROR) s') ->
  wp wait Q s.
Proof.
  intros Hh HQ. apply wp_on_chip, wp_wait_chip. intros c' (H1 & H2 & H3 & H4) s' <- Hr Hat Hl.
  apply HQ; [by split_and!|done|by eapply held_kept].
Qed.
End Driver.
