(* ===== verification/RtcOps.v ===== *)
(** * The real-time clock driver: the time, the alarm and the initialisation

    The operations of [RtcDriver] against the calendar: what is set is what is read, and every path
    returns with the lock free and updates allowed. *)

From S2P Require Import Prelude RtcDefs RtcTime RtcDriver RtcClock.
From stdpp Require Import list.
#[local] Open Scope Z_scope.

(** Addresses of registers. *)
Ltac plain_ := by (unfold plain, address; vm_compute).
Ltac address_ := by (unfold address; vm_compute).

Section Ops.
Context {H : PcRtcHeader} {HO : PcRtcHeaderOk H} {E : Type} {V : RtcVariables E} {VO : RtcVariablesOk E}.
Implicit Types s : rtc E.

(** ** Steps with the lock held, relative to the state at the beginning *)

Definition at_ (ws : list (Z * Z)) s0 s : Prop := chip_after ws s0 s /\ same_rest s0 s /\ held s.

(** A register after the writes [ws]. *)
Definition cell (ws : list (Z * Z)) s0 (a : Z) : Z := (puts ws (regs s0.(hw))).1 a.

Lemma step_acquire (Q : unit -> rtc E -> Prop) s :
  idle s -> (forall s', s'.(hw) = s.(hw) -> at_ [] s s' -> Q tt s') -> wp acquire Q s.
Proof. intros Hi HQ. apply wp_acquire; [done|]. intros s' Hh Hc Hr Hl. by apply HQ. Qed.

Lemma step_read a ws (Q : Z -> rtc E -> Prop) s0 s :
  at_ ws s0 s -> plain a -> (forall s', at_ ws s0 s' -> Q (cell ws s0 a) s') -> wp (read a) Q s.
Proof.
  intros (Hc & Hr & Hh) Ha HQ. apply wp_read; [done|done|]. intros s' Hc' Hr' Hh'.
  replace (cells (hw s) a) with (cell ws s0 a).
  - apply HQ. split_and!; [|by eapply rtc_rest_trans|done]. pose proof (chip_after_trans _ _ _ _ _ Hc Hc') as Ht. by rewrite app_nil_r in Ht.
  - destruct Hc as (_ & _ & _ & _ & Hc). unfold cell. rewrite <- Hc. done.
Qed.

Lemma step_write a v ws (Q : unit -> rtc E -> Prop) s0 s :
  at_ ws s0 s -> address a -> (forall s', at_ (ws ++ [(a, v)]) s0 s' -> Q tt s') -> wp (write a v) Q s.
Proof.
  intros (Hc & Hr & Hh) Ha HQ. apply wp_write; [done|done|]. intros s' Hc' Hr' Hh'. apply HQ.
  split_and!; [by eapply chip_after_trans|by eapply rtc_rest_trans|done].
Qed.

Lemma step_wait ws (Q : EFI_STATUS -> rtc E -> Prop) s0 s :
  at_ ws s0 s -> (forall s', at_ ws s0 s' -> Q (if ready s.(hw) then EFI_SUCCESS else EFI_DEVICE_ERROR) s') -> wp wait Q s.
Proof.
  intros (Hc & Hr & Hh) HQ. apply wp_wait; [done|]. intros s' Hc' Hr' Hh'. apply HQ.
  split_and!; [|by eapply rtc_rest_trans|done]. pose proof (chip_after_trans _ _ _ _ _ Hc Hc') as Ht. by rewrite app_nil_r in Ht.
Qed.

(** The lock is given back. *)
Definition done_ (ws : list (Z * Z)) s0 s : Prop := chip_after ws s0 s /\ same_rest s0 s /\ idle s.

Lemma step_release ws (Q : unit -> rtc E -> Prop) s0 s :
  at_ ws s0 s -> (forall s', done_ ws s0 s' -> Q tt s') -> wp release Q s.
Proof.
  intros (Hc & Hr & Hh) HQ. apply wp_release; [done|]. intros s' Hc' Hr' Hh'. apply HQ.
  split_and!; [|by eapply rtc_rest_trans|done]. pose proof (chip_after_trans _ _ _ _ _ Hc Hc') as Ht. by rewrite app_nil_r in Ht.
Qed.

Lemma release_ret {A} (x : A) ws (Q : A -> rtc E -> Prop) s0 s :
  at_ ws s0 s -> (forall s', done_ ws s0 s' -> Q x s') -> wp (_ ← release; mret x) Q s.
Proof. intros Ha HQ. apply wp_bind. eapply step_release; [exact Ha|]. intros s' Hd. by apply wp_ret, HQ. Qed.

(** A change of the variables with the lock held: the rest stays. *)
Lemma at_env ws s0 s s' :
  at_ ws s0 s -> s'.(hw) = s.(hw) -> s'.(SavedTimeZone) = s.(SavedTimeZone) -> s'.(SavedDaylight) = s.(SavedDaylight) ->
  s'.(AtRuntime) = s.(AtRuntime) -> s'.(RtcLock) = s.(RtcLock) ->
  chip_after ws s0 s' /\ s'.(SavedTimeZone) = s0.(SavedTimeZone) /\ s'.(SavedDaylight) = s0.(SavedDaylight) /\ held s'.
Proof.
  intros ((A1 & A2 & A3 & A4 & A5) & (_ & B2 & B3) & Hh) Eh Ez Ed Ea El. unfold chip_after. rewrite Eh, Ez, Ed, Ea.
  split_and!; try done. by eapply held_kept.
Qed.


(** The registers of the time as they are. *)
Definition raw_time ws s0 (ns zone daylight : Z) : EFI_TIME :=
  {| Year := cell ws s0 RTC_ADDRESS_YEAR; Month := cell ws s0 RTC_ADDRESS_MONTH; Day := cell ws s0 RTC_ADDRESS_DAY_OF_THE_MONTH;
     Hour := cell ws s0 RTC_ADDRESS_HOURS; Minute := cell ws s0 RTC_ADDRESS_MINUTES; Second := cell ws s0 RTC_ADDRESS_SECONDS;
     Nanosecond := ns; TimeZone := zone; Daylight := daylight |}.
Definition raw_alarm ws s0 (ns zone daylight : Z) : EFI_TIME :=
  {| Year := cell ws s0 RTC_ADDRESS_YEAR; Month := cell ws s0 RTC_ADDRESS_MONTH; Day := cell ws s0 RTC_ADDRESS_DAY_OF_THE_MONTH;
     Hour := cell ws s0 RTC_ADDRESS_HOURS_ALARM; Minute := cell ws s0 RTC_ADDRESS_MINUTES_ALARM;
     Second := cell ws s0 RTC_ADDRESS_SECONDS_ALARM;
     Nanosecond := ns; TimeZone := zone; Daylight := daylight |}.

Lemma step_read_time ns z d ws (Q : EFI_TIME -> rtc E -> Prop) s0 s :
  at_ ws s0 s -> (forall s', at_ ws s0 s' -> Q (raw_time ws s0 ns z d) s') -> wp (read_time ns z d) Q s.
Proof.
  intros Ha HQ. unfold read_time.
  do 6 (apply wp_bind; eapply step_read; [exact Ha|plain_|]; clear s Ha; intros s Ha). by apply wp_ret, HQ.
Qed.

Lemma step_read_alarm ns z d ws (Q : EFI_TIME -> rtc E -> Prop) s0 s :
  at_ ws s0 s -> (forall s', at_ ws s0 s' -> Q (raw_alarm ws s0 ns z d) s') -> wp (read_alarm ns z d) Q s.
Proof.
  intros Ha HQ. unfold read_alarm.
  do 6 (apply wp_bind; eapply step_read; [exact Ha|plain_|]; clear s Ha; intros s Ha). by apply wp_ret, HQ.
Qed.

(** ** What is read, converted *)

(** The registers hold bytes, the globals what [EFI_TIME] has. *)
Definition bytes_ok s : Prop := forall a, in_width 8 (s.(hw).(cells) a).
Definition saved_ok s : Prop := - 2 ^ 15 <= s.(SavedTimeZone) < 2 ^ 15 /\ in_width 8 s.(SavedDaylight).

Lemma check_bcd v : in_width 8 v -> exists d, CheckAndConvertBcd8ToDecimal8 v = Some d /\ in_width 8 d /\ (d <= 99 \/ d = 0xff).
Proof.
  intros Hv. unfold CheckAndConvertBcd8ToDecimal8. change 0xf with (Z.ones 4). rewrite Z.land_ones by lia. change (2 ^ 4) with 16.
  destruct (Z.ltb_spec v 0xa0); cbn [andb]; [|exists 0xff; split_and!; [done|by vm_compute|by right]].
  destruct (Z.ltb_spec (v mod 16) 0xa); [|exists 0xff; split_and!; [done|by vm_compute|by right]].
  unfold in_width in Hv. rewrite BcdToDecimal8_val by lia. eexists. split; [done|].
  assert (0 <= v / 16 < 10) by (split; [apply Z.div_pos; lia|apply Z.div_lt_upper_bound; lia]).
  pose proof (Z.mod_pos_bound v 16 ltac:(lia)). unfold in_width. lia.
Qed.

Definition byte_fields (t : EFI_TIME) : Prop :=
  in_width 8 (u8 t.(Year)) /\ (in_width 16 t.(Year)) /\ in_width 8 t.(Month) /\ in_width 8 t.(Day) /\ in_width 8 t.(Hour) /\
  in_width 8 t.(Minute) /\ in_width 8 t.(Second) /\ in_width 32 t.(Nanosecond) /\ - 2 ^ 15 <= t.(TimeZone) < 2 ^ 15 /\ in_width 8 t.(Daylight).

Lemma convert_checked_ok t c B :
  byte_fields t -> in_width 8 c ->
  exists st t', convert_checked t c B = Some (st, t') /\ time_wf t' /\
    (st = EFI_SUCCESS -> valid t' /\ t'.(Nanosecond) = 0 /\ t'.(TimeZone) = t.(TimeZone) /\ t'.(Daylight) = t.(Daylight)) /\
    (st = EFI_SUCCESS \/ st = EFI_INVALID_PARAMETER).
Proof.
  intros (Hy & HY & Hm & Hd & Hh & Hmi & Hs & Hn & Hz & Hdl) Hc. unfold convert_checked, ConvertRtcTimeToEfiTime.
  set (h0 := u8 (Z.land (Hour t) 0x7f)).
  assert (Hh0 : in_width 8 h0) by (apply wrap_in_width; lia).
  set (conv := if negb (Z.testbit B Dm) then _ else _).
  assert (Hconv : exists t1, conv = Some t1 /\ time_wf t1 /\ t1.(TimeZone) = t.(TimeZone) /\ t1.(Daylight) = t.(Daylight)).
  { unfold conv. destruct (Z.testbit B Dm); cbn [negb set_hour Year Month Day Hour Minute Second].
    - eexists. split; [done|]. split; [|done]. unfold time_wf. cbn. split_and!; done || lia.
    - destruct (check_bcd _ Hy) as (y & -> & Hy' & _). destruct (check_bcd _ Hm) as (m & -> & Hm' & _).
      destruct (check_bcd _ Hd) as (d & -> & Hd' & _). destruct (check_bcd _ Hh0) as (h & -> & Hh' & _).
      destruct (check_bcd _ Hmi) as (mi & -> & Hmi' & _). destruct (check_bcd _ Hs) as (sc & -> & Hs' & _). cbn [mbind option_bind].
      eexists. split; [done|]. split; [|done]. unfold time_wf, in_width in *. cbn. split_and!; lia. }
  destruct Hconv as (t1 & -> & (W1 & W2 & W3 & W4 & W5 & W6 & W7 & W8 & W9) & Ez & Ed). rewrite some_bind.
  destruct (check_bcd _ Hc) as (cc & -> & Hcc & _). rewrite some_bind.
  destruct (_ || (cc =? 0xff)).
  { rewrite some_bind. exists EFI_INVALID_PARAMETER, t1. split; [done|]. split; [unfold time_wf; split_and!; done || lia|]. split; [done|by right]. }
  rewrite some_bind. cbn [EFI_ERROR negb bool_decide]. 
  set (t2 := set_nanosecond 0 _).
  assert (W : time_wf t2 /\ t2.(TimeZone) = t.(TimeZone) /\ t2.(Daylight) = t.(Daylight)).
  { unfold t2. assert (in_width 8 (u8 (Hour t1 + 12))) by (apply wrap_in_width; lia).
    assert (in_width 16 (u16 (cc * 100 + Year t1))) by (apply wrap_in_width; lia).
    unfold time_wf. repeat case_match; cbn; split_and!; (done || congruence || lia). }
  destruct W as (W & Ez2 & Ed2). replace (EFI_ERROR EFI_SUCCESS) with false by done.
  destruct (RtcTimeFieldsValid_ok t2 W) as (st & -> & Hst). rewrite some_bind. exists st, t2. split; [done|]. split; [done|].
  destruct Hst as [[-> Hv]|[-> Hv]]; (split; [|auto]); [|done]. intros _. by split_and!.
Qed.

Lemma raw_byte_fields ws s0 f ns z d :
  (forall a, in_width 8 (cell ws s0 a)) -> in_width 32 ns -> - 2 ^ 15 <= z < 2 ^ 15 -> in_width 8 d ->
  f = raw_time \/ f = raw_alarm -> byte_fields (f ws s0 ns z d).
Proof.
  intros Hb Hn Hz Hd Hf. assert (in_width 16 (cell ws s0 RTC_ADDRESS_YEAR)) by (eapply in_width_mono; [|apply Hb]; lia).
  destruct Hf as [-> | ->]; unfold byte_fields; cbn; (split; [apply wrap_in_width; lia|]); split_and!; auto; lia.
Qed.

Lemma cell_bytes ws s0 a : bytes_ok s0 -> Forall (fun w => in_width 8 w.2) ws -> in_width 8 (cell ws s0 a).
Proof.
  intros Hb. unfold cell. revert a. induction ws as [|[x v] ws IH] using rev_ind; intros a Hws; [apply Hb|].
  rewrite Forall_app in Hws. destruct Hws as [Hws Hv]. rewrite puts_app. cbn. apply Forall_cons in Hv as [Hv _].
  destruct (_ || _); [by apply IH|]. destruct (a =? x); [done|by apply IH].
Qed.

(** ** Getting the time *)

Lemma wp_get_time t0 (cap : bool) s (Q : EFI_STATUS * option EFI_TIME * option EFI_TIME_CAPABILITIES -> rtc E -> Prop) :
  idle s -> bytes_ok s -> saved_ok s -> in_width 32 t0.(Nanosecond) ->
  (ready s.(hw) = false -> forall s', done_ [] s s' -> Q (EFI_DEVICE_ERROR, Some t0, None) s') ->
  (ready s.(hw) = true -> forall st t s', done_ [] s s' ->
     convert_checked (raw_time [] s t0.(Nanosecond) s.(SavedTimeZone) s.(SavedDaylight)) (cell [] s RTC_ADDRESS_CENTURY)
       (cell [] s RTC_ADDRESS_REGISTER_B) = Some (st, t) -> time_wf t -> (st = EFI_SUCCESS -> valid t) ->
     Q (if EFI_ERROR st then (EFI_DEVICE_ERROR, Some t, None)
        else (EFI_SUCCESS, Some t, if cap then Some {| Resolution := 1; Accuracy := 50000000; SetsToZero := false |} else None)) s') ->
  wp (PcRtcGetTime (Some t0) cap) Q s.
Proof.
  intros Hi Hb [Hz Hd] Hn QE QS. unfold PcRtcGetTime. apply wp_bind, step_acquire; [done|]. intros s1 Eh1 A1.
  apply wp_bind. eapply step_wait; [exact A1|]. rewrite Eh1. intros s2 A2. destruct (ready (hw s)) eqn:Hrd; cycle 1.
  { replace (EFI_ERROR EFI_DEVICE_ERROR) with true by done. eapply release_ret; [exact A2|]. by apply QE. }
  replace (EFI_ERROR EFI_SUCCESS) with false by done. apply wp_bind. eapply step_read; [exact A2|plain_|]. intros s3 A3.
  apply wp_bind, wp_get. apply wp_bind. eapply step_read_time; [exact A3|]. intros s4 A4.
  apply wp_bind. eapply step_read; [exact A4|plain_|]. intros s5 A5. apply wp_bind. eapply step_release; [exact A5|]. intros s6 D6.
  destruct A3 as (_ & (_ & -> & ->) & _).
  destruct (convert_checked_ok (raw_time [] s t0.(Nanosecond) s.(SavedTimeZone) s.(SavedDaylight)) (cell [] s RTC_ADDRESS_CENTURY)
    (cell [] s RTC_ADDRESS_REGISTER_B)) as (st & t & Ht & Hwf & Hv & _).
  { apply raw_byte_fields; [|done|done|done|by left]. intros a. by apply cell_bytes. }
  { by apply cell_bytes. }
  specialize (QS eq_refl st t s6 D6 Ht Hwf (fun Hs => proj1 (Hv Hs))).
  apply wp_bind. eapply wp_lift; [exact Ht|]. cbn beta iota. destruct (EFI_ERROR st); by apply wp_ret.
Qed.

(** ** Setting the time *)

Definition timer_var (t : EFI_TIME) : Z := u32 (Z.lor (u32 (Z.shiftl t.(Daylight) 16)) (u16 t.(TimeZone))).

(** What is written to the chip: register B first and last. *)
Definition set_writes (t : EFI_TIME) (B : Z) : list (Z * Z) :=
  let r := rtc_format t (with_Set B true) in
  [(RTC_ADDRESS_REGISTER_B, with_Set B true); (RTC_ADDRESS_SECONDS, r.(Second)); (RTC_ADDRESS_MINUTES, r.(Minute));
   (RTC_ADDRESS_HOURS, r.(Hour)); (RTC_ADDRESS_DAY_OF_THE_MONTH, r.(Day)); (RTC_ADDRESS_MONTH, r.(Month));
   (RTC_ADDRESS_YEAR, u8 r.(Year)); (RTC_ADDRESS_CENTURY, century t);
   (RTC_ADDRESS_REGISTER_B, with_Set (with_Set B true) false)].

Definition same_vars s s' : Prop := stored_rtc s'.(env) = stored_rtc s.(env) /\ stored_alarm s'.(env) = stored_alarm s.(env).

Lemma done_same_vars ws s s' : done_ ws s s' -> same_vars s s'.
Proof. intros (_ & (E0 & _) & _). unfold same_vars. by rewrite E0. Qed.

Lemma fields_valid t : time_wf t -> valid t -> RtcTimeFieldsValid t = Some EFI_SUCCESS.
Proof. intros Hwf Hv. destruct (RtcTimeFieldsValid_ok t Hwf) as (st & -> & [[-> _]|[_ Hn]]); [done|]. by destruct Hn. Qed.

Lemma wp_set_time t s (Q : EFI_STATUS -> rtc E -> Prop) :
  idle s -> time_wf t -> valid t ->
  (forall s', chip_after [] s s' -> s'.(SavedTimeZone) = s.(SavedTimeZone) ->
     s'.(SavedDaylight) = s.(SavedDaylight) -> same_vars s s' -> idle s' -> Q EFI_DEVICE_ERROR s') ->
  (ready s.(hw) = true -> forall s', chip_after (set_writes t (cell [] s RTC_ADDRESS_REGISTER_B)) s s' ->
     s'.(SavedTimeZone) = t.(TimeZone) -> s'.(SavedDaylight) = t.(Daylight) -> stored_rtc s'.(env) = Some (timer_var t) ->
     stored_alarm s'.(env) = stored_alarm s.(env) -> idle s' -> Q EFI_SUCCESS s') ->
  wp (PcRtcSetTime (Some t)) Q s.
Proof.
  intros Hi Hwf Hv QE QS. unfold PcRtcSetTime. apply wp_bind. eapply wp_lift; [by apply fields_valid|].
  replace (EFI_ERROR EFI_SUCCESS) with false by done.
  apply wp_bind, step_acquire; [done|]. intros s1 Eh1 A1. apply wp_bind. eapply step_wait; [exact A1|]. rewrite Eh1. intros s2 A2.
  assert (QE' : forall s', done_ [] s s' -> Q EFI_DEVICE_ERROR s').
  { intros s' D. pose proof (done_same_vars _ _ _ D). destruct D as (D1 & (_ & D2 & D3) & D4). by apply QE. }
  destruct (ready (hw s)) eqn:Hrd; cycle 1.
  { replace (EFI_ERROR EFI_DEVICE_ERROR) with true by done. eapply release_ret; [exact A2|]. intros s' D. by apply QE'. }
  replace (EFI_ERROR EFI_SUCCESS) with false by done. fold (timer_var t).
  pose proof A2 as (_ & (Ee2 & _) & _).
  apply wp_bind, wp_on_var, wp_SetRTC.
  { intros st e Hst Hv1 Hv2 s3 Ee3 Eh3 Ez3 Ed3 Ea3 El3. rewrite Hst.
    destruct (at_env [] s s2 s3 A2 Eh3 Ez3 Ed3 Ea3 El3) as (C3 & Z3 & D3 & H3).
    apply wp_bind, wp_release; [done|]. intros s4 C4 (E4 & Z4 & D4) I4. apply wp_ret, QE; [by eapply (chip_after_trans [] [])|congruence..| |done].
    unfold same_vars. rewrite E4, Ee3, Hv1, Hv2, Ee2. done. }
  intros e Hv1 Hv2 s3 Ee3 Eh3 Ez3 Ed3 Ea3 El3. replace (EFI_ERROR EFI_SUCCESS) with false by done.
  destruct (at_env [] s s2 s3 A2 Eh3 Ez3 Ed3 Ea3 El3) as (C3 & _ & _ & H3).
  (* from here relative to the state after the variable was written *)
  assert (A3 : at_ [] s3 s3) by (by split_and!).
  set (B := cell [] s RTC_ADDRESS_REGISTER_B).
  assert (HB : cell [] s3 RTC_ADDRESS_REGISTER_B = B).
  { unfold B, cell. destruct C3 as (_ & _ & _ & _ & C3). cbn in C3. cbn. unfold regs in C3. by injection C3 as -> _. }
  apply wp_bind. eapply step_read; [exact A3|plain_|]. intros s4 A4. rewrite HB.
  apply wp_bind. eapply step_write; [exact A4|address_|]. intros s5 A5.
  destruct Hv as (HY & Hr & _). apply wp_bind. eapply wp_lift; [by apply to_rtc|].
  do 8 (apply wp_bind; eapply step_write; [eassumption|address_|]; let s := fresh "s" in let A := fresh "A" in intros s A; cbn [app] in A).
  apply wp_bind. eapply step_release; [eassumption|]. intros s14 (C14 & (E14 & _) & I14).
  apply wp_bind, wp_modify, wp_ret. apply QS; cbn; [done| |done|done| | |done].
  - pose proof (chip_after_trans _ _ _ _ _ C3 C14) as C. exact C.
  - by rewrite E14, Ee3.
  - by rewrite E14, Ee3, Hv2, Ee2.
Qed.

Lemma wp_set_time_invalid t s (Q : EFI_STATUS -> rtc E -> Prop) :
  time_wf t -> ~ valid t -> Q EFI_INVALID_PARAMETER s -> wp (PcRtcSetTime (Some t)) Q s.
Proof.
  intros Hwf Hv HQ. unfold PcRtcSetTime. destruct (RtcTimeFieldsValid_ok t Hwf) as (st & Hst & [[_ Hn]|[-> _]]); [done|].
  apply wp_bind. eapply wp_lift; [exact Hst|]. by apply wp_ret.
Qed.
End Ops.

Section Alarm.
Context {H : PcRtcHeader} {HO : PcRtcHeaderOk H} {E : Type} {V : RtcVariables E} {VO : RtcVariablesOk E}.
Implicit Types s : rtc E.


(** The state with the alarm flag cleared. *)
Definition clear_alarm s : rtc E :=
  {| env := s.(env);
     hw := {| latch := s.(hw).(latch); cells := s.(hw).(cells); busy := s.(hw).(busy); now := s.(hw).(now);
              power := s.(hw).(power); alarm := false; log := s.(hw).(log) |};
     SavedTimeZone := s.(SavedTimeZone); SavedDaylight := s.(SavedDaylight); RtcLock := s.(RtcLock); AtRuntime := s.(AtRuntime) |}.

Lemma step_read_C ws (Q : Z -> rtc E -> Prop) s0 s :
  at_ ws s0 s -> (forall s', at_ ws (clear_alarm s0) s' -> Q (set_bit 0 Af s0.(hw).(alarm)) s') ->
  wp (read RTC_ADDRESS_REGISTER_C) Q s.
Proof.
  intros ((A1 & A2 & A3 & A4 & A5) & Hr & Hh) HQ. apply wp_on_chip, wp_read_C. intros c' E1 E2 E3 E4 _ s' <- Hr' Ha Hl.
  rewrite A4. apply HQ. split_and!; [|by eapply rtc_rest_trans|by eapply held_kept]. unfold chip_after. cbn.
  split_and!; try congruence. change (regs _) with (regs (hw s0)) at 2. congruence.
Qed.

(** ** Getting the alarm *)

(** The time of the alarm: the date is in the variable, if there is one. *)
Definition alarm_time s (ns : Z) : EFI_TIME :=
  let t := raw_alarm [] s ns s.(SavedTimeZone) s.(SavedDaylight) in
  match stored_alarm s.(env) with
  | Some r => {| Year := r.(Year); Month := r.(Month); Day := r.(Day); Hour := t.(Hour); Minute := t.(Minute);
                 Second := t.(Second); Nanosecond := t.(Nanosecond); TimeZone := t.(TimeZone); Daylight := t.(Daylight) |}
  | None => t
  end.

(** The variables hold what the types allow. *)
Definition vars_ok s : Prop :=
  (forall x, stored_rtc s.(env) = Some x -> in_width 32 x) /\
  (forall t, stored_alarm s.(env) = Some t -> in_width 16 t.(Year) /\ in_width 8 t.(Month) /\ in_width 8 t.(Day)).

Lemma wp_get_wakeup en pe t0 s (Q : EFI_STATUS * option (bool * bool * EFI_TIME) -> rtc E -> Prop) :
  idle s -> bytes_ok s -> saved_ok s -> vars_ok s -> in_width 32 t0.(Nanosecond) ->
  (ready s.(hw) = false -> forall s', done_ [] s s' -> Q (EFI_DEVICE_ERROR, Some (en, pe, t0)) s') ->
  (ready s.(hw) = true -> forall st t s', chip_after [] (clear_alarm s) s' -> s'.(SavedTimeZone) = s.(SavedTimeZone) ->
     s'.(SavedDaylight) = s.(SavedDaylight) -> same_vars s s' -> idle s' ->
     convert_checked (alarm_time s t0.(Nanosecond)) (cell [] s RTC_ADDRESS_CENTURY) (cell [] s RTC_ADDRESS_REGISTER_B) = Some (st, t) ->
     time_wf t -> (st = EFI_SUCCESS -> valid t) ->
     Q (if EFI_ERROR st then EFI_DEVICE_ERROR else EFI_SUCCESS,
        Some (Z.testbit (cell [] s RTC_ADDRESS_REGISTER_B) Aie, s.(hw).(alarm), t)) s') ->
  wp (PcRtcGetWakeupTime (Some (en, pe, t0))) Q s.
Proof.
  intros Hi Hb [Hz Hd] [_ Hva] Hn QE QS. unfold PcRtcGetWakeupTime. apply wp_bind, step_acquire; [done|]. intros s1 Eh1 A1.
  apply wp_bind. eapply step_wait; [exact A1|]. rewrite Eh1. intros s2 A2. destruct (ready (hw s)) eqn:Hrd; cycle 1.
  { replace (EFI_ERROR EFI_DEVICE_ERROR) with true by done. eapply release_ret; [exact A2|]. by apply QE. }
  replace (EFI_ERROR EFI_SUCCESS) with false by done. apply wp_bind. eapply step_read; [exact A2|plain_|]. intros s3 A3.
  apply wp_bind. eapply step_read_C; [exact A3|]. intros s4 A4. rewrite (set_bit_same 0 Af) by (apply bit_range; right; right; by left).
  apply wp_bind, wp_get. apply wp_bind. eapply step_read_alarm; [exact A4|]. intros s5 A5.
  apply wp_bind. eapply step_read; [exact A5|plain_|]. intros s6 A6.
  apply wp_bind, wp_on_var, wp_GetRTCALARM. intros st v e Hv1 Hv2 Hget s7 Ee7 Eh7 Ez7 Ed7 Ea7 El7.
  destruct (at_env _ _ _ _ A6 Eh7 Ez7 Ed7 Ea7 El7) as (C7 & Z7 & D7 & H7). pose proof A6 as (_ & (E6 & _) & _). cbn in E6, Z7, D7.
  destruct A4 as (_ & (_ & -> & ->) & _). cbn [SavedTimeZone SavedDaylight clear_alarm].
  change (raw_alarm [] (clear_alarm s)) with (raw_alarm [] s). change (cell [] (clear_alarm s)) with (cell [] s).
  apply wp_bind, wp_release; [done|]. intros s8 C8 (E8 & Z8 & D8) I8. pose proof (chip_after_trans _ _ _ _ _ C7 C8) as C.
  set (t1 := if negb (EFI_ERROR st) then _ else _).
  assert (Ht1 : t1 = alarm_time s t0.(Nanosecond)).
  { unfold t1, alarm_time. rewrite E6 in Hget. destruct (stored_alarm (env s)); [destruct Hget as [-> ->]; done|by rewrite Hget]. }
  rewrite Ht1. clear t1 Ht1.
  assert (Hbf : byte_fields (alarm_time s t0.(Nanosecond))).
  { assert (Hra : byte_fields (raw_alarm [] s t0.(Nanosecond) s.(SavedTimeZone) s.(SavedDaylight))).
    { apply raw_byte_fields; [|done|done|done|by right]. intros a. by apply cell_bytes. }
    unfold alarm_time. destruct (stored_alarm (env s)) eqn:Hs; [|done]. destruct (Hva _ eq_refl) as (Hy & Hm & Hdd).
    destruct Hra as (_ & _ & _ & _ & R1 & R2 & R3 & R4 & R5 & R6). unfold byte_fields. cbn [Year Month Day Hour Minute Second Nanosecond TimeZone Daylight].
    split; [apply wrap_in_width; lia|]. split_and!; done || lia. }
  destruct (convert_checked_ok _ (cell [] s RTC_ADDRESS_CENTURY) (cell [] s RTC_ADDRESS_REGISTER_B) Hbf) as (st2 & t & Ht & Hwf & Hvd & _).
  { by apply cell_bytes. }
  apply wp_bind. eapply wp_lift; [exact Ht|]. cbn beta iota.
  assert (HQ : Q (if EFI_ERROR st2 then EFI_DEVICE_ERROR else EFI_SUCCESS,
        Some (Z.testbit (cell [] s RTC_ADDRESS_REGISTER_B) Aie, s.(hw).(alarm), t)) s8).
  { apply (QS eq_refl st2 t s8); try done; try congruence.
    - unfold same_vars. rewrite E8, Ee7, Hv1, Hv2, E6. done.
    - intros Hs. by apply Hvd. }
  destruct (EFI_ERROR st2); by apply wp_ret.
Qed.

(** ** Setting the alarm *)

Definition wake_writes (enable : bool) (r : EFI_TIME) (B : Z) : list (Z * Z) :=
  (RTC_ADDRESS_REGISTER_B, with_Set B true) ::
  (if enable then [(RTC_ADDRESS_SECONDS_ALARM, r.(Second)); (RTC_ADDRESS_MINUTES_ALARM, r.(Minute));
                   (RTC_ADDRESS_HOURS_ALARM, r.(Hour))] else []) ++
  [(RTC_ADDRESS_REGISTER_B, with_Set (set_bit (with_Set B true) Aie enable) false)].

(** Nothing but the index, the readings of the update flag and the lock's history. *)
Definition unchanged s s' : Prop :=
  chip_after [] s s' /\ s'.(SavedTimeZone) = s.(SavedTimeZone) /\ s'.(SavedDaylight) = s.(SavedDaylight) /\ same_vars s s' /\ idle s'.

Lemma done_unchanged s s' : done_ [] s s' -> unchanged s s'.
Proof. intros D. pose proof (done_same_vars _ _ _ D). destruct D as (D1 & (_ & D2 & D3) & D4). by split_and!. Qed.

Lemma wp_program_wakeup en t s (Q : EFI_STATUS -> rtc E -> Prop) :
  idle s -> (en = true -> 1998 <= t.(Year) <= 2099 /\ real_time t) ->
  (forall s', unchanged s s' -> Q EFI_DEVICE_ERROR s') ->
  (forall s', let B := cell [] s RTC_ADDRESS_REGISTER_B in
     let r := if en then rtc_format t B else raw_alarm [] s t.(Nanosecond) s.(SavedTimeZone) s.(SavedDaylight) in
     chip_after (wake_writes en r B) s s' -> s'.(SavedTimeZone) = s.(SavedTimeZone) -> s'.(SavedDaylight) = s.(SavedDaylight) ->
     stored_rtc s'.(env) = stored_rtc s.(env) -> stored_alarm s'.(env) = Some r -> idle s' -> Q EFI_SUCCESS s') ->
  wp (program_wakeup en t) Q s.
Proof.
  intros Hi Ht QE QS. unfold program_wakeup. apply wp_bind, step_acquire; [done|]. intros s1 Eh1 A1.
  apply wp_bind. eapply step_wait; [exact A1|]. rewrite Eh1. intros s2 A2.
  destruct (ready (hw s)); cycle 1.
  { replace (EFI_ERROR EFI_DEVICE_ERROR) with true by done. eapply release_ret; [exact A2|]. intros s' D. by apply QE, done_unchanged. }
  replace (EFI_ERROR EFI_SUCCESS) with false by done. apply wp_bind. eapply step_read; [exact A2|plain_|]. intros s3 A3.
  apply wp_bind, wp_get. set (B := cell [] s RTC_ADDRESS_REGISTER_B) in *.
  set (r := if en then rtc_format t B else raw_alarm [] s t.(Nanosecond) s.(SavedTimeZone) s.(SavedDaylight)).
  apply wp_bind.
  assert (Hstep : forall k : EFI_TIME -> rtc E -> Prop, (forall s', at_ [] s s' -> k r s') ->
    wp (if en then '(t, _) ← lift (ConvertEfiTimeToRtcTime t B); mret t
        else read_alarm t.(Nanosecond) s3.(SavedTimeZone) s3.(SavedDaylight)) k s3).
  { intros k Hk. unfold r in Hk. destruct en.
    - destruct (Ht eq_refl) as [HY Hr]. apply wp_bind. eapply wp_lift; [by apply to_rtc|]. by apply wp_ret, Hk.
    - pose proof A3 as (_ & (_ & -> & ->) & _). eapply step_read_alarm; [exact A3|]. exact Hk. }
  apply Hstep. clear Hstep A3. intros s4 A4. pose proof A4 as (_ & (E4 & _) & _).
  apply wp_bind, wp_on_var, wp_SetRTCALARM.
  { intros st e Hst Hv1 Hv2 s5 Ee5 Eh5 Ez5 Ed5 Ea5 El5. rewrite Hst.
    destruct (at_env _ _ _ _ A4 Eh5 Ez5 Ed5 Ea5 El5) as (C5 & Z5 & D5 & H5).
    apply wp_bind, wp_release; [done|]. intros s6 C6 (E6 & Z6 & D6) I6. apply wp_ret, QE.
    split_and!; [by eapply (chip_after_trans [] [])|congruence..| |done]. unfold same_vars. rewrite E6, Ee5, Hv1, Hv2, E4. done. }
  intros e Hv1 Hv2 s5 Ee5 Eh5 Ez5 Ed5 Ea5 El5. replace (EFI_ERROR EFI_SUCCESS) with false by done.
  destruct (at_env _ _ _ _ A4 Eh5 Ez5 Ed5 Ea5 El5) as (C5 & Z5 & D5 & H5).
  assert (A5 : at_ [] s5 s5) by (by split_and!).
  apply wp_bind. eapply step_write; [exact A5|address_|]. intros s6 A6. cbn [app] in A6. apply wp_bind.
  unfold wake_writes in QS. cbn zeta in QS. fold r in QS.
  assert (Hend : forall ws s7, at_ ((RTC_ADDRESS_REGISTER_B, with_Set B true) :: ws) s5 s7 -> ws = (if en then
      [(RTC_ADDRESS_SECONDS_ALARM, r.(Second)); (RTC_ADDRESS_MINUTES_ALARM, r.(Minute)); (RTC_ADDRESS_HOURS_ALARM, r.(Hour))] else []) ->
    wp (_ ← write RTC_ADDRESS_REGISTER_B (with_Set (set_bit (with_Set B true) Aie en) false); _ ← release; mret EFI_SUCCESS) Q s7).
  { intros ws s7 A7 Ews. apply wp_bind. eapply step_write; [exact A7|address_|]. intros s8 A8.
    eapply release_ret; [exact A8|]. intros s9 (C9 & (E9 & Z9 & D9) & I9).
    apply QS; [|congruence..|done].
    rewrite <- Ews. exact (chip_after_trans _ _ _ _ _ C5 C9). }
  destruct en.
  - do 3 (apply wp_bind; eapply step_write; [eassumption|address_|]; let s := fresh "s" in let A := fresh "A" in intros s A; cbn [app] in A).
    apply wp_ret. eapply Hend; [eassumption|done].
  - apply wp_ret. eapply Hend; [eassumption|done].
Qed.
End Alarm.
