(* ===== verification/RtcSpec.v ===== *)
(** * The real-time clock driver: what the clock shows, and the invariant

    An abstraction of the driver's state: the time that the clock shows and the time at which the
    alarm is set, and the rules of [RtcOps] in their terms. The invariant that every operation keeps: the lock is free
    between calls, the chip may update its registers, and no register of the time or the alarm was ever written while it might. *)

From S2P Require Import Prelude RtcDefs RtcTime RtcDriver RtcClock RtcOps.
From stdpp Require Import list.
#[local] Open Scope Z_scope.

Section Spec.
Context {H : PcRtcHeader} {HO : PcRtcHeaderOk H} {E : Type} {V : RtcVariables E} {VO : RtcVariablesOk E}.
Implicit Types s : rtc E.

Definition as_time (r : option (EFI_STATUS * EFI_TIME)) : option EFI_TIME :=
  '(st, t) ← r; if EFI_ERROR st then None else Some t.

(** The time of the registers, in the format that register B says; [None] when it is not a time of
    the calendar. *)
Definition clock_as (zone daylight : Z) s : option EFI_TIME :=
  as_time (convert_checked (raw_time [] s 0 zone daylight) (cell [] s RTC_ADDRESS_CENTURY) (cell [] s RTC_ADDRESS_REGISTER_B)).
Definition clock s : option EFI_TIME := clock_as s.(SavedTimeZone) s.(SavedDaylight) s.

(** The time of the alarm, with the date in the variable. *)
Definition wakeup s : option EFI_TIME :=
  as_time (convert_checked (alarm_time s 0) (cell [] s RTC_ADDRESS_CENTURY) (cell [] s RTC_ADDRESS_REGISTER_B)).
Definition enabled s : bool := Z.testbit (cell [] s RTC_ADDRESS_REGISTER_B) Aie.

#[local] Ltac branches n t B :=
  destruct (_ || _); [done|]; rewrite some_bind; replace (EFI_ERROR EFI_SUCCESS) with false by done;
  destruct (Z.testbit B Mil), (Z.land (Hour t) 128 =? 0);
  cbn [negb andb set_nanosecond set_hour set_year Year Month Day Hour Minute Second Nanosecond TimeZone Daylight];
  repeat (match goal with |- context [if ?b then _ else _] => destruct b end;
    cbn [negb andb set_nanosecond set_hour set_year Year Month Day Hour Minute Second Nanosecond TimeZone Daylight]).

(** Nanoseconds do not matter to the conversion. *)
Lemma convert_ns n t c B :
  ConvertRtcTimeToEfiTime (set_nanosecond n t) c B =
  '(st, t') ← ConvertRtcTimeToEfiTime t c B; Some (st, if EFI_ERROR st then set_nanosecond n t' else t').
Proof.
  unfold ConvertRtcTimeToEfiTime. cbn [set_nanosecond set_hour Year Month Day Hour Minute Second Nanosecond TimeZone Daylight].
  destruct (Z.testbit B Dm); cbn [negb].
  - rewrite !some_bind. destruct (CheckAndConvertBcd8ToDecimal8 c); [|done]. rewrite !some_bind.
    cbn [set_nanosecond set_hour Year Month Day Hour Minute Second Nanosecond TimeZone Daylight].
    by branches n t B.
  - repeat (match goal with |- context [CheckAndConvertBcd8ToDecimal8 ?x ≫= _] =>
      destruct (CheckAndConvertBcd8ToDecimal8 x); [|done]; rewrite !some_bind end).
    cbn [set_nanosecond set_hour Year Month Day Hour Minute Second Nanosecond TimeZone Daylight].
    by branches n t B.
Qed.

Lemma as_time_ns n t c B :
  as_time (convert_checked (set_nanosecond n t) c B) = as_time (convert_checked t c B).
Proof.
  unfold convert_checked, as_time. rewrite convert_ns. destruct (ConvertRtcTimeToEfiTime t c B) as [[st t']|]; [|done].
  rewrite !some_bind. destruct (EFI_ERROR st) eqn:Hst; [by rewrite !some_bind, Hst|done].
Qed.

Lemma as_time_ok r st t : r = Some (st, t) -> as_time r = if EFI_ERROR st then None else Some t.
Proof. by intros ->. Qed.

(** A failed conversion leaves a time that is not valid, when the year was a byte. *)
Lemma convert_checked_invalid t c B st t' :
  in_width 8 t.(Year) -> time_wf t' -> convert_checked t c B = Some (st, t') -> EFI_ERROR st = true -> ~ valid t'.
Proof.
  unfold convert_checked. intros HY Hwf Hc He Hv. destruct (ConvertRtcTimeToEfiTime t c B) as [[st1 t1]|] eqn:Hconv; [|done].
  rewrite some_bind in Hc. destruct (EFI_ERROR st1) eqn:He1.
  - injection Hc as -> ->. clear Hwf. assert (HY' : t'.(Year) < 1998); [|destruct Hv as (Hv & _); lia]. revert Hconv. unfold ConvertRtcTimeToEfiTime.
    set (conv := if negb (Z.testbit B Dm) then _ else _).
    assert (Hcv : conv = None \/ exists t2, conv = Some t2 /\ t2.(Year) < 1998).
    { unfold conv. destruct (Z.testbit B Dm); cbn [negb].
      - right. eexists. split; [done|]. cbn. unfold in_width in HY. lia.
      - cbn [set_hour Year]. destruct (check_bcd (u8 (Year t))) as (y & -> & Hy & _); [by apply wrap_in_width|].
        repeat (match goal with |- context [CheckAndConvertBcd8ToDecimal8 ?x ≫= _] =>
          destruct (CheckAndConvertBcd8ToDecimal8 x); [|by left] end). right. eexists. split; [reflexivity|]. cbn. unfold in_width in Hy. lia. }
    destruct Hcv as [-> |(t2 & -> & H2)]; [done|]. rewrite some_bind. destruct (CheckAndConvertBcd8ToDecimal8 c); [|done].
    rewrite some_bind. destruct (_ || _).
    + by intros [= _ <-].
    + intros [= <- _]. done.
  - destruct (RtcTimeFieldsValid t1) eqn:Hf; [|done]. rewrite some_bind in Hc. injection Hc as -> ->.
    rewrite (fields_valid t' Hwf Hv) in Hf. by injection Hf as <-.
Qed.

(** ** Getting the time *)

Definition capabilities : EFI_TIME_CAPABILITIES := {| Resolution := 1; Accuracy := 50000000; SetsToZero := false |}.

Lemma raw_time_ns n z d s : raw_time [] s n z d = set_nanosecond n (raw_time [] s 0 z d).
Proof. done. Qed.

Lemma wp_get_clock t0 (cap : bool) s (Q : EFI_STATUS * option EFI_TIME * option EFI_TIME_CAPABILITIES -> rtc E -> Prop) :
  idle s -> bytes_ok s -> saved_ok s -> in_width 32 t0.(Nanosecond) ->
  (forall t' s', ready s.(hw) = false \/ clock s = None -> (~ valid t0 -> ~ valid t') -> time_wf t' \/ t' = t0 -> done_ [] s s' ->
     Q (EFI_DEVICE_ERROR, Some t', None) s') ->
  (forall t s', ready s.(hw) = true -> clock s = Some t -> time_wf t -> valid t -> done_ [] s s' ->
     Q (EFI_SUCCESS, Some t, if cap then Some capabilities else None) s') ->
  wp (PcRtcGetTime (Some t0) cap) Q s.
Proof.
  intros Hi Hb Hsv Hn QE QS. apply wp_get_time; [done..| |].
  - intros Hr s' D. apply QE; auto.
  - intros Hr st t s' D Hc Hwf Hv.
    assert (Hclock : clock s = if EFI_ERROR st then None else Some t).
    { unfold clock, clock_as. rewrite <- (as_time_ns t0.(Nanosecond)). by apply as_time_ok. }
    destruct (EFI_ERROR st) eqn:Hst.
    + apply QE; auto. intros _. eapply convert_checked_invalid; [|exact Hwf|exact Hc|done].
      change (in_width 8 (cell [] s RTC_ADDRESS_YEAR)). by apply cell_bytes.
    + assert (st = EFI_SUCCESS) by (destruct st; done). by apply QS; auto.
Qed.

(** ** Setting the alarm *)

Definition within (From To : EFI_TIME) : bool := bool_decide (0 <= seconds To - seconds From <= 86400).

(** The decision whether to program the wakeup time. *)
Definition wake_decision s (Enable : bool) (Time : option EFI_TIME) : EFI_STATUS + EFI_TIME :=
  if Enable then
    match Time with
    | None => inl EFI_INVALID_PARAMETER
    | Some t =>
        match RtcTimeFieldsValid t with
        | Some EFI_SUCCESS =>
            match (if ready s.(hw) then clock s else None) with
            | None => inl EFI_DEVICE_ERROR
            | Some n => if within n t then inr t else inl EFI_UNSUPPORTED
            end
        | _ => inl EFI_INVALID_PARAMETER
        end
    end
  else inr zero_time.

Lemma unchanged_trans s1 s2 s3 : unchanged s1 s2 -> unchanged s2 s3 -> unchanged s1 s3.
Proof.
  intros (C1 & Z1 & D1 & (V1 & W1) & _) (C2 & Z2 & D2 & (V2 & W2) & I2). unfold unchanged, same_vars.
  split_and!; try congruence; [|done]. exact (chip_after_trans _ _ _ _ _ C1 C2).
Qed.

(** The registers after the writes, and the later ones from there. *)
Lemma chip_after_cell ws s s' a : chip_after ws s s' -> cell [] s' a = cell ws s a.
Proof. intros (_ & _ & _ & _ & Hr). unfold cell. cbn. by rewrite <- Hr. Qed.

Lemma zero_time_invalid : time_wf zero_time /\ ~ valid zero_time.
Proof. split; [by vm_compute|]. intros (Hv & _). cbn in Hv. lia. Qed.

Lemma fields_invalid t : time_wf t -> ~ valid t -> RtcTimeFieldsValid t = Some EFI_INVALID_PARAMETER.
Proof. intros Hwf Hv. destruct (RtcTimeFieldsValid_ok t Hwf) as (st & -> & [[_ ?]|[-> _]]); done. Qed.

Lemma clock_as_valid z d s t :
  bytes_ok s -> - 2 ^ 15 <= z < 2 ^ 15 -> in_width 8 d -> clock_as z d s = Some t ->
  time_wf t /\ valid t /\ t.(Nanosecond) = 0 /\ t.(TimeZone) = z /\ t.(Daylight) = d.
Proof.
  intros Hb Hz Hd Hc. unfold clock_as in Hc.
  destruct (convert_checked_ok (raw_time [] s 0 z d) (cell [] s RTC_ADDRESS_CENTURY)
    (cell [] s RTC_ADDRESS_REGISTER_B)) as (st & t' & Ht & Hwf & Hv & _).
  { apply raw_byte_fields; [intros a; by apply cell_bytes|by vm_compute|done|done|by left]. }
  { by apply cell_bytes. }
  rewrite (as_time_ok _ _ _ Ht) in Hc. destruct (EFI_ERROR st) eqn:Hst; [done|]. injection Hc as ->.
  split; [done|]. apply Hv. by destruct st.
Qed.

Lemma clock_valid s t : bytes_ok s -> saved_ok s -> clock s = Some t ->
  time_wf t /\ valid t /\ t.(Nanosecond) = 0 /\ t.(TimeZone) = s.(SavedTimeZone) /\ t.(Daylight) = s.(SavedDaylight).
Proof. intros Hb [Hz Hd] Hc. exact (clock_as_valid _ _ _ _ Hb Hz Hd Hc). Qed.

Lemma wp_check_wakeup en Time s (Q : EFI_STATUS + EFI_TIME -> rtc E -> Prop) :
  idle s -> bytes_ok s -> saved_ok s -> (forall t, Time = Some t -> time_wf t) ->
  (forall s', unchanged s s' -> Q (wake_decision s en Time) s') -> wp (check_wakeup en Time) Q s.
Proof.
  intros Hi Hb Hsv Hwf HQ. assert (Hu : unchanged s s) by (by split_and!). unfold check_wakeup. unfold wake_decision in HQ. destruct en; [|by apply wp_ret, HQ].
  destruct Time as [t|]; [|by apply wp_ret, HQ]. specialize (Hwf t eq_refl).
  destruct (RtcTimeFieldsValid_ok t Hwf) as (st & Hst & Hv). rewrite Hst in HQ. apply wp_bind. eapply wp_lift; [exact Hst|].
  destruct Hv as [[-> Hv]|[-> _]]; [|by apply wp_ret, HQ]. replace (EFI_ERROR EFI_SUCCESS) with false by done.
  destruct zero_time_invalid as [Zw Zv]. apply wp_bind, wp_get_clock; [done..|by vm_compute| |].
  - intros t' s' Hn Hinv Hwf' D. cbn beta iota. cbn [default from_option id].
    apply wp_bind. eapply wp_lift; [apply fields_invalid; [|by apply Hinv]; by destruct Hwf' as [| ->]|].
    replace (EFI_ERROR EFI_INVALID_PARAMETER) with true by done. apply done_unchanged, HQ in D. apply wp_ret.
    destruct (ready (hw s)); [|done]. by destruct Hn as [|Hn]; [|rewrite Hn in D].
  - intros n s' Hr Hn Hwn Hvn D. cbn beta iota. cbn [default from_option id].
    apply wp_bind. eapply wp_lift; [by apply fields_valid|]. replace (EFI_ERROR EFI_SUCCESS) with false by done.
    apply wp_bind. eapply wp_lift; [apply IsWithinOneDay_day; [apply Hvn|apply Hv]|]. apply done_unchanged, HQ in D.
    rewrite Hr, Hn in D. unfold within in D. destruct (bool_decide _); by apply wp_ret.
Qed.

(** ** The effect on the abstraction *)

(** Only the mode bits of register B matter. *)
Definition same_mode (B B' : Z) : Prop := Z.testbit B' Dm = Z.testbit B Dm /\ Z.testbit B' Mil = Z.testbit B Mil.

Lemma convert_mode t c B B' : same_mode B B' -> convert_checked t c B' = convert_checked t c B.
Proof. intros [H1 H2]. unfold convert_checked, ConvertRtcTimeToEfiTime. by rewrite H1, H2. Qed.

Lemma format_mode t B B' : same_mode B B' -> rtc_format t B' = rtc_format t B.
Proof. intros [H1 H2]. unfold rtc_format. by rewrite H1, H2. Qed.

Lemma bits_differ : Dm <> SetBit /\ Mil <> SetBit /\ Aie <> SetBit /\ Dm <> Aie /\ Mil <> Aie.
Proof.
  pose proof bits_distinct as Hd. rewrite !NoDup_cons in Hd. destruct Hd as (H1 & H2 & H3 & _).
  rewrite !not_elem_of_cons in *. tauto.
Qed.

Lemma bit_nonneg : 0 <= Dm /\ 0 <= Mil /\ 0 <= Aie /\ 0 <= SetBit.
Proof. split_and!; apply bit_range; repeat (first [by left|right]). Qed.

Lemma with_Set_mode B b : same_mode B (with_Set B b).
Proof.
  pose proof bits_differ as (? & ? & _). pose proof bit_nonneg as (? & ? & ? & ?).
  by split; unfold with_Set; rewrite set_bit_other.
Qed.

Lemma set_Aie_mode B b : same_mode B (set_bit B Aie b).
Proof.
  pose proof bits_differ as (_ & _ & _ & ? & ?). pose proof bit_nonneg as (? & ? & ? & ?).
  by split; rewrite set_bit_other.
Qed.

Lemma same_mode_trans B1 B2 B3 : same_mode B1 B2 -> same_mode B2 B3 -> same_mode B1 B3.
Proof. unfold same_mode. intros [] []. split; congruence. Qed.

Lemma time_wf_ns t : time_wf t -> time_wf (set_nanosecond 0 t).
Proof. unfold time_wf, in_width. cbn. lia. Qed.

Lemma time_wf_zone z d t : - 2 ^ 15 <= z < 2 ^ 15 -> in_width 8 d -> time_wf t -> time_wf (set_zone z d t).
Proof. unfold time_wf, in_width. cbn. lia. Qed.

(** A time of the calendar in the registers is read back. *)
Lemma convert_checked_format t B B' c n :
  1998 <= t.(Year) <= 2099 -> real_time t -> zone_ok t -> time_wf t -> same_mode B B' -> c = century t ->
  convert_checked (set_nanosecond n (rtc_format t B)) c B' = Some (EFI_SUCCESS, set_nanosecond 0 t).
Proof.
  intros HY Hr Hz Hwf HB ->. rewrite (convert_mode _ _ B B') by done. unfold convert_checked. rewrite of_rtc by done. rewrite some_bind.
  replace (EFI_ERROR EFI_SUCCESS) with false by done.
  rewrite fields_valid; [done| |by split_and!; try (cbn; lia)].
  by apply time_wf_ns.
Qed.

(** Setting the time. *)
Lemma clock_after_set t s s' :
  time_wf t -> valid t -> chip_after (set_writes t (cell [] s RTC_ADDRESS_REGISTER_B)) s s' ->
  s'.(SavedTimeZone) = t.(TimeZone) -> s'.(SavedDaylight) = t.(Daylight) ->
  clock s' = Some (set_nanosecond 0 t) /\ cell [] s' RTC_ADDRESS_CENTURY = century t /\ enabled s' = enabled s.
Proof.
  intros Hwf (HY & Hr & Hn & Hz) Hc Ez Ed. set (B := cell [] s RTC_ADDRESS_REGISTER_B) in *.
  pose proof (fun a => chip_after_cell _ _ _ a Hc) as Hcell.
  assert (HC : cell [] s' RTC_ADDRESS_CENTURY = century t) by (rewrite Hcell; reflexivity).
  assert (HB : cell [] s' RTC_ADDRESS_REGISTER_B = with_Set (with_Set B true) false) by (rewrite Hcell; reflexivity).
  assert (HT : raw_time [] s' 0 t.(TimeZone) t.(Daylight) = set_nanosecond 0 (rtc_format t (with_Set B true))).
  { unfold raw_time. rewrite !Hcell. unfold set_nanosecond. f_equal; try reflexivity.
    change (u8 (rtc_format t (with_Set B true)).(Year) = (rtc_format t (with_Set B true)).(Year)). apply wrap_small, digits_width.
    by apply field_ranges. }
  split_and!; [|done|].
  - unfold clock, clock_as. rewrite Ez, Ed, HT, HB, HC. erewrite (as_time_ok _ _ _ (convert_checked_format _ _ _ _ _ HY Hr Hz Hwf (with_Set_mode _ _) eq_refl)).
    done.
  - unfold enabled. rewrite HB. pose proof bits_differ as (_ & _ & ? & _). pose proof bit_nonneg as (? & ? & ? & ?).
    unfold with_Set. by rewrite !set_bit_other.
Qed.

(** Setting the alarm. *)
Lemma wake_cells en r s s' (B := cell [] s RTC_ADDRESS_REGISTER_B) :
  chip_after (wake_writes en r B) s s' ->
  same_mode B (cell [] s' RTC_ADDRESS_REGISTER_B) /\ enabled s' = en /\
  (forall z d, raw_time [] s' 0 z d = raw_time [] s 0 z d) /\ cell [] s' RTC_ADDRESS_CENTURY = cell [] s RTC_ADDRESS_CENTURY /\
  (en = true -> cell [] s' RTC_ADDRESS_HOURS_ALARM = r.(Hour) /\ cell [] s' RTC_ADDRESS_MINUTES_ALARM = r.(Minute) /\
     cell [] s' RTC_ADDRESS_SECONDS_ALARM = r.(Second)).
Proof.
  intros Hc. pose proof (fun a => chip_after_cell _ _ _ a Hc) as Hcell. pose proof bits_differ as (? & ? & ? & ? & ?). pose proof bit_nonneg as (? & ? & ? & ?).
  assert (HB : cell [] s' RTC_ADDRESS_REGISTER_B = with_Set (set_bit (with_Set B true) Aie en) false) by (rewrite Hcell; by destruct en).
  split_and!.
  - rewrite HB. eapply same_mode_trans; [apply (with_Set_mode _ true)|]. eapply same_mode_trans; [apply (set_Aie_mode _ en)|apply with_Set_mode].
  - unfold enabled. rewrite HB. unfold with_Set. rewrite set_bit_other by done. by apply set_bit_same.
  - intros z d. unfold raw_time. rewrite !Hcell. by destruct en.
  - rewrite Hcell. by destruct en.
  - intros ->. rewrite !Hcell. done.
Qed.

Lemma clock_after_wake en r s s' :
  chip_after (wake_writes en r (cell [] s RTC_ADDRESS_REGISTER_B)) s s' ->
  s'.(SavedTimeZone) = s.(SavedTimeZone) -> s'.(SavedDaylight) = s.(SavedDaylight) -> clock s' = clock s /\ enabled s' = en.
Proof.
  intros Hc Ez Ed. destruct (wake_cells _ _ _ _ Hc) as (HB & He & HT & HC & _). split; [|done].
  unfold clock, clock_as. rewrite Ez, Ed, HT, HC. by rewrite (convert_mode _ _ _ _ HB).
Qed.

Lemma unchanged_clock s s' : unchanged s s' -> clock s' = clock s /\ enabled s' = enabled s /\ wakeup s' = wakeup s.
Proof.
  intros (Hc & Ez & Ed & [_ Hv] & _). pose proof (fun a => chip_after_cell _ _ _ a Hc) as Hcell.
  unfold clock, clock_as, enabled, wakeup, alarm_time, raw_time, raw_alarm. by rewrite Ez, Ed, !Hcell, Hv.
Qed.

Lemma wakeup_after_wake t s s' :
  time_wf t -> valid t -> zone_ok (set_zone s.(SavedTimeZone) s.(SavedDaylight) t) -> saved_ok s ->
  cell [] s RTC_ADDRESS_CENTURY = century t ->
  chip_after (wake_writes true (rtc_format t (cell [] s RTC_ADDRESS_REGISTER_B)) (cell [] s RTC_ADDRESS_REGISTER_B)) s s' ->
  s'.(SavedTimeZone) = s.(SavedTimeZone) -> s'.(SavedDaylight) = s.(SavedDaylight) ->
  stored_alarm s'.(env) = Some (rtc_format t (cell [] s RTC_ADDRESS_REGISTER_B)) ->
  wakeup s' = Some (set_nanosecond 0 (set_zone s.(SavedTimeZone) s.(SavedDaylight) t)).
Proof.
  intros Hwf (HY & Hr & Hn & _) Hz [Hs1 Hs2] HC Hc Ez Ed Hv. destruct (wake_cells _ _ _ _ Hc) as (HB & _ & _ & HC' & HA).
  destruct (HA eq_refl) as (A1 & A2 & A3). unfold wakeup, alarm_time. rewrite Hv. cbn [raw_alarm Hour Minute Second Nanosecond TimeZone Daylight].
  rewrite A1, A2, A3, Ez, Ed, HC', HC.
  pose proof (convert_checked_format (set_zone s.(SavedTimeZone) s.(SavedDaylight) t) (cell [] s RTC_ADDRESS_REGISTER_B) _ (century t) 0 HY Hr Hz
    (time_wf_zone _ _ _ Hs1 Hs2 Hwf) HB eq_refl) as Hcc.
  exact (as_time_ok _ _ _ Hcc).
Qed.
End Spec.

(** ** The log of writes *)

(** A register of the time or of the alarm. *)
Definition time_register (a : Z) : bool :=
  bool_decide (a ∈ [RTC_ADDRESS_SECONDS; RTC_ADDRESS_SECONDS_ALARM; RTC_ADDRESS_MINUTES; RTC_ADDRESS_MINUTES_ALARM;
                    RTC_ADDRESS_HOURS; RTC_ADDRESS_HOURS_ALARM; RTC_ADDRESS_DAY_OF_THE_MONTH; RTC_ADDRESS_MONTH;
                    RTC_ADDRESS_YEAR; RTC_ADDRESS_CENTURY]).

(** All such registers were written with updates inhibited. *)
Definition safe_log (l : list (Z * Z * bool)) : Prop := Forall (fun e => time_register e.1.1 = true -> e.2 = true) l.

Section Log.
Context {H : PcRtcHeader}.

(** Writes that are safe, from a state with updates inhibited or not, and whether they are at the
    end. *)
Fixpoint safe_from (inh : bool) (ws : list (Z * Z)) : bool :=
  match ws with
  | [] => true
  | (a, v) :: ws => (negb (time_register a) || inh) && safe_from (if a =? RTC_ADDRESS_REGISTER_B then Z.testbit v SetBit else inh) ws
  end.
Fixpoint inh_after (inh : bool) (ws : list (Z * Z)) : bool :=
  match ws with [] => inh | (a, v) :: ws => inh_after (if a =? RTC_ADDRESS_REGISTER_B then Z.testbit v SetBit else inh) ws end.

Lemma puts_safe ws r :
  safe_log r.2 -> safe_from (Z.testbit (r.1 RTC_ADDRESS_REGISTER_B) SetBit) ws = true ->
  safe_log (puts ws r).2 /\
  Z.testbit ((puts ws r).1 RTC_ADDRESS_REGISTER_B) SetBit = inh_after (Z.testbit (r.1 RTC_ADDRESS_REGISTER_B) SetBit) ws.
Proof.
  revert r. induction ws as [|[a v] ws IH]; intros r Hl Hs; [done|]. cbn [safe_from] in Hs. apply andb_true_iff in Hs as [H1 H2].
  change (puts ((a, v) :: ws) r) with (puts ws (put (a, v) r)). cbn [inh_after].
  assert (HB : Z.testbit ((put (a, v) r).1 RTC_ADDRESS_REGISTER_B) SetBit =
    if a =? RTC_ADDRESS_REGISTER_B then Z.testbit v SetBit else Z.testbit (r.1 RTC_ADDRESS_REGISTER_B) SetBit).
  { unfold put. cbn [fst snd]. destruct (Z.eqb_spec a RTC_ADDRESS_REGISTER_B) as [-> |Hne]; [done|].
    destruct ((a =? RTC_ADDRESS_REGISTER_C) || (a =? RTC_ADDRESS_REGISTER_D)).
    { reflexivity. }
    destruct (Z.eqb_spec RTC_ADDRESS_REGISTER_B a); [congruence|done]. }
  rewrite <- HB in *. apply IH; [|done]. unfold safe_log, put. cbn [fst snd]. apply Forall_cons. split; [|done].
  cbn. intros Ht. rewrite Ht in H1. done.
Qed.
End Log.

Section Life.
Context {H : PcRtcHeader} {HO : PcRtcHeaderOk H} {E : Type} {V : RtcVariables E} {VO : RtcVariablesOk E}.
Implicit Types s : rtc E.

Record good s : Prop := {
  good_idle : idle s;
  good_bytes : bytes_ok s;
  good_saved : saved_ok s;
  good_vars : vars_ok s;
  good_updates : inhibited s.(hw) = false;
  good_log : safe_log s.(hw).(log)
}.

(** What the operations do to the registers and the log. *)
Definition regs_after (ws : list (Z * Z)) s s' : Prop := regs s'.(hw) = puts ws (regs s.(hw)).

Lemma regs_after_cell ws s s' a : regs_after ws s s' -> cell [] s' a = cell ws s a.
Proof. unfold cell. intros Hr. cbn [puts foldl]. by rewrite Hr. Qed.

Lemma bytes_after ws s s' : bytes_ok s -> Forall (fun w => in_width 8 w.2) ws -> regs_after ws s s' -> bytes_ok s'.
Proof.
  intros Hb Hws Hr a. pose proof (cell_bytes ws s a Hb Hws) as Hc. unfold cell in Hc. by rewrite <- Hr in Hc.
Qed.

Lemma log_after ws s s' :
  safe_log s.(hw).(log) -> safe_from (inhibited s.(hw)) ws = true -> regs_after ws s s' ->
  safe_log s'.(hw).(log) /\ inhibited s'.(hw) = inh_after (inhibited s.(hw)) ws.
Proof. intros Hl Hs Hr. pose proof (puts_safe ws (regs s.(hw)) Hl Hs) as Hp. by rewrite <- Hr in Hp. Qed.

Lemma good_after ws s s' :
  good s -> Forall (fun w => in_width 8 w.2) ws -> safe_from false ws = true -> inh_after false ws = false ->
  regs_after ws s s' -> idle s' -> saved_ok s' -> vars_ok s' -> good s'.
Proof.
  intros [G1 G2 G3 G4 G5 G6] Hws Hs Hi Hr Hid Hsv Hv. rewrite <- G5 in Hs. destruct (log_after _ _ _ G6 Hs Hr) as [L1 L2].
  split; try done; [by eapply bytes_after|]. by rewrite L2, G5.
Qed.

Lemma good_unchanged s s' : good s -> unchanged s s' -> good s'.
Proof.
  intros G ((_ & _ & _ & _ & Hc) & Ez & Ed & [V1 V2] & Hi). apply (good_after [] s s' G); try done.
  - unfold saved_ok. rewrite Ez, Ed. apply G.
  - unfold vars_ok. rewrite V1, V2. apply G.
Qed.

(** The writes of the operations. *)
Lemma format_bytes t B : 1998 <= t.(Year) <= 2099 -> real_time t ->
  let r := rtc_format t B in
  in_width 8 r.(Year) /\ in_width 8 r.(Month) /\ in_width 8 r.(Day) /\ in_width 8 r.(Hour) /\ in_width 8 r.(Minute) /\
  in_width 8 r.(Second) /\ in_width 8 (century t).
Proof.
  intros HY Hr r. destruct (field_ranges t HY Hr) as (Hc & Hy & Hm & Hd & Hh & Hmi & Hs).
  pose proof (hour_facts (Z.testbit B Dm) (Z.testbit B Mil) t.(Hour) Hh) as (Hw & _).
  split_and!; try (apply (digits_width _ _); done); [exact Hw|]. by apply (digits_width false).
Qed.

Lemma with_Set_width B b : in_width 8 B -> in_width 8 (with_Set B b).
Proof. apply set_bit_width, bit_range. repeat (first [by left|right]). Qed.

Lemma with_Set_bit B b : Z.testbit (with_Set B b) SetBit = b.
Proof. apply set_bit_same, bit_nonneg. Qed.

Lemma set_writes_ok t B : time_wf t -> valid t -> in_width 8 B ->
  Forall (fun w => in_width 8 w.2) (set_writes t B) /\
  safe_from false (set_writes t B) = true /\ inh_after false (set_writes t B) = false.
Proof.
  intros Hwf (HY & Hr & _) HB. destruct (format_bytes t (with_Set B true) HY Hr) as (Hy & Hm & Hd & Hh & Hmi & Hs & Hc).
  split_and!.
  - unfold set_writes. repeat (apply Forall_cons; split); try done; cbn [fst snd]; try (by apply wrap_in_width); by repeat apply with_Set_width.
  - unfold set_writes. cbn [safe_from]. cbn -[with_Set Z.testbit rtc_format]. by rewrite with_Set_bit.
  - unfold set_writes. cbn -[with_Set Z.testbit rtc_format]. apply with_Set_bit.
Qed.

Lemma wake_writes_ok en r B : (en = true -> in_width 8 r.(Second) /\ in_width 8 r.(Minute) /\ in_width 8 r.(Hour)) -> in_width 8 B ->
  Forall (fun w => in_width 8 w.2) (wake_writes en r B) /\
  safe_from false (wake_writes en r B) = true /\ inh_after false (wake_writes en r B) = false.
Proof.
  intros Hr HB. assert (HA : in_width 8 (set_bit (with_Set B true) Aie en)).
  { apply set_bit_width; [apply bit_range; repeat (first [by left|right])|by apply with_Set_width]. }
  unfold wake_writes. split_and!.
  - apply Forall_cons. split; [by apply with_Set_width|]. apply Forall_app. split.
    + destruct en; [|by apply Forall_nil]. destruct (Hr eq_refl) as (? & ? & ?).
      repeat (apply Forall_cons; split; [done|]). by apply Forall_nil.
    + apply Forall_cons. split; [by apply with_Set_width|by apply Forall_nil].
  - destruct en; cbn -[with_Set Z.testbit rtc_format]; by rewrite with_Set_bit.
  - destruct en; cbn -[with_Set Z.testbit rtc_format]; apply with_Set_bit.
Qed.

(** ** [PcRtcSetWakeupTime] *)

Lemma wake_decision_valid s en Time t :
  (forall t, Time = Some t -> time_wf t) -> wake_decision s en Time = inr t ->
  en = true -> Time = Some t /\ time_wf t /\ valid t /\ exists n, ready s.(hw) = true /\ clock s = Some n /\ within n t = true.
Proof.
  intros Hwf Hd ->. unfold wake_decision in Hd. destruct Time as [t0|]; [|done]. specialize (Hwf t0 eq_refl).
  destruct (RtcTimeFieldsValid_ok t0 Hwf) as (st & Hst & Hv). rewrite Hst in Hd.
  destruct Hv as [[-> Hv]|[-> _]]; [|done]. destruct (ready (hw s)); [|done]. destruct (clock s) as [n|]; [|done].
  destruct (within n t0) eqn:Hw; [|done]. injection Hd as ->. split_and!; try done. by exists n.
Qed.

Lemma wp_set_wakeup en Time s (Q : EFI_STATUS -> rtc E -> Prop) :
  idle s -> bytes_ok s -> saved_ok s -> (forall t, Time = Some t -> time_wf t) ->
  (forall st s', wake_decision s en Time = inl st -> unchanged s s' -> Q st s') ->
  (forall t s', wake_decision s en Time = inr t -> unchanged s s' -> Q EFI_DEVICE_ERROR s') ->
  (forall t s', let B := cell [] s RTC_ADDRESS_REGISTER_B in
     let r := if en then rtc_format t B else raw_alarm [] s t.(Nanosecond) s.(SavedTimeZone) s.(SavedDaylight) in
     wake_decision s en Time = inr t -> chip_after (wake_writes en r B) s s' ->
     s'.(SavedTimeZone) = s.(SavedTimeZone) -> s'.(SavedDaylight) = s.(SavedDaylight) ->
     stored_rtc s'.(env) = stored_rtc s.(env) -> stored_alarm s'.(env) = Some r -> idle s' -> Q EFI_SUCCESS s') ->
  wp (PcRtcSetWakeupTime en Time) Q s.
Proof.
  intros Hi Hb Hsv Hwf QD QE QS. unfold PcRtcSetWakeupTime. apply wp_bind, wp_check_wakeup; [done..|]. intros s1 U1.
  destruct (wake_decision s en Time) as [st|t] eqn:Hd; [apply wp_ret; by apply QD|].
  pose proof U1 as (C1 & Z1 & D1 & [V1 W1] & I1). pose proof (fun a => chip_after_cell _ _ _ a C1) as Hcell.
  apply wp_program_wakeup; [done| | |].
  - intros He. destruct (wake_decision_valid _ _ _ _ Hwf Hd He) as (_ & _ & (HY & Hr & _) & _). done.
  - intros s' U2. apply (QE t); [done|]. by eapply unchanged_trans.
  - cbn zeta. intros s' C2 Z2 D2 V2 W2 I2. cbn zeta in QS. unfold raw_alarm in C2, W2. rewrite !Hcell, Z1, D1 in C2, W2.
    apply (QS t); try congruence; [|done..]. exact (chip_after_trans _ _ _ _ _ C1 C2).
Qed.

Lemma alarm_vars_ok (en : bool) t s s' (B := cell [] s RTC_ADDRESS_REGISTER_B) :
  bytes_ok s -> vars_ok s -> (en = true -> valid t) -> stored_rtc s'.(env) = stored_rtc s.(env) ->
  stored_alarm s'.(env) = Some (if en then rtc_format t B else raw_alarm [] s t.(Nanosecond) s.(SavedTimeZone) s.(SavedDaylight)) ->
  vars_ok s'.
Proof.
  intros Hb [V1 _] Ht E1 E2. split; [by rewrite E1|]. rewrite E2. intros ? [= <-].
  assert (Hm : forall x, in_width 8 x -> in_width 16 x) by (intros x; apply in_width_mono; lia).
  destruct en.
  - destruct (Ht eq_refl) as (HY & Hr & _). destruct (format_bytes t B HY Hr) as (? & ? & ? & _). auto.
  - cbn [raw_alarm Year Month Day]. split_and!; [apply Hm|..]; by apply cell_bytes.
Qed.

Lemma good_wake (en : bool) t s s' (B := cell [] s RTC_ADDRESS_REGISTER_B)
    (r := if en then rtc_format t B else raw_alarm [] s t.(Nanosecond) s.(SavedTimeZone) s.(SavedDaylight)) :
  good s -> (en = true -> valid t) -> chip_after (wake_writes en r B) s s' ->
  s'.(SavedTimeZone) = s.(SavedTimeZone) -> s'.(SavedDaylight) = s.(SavedDaylight) ->
  stored_rtc s'.(env) = stored_rtc s.(env) -> stored_alarm s'.(env) = Some r -> idle s' -> good s'.
Proof.
  intros G Ht (_ & _ & _ & _ & Hc) Ez Ed Ev Ew Hi. destruct (wake_writes_ok en r B) as (W1 & W2 & W3).
  { intros He. unfold r. rewrite He. destruct (Ht He) as (HY & Hr & _). destruct (format_bytes t B HY Hr) as (_ & _ & _ & ? & ? & ? & _). done. }
  { apply cell_bytes; [apply G|by apply Forall_nil]. }
  apply (good_after _ s s' G W1 W2 W3 Hc Hi).
  - unfold saved_ok. rewrite Ez, Ed. apply G.
  - eapply alarm_vars_ok; [apply G|apply G|exact Ht|exact Ev|exact Ew].
Qed.

Lemma good_set t s s' :
  good s -> time_wf t -> valid t -> chip_after (set_writes t (cell [] s RTC_ADDRESS_REGISTER_B)) s s' ->
  s'.(SavedTimeZone) = t.(TimeZone) -> s'.(SavedDaylight) = t.(Daylight) -> stored_rtc s'.(env) = Some (timer_var t) ->
  stored_alarm s'.(env) = stored_alarm s.(env) -> idle s' -> good s'.
Proof.
  intros G Hwf Hv (_ & _ & _ & _ & Hc) Ez Ed Ev Ew Hi. destruct (set_writes_ok t (cell [] s RTC_ADDRESS_REGISTER_B) Hwf Hv) as (W1 & W2 & W3).
  { apply cell_bytes; [apply G|by apply Forall_nil]. }
  apply (good_after _ s s' G W1 W2 W3 Hc Hi).
  - unfold saved_ok. rewrite Ez, Ed. split; apply Hwf.
  - destruct (good_vars _ G) as [_ V2]. split; [|by rewrite Ew]. rewrite Ev. intros ? [= <-]. by apply wrap_in_width.
Qed.
End Life.
