(* ===== verification/RtcInit.v ===== *)
(** * The real-time clock driver: the initialisation

    [PcRtcInit]: whatever was in the registers and in the variables, it leaves a clock that shows a
    time of the calendar - the one that was there if it was one - in the configured format. *)

From S2P Require Import Prelude RtcDefs RtcTime RtcDriver RtcClock RtcOps RtcSpec.
From stdpp Require Import list.
#[local] Open Scope Z_scope.

(** The defaults of the header: a time of the calendar, and a register B that allows updates. The
    driver takes bit 5 of register B for the one that enables the alarm. *)
Class PcRtcInitOk (H : PcRtcHeader) := {
  init_time_ok : 1998 <= RTC_INIT_YEAR <= 2099 /\ real_time (init_time 0 0);
  init_zone_ok : - 2 ^ 15 <= EFI_UNSPECIFIED_TIMEZONE < 2 ^ 15;
  init_A_ok : in_width 8 RTC_INIT_REGISTER_A;
  init_B_ok : in_width 8 RTC_INIT_REGISTER_B;
  init_D_ok : in_width 8 RTC_INIT_REGISTER_D;
  init_B_updates : Z.testbit RTC_INIT_REGISTER_B SetBit = false;
  init_B_alarm : Z.testbit RTC_INIT_REGISTER_B Aie = false;
  Aie_bit : Aie = 5
}.

Section Init.
Context {H : PcRtcHeader} {HO : PcRtcHeaderOk H} {HI : PcRtcInitOk H}.
Context {E : Type} {V : RtcVariables E} {VO : RtcVariablesOk E}.
Implicit Types s : rtc E.

Ltac plain_ := by (unfold plain, address; vm_compute).
Ltac address_ := by (unfold address; vm_compute).

(** The configuration of register B; the alarm stays enabled. *)
Definition init_B (B : Z) : Z := u8 (Z.lor RTC_INIT_REGISTER_B (Z.land B 32)).

Lemma init_B_bits B : Z.testbit (init_B B) SetBit = false /\ Z.testbit (init_B B) Aie = Z.testbit B Aie.
Proof.
  pose proof bits_differ as (_ & _ & Hne & _). pose proof (bit_range SetBit) as HS. pose proof Aie_bit as HA.
  specialize (HS ltac:(repeat (first [by left|right]))). unfold init_B. change 32 with (2 ^ 5).
  rewrite !wrap_bit, !Z.lor_spec, !Z.land_spec, !Z.pow2_bits_eqb by lia. rewrite init_B_updates, init_B_alarm, HA.
  rewrite HA in Hne. destruct (Z.eqb_spec 5 SetBit); [done|]. rewrite !andb_false_r. split; [done|]. by rewrite !andb_true_r.
Qed.

Definition start_writes : list (Z * Z) := [(RTC_ADDRESS_REGISTER_A, RTC_INIT_REGISTER_A); (RTC_ADDRESS_REGISTER_D, RTC_INIT_REGISTER_D)].
Definition init_writes (B : Z) : list (Z * Z) := start_writes ++ [(RTC_ADDRESS_REGISTER_B, init_B B)].

Lemma init_writes_ok B :
  Forall (fun w => in_width 8 w.2) start_writes /\ Forall (fun w => in_width 8 w.2) (init_writes B) /\
  (forall b, safe_from b start_writes = true /\ inh_after b start_writes = b) /\
  (forall b, safe_from b (init_writes B) = true /\ inh_after b (init_writes B) = false).
Proof.
  assert (HF : Forall (fun w => in_width 8 w.2) start_writes).
  { apply Forall_cons. split; [apply init_A_ok|]. apply Forall_cons. split; [apply init_D_ok|by apply Forall_nil]. }
  split_and!; [done| |done|].
  - apply Forall_app. split; [done|]. apply Forall_cons. split; [by apply wrap_in_width|by apply Forall_nil].
  - intros b. split; [done|]. cbn -[init_B Z.testbit]. apply init_B_bits.
Qed.

Lemma wp_init_chip t0 s (Q : EFI_STATUS + EFI_TIME * Z * Z -> rtc E -> Prop) :
  idle s ->
  (forall s', regs_after start_writes s s' -> idle s' -> s'.(SavedTimeZone) = EFI_UNSPECIFIED_TIMEZONE -> s'.(SavedDaylight) = 0 ->
     same_vars s s' -> Q (inl EFI_DEVICE_ERROR) s') ->
  (forall s', regs_after (init_writes (cell [] s RTC_ADDRESS_REGISTER_B)) s s' -> idle s' -> same_rest s s' ->
     Q (inr (raw_time [] s t0.(Nanosecond) t0.(TimeZone) t0.(Daylight), cell [] s RTC_ADDRESS_CENTURY, cell [] s RTC_ADDRESS_REGISTER_B)) s') ->
  wp (init_chip t0) Q s.
Proof.
  intros Hi QE QS. unfold init_chip. apply wp_bind, step_acquire; [done|]. intros s1 _ A1.
  apply wp_bind. eapply step_write; [exact A1|address_|]. intros s2 A2. cbn [app] in A2.
  apply wp_bind. eapply step_read; [exact A2|plain_|]. intros s3 A3.
  apply wp_bind. eapply step_read_C; [exact A3|]. intros s4 A4.
  apply wp_bind. eapply step_write; [exact A4|address_|]. intros s5 A5. cbn [app] in A5. fold start_writes in A5.
  change (cell [(RTC_ADDRESS_REGISTER_A, RTC_INIT_REGISTER_A)] s RTC_ADDRESS_REGISTER_B) with (cell [] s RTC_ADDRESS_REGISTER_B).
  apply wp_bind. eapply step_wait; [exact A5|]. intros s6 A6. destruct (ready (hw s5)); cycle 1.
  { replace (EFI_ERROR EFI_DEVICE_ERROR) with true by done. destruct A6 as (C6 & (E6 & _) & H6).
    apply wp_bind, wp_modify, wp_bind, wp_release; [done|]. intros s7 C7 (E7 & Z7 & D7) I7. apply wp_ret.
    destruct C6 as (_ & _ & _ & _ & C6), C7 as (_ & _ & _ & _ & C7).
    apply QE; [unfold regs_after; rewrite C7; exact C6|done..|]. unfold same_vars. rewrite E7. cbn [set_saved env]. by rewrite E6. }
  replace (EFI_ERROR EFI_SUCCESS) with false by done.
  apply wp_bind. eapply step_read_time; [exact A6|]. intros s7 A7.
  apply wp_bind. eapply step_read; [exact A7|plain_|]. intros s8 A8.
  apply wp_bind. eapply step_write; [exact A8|address_|]. intros s9 A9.
  eapply release_ret; [exact A9|]. intros s10 D10. destruct D10 as ((_ & _ & _ & _ & C10) & R10 & I10).
  by apply QS.
Qed.

(** ** The alarm's registers *)

Definition reset_writes (r : EFI_TIME) (B : Z) : list (Z * Z) :=
  [(RTC_ADDRESS_REGISTER_B, with_Set B true); (RTC_ADDRESS_SECONDS_ALARM, r.(Second)); (RTC_ADDRESS_MINUTES_ALARM, r.(Minute));
   (RTC_ADDRESS_HOURS_ALARM, r.(Hour)); (RTC_ADDRESS_REGISTER_B, with_Set (with_Set B true) false)].

Lemma init_time_real z d : 1998 <= (init_time z d).(Year) <= 2099 /\ real_time (init_time z d).
Proof. exact init_time_ok. Qed.

Lemma init_time_wf z d : - 2 ^ 15 <= z < 2 ^ 15 -> in_width 8 d -> time_wf (init_time z d).
Proof.
  intros Hz Hd. destruct (init_time_real z d) as (HY & Hm & Hd' & Hh & Hmi & Hs).
  pose proof (days_in_month_bounds (init_time z d).(Year) (init_time z d).(Month)).
  unfold time_wf, in_width in *. cbn [Nanosecond TimeZone Daylight init_time]. lia.
Qed.

Lemma wp_reset_alarm B s (Q : EFI_STATUS -> rtc E -> Prop) :
  idle s ->
  (forall s', unchanged s s' -> Q EFI_DEVICE_ERROR s') ->
  (forall s', let r := rtc_format (init_time s.(SavedTimeZone) s.(SavedDaylight)) B in
     chip_after (reset_writes r (cell [] s RTC_ADDRESS_REGISTER_B)) s s' -> s'.(SavedTimeZone) = s.(SavedTimeZone) ->
     s'.(SavedDaylight) = s.(SavedDaylight) -> stored_rtc s'.(env) = stored_rtc s.(env) -> stored_alarm s'.(env) = Some r -> idle s' ->
     Q EFI_SUCCESS s') ->
  wp (reset_alarm B) Q s.
Proof.
  intros Hi QE QS. unfold reset_alarm. apply wp_bind, wp_get. apply wp_bind, step_acquire; [done|]. intros s1 _ A1.
  apply wp_bind. eapply step_wait; [exact A1|]. intros s2 A2. destruct (ready (hw s1)); cycle 1.
  { replace (EFI_ERROR EFI_DEVICE_ERROR) with true by done. eapply release_ret; [exact A2|]. intros s' D. by apply QE, done_unchanged. }
  replace (EFI_ERROR EFI_SUCCESS) with false by done. pose proof A2 as (_ & (E2 & _) & _).
  destruct (init_time_real s.(SavedTimeZone) s.(SavedDaylight)) as [HY Hr].
  apply wp_bind. eapply wp_lift; [by apply to_rtc|]. set (r := rtc_format _ B) in *. cbn beta iota.
  apply wp_bind, wp_on_var, wp_SetRTCALARM.
  { intros st e Hst Hv1 Hv2 s3 Ee3 Eh3 Ez3 Ed3 Ea3 El3. rewrite Hst.
    destruct (at_env _ _ _ _ A2 Eh3 Ez3 Ed3 Ea3 El3) as (C3 & Z3 & D3 & H3).
    apply wp_bind, wp_release; [done|]. intros s4 C4 (E4 & Z4 & D4) I4. apply wp_ret, QE.
    split_and!; [by eapply (chip_after_trans [] [])|congruence..| |done]. unfold same_vars. rewrite E4, Ee3, Hv1, Hv2, E2. done. }
  intros e Hv1 Hv2 s3 Ee3 Eh3 Ez3 Ed3 Ea3 El3. replace (EFI_ERROR EFI_SUCCESS) with false by done.
  destruct (at_env _ _ _ _ A2 Eh3 Ez3 Ed3 Ea3 El3) as (C3 & Z3 & D3 & H3). assert (A3 : at_ [] s3 s3) by (by split_and!).
  apply wp_bind. eapply step_read; [exact A3|plain_|]. intros s4 A4. rewrite (chip_after_cell _ _ _ _ C3).
  do 5 (apply wp_bind; eapply step_write; [eassumption|address_|]; let s := fresh "s" in let A := fresh "A" in intros s A; cbn [app] in A).
  eapply release_ret; [eassumption|]. intros s10 (C10 & (E10 & Z10 & D10) & I10).
  apply QS; [exact (chip_after_trans _ _ _ _ _ C3 C10)|congruence..|done].
Qed.

Lemma reset_cells r B s s' :
  B = cell [] s RTC_ADDRESS_REGISTER_B -> chip_after (reset_writes r B) s s' ->
  same_mode B (cell [] s' RTC_ADDRESS_REGISTER_B) /\ enabled s' = enabled s /\
  (forall z d, raw_time [] s' 0 z d = raw_time [] s 0 z d) /\ cell [] s' RTC_ADDRESS_CENTURY = cell [] s RTC_ADDRESS_CENTURY.
Proof.
  intros HB Hc. pose proof (fun a => chip_after_cell _ _ _ a Hc) as Hcell. pose proof bits_differ as (_ & _ & ? & _). pose proof bit_nonneg as (_ & _ & ? & ?).
  assert (HB' : cell [] s' RTC_ADDRESS_REGISTER_B = with_Set (with_Set B true) false) by (rewrite Hcell; done).
  split_and!.
  - rewrite HB'. eapply same_mode_trans; apply with_Set_mode.
  - unfold enabled. rewrite HB', HB. unfold with_Set. by rewrite !set_bit_other.
  - intros z d. unfold raw_time. by rewrite !Hcell.
  - by rewrite Hcell.
Qed.

Lemma reset_writes_ok z d B B' : in_width 8 B ->
  let ws := reset_writes (rtc_format (init_time z d) B') B in
  Forall (fun w => in_width 8 w.2) ws /\ safe_from false ws = true /\ inh_after false ws = false.
Proof.
  intros HB ws. destruct (init_time_real z d) as [HY Hr]. destruct (format_bytes _ B' HY Hr) as (_ & _ & _ & Hh & Hmi & Hs & _).
  unfold ws, reset_writes. split_and!.
  - repeat (apply Forall_cons; split); try done; by repeat apply with_Set_width.
  - cbn -[with_Set Z.testbit rtc_format]. by rewrite with_Set_bit.
  - cbn -[with_Set Z.testbit rtc_format]. apply with_Set_bit.
Qed.

Lemma good_reset B s s' (r := rtc_format (init_time s.(SavedTimeZone) s.(SavedDaylight)) B) :
  good s -> chip_after (reset_writes r (cell [] s RTC_ADDRESS_REGISTER_B)) s s' ->
  s'.(SavedTimeZone) = s.(SavedTimeZone) -> s'.(SavedDaylight) = s.(SavedDaylight) ->
  stored_rtc s'.(env) = stored_rtc s.(env) -> stored_alarm s'.(env) = Some r -> idle s' -> good s'.
Proof.
  intros G (_ & _ & _ & _ & Hc) Ez Ed Ev Ew Hi.
  destruct (reset_writes_ok s.(SavedTimeZone) s.(SavedDaylight) (cell [] s RTC_ADDRESS_REGISTER_B) B) as (W1 & W2 & W3).
  { apply cell_bytes; [apply G|by apply Forall_nil]. }
  apply (good_after _ s s' G W1 W2 W3 Hc Hi).
  - unfold saved_ok. rewrite Ez, Ed. apply G.
  - destruct (good_vars _ G) as [V1 _]. split; [by rewrite Ev|]. rewrite Ew. intros ? [= <-].
    destruct (init_time_real s.(SavedTimeZone) s.(SavedDaylight)) as [HY Hr]. destruct (format_bytes _ B HY Hr) as (? & ? & ? & _).
    split_and!; [|done..]. eapply in_width_mono; [|done]. lia.
Qed.

(** ** [PcRtcInit] *)

(** What the driver finds: bytes in the registers and the variables; updates may be inhibited. *)
Record at_boot s : Prop := {
  boot_idle : idle s;
  boot_bytes : bytes_ok s;
  boot_saved : saved_ok s;
  boot_vars : vars_ok s;
  boot_log : safe_log s.(hw).(log)
}.

(** The zone stored in a previous boot. *)
Definition stored_zone s : Z * Z :=
  match stored_rtc s.(env) with Some x => (s16 x, u8 (Z.shiftr x 16)) | None => (EFI_UNSPECIFIED_TIMEZONE, 0) end.

(** The time that the clock is to show. *)
Definition init_clock s : EFI_TIME :=
  default (init_time EFI_UNSPECIFIED_TIMEZONE 0) (clock_as (stored_zone s).1 (stored_zone s).2 s).

Lemma s16_range x : - 2 ^ 15 <= s16 x < 2 ^ 15.
Proof. unfold s16. pose proof (wrap_bounds 16 x). destruct (Z.ltb_spec (u16 x) (2 ^ 15)); lia. Qed.

Lemma stored_zone_ok s : - 2 ^ 15 <= (stored_zone s).1 < 2 ^ 15 /\ in_width 8 (stored_zone s).2.
Proof.
  unfold stored_zone. destruct (stored_rtc _); cbn [fst snd]; split.
  - apply s16_range.
  - by apply wrap_in_width.
  - apply init_zone_ok.
  - by vm_compute.
Qed.

Lemma init_clock_ok s : bytes_ok s -> time_wf (init_clock s) /\ valid (init_clock s) /\ (init_clock s).(Nanosecond) = 0.
Proof.
  intros Hb. destruct (stored_zone_ok s) as [Hz Hd]. unfold init_clock.
  destruct (clock_as _ _ s) as [t|] eqn:Hc; cbn [default from_option id].
  - destruct (clock_as_valid _ _ _ _ Hb Hz Hd Hc) as (? & ? & ? & _). by split_and!.
  - pose proof init_zone_ok as Hu. destruct (init_time_real EFI_UNSPECIFIED_TIMEZONE 0) as [HY Hr]. split_and!; [|split; [done|]|done].
    + apply init_time_wf; [done|by vm_compute].
    + split; [done|]. split; [cbn; lia|]. split; [by left|apply Z.land_0_l].
Qed.

(** The checks of what was read, with any nanoseconds in the local variable. *)
Lemma init_convert n z d s : in_width 32 n -> - 2 ^ 15 <= z < 2 ^ 15 -> in_width 8 d -> bytes_ok s ->
  exists st t, convert_checked (raw_time [] s n z d) (cell [] s RTC_ADDRESS_CENTURY) (cell [] s RTC_ADDRESS_REGISTER_B) = Some (st, t) /\
    clock_as z d s = if EFI_ERROR st then None else Some t.
Proof.
  intros Hn Hz Hd Hb. destruct (convert_checked_ok (raw_time [] s n z d) (cell [] s RTC_ADDRESS_CENTURY)
      (cell [] s RTC_ADDRESS_REGISTER_B)) as (st & t & Ht & _).
  { apply raw_byte_fields; [intros a; by apply cell_bytes|done|done|done|by left]. }
  { by apply cell_bytes. }
  exists st, t. split; [done|]. unfold clock_as. rewrite <- (as_time_ns n). by apply as_time_ok.
Qed.

(** The last part: the alarm. *)
Lemma wp_init_alarm en pe t B s (Q : EFI_STATUS -> rtc E -> Prop) :
  good s -> in_width 32 t.(Nanosecond) ->
  (forall st s', (st = EFI_SUCCESS \/ st = EFI_DEVICE_ERROR) -> good s' -> clock s' = clock s -> enabled s' = enabled s -> Q st s') ->
  wp ('(Status, r) ← PcRtcGetWakeupTime (Some (en, pe, t));
      let Enabled := match r with Some (Enabled, _, _) => Enabled | None => en end in
      if Enabled || negb (EFI_ERROR Status) then mret EFI_SUCCESS else reset_alarm B) Q s.
Proof.
  intros G Hn HQ.
  assert (Hreset : forall s1, good s1 -> clock s1 = clock s -> enabled s1 = enabled s -> wp (reset_alarm B) Q s1).
  { intros s1 G1 K1 A1. apply wp_reset_alarm; [apply G1| |].
    - intros s2 U. destruct (unchanged_clock _ _ U) as (K2 & A2 & _). apply HQ; [by right|by eapply good_unchanged|congruence..].
    - cbn zeta. intros s2 C Ez Ed Ev Ew I. destruct (reset_cells _ _ _ _ eq_refl C) as (HB & A2 & HT & HC).
      apply HQ; [by left|by eapply good_reset| |congruence].
      rewrite <- K1. unfold clock, clock_as. rewrite Ez, Ed, HT, HC. by rewrite (convert_mode _ _ _ _ HB). }
  apply wp_bind, wp_get_wakeup; [apply G..|done| |].
  - intros _ s1 D. apply done_unchanged in D. destruct (unchanged_clock _ _ D) as (K & A & _). pose proof (good_unchanged _ _ G D) as G1.
    cbn beta iota zeta. destruct (en || _); [|by apply Hreset]. apply wp_ret. apply HQ; [by left|done..].
  - intros _ st t' s1 C Ez Ed [V1 W1] I _ _ _.
    assert (U : regs s1.(hw) = regs s.(hw)) by apply C.
    assert (G1 : good s1).
    { apply (good_after [] s s1 G); try done.
      - unfold saved_ok. rewrite Ez, Ed. apply G.
      - unfold vars_ok. rewrite V1, W1. apply G. }
    assert (KA : clock s1 = clock s /\ enabled s1 = enabled s).
    { unfold clock, clock_as, enabled, raw_time, cell. by rewrite Ez, Ed, U. }
    destruct KA as [K A]. cbn beta iota zeta. destruct (_ || _); [|by apply Hreset]. apply wp_ret. apply HQ; [by left|done..].
Qed.

Lemma wp_PcRtcInit en pe t0 s (Q : EFI_STATUS -> rtc E -> Prop) :
  at_boot s -> in_width 32 t0.(Nanosecond) ->
  (forall s', at_boot s' -> inhibited s'.(hw) = inhibited s.(hw) \/ inhibited s'.(hw) = false -> Q EFI_DEVICE_ERROR s') ->
  (forall s', good s' -> clock s' = Some (init_clock s) -> enabled s' = enabled s -> Q EFI_SUCCESS s') ->
  wp (PcRtcInit en pe t0) Q s.
Proof.
  intros [F1 F2 F3 F4 F5] Hn QE QS.
  assert (QG : forall s', good s' -> Q EFI_DEVICE_ERROR s').
  { intros s' [G1 G2 G3 G4 G5 G6]. apply QE; [done|by right]. }
  set (B := cell [] s RTC_ADDRESS_REGISTER_B). destruct (init_writes_ok B) as (W1 & W2 & W3 & W4).
  assert (Hv : forall s', same_vars s s' -> vars_ok s') by (intros s' [V1 V2]; unfold vars_ok; by rewrite V1, V2).
  unfold PcRtcInit. apply wp_bind, wp_init_chip; [done| |].
  { intros s1 C1 I1 Z1 D1 V1. apply wp_ret. destruct (W3 (inhibited s.(hw))) as [S1 S2]. destruct (log_after _ _ _ F5 S1 C1) as [L1 L2].
    apply QE; [|left; congruence]. split; [done|exact (bytes_after _ _ _ F2 W1 C1)| |by apply Hv|done].
    split; [rewrite Z1; apply init_zone_ok|rewrite D1; by vm_compute]. }
  intros s1 C1 I1 (R1 & R2 & R3). destruct (W4 (inhibited s.(hw))) as [S1 S2]. destruct (log_after _ _ _ F5 S1 C1) as [L1 L2]. rewrite S2 in L2.
  pose proof (bytes_after _ _ _ F2 W2 C1) as B1. cbn beta iota.
  assert (E1 : enabled s1 = enabled s).
  { unfold enabled. rewrite (regs_after_cell _ _ _ _ C1). exact (proj2 (init_B_bits B)). }
  apply wp_bind, wp_on_var, wp_GetRTC. intros st v e Hv1 Hv2 Hget s2 Ee2 Eh2 Ez2 Ed2 Ea2 El2. cbn beta iota. rewrite R1 in Hv1, Hv2, Hget.
  assert (Hz : forall t, (if negb (EFI_ERROR st) then set_zone (s16 v) (u8 (Z.shiftr v 16)) t else set_zone EFI_UNSPECIFIED_TIMEZONE 0 t) =
    set_zone (stored_zone s).1 (stored_zone s).2 t).
  { intros t. unfold stored_zone. destruct (stored_rtc (env s)); [by destruct Hget as [-> ->]|by rewrite Hget]. }
  rewrite Hz. cbv zeta. destruct (stored_zone_ok s) as [Zz Zd].
  destruct (init_convert t0.(Nanosecond) _ _ s Hn Zz Zd F2) as (st2 & t & Ht & Hclk). apply wp_bind. eapply wp_lift; [exact Ht|]. cbn beta iota zeta.
  assert (Ht' : (if EFI_ERROR st2 then init_time EFI_UNSPECIFIED_TIMEZONE 0 else t) = init_clock s).
  { unfold init_clock. rewrite Hclk. by destruct (EFI_ERROR st2). }
  rewrite Ht'. destruct (init_clock_ok s F2) as (Iw & Iv & In).
  assert (G2 : good s2).
  { split.
    - unfold idle in *. by rewrite Ea2, El2.
    - intros a. rewrite Eh2. apply B1.
    - unfold saved_ok. by rewrite Ez2, Ed2, R2, R3.
    - apply Hv. unfold same_vars. by rewrite Ee2, Hv1, Hv2.
    - by rewrite Eh2.
    - by rewrite Eh2. }
  assert (E2 : enabled s2 = enabled s) by (rewrite <- E1; unfold enabled, cell; by rewrite Eh2).
  apply wp_bind, wp_set_time; [apply G2|done..| |].
  - intros s3 C3 Z3 D3 V3 I3. apply wp_ret, QG. by eapply good_unchanged.
  - intros _ s3 C3 Z3 D3 Vr3 Va3 I3. replace (EFI_ERROR EFI_SUCCESS) with false by done.
    destruct (clock_after_set _ _ _ Iw Iv C3 Z3 D3) as (K3 & _ & E3). pose proof (good_set _ _ _ G2 Iw Iv C3 Z3 D3 Vr3 Va3 I3) as G3.
    apply wp_init_alarm; [done|by rewrite In|]. intros st4 s4 [-> | ->] G4 K4 E4; [|by apply QG]. apply QS; [done| |congruence].
    rewrite K4, K3. f_equal. destruct (init_clock s). cbn in In. by rewrite In.
Qed.
End Init.
