(* ===== verification/RtcTheorems.v ===== *)
(** * The real-time clock driver: the theorems

    The operations together: what the driver shows to its callers and how it treats the chip, from
    [PcRtcInit] on, whatever is called in whatever order and whatever the chip does in between. *)

From S2P Require Import Prelude RtcDefs RtcTime RtcDriver RtcClock RtcOps RtcSpec RtcInit.
From stdpp Require relations.
From stdpp Require Import list.
#[local] Open Scope Z_scope.

(** ** Calls, and what happens between them *)

(** The four runtime services; the arguments are what the pointers point to. *)
Inductive call :=
| CallGetTime (Time : option EFI_TIME) (Capabilities : bool)
| CallSetTime (Time : option EFI_TIME)
| CallGetWakeupTime (Out : option (bool * bool * EFI_TIME))
| CallSetWakeupTime (Enable : bool) (Time : option EFI_TIME).

Definition times (c : call) : option EFI_TIME :=
  match c with
  | CallGetTime t _ | CallSetTime t | CallSetWakeupTime _ t => t
  | CallGetWakeupTime o => option_map snd o
  end.

(** The arguments have the widths of their types. *)
Definition call_wf (c : call) : Prop := forall t, times c = Some t -> time_wf t.

Definition sets_time (c : call) : bool := match c with CallSetTime _ => true | _ => false end.

Section Theorems.
Context {H : PcRtcHeader} {HO : PcRtcHeaderOk H} {HI : PcRtcInitOk H}.
Context {E : Type} {V : RtcVariables E} {VO : RtcVariablesOk E}.
Implicit Types s : rtc E.

Definition exec (c : call) : M (rtc E) EFI_STATUS :=
  match c with
  | CallGetTime t cap => '(st, _, _) ← PcRtcGetTime t cap; mret st
  | CallSetTime t => PcRtcSetTime t
  | CallGetWakeupTime o => '(st, _) ← PcRtcGetWakeupTime o; mret st
  | CallSetWakeupTime en t => PcRtcSetWakeupTime en t
  end.

(** What the chip does by itself: the update flag, the power, the alarm flag and the index may change,
    and the registers of the time when updates are not inhibited. *)
Definition hardware (c c' : chip) : Prop :=
  c'.(log) = c.(log) /\
  forall a, c'.(cells) a = c.(cells) a \/
    (inhibited c = false /\ in_width 8 (c'.(cells) a) /\
     a ∈ [RTC_ADDRESS_SECONDS; RTC_ADDRESS_MINUTES; RTC_ADDRESS_HOURS; RTC_ADDRESS_DAY_OF_THE_MONTH; RTC_ADDRESS_MONTH;
          RTC_ADDRESS_YEAR; RTC_ADDRESS_CENTURY]).

Inductive step : rtc E -> rtc E -> Prop :=
| step_call c st s s' : call_wf c -> exec c s = Some (st, s') -> step s s'
| step_hardware s c : hardware s.(hw) c ->
    step s {| env := s.(env); hw := c; SavedTimeZone := s.(SavedTimeZone); SavedDaylight := s.(SavedDaylight);
              RtcLock := s.(RtcLock); AtRuntime := s.(AtRuntime) |}
| step_runtime s :
    step s {| env := s.(env); hw := s.(hw); SavedTimeZone := s.(SavedTimeZone); SavedDaylight := s.(SavedDaylight);
              RtcLock := s.(RtcLock); AtRuntime := true |}.

(** ** Every call *)

Lemma wp_call c s :
  good s -> call_wf c ->
  wp (exec c) (fun st s' => good s' /\ (sets_time c = false -> clock s' = clock s)) s.
Proof.
  intros G Hc. assert (Hret : forall (st : EFI_STATUS) s', unchanged s s' -> good s' /\ (sets_time c = false -> clock s' = clock s)).
  { intros _ s' U. split; [by eapply good_unchanged|]. intros _. by apply unchanged_clock. }
  assert (Hns : forall t, time_wf t -> in_width 32 t.(Nanosecond)) by (intros t Hwf; apply Hwf).
  pose proof (good_idle _ G) as Hi. assert (Hu : unchanged s s) by (by split_and!).
  destruct c as [[t|] cap|[t|]|[[[en pe] t]|]|en t]; unfold exec.
  - specialize (Hc t eq_refl). apply wp_bind, wp_get_clock; [apply G..|by apply Hns| |].
    + intros t' s' _ _ _ D. by apply wp_ret, (Hret EFI_SUCCESS), done_unchanged.
    + intros t' s' _ _ _ _ D. by apply wp_ret, (Hret EFI_SUCCESS), done_unchanged.
  - apply wp_bind, wp_ret, wp_ret. by apply (Hret EFI_SUCCESS).
  - specialize (Hc t eq_refl). destruct (RtcTimeFieldsValid_ok t Hc) as (st & _ & [[_ Hv]|[_ Hv]]).
    + apply wp_set_time; [done..| |].
      * intros s' C Z D W I. apply (Hret EFI_SUCCESS). by split_and!.
      * intros _ s' C Z D W1 W2 I. split; [|done]. by apply (good_set t s).
    + apply wp_set_time_invalid; [done..|]. by apply (Hret EFI_SUCCESS).
  - apply wp_ret. by apply (Hret EFI_SUCCESS).
  - specialize (Hc t eq_refl). apply wp_bind, wp_get_wakeup; [apply G..|by apply Hns| |].
    + intros _ s' D. by apply wp_ret, (Hret EFI_SUCCESS), done_unchanged.
    + intros _ st t' s' (_ & _ & _ & _ & C) Z D [V1 W1] I _ _ _. apply wp_ret. split.
      * apply (good_after [] s s' G); try done; [unfold saved_ok; rewrite Z, D; apply G|]. unfold vars_ok. rewrite V1, W1. apply G.
      * intros _. unfold clock, clock_as, raw_time, cell. rewrite Z, D, C. done.
  - apply wp_bind, wp_ret, wp_ret. by apply (Hret EFI_SUCCESS).
  - apply wp_set_wakeup; [apply G..|exact Hc| | |].
    + intros st s' _ U. by apply (Hret EFI_SUCCESS).
    + intros t' s' _ U. by apply (Hret EFI_SUCCESS).
    + cbn zeta. intros t' s' Hd C Z D W1 W2 I. split.
      * eapply (good_wake en t' s); try done. intros He. by destruct (wake_decision_valid _ _ _ _ Hc Hd He) as (_ & _ & ? & _).
      * intros _. by destruct (clock_after_wake _ _ _ _ C Z D).
Qed.

Lemma good_hardware s c s' : good s -> hardware s.(hw) c -> s'.(hw) = c ->
  s'.(env) = s.(env) -> s'.(SavedTimeZone) = s.(SavedTimeZone) -> s'.(SavedDaylight) = s.(SavedDaylight) -> idle s' -> good s'.
Proof.
  intros [G1 G2 G3 G4 G5 G6] [Hl Hc] <- He Ez Ed Hi. split; [done| | | | |].
  - intros a. destruct (Hc a) as [-> |(_ & ? & _)]; done.
  - unfold saved_ok. by rewrite Ez, Ed.
  - unfold vars_ok. by rewrite He.
  - unfold inhibited in *. destruct (Hc RTC_ADDRESS_REGISTER_B) as [-> |(_ & _ & Hin)]; [done|].
    exfalso. revert Hin. by_compute.
  - by rewrite Hl.
Qed.

Lemma good_step s s' : good s -> step s s' -> good s'.
Proof.
  intros G Hs. destruct Hs as [c st s s' Hc Hx|s c Hh|s].
  - by destruct (wp_run _ _ _ _ _ (wp_call c s G Hc) Hx).
  - eapply (good_hardware s c); try done. apply G.
  - eapply (good_hardware s s.(hw)); try done. split; [done|by left].
Qed.

Lemma good_steps s s' : good s -> relations.rtc step s s' -> good s'.
Proof. intros G Hs. induction Hs; [done|]. eauto using good_step. Qed.

(** ** Properties *)

(** C20: safety of the driver. From any content of the chip and the variables, [PcRtcInit] returns;
    if it succeeds, then after every sequence of calls with any arguments, of changes that the chip
    makes by itself - power failures, alarms, updates of the time - and of the change to runtime,
    the lock is free, updates are not inhibited, every write that was ever made to a register of the
    time or the alarm was made while updates were inhibited, and every further call returns. *)
Theorem PcRtc_calls_safe (Enabled Pending : bool) (Time : EFI_TIME) s :
  at_boot s -> in_width 32 Time.(Nanosecond) ->
  exists st s1, PcRtcInit Enabled Pending Time s = Some (st, s1) /\
    (st = EFI_SUCCESS -> forall s2, relations.rtc step s1 s2 ->
       (s2.(AtRuntime) = false -> s2.(RtcLock) = false) /\ inhibited s2.(hw) = false /\ safe_log s2.(hw).(log) /\
       forall c, call_wf c -> exists st' s3, exec c s2 = Some (st', s3)).
Proof.
  intros F Hn. apply wp_PcRtcInit; [done..| |].
  - intros s1 _ _. done.
  - intros s1 G _ _ _ s2 Hs. pose proof (good_steps _ _ G Hs) as G2. split_and!; [apply G2..|].
    intros c Hc. destruct (wp_call c s2 G2 Hc) as (st & s3 & Hx & _). by exists st, s3.
Qed.

(** what [PcRtcInit] leaves: if it succeeds, the clock shows the time that the registers showed
    before, read in the format that they had and in the zone of the variable, if that was a time of
    the calendar of the years 1998 to 2099, and the default time otherwise; the alarm is enabled if
    it was; and if it fails the status says so, and the driver is in a state to be initialised. *)
Theorem PcRtcInit_keeps_time (Enabled Pending : bool) (Time : EFI_TIME) s :
  at_boot s -> in_width 32 Time.(Nanosecond) ->
  exists st s1, PcRtcInit Enabled Pending Time s = Some (st, s1) /\
    ((st = EFI_SUCCESS /\ good s1 /\ enabled s1 = enabled s /\
      clock s1 = Some (default (init_time EFI_UNSPECIFIED_TIMEZONE 0) (clock_as (stored_zone s).1 (stored_zone s).2 s))) \/
     (st = EFI_DEVICE_ERROR /\ at_boot s1)).
Proof.
  intros F Hn. apply wp_PcRtcInit; [done..| |].
  - intros s1 F1 _. by right.
  - intros s1 G Hc He. left. by split_and!.
Qed.

(** The states that calls other than [PcRtcSetTime] lead to, with any changes of the chip but updates
    of the time. *)
Inductive quiet : rtc E -> rtc E -> Prop :=
| quiet_refl s : quiet s s
| quiet_call c st s s' s'' : sets_time c = false -> call_wf c -> exec c s = Some (st, s') -> quiet s' s'' -> quiet s s''
| quiet_hardware s c s' : c.(log) = s.(hw).(log) -> c.(cells) = s.(hw).(cells) ->
    quiet {| env := s.(env); hw := c; SavedTimeZone := s.(SavedTimeZone); SavedDaylight := s.(SavedDaylight);
             RtcLock := s.(RtcLock); AtRuntime := s.(AtRuntime) |} s' -> quiet s s'.

Lemma quiet_clock s s' : good s -> quiet s s' -> good s' /\ clock s' = clock s.
Proof.
  intros G Hq. induction Hq as [s|c st s s' s'' Hst Hc Hx Hq IH|s c s' Hl Hc Hq IH]; [done| |].
  - destruct (wp_run _ _ _ _ _ (wp_call c s G Hc) Hx) as [G' Hk]. destruct (IH G') as [G2 ->]. split; [done|]. by apply Hk.
  - destruct IH as [G2 ->].
    + eapply (good_hardware s c); try done; [|apply G]. split; [done|]. intros a. left. by rewrite Hc.
    + split; [done|]. unfold clock, clock_as, raw_time, cell, regs. cbn. by rewrite Hc.
Qed.

(** C24: setting and getting the time. [PcRtcSetTime] returns: it refuses exactly the times that are
    not of the calendar or have a zone or flags that are not allowed, with no effect; if it fails
    otherwise, registers, variables and globals are as before; and if it succeeds, then after any calls
    other than itself - the alarm set, refused or disabled - [PcRtcGetTime] returns the time that was
    set, with no nanoseconds, when the chip is ready, and a device error when it is not. *)
Theorem PcRtcSetTime_PcRtcGetTime (t : EFI_TIME) s :
  good s -> time_wf t ->
  exists st s1, PcRtcSetTime (Some t) s = Some (st, s1) /\
    (~ valid t <-> st = EFI_INVALID_PARAMETER /\ s1 = s) /\
    (EFI_ERROR st = true -> unchanged s s1) /\
    (st = EFI_SUCCESS -> forall s2 t0 cap, quiet s1 s2 -> time_wf t0 ->
       exists t' caps s3, PcRtcGetTime (Some t0) cap s2 =
           Some (if ready s2.(hw) then EFI_SUCCESS else EFI_DEVICE_ERROR, Some t', caps, s3) /\
         (ready s2.(hw) = true -> t' = set_nanosecond 0 t) /\ unchanged s2 s3).
Proof.
  intros G Hwf. destruct (RtcTimeFieldsValid_ok t Hwf) as (st0 & _ & [[_ Hv]|[_ Hv]]); cycle 1.
  { apply wp_set_time_invalid; [done..|]. split; [done|]. split; [|done]. intros _. by split_and!; try apply G. }
  apply wp_set_time; [apply G|done..| |].
  - intros s1 C Z D W I. split; [by split; [intros []|intros []]|]. split; [|done]. intros _. by split_and!; try apply W.
  - intros _ s1 C Z D W1 W2 I. pose proof (good_set _ _ _ G Hwf Hv C Z D W1 W2 I) as G1.
    destruct (clock_after_set _ _ _ Hwf Hv C Z D) as (K1 & _). split; [by split; [intros []|intros []]|]. split; [done|].
    intros _ s2 t0 cap Hq Ht0. destruct (quiet_clock _ _ G1 Hq) as [G2 K2]. rewrite K1 in K2.
    assert (Hwp : wp (PcRtcGetTime (Some t0) cap) (fun r s3 => exists t' caps,
      r = (if ready s2.(hw) then EFI_SUCCESS else EFI_DEVICE_ERROR, Some t', caps) /\
      (ready s2.(hw) = true -> t' = set_nanosecond 0 t) /\ unchanged s2 s3) s2).
    { apply wp_get_clock; [apply G2..|apply Ht0| |].
      - intros t' s3 [Hr|Hr] _ _ Dn; [|congruence]. eexists _, _. rewrite Hr. split; [done|]. split; [done|]. by apply done_unchanged.
      - intros t' s3 Hr Ht' _ _ Dn. eexists _, _. rewrite Hr. split; [done|]. split; [congruence|]. by apply done_unchanged. }
    destruct Hwp as (r & s3 & Hx & t' & caps & -> & Ht' & U). by exists t', caps, s3.
Qed.

Lemma alarm_time_ns n s : alarm_time s n = set_nanosecond n (alarm_time s 0).
Proof. unfold alarm_time. by destruct (stored_alarm (env s)). Qed.

(** setting and getting the wakeup alarm. [PcRtcSetWakeupTime] returns and the clock shows the
    same time. It programs a time exactly when it is a valid one from now to 24 hours from now
    ([wake_decision]: a null pointer or an invalid time is an invalid parameter, a clock that cannot
    be read a device error, another time unsupported) and otherwise has no effect. When it succeeds the
    alarm is enabled as asked, and [PcRtcGetWakeupTime] then returns the time that was set, in the
    zone of the clock - if the century register has its century, which is all that is stored of it. *)
Theorem PcRtcSetWakeupTime_GetWakeupTime (Enable : bool) (Time : option EFI_TIME) s :
  good s -> (forall t, Time = Some t -> time_wf t) ->
  exists st s1, PcRtcSetWakeupTime Enable Time s = Some (st, s1) /\ clock s1 = clock s /\
    match wake_decision s Enable Time with
    | inl st' => st = st' /\ unchanged s s1
    | inr t =>
        (st = EFI_DEVICE_ERROR /\ unchanged s s1) \/
        (st = EFI_SUCCESS /\ enabled s1 = Enable /\
         (Enable = true -> Time = Some t /\ valid t /\
            (s.(hw).(cells) RTC_ADDRESS_CENTURY = century t -> ready s1.(hw) = true -> forall e p t0, time_wf t0 ->
               exists s2, PcRtcGetWakeupTime (Some (e, p, t0)) s1 =
                 Some (EFI_SUCCESS, Some (true, s1.(hw).(alarm), set_nanosecond 0 (set_zone s.(SavedTimeZone) s.(SavedDaylight) t)), s2))))
    end.
Proof.
  intros G Hc. apply wp_set_wakeup; [apply G..|exact Hc| | |].
  - intros st s1 -> U. split; [by apply unchanged_clock|done].
  - intros t s1 -> U. split; [by apply unchanged_clock|]. by left.
  - cbn zeta. intros t s1 Hd C Z D W1 W2 I. rewrite Hd. destruct (clock_after_wake _ _ _ _ C Z D) as [K1 E1]. split; [done|]. right.
    split_and!; [done..|]. intros He. destruct (wake_decision_valid _ _ _ _ Hc Hd He) as (-> & Hwf & Hv & n & Hr & Hn & _).
    split_and!; [done..|]. intros Hcen Hr1 e p t0 Ht0.
    assert (G1 : good s1).
    { eapply (good_wake Enable t s); done. }
    rewrite He in C, W2.
    assert (Hz : zone_ok (set_zone s.(SavedTimeZone) s.(SavedDaylight) t)).
    { destruct (clock_valid s n) as (_ & (_ & _ & _ & Hzn) & _ & <- & <-); [apply G..|done|].
      exact Hzn. }
    pose proof (wakeup_after_wake _ _ _ Hwf Hv Hz (good_saved _ G) Hcen C Z D W2) as Hw.
    assert (Hwp : wp (PcRtcGetWakeupTime (Some (e, p, t0))) (fun r s2 => r =
      (EFI_SUCCESS, Some (true, s1.(hw).(alarm), set_nanosecond 0 (set_zone s.(SavedTimeZone) s.(SavedDaylight) t)))) s1).
    { apply wp_get_wakeup; [apply G1..|apply Ht0| |].
      - congruence.
      - intros _ st t' s2 _ _ _ _ _ Ht' _ _. rewrite alarm_time_ns in Ht'. unfold wakeup in Hw.
        rewrite <- (as_time_ns t0.(Nanosecond)), (as_time_ok _ _ _ Ht') in Hw. destruct (EFI_ERROR st); [done|]. injection Hw as ->.
        do 3 f_equal. unfold enabled in E1. by rewrite E1, He. }
    destruct Hwp as (r & s2 & Hx & ->). by exists s2.
Qed.

(** the wait for the end of an update always returns: the status is success exactly when the
    chip has power and one of the first [Timeout / 10 + 1] readings of the flag finds no update in
    progress - one more reading is made, which does not count - and nothing is written. *)
Theorem RtcWaitToUpdate_returns (c : chip) :
  exists c', RtcWaitToUpdate PcdRealTimeClockUpdateTimeout c =
      Some (if c.(power) && existsb (fun j => negb (c.(busy) (c.(now) + j)%nat)) (seq 0 (Z.to_nat (u32 (PcdRealTimeClockUpdateTimeout / 10 + 1))))
            then EFI_SUCCESS else EFI_DEVICE_ERROR, c') /\
    c'.(cells) = c.(cells) /\ c'.(log) = c.(log) /\ c'.(alarm) = c.(alarm).
Proof.
  assert (Hwp : wp (RtcWaitToUpdate PcdRealTimeClockUpdateTimeout) (fun st c' =>
    st = (if ready c then EFI_SUCCESS else EFI_DEVICE_ERROR) /\ same_chip c c') c) by (by apply wp_wait_chip).
  destruct Hwp as (st & c' & Hx & -> & (_ & _ & Ha & Hr)). exists c'. split; [exact Hx|]. unfold regs in Hr. by injection Hr as -> ->.
Qed.
End Theorems.

(** ** An instance

    The bits of the chip that PC clocks have, variables that always work, a chip in BCD and 24-hour
    mode. *)

#[local] Instance pc_header : PcRtcHeader := {
  Uip := 7; Vrt := 7; Af := 5; Dm := 2; Mil := 1; Aie := 5; SetBit := 7;
  RTC_INIT_REGISTER_A := 0x26; RTC_INIT_REGISTER_B := 0x02; RTC_INIT_REGISTER_D := 0;
  RTC_INIT_SECOND := 0; RTC_INIT_MINUTE := 0; RTC_INIT_HOUR := 0; RTC_INIT_DAY := 1; RTC_INIT_MONTH := 1; RTC_INIT_YEAR := 2001;
  EFI_UNSPECIFIED_TIMEZONE := 0x7ff; EFI_TIME_ADJUST_DAYLIGHT := 1; EFI_TIME_IN_DAYLIGHT := 2;
  DecimalToBcd8 := fun v => if v <? 100 then Some (16 * (v / 10) + v mod 10) else None;
  BcdToDecimal8 := fun v => if (v <? 0xa0) && (v mod 16 <? 10) then Some (10 * (v / 16) + v mod 16) else None;
  PcdRealTimeClockUpdateTimeout := 100
}.

#[local] Instance pc_header_ok : PcRtcHeaderOk pc_header.
Proof.
  split.
  - intros v Hv. cbn. by destruct (Z.ltb_spec v 100); [|lia].
  - intros v Hv Hm. cbn. destruct (Z.ltb_spec v 0xa0); [|lia]. by destruct (Z.ltb_spec (v mod 16) 10); [|lia].
  - by_compute.
  - repeat (apply Forall_cons; split; [cbn; lia|]). by apply Forall_nil.
Qed.

#[local] Instance pc_init_ok : PcRtcInitOk pc_header.
Proof. split; by_compute || reflexivity. Qed.

Definition variables : Type := option Z * option EFI_TIME.

#[local] Instance pc_variables : RtcVariables variables := {
  GetRTC := fun e => Some (match e.1 with Some v => (EFI_SUCCESS, v) | None => (EFI_NOT_FOUND, 0) end, e);
  SetRTC := fun v e => Some (EFI_SUCCESS, (Some v, e.2));
  GetRTCALARM := fun e => Some (match e.2 with Some v => (EFI_SUCCESS, v) | None => (EFI_NOT_FOUND, zero_time) end, e);
  SetRTCALARM := fun v e => Some (EFI_SUCCESS, (e.1, Some v))
}.

#[local] Instance pc_variables_ok : RtcVariablesOk variables.
Proof.
  apply (Build_RtcVariablesOk variables _ fst snd).
  - intros Q [[v|] a] HQ; eexists _, _; (split; [reflexivity|]); by apply HQ.
  - intros x Q e _ HQ. eexists _, _. split; [reflexivity|]. by apply HQ.
  - intros Q [r [v|]] HQ; eexists _, _; (split; [reflexivity|]); by apply HQ.
  - intros x Q e _ HQ. eexists _, _. split; [reflexivity|]. by apply HQ.
Defined.

(** The clock shows 18 June 2015, 09:30:00; [B] is register B. *)
Definition sample_chip (B : Z) : chip :=
  {| latch := 0;
     cells := fun a => if a =? RTC_ADDRESS_REGISTER_B then B else if a =? RTC_ADDRESS_CENTURY then 0x20
                       else if a =? RTC_ADDRESS_YEAR then 0x15 else if a =? RTC_ADDRESS_MONTH then 6
                       else if a =? RTC_ADDRESS_DAY_OF_THE_MONTH then 0x18 else if a =? RTC_ADDRESS_HOURS then 9
                       else if a =? RTC_ADDRESS_MINUTES then 0x30 else 0;
     busy := fun n => Nat.even n; now := 0; power := true; alarm := false; log := [] |}.

Definition sample (B : Z) : rtc variables :=
  {| env := (None, None); hw := sample_chip B; SavedTimeZone := 60; SavedDaylight := 1; RtcLock := false; AtRuntime := false |}.

Definition sample_time : EFI_TIME :=
  {| Year := 2015; Month := 6; Day := 19; Hour := 8; Minute := 15; Second := 30; Nanosecond := 5; TimeZone := -120; Daylight := 1 |}.

Lemma sample_at_boot B : in_width 8 B -> at_boot (sample B).
Proof.
  intros HB. split; [done| | | |by apply Forall_nil].
  - intros a. cbn. repeat case_match; done || by vm_compute.
  - split; by_compute.
  - by split; intros.
Qed.

Lemma sample_good : good (sample 2).
Proof. destruct (sample_at_boot 2) as [B1 B2 B3 B4 B5]; [by vm_compute|]. by split. Qed.

Lemma sample_time_wf : time_wf sample_time.
Proof. by_compute. Qed.

Lemma sample_time_valid : valid sample_time.
Proof. split; [by_compute|]. split; [by_compute|]. split; [by_compute|]. split; [right; by_compute|by_compute]. Qed.

(** ** Witnesses *)

Lemma PcRtc_calls_safe_witness :
  at_boot (sample 0x80) /\
  exists st s1, PcRtcInit true false zero_time (sample 0x80) = Some (st, s1) /\
    (st = EFI_SUCCESS -> forall s2, relations.rtc step s1 s2 ->
       (s2.(AtRuntime) = false -> s2.(RtcLock) = false) /\ inhibited s2.(hw) = false /\ safe_log s2.(hw).(log) /\
       forall c, call_wf c -> exists st' s3, exec c s2 = Some (st', s3)).
Proof.
  assert (HB : at_boot (sample 0x80)) by (apply sample_at_boot; by_compute).
  split; [exact HB|]. apply (PcRtc_calls_safe true false zero_time (sample 0x80)); [exact HB|by_compute].
Defined.

(** What the registers of [sample] are in binary mode. *)
Definition sample_binary : EFI_TIME :=
  {| Year := 2021; Month := 6; Day := 24; Hour := 9; Minute := 48; Second := 0; Nanosecond := 0;
     TimeZone := EFI_UNSPECIFIED_TIMEZONE; Daylight := 0 |}.

Lemma PcRtcInit_keeps_time_witness :
  option_map fst (PcRtcInit true false zero_time (sample 6)) = Some EFI_SUCCESS /\
  exists st s1, PcRtcInit true false zero_time (sample 6) = Some (st, s1) /\
    ((st = EFI_SUCCESS /\ good s1 /\ enabled s1 = false /\ clock s1 = Some sample_binary) \/
     (st = EFI_DEVICE_ERROR /\ at_boot s1)).
Proof.
  split; [vm_compute; reflexivity|].
  destruct (PcRtcInit_keeps_time true false zero_time (sample 6)) as (st & s1 & Hr & Hs); [apply sample_at_boot; by_compute|by_compute|].
  exists st, s1. split; [exact Hr|]. destruct Hs as [(A & B & C & D)|?]; [left|by right].
  split; [exact A|]. split; [exact B|]. split; [rewrite C; reflexivity|]. rewrite D. vm_compute. reflexivity.
Defined.

Lemma PcRtcSetTime_PcRtcGetTime_witness :
  option_map fst (PcRtcSetTime (Some sample_time) (sample 2)) = Some EFI_SUCCESS /\
  exists st s1, PcRtcSetTime (Some sample_time) (sample 2) = Some (st, s1) /\
    (st = EFI_SUCCESS -> exists t' caps s3, PcRtcGetTime (Some zero_time) true s1 =
           Some (if ready s1.(hw) then EFI_SUCCESS else EFI_DEVICE_ERROR, Some t', caps, s3) /\
         (ready s1.(hw) = true -> t' = set_nanosecond 0 sample_time) /\ unchanged s1 s3).
Proof.
  split; [vm_compute; reflexivity|].
  destruct (PcRtcSetTime_PcRtcGetTime sample_time (sample 2) sample_good sample_time_wf) as (st & s1 & Hr & _ & _ & Hs).
  exists st, s1. split; [exact Hr|]. intros Hst. apply (Hs Hst s1 zero_time true); [apply quiet_refl|by_compute].
Defined.

Lemma PcRtcSetWakeupTime_GetWakeupTime_witness :
  option_map fst (PcRtcSetWakeupTime true (Some sample_time) (sample 2)) = Some EFI_SUCCESS /\
  exists st s1, PcRtcSetWakeupTime true (Some sample_time) (sample 2) = Some (st, s1) /\ clock s1 = clock (sample 2) /\
    ((st = EFI_DEVICE_ERROR /\ unchanged (sample 2) s1) \/
     (st = EFI_SUCCESS /\ enabled s1 = true /\
        (ready s1.(hw) = true -> exists s2, PcRtcGetWakeupTime (Some (false, false, zero_time)) s1 =
             Some (EFI_SUCCESS, Some (true, s1.(hw).(alarm), set_nanosecond 0 (set_zone 60 1 sample_time)), s2)))).
Proof.
  split; [vm_compute; reflexivity|].
  assert (Hw : forall t, Some sample_time = Some t -> time_wf t) by (intros t [= <-]; exact sample_time_wf).
  destruct (PcRtcSetWakeupTime_GetWakeupTime true (Some sample_time) (sample 2) sample_good Hw) as (st & s1 & Hr & Hk & Hd).
  assert (E : wake_decision (sample 2) true (Some sample_time) = inr sample_time) by (vm_compute; reflexivity).
  rewrite E in Hd. exists st, s1. split; [exact Hr|]. split; [exact Hk|]. destruct Hd as [?|(A & B & C)]; [by left|right].
  split; [exact A|]. split; [exact B|]. intros Hrd. destruct (C eq_refl) as (_ & _ & C').
  apply (C' ltac:(vm_compute; reflexivity) Hrd false false zero_time). by_compute.
Defined.

Lemma RtcWaitToUpdate_returns_witness :
  exists c', RtcWaitToUpdate PcdRealTimeClockUpdateTimeout (sample_chip 2) = Some (EFI_SUCCESS, c') /\
    c'.(cells) = (sample_chip 2).(cells) /\ c'.(log) = [] /\ c'.(alarm) = false.
Proof. exact (RtcWaitToUpdate_returns (sample_chip 2)). Defined.

Lemma IsWithinOneDay_exact_witness :
  IsWithinOneDay (set_hour 7 sample_time) sample_time = Some true.
Proof.
  rewrite (IsWithinOneDay_exact (set_hour 7 sample_time) sample_time); [reflexivity|by_compute|by_compute].
Defined.

Lemma rtc_format_roundtrip_witness :
  exists r c, ConvertEfiTimeToRtcTime sample_time 0 = Some (r, c) /\
    Forall (in_width 8) [r.(Year); r.(Month); r.(Day); r.(Hour); r.(Minute); r.(Second); c] /\
    ConvertRtcTimeToEfiTime (set_nanosecond 7 r) c 0 = Some (EFI_SUCCESS, set_nanosecond 0 sample_time).
Proof. apply (rtc_format_roundtrip sample_time 0 7); by_compute. Defined.
