(* ===== verification/LockBoxDefs.v ===== *)
(** * The SMM lock box driver: definitions

    Models [MdeModulePkg/Universal/LockBox/SmmLockBox/SmmLockBox.c] (the platform's copy): the handler
    that takes requests from outside SMM in a communication buffer, checks them and passes them to the
    lock box library. The library, the layout of the requests and the codes come from outside the
    repository: [LockBoxLib] and [SmmLockBoxHeader]. *)

From S2P Require Import Prelude QNCAccess Smram.
#[local] Open Scope Z_scope.

(** ** Memory *)

(** The bytes of memory by address, and little-endian values in it. *)
Abbreviation memory := (Z -> Z).

Fixpoint load (n : nat) (m : memory) (a : Z) : Z :=
  match n with O => 0 | S n => u8 (m a) + 256 * load n m (a + 1) end.
Definition store (n : Z) (a v : Z) (m : memory) : memory :=
  fun x => if (a <=? x) && (x <? a + n) then u8 (Z.shiftr v (8 * (x - a))) else m x.

(** ** The headers *)

(** Sizes, and offsets of the fields, of the structures in the communication buffer. *)
Class SmmLockBoxHeader := {
  sizeof_HEADER : Z; sizeof_SAVE : Z; sizeof_SET_ATTRIBUTES : Z; sizeof_UPDATE : Z; sizeof_RESTORE : Z;
  sizeof_RESTORE_ALL_IN_PLACE : Z;
  offset_Command : Z; offset_ReturnStatus : Z;
  Save_Guid : Z; Save_Buffer : Z; Save_Length : Z;
  SetAttributes_Guid : Z; SetAttributes_Attributes : Z;
  Update_Guid : Z; Update_Offset : Z; Update_Buffer : Z; Update_Length : Z;
  Restore_Guid : Z; Restore_Buffer : Z; Restore_Length : Z;
  EFI_SMM_LOCK_BOX_COMMAND_SAVE : Z; EFI_SMM_LOCK_BOX_COMMAND_UPDATE : Z; EFI_SMM_LOCK_BOX_COMMAND_RESTORE : Z;
  EFI_SMM_LOCK_BOX_COMMAND_SET_ATTRIBUTES : Z; EFI_SMM_LOCK_BOX_COMMAND_RESTORE_ALL_IN_PLACE : Z;
  (* UefiBaseType.h and ProcessorBind.h: the codes of the statuses, and the highest address *)
  status_code : EFI_STATUS -> Z;
  MAX_ADDRESS : Z
}.

(** [LockBoxLib.h]: functions on memory and the library's own state, which is of type [B]. A GUID is
    the value of its 16 bytes. [RestoreLockBox] gets the buffer and the length, or NULL for both. *)
Class LockBoxLib (B : Type) := {
  SaveLockBox (Guid Buffer Length : Z) : M (memory * B) EFI_STATUS;
  SetLockBoxAttributes (Guid Attributes : Z) : M (memory * B) EFI_STATUS;
  UpdateLockBox (Guid Offset Buffer Length : Z) : M (memory * B) EFI_STATUS;
  RestoreLockBox (Guid : Z) (BufferLength : option (Z * Z)) : M (memory * B) EFI_STATUS;
  RestoreAllLockBoxInPlace : M (memory * B) EFI_STATUS
}.

(** The SMM access protocol, as the entry point uses it: the caller's size and buffer; the status,
    the size it is set to and the buffer afterwards. *)
Class SmmAccess2 (D : Type) := {
  SmmAccess_GetCapabilities (Size : Z) (Map : list Z) : M D (EFI_STATUS * Z * list Z)
}.

(** The fields of a descriptor at the start of some bytes. *)
Class DescriptorLayout := { descriptor_at : list Z -> EFI_SMRAM_DESCRIPTOR }.

(** The state: memory, the library's state and the module's globals. *)
Record lockbox (B : Type) := {
  mem : memory;
  boxes : B;
  mLocked : bool;
  mSmramRanges : list EFI_SMRAM_DESCRIPTOR;
  mSmramRangeCount : Z
}.
Arguments mem {B} _.
Arguments boxes {B} _.
Arguments mLocked {B} _.
Arguments mSmramRanges {B} _.
Arguments mSmramRangeCount {B} _.

Section LockBox.
Context {HL : SmmLockBoxHeader} {B : Type} {L : LockBoxLib B}.

Definition set_mem (m : memory) (s : lockbox B) : lockbox B :=
  {| mem := m; boxes := s.(boxes); mLocked := s.(mLocked); mSmramRanges := s.(mSmramRanges);
     mSmramRangeCount := s.(mSmramRangeCount) |}.
Definition on_lib {A} (f : M (memory * B) A) : M (lockbox B) A := fun s =>
  match f (s.(mem), s.(boxes)) with
  | Some (a, (m, b)) => Some (a, {| mem := m; boxes := b; mLocked := s.(mLocked); mSmramRanges := s.(mSmramRanges);
                                    mSmramRangeCount := s.(mSmramRangeCount) |})
  | None => None
  end.

Definition load_ (n : nat) (a : Z) : M (lockbox B) Z := gets (fun s => load n s.(mem) a).
Definition store_ (n : Z) (a v : Z) : M (lockbox B) unit := modify (fun s => set_mem (store n a v s.(mem)) s).

(** ** Checks *)

(** The loop over the ranges from [Index] on, [n] of which are left; it reads the array. *)
Fixpoint smram_loop (n Index : nat) (Ranges : list EFI_SMRAM_DESCRIPTOR) (Buffer Length : Z) : option bool :=
  match n with
  | O => Some false
  | S n =>
      r ← Ranges !! Index;
      if ((r.(CpuStart) <=? Buffer) && (Buffer <? u64 (r.(CpuStart) + r.(PhysicalSize)))) ||
         ((Buffer <=? r.(CpuStart)) && (r.(CpuStart) <? u64 (Buffer + Length)))
      then Some true
      else smram_loop n (S Index) Ranges Buffer Length
  end.

Definition IsAddressInSmram (Buffer Length : Z) : M (lockbox B) bool :=
  s ← get;
  lift (smram_loop (Z.to_nat s.(mSmramRangeCount)) 0 s.(mSmramRanges) Buffer Length).

(** [Buffer] and [Length] are of type [UINTN]. *)
Definition IsAddressValid (Buffer Length : Z) : M (lockbox B) bool :=
  if Buffer >? u32 (MAX_ADDRESS - Length) then mret false
  else b ← IsAddressInSmram Buffer Length; mret (negb b).

(** ** The commands; [P] is the address of the parameter structure *)

(** [Header.ReturnStatus]. *)
Definition set_ReturnStatus (P v : Z) : M (lockbox B) unit := store_ 8 (P + offset_ReturnStatus) v.

Definition SmmLockBoxSave (P : Z) : M (lockbox B) unit :=
  s ← get;
  if s.(mLocked) then set_ReturnStatus P (status_code EFI_ACCESS_DENIED) else
  Guid ← load_ 16 (P + Save_Guid);
  Buffer ← load_ 8 (P + Save_Buffer);
  Length ← load_ 8 (P + Save_Length);
  v ← IsAddressValid (u32 Buffer) (u32 Length);
  if negb v then set_ReturnStatus P (status_code EFI_ACCESS_DENIED) else
  Status ← on_lib (SaveLockBox Guid (u32 Buffer) (u32 Length));
  set_ReturnStatus P (status_code Status).

Definition SmmLockBoxSetAttributes (P : Z) : M (lockbox B) unit :=
  s ← get;
  if s.(mLocked) then set_ReturnStatus P (status_code EFI_ACCESS_DENIED) else
  Guid ← load_ 16 (P + SetAttributes_Guid);
  Attributes ← load_ 8 (P + SetAttributes_Attributes);
  Status ← on_lib (SetLockBoxAttributes Guid Attributes);
  set_ReturnStatus P (status_code Status).

Definition SmmLockBoxUpdate (P : Z) : M (lockbox B) unit :=
  s ← get;
  if s.(mLocked) then set_ReturnStatus P (status_code EFI_ACCESS_DENIED) else
  Guid ← load_ 16 (P + Update_Guid);
  Offset ← load_ 8 (P + Update_Offset);
  Buffer ← load_ 8 (P + Update_Buffer);
  Length ← load_ 8 (P + Update_Length);
  v ← IsAddressValid (u32 Buffer) (u32 Length);
  if negb v then set_ReturnStatus P (status_code EFI_ACCESS_DENIED) else
  Status ← on_lib (UpdateLockBox Guid (u32 Offset) (u32 Buffer) (u32 Length));
  set_ReturnStatus P (status_code Status).

(** The library reads the length through a pointer to a [UINTN]: the low half of the field. *)
Definition SmmLockBoxRestore (P : Z) : M (lockbox B) unit :=
  Guid ← load_ 16 (P + Restore_Guid);
  Buffer ← load_ 8 (P + Restore_Buffer);
  Length ← load_ 8 (P + Restore_Length);
  v ← IsAddressValid (u32 Buffer) (u32 Length);
  if negb v then set_ReturnStatus P (status_code EFI_ACCESS_DENIED) else
  Status ← on_lib (RestoreLockBox Guid (if (Length =? 0) && (Buffer =? 0) then None else Some (u32 Buffer, u32 Length)));
  set_ReturnStatus P (status_code Status).

Definition SmmLockBoxRestoreAllInPlace (P : Z) : M (lockbox B) unit :=
  Status ← on_lib RestoreAllLockBoxInPlace;
  set_ReturnStatus P (status_code Status).

(** ** The handler *)

Definition dispatch (Command P TempCommBufferSize : Z) : M (lockbox B) unit :=
  if Command =? EFI_SMM_LOCK_BOX_COMMAND_SAVE then
    if TempCommBufferSize <? sizeof_SAVE then mret tt else SmmLockBoxSave P
  else if Command =? EFI_SMM_LOCK_BOX_COMMAND_UPDATE then
    if TempCommBufferSize <? sizeof_UPDATE then mret tt else SmmLockBoxUpdate P
  else if Command =? EFI_SMM_LOCK_BOX_COMMAND_RESTORE then
    if TempCommBufferSize <? sizeof_RESTORE then mret tt else SmmLockBoxRestore P
  else if Command =? EFI_SMM_LOCK_BOX_COMMAND_SET_ATTRIBUTES then
    if TempCommBufferSize <? sizeof_SET_ATTRIBUTES then mret tt else SmmLockBoxSetAttributes P
  else if Command =? EFI_SMM_LOCK_BOX_COMMAND_RESTORE_ALL_IN_PLACE then
    if TempCommBufferSize <? sizeof_RESTORE_ALL_IN_PLACE then mret tt else SmmLockBoxRestoreAllInPlace P
  else mret tt.

(** [CommBuffer] is the address, 0 for NULL; [CommBufferSize] what the pointer points to. *)
Definition SmmLockBoxHandler (CommBuffer : Z) (CommBufferSize : option Z) : M (lockbox B) EFI_STATUS :=
  match CommBufferSize with
  | None => mret EFI_SUCCESS
  | Some TempCommBufferSize =>
      if CommBuffer =? 0 then mret EFI_SUCCESS else
      if TempCommBufferSize <? sizeof_HEADER then mret EFI_SUCCESS else
      v ← IsAddressValid CommBuffer TempCommBufferSize;
      if negb v then mret EFI_SUCCESS else
      _ ← set_ReturnStatus CommBuffer (u64 (-1));
      Command ← load_ 4 (CommBuffer + offset_Command);
      _ ← dispatch Command CommBuffer TempCommBufferSize;
      _ ← store_ 4 (CommBuffer + offset_Command) (u32 (-1));
      mret EFI_SUCCESS
  end.

Definition SmmReadyToLockEventNotify : M (lockbox B) EFI_STATUS :=
  _ ← modify (fun s => {| mem := s.(mem); boxes := s.(boxes); mLocked := true; mSmramRanges := s.(mSmramRanges);
                          mSmramRangeCount := s.(mSmramRangeCount) |});
  mret EFI_SUCCESS.
End LockBox.

(** ** The entry point *)

Section EntryPoint.
Context {HS : SmramHeader} {DL : DescriptorLayout} {B D : Type} {A : SmmAccess2 D}.

Definition on_access {T} (f : M D T) : M (D * lockbox B) T := fun s =>
  match f s.1 with Some (a, d) => Some (a, (d, s.2)) | None => None end.

Definition ASSERT_EFI_ERROR {S} (Status : EFI_STATUS) : M S unit := ASSERT (negb (EFI_ERROR Status)).

(** Memory as an array of descriptors. *)
Fixpoint array (n : nat) (bytes : list Z) : list EFI_SMRAM_DESCRIPTOR :=
  match n with
  | O => []
  | S n => descriptor_at bytes :: array n (drop (Z.to_nat sizeof_EFI_SMRAM_DESCRIPTOR) bytes)
  end.

(** The statuses of the services that it calls, and the contents of the memory that it is given. *)
Definition SmmLockBoxEntryPoint (LocateStatus AllocateStatus HandlerStatus NotifyStatus InstallStatus : EFI_STATUS) (Pool : Z -> list Z) :
    M (D * lockbox B) EFI_STATUS :=
  _ ← ASSERT_EFI_ERROR LocateStatus;
  '(Status, Size, _) ← on_access (SmmAccess_GetCapabilities 0 []);
  _ ← ASSERT (bool_decide (Status = EFI_BUFFER_TOO_SMALL));
  _ ← ASSERT_EFI_ERROR AllocateStatus;
  '(Status, Size, Ranges) ← on_access (SmmAccess_GetCapabilities Size (Pool Size));
  _ ← ASSERT_EFI_ERROR Status;
  _ ← modify (fun s => (s.1, {| mem := s.2.(mem); boxes := s.2.(boxes); mLocked := s.2.(mLocked);
                                mSmramRanges := array (length Ranges / Z.to_nat sizeof_EFI_SMRAM_DESCRIPTOR) Ranges;
                                mSmramRangeCount := Size / sizeof_EFI_SMRAM_DESCRIPTOR |}));
  _ ← ASSERT_EFI_ERROR HandlerStatus;
  _ ← ASSERT_EFI_ERROR NotifyStatus;
  _ ← ASSERT_EFI_ERROR InstallStatus;
  mret InstallStatus.
End EntryPoint.
