(* ===== verification/LockBoxSpec.v ===== *)
(** * The SMM lock box driver: rules

    What the library and the headers promise, which addresses the checks let pass, and the effect of
    a request on memory and on the boxes. *)

From S2P Require Import Prelude QNCAccess Smram LockBoxDefs.
From stdpp Require Import list.
#[local] Open Scope Z_scope.

(** ** Memory *)

Definition bytes (m : memory) (a : Z) (n : nat) : list Z := (fun i => m (a + Z.of_nat i)) <$> seq 0 n.

(** Two memories agree but on some addresses. *)
Definition agree_but (P : Z -> Prop) (m m' : memory) : Prop := forall x, ~ P x -> m' x = m x.
Definition range (a n x : Z) : Prop := a <= x < a + n.

Lemma agree_but_refl P m : agree_but P m m.
Proof. by intros x _. Qed.

Lemma agree_but_trans P m1 m2 m3 : agree_but P m1 m2 -> agree_but P m2 m3 -> agree_but P m1 m3.
Proof. intros H1 H2 x Hx. by rewrite H2, H1. Qed.

Lemma agree_but_mono (P P' : Z -> Prop) m m' : (forall x, P x -> P' x) -> agree_but P m m' -> agree_but P' m m'.
Proof. intros HP Hm x Hx. apply Hm. auto. Qed.

Lemma store_agree n a v m : agree_but (range a n) m (store n a v m).
Proof.
  intros x Hx. unfold store, range in *. destruct (Z.leb_spec a x); [|done]. by destruct (Z.ltb_spec x (a + n)); [lia|].
Qed.

Lemma load_ext n m m' a : (forall x, range a (Z.of_nat n) x -> m' x = m x) -> load n m' a = load n m a.
Proof.
  revert a. induction n as [|n IH]; intros a Hm; [done|]. cbn [load]. rewrite Hm by (unfold range; lia). f_equal. f_equal.
  apply IH. intros x Hx. apply Hm. unfold range in *. lia.
Qed.

Lemma mem_bytes_ext n m m' a : (forall x, range a (Z.of_nat n) x -> m' x = m x) -> bytes m' a n = bytes m a n.
Proof.
  intros Hm. unfold bytes. apply list_fmap_ext. intros i x Hx. apply lookup_seq in Hx as [-> ?]. apply Hm. unfold range. lia.
Qed.

(** What is stored is what is read. *)
Lemma load_store n a v m : in_width (8 * Z.of_nat n) v -> load n (store (Z.of_nat n) a v m) a = v.
Proof.
  enough (Hgen : forall k j w, in_width (8 * Z.of_nat k) w -> Z.of_nat (j + k) = Z.of_nat n -> w = Z.shiftr v (8 * Z.of_nat j) ->
    load k (store (Z.of_nat n) a v m) (a + Z.of_nat j) = w).
  { intros Hv. specialize (Hgen n 0%nat v Hv). rewrite Z.add_0_r in Hgen. by apply Hgen. }
  induction k as [|k IH]; intros j w Hw Hj E.
  - unfold in_width in Hw. cbn in Hw. cbn [load]. lia.
  - cbn [load]. unfold in_width in Hw. rewrite Nat2Z.inj_succ, Z.mul_succ_r, Z.pow_add_r in Hw by lia.
    replace (a + Z.of_nat j + 1) with (a + Z.of_nat (S j)) by lia.
    rewrite (IH (S j) (w / 256)).
    + unfold store at 1. destruct (Z.leb_spec a (a + Z.of_nat j)); [|lia]. destruct (Z.ltb_spec (a + Z.of_nat j) (a + Z.of_nat n)); [|lia].
      cbn [andb]. replace (a + Z.of_nat j - a) with (Z.of_nat j) by lia. rewrite <- E, wrap_wrap. unfold wrap. change (2 ^ 8) with 256.
      pose proof (Z.div_mod w 256). lia.
    + split; [apply Z.div_pos; lia|]. apply Z.div_lt_upper_bound; [lia|]. change (2 ^ 8) with 256 in Hw. lia.
    + lia.
    + rewrite E. change 256 with (2 ^ 8). rewrite <- Z.shiftr_div_pow2, Z.shiftr_shiftr by lia. f_equal. lia.
Qed.

Lemma load_width n m a : in_width (8 * Z.of_nat n) (load n m a).
Proof.
  revert a. induction n as [|n IH]; intros a; [by vm_compute|]. cbn [load]. specialize (IH (a + 1)). unfold in_width in *.
  rewrite Nat2Z.inj_succ, Z.mul_succ_r, Z.pow_add_r by lia. change (2 ^ 8) with 256. pose proof (wrap_bounds 8 (m a)). lia.
Qed.

(** ** The promises *)

Class SmmLockBoxHeaderOk (HL : SmmLockBoxHeader) : Prop := {
  MAX_ADDRESS_val : MAX_ADDRESS = 2 ^ 32 - 1;
  header_fields : 0 <= offset_Command /\ offset_Command + 4 <= offset_ReturnStatus /\ offset_ReturnStatus + 8 <= sizeof_HEADER;
  header_first : Forall (fun n => sizeof_HEADER <= n)
    [sizeof_SAVE; sizeof_SET_ATTRIBUTES; sizeof_UPDATE; sizeof_RESTORE; sizeof_RESTORE_ALL_IN_PLACE];
  save_fields : Forall (fun f => sizeof_HEADER <= f.1 /\ f.1 + f.2 <= sizeof_SAVE) [(Save_Guid, 16); (Save_Buffer, 8); (Save_Length, 8)];
  update_fields : Forall (fun f => sizeof_HEADER <= f.1 /\ f.1 + f.2 <= sizeof_UPDATE) [(Update_Guid, 16)];
  restore_fields : Forall (fun f => sizeof_HEADER <= f.1 /\ f.1 + f.2 <= sizeof_RESTORE)
    [(Restore_Guid, 16); (Restore_Buffer, 8); (Restore_Length, 8)];
  commands : NoDup [EFI_SMM_LOCK_BOX_COMMAND_SAVE; EFI_SMM_LOCK_BOX_COMMAND_UPDATE; EFI_SMM_LOCK_BOX_COMMAND_RESTORE;
    EFI_SMM_LOCK_BOX_COMMAND_SET_ATTRIBUTES; EFI_SMM_LOCK_BOX_COMMAND_RESTORE_ALL_IN_PLACE];
  status_code_width st : in_width 64 (status_code st);
  status_code_inj st st' : status_code st = status_code st' -> st = st'
}.

(** [contents]: what is in a box; [places]: addresses and lengths from which boxes were saved, to
    which "in place" restores write. Only a restore writes to memory, and only to where it is told. *)
Class LockBoxLibOk (B : Type) {L : LockBoxLib B} := {
  contents : B -> Z -> option (list Z);
  places : B -> list (Z * Z);
  same_boxes (b b' : B) : Prop := (forall g, contents b' g = contents b g) /\ (forall p, p ∈ places b' -> p ∈ places b);
  wp_SaveLockBox g a n (Q : EFI_STATUS -> memory * B -> Prop) m b :
    (forall st b', EFI_ERROR st = true -> same_boxes b b' -> Q st (m, b')) ->
    (forall b', (forall g', contents b' g' = if g' =? g then Some (bytes m a (Z.to_nat n)) else contents b g') ->
       (forall p, p ∈ places b' -> p = (a, n) \/ p ∈ places b) -> Q EFI_SUCCESS (m, b')) ->
    wp (SaveLockBox g a n) Q (m, b);
  wp_SetLockBoxAttributes g attr (Q : EFI_STATUS -> memory * B -> Prop) m b :
    (forall st b', same_boxes b b' -> Q st (m, b')) -> wp (SetLockBoxAttributes g attr) Q (m, b);
  wp_UpdateLockBox g o a n (Q : EFI_STATUS -> memory * B -> Prop) m b :
    (forall st b', (forall g', g' <> g -> contents b' g' = contents b g') -> (forall p, p ∈ places b' -> p ∈ places b) -> Q st (m, b')) ->
    wp (UpdateLockBox g o a n) Q (m, b);
  wp_RestoreLockBox g a n (Q : EFI_STATUS -> memory * B -> Prop) m b :
    (forall st b', EFI_ERROR st = true -> a = 0 \/ contents b g = None \/ (exists d, contents b g = Some d /\ n < Z.of_nat (length d)) ->
       same_boxes b b' -> Q st (m, b')) ->
    (forall d m' b', contents b g = Some d -> Z.of_nat (length d) <= n -> bytes m' a (length d) = d ->
       agree_but (range a (Z.of_nat (length d))) m m' -> same_boxes b b' -> Q EFI_SUCCESS (m', b')) ->
    wp (RestoreLockBox g (Some (a, n))) Q (m, b);
  wp_RestoreLockBox_in_place g (Q : EFI_STATUS -> memory * B -> Prop) m b :
    (forall st m' b', agree_but (fun x => exists p, p ∈ places b /\ range p.1 p.2 x) m m' -> same_boxes b b' -> Q st (m', b')) ->
    wp (RestoreLockBox g None) Q (m, b);
  wp_RestoreAllLockBoxInPlace (Q : EFI_STATUS -> memory * B -> Prop) m b :
    (forall st m' b', agree_but (fun x => exists p, p ∈ places b /\ range p.1 p.2 x) m m' -> same_boxes b b' -> Q st (m', b')) ->
    wp RestoreAllLockBoxInPlace Q (m, b)
}.

Section Spec.
Context {HL : SmmLockBoxHeader} {HLO : SmmLockBoxHeaderOk HL} {B : Type} {L : LockBoxLib B} {LO : LockBoxLibOk B}.
Implicit Types s : lockbox B.

(** ** The checks *)

(** The ranges do not wrap around, and the count is theirs. *)
Definition ranges_ok s : Prop :=
  s.(mSmramRangeCount) = Z.of_nat (length s.(mSmramRanges)) /\
  Forall (fun r => 0 <= r.(CpuStart) /\ 0 < r.(PhysicalSize) /\ r.(CpuStart) + r.(PhysicalSize) < 2 ^ 64) s.(mSmramRanges).

Definition smram s (x : Z) : Prop :=
  exists r, r ∈ s.(mSmramRanges) /\ range r.(CpuStart) r.(PhysicalSize) x.

Lemma smram_loop_spec a n pre l :
  in_width 32 a -> in_width 32 n ->
  Forall (fun r => 0 <= r.(CpuStart) /\ 0 < r.(PhysicalSize) /\ r.(CpuStart) + r.(PhysicalSize) < 2 ^ 64) l ->
  exists b, smram_loop (length l) (length pre) (pre ++ l) a n = Some b /\
    (b = false <-> forall r x, r ∈ l -> range r.(CpuStart) r.(PhysicalSize) x -> x <> a /\ ~ range a n x).
Proof.
  intros Ha Hn. revert pre. induction l as [|r l IH]; intros pre Hl.
  - exists false. split; [done|]. split; [|done]. intros _ r x Hr. by apply elem_of_nil in Hr.
  - apply Forall_cons in Hl as [(H1 & H2 & H3) Hl]. cbn [length smram_loop]. rewrite list_lookup_middle by done. rewrite some_bind.
    unfold in_width in *. rewrite (wrap_small 64 (CpuStart r + PhysicalSize r)), (wrap_small 64 (a + n)) by lia.
    destruct (_ || _) eqn:Hc.
    + exists true. split; [done|]. split; [done|]. intros Hout. exfalso.
      apply orb_true_iff in Hc as [Hc|Hc]; apply andb_true_iff in Hc as [Hc1 Hc2]; apply Z.leb_le in Hc1; apply Z.ltb_lt in Hc2.
      * destruct (Hout r a); [by left|unfold range; lia|done].
      * destruct (Hout r r.(CpuStart)) as [_ Hr]; [by left|unfold range; lia|]. apply Hr. unfold range. lia.
    + destruct (IH (pre ++ [r]) Hl) as (b & Hb & Hiff). rewrite length_app, Nat.add_1_r, <- app_assoc in Hb. exists b. split; [exact Hb|].
      rewrite Hiff. clear Hiff Hb IH. apply orb_false_iff in Hc as [Hc1 Hc2]. apply andb_false_iff in Hc1, Hc2.
      rewrite Z.leb_gt, Z.ltb_ge in Hc1, Hc2. split; intros Hout r' x Hr Hx.
      * apply elem_of_cons in Hr as [-> |Hr]; [|by apply (Hout r')]. unfold range in *. lia.
      * apply (Hout r'); [by right|done].
Qed.

(** An address range passes when it does not reach the end of the address space and neither its
    start nor any address in it is in SMRAM. *)
Definition acceptable s (a n : Z) : Prop := a + n <= MAX_ADDRESS /\ forall x, smram s x -> x <> a /\ ~ range a n x.

Lemma IsAddressValid_run s a n :
  ranges_ok s -> in_width 32 a -> in_width 32 n ->
  exists b, IsAddressValid a n s = Some (b, s) /\ (b = true <-> acceptable s a n).
Proof.
  intros [Hc Hr] Ha Hn. unfold IsAddressValid, acceptable. rewrite MAX_ADDRESS_val. unfold in_width in *. rewrite wrap_small by lia.
  destruct (Z.gtb_spec a (2 ^ 32 - 1 - n)).
  { exists false. split; [done|]. split; [done|]. lia. }
  destruct (smram_loop_spec a n [] s.(mSmramRanges)) as (b & Hb & Hiff); [done..|].
  exists (negb b). split.
  - unfold IsAddressInSmram, mbind, M_bind, get, lift. rewrite Hc, Nat2Z.id. cbn [app length] in Hb. by rewrite Hb.
  - rewrite negb_true_iff, Hiff. split.
    + intros Hout. split; [lia|]. intros x (r & Hin & Hx). by apply (Hout r).
    + intros [_ Hout] r x Hin Hx. apply Hout. by exists r.
Qed.

Lemma wp_IsAddressValid s a n (Q : bool -> lockbox B -> Prop) :
  ranges_ok s -> in_width 32 a -> in_width 32 n -> (acceptable s a n -> Q true s) -> (~ acceptable s a n -> Q false s) ->
  wp (IsAddressValid a n) Q s.
Proof.
  intros Hr Ha Hn QT QF. destruct (IsAddressValid_run s a n Hr Ha Hn) as (b & Hb & Hiff). exists b, s. split; [done|].
  destruct b; [apply QT; by apply Hiff|]. apply QF. intros Hacc. by apply Hiff in Hacc.
Qed.

(** ** The commands *)

Definition set_boxes (b : B) s : lockbox B :=
  {| mem := s.(mem); boxes := b; mLocked := s.(mLocked); mSmramRanges := s.(mSmramRanges); mSmramRangeCount := s.(mSmramRangeCount) |}.
Definition status_at (P : Z) (st : EFI_STATUS) s : lockbox B :=
  set_mem (store 8 (P + offset_ReturnStatus) (status_code st) s.(mem)) s.

Lemma wp_set_status P st (Q : unit -> lockbox B -> Prop) s :
  Q tt (status_at P st s) -> wp (set_ReturnStatus P (status_code st)) Q s.
Proof. intros HQ. by apply wp_modify. Qed.

Lemma wp_load n a (Q : Z -> lockbox B -> Prop) s : Q (load n s.(mem) a) s -> wp (load_ n a) Q s.
Proof. intros HQ. by eexists _, _. Qed.

Lemma wp_on_lib {A} (f : M (memory * B) A) (Q : A -> lockbox B -> Prop) s :
  wp f (fun x mb => Q x (set_boxes mb.2 (set_mem mb.1 s))) (s.(mem), s.(boxes)) -> wp (on_lib f) Q s.
Proof.
  intros (x & [m b] & Hf & HQ). exists x, (set_boxes b (set_mem m s)). split; [unfold on_lib; by rewrite Hf|done].
Qed.

Lemma u32_width x : in_width 32 (u32 x).
Proof. by apply wrap_in_width. Qed.

Lemma wp_Save P s (Q : unit -> lockbox B -> Prop)
    (g := load 16 s.(mem) (P + Save_Guid)) (a := u32 (load 8 s.(mem) (P + Save_Buffer))) (n := u32 (load 8 s.(mem) (P + Save_Length))) :
  ranges_ok s ->
  (s.(mLocked) = true \/ ~ acceptable s a n -> Q tt (status_at P EFI_ACCESS_DENIED s)) ->
  (s.(mLocked) = false -> acceptable s a n -> forall st b', EFI_ERROR st = true -> same_boxes s.(boxes) b' -> Q tt (status_at P st (set_boxes b' s))) ->
  (s.(mLocked) = false -> acceptable s a n -> forall b',
     (forall g', contents b' g' = if g' =? g then Some (bytes s.(mem) a (Z.to_nat n)) else contents s.(boxes) g') ->
     (forall p, p ∈ places b' -> p = (a, n) \/ p ∈ places s.(boxes)) -> Q tt (status_at P EFI_SUCCESS (set_boxes b' s))) ->
  wp (SmmLockBoxSave P) Q s.
Proof.
  intros Hr QD QE QS. unfold SmmLockBoxSave. apply wp_bind, wp_get. destruct (mLocked s) eqn:Hl; [apply wp_set_status; auto|].
  do 3 apply wp_bind, wp_load. apply wp_bind, wp_IsAddressValid; [done|apply u32_width..| |]; intros Hacc; cbn [negb]; [|apply wp_set_status; auto].
  apply wp_bind, wp_on_lib, wp_SaveLockBox.
  - intros st b' He Hb. apply wp_set_status. by apply QE.
  - intros b' Hc Hp. apply wp_set_status. by apply QS.
Qed.

Lemma wp_SetAttributes P s (Q : unit -> lockbox B -> Prop) :
  (s.(mLocked) = true -> Q tt (status_at P EFI_ACCESS_DENIED s)) ->
  (s.(mLocked) = false -> forall st b', same_boxes s.(boxes) b' -> Q tt (status_at P st (set_boxes b' s))) ->
  wp (SmmLockBoxSetAttributes P) Q s.
Proof.
  intros QD QS. unfold SmmLockBoxSetAttributes. apply wp_bind, wp_get. destruct (mLocked s) eqn:Hl; [by apply wp_set_status, QD|].
  do 2 apply wp_bind, wp_load. apply wp_bind, wp_on_lib, wp_SetLockBoxAttributes. intros st b' Hb. by apply wp_set_status, QS.
Qed.

Lemma wp_Update P s (Q : unit -> lockbox B -> Prop) (g := load 16 s.(mem) (P + Update_Guid)) :
  ranges_ok s ->
  Q tt (status_at P EFI_ACCESS_DENIED s) ->
  (s.(mLocked) = false -> forall st b', (forall g', g' <> g -> contents b' g' = contents s.(boxes) g') ->
     (forall p, p ∈ places b' -> p ∈ places s.(boxes)) -> Q tt (status_at P st (set_boxes b' s))) ->
  wp (SmmLockBoxUpdate P) Q s.
Proof.
  intros Hr QD QS. unfold SmmLockBoxUpdate. apply wp_bind, wp_get. destruct (mLocked s) eqn:Hl; [by apply wp_set_status, QD|].
  do 4 apply wp_bind, wp_load. apply wp_bind, wp_IsAddressValid; [done|apply u32_width..| |]; intros Hacc; cbn [negb]; [|by apply wp_set_status].
  apply wp_bind, wp_on_lib, wp_UpdateLockBox. intros st b' Hc Hp. apply wp_set_status. by apply QS.
Qed.

(** Memory of the places of the boxes. *)
Definition placed s (x : Z) : Prop := exists p, p ∈ places s.(boxes) /\ range p.1 p.2 x.

Lemma wp_Restore P s (Q : unit -> lockbox B -> Prop)
    (g := load 16 s.(mem) (P + Restore_Guid)) (a := u32 (load 8 s.(mem) (P + Restore_Buffer))) (n := u32 (load 8 s.(mem) (P + Restore_Length))) :
  ranges_ok s ->
  (~ acceptable s a n -> Q tt (status_at P EFI_ACCESS_DENIED s)) ->
  (forall st b', acceptable s a n -> EFI_ERROR st = true -> a = 0 \/ contents s.(boxes) g = None \/
      (exists d, contents s.(boxes) g = Some d /\ n < Z.of_nat (length d)) -> same_boxes s.(boxes) b' -> Q tt (status_at P st (set_boxes b' s))) ->
  (forall d m b', acceptable s a n -> contents s.(boxes) g = Some d -> Z.of_nat (length d) <= n -> bytes m a (length d) = d ->
     agree_but (range a n) s.(mem) m -> same_boxes s.(boxes) b' -> Q tt (status_at P EFI_SUCCESS (set_boxes b' (set_mem m s)))) ->
  (forall st m b', acceptable s a n -> a = 0 -> n = 0 -> agree_but (placed s) s.(mem) m -> same_boxes s.(boxes) b' ->
     Q tt (status_at P st (set_boxes b' (set_mem m s)))) ->
  wp (SmmLockBoxRestore P) Q s.
Proof.
  intros Hr QD QE QS QP. unfold SmmLockBoxRestore.
  do 3 apply wp_bind, wp_load. fold g. apply wp_bind, wp_IsAddressValid; [done|apply u32_width..| |]; intros Hacc; cbn [negb]; [|by apply wp_set_status, QD].
  apply wp_bind, wp_on_lib. destruct (_ && _) eqn:Hz.
  - apply andb_true_iff in Hz as [H1 H2]. apply Z.eqb_eq in H1, H2. apply wp_RestoreLockBox_in_place. intros st m b' Hm Hb.
    apply wp_set_status. apply QP; [done|unfold a; by rewrite H2|unfold n; by rewrite H1|done..].
  - apply wp_RestoreLockBox.
    + intros st b' He Hwhy Hb. apply wp_set_status. by apply QE.
    + intros d m b' Hc Hd Hby Hm Hb. apply wp_set_status. apply (QS d); try done. eapply agree_but_mono; [|exact Hm].
      unfold range. fold a n in Hd |- *. lia.
Qed.

Lemma wp_RestoreAll P s (Q : unit -> lockbox B -> Prop) :
  (forall st m b', agree_but (placed s) s.(mem) m -> same_boxes s.(boxes) b' -> Q tt (status_at P st (set_boxes b' (set_mem m s)))) ->
  wp (SmmLockBoxRestoreAllInPlace P) Q s.
Proof.
  intros QP. apply wp_bind, wp_on_lib, wp_RestoreAllLockBoxInPlace. intros st m b' Hm Hb. by apply wp_set_status, QP.
Qed.
End Spec.
