(* ===== verification/LockBoxTheorems.v ===== *)
(** * The SMM lock box driver: the theorems

    Whatever software outside SMM puts into communication buffers: the handler returns, changes no
    byte of SMRAM, and once the platform is ready to lock it changes no box. *)

From S2P Require Import Prelude QNCAccess Smram SmmAccessDxe LockBoxDefs LockBoxSpec.
From stdpp Require relations.
From stdpp Require Import list.
#[local] Open Scope Z_scope.

Section Theorems.
Context {HL : SmmLockBoxHeader} {HLO : SmmLockBoxHeaderOk HL} {B : Type} {L : LockBoxLib B} {LO : LockBoxLibOk B}.
Implicit Types s : lockbox B.

(** ** Confinement *)

(** No box is restored "in place" to SMRAM. *)
Record lb_ok s : Prop := {
  ok_ranges : ranges_ok s;
  ok_places : forall p, p ∈ places s.(boxes) -> forall x, smram s x -> ~ range p.1 p.2 x
}.

(** What a request may do. *)
Record confined s s' : Prop := {
  same_globals : s'.(mLocked) = s.(mLocked) /\ s'.(mSmramRanges) = s.(mSmramRanges) /\ s'.(mSmramRangeCount) = s.(mSmramRangeCount);
  same_smram : forall x, smram s x -> s'.(mem) x = s.(mem) x;
  same_contents : s.(mLocked) = true -> forall g, contents s'.(boxes) g = contents s.(boxes) g;
  new_places : forall p, p ∈ places s'.(boxes) -> p ∈ places s.(boxes) \/ acceptable s p.1 p.2
}.

Lemma confined_smram s s' x : confined s s' -> smram s' x <-> smram s x.
Proof. intros [(_ & Hr & _) _ _ _]. unfold smram. by rewrite Hr. Qed.

Lemma confined_acceptable s s' a n : confined s s' -> acceptable s' a n <-> acceptable s a n.
Proof. intros [(_ & Hr & _) _ _ _]. unfold acceptable, smram. by rewrite Hr. Qed.

Lemma confined_trans s1 s2 s3 : confined s1 s2 -> confined s2 s3 -> confined s1 s3.
Proof.
  intros C1 C2. pose proof C1 as [(G1 & G2 & G3) M1 K1 P1]. pose proof C2 as [(H1 & H2 & H3) M2 K2 P2]. split.
  - split_and!; congruence.
  - intros x Hx. rewrite M2; [by apply M1|]. by apply (confined_smram s1 s2).
  - intros Hl g. rewrite K2 by congruence. by apply K1.
  - intros p Hp. destruct (P2 p Hp) as [Hp2|Hp2]; [by apply P1|]. right. by apply (confined_acceptable s1 s2).
Qed.

Lemma confined_ok s s' : lb_ok s -> confined s s' -> lb_ok s'.
Proof.
  intros [O1 O2] C. pose proof C as [(G1 & G2 & G3) M K P]. split.
  - unfold ranges_ok. by rewrite G2, G3.
  - intros p Hp x Hx. apply (confined_smram s s' x C) in Hx. destruct (P p Hp) as [Hp'|[_ Hp']]; [by apply O2|]. by apply Hp'.
Qed.

(** The library's effect, followed by a write to the communication buffer. *)
Lemma confined_status s P size st b m :
  acceptable s P size -> sizeof_HEADER <= size ->
  (forall x, smram s x -> m x = s.(mem) x) ->
  (s.(mLocked) = true -> forall g, contents b g = contents s.(boxes) g) ->
  (forall p, p ∈ places b -> p ∈ places s.(boxes) \/ acceptable s p.1 p.2) ->
  confined s (status_at P st (set_boxes b (set_mem m s))).
Proof.
  intros [_ Hacc] Hsz Hm Hc Hp. pose proof header_fields as (F1 & F2 & F3). split; [done| |done|done].
  intros x Hx. cbn [status_at set_mem set_boxes mem]. rewrite store_agree; [by apply Hm|]. intros Hr. apply (Hacc x Hx). unfold range in *. lia.
Qed.

Lemma confined_store s P size n a v :
  acceptable s P size -> P <= a -> a + n <= P + size -> confined s (set_mem (store n a v s.(mem)) s).
Proof.
  intros [_ Hacc] H1 H2. split; [done| |done|by left].
  intros x Hx. cbn [set_mem mem]. apply store_agree. intros Hr. apply (Hacc x Hx). unfold range in *. lia.
Qed.

Lemma same_boxes_confined s b : same_boxes s.(boxes) b ->
  (s.(mLocked) = true -> forall g, contents b g = contents s.(boxes) g) /\
  (forall p, p ∈ places b -> p ∈ places s.(boxes) \/ acceptable s p.1 p.2).
Proof. intros [H1 H2]. split; [done|]. auto. Qed.

Lemma placed_outside s m : lb_ok s -> agree_but (placed s) s.(mem) m -> forall x, smram s x -> m x = s.(mem) x.
Proof. intros [_ O] Hm x Hx. apply Hm. intros (p & Hp & Hr). by apply (O p Hp x). Qed.

Lemma wp_dispatch Command P size s :
  lb_ok s -> acceptable s P size -> sizeof_HEADER <= size ->
  wp (dispatch Command P size) (fun _ s' => confined s s') s.
Proof.
  intros O Hacc Hsz. pose proof (ok_ranges _ O) as Hr.
  assert (Hid : confined s s) by (split; [done|done|done|by left]).
  assert (Hst : forall st b, same_boxes s.(boxes) b -> confined s (status_at P st (set_boxes b s))).
  { intros st b Hb. destruct (same_boxes_confined s b Hb). by apply (confined_status s P size st b s.(mem)). }
  assert (Hsame : same_boxes s.(boxes) s.(boxes)) by done.
  unfold dispatch. repeat case_match; try (by apply wp_ret).
  - apply wp_Save; [done|..].
    + intros _. by apply (Hst _ s.(boxes)).
    + intros _ _ st b _ Hb. by apply Hst.
    + intros Hl Ha b Hc Hp. apply (confined_status s P size _ b s.(mem)); try done; [congruence|].
      intros p Hin. destruct (Hp p Hin) as [-> |?]; auto.
  - apply wp_Update; [done|by apply (Hst _ s.(boxes))|]. intros Hl st b _ Hp.
    apply (confined_status s P size _ b s.(mem)); try done; [congruence|auto].
  - apply wp_Restore; [done|..].
    + intros _. by apply (Hst _ s.(boxes)).
    + intros st b _ _ _ Hb. by apply Hst.
    + intros d m b [_ Ha] _ _ _ Hm Hb. destruct (same_boxes_confined s b Hb). apply (confined_status s P size); try done.
      intros x Hx. apply Hm. by apply Ha.
    + intros st m b _ _ _ Hm Hb. destruct (same_boxes_confined s b Hb). apply (confined_status s P size); try done. by apply placed_outside.
  - apply wp_SetAttributes; [intros _; by apply (Hst _ s.(boxes))|]. intros _ st b Hb. by apply Hst.
  - apply wp_RestoreAll. intros st m b Hm Hb. destruct (same_boxes_confined s b Hb). apply (confined_status s P size); try done. by apply placed_outside.
Qed.

Lemma wp_handler CommBuffer CommBufferSize s :
  lb_ok s -> in_width 32 CommBuffer -> (forall n, CommBufferSize = Some n -> in_width 32 n) ->
  wp (SmmLockBoxHandler CommBuffer CommBufferSize) (fun st s' => st = EFI_SUCCESS /\ confined s s') s.
Proof.
  intros O Hc Hn. pose proof header_fields as (F1 & F2 & F3). assert (Hid : confined s s) by (split; [done|done|done|by left]).
  unfold SmmLockBoxHandler. destruct CommBufferSize as [n|]; [|by apply wp_ret]. specialize (Hn n eq_refl).
  destruct (CommBuffer =? 0); [by apply wp_ret|]. destruct (Z.ltb_spec n sizeof_HEADER); [by apply wp_ret|].
  apply wp_bind, wp_IsAddressValid; [apply O|done|done| |]; intros Ha; cbn [negb]; [|by apply wp_ret].
  apply wp_bind. apply wp_modify. set (s1 := set_mem _ s).
  assert (C1 : confined s s1) by (apply (confined_store s CommBuffer n); [done|lia|lia]).
  apply wp_bind, wp_load. apply wp_bind. eapply wp_mono.
  { apply wp_dispatch; [by eapply confined_ok|by apply (confined_acceptable s s1)|done]. }
  intros [] s2 C2. pose proof (confined_trans _ _ _ C1 C2) as C12. apply wp_bind, wp_modify, wp_ret. split; [done|].
  eapply confined_trans; [exact C12|]. apply (confined_store s2 CommBuffer n); [by apply (confined_acceptable s s2)|lia|lia].
Qed.

(** ** Runs *)

(** What happens: requests with any communication buffer, the end of the trusted phase, and software
    outside SMM that writes to its memory. *)
Inductive step : lockbox B -> lockbox B -> Prop :=
| step_smi a n st s s' : in_width 32 a -> (forall k, n = Some k -> in_width 32 k) -> SmmLockBoxHandler a n s = Some (st, s') -> step s s'
| step_lock st s s' : SmmReadyToLockEventNotify s = Some (st, s') -> step s s'
| step_other s m : (forall x, smram s x -> m x = s.(mem) x) -> step s (set_mem m s).

(** A run: [confined] up to the flag. *)
Definition run_ok s s' : Prop :=
  s'.(mSmramRanges) = s.(mSmramRanges) /\ (forall x, smram s x -> s'.(mem) x = s.(mem) x) /\
  (s.(mLocked) = true -> s'.(mLocked) = true /\ forall g, contents s'.(boxes) g = contents s.(boxes) g).

Lemma step_ok s s' : lb_ok s -> step s s' -> lb_ok s' /\ run_ok s s'.
Proof.
  intros O Hs. destruct Hs as [a n st s s' Ha Hn Hx|st s s' Hx|s m Hm].
  - destruct (wp_run _ _ _ _ _ (wp_handler a n s O Ha Hn) Hx) as [_ C]. split; [by eapply confined_ok|].
    destruct C as [(G1 & G2 & G3) M K P]. split; [done|]. split; [done|]. intros Hl. split; [congruence|by apply K].
  - injection Hx as <- <-. destruct O as [O1 O2]. split; [by split|]. by split_and!.
  - destruct O as [O1 O2]. split; [by split|]. by split_and!.
Qed.

Lemma steps_ok s s' : lb_ok s -> relations.rtc step s s' -> lb_ok s' /\ run_ok s s'.
Proof.
  intros O Hs. induction Hs as [s|s1 s2 s3 H12 H23 IH]; [by split|].
  destruct (step_ok _ _ O H12) as [O2 (R1 & R2 & R3)]. destruct (IH O2) as [O3 (T1 & T2 & T3)]. split; [done|].
  split; [congruence|]. split.
  - intros x Hx. rewrite T2; [by apply R2|]. unfold smram in *. by rewrite R1.
  - intros Hl. destruct (R3 Hl) as [Hl2 Hc]. destruct (T3 Hl2) as [Hl3 Hc']. split; [done|]. intros g. by rewrite Hc', Hc.
Qed.

(** C9: confinement. However often the handler runs, with whatever communication buffers - their
    addresses, their sizes and their contents chosen by an adversary who writes to all memory but
    SMRAM in between - no byte of SMRAM changes, and the handler returns success on every input.
    (The library's own storage apart; and given that no box was saved from SMRAM before.) *)
Theorem SmmLockBoxHandler_confined s s' :
  lb_ok s -> relations.rtc step s s' ->
  (forall r x, r ∈ s.(mSmramRanges) -> r.(CpuStart) <= x < r.(CpuStart) + r.(PhysicalSize) -> s'.(mem) x = s.(mem) x) /\
  forall a n, in_width 32 a -> (forall k, n = Some k -> in_width 32 k) ->
    exists s2, SmmLockBoxHandler a n s' = Some (EFI_SUCCESS, s2).
Proof.
  intros O Hs. destruct (steps_ok _ _ O Hs) as [O' (_ & Hm & _)]. split.
  - intros r x Hr Hx. apply Hm. by exists r.
  - intros a n Ha Hn. destruct (wp_handler a n s' O' Ha Hn) as (st & s2 & Hx & -> & _). by exists s2.
Qed.

(** the check of addresses is exact: it lets an address range pass - reading the array of ranges
    within its bounds - if and only if the range ends before the end of the address space and
    neither its start nor any address in it lies in SMRAM. *)
Theorem IsAddressValid_exact s a n :
  ranges_ok s -> in_width 32 a -> in_width 32 n ->
  exists b, IsAddressValid a n s = Some (b, s) /\
    (b = true <-> a + n <= 2 ^ 32 - 1 /\
       forall r x, r ∈ s.(mSmramRanges) -> r.(CpuStart) <= x < r.(CpuStart) + r.(PhysicalSize) -> x <> a /\ ~ (a <= x < a + n)).
Proof.
  intros Hr Ha Hn. destruct (IsAddressValid_run s a n Hr Ha Hn) as (b & Hb & Hiff). exists b. split; [done|].
  rewrite Hiff. unfold acceptable. rewrite MAX_ADDRESS_val. split; intros [H1 H2]; (split; [done|]).
  - intros r x Hin Hx. apply H2. by exists r.
  - intros x (r & Hin & Hx). by apply (H2 r).
Qed.

(** ** One request *)

(** What the handler does before and after the command. *)
Definition start (P : Z) s : lockbox B := set_mem (store 8 (P + offset_ReturnStatus) (u64 (-1)) s.(mem)) s.
Definition finish (P : Z) s : lockbox B := set_mem (store 4 (P + offset_Command) (u32 (-1)) s.(mem)) s.

(** A request that the handler looks at, and its command. *)
Definition well_addressed s (P n : Z) : Prop :=
  P <> 0 /\ in_width 32 P /\ in_width 32 n /\ sizeof_HEADER <= n /\ acceptable s P n.
Definition command s (P : Z) : Z := load 4 s.(mem) (P + offset_Command).

Lemma load_outside P k s f : (sizeof_HEADER <= f \/ f + Z.of_nat k <= offset_ReturnStatus) ->
  load k (start P s).(mem) (P + f) = load k s.(mem) (P + f).
Proof.
  intros Hf. pose proof header_fields as (F1 & F2 & F3). apply load_ext. intros x Hx. cbn [start set_mem mem]. apply store_agree.
  intros Hr. unfold range in *. lia.
Qed.

Lemma wp_request P n s (Q : EFI_STATUS -> lockbox B -> Prop) :
  ranges_ok s -> well_addressed s P n ->
  wp (dispatch (command s P) P n) (fun _ s2 => Q EFI_SUCCESS (finish P s2)) (start P s) -> wp (SmmLockBoxHandler P (Some n)) Q s.
Proof.
  intros Hr (H0 & HP & Hn & Hsz & Ha) Hd. pose proof header_fields as (F1 & F2 & F3). unfold SmmLockBoxHandler. destruct (Z.eqb_spec P 0); [done|]. destruct (Z.ltb_spec n sizeof_HEADER); [lia|].
  apply wp_bind, wp_IsAddressValid; [done..| |done]. intros _. cbn [negb]. apply wp_bind, wp_modify. fold (start P s).
  apply wp_bind, wp_load. rewrite load_outside by (right; lia). apply wp_bind. eapply wp_mono; [exact Hd|].
  intros [] s2 HQ. apply wp_bind, wp_modify, wp_ret. exact HQ.
Qed.

(** The fields of the header at the end. *)
Lemma finish_Command P s : load 4 (finish P s).(mem) (P + offset_Command) = 2 ^ 32 - 1.
Proof. cbn [finish set_mem mem]. exact (load_store 4 (P + offset_Command) (u32 (-1)) s.(mem) ltac:(by vm_compute)). Qed.

Lemma finish_ReturnStatus P v s :
  in_width 64 v -> load 8 (finish P (set_mem (store 8 (P + offset_ReturnStatus) v s.(mem)) s)).(mem) (P + offset_ReturnStatus) = v.
Proof.
  intros Hv. pose proof header_fields as (F1 & F2 & F3). rewrite <- (load_store 8 (P + offset_ReturnStatus) v s.(mem) Hv) at 2.
  apply load_ext. intros x Hx. cbn [finish set_mem mem]. apply store_agree. intros Hr. unfold range in *. lia.
Qed.

Lemma finish_agree P v s : agree_but (range P sizeof_HEADER) s.(mem) (finish P (set_mem (store 8 (P + offset_ReturnStatus) v s.(mem)) s)).(mem).
Proof.
  pose proof header_fields as (F1 & F2 & F3). cbn [finish set_mem mem].
  eapply agree_but_trans; (eapply agree_but_mono; [|apply store_agree]); unfold range; lia.
Qed.

(** The size of a request of a command, if there is such a command. *)
Definition request_size (Command : Z) : option Z :=
  if Command =? EFI_SMM_LOCK_BOX_COMMAND_SAVE then Some sizeof_SAVE
  else if Command =? EFI_SMM_LOCK_BOX_COMMAND_UPDATE then Some sizeof_UPDATE
  else if Command =? EFI_SMM_LOCK_BOX_COMMAND_RESTORE then Some sizeof_RESTORE
  else if Command =? EFI_SMM_LOCK_BOX_COMMAND_SET_ATTRIBUTES then Some sizeof_SET_ATTRIBUTES
  else if Command =? EFI_SMM_LOCK_BOX_COMMAND_RESTORE_ALL_IN_PLACE then Some sizeof_RESTORE_ALL_IN_PLACE
  else None.
Definition modifies (Command : Z) : bool :=
  bool_decide (Command ∈ [EFI_SMM_LOCK_BOX_COMMAND_SAVE; EFI_SMM_LOCK_BOX_COMMAND_UPDATE; EFI_SMM_LOCK_BOX_COMMAND_SET_ATTRIBUTES]).

(** The value returned to requests that do not reach the library. *)
Definition refused s (Command n : Z) : option Z :=
  match request_size Command with
  | None => Some (2 ^ 64 - 1)
  | Some k => if n <? k then Some (2 ^ 64 - 1) else if s.(mLocked) && modifies Command then Some (status_code EFI_ACCESS_DENIED) else None
  end.

Lemma modifies_eq c :
  modifies c = (c =? EFI_SMM_LOCK_BOX_COMMAND_SAVE) || (c =? EFI_SMM_LOCK_BOX_COMMAND_UPDATE) || (c =? EFI_SMM_LOCK_BOX_COMMAND_SET_ATTRIBUTES).
Proof.
  unfold modifies. apply eq_true_iff_eq. rewrite bool_decide_eq_true, !orb_true_iff, !Z.eqb_eq, !elem_of_cons. pose proof (not_elem_of_nil c). tauto.
Qed.

Lemma wp_refused P c n s v :
  refused s c n = Some v ->
  wp (dispatch c P n) (fun _ s2 => s2 = set_mem (store 8 (P + offset_ReturnStatus) v s.(mem)) s \/ (v = 2 ^ 64 - 1 /\ s2 = s)) s.
Proof.
  unfold refused, request_size, dispatch. rewrite modifies_eq. intros Hv.
  assert (Hlock : s.(mLocked) = true -> v = status_code EFI_ACCESS_DENIED -> forall f, (f = SmmLockBoxSave \/ f = SmmLockBoxUpdate \/ f = SmmLockBoxSetAttributes) ->
    wp (f P) (fun _ s2 => s2 = set_mem (store 8 (P + offset_ReturnStatus) v s.(mem)) s \/ (v = 2 ^ 64 - 1 /\ s2 = s)) s).
  { intros Hl -> f Hf. destruct Hf as [-> |[-> | ->]]; apply wp_bind, wp_get; rewrite Hl; apply wp_set_status; by left. }
  pose proof commands as Hd. rewrite !NoDup_cons, !not_elem_of_cons in Hd.
  destruct (Z.eqb_spec c EFI_SMM_LOCK_BOX_COMMAND_SAVE) as [->|].
  { destruct (n <? sizeof_SAVE); [injection Hv as <-; apply wp_ret; by right|]. destruct (mLocked s); [|done]. injection Hv as <-. by apply Hlock; auto. }
  destruct (Z.eqb_spec c EFI_SMM_LOCK_BOX_COMMAND_UPDATE) as [->|].
  { destruct (n <? sizeof_UPDATE); [injection Hv as <-; apply wp_ret; by right|]. destruct (mLocked s); [|done].
    rewrite ?orb_true_r in Hv. injection Hv as <-. by apply Hlock; auto. }
  destruct (Z.eqb_spec c EFI_SMM_LOCK_BOX_COMMAND_RESTORE) as [E|].
  { destruct (n <? sizeof_RESTORE); [injection Hv as <-; apply wp_ret; by right|].
    destruct (Z.eqb_spec c EFI_SMM_LOCK_BOX_COMMAND_SET_ATTRIBUTES); [exfalso; rewrite E in *; tauto|]. by rewrite andb_false_r in Hv. }
  destruct (Z.eqb_spec c EFI_SMM_LOCK_BOX_COMMAND_SET_ATTRIBUTES) as [->|].
  { destruct (n <? sizeof_SET_ATTRIBUTES); [injection Hv as <-; apply wp_ret; by right|]. destruct (mLocked s); [|done]. injection Hv as <-. by apply Hlock; auto. }
  destruct (Z.eqb_spec c EFI_SMM_LOCK_BOX_COMMAND_RESTORE_ALL_IN_PLACE) as [E|].
  { destruct (n <? sizeof_RESTORE_ALL_IN_PLACE); [injection Hv as <-; apply wp_ret; by right|]. by rewrite andb_false_r in Hv. }
  injection Hv as <-. apply wp_ret. by right.
Qed.

Lemma refused_width s c n v : refused s c n = Some v -> in_width 64 v.
Proof.
  unfold refused. destruct (request_size c) as [k|]; [|by intros [= <-]]. destruct (n <? k); [by intros [= <-]|].
  destruct (_ && _); [|done]. intros [= <-]. apply status_code_width.
Qed.

(** what the handler refuses. A null pointer, a size below that of the header, a buffer that
    overflows or touches SMRAM: nothing changes. A command that does not exist or for which the buffer
    is too small is answered with [-1], and after the end of the trusted phase a command that
    modifies boxes with "access denied": the command field is cleared, only the header is written, and
    boxes and flag are as before. *)
Theorem SmmLockBoxHandler_refuses s (a n : Z) :
  ranges_ok s -> in_width 32 a -> in_width 32 n ->
  (~ (a <> 0 /\ sizeof_HEADER <= n /\ acceptable s a n) -> SmmLockBoxHandler a (Some n) s = Some (EFI_SUCCESS, s)) /\
  (a <> 0 -> sizeof_HEADER <= n -> acceptable s a n -> forall v, refused s (command s a) n = Some v ->
     exists s', SmmLockBoxHandler a (Some n) s = Some (EFI_SUCCESS, s') /\
       load 8 s'.(mem) (a + offset_ReturnStatus) = v /\ load 4 s'.(mem) (a + offset_Command) = 2 ^ 32 - 1 /\
       agree_but (range a sizeof_HEADER) s.(mem) s'.(mem) /\ s'.(boxes) = s.(boxes) /\ s'.(mLocked) = s.(mLocked)).
Proof.
  intros Hr Ha Hn. split.
  - intros Hbad. unfold SmmLockBoxHandler. destruct (Z.eqb_spec a 0); [done|]. destruct (Z.ltb_spec n sizeof_HEADER); [done|].
    destruct (IsAddressValid_run s a n Hr Ha Hn) as (b & Hb & Hiff). unfold mbind, M_bind. rewrite Hb.
    destruct b; [|done]. exfalso. apply Hbad. split_and!; [done|done|by apply Hiff].
  - intros H0 Hsz Hacc v Hv.
    assert (Hwp : wp (SmmLockBoxHandler a (Some n)) (fun st s' => st = EFI_SUCCESS /\
       load 8 s'.(mem) (a + offset_ReturnStatus) = v /\ load 4 s'.(mem) (a + offset_Command) = 2 ^ 32 - 1 /\
       agree_but (range a sizeof_HEADER) s.(mem) s'.(mem) /\ s'.(boxes) = s.(boxes) /\ s'.(mLocked) = s.(mLocked)) s).
    { apply wp_request; [done|by split_and!|]. eapply wp_mono; [apply (wp_refused a (command s a) n (start a s) v Hv)|].
      pose proof (refused_width _ _ _ _ Hv) as Hw.
      intros [] s2 [-> |[-> ->]]; (split; [done|]); (split; [by apply finish_ReturnStatus|]); (split; [apply finish_Command|]); (split; [|done]).
      - eapply agree_but_trans; [|apply finish_agree]. eapply agree_but_mono; [|apply store_agree].
        pose proof header_fields as (F1 & F2 & F3). unfold range. lia.
      - apply finish_agree. }
    destruct Hwp as (st & s' & Hx & -> & Hp). by exists s'.
Qed.

(** ** Saving and restoring *)

Lemma status_read P st s : load 8 (finish P (status_at P st s)).(mem) (P + offset_ReturnStatus) = status_code st.
Proof. apply finish_ReturnStatus, status_code_width. Qed.

Lemma bytes_outside P s a k :
  (forall x, range a (Z.of_nat k) x -> ~ range P sizeof_HEADER x) -> bytes (start P s).(mem) a k = bytes s.(mem) a k.
Proof.
  intros Hd. pose proof header_fields as (F1 & F2 & F3). apply mem_bytes_ext. intros x Hx. specialize (Hd x Hx). cbn [start set_mem mem].
  apply store_agree. intros Hr. apply Hd. unfold range in *. lia.
Qed.

(** The fields of a request to save or to restore: the GUID, the buffer, the length. *)
Definition save_request s (P g a l : Z) : Prop :=
  command s P = EFI_SMM_LOCK_BOX_COMMAND_SAVE /\ load 16 s.(mem) (P + Save_Guid) = g /\
  u32 (load 8 s.(mem) (P + Save_Buffer)) = a /\ u32 (load 8 s.(mem) (P + Save_Length)) = l.
Definition restore_request s (P g a l : Z) : Prop :=
  command s P = EFI_SMM_LOCK_BOX_COMMAND_RESTORE /\ load 16 s.(mem) (P + Restore_Guid) = g /\
  u32 (load 8 s.(mem) (P + Restore_Buffer)) = a /\ u32 (load 8 s.(mem) (P + Restore_Length)) = l.

Lemma save_effect s s1 st P n g a l :
  ranges_ok s -> well_addressed s P n -> sizeof_SAVE <= n -> save_request s P g a l ->
  (forall x, range a l x -> ~ range P sizeof_HEADER x) ->
  SmmLockBoxHandler P (Some n) s = Some (st, s1) -> load 8 s1.(mem) (P + offset_ReturnStatus) = status_code EFI_SUCCESS ->
  contents s1.(boxes) g = Some (bytes s.(mem) a (Z.to_nat l)).
Proof.
  intros Hr Hw Hsz (Hc & Hg & Ha & Hl) Hd Hx Hst.
  assert (Hwp : wp (SmmLockBoxHandler P (Some n)) (fun _ s1 => load 8 s1.(mem) (P + offset_ReturnStatus) = status_code EFI_SUCCESS ->
    contents s1.(boxes) g = Some (bytes s.(mem) a (Z.to_nat l))) s); [|exact (wp_run _ _ _ _ _ Hwp Hx Hst)]. clear Hx Hst s1.
  apply wp_request; [done|done|]. rewrite Hc. unfold dispatch. rewrite Z.eqb_refl. destruct (Z.ltb_spec n sizeof_SAVE); [lia|].
  pose proof save_fields as Hf. rewrite !Forall_cons in Hf. cbn [fst snd] in Hf.
  pose proof (u32_width (load 8 s.(mem) (P + Save_Length))) as Hlw. unfold in_width in Hlw.
  apply wp_Save; [done|..].
  - intros _. rewrite status_read. intros E. by apply status_code_inj in E.
  - intros _ _ st' b He _. rewrite status_read. intros E. apply status_code_inj in E. by rewrite E in He.
  - intros _ _ b Hcb _ _. cbn [finish status_at set_mem set_boxes boxes]. rewrite Hcb.
    rewrite !load_outside, Hg, Ha, Hl, Z.eqb_refl by (left; tauto). f_equal. apply bytes_outside.
    intros x Hx'. apply Hd. unfold range in *. lia.
Qed.

Lemma restore_effect s P n g a l d :
  ranges_ok s -> well_addressed s P n -> sizeof_RESTORE <= n -> restore_request s P g a l ->
  a <> 0 -> acceptable s a l -> contents s.(boxes) g = Some d -> Z.of_nat (length d) <= l ->
  (forall x, range a l x -> ~ range P sizeof_HEADER x) ->
  exists s1, SmmLockBoxHandler P (Some n) s = Some (EFI_SUCCESS, s1) /\
    load 8 s1.(mem) (P + offset_ReturnStatus) = status_code EFI_SUCCESS /\ bytes s1.(mem) a (length d) = d.
Proof.
  intros Hr Hw Hsz (Hc & Hg & Ha & Hl) H0 Hacc Hd Hlen Hdis.
  assert (Hwp : wp (SmmLockBoxHandler P (Some n)) (fun st s1 => st = EFI_SUCCESS /\ load 8 s1.(mem) (P + offset_ReturnStatus) = status_code EFI_SUCCESS /\
    bytes s1.(mem) a (length d) = d) s).
  { apply wp_request; [done|done|]. rewrite Hc. unfold dispatch.
    pose proof commands as Hcmd. rewrite !NoDup_cons, !not_elem_of_cons in Hcmd.
    destruct (Z.eqb_spec EFI_SMM_LOCK_BOX_COMMAND_RESTORE EFI_SMM_LOCK_BOX_COMMAND_SAVE); [exfalso; intuition congruence|].
    destruct (Z.eqb_spec EFI_SMM_LOCK_BOX_COMMAND_RESTORE EFI_SMM_LOCK_BOX_COMMAND_UPDATE); [exfalso; intuition congruence|].
    rewrite Z.eqb_refl. destruct (Z.ltb_spec n sizeof_RESTORE); [lia|].
    pose proof restore_fields as Hf. rewrite !Forall_cons in Hf. cbn [fst snd] in Hf.
    apply wp_Restore; [done|..]; rewrite ?load_outside, ?Hg, ?Ha, ?Hl by (left; tauto).
    - intros Hn. by destruct Hn.
    - intros st b _ _ [?|[Hno|(d' & Hd' & Hlt)]] _; [done|..]; cbn [start set_mem boxes] in *; rewrite Hd in *; [done|]. injection Hd' as <-. lia.
    - intros d' m b _ Hd' _ Hby _ _. cbn [start set_mem boxes] in Hd'. rewrite Hd in Hd'. injection Hd' as <-.
      split; [done|]. split; [apply status_read|]. rewrite <- Hby at 2. apply mem_bytes_ext. intros x Hx.
      apply (finish_agree P (status_code EFI_SUCCESS) (set_boxes b (set_mem m (start P s)))). apply Hdis. unfold range in *. lia.
    - intros st m b _ ? _ _ _. done. }
  destruct Hwp as (st & s1 & Hx & -> & Hp). by exists s1.
Qed.

(** A request to save or to update the box [g]; all other events of a run leave the box alone. *)
Definition rewrites s (P g : Z) : Prop :=
  (command s P = EFI_SMM_LOCK_BOX_COMMAND_SAVE /\ load 16 s.(mem) (P + Save_Guid) = g) \/
  (command s P = EFI_SMM_LOCK_BOX_COMMAND_UPDATE /\ load 16 s.(mem) (P + Update_Guid) = g).

Inductive step_but (g : Z) : lockbox B -> lockbox B -> Prop :=
| but_smi a n st s s' : in_width 32 a -> (forall k, n = Some k -> in_width 32 k) -> ~ rewrites s a g ->
    SmmLockBoxHandler a n s = Some (st, s') -> step_but g s s'
| but_lock st s s' : SmmReadyToLockEventNotify s = Some (st, s') -> step_but g s s'
| but_other s m : (forall x, smram s x -> m x = s.(mem) x) -> step_but g s (set_mem m s).

Lemma step_but_step g s s' : step_but g s s' -> step s s'.
Proof. destruct 1; [by eapply step_smi|by eapply step_lock|by apply step_other]. Qed.

Lemma wp_dispatch_keeps Command P size g s :
  ranges_ok s ->
  (Command = EFI_SMM_LOCK_BOX_COMMAND_SAVE -> load 16 s.(mem) (P + Save_Guid) <> g) ->
  (Command = EFI_SMM_LOCK_BOX_COMMAND_UPDATE -> load 16 s.(mem) (P + Update_Guid) <> g) ->
  wp (dispatch Command P size) (fun _ s' => contents s'.(boxes) g = contents s.(boxes) g) s.
Proof.
  intros Hr HS HU. unfold dispatch.
  destruct (Z.eqb_spec Command EFI_SMM_LOCK_BOX_COMMAND_SAVE) as [E|].
  { destruct (size <? sizeof_SAVE); [by apply wp_ret|]. apply wp_Save; [done|done|by intros _ _ st b _ [Hb _]|].
    intros _ _ b Hc _. cbn [status_at set_mem set_boxes boxes]. rewrite Hc. destruct (Z.eqb_spec g (load 16 s.(mem) (P + Save_Guid))) as [Eg|]; [|done].
    by destruct (HS E). }
  destruct (Z.eqb_spec Command EFI_SMM_LOCK_BOX_COMMAND_UPDATE) as [E|].
  { destruct (size <? sizeof_UPDATE); [by apply wp_ret|]. apply wp_Update; [done|done|]. intros _ st b Hc _. apply Hc. by apply not_eq_sym, HU. }
  repeat case_match; try (by apply wp_ret).
  - apply wp_Restore; [done|done|by intros st b _ _ _ [Hb _]|by intros d m b _ _ _ _ _ [Hb _]|by intros st m b _ _ _ _ [Hb _]].
  - apply wp_SetAttributes; [done|by intros _ st b [Hb _]].
  - apply wp_RestoreAll. by intros st m b _ [Hb _].
Qed.

Lemma wp_handler_keeps P n g s :
  ranges_ok s -> in_width 32 P -> (forall k, n = Some k -> in_width 32 k) -> ~ rewrites s P g ->
  wp (SmmLockBoxHandler P n) (fun _ s' => contents s'.(boxes) g = contents s.(boxes) g) s.
Proof.
  intros Hr HP Hn Hg. pose proof header_fields as (F1 & F2 & F3). pose proof save_fields as FS. pose proof update_fields as FU.
  rewrite !Forall_cons in FS, FU. cbn [fst snd] in FS, FU.
  unfold SmmLockBoxHandler. destruct n as [n|]; [|by apply wp_ret]. specialize (Hn n eq_refl).
  destruct (P =? 0); [by apply wp_ret|]. destruct (Z.ltb_spec n sizeof_HEADER); [by apply wp_ret|].
  apply wp_bind, wp_IsAddressValid; [done..| |]; intros Ha; cbn [negb]; [|by apply wp_ret].
  apply wp_bind, wp_modify. fold (start P s). apply wp_bind, wp_load. rewrite load_outside by (right; lia).
  apply wp_bind. eapply wp_mono.
  { apply (wp_dispatch_keeps _ P n g (start P s) Hr); rewrite load_outside by (left; lia); intros Hc E; apply Hg; [left|right]; by split. }
  intros [] s2 E. by apply wp_bind, wp_modify, wp_ret.
Qed.

Lemma steps_but_keep g s s' :
  lb_ok s -> relations.rtc (step_but g) s s' -> lb_ok s' /\ contents s'.(boxes) g = contents s.(boxes) g.
Proof.
  intros O Hs. induction Hs as [s|s1 s2 s3 H12 _ IH]; [by split|].
  destruct (step_ok _ _ O (step_but_step _ _ _ H12)) as [O2 _]. destruct (IH O2) as [O3 E]. split; [done|]. rewrite E.
  destruct H12 as [a n st s s' Ha Hn Hg Hx|st s s' [= <- <-]|s m _]; [|done|done].
  exact (wp_run _ _ _ _ _ (wp_handler_keeps a n g s (ok_ranges _ O) Ha Hn Hg) Hx).
Qed.

(** C10: integrity of the boxes. What is saved through the handler is what a restore gives back, byte for byte: the bytes are those
    that were in the buffer at the time of the save. Between the save and the end of the trusted phase there may be any
    requests but those to save or to update the same box, which are what it is made to change by, and any writes to memory
    outside SMRAM; after the end of the trusted phase any requests of an adversary, those to save or update the same box
    included, and again any writes. (The buffers must not overlap the header of the communication buffer; the buffer of the
    restore must pass the handler's check of addresses and be as long as the box; and boxes change through the handler only: other
    drivers in SMM, which call the library directly, are not among the events.) *)
Theorem SmmLockBox_save_restore s0 s1 s2 s3 s4 st0 st1 (P n g a l P' n' a' l' : Z) :
  lb_ok s0 -> well_addressed s0 P n -> sizeof_SAVE <= n -> save_request s0 P g a l ->
  (forall x, range a l x -> ~ range P sizeof_HEADER x) ->
  SmmLockBoxHandler P (Some n) s0 = Some (st0, s1) -> load 8 s1.(mem) (P + offset_ReturnStatus) = status_code EFI_SUCCESS ->
  relations.rtc (step_but g) s1 s2 -> SmmReadyToLockEventNotify s2 = Some (st1, s3) -> relations.rtc step s3 s4 ->
  well_addressed s4 P' n' -> sizeof_RESTORE <= n' -> restore_request s4 P' g a' l' ->
  a' <> 0 -> acceptable s4 a' l' -> l <= l' -> (forall x, range a' l' x -> ~ range P' sizeof_HEADER x) ->
  exists s5, SmmLockBoxHandler P' (Some n') s4 = Some (EFI_SUCCESS, s5) /\
    load 8 s5.(mem) (P' + offset_ReturnStatus) = status_code EFI_SUCCESS /\
    bytes s5.(mem) a' (Z.to_nat l) = bytes s0.(mem) a (Z.to_nat l).
Proof.
  intros O Hw Hsz Hreq Hdis Hx Hst Hbut Hlock Hs Hw' Hsz' Hreq' H0 Hacc Hle Hdis'.
  pose proof (save_effect _ _ _ _ _ _ _ _ (ok_ranges _ O) Hw Hsz Hreq Hdis Hx Hst) as Hc.
  assert (O1 : lb_ok s1).
  { destruct Hw as (_ & HP & Hn & _). eapply confined_ok; [exact O|].
    assert (Hk : forall k, Some n = Some k -> in_width 32 k) by (intros k [= <-]; exact Hn).
    by destruct (wp_run _ _ _ _ _ (wp_handler P (Some n) s0 O HP Hk) Hx). }
  destruct (steps_but_keep _ _ _ O1 Hbut) as [O2 Hc2]. rewrite Hc in Hc2.
  destruct (step_ok _ _ O2 (step_lock _ _ _ Hlock)) as [O3 _]. injection Hlock as _ <-.
  destruct (steps_ok _ _ O3 Hs) as [O4 (_ & _ & Hk)]. destruct (Hk eq_refl) as [_ Hk']. specialize (Hk' g). cbn [boxes] in Hk'. rewrite Hc2 in Hk'.
  assert (Hlen : length (bytes s0.(mem) a (Z.to_nat l)) = Z.to_nat l) by (unfold bytes; by rewrite length_fmap, length_seq).
  assert (Hl : 0 <= l) by (destruct Hreq as (_ & _ & _ & <-); apply wrap_bounds; lia).
  destruct (restore_effect s4 P' n' g a' l' _ (ok_ranges _ O4) Hw' Hsz' Hreq' H0 Hacc Hk') as (s5 & Hx5 & Hst5 & Hb5); [rewrite Hlen; lia|done|].
  exists s5. split; [done|]. split; [done|]. by rewrite Hlen in Hb5.
Qed.
End Theorems.
