(* ===== verification/LockBoxEntry.v ===== *)
(** * The SMM lock box driver: the entry point, with the SMM access driver behind it

    The interface between the two drivers: what the lock box driver relies on of the SMM access
    protocol, and that [SmmAccessDxe] provides it. *)

From S2P Require Import Prelude QNCAccess Smram SmmAccessDxe LockBoxDefs LockBoxSpec LockBoxTheorems.
From stdpp Require Import list.
#[local] Open Scope Z_scope.

(** ** The interface *)

Class DescriptorLayoutOk {HS : SmramHeader} (DL : DescriptorLayout) : Prop := {
  desc_wf : EFI_SMRAM_DESCRIPTOR -> Prop := fun d =>
    in_width 64 d.(PhysicalStart) /\ in_width 64 d.(CpuStart) /\ in_width 64 d.(PhysicalSize) /\ in_width 64 d.(RegionState);
  descriptor_at_bytes d rest : desc_wf d -> descriptor_at (desc_bytes d ++ rest) = d
}.

(** The protocol tells its regions: their size to a caller with no buffer, their descriptors to one
    with a buffer of that size. *)
Class SmmAccess2Ok {HS : SmramHeader} (D : Type) {A : SmmAccess2 D} := {
  access_ready : D -> Prop;
  regions : D -> list EFI_SMRAM_DESCRIPTOR;
  wp_GetCapabilities_size (Q : EFI_STATUS * Z * list Z -> D -> Prop) d :
    access_ready d -> regions d <> [] ->
    Q (EFI_BUFFER_TOO_SMALL, sizeof_EFI_SMRAM_DESCRIPTOR * Z.of_nat (length (regions d)), []) d -> wp (SmmAccess_GetCapabilities 0 []) Q d;
  wp_GetCapabilities_map map (Q : EFI_STATUS * Z * list Z -> D -> Prop) d :
    access_ready d -> Z.of_nat (length map) = sizeof_EFI_SMRAM_DESCRIPTOR * Z.of_nat (length (regions d)) ->
    Q (EFI_SUCCESS, sizeof_EFI_SMRAM_DESCRIPTOR * Z.of_nat (length (regions d)), concat (desc_bytes <$> regions d)) d ->
    wp (SmmAccess_GetCapabilities (sizeof_EFI_SMRAM_DESCRIPTOR * Z.of_nat (length (regions d))) map) Q d
}.

(** ** [SmmAccessDxe] implements it *)

#[export] Instance SmmAccessDxe_access {SH : SmramHeader} : SmmAccess2 smm := {
  SmmAccess_GetCapabilities := SmmAccessDxe.GetCapabilities
}.

Lemma concat_bytes_length {SH : SmramHeader} {SHO : SmramHeaderOk} (l : list EFI_SMRAM_DESCRIPTOR) :
  length (concat (desc_bytes <$> l)) = (32 * length l)%nat.
Proof. apply bytes_length. Qed.

#[export] Instance SmmAccessDxe_access_ok {SH : SmramHeader} {SHO : SmramHeaderOk} : SmmAccess2Ok smm.
Proof.
  unshelve refine {|
    access_ready := fun s : smm => 0 <= s.(data).(NumberRegions) <= 4 /\ length s.(data).(SmramDesc) = 4%nat;
    regions := fun s : smm => take (Z.to_nat s.(data).(NumberRegions)) s.(data).(SmramDesc) |}.
  - intros Q s [HN Hl] Hne HQ. rewrite length_take in HQ. pose proof (GetCapabilities_run s 0 [] HN Hl ltac:(done)) as Hrun. cbn zeta in Hrun.
    destruct (Z.ltb_spec 0 (32 * NumberRegions (data s))).
    + eexists _, _. split; [exact Hrun|]. rewrite sizeof_val in HQ.
      replace (32 * Z.of_nat (Z.to_nat (NumberRegions (data s)) `min` length (SmramDesc (data s)))) with (32 * NumberRegions (data s)) in HQ by lia. done.
    + destruct Hne. by replace (NumberRegions (data s)) with 0 by lia.
  - intros map Q s [HN Hl] Hm HQ. rewrite length_take, sizeof_val in Hm. rewrite length_take, sizeof_val in HQ |- *.
    replace (32 * Z.of_nat (Z.to_nat (NumberRegions (data s)) `min` length (SmramDesc (data s)))) with (32 * NumberRegions (data s)) in * by lia.
    pose proof (GetCapabilities_run s (32 * NumberRegions (data s)) map HN Hl ltac:(lia)) as Hrun. cbn zeta in Hrun.
    rewrite Z.ltb_irrefl in Hrun. destruct (Z.leb_spec (32 * NumberRegions (data s)) 128); [|lia].
    destruct Hrun as (map' & Hx & Hlen & Htake & _). eexists _, _. split; [exact Hx|]. rewrite <- Htake in HQ.
    rewrite take_ge in HQ by lia. done.
Defined.

(** ** The entry point *)

Section Entry.
Context {HS : SmramHeader} {HSO : SmramHeaderOk} {DL : DescriptorLayout} {DLO : DescriptorLayoutOk DL}.
Context {D : Type} {A : SmmAccess2 D} {AO : SmmAccess2Ok D}.
Context {HL : SmmLockBoxHeader} {HLO : SmmLockBoxHeaderOk HL} {B : Type} {L : LockBoxLib B} {LO : LockBoxLibOk B}.

Lemma array_bytes l : Forall desc_wf l -> array (length l) (concat (desc_bytes <$> l)) = l.
Proof.
  induction 1 as [|d l Hd Hl IH]; [done|]. cbn [length array fmap list_fmap concat]. rewrite descriptor_at_bytes by done. f_equal.
  rewrite drop_app_ge by (pose proof (desc_bytes_length d); lia).
  replace (_ - _)%nat with 0%nat by (pose proof (desc_bytes_length d); lia). by rewrite drop_0.
Qed.

Lemma wp_on_access {T} (f : M D T) (Q : T -> D * lockbox B -> Prop) d s :
  wp f (fun a d' => Q a (d', s)) d -> wp (on_access f) Q (d, s).
Proof. intros (a & d' & Hf & HQ). exists a, (d', s). split; [unfold on_access; cbn; by rewrite Hf|done]. Qed.

(** the entry point, against the interface of the SMM access protocol. When the services that
    it calls succeed and the protocol has at least one region, it returns; the driver then checks
    addresses against exactly the regions of the protocol, and, no box having been saved yet, every
    later request is confined. *)
Theorem SmmLockBoxEntryPoint_ready (Pool : Z -> list Z) (d : D) (s : lockbox B) :
  access_ready d -> regions d <> [] -> (forall n, 0 <= n -> Z.of_nat (length (Pool n)) = n) ->
  Forall (fun r => desc_wf r /\ 0 < r.(PhysicalSize) /\ r.(CpuStart) + r.(PhysicalSize) < 2 ^ 64) (regions d) ->
  places s.(boxes) = [] ->
  exists s', SmmLockBoxEntryPoint EFI_SUCCESS EFI_SUCCESS EFI_SUCCESS EFI_SUCCESS EFI_SUCCESS Pool (d, s) = Some (EFI_SUCCESS, (d, s')) /\
    s'.(mSmramRanges) = regions d /\ s'.(mem) = s.(mem) /\ s'.(boxes) = s.(boxes) /\ lb_ok s'.
Proof.
  intros Hd Hne HPool Hr Hp.
  assert (Hwp : wp (SmmLockBoxEntryPoint EFI_SUCCESS EFI_SUCCESS EFI_SUCCESS EFI_SUCCESS EFI_SUCCESS Pool) (fun st x => st = EFI_SUCCESS /\ x.1 = d /\
    x.2.(mSmramRanges) = regions d /\ x.2.(mem) = s.(mem) /\ x.2.(boxes) = s.(boxes) /\ lb_ok x.2) (d, s)).
  { unfold SmmLockBoxEntryPoint. apply wp_bind, wp_assert; [done|]. apply wp_bind, wp_on_access, wp_GetCapabilities_size; [done..|]. cbn beta iota.
    apply wp_bind, wp_assert; [done|]. apply wp_bind, wp_assert; [done|].
    apply wp_bind, wp_on_access, wp_GetCapabilities_map; [done|apply HPool; rewrite sizeof_val; lia|]. cbn beta iota.
    apply wp_bind, wp_assert; [done|]. apply wp_bind, wp_modify. do 3 (apply wp_bind, wp_assert; [done|]). apply wp_ret. cbn [fst snd].
    split; [done|]. split; [done|]. rewrite concat_bytes_length, sizeof_val. change (Z.to_nat 32) with 32%nat.
    rewrite Nat.mul_comm, Nat.div_mul, array_bytes by first [done | eapply Forall_impl; [exact Hr|]; by intros ? (? & _)].
    split; [done|]. split; [done|]. split; [done|]. split.
    - split; cbn [mSmramRangeCount mSmramRanges].
      + rewrite Z.mul_comm, Z.div_mul by done. done.
      + eapply Forall_impl; [exact Hr|]. intros r ((_ & [Hc _] & _) & ? & ?). done.
    - cbn [boxes]. rewrite Hp. intros p Hin. by apply elem_of_nil in Hin. }
  destruct Hwp as (st & [d' s'] & Hx & -> & Hd' & H1 & H2 & H3 & H4). cbn [fst snd] in *. subst d'. by exists s'.
Qed.
End Entry.
