(* ===== verification/LockBoxWitness.v ===== *)
(** * The SMM lock box driver: concrete runs

    The layouts as EDK II has them, a small library, and the board of [SmmAccessDxe]: the theorems on
    requests in concrete memory. *)

From S2P Require Import Prelude QNCAccess Smram SmmAccessDxe LockBoxDefs LockBoxSpec LockBoxTheorems LockBoxEntry.
From stdpp Require relations.
From stdpp Require Import list.
#[local] Open Scope Z_scope.

#[local] Existing Instances PlainBus PiHeader.header PiHeader.header_ok.

#[local] Instance edk_header : SmmLockBoxHeader := {
  sizeof_HEADER := 16; sizeof_SAVE := 48; sizeof_SET_ATTRIBUTES := 40; sizeof_UPDATE := 56; sizeof_RESTORE := 48;
  sizeof_RESTORE_ALL_IN_PLACE := 16; offset_Command := 0; offset_ReturnStatus := 8;
  Save_Guid := 16; Save_Buffer := 32; Save_Length := 40; SetAttributes_Guid := 16; SetAttributes_Attributes := 32;
  Update_Guid := 16; Update_Offset := 32; Update_Buffer := 40; Update_Length := 48;
  Restore_Guid := 16; Restore_Buffer := 32; Restore_Length := 40;
  EFI_SMM_LOCK_BOX_COMMAND_SAVE := 1; EFI_SMM_LOCK_BOX_COMMAND_UPDATE := 2; EFI_SMM_LOCK_BOX_COMMAND_RESTORE := 3;
  EFI_SMM_LOCK_BOX_COMMAND_SET_ATTRIBUTES := 4; EFI_SMM_LOCK_BOX_COMMAND_RESTORE_ALL_IN_PLACE := 5;
  status_code := fun st => match st with
    | EFI_SUCCESS => 0 | EFI_INVALID_PARAMETER => 0x80000002 | EFI_UNSUPPORTED => 0x80000003 | EFI_BAD_BUFFER_SIZE => 0x80000004 | EFI_BUFFER_TOO_SMALL => 0x80000005 | EFI_NOT_READY => 0x80000006
    | EFI_DEVICE_ERROR => 0x80000007 | EFI_OUT_OF_RESOURCES => 0x80000009 | EFI_NOT_FOUND => 0x8000000E
    | EFI_ACCESS_DENIED => 0x8000000F | EFI_TIMEOUT => 0x80000012 | EFI_ABORTED => 0x80000015 end;
  MAX_ADDRESS := 0xFFFFFFFF
}.

#[local] Instance edk_header_ok : SmmLockBoxHeaderOk edk_header.
Proof.
  split; try by_compute.
  - intros []; by_compute.
  - intros [] []; done.
Qed.

#[local] Instance edk_layout : DescriptorLayout := {
  descriptor_at := fun l =>
    let field (k : nat) := foldr (fun b x => b + 256 * x) 0 (take 8 (drop (8 * k) l)) in
    {| PhysicalStart := field 0%nat; CpuStart := field 1%nat; PhysicalSize := field 2%nat; RegionState := field 3%nat |}
}.

Lemma le_value n x : in_width (8 * Z.of_nat n) x -> foldr (fun b y => b + 256 * y) 0 (le_bytes n x) = x.
Proof.
  revert x. induction n as [|n IH]; intros x Hx; [unfold in_width in Hx; cbn in *; lia|]. cbn [le_bytes foldr]. rewrite IH.
  - rewrite Z.shiftr_div_pow2 by lia. change 0xFF with (Z.ones 8). rewrite Z.land_ones by lia. change (2 ^ 8) with 256. pose proof (Z.div_mod x 256). lia.
  - unfold in_width in *. rewrite Z.shiftr_div_pow2 by lia. change (2 ^ 8) with 256.
    rewrite Nat2Z.inj_succ, Z.mul_succ_r, Z.pow_add_r in Hx by lia. change (2 ^ 8) with 256 in Hx.
    split; [apply Z.div_pos; lia|]. apply Z.div_lt_upper_bound; lia.
Qed.

#[local] Instance edk_layout_ok : DescriptorLayoutOk edk_layout.
Proof.
  split. intros d rest (H1 & H2 & H3 & H4). cbn [descriptor_at edk_layout desc_bytes PiHeader.header].
  rewrite <- !app_assoc. destruct d as [a b c e]. cbn [PhysicalStart CpuStart PhysicalSize RegionState] in *. f_equal.
  - change (8 * 0)%nat with 0%nat. rewrite drop_0, take_app_le, take_ge by (rewrite le_bytes_length; lia). by apply le_value.
  - rewrite drop_app_ge by (rewrite le_bytes_length; lia). rewrite le_bytes_length. change (8 * 1 - 8)%nat with 0%nat.
    rewrite drop_0, take_app_le, take_ge by (rewrite le_bytes_length; lia). by apply le_value.
  - do 2 (rewrite drop_app_ge by (rewrite ?le_bytes_length; lia)). rewrite !le_bytes_length. change (8 * 2 - 8 - 8)%nat with 0%nat.
    rewrite drop_0, take_app_le, take_ge by (rewrite le_bytes_length; lia). by apply le_value.
  - do 3 (rewrite drop_app_ge by (rewrite ?le_bytes_length; lia)). rewrite !le_bytes_length. change (8 * 3 - 8 - 8 - 8)%nat with 0%nat.
    rewrite drop_0, take_app_le, take_ge by (rewrite le_bytes_length; lia). by apply le_value.
Qed.

(** ** A library: boxes by GUID, with the places that they were saved from; no box is restored in
    place *)

Definition library : Type := (Z -> option (list Z)) * list (Z * Z).

Definition set_box (g : Z) (d : list Z) (b : library) : library := (fun g' => if g' =? g then Some d else b.1 g', b.2).
Definition put_bytes (a : Z) (d : list Z) (m : memory) : memory :=
  fun x => if (a <=? x) && (x <? a + Z.of_nat (length d)) then default 0 (d !! Z.to_nat (x - a)) else m x.

#[local] Instance lib : LockBoxLib library := {
  SaveLockBox g a n := fun '(m, b) =>
    match b.1 g with
    | Some _ => Some (EFI_INVALID_PARAMETER, (m, b))
    | None => Some (EFI_SUCCESS, (m, ((set_box g (bytes m a (Z.to_nat n)) b).1, (a, n) :: b.2)))
    end;
  SetLockBoxAttributes g attr := fun mb => Some (EFI_UNSUPPORTED, mb);
  UpdateLockBox g o a n := fun '(m, b) =>
    match b.1 g with
    | None => Some (EFI_NOT_FOUND, (m, b))
    | Some d => if o + n <=? Z.of_nat (length d)
                then Some (EFI_SUCCESS, (m, set_box g (take (Z.to_nat o) d ++ bytes m a (Z.to_nat n) ++ drop (Z.to_nat (o + n)) d) b))
                else Some (EFI_BUFFER_TOO_SMALL, (m, b))
    end;
  RestoreLockBox g p := fun '(m, b) =>
    match p with
    | None => Some (EFI_ACCESS_DENIED, (m, b))
    | Some (a, n) =>
        if a =? 0 then Some (EFI_INVALID_PARAMETER, (m, b)) else
        match b.1 g with
        | None => Some (EFI_NOT_FOUND, (m, b))
        | Some d => if n <? Z.of_nat (length d) then Some (EFI_BUFFER_TOO_SMALL, (m, b)) else Some (EFI_SUCCESS, (put_bytes a d m, b))
        end
    end;
  RestoreAllLockBoxInPlace := fun mb => Some (EFI_SUCCESS, mb)
}.

Lemma put_bytes_agree a d m : agree_but (range a (Z.of_nat (length d))) m (put_bytes a d m).
Proof.
  intros x Hx. unfold put_bytes, range in *. destruct (Z.leb_spec a x); [|done]. by destruct (Z.ltb_spec x (a + Z.of_nat (length d))); [lia|].
Qed.

Lemma put_bytes_read a d m : bytes (put_bytes a d m) a (length d) = d.
Proof.
  apply list_eq. intros i. unfold bytes. rewrite list_lookup_fmap. destruct (decide (i < length d)%nat) as [Hi|Hi].
  - rewrite lookup_seq_lt by done. cbn. unfold put_bytes. destruct (Z.leb_spec a (a + Z.of_nat i)); [|lia].
    destruct (Z.ltb_spec (a + Z.of_nat i) (a + Z.of_nat (length d))); [|lia]. cbn [andb].
    replace (Z.to_nat (a + Z.of_nat i - a)) with i by lia. destruct (lookup_lt_is_Some_2 d i Hi) as [x ->]. done.
  - rewrite lookup_seq_ge by lia. cbn. symmetry. apply lookup_ge_None. lia.
Qed.

#[local] Instance lib_ok : LockBoxLibOk library.
Proof.
  unshelve refine {| contents := fun b : library => b.1; places := fun b : library => b.2 |}.
  - intros g a n Q m b QE QS. unfold wp. cbn. destruct (b.1 g).
    + eexists _, _. split; [done|]. by apply QE.
    + eexists _, _. split; [done|]. apply QS; [done|]. cbn. intros p Hp. by apply elem_of_cons in Hp.
  - intros g attr Q m b HQ. eexists _, _. split; [done|]. by apply HQ.
  - intros g o a n Q m b HQ. unfold wp. cbn. destruct (b.1 g) as [d|]; [|by eexists _, _; split; [done|]; apply HQ].
    destruct (o + n <=? _); eexists _, _; (split; [done|]); apply HQ; try done.
    intros g' Hg. cbn. by destruct (Z.eqb_spec g' g).
  - intros g a n Q m b QE QS. unfold wp. cbn. destruct (Z.eqb_spec a 0).
    { eexists _, _. split; [done|]. apply QE; [done|by left|done]. }
    destruct (b.1 g) as [d|] eqn:Hg; cycle 1.
    { eexists _, _. split; [done|]. apply QE; [done|right; by left|done]. }
    destruct (Z.ltb_spec n (Z.of_nat (length d))).
    + eexists _, _. split; [done|]. apply QE; [done| |done]. right. right. by exists d.
    + eexists _, _. split; [done|]. apply (QS d); [done|lia|apply put_bytes_read|apply put_bytes_agree|done].
  - intros g Q m b HQ. eexists _, _. split; [done|]. by apply HQ.
  - intros Q m b HQ. eexists _, _. split; [done|]. by apply HQ.
Defined.

(** ** Memory with requests

    A save of the four bytes at 0x2000 in the communication buffer at 0x1000, a restore of them to
    0x4000 in the one at 0x3000; SMRAM is the region of the board. *)

Definition request (P c g a n : Z) (m : memory) : memory :=
  store 4 P c (store 16 (P + 16) g (store 8 (P + 32) a (store 8 (P + 40) n m))).
Definition sample_memory : memory :=
  request 0x1000 1 0x77 0x2000 4 (request 0x3000 3 0x77 0x4000 16 (put_bytes 0x2000 [1; 2; 3; 4] (fun _ => 0xAA))).

Definition sample_box (l : bool) : lockbox library :=
  {| mem := sample_memory; boxes := (fun _ => None, []); mLocked := l; mSmramRanges := board_hob.(Descriptor); mSmramRangeCount := 1 |}.

Lemma sample_ranges l : ranges_ok (sample_box l).
Proof. split; [done|]. apply Forall_cons. split; [cbn; lia|by apply Forall_nil]. Qed.

Lemma sample_ok l : lb_ok (sample_box l).
Proof. split; [apply sample_ranges|]. intros p Hp. inversion Hp. Qed.

(** Addresses below the region are acceptable. *)
Lemma below_board (s : lockbox library) a n :
  s.(mSmramRanges) = board_hob.(Descriptor) -> 0 <= n -> a + n <= 0xFE00000 -> a < 0xFE00000 -> acceptable s a n.
Proof.
  intros Hs Hn Ha Ha'. split; [unfold MAX_ADDRESS, edk_header; lia|]. intros x (r & Hr & Hx). rewrite Hs in Hr.
  apply elem_of_cons in Hr as [-> |Hr]; [|by apply elem_of_nil in Hr]. unfold range in *. cbn in Hx. lia.
Qed.

(** The state after a computation. *)
Definition after {A S} (r : option (A * S)) (s : S) : S := match r with Some (_, s') => s' | None => s end.

Definition saved : lockbox library := after (SmmLockBoxHandler 0x1000 (Some 48) (sample_box false)) (sample_box false).
Definition saved_locked : lockbox library := after (SmmReadyToLockEventNotify saved) saved.

(** ** Witnesses *)

Lemma SmmLockBoxHandler_confined_witness :
  relations.rtc step (sample_box false) saved_locked /\
  (forall r x, r ∈ board_hob.(Descriptor) -> r.(CpuStart) <= x < r.(CpuStart) + r.(PhysicalSize) -> saved_locked.(mem) x = sample_memory x) /\
  forall a n, in_width 32 a -> (forall k, n = Some k -> in_width 32 k) ->
    exists s2, SmmLockBoxHandler a n saved_locked = Some (EFI_SUCCESS, s2).
Proof.
  assert (Hs : relations.rtc step (sample_box false) saved_locked).
  { eapply relations.rtc_l; [|eapply relations.rtc_l; [|apply relations.rtc_refl]].
    - apply (step_smi 0x1000 (Some 48) EFI_SUCCESS _ saved); [by_compute|intros k [= <-]; by_compute|reflexivity].
    - apply (step_lock EFI_SUCCESS). reflexivity. }
  split; [exact Hs|]. exact (SmmLockBoxHandler_confined (sample_box false) saved_locked (sample_ok false) Hs).
Defined.

Lemma IsAddressValid_exact_witness :
  exists b, IsAddressValid 0xFDFFFFF 2 (sample_box false) = Some (b, sample_box false) /\
    (b = true <-> 0xFDFFFFF + 2 <= 2 ^ 32 - 1 /\
       forall r x, r ∈ board_hob.(Descriptor) -> r.(CpuStart) <= x < r.(CpuStart) + r.(PhysicalSize) ->
         x <> 0xFDFFFFF /\ ~ (0xFDFFFFF <= x < 0xFDFFFFF + 2)).
Proof. apply (IsAddressValid_exact (sample_box false) 0xFDFFFFF 2); [apply sample_ranges|by_compute|by_compute]. Defined.

Lemma SmmLockBoxHandler_refuses_witness :
  SmmLockBoxHandler 0xFDFFFFF (Some 48) (sample_box true) = Some (EFI_SUCCESS, sample_box true) /\
  exists s', SmmLockBoxHandler 0x1000 (Some 48) (sample_box true) = Some (EFI_SUCCESS, s') /\
    load 8 s'.(mem) 0x1008 = 0x8000000F /\ load 4 s'.(mem) 0x1000 = 2 ^ 32 - 1.
Proof.
  destruct (SmmLockBoxHandler_refuses (sample_box true) 0xFDFFFFF 48) as [H1 _]; [apply sample_ranges|by_compute|by_compute|].
  destruct (SmmLockBoxHandler_refuses (sample_box true) 0x1000 48) as [_ H2]; [apply sample_ranges|by_compute|by_compute|].
  split.
  - apply H1. intros (_ & _ & _ & Hx). apply (Hx 0xFE00000); [|unfold range; lia].
    exists {| PhysicalStart := 0xFE00000; CpuStart := 0xFE00000; PhysicalSize := 0x200000; RegionState := 0x12 |}.
    split; [by left|]. unfold range. cbn. lia.
  - destruct (H2 ltac:(lia) ltac:(by_compute) ltac:(by apply below_board) 0x8000000F) as (s' & Hx & Hr & Hc & _); [vm_compute; reflexivity|].
    exists s'. split; [exact Hx|]. split; [exact Hr|exact Hc].
Defined.

(** Between the save and the lock the buffer is overwritten and saved as another box; after the lock an adversary asks to save it as the
    first box. *)
Definition overwritten (g : Z) (s : lockbox library) : lockbox library :=
  set_mem (request 0x1000 1 g 0x2000 4 (put_bytes 0x2000 [9; 9; 9; 9] s.(mem))) s.
Definition asked (g : Z) (s : lockbox library) : lockbox library :=
  after (SmmLockBoxHandler 0x1000 (Some 48) (overwritten g s)) s.
Definition busy : lockbox library := asked 0x78 saved.
Definition busy_locked : lockbox library := after (SmmReadyToLockEventNotify busy) busy.
Definition attacked : lockbox library := asked 0x77 busy_locked.

Lemma overwritten_outside g (s : lockbox library) x : s.(mSmramRanges) = board_hob.(Descriptor) -> smram s x -> (overwritten g s).(mem) x = s.(mem) x.
Proof.
  intros Hs (r & Hr & Hx). rewrite Hs in Hr. apply elem_of_cons in Hr as [-> |Hr]; [|by apply elem_of_nil in Hr]. unfold range in Hx. cbn in Hx.
  cbn [overwritten set_mem mem]. unfold request. rewrite !store_agree by (unfold range; lia). apply put_bytes_agree. unfold range. cbn. lia.
Qed.

Lemma SmmLockBox_save_restore_witness :
  contents busy.(boxes) 0x78 = Some [9; 9; 9; 9] /\
  exists s5, SmmLockBoxHandler 0x3000 (Some 48) attacked = Some (EFI_SUCCESS, s5) /\
    load 8 s5.(mem) 0x3008 = 0 /\ bytes s5.(mem) 0x4000 4 = [1; 2; 3; 4].
Proof.
  split; [vm_compute; reflexivity|].
  destruct (SmmLockBox_save_restore (sample_box false) saved busy busy_locked attacked EFI_SUCCESS EFI_SUCCESS
    0x1000 48 0x77 0x2000 4 0x3000 48 0x4000 16) as (s5 & Hx & Hr & Hb).
  - apply sample_ok.
  - split; [lia|]. split; [by_compute|]. split; [by_compute|]. split; [by_compute|]. by apply below_board.
  - by_compute.
  - split; [vm_compute; reflexivity|]. split; [vm_compute; reflexivity|]. split; vm_compute; reflexivity.
  - intros x Hx. unfold range, sizeof_HEADER, edk_header in *. lia.
  - reflexivity.
  - vm_compute. reflexivity.
  - eapply relations.rtc_l; [|eapply relations.rtc_l; [|apply relations.rtc_refl]].
    + apply (but_other 0x77 saved (overwritten 0x78 saved).(mem)). intros x. by apply overwritten_outside.
    + apply (but_smi 0x77 0x1000 (Some 48) EFI_SUCCESS (overwritten 0x78 saved) busy); [by_compute|intros k [= <-]; by_compute| |reflexivity].
      intros [[_ Hg]|[Hc _]]; vm_compute in *; discriminate.
  - reflexivity.
  - eapply relations.rtc_l; [|eapply relations.rtc_l; [|apply relations.rtc_refl]].
    + apply (step_other busy_locked (overwritten 0x77 busy_locked).(mem)). intros x. by apply overwritten_outside.
    + apply (step_smi 0x1000 (Some 48) EFI_SUCCESS (overwritten 0x77 busy_locked) attacked); [by_compute|intros k [= <-]; by_compute|reflexivity].
  - split; [lia|]. split; [by_compute|]. split; [by_compute|]. split; [by_compute|]. by apply below_board.
  - by_compute.
  - split; [vm_compute; reflexivity|]. split; [vm_compute; reflexivity|]. split; vm_compute; reflexivity.
  - lia.
  - by apply below_board.
  - lia.
  - intros x Hx. unfold range, sizeof_HEADER, edk_header in *. lia.
  - exists s5. split; [exact Hx|]. split; [exact Hr|]. etransitivity; [exact Hb|]. vm_compute. reflexivity.
Defined.

(** Behind the SMM access driver on the board. *)
Definition empty_box : lockbox library :=
  {| mem := sample_memory; boxes := (fun _ => None, []); mLocked := false; mSmramRanges := []; mSmramRangeCount := 0 |}.

Lemma SmmLockBoxEntryPoint_ready_witness :
  exists s', SmmLockBoxEntryPoint EFI_SUCCESS EFI_SUCCESS EFI_SUCCESS EFI_SUCCESS EFI_SUCCESS (fun n => replicate (Z.to_nat n) 0)
      (board_started, empty_box) =
      Some (EFI_SUCCESS, (board_started, s')) /\
    s'.(mSmramRanges) = board_hob.(Descriptor) /\ s'.(mem) = sample_memory /\ s'.(boxes) = empty_box.(boxes) /\ lb_ok s'.
Proof.
  destruct (SmmLockBoxEntryPoint_ready (fun n => replicate (Z.to_nat n) 0) board_started empty_box) as (s' & Hx & Hr & Hm & Hb & Ho).
  - split; [cbn; lia|reflexivity].
  - discriminate.
  - intros n Hn. rewrite length_replicate. lia.
  - apply Forall_cons. split; [|by apply Forall_nil]. split; [split_and!; by_compute|]. cbn. lia.
  - reflexivity.
  - exists s'. split; [exact Hx|]. split; [rewrite Hr; reflexivity|]. split; [exact Hm|]. split; [exact Hb|exact Ho].
Defined.
