(* ===== verification/FtwDefs.v ===== *)
(** * The fault-tolerant write driver's work space: definitions

    Models [MdeModulePkg/Universal/FaultTolerantWriteDxe/UpdateWorkingBlock.c] and the part of
    [FtwMisc.c] on the work space and the copies of the spare block (the platform's overrides; the
    rest of the driver is not in the repository). The work space is a queue of write records in
    flash; it is replaced by way of a spare block, so that it survives a loss of power. The layout of
    the records ([FtwLayout]) comes from the driver's header, the flash from the firmware volume block
    services ([FvbServices]). [FindFvbForFtw] makes the length of the spare area
    [NumberOfSpareBlock * BlockSize], the length of the buffers that [read_blocks] fills. *)

From S2P Require Import Prelude.
#[local] Open Scope Z_scope.

(** ** The headers *)

Class FtwLayout := {
  (* EFI_FAULT_TOLERANT_WORKING_BLOCK_HEADER: its size, the offsets of fields, the bits of the byte of
     states behind Signature and Crc, and the signature's bytes *)
  sizeof_HEADER : nat;
  offset_Crc : nat;
  offset_WriteQueueSize : nat;
  bit_WorkingBlockValid : Z;
  bit_WorkingBlockInvalid : Z;
  gEdkiiWorkingBlockSignatureGuid : list Z;
  (* FaultTolerantWrite.h *)
  FTW_ERASED_BYTE : Z;
  FTW_POLARITY_REVERT : Z;
  FTW_ERASE_POLARITY : Z;
  FTW_VALID_STATE : Z;
  FTW_INVALID_STATE : Z;
  WORKING_BLOCK_VALID : Z;
  WORKING_BLOCK_INVALID : Z;
  (* EFI_FAULT_TOLERANT_WRITE_HEADER and EFI_FAULT_TOLERANT_WRITE_RECORD: sizes and fields, from the bytes
     where they begin; [None] when there are too few *)
  sizeof_WRITE_HEADER : Z;
  sizeof_WRITE_RECORD : Z;
  HeaderAllocated : list Z -> option Z;
  Complete : list Z -> option Z;
  NumberOfWrites : list Z -> option Z;
  PrivateDataSize : list Z -> option Z;
  DestinationComplete : list Z -> option Z;
  FTW_WRITE_TOTAL_SIZE : Z -> Z -> Z;
  FTW_RECORD_SIZE : Z -> Z
}.

(** [sizeof (EFI_GUID) + sizeof (UINT32)]. *)
Definition state_offset : nat := 16 + 4.

(** The firmware volume block protocols by their handles: what they return, and the bytes they read.
    Memory allocation may fail, and is part of the same environment. *)
Class FvbServices (D : Type) := {
  FvbRead (Fvb Lba Offset Length : Z) : M D (EFI_STATUS * list Z);
  FvbWrite (Fvb Lba Offset : Z) (Buffer : list Z) : M D EFI_STATUS;
  FvbEraseBlocks (Fvb Lba NumberOfBlocks : Z) : M D EFI_STATUS;
  AllocatePool (Length : Z) : M D bool;
  CalculateCrc32 (Buffer : list Z) : M D (EFI_STATUS * Z)
}.

(** [EFI_FTW_DEVICE]; the pointers into the work space are offsets. *)
Record FTW_DEVICE := {
  FtwFvBlock : Z; FtwBackupFvb : Z;
  FtwWorkSpaceLba : Z; FtwWorkBlockLba : Z; FtwSpareLba : Z;
  NumberOfSpareBlock : nat; BlockSize : Z; SpareAreaLength : Z;
  FtwWorkSpaceBase : Z; FtwWorkSpaceSize : Z;
  FtwWorkSpace : list Z;
  FtwLastWriteHeader : Z; FtwLastWriteRecord : Z
}.

Record ftw (D : Type) := { dev : FTW_DEVICE; flash : D; mWorkingBlockHeader : list Z }.
Arguments dev {D} _.
Arguments flash {D} _.
Arguments mWorkingBlockHeader {D} _.

Definition set_work_space (l : list Z) (d : FTW_DEVICE) : FTW_DEVICE :=
  {| FtwFvBlock := d.(FtwFvBlock); FtwBackupFvb := d.(FtwBackupFvb); FtwWorkSpaceLba := d.(FtwWorkSpaceLba);
     FtwWorkBlockLba := d.(FtwWorkBlockLba); FtwSpareLba := d.(FtwSpareLba); NumberOfSpareBlock := d.(NumberOfSpareBlock);
     BlockSize := d.(BlockSize); SpareAreaLength := d.(SpareAreaLength); FtwWorkSpaceBase := d.(FtwWorkSpaceBase);
     FtwWorkSpaceSize := d.(FtwWorkSpaceSize); FtwWorkSpace := l;
     FtwLastWriteHeader := d.(FtwLastWriteHeader); FtwLastWriteRecord := d.(FtwLastWriteRecord) |}.
Definition set_last (h r : Z) (d : FTW_DEVICE) : FTW_DEVICE :=
  {| FtwFvBlock := d.(FtwFvBlock); FtwBackupFvb := d.(FtwBackupFvb); FtwWorkSpaceLba := d.(FtwWorkSpaceLba);
     FtwWorkBlockLba := d.(FtwWorkBlockLba); FtwSpareLba := d.(FtwSpareLba); NumberOfSpareBlock := d.(NumberOfSpareBlock);
     BlockSize := d.(BlockSize); SpareAreaLength := d.(SpareAreaLength); FtwWorkSpaceBase := d.(FtwWorkSpaceBase);
     FtwWorkSpaceSize := d.(FtwWorkSpaceSize); FtwWorkSpace := d.(FtwWorkSpace);
     FtwLastWriteHeader := h; FtwLastWriteRecord := r |}.

(** [SetMem] with the erased byte, and [CopyMem] into a buffer at an offset: out of range they write
    past the end, which stops. *)
Definition copy_at (o : nat) (src dst : list Z) : option (list Z) :=
  if bool_decide (o + length src <= length dst)%nat then Some (take o dst ++ src ++ drop (o + length src) dst) else None.

(** [CopyMem] from a buffer at an offset: past its end it stops. *)
Definition slice (o n : nat) (l : list Z) : option (list Z) :=
  if bool_decide (o + n <= length l)%nat then Some (take n (drop o l)) else None.

(** A bit field of one bit in a byte of a buffer. *)
Definition set_field (o : nat) (bit v : Z) (l : list Z) : option (list Z) :=
  x ← l !! o; Some (<[o := if v =? 0 then Z.clearbit x bit else Z.setbit x bit]> l).

Fixpoint little_endian (n : nat) (x : Z) : list Z :=
  match n with O => [] | S n => u8 x :: little_endian n (Z.shiftr x 8) end.

Section Ftw.
Context {FL : FtwLayout} {D : Type} {FV : FvbServices D}.

Definition on_flash {A} (m : M D A) : M (ftw D) A := fun s =>
  match m s.(flash) with
  | Some (a, d) => Some (a, {| dev := s.(dev); flash := d; mWorkingBlockHeader := s.(mWorkingBlockHeader) |})
  | None => None
  end.
Definition on_dev (f : FTW_DEVICE -> FTW_DEVICE) : M (ftw D) unit :=
  modify (fun s => {| dev := f s.(dev); flash := s.(flash); mWorkingBlockHeader := s.(mWorkingBlockHeader) |}).
Definition Dev : M (ftw D) FTW_DEVICE := gets dev.

(** ** [UpdateWorkingBlock.c] *)

(** A header that has the signature was initialised before. *)
Definition InitializeLocalWorkSpaceHeader (PcdFlashNvStorageFtwWorkingSize : Z) : M (ftw D) unit :=
  s ← get;
  if bool_decide (take 16 s.(mWorkingBlockHeader) = gEdkiiWorkingBlockSignatureGuid) then mret tt
  else
    let h := replicate sizeof_HEADER FTW_ERASED_BYTE in
    h ← lift (copy_at 0 gEdkiiWorkingBlockSignatureGuid h);
    h ← lift (copy_at offset_WriteQueueSize (little_endian 8 (u64 (u32 (PcdFlashNvStorageFtwWorkingSize - Z.of_nat sizeof_HEADER)))) h);
    '(Status, Crc) ← on_flash (CalculateCrc32 h);
    _ ← ASSERT (negb (EFI_ERROR Status));
    h ← lift (copy_at offset_Crc (little_endian 4 Crc) h);
    h ← lift (set_field state_offset bit_WorkingBlockValid FTW_VALID_STATE h);
    h ← lift (set_field state_offset bit_WorkingBlockInvalid FTW_INVALID_STATE h);
    modify (fun s => {| dev := s.(dev); flash := s.(flash); mWorkingBlockHeader := h |}).

(** The header at the beginning of a buffer. *)
Definition IsValidWorkSpace (WorkingHeader : list Z) : M (ftw D) bool :=
  s ← get; mret (bool_decide (take sizeof_HEADER WorkingHeader = s.(mWorkingBlockHeader))).

(** The header is copied to an offset of a buffer. *)
Definition InitWorkSpaceHeader (o : nat) (Buffer : list Z) : M (ftw D) (list Z) :=
  s ← get; lift (copy_at o s.(mWorkingBlockHeader) Buffer).

(** ** Records *)

(** The loop of [FtwGetLastWriteHeader]; the measure is the distance to the end. *)
Fixpoint header_loop (n : nat) (l : list Z) (Size Offset : Z) : option (EFI_STATUS * Z) :=
  match n with
  | O => None
  | S n =>
      c ← Complete (drop (Z.to_nat Offset) l);
      if c =? FTW_VALID_STATE then
        w ← NumberOfWrites (drop (Z.to_nat Offset) l);
        p ← PrivateDataSize (drop (Z.to_nat Offset) l);
        let Offset' := u32 (Offset + FTW_WRITE_TOTAL_SIZE w p) in
        if Offset' >=? Size then Some (EFI_ABORTED, Offset)
        else header_loop n l Size Offset'
      else Some (EFI_SUCCESS, Offset)
  end.
Definition FtwGetLastWriteHeader (l : list Z) (Size : Z) : option (EFI_STATUS * Z) :=
  header_loop (S (length l)) l Size (Z.of_nat sizeof_HEADER).

(** The loop of [FtwGetLastWriteRecord] from the record [Index] at offset [r] on. *)
Fixpoint record_loop (n : nat) (l : list Z) (Writes Private Index r : Z) : option (EFI_STATUS * Z) :=
  match n with
  | O => None
  | S n =>
      if Index <? Writes then
        c ← DestinationComplete (drop (Z.to_nat r) l);
        if negb (c =? FTW_VALID_STATE) then Some (EFI_SUCCESS, r)
        else record_loop n l Writes Private (Index + 1) (r + sizeof_WRITE_RECORD + (if negb (Private =? 0) then Private else 0))
      else Some (EFI_SUCCESS, r - FTW_RECORD_SIZE Private)
  end.
Definition FtwGetLastWriteRecord (l : list Z) (h : Z) : option (EFI_STATUS * Z) :=
  w ← NumberOfWrites (drop (Z.to_nat h) l);
  p ← PrivateDataSize (drop (Z.to_nat h) l);
  record_loop (S (length l)) l w p 0 (h + sizeof_WRITE_HEADER).

Definition IsFirstRecordOfWrites (h r : Z) : bool := h + sizeof_WRITE_HEADER =? r.

Definition IsLastRecordOfWrites (l : list Z) (h r : Z) : option bool :=
  w ← NumberOfWrites (drop (Z.to_nat h) l);
  p ← PrivateDataSize (drop (Z.to_nat h) l);
  Some (h + FTW_WRITE_TOTAL_SIZE (w - 1) p =? r).

(** The previous record, [None] for NULL. *)
Definition GetPreviousRecordOfWrites (l : list Z) (h r : Z) : option (EFI_STATUS * option Z) :=
  if IsFirstRecordOfWrites h r then Some (EFI_ACCESS_DENIED, None)
  else p ← PrivateDataSize (drop (Z.to_nat h) l); Some (EFI_SUCCESS, Some (r - FTW_RECORD_SIZE p)).

Definition IsErasedFlashBuffer (Buffer : list Z) : bool := forallb (fun x => x =? FTW_ERASED_BYTE) Buffer.

(** ** Blocks *)

Definition FtwEraseBlock (Fvb Lba : Z) : M (ftw D) EFI_STATUS :=
  d ← Dev; on_flash (FvbEraseBlocks Fvb Lba (Z.of_nat d.(NumberOfSpareBlock))).

Definition FtwEraseSpareBlock : M (ftw D) EFI_STATUS :=
  d ← Dev; on_flash (FvbEraseBlocks d.(FtwBackupFvb) d.(FtwSpareLba) (Z.of_nat d.(NumberOfSpareBlock))).

Definition IsWorkingBlock (d : FTW_DEVICE) (Fvb Lba : Z) : bool :=
  (Fvb =? d.(FtwFvBlock)) && (d.(FtwWorkBlockLba) <=? Lba) && (Lba <=? d.(FtwWorkSpaceLba)).

Definition FtwUpdateFvState (Fvb Lba Offset NewBit : Z) : M (ftw D) EFI_STATUS :=
  '(Status, b) ← on_flash (FvbRead Fvb Lba Offset 1);
  if EFI_ERROR Status then mret EFI_ABORTED
  else
    State ← lift (b !! 0%nat);
    let State := u8 (Z.lxor State FTW_POLARITY_REVERT) in
    let State := u8 (Z.lor State NewBit) in
    let State := u8 (Z.lxor State FTW_POLARITY_REVERT) in
    on_flash (FvbWrite Fvb Lba Offset [State]).

(** Read [n] blocks from [Lba] on, one after the other, into a buffer. *)
Fixpoint read_blocks (n : nat) (Fvb Lba Size : Z) (Buffer : list Z) : M (ftw D) (EFI_STATUS * list Z) :=
  match n with
  | O => mret (EFI_SUCCESS, Buffer)
  | S n =>
      '(Status, b) ← on_flash (FvbRead Fvb Lba 0 Size);
      if EFI_ERROR Status then mret (Status, Buffer) else read_blocks n Fvb (Lba + 1) Size (Buffer ++ b)
  end.

Fixpoint write_blocks (n : nat) (Fvb Lba Size : Z) (Buffer : list Z) : M (ftw D) EFI_STATUS :=
  match n with
  | O => mret EFI_SUCCESS
  | S n =>
      Status ← on_flash (FvbWrite Fvb Lba 0 (take (Z.to_nat Size) Buffer));
      if EFI_ERROR Status then mret Status else write_blocks n Fvb (Lba + 1) Size (drop (Z.to_nat Size) Buffer)
  end.

Definition FlushSpareBlockToTargetBlock (Fvb Lba : Z) : M (ftw D) EFI_STATUS :=
  if Fvb =? 0 then mret EFI_INVALID_PARAMETER else
  d ← Dev;
  ok ← on_flash (AllocatePool d.(SpareAreaLength));
  if negb ok then mret EFI_OUT_OF_RESOURCES else
  '(Status, Buffer) ← read_blocks d.(NumberOfSpareBlock) d.(FtwBackupFvb) d.(FtwSpareLba) d.(BlockSize) [];
  if EFI_ERROR Status then mret Status else
  Status ← FtwEraseBlock Fvb Lba;
  if EFI_ERROR Status then mret EFI_ABORTED else
  write_blocks d.(NumberOfSpareBlock) Fvb Lba d.(BlockSize) Buffer.

(** A state bit of the header in memory. *)
Definition set_header_state (bit v : Z) : M (ftw D) unit :=
  d ← Dev; l ← lift (set_field state_offset bit v d.(FtwWorkSpace)); on_dev (set_work_space l).

(** The offset of the work space in the blocks of the working block. *)
Definition work_offset (d : FTW_DEVICE) : nat :=
  Z.to_nat ((d.(FtwWorkSpaceLba) - d.(FtwWorkBlockLba)) * d.(BlockSize) + d.(FtwWorkSpaceBase)).

Definition FlushSpareBlockToWorkingBlock : M (ftw D) EFI_STATUS :=
  d ← Dev;
  ok ← on_flash (AllocatePool d.(SpareAreaLength));
  if negb ok then mret EFI_OUT_OF_RESOURCES else
  let WorkSpaceLbaOffset := d.(FtwWorkSpaceLba) - d.(FtwWorkBlockLba) in
  let Offset := d.(FtwWorkSpaceBase) + Z.of_nat state_offset in
  _ ← FtwUpdateFvState d.(FtwBackupFvb) (d.(FtwSpareLba) + WorkSpaceLbaOffset) Offset WORKING_BLOCK_VALID;
  '(Status, Buffer) ← read_blocks d.(NumberOfSpareBlock) d.(FtwBackupFvb) d.(FtwSpareLba) d.(BlockSize) [];
  if EFI_ERROR Status then mret Status else
  Buffer ← InitWorkSpaceHeader (work_offset d) Buffer;
  Buffer ← lift (set_field (work_offset d + state_offset) bit_WorkingBlockValid FTW_ERASE_POLARITY Buffer);
  Buffer ← lift (set_field (work_offset d + state_offset) bit_WorkingBlockInvalid FTW_ERASE_POLARITY Buffer);
  Status ← FtwUpdateFvState d.(FtwFvBlock) d.(FtwWorkSpaceLba) Offset WORKING_BLOCK_INVALID;
  if EFI_ERROR Status then mret EFI_ABORTED else
  _ ← set_header_state bit_WorkingBlockInvalid FTW_VALID_STATE;
  Status ← FtwEraseBlock d.(FtwFvBlock) d.(FtwWorkBlockLba);
  if EFI_ERROR Status then mret EFI_ABORTED else
  Status ← write_blocks d.(NumberOfSpareBlock) d.(FtwFvBlock) d.(FtwWorkBlockLba) d.(BlockSize) Buffer;
  if EFI_ERROR Status then mret Status else
  Status ← FtwUpdateFvState d.(FtwFvBlock) d.(FtwWorkSpaceLba) Offset WORKING_BLOCK_VALID;
  if EFI_ERROR Status then mret EFI_ABORTED else
  _ ← set_header_state bit_WorkingBlockInvalid FTW_INVALID_STATE;
  _ ← set_header_state bit_WorkingBlockValid FTW_VALID_STATE;
  mret EFI_SUCCESS.

(** ** Reclaiming the work space *)

(** The new contents: the header, and the last write header with its records when it is not complete. *)
Definition fresh_work_space (PreserveRecord : bool) (d : FTW_DEVICE) : option (list Z) :=
  let l := d.(FtwWorkSpace) in
  let Ptr := replicate (Z.to_nat d.(FtwWorkSpaceSize)) FTW_ERASED_BYTE in
  h ← slice 0 sizeof_HEADER l;
  Ptr ← copy_at 0 h Ptr;
  if PreserveRecord then
    '(Status, Header) ← FtwGetLastWriteHeader l d.(FtwWorkSpaceSize);
    if EFI_ERROR Status then Some Ptr else
    c ← Complete (drop (Z.to_nat Header) l);
    a ← HeaderAllocated (drop (Z.to_nat Header) l);
    if negb (c =? FTW_VALID_STATE) && (a =? FTW_VALID_STATE) then
      w ← NumberOfWrites (drop (Z.to_nat Header) l);
      p ← PrivateDataSize (drop (Z.to_nat Header) l);
      r ← slice (Z.to_nat Header) (Z.to_nat (FTW_WRITE_TOTAL_SIZE w p)) l;
      copy_at sizeof_HEADER r Ptr
    else Some Ptr
  else Some Ptr.

Definition FtwReclaimWorkSpace (PreserveRecord : bool) : M (ftw D) EFI_STATUS :=
  d ← Dev;
  let WorkSpaceLbaOffset := d.(FtwWorkSpaceLba) - d.(FtwWorkBlockLba) in
  let Offset := d.(FtwWorkSpaceBase) + Z.of_nat state_offset in
  ok ← on_flash (AllocatePool d.(SpareAreaLength));
  if negb ok then mret EFI_OUT_OF_RESOURCES else
  '(Status, TempBuffer) ← read_blocks d.(NumberOfSpareBlock) d.(FtwFvBlock) d.(FtwWorkBlockLba) d.(BlockSize) [];
  if EFI_ERROR Status then mret EFI_ABORTED else
  new ← lift (fresh_work_space PreserveRecord d);
  TempBuffer ← lift (copy_at (work_offset d) new TempBuffer);
  '(_, h) ← lift (FtwGetLastWriteHeader new d.(FtwWorkSpaceSize));
  '(_, r) ← lift (FtwGetLastWriteRecord new h);
  _ ← on_dev (fun d => set_last h r (set_work_space new d));
  TempBuffer ← lift (set_field (work_offset d + state_offset) bit_WorkingBlockValid FTW_INVALID_STATE TempBuffer);
  TempBuffer ← lift (set_field (work_offset d + state_offset) bit_WorkingBlockInvalid FTW_INVALID_STATE TempBuffer);
  ok ← on_flash (AllocatePool d.(SpareAreaLength));
  if negb ok then mret EFI_OUT_OF_RESOURCES else
  '(Status, SpareBuffer) ← read_blocks d.(NumberOfSpareBlock) d.(FtwBackupFvb) d.(FtwSpareLba) d.(BlockSize) [];
  if EFI_ERROR Status then mret EFI_ABORTED else
  _ ← FtwEraseSpareBlock;
  Status ← write_blocks d.(NumberOfSpareBlock) d.(FtwBackupFvb) d.(FtwSpareLba) d.(BlockSize) TempBuffer;
  if EFI_ERROR Status then mret EFI_ABORTED else
  Status ← FtwUpdateFvState d.(FtwBackupFvb) (d.(FtwSpareLba) + WorkSpaceLbaOffset) Offset WORKING_BLOCK_VALID;
  if EFI_ERROR Status then mret EFI_ABORTED else
  Status ← FtwUpdateFvState d.(FtwFvBlock) d.(FtwWorkSpaceLba) Offset WORKING_BLOCK_INVALID;
  if EFI_ERROR Status then mret EFI_ABORTED else
  _ ← set_header_state bit_WorkingBlockInvalid FTW_VALID_STATE;
  Status ← FlushSpareBlockToWorkingBlock;
  if EFI_ERROR Status then mret Status else
  _ ← FtwEraseSpareBlock;
  Status ← write_blocks d.(NumberOfSpareBlock) d.(FtwBackupFvb) d.(FtwSpareLba) d.(BlockSize) SpareBuffer;
  if EFI_ERROR Status then mret EFI_ABORTED else mret EFI_SUCCESS.

(** ** Reading the work space *)

(** The loop of [WorkSpaceRefresh] that reads the working block, from the block [LbaIndex] on; [LbaIndex] is
    a byte, so that the loop ends after at most 256 iterations or never. The status is that of the last
    read. *)
Fixpoint refresh_loop (n : nat) (d : FTW_DEVICE) (LbaIndex : Z) (Status : EFI_STATUS) (Ptr : nat) (WorkSpace : list Z)
  : M (ftw D) (EFI_STATUS * list Z) :=
  match n with
  | O => stop
  | S n =>
      if LbaIndex <? d.(FtwWorkSpaceSize) / d.(BlockSize) then
        let '(Base, Length) :=
          if LbaIndex =? d.(FtwWorkSpaceSize) / d.(BlockSize) - 1 then
            (0, if d.(FtwWorkSpaceSize) mod d.(BlockSize) =? 0 then d.(BlockSize) else d.(FtwWorkSpaceSize) mod d.(BlockSize))
          else if LbaIndex =? 0 then (d.(FtwWorkSpaceBase), d.(BlockSize) - d.(FtwWorkSpaceBase))
          else (0, d.(BlockSize)) in
        '(Status, b) ← on_flash (FvbRead d.(FtwFvBlock) (d.(FtwWorkSpaceLba) + LbaIndex) Base Length);
        WorkSpace ← lift (copy_at Ptr b WorkSpace);
        refresh_loop n d (u8 (LbaIndex + 1)) Status (Ptr + length b) WorkSpace
      else mret (Status, WorkSpace)
  end.

(** The reading with what follows it, without the records. *)
Definition read_work_space (WorkSpace : list Z) : M (ftw D) (EFI_STATUS * EFI_STATUS) :=
  d ← Dev;
  '(Status, l) ← refresh_loop 257 d 0 EFI_SUCCESS 0 WorkSpace;
  _ ← on_dev (set_work_space l);
  if EFI_ERROR Status then mret (Status, Status) else
  '(Status', h) ← lift (FtwGetLastWriteHeader l d.(FtwWorkSpaceSize));
  _ ← on_dev (fun d => set_last h d.(FtwLastWriteRecord) d);
  mret (Status, Status').

Definition WorkSpaceRefresh : M (ftw D) EFI_STATUS :=
  d ← Dev;
  '(Status, Status') ← read_work_space (replicate (Z.to_nat d.(FtwWorkSpaceSize)) FTW_ERASED_BYTE);
  if EFI_ERROR Status then mret EFI_ABORTED else
  d ← Dev;
  let RemainingSpaceSize := u32 (d.(FtwWorkSpaceSize) - d.(FtwLastWriteHeader)) in
  Status ←
    (if EFI_ERROR Status' || (RemainingSpaceSize <? sizeof_WRITE_HEADER + sizeof_WRITE_RECORD) then
       Status ← FtwReclaimWorkSpace true;
       if EFI_ERROR Status then mret EFI_ABORTED else
       d ← Dev;
       '(Status, Status') ← read_work_space d.(FtwWorkSpace);
       mret (if EFI_ERROR Status || EFI_ERROR Status' then EFI_ABORTED else EFI_SUCCESS)
     else mret EFI_SUCCESS);
  if EFI_ERROR Status then mret Status else
  d ← Dev;
  '(Status, r) ← lift (FtwGetLastWriteRecord d.(FtwWorkSpace) d.(FtwLastWriteHeader));
  _ ← on_dev (set_last d.(FtwLastWriteHeader) r);
  mret (if EFI_ERROR Status then EFI_ABORTED else EFI_SUCCESS).

(** ** [InitFtwProtocol]

    The part on the work space: it is read from the working block, or else taken from the spare block, or
    else made anew. [FtwAbort] is not in the repository. *)
Definition InitFtwProtocol_work_space (FtwAbort : M (ftw D) EFI_STATUS) (PcdFlashNvStorageFtwWorkingSize : Z) : M (ftw D) unit :=
  _ ← InitializeLocalWorkSpaceHeader PcdFlashNvStorageFtwWorkingSize;
  Status ← WorkSpaceRefresh;
  _ ← ASSERT (negb (EFI_ERROR Status));
  d ← Dev;
  v ← IsValidWorkSpace d.(FtwWorkSpace);
  if (v : bool) then mret tt
  else
    let WorkSpaceLbaOffset := d.(FtwWorkSpaceLba) - d.(FtwWorkBlockLba) in
    '(Status, b) ← on_flash (FvbRead d.(FtwBackupFvb) (d.(FtwSpareLba) + WorkSpaceLbaOffset) d.(FtwWorkSpaceBase) d.(FtwWorkSpaceSize));
    l ← lift (copy_at 0 b d.(FtwWorkSpace));
    _ ← on_dev (set_work_space l);
    _ ← ASSERT (negb (EFI_ERROR Status));
    v ← IsValidWorkSpace l;
    if (v : bool) then
      _ ← FlushSpareBlockToWorkingBlock;
      _ ← FtwAbort;
      Status ← WorkSpaceRefresh;
      ASSERT (negb (EFI_ERROR Status))
    else
      l ← InitWorkSpaceHeader 0 (replicate (Z.to_nat d.(FtwWorkSpaceSize)) FTW_ERASED_BYTE);
      _ ← on_dev (set_work_space l);
      Status ← FtwReclaimWorkSpace false;
      ASSERT (negb (EFI_ERROR Status)).
End Ftw.
