(* ===== verification/FtwSpec.v ===== *)
(** * The fault-tolerant write driver: flash memory and loss of power

    What the driver relies on: the values of its constants ([FtwLayoutLaws]) and the behaviour of the
    firmware volume block services ([FvbLaws]). A write only clears bits and an erase sets the bytes of
    whole blocks; when the power fails during one of them, or when it returns an error, any subset of the
    bytes has its new value. [seen] are the contents that a loss of power may have left so far. *)

From S2P Require Import Prelude FtwDefs.
From stdpp Require Import list.
#[local] Open Scope Z_scope.

Class FtwLayoutLaws `{FtwLayout} := {
  ERASED_BYTE_value : FTW_ERASED_BYTE = 255;
  POLARITY_REVERT_value : FTW_POLARITY_REVERT = 255;
  ERASE_POLARITY_value : FTW_ERASE_POLARITY = 1;
  VALID_STATE_value : FTW_VALID_STATE = 0;
  INVALID_STATE_value : FTW_INVALID_STATE = 1;
  BLOCK_VALID_value : WORKING_BLOCK_VALID = 1;
  BLOCK_INVALID_value : WORKING_BLOCK_INVALID = 2;
  bit_Valid_value : bit_WorkingBlockValid = 0;
  bit_Invalid_value : bit_WorkingBlockInvalid = 1;
  Guid_length : length gEdkiiWorkingBlockSignatureGuid = 16%nat;
  Guid_bytes : Forall (in_width 8) gEdkiiWorkingBlockSignatureGuid;
  Crc_offset : offset_Crc = 16%nat;
  WriteQueueSize_offset : (state_offset < offset_WriteQueueSize /\ offset_WriteQueueSize + 8 <= sizeof_HEADER)%nat
}.

(** ** Contents of the flash *)

(** The bytes of the blocks of every firmware volume. *)
Definition img := Z -> Z -> nat -> Z.

Definition same (x y : img) : Prop := forall f l o, x f l o = y f l o.

(** Some bytes of [x] are those of [y]. *)
Definition torn (x y z : img) : Prop := forall f l o, z f l o = x f l o \/ z f l o = y f l o.

Definition write_img (f l o : Z) (b : list Z) (x : img) : img := fun f' l' o' =>
  if (f' =? f) && (l' =? l) && (o <=? Z.of_nat o') && (Z.of_nat o' <? o + Z.of_nat (length b)) then
    Z.land (x f' l' o') (b !!! (o' - Z.to_nat o)%nat)
  else x f' l' o'.

Definition erase_img (f l n : Z) (x : img) : img := fun f' l' o' =>
  if (f' =? f) && (l <=? l') && (l' <? l + n) then 255 else x f' l' o'.

Section Laws.
Context (D : Type).

(** The operation kept the contents. *)
Definition quiet (image : D -> img) (seen : D -> img -> Prop) (d d' : D) : Prop :=
  same (image d') (image d) /\ forall x, seen d' x -> seen d x.

(** The operation, with the status [st], was to change the contents to [y]. *)
Definition updates (image : D -> img) (seen : D -> img -> Prop) (y : img) (d d' : D) (st : EFI_STATUS) : Prop :=
  torn (image d) y (image d') /\
  (EFI_ERROR st = false -> same (image d') y) /\
  forall x, seen d' x -> seen d x \/ torn (image d) y x.

Class FvbLaws {FV : FvbServices D} := {
  BS : nat;
  image : D -> img;
  seen : D -> img -> Prop;
  seen_now : forall d, seen d (image d);
  image_byte : forall d f l o, in_width 8 (image d f l o);
  AllocatePool_law : forall n d, wp (AllocatePool n) (fun _ d' => quiet image seen d d') d;
  CalculateCrc32_law : forall b d, b <> [] ->
    wp (CalculateCrc32 b) (fun '(st, _) d' => EFI_ERROR st = false /\ quiet image seen d d') d;
  FvbRead_law : forall f l o n d, 0 <= o -> 0 <= n -> o + n <= Z.of_nat BS ->
    wp (FvbRead f l o n) (fun '(st, b) d' => quiet image seen d d' /\
      (EFI_ERROR st = false -> b = map (fun i => image d f l (Z.to_nat o + i)%nat) (seq 0 (Z.to_nat n)))) d;
  FvbWrite_law : forall f l o b d, 0 <= o -> o + Z.of_nat (length b) <= Z.of_nat BS ->
    wp (FvbWrite f l o b) (fun st d' => updates image seen (write_img f l o b (image d)) d d' st) d;
  FvbEraseBlocks_law : forall f l n d, 0 <= n < 2 ^ 32 ->
    wp (FvbEraseBlocks f l n) (fun st d' => updates image seen (erase_img f l n (image d)) d d' st) d
}.

(** The erase of these blocks does not fail. *)
Definition erase_succeeds {FV : FvbServices D} (f l n : Z) : Prop :=
  forall d, wp (FvbEraseBlocks f l n) (fun st _ => EFI_ERROR st = false) d.
End Laws.
Arguments quiet {D}.
Arguments updates {D}.
Arguments FvbLaws D {FV}.
Arguments erase_succeeds D {FV}.
Arguments BS {D FV FvbLaws}.
Arguments image {D FV FvbLaws}.
Arguments seen {D FV FvbLaws}.
Arguments seen_now {D FV FvbLaws}.
Arguments image_byte {D FV FvbLaws}.
Arguments AllocatePool_law {D FV FvbLaws}.
Arguments CalculateCrc32_law {D FV FvbLaws}.
Arguments FvbRead_law {D FV FvbLaws}.
Arguments FvbWrite_law {D FV FvbLaws}.
Arguments FvbEraseBlocks_law {D FV FvbLaws}.
