(* ===== verification/FtwFlash.v ===== *)
(** * The fault-tolerant write driver: reading and writing blocks

    What the driver's loops over blocks do to the flash, at every moment at which the power can fail. The
    blocks from one on are one [area] of bytes; the rules below say which bytes of two areas change. *)

From S2P Require Import Prelude FtwDefs FtwSpec.
From stdpp Require Import list.
#[local] Open Scope Z_scope.

Section Flash.
Context {FL : FtwLayout} {D : Type} {FV : FvbServices D} {LW : FvbLaws D}.
Implicit Types (s : ftw D) (x y z : img).

Definition kept s s' : Prop := s'.(dev) = s.(dev) /\ s'.(mWorkingBlockHeader) = s.(mWorkingBlockHeader).
Definition quietly s s' : Prop := kept s s' /\ quiet image seen s.(flash) s'.(flash).
Definition changes y s s' (st : EFI_STATUS) : Prop := kept s s' /\ updates image seen y s.(flash) s'.(flash) st.

Lemma quietly_refl s : quietly s s.
Proof. split; [done|]. split; [done | auto]. Qed.

Lemma quietly_trans s s' s'' : quietly s s' -> quietly s' s'' -> quietly s s''.
Proof.
  intros [[H1 H2] [H3 H4]] [[H1' H2'] [H3' H4']]. split; [split; congruence|]. split; [|auto].
  intros f l o. by rewrite H3', H3.
Qed.

Lemma wp_on_flash {A} (m : M D A) (Q : A -> ftw D -> Prop) s :
  wp m (fun a d' => Q a {| dev := s.(dev); flash := d'; mWorkingBlockHeader := s.(mWorkingBlockHeader) |}) s.(flash) ->
  wp (on_flash m) Q s.
Proof.
  intros (a & d' & Hm & HQ). eexists a, _. split; [|exact HQ]. unfold on_flash. by rewrite Hm.
Qed.

Lemma wp_Dev (Q : FTW_DEVICE -> ftw D -> Prop) s : Q s.(dev) s -> wp Dev Q s.
Proof. apply wp_gets. Qed.

Lemma wp_AllocatePool n (Q : bool -> ftw D -> Prop) s :
  (forall ok s', quietly s s' -> Q ok s') -> wp (on_flash (AllocatePool n)) Q s.
Proof.
  intros HQ. apply wp_on_flash. eapply wp_mono; [apply AllocatePool_law|]. intros ok d' Hd. apply HQ. done.
Qed.

Lemma wp_FvbWrite f l o b (Q : EFI_STATUS -> ftw D -> Prop) s :
  0 <= o -> o + Z.of_nat (length b) <= Z.of_nat BS ->
  (forall st s', changes (write_img f l o b (image s.(flash))) s s' st -> Q st s') ->
  wp (on_flash (FvbWrite f l o b)) Q s.
Proof.
  intros Ho Hl HQ. apply wp_on_flash. eapply wp_mono; [by apply FvbWrite_law|]. intros st d' Hd. apply HQ. done.
Qed.

Lemma wp_FvbEraseBlocks f l n (Q : EFI_STATUS -> ftw D -> Prop) s :
  0 <= n < 2 ^ 32 ->
  (forall st s', changes (erase_img f l n (image s.(flash))) s s' st -> Q st s') ->
  wp (on_flash (FvbEraseBlocks f l n)) Q s.
Proof.
  intros Hn HQ. apply wp_on_flash. eapply wp_mono; [by apply FvbEraseBlocks_law|]. intros st d' Hd. by apply HQ.
Qed.

Lemma wp_FvbRead f l o n (Q : EFI_STATUS * list Z -> ftw D -> Prop) s :
  0 <= o -> 0 <= n -> o + n <= Z.of_nat BS ->
  (forall st b s', quietly s s' ->
     (EFI_ERROR st = false -> b = map (fun i => image s.(flash) f l (Z.to_nat o + i)%nat) (seq 0 (Z.to_nat n))) -> Q (st, b) s') ->
  wp (on_flash (FvbRead f l o n)) Q s.
Proof.
  intros Ho Hn Hl HQ. apply wp_on_flash. eapply wp_mono; [by apply FvbRead_law|].
  intros [st b] d' [Hd Hb]. by apply HQ.
Qed.

(** ** Areas *)

(** The byte [k] of the blocks from [l] on. *)
Definition area x (f l : Z) (k : nat) : Z := x f (l + Z.of_nat (k / BS)) (k mod BS)%nat.

Lemma area_same x y f l k : same x y -> area x f l k = area y f l k.
Proof. intros H. apply H. Qed.

Lemma area_torn x y z f l k : torn x y z -> area z f l k = area x f l k \/ area z f l k = area y f l k.
Proof. intros H. apply H. Qed.

Lemma area_byte (d : D) f l k : in_width 8 (area (image d) f l k).
Proof. apply image_byte. Qed.

Lemma block_of k (n : nat) : (k < n * BS)%nat -> (k / BS < n)%nat /\ (k mod BS < BS)%nat /\ k = (k / BS * BS + k mod BS)%nat.
Proof.
  intros Hk. assert (BS <> 0%nat) by lia. pose proof (Nat.div_mod_eq k BS).
  pose proof (Nat.mod_upper_bound k BS ltac:(done)). repeat split; [|done|lia].
  apply Nat.Div0.div_lt_upper_bound. lia.
Qed.

(** [x], with the buffer [b] written into the first [n] blocks from [l] on. *)
Definition write_area (n : nat) (f l : Z) (b : list Z) x : img := fun f' l' o =>
  if (f' =? f) && (l <=? l') && (l' <? l + Z.of_nat n) && (Z.of_nat o <? Z.of_nat BS) then
    Z.land (x f' l' o) (b !!! (Z.to_nat (l' - l) * BS + o)%nat)
  else x f' l' o.

Lemma area_write n f l b x k :
  (k < n * BS)%nat -> area (write_area n f l b x) f l k = Z.land (area x f l k) (b !!! k).
Proof.
  intros Hk. destruct (block_of k n Hk) as (H1 & H2 & H3). unfold area, write_area.
  rewrite Z.eqb_refl. rewrite !(proj2 (Z.leb_le _ _)), !(proj2 (Z.ltb_lt _ _)) by lia. cbn [andb].
  do 2 f_equal. rewrite Z.add_simpl_l, Nat2Z.id. lia.
Qed.

Lemma area_erase (n : nat) f l x k : (k < n * BS)%nat -> area (erase_img f l (Z.of_nat n) x) f l k = 255.
Proof.
  intros Hk. destruct (block_of k n Hk) as (H1 & H2 & H3). unfold area, erase_img.
  rewrite Z.eqb_refl. by rewrite !(proj2 (Z.leb_le _ _)), !(proj2 (Z.ltb_lt _ _)) by lia.
Qed.

(** Areas without a common block. *)
Definition apart (n : nat) (f l f' l' : Z) : Prop := f <> f' \/ l + Z.of_nat n <= l' \/ l' + Z.of_nat n <= l.

Lemma apart_sym n f l f' l' : apart n f l f' l' -> apart n f' l' f l.
Proof. unfold apart. naive_solver. Qed.

Lemma area_write_apart n f l b x f' l' k :
  apart n f l f' l' -> (k < n * BS)%nat -> area (write_area n f l b x) f' l' k = area x f' l' k.
Proof.
  intros Ha Hk. destruct (block_of k n Hk) as (H1 & _ & _). unfold area, write_area, apart in *.
  destruct (Z.eqb_spec f' f); [|done].
  destruct (Z.leb_spec l (l' + Z.of_nat (k / BS))); [|done].
  destruct (Z.ltb_spec (l' + Z.of_nat (k / BS)) (l + Z.of_nat n)); [|done]. lia.
Qed.

Lemma area_erase_apart (n : nat) f l x f' l' k :
  apart n f l f' l' -> (k < n * BS)%nat -> area (erase_img f l (Z.of_nat n) x) f' l' k = area x f' l' k.
Proof.
  intros Ha Hk. destruct (block_of k n Hk) as (H1 & _ & _). unfold area, erase_img, apart in *.
  destruct (Z.eqb_spec f' f); [|done].
  destruct (Z.leb_spec l (l' + Z.of_nat (k / BS))); [|done].
  destruct (Z.ltb_spec (l' + Z.of_nat (k / BS)) (l + Z.of_nat n)); [|done]. lia.
Qed.

(** A write of one byte, at the byte [i] of an area. *)
Lemma area_write1 n f l i v x k :
  (i < n * BS)%nat -> (k < n * BS)%nat ->
  area (write_img f (l + Z.of_nat (i / BS)) (Z.of_nat (i mod BS)) [v] x) f l k =
  if bool_decide (k = i) then Z.land (area x f l k) v else area x f l k.
Proof.
  intros Hi Hk. destruct (block_of k n Hk) as (H1 & H2 & H3), (block_of i n Hi) as (H1' & H2' & H3').
  unfold area, write_img. cbn [length]. rewrite Z.eqb_refl. cbn [andb].
  case_bool_decide as E.
  - rewrite E, Z.eqb_refl, Nat2Z.id, Nat.sub_diag.
    by rewrite !(proj2 (Z.leb_le _ _)), !(proj2 (Z.ltb_lt _ _)) by lia.
  - destruct (Z.eqb_spec (l + Z.of_nat (k / BS)) (l + Z.of_nat (i / BS))) as [E1|]; [|done].
    destruct (Z.leb_spec (Z.of_nat (i mod BS)) (Z.of_nat (k mod BS))); [|done].
    destruct (Z.ltb_spec (Z.of_nat (k mod BS)) (Z.of_nat (i mod BS) + Z.of_nat 1)); [|done].
    exfalso. apply E. rewrite H3, H3'. assert (k / BS = i / BS)%nat as -> by lia. lia.
Qed.

Lemma area_write1_apart n f l i v x f' l' k :
  apart n f l f' l' -> (i < n * BS)%nat -> (k < n * BS)%nat ->
  area (write_img f (l + Z.of_nat (i / BS)) (Z.of_nat (i mod BS)) [v] x) f' l' k = area x f' l' k.
Proof.
  intros Ha Hi Hk. destruct (block_of k n Hk) as (H1 & _ & _), (block_of i n Hi) as (H1' & _ & _).
  unfold area, write_img, apart in *.
  destruct (Z.eqb_spec f' f); [|done].
  destruct (Z.eqb_spec (l' + Z.of_nat (k / BS)) (l + Z.of_nat (i / BS))); [lia|done].
Qed.

(** ** The loops *)

(** The first of the writes changes bytes to their last values. *)
Lemma write_first n f l b x f' l' o :
  length b = (S n * BS)%nat ->
  write_img f l 0 (take BS b) x f' l' o = x f' l' o \/
  write_img f l 0 (take BS b) x f' l' o = write_area (S n) f l b x f' l' o.
Proof.
  intros Hb. unfold write_img, write_area. rewrite length_take_le by lia.
  destruct (Z.eqb_spec f' f); [|by left]. cbn [andb].
  destruct (Z.eqb_spec l' l) as [->|]; [|by left]. cbn [andb].
  destruct (Z.leb_spec 0 (Z.of_nat o)); [|lia].
  destruct (Z.ltb_spec (Z.of_nat o) (0 + Z.of_nat BS)); [|by left].
  destruct (Z.leb_spec l l); [|lia]. destruct (Z.ltb_spec l (l + Z.of_nat (S n))); [|lia].
  destruct (Z.ltb_spec (Z.of_nat o) (Z.of_nat BS)); [|lia]. right. cbn [andb].
  rewrite Z.sub_diag, Nat.sub_0_r. change (Z.to_nat 0) with 0%nat. rewrite Nat.mul_0_l, Nat.add_0_l.
  by rewrite lookup_total_take_lt by lia.
Qed.

Lemma write_rest n f l b x y f' l' o :
  length b = (S n * BS)%nat -> same y (write_img f l 0 (take BS b) x) ->
  write_area n f (l + 1) (drop BS b) y f' l' o = write_area (S n) f l b x f' l' o.
Proof.
  intros Hb Hy. unfold write_area. rewrite Hy. unfold write_img. rewrite length_take_le by lia.
  destruct (Z.eqb_spec f' f); [|done]. cbn [andb].
  destruct (Z.leb_spec l l'), (Z.leb_spec (l + 1) l'), (Z.eqb_spec l' l); try lia; cbn [andb]; try done.
  - destruct (Z.ltb_spec l' (l + 1 + Z.of_nat n)), (Z.ltb_spec l' (l + Z.of_nat (S n))); try lia; [|done].
    cbn [andb]. destruct (Z.ltb_spec (Z.of_nat o) (Z.of_nat BS)); [|done].
    rewrite lookup_total_drop. do 2 f_equal.
    replace (Z.to_nat (l' - l)) with (S (Z.to_nat (l' - (l + 1)))) by lia. lia.
  - destruct (Z.ltb_spec l' (l + Z.of_nat (S n))); [|lia]. subst. cbn [andb].
    destruct (Z.leb_spec 0 (Z.of_nat o)); [|lia]. cbn [andb].
    rewrite Z.add_0_l. destruct (Z.ltb_spec (Z.of_nat o) (Z.of_nat BS)); [|done].
    rewrite Z.sub_diag, Nat.sub_0_r. change (Z.to_nat 0) with 0%nat. rewrite Nat.mul_0_l, Nat.add_0_l. by rewrite lookup_total_take_lt by lia.
Qed.

(** What lies between before and after the first write lies between before and after all. *)
Lemma torn_first n f l b x z :
  length b = (S n * BS)%nat -> torn x (write_img f l 0 (take BS b) x) z -> torn x (write_area (S n) f l b x) z.
Proof.
  intros Hb Hz f' l' o. destruct (Hz f' l' o) as [->| ->]; [by left|]. by apply write_first.
Qed.

Lemma torn_rest n f l b x y z :
  length b = (S n * BS)%nat -> same y (write_img f l 0 (take BS b) x) ->
  torn y (write_area n f (l + 1) (drop BS b) y) z -> torn x (write_area (S n) f l b x) z.
Proof.
  intros Hb Hy Hz f' l' o. destruct (Hz f' l' o) as [->| ->].
  - rewrite Hy. by apply write_first.
  - right. by apply write_rest.
Qed.

Lemma updates_write_blocks n f l b d d1 d2 st :
  length b = (S n * BS)%nat ->
  updates image seen (write_img f l 0 (take BS b) (image d)) d d1 EFI_SUCCESS ->
  updates image seen (write_area n f (l + 1) (drop BS b) (image d1)) d1 d2 st ->
  updates image seen (write_area (S n) f l b (image d)) d d2 st.
Proof.
  intros Hb (_ & H1 & H1s) (H2b & H2 & H2s). specialize (H1 eq_refl).
  split; [|split].
  - by eapply torn_rest.
  - intros Hst f' l' o. rewrite (H2 Hst). by apply write_rest.
  - intros x Hx. destruct (H2s x Hx) as [Hx'|Hx']; [|right; by eapply torn_rest].
    destruct (H1s x Hx') as [|Hx'']; [by left|]. right. by apply torn_first.
Qed.

Lemma updates_nop d d' y st : quiet image seen d d' -> same y (image d) -> updates image seen y d d' st.
Proof.
  intros [Hq Hs] Hy. split; [|split].
  - intros f l o. left. apply Hq.
  - intros _ f l o. by rewrite Hq, Hy.
  - intros x Hx. left. auto.
Qed.

Lemma updates_failed d d' y st : quiet image seen d d' -> EFI_ERROR st = true -> updates image seen y d d' st.
Proof.
  intros [Hq Hs] Hst. split; [|split; [by rewrite Hst|]].
  - intros f l o. left. apply Hq.
  - intros x Hx. left. auto.
Qed.

(** An operation after one that kept the contents. *)
Lemma updates_after d d1 d2 y y1 st :
  quiet image seen d d1 -> same y1 y -> updates image seen y1 d1 d2 st -> updates image seen y d d2 st.
Proof.
  intros [Hi Hs] Hy (U1 & U2 & U3).
  assert (Ht : forall z, torn (image d1) y1 z -> torn (image d) y z).
  { intros z Hz f l o. rewrite <- Hi, <- Hy. apply Hz. }
  split; [by apply Ht|split].
  - intros E f l o. by rewrite (U2 E), Hy.
  - intros x Hx. destruct (U3 x Hx) as [|Hx']; [left; auto|right; by apply Ht].
Qed.

Lemma write_blocks_spec n f l b (Q : EFI_STATUS -> ftw D -> Prop) s :
  length b = (n * BS)%nat ->
  (forall st s', changes (write_area n f l b (image s.(flash))) s s' st -> Q st s') ->
  wp (write_blocks n f l (Z.of_nat BS) b) Q s.
Proof.
  revert l b s Q. induction n as [|n IH]; intros l b s Q Hb HQ; cbn [write_blocks].
  - apply wp_ret, HQ. split; [done|]. apply updates_nop; [apply quietly_refl|].
    intros f' l' o. unfold write_area. destruct (f' =? f); [|done]. cbn [andb].
    destruct (Z.leb_spec l l'); [|done]. destruct (Z.ltb_spec l' (l + Z.of_nat 0)); [lia|done].
  - apply wp_bind. rewrite Nat2Z.id. apply wp_FvbWrite; [lia|rewrite length_take; lia|].
    intros st s1 [Hk Hu]. destruct (EFI_ERROR st) eqn:Hst.
    + apply wp_ret, HQ. split; [done|].
      destruct Hu as (U1 & _ & U3). split; [|split; [by rewrite Hst|]].
      * by apply torn_first.
      * intros x Hx. destruct (U3 x Hx) as [|Hx']; [by left|right]. by apply torn_first.
    + assert (st = EFI_SUCCESS) as -> by (by apply negb_false_iff, bool_decide_eq_true_1 in Hst).
      apply IH; [rewrite length_drop; lia|]. intros st' s2 [Hk' Hu']. apply HQ. split.
      * destruct Hk, Hk'. split; congruence.
      * by eapply updates_write_blocks.
Qed.

Lemma read_blocks_spec n f l b (Q : EFI_STATUS * list Z -> ftw D -> Prop) s :
  (forall st c s', quietly s s' ->
     (EFI_ERROR st = false -> length c = (n * BS)%nat /\ forall k, (k < n * BS)%nat -> c !!! k = area (image s.(flash)) f l k) ->
     Q (st, b ++ c) s') ->
  wp (read_blocks n f l (Z.of_nat BS) b) Q s.
Proof.
  revert l b s Q. induction n as [|n IH]; intros l b s Q HQ; cbn [read_blocks].
  - apply wp_ret. rewrite <- (app_nil_r b). apply HQ; [apply quietly_refl|]. intros _. split; [done|lia].
  - apply wp_bind. apply wp_FvbRead; [lia..|]. intros st c s1 Hs1 Hc. cbn beta iota. destruct (EFI_ERROR st) eqn:Hst.
    + apply wp_ret. rewrite <- (app_nil_r b). apply HQ; [done|]. by rewrite Hst.
    + specialize (Hc eq_refl). apply IH. intros st' c' s2 Hs2 Hc'. rewrite <- app_assoc.
      apply HQ; [by eapply quietly_trans|]. intros Hst'. destruct (Hc' Hst') as [Hl Hv].
      assert (Hlc : length c = BS) by (rewrite Hc; rewrite length_map, length_seq; lia).
      split; [rewrite length_app; lia|]. intros k Hk.
      destruct (decide (k < BS)%nat) as [Hlt|].
      * rewrite lookup_total_app_l by lia. rewrite Hc. rewrite list_lookup_total_alt, list_lookup_fmap.
        rewrite lookup_seq_lt by lia. cbn [fmap option_fmap option_map default]. unfold area.
        rewrite Nat.div_small, Nat.mod_small by lia. cbn. f_equal. lia.
      * rewrite lookup_total_app_r by lia. rewrite Hlc, Hv by lia. destruct Hs1 as [_ [Hi _]].
        rewrite (area_same _ _ _ _ _ Hi). unfold area.
        replace k with ((k - BS) + 1 * BS)%nat at 3 4 by lia.
        rewrite Nat.div_add, Nat.Div0.mod_add by lia. f_equal. lia.
Qed.

(** [x] with bits of the byte [i] of the blocks from [l] on cleared. *)
Definition clear_bits (f l : Z) (i : nat) (m : Z) x : img :=
  write_img f (l + Z.of_nat (i / BS)) (Z.of_nat (i mod BS)) [Z.ldiff (area x f l i) m] x.

Lemma area_clear n f l i m x k :
  (i < n * BS)%nat -> (k < n * BS)%nat ->
  area (clear_bits f l i m x) f l k = if bool_decide (k = i) then Z.ldiff (area x f l k) m else area x f l k.
Proof.
  intros Hi Hk. unfold clear_bits. rewrite (area_write1 n) by done. case_bool_decide as E; [|done].
  rewrite E. bits j Hj. destruct (Z.testbit _ j); [by destruct (negb _)|done].
Qed.

Lemma area_clear_apart n f l i m x f' l' k :
  apart n f l f' l' -> (i < n * BS)%nat -> (k < n * BS)%nat ->
  area (clear_bits f l i m x) f' l' k = area x f' l' k.
Proof. intros. by apply (area_write1_apart n). Qed.

Context {LL : FtwLayoutLaws}.

Lemma FtwUpdateFvState_spec n f l lb o i bit (Q : EFI_STATUS -> ftw D -> Prop) s :
  (i < n * BS)%nat -> lb = l + Z.of_nat (i / BS) -> o = Z.of_nat (i mod BS) -> in_width 8 bit ->
  (forall st s', changes (clear_bits f l i bit (image s.(flash))) s s' st -> Q st s') ->
  wp (FtwUpdateFvState f lb o bit) Q s.
Proof.
  intros Hi -> -> Hbit HQ. destruct (block_of i n Hi) as (_ & Hm & _). unfold FtwUpdateFvState.
  apply wp_bind, wp_FvbRead; [lia..|]. intros st b s1 [Hk Hq] Hb. cbn beta iota.
  destruct (EFI_ERROR st) eqn:Hst.
  - apply wp_ret, HQ. split; [done|]. by apply updates_failed.
  - rewrite Hb by done. apply wp_bind. eapply wp_lift; [reflexivity|]. cbn beta iota.
    rewrite Nat2Z.id, Nat.add_0_r. change (image s.(flash) f _ _) with (area (image s.(flash)) f l i).
    rewrite POLARITY_REVERT_value.
    assert (Hv : u8 (Z.lxor (u8 (Z.lor (u8 (Z.lxor (area (image s.(flash)) f l i) 255)) bit)) 255) =
        Z.ldiff (area (image s.(flash)) f l i) bit).
    { pose proof (area_byte s.(flash) f l i) as Hw. change 255 with (Z.ones 8). bits j Hj.
      destruct (Z.ltb_spec j 8); [|rewrite (in_width_bit 8 _ j Hw) by lia; by rewrite andb_false_r].
      destruct (Z.leb_spec 0 j); [|lia]. rewrite !andb_true_r.
      by destruct (Z.testbit _ j), (Z.testbit bit j). }
    rewrite Hv. apply wp_FvbWrite; [lia|cbn [length]; lia|]. intros st' s2 [Hk' HU]. apply HQ.
    split; [destruct Hk, Hk'; split; congruence|]. eapply updates_after; [exact Hq| |exact HU].
    intros f' l' o'. unfold clear_bits, write_img. by rewrite !(proj1 Hq).
Qed.
End Flash.
