(* ===== verification/FtwRecover.v ===== *)
(** * The fault-tolerant write driver: what a loss of power leaves

    The work space that the two blocks hold ([recover], [intact]): that of the working block if its header is valid, else that of the
    spare block. This says what the flash contains, and is not what the driver does when it starts: that reclaims a work space
    whose records look damaged before it looks at the header, and can so overwrite the only valid copy
    ([InitFtwProtocol_loses_write] of FtwWitness.v). The lemmas say which contents of the flash hold a
    given work space, whatever part of an operation was done. *)

From S2P Require Import Prelude FtwDefs FtwSpec FtwFlash.
From stdpp Require Import list.
#[local] Open Scope Z_scope.

Lemma copy_at_lookup o (src dst r : list Z) :
  copy_at o src dst = Some r ->
  length r = length dst /\ forall k, r !!! k = if bool_decide (o <= k < o + length src)%nat then src !!! (k - o)%nat else dst !!! k.
Proof.
  unfold copy_at. case_bool_decide as Hl; [|done]. intros [= <-]. split.
  - rewrite !length_app, length_take, length_drop. lia.
  - intros k. destruct (decide (k < o)%nat).
    + rewrite bool_decide_false by lia. rewrite lookup_total_app_l by (rewrite length_take; lia).
      by rewrite lookup_total_take_lt.
    + rewrite lookup_total_app_r by (rewrite length_take; lia). rewrite length_take_le by lia.
      case_bool_decide.
      * by rewrite lookup_total_app_l by lia.
      * rewrite lookup_total_app_r by lia. rewrite lookup_total_drop. f_equal. lia.
Qed.

Lemma copy_at_fits o (src dst : list Z) : (o + length src <= length dst)%nat -> exists r, copy_at o src dst = Some r.
Proof. intros Hl. unfold copy_at. rewrite bool_decide_true by done. eauto. Qed.

Lemma set_field_fits o bit v (l : list Z) :
  (o < length l)%nat ->
  set_field o bit v l = Some (<[o := if v =? 0 then Z.clearbit (l !!! o) bit else Z.setbit (l !!! o) bit]> l).
Proof. intros Hl. unfold set_field. by rewrite (list_lookup_lookup_total_lt l o Hl). Qed.

Section Recover.
Context {FL : FtwLayout} {LL : FtwLayoutLaws} {D : Type} {FV : FvbServices D} {LW : FvbLaws D}.

(** The working block and the spare block have their blocks apart, and the work space fits into each. *)
Record geometry (d : FTW_DEVICE) : Prop := {
  geo_block : d.(BlockSize) = Z.of_nat BS;
  geo_base : 0 <= d.(FtwWorkSpaceBase) /\ d.(FtwWorkSpaceBase) + Z.of_nat sizeof_HEADER <= Z.of_nat BS;
  geo_order : d.(FtwWorkBlockLba) <= d.(FtwWorkSpaceLba);
  geo_count : Z.of_nat d.(NumberOfSpareBlock) < 2 ^ 32;
  geo_fits : (work_offset d + Z.to_nat d.(FtwWorkSpaceSize) <= d.(NumberOfSpareBlock) * BS)%nat;
  geo_space : Z.of_nat sizeof_HEADER <= d.(FtwWorkSpaceSize);
  geo_apart : apart d.(NumberOfSpareBlock) d.(FtwFvBlock) d.(FtwWorkBlockLba) d.(FtwBackupFvb) d.(FtwSpareLba)
}.

(** The header that the driver compares with: the state says valid and not invalid. *)
Definition header_ok (H : list Z) : Prop :=
  length H = sizeof_HEADER /\ Forall (in_width 8) H /\ H !!! state_offset = 254.

Definition work_space (d : FTW_DEVICE) (x : img) (f l : Z) : list Z :=
  map (fun i => area x f l (work_offset d + i)) (seq 0 (Z.to_nat d.(FtwWorkSpaceSize))).

Definition recover (d : FTW_DEVICE) (H : list Z) (x : img) : option (list Z) :=
  let w := work_space d x d.(FtwFvBlock) d.(FtwWorkBlockLba) in
  let w' := work_space d x d.(FtwBackupFvb) d.(FtwSpareLba) in
  if bool_decide (take sizeof_HEADER w = H) then Some w
  else if bool_decide (take sizeof_HEADER w' = H) then Some w' else None.

(** A work space with a valid header. *)
Definition valid_space (d : FTW_DEVICE) (H w : list Z) : Prop :=
  length w = Z.to_nat d.(FtwWorkSpaceSize) /\ Forall (in_width 8) w /\ take sizeof_HEADER w = H.

(** The flash has a complete copy of the work space [w]: the working block has [w], with its header valid; or the header of the
    working block is not valid and the spare block has [w], with its header valid. *)
Definition intact (d : FTW_DEVICE) (H : list Z) (x : img) (w : list Z) : Prop :=
  let working := work_space d x d.(FtwFvBlock) d.(FtwWorkBlockLba) in
  let spare := work_space d x d.(FtwBackupFvb) d.(FtwSpareLba) in
  take sizeof_HEADER w = H /\ (working = w \/ take sizeof_HEADER working <> H /\ spare = w).

Lemma recover_intact d H x w : recover d H x = Some w <-> intact d H x w.
Proof.
  unfold recover, intact. cbv zeta. case_bool_decide as H1; [naive_solver|]. case_bool_decide as H2; naive_solver.
Qed.

Context (d : FTW_DEVICE) (G : geometry d) (H : list Z) (HH : header_ok H).
Implicit Types (x y z : img) (w : list Z).
Notation n := (d.(NumberOfSpareBlock)).
Notation wo := (work_offset d).
Notation W x := (area x d.(FtwFvBlock) d.(FtwWorkBlockLba)).
Notation S x := (area x d.(FtwBackupFvb) d.(FtwSpareLba)).

Lemma state_in_header : (state_offset < sizeof_HEADER)%nat.
Proof. pose proof WriteQueueSize_offset. lia. Qed.

Lemma state_in_space : (state_offset < Z.to_nat d.(FtwWorkSpaceSize))%nat.
Proof. pose proof state_in_header. pose proof (geo_space d G). lia. Qed.

Lemma state_in_area : (wo + state_offset < n * BS)%nat.
Proof. pose proof state_in_space. pose proof (geo_fits d G). lia. Qed.

(** The block and the offset at which the driver finds the state. *)
Lemma state_address :
  Z.of_nat ((wo + state_offset) / BS) = d.(FtwWorkSpaceLba) - d.(FtwWorkBlockLba) /\
  Z.of_nat ((wo + state_offset) mod BS) = d.(FtwWorkSpaceBase) + Z.of_nat state_offset.
Proof.
  pose proof state_in_header. pose proof (geo_base d G). pose proof (geo_order d G). pose proof (geo_block d G) as Hb.
  unfold work_offset. rewrite Hb.
  set (q := Z.to_nat (d.(FtwWorkSpaceLba) - d.(FtwWorkBlockLba))). set (r := (Z.to_nat d.(FtwWorkSpaceBase) + state_offset)%nat).
  assert (r < BS)%nat by (subst r; lia).
  replace (Z.to_nat ((d.(FtwWorkSpaceLba) - d.(FtwWorkBlockLba)) * Z.of_nat BS + d.(FtwWorkSpaceBase)) + state_offset)%nat
    with (r + q * BS)%nat by (subst r q; nia).
  rewrite Nat.div_add, Nat.Div0.mod_add, Nat.div_small, Nat.mod_small by lia. subst r q. lia.
Qed.

Lemma valid_header w i : valid_space d H w -> (i < sizeof_HEADER)%nat -> w !!! i = H !!! i.
Proof. intros (_ & _ & <-) Hi. by rewrite lookup_total_take_lt. Qed.

Lemma valid_state w : valid_space d H w -> w !!! state_offset = 254.
Proof. intros Hw. rewrite (valid_header w) by (done || apply state_in_header). apply HH. Qed.

(** The work space [w] in an area of bytes. *)
Definition holds (a : nat -> Z) w : Prop := forall i, (i < Z.to_nat d.(FtwWorkSpaceSize))%nat -> a (wo + i)%nat = w !!! i.

Lemma holds_work_space w x f l : length w = Z.to_nat d.(FtwWorkSpaceSize) -> holds (area x f l) w <-> work_space d x f l = w.
Proof.
  intros Hl. unfold work_space. split.
  - intros Hh. apply list_eq_same_length with (n := Z.to_nat d.(FtwWorkSpaceSize)); [done|by rewrite length_map, length_seq|].
    intros i a b Hi Ha Hb. rewrite list_lookup_fmap, lookup_seq_lt in Ha by done. cbn in Ha. injection Ha as <-.
    rewrite (Hh i Hi). by apply list_lookup_total_correct.
  - intros <- i Hi. by rewrite list_lookup_total_alt, list_lookup_fmap, lookup_seq_lt.
Qed.

Lemma work_state x f l : take sizeof_HEADER (work_space d x f l) = H -> area x f l (wo + state_offset) = 254.
Proof.
  intros Ht. pose proof state_in_header. pose proof state_in_space.
  rewrite <- (proj2 (proj2 HH)), <- Ht, lookup_total_take_lt by done.
  unfold work_space. by rewrite list_lookup_total_alt, list_lookup_fmap, lookup_seq_lt.
Qed.

Lemma recover_working w x : valid_space d H w -> holds (W x) w -> recover d H x = Some w.
Proof.
  intros (Hl & Hb & Ht) Hw. unfold recover. cbv zeta.
  rewrite (proj1 (holds_work_space w x _ _ Hl) Hw). by rewrite bool_decide_true.
Qed.

(** The working block is not valid, and the spare block holds [w]. *)
Definition in_spare w x : Prop := W x (wo + state_offset) <> 254 /\ holds (S x) w.

Lemma recover_spare w x : valid_space d H w -> in_spare w x -> recover d H x = Some w.
Proof.
  intros (Hl & Hb & Ht) [Hn Hs]. unfold recover. cbv zeta.
  rewrite bool_decide_false by (intros Hv; by apply Hn, work_state).
  rewrite (proj1 (holds_work_space w x _ _ Hl) Hs). by rewrite bool_decide_true.
Qed.

(** ** Parts of operations *)

Lemma space_in_area i : (i < Z.to_nat d.(FtwWorkSpaceSize))%nat -> (wo + i < n * BS)%nat.
Proof. pose proof (geo_fits d G). lia. Qed.

(** An operation on the spare block keeps the working block. *)
Lemma torn_spare x y z : (forall k, (k < n * BS)%nat -> W y k = W x k) -> torn x y z -> forall k, (k < n * BS)%nat -> W z k = W x k.
Proof. intros Hy Hz k Hk. destruct (area_torn _ _ _ d.(FtwFvBlock) d.(FtwWorkBlockLba) k Hz) as [->| ->]; auto. Qed.

Lemma torn_working x y z : (forall k, (k < n * BS)%nat -> S y k = S x k) -> torn x y z -> forall k, (k < n * BS)%nat -> S z k = S x k.
Proof. intros Hy Hz k Hk. destruct (area_torn _ _ _ d.(FtwBackupFvb) d.(FtwSpareLba) k Hz) as [->| ->]; auto. Qed.

Lemma holds_ext a b w : (forall k, (k < n * BS)%nat -> b k = a k) -> holds a w -> holds b w.
Proof. intros Hab Ha i Hi. rewrite Hab by (by apply space_in_area). by apply Ha. Qed.

(** Marking the spare block valid once more. *)
Lemma mark_spare_again w x z :
  valid_space d H w -> in_spare w x ->
  torn x (clear_bits d.(FtwBackupFvb) d.(FtwSpareLba) (wo + state_offset) 1 x) z ->
  in_spare w z /\ (forall k, (k < n * BS)%nat -> W z k = W x k) /\ (forall k, (k < n * BS)%nat -> S z k = S x k).
Proof.
  intros Hw [Hn Hs] Hz. pose proof state_in_area as Ha.
  assert (HW : forall k, (k < n * BS)%nat -> W z k = W x k).
  { eapply torn_spare; [|exact Hz]. intros k Hk. apply (area_clear_apart n); [apply apart_sym, G|done..]. }
  assert (HS : forall k, (k < n * BS)%nat -> S z k = S x k).
  { eapply torn_working; [|exact Hz]. intros k Hk. rewrite (area_clear n) by done.
    case_bool_decide as E; [|done]. rewrite E, (Hs _ state_in_space), (valid_state w Hw). done. }
  split; [split|split; [done..]].
  - by rewrite HW.
  - by eapply holds_ext.
Qed.

(** Marking the working block invalid. *)
Lemma mark_working_invalid w x z :
  in_spare w x ->
  torn x (clear_bits d.(FtwFvBlock) d.(FtwWorkBlockLba) (wo + state_offset) 2 x) z ->
  in_spare w z /\ forall k, (k < n * BS)%nat -> S z k = S x k.
Proof.
  intros [Hn Hs] Hz. pose proof state_in_area as Ha.
  assert (HS : forall k, (k < n * BS)%nat -> S z k = S x k).
  { eapply torn_working; [|exact Hz]. intros k Hk. apply (area_clear_apart n); [apply G|done..]. }
  split; [split|done].
  - destruct (area_torn _ _ _ d.(FtwFvBlock) d.(FtwWorkBlockLba) (wo + state_offset) Hz) as [->| ->]; [done|].
    rewrite (area_clear n) by done. rewrite bool_decide_true by done. intros E.
    apply (f_equal (fun v => Z.testbit v 1)) in E. rewrite Z.ldiff_spec in E. by destruct (Z.testbit (W x _) 1).
  - by eapply holds_ext.
Qed.

Lemma erase_working w x z :
  in_spare w x -> torn x (erase_img d.(FtwFvBlock) d.(FtwWorkBlockLba) (Z.of_nat n) x) z ->
  in_spare w z /\ forall k, (k < n * BS)%nat -> S z k = S x k.
Proof.
  intros [Hn Hs] Hz. pose proof state_in_area as Ha.
  assert (HS : forall k, (k < n * BS)%nat -> S z k = S x k).
  { eapply torn_working; [|exact Hz]. intros k Hk. apply (area_erase_apart n); [apply G|done]. }
  split; [split|done].
  - destruct (area_torn _ _ _ d.(FtwFvBlock) d.(FtwWorkBlockLba) (wo + state_offset) Hz) as [->| ->]; [done|].
    by rewrite area_erase.
  - by eapply holds_ext.
Qed.

(** Writing an erased working block with a header that is not marked. *)
Lemma write_working w b x z :
  in_spare w x -> (forall k, (k < n * BS)%nat -> W x k = 255) -> b !!! (wo + state_offset)%nat = 255 ->
  torn x (write_area n d.(FtwFvBlock) d.(FtwWorkBlockLba) b x) z ->
  in_spare w z /\ forall k, (k < n * BS)%nat -> S z k = S x k.
Proof.
  intros [Hn Hs] He Hb Hz. pose proof state_in_area as Ha.
  assert (HS : forall k, (k < n * BS)%nat -> S z k = S x k).
  { eapply torn_working; [|exact Hz]. intros k Hk. apply (area_write_apart n); [apply G|done]. }
  split; [split|done].
  - destruct (area_torn _ _ _ d.(FtwFvBlock) d.(FtwWorkBlockLba) (wo + state_offset) Hz) as [->| ->]; [done|].
    by rewrite area_write, He, Hb.
  - by eapply holds_ext.
Qed.

(** The bytes of [w], with the state of a header that is not marked. *)
Definition unmarked w (a : nat -> Z) : Prop :=
  forall i, (i < Z.to_nat d.(FtwWorkSpaceSize))%nat -> a (wo + i)%nat = if bool_decide (i = state_offset) then 255 else w !!! i.

Lemma mark_unmarked w f l x :
  valid_space d H w -> unmarked w (area x f l) -> holds (area (clear_bits f l (wo + state_offset) 1 x) f l) w.
Proof.
  intros Hw Hu i Hi. rewrite (area_clear n) by first [apply state_in_area | by apply space_in_area].
  rewrite (Hu i Hi). destruct (decide (i = state_offset)) as [-> |].
  - rewrite !bool_decide_true by done. by rewrite (valid_state w Hw).
  - by rewrite !bool_decide_false by lia.
Qed.

(** Marking the working block valid: before, the spare block counts, and after, the working block. *)
Lemma mark_working_valid w x z :
  valid_space d H w -> unmarked w (W x) -> holds (S x) w ->
  torn x (clear_bits d.(FtwFvBlock) d.(FtwWorkBlockLba) (wo + state_offset) 1 x) z ->
  recover d H z = Some w /\ forall k, (k < n * BS)%nat -> S z k = S x k.
Proof.
  intros Hw Hu Hs Hz. pose proof state_in_area as Ha.
  assert (HS : forall k, (k < n * BS)%nat -> S z k = S x k).
  { eapply torn_working; [|exact Hz]. intros k Hk. apply (area_clear_apart n); [apply G|done..]. }
  split; [|done].
  destruct (area_torn _ _ _ d.(FtwFvBlock) d.(FtwWorkBlockLba) (wo + state_offset) Hz) as [E|E].
  - apply recover_spare; [done|]. split; [|by eapply holds_ext].
    rewrite E, (Hu _ state_in_space). by rewrite bool_decide_true.
  - apply recover_working; [done|]. intros i Hi. pose proof (mark_unmarked w _ _ _ Hw Hu i Hi) as Hm.
    destruct (decide (i = state_offset)) as [-> |]; [by rewrite E|].
    destruct (area_torn _ _ _ d.(FtwFvBlock) d.(FtwWorkBlockLba) (wo + i) Hz) as [->| ->]; [|done].
    rewrite (Hu i Hi). by rewrite bool_decide_false.
Qed.
End Recover.
