(* ===== verification/FtwFlush.v ===== *)
(** * The fault-tolerant write driver: copies of the spare block

    [FlushSpareBlockToWorkingBlock] and [FlushSpareBlockToTargetBlock] with their results, and what the
    power can leave while they run. *)

From S2P Require Import Prelude FtwDefs FtwSpec FtwFlash FtwRecover.
From stdpp Require Import list.
#[local] Open Scope Z_scope.

Section Flush.
Context {FL : FtwLayout} {LL : FtwLayoutLaws} {D : Type} {FV : FvbServices D} {LW : FvbLaws D}.
Implicit Types (s : ftw D) (x y z : img) (w : list Z).

(** Since [s0], the power could only leave contents with [R]. *)
Definition tracked s0 (R : img -> Prop) s : Prop := forall x, seen s.(flash) x -> seen s0.(flash) x \/ R x.

Lemma tracked_refl s0 R : tracked s0 R s0.
Proof. intros x Hx. by left. Qed.

Lemma tracked_quietly s0 R s s' : quietly s s' -> tracked s0 R s -> tracked s0 R s'.
Proof. intros [_ [_ Hq]] Ht x Hx. apply Ht. auto. Qed.

Lemma tracked_changes s0 R s s' y st :
  changes y s s' st -> (forall z, torn (image s.(flash)) y z -> R z) -> tracked s0 R s -> tracked s0 R s'.
Proof.
  intros [_ (_ & _ & Hc)] HR Ht x Hx. destruct (Hc x Hx) as [Hx'|Hx']; [by apply Ht|right; by apply HR].
Qed.

Lemma tracked_mono s0 (R R' : img -> Prop) s : (forall x, R x -> R' x) -> tracked s0 R s -> tracked s0 R' s.
Proof. intros HR Ht x Hx. destruct (Ht x Hx); auto. Qed.

Lemma changes_torn y s s' st : changes y s s' st -> torn (image s.(flash)) y (image s'.(flash)).
Proof. intros [_ (Ht & _ & _)]. exact Ht. Qed.

Lemma changes_done y s s' st : changes y s s' st -> EFI_ERROR st = false -> same (image s'.(flash)) y.
Proof. intros [_ (_ & Hd & _)]. exact Hd. Qed.

Lemma wp_set_header_state bit v (Q : unit -> ftw D -> Prop) s :
  (state_offset < length s.(dev).(FtwWorkSpace))%nat ->
  Q tt {| dev := set_work_space (<[state_offset := if v =? 0 then Z.clearbit (s.(dev).(FtwWorkSpace) !!! state_offset) bit
            else Z.setbit (s.(dev).(FtwWorkSpace) !!! state_offset) bit]> s.(dev).(FtwWorkSpace)) s.(dev);
          flash := s.(flash); mWorkingBlockHeader := s.(mWorkingBlockHeader) |} ->
  wp (set_header_state bit v) Q s.
Proof.
  intros Hl HQ. unfold set_header_state. apply wp_bind, wp_Dev. apply wp_bind.
  eapply wp_lift; [by apply set_field_fits|]. cbn beta iota. apply wp_modify. exact HQ.
Qed.

(** ** The buffer that goes into the working block *)

Lemma copy_at_bytes o (src dst r : list Z) :
  copy_at o src dst = Some r -> Forall (in_width 8) src -> Forall (in_width 8) dst -> Forall (in_width 8) r.
Proof.
  unfold copy_at. case_bool_decide; [|done]. intros [= <-] Hs Hd.
  apply Forall_app; split; [by apply Forall_take|]. apply Forall_app; split; [done|by apply Forall_drop].
Qed.

Lemma setbit_byte v i : in_width 8 v -> 0 <= i < 8 -> in_width 8 (Z.setbit v i).
Proof.
  intros Hv Hi. apply in_width_of_bits; [lia| |].
  - rewrite Z.setbit_spec'. apply Z.lor_nonneg. unfold in_width in Hv. pose proof (Z.pow_nonneg 2 i). lia.
  - intros j Hj. rewrite Z.setbit_neq by lia. by apply (in_width_bit 8).
Qed.

Lemma insert_setbit_bytes o i (l : list Z) :
  (o < length l)%nat -> 0 <= i < 8 -> Forall (in_width 8) l -> Forall (in_width 8) (<[o := Z.setbit (l !!! o) i]> l).
Proof.
  intros Ho Hi Hl. apply Forall_insert; [done|]. apply setbit_byte; [|done].
  by apply Forall_lookup_total_1.
Qed.

(** The bits of the state of a header in a buffer. *)
Lemma mark_buffer d (G : geometry d) w (b : list Z) v :
  v = 1 -> length b = (d.(NumberOfSpareBlock) * BS)%nat -> Forall (in_width 8) b ->
  holds d (fun k => b !!! k) w -> w !!! state_offset = 254 ->
  exists b2 b3, set_field (work_offset d + state_offset) bit_WorkingBlockValid v b = Some b2 /\
    set_field (work_offset d + state_offset) bit_WorkingBlockInvalid v b2 = Some b3 /\
    length b3 = (d.(NumberOfSpareBlock) * BS)%nat /\ Forall (in_width 8) b3 /\ unmarked d w (fun k => b3 !!! k) /\
    forall k, (k < work_offset d \/ work_offset d + Z.to_nat d.(FtwWorkSpaceSize) <= k)%nat -> b3 !!! k = b !!! k.
Proof.
  intros -> Hl Hb Hh H254. pose proof (geo_fits d G). pose proof (state_in_space d G).
  rewrite bit_Valid_value, bit_Invalid_value. rewrite set_field_fits by lia. cbn [Z.eqb].
  eexists _, _. split; [done|]. rewrite set_field_fits by (rewrite length_insert; lia). cbn [Z.eqb].
  split; [done|]. rewrite !length_insert. split; [done|]. split.
  { apply insert_setbit_bytes; [rewrite length_insert; lia|lia|]. apply insert_setbit_bytes; [lia|lia|done]. }
  split.
  - intros i Hi. case_bool_decide as E.
    + subst i. rewrite !list_lookup_total_insert_eq by (rewrite ?length_insert; lia). by rewrite (Hh _ Hi), H254.
    + rewrite !list_lookup_total_insert_ne by lia. by apply Hh.
  - intros k Hk. by rewrite !list_lookup_total_insert_ne by lia.
Qed.

Lemma flush_buffer d (G : geometry d) H (HH : header_ok H) w (b : list Z) :
  valid_space d H w -> length b = (d.(NumberOfSpareBlock) * BS)%nat -> holds d (fun k => b !!! k) w ->
  exists b1, copy_at (work_offset d) H b = Some b1 /\ length b1 = (d.(NumberOfSpareBlock) * BS)%nat /\
    holds d (fun k => b1 !!! k) w.
Proof.
  intros Hw Hl Hh. pose proof (geo_fits d G). pose proof (geo_space d G). pose proof HH as (HHl & _ & _).
  destruct (copy_at_fits (work_offset d) H b) as [b1 Hb1]; [lia|]. exists b1. split; [done|].
  destruct (copy_at_lookup _ _ _ _ Hb1) as [Hl1 Hv1]. split; [congruence|].
  intros i Hi. rewrite Hv1. case_bool_decide; [|by apply Hh].
  replace (work_offset d + i - work_offset d)%nat with i by lia. symmetry. apply (valid_header d H HH w); [done|lia].
Qed.

(** ** [FlushSpareBlockToWorkingBlock] *)

(** What the driver's other fields are while it runs: only the header in memory changes. *)
Definition same_device s s' : Prop :=
  s'.(mWorkingBlockHeader) = s.(mWorkingBlockHeader) /\
  exists l, length l = length s.(dev).(FtwWorkSpace) /\ s'.(dev) = set_work_space l s.(dev).

Lemma same_device_refl s : same_device s s.
Proof. split; [done|]. exists s.(dev).(FtwWorkSpace). split; [done|]. by destruct (dev s). Qed.

Lemma same_device_kept s s' s'' : same_device s s' -> kept s' s'' -> same_device s s''.
Proof. intros [Hm (l & Hl & Hd)] [Hd' Hm']. split; [congruence|]. exists l. split; [done|congruence]. Qed.

(** The phase of the copy in which the spare block counts. *)
Record copying s0 w (P : img -> Prop) s : Prop := {
  copying_device : same_device s0 s;
  copying_spare : forall k, (k < s0.(dev).(NumberOfSpareBlock) * BS)%nat ->
    area (image s.(flash)) s0.(dev).(FtwBackupFvb) s0.(dev).(FtwSpareLba) k =
    area (image s0.(flash)) s0.(dev).(FtwBackupFvb) s0.(dev).(FtwSpareLba) k;
  copying_tracked : tracked s0 (fun x => recover s0.(dev) s0.(mWorkingBlockHeader) x = Some w) s;
  copying_now : P (image s.(flash))
}.

Lemma copying_changes s0 w (P P' : img -> Prop) s s' y st :
  copying s0 w P s -> changes y s s' st ->
  (forall z, torn (image s.(flash)) y z -> recover s0.(dev) s0.(mWorkingBlockHeader) z = Some w /\
     forall k, (k < s0.(dev).(NumberOfSpareBlock) * BS)%nat ->
       area z s0.(dev).(FtwBackupFvb) s0.(dev).(FtwSpareLba) k =
       area (image s.(flash)) s0.(dev).(FtwBackupFvb) s0.(dev).(FtwSpareLba) k) ->
  P' (image s'.(flash)) -> copying s0 w P' s'.
Proof.
  intros [H1 H2 H3 H4] Hc Hz HP. split; [| | |done].
  - eapply same_device_kept; [done|apply Hc].
  - intros k Hk. rewrite (proj2 (Hz _ (changes_torn _ _ _ _ Hc))) by done. by apply H2.
  - eapply tracked_changes; [exact Hc| |done]. intros z Ht. by apply Hz.
Qed.

Lemma copying_quietly s0 w (P : img -> Prop) s s' :
  (forall x y, same x y -> P y -> P x) -> copying s0 w P s -> quietly s s' -> copying s0 w P s'.
Proof.
  intros HP [H1 H2 H3 H4] Hq. split.
  - eapply same_device_kept; [done|apply Hq].
  - intros k Hk. rewrite <- (H2 k Hk). apply Hq.
  - by eapply tracked_quietly.
  - eapply HP; [|exact H4]. apply Hq.
Qed.

Lemma in_spare_same d w x y : same x y -> in_spare d w y -> in_spare d w x.
Proof.
  intros Hs [H1 H2]. split; [by rewrite (area_same _ _ _ _ _ Hs)|].
  intros i Hi. rewrite (area_same _ _ _ _ _ Hs). by apply H2.
Qed.

(** An operation that keeps the spare block, and whose parts keep [w] there. *)
Lemma copying_step s0 w (tgt : img -> img) s s' st :
  geometry s0.(dev) -> header_ok s0.(mWorkingBlockHeader) -> valid_space s0.(dev) s0.(mWorkingBlockHeader) w ->
  (forall x z, in_spare s0.(dev) w x -> torn x (tgt x) z -> in_spare s0.(dev) w z /\
     forall k, (k < s0.(dev).(NumberOfSpareBlock) * BS)%nat ->
       area z s0.(dev).(FtwBackupFvb) s0.(dev).(FtwSpareLba) k = area x s0.(dev).(FtwBackupFvb) s0.(dev).(FtwSpareLba) k) ->
  copying s0 w (in_spare s0.(dev) w) s -> changes (tgt (image s.(flash))) s s' st ->
  copying s0 w (in_spare s0.(dev) w) s'.
Proof.
  intros G HH Hw Hstep HC Hc. pose proof (copying_now _ _ _ _ HC) as HP. eapply copying_changes; [exact HC|exact Hc| |].
  - intros z Hz. destruct (Hstep _ _ HP Hz) as [H1 H2]. split; [by apply recover_spare|done].
  - by destruct (Hstep _ _ HP (changes_torn _ _ _ _ Hc)).
Qed.

(** The result of the copy of the work space [w] from the spare block. *)
Definition flushed s w (st : EFI_STATUS) s' : Prop :=
  same_device s s' /\
  tracked s (fun x => recover s.(dev) s.(mWorkingBlockHeader) x = Some w) s' /\
  (EFI_ERROR st = false ->
     holds s.(dev) (area (image s'.(flash)) s.(dev).(FtwFvBlock) s.(dev).(FtwWorkBlockLba)) w /\
     (forall k, (k < s.(dev).(NumberOfSpareBlock) * BS)%nat ->
        area (image s'.(flash)) s.(dev).(FtwBackupFvb) s.(dev).(FtwSpareLba) k =
        area (image s.(flash)) s.(dev).(FtwBackupFvb) s.(dev).(FtwSpareLba) k) /\
     s'.(dev) = set_work_space (<[state_offset := 254]> s.(dev).(FtwWorkSpace)) s.(dev)).

Lemma copying_flushed s w P s' st : copying s w P s' -> EFI_ERROR st = true -> flushed s w st s'.
Proof. intros [H1 H2 H3 H4] Hst. split; [done|]. split; [done|]. by rewrite Hst. Qed.

(** The last part of the copy: the new work space is marked. *)
Lemma flush_finish s0 w s (Q : EFI_STATUS -> ftw D -> Prop) :
  geometry s0.(dev) -> header_ok s0.(mWorkingBlockHeader) -> valid_space s0.(dev) s0.(mWorkingBlockHeader) w ->
  holds s0.(dev) (area (image s0.(flash)) s0.(dev).(FtwBackupFvb) s0.(dev).(FtwSpareLba)) w ->
  length s0.(dev).(FtwWorkSpace) = Z.to_nat s0.(dev).(FtwWorkSpaceSize) ->
  s.(dev) = set_work_space (<[state_offset := 252]> s0.(dev).(FtwWorkSpace)) s0.(dev) ->
  copying s0 w (fun x => unmarked s0.(dev) w (area x s0.(dev).(FtwFvBlock) s0.(dev).(FtwWorkBlockLba))) s ->
  (forall st s', flushed s0 w st s' -> Q st s') ->
  wp (Status ← FtwUpdateFvState s0.(dev).(FtwFvBlock) s0.(dev).(FtwWorkSpaceLba)
        (s0.(dev).(FtwWorkSpaceBase) + Z.of_nat state_offset) WORKING_BLOCK_VALID;
      if EFI_ERROR Status then mret EFI_ABORTED else
      _ ← set_header_state bit_WorkingBlockInvalid FTW_INVALID_STATE;
      _ ← set_header_state bit_WorkingBlockValid FTW_VALID_STATE;
      mret EFI_SUCCESS) Q s.
Proof.
  intros G HH Hw Hs Hl Hd HC HQ. destruct (state_address s0.(dev) G) as [A1 A2].
  pose proof (state_in_space s0.(dev) G) as Hsp. pose proof (geo_order _ G).
  apply wp_bind. eapply (FtwUpdateFvState_spec s0.(dev).(NumberOfSpareBlock) _ s0.(dev).(FtwWorkBlockLba));
    [by apply state_in_area|lia|by rewrite A2|rewrite BLOCK_VALID_value; done|].
  intros st s1 Hc. rewrite BLOCK_VALID_value in Hc. pose proof HC as [_ C2 _ C4].
  assert (HC1 : copying s0 w (fun _ => True) s1).
  { eapply copying_changes; [exact HC|exact Hc| |done]. intros z Hz. eapply mark_working_valid; [done..| |exact Hz].
    eapply holds_ext; [done| |exact Hs]. done. }
  destruct (EFI_ERROR st) eqn:Hst; [apply wp_ret, HQ; by eapply copying_flushed|].
  assert (Hd1 : dev s1 = set_work_space (<[state_offset := 252]> s0.(dev).(FtwWorkSpace)) s0.(dev)).
  { rewrite <- Hd. apply Hc. }
  apply wp_bind, wp_set_header_state; [rewrite Hd1; cbn [FtwWorkSpace set_work_space]; rewrite length_insert; lia|].
  apply wp_bind, wp_set_header_state; [cbn [dev FtwWorkSpace set_work_space]; rewrite Hd1; cbn [FtwWorkSpace set_work_space]; rewrite !length_insert; lia|].
  apply wp_ret, HQ. rewrite Hd1. cbn [dev FtwWorkSpace set_work_space flash mWorkingBlockHeader].
  rewrite INVALID_STATE_value, VALID_STATE_value, bit_Valid_value, bit_Invalid_value. cbn [Z.eqb].
  rewrite !list_insert_insert_eq, !list_lookup_total_insert_eq by (rewrite ?length_insert; lia).
  destruct HC1 as [E1 E2 E3 _]. split; [split; [apply E1|]|split; [done|intros _; split; [|split; [done|done]]]].
  - eexists. split; [|reflexivity]. by rewrite length_insert.
  - intros i Hi. cbn [flash]. rewrite (area_same _ _ _ _ _ (changes_done _ _ _ _ Hc Hst)).
    by apply (mark_unmarked s0.(dev) G _ HH).
Qed.

Lemma wp_FtwEraseBlock f l (Q : EFI_STATUS -> ftw D -> Prop) s :
  Z.of_nat s.(dev).(NumberOfSpareBlock) < 2 ^ 32 ->
  (forall st s', changes (erase_img f l (Z.of_nat s.(dev).(NumberOfSpareBlock)) (image s.(flash))) s s' st -> Q st s') ->
  wp (FtwEraseBlock f l) Q s.
Proof. intros Hn HQ. apply wp_bind, wp_Dev, wp_FvbEraseBlocks; [lia|done]. Qed.

(** The middle part: the working block is erased and written. *)
Lemma flush_replace s0 w b s (Q : EFI_STATUS -> ftw D -> Prop) (k : EFI_STATUS -> M (ftw D) EFI_STATUS) :
  geometry s0.(dev) -> header_ok s0.(mWorkingBlockHeader) -> valid_space s0.(dev) s0.(mWorkingBlockHeader) w ->
  length b = (s0.(dev).(NumberOfSpareBlock) * BS)%nat -> Forall (in_width 8) b -> unmarked s0.(dev) w (fun k => b !!! k) ->
  copying s0 w (in_spare s0.(dev) w) s ->
  (forall st s', flushed s0 w st s' -> EFI_ERROR st = true -> Q st s') ->
  (forall s', copying s0 w (fun x => unmarked s0.(dev) w (area x s0.(dev).(FtwFvBlock) s0.(dev).(FtwWorkBlockLba))) s' ->
     kept s s' -> wp (k EFI_SUCCESS) Q s') ->
  wp (Status ← FtwEraseBlock s0.(dev).(FtwFvBlock) s0.(dev).(FtwWorkBlockLba);
      if EFI_ERROR Status then mret EFI_ABORTED else
      Status ← write_blocks s0.(dev).(NumberOfSpareBlock) s0.(dev).(FtwFvBlock) s0.(dev).(FtwWorkBlockLba) s0.(dev).(BlockSize) b;
      if EFI_ERROR Status then mret Status else k Status) Q s.
Proof.
  intros G HH Hw Hbl Hbb Hbu HC HE HK.
  assert (Hn : s.(dev).(NumberOfSpareBlock) = s0.(dev).(NumberOfSpareBlock)).
  { destruct HC as [[_ (l & _ & ->)] _ _ _]. done. }
  apply wp_bind, wp_FtwEraseBlock; rewrite Hn; [by apply geo_count|]. intros st s1 Hc1.
  assert (HC1 : copying s0 w (in_spare s0.(dev) w) s1).
  { eapply (copying_step s0 w (erase_img _ _ _)); [done..| |exact HC|exact Hc1]. intros x z. by apply erase_working. }
  destruct (EFI_ERROR st) eqn:Hst; [apply wp_ret, HE; [by eapply copying_flushed|done]|].
  pose proof (changes_done _ _ _ _ Hc1 Hst) as Hd1.
  assert (HW : forall k, (k < s0.(dev).(NumberOfSpareBlock) * BS)%nat ->
    area (image s1.(flash)) s0.(dev).(FtwFvBlock) s0.(dev).(FtwWorkBlockLba) k = 255).
  { intros k0 Hk. rewrite (area_same _ _ _ _ _ Hd1). by apply area_erase. }
  rewrite (geo_block _ G). apply wp_bind, write_blocks_spec; [done|]. intros st' s2 Hc2.
  assert (HC2 : copying s0 w (in_spare s0.(dev) w) s2).
  { pose proof (copying_now _ _ _ _ HC1) as HP.
    assert (Hb20 : b !!! (work_offset s0.(dev) + state_offset)%nat = 255).
    { rewrite (Hbu _ (state_in_space _ G)). by rewrite bool_decide_true. }
    eapply copying_changes; [exact HC1|exact Hc2| |].
    - intros z Hz. destruct (write_working s0.(dev) G _ _ _ _ HP HW Hb20 Hz) as [H1 H2].
      split; [by apply recover_spare|done].
    - by destruct (write_working s0.(dev) G _ _ _ _ HP HW Hb20 (changes_torn _ _ _ _ Hc2)). }
  destruct (EFI_ERROR st') eqn:Hst'; [apply wp_ret, HE; [by eapply copying_flushed|done]|].
  assert (st' = EFI_SUCCESS) as -> by (by apply negb_false_iff, bool_decide_eq_true_1 in Hst').
  apply HK; [|destruct Hc1 as [[? ?] _], Hc2 as [[? ?] _]; split; congruence].
  destruct HC2 as [E1 E2 E3 E4]. split; [done..|]. intros i Hi.
  rewrite (area_same _ _ _ _ _ (changes_done _ _ _ _ Hc2 Hst')).
  pose proof (space_in_area s0.(dev) G i Hi). rewrite area_write, HW by done.
  change 255 with (Z.ones 8). rewrite Z.land_comm, <- wrap_land by lia. rewrite wrap_small; [by apply Hbu|].
  by apply Forall_lookup_total_1; [|lia].
Qed.

Lemma flush_spec s w (Q : EFI_STATUS -> ftw D -> Prop) :
  geometry s.(dev) -> header_ok s.(mWorkingBlockHeader) -> valid_space s.(dev) s.(mWorkingBlockHeader) w ->
  length s.(dev).(FtwWorkSpace) = Z.to_nat s.(dev).(FtwWorkSpaceSize) ->
  s.(dev).(FtwWorkSpace) !!! state_offset = 254 \/ s.(dev).(FtwWorkSpace) !!! state_offset = 252 ->
  in_spare s.(dev) w (image s.(flash)) ->
  (forall st s', flushed s w st s' -> Q st s') ->
  wp FlushSpareBlockToWorkingBlock Q s.
Proof.
  intros G HH Hw Hl Hst0 Hs HQ. destruct (state_address s.(dev) G) as [A1 A2].
  pose proof (state_in_space s.(dev) G) as Hsp. pose proof (state_in_area s.(dev) G) as Har. pose proof (geo_order _ G).
  assert (HC0 : copying s w (in_spare s.(dev) w) s) by (split; [apply same_device_refl|done|apply tracked_refl|done]).
  unfold FlushSpareBlockToWorkingBlock. apply wp_bind, wp_Dev. apply wp_bind, wp_AllocatePool. intros ok s1 Hq1.
  assert (HC1 : copying s w (in_spare s.(dev) w) s1) by (eapply copying_quietly; [apply in_spare_same|exact HC0|done]).
  destruct (negb ok); [apply wp_ret, HQ; by eapply copying_flushed|]. cbv zeta.
  apply wp_bind. eapply (FtwUpdateFvState_spec s.(dev).(NumberOfSpareBlock) _ s.(dev).(FtwSpareLba));
    [exact Har|by rewrite A1|by rewrite A2|rewrite BLOCK_VALID_value; done|].
  intros st s2 Hc2. rewrite BLOCK_VALID_value in Hc2.
  assert (HC2 : copying s w (in_spare s.(dev) w) s2).
  { eapply (copying_step s w (clear_bits _ _ _ _)); [done..| |exact HC1|exact Hc2]. intros x z HP Hz.
    by destruct (mark_spare_again s.(dev) G _ HH _ _ _ Hw HP Hz) as (? & _ & ?). }
  rewrite (geo_block _ G) at 1. apply wp_bind, read_blocks_spec. intros st' c s3 Hq3 Hc. cbn beta iota.
  assert (HC3 : copying s w (in_spare s.(dev) w) s3) by (eapply copying_quietly; [apply in_spare_same|exact HC2|done]).
  destruct (EFI_ERROR st') eqn:Hst'; [apply wp_ret, HQ; by eapply copying_flushed|].
  destruct (Hc eq_refl) as [Hcl Hcv]. cbn [app].
  assert (Hch : holds s.(dev) (fun k => c !!! k) w).
  { intros i Hi. rewrite Hcv by (by apply space_in_area). by apply (copying_now _ _ _ _ HC2). }
  assert (Hcb : Forall (in_width 8) c).
  { apply Forall_lookup_2. intros k v Hk. pose proof (lookup_lt_Some _ _ _ Hk). rewrite <- (list_lookup_total_correct _ _ _ Hk), Hcv by lia. apply area_byte. }
  destruct (flush_buffer s.(dev) G _ HH w c Hw Hcl Hch) as (b1 & Hb1 & Hbl & Hbh).
  destruct (mark_buffer s.(dev) G w b1 FTW_ERASE_POLARITY ERASE_POLARITY_value Hbl (copy_at_bytes _ _ _ _ Hb1 (proj1 (proj2 HH)) Hcb) Hbh
    (valid_state s.(dev) _ HH w Hw)) as (b2 & b3 & Hb2 & Hb3 & Hbl3 & Hbb & Hbu & _).
  assert (Hm : mWorkingBlockHeader s3 = mWorkingBlockHeader s) by (destruct HC3 as [[-> _] _ _ _]; done).
  apply wp_bind. unfold InitWorkSpaceHeader. apply wp_bind, wp_get. rewrite Hm. eapply wp_lift; [exact Hb1|].
  cbn beta iota. apply wp_bind. eapply wp_lift; [exact Hb2|]. cbn beta iota.
  apply wp_bind. eapply wp_lift; [exact Hb3|]. cbn beta iota.
  apply wp_bind. eapply (FtwUpdateFvState_spec s.(dev).(NumberOfSpareBlock) _ s.(dev).(FtwWorkBlockLba));
    [exact Har|lia|by rewrite A2|rewrite BLOCK_INVALID_value; done|].
  intros st4 s4 Hc4. rewrite BLOCK_INVALID_value in Hc4.
  assert (HC4 : copying s w (in_spare s.(dev) w) s4).
  { eapply (copying_step s w (clear_bits _ _ _ _)); [done..| |exact HC3|exact Hc4]. intros x z.
    by apply mark_working_invalid. }
  destruct (EFI_ERROR st4); [apply wp_ret, HQ; by eapply copying_flushed|].
  assert (Hd4 : s4.(dev) = s.(dev)) by (destruct Hq1 as [[? _] _], Hc2 as [[? _] _], Hq3 as [[? _] _], Hc4 as [[? _] _]; congruence).
  apply wp_bind, wp_set_header_state; [rewrite Hd4; lia|].
  assert (H252 : (if FTW_VALID_STATE =? 0 then Z.clearbit (s.(dev).(FtwWorkSpace) !!! state_offset) bit_WorkingBlockInvalid
      else Z.setbit (s.(dev).(FtwWorkSpace) !!! state_offset) bit_WorkingBlockInvalid) = 252).
  { rewrite VALID_STATE_value, bit_Invalid_value. by destruct Hst0 as [-> | ->]. }
  rewrite Hd4, H252. clear H252.
  eapply (flush_replace s w); try done.
  - destruct HC4 as [[E1 _] E2 E3 E4]. split; [|done..]. split; [done|]. eexists. split; [|reflexivity]. by rewrite length_insert.
  - intros st5 s' Hf _. by apply HQ.
  - intros s6 HC6 [Hk6 _]. cbv beta. apply (flush_finish s w); try done.
    intros i Hi. by apply Hs.
Qed.
End Flush.
