(* ===== verification/FtwReclaim.v ===== *)
(** * The fault-tolerant write driver: reclaiming the work space

    [FtwReclaimWorkSpace] goes from the old work space to the new one by way of the spare block: its
    result, and that the power can only leave the one or the other. *)

From S2P Require Import Prelude FtwDefs FtwSpec FtwFlash FtwRecover FtwFlush.
From stdpp Require Import list.
#[local] Open Scope Z_scope.

Section Reclaim.
Context {FL : FtwLayout} {LL : FtwLayoutLaws} {D : Type} {FV : FvbServices D} {LW : FvbLaws D}.
Implicit Types (s : ftw D) (x y z : img) (w : list Z).

Lemma geometry_set_work_space l d : geometry d -> geometry (set_work_space l d).
Proof. intros [? ? ? ? ? ? ?]. by split. Qed.

Lemma geometry_set_last h r d : geometry d -> geometry (set_last h r d).
Proof. intros [? ? ? ? ? ? ?]. by split. Qed.

(** ** The new work space *)

Lemma slice_bytes o n (l r : list Z) : slice o n l = Some r -> Forall (in_width 8) l -> Forall (in_width 8) r.
Proof. unfold slice. case_bool_decide; [|done]. intros [= <-] Hl. by apply Forall_take, Forall_drop. Qed.

Lemma copy_at_header o (src dst r : list Z) n :
  copy_at o src dst = Some r -> (n <= o)%nat -> take n r = take n dst.
Proof.
  unfold copy_at. case_bool_decide; [|done]. intros [= <-] Hn.
  rewrite take_app_le by (rewrite length_take; lia). by rewrite take_take, Nat.min_l.
Qed.

Lemma fresh_work_space_valid PreserveRecord d H new :
  header_ok H -> valid_space d H d.(FtwWorkSpace) -> Z.of_nat sizeof_HEADER <= d.(FtwWorkSpaceSize) ->
  fresh_work_space PreserveRecord d = Some new -> valid_space d H new.
Proof.
  intros (HHl & HHb & _) (Hl & Hb & Ht) Hs. unfold fresh_work_space.
  assert (Hsl : slice 0 sizeof_HEADER d.(FtwWorkSpace) = Some H).
  { unfold slice. rewrite bool_decide_true by lia. by rewrite drop_0, Ht. }
  rewrite Hsl, some_bind. destruct (copy_at 0 H _) as [p|] eqn:Hp; [|done]. rewrite some_bind.
  assert (Hvp : valid_space d H p).
  { destruct (copy_at_lookup _ _ _ _ Hp) as [Hlp _]. rewrite length_replicate in Hlp. split; [done|]. split.
    - eapply copy_at_bytes; [exact Hp|done|]. apply Forall_replicate. rewrite ERASED_BYTE_value. done.
    - unfold copy_at in Hp. case_bool_decide; [|done]. injection Hp as <-. cbn [take app].
      by rewrite take_app_le, take_ge by lia. }
  destruct PreserveRecord; [|by intros [= <-]].
  destruct (FtwGetLastWriteHeader _ _) as [[st h]|]; [|done]. rewrite some_bind. cbn beta iota.
  destruct (EFI_ERROR st); [by intros [= <-]|].
  destruct (Complete _) as [c|]; [|done]. rewrite some_bind.
  destruct (HeaderAllocated _) as [a|]; [|done]. rewrite some_bind.
  destruct (negb (c =? FTW_VALID_STATE) && (a =? FTW_VALID_STATE)); [|by intros [= <-]].
  destruct (NumberOfWrites _) as [nw|]; [|done]. rewrite some_bind.
  destruct (PrivateDataSize _) as [ps|]; [|done]. rewrite some_bind.
  destruct (slice (Z.to_nat h) _ _) as [r|] eqn:Hr; [|done]. rewrite some_bind. intros Hn.
  destruct Hvp as (Hlp & Hbp & Htp). destruct (copy_at_lookup _ _ _ _ Hn) as [Hln _]. split; [congruence|]. split.
  - eapply copy_at_bytes; [exact Hn|by eapply slice_bytes|done].
  - by rewrite (copy_at_header _ _ _ _ _ Hn).
Qed.

(** ** Rewriting the spare block *)

Lemma wp_both {A} (m : M D A) (Q Q' : A -> D -> Prop) d :
  wp m Q d -> wp m Q' d -> wp m (fun a d' => Q a d' /\ Q' a d') d.
Proof. intros (a & d' & Hm & HQ) HQ'. exists a, d'. split; [done|]. split; [done|]. by eapply wp_run. Qed.

Lemma wp_rewrite_spare s b (Q : EFI_STATUS -> ftw D -> Prop) (k : EFI_STATUS -> M (ftw D) EFI_STATUS) d :
  geometry d -> erase_succeeds D d.(FtwBackupFvb) d.(FtwSpareLba) (Z.of_nat d.(NumberOfSpareBlock)) ->
  (exists h r l, s.(dev) = set_last h r (set_work_space l d)) ->
  length b = (d.(NumberOfSpareBlock) * BS)%nat -> Forall (in_width 8) b ->
  (forall st s', kept s s' ->
     tracked s (fun x => forall i, (i < d.(NumberOfSpareBlock) * BS)%nat ->
       area x d.(FtwFvBlock) d.(FtwWorkBlockLba) i = area (image s.(flash)) d.(FtwFvBlock) d.(FtwWorkBlockLba) i) s' ->
     (forall i, (i < d.(NumberOfSpareBlock) * BS)%nat ->
       area (image s'.(flash)) d.(FtwFvBlock) d.(FtwWorkBlockLba) i = area (image s.(flash)) d.(FtwFvBlock) d.(FtwWorkBlockLba) i) ->
     (EFI_ERROR st = false -> forall i, (i < d.(NumberOfSpareBlock) * BS)%nat ->
       area (image s'.(flash)) d.(FtwBackupFvb) d.(FtwSpareLba) i = b !!! i) -> wp (k st) Q s') ->
  wp (_ ← FtwEraseSpareBlock;
      Status ← write_blocks d.(NumberOfSpareBlock) d.(FtwBackupFvb) d.(FtwSpareLba) d.(BlockSize) b; k Status) Q s.
Proof.
  intros G ES (h & r & l & Hd) Hl Hb HK. pose proof (apart_sym _ _ _ _ _ (geo_apart d G)) as Hap.
  apply wp_bind. apply wp_bind, wp_Dev. rewrite Hd. cbn [FtwBackupFvb FtwSpareLba NumberOfSpareBlock set_last set_work_space].
  apply wp_on_flash. eapply wp_mono; [apply wp_both; [apply FvbEraseBlocks_law; pose proof (geo_count d G); lia|apply ES]|].
  intros st d1 [U1 Hst]. cbn beta. set (s1 := {| dev := _; flash := d1; mWorkingBlockHeader := _ |}).
  assert (Hc1 : changes (erase_img d.(FtwBackupFvb) d.(FtwSpareLba) (Z.of_nat d.(NumberOfSpareBlock)) (image s.(flash))) s s1 st) by done.
  assert (HW1 : forall x, torn (image s.(flash)) (erase_img d.(FtwBackupFvb) d.(FtwSpareLba) (Z.of_nat d.(NumberOfSpareBlock)) (image s.(flash))) x ->
    forall i, (i < d.(NumberOfSpareBlock) * BS)%nat -> area x d.(FtwFvBlock) d.(FtwWorkBlockLba) i = area (image s.(flash)) d.(FtwFvBlock) d.(FtwWorkBlockLba) i).
  { intros x Hx. eapply torn_spare; [|exact Hx]. intros i Hi. by apply area_erase_apart. }
  pose proof (changes_done _ _ _ _ Hc1 Hst) as Hd1.
  rewrite (geo_block d G). apply wp_bind, write_blocks_spec; [done|]. intros st' s2 Hc2.
  assert (HW2 : forall x, torn (image s1.(flash)) (write_area d.(NumberOfSpareBlock) d.(FtwBackupFvb) d.(FtwSpareLba) b (image s1.(flash))) x ->
    forall i, (i < d.(NumberOfSpareBlock) * BS)%nat -> area x d.(FtwFvBlock) d.(FtwWorkBlockLba) i = area (image s.(flash)) d.(FtwFvBlock) d.(FtwWorkBlockLba) i).
  { intros x Hx i Hi. rewrite (torn_spare d _ _ _ (fun k Hk => area_write_apart _ _ _ _ _ _ _ k Hap Hk) Hx i Hi).
    apply (HW1 _ (changes_torn _ _ _ _ Hc1) i Hi). }
  apply HK.
  - destruct Hc2 as [[? ?] _]. by split.
  - eapply tracked_changes; [exact Hc2|exact HW2|]. eapply tracked_changes; [exact Hc1|exact HW1|]. apply tracked_refl.
  - apply HW2. by eapply changes_torn.
  - intros Hst' i Hi. rewrite (area_same _ _ _ _ _ (changes_done _ _ _ _ Hc2 Hst')), area_write by done.
    rewrite (area_same _ _ _ _ _ Hd1), area_erase by done. change 255 with (Z.ones 8).
    rewrite Z.land_comm, <- wrap_land by lia. apply wrap_small. by apply Forall_lookup_total_1; [|lia].
Qed.

(** ** From the old work space to the new one *)

(** Marking the working block invalid, when it has the old work space and the spare block the new one. *)
Lemma mark_old_invalid d (G : geometry d) H (HH : header_ok H) old new x z :
  valid_space d H old -> valid_space d H new ->
  holds d (area x d.(FtwFvBlock) d.(FtwWorkBlockLba)) old -> holds d (area x d.(FtwBackupFvb) d.(FtwSpareLba)) new ->
  torn x (clear_bits d.(FtwFvBlock) d.(FtwWorkBlockLba) (work_offset d + state_offset) 2 x) z ->
  recover d H z = Some old \/ in_spare d new z.
Proof.
  intros Ho Hn HW HS Hz. pose proof (state_in_area d G) as Ha.
  destruct (area_torn _ _ _ d.(FtwFvBlock) d.(FtwWorkBlockLba) (work_offset d + state_offset) Hz) as [E|E].
  - left. apply recover_working; [done|]. intros i Hi. rewrite <- (HW i Hi). pose proof (space_in_area d G i Hi).
    destruct (area_torn _ _ _ d.(FtwFvBlock) d.(FtwWorkBlockLba) (work_offset d + i) Hz) as [->|E']; [done|].
    destruct (decide (i = state_offset)) as [-> |]; [done|].
    rewrite E', (area_clear d.(NumberOfSpareBlock)) by done. by rewrite bool_decide_false by lia.
  - right. split.
    + rewrite E, (area_clear d.(NumberOfSpareBlock)), bool_decide_true by done.
      rewrite (HW _ (state_in_space d G)), (valid_state d H HH old Ho). done.
    + eapply holds_ext; [done| |exact HS]. eapply torn_working; [|exact Hz].
      intros k Hk. by apply (area_clear_apart d.(NumberOfSpareBlock)); [apply G|..].
Qed.

(** What may be found after a loss of power. *)
Definition old_or_new s0 old new x : Prop :=
  recover s0.(dev) s0.(mWorkingBlockHeader) x = Some old \/ recover s0.(dev) s0.(mWorkingBlockHeader) x = Some new.

Definition switched s0 old new s : Prop :=
  s.(mWorkingBlockHeader) = s0.(mWorkingBlockHeader) /\ tracked s0 (old_or_new s0 old new) s.

Lemma switched_changes s0 old new s s' y st :
  changes y s s' st -> (forall z, torn (image s.(flash)) y z -> old_or_new s0 old new z) ->
  switched s0 old new s -> switched s0 old new s'.
Proof.
  intros Hc Hz [Hm Ht]. split; [destruct Hc as [[_ ->] _]; done|]. by eapply tracked_changes.
Qed.

(** The spare block is marked valid, and then the working block invalid. *)
Lemma reclaim_mark s0 old new s (Q : EFI_STATUS -> ftw D -> Prop) (k : M (ftw D) EFI_STATUS) :
  let d := s0.(dev) in let H := s0.(mWorkingBlockHeader) in
  geometry d -> header_ok H -> valid_space d H old -> valid_space d H new -> switched s0 old new s ->
  holds d (area (image s.(flash)) d.(FtwFvBlock) d.(FtwWorkBlockLba)) old ->
  unmarked d new (area (image s.(flash)) d.(FtwBackupFvb) d.(FtwSpareLba)) ->
  (forall s', switched s0 old new s' -> Q EFI_ABORTED s') ->
  (forall s', switched s0 old new s' -> s'.(dev) = s.(dev) -> in_spare d new (image s'.(flash)) -> wp k Q s') ->
  wp (Status ← FtwUpdateFvState d.(FtwBackupFvb) (d.(FtwSpareLba) + (d.(FtwWorkSpaceLba) - d.(FtwWorkBlockLba)))
        (d.(FtwWorkSpaceBase) + Z.of_nat state_offset) WORKING_BLOCK_VALID;
      if EFI_ERROR Status then mret EFI_ABORTED else
      Status ← FtwUpdateFvState d.(FtwFvBlock) d.(FtwWorkSpaceLba) (d.(FtwWorkSpaceBase) + Z.of_nat state_offset) WORKING_BLOCK_INVALID;
      if EFI_ERROR Status then mret EFI_ABORTED else k) Q s.
Proof.
  intros d H G HH Ho Hn Hsw HW HS HE HK. destruct (state_address d G) as [A1 A2].
  pose proof (state_in_space d G) as Hsp. pose proof (state_in_area d G) as Har. pose proof (geo_order d G).
  apply wp_bind. eapply (FtwUpdateFvState_spec d.(NumberOfSpareBlock) _ d.(FtwSpareLba));
    [exact Har|by rewrite A1|by rewrite A2|rewrite BLOCK_VALID_value; done|].
  intros st s1 Hc1. rewrite BLOCK_VALID_value in Hc1.
  assert (HW1 : forall z, torn (image s.(flash)) (clear_bits d.(FtwBackupFvb) d.(FtwSpareLba) (work_offset d + state_offset) 1 (image s.(flash))) z ->
      holds d (area z d.(FtwFvBlock) d.(FtwWorkBlockLba)) old).
  { intros z Hz. eapply holds_ext; [done| |exact HW]. eapply torn_spare; [|exact Hz]. intros i Hi.
    apply (area_clear_apart d.(NumberOfSpareBlock)); [apply apart_sym, G|done..]. }
  assert (Hs1 : switched s0 old new s1).
  { eapply switched_changes; [exact Hc1| |exact Hsw]. intros z Hz. left. apply recover_working; [done|]. by apply HW1. }
  destruct (EFI_ERROR st) eqn:Hst; [by apply wp_ret, HE|].
  assert (HS1 : holds d (area (image s1.(flash)) d.(FtwBackupFvb) d.(FtwSpareLba)) new).
  { intros i Hi. rewrite (area_same _ _ _ _ _ (changes_done _ _ _ _ Hc1 Hst)). by apply (mark_unmarked d G H HH). }
  pose proof (HW1 _ (changes_torn _ _ _ _ Hc1)) as HW1'.
  apply wp_bind. eapply (FtwUpdateFvState_spec d.(NumberOfSpareBlock) _ d.(FtwWorkBlockLba));
    [exact Har|lia|by rewrite A2|rewrite BLOCK_INVALID_value; done|].
  intros st2 s2 Hc2. rewrite BLOCK_INVALID_value in Hc2.
  assert (Hs2 : switched s0 old new s2).
  { eapply switched_changes; [exact Hc2| |exact Hs1]. intros z Hz.
    destruct (mark_old_invalid d G H HH old new _ _ Ho Hn HW1' HS1 Hz) as [|Hi]; [by left|].
    right. by apply recover_spare. }
  destruct (EFI_ERROR st2) eqn:Hst2; [by apply wp_ret, HE|].
  apply HK; [done|destruct Hc1 as [[? _] _], Hc2 as [[? _] _]; congruence|].
  pose proof (changes_done _ _ _ _ Hc2 Hst2) as Hd2. split.
  - rewrite (area_same _ _ _ _ _ Hd2), (area_clear d.(NumberOfSpareBlock)), bool_decide_true by done.
    rewrite (HW1' _ Hsp), (valid_state d H HH old Ho). done.
  - intros i Hi. rewrite (area_same _ _ _ _ _ Hd2), (area_clear_apart d.(NumberOfSpareBlock)); [by apply HS1|apply G|done|by apply space_in_area].
Qed.

(** The header in memory is marked, and the spare block copied. *)
Lemma reclaim_flush s0 old new h r s (Q : EFI_STATUS -> ftw D -> Prop) (k : EFI_STATUS -> M (ftw D) EFI_STATUS) :
  let d := s0.(dev) in let H := s0.(mWorkingBlockHeader) in
  geometry d -> header_ok H -> valid_space d H new ->
  s.(dev) = set_last h r (set_work_space new d) -> switched s0 old new s -> in_spare d new (image s.(flash)) ->
  (forall st s', switched s0 old new s' -> EFI_ERROR st = true -> Q st s') ->
  (forall st s', switched s0 old new s' -> s'.(dev) = set_last h r (set_work_space new d) ->
     holds d (area (image s'.(flash)) d.(FtwFvBlock) d.(FtwWorkBlockLba)) new -> wp (k st) Q s') ->
  wp (_ ← set_header_state bit_WorkingBlockInvalid FTW_VALID_STATE;
      Status ← FlushSpareBlockToWorkingBlock;
      if EFI_ERROR Status then mret Status else k Status) Q s.
Proof.
  intros d H G HH Hn Hd [Hm Ht] HS HE HK. pose proof (state_in_space d G) as Hsp. pose proof (proj1 Hn) as Hnl.
  apply wp_bind, wp_set_header_state; [rewrite Hd; cbn [FtwWorkSpace set_last set_work_space]; lia|].
  assert (H252 : (if FTW_VALID_STATE =? 0 then Z.clearbit (new !!! state_offset) bit_WorkingBlockInvalid
      else Z.setbit (new !!! state_offset) bit_WorkingBlockInvalid) = 252).
  { rewrite VALID_STATE_value, bit_Invalid_value, (valid_state d H HH new Hn). done. }
  rewrite Hd. cbn [FtwWorkSpace set_last set_work_space]. rewrite H252. clear H252.
  apply wp_bind. set (s3 := {| dev := _; flash := _; mWorkingBlockHeader := _ |}). apply (flush_spec s3 new).
  - cbn [s3 dev]. apply geometry_set_work_space, geometry_set_last, geometry_set_work_space, G.
  - cbn [s3 mWorkingBlockHeader]. by rewrite Hm.
  - cbn [s3 mWorkingBlockHeader]. by rewrite Hm.
  - cbn [s3 dev FtwWorkSpace FtwWorkSpaceSize set_last set_work_space]. by rewrite length_insert.
  - cbn [s3 dev FtwWorkSpace set_last set_work_space]. right. by rewrite list_lookup_total_insert_eq by lia.
  - exact HS.
  - intros st4 s4 (Hsd & Ht4 & Hok).
    assert (Hs4 : switched s0 old new s4).
    { split; [destruct Hsd as [-> _]; exact Hm|]. intros x Hx. destruct (Ht4 x Hx) as [Hx'|Hx']; [by apply Ht|].
      right. right. revert Hx'. cbn [s3 mWorkingBlockHeader]. rewrite Hm. done. }
    destruct (EFI_ERROR st4) eqn:Hst4; [by apply wp_ret, HE|]. destruct (Hok eq_refl) as (Hh & _ & Hdd).
    apply HK; [done| |exact Hh]. rewrite Hdd. cbn [s3 dev FtwWorkSpace set_last set_work_space].
    rewrite list_insert_insert_eq, list_insert_id; [done|].
    rewrite <- (valid_state d H HH new Hn). apply list_lookup_lookup_total_lt. lia.
Qed.

(** ** The whole *)

Definition reclaimed s0 old new (st : EFI_STATUS) s' : Prop :=
  tracked s0 (old_or_new s0 old new) s' /\
  (EFI_ERROR st = false ->
     s'.(dev).(FtwWorkSpace) = new /\
     work_space s0.(dev) (image s'.(flash)) s0.(dev).(FtwFvBlock) s0.(dev).(FtwWorkBlockLba) = new /\
     forall k, (k < s0.(dev).(NumberOfSpareBlock) * BS)%nat ->
       area (image s'.(flash)) s0.(dev).(FtwBackupFvb) s0.(dev).(FtwSpareLba) k =
       area (image s0.(flash)) s0.(dev).(FtwBackupFvb) s0.(dev).(FtwSpareLba) k).

Lemma switched_reclaimed s0 old new st s' : switched s0 old new s' -> EFI_ERROR st = true -> reclaimed s0 old new st s'.
Proof. intros [_ Ht] Hst. split; [done|]. by rewrite Hst. Qed.

Lemma tracked_trans s0 s1 s2 (R R' : img -> Prop) :
  tracked s0 R s1 -> tracked s1 R' s2 -> (forall x, R' x -> R x) -> tracked s0 R s2.
Proof. intros H1 H2 HR x Hx. destruct (H2 x Hx); [by apply H1|right; auto]. Qed.

Lemma blocks_read s c f l n :
  (forall k, (k < n * BS)%nat -> c !!! k = area (image s.(flash)) f l k) -> length c = (n * BS)%nat -> Forall (in_width 8) c.
Proof.
  intros Hc Hl. apply Forall_lookup_2. intros k v Hk. pose proof (lookup_lt_Some _ _ _ Hk).
  rewrite <- (list_lookup_total_correct _ _ _ Hk), Hc by lia. apply area_byte.
Qed.

(** The last part: the spare block gets its contents back. *)
Lemma reclaim_restore s0 old new h r s b (Q : EFI_STATUS -> ftw D -> Prop) :
  let d := s0.(dev) in let H := s0.(mWorkingBlockHeader) in
  geometry d -> erase_succeeds D d.(FtwBackupFvb) d.(FtwSpareLba) (Z.of_nat d.(NumberOfSpareBlock)) ->
  header_ok H -> valid_space d H new -> s.(dev) = set_last h r (set_work_space new d) ->
  switched s0 old new s -> holds d (area (image s.(flash)) d.(FtwFvBlock) d.(FtwWorkBlockLba)) new ->
  length b = (d.(NumberOfSpareBlock) * BS)%nat -> Forall (in_width 8) b ->
  (forall k, (k < d.(NumberOfSpareBlock) * BS)%nat -> b !!! k = area (image s0.(flash)) d.(FtwBackupFvb) d.(FtwSpareLba) k) ->
  (forall st s', reclaimed s0 old new st s' -> Q st s') ->
  wp (_ ← FtwEraseSpareBlock;
      Status ← write_blocks d.(NumberOfSpareBlock) d.(FtwBackupFvb) d.(FtwSpareLba) d.(BlockSize) b;
      if EFI_ERROR Status then mret EFI_ABORTED else mret EFI_SUCCESS) Q s.
Proof.
  intros d H G ES HH Hn Hd Hsw HW Hl Hb Hv HQ. eapply wp_rewrite_spare; [exact G|exact ES|by eexists _, _, _|done|done|].
  intros st s1 [Hk _] Ht HW1 HS1. cbv beta.
  assert (Hs1 : tracked s0 (old_or_new s0 old new) s1).
  { eapply tracked_trans; [apply Hsw|exact Ht|]. intros x Hx. right. apply recover_working; [done|].
    eapply holds_ext; [done|exact Hx|done]. }
  destruct (EFI_ERROR st) eqn:Hst; apply wp_ret, HQ; (split; [done|]); [done|]. intros _. split; [by rewrite Hk, Hd|].
  split; [apply holds_work_space; [apply Hn|]; by eapply holds_ext|]. intros k Hk'.
  etransitivity; [exact (HS1 eq_refl k Hk')|exact (Hv k Hk')].
Qed.

(** The new contents, in the buffer [b], go to the spare block and from there to the working block. *)
Lemma reclaim_write s0 old new h r s b (Q : EFI_STATUS -> ftw D -> Prop) :
  let d := s0.(dev) in let H := s0.(mWorkingBlockHeader) in
  geometry d -> erase_succeeds D d.(FtwBackupFvb) d.(FtwSpareLba) (Z.of_nat d.(NumberOfSpareBlock)) ->
  header_ok H -> valid_space d H old -> valid_space d H new ->
  s.(dev) = set_last h r (set_work_space new d) -> switched s0 old new s -> same (image s.(flash)) (image s0.(flash)) ->
  holds d (area (image s0.(flash)) d.(FtwFvBlock) d.(FtwWorkBlockLba)) old ->
  length b = (d.(NumberOfSpareBlock) * BS)%nat -> Forall (in_width 8) b -> unmarked d new (fun k => b !!! k) ->
  (forall st s', reclaimed s0 old new st s' -> Q st s') ->
  wp (ok ← on_flash (AllocatePool d.(SpareAreaLength));
      if negb ok then mret EFI_OUT_OF_RESOURCES else
      '(Status, SpareBuffer) ← read_blocks d.(NumberOfSpareBlock) d.(FtwBackupFvb) d.(FtwSpareLba) d.(BlockSize) [];
      if EFI_ERROR Status then mret EFI_ABORTED else
      _ ← FtwEraseSpareBlock;
      Status ← write_blocks d.(NumberOfSpareBlock) d.(FtwBackupFvb) d.(FtwSpareLba) d.(BlockSize) b;
      if EFI_ERROR Status then mret EFI_ABORTED else
      Status ← FtwUpdateFvState d.(FtwBackupFvb) (d.(FtwSpareLba) + (d.(FtwWorkSpaceLba) - d.(FtwWorkBlockLba)))
        (d.(FtwWorkSpaceBase) + Z.of_nat state_offset) WORKING_BLOCK_VALID;
      if EFI_ERROR Status then mret EFI_ABORTED else
      Status ← FtwUpdateFvState d.(FtwFvBlock) d.(FtwWorkSpaceLba) (d.(FtwWorkSpaceBase) + Z.of_nat state_offset) WORKING_BLOCK_INVALID;
      if EFI_ERROR Status then mret EFI_ABORTED else
      _ ← set_header_state bit_WorkingBlockInvalid FTW_VALID_STATE;
      Status ← FlushSpareBlockToWorkingBlock;
      if EFI_ERROR Status then mret Status else
      _ ← FtwEraseSpareBlock;
      Status ← write_blocks d.(NumberOfSpareBlock) d.(FtwBackupFvb) d.(FtwSpareLba) d.(BlockSize) SpareBuffer;
      if EFI_ERROR Status then mret EFI_ABORTED else mret EFI_SUCCESS) Q s.
Proof.
  intros d H G ES HH Ho Hn Hd Hsw Hi HW0 Hl Hb Hu HQ.
  apply wp_bind, wp_AllocatePool. intros ok s1 Hq1.
  assert (Hsw1 : switched s0 old new s1) by (split; [etransitivity; [apply Hq1|apply Hsw]|by eapply tracked_quietly, Hsw]).
  destruct (negb ok); [by apply wp_ret, HQ, switched_reclaimed|].
  rewrite (geo_block d G) at 1. apply wp_bind, read_blocks_spec. intros st2 c s2 Hq2 Hc. cbn beta iota.
  assert (Hsw2 : switched s0 old new s2) by (split; [etransitivity; [apply Hq2|apply Hsw1]|by eapply tracked_quietly, Hsw1]).
  destruct (EFI_ERROR st2); [by apply wp_ret, HQ, switched_reclaimed|]. destruct (Hc eq_refl) as [Hcl Hcv].
  pose proof (blocks_read _ _ _ _ _ Hcv Hcl) as Hcb. cbn [app].
  assert (Hq : quietly s s2) by by eapply quietly_trans. destruct Hq as [[Hdv Hmv] [Hiv _]].
  eapply wp_rewrite_spare; [exact G|exact ES|rewrite Hdv, Hd; by eexists _, _, _|done|done|].
  intros st3 s3 [Hk3 Hm3] Ht3 HW3 HS3. cbv beta.
  assert (HW : forall x, (forall i, (i < d.(NumberOfSpareBlock) * BS)%nat ->
      area x d.(FtwFvBlock) d.(FtwWorkBlockLba) i = area (image s2.(flash)) d.(FtwFvBlock) d.(FtwWorkBlockLba) i) ->
      holds d (area x d.(FtwFvBlock) d.(FtwWorkBlockLba)) old).
  { intros x Hx. eapply (holds_ext d G); [|exact HW0]. intros k Hk. rewrite (Hx k Hk).
    rewrite (area_same _ _ _ _ _ Hiv). by apply area_same. }
  assert (Hsw3 : switched s0 old new s3).
  { split; [rewrite Hm3; apply Hsw2|]. eapply tracked_trans; [apply Hsw2|exact Ht3|]. intros x Hx. left.
    apply recover_working; [done|]. by apply HW. }
  destruct (EFI_ERROR st3) eqn:Hst3; [by apply wp_ret, HQ, switched_reclaimed|].
  eapply (reclaim_mark s0 old new); try done.
  { by apply HW. }
  { intros i Hi'. rewrite (HS3 eq_refl) by by apply (space_in_area d G). by apply Hu. }
  { intros s' Hs'. by apply HQ, switched_reclaimed. }
  intros s4 Hsw4 Hd4 Hs4. eapply (reclaim_flush s0 old new h r); try done.
  { by rewrite Hd4, Hk3, Hdv, Hd. }
  { intros st s' Hs' Hst. by apply HQ, switched_reclaimed. }
  intros st5 s5 Hsw5 Hd5 HW5. eapply (reclaim_restore s0 old new h r); try done.
  intros k Hk. rewrite (Hcv k Hk). rewrite (area_same _ _ _ _ _ (proj1 (proj2 Hq1))). by apply area_same.
Qed.

Lemma reclaim_spec s old new PreserveRecord st0 h st1 r (Q : EFI_STATUS -> ftw D -> Prop) :
  let d := s.(dev) in let H := s.(mWorkingBlockHeader) in
  geometry d -> erase_succeeds D d.(FtwBackupFvb) d.(FtwSpareLba) (Z.of_nat d.(NumberOfSpareBlock)) ->
  header_ok H -> valid_space d H old -> valid_space d H d.(FtwWorkSpace) ->
  work_space d (image s.(flash)) d.(FtwFvBlock) d.(FtwWorkBlockLba) = old ->
  fresh_work_space PreserveRecord d = Some new ->
  FtwGetLastWriteHeader new d.(FtwWorkSpaceSize) = Some (st0, h) -> FtwGetLastWriteRecord new h = Some (st1, r) ->
  (forall st s', reclaimed s old new st s' -> Q st s') ->
  wp (FtwReclaimWorkSpace PreserveRecord) Q s.
Proof.
  intros d H G ES HH Ho Hf Hold Hfresh Hh Hr HQ.
  pose proof (fresh_work_space_valid _ _ _ _ HH Hf (geo_space d G) Hfresh) as Hn.
  pose proof (geo_fits d G) as Hfit. pose proof (proj2 (holds_work_space d old _ _ _ (proj1 Ho)) Hold) as HW0.
  unfold FtwReclaimWorkSpace. apply wp_bind, wp_Dev. cbv zeta. fold d.
  assert (Hsw0 : switched s old new s) by (split; [done|apply tracked_refl]).
  apply wp_bind, wp_AllocatePool. intros ok s1 Hq1.
  assert (Hsw1 : switched s old new s1) by (split; [apply Hq1|by eapply tracked_quietly, tracked_refl]).
  destruct (negb ok); [by apply wp_ret, HQ, switched_reclaimed|].
  rewrite (geo_block d G). apply wp_bind, read_blocks_spec. intros st2 c s2 Hq2 Hc. cbn beta iota.
  assert (Hsw2 : switched s old new s2) by (split; [etransitivity; [apply Hq2|apply Hq1]|by eapply tracked_quietly, Hsw1]).
  destruct (EFI_ERROR st2); [by apply wp_ret, HQ, switched_reclaimed|]. destruct (Hc eq_refl) as [Hcl Hcv].
  pose proof (blocks_read _ _ _ _ _ Hcv Hcl) as Hcb.
  apply wp_bind. eapply wp_lift; [exact Hfresh|]. cbn [app].
  destruct (copy_at_fits (work_offset d) new c) as [b1 Hb1]; [rewrite (proj1 Hn); lia|].
  destruct (copy_at_lookup _ _ _ _ Hb1) as [Hl1 Hv1].
  apply wp_bind. eapply wp_lift; [exact Hb1|]. apply wp_bind. eapply wp_lift; [exact Hh|]. cbn beta iota.
  apply wp_bind. eapply wp_lift; [exact Hr|]. cbn beta iota.
  apply wp_bind, wp_modify.
  destruct (mark_buffer d G new b1 FTW_INVALID_STATE INVALID_STATE_value) as (b2 & b3 & Hb2 & Hb3 & Hl3 & Hbb3 & Hu3 & _).
  { lia. }
  { by apply (copy_at_bytes _ _ _ _ Hb1); [apply Hn|]. }
  { intros i Hi. rewrite Hv1, bool_decide_true by (rewrite (proj1 Hn); lia). f_equal. lia. }
  { by apply (valid_state d H HH). }
  apply wp_bind. eapply wp_lift; [exact Hb2|]. cbn beta iota. apply wp_bind. eapply wp_lift; [exact Hb3|]. cbn beta iota.
  assert (Hq : quietly s s2) by by eapply quietly_trans. destruct Hq as [[Hdv Hmv] [Hiv _]].
  rewrite <- (geo_block d G). apply (reclaim_write s old new h r); try done. cbn [dev]. by rewrite Hdv.
Qed.
End Reclaim.
