(* ===== verification/FtwTheorems.v ===== *)
(** * The fault-tolerant write driver: theorems *)

From S2P Require Import Prelude FtwDefs FtwSpec FtwFlash FtwRecover FtwFlush FtwReclaim.
From stdpp Require Import list.
#[local] Open Scope Z_scope.

Section Theorems.
Context {FL : FtwLayout} {LL : FtwLayoutLaws} {D : Type} {FV : FvbServices D} {LW : FvbLaws D}.
Implicit Types (s : ftw D) (x y z : img) (w : list Z).

(** The work space is reclaimed: the state is that of the flash, and the records can be read. *)
Record reclaimable s (PreserveRecord : bool) old new : Prop := {
  rec_geometry : geometry s.(dev);
  rec_erase : erase_succeeds D s.(dev).(FtwBackupFvb) s.(dev).(FtwSpareLba) (Z.of_nat s.(dev).(NumberOfSpareBlock));
  rec_header : header_ok s.(mWorkingBlockHeader);
  rec_memory : s.(dev).(FtwWorkSpace) = old;
  rec_flash : work_space s.(dev) (image s.(flash)) s.(dev).(FtwFvBlock) s.(dev).(FtwWorkBlockLba) = old;
  rec_valid : valid_space s.(dev) s.(mWorkingBlockHeader) old;
  rec_new : fresh_work_space PreserveRecord s.(dev) = Some new;
  rec_last : is_Some ('(_, h) ← FtwGetLastWriteHeader new s.(dev).(FtwWorkSpaceSize); FtwGetLastWriteRecord new h)
}.

Lemma reclaim_run s PreserveRecord old new :
  reclaimable s PreserveRecord old new -> wp (FtwReclaimWorkSpace PreserveRecord) (reclaimed s old new) s.
Proof.
  intros [G ES HH Hm Hf Hv Hn Hl].
  destruct (FtwGetLastWriteHeader new _) as [[st0 h]|] eqn:Eh; [|by destruct Hl]. rewrite some_bind in Hl.
  destruct Hl as [[st1 r] Er]. eapply reclaim_spec; try done. by rewrite Hm.
Qed.

(** C11: Reclaiming the work space never leaves the flash without a complete copy: whenever the power fails, in the middle of a write
    or of an erase included, and also when the function returns an error, the working block has the old work space or the new
    one under a valid header, or its header is not valid and the spare block has the old one or the new one under a valid header.
    So one of the two copies is complete, and the rule that takes the working block when its header is valid and the spare
    block otherwise selects it. The theorem is about what the two blocks contain: the driver's own start does not follow that
    rule, and can lose the copy again ([InitFtwProtocol_loses_write] of FtwWitness.v). Assumed ([reclaimable]): the blocks lie apart,
    the erase of the spare block succeeds, the working block and the memory have the old work space, its header is valid, and
    the records of the new one can be read. *)
Theorem FtwReclaimWorkSpace_power_loss s PreserveRecord old new :
  reclaimable s PreserveRecord old new ->
  wp (FtwReclaimWorkSpace PreserveRecord) (fun _ s' =>
    forall x, seen s'.(flash) x -> seen s.(flash) x \/
      intact s.(dev) s.(mWorkingBlockHeader) x old \/ intact s.(dev) s.(mWorkingBlockHeader) x new) s.
Proof.
  intros H. eapply wp_mono; [by apply reclaim_run|]. intros st s' [Ht _] x Hx. rewrite <- !recover_intact. by apply Ht.
Qed.

(** When [FtwReclaimWorkSpace] returns success, the working block and the memory have the new work space and
    the spare block has what it had before, if something else was kept there. *)
Theorem FtwReclaimWorkSpace_success s PreserveRecord old new :
  reclaimable s PreserveRecord old new ->
  wp (FtwReclaimWorkSpace PreserveRecord) (fun st s' => EFI_ERROR st = false ->
    s'.(dev).(FtwWorkSpace) = new /\
    work_space s.(dev) (image s'.(flash)) s.(dev).(FtwFvBlock) s.(dev).(FtwWorkBlockLba) = new /\
    recover s.(dev) s.(mWorkingBlockHeader) (image s'.(flash)) = Some new /\
    forall k, (k < s.(dev).(NumberOfSpareBlock) * BS)%nat ->
      area (image s'.(flash)) s.(dev).(FtwBackupFvb) s.(dev).(FtwSpareLba) k =
      area (image s.(flash)) s.(dev).(FtwBackupFvb) s.(dev).(FtwSpareLba) k) s.
Proof.
  intros H. eapply wp_mono; [by apply reclaim_run|]. intros st s' [_ Hok] Hst. destruct (Hok Hst) as (H1 & H2 & H3).
  pose proof (rec_header _ _ _ _ H) as HH.
  assert (Hv : valid_space s.(dev) s.(mWorkingBlockHeader) new).
  { eapply fresh_work_space_valid; [done| |apply (geo_space _ (rec_geometry _ _ _ _ H))|apply H].
    rewrite (rec_memory _ _ _ _ H). apply H. }
  split; [done|]. split; [done|]. split; [|done]. apply recover_working; [done|]. apply holds_work_space; [apply Hv|done].
Qed.
(** Restoring the working block from the spare block can be interrupted and tried again: from a state in
    which only the spare block is valid, its work space is found after a loss of power at any moment,
    and after success the working block has it. *)
Theorem FlushSpareBlockToWorkingBlock_restartable s w :
  geometry s.(dev) -> header_ok s.(mWorkingBlockHeader) -> valid_space s.(dev) s.(mWorkingBlockHeader) w ->
  s.(dev).(FtwWorkSpace) = w -> in_spare s.(dev) w (image s.(flash)) ->
  wp FlushSpareBlockToWorkingBlock (fun st s' =>
    (forall x, seen s'.(flash) x -> seen s.(flash) x \/ recover s.(dev) s.(mWorkingBlockHeader) x = Some w) /\
    (EFI_ERROR st = false ->
       work_space s.(dev) (image s'.(flash)) s.(dev).(FtwFvBlock) s.(dev).(FtwWorkBlockLba) = w /\
       s'.(dev) = s.(dev))) s.
Proof.
  intros G HH Hw Hm Hs. pose proof (valid_state _ _ HH _ Hw) as H254. pose proof (state_in_space _ G) as Hsp.
  apply (flush_spec s w); [done..|rewrite Hm; apply Hw|left; by rewrite Hm|done|].
  intros st s' (_ & Ht & Hok). split; [exact Ht|]. intros Hst. destruct (Hok Hst) as (H1 & _ & H3).
  split; [apply holds_work_space; [apply Hw|done]|]. rewrite H3, Hm, <- H254, list_insert_id.
  - rewrite <- Hm. by destruct (dev s).
  - apply list_lookup_lookup_total_lt. rewrite (proj1 Hw). done.
Qed.

(** The spare block is as in [s], and after success its bytes are in the target. *)
Definition target_copied s (Fvb Lba : Z) (st : EFI_STATUS) s' : Prop :=
  let d := s.(dev) in
  let spare_kept x := forall k, (k < d.(NumberOfSpareBlock) * BS)%nat ->
    area x d.(FtwBackupFvb) d.(FtwSpareLba) k = area (image s.(flash)) d.(FtwBackupFvb) d.(FtwSpareLba) k in
  s'.(dev) = d /\
  (forall x, seen s'.(flash) x -> seen s.(flash) x \/ spare_kept x) /\
  (EFI_ERROR st = false -> forall k, (k < d.(NumberOfSpareBlock) * BS)%nat ->
     area (image s'.(flash)) Fvb Lba k = area (image s.(flash)) d.(FtwBackupFvb) d.(FtwSpareLba) k).

Lemma quiet_target s Fvb Lba st s' : quietly s s' -> EFI_ERROR st = true -> target_copied s Fvb Lba st s'.
Proof. intros [[Hd _] [_ Hs]] Hst. split; [done|]. split; [intros x Hx; left; auto|]. by rewrite Hst. Qed.

(** A write restarted from the spare block: after success the target has the bytes of the spare block, and
    the spare block keeps them whenever the power fails, so that the copy can be restarted. *)
Theorem FlushSpareBlockToTargetBlock_copies s Fvb Lba :
  Fvb <> 0 -> s.(dev).(BlockSize) = Z.of_nat BS -> Z.of_nat s.(dev).(NumberOfSpareBlock) < 2 ^ 32 ->
  apart s.(dev).(NumberOfSpareBlock) Fvb Lba s.(dev).(FtwBackupFvb) s.(dev).(FtwSpareLba) ->
  wp (FlushSpareBlockToTargetBlock Fvb Lba) (target_copied s Fvb Lba) s.
Proof.
  intros Hz Hbs Hcn Hap. unfold FlushSpareBlockToTargetBlock. rewrite (proj2 (Z.eqb_neq Fvb 0) Hz).
  apply wp_bind, wp_Dev. apply wp_bind, wp_AllocatePool. intros ok s1 Hq1.
  destruct (negb ok); [by apply wp_ret, quiet_target|]. rewrite Hbs. apply wp_bind, read_blocks_spec.
  intros st2 c s2 Hq2 Hc. cbn beta iota. assert (Hq : quietly s s2) by by eapply quietly_trans.
  destruct (EFI_ERROR st2) eqn:Hst2; [by apply wp_ret, quiet_target|]. destruct (Hc eq_refl) as [Hcl Hcv].
  pose proof (blocks_read _ _ _ _ _ Hcv Hcl) as Hcb. destruct Hq as [[Hd2 _] [Hi2 Hs2]].
  apply wp_bind, wp_FtwEraseBlock; rewrite Hd2; [done|]. intros st3 s3 Hc3. cbn [app].
  set (d := s.(dev)) in *.
  assert (HS3 : forall x, torn (image s2.(flash)) (erase_img Fvb Lba (Z.of_nat d.(NumberOfSpareBlock)) (image s2.(flash))) x ->
    forall k, (k < d.(NumberOfSpareBlock) * BS)%nat ->
      area x d.(FtwBackupFvb) d.(FtwSpareLba) k = area (image s.(flash)) d.(FtwBackupFvb) d.(FtwSpareLba) k).
  { intros x Hx k Hk. rewrite <- (area_same _ _ _ _ _ Hi2). eapply (torn_working d); [|exact Hx|exact Hk].
    intros k' Hk'. by apply area_erase_apart. }
  assert (Ht3 : tracked s (fun x => forall k, (k < d.(NumberOfSpareBlock) * BS)%nat ->
      area x d.(FtwBackupFvb) d.(FtwSpareLba) k = area (image s.(flash)) d.(FtwBackupFvb) d.(FtwSpareLba) k) s3).
  { eapply tracked_changes; [exact Hc3|exact HS3|]. intros x Hx. left. auto. }
  assert (Hd3 : s3.(dev) = d) by (destruct Hc3 as [[-> _] _]; done).
  destruct (EFI_ERROR st3) eqn:Hst3; [by apply wp_ret|].
  apply write_blocks_spec; [done|]. intros st4 s4 Hc4. split; [destruct Hc4 as [[-> _] _]; done|]. split.
  - eapply tracked_changes; [exact Hc4| |exact Ht3]. intros x Hx k Hk. fold d.
    rewrite <- (HS3 _ (changes_torn _ _ _ _ Hc3) k Hk). eapply (torn_working d); [|exact Hx|exact Hk].
    intros k' Hk'. by apply area_write_apart.
  - intros Hst4 k Hk. rewrite (area_same _ _ _ _ _ (changes_done _ _ _ _ Hc4 Hst4)), area_write by done.
    rewrite (area_same _ _ _ _ _ (changes_done _ _ _ _ Hc3 Hst3)), area_erase by done.
    change 255 with (Z.ones 8). rewrite Z.land_comm, <- wrap_land by lia. rewrite wrap_small.
    + rewrite (Hcv k Hk). apply (area_same _ _ _ _ _ (proj1 (proj2 Hq1))).
    + by apply (Forall_lookup_total_1 (in_width 8)); [|rewrite Hcl].
Qed.
End Theorems.
