(* ===== verification/FtwRecords.v ===== *)
(** * The fault-tolerant write driver: the header and the records of the work space

    The header that the driver computes for itself is one that the theorems on power failures ask for,
    and the search for the last write header is followed to its end, or to the reason why it has none. *)

From S2P Require Import Prelude FtwDefs FtwSpec FtwFlash FtwRecover FtwFlush.
From stdpp Require Import list relations list_numbers.
#[local] Open Scope Z_scope.

(** ** The search for the last write header *)

Section Records.
Context {FL : FtwLayout}.

(** The write header at [o] is complete, or it can be read and is not. *)
Definition complete_at (l : list Z) (o : Z) : Prop := Complete (drop (Z.to_nat o) l) = Some FTW_VALID_STATE.
Definition incomplete_at (l : list Z) (o : Z) : Prop :=
  exists c, Complete (drop (Z.to_nat o) l) = Some c /\ c <> FTW_VALID_STATE.

(** Behind the write header at [o] comes the offset [o'], in the 32-bit arithmetic of the code. *)
Definition followed_by (l : list Z) (o o' : Z) : Prop := exists w p,
  NumberOfWrites (drop (Z.to_nat o) l) = Some w /\ PrivateDataSize (drop (Z.to_nat o) l) = Some p /\
  o' = u32 (o + FTW_WRITE_TOTAL_SIZE w p).

(** The search goes on from [o] to [o']. *)
Definition goes_on (l : list Z) (Size o o' : Z) : Prop := complete_at l o /\ followed_by l o o' /\ o' < Size.

(** A write header can be read where there are enough bytes. *)
Definition headers_readable : Prop := forall l, sizeof_WRITE_HEADER <= Z.of_nat (length l) ->
  is_Some (Complete l) /\ is_Some (NumberOfWrites l) /\ is_Some (PrivateDataSize l).

(** What the search does at the header at [o], where it does not go on: it returns it, with success when it is not complete and
    with an error when the work space ends behind it; or the header does not lie within the work space. *)
Definition search_stops (l : list Z) (Size o : Z) (r : option (EFI_STATUS * Z)) : Prop :=
  r = Some (EFI_SUCCESS, o) /\ incomplete_at l o \/
  r = Some (EFI_ABORTED, o) /\ complete_at l o /\ (exists o', followed_by l o o' /\ Size <= o') \/
  r = None /\ Size < o + sizeof_WRITE_HEADER.

Lemma goes_on_det l Size o x y : goes_on l Size o x -> goes_on l Size o y -> x = y.
Proof. intros (_ & (w & p & Hw & Hp & ->) & _) (_ & (w' & p' & Hw' & Hp' & ->) & _). congruence. Qed.

Lemma header_loop_goes_on n l Size o o' : goes_on l Size o o' -> header_loop (S n) l Size o = header_loop n l Size o'.
Proof.
  intros (Hc & (w & p & Hw & Hp & ->) & Hl). cbn [header_loop]. rewrite Hc, some_bind, Z.eqb_refl, Hw, some_bind, Hp, some_bind.
  cbv zeta. by rewrite Z.geb_leb, (proj2 (Z.leb_gt _ _)).
Qed.

Lemma goes_on_inside l Size o o' : rtc (goes_on l Size) o o' -> 0 <= o < Size -> 0 <= o' < Size.
Proof.
  induction 1 as [|o o1 o' (_ & (w & p & _ & _ & ->) & Hl) _ IH]; [done|]. intros _. apply IH.
  pose proof (wrap_bounds 32 (o + FTW_WRITE_TOTAL_SIZE w p) ltac:(done)) as Hw. unfold in_width in Hw. lia.
Qed.

(** At every header the search stops or goes on. *)
Lemma header_loop_case n l o :
  headers_readable -> 0 <= o ->
  search_stops l (Z.of_nat (length l)) o (header_loop (S n) l (Z.of_nat (length l)) o) \/ exists o', goes_on l (Z.of_nat (length l)) o o'.
Proof.
  intros HR Ho. destruct (Z.lt_ge_cases (Z.of_nat (length l)) (o + sizeof_WRITE_HEADER)) as [Hs|Hs].
  - cbn [header_loop]. unfold search_stops, goes_on, complete_at, incomplete_at, followed_by.
    destruct (Complete _) as [c|] eqn:Ec; [rewrite some_bind|by left; auto].
    destruct (Z.eqb_spec c FTW_VALID_STATE) as [->|Hn]; [|left; eauto 10].
    destruct (NumberOfWrites _) as [w|] eqn:Ew; [rewrite some_bind|by left; auto].
    destruct (PrivateDataSize _) as [p|] eqn:Ep; [rewrite some_bind|by left; auto].
    cbv zeta. rewrite Z.geb_leb. destruct (Z.leb_spec (Z.of_nat (length l)) (u32 (o + FTW_WRITE_TOTAL_SIZE w p))); [left|right]; eauto 12.
  - destruct (HR (drop (Z.to_nat o) l)) as ([c Ec] & [w Ew] & [p Ep]); [rewrite length_drop; lia|].
    cbn [header_loop]. unfold search_stops, goes_on, complete_at, incomplete_at, followed_by. rewrite Ec, some_bind.
    destruct (Z.eqb_spec c FTW_VALID_STATE) as [->|Hn]; [|left; eauto 10]. rewrite Ew, some_bind, Ep, some_bind.
    cbv zeta. rewrite Z.geb_leb. destruct (Z.leb_spec (Z.of_nat (length l)) (u32 (o + FTW_WRITE_TOTAL_SIZE w p))); [left|right]; eauto 12.
Qed.

(** The search has ended, or it has gone through as many headers as its fuel. *)
Lemma header_loop_runs l n o :
  headers_readable -> 0 <= o < Z.of_nat (length l) ->
  (exists o', rtc (goes_on l (Z.of_nat (length l))) o o' /\ 0 <= o' < Z.of_nat (length l) /\
     search_stops l (Z.of_nat (length l)) o' (header_loop n l (Z.of_nat (length l)) o)) \/
  (header_loop n l (Z.of_nat (length l)) o = None /\ exists os, length os = n /\ Forall (fun x => 0 <= x < Z.of_nat (length l)) os /\
     (forall i x y, os !! i = Some x -> (o :: os) !! i = Some y -> goes_on l (Z.of_nat (length l)) y x)).
Proof.
  intros HR. revert o. induction n as [|n IH]; intros o Ho; [right; split; [done|]; by exists []|].
  destruct (header_loop_case n l o HR ltac:(lia)) as [Hs|[o1 Hg]]; [left; exists o; split; [apply rtc_refl|split; [lia|apply Hs]]|].
  assert (Ho1 : 0 <= o1 < Z.of_nat (length l)).
  { destruct Hg as (_ & (w & p & _ & _ & ->) & Hl). pose proof (wrap_bounds 32 (o + FTW_WRITE_TOTAL_SIZE w p) ltac:(done)). unfold in_width in *. lia. }
  rewrite (header_loop_goes_on n _ _ _ _ Hg).
  destruct (IH o1 Ho1) as [(o' & Hr & Hb & Hs)|(Hn & os & Hl & Hf & Hc)].
  - left. exists o'. split; [by eapply rtc_l|done].
  - right. split; [done|]. exists (o1 :: os). split; [cbn; lia|]. split; [by apply Forall_cons|].
    intros [|i] x y Hx Hy; cbn in Hx, Hy; [congruence|by eapply Hc].
Qed.
(** Of more elements than a set has, two are the same. *)
Lemma pigeonhole (os : list Z) m :
  Forall (fun x => 0 <= x < Z.of_nat m) os -> (m < length os)%nat -> exists i j x, (i < j)%nat /\ os !! i = Some x /\ os !! j = Some x.
Proof.
  intros Hf Hl. destruct (decide (NoDup os)) as [Hn|Hn].
  - assert (Hs : os ⊆ seqZ 0 (Z.of_nat m)).
    { intros x Hx. apply elem_of_seqZ. rewrite Forall_forall in Hf. specialize (Hf x Hx). cbn beta in Hf. lia. }
    apply NoDup_submseteq, submseteq_length in Hs; [|done]. rewrite length_seqZ in Hs. lia.
  - clear Hf Hl. induction os as [|y os IH]; [by destruct Hn; constructor|].
    destruct (decide (y ∈ os)) as [Hy|Hy].
    + apply list_elem_of_lookup in Hy as [j Hj]. exists 0%nat, (S j), y. split; [lia|done].
    + destruct IH as (i & j & x & Hij & Hi & Hj); [intros Ho; apply Hn; by constructor|].
      exists (S i), (S j), x. split; [lia|done].
Qed.

(** Along a path, from an earlier element to a later one. *)
Lemma path_tc {A} (R : A -> A -> Prop) (o : A) os :
  (forall i x y, os !! i = Some x -> (o :: os) !! i = Some y -> R y x) ->
  forall i j x y, (i < j)%nat -> (o :: os) !! i = Some x -> (o :: os) !! j = Some y -> tc R x y.
Proof.
  intros HR i j. revert i. induction j as [|j IH]; intros i x y Hij Hx Hy; [lia|]. cbn in Hy.
  destruct (lookup_lt_is_Some_2 (o :: os) j) as [z Hz]; [apply lookup_lt_Some in Hy; cbn; lia|].
  pose proof (HR j y z Hy Hz) as Hzy. destruct (Nat.eq_dec i j) as [->|Hn].
  - assert (x = z) as -> by congruence. by apply tc_once.
  - apply tc_rtc_r with z; [apply (IH i); [lia|done|done]|by apply rtc_once].
Qed.

(** A path that returns goes back somewhere. *)
Lemma cycle_goes_back (R : Z -> Z -> Prop) x y : tc R x y -> y <= x -> exists u v, rtc R x u /\ R u v /\ v <= u.
Proof.
  induction 1 as [x y Hxy|x y z Hxy Hyz IH]; intros Hle; [exists x, y; split; [apply rtc_refl|done]|].
  destruct (Z.le_gt_cases y x) as [Hyx|Hyx]; [exists x, y; split; [apply rtc_refl|done]|].
  destruct IH as (u & v & Hu & Huv & Hvu); [lia|]. exists u, v. split; [by eapply rtc_l|done].
Qed.

(** A search that comes back to a header does not end. *)
Lemma header_loop_cycle l Size x n o :
  rtc (goes_on l Size) o x -> tc (goes_on l Size) x x -> header_loop n l Size o = None.
Proof.
  revert o. induction n as [|n IH]; intros o Ho Hx; [done|].
  assert (Hy : exists y, goes_on l Size o y /\ rtc (goes_on l Size) y x).
  { destruct Ho as [o|o y x Hoy Hyx]; [|by exists y].
    inversion Hx as [? ? Hxy|? y ? Hxy Hyx]; subst; [exists o|exists y; split; [done|by apply tc_rtc]]. split; [done|apply rtc_refl]. }
  destruct Hy as (y & Hoy & Hyx). rewrite (header_loop_goes_on n _ _ _ _ Hoy). by apply IH.
Qed.

(** C40: The search for the last write header in the driver's buffer, of the size of the work space, goes over complete headers
    only, from each to the offset that its sizes give in 32-bit arithmetic, and never leaves the work space with it.
    It returns the first header that is not complete; or the complete one behind which the work space ends, with
    EFI_ABORTED. There is no other result, and two ways to have none, which nothing in the code excludes: the next header begins
    within the last bytes of the work space, so that its fields lie behind the buffer, which is read there; or the sizes of a
    header wrap around to an offset that is not behind it, and the search does not end, however long it runs.
    That the fields of a header can be read where all its bytes are, and that a work space is longer than its own header, is all that is
    assumed. *)
Theorem FtwGetLastWriteHeader_exact (l : list Z) :
  headers_readable -> (sizeof_HEADER < length l)%nat ->
  let Size := Z.of_nat (length l) in
  exists o, rtc (goes_on l Size) (Z.of_nat sizeof_HEADER) o /\ 0 <= o < Size /\
    (search_stops l Size o (FtwGetLastWriteHeader l Size) \/
     (exists o', goes_on l Size o o' /\ o' <= o) /\ forall n, header_loop n l Size (Z.of_nat sizeof_HEADER) = None).
Proof.
  intros HR Hl Size. destruct (header_loop_runs l (S (length l)) (Z.of_nat sizeof_HEADER) HR) as [(o & Hr & Hb & Hs)|(_ & os & Hn & Hf & Hc)];
    [lia|exists o; auto|].
  destruct (pigeonhole os (length l) Hf) as (i & j & x & Hij & Hi & Hj); [lia|].
  pose proof (path_tc _ _ _ Hc) as Hp. assert (Hx : tc (goes_on l Size) x x) by (apply (Hp (S i) (S j)); [lia|done|done]).
  assert (Ho : rtc (goes_on l Size) (Z.of_nat sizeof_HEADER) x) by (apply tc_rtc, (Hp 0%nat (S i)); [lia|done|done]).
  destruct (cycle_goes_back _ _ _ Hx) as (u & v & Hu & Huv & Hvu); [lia|]. exists u.
  split; [by etransitivity|]. split; [|right; split; [eauto|intros n; by apply header_loop_cycle with x]].
  apply (goes_on_inside _ _ _ _ Hu), (goes_on_inside _ _ _ _ Ho). lia.
Qed.
End Records.

(** ** The header *)

Section Header.
Context {FL : FtwLayout} {LL : FtwLayoutLaws} {D : Type} {FV : FvbServices D} {LW : FvbLaws D}.
Implicit Types (s : ftw D).

Lemma little_endian_length n x : length (little_endian n x) = n.
Proof. revert x. induction n as [|n IH]; intros x; [done|]. cbn. by rewrite IH. Qed.

Lemma little_endian_bytes n x : Forall (in_width 8) (little_endian n x).
Proof. revert x. induction n as [|n IH]; intros x; [by apply Forall_nil|]. apply Forall_cons. split; [by apply wrap_bounds|apply IH]. Qed.

Lemma InitializeLocalWorkSpaceHeader_spec Size s :
  take 16 s.(mWorkingBlockHeader) <> gEdkiiWorkingBlockSignatureGuid ->
  wp (InitializeLocalWorkSpaceHeader Size) (fun _ s' =>
    header_ok s'.(mWorkingBlockHeader) /\ take 16 s'.(mWorkingBlockHeader) = gEdkiiWorkingBlockSignatureGuid /\
    s'.(dev) = s.(dev) /\ quiet image seen s.(flash) s'.(flash)) s.
Proof.
  intros Hs. pose proof WriteQueueSize_offset as [Ho1 Ho2]. pose proof Guid_length as HG. pose proof Crc_offset as HC.
  assert (Hst : state_offset = 20%nat) by done. rewrite Hst in *.
  unfold InitializeLocalWorkSpaceHeader. apply wp_bind, wp_get. rewrite bool_decide_false by done. cbv zeta.
  destruct (copy_at_fits 0 gEdkiiWorkingBlockSignatureGuid (replicate sizeof_HEADER FTW_ERASED_BYTE)) as [h1 H1];
    [rewrite length_replicate; lia|].
  destruct (copy_at_lookup _ _ _ _ H1) as [L1 V1]. rewrite length_replicate in L1.
  apply wp_bind. eapply wp_lift; [exact H1|]. cbn beta iota.
  destruct (copy_at_fits offset_WriteQueueSize (little_endian 8 (u64 (u32 (Size - Z.of_nat sizeof_HEADER)))) h1) as [h2 H2];
    [rewrite little_endian_length; lia|].
  destruct (copy_at_lookup _ _ _ _ H2) as [L2 V2]. rewrite little_endian_length in V2.
  apply wp_bind. eapply wp_lift; [exact H2|]. cbn beta iota.
  apply wp_bind, wp_on_flash. eapply wp_mono; [apply CalculateCrc32_law; by destruct h2; [cbn in L2; lia|]|].
  intros [st crc] d' [Hst' Hq]. cbn beta iota. apply wp_bind, wp_assert; [by rewrite Hst'|].
  destruct (copy_at_fits offset_Crc (little_endian 4 crc) h2) as [h3 H3]; [rewrite little_endian_length; lia|].
  destruct (copy_at_lookup _ _ _ _ H3) as [L3 V3]. rewrite little_endian_length in V3.
  apply wp_bind. eapply wp_lift; [exact H3|]. cbn beta iota. rewrite Hst.
  apply wp_bind. eapply wp_lift; [apply set_field_fits; lia|]. cbn beta iota.
  apply wp_bind. eapply wp_lift; [apply set_field_fits; rewrite length_insert; lia|]. cbn beta iota.
  apply wp_modify. cbn [dev flash mWorkingBlockHeader].
  rewrite VALID_STATE_value, INVALID_STATE_value, bit_Valid_value, bit_Invalid_value. cbn [Z.eqb].
  rewrite list_insert_insert_eq, list_lookup_total_insert_eq by lia.
  assert (H20 : h3 !!! 20%nat = 255).
  { rewrite V3, bool_decide_false, V2, bool_decide_false, V1, bool_decide_false by lia.
    rewrite ERASED_BYTE_value. by rewrite lookup_total_replicate_2 by lia. }
  rewrite H20. split; [split; [|split]|split; [|done]].
  - rewrite length_insert. congruence.
  - apply Forall_insert; [|done]. eapply copy_at_bytes; [exact H3|apply little_endian_bytes|].
    eapply copy_at_bytes; [exact H2|apply little_endian_bytes|]. eapply copy_at_bytes; [exact H1|apply Guid_bytes|].
    apply Forall_replicate. by rewrite ERASED_BYTE_value.
  - rewrite Hst. by rewrite list_lookup_total_insert_eq by lia.
  - apply list_eq_same_length with (n := 16%nat); [done|rewrite length_take, length_insert; lia|].
    intros i a b Hi Ha Hb. rewrite lookup_take_lt, list_lookup_insert_ne in Ha by lia.
    apply list_lookup_total_correct in Ha, Hb. subst a b.
    rewrite V3, bool_decide_false, V2, bool_decide_false, V1, bool_decide_true by lia. f_equal. lia.
Qed.
End Header.
