(* ===== verification/FtwWitness.v ===== *)
(** * The fault-tolerant write driver: a small flash chip

    A flash chip that satisfies the laws, with the layout of a small work space; the witnesses run the
    driver on it. Two examples show what the driver does not survive: an erase that fails, and a loss of
    power in the erase of the working block when the remains of its records mislead the next start. *)

From S2P Require Import Prelude FtwDefs FtwSpec FtwFlash FtwRecover FtwFlush FtwReclaim FtwTheorems FtwRecords.
From stdpp Require Import list relations.
#[local] Open Scope Z_scope.

(** ** The layout: a write header has its state, the number of writes and the size of the private data *)

Definition bit_of (i : Z) (l : list Z) : option Z := x ← head l; Some (if Z.testbit x i then 1 else 0).

#[local] Instance small_layout : FtwLayout := {|
  sizeof_HEADER := 32; offset_Crc := 16; offset_WriteQueueSize := 24;
  bit_WorkingBlockValid := 0; bit_WorkingBlockInvalid := 1;
  gEdkiiWorkingBlockSignatureGuid := [1; 2; 3; 4; 5; 6; 7; 8; 9; 10; 11; 12; 13; 14; 15; 16];
  FTW_ERASED_BYTE := 255; FTW_POLARITY_REVERT := 255; FTW_ERASE_POLARITY := 1;
  FTW_VALID_STATE := 0; FTW_INVALID_STATE := 1; WORKING_BLOCK_VALID := 1; WORKING_BLOCK_INVALID := 2;
  sizeof_WRITE_HEADER := 4; sizeof_WRITE_RECORD := 4;
  HeaderAllocated := bit_of 0; Complete := bit_of 2; NumberOfWrites := fun l => l !! 1%nat;
  PrivateDataSize := fun l => l !! 2%nat; DestinationComplete := bit_of 2;
  FTW_WRITE_TOTAL_SIZE := fun w p => 4 + w * (4 + p); FTW_RECORD_SIZE := fun p => 4 + p |}.

#[local] Instance small_layout_laws : FtwLayoutLaws.
Proof. split; try reflexivity; [by_compute|cbn; lia]. Qed.

(** ** The chip *)

Record chip := { cells : img; log : list (img * img) }.

Definition chip_image (d : chip) : img := fun f l o => u8 (d.(cells) f l o).
Definition chip_seen (d : chip) (x : img) : Prop :=
  same x (chip_image d) \/ Exists (fun e => torn e.1 e.2 x) d.(log).
Definition chip_set (y : img) (d : chip) : chip := {| cells := y; log := (chip_image d, y) :: d.(log) |}.

(** The services; with [broken], the erases fail there. *)
Definition chip_services (broken : Z -> Z -> bool) : FvbServices chip := {|
  FvbRead f l o n := fun d =>
    Some ((if o + n <=? 64 then EFI_SUCCESS else EFI_DEVICE_ERROR,
           map (fun i => chip_image d f l (Z.to_nat o + i)%nat) (seq 0 (Z.to_nat n))), d);
  FvbWrite f l o b := fun d => Some (EFI_SUCCESS, chip_set (write_img f l o b (chip_image d)) d);
  FvbEraseBlocks f l n := fun d =>
    if broken f l then Some (EFI_DEVICE_ERROR, d) else Some (EFI_SUCCESS, chip_set (erase_img f l n (chip_image d)) d);
  AllocatePool n := mret true;
  CalculateCrc32 b := mret (EFI_SUCCESS, 305419896) |}.

Lemma chip_updates d y : (forall f l o, in_width 8 (y f l o)) ->
  updates chip_image chip_seen y d (chip_set y d) EFI_SUCCESS.
Proof.
  intros Hy. assert (Hs : same (chip_image (chip_set y d)) y).
  { intros f l o. unfold chip_image, chip_set. cbn [cells]. apply wrap_small, Hy. }
  split; [|split].
  - intros f l o. right. apply Hs.
  - done.
  - intros x [Hx|Hx].
    + right. intros f l o. right. by rewrite Hx, Hs.
    + apply Exists_cons in Hx as [Hx|Hx]; [by right|left; by right].
Qed.

#[local] Instance good_chip : FvbServices chip := chip_services (fun _ _ => false).

#[local] Instance good_chip_laws : FvbLaws chip.
Proof.
  refine {| BS := 64; image := chip_image; seen := chip_seen |}.
  - intros d. by left.
  - intros. apply wrap_bounds. lia.
  - intros n d. apply wp_ret. split; [done | auto].
  - intros b d _. apply wp_ret. split; [done|]. split; [done | auto].
  - intros f l o n d Ho Hn Hl. eexists _, _. split; [reflexivity|]. cbn beta iota.
    split; [split; [done | auto]|done].
  - intros f l o b d Ho Hl. eexists _, _. split; [reflexivity|]. apply chip_updates. intros f' l' o'.
    unfold write_img. destruct (_ && _); [apply land_in_width; [lia|]|]; apply wrap_bounds; lia.
  - intros f l n d Hn. eexists _, _. split; [reflexivity|]. apply chip_updates. intros f' l' o'.
    unfold erase_img. destruct (_ && _); [done|apply wrap_bounds; lia].
Defined.

Lemma good_chip_erases f l n : erase_succeeds chip f l n.
Proof. intros d. eexists _, _. split; [reflexivity|done]. Qed.

(** ** A work space with a complete write and one that is not *)

Definition bytes_at (l : list Z) (o : nat) : Z := default 255 (l !! o).

Definition header : list Z := gEdkiiWorkingBlockSignatureGuid ++ [120; 86; 52; 18; 254; 255; 255; 255; 32; 0; 0; 0; 0; 0; 0; 0].
Definition full_space : list Z :=
  header ++ [248; 1; 0; 255; 250; 255; 255; 255] ++ [254; 1; 0; 255; 255; 255; 255; 255] ++ replicate 16 255.
Definition kept_space : list Z := header ++ [254; 1; 0; 255; 255; 255; 255; 255] ++ replicate 24 255.
Definition empty_space : list Z := header ++ replicate 32 255.

(** The working block is block 0 of volume 1, the spare block its block 1. *)
Definition chip_with (working spare : list Z) : chip :=
  {| cells := fun f l o => if f =? 1 then if l =? 0 then bytes_at working o else if l =? 1 then bytes_at spare o else 255 else 255; log := [] |}.
Definition device (l : list Z) : FTW_DEVICE :=
  {| FtwFvBlock := 1; FtwBackupFvb := 1; FtwWorkSpaceLba := 0; FtwWorkBlockLba := 0; FtwSpareLba := 1;
     NumberOfSpareBlock := 1; BlockSize := 64; SpareAreaLength := 64; FtwWorkSpaceBase := 0; FtwWorkSpaceSize := 64;
     FtwWorkSpace := l; FtwLastWriteHeader := 0; FtwLastWriteRecord := 0 |}.
Definition driver (l working spare : list Z) : ftw chip :=
  {| dev := device l; flash := chip_with working spare; mWorkingBlockHeader := header |}.

Lemma device_geometry l : geometry (device l).
Proof.
  split; [reflexivity|split; [done|]; by_compute|done|done|by_compute|done|].
  right. left. cbn. lia.
Qed.

Lemma header_is_ok : header_ok header.
Proof. split; [reflexivity|]. split; [by_compute|reflexivity]. Qed.

Definition nearly_full : ftw chip := driver full_space full_space (replicate 64 7).

Lemma nearly_full_reclaimable : reclaimable nearly_full true full_space kept_space.
Proof.
  split.
  - apply device_geometry.
  - apply good_chip_erases.
  - exact header_is_ok.
  - reflexivity.
  - vm_compute. reflexivity.
  - split; [reflexivity|]. split; [by_compute|reflexivity].
  - vm_compute. reflexivity.
  - vm_compute. eauto.
Qed.

Lemma FtwReclaimWorkSpace_power_loss_witness :
  reclaimable nearly_full true full_space kept_space /\
  wp (FtwReclaimWorkSpace true) (fun _ s' =>
    forall x, seen s'.(flash) x -> seen nearly_full.(flash) x \/
      intact nearly_full.(dev) nearly_full.(mWorkingBlockHeader) x full_space \/
      intact nearly_full.(dev) nearly_full.(mWorkingBlockHeader) x kept_space) nearly_full.
Proof. split; [exact nearly_full_reclaimable|]. exact (FtwReclaimWorkSpace_power_loss _ _ _ _ nearly_full_reclaimable). Defined.

Lemma FtwReclaimWorkSpace_success_witness :
  match FtwReclaimWorkSpace true nearly_full with Some (st, _) => st = EFI_SUCCESS | None => False end /\
  wp (FtwReclaimWorkSpace true) (fun st s' => EFI_ERROR st = false ->
    s'.(dev).(FtwWorkSpace) = kept_space /\
    work_space nearly_full.(dev) (image s'.(flash)) 1 0 = kept_space /\
    recover nearly_full.(dev) nearly_full.(mWorkingBlockHeader) (image s'.(flash)) = Some kept_space /\
    forall k, (k < 1 * 64)%nat -> area (image s'.(flash)) 1 1 k = area (image nearly_full.(flash)) 1 1 k) nearly_full.
Proof.
  split; [vm_compute; reflexivity|].
  exact (FtwReclaimWorkSpace_success _ _ _ _ nearly_full_reclaimable).
Defined.

(** Only the spare block is valid. *)
Definition interrupted : ftw chip := driver kept_space (replicate 64 255) kept_space.

Lemma FlushSpareBlockToWorkingBlock_restartable_witness :
  match FlushSpareBlockToWorkingBlock interrupted with Some (st, _) => st = EFI_SUCCESS | None => False end /\
  wp FlushSpareBlockToWorkingBlock (fun st s' =>
    (forall x, seen s'.(flash) x -> seen interrupted.(flash) x \/
       recover interrupted.(dev) interrupted.(mWorkingBlockHeader) x = Some kept_space) /\
    (EFI_ERROR st = false -> work_space interrupted.(dev) (image s'.(flash)) 1 0 = kept_space /\ s'.(dev) = interrupted.(dev))) interrupted.
Proof.
  split; [vm_compute; reflexivity|].
  apply (FlushSpareBlockToWorkingBlock_restartable interrupted kept_space).
  - apply device_geometry.
  - exact header_is_ok.
  - split; [reflexivity|]. split; [by_compute|reflexivity].
  - reflexivity.
  - split; [vm_compute; discriminate|]. apply (holds_work_space _ kept_space); [reflexivity|vm_compute; reflexivity].
Defined.

Lemma FlushSpareBlockToTargetBlock_copies_witness :
  match FlushSpareBlockToTargetBlock 1 5 interrupted with Some (st, _) => st = EFI_SUCCESS | None => False end /\
  wp (FlushSpareBlockToTargetBlock 1 5) (target_copied interrupted 1 5) interrupted.
Proof.
  split; [vm_compute; reflexivity|].
  apply (FlushSpareBlockToTargetBlock_copies interrupted 1 5); [lia|reflexivity|reflexivity|right; right; cbn; lia].
Defined.

Lemma small_headers_readable : headers_readable.
Proof.
  intros l Hl. cbn [sizeof_WRITE_HEADER small_layout] in Hl. destruct l as [|a [|b [|c l]]]; cbn in Hl; try lia.
  cbn. eauto.
Qed.

Lemma FtwGetLastWriteHeader_exact_witness :
  FtwGetLastWriteHeader full_space 64 = Some (EFI_SUCCESS, 40) /\
  exists o, rtc (goes_on full_space 64) 32 o /\ 0 <= o < 64 /\
    (search_stops full_space 64 o (FtwGetLastWriteHeader full_space 64) \/
     (exists o', goes_on full_space 64 o o' /\ o' <= o) /\ forall n, header_loop n full_space 64 32 = None).
Proof.
  split; [vm_compute; reflexivity|]. apply (FtwGetLastWriteHeader_exact full_space small_headers_readable). vm_compute. lia.
Defined.

(** Two complete queues fill the work space, or are longer than it; and a complete queue behind which only two bytes are left, where the
    search reads the fields of a header that does not lie in the buffer. *)
Definition two_queues (p : Z) : list Z := header ++ [250; 2; 6; 255] ++ replicate 20 255 ++ [250; 1; p; 255; 255; 255; 255; 255].
Example FtwGetLastWriteHeader_at_end :
  FtwGetLastWriteHeader (two_queues 0) 64 = Some (EFI_ABORTED, 56) /\
  FtwGetLastWriteHeader (two_queues 2) 64 = Some (EFI_ABORTED, 56) /\
  FtwGetLastWriteHeader (header ++ [250; 1; 22; 255] ++ replicate 28 250) 64 = None.
Proof. repeat split; vm_compute; reflexivity. Qed.

(** The same layout with a size of four bytes in the write header. A size close to 2^32 leads back to the same header, for ever. *)
Definition wide_layout : FtwLayout := {|
  sizeof_HEADER := 32; offset_Crc := 16; offset_WriteQueueSize := 24;
  bit_WorkingBlockValid := 0; bit_WorkingBlockInvalid := 1; gEdkiiWorkingBlockSignatureGuid := take 16 header;
  FTW_ERASED_BYTE := 255; FTW_POLARITY_REVERT := 255; FTW_ERASE_POLARITY := 1;
  FTW_VALID_STATE := 0; FTW_INVALID_STATE := 1; WORKING_BLOCK_VALID := 1; WORKING_BLOCK_INVALID := 2;
  sizeof_WRITE_HEADER := 6; sizeof_WRITE_RECORD := 4;
  HeaderAllocated := bit_of 0; Complete := bit_of 2; NumberOfWrites := fun l => l !! 1%nat;
  PrivateDataSize := fun l => x ← l !! 2%nat; y ← l !! 3%nat; z ← l !! 4%nat; t ← l !! 5%nat; Some (x + 256 * (y + 256 * (z + 256 * t)));
  DestinationComplete := bit_of 2;
  FTW_WRITE_TOTAL_SIZE := fun w p => 6 + w * (4 + p); FTW_RECORD_SIZE := fun p => 4 + p |}.
Definition wrapping_space : list Z := header ++ [250; 1; 246; 255; 255; 255] ++ replicate 26 255.
Example FtwGetLastWriteHeader_wraps : forall n, header_loop (FL := wide_layout) n wrapping_space 64 32 = None.
Proof.
  intros n. apply header_loop_cycle with 32; [apply rtc_refl|]. apply tc_once. split; [vm_compute; reflexivity|].
  split; [|done]. exists 1, (2 ^ 32 - 10). repeat split; vm_compute; reflexivity.
Qed.

(** The header that the driver computes for itself on this chip. *)
Example header_computed :
  match InitializeLocalWorkSpaceHeader 64 {| dev := device []; flash := chip_with [] []; mWorkingBlockHeader := replicate 32 0 |} with
  | Some (_, s) => s.(mWorkingBlockHeader) = header | None => False
  end.
Proof. vm_compute. reflexivity. Qed.

(** ** What is not survived *)

(** The status of the erase of the spare block is ignored: when it fails over a block that is in use, the
    function returns success, and the write that was kept in the old work space is lost. *)
Example FtwReclaimWorkSpace_ignores_erase :
  match FtwReclaimWorkSpace (FV := chip_services (fun _ l => l =? 1)) true (driver full_space full_space (replicate 64 0)) with
  | Some (st, s') => st = EFI_SUCCESS /\ recover (device full_space) header (chip_image s'.(flash)) = Some (header ++ replicate 32 0)
  | None => False
  end.
Proof. vm_compute. split; reflexivity. Qed.

(** The working block is marked invalid and the spare block is complete. *)
Definition marked : img :=
  (driver full_space (<[20%nat := 252]> full_space) kept_space).(flash).(cells).

(** In the erase of the working block, the power fails after one byte. *)
Definition one_byte_erased : img := fun f l o => if (f =? 1) && (l =? 0) && (o =? 33)%nat then 255 else marked f l o.

Lemma one_byte_erased_torn : torn marked (erase_img 1 0 1 marked) one_byte_erased.
Proof.
  intros f l o. unfold one_byte_erased, erase_img. destruct (Z.eqb_spec f 1), (Z.eqb_spec l 0); try by left.
  subst. destruct (o =? 33)%nat; [by right|by left].
Qed.

(** At the next start the spare block has the write that is to be kept. But the driver first reads the working
    block, finds its work space damaged, and reclaims it, which overwrites the spare block: the
    write is lost. *)
Theorem InitFtwProtocol_loses_write (FtwAbort : M (ftw chip) EFI_STATUS) :
  recover (device (replicate 64 0)) header one_byte_erased = Some kept_space /\
  match InitFtwProtocol_work_space FtwAbort 64
          {| dev := device (replicate 64 0); flash := {| cells := one_byte_erased; log := [] |}; mWorkingBlockHeader := replicate 32 0 |} with
  | Some (_, s') => recover (device (replicate 64 0)) header (chip_image s'.(flash)) = Some empty_space
  | None => False
  end.
Proof. split; vm_compute; reflexivity. Qed.
