(* ===== verification/FvbDefs.v ===== *)
(** * The flash block services: definitions

    Models [QuarkPlatformPkg/Platform/SpiFvbServices/FwBlockService.c]: the firmware volume block protocol
    over the memory-mapped flash (reads) and the SPI protocol (writes and erases). *)

From S2P Require Import Prelude.
#[local] Open Scope Z_scope.

(** ** What the driver is given *)

(** Constants of the PI specification and of the build. *)
Class FvbHeader := {
  EFI_FVB_CAPABILITIES : Z; EFI_FVB_STATUS : Z;
  EFI_FVB_READ_DISABLED_CAP : Z; EFI_FVB_READ_ENABLED_CAP : Z; EFI_FVB_READ_STATUS : Z;
  EFI_FVB_WRITE_DISABLED_CAP : Z; EFI_FVB_WRITE_ENABLED_CAP : Z; EFI_FVB_WRITE_STATUS : Z;
  EFI_FVB_LOCK_CAP : Z; EFI_FVB_LOCK_STATUS : Z;
  EFI_LBA_LIST_TERMINATOR : Z;
  EFI_FVH_SIGNATURE : Z; EFI_FVH_REVISION : Z;
  PcdFlashAreaBaseAddress : Z
}.

(** [FLASH_BLOCK_SIZE], and the opcodes of the SPI protocol. *)
Definition SPI_ERASE_SECTOR_SIZE : Z := 0x1000.
Definition SPI_OPCODE_WRITE_INDEX : Z := 3.
Definition SPI_OPCODE_ERASE_INDEX : Z := 5.
Inductive SPI_REGION_TYPE := EnumSpiRegionAll | EnumSpiRegionBios | EnumSpiRegionMe | EnumSpiRegionGbE | EnumSpiRegionDescriptor | EnumSpiRegionPlatformData.

(** The hardware: reads of memory-mapped flash, the SPI protocol (its instance for SMM or the other one; the number of
    bytes is the length of the buffer), and the flush of the caches. *)
Class FlashBus (D : Type) := {
  MmioReadBuffer8 (Address Length : Z) : M D (list Z);
  SpiExecute (Smm : bool) (OpcodeIndex PrefixOpcodeIndex : Z) (DataCycle Atomic ShiftOut : bool) (Address : Z)
    (Buffer : list Z) (SpiRegionType : SPI_REGION_TYPE) : M D EFI_STATUS;
  AsmWbinvd : M D unit
}.

(** ** The state *)

(** The block map is a list of numbers of blocks and lengths that a pair of zeros ends. [FvBase] and [FvWriteBase] are
    by mode: physical ([false]) and virtual ([true]). *)
Record EFI_FW_VOL_INSTANCE := {
  FvBase : bool -> Z;
  FvWriteBase : bool -> Z;
  NumOfBlocks : Z;
  WriteEnabled : bool;
  HeaderAttributes : Z;
  BlockMap : list (Z * Z)
}.

(** [ESAL_FWB_GLOBAL]; [NumFv] is the length of the list of instances, which both modes share. *)
Record ESAL_FWB_GLOBAL := {
  FvInstance : list EFI_FW_VOL_INSTANCE;
  FvbScratchSpace : list Z;
  mInSmmMode : bool
}.
Definition NumFv (g : ESAL_FWB_GLOBAL) : Z := Z.of_nat (length g.(FvInstance)).

Record fvb (D : Type) := { Global : ESAL_FWB_GLOBAL; bus : D }.
Arguments Global {D} _.
Arguments bus {D} _.

Definition set_attributes (a : Z) (v : EFI_FW_VOL_INSTANCE) : EFI_FW_VOL_INSTANCE :=
  {| FvBase := v.(FvBase); FvWriteBase := v.(FvWriteBase); NumOfBlocks := v.(NumOfBlocks); WriteEnabled := v.(WriteEnabled);
     HeaderAttributes := a; BlockMap := v.(BlockMap) |}.

Section Fvb.
Context {H : FvbHeader} {D : Type} {B : FlashBus D}.
Implicit Types (Instance : Z) (Virtual : bool).

Definition on_bus {A} (m : M D A) : M (fvb D) A := fun s =>
  match m s.(bus) with Some (a, d) => Some (a, {| Global := s.(Global); bus := d |}) | None => None end.
Definition set_instance (i : nat) (v : EFI_FW_VOL_INSTANCE) : M (fvb D) unit := modify (fun s =>
  {| Global := {| FvInstance := <[i := v]> s.(Global).(FvInstance); FvbScratchSpace := s.(Global).(FvbScratchSpace);
                  mInSmmMode := s.(Global).(mInSmmMode) |}; bus := s.(bus) |}).
Definition set_scratch (l : list Z) : M (fvb D) unit := modify (fun s =>
  {| Global := {| FvInstance := s.(Global).(FvInstance); FvbScratchSpace := l ++ drop (length l) s.(Global).(FvbScratchSpace);
                  mInSmmMode := s.(Global).(mInSmmMode) |}; bus := s.(bus) |}).

(** The assertion that follows every call is part of it: without an instance the caller stops. *)
Definition GetFvbInstance Instance : M (fvb D) EFI_FW_VOL_INSTANCE :=
  s ← get; if NumFv s.(Global) <=? Instance then stop else lift (s.(Global).(FvInstance) !! Z.to_nat Instance).

Definition FvbGetPhysicalAddress Instance Virtual : M (fvb D) Z := v ← GetFvbInstance Instance; mret (v.(FvBase) Virtual).

Definition FvbGetVolumeAttributes Instance : M (fvb D) Z := v ← GetFvbInstance Instance; mret v.(HeaderAttributes).

(** The loop over the block map: the offset of the block, its length, and how many of its kind follow. *)
Fixpoint lba_loop (m : list (Z * Z)) (Lba StartLba Offset : Z) : option (EFI_STATUS * (Z * Z * Z)) :=
  match m with
  | [] => None
  | (NumBlocks, BlockLength) :: m =>
      if (NumBlocks =? 0) || (BlockLength =? 0) then Some (EFI_INVALID_PARAMETER, (0, 0, 0))
      else
        let NextLba := u64 (StartLba + NumBlocks) in
        if (StartLba <=? Lba) && (Lba <? NextLba) then
          Some (EFI_SUCCESS, (u32 (Offset + u32 ((Lba - StartLba) * BlockLength)), BlockLength, u32 (NextLba - Lba)))
        else lba_loop m Lba NextLba (u32 (Offset + u32 (NumBlocks * BlockLength)))
  end.

(** [LbaAddress], [LbaWriteAddress], [LbaLength] and [NumOfBlocks]. *)
Definition FvbGetLbaAddress Instance (Lba : Z) Virtual : M (fvb D) (EFI_STATUS * (Z * Z * Z * Z)) :=
  v ← GetFvbInstance Instance;
  '(Status, (Offset, Length, n)) ← lift (lba_loop v.(BlockMap) Lba 0 0);
  mret (Status, (u32 (v.(FvBase) Virtual + Offset), u32 (v.(FvWriteBase) Virtual + Offset), Length, n)).

(** The buffer is not NULL when [Buffer]; the result has [NumBytes] on exit and what is read. *)
Definition FvbReadBlock Instance (Lba BlockOffset : Z) (NumBytes : option Z) (Buffer : bool) Virtual
  : M (fvb D) (EFI_STATUS * option Z * list Z) :=
  match NumBytes with
  | None => mret (EFI_INVALID_PARAMETER, None, [])
  | Some n =>
      if negb Buffer then mret (EFI_INVALID_PARAMETER, Some n, []) else
      if n =? 0 then mret (EFI_INVALID_PARAMETER, Some n, []) else
      '(Status, (LbaAddress, _, LbaLength, _)) ← FvbGetLbaAddress Instance Lba Virtual;
      if EFI_ERROR Status then mret (Status, Some n, []) else
      Attributes ← FvbGetVolumeAttributes Instance;
      if Z.land Attributes EFI_FVB_READ_STATUS =? 0 then mret (EFI_ACCESS_DENIED, Some n, []) else
      if LbaLength <? BlockOffset then mret (EFI_INVALID_PARAMETER, Some n, []) else
      let '(n, Status) := if LbaLength <? u32 (n + BlockOffset) then (u32 (LbaLength - BlockOffset), EFI_BAD_BUFFER_SIZE) else (n, Status) in
      b ← on_bus (MmioReadBuffer8 (u32 (LbaAddress + BlockOffset)) n);
      mret (Status, Some n, b)
  end.

(** The bytes that [NumBytes] counts from the beginning of the buffer: past its end the code stops. *)
Definition FlashFdWrite (WriteAddress NumBytes : Z) (Buffer : list Z) : M (fvb D) EFI_STATUS :=
  s ← get;
  b ← lift (if bool_decide (Z.to_nat NumBytes <= length Buffer)%nat then Some (take (Z.to_nat NumBytes) Buffer) else None);
  Status ← on_bus (SpiExecute s.(Global).(mInSmmMode) SPI_OPCODE_WRITE_INDEX 0 true true true
    (u32 (WriteAddress - PcdFlashAreaBaseAddress)) b EnumSpiRegionBios);
  _ ← on_bus AsmWbinvd;
  mret Status.

Definition FlashFdErase (WriteAddress : Z) : M (fvb D) EFI_STATUS :=
  s ← get;
  Status ← on_bus (SpiExecute s.(Global).(mInSmmMode) SPI_OPCODE_ERASE_INDEX 0 false true false
    (u32 (WriteAddress - PcdFlashAreaBaseAddress)) [] EnumSpiRegionBios);
  _ ← on_bus AsmWbinvd;
  mret Status.

Definition FvbWriteBlock Instance (Lba BlockOffset : Z) (NumBytes : option Z) (Buffer : option (list Z)) Virtual
  : M (fvb D) (EFI_STATUS * option Z) :=
  v ← GetFvbInstance Instance;
  if negb v.(WriteEnabled) then mret (EFI_ACCESS_DENIED, NumBytes) else
  match NumBytes, Buffer with
  | Some n, Some b =>
      if n =? 0 then mret (EFI_INVALID_PARAMETER, Some n) else
      '(Status, (_, LbaWriteAddress, LbaLength, _)) ← FvbGetLbaAddress Instance Lba Virtual;
      if EFI_ERROR Status then mret (Status, Some n) else
      Attributes ← FvbGetVolumeAttributes Instance;
      if Z.land Attributes EFI_FVB_WRITE_STATUS =? 0 then mret (EFI_ACCESS_DENIED, Some n) else
      if LbaLength <? BlockOffset then mret (EFI_INVALID_PARAMETER, Some n) else
      let '(n, Status) := if LbaLength <? u32 (n + BlockOffset) then (u32 (LbaLength - BlockOffset), EFI_BAD_BUFFER_SIZE) else (n, Status) in
      ReturnStatus ← FlashFdWrite (u32 (LbaWriteAddress + BlockOffset)) n b;
      mret (if EFI_ERROR ReturnStatus then ReturnStatus else Status, Some n)
  | _, _ => mret (EFI_INVALID_PARAMETER, NumBytes)
  end.

(** The sectors of a block from the sector [Index] on, [n] of them; [Status] is returned when there is none. *)
Fixpoint erase_sectors (n : nat) (LbaWriteAddress Index : Z) (Status : EFI_STATUS) : M (fvb D) EFI_STATUS :=
  match n with
  | O => mret Status
  | S n =>
      Status ← FlashFdErase (u32 (LbaWriteAddress + Index * SPI_ERASE_SECTOR_SIZE));
      if EFI_ERROR Status then mret Status else erase_sectors n LbaWriteAddress (Index + 1) Status
  end.

Definition FvbEraseBlock Instance (Lba : Z) Virtual : M (fvb D) EFI_STATUS :=
  v ← GetFvbInstance Instance;
  if negb v.(WriteEnabled) then mret EFI_ACCESS_DENIED else
  Attributes ← FvbGetVolumeAttributes Instance;
  if Z.land Attributes EFI_FVB_WRITE_STATUS =? 0 then mret EFI_ACCESS_DENIED else
  '(Status, (_, LbaWriteAddress, LbaLength, _)) ← FvbGetLbaAddress Instance Lba Virtual;
  if EFI_ERROR Status then mret Status else
  erase_sectors (Z.to_nat (LbaLength / SPI_ERASE_SECTOR_SIZE)) LbaWriteAddress 0 Status.

(** The blocks from [Index] on, [n] of them; their status is ignored. *)
Fixpoint erase_range (n : nat) Instance (Index : Z) Virtual : M (fvb D) unit :=
  match n with
  | O => mret tt
  | S n => _ ← FvbEraseBlock Instance Index Virtual; erase_range n Instance (Index + 1) Virtual
  end.

(** [LbaSize] keeps its value when [FvbGetLbaAddress] fails; at first it has none, and the code stops here. *)
Definition FvbEraseCustomBlockRange Instance (StartLba OffsetStartLba LastLba OffsetLastLba : Z) Virtual : M (fvb D) EFI_STATUS :=
  '(Status, (_, _, LbaSize, _)) ← FvbGetLbaAddress Instance StartLba Virtual;
  _ ← ASSERT (negb (EFI_ERROR Status));
  '(_, n, b) ← FvbReadBlock Instance StartLba 0 (Some LbaSize) true Virtual;
  let LbaSize := default LbaSize n in
  _ ← set_scratch b;
  _ ← FvbEraseBlock Instance StartLba Virtual;
  s ← get;
  _ ← (if 0 <? OffsetStartLba then
         _ ← FvbWriteBlock Instance StartLba 0 (Some OffsetStartLba) (Some s.(Global).(FvbScratchSpace)) Virtual; mret tt
       else mret tt);
  _ ← (if u64 (StartLba + 1) <? LastLba then erase_range (Z.to_nat (LastLba - 1 - StartLba)) Instance (StartLba + 1) Virtual else mret tt);
  LbaSize ←
    (if StartLba <? LastLba then
       '(Status, (_, _, Size, _)) ← FvbGetLbaAddress Instance LastLba Virtual;
       let LbaSize := if EFI_ERROR Status then LbaSize else Size in
       '(_, n, b) ← FvbReadBlock Instance LastLba 0 (Some LbaSize) true Virtual;
       _ ← set_scratch b;
       _ ← FvbEraseBlock Instance LastLba Virtual;
       mret (default LbaSize n)
     else mret LbaSize);
  s ← get;
  '(Status, _) ← FvbWriteBlock Instance LastLba (u32 (OffsetLastLba + 1)) (Some (u32 (LbaSize - (OffsetStartLba + 1))))
    (Some s.(Global).(FvbScratchSpace)) Virtual;
  mret Status.

(** The total of the numbers of blocks up to the end of the map. *)
Fixpoint count_blocks (m : list (Z * Z)) (NumOfBlocks : Z) : Z :=
  match m with
  | [] => NumOfBlocks
  | (NumBlocks, _) :: m => if NumBlocks =? 0 then NumOfBlocks else count_blocks m (u32 (NumOfBlocks + NumBlocks))
  end.

(** The attributes on exit are [None] when they are not set. *)
Definition FvbSetVolumeAttributes Instance (Attributes : Z) : M (fvb D) (EFI_STATUS * option Z) :=
  v ← GetFvbInstance Instance;
  let OldAttributes := v.(HeaderAttributes) in
  let Capabilities := Z.land OldAttributes EFI_FVB_CAPABILITIES in
  let OldStatus := Z.land OldAttributes EFI_FVB_STATUS in
  let NewStatus := Z.land Attributes EFI_FVB_STATUS in
  let has x y := negb (Z.land x y =? 0) in
  if has OldAttributes EFI_FVB_LOCK_STATUS && negb (Z.lxor OldStatus NewStatus =? 0) then mret (EFI_ACCESS_DENIED, None) else
  if negb (has Capabilities EFI_FVB_READ_DISABLED_CAP) && negb (has NewStatus EFI_FVB_READ_STATUS) then mret (EFI_INVALID_PARAMETER, None) else
  if negb (has Capabilities EFI_FVB_READ_ENABLED_CAP) && has NewStatus EFI_FVB_READ_STATUS then mret (EFI_INVALID_PARAMETER, None) else
  if negb (has Capabilities EFI_FVB_WRITE_DISABLED_CAP) && negb (has NewStatus EFI_FVB_WRITE_STATUS) then mret (EFI_INVALID_PARAMETER, None) else
  if negb (has Capabilities EFI_FVB_WRITE_ENABLED_CAP) && has NewStatus EFI_FVB_WRITE_STATUS then mret (EFI_INVALID_PARAMETER, None) else
  if negb (has Capabilities EFI_FVB_LOCK_CAP) && has NewStatus EFI_FVB_LOCK_STATUS then mret (EFI_INVALID_PARAMETER, None) else
  let a := Z.lor (Z.land OldAttributes (Z.land 0xFFFFFFFF (Z.lnot EFI_FVB_STATUS))) NewStatus in
  _ ← set_instance (Z.to_nat Instance) (set_attributes a v);
  mret (EFI_SUCCESS, Some a).

(** What [FvbInitialize] makes of a volume with the header [h] at [BaseAddress], apart from the protocols it installs: with
    [WriteBack], the header in flash was damaged and is written anew. The statuses are ignored. *)
Definition fill_instance (Attributes HeaderLength : Z) (BlockMap : list (Z * Z)) (HeaderBytes : list Z) (BaseAddress : Z) (WriteBack : bool)
  : M (fvb D) EFI_FW_VOL_INSTANCE :=
  let v := {| FvBase := fun _ => u32 BaseAddress; FvWriteBase := fun _ => u32 BaseAddress;
              NumOfBlocks := count_blocks BlockMap 0; WriteEnabled := true; HeaderAttributes := Attributes; BlockMap := BlockMap |} in
  _ ← (if WriteBack then
         _ ← FlashFdErase (u32 BaseAddress);
         _ ← FlashFdWrite (u32 BaseAddress) HeaderLength HeaderBytes;
         mret tt
       else mret tt);
  mret v.

(** ** The protocol

    The functions are called with the instance of the device, and with what [EfiGoneVirtual] returns. *)

Definition FvbProtocolGetBlockSize Instance (Lba : Z) Virtual : M (fvb D) (EFI_STATUS * Z * Z) :=
  '(Status, (_, _, Length, n)) ← FvbGetLbaAddress Instance Lba Virtual; mret (Status, Length, n).

(** The pairs before the terminator of the argument list. *)
Fixpoint va_list (args : list (Z * Z)) : list (Z * Z) :=
  match args with
  | [] => []
  | (StartingLba, NumOfLba) :: args =>
      if StartingLba =? EFI_LBA_LIST_TERMINATOR then [] else (StartingLba, u32 NumOfLba) :: va_list args
  end.

Fixpoint erase_lbas (n : nat) Instance (StartingLba : Z) Virtual : M (fvb D) EFI_STATUS :=
  match n with
  | O => mret EFI_SUCCESS
  | S n =>
      Status ← FvbEraseBlock Instance StartingLba Virtual;
      if EFI_ERROR Status then mret Status else erase_lbas n Instance (u64 (StartingLba + 1)) Virtual
  end.

Fixpoint erase_list (args : list (Z * Z)) Instance Virtual : M (fvb D) EFI_STATUS :=
  match args with
  | [] => mret EFI_SUCCESS
  | (StartingLba, NumOfLba) :: args =>
      Status ← erase_lbas (Z.to_nat NumOfLba) Instance StartingLba Virtual;
      if EFI_ERROR Status then mret Status else erase_list args Instance Virtual
  end.

Definition FvbProtocolEraseBlocks Instance (args : list (Z * Z)) Virtual : M (fvb D) EFI_STATUS :=
  v ← GetFvbInstance Instance;
  if forallb (fun '(StartingLba, NumOfLba) =>
       negb (NumOfLba =? 0) && (u64 (StartingLba + NumOfLba) <=? v.(NumOfBlocks))) (va_list args)
  then erase_list (va_list args) Instance Virtual
  else mret EFI_INVALID_PARAMETER.

Definition FvbProtocolWrite Instance (Lba Offset : Z) (NumBytes : option Z) (Buffer : option (list Z)) Virtual : M (fvb D) (EFI_STATUS * option Z) :=
  FvbWriteBlock Instance Lba Offset NumBytes Buffer Virtual.

Definition FvbProtocolRead Instance (Lba Offset : Z) (NumBytes : option Z) (Buffer : bool) Virtual : M (fvb D) (EFI_STATUS * option Z * list Z) :=
  FvbReadBlock Instance Lba Offset NumBytes Buffer Virtual.
End Fvb.

(** ** Headers of firmware volumes *)

Record EFI_FIRMWARE_VOLUME_HEADER := {
  Revision : Z; Signature : Z; FvLength : Z; HeaderLength : Z;
  HeaderWords : list Z  (* the header as 16-bit words *)
}.

Fixpoint checksum_loop (n : nat) (Ptr : list Z) (Checksum : Z) : option Z :=
  match n with
  | O => Some Checksum
  | S n => match Ptr with x :: Ptr => checksum_loop n Ptr (u16 (Checksum + x)) | [] => None end
  end.

Definition ValidateFvHeader {H : FvbHeader} (h : EFI_FIRMWARE_VOLUME_HEADER) : option EFI_STATUS :=
  if negb (h.(Revision) =? EFI_FVH_REVISION) || negb (h.(Signature) =? EFI_FVH_SIGNATURE) ||
     (h.(FvLength) =? 2 ^ 32 - 1) || negb (Z.land h.(HeaderLength) 1 =? 0)
  then Some EFI_NOT_FOUND
  else
    Checksum ← checksum_loop (Z.to_nat (u16 (h.(HeaderLength) / 2))) h.(HeaderWords) 0;
    Some (if Checksum =? 0 then EFI_SUCCESS else EFI_NOT_FOUND).
