(* ===== verification/FvbSpec.v ===== *)
(** * The flash block services: the flash behind them

    What the services rely on: memory-mapped reads show the flash, the SPI write opcode clears bits of a
    range of bytes (one at least: without a byte the controller programs what its data registers hold), and the erase
    opcode sets a sector of 4096 bytes. Offsets are those of the flash
    image. As for the fault-tolerant write driver, a failure of the power or an error leaves some of the
    bytes changed. *)

From S2P Require Import Prelude FvbDefs.
From stdpp Require Import list.
#[local] Open Scope Z_scope.

Definition lin := Z -> Z.
Definition lsame (x y : lin) : Prop := forall a, x a = y a.
Definition ltorn (x y z : lin) : Prop := forall a, z a = x a \/ z a = y a.
Definition write_lin (A : Z) (b : list Z) (x : lin) : lin := fun a =>
  if (A <=? a) && (a <? A + Z.of_nat (length b)) then Z.land (x a) (b !!! Z.to_nat (a - A)) else x a.
Definition erase_lin (A n : Z) (x : lin) : lin := fun a => if (A <=? a) && (a <? A + n) then 255 else x a.

Section Laws.
Context (D : Type).

Definition lquiet (flash : D -> lin) (fseen : D -> lin -> Prop) (d d' : D) : Prop :=
  lsame (flash d') (flash d) /\ forall x, fseen d' x -> fseen d x.

Definition lupdates (flash : D -> lin) (fseen : D -> lin -> Prop) (y : lin) (d d' : D) (st : EFI_STATUS) : Prop :=
  ltorn (flash d) y (flash d') /\
  (EFI_ERROR st = false -> lsame (flash d') y) /\
  forall x, fseen d' x -> fseen d x \/ ltorn (flash d) y x.

Section Compose.
Context (flash : D -> lin) (fseen : D -> lin -> Prop).

(** An operation between two that keep the contents. *)
Lemma lupdates_quiet_l d d1 d2 y y1 st :
  lquiet flash fseen d d1 -> lsame y1 y -> lupdates flash fseen y1 d1 d2 st -> lupdates flash fseen y d d2 st.
Proof.
  intros [Hi Hs] Hy (U1 & U2 & U3).
  assert (Ht : forall z, ltorn (flash d1) y1 z -> ltorn (flash d) y z).
  { intros z Hz a. rewrite <- Hi, <- Hy. apply Hz. }
  split; [by apply Ht|split].
  - intros E a. by rewrite (U2 E), Hy.
  - intros x Hx. destruct (U3 x Hx) as [|Hx']; [left; auto|right; by apply Ht].
Qed.

Lemma lupdates_quiet_r d d1 d2 y st :
  lupdates flash fseen y d d1 st -> lquiet flash fseen d1 d2 -> lupdates flash fseen y d d2 st.
Proof.
  intros (U1 & U2 & U3) [Hi Hs]. split; [|split].
  - intros a. rewrite Hi. apply U1.
  - intros E a. by rewrite Hi, (U2 E).
  - intros x Hx. auto.
Qed.

(** With an error status less is known. *)
Lemma lupdates_weaken d d' y st st' :
  (EFI_ERROR st' = false -> EFI_ERROR st = false) -> lupdates flash fseen y d d' st -> lupdates flash fseen y d d' st'.
Proof. intros Hst (U1 & U2 & U3). split; [done|]. split; [auto|done]. Qed.

(** Two operations of which the second goes further. *)
Lemma lupdates_seq d d1 d2 y1 y2 st :
  lupdates flash fseen y1 d d1 EFI_SUCCESS -> lupdates flash fseen y2 d1 d2 st ->
  (forall a, y1 a = flash d a \/ y1 a = y2 a) -> lupdates flash fseen y2 d d2 st.
Proof.
  intros (U1 & U2 & U3) (V1 & V2 & V3) Hy. specialize (U2 eq_refl).
  assert (H1 : forall z, ltorn (flash d1) y2 z -> ltorn (flash d) y2 z).
  { intros z Hz a. destruct (Hz a) as [->| ->]; [|by right]. rewrite U2. apply Hy. }
  split; [by apply H1|]. split; [done|]. intros x Hx.
  destruct (V3 x Hx) as [Hx'|Hx']; [|right; by apply H1]. destruct (U3 x Hx') as [|Hx'']; [by left|]. right.
  intros a. destruct (Hx'' a) as [->| ->]; [by left|apply Hy].
Qed.

(** An operation that failed on the way to [y2]. *)
Lemma lupdates_failed d d' y1 y2 st :
  lupdates flash fseen y1 d d' st -> EFI_ERROR st = true -> (forall a, y1 a = flash d a \/ y1 a = y2 a) ->
  lupdates flash fseen y2 d d' st.
Proof.
  intros (U1 & _ & U3) Hst Hy. assert (H1 : forall z, ltorn (flash d) y1 z -> ltorn (flash d) y2 z).
  { intros z Hz a. destruct (Hz a) as [->| ->]; [by left|apply Hy]. }
  split; [by apply H1|]. split; [by rewrite Hst|]. intros x Hx. destruct (U3 x Hx); auto.
Qed.

Lemma lupdates_nothing d d' y st : lquiet flash fseen d d' -> EFI_ERROR st = true -> lupdates flash fseen y d d' st.
Proof.
  intros [Hq Hs] Hst. split; [intros a; left; apply Hq|]. split; [by rewrite Hst|]. intros x Hx. auto.
Qed.
End Compose.

Class FlashLaws {B : FlashBus D} := {
  flash : D -> lin;
  fseen : D -> lin -> Prop;
  flash_size : Z;
  mapped : Z -> option Z;
  fseen_now : forall d, fseen d (flash d);
  flash_byte : forall d a, in_width 8 (flash d a);
  MmioReadBuffer8_law : forall A n o d, 0 <= n -> (forall k, 0 <= k < n -> mapped (A + k) = Some (o + k)) ->
    wp (MmioReadBuffer8 A n) (fun b d' => lquiet flash fseen d d' /\
      b = map (fun i => flash d (o + Z.of_nat i)) (seq 0 (Z.to_nat n))) d;
  SpiExecute_write_law : forall smm A b d, b <> [] -> 0 <= A -> A + Z.of_nat (length b) <= flash_size ->
    wp (SpiExecute smm SPI_OPCODE_WRITE_INDEX 0 true true true A b EnumSpiRegionBios)
      (fun st d' => lupdates flash fseen (write_lin A b (flash d)) d d' st) d;
  SpiExecute_erase_law : forall smm A d, 0 <= A -> A mod SPI_ERASE_SECTOR_SIZE = 0 -> A + SPI_ERASE_SECTOR_SIZE <= flash_size ->
    wp (SpiExecute smm SPI_OPCODE_ERASE_INDEX 0 false true false A [] EnumSpiRegionBios)
      (fun st d' => lupdates flash fseen (erase_lin A SPI_ERASE_SECTOR_SIZE (flash d)) d d' st) d;
  AsmWbinvd_law : forall d, wp AsmWbinvd (fun _ d' => lquiet flash fseen d d') d
}.
End Laws.
Arguments lquiet {D}.
Arguments lupdates {D}.
Arguments lupdates_quiet_l {D flash fseen}.
Arguments lupdates_quiet_r {D flash fseen}.
Arguments lupdates_weaken {D flash fseen}.
Arguments lupdates_seq {D flash fseen}.
Arguments lupdates_failed {D flash fseen}.
Arguments lupdates_nothing {D flash fseen}.
Arguments FlashLaws D {B}.
Arguments flash {D B FlashLaws}.
Arguments fseen {D B FlashLaws}.
Arguments flash_size {D B FlashLaws}.
Arguments mapped {D B FlashLaws}.
Arguments fseen_now {D B FlashLaws}.
Arguments flash_byte {D B FlashLaws}.
Arguments MmioReadBuffer8_law {D B FlashLaws}.
Arguments SpiExecute_write_law {D B FlashLaws}.
Arguments SpiExecute_erase_law {D B FlashLaws}.
Arguments AsmWbinvd_law {D B FlashLaws}.

(** ** Volumes *)

Definition total (m : list (Z * Z)) : Z := foldr (fun e n => e.1 + n) 0 m.

Section Volume.
Context {H : FvbHeader} {D : Type} {B : FlashBus D} {LB : FlashLaws D}.

(** The first byte of a volume in the flash. *)
Definition volume_offset (v : EFI_FW_VOL_INSTANCE) (Virtual : bool) : Z := v.(FvWriteBase) Virtual - PcdFlashAreaBaseAddress.
Definition volume_size (v : EFI_FW_VOL_INSTANCE) : Z := v.(NumOfBlocks) * SPI_ERASE_SECTOR_SIZE.

(** A volume whose blocks are sectors and that lies in the flash. *)
Record volume_ok (v : EFI_FW_VOL_INSTANCE) (Virtual : bool) : Prop := {
  vol_map : exists m, v.(BlockMap) = m ++ [(0, 0)] /\ Forall (fun e => 0 < e.1 /\ e.2 = SPI_ERASE_SECTOR_SIZE) m /\ total m = v.(NumOfBlocks);
  vol_base : 0 <= volume_offset v Virtual /\ volume_offset v Virtual mod SPI_ERASE_SECTOR_SIZE = 0;
  vol_fits : volume_offset v Virtual + volume_size v <= flash_size;
  vol_write : 0 < PcdFlashAreaBaseAddress /\ v.(FvWriteBase) Virtual + volume_size v <= 2 ^ 32 /\ volume_size v < 2 ^ 32;
  vol_read : 0 <= v.(FvBase) Virtual /\ v.(FvBase) Virtual + volume_size v <= 2 ^ 32;
  vol_mapped : forall k, 0 <= k < volume_size v -> mapped (v.(FvBase) Virtual + k) = Some (volume_offset v Virtual + k)
}.

Lemma total_nonneg m : Forall (fun e : Z * Z => 0 < e.1 /\ e.2 = SPI_ERASE_SECTOR_SIZE) m -> 0 <= total m.
Proof. induction 1 as [|e m He Hm IH]; cbn; [done|]. unfold total in *. cbn. lia. Qed.

(** The loop over the block map, in a volume of sectors. *)
Lemma lba_loop_ok m Lba Start :
  Forall (fun e => 0 < e.1 /\ e.2 = SPI_ERASE_SECTOR_SIZE) m -> 0 <= Start -> (Start + total m) * SPI_ERASE_SECTOR_SIZE < 2 ^ 32 ->
  exists n, lba_loop (m ++ [(0, 0)]) Lba Start (Start * SPI_ERASE_SECTOR_SIZE) =
    Some (if (Start <=? Lba) && (Lba <? Start + total m) then (EFI_SUCCESS, (Lba * SPI_ERASE_SECTOR_SIZE, SPI_ERASE_SECTOR_SIZE, n))
          else (EFI_INVALID_PARAMETER, (0, 0, 0))).
Proof.
  unfold SPI_ERASE_SECTOR_SIZE. intros Hm. revert Start. induction Hm as [|[c len] m [Hc Hl] Hm IH]; intros Start H0 Ht.
  - exists 0. cbn. destruct (Z.leb_spec Start Lba), (Z.ltb_spec Lba (Start + 0)); try lia; done.
  - cbn in Hc, Hl. subst len. pose proof (total_nonneg m Hm) as Htm. unfold SPI_ERASE_SECTOR_SIZE in Htm.
    assert (Htot : total ((c, 0x1000) :: m) = c + total m) by done. rewrite Htot in *. cbn [app lba_loop].
    rewrite (proj2 (Z.eqb_neq c 0)) by lia. cbn [orb Z.eqb].
    rewrite (wrap_small 64 (Start + c)) by lia. rewrite (wrap_small 32 (c * 0x1000)) by lia.
    destruct (Z.leb_spec Start Lba); cbn [andb].
    + destruct (Z.ltb_spec Lba (Start + c)).
      * destruct (Z.ltb_spec Lba (Start + (c + total m))); [|lia]. eexists.
        rewrite (wrap_small 32 ((Lba - Start) * 0x1000)) by lia. rewrite (wrap_small 32 (Start * 0x1000 + _)) by lia.
        do 5 f_equal. lia.
      * rewrite (wrap_small 32 (Start * 0x1000 + c * 0x1000)) by lia.
        replace (Start * 0x1000 + c * 0x1000) with ((Start + c) * 0x1000) by lia.
        destruct (IH (Start + c)) as [n Hn]; [lia..|]. exists n. rewrite Hn.
        rewrite (proj2 (Z.leb_le (Start + c) Lba)) by lia. cbn [andb]. by rewrite Z.add_assoc.
    + rewrite (wrap_small 32 (Start * 0x1000 + c * 0x1000)) by lia.
      replace (Start * 0x1000 + c * 0x1000) with ((Start + c) * 0x1000) by lia.
      destruct (IH (Start + c)) as [n Hn]; [lia..|]. exists n. rewrite Hn.
      by rewrite (proj2 (Z.leb_gt (Start + c) Lba)) by lia.
Qed.
End Volume.
