(* ===== verification/FvbRules.v ===== *)
(** * The flash block services: rules

    What a read, a write and an erase of blocks do to the flash, for a volume that lies in it. *)

From S2P Require Import Prelude FvbDefs FvbSpec.
From stdpp Require Import list.
#[local] Open Scope Z_scope.

Section Rules.
Context {H : FvbHeader} {D : Type} {B : FlashBus D} {LB : FlashLaws D}.
Implicit Types (s : fvb D) (v : EFI_FW_VOL_INSTANCE) (x y z : lin).

Definition bus_quiet s s' : Prop := s'.(Global) = s.(Global) /\ lquiet flash fseen s.(bus) s'.(bus).
Definition bus_updates y s s' (st : EFI_STATUS) : Prop := s'.(Global) = s.(Global) /\ lupdates flash fseen y s.(bus) s'.(bus) st.

Lemma bus_quiet_refl s : bus_quiet s s.
Proof. split; [done|]. split; [done | auto]. Qed.

Lemma wp_on_fvb_bus {A} (m : M D A) (Q : A -> fvb D -> Prop) s :
  wp m (fun a d' => Q a {| Global := s.(Global); bus := d' |}) s.(bus) -> wp (on_bus m) Q s.
Proof. intros (a & d' & Hm & HQ). eexists a, _. split; [|exact HQ]. unfold on_bus. by rewrite Hm. Qed.

Lemma wp_GetFvbInstance i v (Q : EFI_FW_VOL_INSTANCE -> fvb D -> Prop) s :
  s.(Global).(FvInstance) !! i = Some v -> Q v s -> wp (GetFvbInstance (Z.of_nat i)) Q s.
Proof.
  intros Hi HQ. unfold GetFvbInstance. apply wp_bind, wp_get. pose proof (lookup_lt_Some _ _ _ Hi). unfold NumFv.
  rewrite (proj2 (Z.leb_gt _ _)) by lia. rewrite Nat2Z.id. by apply (wp_lift _ v).
Qed.

Lemma wp_FvbGetVolumeAttributes i v (Q : Z -> fvb D -> Prop) s :
  s.(Global).(FvInstance) !! i = Some v -> Q v.(HeaderAttributes) s -> wp (FvbGetVolumeAttributes (Z.of_nat i)) Q s.
Proof. intros Hi HQ. apply wp_bind, (wp_GetFvbInstance i v); [done|]. by apply wp_ret. Qed.

Lemma wrap_sub_l w a b : wrap w (wrap w a - b) = wrap w (a - b).
Proof. unfold wrap. apply Zminus_mod_idemp_l. Qed.

(** The addresses of the block [Lba], or an error when there is none. *)
Lemma wp_FvbGetLbaAddress i v Lba Virtual (Q : EFI_STATUS * (Z * Z * Z * Z) -> fvb D -> Prop) s :
  s.(Global).(FvInstance) !! i = Some v -> volume_ok v Virtual ->
  (forall n, 0 <= Lba < v.(NumOfBlocks) ->
     Q (EFI_SUCCESS, (v.(FvBase) Virtual + Lba * SPI_ERASE_SECTOR_SIZE, v.(FvWriteBase) Virtual + Lba * SPI_ERASE_SECTOR_SIZE,
                      SPI_ERASE_SECTOR_SIZE, n)) s) ->
  (~ 0 <= Lba < v.(NumOfBlocks) -> forall r, Q (EFI_INVALID_PARAMETER, r) s) ->
  wp (FvbGetLbaAddress (Z.of_nat i) Lba Virtual) Q s.
Proof.
  intros Hi [(m & Hm & Hf & Ht) Hb Hfit Hw Hr _] HS HE. apply wp_bind, (wp_GetFvbInstance i v); [done|].
  unfold volume_size, volume_offset in *.
  destruct (lba_loop_ok m Lba 0 Hf) as [n Hn]; [done|rewrite Ht; lia|]. change (0 * SPI_ERASE_SECTOR_SIZE) with 0 in Hn.
  apply wp_bind. eapply wp_lift; [rewrite Hm; exact Hn|]. rewrite Ht, Z.add_0_l.
  destruct (Z.leb_spec 0 Lba), (Z.ltb_spec Lba v.(NumOfBlocks)); cbn [andb]; apply wp_ret; try (apply HE; lia).
  unfold SPI_ERASE_SECTOR_SIZE in *.
  rewrite (wrap_small 32 (v.(FvBase) Virtual + _)), (wrap_small 32 (v.(FvWriteBase) Virtual + _)) by lia. apply HS. lia.
Qed.

(** ** Reads *)

Definition read_result v Virtual (l o n : Z) s s' (st : EFI_STATUS) (b : list Z) : Prop :=
  bus_quiet s s' /\
  (EFI_ERROR st = false -> 0 <= l < v.(NumOfBlocks) /\
     b = map (fun k => flash s.(bus) (volume_offset v Virtual + l * SPI_ERASE_SECTOR_SIZE + o + Z.of_nat k)) (seq 0 (Z.to_nat n))).

Lemma read_failed v Virtual l o n s st b : EFI_ERROR st = true -> read_result v Virtual l o n s s st b.
Proof. intros Hst. split; [apply bus_quiet_refl|]. by rewrite Hst. Qed.

Lemma FvbReadBlock_spec i v Virtual l o n (Q : EFI_STATUS * option Z * list Z -> fvb D -> Prop) s :
  s.(Global).(FvInstance) !! i = Some v -> volume_ok v Virtual -> 0 <= o -> 0 <= n -> o + n <= SPI_ERASE_SECTOR_SIZE ->
  (forall st nb b s', read_result v Virtual l o n s s' st b -> Q (st, nb, b) s') ->
  wp (FvbReadBlock (Z.of_nat i) l o (Some n) true Virtual) Q s.
Proof.
  intros Hi Hv Ho Hn Hs HQ. cbn [FvbReadBlock negb]. destruct (Z.eqb_spec n 0); [by apply wp_ret, HQ, read_failed|].
  apply wp_bind, (wp_FvbGetLbaAddress i v); [done|done| |intros _ [[[? ?] ?] ?]; by apply wp_ret, HQ, read_failed].
  intros k Hl. cbn beta iota. cbn [EFI_ERROR bool_decide negb].
  apply wp_bind, (wp_FvbGetVolumeAttributes i v); [done|].
  destruct (_ =? 0); [by apply wp_ret, HQ, read_failed|].
  rewrite (proj2 (Z.ltb_ge _ _)) by lia. unfold SPI_ERASE_SECTOR_SIZE in *.
  rewrite (wrap_small 32 (n + o)) by lia. rewrite (proj2 (Z.ltb_ge _ _)) by lia.
  destruct Hv as [_ _ _ _ Hr Hm]. unfold volume_size, SPI_ERASE_SECTOR_SIZE in *.
  rewrite (wrap_small 32 (_ + o)) by lia.
  apply wp_bind, wp_on_fvb_bus.
  eapply wp_mono; [apply (MmioReadBuffer8_law _ _ (volume_offset v Virtual + l * 0x1000 + o)); [done|]|].
  - intros j Hj. rewrite <- !Z.add_assoc. rewrite Hm by lia. done.
  - intros b d' [Hq Hb]. apply wp_ret, HQ. split; [done|]. intros _. split; [done|]. exact Hb.
Qed.

(** ** Writes *)

(** The flash may have changed where [m] of the bytes go, and these are inside the block. *)
Definition write_result v Virtual (l o n : Z) (b : list Z) s s' (st : EFI_STATUS) : Prop :=
  bus_quiet s s' /\ EFI_ERROR st = true \/
  0 <= l < v.(NumOfBlocks) /\ exists m, 0 <= m <= n /\ o + m <= SPI_ERASE_SECTOR_SIZE /\ (o + n <= SPI_ERASE_SECTOR_SIZE -> m = n) /\
    bus_updates (write_lin (volume_offset v Virtual + l * SPI_ERASE_SECTOR_SIZE + o) (take (Z.to_nat m) b) (flash s.(bus))) s s' st.

Lemma take_nonempty {A} n (l : list A) : (0 < n <= length l)%nat -> take n l <> [].
Proof. destruct n, l; cbn; intros Hn; [lia..|done]. Qed.

Lemma FlashFdWrite_spec WriteAddress A n b (Q : EFI_STATUS -> fvb D -> Prop) s :
  u32 (WriteAddress - PcdFlashAreaBaseAddress) = A -> 0 < n -> (Z.to_nat n <= length b)%nat -> 0 <= A -> A + n <= flash_size ->
  (forall st s', bus_updates (write_lin A (take (Z.to_nat n) b) (flash s.(bus))) s s' st -> Q st s') ->
  wp (FlashFdWrite WriteAddress n b) Q s.
Proof.
  intros HA Hn Hl H0 Hs HQ. unfold FlashFdWrite. apply wp_bind, wp_get. rewrite bool_decide_true by done.
  apply wp_bind. eapply wp_lift; [done|]. cbn beta. rewrite HA. apply wp_bind, wp_on_fvb_bus.
  eapply wp_mono; [apply SpiExecute_write_law; [apply take_nonempty; lia|done|rewrite length_take_le by lia; lia]|]. intros st d1 HU. cbn beta.
  apply wp_bind, wp_on_fvb_bus. eapply wp_mono; [apply AsmWbinvd_law|]. intros [] d2 Hq. apply wp_ret, HQ.
  split; [done|]. eapply lupdates_quiet_r; [exact HU|exact Hq].
Qed.

Lemma FvbWriteBlock_spec i v Virtual l o n b (Q : EFI_STATUS * option Z -> fvb D -> Prop) s :
  s.(Global).(FvInstance) !! i = Some v -> volume_ok v Virtual -> 0 <= o -> o <> SPI_ERASE_SECTOR_SIZE -> 0 <= n -> o + n < 2 ^ 32 -> (Z.to_nat n <= length b)%nat ->
  (forall st nb s', write_result v Virtual l o n b s s' st -> Q (st, nb) s') ->
  wp (FvbWriteBlock (Z.of_nat i) l o (Some n) (Some b) Virtual) Q s.
Proof.
  intros Hi Hv Ho Hoe Hn Hon Hlb HQ. unfold FvbWriteBlock. apply wp_bind, (wp_GetFvbInstance i v); [done|].
  assert (HE : forall st, EFI_ERROR st = true -> write_result v Virtual l o n b s s st).
  { intros st Hst. left. split; [apply bus_quiet_refl|done]. }
  destruct (negb _); [by apply wp_ret, HQ, HE|]. destruct (Z.eqb_spec n 0); [by apply wp_ret, HQ, HE|].
  apply wp_bind, (wp_FvbGetLbaAddress i v); [done|done| |intros _ [[[? ?] ?] ?]; by apply wp_ret, HQ, HE].
  intros k Hl. cbn beta iota. cbn [EFI_ERROR bool_decide negb].
  apply wp_bind, (wp_FvbGetVolumeAttributes i v); [done|]. destruct (_ =? 0); [by apply wp_ret, HQ, HE|].
  destruct (Z.ltb_spec SPI_ERASE_SECTOR_SIZE o) as [|Hob]; [by apply wp_ret, HQ, HE|].
  destruct Hv as [_ Hb Hf Hw _ _]. unfold volume_size, volume_offset, SPI_ERASE_SECTOR_SIZE in *.
  rewrite (wrap_small 32 (n + o)) by lia.
  assert (HK : forall m st, 0 < m <= n -> o + m <= 0x1000 -> (o + n <= 0x1000 -> m = n) ->
    wp (ReturnStatus ← FlashFdWrite (u32 (v.(FvWriteBase) Virtual + l * 0x1000 + o)) m b;
        mret (if EFI_ERROR ReturnStatus then ReturnStatus else st, Some m)) Q s).
  { intros m st Hm Hom Hmn. apply wp_bind.
    eapply (FlashFdWrite_spec _ (v.(FvWriteBase) Virtual - PcdFlashAreaBaseAddress + l * 0x1000 + o)); [|lia..|].
    - rewrite wrap_sub_l, wrap_small by lia. lia.
    - intros st' s' [HG HU]. apply wp_ret, HQ. right. split; [done|]. exists m. split; [lia|]. split; [exact Hom|].
      split; [exact Hmn|]. split; [exact HG|]. eapply lupdates_weaken; [|exact HU]. destruct (EFI_ERROR st') eqn:E; [by rewrite E|done]. }
  destruct (Z.ltb_spec 0x1000 (n + o)).
  - rewrite (wrap_small 32 (0x1000 - o)) by lia. apply HK; lia.
  - apply HK; lia.
Qed.

(** ** Erases *)

Lemma FlashFdErase_spec WriteAddress A (Q : EFI_STATUS -> fvb D -> Prop) s :
  u32 (WriteAddress - PcdFlashAreaBaseAddress) = A -> 0 <= A -> A mod SPI_ERASE_SECTOR_SIZE = 0 -> A + SPI_ERASE_SECTOR_SIZE <= flash_size ->
  (forall st s', bus_updates (erase_lin A SPI_ERASE_SECTOR_SIZE (flash s.(bus))) s s' st -> Q st s') ->
  wp (FlashFdErase WriteAddress) Q s.
Proof.
  intros HA H0 Hm Hs HQ. unfold FlashFdErase. apply wp_bind, wp_get. rewrite HA. apply wp_bind, wp_on_fvb_bus.
  eapply wp_mono; [by apply SpiExecute_erase_law|]. intros st d1 HU. cbn beta.
  apply wp_bind, wp_on_fvb_bus. eapply wp_mono; [apply AsmWbinvd_law|]. intros [] d2 Hq. apply wp_ret, HQ.
  split; [done|]. eapply lupdates_quiet_r; [exact HU|exact Hq].
Qed.

Definition erase_result v Virtual (l n : Z) s s' (st : EFI_STATUS) : Prop :=
  bus_quiet s s' /\ EFI_ERROR st = true \/
  0 <= l /\ l + n <= v.(NumOfBlocks) /\
    bus_updates (erase_lin (volume_offset v Virtual + l * SPI_ERASE_SECTOR_SIZE) (n * SPI_ERASE_SECTOR_SIZE) (flash s.(bus))) s s' st.

Lemma FvbEraseBlock_spec i v Virtual l (Q : EFI_STATUS -> fvb D -> Prop) s :
  s.(Global).(FvInstance) !! i = Some v -> volume_ok v Virtual ->
  (forall st s', erase_result v Virtual l 1 s s' st -> Q st s') ->
  wp (FvbEraseBlock (Z.of_nat i) l Virtual) Q s.
Proof.
  intros Hi Hv HQ. unfold FvbEraseBlock. apply wp_bind, (wp_GetFvbInstance i v); [done|].
  assert (HE : forall st, EFI_ERROR st = true -> erase_result v Virtual l 1 s s st).
  { intros st Hst. left. split; [apply bus_quiet_refl|done]. }
  destruct (negb _); [by apply wp_ret, HQ, HE|].
  apply wp_bind, (wp_FvbGetVolumeAttributes i v); [done|]. destruct (_ =? 0); [by apply wp_ret, HQ, HE|].
  apply wp_bind, (wp_FvbGetLbaAddress i v); [done|done| |intros _ [[[? ?] ?] ?]; by apply wp_ret, HQ, HE].
  intros k Hl. cbn beta iota. cbn [EFI_ERROR bool_decide negb].
  destruct Hv as [_ Hb Hf Hw _ _]. unfold volume_size, volume_offset, SPI_ERASE_SECTOR_SIZE in *.
  change (Z.to_nat (0x1000 / 0x1000)) with 1%nat. cbn [erase_sectors]. rewrite Z.add_0_r.
  apply wp_bind. eapply (FlashFdErase_spec _ (v.(FvWriteBase) Virtual - PcdFlashAreaBaseAddress + l * 0x1000)).
  - rewrite wrap_sub_l, wrap_small by lia. lia.
  - lia.
  - unfold SPI_ERASE_SECTOR_SIZE. rewrite Z_mod_plus_full. tauto.
  - unfold SPI_ERASE_SECTOR_SIZE. lia.
  - intros st s' HU. assert (HR : erase_result v Virtual l 1 s s' st) by (right; split; [lia|]; split; [lia|]; done).
    destruct (EFI_ERROR st); by apply wp_ret, HQ.
Qed.
End Rules.
