(* ===== verification/FvbImage.v ===== *)
(** * The flash block services as the services of the fault-tolerant write driver

    The protocol of [FwBlockService.c] on the volumes of a flash provides the interface that the
    fault-tolerant write driver asks for ([FvbServices]) with its laws ([FvbLaws]): what the driver is
    proved to do, it does over the SPI flash. *)

From S2P Require Import Prelude FtwDefs FtwSpec FvbDefs FvbSpec FvbRules.
From stdpp Require Import list.
#[local] Open Scope Z_scope.

Section Image.
Context {H : FvbHeader} {D : Type} {B : FlashBus D} {LB : FlashLaws D}.

(** The volumes, the mode, and the instance of each protocol handle. *)
Context (G : ESAL_FWB_GLOBAL) (Virtual : bool) (Device : Z -> option nat).

(** Memory and checksums come from the boot services. *)
Context (Alloc : Z -> M D bool) (Crc : list Z -> M D (EFI_STATUS * Z)).

Record volumes_ok : Prop := {
  vols_ok : forall i v, G.(FvInstance) !! i = Some v -> volume_ok v Virtual /\ v.(NumOfBlocks) <= EFI_LBA_LIST_TERMINATOR;
  vols_apart : forall i j v w, i <> j -> G.(FvInstance) !! i = Some v -> G.(FvInstance) !! j = Some w ->
    volume_offset v Virtual + volume_size v <= volume_offset w Virtual \/ volume_offset w Virtual + volume_size w <= volume_offset v Virtual;
  device_volume : forall f i, Device f = Some i -> is_Some (G.(FvInstance) !! i);
  device_inj : forall f f' i, Device f = Some i -> Device f' = Some i -> f = f';
  alloc_quiet : forall n d, wp (Alloc n) (fun _ d' => lquiet flash fseen d d') d;
  crc_quiet : forall b d, b <> [] -> wp (Crc b) (fun '(st, _) d' => EFI_ERROR st = false /\ lquiet flash fseen d d') d
}.

(** A call of the protocol. *)
Definition call {A} (m : M (fvb D) A) : M D A := fun d =>
  match m {| Global := G; bus := d |} with Some (a, s) => Some (a, s.(bus)) | None => None end.

#[local] Instance fvb_services : FvbServices D := {|
  FvbRead f l o n := match Device f with
    | Some i => '(st, _, b) ← call (FvbProtocolRead (Z.of_nat i) l o (Some n) true Virtual); mret (st, b)
    | None => mret (EFI_INVALID_PARAMETER, []) end;
  FvbWrite f l o b := match Device f with
    | Some i => '(st, _) ← call (FvbProtocolWrite (Z.of_nat i) l o (Some (Z.of_nat (length b))) (Some b) Virtual); mret st
    | None => mret EFI_INVALID_PARAMETER end;
  FvbEraseBlocks f l n := match Device f with
    | Some i => call (FvbProtocolEraseBlocks (Z.of_nat i) [(l, n); (EFI_LBA_LIST_TERMINATOR, 0)] Virtual)
    | None => mret EFI_INVALID_PARAMETER end;
  AllocatePool := Alloc;
  CalculateCrc32 := Crc |}.

(** The blocks of the volumes in the flash. *)
Definition volume (f : Z) : option EFI_FW_VOL_INSTANCE := i ← Device f; G.(FvInstance) !! i.
Definition view (y : lin) : img := fun f l o =>
  match volume f with
  | Some v => if (0 <=? l) && (l <? v.(NumOfBlocks)) && (Z.of_nat o <? SPI_ERASE_SECTOR_SIZE)
              then y (volume_offset v Virtual + l * SPI_ERASE_SECTOR_SIZE + Z.of_nat o) else 255
  | None => 255
  end.
Definition view_image (d : D) : img := view (flash d).
Definition view_seen (d : D) (x : img) : Prop := exists y, fseen d y /\ same x (view y).

Lemma view_same y z : lsame y z -> same (view y) (view z).
Proof. intros Hs f l o. unfold view. destruct (volume f); [|done]. by destruct (_ && _); [rewrite Hs|]. Qed.

Lemma view_torn x y z : ltorn x y z -> torn (view x) (view y) (view z).
Proof. intros Ht f l o. unfold view. destruct (volume f); [|by left]. destruct (_ && _); [apply Ht|by left]. Qed.

Lemma view_quiet d d' : lquiet flash fseen d d' -> quiet view_image view_seen d d'.
Proof.
  intros [Hi Hs]. split; [by apply view_same|]. intros x (y & Hy & Hx). exists y. auto.
Qed.

Lemma view_updates y z d d' st :
  same (view y) z -> lupdates flash fseen y d d' st -> updates view_image view_seen z d d' st.
Proof.
  intros Hz (U1 & U2 & U3). split; [|split].
  - intros f l o. rewrite <- Hz. by apply view_torn.
  - intros Hst f l o. rewrite <- Hz. by apply view_same, U2.
  - intros x (y' & Hy & Hx). destruct (U3 y' Hy) as [Hy'|Hy']; [left; by exists y'|].
    right. intros f l o. rewrite Hx, <- Hz. by apply view_torn.
Qed.

Lemma view_nothing d d' z st : quiet view_image view_seen d d' -> EFI_ERROR st = true -> updates view_image view_seen z d d' st.
Proof.
  intros [Hq Hs] Hst. split; [|split; [by rewrite Hst|]].
  - intros f l o. left. apply Hq.
  - intros x Hx. left. auto.
Qed.

Lemma wp_fvb_call {A} (m : M (fvb D) A) (Q : A -> D -> Prop) d :
  wp m (fun a s => Q a s.(bus)) {| Global := G; bus := d |} -> wp (call m) Q d.
Proof. intros (a & s & Hm & HQ). exists a, s.(bus). split; [|done]. unfold call. by rewrite Hm. Qed.

Context (VO : volumes_ok).

(** Where the bytes of a volume are. *)
Lemma view_volume f i v : Device f = Some i -> G.(FvInstance) !! i = Some v -> volume f = Some v.
Proof. intros Hf Hi. unfold volume. by rewrite Hf. Qed.

Lemma volume_apart f f' v w :
  f <> f' -> volume f = Some v -> volume f' = Some w ->
  volume_offset v Virtual + volume_size v <= volume_offset w Virtual \/ volume_offset w Virtual + volume_size w <= volume_offset v Virtual.
Proof.
  unfold volume. intros Hff Hv Hw. destruct (Device f) as [i|] eqn:Hi; [|done]. destruct (Device f') as [j|] eqn:Hj; [|done].
  destruct (decide (i = j)) as [-> |]; [by destruct Hff; eapply (device_inj VO)|]. by eapply (vols_apart VO i j).
Qed.

(** A change of bytes inside of the blocks from [l] on, in the blocks. *)
Lemma view_change f v (P : Z -> bool) (g : Z -> Z -> Z) (Pi : Z -> nat -> bool) x :
  volume f = Some v ->
  (forall a, P a = true -> volume_offset v Virtual <= a < volume_offset v Virtual + volume_size v) ->
  (forall l o, 0 <= l < v.(NumOfBlocks) -> Z.of_nat o < SPI_ERASE_SECTOR_SIZE ->
     P (volume_offset v Virtual + l * SPI_ERASE_SECTOR_SIZE + Z.of_nat o) = Pi l o) ->
  forall f' l o, view (fun a => if P a then g a (x a) else x a) f' l o =
    if (f' =? f) && ((0 <=? l) && (l <? v.(NumOfBlocks)) && (Z.of_nat o <? SPI_ERASE_SECTOR_SIZE)) && Pi l o
    then g (volume_offset v Virtual + l * SPI_ERASE_SECTOR_SIZE + Z.of_nat o) (view x f' l o) else view x f' l o.
Proof.
  intros Hv HP HPi f' l o. unfold view. destruct (Z.eqb_spec f' f) as [->|Hne]; cbn [andb].
  - rewrite Hv. destruct (Z.leb_spec 0 l); [|done]. destruct (Z.ltb_spec l v.(NumOfBlocks)); [|done].
    destruct (Z.ltb_spec (Z.of_nat o) SPI_ERASE_SECTOR_SIZE); [|done]. cbn [andb]. by rewrite HPi by lia.
  - destruct (volume f') as [w|] eqn:Hw; [|done].
    destruct (Z.leb_spec 0 l); [|done]. destruct (Z.ltb_spec l w.(NumOfBlocks)); [|done].
    destruct (Z.ltb_spec (Z.of_nat o) SPI_ERASE_SECTOR_SIZE); [|done]. cbn [andb].
    destruct (P _) eqn:E; [|done]. exfalso. apply HP in E. destruct (volume_apart f' f w v Hne Hw Hv) as [Ha|Ha];
      unfold volume_size, SPI_ERASE_SECTOR_SIZE in *; lia.
Qed.

Lemma view_write f v l o b x :
  volume f = Some v -> 0 <= l < v.(NumOfBlocks) -> 0 <= o -> o + Z.of_nat (length b) <= SPI_ERASE_SECTOR_SIZE ->
  same (view (write_lin (volume_offset v Virtual + l * SPI_ERASE_SECTOR_SIZE + o) b x)) (write_img f l o b (view x)).
Proof.
  intros Hv Hl Ho Hb f' l' o'. unfold SPI_ERASE_SECTOR_SIZE in *. set (A := volume_offset v Virtual + l * 0x1000 + o).
  unfold write_lin. rewrite (view_change f v (fun a => (A <=? a) && (a <? A + Z.of_nat (length b)))
    (fun a xa => Z.land xa (b !!! Z.to_nat (a - A))) (fun l1 o1 => (l1 =? l) && (o <=? Z.of_nat o1) && (Z.of_nat o1 <? o + Z.of_nat (length b)))).
  - unfold write_img, SPI_ERASE_SECTOR_SIZE.
    destruct (Z.eqb_spec f' f); [|done]. cbn [andb]. destruct (Z.eqb_spec l' l); cbn [andb]; [|by rewrite andb_false_r].
    subst. rewrite (proj2 (Z.leb_le 0 l)), (proj2 (Z.ltb_lt l v.(NumOfBlocks))) by lia. cbn [andb].
    destruct (Z.leb_spec o (Z.of_nat o')); [|by rewrite andb_false_r].
    destruct (Z.ltb_spec (Z.of_nat o') (o + Z.of_nat (length b))); [|by rewrite andb_false_r].
    rewrite (proj2 (Z.ltb_lt _ 0x1000)) by lia. cbn [andb]. do 2 f_equal. subst A. lia.
  - done.
  - intros a Ha. apply andb_true_iff in Ha as [H1 H2]. apply Z.leb_le in H1. apply Z.ltb_lt in H2.
    unfold volume_size, SPI_ERASE_SECTOR_SIZE. subst A. lia.
  - intros l1 o1 Hl1 Ho1. subst A. unfold SPI_ERASE_SECTOR_SIZE in *.
    destruct (Z.eqb_spec l1 l) as [->|]; cbn [andb].
    + f_equal; [apply Bool.eq_iff_eq_true; rewrite !Z.leb_le; lia|apply Bool.eq_iff_eq_true; rewrite !Z.ltb_lt; lia].
    + apply andb_false_iff. rewrite Z.leb_gt, Z.ltb_ge. nia.
Qed.

Lemma view_erase f v l n x :
  volume f = Some v -> 0 <= l -> 0 <= n -> l + n <= v.(NumOfBlocks) ->
  same (view (erase_lin (volume_offset v Virtual + l * SPI_ERASE_SECTOR_SIZE) (n * SPI_ERASE_SECTOR_SIZE) x)) (erase_img f l n (view x)).
Proof.
  intros Hv Hl Hn Hln f' l' o'. unfold SPI_ERASE_SECTOR_SIZE in *. set (A := volume_offset v Virtual + l * 0x1000).
  unfold erase_lin. rewrite (view_change f v (fun a => (A <=? a) && (a <? A + n * 0x1000))
    (fun _ _ => 255) (fun l1 _ => (l <=? l1) && (l1 <? l + n))).
  - unfold erase_img, SPI_ERASE_SECTOR_SIZE. destruct (Z.eqb_spec f' f) as [->|]; [|done]. cbn [andb].
    destruct (Z.leb_spec l l'); [|by rewrite !andb_false_r]. destruct (Z.ltb_spec l' (l + n)); [|by rewrite !andb_false_r].
    rewrite (proj2 (Z.leb_le 0 l')), (proj2 (Z.ltb_lt l' v.(NumOfBlocks))) by lia. cbn [andb].
    destruct (Z.ltb_spec (Z.of_nat o') 0x1000); [done|]. cbn [andb]. unfold view. rewrite Hv.
    rewrite (proj2 (Z.ltb_ge (Z.of_nat o') _)) by done. by rewrite andb_false_r.
  - done.
  - intros a Ha. apply andb_true_iff in Ha as [H1 H2]. apply Z.leb_le in H1. apply Z.ltb_lt in H2.
    unfold volume_size, SPI_ERASE_SECTOR_SIZE. subst A. lia.
  - intros l1 o1 Hl1 Ho1. subst A. unfold SPI_ERASE_SECTOR_SIZE in *.
    f_equal; [apply Bool.eq_iff_eq_true; rewrite !Z.leb_le; lia|apply Bool.eq_iff_eq_true; rewrite !Z.ltb_lt; lia].
Qed.

(** ** The laws *)

Lemma device_ok f i : Device f = Some i -> exists v, G.(FvInstance) !! i = Some v /\ volume_ok v Virtual /\ volume f = Some v /\
  v.(NumOfBlocks) <= EFI_LBA_LIST_TERMINATOR.
Proof.
  intros Hf. destruct (device_volume VO f i Hf) as [v Hv]. destruct (vols_ok VO i v Hv) as [Hok Ht].
  exists v. repeat (split; [done|]). split; [by eapply view_volume|done].
Qed.

Lemma read_law f l o n d :
  0 <= o -> 0 <= n -> o + n <= SPI_ERASE_SECTOR_SIZE ->
  wp (FvbRead f l o n) (fun '(st, b) d' => quiet view_image view_seen d d' /\
    (EFI_ERROR st = false -> b = map (fun i => view_image d f l (Z.to_nat o + i)%nat) (seq 0 (Z.to_nat n)))) d.
Proof.
  intros Ho Hn Hs. cbn [FvbRead fvb_services]. destruct (Device f) as [i|] eqn:Hf.
  2:{ apply wp_ret. split; [by apply view_quiet; split|done]. }
  destruct (device_ok f i Hf) as (v & Hi & Hv & Hvol & _). apply wp_bind, wp_fvb_call.
  apply (FvbReadBlock_spec i v); [done..|]. intros st nb b s' [[_ Hq] Hb]. cbn beta iota. apply wp_ret.
  split; [by apply view_quiet|]. intros Hst. destruct (Hb Hst) as [Hl ->]. apply map_ext_in. intros k Hk.
  apply in_seq in Hk. unfold view_image, view. rewrite Hvol.
  rewrite (proj2 (Z.leb_le 0 l)), (proj2 (Z.ltb_lt l _)), (proj2 (Z.ltb_lt (Z.of_nat _) _)) by lia.
  cbn [andb bus]. f_equal. lia.
Qed.

Lemma write_law f l o b d :
  0 <= o -> o + Z.of_nat (length b) <= SPI_ERASE_SECTOR_SIZE ->
  wp (FvbWrite f l o b) (fun st d' => updates view_image view_seen (write_img f l o b (view_image d)) d d' st) d.
Proof.
  intros Ho Hs. cbn [FvbWrite fvb_services]. destruct (Device f) as [i|] eqn:Hf.
  2:{ apply wp_ret. apply view_nothing; [by apply view_quiet; split|done]. }
  destruct (device_ok f i Hf) as (v & Hi & Hv & Hvol & _). apply wp_bind, wp_fvb_call. unfold SPI_ERASE_SECTOR_SIZE in Hs.
  destruct (decide (b = [])) as [->|Hb].
  { unfold FvbProtocolWrite, FvbWriteBlock. apply wp_bind, (wp_GetFvbInstance i v); [done|]. cbn [length Z.of_nat Z.eqb].
    by destruct (negb _); apply wp_ret; cbn beta iota; apply wp_ret, view_nothing; try apply view_quiet. }
  assert (Hlb : (0 < length b)%nat) by (by destruct b; [|cbn; lia]).
  apply (FvbWriteBlock_spec i v); [done|done|done|unfold SPI_ERASE_SECTOR_SIZE; lia|lia|lia|lia|].
  intros st nb s' HR. cbn beta iota. apply wp_ret.
  destruct HR as [[[_ Hq] Hst]|(Hl & m & Hm & _ & Hmn & [_ HU])].
  - apply view_nothing; [by apply view_quiet|done].
  - rewrite Hmn in HU by done. rewrite Nat2Z.id, firstn_all in HU. eapply view_updates; [|exact HU]. by apply view_write.
Qed.

(** The first of several blocks. *)
Lemma erase_first A (k : nat) (x : lin) a :
  erase_lin A (1 * SPI_ERASE_SECTOR_SIZE) x a = x a \/
  erase_lin A (1 * SPI_ERASE_SECTOR_SIZE) x a = erase_lin A (Z.of_nat (S k) * SPI_ERASE_SECTOR_SIZE) x a.
Proof.
  unfold erase_lin, SPI_ERASE_SECTOR_SIZE. destruct (Z.leb_spec A a); [|by left].
  destruct (Z.ltb_spec a (A + 1 * 0x1000)); [|by left]. right. by rewrite (proj2 (Z.ltb_lt _ _)) by lia.
Qed.

Lemma erase_rest A (k : nat) (x y : lin) :
  lsame y (erase_lin A (1 * SPI_ERASE_SECTOR_SIZE) x) ->
  lsame (erase_lin (A + SPI_ERASE_SECTOR_SIZE) (Z.of_nat k * SPI_ERASE_SECTOR_SIZE) y) (erase_lin A (Z.of_nat (S k) * SPI_ERASE_SECTOR_SIZE) x).
Proof.
  intros Hy a. unfold erase_lin, SPI_ERASE_SECTOR_SIZE in *. rewrite Hy. unfold erase_lin. bools; try done.
Qed.

Lemma erase_lbas_spec i v (k : nat) l s (Q : EFI_STATUS -> fvb D -> Prop) :
  s.(Global).(FvInstance) !! i = Some v -> volume_ok v Virtual -> 0 <= l -> l + Z.of_nat k <= v.(NumOfBlocks) ->
  (forall st s', bus_updates (erase_lin (volume_offset v Virtual + l * SPI_ERASE_SECTOR_SIZE) (Z.of_nat k * SPI_ERASE_SECTOR_SIZE) (flash s.(bus))) s s' st -> Q st s') ->
  wp (erase_lbas k (Z.of_nat i) l Virtual) Q s.
Proof.
  intros Hi Hv. assert (Hsz : v.(NumOfBlocks) * SPI_ERASE_SECTOR_SIZE < 2 ^ 32) by apply (vol_write v Virtual Hv).
  revert l s Hi Q. induction k as [|k IH]; intros l s Hi Q Hl Hk HQ; cbn [erase_lbas].
  - apply wp_ret, HQ. split; [done|]. eapply (lupdates_quiet_l _ _ _ _ (flash s.(bus))); [split; [done|auto]| |].
    + intros a. unfold erase_lin. change (Z.of_nat 0 * SPI_ERASE_SECTOR_SIZE) with 0. rewrite Z.add_0_r.
      destruct (Z.leb_spec (volume_offset v Virtual + l * SPI_ERASE_SECTOR_SIZE) a); [|done].
      by rewrite (proj2 (Z.ltb_ge _ _)) by lia.
    + split; [intros a; by left|]. split; [done|]. intros x Hx. by left.
  - apply wp_bind, (FvbEraseBlock_spec i v); [done|done|]. intros st s1 HR. destruct (EFI_ERROR st) eqn:Hst.
    { apply wp_ret, HQ. destruct HR as [[[HG Hq] _]|(_ & _ & HG & HU)]; (split; [done|]); [by apply lupdates_nothing|].
      eapply lupdates_failed; [exact HU|done|]. apply erase_first. }
    destruct HR as [[_ Hst']|(_ & _ & HG & HU)]; [congruence|].
    assert (st = EFI_SUCCESS) as -> by (by apply negb_false_iff, bool_decide_eq_true_1 in Hst).
    unfold SPI_ERASE_SECTOR_SIZE in Hsz. rewrite wrap_small by lia.
    apply IH; [by rewrite HG|lia|lia|]. intros st s2 [HG2 HU2]. apply HQ. split; [congruence|].
    eapply lupdates_seq; [exact HU| |apply erase_first].
    eapply lupdates_quiet_l; [split; [done|auto]| |exact HU2].
    replace (volume_offset v Virtual + (l + 1) * SPI_ERASE_SECTOR_SIZE) with (volume_offset v Virtual + l * SPI_ERASE_SECTOR_SIZE + SPI_ERASE_SECTOR_SIZE) by lia.
    apply erase_rest. by apply HU.
Qed.

Lemma erase_term f v l n x :
  volume f = Some v -> v.(NumOfBlocks) <= l -> same (erase_img f l n (view x)) (view x).
Proof.
  intros Hv Hl f' l' o'. unfold erase_img. destruct (Z.eqb_spec f' f) as [->|]; [|done]. cbn [andb].
  destruct (Z.leb_spec l l'); [|done]. destruct (Z.ltb_spec l' (l + n)); [|done]. unfold view. rewrite Hv.
  rewrite (proj2 (Z.ltb_ge l' _)) by lia. by rewrite andb_false_r.
Qed.

Lemma erase_outside i v (k : nat) l s (Q : EFI_STATUS -> fvb D -> Prop) :
  s.(Global).(FvInstance) !! i = Some v -> volume_ok v Virtual -> (0 < k)%nat -> ~ 0 <= l < v.(NumOfBlocks) ->
  (forall st s', bus_quiet s s' -> EFI_ERROR st = true -> Q st s') -> wp (erase_lbas k (Z.of_nat i) l Virtual) Q s.
Proof.
  intros Hi Hv Hk Hl HQ. destruct k as [|k]; [lia|]. cbn [erase_lbas].
  apply wp_bind, (FvbEraseBlock_spec i v); [done|done|]. intros st s' [[Hq Hst]|(H1 & H2 & _)]; [|lia].
  rewrite Hst. by apply wp_ret, HQ.
Qed.

Lemma erase_law f l n d :
  0 <= n < 2 ^ 32 ->
  wp (FvbEraseBlocks f l n) (fun st d' => updates view_image view_seen (erase_img f l n (view_image d)) d d' st) d.
Proof.
  intros Hn. cbn [FvbEraseBlocks fvb_services]. destruct (Device f) as [i|] eqn:Hf.
  2:{ apply wp_ret. apply view_nothing; [by apply view_quiet; split|done]. }
  destruct (device_ok f i Hf) as (v & Hi & Hv & Hvol & Hterm). apply wp_fvb_call. unfold FvbProtocolEraseBlocks.
  assert (Hsz : v.(NumOfBlocks) * SPI_ERASE_SECTOR_SIZE < 2 ^ 32) by apply (vol_write v Virtual Hv).
  unfold SPI_ERASE_SECTOR_SIZE in Hsz.
  apply wp_bind, (wp_GetFvbInstance i v); [done|]. cbn [va_list]. rewrite Z.eqb_refl.
  destruct (Z.eqb_spec l EFI_LBA_LIST_TERMINATOR) as [->|Hl].
  { cbn [forallb erase_list]. apply wp_ret. cbn [bus]. split; [intros f' l' o'; by left|]. split.
    - intros _ f' l' o'. symmetry. by apply (erase_term f v).
    - intros x Hx. by left. }
  cbn [forallb]. rewrite andb_true_r, (wrap_small 32 n) by lia.
  destruct (negb (n =? 0) && (u64 (l + n) <=? v.(NumOfBlocks))) eqn:E.
  2:{ apply wp_ret, view_nothing; [by apply view_quiet; split|done]. }
  apply andb_true_iff in E as [E1 E2]. apply negb_true_iff, Z.eqb_neq in E1. apply Z.leb_le in E2.
  cbn [erase_list]. apply wp_bind. destruct (decide (0 <= l < v.(NumOfBlocks))) as [Hlr|Hlr].
  - rewrite wrap_small in E2 by lia. apply (erase_lbas_spec i v); [done|done|lia|lia|]. intros st s' [_ HU].
    rewrite Z2Nat.id in HU by lia.
    assert (HR : updates view_image view_seen (erase_img f l n (view_image d)) d s'.(bus) st).
    { eapply view_updates; [|exact HU]. apply (view_erase f v); [done|lia..]. }
    destruct (EFI_ERROR st) eqn:Hst; apply wp_ret; [done|].
    by assert (st = EFI_SUCCESS) as -> by (by apply negb_false_iff, bool_decide_eq_true_1 in Hst).
  - apply (erase_outside i v); [done|done|lia|done|]. intros st s' [_ Hq] Hst. rewrite Hst. apply wp_ret.
    by apply view_nothing; [apply view_quiet|].
Qed.

Lemma view_byte y f l o : (forall a, in_width 8 (y a)) -> in_width 8 (view y f l o).
Proof. intros Hy. unfold view. destruct (volume f); [|done]. by destruct (_ && _). Qed.

(** The interface of the fault-tolerant write driver. *)
#[local] Instance fvb_laws : FvbLaws D.
Proof.
  refine {| BS := Z.to_nat SPI_ERASE_SECTOR_SIZE; image := view_image; seen := view_seen |}.
  - intros d. exists (flash d). split; [apply fseen_now|done].
  - intros d f l o. apply view_byte, flash_byte.
  - intros n d. eapply wp_mono; [apply (alloc_quiet VO)|]. intros ok d' Hq. by apply view_quiet.
  - intros b d Hb. eapply wp_mono; [by apply (crc_quiet VO)|]. intros [st c] d' [Hst Hq]. split; [done|by apply view_quiet].
  - intros f l o n d Ho Hn Hs. apply read_law; [done|done|]. by rewrite Z2Nat.id in Hs.
  - intros f l o b d Ho Hs. apply write_law; [done|]. by rewrite Z2Nat.id in Hs.
  - intros f l n d Hn. by apply erase_law.
Defined.

(** C12: The protocol implements what its clients rely on. On the volumes of a flash, a successful read returns the
    bytes of the block; a write only clears bits of the bytes it names, and an erase sets whole blocks, both of
    the volume that is addressed and of no other; an error, or a loss of power, leaves each byte old or
    new; what is outside a volume is refused without a change. *)
Theorem FvbProtocol_refines_flash :
  (forall f l o n d, 0 <= o -> 0 <= n -> o + n <= SPI_ERASE_SECTOR_SIZE ->
     wp (FvbRead f l o n) (fun '(st, b) d' => quiet view_image view_seen d d' /\
       (EFI_ERROR st = false -> b = map (fun i => view_image d f l (Z.to_nat o + i)%nat) (seq 0 (Z.to_nat n)))) d) /\
  (forall f l o b d, 0 <= o -> o + Z.of_nat (length b) <= SPI_ERASE_SECTOR_SIZE ->
     wp (FvbWrite f l o b) (fun st d' => updates view_image view_seen (write_img f l o b (view_image d)) d d' st) d) /\
  (forall f l n d, 0 <= n < 2 ^ 32 ->
     wp (FvbEraseBlocks f l n) (fun st d' => updates view_image view_seen (erase_img f l n (view_image d)) d d' st) d).
Proof. split; [exact read_law|]. split; [exact write_law|exact erase_law]. Qed.
End Image.
