(* ===== verification/FvbTheorems.v ===== *)
(** * The flash block services: theorems

    Writes stay inside the block they name, the attributes of a locked volume are final, and the recovery
    of the fault-tolerant write driver over the SPI flash. The witnesses run on a small flash. *)

From S2P Require Import Prelude FtwDefs FtwSpec FtwFlash FtwRecover FtwTheorems FtwWitness FvbDefs FvbSpec FvbRules FvbImage.
From stdpp Require Import list.
#[local] Open Scope Z_scope.

(** ** Writes *)

Section Writes.
Context {H : FvbHeader} {D : Type} {B : FlashBus D} {LB : FlashLaws D}.

(** C39: Whatever a client asks to be written - any block, any number of bytes from any offset but the end of a
    block, as long as offset and number do not overflow 32 bits - no byte outside the block it names changes,
    neither when the power fails: a write that goes past the end of the block is cut. (At the end of the block it
    is cut to nothing: [FvbProtocolWrite_at_end] of SpiStack.v shows what the controller does then.) *)
Theorem FvbProtocolWrite_confined i v Virtual l o n (b : list Z) (s : fvb D) :
  s.(Global).(FvInstance) !! i = Some v -> volume_ok v Virtual -> 0 <= o -> o <> SPI_ERASE_SECTOR_SIZE -> 0 <= n -> o + n < 2 ^ 32 -> (Z.to_nat n <= length b)%nat ->
  wp (FvbProtocolWrite (Z.of_nat i) l o (Some n) (Some b) Virtual) (fun _ s' =>
    s'.(Global) = s.(Global) /\
    forall y, y = flash s'.(bus) \/ fseen s'.(bus) y -> fseen s.(bus) y \/ forall a,
      ~ (0 <= l < v.(NumOfBlocks) /\ 0 <= a - (volume_offset v Virtual + l * SPI_ERASE_SECTOR_SIZE) < SPI_ERASE_SECTOR_SIZE) ->
      y a = flash s.(bus) a) s.
Proof.
  intros Hi Hv Ho Hoe Hn Hon Hb. unfold FvbProtocolWrite. apply (FvbWriteBlock_spec i v); [done..|].
  intros st nb s' HR. assert (Hnow : fseen s'.(bus) (flash s'.(bus))) by apply fseen_now.
  destruct HR as [[[HG [Hq Hs]] _]|(Hl & m & Hm & Hom & _ & HG & U1 & _ & U3)]; (split; [done|]); intros y Hy.
  - destruct Hy as [->|Hy]; left; auto.
  - assert (Ht : fseen s.(bus) y \/ ltorn (flash s.(bus)) (write_lin (volume_offset v Virtual + l * SPI_ERASE_SECTOR_SIZE + o)
        (take (Z.to_nat m) b) (flash s.(bus))) y) by (destruct Hy as [->|Hy]; [by right|by apply U3]).
    destruct Ht as [|Ht]; [by left|]. right. intros a Ha. destruct (Ht a) as [->|E]; [done|]. rewrite E. unfold write_lin.
    rewrite length_take_le by lia. rewrite Z2Nat.id by lia.
    destruct (Z.leb_spec (volume_offset v Virtual + l * SPI_ERASE_SECTOR_SIZE + o) a); [|done].
    destruct (Z.ltb_spec a (volume_offset v Virtual + l * SPI_ERASE_SECTOR_SIZE + o + m)); [|done].
    exfalso. apply Ha. lia.
Qed.
End Writes.

(** ** Attributes *)

(** The masks of the PI specification: the status bits and the capabilities are different, and the lock is a status. *)
Class FvbHeaderOk {H : FvbHeader} : Prop := {
  STATUS_width : in_width 32 EFI_FVB_STATUS;
  LOCK_is_status : Z.land EFI_FVB_LOCK_STATUS EFI_FVB_STATUS = EFI_FVB_LOCK_STATUS;
  CAPABILITIES_width : in_width 32 EFI_FVB_CAPABILITIES;
  CAPABILITIES_apart : Z.land EFI_FVB_CAPABILITIES EFI_FVB_STATUS = 0
}.

Section Attributes.
Context {H : FvbHeader} {HO : FvbHeaderOk} {D : Type} {B : FlashBus D}.

Definition status (a : Z) : Z := Z.land a EFI_FVB_STATUS.
Definition capabilities (a : Z) : Z := Z.land a EFI_FVB_CAPABILITIES.
Definition locked (a : Z) : Prop := Z.land a EFI_FVB_LOCK_STATUS <> 0.

Lemma land_bits_0 a b : Z.land a b = 0 -> forall j, Z.testbit a j && Z.testbit b j = false.
Proof. intros Hz j. by rewrite <- Z.land_spec, Hz, Z.testbit_0_l. Qed.

(** The attributes that the last lines of [FvbSetVolumeAttributes] store. *)
Definition stored (old new : Z) : Z := Z.lor (Z.land old (Z.land 0xFFFFFFFF (Z.lnot EFI_FVB_STATUS))) (Z.land new EFI_FVB_STATUS).

Lemma stored_status old new : status (stored old new) = status new.
Proof.
  unfold status, stored. change 0xFFFFFFFF with (Z.ones 32). bits j Hj.
  destruct (Z.testbit EFI_FVB_STATUS j); rewrite ?andb_false_r, ?andb_true_r; by rewrite ?orb_false_l.
Qed.

Lemma stored_capabilities old new : capabilities (stored old new) = capabilities old.
Proof.
  unfold capabilities, stored. change 0xFFFFFFFF with (Z.ones 32). bits j Hj.
  pose proof (land_bits_0 _ _ CAPABILITIES_apart j) as Hc.
  destruct (Z.testbit EFI_FVB_CAPABILITIES j) eqn:E; rewrite ?andb_false_r, ?andb_true_r; [|done].
  cbn [andb] in Hc. rewrite Hc. rewrite andb_false_r, orb_false_r. cbn [negb]. rewrite andb_true_r.
  destruct (Z.ltb_spec j 32); [|by rewrite (in_width_bit 32 _ j CAPABILITIES_width) in E by lia].
  by rewrite (proj2 (Z.leb_le 0 j)) by lia; rewrite andb_true_r.
Qed.

Lemma status_locked a a' : status a = status a' -> locked a -> locked a'.
Proof.
  unfold status, locked. intros Hs Hl Hz. apply Hl. rewrite <- LOCK_is_status in *.
  rewrite (Z.land_comm EFI_FVB_LOCK_STATUS), !Z.land_assoc in *. by rewrite Hs.
Qed.

(** The attributes of the volumes go to those of [l'] from those of [l]: the capabilities stay, and the status does
    when it was locked. *)
Definition attributes_step (v v' : EFI_FW_VOL_INSTANCE) : Prop :=
  v'.(NumOfBlocks) = v.(NumOfBlocks) /\ v'.(BlockMap) = v.(BlockMap) /\ v'.(WriteEnabled) = v.(WriteEnabled) /\
  capabilities v'.(HeaderAttributes) = capabilities v.(HeaderAttributes) /\
  (locked v.(HeaderAttributes) -> status v'.(HeaderAttributes) = status v.(HeaderAttributes)).

Lemma attributes_step_refl v : attributes_step v v.
Proof. by repeat split. Qed.

Lemma attributes_step_trans v v' v'' : attributes_step v v' -> attributes_step v' v'' -> attributes_step v v''.
Proof.
  intros (H1 & H2 & H3 & H4 & H5) (K1 & K2 & K3 & K4 & K5). repeat (split; [congruence|]).
  intros Hl. rewrite K5; [by apply H5|]. eapply status_locked; [|exact Hl]. symmetry. by apply H5.
Qed.

Lemma FvbSetVolumeAttributes_step i a (s : fvb D) :
  0 <= i < NumFv s.(Global) ->
  wp (FvbSetVolumeAttributes i a) (fun _ s' => s'.(bus) = s.(bus) /\
    Forall2 attributes_step s.(Global).(FvInstance) s'.(Global).(FvInstance)) s.
Proof.
  intros Hi. unfold NumFv in Hi. destruct (lookup_lt_is_Some_2 s.(Global).(FvInstance) (Z.to_nat i)) as [v Hv]; [lia|].
  assert (Hrefl : s.(bus) = s.(bus) /\ Forall2 attributes_step s.(Global).(FvInstance) s.(Global).(FvInstance)).
  { split; [done|]. by apply Forall_Forall2_diag, Forall_true, attributes_step_refl. }
  unfold FvbSetVolumeAttributes. apply wp_bind. unfold GetFvbInstance. apply wp_bind, wp_get. unfold NumFv.
  rewrite (proj2 (Z.leb_gt _ _)) by lia. apply (wp_lift _ v); [done|]. cbv zeta.
  destruct (negb (Z.land v.(HeaderAttributes) EFI_FVB_LOCK_STATUS =? 0) &&
    negb (Z.lxor (Z.land v.(HeaderAttributes) EFI_FVB_STATUS) (Z.land a EFI_FVB_STATUS) =? 0)) eqn:E; [by apply wp_ret|].
  do 5 (match goal with |- wp (if ?c then _ else _) _ _ => destruct c end; [by apply wp_ret|]).
  apply wp_bind, wp_modify, wp_ret. cbn [bus Global FvInstance]. split; [done|].
  rewrite <- (list_insert_id s.(Global).(FvInstance) (Z.to_nat i) v Hv) at 1. apply Forall2_insert; [apply Hrefl|].
  repeat (split; [done|]). split; [apply stored_capabilities|]. intros Hl.
  change (status (stored v.(HeaderAttributes) a) = status v.(HeaderAttributes)). rewrite stored_status.
  apply andb_false_iff in E as [E|E]; apply negb_false_iff, Z.eqb_eq in E; [done|]. symmetry. by apply Z.lxor_eq.
Qed.

(** Attributes over any sequence of requests to set them: capabilities never change, and once a volume is locked,
    its status - read and write enabled, the lock itself - stays for good. *)
Theorem FvbSetVolumeAttributes_lock_final (calls : list (Z * Z)) (s : fvb D) :
  Forall (fun c => 0 <= c.1 < NumFv s.(Global)) calls ->
  wp (for_each calls (fun c => _ ← FvbSetVolumeAttributes c.1 c.2; mret tt)) (fun _ s' =>
    Forall2 attributes_step s.(Global).(FvInstance) s'.(Global).(FvInstance)) s.
Proof.
  intros Hc. apply (wp_for_each (fun _ s' => Forall2 attributes_step s.(Global).(FvInstance) s'.(Global).(FvInstance))); [| |done].
  - by apply Forall_Forall2_diag, Forall_true, attributes_step_refl.
  - intros pre c post s1 Hcalls H1. apply wp_bind.
    eapply wp_mono; [apply FvbSetVolumeAttributes_step|].
    + unfold NumFv in *. rewrite <- (Forall2_length _ _ _ H1). rewrite Hcalls in Hc. apply Forall_app in Hc as [_ Hc].
      by apply Forall_cons in Hc as [Hc _].
    + intros r s2 [_ H2]. apply wp_ret. eapply Forall2_trans; [|exact H1|exact H2]. apply attributes_step_trans.
Qed.
End Attributes.

(** ** The fault-tolerant write driver over the SPI flash *)

Section Spi.
Context {FL : FtwLayout} {LL : FtwLayoutLaws}.
Context {H : FvbHeader} {D : Type} {B : FlashBus D} {LB : FlashLaws D}.
Context (G : ESAL_FWB_GLOBAL) (Virtual : bool) (Device : Z -> option nat).
Context (Alloc : Z -> M D bool) (Crc : list Z -> M D (EFI_STATUS * Z)) (VO : volumes_ok G Virtual Device Alloc Crc).
#[local] Instance spi_services : FvbServices D := fvb_services G Virtual Device Alloc Crc.
#[local] Instance spi_laws : FvbLaws D := fvb_laws G Virtual Device Alloc Crc VO.

(** The two drivers together: while the fault-tolerant write driver reclaims its work space in volumes that
    [FwBlockService.c] serves, any contents of the flash chip that a loss of power can leave have, in
    these volumes, the old work space or the new one. *)
Theorem FtwReclaimWorkSpace_on_spi (s : ftw D) PreserveRecord old new :
  reclaimable s PreserveRecord old new ->
  wp (FtwReclaimWorkSpace PreserveRecord) (fun _ s' =>
    forall y, fseen s'.(FtwDefs.flash) y ->
      (exists z, fseen s.(FtwDefs.flash) z /\ same (view G Virtual Device y) (view G Virtual Device z)) \/
      recover s.(dev) s.(mWorkingBlockHeader) (view G Virtual Device y) = Some old \/
      recover s.(dev) s.(mWorkingBlockHeader) (view G Virtual Device y) = Some new) s.
Proof.
  intros Hr. eapply wp_mono; [by apply reclaim_run|]. intros st s' [Ht _] y Hy.
  destruct (Ht (view G Virtual Device y)) as [Hs|Hs]; [by exists y|left; exact Hs|right; exact Hs].
Qed.
End Spi.
