(* ===== verification/FvbWitness.v ===== *)
(** * The flash block services: runs on a flash chip

    A flash of eight megabytes below four gigabytes, with a volume of four blocks; the witnesses of the
    theorems on the services, and examples of what the checks of the code let through. *)

From S2P Require Import Prelude FtwDefs FtwSpec FtwFlash FtwRecover FtwTheorems FtwWitness FvbDefs FvbSpec FvbRules FvbImage FvbTheorems.
From stdpp Require Import list.
#[local] Open Scope Z_scope.

#[local] Instance pi_header : FvbHeader := {|
  EFI_FVB_CAPABILITIES := 0x5B; EFI_FVB_STATUS := 0xA4;
  EFI_FVB_READ_DISABLED_CAP := 0x01; EFI_FVB_READ_ENABLED_CAP := 0x02; EFI_FVB_READ_STATUS := 0x04;
  EFI_FVB_WRITE_DISABLED_CAP := 0x08; EFI_FVB_WRITE_ENABLED_CAP := 0x10; EFI_FVB_WRITE_STATUS := 0x20;
  EFI_FVB_LOCK_CAP := 0x40; EFI_FVB_LOCK_STATUS := 0x80;
  EFI_LBA_LIST_TERMINATOR := 2 ^ 64 - 1; EFI_FVH_SIGNATURE := 0x4856465F; EFI_FVH_REVISION := 2;
  PcdFlashAreaBaseAddress := 0xFF800000 |}.

#[local] Instance pi_header_ok : FvbHeaderOk.
Proof. split; by_compute. Qed.

(** ** The chip *)

Record spi := { spi_cells : lin; spi_log : list (lin * lin) }.
Definition spi_flash (d : spi) : lin := fun a => u8 (d.(spi_cells) a).
Definition spi_seen (d : spi) (x : lin) : Prop := lsame x (spi_flash d) \/ Exists (fun e => ltorn e.1 e.2 x) d.(spi_log).
Definition spi_set (y : lin) (d : spi) : spi := {| spi_cells := y; spi_log := (spi_flash d, y) :: d.(spi_log) |}.

#[local] Instance spi_bus : FlashBus spi := {|
  MmioReadBuffer8 A n := fun d => Some (map (fun i => spi_flash d (A - PcdFlashAreaBaseAddress + Z.of_nat i)) (seq 0 (Z.to_nat n)), d);
  SpiExecute smm op prefix DataCycle Atomic ShiftOut A b region := fun d =>
    if op =? SPI_OPCODE_WRITE_INDEX then Some (EFI_SUCCESS, spi_set (write_lin A b (spi_flash d)) d)
    else if op =? SPI_OPCODE_ERASE_INDEX then Some (EFI_SUCCESS, spi_set (erase_lin A SPI_ERASE_SECTOR_SIZE (spi_flash d)) d)
    else Some (EFI_UNSUPPORTED, d);
  AsmWbinvd := mret tt |}.

Lemma spi_updates d y : (forall a, in_width 8 (y a)) -> lupdates spi_flash spi_seen y d (spi_set y d) EFI_SUCCESS.
Proof.
  intros Hy. assert (Hs : lsame (spi_flash (spi_set y d)) y).
  { intros a. unfold spi_flash, spi_set. cbn [spi_cells]. apply wrap_small, Hy. }
  split; [intros a; right; apply Hs|]. split; [done|]. intros x [Hx|Hx].
  - right. intros a. right. by rewrite Hx, Hs.
  - apply Exists_cons in Hx as [Hx|Hx]; [by right|left; by right].
Qed.

#[local] Instance spi_chip_laws : FlashLaws spi.
Proof.
  refine {| flash := spi_flash; fseen := spi_seen; flash_size := 0x800000;
            mapped := fun A => if (0xFF800000 <=? A) && (A <? 0x100000000) then Some (A - 0xFF800000) else None |}.
  - intros d. by left.
  - intros d a. apply wrap_bounds. lia.
  - intros A n o d Hn Hm. eexists _, _. split; [reflexivity|]. split; [split; [done|auto]|].
    apply map_ext_in. intros i Hi. apply in_seq in Hi.
    assert (Hk : 0 <= Z.of_nat i < n) by lia. specialize (Hm _ Hk). cbn beta in Hm. destruct (_ && _); [|discriminate Hm].
    f_equal. injection Hm. intros Ho. cbn [PcdFlashAreaBaseAddress pi_header]. lia.
  - intros smm A b d _ _ _. eexists _, _. split; [reflexivity|]. apply spi_updates. intros a. unfold write_lin.
    destruct (_ && _); [apply land_in_width; [lia|]|]; apply wrap_bounds; lia.
  - intros smm A d _ _ _. eexists _, _. split; [reflexivity|]. apply spi_updates. intros a. unfold erase_lin.
    destruct (_ && _); [done|apply wrap_bounds; lia].
  - intros d. apply wp_ret. split; [done | auto].
Defined.

(** ** A volume *)

Definition nv_volume : EFI_FW_VOL_INSTANCE :=
  {| FvBase := fun _ => 0xFF900000; FvWriteBase := fun _ => 0xFF900000; NumOfBlocks := 4; WriteEnabled := true;
     HeaderAttributes := 0x7F; BlockMap := [(4, 0x1000); (0, 0)] |}.
Definition one_volume : ESAL_FWB_GLOBAL := {| FvInstance := [nv_volume]; FvbScratchSpace := replicate 16 0; mInSmmMode := false |}.
Definition handle (f : Z) : option nat := if f =? 1 then Some 0%nat else None.
Definition pool (n : Z) : M spi bool := mret true.
Definition crc (b : list Z) : M spi (EFI_STATUS * Z) := mret (EFI_SUCCESS, 305419896).

Lemma nv_volume_ok : volume_ok nv_volume false.
Proof.
  split; unfold volume_offset, volume_size, SPI_ERASE_SECTOR_SIZE; cbn [FvBase FvWriteBase NumOfBlocks nv_volume PcdFlashAreaBaseAddress pi_header].
  - exists [(4, 0x1000)]. split; [done|]. split; [|done]. apply Forall_cons. split; [by split|by apply Forall_nil].
  - split; [done|reflexivity].
  - done.
  - split; [lia|]. split; [done|lia].
  - split; [lia|done].
  - intros k Hk. cbn [mapped spi_chip_laws]. rewrite (proj2 (Z.leb_le _ _)), (proj2 (Z.ltb_lt _ _)) by lia. cbn [andb]. f_equal. lia.
Qed.

Lemma one_volume_ok : volumes_ok one_volume false handle pool crc.
Proof.
  split.
  - intros [|i] v Hi; [|done]. injection Hi as <-. split; [apply nv_volume_ok|cbn; lia].
  - intros [|i] [|j] v w Hij Hi Hj; done.
  - intros f i Hf. unfold handle in Hf. destruct (f =? 1); [|done]. injection Hf as <-. cbn. eauto.
  - intros f f' i Hf Hf'. unfold handle in *. destruct (Z.eqb_spec f 1), (Z.eqb_spec f' 1); congruence.
  - intros n d. apply wp_ret. split; [done | auto].
  - intros b d _. apply wp_ret. split; [done|]. split; [done | auto].
Qed.

(** The work space is at the beginning of the volume, the spare block next to it. *)
Definition spi_with (working spare : list Z) : spi :=
  {| spi_cells := fun a => if a <? 0x100000 then 255 else if a <? 0x101000 then bytes_at working (Z.to_nat (a - 0x100000))
       else bytes_at spare (Z.to_nat (a - 0x101000)); spi_log := [] |}.
Definition spi_fvb (working spare : list Z) : fvb spi := {| Global := one_volume; bus := spi_with working spare |}.

Lemma FvbProtocol_refines_flash_witness :
  volumes_ok one_volume false handle pool crc /\
  let FV := fvb_services one_volume false handle pool crc in
  wp (FvbWrite 1 2 7 [1; 2; 3]) (fun st d' =>
    updates (view_image one_volume false handle) (view_seen one_volume false handle)
      (write_img 1 2 7 [1; 2; 3] (view_image one_volume false handle (spi_with [] []))) (spi_with [] []) d' st) (spi_with [] []).
Proof.
  split; [exact one_volume_ok|].
  apply (FvbProtocol_refines_flash one_volume false handle pool crc one_volume_ok); [lia|vm_compute; discriminate].
Defined.

Lemma FvbProtocolWrite_confined_witness :
  wp (FvbProtocolWrite 0 1 0xFFF (Some 3) (Some [1; 2; 3]) false) (fun _ s' =>
    s'.(Global) = one_volume /\
    forall y, y = flash s'.(bus) \/ fseen s'.(bus) y -> fseen (spi_with [] []) y \/ forall a,
      ~ (0 <= 1 < 4 /\ 0 <= a - (volume_offset nv_volume false + 1 * 0x1000) < 0x1000) -> y a = flash (spi_with [] []) a) (spi_fvb [] []).
Proof.
  apply (FvbProtocolWrite_confined 0 nv_volume false 1 0xFFF 3 [1; 2; 3] (spi_fvb [] [])); [reflexivity|exact nv_volume_ok|lia|discriminate|lia|lia|cbn; lia].
Defined.

Lemma FvbSetVolumeAttributes_lock_final_witness :
  Forall (fun c => 0 <= c.1 < NumFv one_volume) [(0, 0xA4); (0, 0x24); (0, 0)] /\
  wp (for_each [(0, 0xA4); (0, 0x24); (0, 0)] (fun c => _ ← FvbSetVolumeAttributes c.1 c.2; mret tt)) (fun _ s' =>
    Forall2 attributes_step one_volume.(FvInstance) s'.(Global).(FvInstance)) (spi_fvb [] []).
Proof.
  split; [by_compute|].
  apply (FvbSetVolumeAttributes_lock_final [(0, 0xA4); (0, 0x24); (0, 0)] (spi_fvb [] [])). by_compute.
Defined.

(** ** The fault-tolerant write driver on this chip *)

Definition spi_device (l : list Z) : FTW_DEVICE :=
  {| FtwFvBlock := 1; FtwBackupFvb := 1; FtwWorkSpaceLba := 0; FtwWorkBlockLba := 0; FtwSpareLba := 1;
     NumberOfSpareBlock := 1; BlockSize := 0x1000; SpareAreaLength := 0x1000; FtwWorkSpaceBase := 0; FtwWorkSpaceSize := 64;
     FtwWorkSpace := l; FtwLastWriteHeader := 0; FtwLastWriteRecord := 0 |}.
Definition spi_driver : ftw spi := {| dev := spi_device full_space; FtwDefs.flash := spi_with full_space []; mWorkingBlockHeader := header |}.

Section Run.
#[local] Existing Instances small_layout small_layout_laws.
#[local] Instance run_services : FvbServices spi := fvb_services one_volume false handle pool crc.
#[local] Instance run_laws : FvbLaws spi := fvb_laws one_volume false handle pool crc one_volume_ok.

Lemma spi_erase_succeeds : erase_succeeds spi 1 1 1.
Proof. intros d. eexists _, _. split; [reflexivity|done]. Qed.

Lemma spi_driver_reclaimable : reclaimable (FL := small_layout) spi_driver true full_space kept_space.
Proof.
  split.
  - split; [reflexivity|split; [done|]; by_compute|done|done|by_compute|done|right; left; cbn; lia].
  - apply spi_erase_succeeds.
  - exact header_is_ok.
  - reflexivity.
  - vm_compute. reflexivity.
  - split; [reflexivity|]. split; [by_compute|reflexivity].
  - vm_compute. reflexivity.
  - vm_compute. eauto.
Qed.

Lemma FtwReclaimWorkSpace_on_spi_witness :
  reclaimable (FL := small_layout) spi_driver true full_space kept_space /\
  wp (FtwReclaimWorkSpace (FL := small_layout) true) (fun _ s' =>
    forall y, fseen s'.(FtwDefs.flash) y ->
      (exists z, fseen (spi_with full_space []) z /\ same (view one_volume false handle y) (view one_volume false handle z)) \/
      recover (spi_device full_space) header (view one_volume false handle y) = Some full_space \/
      recover (spi_device full_space) header (view one_volume false handle y) = Some kept_space) spi_driver.
Proof.
  split; [exact spi_driver_reclaimable|].
  exact (FtwReclaimWorkSpace_on_spi (FL := small_layout) one_volume false handle pool crc one_volume_ok spi_driver true full_space kept_space spi_driver_reclaimable).
Defined.
End Run.

(** ** What the checks let through *)

(** A bus that logs the address and the length of the reads. *)
#[local] Instance log_bus : FlashBus (list (Z * Z)) := {|
  MmioReadBuffer8 A n := fun d => Some ([], (A, n) :: d);
  SpiExecute _ _ _ _ _ _ _ _ _ := mret EFI_SUCCESS;
  AsmWbinvd := mret tt |}.

(** A request for [2^32 - 1] bytes at offset 1 is granted: the end of the request, 0 in 32 bits, is not beyond the
    block, and the read runs through the whole address space. *)
Example FvbReadBlock_sum_wraps :
  FvbReadBlock 0 1 1 (Some (2 ^ 32 - 1)) true false {| Global := one_volume; bus := [] : list (Z * Z) |} =
  Some (EFI_SUCCESS, Some (2 ^ 32 - 1), [], {| Global := one_volume; bus := [(0xFF901001, 2 ^ 32 - 1)] |}).
Proof. vm_compute. reflexivity. Qed.

(** A request one byte too long is shortened and reported. *)
Example FvbReadBlock_shortened :
  FvbReadBlock 0 1 1 (Some 0x1000) true false {| Global := one_volume; bus := [] : list (Z * Z) |} =
  Some (EFI_BAD_BUFFER_SIZE, Some 0xFFF, [], {| Global := one_volume; bus := [(0xFF901001, 0xFFF)] |}).
Proof. vm_compute. reflexivity. Qed.

(** The bytes from 8 to 16 of block 2 are erased, where each byte was its own offset: the byte after them becomes 0, the
    first byte of the block, and not what it was, 17. The write of the tail is too long, and that is the status. *)
Definition counting_chip : spi := {| spi_cells := fun a => u8 a; spi_log := [] |}.
Example FvbEraseCustomBlockRange_restores_wrong :
  match FvbEraseCustomBlockRange 0 2 8 2 16 false {| Global := one_volume; bus := counting_chip |} with
  | Some (Status, s) => (Status, map (fun i => spi_flash s.(bus) (0x102000 + i)) [7; 8; 16; 17; 18])
  | None => (EFI_ABORTED, [])
  end = (EFI_BAD_BUFFER_SIZE, [7; 255; 255; 0; 1]).
Proof. vm_compute. reflexivity. Qed.
