(* ===== verification/MpDefs.v ===== *)
(** * The rendezvous of processors in SMM: definitions

    Models [IA32FamilyCpuBasePkg/PiSmmCpuDxeSmm/MpService.c] with the parts of [CpuService.c], [SmmFeatures.c] and
    [SmmCpuPlatformHookLib.c] it calls: semaphores, the handlers of the processor that leads (BSP) and of the others
    (AP), [SmiRendezvous], and the services that SMI handlers use. Any number of processors run this code at once. *)

From S2P Require Import Prelude.
From stdpp Require Import functions.
#[local] Open Scope Z_scope.

(** ** The shared state *)

(** The variables that processors share: the fields of [SMM_DISPATCHER_MP_SYNC_DATA] and of its
    [SMM_CPU_DATA_BLOCK]s, of [SMM_CPU_PRIVATE_DATA], and the globals. *)
Inductive loc :=
| Busy (i : Z) | Procedure (i : Z) | Parameter_ (i : Z) | Run (i : Z) | Present (i : Z)
| Counter | BspIndex | InsideSmm | AllCpusInSync | SyncModeToBeSet | EffectiveSyncMode | SwitchBsp | CandidateBsp (i : Z)
| ProcessorId (i : Z) | Operation (i : Z) | CurrentlyExecutingCpu
| mNumberOfCpus | mExceptionHandlerReady | mIdtTableLock.

#[export] Instance loc_eq_dec : EqDecision loc.
Proof. solve_decision. Defined.

Definition FALSE : Z := 0.
Definition TRUE : Z := 1.
Definition MINUS1 : Z := 2 ^ 32 - 1.

(** [SMM_CPU_OPERATION] and [SMM_CPU_SYNC_MODE]; the states of a spin lock. *)
Definition SmmCpuNone : Z := 0.
Definition SmmCpuAdd : Z := 1.
Definition SmmCpuRemove : Z := 2.
Definition SmmCpuSwitchBsp : Z := 3.
Definition SmmCpuSyncModeTradition : Z := 0.
Definition SmmCpuSyncModeMax : Z := 2.
Definition RELEASED : Z := 0.
Definition ACQUIRED : Z := 1.
Definition INVALID_APIC_ID : Z := 2 ^ 64 - 1.
Definition ARRIVAL_EXCEPTION_BLOCKED : Z := 1.
Definition ARRIVAL_EXCEPTION_DELAYED : Z := 2.
Definition ARRIVAL_EXCEPTION_SMI_DISABLED : Z := 4.

(** What a processor says of its arrival, as [SMM_CPU_SYNC2_PROTOCOL] reports it. *)
Inductive SMM_CPU_SYNC2_CPU_STATE :=
| SmmCpuSync2StateNormal | SmmCpuSync2StateDelayed | SmmCpuSync2StateBlocked | SmmCpuSync2StateDisabled.

Record SMM_CPU_SYNC_FEATURE := { TargetedSmiSupported : bool; DelayIndicationSupported : bool; BlockIndicationSupported : bool }.

(** What the build and the start of the driver fix. [gSmiMtrrs] are the memory types for SMM. *)
Class SmmConfig := {
  MTRR_SETTINGS : Type;
  gSmiMtrrs : MTRR_SETTINGS;
  mMaxNumberOfCpus : nat;
  SmmSyncFeature : Z -> SMM_CPU_SYNC_FEATURE;
  PcdCpuSmmEnableBspElection : bool;
  PcdCpuSmmBlockStartupThisAp : bool
}.

(** What happens outside of these variables: the MTRRs of each processor, and a history - who is in SMM, who has saved
    its MTRRs, whether [SmmCoreEntry] runs, copies to the interrupt table, the procedures scheduled and executed, the interrupts
    sent - that the code does not read. *)
Record hardware {SC : SmmConfig} := {
  Mtrrs : Z -> MTRR_SETTINGS;
  InSmm : Z -> bool;
  Saved : Z -> bool;
  InCore : bool;
  IdtCopies : Z;
  Scheduled : Z -> list (Z * Z);
  Ran : Z -> list (Z * Z);
  Ipis : list Z
}.

Record smm {SC : SmmConfig} := { mem : loc -> Z; hw : hardware }.

(** ** Concurrent code

    [Act] is one atomic action; it stops the processor where it is not defined (an assertion, or an array accessed out of
    range). The answers of the timer and the SMI handlers are not known in advance. [Loop] repeats its body until it
    returns a value. [Check] marks the code of the arrival check, so that an assertion inside of it can be told from others. *)

(** What SMI handlers ask for, one request after the other, each with the continuation that takes the answer. *)
Inductive handlers :=
| Done
| StartupThisAp (Procedure CpuIndex ProcArguments : Z) (k : EFI_STATUS -> handlers)
| BlockingStartupThisAp (Procedure CpuIndex ProcArguments : Z) (k : EFI_STATUS -> handlers)
| SwitchBspTo (ProcessorNumber : Z) (k : EFI_STATUS -> handlers)
| SetMode (SyncMode : Z) (k : EFI_STATUS -> handlers)
| GetMode (k : Z -> handlers)
| CheckApArrival (k : EFI_STATUS -> handlers)
| CheckCpuState (CpuIndex : Z) (k : EFI_STATUS * option SMM_CPU_SYNC2_CPU_STATE -> handlers)
| ChangeSmmEnabling (CpuIndex : Z) (Enable : bool) (k : EFI_STATUS -> handlers)
| SendSmi (CpuIndex : Z) (k : EFI_STATUS -> handlers).

Inductive code {SC : SmmConfig} : Type -> Type :=
| Ret {A} (a : A) : code A
| Bind {A B} (c : code A) (k : A -> code B) : code B
| Act {A} (f : smm -> option (A * smm)) : code A
| Timer : code bool
| Core : code handlers
| Loop {A} (body : code (option A)) : code A
| Check {A} (c : code A) : code A.

Declare Scope code_scope.
Notation "x ← c ; k" := (Bind c (fun x => k)) (at level 20, c at level 100, k at level 200, only parsing) : code_scope.
Notation "' x ← c ; k" := (Bind c (fun x => k)) (at level 20, x pattern, c at level 100, k at level 200, only parsing) : code_scope.
#[local] Open Scope code_scope.

(** A step of a processor, given the answers of the environment. *)
Inductive outcome {SC : SmmConfig} (A : Type) := Next (c : code A) (s : smm) | Fault | Halt.
Arguments Next {SC A} _ _.
Arguments Fault {SC A}.
Arguments Halt {SC A}.

Definition returned {SC : SmmConfig} {A} (c : code A) : option A :=
  match c in code A return option A with Ret a => Some a | _ => None end.

Definition again {SC : SmmConfig} {A} (body : code (option A)) : code A :=
  Bind body (fun o => match o with Some x => Ret x | None => Loop body end).

Fixpoint next {SC : SmmConfig} {A} (expired : bool) (h : handlers) (c : code A) (s : smm) : outcome A :=
  match c in code A return outcome A with
  | Ret _ => Halt
  | Bind c k =>
      match returned c with
      | Some a => Next (k a) s
      | None => match next expired h c s with Next c' s' => Next (Bind c' k) s' | Fault => Fault | Halt => Halt end
      end
  | Act f => match f s with Some (x, s') => Next (Ret x) s' | None => Fault end
  | Timer => Next (Ret expired) s
  | Core => Next (Ret h) s
  | Loop b => Next (again b) s
  | Check c =>
      match returned c with
      | Some a => Next (Ret a) s
      | None => match next expired h c s with Next c' s' => Next (Check c') s' | Fault => Fault | Halt => Halt end
      end
  end.

(** Whether the processor is in the arrival check. *)
Fixpoint checks_arrival {SC : SmmConfig} {A} (c : code A) : bool :=
  match c with Bind c _ => checks_arrival c | Check _ => true | _ => false end.

Section Mp.
Context {SC : SmmConfig}.
Implicit Types (CpuIndex : Z).

Definition set_mem (l : loc) (v : Z) (s : smm) : smm := {| mem := <[l := v]> s.(mem); hw := s.(hw) |}.

(** Accesses to arrays are checked against their size. *)
Definition in_range (l : loc) : bool :=
  match l with
  | Busy i | Procedure i | Parameter_ i | Run i | Present i | CandidateBsp i | ProcessorId i | Operation i =>
      (0 <=? i) && (i <? Z.of_nat mMaxNumberOfCpus)
  | _ => true
  end.

Definition load (l : loc) : code Z := Act (fun s => if in_range l then Some (s.(mem) l, s) else None).
Definition store (l : loc) (v : Z) : code unit := Act (fun s => if in_range l then Some (tt, set_mem l v s) else None).
Definition hook (f : hardware -> hardware) : code unit := Act (fun s => Some (tt, {| mem := s.(mem); hw := f s.(hw) |})).
Definition ASSERT_ (b : bool) : code unit := Act (fun s => if b then Some (tt, s) else None).

(** The atomic operations of [SynchronizationLib]. *)
Definition InterlockedCompareExchange32 (l : loc) (Compare Exchange : Z) : code Z :=
  Act (fun s => if in_range l then Some (s.(mem) l, if s.(mem) l =? Compare then set_mem l Exchange s else s) else None).
Definition InitializeSpinLock (l : loc) : code unit := store l RELEASED.
Definition AcquireSpinLockOrFail (l : loc) : code bool :=
  v ← InterlockedCompareExchange32 l RELEASED ACQUIRED; Ret (v =? RELEASED).
Definition AcquireSpinLock (l : loc) : code unit :=
  Loop (ok ← AcquireSpinLockOrFail l; Ret (if (ok : bool) then Some tt else None)).
Definition ReleaseSpinLock (l : loc) : code unit := store l RELEASED.

(** [for (Index = n; Index-- > 0;)] and [for (Index = from; Index < from + n; Index++)]. *)
Fixpoint for_down (n : nat) (body : Z -> code unit) : code unit :=
  match n with O => Ret tt | S n => _ ← body (Z.of_nat n); for_down n body end.
Fixpoint for_up (from : Z) (n : nat) (body : Z -> code unit) : code unit :=
  match n with O => Ret tt | S n => _ ← body from; for_up (from + 1) n body end.

Definition sends_ipi (id : Z) (h : hardware) : hardware :=
  {| Mtrrs := h.(Mtrrs); InSmm := h.(InSmm); Saved := h.(Saved); InCore := h.(InCore); IdtCopies := h.(IdtCopies);
     Scheduled := h.(Scheduled); Ran := h.(Ran); Ipis := id :: h.(Ipis) |}.
Definition copies_idt (h : hardware) : hardware :=
  {| Mtrrs := h.(Mtrrs); InSmm := h.(InSmm); Saved := h.(Saved); InCore := h.(InCore); IdtCopies := h.(IdtCopies) + 1;
     Scheduled := h.(Scheduled); Ran := h.(Ran); Ipis := h.(Ipis) |}.
Definition is_in_smm (i : Z) (b : bool) (h : hardware) : hardware :=
  {| Mtrrs := h.(Mtrrs); InSmm := <[i := b]> h.(InSmm); Saved := h.(Saved); InCore := h.(InCore); IdtCopies := h.(IdtCopies);
     Scheduled := h.(Scheduled); Ran := h.(Ran); Ipis := h.(Ipis) |}.
Definition is_in_core (b : bool) (h : hardware) : hardware :=
  {| Mtrrs := h.(Mtrrs); InSmm := h.(InSmm); Saved := h.(Saved); InCore := b; IdtCopies := h.(IdtCopies);
     Scheduled := h.(Scheduled); Ran := h.(Ran); Ipis := h.(Ipis) |}.
Definition has_mtrrs (i : Z) (m : MTRR_SETTINGS) (saved : bool) (h : hardware) : hardware :=
  {| Mtrrs := <[i := m]> h.(Mtrrs); InSmm := h.(InSmm); Saved := <[i := saved]> h.(Saved); InCore := h.(InCore); IdtCopies := h.(IdtCopies);
     Scheduled := h.(Scheduled); Ran := h.(Ran); Ipis := h.(Ipis) |}.
Definition schedules (i : Z) (p : Z * Z) (h : hardware) : hardware :=
  {| Mtrrs := h.(Mtrrs); InSmm := h.(InSmm); Saved := h.(Saved); InCore := h.(InCore); IdtCopies := h.(IdtCopies);
     Scheduled := <[i := h.(Scheduled) i ++ [p]]> h.(Scheduled); Ran := h.(Ran); Ipis := h.(Ipis) |}.
Definition runs (i : Z) (p : Z * Z) (h : hardware) : hardware :=
  {| Mtrrs := h.(Mtrrs); InSmm := h.(InSmm); Saved := h.(Saved); InCore := h.(InCore); IdtCopies := h.(IdtCopies);
     Scheduled := h.(Scheduled); Ran := <[i := h.(Ran) i ++ [p]]> h.(Ran); Ipis := h.(Ipis) |}.

Definition SendSmiIpi (id : Z) : code unit := hook (sends_ipi id).
Definition MtrrGetAllMtrrs CpuIndex : code MTRR_SETTINGS :=
  Act (fun s => Some (s.(hw).(Mtrrs) CpuIndex,
    {| mem := s.(mem); hw := has_mtrrs CpuIndex (s.(hw).(Mtrrs) CpuIndex) true s.(hw) |})).

(** ** The parts of [SmmFeatures.c] and of the hooks of the platform *)

Definition NeedConfigureMtrrs : bool := true.
Definition PlatformValidSmi : bool := true.
Definition ClearTopLevelSmiStatus : bool := true.
Definition PlatformSmmBspElection : EFI_STATUS * bool := (EFI_NOT_READY, false).

(** ** Semaphores *)

Definition WaitForSemaphore (Sem : loc) : code Z :=
  Loop (Value ← load Sem;
        if Value =? 0 then Ret None
        else v ← InterlockedCompareExchange32 Sem Value (Value - 1); Ret (if v =? Value then Some (Value - 1) else None)).

Definition ReleaseSemaphore (Sem : loc) : code Z :=
  Loop (Value ← load Sem;
        if u32 (Value + 1) =? 0 then Ret (Some (u32 (Value + 1)))
        else v ← InterlockedCompareExchange32 Sem Value (u32 (Value + 1)); Ret (if v =? Value then Some (u32 (Value + 1)) else None)).

Definition LockdownSemaphore (Sem : loc) : code Z :=
  Loop (Value ← load Sem;
        v ← InterlockedCompareExchange32 Sem Value MINUS1; Ret (if v =? Value then Some Value else None)).

Definition WaitForAllAPs (NumberOfAPs : Z) : code unit :=
  b ← load BspIndex;
  for_up 0 (Z.to_nat NumberOfAPs) (fun _ => _ ← WaitForSemaphore (Run b); Ret tt).

Definition ReleaseAllAPs : code unit :=
  b ← load BspIndex;
  for_down mMaxNumberOfCpus (fun Index =>
    if Index =? b then Ret tt else
    p ← load (Present Index);
    if p =? FALSE then Ret tt else _ ← ReleaseSemaphore (Run Index); Ret tt).

(** ** Arrival *)

(** The loop over the processors, from [n] downwards. *)
Fixpoint arrived (n : nat) (Exceptions : Z) : code bool :=
  match n with
  | O => Ret true
  | S n =>
      let Index := Z.of_nat n in
      p ← load (Present Index);
      id ← (if p =? FALSE then load (ProcessorId Index) else Ret INVALID_APIC_ID);
      if (p =? FALSE) && negb (id =? INVALID_APIC_ID) then
        let SyncFeature := SmmSyncFeature Index in
        if negb (Z.land Exceptions ARRIVAL_EXCEPTION_DELAYED =? 0) && SyncFeature.(DelayIndicationSupported) then arrived n Exceptions else
        if negb (Z.land Exceptions ARRIVAL_EXCEPTION_BLOCKED =? 0) && SyncFeature.(BlockIndicationSupported) then arrived n Exceptions else
        if negb (Z.land Exceptions ARRIVAL_EXCEPTION_SMI_DISABLED =? 0) && SyncFeature.(TargetedSmiSupported) then arrived n Exceptions else
        Ret false
      else arrived n Exceptions
  end.

(** A comparison of two variables, each read once. *)
Definition assert_counter : code unit :=
  c ← load Counter; n ← load mNumberOfCpus; ASSERT_ (c <=? n).

Definition AllCpusInSmmWithExceptions (Exceptions : Z) : code bool :=
  _ ← assert_counter;
  c ← load Counter;
  n ← load mNumberOfCpus;
  if c =? n then Ret true else arrived mMaxNumberOfCpus Exceptions.

Definition sync_wait : code unit :=
  Loop (expired ← Timer;
        if (expired : bool) then Ret (Some tt) else
        all ← AllCpusInSmmWithExceptions (Z.lor ARRIVAL_EXCEPTION_BLOCKED ARRIVAL_EXCEPTION_SMI_DISABLED);
        Ret (if (all : bool) then Some tt else None)).

Definition SmmWaitForApArrival : code unit :=
  _ ← assert_counter;
  _ ← sync_wait;
  c ← load Counter;
  n ← load mNumberOfCpus;
  if c <? n then
    _ ← for_down mMaxNumberOfCpus (fun Index =>
          p ← load (Present Index);
          if p =? FALSE then
            id ← load (ProcessorId Index);
            if negb (id =? INVALID_APIC_ID) then SendSmiIpi (u32 id) else Ret tt
          else Ret tt);
    sync_wait
  else Ret tt.

(** ** The handlers of SMI *)

(** Of [ReplaceOSMtrrs] and of the restoring at the end: the SMRR registers are not modelled. *)
Definition ReplaceOSMtrrs CpuIndex : code unit := hook (fun h => has_mtrrs CpuIndex gSmiMtrrs (h.(Saved) CpuIndex) h).
Definition MtrrSetAllMtrrs CpuIndex (m : MTRR_SETTINGS) : code unit := hook (has_mtrrs CpuIndex m false).

(** [SmmCpuUpdate] of [CpuService.c]. *)
Definition SmmCpuUpdate : code unit :=
  _ ← for_up 0 mMaxNumberOfCpus (fun Index =>
        o ← load (Operation Index);
        if o =? SmmCpuSwitchBsp then
          _ ← store (Operation Index) SmmCpuNone; _ ← store SwitchBsp TRUE; store (CandidateBsp Index) TRUE
        else Ret tt);
  _ ← for_up 0 mMaxNumberOfCpus (fun Index =>
        o ← load (Operation Index);
        if o =? SmmCpuAdd then
          _ ← store (Operation Index) SmmCpuNone; n ← load mNumberOfCpus; store mNumberOfCpus (u32 (n + 1))
        else Ret tt);
  for_up 0 mMaxNumberOfCpus (fun Index =>
    o ← load (Operation Index);
    if o =? SmmCpuRemove then
      _ ← store (Operation Index) SmmCpuNone; n ← load mNumberOfCpus; store mNumberOfCpus (u32 (n - 1))
    else Ret tt).

(** The check that [SmmStartupThisAp] and [SmmBlockingStartupThisAp] share; on success the caller has the lock [Busy]. *)
Definition acquire_ap CpuIndex : code bool :=
  if Z.of_nat mMaxNumberOfCpus <=? CpuIndex then Ret false else
  c ← load CurrentlyExecutingCpu;
  if CpuIndex =? c then Ret false else
  p ← load (Present CpuIndex);
  if p =? FALSE then Ret false else
  o ← load (Operation CpuIndex);
  if o =? SmmCpuRemove then Ret false else
  AcquireSpinLockOrFail (Busy CpuIndex).

Definition SmmStartupThisAp (Proc CpuIndex ProcArguments : Z) : code EFI_STATUS :=
  ok ← acquire_ap CpuIndex;
  if negb ok then Ret EFI_INVALID_PARAMETER else
  _ ← store (Procedure CpuIndex) Proc;
  _ ← store (Parameter_ CpuIndex) ProcArguments;
  _ ← hook (schedules CpuIndex (Proc, ProcArguments));
  _ ← ReleaseSemaphore (Run CpuIndex);
  _ ← (if PcdCpuSmmBlockStartupThisAp then
         _ ← AcquireSpinLock (Busy CpuIndex); ReleaseSpinLock (Busy CpuIndex)
       else Ret tt);
  Ret EFI_SUCCESS.

Definition SmmBlockingStartupThisAp (Proc CpuIndex ProcArguments : Z) : code EFI_STATUS :=
  ok ← acquire_ap CpuIndex;
  if negb ok then Ret EFI_INVALID_PARAMETER else
  _ ← store (Procedure CpuIndex) Proc;
  _ ← store (Parameter_ CpuIndex) ProcArguments;
  _ ← hook (schedules CpuIndex (Proc, ProcArguments));
  _ ← ReleaseSemaphore (Run CpuIndex);
  _ ← AcquireSpinLock (Busy CpuIndex);
  _ ← ReleaseSpinLock (Busy CpuIndex);
  Ret EFI_SUCCESS.

(** [SmmSwitchBsp] of [CpuService.c]; [gSmst] has the processor that runs the handlers. *)
Definition SmmSwitchBsp (ProcessorNumber : Z) : code EFI_STATUS :=
  if Z.of_nat mMaxNumberOfCpus <=? ProcessorNumber then Ret EFI_INVALID_PARAMETER else
  id ← load (ProcessorId ProcessorNumber);
  if id =? INVALID_APIC_ID then Ret EFI_NOT_FOUND else
  o ← load (Operation ProcessorNumber);
  if negb (o =? SmmCpuNone) then Ret EFI_UNSUPPORTED else
  c ← load CurrentlyExecutingCpu;
  if c =? ProcessorNumber then Ret EFI_UNSUPPORTED else
  _ ← store (Operation ProcessorNumber) SmmCpuSwitchBsp;
  Ret EFI_SUCCESS.

Definition SmmSyncSetModeWorker (SyncMode : Z) : code EFI_STATUS :=
  if SmmCpuSyncModeMax <=? SyncMode then Ret EFI_INVALID_PARAMETER else
  _ ← store SyncModeToBeSet SyncMode;
  Ret EFI_SUCCESS.

Definition SmmSyncGetModeWorker : code Z := load EffectiveSyncMode.

(** The loop for processors whose SMI is disabled, from [n] downwards. *)
Fixpoint any_smi_disabled (n : nat) : code bool :=
  match n with
  | O => Ret false
  | S n =>
      id ← load (ProcessorId (Z.of_nat n));
      if negb (id =? INVALID_APIC_ID) && (SmmSyncFeature (Z.of_nat n)).(TargetedSmiSupported) then Ret true else any_smi_disabled n
  end.

Definition SmmCpuSyncCheckApArrivalWorker : code EFI_STATUS :=
  _ ← assert_counter;
  c ← load Counter;
  n ← load mNumberOfCpus;
  if c =? n then Ret EFI_SUCCESS else
  d ← any_smi_disabled mMaxNumberOfCpus;
  if (d : bool) then Ret EFI_NOT_READY else
  _ ← SmmWaitForApArrival;
  all ← AllCpusInSmmWithExceptions ARRIVAL_EXCEPTION_BLOCKED;
  Ret (if (all : bool) then EFI_SUCCESS else EFI_NOT_READY).

Definition SmmCpuSyncCheckApArrival : code EFI_STATUS := Check SmmCpuSyncCheckApArrivalWorker.

(** The checks of an index that the services of [SMM_CPU_SYNC2_PROTOCOL] begin with. *)
Definition sync2_cpu CpuIndex : code bool :=
  if Z.of_nat mMaxNumberOfCpus <=? CpuIndex then Ret false else
  id ← load (ProcessorId CpuIndex);
  Ret (negb (id =? INVALID_APIC_ID)).

Definition SmmCpuSync2CheckCpuState CpuIndex : code (EFI_STATUS * option SMM_CPU_SYNC2_CPU_STATE) :=
  ok ← sync2_cpu CpuIndex;
  if negb ok then Ret (EFI_INVALID_PARAMETER, None) else
  let SyncFeature := SmmSyncFeature CpuIndex in
  Ret (EFI_SUCCESS, Some (if SyncFeature.(DelayIndicationSupported) then SmmCpuSync2StateDelayed else
                          if SyncFeature.(BlockIndicationSupported) then SmmCpuSync2StateBlocked else
                          if SyncFeature.(TargetedSmiSupported) then SmmCpuSync2StateDisabled else SmmCpuSync2StateNormal)).

Definition SmmCpuSync2ChangeSmmEnabling CpuIndex (Enable : bool) : code EFI_STATUS :=
  ok ← sync2_cpu CpuIndex;
  if negb ok then Ret EFI_INVALID_PARAMETER else
  let SyncFeature := SmmSyncFeature CpuIndex in
  if negb SyncFeature.(TargetedSmiSupported) then Ret EFI_UNSUPPORTED else Ret EFI_UNSUPPORTED.

Definition SmmCpuSync2SendSmi CpuIndex : code EFI_STATUS :=
  ok ← sync2_cpu CpuIndex;
  if negb ok then Ret EFI_INVALID_PARAMETER else
  id ← load (ProcessorId CpuIndex);
  _ ← SendSmiIpi (u32 id);
  Ret EFI_SUCCESS.

(** Whether SMI handlers never ask for the arrival check, whatever is answered to them. *)
Fixpoint no_check (h : handlers) : Prop :=
  match h with
  | Done => True
  | StartupThisAp _ _ _ k | BlockingStartupThisAp _ _ _ k | SwitchBspTo _ k | SetMode _ k | ChangeSmmEnabling _ _ k | SendSmi _ k =>
      forall Status, no_check (k Status)
  | GetMode k => forall SyncMode, no_check (k SyncMode)
  | CheckApArrival _ => False
  | CheckCpuState _ k => forall r, no_check (k r)
  end.

(** The SMM core: the calls of SMI handlers to the services above, and their use of the results, are those of [h]. *)
Fixpoint run_handlers (h : handlers) : code unit :=
  match h with
  | Done => Ret tt
  | StartupThisAp p i a k => Status ← SmmStartupThisAp p (u32 i) a; run_handlers (k Status)
  | BlockingStartupThisAp p i a k => Status ← SmmBlockingStartupThisAp p (u32 i) a; run_handlers (k Status)
  | SwitchBspTo i k => Status ← SmmSwitchBsp (u32 i); run_handlers (k Status)
  | SetMode m k => Status ← SmmSyncSetModeWorker (u32 m); run_handlers (k Status)
  | GetMode k => SyncMode ← SmmSyncGetModeWorker; run_handlers (k SyncMode)
  | CheckApArrival k => Status ← SmmCpuSyncCheckApArrival; run_handlers (k Status)
  | CheckCpuState i k => r ← SmmCpuSync2CheckCpuState (u32 i); run_handlers (k r)
  | ChangeSmmEnabling i e k => Status ← SmmCpuSync2ChangeSmmEnabling (u32 i) e; run_handlers (k Status)
  | SendSmi i k => Status ← SmmCpuSync2SendSmi (u32 i); run_handlers (k Status)
  end.
Definition SmmCoreEntry : code unit :=
  _ ← hook (is_in_core true);
  h ← Core;
  _ ← run_handlers h;
  hook (is_in_core false).

(** The number of processors present, from [n] downwards. *)
Fixpoint count_present (n : nat) (PresentCount : Z) : code Z :=
  match n with
  | O => Ret PresentCount
  | S n =>
      p ← load (Present (Z.of_nat n));
      count_present n (if p =? FALSE then PresentCount else u32 (PresentCount + 1))
  end.

(** The parts of [BSPHandler]: the synchronised change of memory types, ... *)
Definition gather CpuIndex (ApCount : Z) : code (option MTRR_SETTINGS) :=
  _ ← WaitForAllAPs ApCount;
  if NeedConfigureMtrrs then
    _ ← ReleaseAllAPs;
    m ← MtrrGetAllMtrrs CpuIndex;
    _ ← WaitForAllAPs ApCount;
    _ ← ReleaseAllAPs;
    _ ← ReplaceOSMtrrs CpuIndex;
    _ ← WaitForAllAPs ApCount;
    Ret (Some m)
  else Ret None.

(** ... the wait for procedures that still run, ... *)
Definition wait_busy CpuIndex : code unit :=
  for_down mMaxNumberOfCpus (fun Index =>
    if Index =? CpuIndex then Ret tt else
    p ← load (Present Index);
    if p =? FALSE then Ret tt else
    _ ← AcquireSpinLock (Busy Index); ReleaseSpinLock (Busy Index)).

(** ... and the end of the run. *)
Definition BSPHandler_exit CpuIndex (ApCount : Z) (m : option MTRR_SETTINGS) : code unit :=
  _ ← store InsideSmm FALSE;
  _ ← ReleaseAllAPs;
  _ ← WaitForAllAPs ApCount;
  mode ← load SyncModeToBeSet;
  _ ← store EffectiveSyncMode mode;
  _ ← (if NeedConfigureMtrrs then
         _ ← ReleaseAllAPs;
         _ ← (match m with Some m => MtrrSetAllMtrrs CpuIndex m | None => ASSERT_ false end);
         WaitForAllAPs ApCount
       else Ret tt);
  _ ← ReleaseAllAPs;
  _ ← SmmCpuUpdate;
  _ ← store (Present CpuIndex) FALSE;
  _ ← WaitForAllAPs ApCount;
  _ ← (if PcdCpuSmmEnableBspElection then store BspIndex MINUS1 else Ret tt);
  _ ← store Counter 0;
  store AllCpusInSync FALSE.

Definition BSPHandler CpuIndex (SyncMode : Z) : code unit :=
  b ← load BspIndex;
  _ ← ASSERT_ (CpuIndex =? b);
  _ ← store InsideSmm TRUE;
  _ ← store (Present CpuIndex) TRUE;
  _ ← ASSERT_ ClearTopLevelSmiStatus;
  _ ← store CurrentlyExecutingCpu CpuIndex;
  '(ApCount, m) ←
    (if (SyncMode =? SmmCpuSyncModeTradition) || NeedConfigureMtrrs then
       _ ← SmmWaitForApArrival;
       _ ← store AllCpusInSync TRUE;
       n ← LockdownSemaphore Counter;
       let ApCount := u32 (n - 1) in
       m ← gather CpuIndex ApCount;
       Ret (ApCount, m)
     else Ret (0, None));
  _ ← AcquireSpinLockOrFail (Busy CpuIndex);
  _ ← SmmCoreEntry;
  _ ← wait_busy CpuIndex;
  ApCount ←
    (if negb (SyncMode =? SmmCpuSyncModeTradition) && negb NeedConfigureMtrrs then
       _ ← store AllCpusInSync TRUE;
       n ← LockdownSemaphore Counter;
       let ApCount := u32 (n - 1) in
       _ ← Loop (PresentCount ← count_present mMaxNumberOfCpus 0;
                 Ret (if ApCount <? PresentCount then Some tt else None));
       Ret ApCount
     else Ret ApCount);
  BSPHandler_exit CpuIndex ApCount m.

(** Waiting for [InsideSmm], as long as the timer allows. *)
Definition wait_inside : code unit :=
  Loop (expired ← Timer;
        if (expired : bool) then Ret (Some tt) else
        b ← load InsideSmm;
        Ret (if b =? FALSE then None else Some tt)).

(** Whether the processor that leads the run has entered SMM; an interrupt is sent to it when it has not. *)
Definition bsp_arrived CpuIndex : code bool :=
  _ ← wait_inside;
  inside ← load InsideSmm;
  if inside =? FALSE then
    b ← load BspIndex;
    if b =? MINUS1 then Ret false
    else
      b ← load BspIndex;
      _ ← ASSERT_ (negb (CpuIndex =? b));
      id ← load (ProcessorId b);
      _ ← SendSmiIpi (u32 id);
      _ ← wait_inside;
      inside ← load InsideSmm;
      Ret (negb (inside =? FALSE))
  else Ret true.

(** The procedures that are given to an AP, until the BSP leaves SMM. *)
Definition ap_loop CpuIndex : code unit :=
  Loop (_ ← WaitForSemaphore (Run CpuIndex);
        inside ← load InsideSmm;
        if inside =? FALSE then Ret (Some tt) else
        ok ← AcquireSpinLockOrFail (Busy CpuIndex);
        _ ← ASSERT_ (negb ok);
        p ← load (Procedure CpuIndex);
        a ← load (Parameter_ CpuIndex);
        _ ← hook (runs CpuIndex (p, a));
        _ ← ReleaseSpinLock (Busy CpuIndex);
        Ret None).

Definition APHandler CpuIndex (SyncMode : Z) : code unit :=
  ok ← bsp_arrived CpuIndex;
  if negb ok then _ ← WaitForSemaphore Counter; Ret tt else
  b ← load BspIndex;
  _ ← ASSERT_ (negb (CpuIndex =? b));
  _ ← store (Present CpuIndex) TRUE;
  _ ← (if (SyncMode =? SmmCpuSyncModeTradition) || NeedConfigureMtrrs
       then _ ← ReleaseSemaphore (Run b); Ret tt else Ret tt);
  m ←
    (if NeedConfigureMtrrs then
       _ ← WaitForSemaphore (Run CpuIndex);
       m ← MtrrGetAllMtrrs CpuIndex;
       _ ← ReleaseSemaphore (Run b);
       _ ← WaitForSemaphore (Run CpuIndex);
       _ ← ReplaceOSMtrrs CpuIndex;
       _ ← ReleaseSemaphore (Run b);
       Ret (Some m)
     else Ret None);
  _ ← ap_loop CpuIndex;
  _ ← (match m with
       | Some m =>
           _ ← ReleaseSemaphore (Run b);
           _ ← WaitForSemaphore (Run CpuIndex);
           MtrrSetAllMtrrs CpuIndex m
       | None => Ret tt
       end);
  _ ← ReleaseSemaphore (Run b);
  _ ← WaitForSemaphore (Run CpuIndex);
  _ ← store (Present CpuIndex) FALSE;
  _ ← ReleaseSemaphore (Run b);
  Ret tt.

(** ** The entry *)

(** The handlers of exceptions are installed once. *)
Definition install_handlers : code unit :=
  r ← load mExceptionHandlerReady;
  if r =? FALSE then
    _ ← AcquireSpinLock mIdtTableLock;
    r ← load mExceptionHandlerReady;
    _ ← (if r =? FALSE then _ ← hook copies_idt; store mExceptionHandlerReady TRUE else Ret tt);
    ReleaseSpinLock mIdtTableLock
  else Ret tt.

Definition wait_sync : code unit :=
  Loop (b ← load AllCpusInSync; Ret (if b =? FALSE then Some tt else None)).

Definition elect CpuIndex : code unit :=
  if PcdCpuSmmEnableBspElection then
    sw ← load SwitchBsp;
    c ← (if sw =? FALSE then Ret TRUE else load (CandidateBsp CpuIndex));
    if c =? FALSE then Ret tt else
    let '(Status, IsBsp) := PlatformSmmBspElection in
    match Status with
    | EFI_SUCCESS => if (IsBsp : bool) then store BspIndex CpuIndex else Ret tt
    | _ => _ ← InterlockedCompareExchange32 BspIndex MINUS1 CpuIndex; Ret tt
    end
  else Ret tt.

Definition SmiRendezvous CpuIndex : code unit :=
  _ ← hook (is_in_smm CpuIndex true);
  _ ← install_handlers;
  let ValidSmi := PlatformValidSmi in
  BspInProgress ← load InsideSmm;
  _ ←
    (if (BspInProgress =? FALSE) && negb ValidSmi then Ret tt else
     c ← ReleaseSemaphore Counter;
     if c =? 0 then wait_sync else
     _ ← InitializeSpinLock (Busy CpuIndex);
     _ ←
       (if negb (BspInProgress =? FALSE) then
          mode ← load EffectiveSyncMode; APHandler CpuIndex mode
        else
          _ ← elect CpuIndex;
          b ← load BspIndex;
          if b =? CpuIndex then
            sw ← load SwitchBsp;
            _ ← (if sw =? FALSE then Ret tt else
                   _ ← store SwitchBsp FALSE;
                   for_up 0 mMaxNumberOfCpus (fun Index => store (CandidateBsp Index) FALSE));
            mode ← load EffectiveSyncMode; BSPHandler CpuIndex mode
          else mode ← load EffectiveSyncMode; APHandler CpuIndex mode);
     r ← load (Run CpuIndex);
     _ ← ASSERT_ (r =? 0);
     wait_sync);
  hook (is_in_smm CpuIndex false).

(** A processor takes one SMI after the other. *)
Definition cpu CpuIndex : code unit := Loop (_ ← SmiRendezvous CpuIndex; Ret (@None unit)).

(** ** The timer of [SyncTimer.c]: the arguments of [InitializeSmmTimer] are what the timer library and the build say. *)

Record sync_timer := { mTimeoutTicker : Z; mCycle : Z; mCountDown : bool }.
Definition InitializeSmmTimer (TimerFrequency Start End_ PcdCpuSmmApSyncTimeout : Z) : sync_timer := {|
  mTimeoutTicker := u64 (TimerFrequency * PcdCpuSmmApSyncTimeout) / 1000000;
  mCycle := if End_ <? Start then Start - End_ else End_ - Start;
  mCountDown := End_ <? Start |}.
Definition IsSyncTimerTimeout (t : sync_timer) (Timer CurrentTimer : Z) : bool :=
  let Delta :=
    if t.(mCountDown) then if CurrentTimer <? Timer then Timer - CurrentTimer else u64 (t.(mCycle) - (CurrentTimer - Timer))
    else if Timer <? CurrentTimer then CurrentTimer - Timer else u64 (t.(mCycle) - (Timer - CurrentTimer)) in
  t.(mTimeoutTicker) <=? Delta.

(** ** All processors *)

Record system := { cpus : Z -> code unit; shared : smm }.
Definition NumCpus : Z := Z.of_nat mMaxNumberOfCpus.

Definition step_cpu (i : Z) (expired : bool) (h : handlers) (c : system) : option system :=
  match next expired h (c.(cpus) i) c.(shared) with
  | Next k s => Some {| cpus := <[i := k]> c.(cpus); shared := s |}
  | _ => None
  end.

(** One step of one processor. The timer of a processor that waits for the BSP does not run out ([may_expire] only allows it for
    the one in [BspIndex], that waits for the APs): the code gives such a run up, see [ap_gives_up] in [MpWitness]. *)
Definition may_expire (i : Z) (s : smm) : Prop := s.(mem) BspIndex = i.
Inductive step : system -> system -> Prop :=
| step_at i expired h c c' :
    0 <= i < NumCpus -> (expired = true -> may_expire i c.(shared)) -> step_cpu i expired h c = Some c' -> step c c'.

Inductive reaches (c : system) : system -> Prop :=
| reaches_here : reaches c c
| reaches_step c1 c2 : reaches c c1 -> step c1 c2 -> reaches c c2.

(** A processor is stopped by an assertion or an access out of range. *)
Definition fails_at (c : system) (i : Z) : Prop :=
  0 <= i < NumCpus /\ exists expired h, next expired h (c.(cpus) i) c.(shared) = Fault.
Definition fails (c : system) : Prop := exists i, fails_at c i.

(** The state after [InitializeMpSyncData]; every processor is outside of SMM, with its own memory types. *)
Definition idle_index : Z := if PcdCpuSmmEnableBspElection then MINUS1 else 0.
Definition InitializeMpSyncData (m : loc -> Z) (l : loc) : Z :=
  match l with
  | BspIndex => idle_index
  | SyncModeToBeSet | EffectiveSyncMode => SmmCpuSyncModeTradition
  | ProcessorId _ | Operation _ | CurrentlyExecutingCpu | mNumberOfCpus | mExceptionHandlerReady | mIdtTableLock => m l
  | _ => 0
  end.
Definition started (os : Z -> MTRR_SETTINGS) (ids : Z -> Z) : smm := {|
  mem := InitializeMpSyncData (fun l => match l with ProcessorId i => ids i | mNumberOfCpus => NumCpus | _ => 0 end);
  hw := {| Mtrrs := os; InSmm := fun _ => false; Saved := fun _ => false; InCore := false; IdtCopies := 0;
           Scheduled := fun _ => []; Ran := fun _ => []; Ipis := [] |} |}.
Definition start (os : Z -> MTRR_SETTINGS) (ids : Z -> Z) : system := {| cpus := cpu; shared := started os ids |}.
End Mp.
