(* ===== verification/MpLogic.v ===== *)
(** * The rendezvous of processors in SMM: a logic for processors that run at once

    Each processor has a role, which only its own steps change; an invariant relates the shared state and the roles of
    all. [safe n i g c Q]: for [n] steps, whatever the others do within the invariant, processor [i] with role [g] runs [c]
    without failing, but for the assertion of an arrival check under a locked counter, keeps the invariant, and ends with [Q]. *)

From S2P Require Import Prelude MpDefs.
From stdpp Require Import functions.
#[local] Open Scope Z_scope.
#[local] Open Scope code_scope.

(** The processor is in the arrival check of an SMI handler, and the counter is locked. *)
Definition check_refused {SC : SmmConfig} {A} (c : code A) (s : smm) : Prop :=
  checks_arrival c = true /\ s.(hw).(InCore) = true /\ s.(mem) Counter = MINUS1.

(** Invariants depend on the roles of the processors only. *)
Class OfRoles {SC : SmmConfig} {G : Type} (I : smm -> (Z -> G) -> Prop) :=
  I_ext : forall s r r', (forall i, r i = r' i) -> I s r -> I s r'.

Section Logic.
Context {SC : SmmConfig} {G : Type} (I : smm -> (Z -> G) -> Prop) {IE : OfRoles I}.

Lemma I_same s r i g : I s r -> r i = g -> I s (<[i := g]> r).
Proof.
  intros HI Hr. eapply I_ext; [|exact HI]. intros j. destruct (decide (i = j)) as [->|Hj].
  - by rewrite fn_lookup_insert.
  - by rewrite fn_lookup_insert_ne.
Qed.

Fixpoint safe (n : nat) (i : Z) (g : G) {A} (c : code A) (Q : A -> G -> Prop) {struct n} : Prop :=
  match n with
  | O => True
  | S n =>
      match returned c with
      | Some a => Q a g
      | None => forall expired h s r, I s r -> r i = g -> (expired = true -> may_expire i s) ->
          (exists c' s' g', next expired h c s = Next c' s' /\ I s' (<[i := g']> r) /\ safe n i g' c' Q) \/
          (next expired h c s = Fault /\ check_refused c s)
      end
  end.

Lemma safe_weaken n : forall m i g A (c : code A) (Q Q' : A -> G -> Prop),
  safe n i g c Q -> (m <= n)%nat -> (forall a g, Q a g -> Q' a g) -> safe m i g c Q'.
Proof.
  induction n as [|n IH]; intros [|m] i g A c Q Q' H Hmn HQ; [done|lia|done|].
  cbn in *. destruct (returned c) as [a|]; [by apply HQ|]. intros expired h s r HI Hr He.
  destruct (H expired h s r HI Hr He) as [(c' & s' & g' & Hn & Hm & Hs)|]; [left|by right]. exists c', s', g'.
  split; [done|]. split; [done|]. eapply IH; [done|lia|done].
Qed.

Lemma safe_mono n i g A (c : code A) (Q Q' : A -> G -> Prop) :
  safe n i g c Q -> (forall a g, Q a g -> Q' a g) -> safe n i g c Q'.
Proof. intros H HQ. by eapply safe_weaken. Qed.

Lemma safe_ret n i g A (a : A) (Q : A -> G -> Prop) : Q a g -> safe n i g (Ret a) Q.
Proof. by destruct n. Qed.

Lemma safe_returned n i g A (c : code A) a (Q : A -> G -> Prop) : returned c = Some a -> safe (S n) i g c Q -> Q a g.
Proof. cbn. by intros ->. Qed.

Lemma safe_bind n : forall i g A B (c : code A) (k : A -> code B) (Q : B -> G -> Prop),
  safe n i g c (fun a g' => safe n i g' (k a) Q) -> safe n i g (Bind c k) Q.
Proof.
  induction n as [|n IH]; intros i g A B c k Q H; [done|].
  destruct (returned c) as [a|] eqn:E; [pose proof (safe_returned _ _ _ _ _ _ _ E H) as Ha; clear H|];
    cbn -[next]; intros expired h s r HI Hr He; cbn [next]; rewrite E.
  - left. exists (k a), s, g. split; [done|]. split; [by apply I_same|].
    by apply (safe_weaken (S n) n i g _ (k a) Q Q); [exact Ha|lia|].
  - cbn in H; rewrite E in H. destruct (H expired h s r HI Hr He) as [(c' & s' & g' & Hn & Hm & Hs)|[Hn Hc]]; rewrite Hn; [left|by right].
    exists (Bind c' k), s', g'.
    split; [done|]. split; [done|]. apply IH. eapply safe_mono; [exact Hs|]. intros a g'' Ha.
    by apply (safe_weaken (S n) n i g'' _ (k a) Q Q); [exact Ha|lia|].
Qed.

(** One atomic action. *)
Lemma safe_act n i g A (f : smm -> option (A * smm)) (Q : A -> G -> Prop) :
  (forall s r, I s r -> r i = g -> exists x s' g', f s = Some (x, s') /\ I s' (<[i := g']> r) /\ Q x g') ->
  safe n i g (Act f) Q.
Proof.
  intros H. destruct n as [|n]; [done|]. cbn. intros _ _ s r HI Hr _. destruct (H s r HI Hr) as (x & s' & g' & -> & Hm & Hq).
  left. exists (Ret x), s', g'. split; [done|]. split; [done|]. by apply (safe_ret n i g' A x).
Qed.

Lemma safe_timer n i g (Q : bool -> G -> Prop) :
  (forall s r, I s r -> r i = g -> may_expire i s -> Q true g) -> Q false g -> safe n i g Timer Q.
Proof.
  intros Ht Hf. destruct n as [|n]; [done|]. cbn. intros expired _ s r HI Hr He. left. exists (Ret expired), s, g.
  split; [done|]. split; [by apply I_same|]. apply (safe_ret n i g bool expired). destruct expired; [|done]. by eapply Ht, He.
Qed.

Lemma safe_core n i g (Q : handlers -> G -> Prop) : (forall h, Q h g) -> safe n i g Core Q.
Proof.
  intros H. destruct n as [|n]; [done|]. cbn. intros _ h s r HI Hr _. left. exists (Ret h), s, g.
  split; [done|]. split; [by apply I_same|]. by apply (safe_ret n i g handlers h).
Qed.

(** A loop: an invariant [J] on the role where the body begins. *)
Lemma safe_loop (J : G -> Prop) n i A (body : code (option A)) (Q : A -> G -> Prop) :
  (forall m g, (m <= n)%nat -> J g -> safe m i g body (fun o g' => match o with Some x => Q x g' | None => J g' end)) ->
  forall g, J g -> safe n i g (Loop body) Q.
Proof.
  induction n as [|n IH]; intros Hb g Hg; [done|]. cbn. intros _ _ s r HI Hr _. left. exists (again body), s, g.
  split; [done|]. split; [by apply I_same|]. apply safe_bind.
  eapply safe_mono; [apply Hb; [lia|done]|]. intros [x|] g' H'; [by apply safe_ret|].
  apply IH; [|done]. intros m g'' Hm. apply Hb. lia.
Qed.

(** A step that changes nothing and whose outcome is known; the assertion that ends an arrival check. *)
Lemma safe_known n i g A (c c' : code A) (Q : A -> G -> Prop) : returned c = None ->
  (forall e h s r, I s r -> r i = g -> next e h c s = Next c' s) -> safe n i g c' Q -> safe n i g c Q.
Proof.
  intros E Hn Hs. destruct n as [|n]; [done|]. cbn -[next]. rewrite E. intros e h s r HI Hr _. left. exists c', s, g.
  split; [by eapply Hn|]. split; [by apply I_same|]. eapply safe_weaken; [exact Hs|lia|done].
Qed.

Lemma safe_refused n i g A (c : code A) (Q : A -> G -> Prop) : returned c = None ->
  (forall e h s r, I s r -> r i = g -> next e h c s = Fault /\ check_refused c s) -> safe n i g c Q.
Proof. intros E H. destruct n as [|n]; [done|]. cbn -[next]. rewrite E. intros e h s r HI Hr _. right. by eapply H. Qed.

(** ** Actions and semaphores *)

(** Whether a step of processor [i] with role [g] can make [s'] of [s], with a role [g'] such that [Q g']. *)
Definition steps (i : Z) (r : Z -> G) (s' : smm) (Q : G -> Prop) : Prop := exists g', I s' (<[i := g']> r) /\ Q g'.

Lemma steps_same i r s g (Q : G -> Prop) : I s r -> r i = g -> Q g -> steps i r s Q.
Proof. intros HI Hr HQ. exists g. split; [by apply I_same|done]. Qed.

Lemma safe_load n i g l (Q : Z -> G -> Prop) : in_range l = true ->
  (forall s r, I s r -> r i = g -> steps i r s (Q (s.(mem) l))) -> safe n i g (load l) Q.
Proof.
  intros Hl H. apply safe_act. intros s r HI Hr. destruct (H s r HI Hr) as (g' & HI' & HQ). rewrite Hl. eauto 6.
Qed.

(** A read that does not matter. *)
Lemma safe_read n i g l (Q : Z -> G -> Prop) : in_range l = true -> (forall v, Q v g) -> safe n i g (load l) Q.
Proof. intros Hl HQ. apply safe_load; [done|]. intros s r HI Hr. by apply (steps_same i r s g). Qed.

Lemma safe_store n i g l v (Q : unit -> G -> Prop) : in_range l = true ->
  (forall s r, I s r -> r i = g -> steps i r (set_mem l v s) (Q tt)) -> safe n i g (store l v) Q.
Proof.
  intros Hl H. apply safe_act. intros s r HI Hr. destruct (H s r HI Hr) as (g' & HI' & HQ). rewrite Hl. eauto 6.
Qed.

Lemma safe_hook n i g f (Q : unit -> G -> Prop) :
  (forall s r, I s r -> r i = g -> steps i r {| mem := s.(mem); hw := f s.(hw) |} (Q tt)) -> safe n i g (hook f) Q.
Proof.
  intros H. apply safe_act. intros s r HI Hr. destruct (H s r HI Hr) as (g' & HI' & HQ). eauto 6.
Qed.

Lemma safe_assert n i g b (Q : unit -> G -> Prop) : b = true -> Q tt g -> safe n i g (ASSERT_ b) Q.
Proof.
  intros -> HQ. apply safe_act. intros s r HI Hr. exists tt, s, g. split; [done|]. split; [by apply I_same|done].
Qed.

Lemma safe_cas n i g l old new (Q : Z -> G -> Prop) : in_range l = true ->
  (forall s r, I s r -> r i = g -> s.(mem) l = old -> steps i r (set_mem l new s) (Q old)) ->
  (forall s r, I s r -> r i = g -> s.(mem) l <> old -> steps i r s (Q (s.(mem) l))) ->
  safe n i g (InterlockedCompareExchange32 l old new) Q.
Proof.
  intros Hl H1 H2. apply safe_act. intros s r HI Hr. rewrite Hl. destruct (Z.eqb_spec (s.(mem) l) old) as [E|E].
  - destruct (H1 s r HI Hr E) as (g' & HI' & HQ). rewrite E. eauto 6.
  - destruct (H2 s r HI Hr E) as (g' & HI' & HQ). eauto 6.
Qed.

Lemma safe_try_lock n i g l (Q : bool -> G -> Prop) : in_range l = true ->
  (forall s r, I s r -> r i = g -> s.(mem) l = RELEASED -> steps i r (set_mem l ACQUIRED s) (Q true)) ->
  (forall s r, I s r -> r i = g -> s.(mem) l <> RELEASED -> steps i r s (Q false)) ->
  safe n i g (AcquireSpinLockOrFail l) Q.
Proof.
  intros Hl H1 H2. apply safe_bind, safe_cas; [done| |].
  - intros s r HI Hr E. destruct (H1 s r HI Hr E) as (g' & HI' & HQ). exists g'. split; [done|]. by apply safe_ret.
  - intros s r HI Hr E. destruct (H2 s r HI Hr E) as (g' & HI' & HQ). exists g'. split; [done|]. apply safe_ret.
    by rewrite (proj2 (Z.eqb_neq _ _)).
Qed.

(** The loops of the semaphores and of the spin locks take effect in one step: the one that succeeds. *)
Lemma safe_lock n i g l (Q : unit -> G -> Prop) : in_range l = true ->
  (forall s r, I s r -> r i = g -> s.(mem) l = RELEASED -> steps i r (set_mem l ACQUIRED s) (Q tt)) ->
  safe n i g (AcquireSpinLock l) Q.
Proof.
  intros Hl H. apply (safe_loop (eq g)); [|done]. intros m g' _ <-. apply safe_bind, safe_try_lock; [done| |].
  - intros s r HI Hr E. destruct (H s r HI Hr E) as (g' & HI' & HQ). exists g'. split; [done|]. by apply safe_ret.
  - intros s r HI Hr E. apply (steps_same i r s g); [done..|]. by apply safe_ret.
Qed.

Lemma safe_WaitForSemaphore n i g l (Q : Z -> G -> Prop) : in_range l = true ->
  (forall s r, I s r -> r i = g -> s.(mem) l <> 0 -> steps i r (set_mem l (s.(mem) l - 1) s) (Q (s.(mem) l - 1))) ->
  safe n i g (WaitForSemaphore l) Q.
Proof.
  intros Hl H. apply (safe_loop (eq g)); [|done]. intros m g' _ <-. apply safe_bind, safe_load; [done|].
  intros s r HI Hr. apply (steps_same i r s g); [done..|]. destruct (Z.eqb_spec (s.(mem) l) 0) as [E|E]; [by apply safe_ret|].
  clear HI Hr. apply safe_bind, safe_cas; [done| |].
  - intros s1 r1 HI Hr E1. destruct (H s1 r1 HI Hr) as (g' & HI' & HQ); [congruence|]. rewrite E1 in *.
    exists g'. split; [done|]. apply safe_ret. by rewrite Z.eqb_refl.
  - intros s1 r1 HI Hr E1. apply (steps_same i r1 s1 g); [done..|]. apply safe_ret. by rewrite (proj2 (Z.eqb_neq _ _)).
Qed.

Lemma safe_ReleaseSemaphore n i g l (Q : Z -> G -> Prop) : in_range l = true ->
  (forall s r, I s r -> r i = g -> u32 (s.(mem) l + 1) = 0 -> steps i r s (Q 0)) ->
  (forall s r, I s r -> r i = g -> u32 (s.(mem) l + 1) <> 0 -> steps i r (set_mem l (u32 (s.(mem) l + 1)) s) (Q (u32 (s.(mem) l + 1)))) ->
  safe n i g (ReleaseSemaphore l) Q.
Proof.
  intros Hl H0 H. apply (safe_loop (eq g)); [|done]. intros m g' _ <-. apply safe_bind, safe_load; [done|].
  intros s r HI Hr. destruct (Z.eqb_spec (u32 (s.(mem) l + 1)) 0) as [E|E].
  { destruct (H0 s r HI Hr E) as (g' & HI' & HQ). exists g'. split; [done|]. apply safe_ret. by rewrite E. }
  apply (steps_same i r s g); [done..|]. clear HI Hr. apply safe_bind, safe_cas; [done| |].
  - intros s1 r1 HI Hr E1. destruct (H s1 r1 HI Hr) as (g' & HI' & HQ); [congruence|]. rewrite E1 in *.
    exists g'. split; [done|]. apply safe_ret. by rewrite Z.eqb_refl.
  - intros s1 r1 HI Hr E1. apply (steps_same i r1 s1 g); [done..|]. apply safe_ret. by rewrite (proj2 (Z.eqb_neq _ _)).
Qed.

Lemma safe_LockdownSemaphore n i g l (Q : Z -> G -> Prop) : in_range l = true ->
  (forall s r, I s r -> r i = g -> steps i r (set_mem l MINUS1 s) (Q (s.(mem) l))) ->
  safe n i g (LockdownSemaphore l) Q.
Proof.
  intros Hl H. apply (safe_loop (eq g)); [|done]. intros m g' _ <-. apply safe_bind, safe_load; [done|].
  intros s r HI Hr. apply (steps_same i r s g); [done..|]. clear HI Hr. apply safe_bind, safe_cas; [done| |].
  - intros s1 r1 HI Hr E1. destruct (H s1 r1 HI Hr) as (g' & HI' & HQ). rewrite E1 in *.
    exists g'. split; [done|]. apply safe_ret. by rewrite Z.eqb_refl.
  - intros s1 r1 HI Hr E1. apply (steps_same i r1 s1 g); [done..|]. apply safe_ret. by rewrite (proj2 (Z.eqb_neq _ _)).
Qed.

(** Loops over the processors, from above and from below. *)
Lemma safe_for_down (J : nat -> G -> Prop) i body (Q : unit -> G -> Prop) : forall k n g,
  J k g ->
  (forall m x g, (m <= n)%nat -> (x < k)%nat -> J (S x) g -> safe m i g (body (Z.of_nat x)) (fun _ g' => J x g')) ->
  (forall g, J O g -> Q tt g) ->
  safe n i g (for_down k body) Q.
Proof.
  induction k as [|k IH]; intros n g Hg Hb HQ; [by apply safe_ret, HQ|]. cbn [for_down]. apply safe_bind.
  apply (safe_mono _ _ _ _ _ (fun _ g' => J k g')); [apply Hb; [lia|lia|done]|]. intros u g' Hg'. apply IH; [done| |done]. intros m x g'' Hm Hx Hj. apply Hb; [lia|lia|done].
Qed.

Lemma safe_for_up (J : Z -> G -> Prop) i body (Q : unit -> G -> Prop) : forall k from n g,
  J from g ->
  (forall m x g, (m <= n)%nat -> from <= x < from + Z.of_nat k -> J x g -> safe m i g (body x) (fun _ g' => J (x + 1) g')) ->
  (forall g, J (from + Z.of_nat k) g -> Q tt g) ->
  safe n i g (for_up from k body) Q.
Proof.
  induction k as [|k IH]; intros from n g Hg Hb HQ.
  - apply safe_ret, HQ. by rewrite Z.add_0_r.
  - cbn [for_up]. apply safe_bind.
    apply (safe_mono _ _ _ _ _ (fun _ g' => J (from + 1) g')); [apply Hb; [lia|lia|done]|]. intros u g' Hg'.
    apply (IH (from + 1)); [done| |].
    + intros m x g'' Hm Hx Hj. apply Hb; [lia|lia|done].
    + intros g'' H. apply HQ. by replace (from + Z.of_nat (S k)) with (from + 1 + Z.of_nat k) by lia.
Qed.

(** ** All processors *)

Definition all_safe (n : nat) (c : system) (r : Z -> G) : Prop :=
  I c.(shared) r /\ forall i, 0 <= i < NumCpus -> safe n i (r i) (c.(cpus) i) (fun _ _ => False).

Lemma all_safe_step n c c' r : all_safe (S n) c r -> step c c' -> exists r', all_safe n c' r'.
Proof.
  intros [HI Hs] Hst. destruct Hst as [i expired h c c' Hi He Hstep]. unfold step_cpu in Hstep.
  destruct (next _ _ _ _) as [k s| |] eqn:E; [|done|done]. injection Hstep as <-.
  pose proof (Hs i Hi) as Hn. cbn in Hn. destruct (returned _) as [a|]; [done|].
  destruct (Hn expired h _ _ HI eq_refl He) as [(k' & s' & g' & Hnext & HI' & Hsafe)|[Hnext _]]; [|congruence].
  rewrite E in Hnext. injection Hnext as <- <-.
  exists (<[i := g']> r). split; [exact HI'|]. intros j Hj. cbn [cpus]. destruct (decide (i = j)) as [->|Hij].
  - by rewrite !fn_lookup_insert.
  - rewrite !fn_lookup_insert_ne by done. eapply safe_weaken; [by apply Hs|lia|done].
Qed.

Lemma next_fault {A} (c : code A) : forall e e' h h' s, next e h c s = Fault -> next e' h' c s = Fault.
Proof.
  induction c as [A a|A B c IH k|A f| | |A b|A c IH]; intros e e' h h' s; cbn; [done| |by destruct (f s) as [[]|]|done|done|done|].
  - destruct (returned c); [done|]. destruct (next e h c s) eqn:E; [done| |done]. intros _. by rewrite (IH e e' h h' s E).
  - destruct (returned c); [done|]. destruct (next e h c s) eqn:E; [done| |done]. intros _. by rewrite (IH e e' h h' s E).
Qed.

Lemma all_safe_fails n c r i : all_safe (S n) c r -> fails_at c i -> check_refused (c.(cpus) i) c.(shared).
Proof.
  intros [HI Hs] (Hi & e & h & Hf). pose proof (Hs i Hi) as Hn. cbn in Hn.
  destruct (returned _); [done|]. destruct (Hn false h _ _ HI eq_refl) as [(k' & s' & g' & Hnext & _)|[_ Hc]]; [done| |exact Hc].
  by rewrite (next_fault _ _ false _ h _ Hf) in Hnext.
Qed.

(** In every state that is reached the invariant holds, and nobody fails but in an arrival check. *)
Lemma reached_safe (c c' : system) r : (forall n, all_safe n c r) -> reaches c c' ->
  (exists r', I c'.(shared) r') /\ forall i, fails_at c' i -> check_refused (c'.(cpus) i) c'.(shared).
Proof.
  intros Hc Hr. assert (H : forall n, exists r', all_safe n c' r').
  { induction Hr as [|c1 c2 _ IH Hstep]; intros n; [eauto|]. destruct (IH (S n)) as [r1 H1]. by apply (all_safe_step n c1 c2 r1). }
  destruct (H 1%nat) as [r' Hr']. split; [exists r'; apply Hr'|by intros i; eapply all_safe_fails].
Qed.
End Logic.
