(* ===== verification/MpInv.v ===== *)
(** * The rendezvous of processors in SMM: roles, the invariant and the steps that keep it

    The role that each processor has in a run, and what ties the shared variables to the roles of all. A run is a sequence
    of rounds: the BSP waits for a signal of every AP, then gives a signal to each. *)

From S2P Require Import Prelude MpDefs MpLogic.
From stdpp Require Import functions.
#[local] Open Scope Z_scope.

#[local] Open Scope code_scope.

(** ** Roles *)

(** The procedure given to an AP: none, to be run (with what the AP has read of it), run. *)
Inductive work := Free | Todo (Proc Param : option Z) | Ended.

(** An AP: signals sent to the BSP [boss] and taken from it, its procedure, whether it has the memory types of SMM, has saved its
    own, and is marked present. *)
Record ap := { sent : Z; taken : Z; job : work; smi : bool; saved : bool; here : bool; boss : Z }.

(** The lock [Busy] of an AP, held by the BSP: what it has stored of the procedure, and whether that is recorded. *)
Inductive hold := Held | Named (Proc : Z) | Filled (Proc Param : Z) | Recorded.

(** The BSP: before, while and after [InsideSmm] is set ([phase] 0, 1, 2); how many APs it counted, the waits completed and the
    signals received in the present one; the signals given to each AP; the APs that it found present; the lock it has; the APs that
    have no procedure; its memory types, its mark; what it has set of the common variables. *)
Record bsp := {
  phase : Z; count : Z; waits : Z; part : Z; given : Z -> Z; follows : Z -> bool; held : option (Z * hold); quiet : Z -> bool;
  bsmi : bool; bsaved : bool; bhere : bool; locked : bool; reset : bool; core : bool; named : bool
}.

(** [Out]: no part in a run; perhaps outside of SMM (0), in SMM (4), or with the lock of the interrupt table: (1), the table not
    ready (3), copied but not marked ready (2). [Counted]: counted in the run; its lock [Busy] initialised or not. *)
Inductive role := Out (idt : Z) | Counted (ready : bool) | Ap (a : ap) | Bsp (b : bsp).
Definition has_idt (h : Z) : bool := (1 <=? h) && (h <=? 3).

Definition idle_with (v : bool) : bsp := {| phase := 0; count := 0; waits := 0; part := 0; given := fun _ => 0; follows := fun _ => false; held := None;
  quiet := fun _ => true; bsmi := false; bsaved := v; bhere := false; locked := false; reset := false; core := false; named := false |}.
Definition idle : bsp := idle_with false.

Definition member (g : role) : Z := match g with Counted _ | Ap _ => 1 | _ => 0 end.
Definition signals (g : role) : Z := match g with Ap a => a.(sent) | _ => 0 end.

(** Sums over processors. *)
Fixpoint sum_to (n : nat) (f : Z -> Z) : Z := match n with O => 0 | S n => sum_to n f + f (Z.of_nat n) end.

Lemma sum_to_ext n f f' : (forall i, 0 <= i < Z.of_nat n -> f i = f' i) -> sum_to n f = sum_to n f'.
Proof. induction n as [|n IH]; intros H; [done|]. cbn. rewrite IH, H; [done|lia|]. intros i Hi. apply H. lia. Qed.

Lemma sum_to_insert n f i v : sum_to n (<[i := v]> f) = if (0 <=? i) && (i <? Z.of_nat n) then sum_to n f - f i + v else sum_to n f.
Proof.
  induction n as [|n IH]; cbn [sum_to]; [destruct (Z.leb_spec 0 i), (Z.ltb_spec i (Z.of_nat 0)); cbn [andb]; lia|]. rewrite IH.
  destruct (decide (i = Z.of_nat n)) as [->|Hi].
  - rewrite fn_lookup_insert. destruct (Z.leb_spec 0 (Z.of_nat n)), (Z.ltb_spec (Z.of_nat n) (Z.of_nat n)), (Z.ltb_spec (Z.of_nat n) (Z.of_nat (S n))); cbn [andb]; lia.
  - rewrite fn_lookup_insert_ne by done.
    destruct (Z.leb_spec 0 i), (Z.ltb_spec i (Z.of_nat n)), (Z.ltb_spec i (Z.of_nat (S n))); cbn [andb]; lia.
Qed.

Lemma sum_to_le n f f' : (forall i, 0 <= i < Z.of_nat n -> f i <= f' i) -> sum_to n f <= sum_to n f'.
Proof. induction n as [|n IH]; intros H; [done|]. cbn [sum_to]. pose proof (H (Z.of_nat n) ltac:(lia)). enough (sum_to n f <= sum_to n f') by lia. apply IH. intros i Hi. apply H. lia. Qed.

Lemma sum_to_tight n f f' : (forall i, 0 <= i < Z.of_nat n -> f i <= f' i) -> sum_to n f' <= sum_to n f ->
  forall i, 0 <= i < Z.of_nat n -> f i = f' i.
Proof.
  induction n as [|n IH]; intros H Hs i Hi; [lia|]. cbn [sum_to] in Hs.
  pose proof (sum_to_le n f f' ltac:(intros j Hj; apply H; lia)). pose proof (H (Z.of_nat n) ltac:(lia)).
  destruct (decide (i = Z.of_nat n)) as [->|Hn]; [lia|]. apply IH; [|lia|lia]. intros j Hj. apply H. lia.
Qed.

Lemma sum_to_scale n c f : sum_to n (fun i => c * f i) = c * sum_to n f.
Proof. induction n as [|n IH]; cbn [sum_to]; [lia|]. rewrite IH. ring. Qed.

Lemma sum_to_nonneg n f : (forall i, 0 <= i < Z.of_nat n -> 0 <= f i) -> 0 <= sum_to n f.
Proof. induction n as [|n IH]; intros H; [done|]. cbn [sum_to]. pose proof (H (Z.of_nat n) ltac:(lia)). enough (0 <= sum_to n f) by lia. apply IH. intros i Hi. apply H. lia. Qed.

Section Inv.
Context {SC : SmmConfig} (os : Z -> MTRR_SETTINGS).

Definition members (r : Z -> role) : Z := sum_to mMaxNumberOfCpus (fun i => member (r i)).
Definition signalled (r : Z -> role) : Z := sum_to mMaxNumberOfCpus (fun i => signals (r i)).

(** ** The invariant

    The BSP of the run, if there is one; what it knows. *)
Definition bsp_of (r : Z -> role) (lead : option Z) : bsp :=
  match lead with Some b => match r b with Bsp B => B | _ => idle end | None => idle end.

Definition holds (B : bsp) (i : Z) : option hold := match B.(held) with Some (j, c) => if i =? j then Some c else None | None => None end.
Definition flag (b : bool) : Z := if b then 1 else 0.
Definition held_by (h : option hold) : bool := match h with Some _ => true | None => false end.
Definition working (w : work) : bool := match w with Free => false | _ => true end.
Definition recorded (h : option hold) (w : work) (pending : bool) : bool :=
  pending || match h with Some Recorded => true | _ => false end || match w with Todo _ _ => true | _ => false end.

(** A processor without a part in the run. *)
Definition unused (s : smm) (pending : bool) (i : Z) : Prop :=
  s.(mem) (Run i) = 0 /\ s.(mem) (Present i) = 0 /\ s.(hw).(Mtrrs) i = os i /\ s.(hw).(Scheduled) i = s.(hw).(Ran) i /\ pending = false.

(** An AP: signals, ... *)
Definition ap_signals (s : smm) (B : bsp) (pending : bool) (i : Z) (a : ap) : Prop :=
  0 <= a.(taken) <= a.(sent) /\ a.(sent) <= a.(taken) + 1 /\ B.(waits) <= a.(sent) <= 5 /\ a.(taken) <= B.(given) i <= B.(waits) /\
  s.(mem) (Run i) = B.(given) i - a.(taken) + flag pending.

(** ... memory types and presence, ... *)
Definition ap_state (s : smm) (i : Z) (a : ap) : Prop :=
  s.(hw).(InSmm) i = true /\ s.(mem) (Present i) = flag a.(here) /\ s.(hw).(Mtrrs) i = (if a.(smi) then gSmiMtrrs else os i) /\
  s.(hw).(Saved) i = a.(saved) /\ (2 <= a.(sent) -> a.(taken) <= 3 -> a.(saved) = true) /\
  (3 <= a.(sent) -> a.(taken) <= 3 -> a.(smi) = true) /\ (a.(taken) <= 1 \/ a.(sent) = 5 -> a.(smi) = false) /\
  (1 <= a.(sent) -> a.(taken) <= 4 -> a.(here) = true).

(** ... and the procedure given to it. *)
Definition ap_job (s : smm) (B : bsp) (pending : bool) (i : Z) (a : ap) : Prop :=
  s.(mem) (Busy i) = flag (held_by (holds B i)) + flag pending + flag (working a.(job)) /\ s.(mem) (Busy i) <= 1 /\
  (B.(quiet) i = true -> pending = false /\ a.(job) = Free) /\ (working a.(job) = true -> a.(sent) = 3 /\ a.(taken) = 2) /\
  (forall Proc Param, a.(job) = Todo Proc Param -> default (s.(mem) (Procedure i)) Proc = s.(mem) (Procedure i) /\
     default (s.(mem) (Parameter_ i)) Param = s.(mem) (Parameter_ i)) /\
  match holds B i with
  | Some (Named Proc) => s.(mem) (Procedure i) = Proc
  | Some (Filled Proc Param) => s.(mem) (Procedure i) = Proc /\ s.(mem) (Parameter_ i) = Param
  | _ => True
  end /\
  s.(hw).(Scheduled) i = s.(hw).(Ran) i ++
    (if recorded (holds B i) a.(job) pending then [(s.(mem) (Procedure i), s.(mem) (Parameter_ i))] else []).

Definition cpu_ok (s : smm) (B : bsp) (pending : bool) (i : Z) (g : role) : Prop :=
  match g with
  | Out h => unused s pending i /\ (h <> 0 -> s.(hw).(InSmm) i = true)
  | Counted ready => unused s pending i /\ s.(hw).(InSmm) i = true /\ (ready = true -> s.(mem) (Busy i) = 0) /\ B.(waits) = 0
  | Ap a => ap_signals s B pending i a /\ ap_state s i a /\ ap_job s B pending i a
  | Bsp b => s.(hw).(InSmm) i = true /\ s.(mem) (Present i) = flag b.(bhere) /\
      s.(hw).(Mtrrs) i = (if b.(bsmi) then gSmiMtrrs else os i) /\ s.(hw).(Scheduled) i = s.(hw).(Ran) i /\ pending = false /\
      s.(hw).(Saved) i = b.(bsaved)
  end.

(** What holds of the BSP's own knowledge; [gone] APs have finished. *)
Record bsp_ok (B : bsp) (gone : Z) : Prop := {
  bo_phase : 0 <= B.(phase) <= 2;
  bo_waits : 0 <= B.(waits) <= 6;
  bo_part : 0 <= B.(part);
  bo_gone : 0 <= gone;
  bo_gone_late : 0 < gone -> 5 <= B.(waits);
  bo_early : B.(locked) = false -> B.(waits) = 0 /\ B.(part) = 0 /\ gone = 0;
  bo_phase0 : B.(phase) = 0 -> B.(locked) = false;
  bo_phase1 : B.(phase) = 1 -> B.(waits) <= 3;
  bo_phase2 : B.(phase) = 2 -> 3 <= B.(waits) /\ B.(locked) = true /\ forall i, B.(quiet) i = true;
  bo_count : 0 <= B.(count) <= NumCpus;
  bo_given : forall i, 0 <= B.(given) i <= B.(waits) /\ (3 <= B.(given) i -> B.(phase) = 2);
  bo_saved : 2 <= B.(waits) -> B.(phase) = 1 -> B.(bsaved) = true;
  bo_quiet : forall i, B.(quiet) i = false -> B.(follows) i = true /\ B.(phase) = 1 /\ B.(waits) = 3 /\ B.(locked) = true /\ B.(part) = 0;
  bo_held : forall i c, B.(held) = Some (i, c) -> B.(quiet) i = false;
  bo_core : B.(core) = true -> B.(phase) = 1 /\ B.(waits) = 3 /\ B.(bsmi) = true;
  bo_smi : B.(bsmi) = true -> 2 <= B.(waits) <= 5;
  bo_reset : B.(reset) = true -> B.(waits) = 6
}.

(** The variables of the run. *)
Record run_ok (s : smm) (r : Z -> role) (lead : option Z) (B : bsp) (gone : Z) : Prop := {
  ro_counter : s.(mem) Counter = if B.(locked) then MINUS1 else members r + match lead with Some _ => 1 | None => 0 end;
  ro_count : B.(locked) = true -> members r + gone = B.(count);
  ro_inside : s.(mem) InsideSmm = flag (B.(phase) =? 1);
  ro_index : s.(mem) BspIndex = match lead with Some b => if B.(reset) then idle_index else b | None => idle_index end;
  ro_core : s.(hw).(InCore) = B.(core);
  ro_named : B.(named) = true -> lead = Some (s.(mem) CurrentlyExecutingCpu);
  ro_run : forall b, lead = Some b -> 0 <= s.(mem) (Run b) /\ s.(mem) (Run b) + (B.(waits) * B.(count) + B.(part)) = signalled r + 6 * gone;
  ro_cpus : s.(mem) mNumberOfCpus = NumCpus;
  ro_operation : forall i, s.(mem) (Operation i) <> SmmCpuAdd /\ s.(mem) (Operation i) <> SmmCpuRemove
}.

(** The exception handlers. *)
Record idt_ok (s : smm) (r : Z -> role) : Prop := {
  io_one : forall i j h k, r i = Out h -> r j = Out k -> has_idt h = true -> has_idt k = true -> i = j;
  io_lock : forall i h, r i = Out h -> has_idt h = true -> s.(mem) mIdtTableLock = ACQUIRED;
  io_copies : forall i, r i = Out 2 -> s.(hw).(IdtCopies) = 1 /\ s.(mem) mExceptionHandlerReady = 0;
  io_zero : forall i, r i = Out 3 -> s.(mem) mExceptionHandlerReady = 0;
  io_ready : (forall i, r i <> Out 2) -> s.(hw).(IdtCopies) = s.(mem) mExceptionHandlerReady /\ 0 <= s.(hw).(IdtCopies) <= 1
}.

Record inv (s : smm) (r : Z -> role) (lead : option Z) (pending : Z -> bool) (gone : Z) : Prop := {
  iv_range : forall i, ~ 0 <= i < NumCpus -> r i = Out 0;
  iv_lead : forall b, lead = Some b -> 0 <= b < NumCpus /\ (exists B, r b = Bsp B) /\ (PcdCpuSmmEnableBspElection = false -> b = 0);
  iv_one : forall i B, r i = Bsp B -> lead = Some i;
  iv_ap : forall i a, r i = Ap a -> lead = Some a.(boss) /\ (bsp_of r lead).(phase) <> 0;
  iv_follow : forall i, (bsp_of r lead).(follows) i = true -> (bsp_of r lead).(given) i <= 4 -> exists a, r i = Ap a;
  iv_bsp : bsp_ok (bsp_of r lead) gone;
  iv_run : run_ok s r lead (bsp_of r lead) gone;
  iv_cpu : forall i, cpu_ok s (bsp_of r lead) (pending i) i (r i);
  iv_idt : idt_ok s r
}.

Definition Inv (s : smm) (r : Z -> role) : Prop := exists lead pending gone, inv s r lead pending gone.
End Inv.

#[local] Open Scope code_scope.

(** Reads of a state after an update. *)
Ltac look := cbn [mem hw set_mem Mtrrs InSmm Saved InCore IdtCopies Scheduled Ran Ipis
  sends_ipi copies_idt is_in_smm is_in_core has_mtrrs schedules runs];
  repeat first [rewrite !fn_lookup_insert | rewrite fn_lookup_insert_ne by congruence].

Create HintDb mp discriminated.

Lemma u32_nonneg x : 0 <= u32 x.
Proof. by apply wrap_bounds. Qed.

Section Step.
Context {SC : SmmConfig} (os : Z -> MTRR_SETTINGS).
Notation inv := (inv os).
Notation cpu_ok := (cpu_ok os).

(** ** What a step leaves alone *)

(** Of processor [j]: all but its semaphore. *)
Definition same_cpu (s s' : smm) (j : Z) : Prop :=
  s'.(mem) (Present j) = s.(mem) (Present j) /\ s'.(mem) (Busy j) = s.(mem) (Busy j) /\
  s'.(mem) (Procedure j) = s.(mem) (Procedure j) /\ s'.(mem) (Parameter_ j) = s.(mem) (Parameter_ j) /\
  s'.(hw).(Mtrrs) j = s.(hw).(Mtrrs) j /\ s'.(hw).(InSmm) j = s.(hw).(InSmm) j /\ s'.(hw).(Saved) j = s.(hw).(Saved) j /\
  s'.(hw).(Scheduled) j = s.(hw).(Scheduled) j /\ s'.(hw).(Ran) j = s.(hw).(Ran) j.

Definition same_vars (s s' : smm) : Prop :=
  s'.(mem) Counter = s.(mem) Counter /\ s'.(mem) InsideSmm = s.(mem) InsideSmm /\ s'.(mem) BspIndex = s.(mem) BspIndex /\
  s'.(hw).(InCore) = s.(hw).(InCore) /\ s'.(mem) CurrentlyExecutingCpu = s.(mem) CurrentlyExecutingCpu /\
  s'.(mem) mNumberOfCpus = s.(mem) mNumberOfCpus /\ (forall i, s'.(mem) (Operation i) = s.(mem) (Operation i)).

Definition same_idt (s s' : smm) : Prop :=
  s'.(mem) mIdtTableLock = s.(mem) mIdtTableLock /\ s'.(mem) mExceptionHandlerReady = s.(mem) mExceptionHandlerReady /\
  s'.(hw).(IdtCopies) = s.(hw).(IdtCopies).

Definition is_bsp (g : role) : bool := match g with Bsp _ => true | _ => false end.

Lemma cpu_ok_same s s' B B' p j g : same_cpu s s' j ->
  (is_bsp g = false -> s'.(mem) (Run j) = s.(mem) (Run j)) ->
  B'.(waits) = B.(waits) -> B'.(given) j = B.(given) j -> holds B' j = holds B j -> B'.(quiet) j = B.(quiet) j ->
  cpu_ok s B p j g -> cpu_ok s' B' p j g.
Proof.
  intros (H1 & H2 & H3 & H4 & H5 & H6 & H7 & H8 & H9) HR HW HG HH HQ.
  destruct g as [h|rd|a|b]; cbn [cpu_ok]; unfold unused, ap_signals, ap_state, ap_job;
    rewrite ?H1, ?H2, ?H3, ?H4, ?H5, ?H6, ?H7, ?H8, ?H9, ?HW, ?HG, ?HH, ?HQ, ?HR by done; done.
Qed.

Lemma bsp_of_insert r lead i g : lead <> Some i -> bsp_of (<[i := g]> r) lead = bsp_of r lead.
Proof. destruct lead as [b|]; [|done]. intros H. cbn. by rewrite fn_lookup_insert_ne by congruence. Qed.

Lemma bsp_of_lead r b B : bsp_of (<[b := Bsp B]> r) (Some b) = B.
Proof. cbn. by rewrite fn_lookup_insert. Qed.

Lemma sum_role (f : role -> Z) r i g : 0 <= i < NumCpus ->
  sum_to mMaxNumberOfCpus (fun j => f ((<[i := g]> r : Z -> role) j)) = sum_to mMaxNumberOfCpus (fun j => f (r j)) - f (r i) + f g.
Proof.
  intros Hi. rewrite (sum_to_ext _ _ (<[i := f g]> (fun j => f (r j)))).
  - rewrite sum_to_insert. unfold NumCpus in Hi. rewrite (proj2 (Z.leb_le _ _)), (proj2 (Z.ltb_lt _ _)) by lia. done.
  - intros j _. destruct (decide (i = j)) as [->|Hj]; [by rewrite !fn_lookup_insert|by rewrite !fn_lookup_insert_ne].
Qed.

Lemma members_insert r i g : 0 <= i < NumCpus -> members (<[i := g]> r) = members r - member (r i) + member g.
Proof. apply (sum_role member). Qed.
Lemma signalled_insert r i g : 0 <= i < NumCpus -> signalled (<[i := g]> r) = signalled r - signals (r i) + signals g.
Proof. apply (sum_role signals). Qed.

Lemma run_ok_same s s' r r' lead B gone : same_vars s s' -> (forall b, lead = Some b -> s'.(mem) (Run b) = s.(mem) (Run b)) ->
  members r' = members r -> signalled r' = signalled r -> run_ok s r lead B gone -> run_ok s' r' lead B gone.
Proof.
  intros (H1 & H2 & H3 & H4 & H5 & H6 & H7) HR HM HS [R1 R2 R3 R4 R5 R6 R7 R8 R9].
  split; rewrite ?H1, ?H2, ?H3, ?H4, ?H5, ?H6, ?HM; try done.
  - intros b Hb. rewrite HR, HS by done. by apply R7.
  - intros i. rewrite H7. apply R9.
Qed.

Lemma idt_ok_same s s' r r' : same_idt s s' -> (forall i h, has_idt h = true -> r' i = Out h <-> r i = Out h) -> idt_ok s r -> idt_ok s' r'.
Proof.
  intros (H1 & H2 & H3) HO [I1 I2 I3 I5 I4]. split.
  - intros i j h k Hi Hj Hh Hk. apply (I1 i j h k); [by apply (HO i h Hh)|by apply (HO j k Hk)|done|done].
  - intros i h Hi Hh. rewrite H1. apply (I2 i h); [by apply (HO i h Hh)|done].
  - intros i Hi. rewrite H2, H3. apply (I3 i). by apply HO.
  - intros i Hi. rewrite H2. apply (I5 i). by apply HO.
  - intros Hn. rewrite H2, H3. apply I4. intros i Hi. apply (Hn i). by apply HO.
Qed.

#[export] Instance Inv_ext : OfRoles (Inv os).
Proof.
  intros s r r' He (lead & p & gone & [J1 J2 J3 J4 J5 J6 J7 J8 J9]). exists lead, p, gone.
  assert (HB : bsp_of r' lead = bsp_of r lead) by (destruct lead; cbn; by rewrite ?He).
  split; rewrite ?HB.
  - intros i Hi. rewrite <- He. by apply J1.
  - intros b Hb. rewrite <- He. by apply J2.
  - intros i B. rewrite <- He. apply J3.
  - intros i a. rewrite <- He. apply J4.
  - intros i. rewrite <- He. apply J5.
  - done.
  - eapply run_ok_same; [| | | |exact J7]; [by repeat split|done| |]; apply sum_to_ext; intros; by rewrite He.
  - intros i. rewrite <- He. apply J8.
  - eapply idt_ok_same; [by repeat split| |exact J9]. intros. by rewrite He.
Qed.

(** A step of a processor that is not the BSP, before and after. *)
Lemma inv_step s s' r lead p gone i g g' q gone' :
  inv s r lead p gone -> r i = g -> is_bsp g = false -> is_bsp g' = false -> 0 <= i < NumCpus ->
  (forall j, j <> i -> same_cpu s s' j /\ (lead <> Some j -> s'.(mem) (Run j) = s.(mem) (Run j))) ->
  bsp_ok (bsp_of r lead) gone' ->
  run_ok s' (<[i := g']> r) lead (bsp_of r lead) gone' ->
  cpu_ok s' (bsp_of r lead) q i g' ->
  idt_ok s' (<[i := g']> r) ->
  (forall a, g' = Ap a -> lead = Some a.(boss) /\ (bsp_of r lead).(phase) <> 0) ->
  ((bsp_of r lead).(follows) i = true -> (bsp_of r lead).(given) i <= 4 -> exists a, g' = Ap a) ->
  inv s' (<[i := g']> r) lead (<[i := q]> p) gone'.
Proof.
  intros [J1 J2 J3 J4 J5 J6 J7 J8 J9] Hr Hg Hg' Hi Hsame HB HR HC HI HA HH.
  assert (Hl : lead <> Some i).
  { intros ->. destruct (J2 i eq_refl) as (_ & [B Hb] & _). by rewrite <- Hr, Hb in Hg. }
  assert (Heq : bsp_of (<[i := g']> r) lead = bsp_of r lead) by by apply bsp_of_insert.
  split; rewrite ?Heq; try done.
  - intros j Hj. destruct (decide (i = j)) as [->|Hij]; [done|]. rewrite fn_lookup_insert_ne by done. by apply J1.
  - intros b Hb. destruct (J2 b Hb) as (Hb1 & Hb2 & Hb3). by rewrite fn_lookup_insert_ne by congruence.
  - intros j B. destruct (decide (i = j)) as [->|Hij]; [rewrite fn_lookup_insert; by intros ->|].
    rewrite fn_lookup_insert_ne by done. apply J3.
  - intros j a. destruct (decide (i = j)) as [->|Hij]; [rewrite fn_lookup_insert; apply HA|].
    rewrite fn_lookup_insert_ne by done. apply J4.
  - intros j. destruct (decide (i = j)) as [->|Hij]; [rewrite fn_lookup_insert; apply HH|].
    rewrite fn_lookup_insert_ne by done. apply J5.
  - intros j. destruct (decide (i = j)) as [->|Hij]; [by rewrite !fn_lookup_insert|].
    rewrite !fn_lookup_insert_ne by done. destruct (Hsame j) as [Hs HRj]; [done|].
    eapply cpu_ok_same; [exact Hs| |done..|apply J8]. intros Hj. apply HRj. intros ->.
    destruct (J2 j eq_refl) as (_ & [B Hb] & _). by rewrite Hb in Hj.
Qed.

Definition no_idt (g : role) : bool := match g with Out h => negb (has_idt h) | _ => true end.

Lemma idt_ok_role s s' r i g g' : idt_ok s r -> same_idt s s' -> r i = g -> no_idt g = true -> no_idt g' = true -> idt_ok s' (<[i := g']> r).
Proof.
  intros H Hs Hr Hg Hg'. apply (idt_ok_same s s' r); [done| |done]. intros j h Hh. destruct (decide (i = j)) as [<-|Hj].
  - rewrite fn_lookup_insert, Hr. split; intros ->; cbn in *; by rewrite Hh in *.
  - by rewrite fn_lookup_insert_ne.
Qed.

(** A step of the BSP. *)
Lemma inv_bsp s s' r b B B' p p' gone :
  inv s r (Some b) p gone -> r b = Bsp B ->
  (forall j, j <> b -> cpu_ok s B (p j) j (r j) -> cpu_ok s' B' (p' j) j (r j)) ->
  cpu_ok s' B' (p' b) b (Bsp B') ->
  bsp_ok B' gone ->
  run_ok s' (<[b := Bsp B']> r) (Some b) B' gone ->
  same_idt s s' ->
  (forall i a, r i = Ap a -> B'.(phase) <> 0) ->
  (forall i, B'.(follows) i = true -> B'.(given) i <= 4 -> exists a, r i = Ap a) ->
  inv s' (<[b := Bsp B']> r) (Some b) p' gone.
Proof.
  intros [J1 J2 J3 J4 J5 J6 J7 J8 J9] Hr Hother Hself HB HR HI HA HH. destruct (J2 b eq_refl) as (Hb1 & Hb2 & Hb3).
  split; rewrite ?bsp_of_lead; try done.
  - intros j Hj. rewrite fn_lookup_insert_ne by congruence. by apply J1.
  - intros b' Hb'. injection Hb' as <-. rewrite fn_lookup_insert. eauto.
  - intros j B1. destruct (decide (b = j)) as [->|Hij]; [done|]. rewrite fn_lookup_insert_ne by done. apply J3.
  - intros j a. destruct (decide (b = j)) as [->|Hij]; [by rewrite fn_lookup_insert|].
    rewrite fn_lookup_insert_ne by done. intros Ha. split; [by apply (J4 j a)|by apply (HA j a)].
  - intros j Hc Hg. destruct (HH j Hc Hg) as [a Ha]. exists a. rewrite fn_lookup_insert_ne; [done|]. intros ->. congruence.
  - intros j. destruct (decide (b = j)) as [->|Hij]; [by rewrite fn_lookup_insert|]. rewrite fn_lookup_insert_ne by done.
    apply Hother; [done|]. specialize (J8 j). cbn [bsp_of] in J8. by rewrite Hr in J8.
  - eapply idt_ok_same; [exact HI| |exact J9]. intros j h Hh. destruct (decide (b = j)) as [->|Hij].
    + rewrite fn_lookup_insert, Hr. split; by intros.
    + by rewrite fn_lookup_insert_ne.
Qed.

(** A step that changes nothing of this. *)
Lemma inv_quiet s s' r : Inv os s r -> (forall j, same_cpu s s' j /\ s'.(mem) (Run j) = s.(mem) (Run j)) -> same_vars s s' -> same_idt s s' -> Inv os s' r.
Proof.
  intros (lead & p & gone & [J1 J2 J3 J4 J5 J6 J7 J8 J9]) Hc Hv Hi. exists lead, p, gone. split; try done.
  - eapply run_ok_same; [exact Hv| |done|done|exact J7]. intros b _. apply Hc.
  - intros j. eapply cpu_ok_same; [apply Hc| |done..|apply J8]. intros _. apply Hc.
  - eapply idt_ok_same; [exact Hi|done|exact J9].
Qed.

(** A lock that the BSP holds is that of an AP. *)
Lemma held_is_ap s r lead p gone i c : inv s r lead p gone -> (bsp_of r lead).(held) = Some (i, c) -> exists a, r i = Ap a.
Proof.
  intros J Hh. pose proof (iv_bsp _ _ _ _ _ _ J) as Hok. destruct (bo_quiet _ _ Hok i (bo_held _ _ Hok i c Hh)) as (Hf & Hp & _).
  apply (iv_follow _ _ _ _ _ _ J i Hf). destruct (bo_given _ _ Hok i) as [_ Hg]. destruct (Z.le_gt_cases 3 (given (bsp_of r lead) i)) as [H3|H3]; [|lia].
  rewrite (Hg H3) in Hp. done.
Qed.

(** Members are counted once, and the BSP is none of them. *)
Lemma members_bound s r lead p gone : inv s r lead p gone -> 0 <= members r /\ members r + (match lead with Some _ => 1 | None => 0 end) <= NumCpus.
Proof.
  intros J. assert (H01 : forall i, 0 <= member (r i) <= 1) by (intros i; destruct (r i); cbn; lia).
  split; [apply sum_to_nonneg; intros; apply H01|].
  assert (H1 : forall n, sum_to n (fun _ => 1) = Z.of_nat n) by (induction n as [|n IH]; cbn [sum_to]; lia).
  destruct lead as [b|].
  - destruct (iv_lead _ _ _ _ _ _ J b eq_refl) as (Hb & [B HB] & _). unfold NumCpus in *.
    assert (Hle : members r <= sum_to mMaxNumberOfCpus (<[b := 0]> (fun _ => 1))).
    { apply sum_to_le. intros i _. destruct (decide (b = i)) as [<-|Hi]; [rewrite fn_lookup_insert, HB; done|].
      rewrite fn_lookup_insert_ne by done. apply H01. }
    rewrite sum_to_insert, H1, (proj2 (Z.leb_le _ _)), (proj2 (Z.ltb_lt _ _)) in Hle by lia. cbn [andb] in Hle. lia.
  - assert (Hle : members r <= sum_to mMaxNumberOfCpus (fun _ => 1)) by (apply sum_to_le; intros; apply H01).
    rewrite H1 in Hle. unfold NumCpus. lia.
Qed.

Lemma in_range_cpu i : 0 <= i < NumCpus -> in_range (Run i) = true.
Proof. unfold NumCpus. intros H. cbn. by rewrite (proj2 (Z.leb_le _ _)), (proj2 (Z.ltb_lt _ _)) by lia. Qed.

(** Stores to variables that no role depends on. *)
Definition free_loc (l : loc) : bool :=
  match l with AllCpusInSync | SyncModeToBeSet | EffectiveSyncMode | SwitchBsp | CandidateBsp _ => true | _ => false end.

Lemma safe_write n i g l v (Q : unit -> role -> Prop) : free_loc l = true -> in_range l = true -> Q tt g ->
  safe (Inv os) n i g (store l v) Q.
Proof.
  intros Hf Hl HQ. apply (safe_store (Inv os)); [done|]. intros s r HI Hr. exists g. split; [|done]. apply (I_same (Inv os)); [|done].
  apply (inv_quiet s); [done|..].
  - intros j. destruct l; try done; split; repeat split; by look.
  - destruct l; try done; repeat split; intros; by look.
  - destruct l; try done; repeat split; by look.
Qed.

Lemma safe_SendSmiIpi n i g id (Q : unit -> role -> Prop) : Q tt g -> safe (Inv os) n i g (SendSmiIpi id) Q.
Proof.
  intros HQ. apply (safe_hook (Inv os)). intros s r HI Hr. exists g. split; [|done]. apply (I_same (Inv os)); [|done]. apply (inv_quiet s); [done|..]; repeat split.
Qed.
End Step.

#[export] Hint Resolve in_range_cpu : mp.

(** Proof steps: a sequence, a read, the end; the invariant is that of the goal. *)
Ltac on_inv tac := lazymatch goal with |- MpLogic.safe ?I _ _ _ _ _ => tac I end.
Ltac range := first [done | by apply in_range_cpu].
Ltac sbind := on_inv ltac:(fun I => apply (safe_bind I)).
Ltac sread v := on_inv ltac:(fun I => apply (safe_read I)); [range | intros v].
Ltac others := intros; split; repeat split; by look.
