(* ===== verification/MpAp.v ===== *)
(** * The rendezvous of processors in SMM: entry, check-in and election, and the part of an AP *)

From S2P Require Import Prelude MpDefs MpLogic MpInv.
From stdpp Require Import functions.
#[local] Open Scope Z_scope.

#[local] Open Scope code_scope.

Section Entry.
Context {SC : SmmConfig} (os : Z -> MTRR_SETTINGS).
Notation inv := (inv os).
Notation safe := (safe (Inv os)).
Notation steps := (steps (Inv os)).

(** Between runs, or not yet in one. *)
Lemma out_step s s' r i h h' (Q : role -> Prop) : 0 <= i < NumCpus -> Inv os s r -> r i = Out h ->
  (forall j, same_cpu s s' j /\ s'.(mem) (Run j) = s.(mem) (Run j)) -> same_vars s s' -> idt_ok s' (<[i := Out h']> r) ->
  (h = 0 -> h' = 0) -> Q (Out h') -> steps i r s' Q.
Proof.
  intros Hi (lead & p & gone & J) Hr Hc Hv HI H0 HQ. exists (Out h'). split; [|done]. exists lead, (<[i := p i]> p), gone.
  pose proof J as [J1 J2 J3 J4 J5 J6 J7 J8 J9]. apply (inv_step os s s' r lead p gone i (Out h)); try done.
  - intros j _. split; [apply Hc|intros _; apply Hc].
  - eapply run_ok_same; [exact Hv|intros; apply Hc| | |exact J7].
    + rewrite members_insert by done. rewrite Hr. cbn. lia.
    + rewrite signalled_insert by done. rewrite Hr. cbn. lia.
  - specialize (J8 i). rewrite Hr in J8.
    assert (Hh : cpu_ok os s (bsp_of r lead) (p i) i (Out h')) by (split; [apply J8|intros Hh; apply J8; naive_solver]).
    eapply cpu_ok_same; [apply Hc|intros _; apply Hc|done..|exact Hh].
  - intros F1 F2. destruct (J5 i F1 F2) as [a Ha]. congruence.
Qed.

(** Nobody else has the lock of the interrupt table. *)
Lemma idt_insert s s' r i h h' : idt_ok s r -> r i = Out h -> (has_idt h = true \/ s.(mem) mIdtTableLock = RELEASED) ->
  (has_idt h' = true -> s'.(mem) mIdtTableLock = ACQUIRED) ->
  (h' = 2 -> s'.(hw).(IdtCopies) = 1 /\ s'.(mem) mExceptionHandlerReady = 0) ->
  (h' = 3 -> s'.(mem) mExceptionHandlerReady = 0) ->
  (h' <> 2 -> s'.(hw).(IdtCopies) = s'.(mem) mExceptionHandlerReady /\ 0 <= s'.(hw).(IdtCopies) <= 1) ->
  idt_ok s' (<[i := Out h']> r).
Proof.
  intros [I1 I2 I3 I5 I4] Hr Hh H1 H2 H3 H4.
  assert (Hno : forall j k, j <> i -> r j = Out k -> has_idt k = false).
  { intros j k Hj Hk. destruct (has_idt k) eqn:Hne; [|done]. exfalso. destruct Hh as [Hh|Hh].
    - apply Hj. by apply (I1 j i k h).
    - pose proof (I2 j k Hk Hne) as Hl. rewrite Hh in Hl. discriminate Hl. }
  split.
  - intros j k a b. destruct (decide (i = j)) as [<-|Hj], (decide (i = k)) as [<-|Hk]; rewrite ?fn_lookup_insert, ?fn_lookup_insert_ne by done;
      intros Ha Hb Ha0 Hb0; try done; [apply Hno in Hb|apply Hno in Ha|apply Hno in Ha]; congruence.
  - intros j a. destruct (decide (i = j)) as [<-|Hj]; rewrite ?fn_lookup_insert, ?fn_lookup_insert_ne by done;
      intros Ha Ha0; [injection Ha as <-; by apply H1|apply Hno in Ha; congruence].
  - intros j. destruct (decide (i = j)) as [<-|Hj]; rewrite ?fn_lookup_insert, ?fn_lookup_insert_ne by done;
      intros Ha; [injection Ha as ->; by apply H2|by apply Hno in Ha].
  - intros j. destruct (decide (i = j)) as [<-|Hj]; rewrite ?fn_lookup_insert, ?fn_lookup_insert_ne by done;
      intros Ha; [injection Ha as ->; by apply H3|by apply Hno in Ha].
  - intros Hn. apply H4. intros ->. apply (Hn i). by rewrite fn_lookup_insert.
Qed.

(** What the holder of the lock knows. *)
Lemma idt_holder s r i h : idt_ok s r -> r i = Out h -> has_idt h = true -> h <> 2 ->
  s.(mem) mIdtTableLock = ACQUIRED /\ s.(hw).(IdtCopies) = s.(mem) mExceptionHandlerReady /\ 0 <= s.(hw).(IdtCopies) <= 1.
Proof.
  intros [I1 I2 I3 I5 I4] Hr H0 H2. split; [by apply (I2 i h)|]. apply I4. intros j Hj.
  assert (j = i) as -> by (by apply (I1 j i 2 h)). congruence.
Qed.

Lemma safe_install_handlers n i (Q : unit -> role -> Prop) : 0 <= i < NumCpus -> Q tt (Out 4) -> safe n i (Out 4) install_handlers Q.
Proof.
  intros Hi HQ. apply (safe_bind (Inv os)), (safe_read (Inv os)); [done|]. intros v. destruct (v =? FALSE); [|by apply safe_ret].
  apply (safe_bind (Inv os)), (safe_lock (Inv os)); [done|]. intros s r HI Hr Hl.
  assert (Hidt : idt_ok s r) by (by destruct HI as (? & ? & ? & []); done).
  eapply (out_step s _ r i 4 1); [done..|others|repeat split; intros; by look| |done|].
  { eapply (idt_insert s _ r i 4); [done|done|by right|by intros _; look|done|done|]. intros _. look. apply (io_ready _ _ Hidt).
    intros j Hj. pose proof (io_lock _ _ Hidt j 2 Hj ltac:(done)) as Hx. rewrite Hl in Hx. discriminate Hx. }
  clear s r HI Hr Hl Hidt.
  apply (safe_bind (Inv os)), (safe_load (Inv os)); [done|]. intros s r HI Hr.
  assert (Hidt : idt_ok s r) by (by destruct HI as (? & ? & ? & []); done).
  destruct (idt_holder s r i 1 Hidt Hr) as (Hl & Hc & Hc1); [done..|].
  assert (Hunlock : forall m, safe m i (Out 1) (ReleaseSpinLock mIdtTableLock) Q).
  { intros m. apply (safe_store (Inv os)); [done|]. clear s r HI Hr Hidt Hl Hc Hc1. intros s r HI Hr.
    assert (Hidt : idt_ok s r) by (by destruct HI as (? & ? & ? & []); done).
    destruct (idt_holder s r i 1 Hidt Hr) as (Hl & Hc & Hc1); [done..|].
    eapply (out_step s _ r i 1 4); [done..|others|repeat split; intros; by look| |done|done].
    eapply (idt_insert s _ r i 1); [done|done|by left|done|done|done|by intros _; look]. }
  destruct (Z.eqb_spec (s.(mem) mExceptionHandlerReady) FALSE) as [E|E]; [|apply (steps_same (Inv os) i r s (Out 1)); [done..|]; by apply (safe_bind (Inv os)), safe_ret].
  eapply (out_step s s r i 1 3); [done..|others|by repeat split| |done|].
  { eapply (idt_insert s s r i 1); [done|done|by left|done|done|done|done]. }
  clear s r HI Hr Hidt Hl Hc Hc1 E. apply (safe_bind (Inv os)), (safe_bind (Inv os)), (safe_hook (Inv os)). intros s r HI Hr.
  assert (Hidt : idt_ok s r) by (by destruct HI as (? & ? & ? & []); done).
  destruct (idt_holder s r i 3 Hidt Hr) as (Hl & Hc & Hc1); [done..|]. pose proof (io_zero _ _ Hidt i Hr) as Hz.
  eapply (out_step s _ r i 3 2); [done..|others|repeat split; intros; by look| |done|].
  { eapply (idt_insert s _ r i 3); [done|done|by left|by look|look; split; [lia|done]|done|done]. }
  clear s r HI Hr Hidt Hl Hc Hc1 Hz. apply (safe_store (Inv os)); [done|]. intros s r HI Hr.
  assert (Hidt : idt_ok s r) by (by destruct HI as (? & ? & ? & []); done). destruct (io_copies _ _ Hidt i Hr) as [Hc Hz].
  eapply (out_step s _ r i 2 1); [done..|others|repeat split; intros; by look| |done|apply Hunlock].
  eapply (idt_insert s _ r i 2); [done|done|by left|look; intros _; by apply (io_lock _ _ Hidt i 2)|done|done|]. intros _. look. rewrite Hc. done.
Qed.

(** ** Check-in *)

(** The processors are few enough for the counters. *)
Context (Few : NumCpus < 2 ^ 28).

Lemma u32_succ v : 0 <= v < 2 ^ 32 - 1 -> u32 (v + 1) = v + 1.
Proof. intros H. apply wrap_small. lia. Qed.

(** Too late for the run, or counted. *)
Lemma safe_check_in n i (Q : Z -> role -> Prop) : 0 <= i < NumCpus -> Q 0 (Out 4) -> (forall c, c <> 0 -> Q c (Counted false)) ->
  safe n i (Out 4) (ReleaseSemaphore Counter) Q.
Proof.
  intros Hi H0 H1. apply (safe_ReleaseSemaphore (Inv os)); [done| |]; intros s r HI Hr Hu; [by apply (steps_same (Inv os) i r s (Out 4))|].
  destruct HI as (lead & p & gone & J). pose proof (members_bound os _ _ _ _ _ J) as [Hm0 Hm1].
  pose proof J as [J1 J2 J3 J4 J5 J6 J7 J8 J9]. pose proof (ro_counter _ _ _ _ _ J7) as Hc.
  destruct (locked (bsp_of r lead)) eqn:Hlk; [by rewrite Hc in Hu|].
  assert (Hu1 : u32 (s.(mem) Counter + 1) = s.(mem) Counter + 1) by (apply u32_succ; destruct lead; lia).
  rewrite Hu1 in *. exists (Counted false). split; [|by apply H1]. exists lead, (<[i := false]> p), gone.
  apply (inv_step os s _ r lead p gone i (Out 4)); try done.
  - destruct J7 as [R1 R2 R3 R4 R5 R6 R7 R8 R9]. split; look; try done; rewrite ?Hlk; try done.
    + rewrite members_insert, Hr by done. cbn [member]. destruct lead; lia.
    + intros b Hb. look. rewrite signalled_insert, Hr by done. cbn [signals]. destruct (R7 b Hb). lia.
  - specialize (J8 i). rewrite Hr in J8. destruct J8 as [(U1 & U2 & U3 & U4 & U5) U6].
    split; [|split; [by look; apply U6|split; [done|]]].
    + unfold unused. look. done.
    + by apply (bo_early _ _ J6).
  - by apply (idt_ok_role s _ r i (Out 4)).
  - intros F1 F2. destruct (J5 i F1 F2) as [a Ha]. congruence.
Qed.

Lemma safe_init_busy n i (Q : unit -> role -> Prop) : 0 <= i < NumCpus -> Q tt (Counted true) ->
  safe n i (Counted false) (InitializeSpinLock (Busy i)) Q.
Proof.
  intros Hi HQ. apply (safe_store (Inv os)); [range|]. intros s r (lead & p & gone & J) Hr. exists (Counted true). split; [|done].
  exists lead, (<[i := p i]> p), gone. pose proof J as [J1 J2 J3 J4 J5 J6 J7 J8 J9].
  apply (inv_step os s _ r lead p gone i (Counted false)); try done.
  - others.
  - eapply run_ok_same; [|intros; by look| | |exact J7]; [by repeat split; look|..].
    + rewrite members_insert, Hr by done. cbn. lia.
    + rewrite signalled_insert, Hr by done. cbn. lia.
  - specialize (J8 i). rewrite Hr in J8. destruct J8 as (U1 & U2 & U3 & U4).
    split; [|split; [done|split; [intros _; by look|done]]]. unfold unused in *. by look.
  - by apply (idt_ok_role s _ r i (Counted false)).
  - intros F1 F2. destruct (J5 i F1 F2) as [a Ha]. congruence.
Qed.

(** ** Election *)

(** Without a BSP nobody has sent a signal. *)
Lemma no_bsp_silent s r p gone : inv s r None p gone -> signalled r = 0 /\ gone = 0.
Proof.
  intros J. split; [|by apply (bo_early _ _ (iv_bsp _ _ _ _ _ _ J))].
  assert (H0 : forall n, sum_to n (fun _ => 0) = 0) by (induction n as [|n IH]; cbn [sum_to]; lia).
  rewrite <- (H0 mMaxNumberOfCpus). apply sum_to_ext. intros i _. destruct (r i) as [h|rd|a|b] eqn:E; [done|done| |done].
  by destruct (iv_ap _ _ _ _ _ _ J i a E).
Qed.

Lemma become_bsp s s' r p gone i rd : inv s r None p gone -> r i = Counted rd -> 0 <= i < NumCpus ->
  (PcdCpuSmmEnableBspElection = false -> i = 0) -> s'.(mem) BspIndex = i -> s'.(hw) = s.(hw) ->
  (forall l, l <> BspIndex -> s'.(mem) l = s.(mem) l) ->
  inv s' (<[i := Bsp (idle_with (s.(hw).(Saved) i))]> r) (Some i) p gone.
Proof.
  intros J Hr Hi Hel Hx Hhw Hmem. destruct (no_bsp_silent _ _ _ _ J) as [Hsig ->]. destruct J as [J1 J2 J3 J4 J5 J6 J7 J8 J9].
  assert (Hsame : forall j, same_cpu s s' j /\ s'.(mem) (Run j) = s.(mem) (Run j)) by (intros j; unfold same_cpu; rewrite Hhw, !Hmem by done; done).
  assert (Hself := J8 i). rewrite Hr in Hself. destruct Hself as ((U1 & U2 & U3 & U4 & U5) & U6 & _).
  split; rewrite ?bsp_of_lead; try done.
  - intros j Hj. rewrite fn_lookup_insert_ne by congruence. by apply J1.
  - intros b Hb. injection Hb as <-. rewrite fn_lookup_insert. eauto.
  - intros j B. destruct (decide (i = j)) as [<-|Hij]; [done|]. rewrite fn_lookup_insert_ne by done. intros E. by apply J3 in E.
  - intros j a. destruct (decide (i = j)) as [<-|Hij]; [by rewrite fn_lookup_insert|]. rewrite fn_lookup_insert_ne by done.
    intros E. by destruct (J4 j a E).
  - destruct J6. split; cbn in *; try done; lia.
  - destruct J7 as [R1 R2 R3 R4 R5 R6 R7 R8 R9]. split; rewrite ?Hhw, ?Hmem by done; try done.
    + cbn in R1 |- *. rewrite R1, members_insert, Hr by done. cbn [member]. lia.
    + intros b Hb. injection Hb as <-. rewrite Hmem, U1, signalled_insert, Hr, Hsig by done. by split.
    + intros j. rewrite Hmem by done. apply R9.
  - intros j. destruct (decide (i = j)) as [<-|Hij].
    + rewrite fn_lookup_insert. cbn. rewrite Hhw, Hmem by done. by repeat split.
    + rewrite fn_lookup_insert_ne by done. destruct (Hsame j). eapply cpu_ok_same; [done|done|done..|apply J8].
  - apply (idt_ok_role s _ r i (Counted rd)); [done| |done..]. by split; [|split]; rewrite ?Hhw, ?Hmem by done.
Qed.

(** The processors that can take the part of an AP. *)
Definition can_follow (i : Z) : Prop := PcdCpuSmmEnableBspElection = false -> i <> 0.

Lemma index_not_counted s r i : 0 <= i < NumCpus -> Inv os s r -> can_follow i -> (exists rd, r i = Counted rd) -> s.(mem) BspIndex <> i.
Proof.
  intros Hi (lead & p & gone & J) Hf [rd Hr] E. rewrite (ro_index _ _ _ _ _ (iv_run _ _ _ _ _ _ J)) in E.
  assert (Hidle : idle_index <> i).
  { unfold idle_index, MINUS1, can_follow in *. destruct PcdCpuSmmEnableBspElection; [lia|]. by specialize (Hf eq_refl). }
  destruct lead as [b|]; [|done]. destruct (reset _); [done|]. subst b.
  destruct (iv_lead _ _ _ _ _ _ J i eq_refl) as (_ & [B HB] & _). congruence.
Qed.

(** Once counted, a processor becomes the BSP, or it can follow. *)
Lemma safe_election n i A (k : Z -> code A) (Q : A -> role -> Prop) : 0 <= i < NumCpus ->
  (forall b, b <> i -> can_follow i -> safe n i (Counted true) (k b) Q) -> (forall v, safe n i (Bsp (idle_with v)) (k i) Q) ->
  safe n i (Counted true) (_ ← elect i; b ← load BspIndex; k b) Q.
Proof.
  intros Hi HAp HBsp. sbind.
  assert (Hlow : safe n i (Counted true) (b ← load BspIndex; k b) Q).
  { sbind. apply (safe_load (Inv os)); [done|]. intros s r HI Hr. destruct (Z.eq_dec (s.(mem) BspIndex) i) as [E|E].
    - destruct PcdCpuSmmEnableBspElection eqn:Hel.
      + exfalso. apply (index_not_counted s r i); eauto. unfold can_follow. by rewrite Hel.
      + destruct (Z.eq_dec i 0) as [->|H0]; [|exfalso; apply (index_not_counted s r i); eauto; by intros _].
        destruct HI as (lead & p & gone & J). assert (lead = None) as ->.
        { destruct lead as [b|]; [|done]. destruct (iv_lead _ _ _ _ _ _ J b eq_refl) as (_ & [B HB] & Hb). rewrite Hb in HB by done. congruence. }
        exists (Bsp (idle_with (s.(hw).(Saved) 0))). split; [|by rewrite E]. exists (Some 0), p, gone. by apply (become_bsp s s r p gone 0 true).
    - apply (steps_same (Inv os) i r s (Counted true)); [done..|]. apply HAp; [done|]. intros Hel H0. apply E.
      destruct HI as (lead & p & gone & J). rewrite (ro_index _ _ _ _ _ (iv_run _ _ _ _ _ _ J)). unfold idle_index. rewrite Hel.
      destruct lead as [b|]; [|done]. destruct (reset _); [done|]. destruct (iv_lead _ _ _ _ _ _ J b eq_refl) as (_ & _ & Hb). by rewrite H0, Hb. }
  assert (Hlead : forall v, safe n i (Bsp (idle_with v)) (b ← load BspIndex; k b) Q).
  { intros v. sbind. apply (safe_load (Inv os)); [done|]. intros s r (lead & p & gone & J) Hr. assert (Hl := iv_one _ _ _ _ _ _ J i _ Hr). subst lead.
    apply (steps_same (Inv os) i r s (Bsp (idle_with v))); [by exists (Some i), p, gone|done|].
    rewrite (ro_index _ _ _ _ _ (iv_run _ _ _ _ _ _ J)). cbn [bsp_of]. rewrite Hr. by apply HBsp. }
  unfold elect. destruct PcdCpuSmmEnableBspElection eqn:Hel; [|by apply safe_ret, Hlow].
  sbind. sread sw. sbind.
  eapply (safe_mono (Inv os) _ _ _ _ _ (fun _ g => g = Counted true)).
  { destruct (sw =? FALSE); [by apply safe_ret|]. by sread c. }
  intros c g ->. destruct (c =? FALSE); [by apply safe_ret, Hlow|].
  unfold PlatformSmmBspElection. cbv beta iota.
  sbind. apply (safe_cas (Inv os)); [done| |].
  - intros s r (lead & p & gone & J) Hr E. exists (Bsp (idle_with (s.(hw).(Saved) i))). split; [|by apply safe_ret, Hlead].
    assert (lead = None) as ->.
    { destruct lead as [b|]; [|done]. pose proof (ro_index _ _ _ _ _ (iv_run _ _ _ _ _ _ J)) as Hx. rewrite E in Hx.
      destruct (iv_lead _ _ _ _ _ _ J b eq_refl) as (Hb & _). destruct (reset _) eqn:Hres; [|unfold MINUS1 in Hx; lia].
      pose proof (iv_cpu _ _ _ _ _ _ J i) as Hc. rewrite Hr in Hc. destruct Hc as (_ & _ & _ & Hw).
      by rewrite (bo_reset _ _ (iv_bsp _ _ _ _ _ _ J) Hres) in Hw. }
    exists (Some i), p, gone. apply (become_bsp s _ r p gone i true); try done; [by rewrite Hel|intros; by look].
  - intros s r HI Hr _. apply (steps_same (Inv os) i r s (Counted true)); [done..|]. by apply safe_ret, Hlow.
Qed.
End Entry.

#[local] Open Scope code_scope.

Section Ap.
Context {SC : SmmConfig} (os : Z -> MTRR_SETTINGS) (Few : NumCpus < 2 ^ 28).
Notation inv := (inv os).
Notation safe := (safe (Inv os)).
Notation steps := (steps (Inv os)).
Implicit Types (i : Z) (a : ap).

(** What an AP can rely on. *)
Record ap_view (s : smm) (r : Z -> role) (p : Z -> bool) (gone : Z) (i : Z) (a : ap) (B : bsp) : Prop := {
  av_inv : inv s r (Some a.(boss)) p gone;
  av_role : r i = Ap a;
  av_cpu : 0 <= i < NumCpus;
  av_boss : 0 <= a.(boss) < NumCpus;
  av_other : a.(boss) <> i;
  av_bsp : r a.(boss) = Bsp B;
  av_phase : 1 <= B.(phase) <= 2;
  av_ok : bsp_ok B gone;
  av_run : run_ok s r (Some a.(boss)) B gone;
  av_signals : ap_signals s B (p i) i a;
  av_state : ap_state os s i a;
  av_job : ap_job s B (p i) i a
}.

Lemma ap_facts s r i a : Inv os s r -> r i = Ap a -> exists p gone B, ap_view s r p gone i a B.
Proof.
  intros (lead & p & gone & J) Hr. pose proof J as [J1 J2 J3 J4 J5 J6 J7 J8 J9]. destruct (J4 i a Hr) as [-> Hph].
  destruct (J2 _ eq_refl) as (Hb & [B HB] & _). exists p, gone, B. specialize (J8 i). rewrite Hr in J8. cbn [bsp_of] in *. rewrite HB in *.
  destruct J8 as (H1 & H2 & H3). pose proof (bo_phase _ _ J6). split; try done; [| |lia].
  - destruct (decide (0 <= i < NumCpus)) as [|Hn]; [done|]. rewrite J1 in Hr by done. done.
  - intros E. rewrite E in HB. congruence.
Qed.

(** Signals of all are few. *)
Lemma run_bound s r p gone i a B : ap_view s r p gone i a B -> 0 <= s.(mem) (Run a.(boss)) < 2 ^ 32 - 1.
Proof.
  intros V. destruct (ro_run _ _ _ _ _ (av_run _ _ _ _ _ _ _ V) _ eq_refl) as [H0 H]. split; [done|].
  pose proof (av_inv _ _ _ _ _ _ _ V) as J. pose proof (members_bound _ _ _ _ _ _ J) as [_ Hm].
  assert (Hs : signalled r <= 5 * members r).
  { unfold signalled, members. rewrite <- sum_to_scale. apply sum_to_le. intros j _. pose proof (iv_cpu _ _ _ _ _ _ J j) as Hj.
    destruct (r j); cbn in *; try lia. destruct Hj as (Hj & _). unfold ap_signals in Hj. lia. }
  destruct (av_ok _ _ _ _ _ _ _ V) as [o1 o2 o3 o4 o5 o6 o7 o8 o9 o10 o11 o12 o13 o14 o15 o16].
  pose proof (ro_count _ _ _ _ _ (av_run _ _ _ _ _ _ _ V)) as Hc.
  assert (Hg : gone <= NumCpus).
  { destruct (locked B) eqn:E; [|by destruct (o6 eq_refl) as (_ & _ & ->); lia]. specialize (Hc eq_refl).
    assert (0 <= members r) by apply (members_bound _ _ _ _ _ _ J). lia. }
  assert (0 <= waits B * count B) by nia. lia.
Qed.

Lemma ap_step s s' r p gone i a a' B q : ap_view s r p gone i a B -> a'.(boss) = a.(boss) ->
  (forall j, j <> i -> same_cpu s s' j) -> (forall j, j <> i -> j <> a.(boss) -> s'.(mem) (Run j) = s.(mem) (Run j)) ->
  same_vars s s' -> same_idt s s' ->
  s'.(mem) (Run a.(boss)) = s.(mem) (Run a.(boss)) + a'.(sent) - a.(sent) -> a.(sent) <= a'.(sent) ->
  ap_signals s' B q i a' -> ap_state os s' i a' -> ap_job s' B q i a' ->
  inv s' (<[i := Ap a']> r) (Some a.(boss)) (<[i := q]> p) gone.
Proof.
  intros V Hb Hsame HR Hv Hidt Hrun Hle H1 H2 H3. destruct V as [J Hr Hi Hbi Hne HB Hph Hok Hro _ _ _].
  assert (HBo : bsp_of r (Some a.(boss)) = B) by (cbn; by rewrite HB).
  apply (inv_step os s s' r _ p gone i (Ap a)); rewrite ?HBo; try done.
  - intros j Hj. split; [by apply Hsame|]. intros Hj'. apply HR; congruence.
  - destruct Hv as (V1 & V2 & V3 & V4 & V5 & V6 & V7). destruct Hro as [R1 R2 R3 R4 R5 R6 R7 R8 R9].
    split; rewrite ?V1, ?V2, ?V3, ?V4, ?V5, ?V6; rewrite ?members_insert, ?Hr by done; cbn [member]; try done.
    + rewrite R1. by destruct (locked B); lia.
    + intros Hl. specialize (R2 Hl). lia.
    + intros b E. injection E as <-. rewrite Hrun, signalled_insert, Hr by done. cbn [signals]. destruct (R7 _ eq_refl). lia.
    + intros j. rewrite V7. apply R9.
  - apply (idt_ok_role s _ r i (Ap a)); [apply J|done..].
  - intros a1 E. injection E as <-. rewrite Hb. split; [done|lia].
  - intros c _. by exists a'.
Qed.

(** Only its own variables change, and no signal is sent. *)
Lemma ap_local s s' r p gone i a a' B : ap_view s r p gone i a B -> a'.(boss) = a.(boss) -> a'.(sent) = a.(sent) ->
  (forall l, l <> Busy i -> l <> Run i -> l <> Present i -> s'.(mem) l = s.(mem) l) ->
  (forall j, j <> i -> s'.(hw).(Mtrrs) j = s.(hw).(Mtrrs) j /\ s'.(hw).(InSmm) j = s.(hw).(InSmm) j /\ s'.(hw).(Saved) j = s.(hw).(Saved) j /\
     s'.(hw).(Scheduled) j = s.(hw).(Scheduled) j /\ s'.(hw).(Ran) j = s.(hw).(Ran) j) ->
  s'.(hw).(InCore) = s.(hw).(InCore) -> s'.(hw).(IdtCopies) = s.(hw).(IdtCopies) ->
  forall q, ap_signals s' B q i a' -> ap_state os s' i a' -> ap_job s' B q i a' ->
  inv s' (<[i := Ap a']> r) (Some a.(boss)) (<[i := q]> p) gone.
Proof.
  intros V Hb Hs Hm Hh Hc Hid q H1 H2 H3. pose proof (av_other _ _ _ _ _ _ _ V) as Hne. eapply (ap_step s s'); try done.
  - intros j Hj. unfold same_cpu. rewrite !Hm by congruence. destruct (Hh j Hj) as (E1 & E2 & E3 & E4 & E5). by rewrite E1, E2, E3, E4, E5.
  - intros j Hj _. apply Hm; congruence.
  - unfold same_vars. rewrite Hc, !Hm by done. repeat (split; [done|]). intros j. by rewrite Hm.
  - unfold same_idt. by rewrite Hid, !Hm.
  - rewrite Hm by congruence. lia.
  - lia.
Qed.

(** ** Actions *)

Definition mk (b sent taken : Z) (job : work) (smi saved here : bool) : ap :=
  {| sent := sent; taken := taken; job := job; smi := smi; saved := saved; here := here; boss := b |}.

Ltac conj := repeat match goal with |- _ /\ _ => split end.
Ltac fields := unfold ap_signals, ap_state, ap_job in *; cbn [sent taken job smi saved here boss mk] in *.

Lemma safe_wait_inside n i (Q : unit -> role -> Prop) : 0 <= i < NumCpus -> can_follow i ->
  (forall b v, Q tt (Ap (mk b 0 0 Free false v false))) -> safe n i (Counted true) wait_inside Q.
Proof.
  intros Hi Hf HQ. apply (safe_loop (Inv os) (eq (Counted true))); [|done]. intros m g _ <-. sbind. apply (safe_timer (Inv os)).
  { intros s r HI Hr He. exfalso. by apply (index_not_counted os Few s r i); eauto. }
  sbind. apply (safe_load (Inv os)); [done|]. intros s r HI Hr.
  destruct (Z.eqb_spec (s.(mem) InsideSmm) FALSE) as [E|E]; [apply (steps_same (Inv os) i r s (Counted true)); [done..|by apply safe_ret]|].
  destruct HI as (lead & p & gone & J). pose proof J as [J1 J2 J3 J4 J5 J6 J7 J8 J9].
  rewrite (ro_inside _ _ _ _ _ J7) in E. destruct (Z.eqb_spec (bsp_of r lead).(phase) 1) as [Hp|Hp]; [|done].
  destruct lead as [b|]; [|done]. specialize (J8 i) as Hself. rewrite Hr in Hself. destruct Hself as ((U1 & U2 & U3 & U4 & U5) & U6 & U7 & U8).
  exists (Ap (mk b 0 0 Free false (s.(hw).(Saved) i) false)). split; [|by apply safe_ret, HQ]. exists (Some b), (<[i := false]> p), gone.
  assert (Hheld : holds (bsp_of r (Some b)) i = None).
  { unfold holds. destruct (held _) as [[j c]|] eqn:Hh; [|done]. destruct (Z.eqb_spec i j) as [<-|]; [|done].
    destruct (held_is_ap os _ _ _ _ _ _ _ J Hh) as [a Ha]. congruence. }
  assert (Hg : given (bsp_of r (Some b)) i = 0) by (pose proof (bo_given _ _ J6 i); lia).
  apply (inv_step os s s r _ p gone i (Counted true)); try done.
  - eapply run_ok_same; [by repeat split|done| | |exact J7]; rewrite ?members_insert, ?signalled_insert, Hr by done; cbn; lia.
  - cbn [cpu_ok]. fields. rewrite Hheld, Hg, U1, U2, U3, U4, U7, U8 by done. cbn [working recorded held_by flag orb].
    split; [lia|split]; [repeat split; try lia; try done|repeat split; try lia; try done]. by rewrite app_nil_r.
  - by apply (idt_ok_role s s r i (Counted true)).
  - intros a E'. injection E' as <-. cbn [boss mk]. split; [done|lia].
  - intros c Hc. eauto.
Qed.

(** Until it has sent three signals an AP sees the BSP in SMM; when it has taken three, it does not. *)
Lemma ap_inside s r p gone i a B : ap_view s r p gone i a B -> a.(sent) <= 2 \/ a.(job) <> Free -> s.(mem) InsideSmm = TRUE.
Proof.
  intros [J _ _ _ _ _ Hph Hok Hro Hs _ Hj] H. rewrite (ro_inside _ _ _ _ _ Hro). unfold ap_signals, ap_job in *.
  assert (B.(phase) <> 2) as Hne; [|by rewrite (proj2 (Z.eqb_eq _ _)) by lia].
  intros E. destruct (bo_phase2 _ _ Hok E) as (Hw & _ & Hq). destruct H as [H|H]; [lia|]. apply H. by apply Hj.
Qed.

Lemma ap_outside s r p gone i a B : ap_view s r p gone i a B -> 3 <= a.(taken) -> s.(mem) InsideSmm = FALSE.
Proof.
  intros [J _ _ _ _ _ Hph Hok Hro Hs _ _] H. rewrite (ro_inside _ _ _ _ _ Hro). unfold ap_signals in *.
  destruct (bo_given _ _ Hok i) as [_ Hg]. rewrite Hg by lia. done.
Qed.

Lemma safe_bsp_arrived n i (Q : bool -> role -> Prop) : 0 <= i < NumCpus -> can_follow i ->
  (forall b v, Q true (Ap (mk b 0 0 Free false v false))) -> safe n i (Counted true) (bsp_arrived i) Q.
Proof.
  intros Hi Hf HQ. sbind. apply safe_wait_inside; [done..|]. intros b v. sbind. apply (safe_load (Inv os)); [done|]. intros s r HI Hr.
  destruct (ap_facts _ _ _ _ HI Hr) as (p & gone & B & V). apply (steps_same (Inv os) i r s _ _ HI Hr).
  rewrite (ap_inside _ _ _ _ _ _ _ V) by (left; done). by apply safe_ret.
Qed.

(** The BSP that an AP follows is in [BspIndex]. *)
Lemma safe_load_boss n i a (Q : Z -> role -> Prop) : (a.(boss) <> i -> 0 <= a.(boss) < NumCpus -> 0 <= i < NumCpus -> Q a.(boss) (Ap a)) ->
  safe n i (Ap a) (load BspIndex) Q.
Proof.
  intros HQ. apply (safe_load (Inv os)); [done|]. intros s r HI Hr. destruct (ap_facts _ _ _ _ HI Hr) as (p & gone & B & V).
  apply (steps_same (Inv os) i r s _ _ HI Hr). destruct V as [J _ Hi Hb Hne HB Hph Hok Hro Hs _ _]. rewrite (ro_index _ _ _ _ _ Hro).
  destruct (reset B) eqn:Hres; [|by apply HQ]. pose proof (bo_reset _ _ Hok Hres). unfold ap_signals in *. lia.
Qed.

(** A signal to the BSP. *)
Lemma safe_send n i a (Q : Z -> role -> Prop) : a.(sent) = a.(taken) -> a.(sent) <= 4 -> a.(here) = true ->
  (a.(sent) = 1 -> a.(saved) = true) -> (a.(sent) = 2 -> a.(smi) = true) -> (a.(sent) = 4 -> a.(smi) = false) -> 0 <= a.(boss) < NumCpus ->
  (forall v, Q v (Ap (mk a.(boss) (a.(sent) + 1) a.(taken) a.(job) a.(smi) a.(saved) a.(here)))) ->
  safe n i (Ap a) (ReleaseSemaphore (Run a.(boss))) Q.
Proof.
  intros Hst Hle Hh H1 H2 H4 Hb HQ. apply (safe_ReleaseSemaphore (Inv os)); [range| |]; intros s r HI Hr Hu;
    destruct (ap_facts _ _ _ _ HI Hr) as (p & gone & B & V); pose proof (run_bound _ _ _ _ _ _ _ V) as Hbd; rewrite u32_succ in * by lia; [lia|].
  pose proof V as [J _ Hi _ Hne HB Hph Hok Hro Hsig Hs Hjob].
  eexists; split; [|apply HQ]. eexists _, (<[i := p i]> p), _.
  eapply (ap_step s _ r p gone i a _ B); try done; fields.
  - intros; by look.
  - look. lia.
  - lia.
  - look. lia.
  - destruct Hs as (S1 & S2 & S3 & S4 & S5 & S6 & S7 & S8). look. conj; try done.
    + intros A1 A2. destruct (decide (a.(sent) = 1)) as [E|E]; [by apply H1|apply S5; lia].
    + intros A1 A2. destruct (decide (a.(sent) = 2)) as [E|E]; [by apply H2|apply S6; lia].
    + intros [A|A]; [apply S7; by left|apply H4; lia].
  - destruct Hjob as (E1 & E2 & E3 & E4 & E5 & E7 & E6). look. conj; try done. intros A. apply E4 in A. lia.
Qed.

Definition took (a : ap) : ap := mk a.(boss) a.(sent) (a.(taken) + 1) a.(job) a.(smi) a.(saved) a.(here).
Definition with_job (w : work) (a : ap) : ap := mk a.(boss) a.(sent) a.(taken) w a.(smi) a.(saved) a.(here).
Definition with_state (m v h : bool) (a : ap) : ap := mk a.(boss) a.(sent) a.(taken) a.(job) m v h.

(** A step on its own variables. *)
Ltac own a' q := exists (Ap a'); split; [eexists _, (<[_ := q]> _), _; eapply ap_local; [eassumption|done|done| | |done|done|..];
  unfold took, with_job, with_state; fields|].

(** A signal of the BSP: a procedure to run, or the next round. *)
Lemma safe_take n i a (Q : Z -> role -> Prop) : 0 <= i < NumCpus -> a.(sent) = a.(taken) + 1 -> a.(job) = Free -> (a.(taken) = 4 -> a.(smi) = false) ->
  (a.(sent) = 3 -> forall v, Q v (Ap (with_job (Todo None None) a))) ->
  (forall v, Q v (Ap (took a))) -> safe n i (Ap a) (WaitForSemaphore (Run i)) Q.
Proof.
  intros Hi Hst Hjb H4 HQ3 HQ. apply (safe_WaitForSemaphore (Inv os)); [range|]. intros s r HI Hr Hne0.
  destruct (ap_facts _ _ _ _ HI Hr) as (p & gone & B & V). pose proof V as [J _ _ _ Hne HB Hph Hok Hro Hsig Hs Hjob].
  unfold ap_signals, ap_job in Hsig, Hjob. destruct Hjob as (E1 & E2 & E3 & E4 & E5 & E7 & E6). rewrite Hjb in *. destruct (bo_given _ _ Hok i) as [Hg0 Hg3].
  destruct (p i) eqn:Hp.
  - destruct (B.(quiet) i) eqn:Hq; [by destruct (E3 eq_refl)|]. destruct (bo_quiet _ _ Hok i Hq) as (_ & Hph1 & Hw & _ & _).
    assert (given B i < 3) by (destruct (Z.lt_ge_cases (given B i) 3) as [|Hge]; [done|]; specialize (Hg3 Hge); lia).
    assert (Hs3 : a.(sent) = 3) by lia.
    own (with_job (Todo None None) a) false; [| | | | |by apply HQ3].
    + intros l L1 L2 L3. by look.
    + by intros; repeat split.
    + look. cbn [flag]. cbn [flag] in Hsig. lia.
    + done.
    + look. rewrite Hq. cbn [flag working] in *. conj; try done; [lia|intros; lia| |].
      * intros ? ? E. injection E as <- <-. done.
      * rewrite E6. by destruct (holds B i) as [[]|].
  - own (took a) false; [| | | | |by apply HQ].
    + intros l L1 L2 L3. by look.
    + by intros; repeat split.
    + look. cbn [flag]. cbn [flag] in Hsig. lia.
    + destruct Hs as (S1 & S2 & S3 & S4 & S5 & S6 & S7 & S8). look. conj; try done.
      * intros A1 A2. apply S5; lia.
      * intros A1 A2. apply S6; lia.
      * intros [A|A]; [apply S7; left; lia|apply S7; by right].
      * intros A1 A2. apply S8; lia.
    + look. rewrite Hjb. by conj.
Qed.

(** A change of the memory types, or of the mark of presence. *)
Lemma own_state s s' r i a (m v h : bool) (Q : role -> Prop) : Inv os s r -> r i = Ap a ->
  (forall l, l <> Present i -> s'.(mem) l = s.(mem) l) -> s'.(mem) (Present i) = flag h ->
  (s'.(hw).(Mtrrs) = <[i := if m then gSmiMtrrs else os i]> s.(hw).(Mtrrs) \/ s'.(hw).(Mtrrs) = s.(hw).(Mtrrs) /\ m = a.(smi)) ->
  (s'.(hw).(Saved) = <[i := v]> s.(hw).(Saved) \/ s'.(hw).(Saved) = s.(hw).(Saved) /\ v = a.(saved)) ->
  s'.(hw).(InSmm) = s.(hw).(InSmm) -> s'.(hw).(Scheduled) = s.(hw).(Scheduled) -> s'.(hw).(Ran) = s.(hw).(Ran) ->
  s'.(hw).(InCore) = s.(hw).(InCore) -> s'.(hw).(IdtCopies) = s.(hw).(IdtCopies) ->
  (2 <= a.(sent) -> a.(taken) <= 3 -> v = true) -> (3 <= a.(sent) -> a.(taken) <= 3 -> m = true) ->
  (a.(taken) <= 1 \/ a.(sent) = 5 -> m = false) -> (1 <= a.(sent) -> a.(taken) <= 4 -> h = true) ->
  Q (Ap (with_state m v h a)) -> steps i r s' Q.
Proof.
  intros HI Hr Hmem Hp Hm Hv H1 H2 H3 H4 H5 C1 C2 C3 C4 HQ.
  destruct (ap_facts _ _ _ _ HI Hr) as (p & gone & B & V). pose proof V as [J _ _ _ Hne HB Hph Hok Hro Hsig Hs Hjob].
  unfold ap_signals, ap_state, ap_job in Hsig, Hs, Hjob.
  own (with_state m v h a) (p i); [| | | | |done].
  - intros l _ _ L. by apply Hmem.
  - intros j Hj. rewrite H1, H2, H3. destruct Hm as [->|[-> _]], Hv as [->|[-> _]]; by look.
  - by rewrite Hmem.
  - rewrite Hp, H1. destruct Hs as (S1 & S2 & S3 & S4 & _). conj; try done.
    + destruct Hm as [->|[-> ->]]; by look.
    + destruct Hv as [->|[-> ->]]; by look.
  - by rewrite !Hmem, H2, H3.
Qed.

Lemma safe_save n i a (Q : MTRR_SETTINGS -> role -> Prop) : a.(sent) = 1 -> a.(taken) = 1 -> a.(here) = true ->
  Q (os i) (Ap (with_state a.(smi) true a.(here) a)) -> safe n i (Ap a) (MtrrGetAllMtrrs i) Q.
Proof.
  intros H1 H2 Hh HQ. apply (safe_act (Inv os)). intros s r HI Hr. destruct (ap_facts _ _ _ _ HI Hr) as (p & gone & B & V).
  destruct (av_state _ _ _ _ _ _ _ V) as (S1 & S2 & S3 & S4 & S5 & S6 & S7 & S8). rewrite S7 in S3 by (left; lia).
  eexists _, _. enough (HS : steps i r {| mem := s.(mem); hw := has_mtrrs i (s.(hw).(Mtrrs) i) true s.(hw) |} (Q (os i))).
  { destruct HS as (g' & HI' & HQ'). exists g'. rewrite <- S3 in HQ'. split; [reflexivity|]. by split. }
  eapply (own_state s _ r i a a.(smi) true a.(here)); try done; try lia; [left; cbn; by rewrite S3, S7 by (left; lia)|by left].
Qed.

Lemma safe_replace n i a (Q : unit -> role -> Prop) : a.(sent) = 2 -> a.(taken) = 2 -> a.(saved) = true -> a.(here) = true ->
  Q tt (Ap (with_state true true a.(here) a)) -> safe n i (Ap a) (ReplaceOSMtrrs i) Q.
Proof.
  intros H1 H2 Hv Hh HQ. apply (safe_hook (Inv os)). intros s r HI Hr. destruct (ap_facts _ _ _ _ HI Hr) as (p & gone & B & V).
  destruct (av_state _ _ _ _ _ _ _ V) as (S1 & S2 & S3 & S4 & _).
  eapply (own_state s _ r i a true true a.(here)); try done; try lia; [by left|left; cbn; by rewrite S4, Hv].
Qed.

Lemma safe_restore n i a (Q : unit -> role -> Prop) : a.(sent) = 4 -> a.(taken) = 4 -> a.(here) = true ->
  Q tt (Ap (with_state false false a.(here) a)) -> safe n i (Ap a) (MtrrSetAllMtrrs i (os i)) Q.
Proof.
  intros H1 H2 Hh HQ. apply (safe_hook (Inv os)). intros s r HI Hr. destruct (ap_facts _ _ _ _ HI Hr) as (p & gone & B & V).
  destruct (av_state _ _ _ _ _ _ _ V) as (S1 & S2 & S3 & S4 & _).
  eapply (own_state s _ r i a false false a.(here)); try done; try lia; by left.
Qed.

Lemma safe_set_present n i a v (Q : unit -> role -> Prop) : 0 <= i < NumCpus ->
  (a.(sent) = 0 /\ v = true \/ a.(taken) = 5 /\ v = false) ->
  Q tt (Ap (with_state a.(smi) a.(saved) v a)) -> safe n i (Ap a) (store (Present i) (flag v)) Q.
Proof.
  intros Hi Hv HQ. apply (safe_store (Inv os)); [range|]. intros s r HI Hr. destruct (ap_facts _ _ _ _ HI Hr) as (p & gone & B & V).
  destruct (av_state _ _ _ _ _ _ _ V) as (S1 & S2 & S3 & S4 & S5 & S6 & S7 & S8).
  eapply (own_state s _ r i a a.(smi) a.(saved) v); try done; [intros; by look|by look|by right|by right|]. intros A1 A2. lia.
Qed.

(** ** The procedures of an AP *)

(** A step of an AP that works on a procedure. *)
Lemma own_job s s' r i a w (Q : role -> Prop) : Inv os s r -> r i = Ap a ->
  (forall l, l <> Busy i -> s'.(mem) l = s.(mem) l) ->
  s'.(hw).(Mtrrs) = s.(hw).(Mtrrs) -> s'.(hw).(Saved) = s.(hw).(Saved) ->
  s'.(hw).(InSmm) = s.(hw).(InSmm) -> s'.(hw).(Scheduled) = s.(hw).(Scheduled) ->
  s'.(hw).(InCore) = s.(hw).(InCore) -> s'.(hw).(IdtCopies) = s.(hw).(IdtCopies) ->
  (forall j, j <> i -> s'.(hw).(Ran) j = s.(hw).(Ran) j) ->
  (forall p gone B, ap_view s r p gone i a B -> ap_job s' B (p i) i (with_job w a)) ->
  Q (Ap (with_job w a)) -> steps i r s' Q.
Proof.
  intros HI Hr Hmem H1 H2 H3 H4 H5 H6 H7 Hj HQ.
  destruct (ap_facts _ _ _ _ HI Hr) as (p & gone & B & V). pose proof V as [J _ _ _ Hne HB Hph Hok Hro Hsig Hs Hjob].
  unfold ap_signals, ap_state in Hsig, Hs. specialize (Hj p gone B V).
  exists (Ap (with_job w a)); split; [|done]. exists (Some a.(boss)), (<[i := p i]> p), gone.
  eapply ap_local; [eassumption|done|done| | |done|done| | |done].
  - intros l L _ _. by apply Hmem.
  - intros j Hj'. by rewrite H1, H2, H3, H4, H7.
  - unfold ap_signals, with_job. cbn [sent taken mk]. by rewrite Hmem.
  - unfold ap_state, with_job. cbn [sent taken smi saved here mk]. by rewrite Hmem, H1, H2, H3.
Qed.

Ltac jobs V := unfold RELEASED, ACQUIRED in *; destruct (av_job _ _ _ _ _ _ _ V) as (E1 & E2 & E3 & E4 & E5 & E7 & E6);
  unfold ap_job, with_job; cbn [sent taken job mk] in *.

Definition working_ap (a : ap) : Prop := a.(sent) = 3 /\ a.(taken) = 2 /\ a.(smi) = true /\ a.(saved) = true /\ a.(here) = true.

Lemma safe_run_job n i a (Q : option unit -> role -> Prop) : 0 <= i < NumCpus -> working_ap a -> a.(job) = Todo None None ->
  Q None (Ap (with_job Free a)) ->
  safe n i (Ap a)
   (ok ← AcquireSpinLockOrFail (Busy i); _ ← ASSERT_ (negb ok); p ← load (Procedure i); x ← load (Parameter_ i);
    _ ← hook (runs i (p, x)); _ ← ReleaseSpinLock (Busy i); Ret None) Q.
Proof.
  intros Hi Hw Hj HQ. sbind. apply (safe_try_lock (Inv os)); [range| |].
  { intros s r HI Hr E. exfalso. destruct (ap_facts _ _ _ _ HI Hr) as (p & gone & B & V). jobs V. rewrite E, Hj in *.
    destruct (held_by _), (p i); cbn in E1; lia. }
  intros s r HI Hr _. apply (steps_same (Inv os) i r s _ _ HI Hr). clear s r HI Hr.
  sbind. apply (safe_assert (Inv os)); [done|]. sbind. apply (safe_load (Inv os)); [range|]. intros s r HI Hr.
  eapply (own_job s s r i a (Todo (Some (s.(mem) (Procedure i))) None)); try done.
  { intros p gone B V. jobs V. rewrite Hj in *. conj; try done; [by intros E; apply E3 in E as [_ E]|].
    intros ? ? E. injection E as <- <-. done. }
  set (p := s.(mem) (Procedure i)). clearbody p. clear s r HI Hr.
  sbind. apply (safe_load (Inv os)); [range|]. intros s r HI Hr.
  eapply (own_job s s r i _ (Todo (Some p) (Some (s.(mem) (Parameter_ i))))); try done.
  { intros pd gone B V. jobs V. conj; try done; [by intros E; apply E3 in E as [_ E]|].
    intros ? ? E. injection E as <- <-. split; [by destruct (E5 _ _ eq_refl)|done]. }
  set (x := s.(mem) (Parameter_ i)). clearbody x. clear s r HI Hr.
  sbind. apply (safe_hook (Inv os)). intros s r HI Hr.
  eapply (own_job s _ r i _ Ended); try done.
  { intros j Hij. by look. }
  { intros pd gone B V. jobs V. destruct (E5 _ _ eq_refl) as [Ep Ex]. conj; try done; [by intros E; apply E3 in E as [_ E]|].
    look. rewrite E6. cbn in Ep, Ex. rewrite <- Ep, <- Ex.
    unfold recorded at 1. rewrite orb_true_r. assert (pd i = false /\ holds B i = None) as [Hpd Hh].
    { destruct (holds B i) as [h|], (pd i); cbn in *; split; try done; lia. }
    rewrite Hpd, Hh. by rewrite app_nil_r. }
  clear s r HI Hr. sbind. apply (safe_store (Inv os)); [range|]. intros s r HI Hr.
  eapply (own_job s _ r i _ Free); try done.
  { intros l L. by look. }
  { intros pd gone B V. jobs V. look. conj; try done.
    - destruct (holds B i) as [h|], (pd i); cbn in *; lia.
    - intros E; apply E3 in E as [_ E]. done. }
  by apply safe_ret.
Qed.

Lemma safe_ap_loop n i a (Q : unit -> role -> Prop) : 0 <= i < NumCpus -> working_ap a -> a.(job) = Free ->
  Q tt (Ap (took a)) -> safe n i (Ap a) (ap_loop i) Q.
Proof.
  intros Hi Hw Hj HQ. apply (safe_loop (Inv os) (eq (Ap a))); [|done]. intros m g _ <-. destruct a as [st tk jb sm sv hr bs].
  destruct Hw as (W1 & W2 & W3 & W4 & W5). cbn [sent taken job smi saved here] in *. subst.
  sbind. apply safe_take; cbn [sent taken job smi]; [done|done|done|done| |].
  - intros _ v. sbind. apply (safe_load (Inv os)); [done|]. intros s r HI Hr.
    destruct (ap_facts _ _ _ _ HI Hr) as (p & gone & B & V). apply (steps_same (Inv os) i r s _ _ HI Hr).
    rewrite (ap_inside _ _ _ _ _ _ _ V) by (right; done).
    change (TRUE =? FALSE) with false. cbv iota. apply safe_run_job; [done|by repeat split|done|done].
  - intros v. sbind. apply (safe_load (Inv os)); [done|]. intros s r HI Hr.
    destruct (ap_facts _ _ _ _ HI Hr) as (p & gone & B & V). apply (steps_same (Inv os) i r s _ _ HI Hr).
    rewrite (ap_outside _ _ _ _ _ _ _ V) by done. by apply safe_ret.
Qed.

(** ** The whole part *)

(** The last signal: the AP has no part in the run any more. *)
Lemma safe_leave n i a (Q : Z -> role -> Prop) : a.(sent) = 5 -> a.(taken) = 5 -> a.(here) = false -> 0 <= a.(boss) < NumCpus ->
  (forall v, Q v (Out 4)) -> safe n i (Ap a) (ReleaseSemaphore (Run a.(boss))) Q.
Proof.
  intros H5 T5 Hh Hb HQ. apply (safe_ReleaseSemaphore (Inv os)); [range| |]; intros s r HI Hr Hu;
    destruct (ap_facts _ _ _ _ HI Hr) as (p & gone & B & V); pose proof (run_bound _ _ _ _ _ _ _ V) as Hbd; rewrite u32_succ in * by lia; [lia|].
  pose proof V as [J _ Hi _ Hne HB Hph Hok Hro Hsig Hs Hjob]. exists (Out 4). split; [|apply HQ].
  unfold ap_signals, ap_state, ap_job in *. destruct (bo_given _ _ Hok i) as [Hg Hg3].
  assert (HBo : bsp_of r (Some a.(boss)) = B) by (cbn; by rewrite HB).
  destruct (bo_phase2 _ _ Hok) as (Hw & Hlk & Hq); [apply Hg3; lia|]. destruct Hjob as (E1 & E2 & E3 & E4 & E5 & E7 & E6). destruct (E3 (Hq i)) as [Hp Hj].
  assert (Hheld : holds B i = None).
  { unfold holds. destruct (held B) as [[j c]|] eqn:E; [|done]. pose proof (bo_held _ _ Hok j c E) as Hx. by rewrite Hq in Hx. }
  exists (Some a.(boss)), (<[i := false]> p), (gone + 1).
  apply (inv_step os s _ r _ p gone i (Ap a)); rewrite ?HBo; try done.
  - intros j Hji. split; [by repeat split; look|]. intros Hj'. by look.
  - destruct Hok as [o1 o2 o3 o4 o5 o6 o7 o8 o9 o10 o11 o12 o13 o14 o15 o16]. split; try done; [lia|intros; lia|intros E; congruence].
  - destruct Hro as [R1 R2 R3 R4 R5 R6 R7 R8 R9]. split; look; rewrite ?members_insert, ?Hr by done; cbn [member]; try done.
    + by rewrite R1, Hlk.
    + intros _. specialize (R2 Hlk). lia.
    + intros b E. injection E as <-. look. rewrite signalled_insert, Hr by done. cbn [signals]. destruct (R7 _ eq_refl). lia.
  - destruct Hs as (S1 & S2 & S3 & S4 & S5 & S6 & S7 & S8). split; [|by intros _]. unfold unused. look.
    rewrite S2, S3, Hh, S7, E6, Hheld, Hj, Hp in * by (right; lia). cbn. cbn in Hsig. conj; try done; [lia|by rewrite app_nil_r].
  - by apply (idt_ok_role s _ r i (Ap a)); [apply J|..].
  - intros _ G. lia.
Qed.

(** A step, and the role after it. *)
Ltac role_ := unfold took, with_state, with_job, mk; cbn [sent taken job smi saved here boss].
Ltac send := sbind; apply safe_send; [done..|intros _; role_].
Ltac take := sbind; apply safe_take; [done..|intros _; role_].

Lemma safe_APHandler n i mode (Q : unit -> role -> Prop) : 0 <= i < NumCpus -> can_follow i -> Q tt (Out 4) ->
  safe n i (Counted true) (APHandler i mode) Q.
Proof.
  intros Hi Hf HQ. sbind. apply safe_bsp_arrived; [done..|]. intros b v. cbv iota beta delta [negb]. role_.
  sbind. apply safe_load_boss. cbn [boss]. intros Hne Hb _.
  sbind. apply (safe_assert (Inv os)); [by rewrite (proj2 (Z.eqb_neq _ _)) by congruence|].
  sbind. apply (safe_set_present _ _ _ true); [done|by left|]. role_.
  replace ((mode =? SmmCpuSyncModeTradition) || NeedConfigureMtrrs) with true by (by rewrite orb_true_r).
  sbind. send. apply safe_ret. unfold NeedConfigureMtrrs. sbind. take.
  sbind. apply safe_save; [done..|]. role_. send. take. sbind. apply safe_replace; [done..|]. role_. send. apply safe_ret.
  sbind. apply safe_ap_loop; [done|by repeat split|done|]. role_.
  sbind. send. take. apply safe_restore; [done..|]. role_. send. take.
  sbind. apply (safe_set_present _ _ _ false); [done|by right|]. role_.
  sbind. apply safe_leave; [done..|]. intros _. by apply safe_ret.
Qed.
End Ap.
