(* ===== verification/MpBsp.v ===== *)
(** * The rendezvous of processors in SMM: the part of the BSP *)

From S2P Require Import Prelude MpDefs MpLogic MpInv MpAp.
From stdpp Require Import functions.
#[local] Open Scope Z_scope.
#[local] Open Scope code_scope.

(** Changes of what the BSP knows. *)
Definition w_phase (x : Z) (b : bsp) : bsp := {|
  phase := x; count := b.(count); waits := b.(waits); part := b.(part); given := b.(given); follows := b.(follows); held := b.(held); quiet := b.(quiet);
  bsmi := b.(bsmi); bsaved := b.(bsaved); bhere := b.(bhere); locked := b.(locked); reset := b.(reset); core := b.(core); named := b.(named) |}.
Definition w_count (x : Z) (b : bsp) : bsp := {|
  phase := b.(phase); count := x; waits := b.(waits); part := b.(part); given := b.(given); follows := b.(follows); held := b.(held); quiet := b.(quiet);
  bsmi := b.(bsmi); bsaved := b.(bsaved); bhere := b.(bhere); locked := b.(locked); reset := b.(reset); core := b.(core); named := b.(named) |}.
Definition w_waits (x : Z) (b : bsp) : bsp := {|
  phase := b.(phase); count := b.(count); waits := x; part := b.(part); given := b.(given); follows := b.(follows); held := b.(held); quiet := b.(quiet);
  bsmi := b.(bsmi); bsaved := b.(bsaved); bhere := b.(bhere); locked := b.(locked); reset := b.(reset); core := b.(core); named := b.(named) |}.
Definition w_part (x : Z) (b : bsp) : bsp := {|
  phase := b.(phase); count := b.(count); waits := b.(waits); part := x; given := b.(given); follows := b.(follows); held := b.(held); quiet := b.(quiet);
  bsmi := b.(bsmi); bsaved := b.(bsaved); bhere := b.(bhere); locked := b.(locked); reset := b.(reset); core := b.(core); named := b.(named) |}.
Definition w_given (x : Z -> Z) (b : bsp) : bsp := {|
  phase := b.(phase); count := b.(count); waits := b.(waits); part := b.(part); given := x; follows := b.(follows); held := b.(held); quiet := b.(quiet);
  bsmi := b.(bsmi); bsaved := b.(bsaved); bhere := b.(bhere); locked := b.(locked); reset := b.(reset); core := b.(core); named := b.(named) |}.
Definition w_follows (x : Z -> bool) (b : bsp) : bsp := {|
  phase := b.(phase); count := b.(count); waits := b.(waits); part := b.(part); given := b.(given); follows := x; held := b.(held); quiet := b.(quiet);
  bsmi := b.(bsmi); bsaved := b.(bsaved); bhere := b.(bhere); locked := b.(locked); reset := b.(reset); core := b.(core); named := b.(named) |}.
Definition w_held (x : option (Z * hold)) (b : bsp) : bsp := {|
  phase := b.(phase); count := b.(count); waits := b.(waits); part := b.(part); given := b.(given); follows := b.(follows); held := x; quiet := b.(quiet);
  bsmi := b.(bsmi); bsaved := b.(bsaved); bhere := b.(bhere); locked := b.(locked); reset := b.(reset); core := b.(core); named := b.(named) |}.
Definition w_quiet (x : Z -> bool) (b : bsp) : bsp := {|
  phase := b.(phase); count := b.(count); waits := b.(waits); part := b.(part); given := b.(given); follows := b.(follows); held := b.(held); quiet := x;
  bsmi := b.(bsmi); bsaved := b.(bsaved); bhere := b.(bhere); locked := b.(locked); reset := b.(reset); core := b.(core); named := b.(named) |}.
Definition w_bsmi (x : bool) (b : bsp) : bsp := {|
  phase := b.(phase); count := b.(count); waits := b.(waits); part := b.(part); given := b.(given); follows := b.(follows); held := b.(held); quiet := b.(quiet);
  bsmi := x; bsaved := b.(bsaved); bhere := b.(bhere); locked := b.(locked); reset := b.(reset); core := b.(core); named := b.(named) |}.
Definition w_bsaved (x : bool) (b : bsp) : bsp := {|
  phase := b.(phase); count := b.(count); waits := b.(waits); part := b.(part); given := b.(given); follows := b.(follows); held := b.(held); quiet := b.(quiet);
  bsmi := b.(bsmi); bsaved := x; bhere := b.(bhere); locked := b.(locked); reset := b.(reset); core := b.(core); named := b.(named) |}.
Definition w_bhere (x : bool) (b : bsp) : bsp := {|
  phase := b.(phase); count := b.(count); waits := b.(waits); part := b.(part); given := b.(given); follows := b.(follows); held := b.(held); quiet := b.(quiet);
  bsmi := b.(bsmi); bsaved := b.(bsaved); bhere := x; locked := b.(locked); reset := b.(reset); core := b.(core); named := b.(named) |}.
Definition w_locked (x : bool) (b : bsp) : bsp := {|
  phase := b.(phase); count := b.(count); waits := b.(waits); part := b.(part); given := b.(given); follows := b.(follows); held := b.(held); quiet := b.(quiet);
  bsmi := b.(bsmi); bsaved := b.(bsaved); bhere := b.(bhere); locked := x; reset := b.(reset); core := b.(core); named := b.(named) |}.
Definition w_reset (x : bool) (b : bsp) : bsp := {|
  phase := b.(phase); count := b.(count); waits := b.(waits); part := b.(part); given := b.(given); follows := b.(follows); held := b.(held); quiet := b.(quiet);
  bsmi := b.(bsmi); bsaved := b.(bsaved); bhere := b.(bhere); locked := b.(locked); reset := x; core := b.(core); named := b.(named) |}.
Definition w_core (x : bool) (b : bsp) : bsp := {|
  phase := b.(phase); count := b.(count); waits := b.(waits); part := b.(part); given := b.(given); follows := b.(follows); held := b.(held); quiet := b.(quiet);
  bsmi := b.(bsmi); bsaved := b.(bsaved); bhere := b.(bhere); locked := b.(locked); reset := b.(reset); core := x; named := b.(named) |}.
Definition w_named (x : bool) (b : bsp) : bsp := {|
  phase := b.(phase); count := b.(count); waits := b.(waits); part := b.(part); given := b.(given); follows := b.(follows); held := b.(held); quiet := b.(quiet);
  bsmi := b.(bsmi); bsaved := b.(bsaved); bhere := b.(bhere); locked := b.(locked); reset := b.(reset); core := b.(core); named := x |}.

Ltac know := cbn [phase count waits part given follows held quiet bsmi bsaved bhere locked reset core named w_phase w_count w_waits w_part w_given w_follows w_held w_quiet w_bsmi w_bsaved w_bhere w_locked w_reset w_core w_named].

(** The parts of an invariant, after a change. *)
Ltac okay Hok := destruct Hok as [oph owa opa ogo ogl oea op0 op1 op2 oct ogi osa oqu ohe oco osm ors]; split; know; try done; try (intros; lia); try lia.
Ltac running Hro := destruct Hro as [rcn rct rin rix rco rna rrn rcp rop]; split; know; look; try done; try (intros; look; done).

Section Bsp.
Context {SC : SmmConfig} (os : Z -> MTRR_SETTINGS) (Few : NumCpus < 2 ^ 28).
Notation inv := (inv os).
Notation safe := (safe (Inv os)).
Notation steps := (steps (Inv os)).
Implicit Types (b : Z) (B : bsp).

(** What the BSP can rely on. *)
Record bsp_view (s : smm) (r : Z -> role) (p : Z -> bool) (gone : Z) (b : Z) (B : bsp) : Prop := {
  bv_inv : inv s r (Some b) p gone;
  bv_role : r b = Bsp B;
  bv_cpu : 0 <= b < NumCpus;
  bv_ok : bsp_ok B gone;
  bv_run : run_ok s r (Some b) B gone;
  bv_self : cpu_ok os s B (p b) b (Bsp B);
  bv_other : forall j, j <> b -> cpu_ok os s B (p j) j (r j);
  bv_ap : forall j a, r j = Ap a -> B.(phase) <> 0;
  bv_follow : forall j, B.(follows) j = true -> B.(given) j <= 4 -> exists a, r j = Ap a
}.

Lemma bsp_facts s r b B : Inv os s r -> r b = Bsp B -> exists p gone, bsp_view s r p gone b B.
Proof.
  intros (lead & p & gone & J) Hr. assert (Hl := iv_one _ _ _ _ _ _ J b B Hr). subst lead. exists p, gone.
  destruct (iv_lead _ _ _ _ _ _ J b eq_refl) as (Hb & _). pose proof J as [J1 J2 J3 J4 J5 J6 J7 J8 J9].
  cbn [bsp_of] in *. rewrite Hr in *. split; try done.
  - specialize (J8 b). by rewrite Hr in J8.
  - intros j a Ha. by apply (J4 j a).
Qed.

Lemma run_ok_bsp s r b B B' gone : 0 <= b < NumCpus -> r b = Bsp B' -> run_ok s r (Some b) B gone -> forall B'', run_ok s (<[b := Bsp B'']> r) (Some b) B gone.
Proof.
  intros Hb Hr H B''. eapply run_ok_same; [by repeat split|done| | |exact H]; rewrite ?members_insert, ?signalled_insert, Hr by done; cbn; lia.
Qed.

(** A step that the APs do not see. *)
Lemma bsp_local s s' r p gone b B B' (Q : role -> Prop) : bsp_view s r p gone b B ->
  (forall j, j <> b -> same_cpu s s' j /\ s'.(mem) (Run j) = s.(mem) (Run j)) -> same_idt s s' ->
  B'.(waits) = B.(waits) -> B'.(given) = B.(given) -> B'.(held) = B.(held) -> B'.(quiet) = B.(quiet) -> B'.(follows) = B.(follows) ->
  (B.(phase) <> 0 -> B'.(phase) <> 0) -> cpu_ok os s' B' (p b) b (Bsp B') -> bsp_ok B' gone -> run_ok s' r (Some b) B' gone ->
  Q (Bsp B') -> steps b r s' Q.
Proof.
  intros [J Hr Hb Hok Hro Hs Ho Ha Hf] Hc Hi E1 E2 E3 E4 E5 Hph Hself Hok' Hro' HQ. exists (Bsp B'). split; [|done].
  exists (Some b), p, gone. apply (inv_bsp os s s' r b B B' p p gone); try done.
  - intros j Hj H. destruct (Hc j Hj) as [H1 H2]. eapply cpu_ok_same; [exact H1|by intros _|done|by rewrite E2| |by rewrite E4|exact H].
    unfold holds. by rewrite E3.
  - by apply (run_ok_bsp s' r b B' B).
  - intros j a Hj. apply Hph. by apply (Ha j a).
  - rewrite E5, E2. done.
Qed.

Ltac self V := pose proof (bv_self _ _ _ _ _ _ V) as (S1 & S2 & S3 & S4 & S5 & S6); cbn [cpu_ok]; know; look; repeat (split; [done|]); try done.
Ltac apart := let j := fresh "j" in let Hj := fresh "Hj" in intros j Hj; split; [repeat split; by look|by look].
(** After a step that the APs do not see: what the BSP knows, the variables of the run, and the rest of the code. *)
Ltac bsp_step V B' := eapply (bsp_local _ _ _ _ _ _ _ B' _ V); [apart|repeat split; by look|done|done|done|done|done|know; try done; lia|self V|..].
Ltac bsp_start HI Hr := destruct (bsp_facts _ _ _ _ HI Hr) as (p & gone & V);
  pose proof (bv_ok _ _ _ _ _ _ V) as Hok; pose proof (bv_run _ _ _ _ _ _ V) as Hro.

(** ** Variables of the run *)

Lemma safe_load_index n b B (Q : Z -> role -> Prop) : B.(reset) = false -> Q b (Bsp B) -> safe n b (Bsp B) (load BspIndex) Q.
Proof.
  intros Hres HQ. apply (safe_load (Inv os)); [done|]. intros s r HI Hr. bsp_start HI Hr.
  apply (steps_same (Inv os) b r s _ _ HI Hr). by rewrite (ro_index _ _ _ _ _ Hro), Hres.
Qed.

Lemma safe_enter n b B (Q : unit -> role -> Prop) : B.(phase) = 0 -> Q tt (Bsp (w_phase 1 B)) -> safe n b (Bsp B) (store InsideSmm TRUE) Q.
Proof.
  intros Hp HQ. apply (safe_store (Inv os)); [done|]. intros s r HI Hr. bsp_start HI Hr.
  destruct (bo_early _ _ Hok (bo_phase0 _ _ Hok Hp)) as (Hw & Hpt & Hg).
  assert (Hall : forall i, B.(given) i = 0) by (intros i; destruct (bo_given _ _ Hok i); lia).
  bsp_step V (w_phase 1 B); [|by running Hro|exact HQ]. okay Hok.
  - intros i. rewrite Hall. lia.
  - intros i Hi. destruct (oqu i Hi) as (_ & E & _). lia.
  - intros E. destruct (oco E) as (E' & _). lia.
Qed.

Lemma safe_mark n b B v (Q : unit -> role -> Prop) : 0 <= b < NumCpus -> Q tt (Bsp (w_bhere v B)) -> safe n b (Bsp B) (store (Present b) (flag v)) Q.
Proof.
  intros Hb HQ. apply (safe_store (Inv os)); [range|]. intros s r HI Hr. bsp_start HI Hr.
  bsp_step V (w_bhere v B); [by okay Hok|by running Hro|exact HQ].
Qed.

Lemma safe_name n b B (Q : unit -> role -> Prop) : Q tt (Bsp (w_named true B)) -> safe n b (Bsp B) (store CurrentlyExecutingCpu b) Q.
Proof.
  intros HQ. apply (safe_store (Inv os)); [done|]. intros s r HI Hr. bsp_start HI Hr.
  bsp_step V (w_named true B); [by okay Hok|by running Hro|exact HQ].
Qed.

(** Leaving: no AP has a procedure any more. *)
Lemma safe_exit n b B (Q : unit -> role -> Prop) : B.(phase) = 1 -> B.(waits) = 3 -> B.(locked) = true -> B.(held) = None -> B.(core) = false ->
  (forall i, B.(quiet) i = true) -> Q tt (Bsp (w_phase 2 B)) -> safe n b (Bsp B) (store InsideSmm FALSE) Q.
Proof.
  intros Hp Hw Hl Hh Hc Hq HQ. apply (safe_store (Inv os)); [done|]. intros s r HI Hr. bsp_start HI Hr.
  bsp_step V (w_phase 2 B); [|by running Hro|exact HQ]. okay Hok.
  - intros _. rewrite Hw. by split.
  - intros i. destruct (ogi i). lia.
  - intros i Hi. by rewrite Hq in Hi.
  - by rewrite Hc.
Qed.

(** The counter is locked, and tells the number of APs. *)
Lemma safe_lockdown n b B (Q : Z -> role -> Prop) : B.(phase) = 1 -> B.(locked) = false ->
  (forall c, 0 <= c < NumCpus -> Q (c + 1) (Bsp (w_locked true (w_count c B)))) -> safe n b (Bsp B) (LockdownSemaphore Counter) Q.
Proof.
  intros Hp Hl HQ. apply (safe_LockdownSemaphore (Inv os)); [done|]. intros s r HI Hr. bsp_start HI Hr.
  pose proof (members_bound _ _ _ _ _ _ (bv_inv _ _ _ _ _ _ V)) as [Hm0 Hm]. destruct (bo_early _ _ Hok Hl) as (Hw & Hpt & Hg).
  pose proof (ro_counter _ _ _ _ _ Hro) as Hc. rewrite Hl in Hc. rewrite Hc.
  bsp_step V (w_locked true (w_count (members r) B)); [| |apply HQ; lia].
  - okay Hok. intros i Hi. destruct (oqu i Hi) as (_ & _ & E & _). lia.
  - running Hro; [intros; lia|]. intros b' E. injection E as <-. destruct (rrn _ eq_refl). rewrite Hw, Hpt in *. look. lia.
Qed.

(** The end of the index of the BSP. *)
Lemma safe_reset n b B (Q : unit -> role -> Prop) : PcdCpuSmmEnableBspElection = true -> B.(waits) = 6 ->
  Q tt (Bsp (w_reset true B)) -> safe n b (Bsp B) (store BspIndex MINUS1) Q.
Proof.
  intros Hel Hw HQ. apply (safe_store (Inv os)); [done|]. intros s r HI Hr. bsp_start HI Hr.
  bsp_step V (w_reset true B); [by okay Hok| |exact HQ]. running Hro. unfold idle_index. by rewrite Hel.
Qed.

(** ** The arrival of the others *)

Lemma safe_load_counter n b B (Q : Z -> role -> Prop) : B.(locked) = false -> (forall c, 0 <= c <= NumCpus -> Q c (Bsp B)) -> safe n b (Bsp B) (load Counter) Q.
Proof.
  intros Hl HQ. apply (safe_load (Inv os)); [done|]. intros s r HI Hr. bsp_start HI Hr. apply (steps_same (Inv os) b r s _ _ HI Hr), HQ.
  pose proof (members_bound _ _ _ _ _ _ (bv_inv _ _ _ _ _ _ V)). rewrite (ro_counter _ _ _ _ _ Hro), Hl. lia.
Qed.

Lemma safe_load_number n b B (Q : Z -> role -> Prop) : Q NumCpus (Bsp B) -> safe n b (Bsp B) (load mNumberOfCpus) Q.
Proof.
  intros HQ. apply (safe_load (Inv os)); [done|]. intros s r HI Hr. bsp_start HI Hr. apply (steps_same (Inv os) b r s _ _ HI Hr).
  by rewrite (ro_cpus _ _ _ _ _ Hro).
Qed.

Lemma safe_assert_counter n b B (Q : unit -> role -> Prop) : B.(locked) = false -> Q tt (Bsp B) -> safe n b (Bsp B) assert_counter Q.
Proof.
  intros Hl HQ. sbind. apply safe_load_counter; [done|]. intros c Hc. sbind. apply safe_load_number.
  apply (safe_assert (Inv os)); [|done]. apply Z.leb_le. lia.
Qed.

Lemma safe_arrived b B e (Q : bool -> role -> Prop) : (forall v, Q v (Bsp B)) -> forall k n, Z.of_nat k <= NumCpus -> safe n b (Bsp B) (arrived k e) Q.
Proof.
  intros HQ. induction k as [|k IH]; intros n Hk; [by apply safe_ret|]. assert (Hk' : 0 <= Z.of_nat k < NumCpus) by lia.
  cbn [arrived]. sbind. sread p. sbind. eapply (safe_mono (Inv os) _ _ _ _ _ (fun _ g => g = Bsp B)).
  { destruct (p =? FALSE); [by sread pid|by apply safe_ret]. }
  intros id g ->. repeat case_match; try (apply IH; lia). by apply safe_ret.
Qed.

Lemma safe_all_in n b B e (Q : bool -> role -> Prop) : B.(locked) = false -> (forall v, Q v (Bsp B)) -> safe n b (Bsp B) (AllCpusInSmmWithExceptions e) Q.
Proof.
  intros Hl HQ. sbind. apply safe_assert_counter; [done|]. sbind. apply safe_load_counter; [done|]. intros c _. sbind. apply safe_load_number.
  case_match; [by apply safe_ret|]. apply safe_arrived; [done|]. unfold NumCpus. lia.
Qed.

Lemma safe_sync_wait n b B (Q : unit -> role -> Prop) : B.(locked) = false -> Q tt (Bsp B) -> safe n b (Bsp B) sync_wait Q.
Proof.
  intros Hl HQ. apply (safe_loop (Inv os) (eq (Bsp B))); [|done]. intros m g _ <-. sbind. apply (safe_timer (Inv os)).
  - intros s r _ _ _. by apply safe_ret.
  - sbind. apply safe_all_in; [done|]. intros v. by destruct v; apply safe_ret.
Qed.

Lemma safe_arrival n b B (Q : unit -> role -> Prop) : B.(locked) = false -> Q tt (Bsp B) -> safe n b (Bsp B) SmmWaitForApArrival Q.
Proof.
  intros Hl HQ. sbind. apply safe_assert_counter; [done|]. sbind. apply safe_sync_wait; [done|].
  sbind. apply safe_load_counter; [done|]. intros c _. sbind. apply safe_load_number. case_match; [|by apply safe_ret].
  sbind. apply (safe_for_down (Inv os) (fun _ g => g = Bsp B)); [done| |].
  - intros m x g _ Hx ->. assert (0 <= Z.of_nat x < NumCpus) by (unfold NumCpus; lia). sbind. sread p. case_match; [|by apply safe_ret].
    sbind. sread pid. case_match; [by apply safe_SendSmiIpi|by apply safe_ret].
  - intros g ->. by apply safe_sync_wait.
Qed.

(** ** The signals of a round *)

(** What must be true before the BSP waits for all. *)
Record may_wait (B : bsp) : Prop := {
  mw_waits : B.(waits) < 6;
  mw_locked : B.(locked) = true;
  mw_quiet : forall i, B.(quiet) i = true;
  mw_core : B.(core) = false;
  mw_reset : B.(reset) = false;
  mw_phase : B.(phase) = 1 -> B.(waits) < 3 /\ (B.(waits) = 1 -> B.(bsaved) = true);
  mw_smi : B.(waits) = 5 -> B.(bsmi) = false
}.

(** When the signals of a round have been received, every AP has sent its own; after the last round there are none. *)
Lemma all_sent s r p gone b B : bsp_view s r p gone b B -> may_wait B -> (B.(waits) + 1) * B.(count) <= signalled r + 6 * gone ->
  forall j, match r j with Counted _ => False | Ap a => B.(waits) < 5 /\ a.(sent) = B.(waits) + 1 | _ => True end.
Proof.
  intros V [M1 M2 M3 M4 M5 M6 M7] Hsum j. pose proof V as [J Hr Hb Hok Hro Hs Ho Ha Hf].
  pose proof (ro_count _ _ _ _ _ Hro M2) as Hm. pose proof (bo_gone_late _ _ Hok) as Hg. pose proof (bo_gone _ _ Hok). pose proof (bo_waits _ _ Hok).
  assert (Hbound : forall i, 0 <= signals (r i) <= 5 * member (r i) /\ signals (r i) <= (B.(waits) + 1) * member (r i) /\ 0 <= member (r i)).
  { intros i. destruct (decide (i = b)) as [->|Hi]; [rewrite Hr; cbn; lia|]. specialize (Ho i Hi).
    destruct (r i); cbn in *; try lia. destruct Ho as (Ho & _). unfold ap_signals in Ho. lia. }
  assert (Hj : 0 <= j < NumCpus \/ r j = Out 0).
  { destruct (decide (0 <= j < NumCpus)) as [|Hn]; [by left|]. right. by apply (iv_range _ _ _ _ _ _ J). }
  destruct Hj as [Hj| ->]; [|done]. destruct (Z.eq_dec B.(waits) 5) as [E5|E5].
  - assert (H5 : signalled r <= 5 * members r) by (unfold signalled, members; rewrite <- sum_to_scale; apply sum_to_le; intros; apply Hbound).
    assert (Hle : members r <= sum_to mMaxNumberOfCpus (fun _ => 0)).
    { assert (Hz : forall n, sum_to n (fun _ => 0) = 0) by (induction n as [|n IH]; cbn [sum_to]; lia). rewrite Hz. nia. }
    pose proof (sum_to_tight mMaxNumberOfCpus (fun _ => 0) (fun i => member (r i)) ltac:(intros; apply Hbound) Hle j Hj) as Hz. cbv beta in Hz. destruct (r j); cbn in Hz; first [done|lia].
  - assert (Hk : (B.(waits) + 1) * members r <= signalled r) by nia. unfold members, signalled in Hk. rewrite <- sum_to_scale in Hk.
    pose proof (sum_to_tight mMaxNumberOfCpus (fun i => signals (r i)) (fun i => (B.(waits) + 1) * member (r i)) ltac:(intros; apply Hbound) Hk j Hj) as Hz.
    cbv beta in Hz. destruct (r j); cbn in *; lia.
Qed.

Lemma round_step s s' r p gone b B (Q : role -> Prop) : bsp_view s r p gone b B -> may_wait B ->
  (forall l, l <> Run b -> s'.(mem) l = s.(mem) l) -> s'.(hw) = s.(hw) -> 0 <= s'.(mem) (Run b) ->
  s'.(mem) (Run b) + (B.(waits) + 1) * B.(count) = signalled r + 6 * gone ->
  Q (Bsp (w_waits (B.(waits) + 1) (w_part 0 B))) -> steps b r s' Q.
Proof.
  intros V M Hmem Hhw H0 Hsum HQ. pose proof (all_sent _ _ _ _ _ _ V M ltac:(lia)) as Hall. pose proof V as [J Hr Hb Hok Hro Hs Ho Ha Hf].
  destruct M as [M1 M2 M3 M4 M5 M6 M7]. eexists; split; [|exact HQ]. exists (Some b), p, gone.
  assert (Hidt : same_idt s s') by (unfold same_idt; rewrite Hhw, !Hmem by done; done).
  apply (inv_bsp os s s' r b B _ p p gone); try done.
  - intros j Hj Hc. specialize (Hall j). destruct (r j) as [h|rd|a|B2] eqn:Ej; [|done| |].
    + unfold cpu_ok, unused in *. by rewrite Hhw, !Hmem by congruence.
    + destruct Hc as (C1 & C2 & C3). unfold cpu_ok, ap_signals, ap_state, ap_job, holds in *. know. rewrite Hhw, !Hmem by congruence. lia || (split; [lia|done]).
    + exfalso. apply (iv_one _ _ _ _ _ _ J) in Ej. congruence.
  - unfold cpu_ok in *. know. rewrite Hhw, !Hmem by done. done.
  - okay Hok.
    + by rewrite M2.
    + intros E. destruct (op2 E). split; [lia|done].
    + intros i. destruct (ogi i). split; [lia|done].
    + intros A1 A2. destruct (M6 A2). destruct (Z.eq_dec B.(waits) 1); [auto|]. apply osa; [lia|done].
    + intros i Hi. by rewrite M3 in Hi.
    + by rewrite M4.
    + intros E. specialize (osm E). destruct (Z.eq_dec B.(waits) 5) as [E5|]; [|lia]. rewrite M7 in E by done. done.
    + by rewrite M5.
  - apply (run_ok_bsp s' r b _ B); [done|done|]. running Hro; rewrite ?Hhw, ?Hmem by done; try done.
    + intros b' E. injection E as <-. split; [done|]. lia.
    + intros i. rewrite Hmem by done. apply rop.
Qed.

(** One signal, the last of the round or not. *)
Lemma safe_receive n b B x (Q : Z -> role -> Prop) : 0 <= b < NumCpus -> may_wait B -> B.(part) = x -> 0 <= x < B.(count) ->
  (x + 1 < B.(count) -> forall v, Q v (Bsp (w_part (x + 1) B))) -> (x + 1 = B.(count) -> forall v, Q v (Bsp (w_waits (B.(waits) + 1) (w_part 0 B)))) ->
  safe n b (Bsp B) (WaitForSemaphore (Run b)) Q.
Proof.
  intros Hb M Hp Hx H1 H2. apply (safe_WaitForSemaphore (Inv os)); [range|]. intros s r HI Hr Hne. bsp_start HI Hr.
  destruct (ro_run _ _ _ _ _ Hro b eq_refl) as [R0 R1]. destruct (Z.eq_dec (x + 1) B.(count)) as [E|E].
  - eapply (round_step s _ r p gone b B); [done|done| |done| | |by apply H2]; [intros; by look|look; lia|look; lia].
  - bsp_step V (w_part (x + 1) B); [| |apply H1; lia].
    + destruct M as [M1 M2 M3 M4 M5 M6 M7]. okay Hok; [by rewrite M2|]. intros i Hi. by rewrite M3 in Hi.
    + running Hro. intros b' E'. injection E' as <-. look. lia.
Qed.

Lemma safe_WaitForAllAPs n b B (Q : unit -> role -> Prop) : 0 <= b < NumCpus -> may_wait B -> B.(part) = 0 -> 0 <= B.(count) ->
  Q tt (Bsp (w_waits (B.(waits) + 1) B)) -> safe n b (Bsp B) (WaitForAllAPs B.(count)) Q.
Proof.
  intros Hb M Hp Hc HQ. assert (Heq : w_part 0 B = B) by (destruct B; cbn in *; by subst).
  sbind. destruct (Z.eq_dec B.(count) 0) as [E|E].
  - apply (safe_load (Inv os)); [done|]. intros s r HI Hr. bsp_start HI Hr. destruct (ro_run _ _ _ _ _ Hro b eq_refl) as [R0 R1].
    eapply (round_step s s r p gone b B); [done|done|done|done|done|lia|]. rewrite Heq, E. by apply safe_ret.
  - apply safe_load_index; [apply M|]. set (B' := w_waits (B.(waits) + 1) B) in *.
    apply (safe_for_up (Inv os) (fun x g => g = Bsp (if x <? B.(count) then w_part x B else B'))).
    + rewrite (proj2 (Z.ltb_lt _ _)) by lia. by rewrite Heq.
    + intros m x g _ Hx ->. rewrite (proj2 (Z.ltb_lt _ _)) by lia. sbind. apply (safe_receive _ _ _ x); know; [done| |done|lia| |].
      * destruct M; split; by know.
      * intros Hx1 v. apply safe_ret. by rewrite (proj2 (Z.ltb_lt _ _)) by lia.
      * intros Hx1 v. apply safe_ret. rewrite (proj2 (Z.ltb_ge _ _)) by lia. f_equal. unfold B'. rewrite <- Heq. done.
    + intros g ->. rewrite (proj2 (Z.ltb_ge _ _)) by lia. done.
Qed.

(** ** Steps on the variables of one AP *)

Lemma bsp_other s s' r p gone b B B' j q (Q : role -> Prop) : bsp_view s r p gone b B -> j <> b ->
  (forall i, i <> j -> same_cpu s s' i /\ s'.(mem) (Run i) = s.(mem) (Run i)) -> same_vars s s' -> same_idt s s' ->
  w_given B.(given) (w_follows B.(follows) (w_held B.(held) (w_quiet B.(quiet) B'))) = B ->
  (forall i, i <> j -> B'.(given) i = B.(given) i /\ holds B' i = holds B i /\ B'.(quiet) i = B.(quiet) i) ->
  cpu_ok os s' B' q j (r j) -> bsp_ok B' gone ->
  (forall i, B'.(follows) i = true -> B'.(given) i <= 4 -> exists a, r i = Ap a) ->
  Q (Bsp B') -> steps b r s' Q.
Proof.
  intros [J Hr Hb Hok Hro Hs Ho Ha Hf] Hj Hc Hv Hi HB HB' Hcj Hok' Hf' HQ. exists (Bsp B'). split; [|done]. exists (Some b), (<[j := q]> p), gone.
  assert (Hw : B'.(waits) = B.(waits)) by (by rewrite <- HB). assert (Hph : B'.(phase) = B.(phase)) by (by rewrite <- HB).
  assert (Hro' : run_ok s' r (Some b) B' gone).
  { assert (Hro' : run_ok s' r (Some b) B gone) by (eapply run_ok_same; [exact Hv| |done|done|exact Hro]; intros b' E; injection E as <-; by apply Hc).
    rewrite <- HB in Hro'. destruct Hro' as [R1 R2 R3 R4 R5 R6 R7 R8 R9]. by split. }
  apply (inv_bsp os s s' r b B B' p _ gone); try done.
  - intros i Hib H. destruct (decide (j = i)) as [<-|Hij]; [by rewrite fn_lookup_insert|]. rewrite fn_lookup_insert_ne by done.
    destruct (Hc i) as [H1 H2]; [done|]. destruct (HB' i) as (B1 & B2 & B3); [done|]. by eapply cpu_ok_same; [exact H1|by intros _|..].
  - rewrite fn_lookup_insert_ne by done. destruct (Hc b) as [H1 H2]; [done|].
    assert (Hself : cpu_ok os s B' (p b) b (Bsp B')) by (rewrite <- HB in Hs; exact Hs).
    eapply cpu_ok_same; [exact H1|by intros _|..|exact Hself]; done.
  - by apply (run_ok_bsp s' r b B' B).
  - intros i a E. rewrite Hph. by apply (Ha i a).
Qed.

(** What the mark of presence tells once the APs have sent a signal. *)
Lemma present_ap s r p gone b B j : bsp_view s r p gone b B -> j <> b -> 1 <= B.(waits) -> B.(given) j <= 4 ->
  (s.(mem) (Present j) = 0 /\ (forall a, r j <> Ap a) /\ exists h, r j = Out h) \/ (s.(mem) (Present j) = 1 /\ exists a, r j = Ap a).
Proof.
  intros V Hj Hw Hg. pose proof (bv_other _ _ _ _ _ _ V j Hj) as H. destruct (r j) as [h|rd|a|B2] eqn:E.
  - left. destruct H as ((_ & H & _) & _). eauto.
  - destruct H as (_ & _ & _ & H). lia.
  - right. destruct H as (H1 & (_ & H2 & _ & _ & _ & _ & _ & H3) & _). unfold ap_signals in H1. rewrite H2, H3 by lia. eauto.
  - apply (iv_one _ _ _ _ _ _ (bv_inv _ _ _ _ _ _ V)) in E. congruence.
Qed.

(** The BSP looks whether [j] is present; when it is not, the signals due to it count as given. *)
Lemma safe_look n b B j x (Q : Z -> role -> Prop) : 0 <= j < NumCpus -> j <> b -> 1 <= B.(waits) -> B.(given) j <= 4 ->
  0 <= x <= B.(waits) -> (3 <= x -> B.(phase) = 2) ->
  (B.(quiet) j = true -> Q 0 (Bsp (w_given (<[j := x]> B.(given)) B))) ->
  Q 1 (Bsp (w_follows (<[j := true]> B.(follows)) B)) -> safe n b (Bsp B) (load (Present j)) Q.
Proof.
  intros Hj Hjb Hw Hg Hx Hx3 H0 H1. apply (safe_load (Inv os)); [range|]. intros s r HI Hr. bsp_start HI Hr.
  pose proof (bv_follow _ _ _ _ _ _ V) as Hf. pose proof (bv_other _ _ _ _ _ _ V j Hjb) as Hcj.
  destruct (present_ap s r p gone b B j V Hjb Hw Hg) as [(-> & Hno & h & Eh)|[-> [a Ea]]].
  - assert (Hq : B.(quiet) j = true).
    { destruct (B.(quiet) j) eqn:E; [done|]. destruct (bo_quiet _ _ Hok j E) as (E1 & _). destruct (Hf j E1 Hg) as [a Ea]. by apply Hno in Ea. }
    eapply (bsp_other s s r p gone b B (w_given (<[j := x]> B.(given)) B) j (p j)); try done; [by destruct B|intros i Hi; know; by rewrite fn_lookup_insert_ne| | | |by apply H0].
    + rewrite Eh in *. done.
    + okay Hok. intros i. destruct (decide (j = i)) as [<-|Hi]; [by rewrite fn_lookup_insert|by rewrite fn_lookup_insert_ne].
    + intros i. know. intros Fi. destruct (decide (j = i)) as [<-|Hi]; [|by rewrite fn_lookup_insert_ne; auto].
      destruct (Hf j Fi Hg) as [a Ea]. by apply Hno in Ea.
  - eapply (bsp_other s s r p gone b B (w_follows (<[j := true]> B.(follows)) B) j (p j)); try done; [by destruct B| |].
    + okay Hok. intros i Hi. destruct (oqu i Hi) as (E & ?). split; [|done].
      destruct (decide (j = i)) as [<-|Hji]; [by rewrite fn_lookup_insert|by rewrite fn_lookup_insert_ne].
    + intros i. know. destruct (decide (j = i)) as [<-|Hi]; [eauto|rewrite fn_lookup_insert_ne by done; auto].
Qed.

(** A signal to an AP that was present. *)
Lemma safe_signal n b B j (Q : Z -> role -> Prop) : 0 <= j < NumCpus -> j <> b -> B.(follows) j = true -> B.(given) j < B.(waits) -> B.(given) j <= 4 ->
  (B.(given) j < 2 \/ B.(phase) = 2) ->
  (forall v, Q v (Bsp (w_given (<[j := B.(given) j + 1]> B.(given)) B))) -> safe n b (Bsp B) (ReleaseSemaphore (Run j)) Q.
Proof.
  intros Hj Hjb HF Hlt Hg Hph HQ.
  assert (Hfacts : forall s r, Inv os s r -> r b = Bsp B -> exists p gone a, bsp_view s r p gone b B /\ r j = Ap a /\ u32 (s.(mem) (Run j) + 1) = s.(mem) (Run j) + 1 /\ 0 <= s.(mem) (Run j)).
  { intros s r HI Hr. bsp_start HI Hr. destruct (bv_follow _ _ _ _ _ _ V j HF Hg) as [a Ea]. exists p, gone, a.
    pose proof (bv_other _ _ _ _ _ _ V j Hjb) as Hcj. rewrite Ea in Hcj. destruct Hcj as ((C1 & C2 & C3 & C4 & C5) & _).
    pose proof (bo_waits _ _ Hok). destruct (p j); cbn [flag] in C5; (split; [done|split; [done|split; [apply u32_succ|]]]; lia). }
  apply (safe_ReleaseSemaphore (Inv os)); [range| |]; intros s r HI Hr Hu; destruct (Hfacts s r HI Hr) as (p & gone & a & V & Ea & E & H0); rewrite E in *; [lia|].
  pose proof (bv_ok _ _ _ _ _ _ V) as Hok. pose proof (bv_other _ _ _ _ _ _ V j Hjb) as Hcj. rewrite Ea in Hcj.
  eapply (bsp_other s _ r p gone b B (w_given (<[j := B.(given) j + 1]> B.(given)) B) j (p j)); [exact V|done| | | |by destruct B| | | | |apply HQ].
  - others.
  - repeat split; intros; by look.
  - by repeat split.
  - intros i Hi. know. by rewrite fn_lookup_insert_ne.
  - rewrite Ea. destruct Hcj as (C1 & C2 & C3). unfold cpu_ok, ap_signals, ap_state, ap_job, holds in *. know. look. split; [lia|done].
  - okay Hok. intros i. destruct (decide (j = i)) as [<-|Hi]; [rewrite fn_lookup_insert|by rewrite fn_lookup_insert_ne].
    destruct (ogi j). split; [lia|]. intros. destruct Hph; [lia|done].
  - intros i. know. intros Fi. destruct (decide (j = i)) as [<-|Hi]; [by eauto|]. rewrite fn_lookup_insert_ne by done. by apply (bv_follow _ _ _ _ _ _ V).
Qed.

Definition given_all (b x : Z) (f : Z -> Z) : Prop := forall i, 0 <= i < NumCpus -> i <> b -> f i = x.

Lemma safe_ReleaseAllAPs n b B k (Q : unit -> role -> Prop) : 1 <= k <= 5 -> B.(waits) = k -> B.(reset) = false -> (3 <= k -> B.(phase) = 2) ->
  given_all b (k - 1) B.(given) -> (forall f F, given_all b k f -> Q tt (Bsp (w_given f (w_follows F B)))) -> safe n b (Bsp B) ReleaseAllAPs Q.
Proof.
  intros Hk Hw Hres Hph Hg HQ. sbind. apply safe_load_index; [done|].
  apply (safe_for_down (Inv os) (fun x g => exists f F, g = Bsp (w_given f (w_follows F B)) /\
    forall i, 0 <= i < NumCpus -> i <> b -> f i = if i <? Z.of_nat x then k - 1 else k)).
  - exists B.(given), B.(follows). split; [by destruct B|]. intros i Hi Hib. unfold NumCpus in Hi. rewrite (proj2 (Z.ltb_lt _ _)) by lia. apply Hg; [done|done].
  - intros m x g _ Hx (f & F & -> & Hf). set (j := Z.of_nat x) in *. assert (Hj : 0 <= j < NumCpus) by (unfold NumCpus; lia).
    assert (Hnext : forall f', f' j = k \/ j = b -> (forall i, i <> j -> f' i = f i) ->
      forall i, 0 <= i < NumCpus -> i <> b -> f' i = if i <? j then k - 1 else k).
    { intros f' Hfj Hf' i Hi Hib. destruct (decide (i = j)) as [->|Hij].
      - destruct Hfj as [->|]; [|done]. by rewrite Z.ltb_irrefl.
      - rewrite Hf', Hf by done. destruct (Z.ltb_spec i (Z.of_nat (S x))), (Z.ltb_spec i j); lia. }
    destruct (Z.eqb_spec j b) as [E|E].
    { apply safe_ret. exists f, F. split; [done|]. apply Hnext; [by right|done]. }
    assert (Hfj : f j = k - 1) by (rewrite Hf by done; rewrite (proj2 (Z.ltb_lt _ _)) by lia; done).
    sbind. apply (safe_look _ _ _ j k); know; rewrite ?Hw, ?Hfj; try done; try lia.
    + intros _. apply safe_ret. exists (<[j := k]> f), F. split; [done|].
      apply Hnext; [left; by rewrite fn_lookup_insert|intros i Hi; by rewrite fn_lookup_insert_ne].
    + sbind. apply safe_signal; know; rewrite ?Hw, ?Hfj; try done; try lia; [by rewrite fn_lookup_insert|]. intros v. apply safe_ret.
      exists (<[j := k - 1 + 1]> f), (<[j := true]> F). split; [done|].
      apply Hnext; [left; rewrite fn_lookup_insert; lia|intros i Hi; by rewrite fn_lookup_insert_ne].
  - intros g (f & F & -> & Hf). apply HQ. intros i Hi Hib. rewrite Hf by done. destruct (Z.ltb_spec i (Z.of_nat 0)); lia.
Qed.
End Bsp.
