(* ===== verification/MpServe.v ===== *)
(** * The rendezvous of processors in SMM: what the BSP does for SMI handlers *)

From S2P Require Import Prelude MpDefs MpLogic MpInv MpAp MpBsp.
From stdpp Require Import functions.
#[local] Open Scope Z_scope.
#[local] Open Scope code_scope.

Section Serve.
Context {SC : SmmConfig} (os : Z -> MTRR_SETTINGS) (Few : NumCpus < 2 ^ 28).
Notation inv := (inv os).
Notation safe := (safe (Inv os)).
Notation steps := (steps (Inv os)).
Notation bsp_view := (bsp_view os).
Implicit Types (b : Z) (B : bsp).

Ltac conj := repeat match goal with |- _ /\ _ => split end.

(** ** The lock of an AP *)

Lemma holds_at B j c : B.(held) = Some (j, c) -> holds B j = Some c.
Proof. unfold holds. intros ->. by rewrite Z.eqb_refl. Qed.

Lemma holds_not B j j' c : B.(held) = Some (j, c) -> j' <> j -> holds B j' = None.
Proof. unfold holds. intros -> Hj. by rewrite (proj2 (Z.eqb_neq _ _)). Qed.

(** While the BSP has the lock of an AP, that AP has no procedure. *)
Lemma held_view s r p gone b B j c : bsp_view s r p gone b B -> B.(held) = Some (j, c) ->
  j <> b /\ 0 <= j < NumCpus /\ exists a, r j = Ap a /\ ap_signals s B false j a /\ ap_state os s j a /\ ap_job s B false j a /\
    p j = false /\ a.(job) = Free /\ B.(quiet) j = false.
Proof.
  intros V Hh. pose proof (bv_inv _ _ _ _ _ _ _ V) as J. pose proof (bv_role _ _ _ _ _ _ _ V) as Hr.
  destruct (held_is_ap os s r (Some b) p gone j c J) as [a Ea]; [cbn; by rewrite Hr|].
  assert (Hjb : j <> b) by (intros ->; congruence).
  pose proof (bv_other _ _ _ _ _ _ _ V j Hjb) as H. rewrite Ea in H. destruct H as (H1 & H2 & H3).
  assert (p j = false /\ a.(job) = Free) as [Hp Hj].
  { destruct H3 as (E1 & E2 & _). rewrite (holds_at _ _ _ Hh) in E1. destruct (p j), (job a); cbn in E1; split; try done; lia. }
  rewrite Hp in *. split; [done|]. split.
  - destruct (decide (0 <= j < NumCpus)) as [|Hn]; [done|]. rewrite (iv_range _ _ _ _ _ _ J) in Ea by done. done.
  - exists a. repeat (split; [done|]). by apply (bo_held _ _ (bv_ok _ _ _ _ _ _ _ V) j c).
Qed.

(** A step on the AP whose lock the BSP has. *)
Lemma held_step s s' r p gone b B j c (h : option hold) (q : bool) (pj : bool) (Q : role -> Prop) : bsp_view s r p gone b B -> B.(held) = Some (j, c) ->
  (forall l, l <> Busy j -> l <> Run j -> l <> Procedure j -> l <> Parameter_ j -> s'.(mem) l = s.(mem) l) ->
  s'.(mem) (Run j) = s.(mem) (Run j) + flag pj -> (h <> None -> q = false) ->
  (exists x, s'.(hw) = s.(hw) \/ s'.(hw) = schedules j x s.(hw)) ->
  let B' := w_held (match h with Some c' => Some (j, c') | None => None end) (w_quiet (<[j := q]> B.(quiet)) B) in
  (forall a, a.(job) = Free -> ap_job s B false j a -> ap_job s' B' pj j a) ->
  Q (Bsp B') -> steps b r s' Q.
Proof.
  intros V Hh Hmem HR Hq Hhw B' Hjob HQ. destruct (held_view _ _ _ _ _ _ _ _ V Hh) as (Hjb & Hj & a & Ea & H1 & H2 & H3 & Hp & Hf & Hqj).
  pose proof (bv_ok _ _ _ _ _ _ _ V) as Hok. destruct Hhw as [x Hhw].
  assert (E : s'.(hw).(Mtrrs) = s.(hw).(Mtrrs) /\ s'.(hw).(InSmm) = s.(hw).(InSmm) /\ s'.(hw).(Saved) = s.(hw).(Saved) /\ s'.(hw).(InCore) = s.(hw).(InCore) /\
    s'.(hw).(IdtCopies) = s.(hw).(IdtCopies) /\ s'.(hw).(Ran) = s.(hw).(Ran) /\ forall i, i <> j -> s'.(hw).(Scheduled) i = s.(hw).(Scheduled) i).
  { destruct Hhw as [-> | ->]; [done|]. repeat (split; [done|]). intros i Hi. by look. }
  destruct E as (F1 & F2 & F3 & F4 & F5 & F6 & F7).
  eapply (bsp_other os s s' r p gone b B B' j pj); [exact V|done| | | |by destruct B| | | | |exact HQ].
  - intros i Hi. unfold same_cpu. rewrite F1, F2, F3, F6, F7, !Hmem by congruence. done.
  - unfold same_vars. rewrite F4, !Hmem by done. repeat (split; [done|]). intros i. by rewrite Hmem.
  - unfold same_idt. by rewrite F5, !Hmem.
  - intros i Hi. unfold B'. know. rewrite fn_lookup_insert_ne by done. split; [done|split; [|done]]. rewrite (holds_not _ _ _ _ Hh) by done.
    unfold holds. know. destruct h; [|done]. by rewrite (proj2 (Z.eqb_neq _ _)).
  - rewrite Ea. split; [|split; [|by apply Hjob]].
    + unfold ap_signals in *. unfold B'. know. rewrite HR. cbn [flag] in *. lia.
    + unfold ap_state in *. by rewrite F1, F2, F3, Hmem.
  - unfold B'. okay Hok.
    + intros E. destruct (op2 E) as (A1 & A2 & A3). by rewrite A3 in Hqj.
    + intros i. destruct (decide (j = i)) as [<-|Hi]; [rewrite fn_lookup_insert; intros; by apply oqu|rewrite fn_lookup_insert_ne by done; apply oqu].
    + intros i c'. destruct h as [c''|]; [|done]. intros E. injection E as <- <-. rewrite fn_lookup_insert. by apply Hq.
  - intros i. unfold B'. know. apply (bv_follow _ _ _ _ _ _ _ V).
Qed.

Ltac bsp_start HI Hr := destruct (bsp_facts os _ _ _ _ HI Hr) as (p & gone & V);
  pose proof (bv_ok _ _ _ _ _ _ _ V) as Hok; pose proof (bv_run _ _ _ _ _ _ _ V) as Hro.

(** The BSP serves SMI handlers: no signal is on its way. *)
Record serving (b : Z) (B : bsp) : Prop := {
  sv_phase : B.(phase) = 1;
  sv_waits : B.(waits) = 3;
  sv_locked : B.(locked) = true;
  sv_part : B.(part) = 0;
  sv_given : given_all b 2 B.(given)
}.

Definition locked_by (j : Z) (B : bsp) : bsp := w_held (Some (j, Held)) (w_quiet (<[j := false]> B.(quiet)) B).

Lemma lock_step s r b B j (Q : role -> Prop) : Inv os s r -> r b = Bsp B -> serving b B -> 0 <= j < NumCpus -> j <> b -> B.(follows) j = true \/ B.(quiet) j = false -> B.(held) = None ->
  s.(mem) (Busy j) = RELEASED -> Q (Bsp (locked_by j B)) -> steps b r (set_mem (Busy j) ACQUIRED s) Q.
Proof.
  intros HI Hr [S1 S2 S3 S4 S5] Hj Hjb Hf0 Hh E HQ. bsp_start HI Hr.
  assert (Hf : B.(follows) j = true) by (destruct Hf0; [done|by apply (bo_quiet _ _ Hok)]). pose proof (bv_follow _ _ _ _ _ _ _ V) as HF.
  specialize (S5 j Hj Hjb). destruct (HF j Hf ltac:(lia)) as [a Ea]. pose proof (bv_other _ _ _ _ _ _ _ V j Hjb) as Hc. rewrite Ea in Hc.
  eapply (bsp_other os s _ r p gone b B (locked_by j B) j (p j)); [exact V|done|others|repeat split; intros; by look|repeat split; by look|by destruct B| | | | |exact HQ].
  - intros i Hi. unfold locked_by, holds. know. rewrite Hh, fn_lookup_insert_ne by done. by rewrite (proj2 (Z.eqb_neq _ _)).
  - rewrite Ea. destruct Hc as (C1 & C2 & (E1 & E2 & E3 & E4 & E5 & E6 & E7)). cbn [cpu_ok]. unfold ap_signals, ap_state, ap_job, locked_by, holds in *. know. look.
    rewrite Hh in *. rewrite E, Z.eqb_refl in *. unfold RELEASED, ACQUIRED in *. cbn [flag held_by] in *.
    destruct (p j), (working (job a)) eqn:Ew; cbn [flag] in E1; try lia. destruct (job a); [|done..].
    split; [exact C1|split; [exact C2|]]. by conj.
  - unfold locked_by. okay Hok.
    + intros i. destruct (decide (j = i)) as [<-|Hi]; [done|rewrite fn_lookup_insert_ne by done; apply oqu].
    + intros i c'. intros E'. injection E' as <- <-. by rewrite fn_lookup_insert.
  - apply HF.
Qed.

(** What the BSP has stored under the lock of [j]. *)
Definition has_lock (j : Z) (c : hold) (q : Z -> bool) (B : bsp) : bsp := w_held (Some (j, c)) (w_quiet q B).
Definition no_lock (q : Z -> bool) (B : bsp) : bsp := w_held None (w_quiet q B).

Ltac held_job Hh := let a := fresh "a" in let Ha := fresh "Ha" in let H := fresh "H" in
  intros a Ha H; destruct H as (E1 & E2 & E3 & E4 & E5 & E6 & E7); unfold RELEASED, ap_job in *; rewrite Ha in *; unfold holds in *; know; look;
  rewrite Hh in *; rewrite ?Z.eqb_refl in *; cbn [flag held_by working recorded orb] in *; conj; try done; try lia.

(** The BSP gives the lock back: the AP has no procedure. *)
Lemma safe_unlock n b B j (Q : unit -> role -> Prop) : 0 <= j < NumCpus -> B.(held) = Some (j, Held) ->
  Q tt (Bsp (no_lock (<[j := true]> B.(quiet)) B)) -> safe n b (Bsp B) (ReleaseSpinLock (Busy j)) Q.
Proof.
  intros Hj Hh HQ. apply (safe_store (Inv os)); [range|]. intros s r HI Hr. bsp_start HI Hr.
  eapply (held_step s _ r p gone b B j Held None true false); [exact V|exact Hh|intros; by look|look; cbn; lia|done|by exists (0, 0); left| |exact HQ].
  held_job Hh.
Qed.

Lemma safe_store_proc n b B j v (Q : unit -> role -> Prop) : 0 <= j < NumCpus -> B.(held) = Some (j, Held) ->
  Q tt (Bsp (has_lock j (Named v) (<[j := false]> B.(quiet)) B)) -> safe n b (Bsp B) (store (Procedure j) v) Q.
Proof.
  intros Hj Hh HQ. apply (safe_store (Inv os)); [range|]. intros s r HI Hr. bsp_start HI Hr.
  eapply (held_step s _ r p gone b B j Held (Some (Named v)) false false); [exact V|exact Hh|intros; by look|look; cbn; lia|done|by exists (0, 0); left| |exact HQ].
  held_job Hh.
Qed.

Lemma safe_store_param n b B j v x (Q : unit -> role -> Prop) : 0 <= j < NumCpus -> B.(held) = Some (j, Named v) ->
  Q tt (Bsp (has_lock j (Filled v x) (<[j := false]> B.(quiet)) B)) -> safe n b (Bsp B) (store (Parameter_ j) x) Q.
Proof.
  intros Hj Hh HQ. apply (safe_store (Inv os)); [range|]. intros s r HI Hr. bsp_start HI Hr.
  eapply (held_step s _ r p gone b B j (Named v) (Some (Filled v x)) false false); [exact V|exact Hh|intros; by look|look; cbn; lia|done|by exists (0, 0); left| |exact HQ].
  held_job Hh.
Qed.

Lemma safe_schedule n b B j v x (Q : unit -> role -> Prop) : B.(held) = Some (j, Filled v x) ->
  Q tt (Bsp (has_lock j Recorded (<[j := false]> B.(quiet)) B)) -> safe n b (Bsp B) (hook (schedules j (v, x))) Q.
Proof.
  intros Hh HQ. apply (safe_hook (Inv os)). intros s r HI Hr. bsp_start HI Hr.
  eapply (held_step s _ r p gone b B j (Filled v x) (Some Recorded) false false); [exact V|exact Hh|done|look; cbn; lia|done|by exists (v, x); right| |exact HQ].
  held_job Hh.
  destruct E6 as [-> ->]. by rewrite E7, app_nil_r.
Qed.

(** The signal that there is a procedure. *)
Lemma safe_start_ap n b B j (Q : Z -> role -> Prop) : 0 <= j < NumCpus -> B.(held) = Some (j, Recorded) ->
  (forall v, Q v (Bsp (no_lock (<[j := false]> B.(quiet)) B))) -> safe n b (Bsp B) (ReleaseSemaphore (Run j)) Q.
Proof.
  intros Hj Hh HQ.
  assert (Hfew : forall s r, Inv os s r -> r b = Bsp B -> 0 <= s.(mem) (Run j) /\ u32 (s.(mem) (Run j) + 1) = s.(mem) (Run j) + 1).
  { intros s r HI Hr. bsp_start HI Hr. destruct (held_view _ _ _ _ _ _ _ _ V Hh) as (_ & _ & a & _ & (H1 & H2 & H3 & H4 & H5) & _).
    pose proof (bo_waits _ _ Hok). cbn [flag] in H5. split; [lia|]. apply u32_succ. lia. }
  apply (safe_ReleaseSemaphore (Inv os)); [range| |]; intros s r HI Hr Hu; destruct (Hfew s r HI Hr) as [H0 E]; rewrite E in *; [lia|].
  bsp_start HI Hr.
  eapply (held_step s _ r p gone b B j Recorded None false true); [exact V|exact Hh|intros; by look|look; cbn; lia|done|by exists (0, 0); left| |apply HQ].
  held_job Hh.
Qed.

(** ** The services *)

(** The roles of the BSP while it serves: what may have changed since [B0]. *)
Definition with_ (f : Z -> Z) (F : Z -> bool) (h : option (Z * hold)) (q : Z -> bool) (B0 : bsp) : bsp := w_given f (w_follows F (w_held h (w_quiet q B0))).
Definition serves (b : Z) (B0 : bsp) (h : option (Z * hold)) (g : role) : Prop :=
  exists f F q, g = Bsp (with_ f F h q B0) /\ given_all b 2 f /\ forall i, q i = false -> 0 <= i < NumCpus /\ i <> b.

Lemma serves_change b B0 h' j (q : Z -> bool) g f F x : given_all b 2 f -> (forall i, q i = false -> 0 <= i < NumCpus /\ i <> b) -> 0 <= j < NumCpus -> j <> b ->
  g = Bsp (with_ f F h' (<[j := x]> q) B0) -> serves b B0 h' g.
Proof.
  intros Hf Hq Hj Hjb ->. exists f, F, (<[j := x]> q). split; [done|split; [done|]]. intros i.
  destruct (decide (j = i)) as [<-|Hi]; [done|]. rewrite fn_lookup_insert_ne by done. apply Hq.
Qed.

Section Services.
Context (b : Z) (B0 : bsp) (Hb : 0 <= b < NumCpus) (S0 : serving b B0) (Hnamed : B0.(named) = true) (Hcore : B0.(core) = true).

Lemma serving_with f F h q : given_all b 2 f -> serving b (with_ f F h q B0).
Proof. intros Hf. destruct S0. by split. Qed.

Lemma safe_load_named n B (Q : Z -> role -> Prop) : B.(named) = true -> Q b (Bsp B) -> safe n b (Bsp B) (load CurrentlyExecutingCpu) Q.
Proof.
  intros Hn HQ. apply (safe_load (Inv os)); [done|]. intros s r HI Hr. bsp_start HI Hr. apply (steps_same (Inv os) b r s _ _ HI Hr).
  assert (E : Some b = Some (s.(mem) CurrentlyExecutingCpu)) by (by apply (ro_named _ _ _ _ _ Hro)). by injection E as <-.
Qed.

(** An AP is looked up: it follows, or it is not there. *)
Lemma safe_look_serving n j f F q (Q : Z -> role -> Prop) : 0 <= j < NumCpus -> j <> b -> given_all b 2 f ->
  (q j = true -> Q 0 (Bsp (with_ (<[j := 2]> f) F None q B0))) -> Q 1 (Bsp (with_ f (<[j := true]> F) None q B0)) ->
  safe n b (Bsp (with_ f F None q B0)) (load (Present j)) Q.
Proof.
  intros Hj Hjb Hf H0 H1. pose proof (sv_waits _ _ S0) as Hw. pose proof (Hf j Hj Hjb).
  apply (safe_look os n b _ j 2); unfold with_; know; rewrite ?Hw; try done; lia.
Qed.

Lemma given_insert f j : given_all b 2 f -> given_all b 2 (<[j := 2]> f).
Proof. intros Hf i Hi Hib. destruct (decide (j = i)) as [<-|Hji]; [by rewrite fn_lookup_insert|]. rewrite fn_lookup_insert_ne by done. by apply Hf. Qed.

Lemma safe_acquire n g j (Q : bool -> role -> Prop) : 0 <= j -> serves b B0 None g ->
  (forall g', serves b B0 None g' -> Q false g') -> (forall g', 0 <= j < NumCpus -> j <> b -> serves b B0 (Some (j, Held)) g' -> Q true g') ->
  safe n b g (acquire_ap j) Q.
Proof.
  intros Hj (f & F & q & -> & Hf & Hq) H0 H1. assert (Hfail : forall f' F', given_all b 2 f' -> Q false (Bsp (with_ f' F' None q B0))).
  { intros f' F' Hf'. apply H0. by exists f', F', q. }
  unfold acquire_ap. destruct (Z.leb_spec (Z.of_nat mMaxNumberOfCpus) j) as [Hle|Hlt]; [by apply safe_ret, Hfail|].
  sbind. apply safe_load_named; [done|]. destruct (Z.eqb_spec j b) as [E|E]; [by apply safe_ret, Hfail|].
  assert (Hjn : 0 <= j < NumCpus) by (unfold NumCpus; lia).
  sbind. apply safe_look_serving; [done..| |].
  { intros _. apply safe_ret, Hfail. by apply given_insert. }
  change (1 =? FALSE) with false. cbv iota. sbind. sread o. case_match; [by apply safe_ret, Hfail|].
  apply (safe_try_lock (Inv os)); [range| |].
  - intros s r HI Hr E0. apply (lock_step s r b _ j _ HI Hr); [by apply serving_with|done|done|left; unfold with_; know; by rewrite fn_lookup_insert|done|done|].
    apply H1; [done|done|]. by eapply serves_change.
  - intros s r HI Hr _. apply (steps_same (Inv os) b r s _ _ HI Hr). by apply Hfail.
Qed.

(** The lock is taken, when the AP has finished, and given back. *)
Lemma safe_wait_ap n j f F q (Q : unit -> role -> Prop) : 0 <= j < NumCpus -> j <> b -> given_all b 2 f -> F j = true \/ q j = false ->
  Q tt (Bsp (with_ f F None (<[j := true]> (<[j := false]> q)) B0)) ->
  safe n b (Bsp (with_ f F None q B0)) (_ ← AcquireSpinLock (Busy j); ReleaseSpinLock (Busy j)) Q.
Proof.
  intros Hj Hjb Hf HF HQ. sbind. apply (safe_lock (Inv os)); [range|]. intros s r HI Hr E.
  apply (lock_step s r b _ j _ HI Hr); [by apply serving_with|done|done|done|done|done|]. by apply safe_unlock.
Qed.

(** The procedure is stored under the lock, and the AP is told. *)
Lemma safe_give n A j p x g (k : Z -> code A) (Q : A -> role -> Prop) : 0 <= j < NumCpus -> j <> b -> serves b B0 (Some (j, Held)) g ->
  (forall m v f F q, given_all b 2 f -> (forall i, q i = false -> 0 <= i < NumCpus /\ i <> b) -> q j = false -> safe m b (Bsp (with_ f F None q B0)) (k v) Q) ->
  safe n b g (_ ← store (Procedure j) p; _ ← store (Parameter_ j) x; _ ← hook (schedules j (p, x)); v ← ReleaseSemaphore (Run j); k v) Q.
Proof.
  intros Hj Hjb (f & F & q & -> & Hf & Hq) HQ. sbind. apply safe_store_proc; [done|done|]. sbind. eapply safe_store_param; [done|done|].
  sbind. eapply safe_schedule; [done|]. sbind. apply safe_start_ap; [done|done|]. intros v.
  apply (HQ _ v f F (<[j := false]> (<[j := false]> (<[j := false]> (<[j := false]> q))))); [done| |by rewrite fn_lookup_insert].
  intros i. destruct (decide (j = i)) as [<-|Hi]; [done|]. rewrite !fn_lookup_insert_ne by done. apply Hq.
Qed.

Lemma safe_give_back n j f F q (Q : EFI_STATUS -> role -> Prop) : 0 <= j < NumCpus -> j <> b -> given_all b 2 f ->
  (forall i, q i = false -> 0 <= i < NumCpus /\ i <> b) -> q j = false -> (forall v g', serves b B0 None g' -> Q v g') ->
  safe n b (Bsp (with_ f F None q B0)) (_ ← AcquireSpinLock (Busy j); _ ← ReleaseSpinLock (Busy j); Ret EFI_SUCCESS) Q.
Proof.
  intros Hj Hjb Hf Hq Hqj HQ. sbind. apply (safe_lock (Inv os)); [range|]. intros s r HI Hr E.
  apply (lock_step s r b _ j _ HI Hr); [by apply serving_with|done|done|by right|done|done|]. sbind. apply safe_unlock; [done|done|].
  apply safe_ret, HQ. eapply (serves_change b B0 None j (<[j := false]> q)); [exact Hf| |done|done|done].
  intros i. destruct (decide (j = i)) as [<-|Hi]; [done|]. rewrite !fn_lookup_insert_ne by done. apply Hq.
Qed.

Lemma safe_SmmBlockingStartupThisAp n g p j x (Q : EFI_STATUS -> role -> Prop) : 0 <= j -> serves b B0 None g ->
  (forall v g', serves b B0 None g' -> Q v g') -> safe n b g (SmmBlockingStartupThisAp p j x) Q.
Proof.
  intros Hj Hg HQ. sbind. apply safe_acquire; [done|done|intros g' Hg'; by apply safe_ret, HQ|]. intros g' Hj' Hjb Hg'.
  cbv iota beta delta [negb]. apply safe_give; [done..|]. intros m _ f F q Hf Hq Hqj. by apply safe_give_back.
Qed.

Lemma safe_SmmStartupThisAp n g p j x (Q : EFI_STATUS -> role -> Prop) : 0 <= j -> serves b B0 None g ->
  (forall v g', serves b B0 None g' -> Q v g') -> safe n b g (SmmStartupThisAp p j x) Q.
Proof.
  intros Hj Hg HQ. sbind. apply safe_acquire; [done|done|intros g' Hg'; by apply safe_ret, HQ|]. intros g' Hj' Hjb Hg'.
  cbv iota beta delta [negb]. apply safe_give; [done..|]. intros m _ f F q Hf Hq Hqj. sbind. destruct PcdCpuSmmBlockStartupThisAp.
  - apply safe_wait_ap; [done|done|done|by right|]. apply safe_ret, HQ.
    eapply (serves_change b B0 None j (<[j := false]> q)); [exact Hf| |done|done|done].
    intros i. destruct (decide (j = i)) as [<-|Hi]; [done|]. rewrite !fn_lookup_insert_ne by done. apply Hq.
  - apply safe_ret, safe_ret, HQ. by exists f, F, q.
Qed.

(** Operations that are requested of processors: none is added or removed. *)
Lemma safe_store_operation n B j v (Q : unit -> role -> Prop) : in_range (Operation j) = true -> v <> SmmCpuAdd -> v <> SmmCpuRemove -> Q tt (Bsp B) ->
  safe n b (Bsp B) (store (Operation j) v) Q.
Proof.
  intros Hj Ha Hr' HQ. apply (safe_store (Inv os)); [done|]. intros s r HI Hr. bsp_start HI Hr.
  apply (bsp_local os s _ r p gone b B B); try done.
  - exact (bv_self _ _ _ _ _ _ _ V).
  - destruct Hro as [R1 R2 R3 R4 R5 R6 R7 R8 R9]. split; look; try done.
    + intros i. destruct (decide (j = i)) as [<-|Hi]; look; done.
Qed.

Lemma safe_SmmSwitchBsp n g j (Q : EFI_STATUS -> role -> Prop) : 0 <= j -> serves b B0 None g -> (forall v, Q v g) -> safe n b g (SmmSwitchBsp j) Q.
Proof.
  intros Hj (f & F & q & -> & _) HQ. unfold SmmSwitchBsp. destruct (Z.leb_spec (Z.of_nat mMaxNumberOfCpus) j) as [Hle|Hlt]; [by apply safe_ret|].
  assert (Hjn : 0 <= j < NumCpus) by (unfold NumCpus; lia).
  sbind. sread pid. case_match; [by apply safe_ret|]. sbind. sread o. case_match; [by apply safe_ret|].
  sbind. sread c. case_match; [by apply safe_ret|]. sbind. apply safe_store_operation; [by apply in_range_cpu|done|done|]. by apply safe_ret.
Qed.

(** The arrival check reads the counter, which is locked, and the number of processors; then its assertion fails. *)
Lemma safe_CheckApArrival n g (Q : EFI_STATUS -> role -> Prop) : serves b B0 None g -> safe n b g SmmCpuSyncCheckApArrival Q.
Proof.
  intros (f & F & q & -> & Hf & _). set (B := with_ f F None q B0).
  assert (Hs : forall s r, Inv os s r -> r b = Bsp B -> s.(hw).(InCore) = true /\ s.(mem) Counter = MINUS1 /\ s.(mem) mNumberOfCpus = NumCpus).
  { intros s r HI Hr. bsp_start HI Hr. rewrite (ro_core _ _ _ _ _ Hro), (ro_counter _ _ _ _ _ Hro), (ro_cpus _ _ _ _ _ Hro).
    unfold B, with_. know. by rewrite Hcore, (sv_locked _ _ S0). }
  assert (Ha : Z.leb MINUS1 NumCpus = false) by (apply Z.leb_gt; unfold MINUS1; lia). clearbody B.
  unfold SmmCpuSyncCheckApArrival, SmmCpuSyncCheckApArrivalWorker, assert_counter.
  do 2 (eapply (safe_known (Inv os)); [done|intros e h s r HI Hr; destruct (Hs s r HI Hr) as (_ & H1 & H2); cbn; rewrite ?H1, ?H2; reflexivity|]).
  do 2 (eapply (safe_known (Inv os)); [done|intros e h s r HI Hr; destruct (Hs s r HI Hr) as (_ & H1 & H2); cbn; rewrite ?H1, ?H2; reflexivity|]).
  apply (safe_refused (Inv os)); [done|]. intros e h s r HI Hr. destruct (Hs s r HI Hr) as (H0 & H1 & _). cbn. by rewrite Ha.
Qed.

Lemma safe_sync2_cpu n g j (Q : bool -> role -> Prop) : 0 <= j -> serves b B0 None g -> Q false g -> (in_range (ProcessorId j) = true -> Q true g) ->
  safe n b g (sync2_cpu j) Q.
Proof.
  intros Hj (f & F & q & -> & _) H0 H1. unfold sync2_cpu. destruct (Z.leb_spec (Z.of_nat mMaxNumberOfCpus) j) as [Hle|Hlt]; [by apply safe_ret|].
  assert (Hjn : 0 <= j < NumCpus) by (unfold NumCpus; lia). sbind. sread pid. apply safe_ret. destruct (pid =? INVALID_APIC_ID); [done|].
  by apply H1, in_range_cpu.
Qed.

Lemma safe_run_handlers (Q : unit -> role -> Prop) : (forall g, serves b B0 None g -> Q tt g) ->
  forall h n g, serves b B0 None g -> safe n b g (run_handlers h) Q.
Proof.
  intros HQ. induction h as [|p j x k IH|p j x k IH|j k IH|m k IH|k IH|k IH|j k IH|j e k IH|j k IH]; intros n g Hg; cbn [run_handlers].
  - by apply safe_ret, HQ.
  - sbind. apply safe_SmmStartupThisAp; [apply u32_nonneg|done|]. intros v g' Hg'. by apply IH.
  - sbind. apply safe_SmmBlockingStartupThisAp; [apply u32_nonneg|done|]. intros v g' Hg'. by apply IH.
  - sbind. apply safe_SmmSwitchBsp; [apply u32_nonneg|done|]. intros v. by apply IH.
  - sbind. unfold SmmSyncSetModeWorker. case_match; [by apply safe_ret, IH|]. sbind. apply (safe_write os); [done|done|]. by apply safe_ret, IH.
  - sbind. apply (safe_read (Inv os)); [done|]. intros v. by apply IH.
  - sbind. by apply safe_CheckApArrival.
  - sbind. unfold SmmCpuSync2CheckCpuState. sbind. apply safe_sync2_cpu; [apply u32_nonneg|done|by apply safe_ret, IH|intros _; by apply safe_ret, IH].
  - sbind. unfold SmmCpuSync2ChangeSmmEnabling. sbind. apply safe_sync2_cpu; [apply u32_nonneg|done|by apply safe_ret, IH|intros _].
    cbv iota zeta beta delta [negb]. case_match; by apply safe_ret, IH.
  - sbind. unfold SmmCpuSync2SendSmi. sbind. apply safe_sync2_cpu; [apply u32_nonneg|done|by apply safe_ret, IH|]. intros Hj. cbv iota beta delta [negb].
    sbind. apply (safe_read (Inv os)); [done|]. intros pid. sbind. apply safe_SendSmiIpi. by apply safe_ret, IH.
Qed.

(** At the end every AP has finished. *)
Lemma safe_wait_busy n g (Q : unit -> role -> Prop) : serves b B0 None g ->
  (forall f F q, given_all b 2 f -> (forall i, q i = true) -> Q tt (Bsp (with_ f F None q B0))) -> safe n b g (wait_busy b) Q.
Proof.
  intros (f & F & q & -> & Hf & Hq) HQ.
  apply (safe_for_down (Inv os) (fun x g => exists f F q, g = Bsp (with_ f F None q B0) /\ given_all b 2 f /\
    forall i, q i = false -> 0 <= i < Z.of_nat x /\ i <> b)).
  - by exists f, F, q.
  - clear f F q Hf Hq. intros m x g _ Hx (f & F & q & -> & Hf & Hq). set (j := Z.of_nat x) in *. assert (Hj : 0 <= j < NumCpus) by (unfold NumCpus; lia).
    assert (Hless : forall q' : Z -> bool, (forall i, q' i = false -> q i = false /\ (i = j -> j = b)) -> forall i, q' i = false -> 0 <= i < j /\ i <> b).
    { intros q' Hq' i Hi. destruct (Hq' i Hi) as [Hi' Hij]. destruct (Hq i Hi') as [Hr Hib]. split; [|done].
      destruct (Z.eq_dec i j) as [E|E]; [by rewrite E, (Hij E) in Hib|lia]. }
    destruct (Z.eqb_spec j b) as [E|E].
    { apply safe_ret. exists f, F, q. split; [done|split; [done|]]. by apply Hless. }
    sbind. apply safe_look_serving; [done..| |].
    + intros Hqj. apply safe_ret. exists (<[j := 2]> f), F, q. split; [done|split; [by apply given_insert|]].
      apply Hless. intros i Hi. split; [done|]. intros ->. congruence.
    + change (1 =? FALSE) with false. cbv iota. apply safe_wait_ap; [done..|left; by rewrite fn_lookup_insert|].
      eexists f, _, _. split; [done|split; [done|]]. apply Hless. intros i. destruct (decide (j = i)) as [<-|Hi].
      * by rewrite fn_lookup_insert.
      * by rewrite !fn_lookup_insert_ne.
  - intros g' (f' & F' & q' & -> & Hf' & Hq'). apply HQ; [done|]. intros i. destruct (q' i) eqn:E; [done|]. destruct (Hq' i E) as [? _]. lia.
Qed.
End Services.

(** ** The SMM core *)

Lemma safe_core_entry n b B (Q : unit -> role -> Prop) : 0 <= b < NumCpus -> serving b B -> B.(bsmi) = true -> B.(named) = true -> B.(held) = None -> B.(core) = false ->
  (forall i, B.(quiet) i = true) -> (forall g, serves b B None g -> Q tt g) -> safe n b (Bsp B) SmmCoreEntry Q.
Proof.
  intros Hb Hs Hm Hn Hh Hc Hq HQ. pose proof Hs as [S1 S2 S3 S4 S5]. sbind. apply (safe_hook (Inv os)). intros s r HI Hr. bsp_start HI Hr.
  apply (bsp_local os s _ r p gone b B (w_core true B)); try done.
  { exact (bv_self _ _ _ _ _ _ _ V). }
  { okay Hok. }
  { running Hro. }
  clear s r HI Hr p gone V Hok Hro. sbind. apply (safe_core (Inv os)). intros h. sbind.
  assert (Hs' : serving b (w_core true B)) by by split.
  apply (safe_run_handlers b (w_core true B) Hs' Hn eq_refl).
  - intros g (f & F & q & -> & Hf & Hq'). apply (safe_hook (Inv os)). intros s r HI Hr. bsp_start HI Hr.
    apply (bsp_local os s _ r p gone b (with_ f F None q (w_core true B)) (with_ f F None q B)); try done.
    + exact (bv_self _ _ _ _ _ _ _ V).
    + unfold with_ in *. okay Hok.
    + unfold with_ in *. running Hro.
    + apply HQ. by exists f, F, q.
  - exists B.(given), B.(follows), B.(quiet). split; [destruct B; cbn in *; by subst|]. split; [done|]. intros i Hi. by rewrite Hq in Hi.
Qed.
End Serve.
