(* ===== verification/MpRun.v ===== *)
(** * The rendezvous of processors in SMM: whole runs *)

From S2P Require Import Prelude MpDefs MpLogic MpInv MpAp MpBsp MpServe.
From stdpp Require Import functions.
#[local] Open Scope Z_scope.
#[local] Open Scope code_scope.

Section Run.
Context {SC : SmmConfig} (os : Z -> MTRR_SETTINGS) (Few : NumCpus < 2 ^ 28).
Notation inv := (inv os).
Notation safe := (safe (Inv os)).
Notation steps := (steps (Inv os)).
Notation bsp_view := (bsp_view os).
Implicit Types (b : Z) (B : bsp).

Ltac bsp_start HI Hr := destruct (bsp_facts os _ _ _ _ HI Hr) as (p & gone & V);
  pose proof (bv_ok _ _ _ _ _ _ _ V) as Hok; pose proof (bv_run _ _ _ _ _ _ _ V) as Hro; pose proof (bv_self _ _ _ _ _ _ _ V) as (C1 & C2 & C3 & C4 & C5 & C6).

(** ** The memory types of the BSP *)

(** Only they change. *)
Lemma bsp_types s r b B (m v : bool) (Q : role -> Prop) : Inv os s r -> r b = Bsp B -> (m = true -> 2 <= B.(waits) <= 5) ->
  (2 <= B.(waits) -> B.(phase) = 1 -> v = true) -> (B.(core) = true -> m = true) -> Q (Bsp (w_bsmi m (w_bsaved v B))) ->
  steps b r {| mem := s.(mem); hw := has_mtrrs b (if m then gSmiMtrrs else os b) v s.(hw) |} Q.
Proof.
  intros HI Hr Hm Hv Hc HQ. bsp_start HI Hr.
  eapply (bsp_local os s _ r p gone b B (w_bsmi m (w_bsaved v B))); try done.
  - intros j Hj. split; [repeat split; by look|done].
  - cbn [cpu_ok]. know. look. done.
  - okay Hok. intros E. destruct (oco E) as (? & ? & ?). by split; [|split; [|apply Hc]].
  - running Hro.
Qed.

Lemma safe_save_bsp n b B (Q : MTRR_SETTINGS -> role -> Prop) : B.(bsmi) = false -> B.(core) = false ->
  Q (os b) (Bsp (w_bsmi false (w_bsaved true B))) -> safe n b (Bsp B) (MtrrGetAllMtrrs b) Q.
Proof.
  intros Hm Hc HQ. apply (safe_act (Inv os)). intros s r HI Hr. bsp_start HI Hr. rewrite Hm in C3. rewrite C3.
  destruct (bsp_types s r b B false true (Q (os b)) HI Hr) as (g' & HI' & HQ'); [done|done|congruence|done|]. eauto 6.
Qed.

Lemma safe_replace_bsp n b B (Q : unit -> role -> Prop) : 2 <= B.(waits) <= 5 -> B.(bsaved) = true ->
  Q tt (Bsp (w_bsmi true (w_bsaved true B))) -> safe n b (Bsp B) (ReplaceOSMtrrs b) Q.
Proof.
  intros Hw Hs HQ. apply (safe_hook (Inv os)). intros s r HI Hr. bsp_start HI Hr. rewrite C6, Hs.
  by apply (bsp_types s r b B true true).
Qed.

Lemma safe_restore_bsp n b B (Q : unit -> role -> Prop) : B.(phase) = 2 -> B.(core) = false ->
  Q tt (Bsp (w_bsmi false (w_bsaved false B))) -> safe n b (Bsp B) (MtrrSetAllMtrrs b (os b)) Q.
Proof.
  intros Hp Hc HQ. apply (safe_hook (Inv os)). intros s r HI Hr. apply (bsp_types s r b B false false); [done|done|done|lia|congruence|done].
Qed.

(** ** The end *)

(** After the last wait nobody else has a part in the run. *)
Lemma nobody_left s r p gone b B : bsp_view s r p gone b B -> B.(waits) = 6 -> B.(locked) = true ->
  members r = 0 /\ s.(mem) (Run b) = 0 /\ forall j, j <> b -> exists h, r j = Out h.
Proof.
  intros V Hw Hl. pose proof V as [J Hr Hb Hok Hro Hs Ho Ha Hf].
  assert (Hout : forall j, j <> b -> exists h, r j = Out h).
  { intros j Hj. specialize (Ho j Hj). destruct (r j) as [h|rd|a|B2] eqn:E; [eauto| | |].
    - destruct Ho as (_ & _ & _ & H). lia.
    - destruct Ho as (H & _). unfold ap_signals in H. lia.
    - apply (iv_one _ _ _ _ _ _ J) in E. congruence. }
  assert (H0 : forall n, sum_to n (fun _ => 0) = 0) by (induction n as [|n IH]; cbn [sum_to]; lia).
  assert (Hm : members r = 0 /\ signalled r = 0).
  { split; rewrite <- (H0 mMaxNumberOfCpus); apply sum_to_ext; intros j _; (destruct (decide (j = b)) as [->|Hj]; [by rewrite Hr|]); by destruct (Hout j Hj) as [h ->]. }
  destruct Hm as [Hm Hsig]. split; [done|split; [|done]]. destruct (ro_run _ _ _ _ _ Hro b eq_refl). pose proof (ro_count _ _ _ _ _ Hro Hl).
  pose proof (bo_part _ _ Hok). rewrite Hw in *. lia.
Qed.

Lemma safe_finish n b B (Q : unit -> role -> Prop) : B.(waits) = 6 -> B.(locked) = true -> B.(phase) = 2 -> B.(bhere) = false -> B.(bsmi) = false -> B.(core) = false ->
  B.(reset) = PcdCpuSmmEnableBspElection -> Q tt (Out 4) -> safe n b (Bsp B) (store Counter 0) Q.
Proof.
  intros Hw Hl Hp Hh Hm Hc Hre HQ. apply (safe_store (Inv os)); [done|]. intros s r HI Hr. bsp_start HI Hr.
  destruct (nobody_left _ _ _ _ _ _ V Hw Hl) as (Hm0 & Hrun & Hout). pose proof (bv_inv _ _ _ _ _ _ _ V) as J. pose proof (bv_cpu _ _ _ _ _ _ _ V) as Hb.
  destruct (iv_lead _ _ _ _ _ _ J b eq_refl) as (_ & _ & Hel). exists (Out 4). split; [|done]. exists None, p, 0.
  pose proof (iv_cpu _ _ _ _ _ _ J) as Hcpu. pose proof (iv_range _ _ _ _ _ _ J) as Hrange.
  assert (Hno : forall j g, (<[b := Out 4]> r : Z -> role) j = g -> exists h, g = Out h).
  { intros j g <-. destruct (decide (b = j)) as [<-|Hj]; [rewrite fn_lookup_insert; eauto|rewrite fn_lookup_insert_ne by done; by apply Hout]. }
  split; cbn [bsp_of].
  - intros j Hj. rewrite fn_lookup_insert_ne by congruence. by apply Hrange.
  - done.
  - intros j B' E. by destruct (Hno j _ E).
  - intros j a E. by destruct (Hno j _ E).
  - done.
  - split; cbn; try done; try lia.
  - destruct Hro as [R1 R2 R3 R4 R5 R6 R7 R8 R9]. split; look; try done.
    + rewrite members_insert, Hr, Hm0 by done. done.
    + rewrite R3, Hp. done.
    + rewrite R4, Hre. unfold idle_index. destruct PcdCpuSmmEnableBspElection; [done|]. by apply Hel.
    + by rewrite R5.
  - intros j. destruct (decide (b = j)) as [<-|Hj].
    + rewrite fn_lookup_insert. split; [|done]. unfold unused. look. rewrite Hm, Hh in *. done.
    + rewrite fn_lookup_insert_ne by done. specialize (Hcpu j). destruct (Hout j) as [h E]; [done|]. rewrite E in *.
      unfold cpu_ok, unused in *. by look.
  - eapply idt_ok_role; [exact (iv_idt _ _ _ _ _ _ J)|by repeat split; look|exact Hr|done|done].
Qed.

(** ** The part of the BSP *)

(** A round: the signals of all, then a signal to each. *)
Ltac round := know; sbind; apply (safe_WaitForAllAPs os); [done|split; know; try done; lia|done|know; lia|].
Ltac tell k := sbind; apply (safe_ReleaseAllAPs os _ _ _ k); [lia|done|done|done| |].

(** The memory types of SMM are set on all. *)
Lemma safe_gather n b B (Q : option MTRR_SETTINGS -> role -> Prop) : 0 <= b < NumCpus -> B.(phase) = 1 -> B.(waits) = 0 -> B.(locked) = true -> B.(part) = 0 ->
  0 <= B.(count) -> B.(reset) = false -> B.(core) = false -> B.(bsmi) = false -> (forall i, B.(quiet) i = true) -> given_all b 0 B.(given) ->
  (forall f F, given_all b 2 f -> Q (Some (os b)) (Bsp (w_waits 3 (w_bsmi true (w_bsaved true (w_given f (w_follows F B))))))) ->
  safe n b (Bsp B) (gather b B.(count)) Q.
Proof.
  intros Hb Hp Hw Hl Hpt Hc Hre Hco Hm Hq Hg HQ. destruct B as [ph ct wt pt gv fo he qu sm sa hr lo re co na]. cbn in Hp, Hw, Hl, Hpt, Hc, Hre, Hco, Hm, Hq, Hg. subst.
  unfold gather, NeedConfigureMtrrs.
  round. tell 1; [done|]. intros f1 F1 Hf1. sbind. apply safe_save_bsp; [done|done|]. round. tell 2; [done|]. intros f2 F2 Hf2.
  sbind. apply safe_replace_bsp; [know; lia|done|]. round. apply safe_ret. by apply HQ.
Qed.

(** The requested operations take effect; the number of processors does not change. *)
Lemma safe_SmmCpuUpdate n b B (Q : unit -> role -> Prop) : 0 <= b < NumCpus -> Q tt (Bsp B) -> safe n b (Bsp B) SmmCpuUpdate Q.
Proof.
  intros Hb HQ.
  assert (Hop : forall m i v (Q' : Z -> role -> Prop), 0 <= i < NumCpus -> v = SmmCpuAdd \/ v = SmmCpuRemove ->
    (forall o, (o =? v) = false -> Q' o (Bsp B)) -> safe m b (Bsp B) (load (Operation i)) Q').
  { intros m i v Q' Hi Hv HQ'. apply (safe_load (Inv os)); [by apply in_range_cpu|]. intros s r HI Hr. bsp_start HI Hr.
    apply (steps_same (Inv os) b r s _ _ HI Hr). apply HQ'. destruct (ro_operation _ _ _ _ _ Hro i). apply Z.eqb_neq. destruct Hv as [-> | ->]; done. }
  assert (Hloop : forall m A (body : Z -> code unit) (rest : code A) Q', (forall m' i, 0 <= i < NumCpus -> safe m' b (Bsp B) (body i) (fun _ g => g = Bsp B)) ->
    safe m b (Bsp B) rest Q' -> safe m b (Bsp B) (_ ← for_up 0 mMaxNumberOfCpus body; rest) Q').
  { intros m A body rest Q' Hbody Hrest. sbind. apply (safe_for_up (Inv os) (fun _ g => g = Bsp B)); [done| |by intros g ->].
    intros m' i g _ Hi ->. apply Hbody. unfold NumCpus. lia. }
  apply Hloop; [|apply Hloop].
  - intros m i Hi. sbind. sread o. case_match; [|by apply safe_ret].
    sbind. apply (safe_store_operation os); [by apply in_range_cpu|done|done|]. sbind. apply (safe_write os); [done|done|]. apply (safe_write os); [done|by apply in_range_cpu|done].
  - intros m i Hi. sbind. apply (Hop _ _ SmmCpuAdd); [done|by left|]. intros o ->. by apply safe_ret.
  - apply (safe_for_up (Inv os) (fun _ g => g = Bsp B)); [done| |by intros g ->].
    intros m i g _ Hi ->. sbind. apply (Hop _ _ SmmCpuRemove); [unfold NumCpus; lia|by right|]. intros o ->. by apply safe_ret.
Qed.

(** The end of the run. *)
Lemma safe_BSPHandler_exit n b B (Q : unit -> role -> Prop) : 0 <= b < NumCpus -> B.(phase) = 1 -> B.(waits) = 3 -> B.(locked) = true -> B.(part) = 0 ->
  0 <= B.(count) -> B.(reset) = false -> B.(core) = false -> B.(held) = None -> (forall i, B.(quiet) i = true) -> given_all b 2 B.(given) ->
  Q tt (Out 4) -> safe n b (Bsp B) (BSPHandler_exit b B.(count) (Some (os b))) Q.
Proof.
  intros Hb Hp Hw Hl Hpt Hc Hre Hco Hh Hq Hg HQ. destruct B as [ph ct wt pt gv fo he qu sm sa hr lo re co na]. cbn in Hp, Hw, Hl, Hpt, Hc, Hre, Hco, Hh, Hq, Hg. subst.
  unfold BSPHandler_exit, NeedConfigureMtrrs. sbind. apply (safe_exit os); [done..|].
  tell 3; [done|]. intros f3 F3 Hf3. round. sbind. sread mode. sbind. apply (safe_write os); [done|done|].
  sbind. tell 4; [done|]. intros f4 F4 Hf4. sbind. apply safe_restore_bsp; [done|done|]. know.
  apply (safe_WaitForAllAPs os); [done|split; know; try done; lia|done|know; lia|].
  tell 5; [done|]. intros f5 F5 Hf5. sbind. apply safe_SmmCpuUpdate; [done|]. sbind. apply (safe_mark os _ _ _ false); [done|]. round.
  assert (Hlast : forall m B, B.(waits) = 6 -> B.(locked) = true -> B.(phase) = 2 -> B.(bhere) = false -> B.(bsmi) = false -> B.(core) = false ->
    B.(reset) = PcdCpuSmmEnableBspElection -> safe m b (Bsp B) (_ ← store Counter 0; store AllCpusInSync FALSE) Q).
  { intros m B H1 H2 H3 H4 H5 H6 H7. sbind. apply safe_finish; [done..|]. by apply (safe_write os). }
  sbind. destruct PcdCpuSmmEnableBspElection eqn:Hel.
  - apply (safe_reset os); [done|done|]. by apply Hlast.
  - apply safe_ret. by apply Hlast.
Qed.

(** The lock of the BSP itself is not used. *)
Lemma safe_own_lock n b B (Q : bool -> role -> Prop) : 0 <= b < NumCpus -> (forall v, Q v (Bsp B)) -> safe n b (Bsp B) (AcquireSpinLockOrFail (Busy b)) Q.
Proof.
  intros Hb HQ. apply (safe_try_lock (Inv os)); [range| |]; intros s r HI Hr _; [|by apply (steps_same (Inv os) b r s _ _ HI Hr)].
  bsp_start HI Hr. eapply (bsp_local os s _ r p gone b B B); try done.
  - intros j Hj. split; [repeat split; by look|by look].
  - running Hro.
Qed.

Lemma safe_BSPHandler n b v mode (Q : unit -> role -> Prop) : 0 <= b < NumCpus -> Q tt (Out 4) -> safe n b (Bsp (idle_with v)) (BSPHandler b mode) Q.
Proof.
  intros Hb HQ. unfold BSPHandler. sbind. apply (safe_load_index os); [done|]. sbind. apply (safe_assert (Inv os)); [apply Z.eqb_refl|].
  sbind. apply (safe_enter os); [done|]. sbind. apply (safe_mark os _ _ _ true); [done|]. sbind. apply (safe_assert (Inv os)); [done|].
  sbind. apply (safe_name os). replace ((mode =? SmmCpuSyncModeTradition) || NeedConfigureMtrrs) with true by (by rewrite orb_true_r).
  sbind. sbind. apply (safe_arrival os); [done|]. sbind. apply (safe_write os); [done|done|].
  sbind. apply (safe_lockdown os); [done|done|]. intros c Hc. replace (u32 (c + 1 - 1)) with c by (unfold wrap; rewrite Z.mod_small; lia).
  sbind. set (B1 := w_locked true _). change c with B1.(count). apply safe_gather; [done..|cbn; lia|done|done|done|done|done|].
  intros f F Hf. apply safe_ret. cbv iota beta. sbind. apply safe_own_lock; [done|]. intros _.
  set (B2 := w_waits 3 _). assert (Hs : serving b B2) by by split.
  sbind. apply (safe_core_entry os Few); [done|done|done|done|done|done|done|]. intros g Hg.
  sbind. apply (safe_wait_busy os b B2 Hs); [done|]. intros f' F' q' Hf' Hq'.
  replace (negb (mode =? SmmCpuSyncModeTradition) && negb NeedConfigureMtrrs) with false by (by rewrite andb_false_r).
  sbind. apply safe_ret. set (B3 := with_ f' F' None q' B2). change (B1.(count)) with B3.(count).
  apply safe_BSPHandler_exit; try done. cbn. lia.
Qed.

(** ** SMIs *)

Lemma safe_wait_sync n i g (Q : unit -> role -> Prop) : Q tt g -> safe n i g wait_sync Q.
Proof.
  intros HQ. apply (safe_loop (Inv os) (eq g)); [|done]. intros m g' _ <-. sbind. sread v. apply safe_ret. by destruct (v =? FALSE).
Qed.

(** Into SMM and out of it. *)
Lemma safe_in_smm n i h v (Q : unit -> role -> Prop) : 0 <= i < NumCpus -> h = 0 /\ v = true \/ h = 4 /\ v = false ->
  Q tt (Out (if v then 4 else 0)) -> safe n i (Out h) (hook (is_in_smm i v)) Q.
Proof.
  intros Hi Hv HQ. apply (safe_hook (Inv os)). intros s r (lead & p & gone & J) Hr. eexists; split; [|exact HQ]. exists lead, (<[i := p i]> p), gone.
  pose proof J as [J1 J2 J3 J4 J5 J6 J7 J8 J9]. assert (Hh : has_idt h = false /\ has_idt (if v then 4 else 0) = false) by (by destruct Hv as [[-> ->]|[-> ->]]).
  apply (inv_step os s _ r lead p gone i (Out h)); try done.
  - intros j Hj. split; [repeat split; by look|done].
  - eapply (run_ok_same s); [by repeat split|done| | |exact J7]; rewrite ?members_insert, ?signalled_insert, Hr by done; cbn; lia.
  - specialize (J8 i). rewrite Hr in J8. destruct J8 as [U _]. split; [done|]. look. by destruct v.
  - apply (idt_ok_role s _ r i (Out h)); [done|done|done|cbn; by rewrite (proj1 Hh)|cbn; by rewrite (proj2 Hh)].
  - intros F1 F2. destruct (J5 i F1 F2) as [a Ha]. congruence.
Qed.

Lemma safe_SmiRendezvous n i (Q : unit -> role -> Prop) : 0 <= i < NumCpus -> Q tt (Out 0) -> safe n i (Out 0) (SmiRendezvous i) Q.
Proof.
  intros Hi HQ. unfold SmiRendezvous, PlatformValidSmi. sbind. apply safe_in_smm; [done|by left|]. sbind. apply (safe_install_handlers os); [done|].
  sbind. apply (safe_load (Inv os)); [done|]. intros s r HI Hr. apply (steps_same (Inv os) i r s _ _ HI Hr).
  assert (Hcan : s.(mem) InsideSmm <> FALSE -> can_follow i).
  { intros Hin Hel ->. destruct HI as (lead & p & gone & J). rewrite (ro_inside _ _ _ _ _ (iv_run _ _ _ _ _ _ J)) in Hin.
    destruct lead as [b|]; [|done]. destruct (iv_lead _ _ _ _ _ _ J b eq_refl) as (_ & [B HB] & Hb). rewrite Hb in HB by done. congruence. }
  generalize dependent (s.(mem) InsideSmm). clear s r HI Hr. intros inside Hcan.
  assert (Hout : forall m, safe m i (Out 4) (hook (is_in_smm i false)) Q) by (intros m; apply safe_in_smm; [done|by right|done]).
  rewrite andb_false_r. sbind. sbind. apply (safe_check_in os Few); [done| |].
  { rewrite Z.eqb_refl. by apply safe_wait_sync. }
  intros c Hc. rewrite (proj2 (Z.eqb_neq _ _)) by done. sbind. apply (safe_init_busy os); [done|].
  assert (Hend : forall m, safe m i (Out 4) (r ← load (Run i); _ ← ASSERT_ (r =? 0); wait_sync) (fun _ g => safe m i g (hook (is_in_smm i false)) Q)).
  { intros m. sbind. apply (safe_load (Inv os)); [range|]. intros s r (lead & p & gone & J) Hr.
    apply (steps_same (Inv os) i r s _ _ ltac:(by exists lead, p, gone) Hr). pose proof (iv_cpu _ _ _ _ _ _ J i) as Hu. rewrite Hr in Hu. destruct Hu as ((-> & _) & _).
    sbind. apply (safe_assert (Inv os)); [done|]. apply safe_wait_sync, Hout. }
  sbind. eapply (safe_mono (Inv os) _ _ _ _ _ (fun _ g => g = Out 4)); [|intros _ g ->; apply Hend].
  destruct (Z.eqb_spec inside FALSE) as [E|E]; cbv iota beta delta [negb].
  - apply (safe_election os Few); [done| |].
    + intros b Hb Hf. rewrite (proj2 (Z.eqb_neq _ _)) by done. sbind. sread mode. by apply (safe_APHandler os Few).
    + intros v. rewrite Z.eqb_refl. sbind. sread sw. sbind. eapply (safe_mono (Inv os) _ _ _ _ _ (fun _ g => g = Bsp (idle_with v))).
      { case_match; [by apply safe_ret|]. sbind. apply (safe_write os); [done|done|]. apply (safe_for_up (Inv os) (fun _ g => g = Bsp (idle_with v))); [done| |done].
        intros m x g _ Hx ->. apply (safe_write os); [done| |done]. apply (in_range_cpu x). unfold NumCpus. lia. }
      intros _ g ->. sbind. sread mode. by apply safe_BSPHandler.
  - sbind. sread mode. apply (safe_APHandler os Few); [done|by apply Hcan|done].
Qed.

Lemma safe_cpu n i : 0 <= i < NumCpus -> safe n i (Out 0) (cpu i) (fun _ _ => False).
Proof.
  intros Hi. apply (safe_loop (Inv os) (eq (Out 0))); [|done]. intros m g _ <-. sbind. apply safe_SmiRendezvous; [done|]. by apply safe_ret.
Qed.

Lemma inv_started ids : inv (started os ids) (fun _ => Out 0) None (fun _ => false) 0.
Proof.
  assert (H0 : forall n, sum_to n (fun _ => 0) = 0) by (induction n as [|n IH]; cbn [sum_to]; lia).
  split; try done.
  - split; cbn; try done; try lia. unfold NumCpus. lia.
  - split; try done. change (0 = sum_to mMaxNumberOfCpus (fun _ => 0) + 0). by rewrite H0.
  - split; cbn; try done; [intros i j h k E1 E2|intros i h E1]; by injection E1 as <-.
Qed.

(** From the start on, the invariant holds and nobody fails but in an arrival check. *)
Lemma reached_inv ids c : reaches (start os ids) c ->
  (exists r, Inv os c.(shared) r) /\ forall i, fails_at c i -> check_refused (c.(cpus) i) c.(shared).
Proof.
  intros Hc. apply (reached_safe (Inv os) (start os ids) c (fun _ => Out 0)); [|done]. intros n. split.
  - exists None, (fun _ => false), 0. apply inv_started.
  - intros i Hi. by apply safe_cpu.
Qed.
End Run.
