(* ===== verification/MpTheorems.v ===== *)
(** * The rendezvous of processors in SMM: its guarantees

    For any number of processors, that take SMIs at any time, in every order of their steps, as long as the timer of a processor that
    waits for the leading one does not run out ([may_expire]). *)

From S2P Require Import Prelude MpDefs MpLogic MpInv MpRun.
From stdpp Require Import functions.
#[local] Open Scope Z_scope.
#[local] Open Scope code_scope.

Section Theorems.
Context {SC : SmmConfig}.
Implicit Types (os : Z -> MTRR_SETTINGS) (ids : Z -> Z) (c : system).

(** What the invariant tells of the BSP, of a processor that is present, and of one that is not. *)
Lemma bsp_known os s r lead p gone : inv os s r lead p gone ->
  (lead = None /\ bsp_of r lead = idle) \/ exists b, lead = Some b /\ r b = Bsp (bsp_of r lead).
Proof.
  intros J. destruct lead as [b|]; [right|by left]. destruct (iv_lead _ _ _ _ _ _ J b eq_refl) as (_ & [B HB] & _). exists b. cbn. by rewrite HB.
Qed.

Lemma bsp_is_lead os s r lead p gone i B : inv os s r lead p gone -> r i = Bsp B -> bsp_of r lead = B.
Proof. intros J Hr. rewrite (iv_one _ _ _ _ _ _ J i B Hr). cbn. by rewrite Hr. Qed.

(** C3: Whatever the number of processors, below 2^28, and however their steps interleave: in every state they can reach, no array is
    accessed out of its range and no assertion of [SmiRendezvous], of the handlers of the BSP and of the APs, or of the services they
    call fails, but for one. That is the assertion at the beginning of the arrival check: a processor can only be stopped inside
    [SmmCpuSyncCheckApArrival], which an SMI handler has called, while the counter is locked (and there it is stopped, see
    [check_arrival_fails]). The SMI handlers may ask, in any order and number and depending on the answers, for all services of the type
    [handlers]: both ways to start a procedure on an AP, the switch of the BSP, and those of the protocols Sync and Sync2 except
    [SmmCpuSync2SendSmiAllExcludingSelf]; not for hot plug and for the identity of a processor. It is assumed ([may_expire]) that the
    timer of a processor that waits for the BSP to enter does not run out. *)
Theorem only_arrival_check_fails os ids c i : NumCpus < 2 ^ 28 -> reaches (start os ids) c -> fails_at c i ->
  check_refused (c.(cpus) i) c.(shared).
Proof. intros Few Hc. by destruct (reached_inv os Few ids c Hc) as [_ H]; apply H. Qed.

(** C4: While the SMI handlers run in [SmmCoreEntry], every processor that is marked present is in SMM and has the memory types of SMM;
    so they never run while a processor that takes part still uses its own. As in all theorems here, [may_expire] limits the timer. *)
Theorem handlers_run_synchronised os ids c i : NumCpus < 2 ^ 28 -> reaches (start os ids) c -> c.(shared).(hw).(InCore) = true ->
  c.(shared).(mem) (Present i) <> FALSE -> c.(shared).(hw).(InSmm) i = true /\ c.(shared).(hw).(Mtrrs) i = gSmiMtrrs.
Proof.
  intros Few Hc Hcore Hp. destruct (reached_inv os Few ids c Hc) as [(r & lead & p & gone & J) _]. set (s := c.(shared)) in *.
  pose proof (iv_bsp _ _ _ _ _ _ J) as Hok. rewrite (ro_core _ _ _ _ _ (iv_run _ _ _ _ _ _ J)) in Hcore.
  destruct (bo_core _ _ Hok Hcore) as (Hph & Hw & Hm). pose proof (iv_cpu _ _ _ _ _ _ J i) as Hi. destruct (r i) as [h|rd|a|B] eqn:E.
  - by destruct Hi as ((_ & H & _) & _).
  - by destruct Hi as ((_ & H & _) & _).
  - destruct Hi as ((A1 & A2 & A3 & A4 & A5) & (S1 & S2 & S3 & S4 & S5 & S6 & S7 & S8) & _). split; [done|]. rewrite S3, S6; [done|lia|].
    destruct (bo_given _ _ Hok i) as [_ Hg]. lia.
  - rewrite (bsp_is_lead _ _ _ _ _ _ _ _ J E) in *. destruct Hi as (S1 & S2 & S3 & _). by rewrite S3, Hm.
Qed.

(** C7: No processor gets the memory types of SMM before every processor that is present has saved its own: as long as the BSP is inside,
    if the types of one differ from those of the operating system then all that are present have saved theirs. ([may_expire] limits the timer.) *)
Theorem types_change_after_all_saved os ids c i j : NumCpus < 2 ^ 28 -> reaches (start os ids) c -> c.(shared).(mem) InsideSmm <> FALSE ->
  c.(shared).(hw).(Mtrrs) j <> os j -> c.(shared).(mem) (Present i) <> FALSE -> c.(shared).(hw).(Saved) i = true.
Proof.
  intros Few Hc Hin Hj Hp. destruct (reached_inv os Few ids c Hc) as [(r & lead & p & gone & J) _]. set (s := c.(shared)) in *.
  pose proof (iv_bsp _ _ _ _ _ _ J) as Hok. rewrite (ro_inside _ _ _ _ _ (iv_run _ _ _ _ _ _ J)) in Hin.
  destruct (Z.eqb_spec (bsp_of r lead).(phase) 1) as [Hph|]; [|done]. assert (Hg : forall x, (bsp_of r lead).(given) x <= 2).
  { intros x. destruct (bo_given _ _ Hok x) as [_ Hg]. lia. }
  assert (Hw : 2 <= (bsp_of r lead).(waits)).
  { pose proof (iv_cpu _ _ _ _ _ _ J j) as H. destruct (r j) as [h|rd|a|B] eqn:E; [by destruct H as ((_ & _ & H & _) & _)..| |].
    - destruct H as ((A1 & A2 & A3 & A4 & A5) & (S1 & S2 & S3 & S4 & S5 & S6 & S7 & S8) & _).
      destruct (Z.le_gt_cases 2 (taken a)) as [|Ht]; [lia|]. rewrite S7 in S3 by lia. done.
    - rewrite (bsp_is_lead _ _ _ _ _ _ _ _ J E) in *. destruct H as (_ & _ & S3 & _). destruct B.(bsmi) eqn:Em; [|done]. by apply (bo_smi _ _ Hok). }
  pose proof (iv_cpu _ _ _ _ _ _ J i) as H. specialize (Hg i). destruct (r i) as [h|rd|a|B] eqn:E; [by destruct H as ((_ & H & _) & _)..| |].
  - destruct H as ((A1 & A2 & A3 & A4 & A5) & (S1 & S2 & S3 & S4 & S5 & _) & _). rewrite S4. apply S5; lia.
  - rewrite (bsp_is_lead _ _ _ _ _ _ _ _ J E) in *. destruct H as (_ & _ & _ & _ & _ & S6). rewrite S6. by apply (bo_saved _ _ Hok).
Qed.

(** C5: A processor outside of SMM has its own memory types, is not marked present, has no signal left in its semaphore, and has run
    every procedure that was given to it. ([may_expire] limits the timer.) *)
Theorem outside_smm_restored os ids c i : NumCpus < 2 ^ 28 -> reaches (start os ids) c -> c.(shared).(hw).(InSmm) i = false ->
  c.(shared).(hw).(Mtrrs) i = os i /\ c.(shared).(mem) (Present i) = FALSE /\ c.(shared).(mem) (Run i) = 0 /\
  c.(shared).(hw).(Ran) i = c.(shared).(hw).(Scheduled) i.
Proof.
  intros Few Hc Hi. destruct (reached_inv os Few ids c Hc) as [(r & lead & p & gone & J) _].
  pose proof (iv_cpu _ _ _ _ _ _ J i) as H. destruct (r i) as [h|rd|a|B] eqn:E.
  - destruct H as ((U1 & U2 & U3 & U4 & U5) & _). done.
  - destruct H as (_ & H & _). congruence.
  - destruct H as (_ & (S1 & _) & _). congruence.
  - destruct H as (S1 & _). congruence.
Qed.

(** C6: Each AP runs the procedures that SMI handlers schedule on it, with their arguments, in order and once each: at any time all of
    them but at most the last, and all of them when the BSP is not inside. ([may_expire] limits the timer.) *)
Theorem procedures_run_once os ids c i : NumCpus < 2 ^ 28 -> reaches (start os ids) c ->
  (c.(shared).(hw).(Scheduled) i = c.(shared).(hw).(Ran) i \/ exists p, c.(shared).(hw).(Scheduled) i = c.(shared).(hw).(Ran) i ++ [p]) /\
  (c.(shared).(mem) InsideSmm = FALSE -> c.(shared).(hw).(Scheduled) i = c.(shared).(hw).(Ran) i).
Proof.
  intros Few Hc. destruct (reached_inv os Few ids c Hc) as [(r & lead & p & gone & J) _]. set (s := c.(shared)) in *.
  pose proof (iv_bsp _ _ _ _ _ _ J) as Hok. rewrite (ro_inside _ _ _ _ _ (iv_run _ _ _ _ _ _ J)).
  pose proof (iv_cpu _ _ _ _ _ _ J i) as H. destruct (r i) as [h|rd|a|B] eqn:E.
  - destruct H as ((_ & _ & _ & U4 & _) & _). auto.
  - destruct H as ((_ & _ & _ & U4 & _) & _). auto.
  - destruct H as (_ & _ & (E1 & E2 & E3 & E4 & E5 & E6 & E7)). rewrite E7. split.
    + destruct (recorded _ _ _); [right; eauto|left; by rewrite app_nil_r].
    + destruct (iv_ap _ _ _ _ _ _ J i a E) as [_ Hne]. pose proof (bo_phase _ _ Hok). intros Hin.
      destruct (Z.eqb_spec (bsp_of r lead).(phase) 1) as [|Hn]; [done|]. destruct (bo_phase2 _ _ Hok) as (_ & _ & Hq); [lia|].
      destruct (E3 (Hq i)) as [-> ->]. unfold holds. destruct (held (bsp_of r lead)) as [[j h]|] eqn:Eh; [|by rewrite app_nil_r].
      pose proof (bo_held _ _ Hok j h Eh) as Hx. by rewrite Hq in Hx.
  - destruct H as (_ & _ & _ & U4 & _). auto.
Qed.

(** Whether a processor copies the table. *)
Lemma copying_or_not (r : Z -> role) n : (exists i, r i = Out 2) \/ forall i, 0 <= i < Z.of_nat n -> r i <> Out 2.
Proof.
  induction n as [|n IH]; [right; lia|]. destruct IH as [|IH]; [by left|].
  assert (Hd : r (Z.of_nat n) = Out 2 \/ r (Z.of_nat n) <> Out 2).
  { destruct (r (Z.of_nat n)) as [h| | |]; [|by right..]. destruct (Z.eq_dec h 2) as [->|Hh]; [by left|right; congruence]. }
  destruct Hd as [Hd|Hd]; [left; eauto|]. right. intros i Hi. destruct (Z.eq_dec i (Z.of_nat n)) as [->|]; [done|]. apply IH. lia.
Qed.

(** The handlers of exceptions are copied into the interrupt table at most once, however many processors find them missing at the
    same time; and when they are marked ready they have been copied. *)
Theorem exception_handlers_once os ids c : NumCpus < 2 ^ 28 -> reaches (start os ids) c ->
  0 <= c.(shared).(hw).(IdtCopies) <= 1 /\ (c.(shared).(mem) mExceptionHandlerReady <> FALSE -> c.(shared).(hw).(IdtCopies) = 1).
Proof.
  intros Few Hc. destruct (reached_inv os Few ids c Hc) as [(r & lead & p & gone & J) _]. pose proof (iv_idt _ _ _ _ _ _ J) as H.
  destruct (copying_or_not r mMaxNumberOfCpus) as [[i Hi]|Hno].
  - destruct (io_copies _ _ H i Hi) as [-> ->]. done.
  - destruct (io_ready _ _ H) as [E Hb].
    + intros i Hi. destruct (decide (0 <= i < NumCpus)) as [Hr|Hr]; [by apply (Hno i)|]. by rewrite (iv_range _ _ _ _ _ _ J) in Hi.
    + split; [done|]. unfold FALSE. lia.
Qed.

(** The counter of check-ins is at most the number of processors until the BSP locks it with -1; and it is locked as long as the
    SMI handlers run, and until the BSP has ended the run. *)
Theorem counter_bounds os ids c : NumCpus < 2 ^ 28 -> reaches (start os ids) c ->
  (0 <= c.(shared).(mem) Counter <= NumCpus \/ c.(shared).(mem) Counter = MINUS1) /\
  (c.(shared).(hw).(InCore) = true -> c.(shared).(mem) Counter = MINUS1).
Proof.
  intros Few Hc. destruct (reached_inv os Few ids c Hc) as [(r & lead & p & gone & J) _]. set (s := c.(shared)) in *.
  pose proof (iv_run _ _ _ _ _ _ J) as Hro. pose proof (iv_bsp _ _ _ _ _ _ J) as Hok. rewrite (ro_counter _ _ _ _ _ Hro), (ro_core _ _ _ _ _ Hro).
  pose proof (members_bound _ _ _ _ _ _ J) as [Hm0 Hm1]. destruct (locked (bsp_of r lead)) eqn:Hl; [auto|]. split; [left; destruct lead; lia|].
  intros Hcore. destruct (bo_core _ _ Hok Hcore) as (_ & Hw & _). destruct (bo_early _ _ Hok Hl). lia.
Qed.

(** One more step of processor 0. *)
Lemma goes_on c0 c k s' : 0 < NumCpus -> reaches c0 c -> next false Done (c.(cpus) 0) c.(shared) = Next k s' ->
  reaches c0 {| cpus := <[0 := k]> c.(cpus); shared := s' |}.
Proof.
  intros Hn Hc E. eapply reaches_step; [exact Hc|]. apply (step_at 0 false Done); [lia|done|]. unfold step_cpu. by rewrite E.
Qed.

(** The service that asks whether all APs have arrived cannot be used by SMI handlers: while they run, its first assertion, that the
    counter is at most the number of processors, fails, since the counter is locked. *)
Theorem check_arrival_fails os ids c : 0 < NumCpus < 2 ^ 28 -> reaches (start os ids) c -> c.(shared).(hw).(InCore) = true ->
  exists c', reaches {| cpus := fun _ => (_ ← SmmCpuSyncCheckApArrivalWorker; Ret tt); shared := c.(shared) |} c' /\ fails c'.
Proof.
  intros [Hn Few] Hc Hcore. destruct (reached_inv os Few ids c Hc) as [(r & lead & p & gone & J) _]. set (s := c.(shared)) in *.
  pose proof (iv_run _ _ _ _ _ _ J) as Hro. pose proof (iv_bsp _ _ _ _ _ _ J) as Hok. rewrite (ro_core _ _ _ _ _ Hro) in Hcore.
  destruct (bo_core _ _ Hok Hcore) as (_ & Hw & _). pose proof (ro_counter _ _ _ _ _ Hro) as Hcnt.
  destruct (locked (bsp_of r lead)) eqn:Hl; [|destruct (bo_early _ _ Hok Hl); lia].
  eexists; split.
  - eapply goes_on; [done| |]. { eapply goes_on; [done| |]. { eapply goes_on; [done| |]. { eapply goes_on; [done|apply reaches_here|reflexivity]. }
    reflexivity. } reflexivity. } reflexivity.
  - exists 0. split; [lia|]. exists false, Done. cbn [cpus shared]. rewrite fn_lookup_insert. cbn. rewrite Hcnt, (ro_cpus _ _ _ _ _ Hro).
    by rewrite (proj2 (Z.leb_gt _ _)) by (unfold MINUS1; lia).
Qed.
(** The timer: without a roll-over it compares the elapsed counts; read twice at the same count it has always run out. *)
Lemma IsSyncTimerTimeout_up t Timer CurrentTimer : t.(mCountDown) = false -> Timer < CurrentTimer ->
  IsSyncTimerTimeout t Timer CurrentTimer = (t.(mTimeoutTicker) <=? CurrentTimer - Timer).
Proof. intros Hd Hlt. unfold IsSyncTimerTimeout. by rewrite Hd, (proj2 (Z.ltb_lt _ _)). Qed.

Lemma IsSyncTimerTimeout_same t Timer : 0 <= t.(mCycle) < 2 ^ 64 -> t.(mTimeoutTicker) <= t.(mCycle) -> IsSyncTimerTimeout t Timer Timer = true.
Proof.
  intros Hc Ht. unfold IsSyncTimerTimeout. rewrite Z.ltb_irrefl, Z.sub_diag, Z.sub_0_r, wrap_small by done.
  destruct (mCountDown t); by apply Z.leb_le.
Qed.
End Theorems.
