(* ===== verification/MpAlone.v ===== *)
(** * The rendezvous of processors in SMM: a single processor always comes out

    The processor of the platform is the only one. Whatever the timer answers and whatever the SMI handlers ask for but the arrival check
    ([no_check]; its assertion would stop the processor), it handles each SMI in finitely many steps and leaves the shared variables as they were. *)

From S2P Require Import Prelude MpDefs MpInv.
From stdpp Require Import functions.
#[local] Open Scope Z_scope.
#[local] Open Scope code_scope.

(** ** Code that ends *)

(** Without other processors: after finitely many steps, whatever the environment answers, [c] returns with [Q]. The SMI handlers
    do not ask for the arrival check. *)
Inductive ends {SC : SmmConfig} {A} (Q : A -> smm -> Prop) : code A -> smm -> Prop :=
| ends_ret c a s : returned c = Some a -> Q a s -> ends Q c s
| ends_step c s (F : bool -> handlers -> code A * smm) :
    returned c = None -> (forall e h, no_check h -> next e h c s = Next (F e h).1 (F e h).2) ->
    (forall e h, no_check h -> ends Q (F e h).1 (F e h).2) -> ends Q c s.

Section Ends.
Context {SC : SmmConfig}.

Lemma ends_mret {A} (Q : A -> smm -> Prop) a s : Q a s -> ends Q (Ret a) s.
Proof. by apply ends_ret. Qed.

Lemma ends_bind {A B} (Q : B -> smm -> Prop) (c : code A) (k : A -> code B) s : ends (fun a s' => ends Q (k a) s') c s -> ends Q (Bind c k) s.
Proof.
  induction 1 as [c a s E H|c s F E HF _ IH].
  - apply (ends_step Q _ s (fun _ _ => (k a, s))); [done| |done]. intros e h _. cbn. by rewrite E.
  - apply (ends_step Q _ s (fun e h => (Bind (F e h).1 k, (F e h).2))); [done| |done]. intros e h Hh. cbn. by rewrite E, HF.
Qed.

Lemma ends_mono {A} (Q Q' : A -> smm -> Prop) (c : code A) s : ends Q c s -> (forall a s', Q a s' -> Q' a s') -> ends Q' c s.
Proof. intros H HQ. induction H as [c a s E H|c s F E HF _ IH]; [eapply ends_ret; eauto|by eapply ends_step]. Qed.

Lemma ends_act {A} (Q : A -> smm -> Prop) f s x s' : f s = Some (x, s') -> Q x s' -> ends Q (Act f) s.
Proof. intros E H. apply (ends_step Q _ s (fun _ _ => (Ret x, s'))); [done| |]; intros; cbn; [by rewrite E|by apply (ends_ret Q (Ret x) x)]. Qed.

Lemma ends_timer (Q : bool -> smm -> Prop) s : (forall e, Q e s) -> ends Q Timer s.
Proof. intros H. apply (ends_step Q _ s (fun e _ => (Ret e, s))); [done|done|]. intros e h _. by apply (ends_ret Q (Ret e) e). Qed.

Lemma ends_core (Q : handlers -> smm -> Prop) s : (forall h, no_check h -> Q h s) -> ends Q Core s.
Proof. intros H. apply (ends_step Q _ s (fun _ h => (Ret h, s))); [done|done|]. intros e h Hh. apply (ends_ret Q (Ret h) h); [done|by apply H]. Qed.

(** A loop that ends after the first turn. *)
Lemma ends_loop {A} (Q : A -> smm -> Prop) body s : ends (fun o s' => exists x, o = Some x /\ Q x s') body s -> ends Q (Loop body) s.
Proof.
  intros H. apply (ends_step Q _ s (fun _ _ => (again body, s))); [done|done|]. intros _ _ _. apply ends_bind. eapply ends_mono; [exact H|].
  intros o s' (x & -> & Hx). by apply (ends_ret Q (Ret x) x).
Qed.
End Ends.

(** ** Actions *)

Section Actions.
Context {SC : SmmConfig}.
Implicit Types (s : smm).

Lemma ends_load (Q : Z -> smm -> Prop) l s v : in_range l = true -> s.(mem) l = v -> Q v s -> ends Q (load l) s.
Proof. intros Hl <- H. eapply ends_act; [|exact H]. by rewrite Hl. Qed.

Lemma ends_store (Q : unit -> smm -> Prop) l v s : in_range l = true -> Q tt (set_mem l v s) -> ends Q (store l v) s.
Proof. intros Hl H. eapply ends_act; [|exact H]. by rewrite Hl. Qed.

Lemma ends_hook (Q : unit -> smm -> Prop) f s : Q tt {| mem := s.(mem); hw := f s.(hw) |} -> ends Q (hook f) s.
Proof. intros H. by eapply ends_act. Qed.

Lemma ends_assert (Q : unit -> smm -> Prop) b s : b = true -> Q tt s -> ends Q (ASSERT_ b) s.
Proof. intros -> H. by eapply ends_act. Qed.

Lemma ends_cas (Q : Z -> smm -> Prop) l old new s v : in_range l = true -> s.(mem) l = v ->
  Q v (if v =? old then set_mem l new s else s) -> ends Q (InterlockedCompareExchange32 l old new) s.
Proof. intros Hl <- H. eapply ends_act; [|exact H]. by rewrite Hl. Qed.

Lemma ends_lock (Q : unit -> smm -> Prop) l s : in_range l = true -> s.(mem) l = RELEASED -> Q tt (set_mem l ACQUIRED s) -> ends Q (AcquireSpinLock l) s.
Proof. intros Hl Hv H. apply ends_loop, ends_bind, ends_bind. apply (ends_cas _ _ _ _ _ _ Hl Hv), ends_mret, ends_mret. by exists tt. Qed.

Lemma ends_ReleaseSemaphore (Q : Z -> smm -> Prop) l s v w : in_range l = true -> s.(mem) l = v -> u32 (v + 1) = w -> w <> 0 ->
  Q w (set_mem l w s) -> ends Q (ReleaseSemaphore l) s.
Proof.
  intros Hl Hv <- Hw H. apply ends_loop, ends_bind, (ends_load _ _ _ v Hl Hv). rewrite (proj2 (Z.eqb_neq _ _)) by done.
  apply ends_bind, (ends_cas _ _ _ _ _ v Hl Hv), ends_mret. rewrite Z.eqb_refl. eauto.
Qed.

Lemma ends_LockdownSemaphore (Q : Z -> smm -> Prop) l s v : in_range l = true -> s.(mem) l = v -> Q v (set_mem l MINUS1 s) -> ends Q (LockdownSemaphore l) s.
Proof.
  intros Hl Hv H. apply ends_loop, ends_bind, (ends_load _ _ _ v Hl Hv). apply ends_bind, (ends_cas _ _ _ _ _ v Hl Hv), ends_mret. rewrite Z.eqb_refl. eauto.
Qed.
End Actions.

(** ** The only processor *)

Ltac value := look; first [eassumption | reflexivity].
Ltac one := cbv beta;
  lazymatch goal with
  | |- ends _ (Bind _ _) _ => apply ends_bind
  | |- ends _ (Ret _) _ => apply ends_mret
  | |- ends _ (if ?c then _ else _) _ => let r := eval vm_compute in c in
      match r with true => idtac | false => idtac end; change c with r; cbv iota
  | |- ends _ (for_up _ ?n _) _ => let m := eval vm_compute in n in change n with m; cbn [for_up]
  | |- ends _ (for_down ?n _) _ => let m := eval vm_compute in n in change n with m; cbn [for_down]
  | |- ends _ (load _) _ => eapply ends_load; [reflexivity | value |]
  | |- ends _ (store _ _) _ => apply ends_store; [reflexivity |]
  | |- ends _ (hook _) _ => apply ends_hook
  | |- ends _ (ASSERT_ _) _ => apply ends_assert; [reflexivity |]
  | |- ends _ (AcquireSpinLock _) _ => apply ends_lock; [reflexivity | value |]
  | |- ends _ (InterlockedCompareExchange32 _ _ _) _ => eapply ends_cas; [reflexivity | value |]; cbv iota
  | |- ends _ (ReleaseSemaphore _) _ => eapply ends_ReleaseSemaphore; [reflexivity | value | reflexivity | done |]
  | |- ends _ (LockdownSemaphore _) _ => eapply ends_LockdownSemaphore; [reflexivity | value |]
  end.

Section Alone.
Context {M : Type} (g : M) (features : Z -> SMM_CPU_SYNC_FEATURE) (election block : bool).
#[local] Instance one_cpu : SmmConfig := {|
  MTRR_SETTINGS := M; gSmiMtrrs := g; mMaxNumberOfCpus := 1; SmmSyncFeature := features; PcdCpuSmmEnableBspElection := election; PcdCpuSmmBlockStartupThisAp := block |}.

(** Nothing is under way. *)
Record quiescent (s : smm) : Prop := {
  qs_counter : s.(mem) Counter = 0;
  qs_inside : s.(mem) InsideSmm = FALSE;
  qs_index : s.(mem) BspIndex = idle_index;
  qs_sync : s.(mem) AllCpusInSync = FALSE;
  qs_switch : s.(mem) SwitchBsp = FALSE;
  qs_run : s.(mem) (Run 0) = 0;
  qs_present : s.(mem) (Present 0) = FALSE;
  qs_operation : s.(mem) (Operation 0) = SmmCpuNone;
  qs_cpus : s.(mem) mNumberOfCpus = 1;
  qs_idt : s.(mem) mIdtTableLock = RELEASED
}.

(** While the SMI handlers run. *)
Record inside (s : smm) : Prop := {
  is_index : s.(mem) BspIndex = 0;
  is_run : s.(mem) (Run 0) = 0;
  is_operation : s.(mem) (Operation 0) = SmmCpuNone;
  is_executing : s.(mem) CurrentlyExecutingCpu = 0;
  is_switch : s.(mem) SwitchBsp = FALSE;
  is_cpus : s.(mem) mNumberOfCpus = 1;
  is_idt : s.(mem) mIdtTableLock = RELEASED
}.

(** What does not change outside of the variables of the rendezvous. *)
Definition kept (s s' : smm) : Prop := s'.(hw).(Mtrrs) = s.(hw).(Mtrrs) /\ s'.(hw).(Scheduled) = s.(hw).(Scheduled) /\ s'.(hw).(Ran) = s.(hw).(Ran).

Lemma mp_kept_trans s1 s2 s3 : kept s1 s2 -> kept s2 s3 -> kept s1 s3.
Proof. intros (A1 & A2 & A3) (B1 & B2 & B3). unfold kept. by rewrite B1, B2, B3. Qed.

(** No service that SMI handlers use finds another processor. *)
Lemma ends_acquire (Q : bool -> smm -> Prop) j s : inside s -> 0 <= j -> Q false s -> ends Q (acquire_ap j) s.
Proof.
  intros [I1 I2 I3 I4 I5 I6 I7] Hj H. unfold acquire_ap. destruct (Z.leb_spec (Z.of_nat mMaxNumberOfCpus) j) as [Hle|Hlt]; [by apply ends_mret|].
  cbn in Hlt. assert (j = 0) as -> by lia. do 4 one. done.
Qed.

Lemma ends_sync2_cpu (Q : bool -> smm -> Prop) j s : (forall ok, (ok = true -> u32 j = 0) -> Q ok s) -> ends Q (sync2_cpu (u32 j)) s.
Proof.
  intros HQ. pose proof (u32_nonneg j). unfold sync2_cpu. destruct (Z.leb_spec (Z.of_nat mMaxNumberOfCpus) (u32 j)) as [Hle|Hlt]; [one; by apply HQ|].
  cbn in Hlt. assert (E : u32 j = 0) by lia. rewrite E at 1. do 3 one. by apply HQ.
Qed.

Lemma ends_send (Q : EFI_STATUS -> smm -> Prop) j s : inside s -> (forall v s', inside s' -> kept s s' -> Q v s') ->
  ends Q (SmmCpuSync2SendSmi (u32 j)) s.
Proof.
  intros Hs HQ. unfold SmmCpuSync2SendSmi. one. apply ends_sync2_cpu. intros [|] Hj; cbv iota beta delta [negb]; [|one; by apply HQ].
  rewrite Hj by done. do 3 one. unfold SendSmiIpi. do 2 one. apply HQ; [|done]. destruct Hs. by split.
Qed.

Lemma ends_run_handlers (Q : unit -> smm -> Prop) h : forall s, no_check h -> inside s ->
  (forall s', inside s' -> kept s s' -> Q tt s') -> ends Q (run_handlers h) s.
Proof.
  induction h as [|p j x k IH|p j x k IH|j k IH|m k IH|k IH|k IH|j k IH|j e k IH|j k IH]; intros s Hh Hs HQ; cbn [run_handlers no_check] in *.
  - one. by apply HQ.
  - one. unfold SmmStartupThisAp. one. apply ends_acquire; [done|apply u32_nonneg|]. cbv iota beta delta [negb]. one. by apply IH.
  - one. unfold SmmBlockingStartupThisAp. one. apply ends_acquire; [done|apply u32_nonneg|]. cbv iota beta delta [negb]. one. by apply IH.
  - one. pose proof (u32_nonneg j). unfold SmmSwitchBsp. destruct (Z.leb_spec (Z.of_nat mMaxNumberOfCpus) (u32 j)) as [Hle|Hlt]; [one; by apply IH|].
    cbn in Hlt. replace (u32 j) with 0 by lia. pose proof Hs as [I1 I2 I3 I4 I5 I6 I7].
    do 2 one. cbv beta. case_match; [one; by apply IH|]. do 7 one. by apply IH.
  - one. unfold SmmSyncSetModeWorker. case_match; [one; by apply IH|]. do 3 one. apply IH; [done| |done].
    destruct Hs. split; by look.
  - one. unfold SmmSyncGetModeWorker. one. by apply IH.
  - done.
  - one. unfold SmmCpuSync2CheckCpuState. one. apply ends_sync2_cpu. intros [|] _; cbv iota beta delta [negb]; one; by apply IH.
  - one. unfold SmmCpuSync2ChangeSmmEnabling. one. apply ends_sync2_cpu. intros [|] _; cbv iota zeta beta delta [negb]; try case_match; one; by apply IH.
  - one. apply ends_send; [done|]. intros v s1 Hs1 Hk. apply IH; [done|done|]. intros s2 Hs2 Hk2. apply HQ; [done|]. by eapply mp_kept_trans.
Qed.

(** Steps that find nobody else. *)
Lemma ends_WaitForAllAPs (Q : unit -> smm -> Prop) s : s.(mem) BspIndex = 0 -> Q tt s -> ends Q (WaitForAllAPs 0) s.
Proof. intros Hx H. unfold WaitForAllAPs. repeat one. done. Qed.

Lemma ends_ReleaseAllAPs (Q : unit -> smm -> Prop) s : s.(mem) BspIndex = 0 -> Q tt s -> ends Q ReleaseAllAPs s.
Proof. intros Hx H. unfold ReleaseAllAPs. repeat one. done. Qed.

Lemma ends_wait_busy (Q : unit -> smm -> Prop) s : Q tt s -> ends Q (wait_busy 0) s.
Proof. intros H. unfold wait_busy. repeat one. done. Qed.

Lemma ends_SmmCpuUpdate (Q : unit -> smm -> Prop) s : s.(mem) (Operation 0) = SmmCpuNone -> Q tt s -> ends Q SmmCpuUpdate s.
Proof. intros Ho H. unfold SmmCpuUpdate. repeat one. done. Qed.

Lemma ends_arrival (Q : unit -> smm -> Prop) s : s.(mem) Counter = 1 -> s.(mem) mNumberOfCpus = 1 -> Q tt s -> ends Q SmmWaitForApArrival s.
Proof.
  intros Hc Hn H. assert (Ha : forall (Q' : unit -> smm -> Prop), Q' tt s -> ends Q' assert_counter s) by (intros Q' H'; unfold assert_counter; by do 5 one).
  unfold SmmWaitForApArrival. one. apply Ha. one. apply ends_loop. one. apply ends_timer. intros e. destruct e.
  - one. exists tt. split; [done|]. repeat one. done.
  - one. unfold AllCpusInSmmWithExceptions. one. apply Ha. do 6 one. one. exists tt. split; [done|]. repeat one. done.
Qed.

Lemma ends_install_handlers (Q : unit -> smm -> Prop) s : quiescent s -> (forall s', quiescent s' -> kept s s' -> Q tt s') -> ends Q install_handlers s.
Proof.
  intros Hs HQ. pose proof Hs as [I1 I2 I3 I4 I5 I6 I7 I8 I9 I10]. unfold install_handlers. do 2 one. cbv beta. case_match; [|one; by apply HQ].
  repeat one. cbv beta. rewrite H. repeat one. unfold ReleaseSpinLock. repeat one. apply HQ; [|done]. destruct Hs. split; look; done.
Qed.

Lemma ends_elect (Q : unit -> smm -> Prop) s : s.(mem) BspIndex = idle_index -> s.(mem) SwitchBsp = FALSE ->
  (forall s', kept s s' -> s'.(mem) BspIndex = 0 -> (forall l, l <> BspIndex -> s'.(mem) l = s.(mem) l) -> Q tt s') -> ends Q (elect 0) s.
Proof.
  intros I3 I5 HQ. unfold elect, idle_index in *. cbn [PcdCpuSmmEnableBspElection one_cpu] in *. destruct election.
  - repeat one. unfold PlatformSmmBspElection. cbv iota beta. repeat one. cbv beta. change (MINUS1 =? MINUS1) with true. cbv iota. apply HQ; [done|by look|intros; by look].
  - one. by apply HQ.
Qed.

(** The processor after its check-in. *)
Record checked_in (s : smm) : Prop := {
  ci_counter : s.(mem) Counter = 1;
  ci_index : s.(mem) BspIndex = 0;
  ci_switch : s.(mem) SwitchBsp = FALSE;
  ci_run : s.(mem) (Run 0) = 0;
  ci_operation : s.(mem) (Operation 0) = SmmCpuNone;
  ci_cpus : s.(mem) mNumberOfCpus = 1;
  ci_idt : s.(mem) mIdtTableLock = RELEASED
}.

(** The memory types are as before, and no procedure has been given. *)
Definition restored (s s' : smm) : Prop :=
  s'.(hw).(Mtrrs) 0 = s.(hw).(Mtrrs) 0 /\ s'.(hw).(Scheduled) = s.(hw).(Scheduled) /\ s'.(hw).(Ran) = s.(hw).(Ran).

Lemma ends_gather (Q : option MTRR_SETTINGS -> smm -> Prop) s : s.(mem) BspIndex = 0 ->
  (forall h, h.(Scheduled) = s.(hw).(Scheduled) -> h.(Ran) = s.(hw).(Ran) -> Q (Some (s.(hw).(Mtrrs) 0)) {| mem := s.(mem); hw := h |}) -> ends Q (gather 0 0) s.
Proof.
  intros Hx HQ. unfold gather, NeedConfigureMtrrs. one. apply ends_WaitForAllAPs; [done|]. one. apply ends_ReleaseAllAPs; [done|].
  one. eapply ends_act; [reflexivity|]. one. apply ends_WaitForAllAPs; [done|]. one. apply ends_ReleaseAllAPs; [done|].
  one. unfold ReplaceOSMtrrs. repeat one. apply ends_WaitForAllAPs; [done|]. one. by apply HQ.
Qed.

Lemma ends_exit (Q : unit -> smm -> Prop) m s : inside s ->
  (forall s', quiescent s' -> s'.(hw).(Mtrrs) 0 = m -> s'.(hw).(Scheduled) = s.(hw).(Scheduled) -> s'.(hw).(Ran) = s.(hw).(Ran) -> Q tt s') ->
  ends Q (BSPHandler_exit 0 0 (Some m)) s.
Proof.
  intros [I1 I2 I3 I4 I5 I6 I7] HQ. unfold BSPHandler_exit, NeedConfigureMtrrs. repeat one. apply ends_ReleaseAllAPs; [by look|].
  one. apply ends_WaitForAllAPs; [by look|]. repeat one. apply ends_ReleaseAllAPs; [by look|]. one. unfold MtrrSetAllMtrrs. one.
  apply ends_WaitForAllAPs; [by look|]. one. apply ends_ReleaseAllAPs; [by look|]. one. apply ends_SmmCpuUpdate; [by look|]. repeat one.
  apply ends_WaitForAllAPs; [by look|]. one.
  assert (Hend : forall s1, s1.(mem) BspIndex = idle_index -> s1.(hw).(Mtrrs) 0 = m -> s1.(hw).(Scheduled) = s.(hw).(Scheduled) -> s1.(hw).(Ran) = s.(hw).(Ran) ->
    s1.(mem) InsideSmm = FALSE -> s1.(mem) (Run 0) = 0 -> s1.(mem) (Present 0) = FALSE -> s1.(mem) (Operation 0) = SmmCpuNone -> s1.(mem) SwitchBsp = FALSE ->
    s1.(mem) mNumberOfCpus = 1 -> s1.(mem) mIdtTableLock = RELEASED -> ends Q (_ ← store Counter 0; store AllCpusInSync FALSE) s1).
  { intros s1 E1 E2 E3 E4 E5 E6 E7 E8 E9 E10 E11. repeat one. apply HQ; [|done..]. split; by look. }
  unfold idle_index in Hend. cbn [PcdCpuSmmEnableBspElection one_cpu] in *. destruct election; one; apply Hend; try done; by look.
Qed.

Lemma ends_BSPHandler (Q : unit -> smm -> Prop) mode s : checked_in s -> (forall s', quiescent s' -> restored s s' -> Q tt s') -> ends Q (BSPHandler 0 mode) s.
Proof.
  intros [I1 I2 I3 I4 I5 I6 I7] HQ. unfold BSPHandler. rewrite orb_true_r, andb_false_r. repeat one.
  apply ends_arrival; [by look|by look|]. repeat one. change (u32 (1 - 1)) with 0. apply ends_gather; [by look|]. look. intros h H1 H2.
  repeat one. cbv beta iota. unfold AcquireSpinLockOrFail. one. eapply ends_cas; [reflexivity|reflexivity|]. repeat one. cbv beta.
  match goal with |- ends _ _ ?s' => set (s1 := s') end.
  assert (Hin : inside s1 /\ s1.(hw) = h) by (unfold s1; clear s1; look; case_match; (split; [split; by look|done])).
  clearbody s1. destruct Hin as [Hin <-]. unfold SmmCoreEntry. repeat one. apply ends_core. intros hs Hhs. one.
  apply ends_run_handlers; [done|destruct Hin; by split|]. intros s2 Hin2 (H3 & H4 & H5). cbn in H3, H4, H5. repeat one. apply ends_wait_busy. repeat one.
  apply ends_exit; [destruct Hin2; by split|]. intros s3 Hs3 E1 E2 E3. apply HQ; [done|]. cbn in E2, E3. split; [done|split; congruence].
Qed.

(** C8: The only processor comes out of every SMI, in finitely many steps, whatever the timer answers and whatever services of the type
    [handlers] the SMI handlers ask for but the arrival check (whose assertion stops the processor, see [only_arrival_check_fails]); all
    variables are then as for the next SMI, its memory types are those it had, and no procedure was scheduled. *)
Theorem lone_processor_returns s : quiescent s ->
  ends (fun _ s' => quiescent s' /\ restored s s' /\ s'.(hw).(InSmm) 0 = false) (SmiRendezvous 0) s.
Proof.
  intros Hs. unfold SmiRendezvous, PlatformValidSmi. repeat one. apply ends_install_handlers; [destruct Hs; by split|].
  intros s1 Hs1 (K1 & K2 & K3). cbn in K1, K2, K3. pose proof Hs1 as [I1 I2 I3 I4 I5 I6 I7 I8 I9 I10]. repeat one.
  unfold InitializeSpinLock. repeat one. cbv beta. change (negb (FALSE =? FALSE)) with false. cbv iota. apply ends_elect; [by look|by look|].
  intros s2 (L1 & L2 & L3) Hx Hmem. cbn in L1, L2, L3.
  assert (Hc : checked_in s2) by (split; [by rewrite Hmem by done; look|done|by rewrite Hmem by done; look..]). pose proof Hc as [C1 C2 C3 C4 C5 C6 C7]. repeat one.
  apply ends_BSPHandler; [done|]. intros s3 Hs3 (R1 & R2 & R3). pose proof Hs3 as [D1 D2 D3 D4 D5 D6 D7 D8 D9 D10]. repeat one.
  unfold wait_sync. apply ends_loop. repeat one. exists tt. split; [reflexivity|]. repeat one. split; [destruct Hs3; by split|]. split; [|by look].
  unfold restored. look. rewrite R1, R2, R3, L1, L2, L3, K1, K2, K3. done.
Qed.
End Alone.
