(* ===== verification/MpWitness.v ===== *)
(** * The rendezvous of processors in SMM: runs of two processors

    Schedules that the kernel evaluates step by step, to which the theorems of [MpTheorems] apply. *)

From S2P Require Import Prelude MpDefs MpLogic MpInv MpTheorems MpAlone.
From stdpp Require Import functions.
#[local] Open Scope Z_scope.
#[local] Open Scope code_scope.

(** ** Executions *)

Section Runs.
Context {SC : SmmConfig}.

(** The processors of a schedule take a step each, with the answers of their timers; [strict]: only the BSP's may run out. *)
Fixpoint run (strict : bool) (sched : list (Z * bool)) (h : handlers) (c : system) : option system :=
  match sched with
  | [] => Some c
  | (i, e) :: rest =>
      if (0 <=? i) && (i <? NumCpus) && (negb (strict && e) || (c.(shared).(mem) BspIndex =? i)) then
        match step_cpu i e h c with Some c' => run strict rest h c' | None => None end
      else None
  end.

Lemma run_reaches sched h : forall c0 c c', reaches c0 c -> run true sched h c = Some c' -> reaches c0 c'.
Proof.
  induction sched as [|[i e] rest IH]; intros c0 c c' H; cbn [run]; [by intros [= <-]|].
  destruct (Z.leb_spec 0 i), (Z.ltb_spec i NumCpus); cbn [andb]; try done.
  destruct (negb e || (c.(shared).(mem) BspIndex =? i)) eqn:Ee; [|done]. destruct (step_cpu i e h c) as [c1|] eqn:Es; [|done].
  apply IH. eapply reaches_step; [exact H|]. apply (step_at i e h); [lia| |done]. intros ->. cbn in Ee. by apply Z.eqb_eq.
Qed.
End Runs.

#[local] Instance two_cpus : SmmConfig := {|
  MTRR_SETTINGS := Z; gSmiMtrrs := 99; mMaxNumberOfCpus := 2;
  SmmSyncFeature := fun _ => {| TargetedSmiSupported := false; DelayIndicationSupported := false; BlockIndicationSupported := false |};
  PcdCpuSmmEnableBspElection := true; PcdCpuSmmBlockStartupThisAp := false |}.

(** The processors in turn; the SMI handlers give a procedure to the other one. *)
Definition in_turn (n : nat) : list (Z * bool) := concat (repeat [(0, false); (1, false)] n).
Definition own (i : Z) : MTRR_SETTINGS := (10 + i)%Z.
Definition asks : handlers := StartupThisAp 4096 1 8192 (fun _ => Done).
Definition after (n : nat) : system := default (start own (fun i => i)) (run true (in_turn n) asks (start own (fun i => i))).

Lemma after_reaches n : reaches (start own (fun i => i)) (after n).
Proof.
  unfold after. destruct (run true _ _ _) as [c|] eqn:E; [|apply reaches_here]. by eapply run_reaches; [apply reaches_here|].
Qed.

Lemma few : NumCpus < 2 ^ 28.
Proof. done. Qed.

(** The handlers run, with both processors in SMM and synchronised; later both are out again. *)
Example two_cpus_run :
  let s := (after 190).(shared) in let s' := (after 350).(shared) in
  s.(hw).(InCore) = true /\ s.(hw).(Mtrrs) 0 = 99 /\ s.(hw).(Mtrrs) 1 = 99 /\ s.(mem) Counter = MINUS1 /\
  s'.(hw).(InCore) = false /\ s'.(hw).(Mtrrs) 0 = 10 /\ s'.(hw).(Mtrrs) 1 = 11 /\ s'.(hw).(Ran) 1 = [(4096, 8192)] /\ s'.(mem) Counter = 0.
Proof. vm_compute. repeat split; reflexivity. Qed.

(** An SMI handler asks whether all APs have arrived: the processor is stopped in the check. Nobody is stopped in the run above. *)
Definition stopped : system := default (start own (fun i => i)) (run true (in_turn 173) (CheckApArrival (fun _ => Done)) (start own (fun i => i))).

Lemma stopped_reaches : reaches (start own (fun i => i)) stopped.
Proof.
  unfold stopped. destruct (run true _ _ _) as [c|] eqn:E; [|apply reaches_here]. by eapply run_reaches; [apply reaches_here|].
Qed.

Lemma only_arrival_check_fails_witness :
  (fails_at stopped 0 /\ check_refused (stopped.(cpus) 0) stopped.(shared)) /\ ~ fails (after 190).
Proof.
  assert (H : fails_at stopped 0) by (split; [split; vm_compute; congruence|exists false, Done; vm_compute; reflexivity]).
  split; [split; [exact H|apply (only_arrival_check_fails own (fun i => i)); [exact few|exact stopped_reaches|exact H]]|].
  intros [i Hi]. pose proof (only_arrival_check_fails own (fun i => i) _ i few (after_reaches 190) Hi) as (Hc & _ & _).
  destruct Hi as [Hi _]. change NumCpus with 2 in Hi. assert (i = 0 \/ i = 1) as [-> | ->] by lia; vm_compute in Hc; discriminate Hc.
Defined.

Lemma handlers_run_synchronised_witness :
  (after 190).(shared).(hw).(InCore) = true /\ (after 190).(shared).(mem) (Present 1) <> FALSE /\
  (after 190).(shared).(hw).(InSmm) 1 = true /\ (after 190).(shared).(hw).(Mtrrs) 1 = gSmiMtrrs.
Proof.
  assert (H : (after 190).(shared).(hw).(InCore) = true) by (vm_compute; reflexivity).
  assert (H1 : (after 190).(shared).(mem) (Present 1) <> FALSE) by (vm_compute; discriminate).
  split; [exact H|]. split; [exact H1|]. apply (handlers_run_synchronised own (fun i => i)); [exact few|apply after_reaches|exact H|exact H1].
Defined.

Lemma types_change_after_all_saved_witness :
  (after 190).(shared).(mem) InsideSmm <> FALSE /\ (after 190).(shared).(hw).(Mtrrs) 0 <> own 0 /\ (after 190).(shared).(mem) (Present 1) <> FALSE /\
  (after 190).(shared).(hw).(Saved) 1 = true.
Proof.
  assert (H : (after 190).(shared).(mem) InsideSmm <> FALSE) by (vm_compute; discriminate).
  assert (H0 : (after 190).(shared).(hw).(Mtrrs) 0 <> own 0) by (vm_compute; discriminate).
  assert (H1 : (after 190).(shared).(mem) (Present 1) <> FALSE) by (vm_compute; discriminate).
  split; [exact H|]. split; [exact H0|]. split; [exact H1|].
  apply (types_change_after_all_saved own (fun i => i) _ 1 0); [exact few|apply after_reaches|exact H|exact H0|exact H1].
Defined.

Lemma outside_smm_restored_witness :
  (after 344).(shared).(hw).(InSmm) 1 = false /\ (after 344).(shared).(hw).(Mtrrs) 1 = own 1 /\ (after 344).(shared).(mem) (Present 1) = FALSE /\
  (after 344).(shared).(mem) (Run 1) = 0 /\ (after 344).(shared).(hw).(Ran) 1 = (after 344).(shared).(hw).(Scheduled) 1.
Proof.
  assert (H : (after 344).(shared).(hw).(InSmm) 1 = false) by (vm_compute; reflexivity).
  split; [exact H|]. apply (outside_smm_restored own (fun i => i)); [exact few|apply after_reaches|exact H].
Defined.

Lemma procedures_run_once_witness :
  (after 350).(shared).(hw).(Scheduled) 1 = [(4096, 8192)] /\ (after 350).(shared).(hw).(Scheduled) 1 = (after 350).(shared).(hw).(Ran) 1.
Proof.
  assert (H : (after 350).(shared).(mem) InsideSmm = FALSE) by (vm_compute; reflexivity).
  split; [vm_compute; reflexivity|]. exact (proj2 (procedures_run_once own (fun i => i) _ 1 few (after_reaches 350)) H).
Defined.

Lemma exception_handlers_once_witness :
  (after 50).(shared).(mem) mExceptionHandlerReady <> FALSE /\ (after 50).(shared).(hw).(IdtCopies) = 1.
Proof.
  assert (H : (after 50).(shared).(mem) mExceptionHandlerReady <> FALSE) by (vm_compute; discriminate).
  split; [exact H|]. exact (proj2 (exception_handlers_once own (fun i => i) _ few (after_reaches 50)) H).
Defined.

Lemma counter_bounds_witness : (after 190).(shared).(hw).(InCore) = true /\ (after 190).(shared).(mem) Counter = MINUS1.
Proof.
  assert (H : (after 190).(shared).(hw).(InCore) = true) by (vm_compute; reflexivity).
  split; [exact H|]. exact (proj2 (counter_bounds own (fun i => i) _ few (after_reaches 190)) H).
Defined.

Lemma check_arrival_fails_witness :
  (after 190).(shared).(hw).(InCore) = true /\
  exists c', reaches {| cpus := fun _ => (_ ← SmmCpuSyncCheckApArrivalWorker; Ret tt); shared := (after 190).(shared) |} c' /\ fails c'.
Proof.
  assert (H : (after 190).(shared).(hw).(InCore) = true) by (vm_compute; reflexivity).
  split; [exact H|]. apply (check_arrival_fails own (fun i => i)); [split; [reflexivity|exact few]|apply after_reaches|exact H].
Defined.

(** When the timer of an AP runs out as the BSP enters, the AP takes itself off a counter that is locked; the BSP waits for it for ever:
    its semaphore is empty, and the AP has left. *)
Definition given_up : list (Z * bool) := repeat (0, false) 47 ++ repeat (1, true) 52 ++ repeat (0, false) 300 ++ in_turn 300.
Example ap_gives_up :
  match run false given_up Done (start own (fun i => i)) with
  | Some c => c.(shared).(mem) Counter = MINUS1 - 1 /\ c.(shared).(mem) InsideSmm = TRUE /\ c.(shared).(mem) (Run 0) = 0 /\ c.(shared).(mem) (Present 1) = FALSE
  | None => False
  end.
Proof. by vm_compute. Qed.

Lemma lone_processor_returns_witness :
  let one := one_cpu 99 (fun _ => {| TargetedSmiSupported := false; DelayIndicationSupported := false; BlockIndicationSupported := false |}) true true in
  let s := @started one own (fun i => i) in
  quiescent 99 _ true true s /\ @ends one unit (fun _ s' => quiescent 99 _ true true s' /\ restored 99 _ true true s s' /\ (@InSmm one (@hw one s')) 0 = false) (@SmiRendezvous one 0) s.
Proof.
  intros one s. assert (H : quiescent 99 _ true true s) by (split; reflexivity). split; [exact H|]. exact (lone_processor_returns 99 _ true true s H).
Defined.
