(* ===== verification/SpiDefs.v ===== *)
(** * The SPI host controller driver: definitions

    Models [QuarkSocPkg/QuarkNorthCluster/Spi/Common/SpiCommon.c] with the hooks of the two drivers that are
    built from it ([Spi/Smm/PchSpi.c] and [Spi/RuntimeDxe/PchSpi.c]), and the table of flash parts with the search in it
    ([QuarkPlatformPkg/Platform/SpiFvbServices/SpiFlashDevice.c], [SmmSpiInit] of [FwBlockService.c]). *)

From S2P Require Import Prelude QNCAccess FvbDefs.
From stdpp Require Import list.
#[local] Open Scope Z_scope.

(** ** Constants *)

Definition WAIT_TIME : Z := 6000000.
Definition WAIT_PERIOD : Z := 10.
Definition SPI_NUM_OPCODE : Z := 8.
Definition SPI_NUM_PREFIX_OPCODE : Z := 2.
Definition PCH_SPI_COMMAND_WRITE_ENABLE : Z := 0x06.
Definition PCH_SPI_PRIVATE_DATA_SIGNATURE : Z := 0x49505350.

Definition R_QNC_RCRB_SPIBASE : Z := 0x3020.
Definition R_QNC_RCRB_SPIS : Z := R_QNC_RCRB_SPIBASE + 0x00.
Definition B_QNC_RCRB_SPIS_SCL : Z := 2 ^ 15.
Definition B_QNC_RCRB_SPIS_BAS : Z := 2 ^ 3.
Definition B_QNC_RCRB_SPIS_CDS : Z := 2 ^ 2.
Definition B_QNC_RCRB_SPIS_SCIP : Z := 2 ^ 0.
Definition R_QNC_RCRB_SPIC : Z := R_QNC_RCRB_SPIBASE + 0x02.
Definition B_QNC_RCRB_SPIC_DC : Z := 2 ^ 14.
Definition B_QNC_RCRB_SPIC_DBC : Z := 0x3F00.
Definition B_QNC_RCRB_SPIC_COP : Z := 2 ^ 6 + 2 ^ 5 + 2 ^ 4.
Definition B_QNC_RCRB_SPIC_SPOP : Z := 2 ^ 3.
Definition B_QNC_RCRB_SPIC_ACS : Z := 2 ^ 2.
Definition B_QNC_RCRB_SPIC_SCGO : Z := 2 ^ 1.
Definition R_QNC_RCRB_SPIA : Z := R_QNC_RCRB_SPIBASE + 0x04.
Definition B_QNC_RCRB_SPIA_MASK : Z := 0x00FFFFFF.
Definition R_QNC_RCRB_SPID0 : Z := R_QNC_RCRB_SPIBASE + 0x08.
Definition R_QNC_RCRB_SPIPREOP : Z := R_QNC_RCRB_SPIBASE + 0x54.
Definition R_QNC_RCRB_SPIOPTYPE : Z := R_QNC_RCRB_SPIBASE + 0x56.
Definition B_QNC_RCRB_SPIOPTYPE_NOADD_READ : Z := 0.
Definition B_QNC_RCRB_SPIOPTYPE_NOADD_WRITE : Z := 2 ^ 0.
Definition B_QNC_RCRB_SPIOPTYPE_ADD_READ : Z := 2 ^ 1.
Definition B_QNC_RCRB_SPIOPTYPE_ADD_WRITE : Z := 2 ^ 0 + 2 ^ 1.
Definition R_QNC_RCRB_SPIOPMENU : Z := R_QNC_RCRB_SPIBASE + 0x58.

Definition R_QNC_LPC_RCBA : Z := 0xF0.
Definition B_QNC_LPC_RCBA_MASK : Z := 0xFFFFC000.
Definition R_QNC_LPC_BIOS_CNTL : Z := 0xD8.
Definition B_QNC_LPC_BIOS_CNTL_PFE : Z := 2 ^ 8.
Definition B_QNC_LPC_BIOS_CNTL_SMM_BWP : Z := 2 ^ 5.
Definition B_QNC_LPC_BIOS_CNTL_BCD : Z := 2 ^ 2.
Definition B_QNC_LPC_BIOS_CNTL_BIOSWE : Z := 2 ^ 0.
Definition QNC_MSG_FSBIC_REG_HMISC : Z := 0x03.
Definition SMI_EN : Z := 2 ^ 19.

(** ** Data *)

Inductive SPI_OPCODE_TYPE := EnumSpiOpcodeReadNoAddr | EnumSpiOpcodeWriteNoAddr | EnumSpiOpcodeRead | EnumSpiOpcodeWrite.
Inductive SPI_CYCLE_FREQUENCY := EnumSpiCycle20MHz | EnumSpiCycle33MHz | EnumSpiCycle66MHz | EnumSpiCycle50MHz.
Inductive SPI_OPERATION :=
  | EnumSpiOperationWriteStatus | EnumSpiOperationProgramData_1_Byte | EnumSpiOperationProgramData_64_Byte
  | EnumSpiOperationReadData | EnumSpiOperationWriteDisable | EnumSpiOperationReadStatus | EnumSpiOperationWriteEnable
  | EnumSpiOperationFastRead | EnumSpiOperationEnableWriteStatus | EnumSpiOperationErase_256_Byte
  | EnumSpiOperationErase_4K_Byte | EnumSpiOperationErase_8K_Byte | EnumSpiOperationErase_64K_Byte
  | EnumSpiOperationFullChipErase | EnumSpiOperationJedecId | EnumSpiOperationDualOutputFastRead
  | EnumSpiOperationDiscoveryParameters | EnumSpiOperationOther.

#[export] Instance SPI_OPCODE_TYPE_eq_dec : EqDecision SPI_OPCODE_TYPE.
Proof. solve_decision. Defined.
#[export] Instance SPI_OPERATION_eq_dec : EqDecision SPI_OPERATION.
Proof. solve_decision. Defined.
#[export] Instance SPI_REGION_TYPE_eq_dec : EqDecision SPI_REGION_TYPE.
Proof. solve_decision. Defined.

Record SPI_OPCODE_MENU_ENTRY := { OpType : SPI_OPCODE_TYPE; Code : Z; Frequency : SPI_CYCLE_FREQUENCY; Operation : SPI_OPERATION }.
Record SPI_INIT_TABLE := {
  VendorId : Z; DeviceId0 : Z; DeviceId1 : Z;
  PrefixOpcode : list Z;
  OpcodeMenu : list SPI_OPCODE_MENU_ENTRY;
  BiosStartOffset : Z; BiosSize : Z
}.

(** [InitTable] points to the table of the instance itself; it is true once it is set. *)
Record SPI_INIT_INFO := {
  InitTable : bool;
  JedecIdOpcodeIndex : Z; OtherOpcodeIndex : Z; WriteStatusOpcodeIndex : Z; ProgramOpcodeIndex : Z;
  ReadOpcodeIndex : Z; EraseOpcodeIndex : Z; ReadStatusOpcodeIndex : Z; FullChipEraseOpcodeIndex : Z
}.

Record SPI_INSTANCE := {
  Signature : Z;
  SpiInitTable : SPI_INIT_TABLE;
  PchRootComplexBar : Z;
  InitDone : bool;
  InitInfo : SPI_INIT_INFO
}.

(** ** What the driver is given *)

(** The accesses of the EDK II libraries to memory-mapped registers and to the configuration space of the LPC bridge (the
    PCI accesses name a register of it), the delay, the copy from memory-mapped flash, and the boot script, which
    records what it reads at the address. *)
Class SpiBus (D : Type) := {
  MmioRead8 (Address : Z) : M D Z;
  MmioRead16 (Address : Z) : M D Z;
  MmioRead32 (Address : Z) : M D Z;
  MmioWrite8 (Address Value : Z) : M D unit;
  MmioWrite16 (Address Value : Z) : M D unit;
  MmioWrite32 (Address Value : Z) : M D unit;
  MmioOr16 (Address OrData : Z) : M D unit;
  MmioAnd8 (Address AndData : Z) : M D unit;
  PciRead16 (Register : Z) : M D Z;
  PciOr16 (Register OrData : Z) : M D unit;
  PciAndThenOr16 (Register AndData OrData : Z) : M D unit;
  MicroSecondDelay (MicroSeconds : Z) : M D unit;
  CopyMem (Source Length : Z) : M D (list Z);
  S3BootScriptSaveMemWrite (Width Address : Z) : M D unit;
  PcdPciExpressBaseAddress : Z
}.

Record spi (D : Type) := { Instance : SPI_INSTANCE; sb : msgbus; bridge : D }.
Arguments Instance {D} _.
Arguments sb {D} _.
Arguments bridge {D} _.

Definition no_info : SPI_INIT_INFO :=
  {| InitTable := true; JedecIdOpcodeIndex := 0xff; OtherOpcodeIndex := 0xff; WriteStatusOpcodeIndex := 0xff; ProgramOpcodeIndex := 0xff;
     ReadOpcodeIndex := 0xff; EraseOpcodeIndex := 0xff; ReadStatusOpcodeIndex := 0xff; FullChipEraseOpcodeIndex := 0xff |}.

Section Driver.
Context {MB : MessageBus} {D : Type} {B : SpiBus D}.

Definition on_bridge {A} (m : M D A) : M (spi D) A := fun s =>
  match m s.(bridge) with Some (a, d) => Some (a, {| Instance := s.(Instance); sb := s.(sb); bridge := d |}) | None => None end.
Definition on_sb {A} (m : M msgbus A) : M (spi D) A := fun s =>
  match m s.(sb) with Some (a, b) => Some (a, {| Instance := s.(Instance); sb := b; bridge := s.(bridge) |}) | None => None end.
Definition update_instance (f : SPI_INSTANCE -> SPI_INSTANCE) : M (spi D) unit :=
  modify (fun s => {| Instance := f s.(Instance); sb := s.(sb); bridge := s.(bridge) |}).
Definition set_table (t : SPI_INIT_TABLE) (i : SPI_INSTANCE) : SPI_INSTANCE :=
  {| Signature := i.(Signature); SpiInitTable := t; PchRootComplexBar := i.(PchRootComplexBar); InitDone := i.(InitDone); InitInfo := i.(InitInfo) |}.
Definition set_info (x : SPI_INIT_INFO) (i : SPI_INSTANCE) : SPI_INSTANCE :=
  {| Signature := i.(Signature); SpiInitTable := i.(SpiInitTable); PchRootComplexBar := i.(PchRootComplexBar); InitDone := i.(InitDone); InitInfo := x |}.
Definition set_InitDone (b : bool) (i : SPI_INSTANCE) : SPI_INSTANCE :=
  {| Signature := i.(Signature); SpiInitTable := i.(SpiInitTable); PchRootComplexBar := i.(PchRootComplexBar); InitDone := b; InitInfo := i.(InitInfo) |}.

(** The address of a register of the root complex. *)
Definition Reg (R : Z) : M (spi D) Z := gets (fun s => u32 (s.(Instance).(PchRootComplexBar) + R)).

(** ** Commands *)

(** The rounds of the wait that are left; [None] when none is. *)
Fixpoint wait_cycle (fuel : nat) (Spis : Z) (ErrorCheck : bool) : M (spi D) bool :=
  match fuel with
  | O => mret false
  | S fuel =>
      Data16 ← on_bridge (MmioRead16 Spis);
      if Z.land Data16 B_QNC_RCRB_SPIS_SCIP =? 0 then
        _ ← on_bridge (MmioWrite16 Spis (Z.lor B_QNC_RCRB_SPIS_BAS B_QNC_RCRB_SPIS_CDS));
        mret (negb (negb (Z.land Data16 B_QNC_RCRB_SPIS_BAS =? 0) && ErrorCheck))
      else
        _ ← on_bridge (MicroSecondDelay WAIT_PERIOD);
        wait_cycle fuel Spis ErrorCheck
  end.

Definition WaitForSpiCycleComplete (ErrorCheck : bool) : M (spi D) bool :=
  Spis ← Reg R_QNC_RCRB_SPIS;
  wait_cycle (Z.to_nat (WAIT_TIME / WAIT_PERIOD)) Spis ErrorCheck.

(** The address of the hardware; [BaseAddress] and [LimitAddress] stay as they are. *)
Definition SpiOffset2Physical (i : SPI_INSTANCE) (SpiRegionOffset : Z) (SpiRegionType : SPI_REGION_TYPE) (BaseAddress LimitAddress : Z) : Z * Z * Z :=
  (if decide (SpiRegionType = EnumSpiRegionAll) then SpiRegionOffset else u32 (SpiRegionOffset + i.(SpiInitTable).(BiosStartOffset)),
   BaseAddress, LimitAddress).

(** The number of bytes of one cycle. *)
Definition cycle_count (HardwareSpiAddr DataByteCount : Z) : Z :=
  let SpiDataCount :=
    if Z.ldiff (u32 (HardwareSpiAddr + 2 ^ 8)) (2 ^ 8 - 1) <? u32 (HardwareSpiAddr + DataByteCount)
    then u32 (Z.ldiff (u32 (HardwareSpiAddr + 2 ^ 8)) (2 ^ 8 - 1) - HardwareSpiAddr) else DataByteCount in
  if 64 <=? SpiDataCount then 64
  else if negb (Z.ldiff SpiDataCount 0x07 =? 0) then Z.ldiff SpiDataCount 0x07 else SpiDataCount.

(** The value that starts a cycle. *)
Definition cycle_word (OpcodeIndex PrefixOpcodeIndex : Z) (DataCycle Atomic : bool) (SpiDataCount : Z) : Z :=
  let command :=
    Z.lor (Z.lor (Z.lor (Z.land (Z.shiftl OpcodeIndex 4) B_QNC_RCRB_SPIC_COP) (Z.land (Z.shiftl PrefixOpcodeIndex 3) B_QNC_RCRB_SPIC_SPOP))
      (if Atomic then B_QNC_RCRB_SPIC_ACS else 0)) B_QNC_RCRB_SPIC_SCGO in
  if DataCycle then
    Z.lor (Z.lor B_QNC_RCRB_SPIC_DC (Z.land (Z.shiftl (u32 (SpiDataCount - 1)) 8) B_QNC_RCRB_SPIC_DBC)) command
  else command.

(** The bytes of the buffer into the data registers, and back. Past the end of the buffer the code stops. *)
Definition load_data (Spid : Z) (n : nat) (Buffer : list Z) : M (spi D) unit :=
  for_each (seq 0 n) (fun Index =>
    b ← lift (Buffer !! Index);
    _ ← on_bridge (MmioWrite8 (u32 (Spid + Z.of_nat Index)) b);
    _ ← on_bridge (MmioRead8 (u32 (Spid + Z.of_nat Index)));
    mret tt).
Fixpoint read_data (Spid : Z) (Index n : nat) : M (spi D) (list Z) :=
  match n with
  | O => mret []
  | S n =>
      b ← on_bridge (MmioRead8 (u32 (Spid + Z.of_nat Index)));
      l ← read_data Spid (S Index) n;
      mret (b :: l)
  end.

(** The second half of a round of the loop of [SendSpiCmd], from the start of the cycle on: the bytes of the buffer that
    the cycle is about, or [None] when it failed. *)
Definition finish_cycle (Word : Z) (ShiftOut : bool) (n : nat) (Buffer : list Z) : M (spi D) (option (list Z)) :=
  Spic ← Reg R_QNC_RCRB_SPIC;
  _ ← on_bridge (MmioWrite16 Spic Word);
  _ ← on_bridge (MmioRead16 Spic);
  ok ← WaitForSpiCycleComplete true;
  if negb ok then mret None else
  _ ← ASSERT (bool_decide (n <= length Buffer)%nat);
  if ShiftOut then mret (Some (take n Buffer))
  else Spid ← Reg R_QNC_RCRB_SPID0; l ← read_data Spid 0 n; mret (Some l).

Definition send_cycle (OpcodeIndex PrefixOpcodeIndex : Z) (DataCycle Atomic ShiftOut : bool) (HardwareSpiAddr SpiDataCount : Z) (Buffer : list Z)
  : M (spi D) (option (list Z)) :=
  let n := Z.to_nat SpiDataCount in
  Spid ← Reg R_QNC_RCRB_SPID0;
  _ ← (if ShiftOut then load_data Spid n Buffer else mret tt);
  Spia ← Reg R_QNC_RCRB_SPIA;
  _ ← on_bridge (MmioWrite32 Spia (Z.land HardwareSpiAddr B_QNC_RCRB_SPIA_MASK));
  _ ← on_bridge (MmioRead32 Spia);
  Spis ← Reg R_QNC_RCRB_SPIS;
  _ ← on_bridge (MmioOr16 Spis B_QNC_RCRB_SPIS_BAS);
  finish_cycle (cycle_word OpcodeIndex PrefixOpcodeIndex DataCycle Atomic SpiDataCount) ShiftOut n Buffer.

(** The loop: [fuel] rounds are enough for [DataByteCount] bytes. The result has the buffer as it is afterwards. *)
Fixpoint send_loop (fuel : nat) (OpcodeIndex PrefixOpcodeIndex : Z) (DataCycle Atomic ShiftOut : bool)
    (HardwareSpiAddr DataByteCount : Z) (Buffer : list Z) : M (spi D) (EFI_STATUS * list Z) :=
  match fuel with
  | O => stop
  | S fuel =>
      let SpiDataCount := cycle_count HardwareSpiAddr DataByteCount in
      r ← send_cycle OpcodeIndex PrefixOpcodeIndex DataCycle Atomic ShiftOut HardwareSpiAddr SpiDataCount Buffer;
      match r with
      | None => mret (EFI_DEVICE_ERROR, Buffer)
      | Some front =>
          let rest := drop (length front) Buffer in
          if 0 <? u32 (DataByteCount - SpiDataCount) then
            '(Status, back) ← send_loop fuel OpcodeIndex PrefixOpcodeIndex DataCycle Atomic ShiftOut
              (u32 (HardwareSpiAddr + SpiDataCount)) (u32 (DataByteCount - SpiDataCount)) rest;
            mret (Status, front ++ back)
          else mret (EFI_SUCCESS, front ++ rest)
      end
  end.

(** What the two local variables hold that nobody sets. *)
Context (BaseAddress LimitAddress : Z).

Definition SendSpiCmd (OpcodeIndex PrefixOpcodeIndex : Z) (DataCycle Atomic ShiftOut : bool) (Address DataByteCount : Z) (Buffer : list Z)
    (SpiRegionType : SPI_REGION_TYPE) : M (spi D) (EFI_STATUS * list Z) :=
  i ← gets Instance;
  let SpiBiosSize := i.(SpiInitTable).(BiosSize) in
  entry ← lift (i.(SpiInitTable).(OpcodeMenu) !! Z.to_nat OpcodeIndex);
  Opmenu ← Reg R_QNC_RCRB_SPIOPMENU;
  OpCode ← on_bridge (MmioRead8 (u32 (Opmenu + OpcodeIndex)));
  if (OpCode =? 0) || (SpiBiosSize =? 0) then _ ← ASSERT false; mret (EFI_INVALID_PARAMETER, Buffer) else
  let '(HardwareSpiAddr, BaseAddress, _) := SpiOffset2Physical i Address SpiRegionType BaseAddress LimitAddress in
  if bool_decide (entry.(OpType) = EnumSpiOpcodeRead) && bool_decide (SpiRegionType = EnumSpiRegionBios) then
    l ← on_bridge (CopyMem (u32 (u32 (HardwareSpiAddr - BaseAddress) + Z.ldiff 0xFFFFFFFF (u32 (SpiBiosSize - 1)))) DataByteCount);
    mret (EFI_SUCCESS, l ++ drop (Z.to_nat DataByteCount) Buffer)
  else
  let DataByteCount := if negb DataCycle && (0 <? DataByteCount) then 0 else DataByteCount in
  send_loop (S (Z.to_nat DataByteCount)) OpcodeIndex PrefixOpcodeIndex DataCycle Atomic ShiftOut HardwareSpiAddr DataByteCount Buffer.

Definition CNTL_BITS : Z :=
  Z.lor (Z.lor (Z.lor B_QNC_LPC_BIOS_CNTL_BCD B_QNC_LPC_BIOS_CNTL_PFE) B_QNC_LPC_BIOS_CNTL_BIOSWE) B_QNC_LPC_BIOS_CNTL_SMM_BWP.

(** The part of [SpiProtocolExecute] that follows the first wait: SMIs are off and writes enabled while the command is sent. *)
Definition guarded_send (OpcodeIndex PrefixOpcodeIndex : Z) (DataCycle Atomic ShiftOut : bool) (Address DataByteCount : Z)
    (Buffer : list Z) (SpiRegionType : SPI_REGION_TYPE) : M (spi D) (EFI_STATUS * list Z) :=
  SmiEnSave ← on_sb (QNCPortRead QUARK_NC_HOST_BRIDGE_SB_PORT_ID QNC_MSG_FSBIC_REG_HMISC);
  _ ← on_sb (QNCPortWrite QUARK_NC_HOST_BRIDGE_SB_PORT_ID QNC_MSG_FSBIC_REG_HMISC (clear SmiEnSave SMI_EN));
  v ← on_bridge (PciRead16 R_QNC_LPC_BIOS_CNTL);
  let BiosCtlSave := Z.land v CNTL_BITS in
  _ ← on_bridge (PciOr16 R_QNC_LPC_BIOS_CNTL (Z.lor B_QNC_LPC_BIOS_CNTL_BIOSWE B_QNC_LPC_BIOS_CNTL_SMM_BWP));
  _ ← (if ShiftOut then
         on_bridge (PciAndThenOr16 R_QNC_LPC_BIOS_CNTL (Z.ldiff 0xFFFF (Z.lor B_QNC_LPC_BIOS_CNTL_BCD B_QNC_LPC_BIOS_CNTL_PFE)) B_QNC_LPC_BIOS_CNTL_BCD)
       else mret tt);
  r ← SendSpiCmd OpcodeIndex PrefixOpcodeIndex DataCycle Atomic ShiftOut Address DataByteCount Buffer SpiRegionType;
  _ ← on_bridge (PciAndThenOr16 R_QNC_LPC_BIOS_CNTL (Z.ldiff 0xFFFF CNTL_BITS) BiosCtlSave);
  _ ← on_sb (QNCPortWrite QUARK_NC_HOST_BRIDGE_SB_PORT_ID QNC_MSG_FSBIC_REG_HMISC SmiEnSave);
  mret r.

Definition SpiProtocolExecute (OpcodeIndex PrefixOpcodeIndex : Z) (DataCycle Atomic ShiftOut : bool) (Address DataByteCount : Z)
    (Buffer : list Z) (SpiRegionType : SPI_REGION_TYPE) : M (spi D) (EFI_STATUS * list Z) :=
  if (SPI_NUM_OPCODE <=? OpcodeIndex) || (SPI_NUM_PREFIX_OPCODE <=? PrefixOpcodeIndex) then mret (EFI_INVALID_PARAMETER, Buffer) else
  ok ← WaitForSpiCycleComplete false;
  if negb ok then mret (EFI_DEVICE_ERROR, Buffer) else
  guarded_send OpcodeIndex PrefixOpcodeIndex DataCycle Atomic ShiftOut Address DataByteCount Buffer SpiRegionType.

(** ** Configuration *)

Definition set_index (Operation : SPI_OPERATION) (Index : Z) (x : SPI_INIT_INFO) : SPI_INIT_INFO :=
  match Operation with
  | EnumSpiOperationJedecId =>
      {| InitTable := x.(InitTable); JedecIdOpcodeIndex := Index; OtherOpcodeIndex := x.(OtherOpcodeIndex);
         WriteStatusOpcodeIndex := x.(WriteStatusOpcodeIndex); ProgramOpcodeIndex := x.(ProgramOpcodeIndex);
         ReadOpcodeIndex := x.(ReadOpcodeIndex); EraseOpcodeIndex := x.(EraseOpcodeIndex);
         ReadStatusOpcodeIndex := x.(ReadStatusOpcodeIndex); FullChipEraseOpcodeIndex := x.(FullChipEraseOpcodeIndex) |}
  | EnumSpiOperationOther =>
      {| InitTable := x.(InitTable); JedecIdOpcodeIndex := x.(JedecIdOpcodeIndex); OtherOpcodeIndex := Index;
         WriteStatusOpcodeIndex := x.(WriteStatusOpcodeIndex); ProgramOpcodeIndex := x.(ProgramOpcodeIndex);
         ReadOpcodeIndex := x.(ReadOpcodeIndex); EraseOpcodeIndex := x.(EraseOpcodeIndex);
         ReadStatusOpcodeIndex := x.(ReadStatusOpcodeIndex); FullChipEraseOpcodeIndex := x.(FullChipEraseOpcodeIndex) |}
  | EnumSpiOperationWriteStatus =>
      {| InitTable := x.(InitTable); JedecIdOpcodeIndex := x.(JedecIdOpcodeIndex); OtherOpcodeIndex := x.(OtherOpcodeIndex);
         WriteStatusOpcodeIndex := Index; ProgramOpcodeIndex := x.(ProgramOpcodeIndex);
         ReadOpcodeIndex := x.(ReadOpcodeIndex); EraseOpcodeIndex := x.(EraseOpcodeIndex);
         ReadStatusOpcodeIndex := x.(ReadStatusOpcodeIndex); FullChipEraseOpcodeIndex := x.(FullChipEraseOpcodeIndex) |}
  | EnumSpiOperationProgramData_1_Byte | EnumSpiOperationProgramData_64_Byte =>
      {| InitTable := x.(InitTable); JedecIdOpcodeIndex := x.(JedecIdOpcodeIndex); OtherOpcodeIndex := x.(OtherOpcodeIndex);
         WriteStatusOpcodeIndex := x.(WriteStatusOpcodeIndex); ProgramOpcodeIndex := Index;
         ReadOpcodeIndex := x.(ReadOpcodeIndex); EraseOpcodeIndex := x.(EraseOpcodeIndex);
         ReadStatusOpcodeIndex := x.(ReadStatusOpcodeIndex); FullChipEraseOpcodeIndex := x.(FullChipEraseOpcodeIndex) |}
  | EnumSpiOperationReadData | EnumSpiOperationFastRead | EnumSpiOperationDualOutputFastRead =>
      {| InitTable := x.(InitTable); JedecIdOpcodeIndex := x.(JedecIdOpcodeIndex); OtherOpcodeIndex := x.(OtherOpcodeIndex);
         WriteStatusOpcodeIndex := x.(WriteStatusOpcodeIndex); ProgramOpcodeIndex := x.(ProgramOpcodeIndex);
         ReadOpcodeIndex := Index; EraseOpcodeIndex := x.(EraseOpcodeIndex);
         ReadStatusOpcodeIndex := x.(ReadStatusOpcodeIndex); FullChipEraseOpcodeIndex := x.(FullChipEraseOpcodeIndex) |}
  | EnumSpiOperationErase_256_Byte | EnumSpiOperationErase_4K_Byte | EnumSpiOperationErase_8K_Byte | EnumSpiOperationErase_64K_Byte =>
      {| InitTable := x.(InitTable); JedecIdOpcodeIndex := x.(JedecIdOpcodeIndex); OtherOpcodeIndex := x.(OtherOpcodeIndex);
         WriteStatusOpcodeIndex := x.(WriteStatusOpcodeIndex); ProgramOpcodeIndex := x.(ProgramOpcodeIndex);
         ReadOpcodeIndex := x.(ReadOpcodeIndex); EraseOpcodeIndex := Index;
         ReadStatusOpcodeIndex := x.(ReadStatusOpcodeIndex); FullChipEraseOpcodeIndex := x.(FullChipEraseOpcodeIndex) |}
  | EnumSpiOperationReadStatus =>
      {| InitTable := x.(InitTable); JedecIdOpcodeIndex := x.(JedecIdOpcodeIndex); OtherOpcodeIndex := x.(OtherOpcodeIndex);
         WriteStatusOpcodeIndex := x.(WriteStatusOpcodeIndex); ProgramOpcodeIndex := x.(ProgramOpcodeIndex);
         ReadOpcodeIndex := x.(ReadOpcodeIndex); EraseOpcodeIndex := x.(EraseOpcodeIndex);
         ReadStatusOpcodeIndex := Index; FullChipEraseOpcodeIndex := x.(FullChipEraseOpcodeIndex) |}
  | EnumSpiOperationFullChipErase =>
      {| InitTable := x.(InitTable); JedecIdOpcodeIndex := x.(JedecIdOpcodeIndex); OtherOpcodeIndex := x.(OtherOpcodeIndex);
         WriteStatusOpcodeIndex := x.(WriteStatusOpcodeIndex); ProgramOpcodeIndex := x.(ProgramOpcodeIndex);
         ReadOpcodeIndex := x.(ReadOpcodeIndex); EraseOpcodeIndex := x.(EraseOpcodeIndex);
         ReadStatusOpcodeIndex := x.(ReadStatusOpcodeIndex); FullChipEraseOpcodeIndex := Index |}
  | _ => x
  end.

Fixpoint fill_info (menu : list SPI_OPCODE_MENU_ENTRY) (Index : Z) (x : SPI_INIT_INFO) : SPI_INIT_INFO :=
  match menu with
  | [] => x
  | e :: menu => fill_info menu (Index + 1) (set_index e.(Operation) Index x)
  end.

Definition FillOutPublicInfoStruct : M (spi D) unit :=
  update_instance (fun i => set_info (fill_info i.(SpiInitTable).(OpcodeMenu) 0 no_info) i).

Definition PciDeviceMmBase (Bus Device Function : Z) : Z :=
  u32 (PcdPciExpressBaseAddress + Z.shiftl Bus 20 + Z.shiftl Device 15 + Z.shiftl Function 12).
Definition LPC_BASE : Z := PciDeviceMmBase 0 31 0.

Definition QncGetSocDeviceId : M (spi D) Z := on_bridge (MmioRead16 (u32 (PciDeviceMmBase 0 0 0 + 0x02))).
Definition IsQncSupported : M (spi D) bool :=
  SocVendorId ← on_bridge (MmioRead16 (u32 (PciDeviceMmBase 0 0 0 + 0x00)));
  SocDeviceId ← QncGetSocDeviceId;
  mret (negb (negb (SocVendorId =? 0x8086) || (negb (SocDeviceId =? 0x0958) && negb (SocDeviceId =? QUARK2_MC_DEVICE_ID)))).

(** The function pointers of the protocol are those of this file. *)
Definition SpiProtocolConstructor : M (spi D) EFI_STATUS :=
  _ ← update_instance (set_InitDone false);
  ok ← IsQncSupported;
  if negb ok then mret EFI_UNSUPPORTED else
  v ← on_bridge (MmioRead32 (u32 (LPC_BASE + R_QNC_LPC_RCBA)));
  let Bar := Z.land v B_QNC_LPC_RCBA_MASK in
  _ ← update_instance (fun i => {| Signature := PCH_SPI_PRIVATE_DATA_SIGNATURE; SpiInitTable := i.(SpiInitTable); PchRootComplexBar := Bar;
                                InitDone := i.(InitDone); InitInfo := i.(InitInfo) |});
  _ ← ASSERT (negb (Bar =? 0));
  mret EFI_SUCCESS.

Definition UnlockFlashComponents (UnlockCmdOpcodeIndex : Z) : M (spi D) EFI_STATUS :=
  if SPI_NUM_OPCODE <=? UnlockCmdOpcodeIndex then mret EFI_UNSUPPORTED else
  i ← gets Instance;
  p ← lift (i.(SpiInitTable).(PrefixOpcode) !! 0%nat);
  '(Status, _) ← SpiProtocolExecute UnlockCmdOpcodeIndex (if p =? PCH_SPI_COMMAND_WRITE_ENABLE then 0 else 1)
    true true true 0 1 [0] EnumSpiRegionAll;
  if EFI_ERROR Status then mret Status else mret EFI_SUCCESS.

Definition opcode_type (e : SPI_OPCODE_MENU_ENTRY) : Z :=
  match e.(OpType) with
  | EnumSpiOpcodeRead => B_QNC_RCRB_SPIOPTYPE_ADD_READ
  | EnumSpiOpcodeWrite => B_QNC_RCRB_SPIOPTYPE_ADD_WRITE
  | EnumSpiOpcodeWriteNoAddr => B_QNC_RCRB_SPIOPTYPE_NOADD_WRITE
  | EnumSpiOpcodeReadNoAddr => B_QNC_RCRB_SPIOPTYPE_NOADD_READ
  end.
Fixpoint opcode_types (menu : list SPI_OPCODE_MENU_ENTRY) (Index OpcodeType : Z) : Z :=
  match menu with
  | [] => OpcodeType
  | e :: menu => opcode_types menu (Index + 1) (Z.lor OpcodeType (u16 (Z.shiftl (opcode_type e) (Index * 2))))
  end.

(** The loop that fills the opcode menu and looks at the part: an error status, or the index of the unlock command. *)
Fixpoint menu_loop (menu : list SPI_OPCODE_MENU_ENTRY) (Index UnlockCmdOpcodeIndex : Z) : M (spi D) (EFI_STATUS * Z) :=
  match menu with
  | [] => mret (EFI_SUCCESS, UnlockCmdOpcodeIndex)
  | e :: menu =>
      Opmenu ← Reg R_QNC_RCRB_SPIOPMENU;
      _ ← on_bridge (MmioWrite8 (u32 (Opmenu + Index)) e.(Code));
      _ ← on_bridge (MmioRead8 (u32 (Opmenu + Index)));
      i ← gets Instance;
      Status ← (if decide (e.(Operation) = EnumSpiOperationJedecId) then
         '(Status, FlashPartId) ← SpiProtocolExecute Index 0 true true false 0 3 [0; 0; 0] EnumSpiRegionDescriptor;
         if EFI_ERROR Status then mret Status else
         mret (if bool_decide (FlashPartId = [i.(SpiInitTable).(VendorId); i.(SpiInitTable).(DeviceId0); i.(SpiInitTable).(DeviceId1)])
               then EFI_SUCCESS else EFI_INVALID_PARAMETER)
       else mret EFI_SUCCESS);
      if EFI_ERROR Status then mret (Status, UnlockCmdOpcodeIndex) else
      menu_loop menu (Index + 1) (if decide (e.(Operation) = EnumSpiOperationWriteStatus) then Index else UnlockCmdOpcodeIndex)
  end.

(** The hooks of the two drivers; [Smm] is the driver for SMM. *)
Definition SpiPhaseInit (Smm : bool) : M (spi D) unit :=
  _ ← (if Smm then mret tt else on_bridge (MmioAnd8 (u32 (LPC_BASE + R_QNC_LPC_BIOS_CNTL)) (Z.ldiff 0xFF B_QNC_LPC_BIOS_CNTL_SMM_BWP)));
  for_each [R_QNC_RCRB_SPIS; R_QNC_RCRB_SPIPREOP; R_QNC_RCRB_SPIOPMENU; R_QNC_RCRB_SPIOPMENU + 4] (fun R =>
    A ← Reg R; on_bridge (S3BootScriptSaveMemWrite 32 A)).

(** The status of the assertion that follows an access that is denied is an error: it stops. *)
Definition SpiProtocolInit (Smm : bool) (InitTable : option SPI_INIT_TABLE) : M (spi D) EFI_STATUS :=
  match InitTable with
  | None => mret EFI_INVALID_PARAMETER
  | Some table =>
      _ ← update_instance (set_table table);
      Spis ← Reg R_QNC_RCRB_SPIS;
      v ← on_bridge (MmioRead16 Spis);
      if negb (Z.land v B_QNC_RCRB_SPIS_SCL =? 0) then _ ← ASSERT (negb (EFI_ERROR EFI_ACCESS_DENIED)); mret EFI_ACCESS_DENIED else
      _ ← on_bridge (MmioOr16 Spis (Z.lor B_QNC_RCRB_SPIS_CDS B_QNC_RCRB_SPIS_BAS));
      _ ← on_bridge (MmioRead16 Spis);
      p0 ← lift (table.(PrefixOpcode) !! 0%nat);
      p1 ← lift (table.(PrefixOpcode) !! 1%nat);
      Preop ← Reg R_QNC_RCRB_SPIPREOP;
      _ ← on_bridge (MmioWrite16 Preop (u16 (Z.lor (Z.shiftl p1 8) p0)));
      _ ← on_bridge (MmioRead16 Preop);
      Optype ← Reg R_QNC_RCRB_SPIOPTYPE;
      _ ← on_bridge (MmioWrite16 Optype (opcode_types table.(OpcodeMenu) 0 0));
      _ ← on_bridge (MmioRead16 Optype);
      '(Status, UnlockCmdOpcodeIndex) ← menu_loop table.(OpcodeMenu) 0 SPI_NUM_OPCODE;
      if EFI_ERROR Status then mret Status else
      _ ← UnlockFlashComponents UnlockCmdOpcodeIndex;
      _ ← SpiPhaseInit Smm;
      _ ← FillOutPublicInfoStruct;
      _ ← update_instance (set_InitDone true);
      mret EFI_SUCCESS
  end.

Definition SpiProtocolLock : M (spi D) EFI_STATUS :=
  Spis ← Reg R_QNC_RCRB_SPIS;
  v ← on_bridge (MmioRead16 Spis);
  if negb (Z.land v B_QNC_RCRB_SPIS_SCL =? 0) then mret EFI_ACCESS_DENIED else
  _ ← on_bridge (MmioOr16 Spis B_QNC_RCRB_SPIS_SCL);
  v ← on_bridge (MmioRead16 Spis);
  if Z.land v B_QNC_RCRB_SPIS_SCL =? 0 then mret EFI_DEVICE_ERROR else
  _ ← on_bridge (S3BootScriptSaveMemWrite 16 Spis);
  mret EFI_SUCCESS.

(** The arguments are pointers that may be NULL. The second result is what is stored, if anything: a pointer to the information
    of the instance, or NULL. *)
Definition SpiProtocolInfo (This InitInfoPtr : bool) : M (spi D) (EFI_STATUS * option (option SPI_INIT_INFO)) :=
  if negb This || negb InitInfoPtr then mret (EFI_INVALID_PARAMETER, None) else
  i ← gets Instance;
  if negb (i.(Signature) =? PCH_SPI_PRIVATE_DATA_SIGNATURE) then mret (EFI_INVALID_PARAMETER, None) else
  if negb i.(InitDone) then mret (EFI_NOT_READY, Some None) else mret (EFI_SUCCESS, Some (Some i.(InitInfo))).

(** ** The search for the flash part *)

(** The entry of the table that fits the part; [EFI_UNSUPPORTED] is asserted against. *)
Fixpoint find_part (tables : list SPI_INIT_TABLE) (Smm : bool) : M (spi D) SPI_INIT_TABLE :=
  match tables with
  | [] => stop
  | t :: tables =>
      Status ← SpiProtocolInit Smm (Some t);
      if EFI_ERROR Status then find_part tables Smm else
      '(Status, FlashID) ← SpiProtocolExecute 0 0 true false false 0 3 [0; 0; 0] EnumSpiRegionAll;
      if EFI_ERROR Status then find_part tables Smm else
      if ((FlashID !!! 0%nat =? t.(VendorId)) && (FlashID !!! 2%nat =? t.(DeviceId1))) ||
         ((FlashID !!! 0%nat =? 0x1F) && (FlashID !!! 0%nat =? t.(VendorId)) && (FlashID !!! 1%nat =? t.(DeviceId0)))
      then mret t else find_part tables Smm
  end.

Definition SmmSpiInit (tables : list SPI_INIT_TABLE) : M (spi D) EFI_STATUS :=
  _ ← find_part tables true;
  '(Status, _) ← SpiProtocolExecute 2 1 true true true 0 1 [0] EnumSpiRegionAll;
  mret Status.
End Driver.

(** ** The table of flash parts *)

(** [PcdFlashAreaSize]. *)
Definition FLASH_SIZE : Z := 0x800000.

Definition part_menu (f : SPI_CYCLE_FREQUENCY) (read : SPI_CYCLE_FREQUENCY) (erase : Z) (EraseOperation : SPI_OPERATION) : list SPI_OPCODE_MENU_ENTRY :=
  [ Build_SPI_OPCODE_MENU_ENTRY EnumSpiOpcodeReadNoAddr 0x9F f EnumSpiOperationJedecId;
    Build_SPI_OPCODE_MENU_ENTRY EnumSpiOpcodeRead 0xAB f EnumSpiOperationOther;
    Build_SPI_OPCODE_MENU_ENTRY EnumSpiOpcodeWriteNoAddr 0x01 f EnumSpiOperationWriteStatus;
    Build_SPI_OPCODE_MENU_ENTRY EnumSpiOpcodeWrite 0x02 f EnumSpiOperationProgramData_1_Byte;
    Build_SPI_OPCODE_MENU_ENTRY EnumSpiOpcodeRead 0x03 read EnumSpiOperationReadData;
    Build_SPI_OPCODE_MENU_ENTRY EnumSpiOpcodeWrite erase f EraseOperation;
    Build_SPI_OPCODE_MENU_ENTRY EnumSpiOpcodeReadNoAddr 0x05 f EnumSpiOperationReadStatus;
    Build_SPI_OPCODE_MENU_ENTRY EnumSpiOpcodeWriteNoAddr 0xC7 f EnumSpiOperationFullChipErase ].
Abbreviation menu_4K f := (part_menu f f 0x20 EnumSpiOperationErase_4K_Byte).
Abbreviation menu_64K f read := (part_menu f read 0xD8 EnumSpiOperationErase_64K_Byte).

Definition mSpiInitTable : list SPI_INIT_TABLE :=
  [ Build_SPI_INIT_TABLE 0xC2 0x20 0x16 [0x06; 0x50] (menu_64K EnumSpiCycle33MHz EnumSpiCycle20MHz) (u32 (0x400000 - FLASH_SIZE)) FLASH_SIZE;
    Build_SPI_INIT_TABLE 0xEF 0x40 0x16 [0x06; 0x50] (menu_4K EnumSpiCycle50MHz) (u32 (0x400000 - FLASH_SIZE)) FLASH_SIZE;
    Build_SPI_INIT_TABLE 0xEF 0x30 0x16 [0x06; 0x50] (menu_4K EnumSpiCycle33MHz) (u32 (0x400000 - FLASH_SIZE)) FLASH_SIZE;
    Build_SPI_INIT_TABLE 0x1F 0x47 0x00 [0x06; 0x50] (menu_64K EnumSpiCycle33MHz EnumSpiCycle33MHz) (u32 (0x400000 - FLASH_SIZE)) FLASH_SIZE;
    Build_SPI_INIT_TABLE 0x89 0x89 0x12 [0x06; 0x06] (menu_64K EnumSpiCycle33MHz EnumSpiCycle33MHz) 0 FLASH_SIZE;
    Build_SPI_INIT_TABLE 0xBF 0x25 0x4B [0x06; 0x50] (menu_4K EnumSpiCycle50MHz) (u32 (0x800000 - FLASH_SIZE)) FLASH_SIZE;
    Build_SPI_INIT_TABLE 0x20 0x71 0x17 [0x06; 0x50] (menu_4K EnumSpiCycle50MHz) (u32 (0x800000 - FLASH_SIZE)) FLASH_SIZE;
    Build_SPI_INIT_TABLE 0x1F 0x48 0x00 [0x06; 0x50] (menu_4K EnumSpiCycle50MHz) (u32 (0x800000 - FLASH_SIZE)) FLASH_SIZE;
    Build_SPI_INIT_TABLE 0xEF 0x40 0x00 [0x06; 0x50] (menu_4K EnumSpiCycle50MHz) (u32 (0x800000 - FLASH_SIZE)) FLASH_SIZE;
    Build_SPI_INIT_TABLE 0xC2 0x20 0x17 [0x06; 0x50] (menu_64K EnumSpiCycle50MHz EnumSpiCycle50MHz) (u32 (0x800000 - FLASH_SIZE)) FLASH_SIZE;
    Build_SPI_INIT_TABLE 0xEF 0x40 0x17 [0x06; 0x50] (menu_4K EnumSpiCycle50MHz) (u32 (0x800000 - FLASH_SIZE)) FLASH_SIZE;
    Build_SPI_INIT_TABLE 0xEF 0x30 0x17 [0x06; 0x50] (menu_4K EnumSpiCycle50MHz) (u32 (0x800000 - FLASH_SIZE)) FLASH_SIZE;
    Build_SPI_INIT_TABLE 0x89 0x89 0x13 [0x06; 0x50] (menu_64K EnumSpiCycle33MHz EnumSpiCycle33MHz) (u32 (0x800000 - FLASH_SIZE)) FLASH_SIZE ].
