(* ===== verification/SpiSpec.v ===== *)
(** * The SPI host controller driver: the controller and the flash part

    What the driver relies on: the registers of the controller, the cycle that a write of the control register starts, and
    what the commands of the flash part do. While a cycle is in progress each byte of the flash is the old or the new one;
    the cycle ends in the time that the driver waits, and the status tells whether it was blocked. *)

From S2P Require Import Prelude QNCAccess FvbDefs FvbSpec SpiDefs.
From stdpp Require Import list.
#[local] Open Scope Z_scope.

(** ** Registers *)

(** [cntl] has the four bits of BIOS_CNTL that the driver uses. *)
Record ctl := { scl : bool; preop : Z; optype : Z; opmenu : nat -> Z; spia : Z; spid : nat -> Z; cntl : Z }.

Definition set_scl (v : bool) (k : ctl) : ctl :=
  {| scl := k.(scl) || v; preop := k.(preop); optype := k.(optype); opmenu := k.(opmenu); spia := k.(spia); spid := k.(spid); cntl := k.(cntl) |}.
Definition set_spia (v : Z) (k : ctl) : ctl :=
  {| scl := k.(scl); preop := k.(preop); optype := k.(optype); opmenu := k.(opmenu); spia := v; spid := k.(spid); cntl := k.(cntl) |}.
Definition set_spid (f : nat -> Z) (k : ctl) : ctl :=
  {| scl := k.(scl); preop := k.(preop); optype := k.(optype); opmenu := k.(opmenu); spia := k.(spia); spid := f; cntl := k.(cntl) |}.
Definition set_cntl (v : Z) (k : ctl) : ctl :=
  {| scl := k.(scl); preop := k.(preop); optype := k.(optype); opmenu := k.(opmenu); spia := k.(spia); spid := k.(spid); cntl := v |}.

(** The configuration, which the lock protects. *)
Definition set_preop (v : Z) (k : ctl) : ctl := if k.(scl) then k else
  {| scl := false; preop := v; optype := k.(optype); opmenu := k.(opmenu); spia := k.(spia); spid := k.(spid); cntl := k.(cntl) |}.
Definition set_optype (v : Z) (k : ctl) : ctl := if k.(scl) then k else
  {| scl := false; preop := k.(preop); optype := v; opmenu := k.(opmenu); spia := k.(spia); spid := k.(spid); cntl := k.(cntl) |}.
Definition put (i : nat) (v : Z) (f : nat -> Z) : nat -> Z := fun j => if decide (j = i) then v else f j.
Definition set_opmenu (i : nat) (v : Z) (k : ctl) : ctl := if k.(scl) then k else
  {| scl := false; preop := k.(preop); optype := k.(optype); opmenu := put i v k.(opmenu); spia := k.(spia); spid := k.(spid); cntl := k.(cntl) |}.

(** ** Commands *)

Record command := { cmd_prefix : option Z; cmd_opcode : Z; cmd_type : Z; cmd_address : Z; cmd_count : option Z }.

Definition command_of (c : Z) (k : ctl) : command :=
  let Index := Z.land (Z.shiftr c 4) 7 in
  {| cmd_prefix := if Z.testbit c 2 then Some (Z.land (Z.shiftr k.(preop) (8 * Z.land (Z.shiftr c 3) 1)) 0xFF) else None;
     cmd_opcode := k.(opmenu) (Z.to_nat Index);
     cmd_type := Z.land (Z.shiftr k.(optype) (2 * Index)) 3;
     cmd_address := k.(spia);
     cmd_count := if Z.testbit c 14 then Some (Z.land (Z.shiftr c 8) 0x3F + 1) else None |}.

(** What the flash part has when a cycle is done: the contents, whether blocks are protected, and what the data registers
    hold when the cycle shifts data in. *)
Record target := { t_flash : lin; t_prot : bool; t_data : option (list Z) }.

Definition same_target (t t' : target) : Prop := lsame t.(t_flash) t'.(t_flash) /\ t.(t_prot) = t'.(t_prot) /\ t.(t_data) = t'.(t_data).

Definition data_bytes (n : Z) (f : nat -> Z) : list Z := map f (seq 0 (Z.to_nat n)).

(** Writes are enabled, and not for SMM only. *)
Definition writable (k : ctl) : bool := negb (Z.land k.(cntl) 1 =? 0) && negb (Z.land k.(cntl) 32 =? 0).

(** The commands of the flash part that are known: page program, erase of a sector, identification, and the write of a
    status of zero (with the prefix 0x50, which not every part has, only when there is nothing to change). *)
Definition part_command (chip_size : Z) (jedec_id : list Z) (k : ctl) (x : lin) (prot : bool) (c : command) : option target :=
  match c.(cmd_type), c.(cmd_opcode), c.(cmd_prefix), c.(cmd_count) with
  | 3, 0x02, Some 0x06, Some n =>
      if writable k && negb prot && (c.(cmd_address) / 256 =? (c.(cmd_address) + n - 1) / 256) && (c.(cmd_address) + n <=? chip_size)
      then Some {| t_flash := write_lin c.(cmd_address) (data_bytes n k.(spid)) x; t_prot := false; t_data := None |} else None
  | 3, 0x20, Some 0x06, None =>
      if writable k && negb prot && (c.(cmd_address) mod SPI_ERASE_SECTOR_SIZE =? 0) && (c.(cmd_address) + SPI_ERASE_SECTOR_SIZE <=? chip_size)
      then Some {| t_flash := erase_lin c.(cmd_address) SPI_ERASE_SECTOR_SIZE x; t_prot := false; t_data := None |} else None
  | 0, 0x9F, _, Some 3 => Some {| t_flash := x; t_prot := prot; t_data := Some jedec_id |}
  | 1, 0x01, Some 0x06, Some 1 =>
      if writable k && (k.(spid) 0%nat =? 0) then Some {| t_flash := x; t_prot := false; t_data := None |} else None
  | 1, 0x01, Some 0x50, Some 1 =>
      if writable k && (k.(spid) 0%nat =? 0) && negb prot then Some {| t_flash := x; t_prot := false; t_data := None |} else None
  | _, _, _, _ => None
  end.

(** ** Laws *)

(** What there is to see of the hardware: its registers, the contents of the part and those that a loss of power may have
    left so far, the protection of its blocks, the cycle in progress, and how long it takes at most. *)
Class SpiView (D : Type) := {
  rcrb : Z;
  chip_size : Z;
  jedec_id : list Z;
  regs_of : D -> ctl;
  chip : D -> lin;
  cseen : D -> lin -> Prop;
  prot : D -> bool;
  pending : D -> option target;
  time_left : D -> Z
}.

Section Steps.
Context {D : Type} {V : SpiView D}.

(** A cycle towards [t] went on. *)
Definition progress (t : target) (d d' : D) : Prop :=
  ltorn (chip d) t.(t_flash) (chip d') /\ (forall x, cseen d' x -> cseen d x \/ ltorn (chip d) t.(t_flash) x) /\
  (prot d' = prot d \/ prot d' = t.(t_prot)).

(** An access changes registers by [f], and the cycle in progress may go on. *)
Definition step (f : ctl -> ctl) (d d' : D) : Prop :=
  regs_of d' = f (regs_of d) /\
  match pending d with
  | None => pending d' = None /\ prot d' = prot d /\ lquiet chip cseen d d'
  | Some t => pending d' = Some t /\ time_left d' <= time_left d /\ progress t d d'
  end.
End Steps.

Class SpiLaws (D : Type) {B : SpiBus D} {V : SpiView D} := {
  rcrb_range : 0 < rcrb /\ rcrb + 0x4000 <= 2 ^ 32;
  chip_range : 0 <= chip_size <= 2 ^ 24;
  jedec_three : length jedec_id = 3%nat;
  cseen_now : forall d, cseen d (chip d);
  cseen_same : forall d x y, lsame x y -> cseen d x -> cseen d y;
  chip_byte : forall d a, in_width 8 (chip d a);
  cntl_bits : forall d, Z.land (regs_of d).(cntl) CNTL_BITS = (regs_of d).(cntl);

  opmenu_read : forall i d, (i < 8)%nat ->
    wp (MmioRead8 (rcrb + R_QNC_RCRB_SPIOPMENU + Z.of_nat i)) (fun v d' => v = (regs_of d).(opmenu) i /\ step id d d') d;
  spid_read : forall i d, (i < 64)%nat ->
    wp (MmioRead8 (rcrb + R_QNC_RCRB_SPID0 + Z.of_nat i)) (fun v d' => v = (regs_of d).(spid) i /\ step id d d') d;
  read16_law : forall R d, R ∈ [R_QNC_RCRB_SPIC; R_QNC_RCRB_SPIPREOP; R_QNC_RCRB_SPIOPTYPE] ->
    wp (MmioRead16 (rcrb + R)) (fun _ d' => step id d d') d;
  spia_read : forall d, wp (MmioRead32 (rcrb + R_QNC_RCRB_SPIA)) (fun _ d' => step id d d') d;
  opmenu_write : forall i v d, (i < 8)%nat ->
    wp (MmioWrite8 (rcrb + R_QNC_RCRB_SPIOPMENU + Z.of_nat i) v) (fun _ d' => step (set_opmenu i (u8 v)) d d') d;
  spid_write : forall i v d, (i < 64)%nat ->
    wp (MmioWrite8 (rcrb + R_QNC_RCRB_SPID0 + Z.of_nat i) v) (fun _ d' => step (fun k => set_spid (put i (u8 v) k.(spid)) k) d d') d;
  preop_write : forall v d, wp (MmioWrite16 (rcrb + R_QNC_RCRB_SPIPREOP) v) (fun _ d' => step (set_preop (u16 v)) d d') d;
  optype_write : forall v d, wp (MmioWrite16 (rcrb + R_QNC_RCRB_SPIOPTYPE) v) (fun _ d' => step (set_optype (u16 v)) d d') d;
  spia_write : forall v d, wp (MmioWrite32 (rcrb + R_QNC_RCRB_SPIA) v) (fun _ d' => step (set_spia (u32 v)) d d') d;
  spis_write : forall v d, wp (MmioWrite16 (rcrb + R_QNC_RCRB_SPIS) v) (fun _ d' => step (set_scl (Z.testbit v 15)) d d') d;
  spis_or : forall v d, wp (MmioOr16 (rcrb + R_QNC_RCRB_SPIS) v) (fun _ d' => step (set_scl (Z.testbit v 15)) d d') d;
  cntl_read : forall d, wp (PciRead16 R_QNC_LPC_BIOS_CNTL) (fun v d' => Z.land v CNTL_BITS = (regs_of d).(cntl) /\ step id d d') d;
  cntl_or : forall v d, wp (PciOr16 R_QNC_LPC_BIOS_CNTL v) (fun _ d' => step (fun k => set_cntl (Z.lor k.(cntl) (Z.land v CNTL_BITS)) k) d d') d;
  cntl_and_or : forall a o d, wp (PciAndThenOr16 R_QNC_LPC_BIOS_CNTL a o)
    (fun _ d' => step (fun k => set_cntl (Z.lor (Z.land k.(cntl) a) (Z.land o CNTL_BITS)) k) d d') d;
  cntl_and8 : forall a d, wp (MmioAnd8 (u32 (LPC_BASE + R_QNC_LPC_BIOS_CNTL)) a)
    (fun _ d' => step (fun k => set_cntl (Z.land k.(cntl) (Z.lor 0xFF00 a)) k) d d') d;
  delay_law : forall t d, 0 <= t -> wp (MicroSecondDelay t) (fun _ d' => step id d d' /\ (pending d <> None -> time_left d' <= time_left d - t)) d;
  copy_law : forall A n d, wp (CopyMem A n) (fun b d' => length b = Z.to_nat n /\ step id d d') d;
  script_law : forall w A d, wp (S3BootScriptSaveMemWrite w A) (fun _ d' => step id d d') d;

  (** The status register: reading it finds out that a cycle is done. *)
  spis_read : forall d, wp (MmioRead16 (rcrb + R_QNC_RCRB_SPIS)) (fun v d' =>
    in_width 16 v /\ Z.testbit v 15 = (regs_of d).(scl) /\ (exists f, regs_of d' = set_spid f (regs_of d)) /\
    match pending d with
    | None => Z.testbit v 0 = false /\ step id d d'
    | Some t => progress t d d' /\
        if Z.testbit v 0 then pending d' = Some t /\ 0 < time_left d /\ time_left d' <= time_left d
        else pending d' = None /\ (Z.testbit v 3 = false -> lsame (chip d') t.(t_flash) /\ prot d' = t.(t_prot) /\
               forall l, t.(t_data) = Some l -> data_bytes (Z.of_nat (length l)) (regs_of d').(spid) = l)
    end) d;

  (** The control register: a command that is known starts its cycle. *)
  spic_write : forall c d, wp (MmioWrite16 (rcrb + R_QNC_RCRB_SPIC) c) (fun _ d' =>
    regs_of d' = regs_of d /\
    (pending d = None -> Z.testbit c 1 = true -> forall t,
       part_command chip_size jedec_id (regs_of d) (chip d) (prot d) (command_of c (regs_of d)) = Some t ->
       exists t', same_target t' t /\ pending d' = Some t' /\ time_left d' <= WAIT_TIME - WAIT_PERIOD /\ progress t' d d')) d
}.
