(* ===== verification/SpiSend.v ===== *)
(** * The SPI host controller driver: cycles and commands

    What the wait and one round of the loop of [SendSpiCmd] do, for any command, and what they do to the flash for a command
    that is known; the words that start cycles, the lengths of cycles, and the whole loop for a command that programs bytes. *)

From S2P Require Import Prelude QNCAccess FvbDefs FvbSpec SpiDefs SpiSpec.
From stdpp Require Import list.
#[local] Open Scope Z_scope.

(** ** Contents of the flash *)

Lemma ltorn_trans x y z w : ltorn x y z -> ltorn z y w -> ltorn x y w.
Proof. intros H1 H2 a. destruct (H2 a) as [->| ->]; [apply H1|by right]. Qed.

Lemma ltorn_refl x y : ltorn x y x.
Proof. intros a. by left. Qed.

Section Steps.
Context {D : Type} {V : SpiView D}.
Implicit Types (d : D) (t : target).

Lemma progress_same t t' d d' : same_target t t' -> progress t d d' -> progress t' d d'.
Proof.
  intros (S1 & S2 & _) (P1 & P2 & P3). split; [intros a; rewrite <- S1; apply P1|]. split; [|by rewrite <- S2].
  intros x Hx. destruct (P2 x Hx) as [|Hx']; [by left|right]. intros a. rewrite <- S1. apply Hx'.
Qed.

Lemma progress_refl t d : progress t d d.
Proof. split; [apply ltorn_refl|]. split; [auto|by left]. Qed.

Lemma progress_trans t d d1 d2 : progress t d d1 -> progress t d1 d2 -> progress t d d2.
Proof.
  intros (H1 & H2 & H3) (K1 & K2 & K3). split; [by eapply ltorn_trans|]. split.
  - intros x Hx. destruct (K2 x Hx) as [Hx'|Hx']; [auto|]. right. by eapply ltorn_trans.
  - destruct K3 as [->| ->]; [done|by right].
Qed.

Lemma step_compose f g h d d1 d2 : step f d d1 -> step g d1 d2 -> h (regs_of d) = g (f (regs_of d)) -> step h d d2.
Proof.
  intros [H1 H2] [K1 K2] Hh. split; [by rewrite K1, H1|]. destruct (pending d) as [t|].
  - destruct H2 as (E & Hl & Hp). rewrite E in K2. destruct K2 as (E' & Hl' & Hp'). split; [done|]. split; [lia|].
    by eapply progress_trans.
  - destruct H2 as (E & Hl & Hs & Hq). rewrite E in K2. destruct K2 as (E' & Hl' & Hs' & Hq'). split; [done|]. split; [congruence|].
    split; [intros a; by rewrite Hs', Hs|auto].
Qed.

Lemma step_then f g d d1 d2 : step f d d1 -> step g d1 d2 -> step (fun k => g (f k)) d d2.
Proof. intros H1 H2. by eapply step_compose. Qed.

Lemma step_eq f h d d' : h (regs_of d) = f (regs_of d) -> step f d d' -> step h d d'.
Proof. unfold step. by intros ->. Qed.

Lemma step_refl d : step id d d.
Proof.
  split; [done|]. destruct (pending d); [split; [done|]; split; [lia|apply progress_refl]|].
  split; [done|]. split; [done|]. split; [done|auto].
Qed.

(** Between cycles. *)
Lemma step_idle f d d' : pending d = None -> step f d d' ->
  regs_of d' = f (regs_of d) /\ pending d' = None /\ prot d' = prot d /\ lquiet chip cseen d d'.
Proof. intros Hi [H1 H2]. by rewrite Hi in H2. Qed.
End Steps.

(** ** Registers *)

Lemma set_scl_false k : set_scl false k = k.
Proof. destruct k. unfold set_scl. cbn. by rewrite orb_false_r. Qed.

(** All but the data registers are the same. *)
Definition same_conf (k k' : ctl) : Prop := exists f, k' = set_spid f k.
Lemma same_conf_refl k : same_conf k k.
Proof. exists k.(spid). by destruct k. Qed.
Lemma same_conf_trans k k1 k2 : same_conf k k1 -> same_conf k1 k2 -> same_conf k k2.
Proof. intros [f ->] [g ->]. by exists g. Qed.

(** ** The state of the driver *)

Section Rules.
Context {MB : MessageBus} {D : Type} {B : SpiBus D} {V : SpiView D} {LB : SpiLaws D}.
Implicit Types (s : spi D) (d : D) (t : target).

(** The driver has the registers of the controller. *)
Definition at_rcrb s : Prop := s.(Instance).(PchRootComplexBar) = rcrb.
Definition idle s : Prop := pending s.(bridge) = None.
Definition framed s s' : Prop := s'.(Instance) = s.(Instance) /\ s'.(sb) = s.(sb).

Lemma framed_refl s : framed s s.
Proof. done. Qed.
Lemma framed_trans s s1 s2 : framed s s1 -> framed s1 s2 -> framed s s2.
Proof. unfold framed. intros [-> ->] [-> ->]. done. Qed.

Lemma wp_on_bridge {A} (m : M D A) (Q : A -> spi D -> Prop) s :
  wp m (fun a d => Q a {| Instance := s.(Instance); sb := s.(sb); bridge := d |}) s.(bridge) -> wp (on_bridge m) Q s.
Proof. intros (a & d & Hm & HQ). eexists a, _. split; [|exact HQ]. unfold on_bridge. by rewrite Hm. Qed.

Lemma wp_on_sb {A} (m : M msgbus A) (Q : A -> spi D -> Prop) s :
  wp m (fun a b => Q a {| Instance := s.(Instance); sb := b; bridge := s.(bridge) |}) s.(sb) -> wp (on_sb m) Q s.
Proof. intros (a & b & Hm & HQ). eexists a, _. split; [|exact HQ]. unfold on_sb. by rewrite Hm. Qed.

(** The addresses of registers do not wrap. *)
Lemma wp_Reg R (Q : Z -> spi D -> Prop) s : at_rcrb s -> 0 <= R < 0x4000 -> Q (rcrb + R) s -> wp (Reg R) Q s.
Proof.
  intros Hs HR HQ. apply wp_gets. rewrite Hs. pose proof rcrb_range. by rewrite wrap_small by lia.
Qed.

(** ** The wait *)

(** What a read of the status finds: nothing in progress, a cycle that is done, or one that goes on. *)
Lemma wait_idle fuel ErrorCheck (Q : bool -> spi D -> Prop) s :
  idle s -> (0 < fuel)%nat ->
  (forall ok s', framed s s' -> step id s.(bridge) s'.(bridge) -> (ErrorCheck = false -> ok = true) -> Q ok s') ->
  wp (wait_cycle fuel (rcrb + R_QNC_RCRB_SPIS) ErrorCheck) Q s.
Proof.
  intros Hi Hf HQ. destruct fuel as [|fuel]; [lia|]. cbn [wait_cycle]. apply wp_bind, wp_on_bridge.
  eapply wp_mono; [apply spis_read|]. intros v d1 (Hv & _ & _ & H1). unfold idle in Hi. rewrite Hi in H1. destruct H1 as [H0 H1].
  change B_QNC_RCRB_SPIS_SCIP with (2 ^ 0). pose proof (flag_test v 0 ltac:(lia)) as Hf0. rewrite H0 in Hf0.
  rewrite (proj1 (negb_false_iff _) Hf0). apply wp_bind, wp_on_bridge.
  eapply wp_mono; [apply spis_write|]. intros [] d2 H2. apply wp_ret, HQ; [done| |].
  - cbn [bridge] in *. eapply step_compose; [exact H1|exact H2|]. symmetry. apply set_scl_false.
  - intros ->. by rewrite andb_false_r.
Qed.

(** Whatever is in progress, the wait returns and only data registers change. *)
Lemma wait_any fuel ErrorCheck (Q : bool -> spi D -> Prop) s :
  (forall ok s', framed s s' -> same_conf (regs_of s.(bridge)) (regs_of s'.(bridge)) -> Q ok s') ->
  wp (wait_cycle fuel (rcrb + R_QNC_RCRB_SPIS) ErrorCheck) Q s.
Proof.
  revert s. induction fuel as [|fuel IH]; intros s HQ; cbn [wait_cycle].
  { apply wp_ret, HQ; [done|]. apply same_conf_refl. }
  apply wp_bind, wp_on_bridge. eapply wp_mono; [apply spis_read|]. intros v d1 (_ & _ & H1 & _). destruct (_ =? 0).
  - apply wp_bind, wp_on_bridge. eapply wp_mono; [apply spis_write|]. intros [] d2 [H2 _]. apply wp_ret, HQ; [done|].
    cbn [bridge] in *. rewrite set_scl_false in H2. by rewrite H2.
  - apply wp_bind, wp_on_bridge. eapply wp_mono; [by apply delay_law|]. intros [] d2 [[H2 _] _]. apply IH. intros ok s' Hf Hc.
    apply HQ; [exact Hf|]. cbn [bridge] in *. rewrite H2 in Hc. by eapply same_conf_trans.
Qed.

(** The cycle is done when [t] is there. *)
Definition reached t (d : D) : Prop :=
  lsame (chip d) t.(t_flash) /\ prot d = t.(t_prot) /\
  forall l, t.(t_data) = Some l -> data_bytes (Z.of_nat (length l)) (regs_of d).(spid) = l.

Lemma reached_same t t' d : same_target t t' -> reached t d -> reached t' d.
Proof. intros (S1 & S2 & S3) (H1 & H2 & H3). split; [intros a; by rewrite H1, S1|]. split; [congruence|]. by rewrite <- S3. Qed.

Lemma reached_step t d d' : pending d = None -> reached t d -> step id d d' -> reached t d'.
Proof.
  intros Hi (H1 & H2 & H3) Hs. apply step_idle in Hs as (K1 & K2 & K3 & [K4 K5]); [|done].
  split; [intros a; by rewrite K4|]. split; [congruence|]. by rewrite K1.
Qed.

(** No cycle is blocked. *)
Definition unblocked : Prop := forall d, wp (MmioRead16 (rcrb + R_QNC_RCRB_SPIS)) (fun v _ => Z.testbit v 3 = false) d.

Lemma spis_read_unblocked d (Q : Z -> D -> Prop) :
  wp (MmioRead16 (rcrb + R_QNC_RCRB_SPIS)) Q d ->
  wp (MmioRead16 (rcrb + R_QNC_RCRB_SPIS)) (fun v d' => Q v d' /\ (unblocked -> Z.testbit v 3 = false)) d.
Proof.
  intros (v & d' & Hm & HQ). exists v, d'. split; [done|]. split; [done|]. intros Hu.
  exact (wp_run _ _ _ _ _ (Hu d) Hm).
Qed.

(** A wait that is long enough ends with the cycle. *)
Lemma wait_done fuel t (Q : bool -> spi D -> Prop) s :
  pending s.(bridge) = Some t -> (0 < fuel)%nat -> time_left s.(bridge) <= (Z.of_nat fuel - 1) * WAIT_PERIOD ->
  (forall ok s', framed s s' -> idle s' -> progress t s.(bridge) s'.(bridge) -> same_conf (regs_of s.(bridge)) (regs_of s'.(bridge)) ->
     (ok = true -> reached t s'.(bridge)) -> (unblocked -> ok = true) -> Q ok s') ->
  wp (wait_cycle fuel (rcrb + R_QNC_RCRB_SPIS) true) Q s.
Proof.
  revert s. induction fuel as [|fuel IH]; intros s Hp Hf Ht HQ; [lia|]. cbn [wait_cycle].
  apply wp_bind, wp_on_bridge. eapply wp_mono; [apply spis_read_unblocked, spis_read|]. intros v d1 [(Hv & _ & Hc & H1) Hub]. rewrite Hp in H1. destruct H1 as [Hp1 H1].
  change B_QNC_RCRB_SPIS_SCIP with (2 ^ 0). pose proof (flag_test v 0 ltac:(lia)) as Hf0.
  destruct (Z.testbit v 0); [apply negb_true_iff in Hf0|apply negb_false_iff in Hf0]; rewrite Hf0.
  - destruct H1 as (E & H0 & Hl). apply wp_bind, wp_on_bridge. eapply wp_mono; [by apply delay_law|]. intros [] d2 [H2 Hl2].
    cbn [bridge] in *. destruct H2 as [Hr2 H2]. rewrite E in H2, Hl2. destruct H2 as (E2 & _ & Hp2). specialize (Hl2 ltac:(done)).
    assert (0 < fuel)%nat. { destruct fuel; [|lia]. unfold WAIT_PERIOD in *. lia. }
    apply IH; [done|done|unfold WAIT_PERIOD in *; cbn [bridge]; lia|]. intros ok s' Hfr Hi Hp' Hc' Hok Hu. cbn [bridge] in *.
    apply HQ; [exact Hfr|done| | |done|done].
    + eapply progress_trans; [exact Hp1|]. by eapply progress_trans.
    + rewrite Hr2 in Hc'. by eapply same_conf_trans.
  - destruct H1 as (E & H1). change B_QNC_RCRB_SPIS_BAS with (2 ^ 3). rewrite (flag_test v 3) by lia.
    apply wp_bind, wp_on_bridge. eapply wp_mono; [apply spis_write|]. intros [] d2 H2. cbn [bridge] in *.
    assert (Hs : step id d1 d2). { eapply step_compose; [apply step_refl|exact H2|]. symmetry. apply set_scl_false. }
    pose proof (step_idle _ _ _ E Hs) as (K1 & K2 & K3 & [K4 K5]). apply wp_ret, HQ; [done|done| | | |].
    + cbn [bridge]. destruct Hp1 as (P1 & P2 & P3). split; [intros a; rewrite K4; apply P1|]. split; [auto|]. by rewrite K3.
    + cbn [bridge]. by rewrite K1.
    + cbn [bridge]. intros Hok. rewrite andb_true_r in Hok. apply negb_true_iff in Hok. apply (reached_step t d1); [done|by apply H1|done].
    + intros Hu. by rewrite (Hub Hu).
Qed.

(** ** One round *)

Lemma wp_WaitForSpiCycleComplete ErrorCheck (Q : bool -> spi D -> Prop) s :
  at_rcrb s -> wp (wait_cycle (Z.to_nat (WAIT_TIME / WAIT_PERIOD)) (rcrb + R_QNC_RCRB_SPIS) ErrorCheck) Q s ->
  wp (WaitForSpiCycleComplete ErrorCheck) Q s.
Proof. intros Hs HQ. apply wp_bind, wp_Reg; [done|by unfold R_QNC_RCRB_SPIS, R_QNC_RCRB_SPIBASE|done]. Qed.

(** The data registers with the first bytes of a buffer. *)
Definition data_loaded (ShiftOut : bool) (n : nat) (Buffer : list Z) (g f : nat -> Z) : Prop :=
  if ShiftOut then forall j, f j = if decide (j < n)%nat then u8 (Buffer !!! j) else g j else f = g.

Lemma load_data_spec n (Buffer : list Z) (Q : unit -> spi D -> Prop) s :
  (n <= length Buffer)%nat -> (n <= 64)%nat ->
  (forall f s', framed s s' -> step (set_spid f) s.(bridge) s'.(bridge) -> data_loaded true n Buffer (regs_of s.(bridge)).(spid) f -> Q tt s') ->
  wp (load_data (rcrb + R_QNC_RCRB_SPID0) n Buffer) Q s.
Proof.
  intros Hl Hn HQ.
  apply (wp_for_each (fun pre s' => framed s s' /\ exists f, step (set_spid f) s.(bridge) s'.(bridge) /\
    data_loaded true (length pre) Buffer (regs_of s.(bridge)).(spid) f)).
  - split; [done|]. exists (regs_of s.(bridge)).(spid). split; [|by intros j; rewrite decide_False by (cbn; lia)].
    split; [by destruct (regs_of s.(bridge))|]. apply (proj2 (step_refl s.(bridge))).
  - intros pre Index post s1 Hseq [Hf (f & Hs & Hv)].
    assert (Index = length pre /\ (Index < n)%nat) as [-> Hlt].
    { pose proof (f_equal length Hseq) as Hlen. rewrite length_seq, length_app in Hlen. cbn in Hlen.
      pose proof (f_equal (fun l => l !!! length pre) Hseq) as E. cbn beta in E.
      rewrite list_lookup_total_middle in E by done. rewrite lookup_total_seq_lt in E by lia. lia. }
    destruct (lookup_lt_is_Some_2 Buffer (length pre)) as [b Hb]; [lia|].
    apply wp_bind. eapply wp_lift; [exact Hb|]. pose proof rcrb_range.
    rewrite wrap_small by (unfold R_QNC_RCRB_SPID0, R_QNC_RCRB_SPIBASE; lia).
    apply wp_bind, wp_on_bridge. eapply wp_mono; [apply spid_write; lia|]. intros [] d1 H1.
    apply wp_bind, wp_on_bridge. eapply wp_mono; [apply spid_read; lia|]. intros v d2 [_ H2]. apply wp_ret. cbn [bridge] in *.
    split; [done|]. exists (put (length pre) (u8 b) f). split.
    + eapply step_eq; [|exact (step_then _ _ _ _ _ (step_then _ _ _ _ _ Hs H1) H2)]. done.
    + intros j. rewrite length_app, Nat.add_1_r. unfold put. destruct (decide (j = length pre)) as [->|].
      * rewrite decide_True by lia. by rewrite (list_lookup_total_correct _ _ _ Hb).
      * rewrite Hv. destruct (decide (j < length pre)%nat); [by rewrite decide_True by lia|by rewrite decide_False by lia].
  - intros s' [Hf (f & Hs & Hv)]. rewrite length_seq in Hv. by eapply HQ.
Qed.

Lemma read_data_spec n Index (Q : list Z -> spi D -> Prop) s :
  (Index + n <= 64)%nat ->
  (forall s', framed s s' -> step id s.(bridge) s'.(bridge) -> Q (map (regs_of s.(bridge)).(spid) (seq Index n)) s') ->
  wp (read_data (rcrb + R_QNC_RCRB_SPID0) Index n) Q s.
Proof.
  revert Index Q s. induction n as [|n IH]; intros Index Q s Hn HQ; cbn [read_data seq map].
  - apply wp_ret, HQ; [done|apply step_refl].
  - pose proof rcrb_range. rewrite wrap_small by (unfold R_QNC_RCRB_SPID0, R_QNC_RCRB_SPIBASE; lia).
    apply wp_bind, wp_on_bridge. eapply wp_mono; [apply spid_read; lia|]. intros v d1 [-> H1].
    apply wp_bind, IH; [lia|]. intros s' Hf H2. cbn [bridge] in *. rewrite (proj1 H1). apply wp_ret, HQ; [done|].
    by eapply step_compose.
Qed.

Lemma wp_Spic (Q : Z -> spi D -> Prop) s : at_rcrb s -> Q (rcrb + R_QNC_RCRB_SPIC) s -> wp (Reg R_QNC_RCRB_SPIC) Q s.
Proof. intros Hs HQ. by apply wp_Reg. Qed.

(** Whatever the cycle does, the second half of a round returns and keeps the configuration. *)
Lemma finish_cycle_any Word ShiftOut n Buffer (Q : option (list Z) -> spi D -> Prop) s :
  at_rcrb s -> (n <= length Buffer)%nat -> (n <= 64)%nat ->
  (forall r s', framed s s' -> same_conf (regs_of s.(bridge)) (regs_of s'.(bridge)) ->
     (forall front, r = Some front -> length front = n) -> Q r s') ->
  wp (finish_cycle Word ShiftOut n Buffer) Q s.
Proof.
  intros Hs Hl Hn HQ. apply wp_bind, wp_Spic; [done|]. apply wp_bind, wp_on_bridge.
  eapply wp_mono; [apply spic_write|]. intros [] d1 [H1 _]. apply wp_bind, wp_on_bridge.
  eapply wp_mono; [apply read16_law; by apply list_elem_of_here|]. intros _ d2 [H2 _].
  apply wp_bind, wp_WaitForSpiCycleComplete; [done|]. apply wait_any. intros ok s3 H3 Hc3. cbn [bridge Instance sb] in *.
  assert (Hc : same_conf (regs_of s.(bridge)) (regs_of s3.(bridge))) by (rewrite H2 in Hc3; unfold id in Hc3; by rewrite H1 in Hc3).
  destruct ok; cbn [negb]; [|by apply wp_ret, HQ]. apply wp_bind, wp_assert; [by apply bool_decide_eq_true|]. destruct ShiftOut.
  - apply wp_ret, HQ; [done|done|]. intros front [= <-]. rewrite length_take. lia.
  - apply wp_bind, wp_Reg; [by unfold at_rcrb; rewrite (proj1 H3)|by unfold R_QNC_RCRB_SPID0, R_QNC_RCRB_SPIBASE|].
    apply wp_bind, read_data_spec; [lia|]. intros s4 H4 [Hs4 _]. apply wp_ret, HQ.
    + by eapply framed_trans.
    + by rewrite Hs4.
    + intros front [= <-]. by rewrite length_map, length_seq.
Qed.

(** A cycle with a known target ends: at the target, or with an error and each byte old or new. *)
Lemma finish_cycle_known Word (ShiftOut : bool) n Buffer t (Q : option (list Z) -> spi D -> Prop) s :
  at_rcrb s -> (n <= length Buffer)%nat -> (n <= 64)%nat -> idle s -> Z.testbit Word 1 = true ->
  part_command chip_size jedec_id (regs_of s.(bridge)) (chip s.(bridge)) (prot s.(bridge)) (command_of Word (regs_of s.(bridge))) = Some t ->
  (forall r s', framed s s' -> same_conf (regs_of s.(bridge)) (regs_of s'.(bridge)) -> idle s' -> progress t s.(bridge) s'.(bridge) ->
     (forall front, r = Some front -> reached t s'.(bridge) /\
        front = if ShiftOut then take n Buffer else data_bytes (Z.of_nat n) (regs_of s'.(bridge)).(spid)) ->
     (unblocked -> is_Some r) -> Q r s') ->
  wp (finish_cycle Word ShiftOut n Buffer) Q s.
Proof.
  intros Hs Hl Hn Hi Hw Ht HQ. apply wp_bind, wp_Spic; [done|]. apply wp_bind, wp_on_bridge.
  eapply wp_mono; [apply spic_write|]. intros [] d1 [H1 Hg]. destruct (Hg Hi Hw t Ht) as (t1 & Htt & E1 & Hl1 & Hp1). apply wp_bind, wp_on_bridge.
  eapply wp_mono; [apply read16_law; by apply list_elem_of_here|]. intros _ d2 [H2 Hc2]. cbn [bridge] in *. rewrite E1 in Hc2.
  destruct Hc2 as (E2 & Hl2 & Hp2).
  apply wp_bind, wp_WaitForSpiCycleComplete; [done|]. apply (wait_done _ t1); [done|by apply Nat2Z.inj_lt; rewrite Z2Nat.id| |].
  { cbn [bridge]. rewrite Z2Nat.id by done. change (WAIT_TIME / WAIT_PERIOD) with 600000. unfold WAIT_TIME, WAIT_PERIOD in *. lia. }
  intros ok s3 H3 Hi3 Hp3 Hc3 Hok Hub. cbn [bridge Instance sb] in *.
  assert (Hc : same_conf (regs_of s.(bridge)) (regs_of s3.(bridge))) by (rewrite H2 in Hc3; unfold id in Hc3; by rewrite H1 in Hc3).
  assert (Hp : progress t s.(bridge) s3.(bridge)).
  { eapply progress_same; [exact Htt|]. eapply progress_trans; [exact Hp1|]. by eapply progress_trans. }
  destruct ok; cbn [negb]; [|by apply wp_ret, HQ; [done..|intros Hu; specialize (Hub Hu)]]. apply (reached_same _ _ _ Htt) in Hok; [|done].
  apply wp_bind, wp_assert; [by apply bool_decide_eq_true|]. destruct ShiftOut.
  - apply wp_ret, HQ; [done..| |eauto]. by intros front [= <-].
  - apply wp_bind, wp_Reg; [by unfold at_rcrb; rewrite (proj1 H3)|by unfold R_QNC_RCRB_SPID0, R_QNC_RCRB_SPIBASE|].
    apply wp_bind, read_data_spec; [lia|]. intros s4 H4 Hs4. pose proof (step_idle _ _ _ Hi3 Hs4) as (K1 & K2 & K3 & [K4 K5]).
    apply wp_ret, HQ; [by eapply framed_trans|by rewrite K1|done| | |eauto].
    + destruct Hp as (P1 & P2 & P3). split; [intros a; rewrite K4; apply P1|]. split; [auto|]. by rewrite K3.
    + intros front [= <-]. split; [exact (reached_step t _ _ Hi3 Hok Hs4)|]. rewrite K1. unfold data_bytes. by rewrite Nat2Z.id.
Qed.

(** The first half: the registers that the cycle is about. *)
Definition loaded (f : nat -> Z) (HardwareSpiAddr : Z) (k : ctl) : ctl :=
  set_spia (Z.land HardwareSpiAddr B_QNC_RCRB_SPIA_MASK) (set_spid f k).

Lemma send_cycle_load OpcodeIndex PrefixOpcodeIndex DataCycle Atomic (ShiftOut : bool) A c Buffer (Q : option (list Z) -> spi D -> Prop) s :
  at_rcrb s -> (Z.to_nat c <= length Buffer)%nat -> (Z.to_nat c <= 64)%nat ->
  (forall f s1, framed s s1 -> step (loaded f A) s.(bridge) s1.(bridge) ->
     data_loaded ShiftOut (Z.to_nat c) Buffer (regs_of s.(bridge)).(spid) f ->
     wp (finish_cycle (cycle_word OpcodeIndex PrefixOpcodeIndex DataCycle Atomic c) ShiftOut (Z.to_nat c) Buffer) Q s1) ->
  wp (send_cycle OpcodeIndex PrefixOpcodeIndex DataCycle Atomic ShiftOut A c Buffer) Q s.
Proof.
  intros Hs Hl Hn HQ. apply wp_bind, wp_Reg; [done|by unfold R_QNC_RCRB_SPID0, R_QNC_RCRB_SPIBASE|].
  assert (HK : forall f s1, framed s s1 -> step (set_spid f) s.(bridge) s1.(bridge) ->
    data_loaded ShiftOut (Z.to_nat c) Buffer (regs_of s.(bridge)).(spid) f ->
    wp (Spia ← Reg R_QNC_RCRB_SPIA;
        _ ← on_bridge (MmioWrite32 Spia (Z.land A B_QNC_RCRB_SPIA_MASK));
        _ ← on_bridge (MmioRead32 Spia);
        Spis ← Reg R_QNC_RCRB_SPIS;
        _ ← on_bridge (MmioOr16 Spis B_QNC_RCRB_SPIS_BAS);
        finish_cycle (cycle_word OpcodeIndex PrefixOpcodeIndex DataCycle Atomic c) ShiftOut (Z.to_nat c) Buffer) Q s1).
  { intros f s1 H1 Hs1 Hf. assert (Hr1 : at_rcrb s1) by (unfold at_rcrb; by rewrite (proj1 H1)).
    apply wp_bind, wp_Reg; [done|by unfold R_QNC_RCRB_SPIA, R_QNC_RCRB_SPIBASE|].
    apply wp_bind, wp_on_bridge. eapply wp_mono; [apply spia_write|]. intros [] d2 H2.
    apply wp_bind, wp_on_bridge. eapply wp_mono; [apply spia_read|]. intros v3 d3 H3.
    apply wp_bind, wp_Reg; [done|by unfold R_QNC_RCRB_SPIS, R_QNC_RCRB_SPIBASE|].
    apply wp_bind, wp_on_bridge. eapply wp_mono; [apply spis_or|]. intros [] d4 H4. cbn [bridge Instance sb] in *.
    apply (HQ f); [done| |done]. cbn [bridge].
    change (Z.testbit B_QNC_RCRB_SPIS_BAS 15) with false in H4.
    eapply step_eq; [|exact (step_then _ _ _ _ _ (step_then _ _ _ _ _ (step_then _ _ _ _ _ Hs1 H2) H3) H4)].
    cbn beta. rewrite set_scl_false. unfold loaded, id. do 2 f_equal. symmetry. apply wrap_small.
    change B_QNC_RCRB_SPIA_MASK with (Z.ones 24). rewrite Z.land_ones by lia.
    pose proof (Z.mod_pos_bound A (2 ^ 24) ltac:(lia)). lia. }
  destruct ShiftOut.
  - apply wp_bind, load_data_spec; [done|done|]. intros f s1 H1 Hs1 Hf. by apply (HK f).
  - apply wp_bind, wp_ret, (HK (regs_of s.(bridge)).(spid)); [done| |done].
    split; [by destruct (regs_of s.(bridge))|]. apply (proj2 (step_refl s.(bridge))).
Qed.
End Rules.

(** ** The word that starts a cycle *)

Definition word_fields (op p : Z) (dc at_ : bool) (c : Z) : bool :=
  let w := cycle_word op p dc at_ c in
  Z.testbit w 1 && (Z.land (Z.shiftr w 4) 7 =? op) && eqb (Z.testbit w 2) at_ && (Z.land (Z.shiftr w 3) 1 =? p) && eqb (Z.testbit w 14) dc &&
  (negb dc || (Z.land (Z.shiftr w 8) 0x3F + 1 =? if c =? 0 then 64 else c)).

Lemma word_fields_all :
  forallb (fun op => forallb (fun p => forallb (fun dc => forallb (fun at_ => forallb (fun c => word_fields op p dc at_ c)
    (seqZ 0 65)) [true; false]) [true; false]) (seqZ 0 2)) (seqZ 0 8) = true.
Proof. vm_compute. reflexivity. Qed.

(** The fields of the word are the arguments; a count of zero becomes one of sixty-four. *)
Lemma cycle_word_fields op p dc at_ c : 0 <= op < 8 -> 0 <= p < 2 -> 0 <= c <= 64 ->
  let w := cycle_word op p dc at_ c in
  Z.testbit w 1 = true /\ Z.land (Z.shiftr w 4) 7 = op /\ Z.testbit w 2 = at_ /\ Z.land (Z.shiftr w 3) 1 = p /\ Z.testbit w 14 = dc /\
  (dc = true -> Z.land (Z.shiftr w 8) 0x3F + 1 = if c =? 0 then 64 else c).
Proof.
  intros Hop Hp Hc w. pose proof word_fields_all as H.
  rewrite forallb_forall in H. specialize (H op). rewrite <- list_elem_of_In, elem_of_seqZ in H. specialize (H ltac:(lia)).
  rewrite forallb_forall in H. specialize (H p). rewrite <- list_elem_of_In, elem_of_seqZ in H. specialize (H ltac:(lia)).
  rewrite forallb_forall in H. specialize (H dc ltac:(destruct dc; cbn; tauto)).
  rewrite forallb_forall in H. specialize (H at_ ltac:(destruct at_; cbn; tauto)).
  rewrite forallb_forall in H. specialize (H c). rewrite <- list_elem_of_In, elem_of_seqZ in H. specialize (H ltac:(lia)).
  unfold word_fields in H. fold w in H. rewrite !andb_true_iff, !Z.eqb_eq, !eqb_true_iff, orb_true_iff, negb_true_iff, Z.eqb_eq in H.
  destruct H as (((((H1 & H2) & H3) & H4) & H5) & H6). repeat (split; [done|]). intros ->. by destruct H6.
Qed.

Lemma command_of_word op p dc at_ c k : 0 <= op < 8 -> 0 <= p < 2 -> 0 <= c <= 64 ->
  command_of (cycle_word op p dc at_ c) k =
  {| cmd_prefix := if at_ then Some (Z.land (Z.shiftr k.(preop) (8 * p)) 0xFF) else None; cmd_opcode := k.(opmenu) (Z.to_nat op);
     cmd_type := Z.land (Z.shiftr k.(optype) (2 * op)) 3; cmd_address := k.(spia);
     cmd_count := if dc then Some (if c =? 0 then 64 else c) else None |}.
Proof.
  intros Hop Hp Hc. destruct (cycle_word_fields op p dc at_ c Hop Hp Hc) as (_ & H2 & H3 & H4 & H5 & H6).
  unfold command_of. rewrite H2, H3, H4, H5. destruct dc; [by rewrite H6|done].
Qed.

(** ** The length of a cycle *)

(** The next page. *)
Lemma next_page A : 0 <= A -> A + 256 < 2 ^ 32 -> Z.ldiff (u32 (A + 2 ^ 8)) (2 ^ 8 - 1) = A - A mod 256 + 256.
Proof.
  intros HA Hs. change (2 ^ 8) with 256. change (256 - 1) with (Z.ones 8). rewrite wrap_small by lia.
  rewrite Z.ldiff_ones_r, Z.shiftl_mul_pow2, Z.shiftr_div_pow2 by lia. change (2 ^ 8) with 256.
  replace (A + 256) with (A + 1 * 256) by lia. rewrite Z_div_plus by lia. pose proof (Z.div_mod A 256 ltac:(lia)). lia.
Qed.

(** A cycle is not empty, fits the data registers and stays in a page; below 9 any length is possible, above only
    multiples of 8. *)
Lemma cycle_count_spec A n : 0 <= A -> 0 < n -> A + n <= 2 ^ 24 ->
  let c := cycle_count A n in 0 < c <= n /\ c <= 64 /\ A / 256 = (A + c - 1) / 256 /\ (c < 8 \/ c mod 8 = 0).
Proof.
  intros HA Hn Hs. unfold cycle_count. rewrite next_page by lia. rewrite (wrap_small 32 (A + n)) by lia.
  pose proof (Z.mod_pos_bound A 256 ltac:(lia)) as Hm. rewrite (wrap_small 32 (A - A mod 256 + 256 - A)) by lia.
  set (m := if A - A mod 256 + 256 <? A + n then A - A mod 256 + 256 - A else n).
  assert (Hm2 : 0 < m <= n /\ A mod 256 + m <= 256) by (subst m; destruct (Z.ltb_spec (A - A mod 256 + 256) (A + n)); lia).
  change 0x07 with (Z.ones 3). rewrite Z.ldiff_ones_r by lia. rewrite Z.shiftl_mul_pow2, Z.shiftr_div_pow2 by lia. change (2 ^ 3) with 8.
  set (c := if 64 <=? m then 64 else if negb (m / 8 * 8 =? 0) then m / 8 * 8 else m).
  assert (Hc : 0 < c <= m /\ c <= 64 /\ (c < 8 \/ c mod 8 = 0)).
  { subst c. pose proof (Z.div_mod m 8 ltac:(lia)). pose proof (Z.mod_pos_bound m 8 ltac:(lia)).
    destruct (Z.leb_spec 64 m); [split; [lia|]; split; [lia|by right]|].
    destruct (Z.eqb_spec (m / 8 * 8) 0); cbn [negb]; [split; [lia|]; split; [lia|left; lia]|].
    split; [lia|]. split; [lia|right]. apply Z_mod_mult. }
  split; [lia|]. split; [lia|]. split; [|apply Hc].
  pose proof (Z.div_mod A 256 ltac:(lia)) as Hd. apply Z.div_unique with (A mod 256 + c - 1); lia.
Qed.

Lemma cycle_count_0 A : 0 <= A -> A + 256 < 2 ^ 32 -> cycle_count A 0 = 0.
Proof.
  intros HA Hs. unfold cycle_count. rewrite next_page by lia. rewrite Z.add_0_r, (wrap_small 32 A) by lia.
  pose proof (Z.mod_pos_bound A 256 ltac:(lia)). by rewrite (proj2 (Z.ltb_ge _ _)) by lia.
Qed.

(** ** Writes *)

Lemma write_lin_same A b x y : lsame x y -> lsame (write_lin A b x) (write_lin A b y).
Proof. intros Hxy a. unfold write_lin. by rewrite Hxy. Qed.

(** Only the low eight bits of what is written matter. *)
Lemma write_lin_u8 A b x : (forall a, in_width 8 (x a)) -> lsame (write_lin A (map u8 b) x) (write_lin A b x).
Proof.
  intros Hx a. unfold write_lin. rewrite length_map. destruct (Z.leb_spec A a); [|done].
  destruct (Z.ltb_spec a (A + Z.of_nat (length b))); [|done]. cbn [andb].
  destruct (lookup_lt_is_Some_2 b (Z.to_nat (a - A))) as [v Hv]; [lia|].
  rewrite (list_lookup_total_correct _ _ v Hv). rewrite (list_lookup_total_correct _ _ (u8 v)) by (by rewrite list_lookup_fmap, Hv).
  bits i Hi. destruct (Z.ltb_spec i 8); [by rewrite andb_true_r|]. by rewrite (in_width_bit 8 (x a)).
Qed.

(** A write in two parts. *)
Lemma write_lin_app A b1 b2 x a :
  write_lin (A + Z.of_nat (length b1)) b2 (write_lin A b1 x) a = write_lin A (b1 ++ b2) x a.
Proof.
  unfold write_lin. rewrite length_app. destruct (Z.leb_spec (A + Z.of_nat (length b1)) a); cbn [andb].
  - rewrite (proj2 (Z.leb_le A a)), (proj2 (Z.ltb_ge a (A + Z.of_nat (length b1)))) by lia. cbn [andb].
    destruct (Z.ltb_spec a (A + Z.of_nat (length b1) + Z.of_nat (length b2))).
    + rewrite (proj2 (Z.ltb_lt _ _)) by lia. rewrite lookup_total_app_r by lia. do 2 f_equal. lia.
    + by rewrite (proj2 (Z.ltb_ge _ _)) by lia.
  - destruct (Z.leb_spec A a); [|done]. rewrite !(proj2 (Z.ltb_lt _ _)) by lia. cbn [andb]. by rewrite lookup_total_app_l by lia.
Qed.

Lemma write_lin_front A b1 b2 x a : write_lin A b1 x a = x a \/ write_lin A b1 x a = write_lin A (b1 ++ b2) x a.
Proof.
  rewrite <- write_lin_app. unfold write_lin. destruct (Z.leb_spec A a); cbn [andb]; [|by left].
  destruct (Z.ltb_spec a (A + Z.of_nat (length b1))); [|by left]. right. by rewrite (proj2 (Z.leb_gt _ _)) by lia.
Qed.

(** ** Registers that commands leave alone *)

Definition same_setup (k k' : ctl) : Prop := exists f a, k' = set_spia a (set_spid f k).

Lemma same_setup_refl k : same_setup k k.
Proof. exists k.(spid), k.(spia). by destruct k. Qed.
Lemma same_setup_trans k k1 k2 : same_setup k k1 -> same_setup k1 k2 -> same_setup k k2.
Proof. intros (f & a & ->) (g & b & ->). by exists g, b. Qed.
Lemma same_conf_setup k k1 k2 : same_setup k k1 -> same_conf k1 k2 -> same_setup k k2.
Proof. intros (f & a & ->) (g & ->). by exists g, a. Qed.
Lemma loaded_setup f A k : same_setup k (loaded f A k).
Proof. by eexists _, _. Qed.

Section Send.
Context {MB : MessageBus} {D : Type} {B : SpiBus D} {V : SpiView D} {LB : SpiLaws D}.
Implicit Types (s : spi D) (t : target).

(** The flash went towards [y]. *)
Lemma progress_updates t (d d' : D) y st :
  progress t d d' -> lsame t.(t_flash) y -> (EFI_ERROR st = false -> reached t d') -> lupdates chip cseen y d d' st.
Proof.
  intros (P1 & P2 & P3) Hy Hr. split; [|split].
  - intros a. rewrite <- Hy. apply P1.
  - intros Hst a. rewrite <- Hy. by apply Hr.
  - intros x Hx. destruct (P2 x Hx) as [|Hx']; [by left|right]. intros a. rewrite <- Hy. apply Hx'.
Qed.

(** One round, for a command whose target is known. *)
Lemma send_cycle_known op p dc at_ (so : bool) A c Buffer (T : lin -> target) (Q : option (list Z) -> spi D -> Prop) s :
  at_rcrb s -> idle s -> 0 <= op < 8 -> 0 <= p < 2 -> 0 <= c <= 64 -> (Z.to_nat c <= length Buffer)%nat ->
  (forall f x, data_loaded so (Z.to_nat c) Buffer (regs_of s.(bridge)).(spid) f ->
     let k := loaded f A (regs_of s.(bridge)) in
     part_command chip_size jedec_id k x (prot s.(bridge)) (command_of (cycle_word op p dc at_ c) k) = Some (T x)) ->
  (forall r s' x, framed s s' -> same_setup (regs_of s.(bridge)) (regs_of s'.(bridge)) -> idle s' -> lsame x (chip s.(bridge)) ->
     progress (T x) s.(bridge) s'.(bridge) ->
     (forall front, r = Some front -> reached (T x) s'.(bridge) /\
        front = if so then take (Z.to_nat c) Buffer else data_bytes c (regs_of s'.(bridge)).(spid)) ->
     (unblocked -> is_Some r) -> Q r s') ->
  wp (send_cycle op p dc at_ so A c Buffer) Q s.
Proof.
  intros Hs Hi Hop Hp Hc Hl HT HQ. apply send_cycle_load; [done|done|lia|]. intros f s1 Hf1 Hs1 Hf.
  pose proof (step_idle _ _ _ Hi Hs1) as (K1 & K2 & K3 & [K4 K5]).
  apply (finish_cycle_known _ _ _ _ (T (chip s1.(bridge)))).
  - unfold at_rcrb. by rewrite (proj1 Hf1).
  - done.
  - lia.
  - done.
  - by apply cycle_word_fields.
  - rewrite K1, K3. by apply HT.
  - intros r s2 Hf2 Hc2 Hi2 (P1 & P2 & P3) Hr Hub. apply (HQ r s2 (chip s1.(bridge))).
    + by eapply framed_trans.
    + eapply same_conf_setup; [|exact Hc2]. rewrite K1. apply loaded_setup.
    + done.
    + done.
    + split; [intros a; rewrite <- K4; apply P1|]. split.
      * intros x Hx. destruct (P2 x Hx) as [|Hx']; [by left; auto|right]. intros a. rewrite <- K4. apply Hx'.
      * by rewrite <- K3.
    + intros front E. destruct (Hr front E) as [Hrr ->]. split; [done|]. destruct so; [done|]. by rewrite Z2Nat.id by lia.
    + done.
Qed.

(** A round that does whatever the controller makes of it. *)
Lemma send_cycle_any op p dc at_ (so : bool) A c Buffer (Q : option (list Z) -> spi D -> Prop) s :
  at_rcrb s -> c <= 64 -> (Z.to_nat c <= length Buffer)%nat ->
  (forall r s', framed s s' -> same_setup (regs_of s.(bridge)) (regs_of s'.(bridge)) ->
     (forall front, r = Some front -> length front = Z.to_nat c) -> Q r s') ->
  wp (send_cycle op p dc at_ so A c Buffer) Q s.
Proof.
  intros Hs Hc Hl HQ. apply send_cycle_load; [done|done|lia|]. intros f s1 Hf1 Hs1 _.
  apply finish_cycle_any; [unfold at_rcrb; by rewrite (proj1 Hf1)|done|lia|]. intros r s2 Hf2 Hc2 Hr. apply HQ; [by eapply framed_trans| |done].
  eapply same_conf_setup; [|exact Hc2]. rewrite (proj1 Hs1). apply loaded_setup.
Qed.

(** ** The loop *)

(** The loop ends for any command whose addresses are those of a part. *)
Lemma send_loop_any fuel op p dc at_ so A n Buffer (Q : EFI_STATUS * list Z -> spi D -> Prop) s :
  at_rcrb s -> 0 <= A -> 0 <= n -> A + n <= 2 ^ 24 -> (Z.to_nat n < fuel)%nat -> (Z.to_nat n <= length Buffer)%nat ->
  (forall st b s', framed s s' -> same_setup (regs_of s.(bridge)) (regs_of s'.(bridge)) -> st = EFI_SUCCESS \/ st = EFI_DEVICE_ERROR ->
     length b = length Buffer -> Q (st, b) s') ->
  wp (send_loop fuel op p dc at_ so A n Buffer) Q s.
Proof.
  revert A n Buffer Q s. induction fuel as [|fuel IH]; intros A n Buffer Q s Hs HA Hn HAn Hf Hl HQ; [lia|]. cbn [send_loop].
  assert (Hc : 0 <= cycle_count A n <= n /\ cycle_count A n <= 64 /\ (0 < n -> 0 < cycle_count A n)).
  { destruct (decide (n = 0)) as [->|]; [rewrite cycle_count_0 by lia; lia|].
    pose proof (cycle_count_spec A n HA ltac:(lia) HAn) as Hc. cbv zeta in Hc. lia. }
  set (c := cycle_count A n) in *. clearbody c.
  apply wp_bind, send_cycle_any; [done|lia|lia|]. intros r s1 Hf1 Hc1 Hr. destruct r as [front|]; [|apply wp_ret, HQ; auto].
  specialize (Hr front eq_refl). rewrite wrap_small by lia. destruct (Z.ltb_spec 0 (n - c)).
  - rewrite wrap_small by lia. apply wp_bind, IH; [unfold at_rcrb; by rewrite (proj1 Hf1)|lia..|rewrite length_drop; lia|].
    intros st b s2 Hf2 Hc2 Hst Hb. apply wp_ret, HQ; [by eapply framed_trans|by eapply same_setup_trans|done|].
    rewrite length_app, Hb, length_drop. lia.
  - apply wp_ret, HQ; [done|done|auto|]. rewrite length_app, length_drop. lia.
Qed.

(** ** Programming bytes *)

(** The menu has page program in slot 3 and the erase of a sector in slot 5, and writes are enabled before commands. *)
Definition programmable (k : ctl) : Prop :=
  k.(opmenu) 3%nat = 0x02 /\ Z.land (Z.shiftr k.(optype) 6) 3 = 3 /\ k.(opmenu) 5%nat = 0x20 /\ Z.land (Z.shiftr k.(optype) 10) 3 = 3 /\
  Z.land k.(preop) 0xFF = 0x06.

Lemma setup_programmable k k' : same_setup k k' -> programmable k -> programmable k'.
Proof. by intros (f & a & ->). Qed.
Lemma setup_writable k k' : same_setup k k' -> writable k' = writable k.
Proof. by intros (f & a & ->). Qed.

Lemma part_program f A c x k : programmable k -> writable k = true -> 0 < c <= 64 -> 0 <= A -> A + c <= chip_size -> A / 256 = (A + c - 1) / 256 ->
  part_command chip_size jedec_id (loaded f A k) x false (command_of (cycle_word 3 0 true true c) (loaded f A k)) =
  Some {| t_flash := write_lin A (data_bytes c f) x; t_prot := false; t_data := None |}.
Proof.
  intros (P1 & P2 & _ & _ & P5) Hw Hc HA Hs Hp. rewrite command_of_word by lia. pose proof chip_range.
  change (Z.to_nat 3) with 3%nat. change (2 * 3) with 6. change (8 * 0) with 0. unfold part_command.
  cbn [cmd_type cmd_opcode cmd_prefix cmd_count cmd_address loaded set_spia set_spid preop optype opmenu spia spid].
  rewrite Z.shiftr_0_r, P1, P2, P5. rewrite (proj2 (Z.eqb_neq c 0)) by lia.
  change B_QNC_RCRB_SPIA_MASK with (Z.ones 24). rewrite Z.land_ones, Z.mod_small by lia.
  rewrite (setup_writable k) by apply loaded_setup. by rewrite Hw, Hp, Z.eqb_refl, (proj2 (Z.leb_le _ _) Hs).
Qed.

Lemma data_bytes_loaded c f (b : list Z) : (Z.to_nat c <= length b)%nat ->
  (forall j, (j < Z.to_nat c)%nat -> f j = u8 (b !!! j)) -> data_bytes c f = map u8 (take (Z.to_nat c) b).
Proof.
  intros Hl Hf. apply list_eq_same_length with (Z.to_nat c); [by rewrite length_map, length_take_le by lia|by unfold data_bytes; rewrite length_map, length_seq|].
  intros j y z Hj Hy Hz. change (data_bytes c f) with (f <$> seq 0 (Z.to_nat c)) in Hy. change (map u8 ?l) with (u8 <$> l) in Hz.
  rewrite list_lookup_fmap in Hy. rewrite list_lookup_fmap in Hz. rewrite lookup_take_lt in Hz by done.
  rewrite lookup_seq_lt in Hy by done. cbn in Hy. destruct (b !! j) as [bj|] eqn:E; [|done]. cbn in Hz.
  rewrite (Hf j Hj), (list_lookup_total_correct _ _ _ E) in Hy. congruence.
Qed.

Lemma send_program fuel A b (Q : EFI_STATUS * list Z -> spi D -> Prop) s :
  at_rcrb s -> idle s -> prot s.(bridge) = false -> programmable (regs_of s.(bridge)) -> writable (regs_of s.(bridge)) = true ->
  b <> [] -> 0 <= A -> A + Z.of_nat (length b) <= chip_size -> (length b < fuel)%nat ->
  (forall st s', framed s s' -> same_setup (regs_of s.(bridge)) (regs_of s'.(bridge)) -> idle s' -> prot s'.(bridge) = false ->
     st = EFI_SUCCESS \/ st = EFI_DEVICE_ERROR ->
     (unblocked -> st = EFI_SUCCESS) ->
     lupdates chip cseen (write_lin A b (chip s.(bridge))) s.(bridge) s'.(bridge) st -> Q (st, b) s') ->
  wp (send_loop fuel 3 0 true true true A (Z.of_nat (length b)) b) Q s.
Proof.
  revert A b Q s. induction fuel as [|fuel IH]; intros A b Q s Hs Hi Hp Hk Hw Hb HA Hsz Hf HQ; [lia|]. cbn [send_loop].
  assert (Hn : 0 < Z.of_nat (length b)) by (destruct b; [done|cbn; lia]). pose proof chip_range.
  pose proof (cycle_count_spec A _ HA Hn ltac:(lia)) as Hc. cbv zeta in Hc. set (c := cycle_count A (Z.of_nat (length b))) in *. clearbody c.
  destruct Hc as (Hc1 & Hc2 & Hc3 & _).
  apply wp_bind, (send_cycle_known _ _ _ _ _ _ _ _
    (fun x => {| t_flash := write_lin A (map u8 (take (Z.to_nat c) b)) x; t_prot := false; t_data := None |})); [done|done|lia|lia|lia|lia| |].
  { intros f x Hfj k. rewrite Hp. subst k. rewrite part_program by (done || lia). do 3 f_equal. unfold data_bytes.
    apply data_bytes_loaded; [lia|]. intros j Hj. rewrite (Hfj j). by rewrite decide_True. }
  intros r s1 x Hf1 Hk1 Hi1 Hx Hp1 Hr Hub.
  set (y1 := write_lin A (take (Z.to_nat c) b) (chip s.(bridge))).
  assert (Hy1 : lsame (write_lin A (map u8 (take (Z.to_nat c) b)) x) y1).
  { intros a. rewrite (write_lin_same _ _ _ _ Hx). apply write_lin_u8. apply chip_byte. }
  assert (Hpr1 : prot s1.(bridge) = false) by (destruct Hp1 as (_ & _ & [->| ->]); done).
  assert (Hfront : forall a, y1 a = chip s.(bridge) a \/ y1 a = write_lin A b (chip s.(bridge)) a).
  { intros a. rewrite <- (take_drop (Z.to_nat c) b). apply write_lin_front. }
  destruct r as [front|].
  2:{ apply wp_ret, HQ; [done|done|done|done|auto|intros Hu; by destruct (Hub Hu)|]. eapply lupdates_failed; [|done|exact Hfront].
      eapply progress_updates; [exact Hp1|exact Hy1|done]. }
  destruct (Hr front eq_refl) as [Hreach ->]. rewrite length_take_le by lia. rewrite wrap_small by lia.
  assert (HU : lupdates chip cseen y1 s.(bridge) s1.(bridge) EFI_SUCCESS) by (by eapply progress_updates).
  destruct (Z.ltb_spec 0 (Z.of_nat (length b) - c)) as [Hrest|Hrest].
  - assert (El : Z.of_nat (length b) - c = Z.of_nat (length (drop (Z.to_nat c) b))) by (rewrite length_drop; lia).
    rewrite (wrap_small 32 (A + c)) by lia. rewrite El. apply wp_bind, IH.
    + unfold at_rcrb. by rewrite (proj1 Hf1).
    + done.
    + done.
    + by eapply setup_programmable.
    + by rewrite (setup_writable _ _ Hk1).
    + intros E. by rewrite E in El; cbn in El; lia.
    + lia.
    + rewrite <- El. lia.
    + rewrite length_drop. lia.
    + intros st s2 Hf2 Hk2 Hi2 Hp2 Hst Hu2 HU2. apply wp_ret. rewrite take_drop.
      apply HQ; [by eapply framed_trans|by eapply same_setup_trans|done|done|done|done|].
      eapply lupdates_seq; [exact HU| |exact Hfront].
      eapply (lupdates_quiet_l s1.(bridge) s1.(bridge)); [split; [done|auto]| |exact HU2].
      intros a. rewrite (write_lin_same _ _ _ y1) by (by apply HU). unfold y1.
      rewrite <- (take_drop (Z.to_nat c) b) at 3. rewrite <- write_lin_app. rewrite length_take_le by lia. by rewrite Z2Nat.id by lia.
  - apply wp_ret. rewrite take_drop. apply HQ; [done|done|done|done|auto|done|]. unfold y1 in HU. by rewrite take_ge in HU by lia.
Qed.
End Send.
