(* ===== verification/SpiExecute.v ===== *)
(** * The SPI host controller driver: the service that executes commands

    Around every command SMIs are off and writes are enabled; afterwards both are as before. The commands that the firmware
    volume services use program bytes and erase sectors. *)

From S2P Require Import Prelude QNCAccess FvbDefs FvbSpec SpiDefs SpiSpec SpiSend.
From stdpp Require Import list functions.
#[local] Open Scope Z_scope.

Definition hmisc : sbreg := (SpReg, QUARK_NC_HOST_BRIDGE_SB_PORT_ID, QNC_MSG_FSBIC_REG_HMISC).

(** The register with the enable bit of SMIs stores what is written. *)
Class HmiscPlain {MB : MessageBus} : Prop := { hmisc_stores : forall old v, sb_store hmisc old v = v }.

Section Execute.
Context {MB : MessageBus} {HP : HmiscPlain} {D : Type} {B : SpiBus D} {V : SpiView D} {LB : SpiLaws D}.
Context (BaseAddress LimitAddress : Z).
Implicit Types (s : spi D) (t : target).
Abbreviation SendSpiCmd := (SendSpiCmd BaseAddress LimitAddress).
Abbreviation guarded_send := (guarded_send BaseAddress LimitAddress).
Abbreviation SpiProtocolExecute := (SpiProtocolExecute BaseAddress LimitAddress).

(** What the command finds in BIOS_CNTL. *)
Definition enabled (ShiftOut : bool) (c : Z) : Z :=
  let c := Z.lor c 0x21 in if ShiftOut then Z.lor (Z.land c (Z.ldiff 0xFFFF 0x104)) 4 else c.

(** The configuration and the enable bits are as before. *)
Record restored s s' : Prop := {
  same_instance : s'.(Instance) = s.(Instance);
  same_sb : forall r, s'.(sb).(regs) r = s.(sb).(regs) r;
  same_regs : same_setup (regs_of s.(bridge)) (regs_of s'.(bridge))
}.

Lemma restored_refl s : restored s s.
Proof. split; [done|done|apply same_setup_refl]. Qed.

Lemma restored_trans s s1 s2 : restored s s1 -> restored s1 s2 -> restored s s2.
Proof. intros [H1 H2 H3] [K1 K2 K3]. split; [congruence|intros r; by rewrite K2|by eapply same_setup_trans]. Qed.

Lemma cntl_restored c c0 : Z.land c CNTL_BITS = c -> Z.land c0 CNTL_BITS = c0 ->
  Z.lor (Z.land c (Z.ldiff 0xFFFF CNTL_BITS)) (Z.land c0 CNTL_BITS) = c0.
Proof.
  intros Hc H0. rewrite H0. rewrite <- Hc. change (Z.ldiff 0xFFFF CNTL_BITS) with (Z.land (Z.ones 16) (Z.lnot CNTL_BITS)).
  bits i Hi. destruct (Z.testbit CNTL_BITS i); cbn [negb]; by rewrite ?andb_false_r.
Qed.

(** The command runs with writes enabled; what it establishes holds in the end, where all is restored. *)
Lemma guarded_send_spec op p dc at_ so A n b region (P : EFI_STATUS * list Z -> D -> Prop) (Q : EFI_STATUS * list Z -> spi D -> Prop) s :
  (forall r d d' f, P r d -> step f d d' -> P r d') ->
  (forall s1, s1.(Instance) = s.(Instance) -> step (fun k => set_cntl (enabled so k.(cntl)) k) s.(bridge) s1.(bridge) ->
     Z.testbit (s1.(sb).(regs) hmisc) 19 = false ->
     wp (SendSpiCmd op p dc at_ so A n b region) (fun r s2 => framed s1 s2 /\ same_setup (regs_of s1.(bridge)) (regs_of s2.(bridge)) /\ P r s2.(bridge)) s1) ->
  (forall r s', restored s s' -> P r s'.(bridge) -> Q r s') ->
  wp (guarded_send op p dc at_ so A n b region) Q s.
Proof.
  intros HPc Hsend HQ. apply wp_bind, wp_on_sb. apply (wp_port_read SpReg); [done|done|]. intros b1 E1 _ _.
  apply wp_bind, wp_on_sb. apply (wp_port_write SpReg); [done|done|]. intros b2 E2 _ _. cbn [sb bridge Instance] in *.
  apply wp_bind, wp_on_bridge. eapply wp_mono; [apply cntl_read|]. intros v d1 [Hv H1]. cbn [bridge] in Hv, H1.
  apply wp_bind, wp_on_bridge. eapply wp_mono; [apply cntl_or|]. intros [] d2 H2. cbn [bridge] in H2.
  assert (HK : forall s3, s3.(Instance) = s.(Instance) -> s3.(sb) = b2 -> step (fun k => set_cntl (enabled so k.(cntl)) k) s.(bridge) s3.(bridge) ->
    wp (r ← SendSpiCmd op p dc at_ so A n b region;
        _ ← on_bridge (PciAndThenOr16 R_QNC_LPC_BIOS_CNTL (Z.ldiff 0xFFFF CNTL_BITS) (Z.land v CNTL_BITS));
        _ ← on_sb (QNCPortWrite QUARK_NC_HOST_BRIDGE_SB_PORT_ID QNC_MSG_FSBIC_REG_HMISC (s.(sb).(regs) hmisc));
        mret r) Q s3).
  { intros s3 Hi3 Hb3 H3. apply wp_bind. eapply wp_mono; [apply Hsend; [done|done|]|].
    { rewrite Hb3, E2, E1. fold hmisc. rewrite fn_lookup_insert, hmisc_stores. rewrite Z.ldiff_spec.
      change (Z.testbit SMI_EN 19) with true. apply andb_false_r. }
    intros r s4 ([Hi4 Hb4] & Hk4 & HP4). apply wp_bind, wp_on_bridge. eapply wp_mono; [apply cntl_and_or|]. intros [] d5 H5.
    apply wp_bind, wp_on_sb. apply (wp_port_write SpReg); [done|done|]. intros b6 E6 _ _. apply wp_ret, HQ; [|by eapply HPc].
    cbn [sb bridge Instance] in *. split; cbn [sb bridge Instance].
    - congruence.
    - intros r'. rewrite E6, Hb4, Hb3, E2, E1. fold hmisc. rewrite hmisc_stores. destruct (decide (r' = hmisc)) as [->|Hr].
      + by rewrite fn_lookup_insert.
      + by rewrite !fn_lookup_insert_ne by done.
    - rewrite (proj1 H5). rewrite (proj1 H3) in Hk4. destruct Hk4 as (f & a & E4).
      pose proof (cntl_bits s4.(bridge)) as Hc4. rewrite Hv in *. rewrite cntl_restored by (done || apply cntl_bits). rewrite E4.
      exists f, a. by destruct (regs_of s.(bridge)). }
  destruct so.
  - apply wp_bind, wp_on_bridge. eapply wp_mono; [apply cntl_and_or|]. intros [] d3 H3. cbn [bridge] in H3.
    apply HK; [done|done|]. cbn [bridge]. eapply step_eq; [|exact (step_then _ _ _ _ _ (step_then _ _ _ _ _ H1 H2) H3)]. done.
  - apply wp_bind, wp_ret, HK; [done|done|]. cbn [bridge]. eapply step_eq; [|exact (step_then _ _ _ _ _ H1 H2)]. done.
Qed.

(** The service between cycles. *)
Lemma execute_idle op p dc at_ so A n b region (P : EFI_STATUS * list Z -> D -> Prop) (Q : EFI_STATUS * list Z -> spi D -> Prop) s :
  at_rcrb s -> idle s -> op < 8 -> p < 2 -> (forall r d d' f, P r d -> step f d d' -> P r d') ->
  (forall s1, s1.(Instance) = s.(Instance) -> step (fun k => set_cntl (enabled so k.(cntl)) k) s.(bridge) s1.(bridge) ->
     wp (SendSpiCmd op p dc at_ so A n b region) (fun r s2 => framed s1 s2 /\ same_setup (regs_of s1.(bridge)) (regs_of s2.(bridge)) /\ P r s2.(bridge)) s1) ->
  (forall r s', restored s s' -> P r s'.(bridge) -> Q r s') ->
  wp (SpiProtocolExecute op p dc at_ so A n b region) Q s.
Proof.
  intros Hs Hi Hop Hp HPc Hsend HQ. unfold SpiDefs.SpiProtocolExecute, SPI_NUM_OPCODE, SPI_NUM_PREFIX_OPCODE.
  rewrite !(proj2 (Z.leb_gt _ _)) by lia. cbn [orb].
  apply wp_bind, wp_WaitForSpiCycleComplete; [done|]. apply wait_idle; [done|by apply Nat2Z.inj_lt; rewrite Z2Nat.id|].
  intros ok s0 Hf0 H0 Hok. rewrite (Hok eq_refl). cbn [negb]. apply (guarded_send_spec _ _ _ _ _ _ _ _ _ P); [done| |].
  - intros s1 Hi1 H1 _. apply Hsend; [by rewrite Hi1, (proj1 Hf0)|]. by eapply step_eq; [|exact (step_then _ _ _ _ _ H0 H1)].
  - intros r s' [R1 R2 R3] HPr. apply HQ; [|done]. split; [by rewrite R1, (proj1 Hf0)|intros r'; by rewrite R2, (proj2 Hf0)|].
    by rewrite (proj1 H0) in R3.
Qed.

(** ** The commands of the firmware volume services *)

(** The controller is between cycles, its menu is that of a part with sectors of 4096 bytes whose blocks are not protected,
    and the image lies in the part. *)
Record ready s : Prop := {
  ready_rcrb : at_rcrb s;
  ready_idle : idle s;
  ready_prot : prot s.(bridge) = false;
  ready_regs : programmable (regs_of s.(bridge));
  ready_write : exists e, s.(Instance).(SpiInitTable).(OpcodeMenu) !! 3%nat = Some e /\ e.(OpType) = EnumSpiOpcodeWrite;
  ready_erase : exists e, s.(Instance).(SpiInitTable).(OpcodeMenu) !! 5%nat = Some e /\ e.(OpType) = EnumSpiOpcodeWrite;
  ready_start : 0 <= s.(Instance).(SpiInitTable).(BiosStartOffset) /\ s.(Instance).(SpiInitTable).(BiosStartOffset) mod SPI_ERASE_SECTOR_SIZE = 0;
  ready_size : 0 < s.(Instance).(SpiInitTable).(BiosSize) /\
    s.(Instance).(SpiInitTable).(BiosStartOffset) + s.(Instance).(SpiInitTable).(BiosSize) <= chip_size
}.

Lemma ready_restored s s' : ready s -> restored s s' -> idle s' -> prot s'.(bridge) = false -> ready s'.
Proof.
  intros [] [R1 R2 R3] Hi Hp. split; rewrite ?R1; try done.
  - unfold at_rcrb. by rewrite R1.
  - by eapply setup_programmable.
Qed.

Lemma enabled_writable so k : writable (set_cntl (enabled so k.(cntl)) k) = true.
Proof.
  unfold writable, enabled. cbn [cntl set_cntl]. change 1 with (2 ^ 0). change 32 with (2 ^ 5). rewrite !flag_test by lia.
  destruct so; rewrite ?Z.lor_spec, ?Z.land_spec, ?Z.lor_spec.
  - change (Z.testbit 0x21 0) with true. change (Z.testbit 0x21 5) with true.
    change (Z.testbit (Z.ldiff 65535 260) 0) with true. change (Z.testbit (Z.ldiff 65535 260) 5) with true. by rewrite !orb_true_r.
  - change (Z.testbit 0x21 0) with true. change (Z.testbit 0x21 5) with true. by rewrite !orb_true_r.
Qed.

(** What a command that works on the flash establishes. *)
Definition flashed (y : lin) (d0 : D) (b : list Z) (r : EFI_STATUS * list Z) (d : D) : Prop :=
  pending d = None /\ prot d = false /\ r.2 = b /\ (r.1 = EFI_SUCCESS \/ r.1 = EFI_DEVICE_ERROR) /\ (unblocked -> r.1 = EFI_SUCCESS) /\
  lupdates chip cseen y d0 d r.1.

Lemma flashed_step y d0 b r d d' f : flashed y d0 b r d -> step f d d' -> flashed y d0 b r d'.
Proof.
  intros (H1 & H2 & H3 & H4 & H5 & H6) Hs. pose proof (step_idle _ _ _ H1 Hs) as (_ & K2 & K3 & K4).
  repeat (split; [done || congruence|]). by eapply lupdates_quiet_r.
Qed.

(** What comes before the loop of [SendSpiCmd], for a command that does not read the image. *)
Lemma SendSpiCmd_cycles (op : nat) p dc at_ so A n b region e HwAddr (Q : EFI_STATUS * list Z -> spi D -> Prop) s :
  at_rcrb s -> (op < 8)%nat -> s.(Instance).(SpiInitTable).(OpcodeMenu) !! op = Some e -> e.(OpType) <> EnumSpiOpcodeRead ->
  s.(Instance).(SpiInitTable).(BiosSize) <> 0 -> (regs_of s.(bridge)).(opmenu) op <> 0 ->
  (SpiOffset2Physical s.(Instance) A region BaseAddress LimitAddress).1.1 = HwAddr -> (dc = true \/ n = 0) ->
  (forall s1, framed s s1 -> step id s.(bridge) s1.(bridge) ->
     wp (send_loop (S (Z.to_nat n)) (Z.of_nat op) p dc at_ so HwAddr n b) Q s1) ->
  wp (SendSpiCmd (Z.of_nat op) p dc at_ so A n b region) Q s.
Proof.
  intros Hs Hop He Hw Hb Hm HH Hn HQ. apply wp_bind, wp_gets, wp_bind. rewrite Nat2Z.id. eapply wp_lift; [exact He|].
  apply wp_bind, wp_Reg; [done|by unfold R_QNC_RCRB_SPIOPMENU, R_QNC_RCRB_SPIBASE|]. pose proof rcrb_range.
  rewrite (wrap_small 32 (rcrb + _ + _)) by (unfold R_QNC_RCRB_SPIOPMENU, R_QNC_RCRB_SPIBASE; lia).
  apply wp_bind, wp_on_bridge. eapply wp_mono; [by apply opmenu_read|]. intros v d1 [-> H1].
  rewrite !(proj2 (Z.eqb_neq _ 0)) by done. cbn [orb].
  destruct (SpiOffset2Physical s.(Instance) A region BaseAddress LimitAddress) as [[Hw1 Base] Limit]. cbn [fst] in HH. subst Hw1.
  rewrite bool_decide_eq_false_2 by done. cbn [andb].
  replace (if negb dc && (0 <? n) then 0 else n) with n by (destruct Hn as [->| ->]; [done|by rewrite andb_false_r]).
  by apply HQ.
Qed.

Lemma execute_write s A b (Q : EFI_STATUS * list Z -> spi D -> Prop) :
  ready s -> b <> [] -> 0 <= A -> A + Z.of_nat (length b) <= s.(Instance).(SpiInitTable).(BiosSize) ->
  (forall st s', ready s' -> restored s s' -> st = EFI_SUCCESS \/ st = EFI_DEVICE_ERROR -> (unblocked -> st = EFI_SUCCESS) ->
     lupdates chip cseen (write_lin (A + s.(Instance).(SpiInitTable).(BiosStartOffset)) b (chip s.(bridge))) s.(bridge) s'.(bridge) st -> Q (st, b) s') ->
  wp (SpiProtocolExecute 3 0 true true true A (Z.of_nat (length b)) b EnumSpiRegionBios) Q s.
Proof.
  intros Hr Hb HA Hsz HQ. pose proof Hr as [R1 R2 R3 R4 (e & Re & Rt) _ R6 R7]. pose proof chip_range.
  set (off := s.(Instance).(SpiInitTable).(BiosStartOffset)) in *.
  apply (execute_idle _ _ _ _ _ _ _ _ _ (flashed (write_lin (A + off) b (chip s.(bridge))) s.(bridge) b)); [done|done|lia|lia| | |].
  - intros r d d' f. apply flashed_step.
  - intros s1 Hi1 H1. pose proof (step_idle _ _ _ R2 H1) as (K1 & K2 & K3 & [K4 K5]).
    assert (Hs1 : at_rcrb s1) by (unfold at_rcrb; by rewrite Hi1).
    assert (Hk1 : programmable (regs_of s1.(bridge))) by (by rewrite K1).
    apply (SendSpiCmd_cycles 3 0 true true true A _ b _ e (A + off)); rewrite ?Hi1; [done|lia|done|by rewrite Rt|lia|by rewrite (proj1 Hk1)|apply wrap_small; lia|by left|].
    intros s2 Hf2 H2. pose proof (step_idle _ _ _ K2 H2) as (L1 & L2 & L3 & [L4 L5]). change (Z.of_nat 3) with 3.
    apply send_program; [unfold at_rcrb; by rewrite (proj1 Hf2)|done|congruence|by rewrite L1| |done|lia|lia|lia|].
    { rewrite L1, K1. apply enabled_writable. }
    intros st s3 Hf3 Hk3 Hi3 Hp3 Hst Hu HU. split; [by eapply framed_trans|]. split; [by rewrite L1 in Hk3|].
    repeat (split; [done|]). eapply lupdates_quiet_l; [|apply write_lin_same|exact HU].
    + split; [intros a; by rewrite L4|auto].
    + intros a. by rewrite L4.
  - intros [st b'] s' HR (F1 & F2 & F3 & F4 & F5 & F6). cbn in F3, F4, F5, F6. rewrite F3. apply HQ; [by eapply ready_restored|done..].
Qed.

Lemma part_erase f A x k : programmable k -> writable k = true -> 0 <= A -> A mod SPI_ERASE_SECTOR_SIZE = 0 -> A + SPI_ERASE_SECTOR_SIZE <= chip_size ->
  part_command chip_size jedec_id (loaded f A k) x false (command_of (cycle_word 5 0 false true 0) (loaded f A k)) =
  Some {| t_flash := erase_lin A SPI_ERASE_SECTOR_SIZE x; t_prot := false; t_data := None |}.
Proof.
  intros (_ & _ & P3 & P4 & P5) Hw HA Hm Hs. rewrite command_of_word by lia. pose proof chip_range.
  change (Z.to_nat 5) with 5%nat. change (2 * 5) with 10. change (8 * 0) with 0. unfold part_command.
  cbn [cmd_type cmd_opcode cmd_prefix cmd_count cmd_address loaded set_spia set_spid preop optype opmenu spia spid].
  rewrite Z.shiftr_0_r, P3, P4, P5. change B_QNC_RCRB_SPIA_MASK with (Z.ones 24). unfold SPI_ERASE_SECTOR_SIZE in *.
  rewrite Z.land_ones, (Z.mod_small A) by lia.
  rewrite (setup_writable k) by apply loaded_setup. by rewrite Hw, Hm, (proj2 (Z.leb_le _ _) Hs).
Qed.

Lemma erase_lin_same A n x y : lsame x y -> lsame (erase_lin A n x) (erase_lin A n y).
Proof. intros Hxy a. unfold erase_lin. by rewrite Hxy. Qed.

(** A command without bytes of its own. *)
Lemma execute_nobytes s (op : nat) dc so A e (T : lin -> lin) (Q : EFI_STATUS * list Z -> spi D -> Prop) :
  ready s -> (op < 8)%nat -> s.(Instance).(SpiInitTable).(OpcodeMenu) !! op = Some e -> e.(OpType) = EnumSpiOpcodeWrite ->
  (regs_of s.(bridge)).(opmenu) op <> 0 -> 0 <= A -> A <= s.(Instance).(SpiInitTable).(BiosSize) ->
  (forall x y, lsame x y -> lsame (T x) (T y)) ->
  (forall x, let HwAddr := A + s.(Instance).(SpiInitTable).(BiosStartOffset) in
     let c := set_cntl (enabled so (regs_of s.(bridge)).(cntl)) (regs_of s.(bridge)) in
     forall f, data_loaded so 0 [] (regs_of s.(bridge)).(spid) f ->
     part_command chip_size jedec_id (loaded f HwAddr c) x false (command_of (cycle_word (Z.of_nat op) 0 dc true 0) (loaded f HwAddr c)) =
     Some {| t_flash := T x; t_prot := false; t_data := None |}) ->
  (forall st s', ready s' -> restored s s' -> st = EFI_SUCCESS \/ st = EFI_DEVICE_ERROR -> (unblocked -> st = EFI_SUCCESS) ->
     lupdates chip cseen (T (chip s.(bridge))) s.(bridge) s'.(bridge) st -> Q (st, []) s') ->
  wp (SpiProtocolExecute (Z.of_nat op) 0 dc true so A 0 [] EnumSpiRegionBios) Q s.
Proof.
  intros Hr Hop Re Rt Rm HA Hsz HTs HT HQ. pose proof Hr as [R1 R2 R3 R4 _ _ R6 R7]. pose proof chip_range.
  set (off := s.(Instance).(SpiInitTable).(BiosStartOffset)) in *.
  apply (execute_idle _ _ _ _ _ _ _ _ _ (flashed (T (chip s.(bridge))) s.(bridge) [])); [done|done|lia|lia| | |].
  - intros r d d' f. apply flashed_step.
  - intros s1 Hi1 H1. pose proof (step_idle _ _ _ R2 H1) as (K1 & K2 & K3 & [K4 K5]).
    assert (Hs1 : at_rcrb s1) by (unfold at_rcrb; by rewrite Hi1).
    apply (SendSpiCmd_cycles op 0 dc true so A 0 [] _ e (A + off)); rewrite ?Hi1; [done|lia|done|by rewrite Rt|lia|by rewrite K1|apply wrap_small; lia|by right|].
    intros s2 Hf2 H2. pose proof (step_idle _ _ _ K2 H2) as (L1 & L2 & L3 & [L4 L5]). cbn [send_loop Z.to_nat].
    rewrite cycle_count_0 by lia. apply wp_bind.
    apply (send_cycle_known _ _ _ _ _ _ _ _ (fun x => {| t_flash := T x; t_prot := false; t_data := None |}));
      [unfold at_rcrb; by rewrite (proj1 Hf2)|done|lia|lia|lia|cbn; lia| |].
    { intros f x Hf k. rewrite L1, K1 in Hf. rewrite L3, K3, R3. subst k. rewrite L1, K1. by apply HT. }
    intros r s3 x Hf3 Hk3 Hi3 Hx Hp3 Hr3 Hub3.
    assert (HF : forall st, (EFI_ERROR st = false -> is_Some r) -> st = EFI_SUCCESS \/ st = EFI_DEVICE_ERROR -> (unblocked -> st = EFI_SUCCESS) ->
      flashed (T (chip s.(bridge))) s.(bridge) [] (st, []) s3.(bridge)).
    { intros st Hst Hst2 Hst3. split; [done|]. split; [destruct Hp3 as (_ & _ & [->| ->]); [congruence|done]|]. split; [done|]. split; [done|]. split; [done|].
      eapply (lupdates_quiet_l _ s2.(bridge)); [split; [intros a; by rewrite L4|auto]| |eapply progress_updates; [exact Hp3|done|]].
      - apply HTs. intros a. by rewrite Hx, L4, K4.
      - intros E. destruct (Hst E) as [front ->]. exact (proj1 (Hr3 front eq_refl)). }
    destruct r as [front|].
    + destruct (Hr3 front eq_refl) as [_ Hfr]. assert (front = []) as -> by (by destruct so; rewrite Hfr).
      apply wp_ret. split; [by eapply framed_trans|]. split; [by rewrite L1 in Hk3|]. apply HF; [eauto|by left|done].
    + apply wp_ret. split; [by eapply framed_trans|]. split; [by rewrite L1 in Hk3|]. apply HF; [done|by right|intros Hu; by destruct (Hub3 Hu)].
  - intros [st b'] s' HR (F1 & F2 & F3 & F4 & F5 & F6). cbn in F3, F4, F5, F6. rewrite F3. apply HQ; [by eapply ready_restored|done..].
Qed.

Lemma execute_erase s A (Q : EFI_STATUS * list Z -> spi D -> Prop) :
  ready s -> 0 <= A -> A mod SPI_ERASE_SECTOR_SIZE = 0 -> A + SPI_ERASE_SECTOR_SIZE <= s.(Instance).(SpiInitTable).(BiosSize) ->
  (forall st s', ready s' -> restored s s' -> st = EFI_SUCCESS \/ st = EFI_DEVICE_ERROR -> (unblocked -> st = EFI_SUCCESS) ->
     lupdates chip cseen (erase_lin (A + s.(Instance).(SpiInitTable).(BiosStartOffset)) SPI_ERASE_SECTOR_SIZE (chip s.(bridge))) s.(bridge) s'.(bridge) st ->
     Q (st, []) s') ->
  wp (SpiProtocolExecute 5 0 false true false A 0 [] EnumSpiRegionBios) Q s.
Proof.
  intros Hr HA Hm Hsz HQ. pose proof Hr as [R1 R2 R3 R4 _ (e & Re & Rt) R6 R7]. pose proof R4 as (_ & _ & Hk5 & _).
  unfold SPI_ERASE_SECTOR_SIZE in *.
  apply (execute_nobytes s 5 false false A e
    (erase_lin (A + s.(Instance).(SpiInitTable).(BiosStartOffset)) SPI_ERASE_SECTOR_SIZE)); [done|lia|done|done|by rewrite Hk5|done|lia| | |done].
  - intros x y. apply erase_lin_same.
  - intros x HwAddr c f _. subst HwAddr c. apply part_erase; [done|apply enabled_writable|lia| |].
    + unfold SPI_ERASE_SECTOR_SIZE. rewrite Z.add_mod by lia. by rewrite Hm, (proj2 R6).
    + unfold SPI_ERASE_SECTOR_SIZE. lia.
Qed.

(** A write of no bytes: the controller counts sixty-four, and programs what its data registers hold. *)
Lemma execute_empty_write s A (Q : EFI_STATUS * list Z -> spi D -> Prop) :
  ready s -> 0 <= A -> A mod 256 = 0 -> A + 64 <= s.(Instance).(SpiInitTable).(BiosSize) ->
  (forall st s', ready s' -> restored s s' -> st = EFI_SUCCESS \/ st = EFI_DEVICE_ERROR -> (unblocked -> st = EFI_SUCCESS) ->
     lupdates chip cseen (write_lin (A + s.(Instance).(SpiInitTable).(BiosStartOffset)) (data_bytes 64 (regs_of s.(bridge)).(spid)) (chip s.(bridge)))
       s.(bridge) s'.(bridge) st -> Q (st, []) s') ->
  wp (SpiProtocolExecute 3 0 true true true A 0 [] EnumSpiRegionBios) Q s.
Proof.
  intros Hr HA Hm Hsz HQ. pose proof Hr as [R1 R2 R3 R4 (e & Re & Rt) _ R6 R7]. pose proof R4 as (P1 & P2 & _ & _ & P5). pose proof chip_range.
  set (off := s.(Instance).(SpiInitTable).(BiosStartOffset)) in *. unfold SPI_ERASE_SECTOR_SIZE in *.
  assert (Ho : off mod 256 = 0) by (apply Z.mod_divide; [lia|]; destruct R6 as [_ R6b]; apply Z.mod_divide in R6b as [q Hq]; [|lia]; exists (q * 16); lia).
  apply (execute_nobytes s 3 true true A e (write_lin (A + off) (data_bytes 64 (regs_of s.(bridge)).(spid))));
    [done|lia|done|done|by rewrite P1|done|lia| | |done].
  - intros x y. apply write_lin_same.
  - intros x HwAddr c f Hf. subst HwAddr c. fold off. rewrite command_of_word by lia. change (Z.to_nat (Z.of_nat 3)) with 3%nat.
    change (2 * Z.of_nat 3) with 6. change (8 * 0) with 0. unfold part_command.
    cbn [cmd_type cmd_opcode cmd_prefix cmd_count cmd_address loaded set_spia set_spid set_cntl preop optype opmenu spia spid].
    rewrite Z.shiftr_0_r, P1, P2, P5. change (0 =? 0) with true. cbn iota. change B_QNC_RCRB_SPIA_MASK with (Z.ones 24).
    rewrite Z.land_ones, (Z.mod_small (A + off)) by lia.
    change (set_spia ?a (set_spid f (set_cntl ?c ?k))) with (set_spia a (set_spid f (set_cntl c k))).
    match goal with |- context [writable ?k] => replace (writable k) with true by (symmetry; apply (enabled_writable true (regs_of s.(bridge)))) end.
    assert (Hpage : (A + off) / 256 = (A + off + 64 - 1) / 256).
    { apply Z.div_unique with 63; [lia|]. pose proof (Z.div_mod (A + off) 256 ltac:(lia)) as Hd. rewrite Z.add_mod, Hm, Ho in Hd by lia. change ((0 + 0) mod 256) with 0 in Hd. lia. }
    rewrite Hpage, Z.eqb_refl, (proj2 (Z.leb_le _ _)) by lia. cbn [andb negb]. do 3 f_equal.
    unfold data_bytes. apply map_ext. intros j. rewrite (Hf j). by rewrite decide_False by lia.
Qed.
(** ** Commands that keep the contents *)

Lemma progress_quiet t (d d' : D) : progress t d d' -> lsame t.(t_flash) (chip d) -> lquiet chip cseen d d'.
Proof.
  intros (P1 & P2 & P3) Hx. split.
  - intros a. destruct (P1 a) as [->| ->]; [done|apply Hx].
  - intros x Hs. destruct (P2 x Hs) as [|Ht]; [done|]. apply (cseen_same d (chip d)); [|apply cseen_now].
    intros a. destruct (Ht a) as [->| ->]; [done|by rewrite Hx].
Qed.

(** What such a command establishes: [pr] is the protection it asks for, [data] what it shifts in. *)
Definition stilled (pr : bool) (data : option (list Z)) (d0 : D) (r : EFI_STATUS * list Z) (d : D) : Prop :=
  pending d = None /\ lquiet chip cseen d0 d /\ (prot d = prot d0 \/ prot d = pr) /\
  (r.1 = EFI_SUCCESS \/ r.1 = EFI_DEVICE_ERROR) /\ (unblocked -> r.1 = EFI_SUCCESS) /\
  (r.1 = EFI_SUCCESS -> prot d = pr /\ forall l, data = Some l -> r.2 = l).

Lemma stilled_step pr data d0 r d d' f : stilled pr data d0 r d -> step f d d' -> stilled pr data d0 r d'.
Proof.
  intros (H1 & [H2 H3] & H4 & H5 & H6 & H7) Hs. pose proof (step_idle _ _ _ H1 Hs) as (_ & K2 & K3 & [K4 K5]).
  split; [done|]. split; [split; [intros a; by rewrite K4|auto]|]. by rewrite K3.
Qed.

Lemma execute_still (op : nat) p at_ (so : bool) A n b region e HwAddr pr data (Q : EFI_STATUS * list Z -> spi D -> Prop) s :
  at_rcrb s -> idle s -> (op < 8)%nat -> 0 <= p < 2 -> s.(Instance).(SpiInitTable).(OpcodeMenu) !! op = Some e -> e.(OpType) <> EnumSpiOpcodeRead ->
  s.(Instance).(SpiInitTable).(BiosSize) <> 0 -> (regs_of s.(bridge)).(opmenu) op <> 0 ->
  (SpiOffset2Physical s.(Instance) A region BaseAddress LimitAddress).1.1 = HwAddr ->
  0 < n <= 64 -> cycle_count HwAddr n = n -> length b = Z.to_nat n -> (forall l, data = Some l -> so = false /\ length l = Z.to_nat n) ->
  (forall f x, data_loaded so (Z.to_nat n) b (regs_of s.(bridge)).(spid) f ->
     let k := loaded f HwAddr (set_cntl (enabled so (regs_of s.(bridge)).(cntl)) (regs_of s.(bridge))) in
     part_command chip_size jedec_id k x (prot s.(bridge)) (command_of (cycle_word (Z.of_nat op) p true at_ n) k) =
     Some {| t_flash := x; t_prot := pr; t_data := data |}) ->
  (forall r s', restored s s' -> stilled pr data s.(bridge) r s'.(bridge) -> Q r s') ->
  wp (SpiProtocolExecute (Z.of_nat op) p true at_ so A n b region) Q s.
Proof.
  intros Hs Hi Hop Hp He Ht Hb Hm HH Hn Hc Hlb Hdata HT HQ.
  apply (execute_idle _ _ _ _ _ _ _ _ _ (stilled pr data s.(bridge))); [done|done|lia|lia| | |done].
  { intros r d d' f. apply stilled_step. }
  intros s1 Hi1 H1. pose proof (step_idle _ _ _ Hi H1) as (K1 & K2 & K3 & [K4 K5]).
  assert (Hs1 : at_rcrb s1) by (unfold at_rcrb; by rewrite Hi1).
  apply (SendSpiCmd_cycles op p true at_ so A n b region e HwAddr); rewrite ?Hi1; [done|done|done|done|done|by rewrite K1|done|by left|].
  intros s2 Hf2 H2. pose proof (step_idle _ _ _ K2 H2) as (L1 & L2 & L3 & [L4 L5]). cbn [send_loop]. rewrite Hc. apply wp_bind.
  apply (send_cycle_known _ _ _ _ _ _ _ _ (fun x => {| t_flash := x; t_prot := pr; t_data := data |}));
    [unfold at_rcrb; by rewrite (proj1 Hf2)|done|lia|lia|lia|lia| |].
  { intros f x Hf k. subst k. rewrite L1, K1 in Hf. rewrite L3, K3, L1, K1. by apply HT. }
  intros r s3 x Hf3 Hk3 Hi3 Hx Hp3 Hr3 Hub3. rewrite L1 in Hk3.
  assert (Hq : lquiet chip cseen s.(bridge) s3.(bridge)).
  { pose proof (progress_quiet _ _ _ Hp3 Hx) as [Q1 Q2]. split; [intros a; by rewrite Q1, L4, K4|auto]. }
  assert (Hpr : prot s3.(bridge) = prot s.(bridge) \/ prot s3.(bridge) = pr).
  { destruct Hp3 as (_ & _ & [E|E]); [left|right; exact E]. congruence. }
  destruct r as [front|].
  - destruct (Hr3 front eq_refl) as [(G1 & G2 & G3) ->]. rewrite Z.sub_diag. cbn [Z.ltb Z.compare].
    apply wp_ret. split; [by eapply framed_trans|]. split; [done|]. split; [done|]. split; [done|]. split; [done|].
    split; [by left|]. split; [done|]. intros _. split; [done|]. intros l El. destruct (Hdata l El) as [-> Hl]. specialize (G3 l El). rewrite Hl, Z2Nat.id in G3 by lia. cbn [snd].
    rewrite G3, drop_ge by (rewrite Hlb, Hl; lia). by rewrite app_nil_r.
  - apply wp_ret. split; [by eapply framed_trans|]. split; [done|]. split; [done|]. split; [done|]. split; [done|].
    split; [by right|]. split; [intros Hu; by destruct (Hub3 Hu)|done].
Qed.
End Execute.
