(* ===== verification/SpiInit.v ===== *)
(** * The SPI host controller driver: configuration

    [SpiProtocolInit] identifies the part, fills the opcode menu and takes the protection of blocks away; the search in the table
    of parts ends at the entry that fits. *)

From S2P Require Import Prelude QNCAccess FvbDefs FvbSpec SpiDefs SpiSpec SpiSend SpiExecute.
From stdpp Require Import list functions.
#[local] Open Scope Z_scope.

(** ** The types of the opcodes *)

Lemma opcode_type_range e : 0 <= opcode_type e < 4.
Proof. unfold opcode_type. by destruct (OpType e). Qed.

Lemma opcode_type_bit e r : 2 <= r -> Z.testbit (opcode_type e) r = false.
Proof. intros Hr. apply (in_width_bit 2); [apply opcode_type_range|done]. Qed.

Lemma opcode_types_low menu i acc j : 0 <= i -> j < 2 * i -> Z.testbit (opcode_types menu i acc) j = Z.testbit acc j.
Proof.
  revert i acc. induction menu as [|e menu IH]; intros i acc Hi Hj; cbn [opcode_types]; [done|].
  rewrite IH by lia. rewrite Z.lor_spec, wrap_bit, shiftl_bit by lia. rewrite (Z.testbit_neg_r _ (j - i * 2)) by lia.
  by rewrite orb_false_r.
Qed.

Lemma opcode_types_bit menu (k : nat) e i acc r :
  menu !! k = Some e -> 0 <= i -> i + Z.of_nat k < 8 -> 0 <= r < 2 -> (forall j, 2 * i <= j -> Z.testbit acc j = false) ->
  Z.testbit (opcode_types menu i acc) (2 * (i + Z.of_nat k) + r) = Z.testbit (opcode_type e) r.
Proof.
  revert menu i acc. induction k as [|k IH]; intros menu i acc He Hi Hk Hr Hacc; (destruct menu as [|e' menu]; [done|]); cbn [opcode_types].
  - injection He as ->. rewrite opcode_types_low by lia. rewrite Z.lor_spec, Hacc, wrap_bit, shiftl_bit by lia. cbn [orb].
    rewrite (proj2 (Z.ltb_lt _ 16)) by lia. rewrite andb_true_r. f_equal. lia.
  - replace (i + Z.of_nat (S k)) with (i + 1 + Z.of_nat k) by lia. apply IH; [done|lia|lia|done|]. intros j Hj.
    rewrite Z.lor_spec, Hacc, wrap_bit, shiftl_bit by lia. by rewrite opcode_type_bit by lia.
Qed.

Lemma opcode_types_field menu (k : nat) e : (length menu <= 8)%nat -> menu !! k = Some e ->
  Z.land (Z.shiftr (opcode_types menu 0 0) (2 * Z.of_nat k)) 3 = opcode_type e.
Proof.
  intros Hl He. pose proof (lookup_lt_Some _ _ _ He). change 3 with (Z.ones 2). bits r Hr.
  destruct (Z.ltb_spec r 2); [|by rewrite !andb_false_r, opcode_type_bit by lia].
  rewrite (proj2 (Z.leb_le 0 r)) by lia. cbn [andb]. rewrite andb_true_r.
  replace (r + 2 * Z.of_nat k) with (2 * (0 + Z.of_nat k) + r) by lia. apply opcode_types_bit; [done|lia|lia|lia|]. intros. apply Z.testbit_0_l.
Qed.

(** ** Tables *)

(** A table as the driver needs it: eight opcodes, the first of which identifies the part, and no other; a status write with
    its code; the write enable before commands; and an image that starts at a page. *)
Record table_ok (t : SPI_INIT_TABLE) : Prop := {
  table_prefix : exists p1, t.(PrefixOpcode) = [0x06; p1] /\ in_width 8 p1;
  table_eight : length t.(OpcodeMenu) = 8%nat;
  table_codes : Forall (fun e => 0 < e.(Code) < 256) t.(OpcodeMenu);
  table_jedec : exists e rest, t.(OpcodeMenu) = e :: rest /\ e.(Operation) = EnumSpiOperationJedecId /\ e.(Code) = 0x9F /\
    e.(OpType) = EnumSpiOpcodeReadNoAddr /\ Forall (fun e => e.(Operation) <> EnumSpiOperationJedecId) rest;
  table_status : Forall (fun e => e.(Operation) = EnumSpiOperationWriteStatus -> e.(Code) = 0x01 /\ e.(OpType) = EnumSpiOpcodeWriteNoAddr) t.(OpcodeMenu);
  table_start : 0 <= t.(BiosStartOffset) < 2 ^ 32 - 256 /\ t.(BiosStartOffset) mod 256 = 0;
  table_size : t.(BiosSize) <> 0
}.

Definition table_id (t : SPI_INIT_TABLE) : list Z := [t.(VendorId); t.(DeviceId0); t.(DeviceId1)].

Lemma cycle_count_page A n : 0 <= A < 2 ^ 32 - 256 -> A mod 256 = 0 -> 0 < n < 8 -> cycle_count A n = n.
Proof.
  intros HA Hm Hn. unfold cycle_count. rewrite next_page, Hm by lia. rewrite (wrap_small 32 (A + n)) by lia.
  rewrite (proj2 (Z.ltb_ge _ _)) by lia. rewrite (proj2 (Z.leb_gt _ _)) by lia.
  assert (n = 1 \/ n = 2 \/ n = 3 \/ n = 4 \/ n = 5 \/ n = 6 \/ n = 7) as E by lia.
  by repeat (destruct E as [->|E]; [done|]); subst.
Qed.

(** ** What the registers hold *)

(** The configuration of [t], with the opcodes before the [n]-th. *)
Record configured (t : SPI_INIT_TABLE) (n : nat) (k : ctl) : Prop := {
  conf_scl : k.(scl) = false;
  conf_preop : k.(preop) = u16 (Z.lor (Z.shiftl (t.(PrefixOpcode) !!! 1%nat) 8) 0x06);
  conf_optype : k.(optype) = opcode_types t.(OpcodeMenu) 0 0;
  conf_menu : forall i e, t.(OpcodeMenu) !! i = Some e -> (i < n)%nat -> k.(opmenu) i = e.(Code)
}.

Lemma configured_setup t n k k' : same_setup k k' -> configured t n k -> configured t n k'.
Proof. intros (f & a & ->) [C1 C2 C3 C4]. by split. Qed.

Lemma configured_cntl t n k c : configured t n k -> configured t n (set_cntl c k).
Proof. intros [C1 C2 C3 C4]. by split. Qed.

Lemma configured_next t n k e : t.(OpcodeMenu) !! n = Some e -> 0 < e.(Code) < 256 -> configured t n k -> configured t (S n) (set_opmenu n (u8 e.(Code)) k).
Proof.
  intros He Hc [C1 C2 C3 C4]. unfold set_opmenu. rewrite C1. split; [done..|]. intros i e' He' Hi. cbn [opmenu]. unfold put.
  destruct (decide (i = n)) as [->|]; [|apply C4; [done|lia]]. rewrite He in He'. injection He' as ->. apply wrap_small. lia.
Qed.

Lemma configured_type t n k i e : configured t n k -> length t.(OpcodeMenu) = 8%nat -> t.(OpcodeMenu) !! i = Some e ->
  Z.land (Z.shiftr k.(optype) (2 * Z.of_nat i)) 3 = opcode_type e.
Proof. intros C Hl He. rewrite (conf_optype _ _ _ C). apply opcode_types_field; [lia|done]. Qed.

Lemma opcode_types_width menu i acc : 0 <= i -> in_width 16 acc -> u16 (opcode_types menu i acc) = opcode_types menu i acc.
Proof.
  revert i acc. induction menu as [|e menu IH]; intros i acc Hi Ha; cbn [opcode_types]; [by apply wrap_small|].
  apply IH; [lia|]. apply lor_in_width; [lia|done|]. apply wrap_in_width. lia.
Qed.

(** The bytes of the prefix register. *)
Lemma preop_bytes p1 : in_width 8 p1 ->
  Z.land (u16 (Z.lor (Z.shiftl p1 8) 0x06)) 0xFF = 0x06 /\ Z.land (Z.shiftr (u16 (Z.lor (Z.shiftl p1 8) 0x06)) 8) 0xFF = p1.
Proof.
  intros H1. change 0xFF with (Z.ones 8). split; bits i Hi.
  - destruct (Z.ltb_spec i 8).
    + rewrite (Z.testbit_neg_r p1) by lia. rewrite (proj2 (Z.ltb_lt i 16)) by lia. rewrite (proj2 (Z.leb_le 0 i)) by lia. cbn [orb andb].
      by rewrite !andb_true_r.
    + rewrite !andb_false_r. symmetry. apply (in_width_bit 3); [done|lia].
  - rewrite (proj2 (Z.leb_le 0 i)) by lia. cbn [andb]. replace (i + 8 - 8) with i by lia. destruct (Z.ltb_spec i 8).
    + rewrite (proj2 (Z.ltb_lt (i + 8) 16)) by lia. rewrite (in_width_bit 3 6) by (done || lia). by rewrite orb_false_r, !andb_true_r.
    + rewrite !andb_false_r. symmetry. by apply (in_width_bit 8).
Qed.

Lemma configured_prefix t n k : configured t n k -> table_ok t -> Z.land k.(preop) 0xFF = 0x06.
Proof. intros C Ht. destruct (table_prefix _ Ht) as (p1 & Hp & H1). rewrite (conf_preop _ _ _ C), Hp. by apply preop_bytes. Qed.

Lemma configured_prefix_1 t n k : configured t n k -> table_ok t -> Z.land (Z.shiftr k.(preop) 8) 0xFF = t.(PrefixOpcode) !!! 1%nat.
Proof. intros C Ht. destruct (table_prefix _ Ht) as (p1 & Hp & H1). rewrite (conf_preop _ _ _ C), Hp. by apply preop_bytes. Qed.

(** The registers when the menu is still to be filled. *)
Lemma configured_start t p1 k : k.(scl) = false -> t.(PrefixOpcode) = [0x06; p1] ->
  configured t 0 (set_optype (u16 (opcode_types t.(OpcodeMenu) 0 0)) (set_preop (u16 (Z.lor (Z.shiftl p1 8) 0x06)) k)).
Proof.
  intros Hk Hp. unfold set_optype, set_preop. rewrite Hk. cbn [scl].
  split; cbn [scl preop optype opmenu]; [done|by rewrite Hp|by apply opcode_types_width|intros i e _ Hi; lia].
Qed.

Section Init.
Context {MB : MessageBus} {HP : HmiscPlain} {D : Type} {B : SpiBus D} {V : SpiView D} {LB : SpiLaws D}.
Context (BaseAddress LimitAddress : Z).
Implicit Types (s : spi D) (t : SPI_INIT_TABLE).
Abbreviation SpiProtocolExecute := (SpiProtocolExecute BaseAddress LimitAddress).
Abbreviation menu_loop := (menu_loop BaseAddress LimitAddress).
Abbreviation UnlockFlashComponents := (UnlockFlashComponents BaseAddress LimitAddress).
Abbreviation SpiProtocolInit := (SpiProtocolInit BaseAddress LimitAddress).

(** Reading the identification of the part. *)
Lemma execute_jedec (at_ : bool) n (region : SPI_REGION_TYPE) t e (Q : EFI_STATUS * list Z -> spi D -> Prop) s :
  at_rcrb s -> idle s -> table_ok t -> s.(Instance).(SpiInitTable) = t -> configured t n (regs_of s.(bridge)) -> (0 < n)%nat ->
  t.(OpcodeMenu) !! 0%nat = Some e ->
  (forall r s', restored s s' -> stilled (prot s.(bridge)) (Some jedec_id) s.(bridge) r s'.(bridge) -> Q r s') ->
  wp (SpiProtocolExecute 0 0 true at_ false 0 3 [0; 0; 0] region) Q s.
Proof.
  intros Hs Hi [T1 T2 T3 T4 T5 T6 T7] Ht Hc Hn He HQ. destruct T4 as (e' & rest & Em & J1 & J2 & J3 & _).
  assert (e' = e) as -> by (rewrite Em in He; by injection He).
  set (A := (SpiOffset2Physical s.(Instance) 0 region BaseAddress LimitAddress).1.1).
  assert (HA : 0 <= A < 2 ^ 32 - 256 /\ A mod 256 = 0).
  { subst A. unfold SpiOffset2Physical. cbn [fst]. destruct (decide _); [done|]. rewrite Ht, Z.add_0_l, wrap_small by lia. done. }
  pose proof (conf_menu _ _ _ Hc 0 e He Hn) as Hm0.
  apply (execute_still BaseAddress LimitAddress 0 0 at_ false 0 3 [0; 0; 0] region e A (prot s.(bridge)) (Some jedec_id));
    rewrite ?Ht; [done|done|lia|lia|done|by rewrite J3|done|by rewrite Hm0, J2|done|lia|by apply cycle_count_page; lia|done| | |done].
  - intros l [= <-]. split; [done|]. by rewrite jedec_three.
  - intros f x _ k. subst k. rewrite command_of_word by lia.
    pose proof (configured_type _ _ _ _ _ Hc T2 He) as Hty. rewrite Z.mul_0_r, Z.shiftr_0_r in Hty.
    unfold part_command. cbn [cmd_type cmd_opcode cmd_prefix cmd_count cmd_address loaded set_spia set_spid set_cntl preop optype opmenu spia spid].
    change (Z.to_nat (Z.of_nat 0)) with 0%nat. change (2 * Z.of_nat 0) with 0. rewrite Z.shiftr_0_r, Hty, Hm0, J2. unfold opcode_type. by rewrite J3.
Qed.

(** Taking the protection away. *)
Lemma execute_unlock (u : nat) t e (Q : EFI_STATUS * list Z -> spi D -> Prop) s :
  at_rcrb s -> idle s -> table_ok t -> s.(Instance).(SpiInitTable) = t -> configured t 8 (regs_of s.(bridge)) ->
  t.(OpcodeMenu) !! u = Some e -> e.(Operation) = EnumSpiOperationWriteStatus ->
  (forall r s', restored s s' -> stilled false None s.(bridge) r s'.(bridge) -> Q r s') ->
  wp (SpiProtocolExecute (Z.of_nat u) 0 true true true 0 1 [0] EnumSpiRegionAll) Q s.
Proof.
  intros Hs Hi Hok Ht Hc He Ho HQ. pose proof Hok as [T1 T2 T3 T4 T5 T6 T7]. pose proof (lookup_lt_Some _ _ _ He) as Hu.
  destruct (Forall_lookup_1 _ _ _ _ T5 He Ho) as [Hcode Hty]. pose proof (conf_menu _ _ _ Hc u e He ltac:(lia)) as Hmu. rewrite Hcode in Hmu.
  apply (execute_still BaseAddress LimitAddress u 0 true true 0 1 [0] EnumSpiRegionAll e 0 false None);
    rewrite ?Ht; [done|done|lia|lia|done|by rewrite Hty|done|by rewrite Hmu|done|lia|done|done|done| |done].
  intros f x Hf k. subst k. rewrite command_of_word by lia. pose proof (configured_type _ _ _ _ _ Hc T2 He) as Hfld.
  unfold part_command. cbn [cmd_type cmd_opcode cmd_prefix cmd_count cmd_address loaded set_spia set_spid set_cntl preop optype opmenu spia spid].
  rewrite Nat2Z.id, Z.mul_0_r, Z.shiftr_0_r, Hfld, Hmu, (configured_prefix _ _ _ Hc Hok). unfold opcode_type. rewrite Hty.
  change (set_spia (Z.land 0 B_QNC_RCRB_SPIA_MASK) (set_spid f (set_cntl ?c ?k))) with (loaded f 0 (set_cntl c k)).
  rewrite (Hf 0%nat) by (cbn; lia). change (u8 ([0] !!! 0%nat) =? 0) with true. rewrite andb_true_r.
  pose proof (enabled_writable true (regs_of s.(bridge))) as Hw.
  by rewrite (setup_writable _ _ (loaded_setup f 0 _)) in *; rewrite Hw.
Qed.

(** ** The menu *)

(** Nothing but the configuration of the controller changes. *)
Record quietly s s' : Prop := {
  quiet_sb : forall r, s'.(sb).(regs) r = s.(sb).(regs) r;
  quiet_idle : idle s';
  quiet_flash : lquiet chip cseen s.(bridge) s'.(bridge)
}.

Lemma spi_quietly_trans s s1 s2 : quietly s s1 -> quietly s1 s2 -> quietly s s2.
Proof.
  intros [H1 H2 [H3 H4]] [K1 K2 [K3 K4]]. split; [intros r; by rewrite K1|done|]. split; [intros a; by rewrite K3|auto].
Qed.

Lemma quietly_step f s s' : s'.(sb) = s.(sb) -> idle s -> step f s.(bridge) s'.(bridge) -> quietly s s'.
Proof. intros Hb Hi Hs. pose proof (step_idle _ _ _ Hi Hs) as (_ & K2 & _ & K4). split; [intros r; by rewrite Hb|done|done]. Qed.

Lemma quietly_stilled pr data r s s' : restored s s' -> stilled pr data s.(bridge) r s'.(bridge) -> quietly s s'.
Proof. intros HR (H1 & H2 & _). split; [apply (same_sb _ _ HR)|done|done]. Qed.

(** The index of the last opcode that writes the status. *)
Fixpoint unlock_index (menu : list SPI_OPCODE_MENU_ENTRY) (Index u : Z) : Z :=
  match menu with
  | [] => u
  | e :: menu => unlock_index menu (Index + 1) (if decide (e.(Operation) = EnumSpiOperationWriteStatus) then Index else u)
  end.

(** One opcode goes into the menu. *)
Lemma menu_entry t n e (k : M (spi D) (EFI_STATUS * Z)) (Q : EFI_STATUS * Z -> spi D -> Prop) s :
  at_rcrb s -> idle s -> table_ok t -> s.(Instance).(SpiInitTable) = t -> t.(OpcodeMenu) !! n = Some e -> configured t n (regs_of s.(bridge)) ->
  (forall s1, s1.(Instance) = s.(Instance) -> quietly s s1 -> configured t (S n) (regs_of s1.(bridge)) -> prot s1.(bridge) = prot s.(bridge) -> wp k Q s1) ->
  wp (Opmenu ← Reg R_QNC_RCRB_SPIOPMENU;
      _ ← on_bridge (MmioWrite8 (u32 (Opmenu + Z.of_nat n)) e.(Code));
      _ ← on_bridge (MmioRead8 (u32 (Opmenu + Z.of_nat n))); k) Q s.
Proof.
  intros Hs Hi Ht Hti He Hc HQ. pose proof (lookup_lt_Some _ _ _ He) as Hn. rewrite (table_eight _ Ht) in Hn. pose proof rcrb_range.
  apply wp_bind, wp_Reg; [done|by unfold R_QNC_RCRB_SPIOPMENU, R_QNC_RCRB_SPIBASE|].
  rewrite wrap_small by (unfold R_QNC_RCRB_SPIOPMENU, R_QNC_RCRB_SPIBASE; lia).
  apply wp_bind, wp_on_bridge. eapply wp_mono; [by apply opmenu_write|]. intros [] d1 H1.
  apply wp_bind, wp_on_bridge. eapply wp_mono; [by apply opmenu_read|]. intros v d2 [_ H2]. cbn [bridge] in *.
  pose proof (step_then _ _ _ _ _ H1 H2) as H12. pose proof (step_idle _ _ _ Hi H12) as (K1 & K2 & K3 & K4).
  apply HQ; [done|by eapply quietly_step| |done]. cbn [bridge]. rewrite K1.
  apply configured_next; [done|by apply (Forall_lookup_1 _ _ _ _ (table_codes _ Ht) He)|done].
Qed.

(** The opcodes that do not identify the part. *)
Lemma menu_loop_rest t menu pre u (Q : EFI_STATUS * Z -> spi D -> Prop) s :
  at_rcrb s -> idle s -> table_ok t -> s.(Instance).(SpiInitTable) = t -> t.(OpcodeMenu) = pre ++ menu ->
  Forall (fun e => e.(Operation) <> EnumSpiOperationJedecId) menu -> configured t (length pre) (regs_of s.(bridge)) ->
  (forall s', s'.(Instance) = s.(Instance) -> quietly s s' -> configured t 8 (regs_of s'.(bridge)) -> prot s'.(bridge) = prot s.(bridge) ->
     Q (EFI_SUCCESS, unlock_index menu (Z.of_nat (length pre)) u) s') ->
  wp (menu_loop menu (Z.of_nat (length pre)) u) Q s.
Proof.
  revert pre u s. induction menu as [|e menu IH]; intros pre u s Hs Hi Ht Hti Hm Hj Hc HQ; cbn [SpiDefs.menu_loop unlock_index] in *.
  { apply wp_ret, HQ; [done| | |done].
    - split; [done|done|]. split; [done|auto].
    - rewrite app_nil_r in Hm. rewrite <- (table_eight _ Ht), Hm. done. }
  apply Forall_cons_1 in Hj as [Hj1 Hj]. assert (He : t.(OpcodeMenu) !! length pre = Some e) by (by rewrite Hm, list_lookup_middle).
  apply (menu_entry t); [done..|]. intros s1 H1 Hq1 Hc1 Hp1. apply wp_bind, wp_gets, wp_bind. rewrite decide_False by done. apply wp_ret.
  cbn [EFI_ERROR bool_decide negb]. change (EFI_ERROR EFI_SUCCESS) with false. cbn iota.
  replace (Z.of_nat (length pre) + 1) with (Z.of_nat (length (pre ++ [e]))) in * by (rewrite length_app; cbn; lia).
  apply IH; [unfold at_rcrb; by rewrite H1|by apply Hq1|done|by rewrite H1|by rewrite <- app_assoc|done|by rewrite length_app, Nat.add_1_r|].
  intros s2 H2 Hq2 Hc2 Hp2. apply HQ; [congruence|by eapply spi_quietly_trans|done|congruence].
Qed.

(** How the menu is filled: the part is the one of the table, or it is not, or a cycle was blocked. *)
Definition menu_result t (st : EFI_STATUS) (k : ctl) : Prop :=
  st = EFI_SUCCESS /\ jedec_id = table_id t /\ configured t 8 k \/
  st = EFI_INVALID_PARAMETER /\ jedec_id <> table_id t \/ st = EFI_DEVICE_ERROR /\ ~ unblocked.

Lemma menu_loop_spec t (Q : EFI_STATUS * Z -> spi D -> Prop) s :
  at_rcrb s -> idle s -> table_ok t -> s.(Instance).(SpiInitTable) = t -> configured t 0 (regs_of s.(bridge)) ->
  (forall st u s', s'.(Instance) = s.(Instance) -> quietly s s' -> prot s'.(bridge) = prot s.(bridge) -> (regs_of s'.(bridge)).(scl) = false ->
     menu_result t st (regs_of s'.(bridge)) -> (st = EFI_SUCCESS -> u = unlock_index t.(OpcodeMenu) 0 8) -> Q (st, u) s') ->
  wp (menu_loop t.(OpcodeMenu) 0 8) Q s.
Proof.
  intros Hs Hi Ht Hti Hc HQ. pose proof (table_jedec _ Ht) as (e & rest & Em & J1 & J2 & J3 & J4).
  assert (He : t.(OpcodeMenu) !! 0%nat = Some e) by (by rewrite Em). rewrite Em. cbn [SpiDefs.menu_loop].
  apply (menu_entry t 0); [done..|]. intros s1 H1 Hq1 Hc1 Hp1. apply wp_bind, wp_gets, wp_bind. rewrite decide_True by done.
  assert (Hs1 : at_rcrb s1) by (unfold at_rcrb; by rewrite H1).
  apply wp_bind, (execute_jedec true 1 EnumSpiRegionDescriptor t e); [done|by apply Hq1|done|by rewrite H1|done|lia|done|].
  intros [st b] s2 HR HS. pose proof (quietly_stilled _ _ _ _ _ HR HS) as Hq2. destruct HS as (_ & _ & S3 & S4 & S5 & S6). cbn [fst snd] in *.
  assert (Hp2 : prot s2.(bridge) = prot s.(bridge)) by (destruct S3; congruence).
  assert (Hi2 : s2.(Instance) = s.(Instance)) by (by rewrite (same_instance _ _ HR)).
  pose proof (configured_setup _ _ _ _ (same_regs _ _ HR) Hc1) as Hc2.
  assert (HE : forall st', menu_result t st' (regs_of s2.(bridge)) -> st' <> EFI_SUCCESS -> Q (st', 8) s2).
  { intros st' Hm Hne. apply HQ; [done|by eapply spi_quietly_trans|done|by apply Hc2|done|done]. }
  destruct S4 as [->| ->]; change (EFI_ERROR EFI_SUCCESS) with false; change (EFI_ERROR EFI_DEVICE_ERROR) with true; cbn iota; apply wp_ret.
  2:{ change (EFI_ERROR EFI_DEVICE_ERROR) with true. cbn iota. apply wp_ret, HE; [|done]. right. right. split; [done|]. intros Hu. by specialize (S5 Hu). }
  destruct (S6 eq_refl) as [_ Hb]. rewrite (Hb jedec_id eq_refl). rewrite H1, Hti. fold (table_id t).
  destruct (decide (jedec_id = table_id t)) as [E|E].
  - rewrite bool_decide_eq_true_2 by done. change (EFI_ERROR EFI_SUCCESS) with false. cbn iota. rewrite J1.
    apply (menu_loop_rest t rest [e]); [unfold at_rcrb; by rewrite Hi2|by apply Hq2|done|by rewrite Hi2|done|done|done|].
    intros s3 H3 Hq3 Hc3 Hp3. apply HQ; [congruence|eapply spi_quietly_trans; [exact Hq1|by eapply spi_quietly_trans]|congruence|by apply Hc3|by left|].
    intros _. rewrite Em. cbn [unlock_index]. by rewrite J1.
  - rewrite bool_decide_eq_false_2 by done. change (EFI_ERROR EFI_INVALID_PARAMETER) with true. cbn iota.
    apply wp_ret, HE; [|done]. right. by left.
Qed.

(** ** Initialisation *)

Lemma unlock_index_spec menu pre u : (u = 8 \/ exists i e, u = Z.of_nat i /\ (pre ++ menu) !! i = Some e /\ e.(Operation) = EnumSpiOperationWriteStatus) ->
  unlock_index menu (Z.of_nat (length pre)) u = 8 \/
  exists i e, unlock_index menu (Z.of_nat (length pre)) u = Z.of_nat i /\ (pre ++ menu) !! i = Some e /\ e.(Operation) = EnumSpiOperationWriteStatus.
Proof.
  revert pre u. induction menu as [|e menu IH]; intros pre u Hu; [done|]. cbn [unlock_index].
  replace (Z.of_nat (length pre) + 1) with (Z.of_nat (length (pre ++ [e]))) by (rewrite length_app; cbn; lia).
  replace (pre ++ e :: menu) with ((pre ++ [e]) ++ menu) in * by (by rewrite <- app_assoc). apply IH. destruct (decide _) as [Hw|]; [|done].
  right. exists (length pre), e. split; [done|]. split; [|done]. rewrite <- app_assoc. by apply list_lookup_middle.
Qed.

(** The protection may stay when the command is blocked, or when the table has none. *)
Lemma unlock_spec t (Q : EFI_STATUS -> spi D -> Prop) s :
  at_rcrb s -> idle s -> table_ok t -> s.(Instance).(SpiInitTable) = t -> configured t 8 (regs_of s.(bridge)) ->
  (forall st s', s'.(Instance) = s.(Instance) -> quietly s s' -> same_setup (regs_of s.(bridge)) (regs_of s'.(bridge)) ->
     (prot s'.(bridge) = prot s.(bridge) \/ prot s'.(bridge) = false) ->
     (unblocked -> unlock_index t.(OpcodeMenu) 0 8 <> 8 -> prot s'.(bridge) = false) -> Q st s') ->
  wp (UnlockFlashComponents (unlock_index t.(OpcodeMenu) 0 8)) Q s.
Proof.
  intros Hs Hi Ht Hti Hc HQ. unfold SpiDefs.UnlockFlashComponents, SPI_NUM_OPCODE.
  destruct (unlock_index_spec t.(OpcodeMenu) [] 8 ltac:(by left)) as [E|(i & e & E & He & Ho)]; change (Z.of_nat (length (A := SPI_OPCODE_MENU_ENTRY) [])) with 0 in E; rewrite E.
  - apply wp_ret, HQ; [done| |apply same_setup_refl|by left|done]. split; [done|done|]. split; [done|auto].
  - cbn [app] in He. pose proof (lookup_lt_Some _ _ _ He) as Hlt. rewrite (table_eight _ Ht) in Hlt. rewrite (proj2 (Z.leb_gt 8 _)) by lia.
    destruct (table_prefix _ Ht) as (p1 & Hp & _). apply wp_bind, wp_gets, wp_bind. eapply wp_lift; [by rewrite Hti, Hp|].
    change (0x06 =? PCH_SPI_COMMAND_WRITE_ENABLE) with true. cbn iota.
    apply wp_bind, (execute_unlock i t e); [done..|]. intros [st b] s1 HR HS. pose proof (quietly_stilled _ _ _ _ _ HR HS) as Hq.
    destruct HS as (_ & _ & S3 & _ & S5 & S6). cbn [fst] in S5, S6.
    assert (HK : Q st s1 /\ (EFI_ERROR st = false -> Q EFI_SUCCESS s1)).
    { split; [|intros _]; (apply HQ; [apply HR|done|apply HR|done|]); intros Hu _; by apply S6, S5. }
    destruct (EFI_ERROR st); apply wp_ret; [apply HK|by apply HK].
Qed.

(** The hook records registers for the resume; the one outside of SMM also changes BIOS_CNTL. *)
Lemma SpiPhaseInit_spec Smm t (Q : unit -> spi D -> Prop) s :
  at_rcrb s -> idle s -> configured t 8 (regs_of s.(bridge)) ->
  (forall s', s'.(Instance) = s.(Instance) -> quietly s s' -> configured t 8 (regs_of s'.(bridge)) -> prot s'.(bridge) = prot s.(bridge) -> Q tt s') ->
  wp (SpiPhaseInit Smm) Q s.
Proof.
  intros Hs Hi Hc HQ.
  assert (HK : forall s0, s0.(Instance) = s.(Instance) -> quietly s s0 -> configured t 8 (regs_of s0.(bridge)) -> prot s0.(bridge) = prot s.(bridge) ->
    wp (for_each [R_QNC_RCRB_SPIS; R_QNC_RCRB_SPIPREOP; R_QNC_RCRB_SPIOPMENU; R_QNC_RCRB_SPIOPMENU + 4] (fun R =>
      A ← Reg R; on_bridge (S3BootScriptSaveMemWrite 32 A))) Q s0).
  { intros s0 H0 Hq0 Hc0 Hp0.
    apply (wp_for_each (fun _ s' => s'.(Instance) = s.(Instance) /\ quietly s s' /\ configured t 8 (regs_of s'.(bridge)) /\ prot s'.(bridge) = prot s.(bridge)));
      [done| |intros s' (K1 & K2 & K3 & K4); by apply HQ].
    intros pre R post s1 _ (K1 & K2 & K3 & K4). apply wp_bind, wp_gets, wp_on_bridge. eapply wp_mono; [apply script_law|].
    intros [] d H. pose proof (step_idle _ _ _ (quiet_idle _ _ K2) H) as (L1 & L2 & L3 & L4). split; [done|]. split; [|cbn [bridge]; by rewrite L1, L3].
    eapply spi_quietly_trans; [exact K2|]. by apply (quietly_step id); [|apply K2|]. }
  destruct Smm.
  - apply wp_bind, wp_ret, HK; [done|split; [done|done|split; [done|auto]]|done|done].
  - apply wp_bind, wp_on_bridge. eapply wp_mono; [apply cntl_and8|]. intros [] d1 H1.
    pose proof (step_idle _ _ _ Hi H1) as (K1 & K2 & K3 & K4). apply HK; [done|by eapply quietly_step| |done].
    cbn [bridge]. rewrite K1. by apply configured_cntl.
Qed.

(** What an initialisation leads to. *)
Definition init_result t (st : EFI_STATUS) s s' : Prop :=
  st = EFI_SUCCESS /\ jedec_id = table_id t /\ configured t 8 (regs_of s'.(bridge)) /\
    (prot s'.(bridge) = prot s.(bridge) \/ prot s'.(bridge) = false) /\
    (unblocked -> unlock_index t.(OpcodeMenu) 0 8 <> 8 -> prot s'.(bridge) = false) /\
    s'.(Instance).(InitDone) = true /\ s'.(Instance).(InitInfo) = fill_info t.(OpcodeMenu) 0 no_info \/
  (st = EFI_INVALID_PARAMETER /\ jedec_id <> table_id t \/ st = EFI_DEVICE_ERROR /\ ~ unblocked) /\ prot s'.(bridge) = prot s.(bridge).

Lemma SpiProtocolInit_spec Smm t (Q : EFI_STATUS -> spi D -> Prop) s :
  at_rcrb s -> idle s -> (regs_of s.(bridge)).(scl) = false -> table_ok t ->
  (forall st s', at_rcrb s' -> quietly s s' -> (regs_of s'.(bridge)).(scl) = false -> s'.(Instance).(SpiInitTable) = t ->
     s'.(Instance).(Signature) = s.(Instance).(Signature) -> init_result t st s s' -> Q st s') ->
  wp (SpiProtocolInit Smm (Some t)) Q s.
Proof.
  intros Hs Hi Hl Ht HQ. destruct (table_prefix _ Ht) as (p1 & Hp & Hp1).
  cbn [SpiDefs.SpiProtocolInit]. apply wp_bind, wp_modify.
  set (s0 := {| Instance := set_table t s.(Instance); sb := s.(sb); bridge := s.(bridge) |}).
  assert (Hs0 : at_rcrb s0) by done.
  apply wp_bind, wp_Reg; [done|by unfold R_QNC_RCRB_SPIS, R_QNC_RCRB_SPIBASE|].
  apply wp_bind, wp_on_bridge. eapply wp_mono; [apply spis_read|]. intros v d1 (Hv & H15 & _ & H1). cbn [bridge s0] in *.
  unfold idle in Hi. rewrite Hi in H1. destruct H1 as [_ H1]. change B_QNC_RCRB_SPIS_SCL with (2 ^ 15). rewrite flag_test, H15, Hl by lia. cbn iota.
  apply wp_bind, wp_on_bridge. eapply wp_mono; [apply spis_or|]. intros [] d2 H2. cbn [bridge] in *.
  pose proof (step_idle _ _ _ Hi (step_then _ _ _ _ _ H1 H2)) as (_ & K2 & _ & _).
  apply wp_bind, wp_on_bridge. eapply wp_mono; [apply spis_read|]. intros v3 d3 (_ & _ & _ & H3). cbn [bridge] in *. rewrite K2 in H3. destruct H3 as [_ H3].
  apply wp_bind. eapply wp_lift; [by rewrite Hp|]. apply wp_bind. eapply wp_lift; [by rewrite Hp|].
  apply wp_bind, wp_Reg; [done|by unfold R_QNC_RCRB_SPIPREOP, R_QNC_RCRB_SPIBASE|].
  apply wp_bind, wp_on_bridge. eapply wp_mono; [apply preop_write|]. intros [] d4 H4. cbn [bridge] in *.
  apply wp_bind, wp_on_bridge. eapply wp_mono; [apply read16_law; apply list_elem_of_further, list_elem_of_here|]. intros v5 d5 H5. cbn [bridge] in *.
  apply wp_bind, wp_Reg; [done|by unfold R_QNC_RCRB_SPIOPTYPE, R_QNC_RCRB_SPIBASE|].
  apply wp_bind, wp_on_bridge. eapply wp_mono; [apply optype_write|]. intros [] d6 H6. cbn [bridge] in *.
  apply wp_bind, wp_on_bridge. eapply wp_mono; [apply read16_law; do 2 apply list_elem_of_further; apply list_elem_of_here|]. intros v7 d7 H7. cbn [bridge] in *.
  pose proof (step_then _ _ _ _ _ (step_then _ _ _ _ _ (step_then _ _ _ _ _ (step_then _ _ _ _ _ (step_then _ _ _ _ _ (step_then _ _ _ _ _ H1 H2) H3) H4) H5) H6) H7) as H17.
  clear H1 H2 H3 H4 H5 H6 H7. set (s7 := {| Instance := set_table t s.(Instance); sb := s.(sb); bridge := d7 |}).
  pose proof (step_idle _ _ _ Hi H17) as (M1 & M2 & M3 & M4).
  assert (Hq7 : quietly s s7) by (split; [done|done|exact M4]).
  apply wp_bind, (menu_loop_spec t); [done|exact M2|done|done| |].
  { cbn [bridge s7]. rewrite M1. unfold id. rewrite set_scl_false, wrap_wrap. by apply configured_start. }
  intros st u s8 Hi8 Hq8 Hp8 Hl8 Hm Hu. assert (Hq : quietly s s8) by (by eapply spi_quietly_trans).
  assert (Hat8 : at_rcrb s8) by (unfold at_rcrb; by rewrite Hi8). cbn [bridge s7] in Hp8. rewrite M3 in Hp8.
  destruct Hm as [(-> & Hid & Hc8)|Hm].
  2:{ assert (EFI_ERROR st = true) as -> by (by destruct Hm as [[-> _]|[-> _]]). apply wp_ret, HQ; [done|done|done|by rewrite Hi8|by rewrite Hi8|by right]. }
  rewrite (Hu eq_refl). change (EFI_ERROR EFI_SUCCESS) with false. cbn iota.
  apply wp_bind, (unlock_spec t); [done|by apply Hq8|done|by rewrite Hi8|done|]. intros _ s9 Hi9 Hq9 Hk9 Hp9 Hu9.
  assert (Hat9 : at_rcrb s9) by (unfold at_rcrb; by rewrite Hi9).
  apply wp_bind, (SpiPhaseInit_spec Smm t); [done|by apply Hq9|by eapply configured_setup|]. intros s10 Hi10 Hq10 Hc10 Hp10.
  apply wp_bind, wp_modify, wp_bind, wp_modify, wp_ret. assert (Hi10' : s10.(Instance) = set_table t s.(Instance)) by (rewrite Hi10, Hi9, Hi8; done).
  apply HQ; cbn [Instance sb bridge].
  - unfold at_rcrb. cbn [Instance]. by rewrite Hi10'.
  - pose proof (spi_quietly_trans _ _ _ Hq (spi_quietly_trans _ _ _ Hq9 Hq10)) as [W1 W2 W3]. by split.
  - by apply Hc10.
  - by rewrite Hi10'.
  - by rewrite Hi10'.
  - left. split; [done|]. split; [done|]. split; [done|]. cbn [bridge Instance]. rewrite Hp10. split; [destruct Hp9 as [E|E]; rewrite E; [left; congruence|by right]|].
    split; [done|]. split; [done|]. by rewrite Hi10'.
Qed.

(** ** The search *)

(** The status write at the end of the search, with the other prefix. *)
Lemma execute_status t e p1 (Q : EFI_STATUS * list Z -> spi D -> Prop) s :
  at_rcrb s -> idle s -> table_ok t -> s.(Instance).(SpiInitTable) = t -> configured t 8 (regs_of s.(bridge)) -> prot s.(bridge) = false ->
  t.(OpcodeMenu) !! 2%nat = Some e -> e.(Operation) = EnumSpiOperationWriteStatus ->
  t.(PrefixOpcode) !!! 1%nat = p1 -> p1 = 0x06 \/ p1 = 0x50 ->
  (forall r s', restored s s' -> stilled false None s.(bridge) r s'.(bridge) -> Q r s') ->
  wp (SpiProtocolExecute 2 1 true true true 0 1 [0] EnumSpiRegionAll) Q s.
Proof.
  intros Hs Hi Hok Ht Hc Hpr He Ho Hp1 Hp HQ. pose proof Hok as [T1 T2 T3 T4 T5 T6 T7].
  rewrite <- (configured_prefix_1 _ _ _ Hc Hok) in Hp1.
  destruct (Forall_lookup_1 _ _ _ _ T5 He Ho) as [Hcode Hty]. pose proof (conf_menu _ _ _ Hc 2 e He ltac:(lia)) as Hmu. rewrite Hcode in Hmu.
  apply (execute_still BaseAddress LimitAddress 2 1 true true 0 1 [0] EnumSpiRegionAll e 0 false None);
    rewrite ?Ht; [done|done|lia|lia|done|by rewrite Hty|done|by rewrite Hmu|done|lia|done|done|done| |done].
  intros f x Hf k. subst k. rewrite command_of_word by lia. pose proof (configured_type _ _ _ _ _ Hc T2 He) as Hfld.
  unfold part_command. cbn [cmd_type cmd_opcode cmd_prefix cmd_count cmd_address loaded set_spia set_spid set_cntl preop optype opmenu spia spid].
  change (Z.to_nat (Z.of_nat 2)) with 2%nat. change (8 * 1) with 8. rewrite Hfld, Hmu, Hp1, Hpr. unfold opcode_type. rewrite Hty.
  change (set_spia (Z.land 0 B_QNC_RCRB_SPIA_MASK) (set_spid f (set_cntl ?c ?k))) with (loaded f 0 (set_cntl c k)).
  rewrite (Hf 0%nat) by (cbn; lia). change (u8 ([0] !!! 0%nat) =? 0) with true. rewrite !andb_true_r.
  pose proof (enabled_writable true (regs_of s.(bridge))) as Hw.
  rewrite (setup_writable _ _ (loaded_setup f 0 _)) in *. rewrite Hw. by destruct Hp as [->| ->].
Qed.

(** What the search establishes for the entry [t]. *)
Record initialised t s0 s : Prop := {
  init_at : at_rcrb s;
  init_quiet : quietly s0 s;
  init_table : s.(Instance).(SpiInitTable) = t;
  init_regs : configured t 8 (regs_of s.(bridge));
  init_prot : unlock_index t.(OpcodeMenu) 0 8 <> 8 -> prot s.(bridge) = false;
  init_done : s.(Instance).(InitDone) = true /\ s.(Instance).(InitInfo) = fill_info t.(OpcodeMenu) 0 no_info
}.

Lemma initialised_stilled t pr data s0 s s' r : initialised t s0 s -> restored s s' -> stilled pr data s.(bridge) r s'.(bridge) ->
  (pr = prot s.(bridge) \/ pr = false) -> initialised t s0 s'.
Proof.
  intros [I1 I2 I3 I4 I5 I6] HR HS Hpr. pose proof (quietly_stilled _ _ _ _ _ HR HS) as Hq. destruct HS as (_ & _ & S3 & _).
  split; [unfold at_rcrb; by rewrite (same_instance _ _ HR)|by eapply spi_quietly_trans|by rewrite (same_instance _ _ HR)|
    eapply configured_setup; [apply HR|done]| |by rewrite (same_instance _ _ HR)].
  intros Hu. specialize (I5 Hu). destruct S3 as [->| ->]; [done|]. destruct Hpr as [->| ->]; done.
Qed.

Lemma find_part_spec Smm t pre post (Q : SPI_INIT_TABLE -> spi D -> Prop) s :
  at_rcrb s -> idle s -> (regs_of s.(bridge)).(scl) = false -> unblocked -> Forall table_ok (pre ++ [t]) ->
  Forall (fun t' => table_id t' <> jedec_id) pre -> table_id t = jedec_id ->
  (forall s', initialised t s s' -> Q t s') ->
  wp (find_part BaseAddress LimitAddress (pre ++ t :: post) Smm) Q s.
Proof.
  intros Hs Hi Hl Hu. revert s Hs Hi Hl Q. induction pre as [|t' pre IH]; intros s Hs Hi Hl Q Hok Hne Ht HQ; cbn [app find_part].
  - apply Forall_cons_1 in Hok as [Hok _].
    apply wp_bind, (SpiProtocolInit_spec Smm t); [done..|]. intros st s1 H1 Hq1 Hl1 Ht1 _ HR.
    destruct HR as [(-> & Hid & Hc1 & _ & Hp1 & Hd1)|[[[-> Hne']|[-> Hb]] _]]; [|by rewrite Ht in Hne'|by destruct (Hb Hu)].
    change (EFI_ERROR EFI_SUCCESS) with false. cbn iota.
    assert (HI1 : initialised t s s1) by (split; auto).
    destruct (table_jedec _ Hok) as (e & rest & Em & _).
    apply wp_bind, (execute_jedec false 8 EnumSpiRegionAll t e); [done|by apply Hq1|done|done|done|lia|by rewrite Em|].
    intros [st b] s2 HR2 HS2. pose proof HS2 as (_ & _ & _ & _ & S5 & S6). cbn [fst snd] in *. specialize (S5 Hu). subst st.
    destruct (S6 eq_refl) as [_ Hb]. rewrite (Hb jedec_id eq_refl), <- Ht. change (EFI_ERROR EFI_SUCCESS) with false. cbn iota.
    unfold table_id. cbn [lookup_total list_lookup_total]. rewrite !Z.eqb_refl. cbn [andb orb].
    apply wp_ret, HQ. eapply initialised_stilled; [exact HI1|exact HR2|exact HS2|by left].
  - apply Forall_cons_1 in Hok as [Hok' Hok]. apply Forall_cons_1 in Hne as [Hne' Hne].
    apply wp_bind, (SpiProtocolInit_spec Smm t'); [done..|]. intros st s1 H1 Hq1 Hl1 Ht1 _ HR.
    destruct HR as [(-> & Hid & _)|[[[-> _]|[-> Hb]] _]]; [by symmetry in Hid| |by destruct (Hb Hu)].
    change (EFI_ERROR EFI_INVALID_PARAMETER) with true. cbn iota. apply IH; [done|by apply Hq1|done|done|done|done|].
    intros s2 [I1 I2 I3 I4 I5 I6]. apply HQ. split; [done|by eapply spi_quietly_trans|done..].
Qed.

(** The driver for SMM finds its part and unlocks it. *)
Lemma SmmSpiInit_spec t pre post e (Q : EFI_STATUS -> spi D -> Prop) s :
  at_rcrb s -> idle s -> (regs_of s.(bridge)).(scl) = false -> unblocked -> Forall table_ok (pre ++ [t]) ->
  Forall (fun t' => table_id t' <> jedec_id) pre -> table_id t = jedec_id ->
  t.(OpcodeMenu) !! 2%nat = Some e -> e.(Operation) = EnumSpiOperationWriteStatus -> unlock_index t.(OpcodeMenu) 0 8 <> 8 ->
  (t.(PrefixOpcode) !!! 1%nat = 0x06 \/ t.(PrefixOpcode) !!! 1%nat = 0x50) ->
  (forall s', initialised t s s' -> Q EFI_SUCCESS s') ->
  wp (SmmSpiInit BaseAddress LimitAddress (pre ++ t :: post)) Q s.
Proof.
  intros Hs Hi Hl Hu Hok Hne Ht He Ho Hul Hp HQ. apply wp_bind, find_part_spec; [done..|]. intros s1 HI1.
  assert (Hokt : table_ok t) by (apply Forall_app in Hok as [_ Hok]; by apply Forall_cons_1 in Hok as [Hok _]).
  pose proof HI1 as [I1 [_ I2 _] I3 I4 I5 _].
  apply wp_bind, (execute_status t e (t.(PrefixOpcode) !!! 1%nat)); [done|done|done|done|done|by apply I5|done|done|done|done|].
  intros [st b] s2 HR2 HS2. pose proof HS2 as (_ & _ & _ & _ & S5 & _). cbn [fst] in S5. rewrite (S5 Hu). apply wp_ret, HQ.
  eapply initialised_stilled; [exact HI1|exact HR2|exact HS2|by right].
Qed.
End Init.
