(* ===== verification/SpiTrace.v ===== *)
(** * The SPI host controller driver: what the status register said

    The driver on a bus that passes every access on and keeps a record of what the reads of the status register return. The run is the
    same as without the record; and the record says, for any bus, which status a command ends with: each wait of the driver is a
    piece of it. *)

From S2P Require Import Prelude QNCAccess FvbDefs SpiDefs.
From stdpp Require Import list.
#[local] Open Scope Z_scope.

(** ** The waits *)

(** What a read of the status register may say: the cycle is in progress; it was blocked. *)
Definition busy (v : Z) : Prop := Z.land v B_QNC_RCRB_SPIS_SCIP <> 0.
Definition refused (v : Z) : Prop := Z.land v B_QNC_RCRB_SPIS_BAS <> 0.

(** The reads of one wait of at most [n] rounds: the last one finds nothing in progress, or all of them find the cycle in progress. *)
Definition ends_with (n : nat) (w : list Z) (v : Z) : Prop := exists pre, w = pre ++ [v] /\ Forall busy pre /\ ~ busy v /\ (length w <= n)%nat.
Definition timed_out (n : nat) (w : list Z) : Prop := Forall busy w /\ length w = n.

Lemma ends_with_here n v : ~ busy v -> ends_with (S n) [v] v.
Proof. intros Hv. exists []. split; [done|]. split; [by apply Forall_nil|]. split; [done|cbn; lia]. Qed.
Lemma ends_with_cons n x w v : busy x -> ends_with n w v -> ends_with (S n) (x :: w) v.
Proof. intros Hx (pre & -> & Hp & Hv & Hl). exists (x :: pre). split; [done|]. split; [by apply Forall_cons|]. split; [done|cbn in *; lia]. Qed.

(** The rounds of [WaitForSpiCycleComplete]. *)
Definition wait_rounds : nat := Z.to_nat (WAIT_TIME / WAIT_PERIOD).
Definition in_time (w : list Z) : Prop := exists v, ends_with wait_rounds w v.
Definition completed (w : list Z) : Prop := exists v, ends_with wait_rounds w v /\ ~ refused v.
Definition failed (w : list Z) : Prop := timed_out wait_rounds w \/ exists v, ends_with wait_rounds w v /\ refused v.

(** A command reads memory-mapped flash instead of sending cycles. *)
Definition direct (i : SPI_INSTANCE) (OpcodeIndex : Z) (region : SPI_REGION_TYPE) : Prop :=
  region = EnumSpiRegionBios /\ exists e, i.(SpiInitTable).(OpcodeMenu) !! Z.to_nat OpcodeIndex = Some e /\ e.(OpType) = EnumSpiOpcodeRead.

(** The status of a command that is sent, by the waits for its cycles. *)
Inductive sent (d : Prop) : EFI_STATUS -> list Z -> Prop :=
| sent_direct : d -> sent d EFI_SUCCESS []
| sent_all ws : ~ d -> ws <> [] -> Forall completed ws -> sent d EFI_SUCCESS (concat ws)
| sent_failed ws w : ~ d -> Forall completed ws -> failed w -> sent d EFI_DEVICE_ERROR (concat ws ++ w).

(** The status of [SpiProtocolExecute], by what the status register said: nothing was asked; the wait for an earlier cycle ran out; or
    that wait ended in time, and the command was sent. *)
Inductive outcome (d : Prop) (op p : Z) : EFI_STATUS -> list Z -> Prop :=
| out_invalid : 8 <= op \/ 2 <= p -> outcome d op p EFI_INVALID_PARAMETER []
| out_occupied w : op < 8 -> p < 2 -> timed_out wait_rounds w -> outcome d op p EFI_DEVICE_ERROR w
| out_sent w st w' : op < 8 -> p < 2 -> in_time w -> sent d st w' -> outcome d op p st (w ++ w').

(** ** The record *)

Section Recording.
Context {D : Type} {B : SpiBus D} (Spis : Z).

Definition pass {A} (m : M D A) : M (D * list Z) A := fun x => match m x.1 with Some (a, d) => Some (a, (d, x.2)) | None => None end.

#[local] Instance recording : SpiBus (D * list Z) := {|
  MmioRead8 A := pass (MmioRead8 A);
  MmioRead16 A := fun x =>
    match MmioRead16 A x.1 with Some (v, d) => Some (v, (d, if A =? Spis then x.2 ++ [v] else x.2)) | None => None end;
  MmioRead32 A := pass (MmioRead32 A);
  MmioWrite8 A v := pass (MmioWrite8 A v);
  MmioWrite16 A v := pass (MmioWrite16 A v);
  MmioWrite32 A v := pass (MmioWrite32 A v);
  MmioOr16 A v := pass (MmioOr16 A v);
  MmioAnd8 A v := pass (MmioAnd8 A v);
  PciRead16 R := pass (PciRead16 R);
  PciOr16 R v := pass (PciOr16 R v);
  PciAndThenOr16 R a o := pass (PciAndThenOr16 R a o);
  MicroSecondDelay t := pass (MicroSecondDelay t);
  CopyMem A n := pass (CopyMem A n);
  S3BootScriptSaveMemWrite w A := pass (S3BootScriptSaveMemWrite w A);
  PcdPciExpressBaseAddress := PcdPciExpressBaseAddress
|}.

Definition recorded (l : list Z) (s : spi D) : spi (D * list Z) :=
  {| Instance := s.(Instance); sb := s.(sb); bridge := (s.(bridge), l) |}.

(** A run that returns is also one with the record, and what it adds to the record is as [L] says. *)
Definition traced {A} (i : SPI_INSTANCE) (m : M (spi D) A) (m' : M (spi (D * list Z)) A) (L : A -> list Z -> Prop) : Prop :=
  forall s a s' l, s.(Instance) = i -> m s = Some (a, s') ->
    exists w, m' (recorded l s) = Some (a, recorded (l ++ w) s') /\ s'.(Instance) = i /\ L a w.

Lemma traced_ret {A} i (a : A) (L : A -> list Z -> Prop) : L a [] -> traced i (mret a) (mret a) L.
Proof. intros HL s a' s' l Hi [= <- <-]. exists []. by rewrite app_nil_r. Qed.

Lemma traced_bind {A A'} i (m : M (spi D) A) m' (k : A -> M (spi D) A') k' L1 (L : A' -> list Z -> Prop) :
  traced i m m' L1 -> (forall a w1, L1 a w1 -> traced i (k a) (k' a) (fun b w2 => L b (w1 ++ w2))) -> traced i (m ≫= k) (m' ≫= k') L.
Proof.
  intros Hm Hk s b s2 l Hi H. unfold mbind, M_bind in *. destruct (m s) as [[a s1]|] eqn:E; [|done].
  destruct (Hm s a s1 l Hi E) as (w1 & E1 & Hi1 & HL). rewrite E1. destruct (Hk a w1 HL s1 b s2 (l ++ w1) Hi1 H) as (w2 & E2 & Hi2 & HL2).
  exists (w1 ++ w2). by rewrite app_assoc.
Qed.

Lemma traced_mono {A} i m m' (L L' : A -> list Z -> Prop) : traced i m m' L -> (forall a w, L a w -> L' a w) -> traced i m m' L'.
Proof. intros Hm HL s a s' l Hi H. destruct (Hm s a s' l Hi H) as (w & E & Hi' & Hw). exists w. auto. Qed.

(** Steps that read no status. *)
Definition quiet {A} i (m : M (spi D) A) m' : Prop := traced i m m' (fun _ w => w = []).

Lemma quiet_bind {A A'} i (m : M (spi D) A) m' (k : A -> M (spi D) A') k' L :
  quiet i m m' -> (forall a, traced i (k a) (k' a) L) -> traced i (m ≫= k) (m' ≫= k') L.
Proof. intros Hm Hk. eapply traced_bind; [exact Hm|]. intros a w1 ->. apply Hk. Qed.

Lemma quiet_ret {A} i (a : A) : quiet i (mret a) (mret a).
Proof. by apply traced_ret. Qed.
Lemma quiet_pass {A} i (m : M D A) : quiet i (on_bridge m) (on_bridge (pass m)).
Proof.
  intros s a s' l Hi H. unfold on_bridge, pass in *. cbn [recorded bridge fst snd]. destruct (m (bridge s)) as [[b d]|]; [|done]. injection H as <- <-.
  exists []. by rewrite app_nil_r.
Qed.
Lemma quiet_read16 {A} i R (L : A -> list Z -> Prop) k k' : R <> Spis -> (forall a, traced i (k a) (k' a) L) ->
  traced i (on_bridge (MmioRead16 R) ≫= k) (on_bridge (MmioRead16 R) ≫= k') L.
Proof.
  intros HR. apply quiet_bind. intros s a s' l Hi H. unfold on_bridge in *. cbn [recorded bridge fst snd MmioRead16 recording].
  destruct (MmioRead16 R (bridge s)) as [[b d]|]; [|done]. injection H as <- <-. rewrite (proj2 (Z.eqb_neq _ _) HR). exists []. by rewrite app_nil_r.
Qed.
Lemma quiet_sb {A} i (m : M msgbus A) : quiet i (on_sb m) (on_sb m).
Proof.
  intros s a s' l Hi H. unfold on_sb in *. cbn [recorded sb]. destruct (m (sb s)) as [[b d]|]; [|done]. injection H as <- <-. exists []. by rewrite app_nil_r.
Qed.
Lemma quiet_lift {A} i (o : option A) : quiet i (lift o) (lift o).
Proof. intros s a s' l Hi H. unfold lift in *. destruct o; [|done]. injection H as <- <-. exists []. by rewrite app_nil_r. Qed.
Lemma traced_lift {A A'} i (o : option A) (k : A -> M (spi D) A') k' L :
  (forall a, o = Some a -> traced i (k a) (k' a) L) -> traced i (lift o ≫= k) (lift o ≫= k') L.
Proof. intros Hk s b s' l Hi H. unfold mbind, M_bind, lift in *. destruct o as [a|]; [|done]. by apply (Hk a). Qed.
Lemma quiet_assert i b : quiet i (ASSERT b) (ASSERT b).
Proof. intros s a s' l Hi H. unfold ASSERT in *. destruct b; [|done]. injection H as <- <-. exists []. by rewrite app_nil_r. Qed.
Lemma quiet_for_each {A} i (l : list A) f f' : (forall a, quiet i (f a) (f' a)) -> quiet i (for_each l f) (for_each l f').
Proof. intros Hf. induction l as [|a l IH]; [apply quiet_ret|]. cbn [for_each]. eapply quiet_bind; [apply Hf|]. by intros []. Qed.

Lemma traced_gets {A A'} i (g : SPI_INSTANCE -> A) (k : A -> M (spi D) A') k' L :
  traced i (k (g i)) (k' (g i)) L -> traced i (gets (fun s => g s.(Instance)) ≫= k) (gets (fun s => g s.(Instance)) ≫= k') L.
Proof. intros Hk s a s' l Hi H. unfold mbind, M_bind, gets in *. cbn [recorded Instance]. rewrite Hi in *. by apply Hk. Qed.
(** ** The driver *)

Context {MB : MessageBus} (i : SPI_INSTANCE) (Base Limit : Z).
Hypothesis status_address : Spis = u32 (i.(PchRootComplexBar) + R_QNC_RCRB_SPIS).

(** The registers of a command, by [u32 (i.(PchRootComplexBar) + R)]. *)
Lemma traced_Reg {A} R (k : Z -> M (spi D) A) k' L :
  traced i (k (u32 (i.(PchRootComplexBar) + R))) (k' (u32 (i.(PchRootComplexBar) + R))) L -> traced i (Reg R ≫= k) (Reg R ≫= k') L.
Proof. intros H. by apply (traced_gets i (fun x => u32 (x.(PchRootComplexBar) + R))). Qed.

#[local] Ltac quiet :=
  match goal with
  | |- traced _ (Reg _ ≫= _) _ _ => apply traced_Reg
  | |- traced _ (gets Instance ≫= _) _ _ => apply (traced_gets i (fun x => x))
  | |- traced _ (on_bridge _ ≫= _) _ _ => eapply quiet_bind; [apply quiet_pass|intros ?]
  | |- traced _ (on_sb _ ≫= _) _ _ => eapply quiet_bind; [apply quiet_sb|intros ?]
  | |- traced _ (lift _ ≫= _) _ _ => eapply quiet_bind; [apply quiet_lift|intros ?]
  | |- traced _ (ASSERT _ ≫= _) _ _ => eapply quiet_bind; [apply quiet_assert|intros ?]
  | |- traced _ (mret _ ≫= _) _ _ => eapply quiet_bind; [apply quiet_ret|intros ?]
  | |- traced _ (mret _) _ _ => apply traced_ret
  end.

(** A wait ends when nothing is in progress, and fails when its cycle was blocked and that is asked for, or when its rounds are over. *)
Lemma trace_wait n ErrorCheck :
  traced i (wait_cycle n Spis ErrorCheck) (wait_cycle n Spis ErrorCheck) (fun ok w =>
    if ok : bool then exists v, ends_with n w v /\ (ErrorCheck = true -> ~ refused v)
    else timed_out n w \/ ErrorCheck = true /\ exists v, ends_with n w v /\ refused v).
Proof.
  induction n as [|n IH]; cbn [wait_cycle]; [apply traced_ret; left; by split; [apply Forall_nil|]|].
  eapply (traced_bind _ _ _ _ _ (fun v w => w = [v])).
  { intros s v s' l Hi H. unfold on_bridge in *. cbn [recorded bridge fst snd MmioRead16 recording].
    destruct (MmioRead16 Spis (bridge s)) as [[v1 d]|]; [|done]. injection H as <- <-. rewrite Z.eqb_refl. by exists [v1]. }
  intros v w1 ->. destruct (Z.eqb_spec (Z.land v B_QNC_RCRB_SPIS_SCIP) 0) as [E|E].
  - quiet. quiet. assert (Hv : ~ busy v) by (intros Hb; by apply Hb). destruct (Z.eqb_spec (Z.land v B_QNC_RCRB_SPIS_BAS) 0) as [E2|E2]; cbn [negb andb].
    + exists v. split; [by apply ends_with_here|]. intros _ Hr. by apply Hr.
    + destruct ErrorCheck; cbn [negb].
      * right. split; [done|]. exists v. split; [by apply ends_with_here|done].
      * exists v. split; [by apply ends_with_here|done].
  - quiet. eapply traced_mono; [exact IH|]. intros [] w.
    + intros (x & Hx & Hr). exists x. split; [by apply ends_with_cons|done].
    + intros [[Hw Hl]|(He & x & Hx & Hr)]; [left; split; [by apply Forall_cons|cbn; lia]|right]. split; [done|]. exists x. split; [by apply ends_with_cons|done].
Qed.

Lemma trace_WaitForSpiCycleComplete ErrorCheck :
  traced i (WaitForSpiCycleComplete ErrorCheck) (WaitForSpiCycleComplete ErrorCheck) (fun ok w =>
    if ok : bool then exists v, ends_with wait_rounds w v /\ (ErrorCheck = true -> ~ refused v)
    else timed_out wait_rounds w \/ ErrorCheck = true /\ exists v, ends_with wait_rounds w v /\ refused v).
Proof. unfold WaitForSpiCycleComplete. quiet. rewrite <- status_address. apply trace_wait. Qed.

Lemma quiet_load_data a n Buffer : quiet i (load_data a n Buffer) (load_data a n Buffer).
Proof. apply quiet_for_each. intros x. unfold quiet. by repeat quiet. Qed.

Lemma quiet_read_data a n Index : quiet i (read_data a Index n) (read_data a Index n).
Proof. revert Index. unfold quiet. induction n as [|n IH]; intros Index; cbn [read_data]; [by quiet|]. quiet. eapply quiet_bind; [apply IH|]. intros l. by quiet. Qed.

(** A round of the loop fails when its wait does. *)
Definition cycle_waits {A} (r : option A) (w : list Z) : Prop := match r with Some _ => completed w | None => failed w end.

Lemma spic_spis : u32 (i.(PchRootComplexBar) + R_QNC_RCRB_SPIC) <> Spis.
Proof.
  rewrite status_address. unfold wrap. intros E. assert (H : (R_QNC_RCRB_SPIC - R_QNC_RCRB_SPIS) mod 2 ^ 32 = 0).
  { replace (R_QNC_RCRB_SPIC - R_QNC_RCRB_SPIS) with (i.(PchRootComplexBar) + R_QNC_RCRB_SPIC - (i.(PchRootComplexBar) + R_QNC_RCRB_SPIS)) by lia.
    rewrite Zminus_mod, E, Z.sub_diag. done. }
  vm_compute in H. discriminate.
Qed.

Lemma trace_finish_cycle Word ShiftOut n Buffer :
  traced i (finish_cycle Word ShiftOut n Buffer) (finish_cycle Word ShiftOut n Buffer) cycle_waits.
Proof.
  unfold finish_cycle. quiet. quiet. apply quiet_read16; [apply spic_spis|]. intros _. eapply traced_bind; [apply trace_WaitForSpiCycleComplete|].
  intros ok w Hw. destruct ok; cbn [negb].
  - destruct Hw as (v & Hv & Hr). assert (Hc : completed w) by (exists v; auto).
    quiet. destruct ShiftOut; [quiet; cbn; by rewrite app_nil_r|]. quiet. eapply quiet_bind; [apply quiet_read_data|]. intros l. quiet. cbn. by rewrite app_nil_r.
  - quiet. cbn. rewrite app_nil_r. destruct Hw as [Hw|(_ & Hw)]; [by left|by right].
Qed.

Lemma trace_send_cycle op p dc at_ so A c Buffer :
  traced i (send_cycle op p dc at_ so A c Buffer) (send_cycle op p dc at_ so A c Buffer) cycle_waits.
Proof.
  unfold send_cycle. quiet. eapply quiet_bind; [destruct so; [apply quiet_load_data|apply quiet_ret]|]. intros []. repeat quiet. apply trace_finish_cycle.
Qed.

Lemma trace_send_loop fuel op p dc at_ so A n Buffer :
  traced i (send_loop fuel op p dc at_ so A n Buffer) (send_loop fuel op p dc at_ so A n Buffer) (fun r w => sent False r.1 w).
Proof.
  revert A n Buffer. induction fuel as [|fuel IH]; intros A n Buffer; cbn [send_loop]; [by intros s a s' l _ H|].
  eapply traced_bind; [apply trace_send_cycle|]. intros r w Hw. destruct r as [front|]; cbn in Hw.
  - destruct (0 <? _).
    + eapply traced_bind; [apply IH|]. intros [st back] w2 H2. quiet. cbn [fst] in *. rewrite app_nil_r.
      inversion H2 as [Hd|ws _ Hn Hws|ws w3 _ Hws Hf]; subst; [destruct Hd|..].
      * apply (sent_all _ (w :: ws)); [tauto|done|by apply Forall_cons].
      * rewrite app_assoc. apply (sent_failed _ (w :: ws)); [tauto|by apply Forall_cons|done].
    + quiet. cbn [fst]. rewrite app_nil_r. rewrite <- (app_nil_r w). apply (sent_all _ [w]); [tauto|done|]. apply Forall_cons. split; [done|by apply Forall_nil].
  - quiet. cbn [fst]. rewrite app_nil_r. apply (sent_failed _ [] w); [tauto|by apply Forall_nil|done].
Qed.

(** Without the menu entry the code stops, so that a run that returns has one. *)
Lemma trace_SendSpiCmd op p dc at_ so A n Buffer region :
  traced i (SendSpiCmd Base Limit op p dc at_ so A n Buffer region) (SendSpiCmd Base Limit op p dc at_ so A n Buffer region)
    (fun r w => sent (direct i op region) r.1 w).
Proof.
  unfold SendSpiCmd. quiet. apply traced_lift. intros e Ee. quiet. quiet. destruct (_ || _); [by intros s x s' l _ H|]. destruct (SpiOffset2Physical i A region Base Limit) as [[Hw Ba] Li].
  destruct (bool_decide_reflect (e.(OpType) = EnumSpiOpcodeRead)) as [Ht|Ht], (bool_decide_reflect (region = EnumSpiRegionBios)) as [Hr|Hr]; cbn [andb].
  1: { quiet. quiet. apply sent_direct. split; [done|]. by exists e. }
  all: eapply traced_mono; [apply trace_send_loop|]; intros r w Hs.
  all: assert (Hd : ~ direct i op region) by (intros (H1 & e' & H2 & H3); congruence).
  all: inversion Hs; subst; [done|by apply sent_all|by apply sent_failed].
Qed.

Lemma trace_guarded_send op p dc at_ so A n Buffer region :
  traced i (guarded_send Base Limit op p dc at_ so A n Buffer region) (guarded_send Base Limit op p dc at_ so A n Buffer region)
    (fun r w => sent (direct i op region) r.1 w).
Proof.
  unfold guarded_send. quiet. quiet. quiet. quiet. eapply quiet_bind; [destruct so; [apply quiet_pass|apply quiet_ret]|]. intros [].
  eapply traced_bind; [apply trace_SendSpiCmd|]. intros r w Hr. repeat quiet. by rewrite app_nil_r.
Qed.

(** The status of a command, by what the status register said. *)
Lemma trace_SpiProtocolExecute op p dc at_ so A n Buffer region :
  traced i (SpiProtocolExecute Base Limit op p dc at_ so A n Buffer region) (SpiProtocolExecute Base Limit op p dc at_ so A n Buffer region)
    (fun r w => outcome (direct i op region) op p r.1 w).
Proof.
  unfold SpiProtocolExecute, SPI_NUM_OPCODE, SPI_NUM_PREFIX_OPCODE.
  destruct (Z.leb_spec 8 op), (Z.leb_spec 2 p); cbn [orb]; try (quiet; apply out_invalid; lia).
  eapply traced_bind; [apply trace_WaitForSpiCycleComplete|]. intros ok w Hw. destruct ok; cbn [negb].
  - eapply traced_mono; [apply trace_guarded_send|]. intros r w' Hs. apply out_sent; [lia|lia| |done]. destruct Hw as (v & Hv & _). by exists v.
  - quiet. rewrite app_nil_r. apply out_occupied; [lia|lia|]. destruct Hw as [Hw|[Hw _]]; [done|done].
Qed.
End Recording.
