(* ===== verification/SpiTheorems.v ===== *)
(** * The SPI host controller driver: theorems on commands and the lock

    Any command leaves the machine as it found it; the commands that program and erase change the flash as the firmware
    volume services rely on; a locked configuration is final. *)

From S2P Require Import Prelude QNCAccess FvbDefs FvbSpec SpiDefs SpiSpec SpiSend SpiExecute SpiInit SpiTrace.
From stdpp Require Import list functions.
#[local] Open Scope Z_scope.

Section Commands.
Context {MB : MessageBus} {HP : HmiscPlain} {D : Type} {B : SpiBus D} {V : SpiView D} {LB : SpiLaws D}.
Context (BaseAddress LimitAddress : Z).
Implicit Types (s : spi D) (t : SPI_INIT_TABLE).
Abbreviation SpiProtocolExecute := (SpiProtocolExecute BaseAddress LimitAddress).

(** A table with eight opcodes, of which the one at [op] is in the menu. *)
Definition opcode_ok s (op : Z) : Prop :=
  (Z.to_nat op < length s.(Instance).(SpiInitTable).(OpcodeMenu))%nat /\ (regs_of s.(bridge)).(opmenu) (Z.to_nat op) <> 0 /\
  s.(Instance).(SpiInitTable).(BiosSize) <> 0.

(** The addresses of the command are those of a part. *)
Definition address_ok s (A n : Z) (region : SPI_REGION_TYPE) : Prop :=
  let H := (SpiOffset2Physical s.(Instance) A region BaseAddress LimitAddress).1.1 in 0 <= H /\ H + n <= 2 ^ 24.

Lemma SendSpiCmd_any op p dc at_ so A n b region (Q : EFI_STATUS * list Z -> spi D -> Prop) s :
  at_rcrb s -> 0 <= op < 8 -> opcode_ok s op -> address_ok s A n region -> 0 <= n -> (Z.to_nat n <= length b)%nat ->
  (forall st b' s', framed s s' -> same_setup (regs_of s.(bridge)) (regs_of s'.(bridge)) -> st = EFI_SUCCESS \/ st = EFI_DEVICE_ERROR ->
     length b' = length b -> Q (st, b') s') ->
  wp (SendSpiCmd BaseAddress LimitAddress op p dc at_ so A n b region) Q s.
Proof.
  intros Hs Hop (He & Hm & Hb) [HA HAn] Hn Hl HQ. destruct (lookup_lt_is_Some_2 _ _ He) as [e Hee].
  apply wp_bind, wp_gets, wp_bind. eapply wp_lift; [exact Hee|].
  apply wp_bind, wp_Reg; [done|by unfold R_QNC_RCRB_SPIOPMENU, R_QNC_RCRB_SPIBASE|]. pose proof rcrb_range.
  rewrite (wrap_small 32 (rcrb + _ + _)) by (unfold R_QNC_RCRB_SPIOPMENU, R_QNC_RCRB_SPIBASE; lia).
  apply wp_bind, wp_on_bridge. rewrite <- (Z2Nat.id op) by lia. eapply wp_mono; [apply opmenu_read; lia|]. intros v d1 [-> H1].
  rewrite !(proj2 (Z.eqb_neq _ 0)) by done. cbn [orb bridge] in *.
  destruct (SpiOffset2Physical s.(Instance) A region BaseAddress LimitAddress) as [[HwA Base] Limit]. cbn [fst] in HA, HAn.
  assert (Hk : forall k, same_setup (regs_of d1) k -> same_setup (regs_of s.(bridge)) k) by (by rewrite (proj1 H1)).
  destruct (_ && _).
  - apply wp_bind, wp_on_bridge. eapply wp_mono; [apply copy_law|]. intros l d2 [Hlen H2]. cbn [bridge] in *. apply wp_ret, HQ; [done| |auto|].
    + apply Hk. cbn [bridge]. rewrite (proj1 H2). apply same_setup_refl.
    + rewrite length_app, length_drop, Hlen. lia.
  - set (m := if negb dc && (0 <? n) then 0 else n). assert (Hmn : 0 <= m <= n) by (subst m; destruct (negb dc && (0 <? n)); lia).
    apply send_loop_any; [done|lia..|]. intros st b' s' Hf Hk' Hst Hlen. apply HQ; [done|by apply Hk|done|done].
Qed.

Lemma execute_any op p dc at_ so A n b region s :
  at_rcrb s -> 0 <= op -> (op < 8 -> opcode_ok s op) -> address_ok s A n region -> 0 <= n -> (Z.to_nat n <= length b)%nat ->
  wp (SpiProtocolExecute op p dc at_ so A n b region) (fun '(st, b') s' =>
    restored s s' /\ length b' = length b /\ (st = EFI_SUCCESS \/ st = EFI_DEVICE_ERROR \/ st = EFI_INVALID_PARAMETER) /\
    (st = EFI_INVALID_PARAMETER <-> 8 <= op \/ 2 <= p)) s.
Proof.
  intros Hs Hop Ho HA Hn Hl. unfold SpiDefs.SpiProtocolExecute, SPI_NUM_OPCODE, SPI_NUM_PREFIX_OPCODE.
  destruct (Z.leb_spec 8 op) as [H8|H8]; cbn [orb].
  { apply wp_ret. split; [apply restored_refl|]. split; [done|]. split; [tauto|]. split; [by left|done]. }
  destruct (Z.leb_spec 2 p) as [H2|H2].
  { apply wp_ret. split; [apply restored_refl|]. split; [done|]. split; [tauto|]. split; [by right|done]. }
  specialize (Ho H8). apply wp_bind, wp_WaitForSpiCycleComplete; [done|]. apply wait_any. intros ok s0 [Hf0 Hb0] [f0 Hc0].
  assert (HE : forall st (b' : list Z) s', restored s s' -> length b' = length b -> st = EFI_SUCCESS \/ st = EFI_DEVICE_ERROR ->
    restored s s' /\ length b' = length b /\ (st = EFI_SUCCESS \/ st = EFI_DEVICE_ERROR \/ st = EFI_INVALID_PARAMETER) /\
    (st = EFI_INVALID_PARAMETER <-> 8 <= op \/ 2 <= p)).
  { intros st b' s' HR Hlen Hst. split; [done|]. split; [done|]. split; [tauto|]. split; [|lia]. by destruct Hst as [->| ->]. }
  assert (H0 : restored s s0).
  { split; [done|by intros r; rewrite Hb0|]. rewrite Hc0. exists f0, (regs_of s.(bridge)).(spia). by destruct (regs_of s.(bridge)). }
  destruct ok; cbn [negb]; [|apply wp_ret, HE; auto].
  apply (guarded_send_spec _ _ _ _ _ _ _ _ _ _ _ (fun r _ => length r.2 = length b /\ (r.1 = EFI_SUCCESS \/ r.1 = EFI_DEVICE_ERROR))); [done| |].
  - intros s1 Hi1 H1 _. apply SendSpiCmd_any; [unfold at_rcrb; by rewrite Hi1, Hf0|done| | |done|done|].
    + destruct Ho as (O1 & O2 & O3). unfold opcode_ok. rewrite Hi1, Hf0, (proj1 H1), Hc0. done.
    + unfold address_ok. by rewrite Hi1, Hf0.
    + intros st b' s2 Hf2 Hk2 Hst Hlen. auto.
  - intros [st b'] s' HR [Hlen Hst]. apply HE; [by eapply restored_trans|done|done].
Qed.

(** C22: Whatever the command, and whatever the controller makes of it, the service returns, and then SMIs are enabled and the
    flash is protected against writes exactly as before, the opcode menu is the same, and the buffer has its length. The status is
    the one that the reads of the status register call for ([outcome], by a run on a bus that records them, which is the same run):
    EFI_INVALID_PARAMETER, with no read at all, exactly for an opcode or prefix beyond the menus; EFI_DEVICE_ERROR exactly when the
    wait for an earlier cycle, or the wait for a cycle of the command, finds the controller busy in all of its 600000 rounds, or a
    cycle of the command ends blocked; EFI_SUCCESS exactly when all waits end in time and no cycle of the command, of which there
    is at least one unless it reads memory-mapped flash, is blocked. After a failed cycle no other is waited for. Assumed: the
    opcode is in the menu, the addresses of the command are those of a part, and the buffer is as long as the count. *)
Theorem SpiProtocolExecute_restores op p dc at_ so A n b region s :
  at_rcrb s -> 0 <= op -> (op < 8 -> opcode_ok s op) -> address_ok s A n region -> 0 <= n -> (Z.to_nat n <= length b)%nat ->
  exists st b' s' reads,
    SpiProtocolExecute op p dc at_ so A n b region s = Some ((st, b'), s') /\
    SpiDefs.SpiProtocolExecute (B := recording (rcrb + R_QNC_RCRB_SPIS)) BaseAddress LimitAddress op p dc at_ so A n b region (recorded [] s) =
      Some ((st, b'), recorded reads s') /\
    restored s s' /\ length b' = length b /\ outcome (direct s.(Instance) op region) op p st reads.
Proof.
  intros Hs Hop Ho HA Hn Hl. destruct (execute_any op p dc at_ so A n b region s) as ([st b'] & s' & Hx & HR & Hlen & _); [done..|].
  assert (E : rcrb + R_QNC_RCRB_SPIS = u32 (s.(Instance).(PchRootComplexBar) + R_QNC_RCRB_SPIS)).
  { pose proof rcrb_range. rewrite Hs, wrap_small by (unfold R_QNC_RCRB_SPIS, R_QNC_RCRB_SPIBASE; lia). done. }
  destruct (trace_SpiProtocolExecute _ s.(Instance) BaseAddress LimitAddress E op p dc at_ so A n b region s _ _ [] eq_refl Hx) as (w & Hw & _ & Ho').
  by exists st, b', s', w.
Qed.

(** C13: The commands of the firmware volume services. On a controller that is ready, programming any number of bytes, at
    least one, and erasing a sector return, and leave the controller ready. The bytes are programmed where they belong in the
    image, in cycles of at most sixty-four bytes inside of a page; an error, or a loss of power at any moment, leaves each byte
    of the flash old or new, and when no cycle is blocked there is no error. *)
Theorem SpiProtocolExecute_refines_flash s A :
  ready s -> 0 <= A ->
  let off := s.(Instance).(SpiInitTable).(BiosStartOffset) in
  let size := s.(Instance).(SpiInitTable).(BiosSize) in
  (forall b, b <> [] -> A + Z.of_nat (length b) <= size ->
     wp (SpiProtocolExecute SPI_OPCODE_WRITE_INDEX 0 true true true A (Z.of_nat (length b)) b EnumSpiRegionBios) (fun '(st, b') s' =>
       ready s' /\ restored s s' /\ b' = b /\ (unblocked -> st = EFI_SUCCESS) /\
       lupdates chip cseen (write_lin (A + off) b (chip s.(bridge))) s.(bridge) s'.(bridge) st) s) /\
  (A mod SPI_ERASE_SECTOR_SIZE = 0 -> A + SPI_ERASE_SECTOR_SIZE <= size ->
     wp (SpiProtocolExecute SPI_OPCODE_ERASE_INDEX 0 false true false A 0 [] EnumSpiRegionBios) (fun '(st, _) s' =>
       ready s' /\ restored s s' /\ (unblocked -> st = EFI_SUCCESS) /\
       lupdates chip cseen (erase_lin (A + off) SPI_ERASE_SECTOR_SIZE (chip s.(bridge))) s.(bridge) s'.(bridge) st) s).
Proof.
  intros Hr HA off size. split.
  - intros b Hb Hsz. by apply execute_write.
  - intros Hm Hsz. by apply execute_erase.
Qed.

(** ** Configuration *)

(** A table of a part with sectors of 4096 bytes, as the firmware volume services use it, and that contains the image. *)
Record sector_table (t : SPI_INIT_TABLE) : Prop := {
  sector_write : exists e, t.(OpcodeMenu) !! 3%nat = Some e /\ e.(Code) = 0x02 /\ e.(OpType) = EnumSpiOpcodeWrite;
  sector_erase : exists e, t.(OpcodeMenu) !! 5%nat = Some e /\ e.(Code) = 0x20 /\ e.(OpType) = EnumSpiOpcodeWrite;
  sector_status : exists e, t.(OpcodeMenu) !! 2%nat = Some e /\ e.(Operation) = EnumSpiOperationWriteStatus;
  sector_unlock : unlock_index t.(OpcodeMenu) 0 8 <> 8;
  sector_prefix : t.(PrefixOpcode) !!! 1%nat = 0x06 \/ t.(PrefixOpcode) !!! 1%nat = 0x50;
  sector_start : t.(BiosStartOffset) mod SPI_ERASE_SECTOR_SIZE = 0;
  sector_size : 0 < t.(BiosSize) /\ t.(BiosStartOffset) + t.(BiosSize) <= chip_size
}.

Lemma initialised_ready t s0 s : table_ok t -> sector_table t -> initialised t s0 s -> ready s.
Proof.
  intros Hok [(e3 & E3 & C3 & W3) (e5 & E5 & C5 & W5) _ Hu _ Hst Hsz] [I1 [_ I2 _] I3 I4 I5 I6].
  pose proof (configured_type _ _ _ _ _ I4 (table_eight _ Hok) E3) as F3. pose proof (configured_type _ _ _ _ _ I4 (table_eight _ Hok) E5) as F5.
  unfold opcode_type in F3, F5. rewrite W3 in F3. rewrite W5 in F5.
  split; rewrite ?I3; [done|done|by apply I5| |by exists e3|by exists e5| |done].
  - split; [by rewrite (conf_menu _ _ _ I4 3 e3 E3) by lia|]. split; [exact F3|]. split; [by rewrite (conf_menu _ _ _ I4 5 e5 E5) by lia|].
    split; [exact F5|]. by eapply configured_prefix.
  - split; [apply (table_start _ Hok)|done].
Qed.

(** C23: Initialisation with a table of the driver, while nothing is locked and no cycle is in progress. The contents of the flash
    stay as they are and SMIs as they were. It succeeds only with the table of the part that is there; then the prefixes, the types
    and the menu are those of the table, the information tells the indices of its operations, and blocks are protected
    no more than before; when the identification differs it fails with EFI_INVALID_PARAMETER; and when no cycle is
    blocked there is no other outcome, and success leaves the blocks unprotected. *)
Theorem SpiProtocolInit_identifies Smm t s :
  at_rcrb s -> idle s -> (regs_of s.(bridge)).(scl) = false -> table_ok t ->
  wp (SpiProtocolInit BaseAddress LimitAddress Smm (Some t)) (fun st s' =>
    quietly s s' /\ s'.(Instance).(SpiInitTable) = t /\
    (st = EFI_SUCCESS -> jedec_id = table_id t /\ configured t 8 (regs_of s'.(bridge)) /\
       s'.(Instance).(InitDone) = true /\ s'.(Instance).(InitInfo) = fill_info t.(OpcodeMenu) 0 no_info /\
       (prot s'.(bridge) = true -> prot s.(bridge) = true)) /\
    (st = EFI_INVALID_PARAMETER -> jedec_id <> table_id t) /\
    (unblocked -> (st = EFI_SUCCESS <-> jedec_id = table_id t) /\ (st = EFI_INVALID_PARAMETER <-> jedec_id <> table_id t) /\
       (st = EFI_SUCCESS -> unlock_index t.(OpcodeMenu) 0 8 <> 8 -> prot s'.(bridge) = false))) s.
Proof.
  intros Hs Hi Hl Ht. apply (SpiProtocolInit_spec BaseAddress LimitAddress Smm t); [done..|]. intros st s' _ Hq _ Hti _ HR.
  split; [done|]. split; [done|]. destruct HR as [(-> & Hid & Hc & Hp & Hu & Hd & Hn)|[[[-> Hne]|[-> Hb]] Hp]].
  - split; [intros _; repeat (split; [done|]); intros Hpt; destruct Hp as [E|E]; congruence|]. split; [done|]. intros Hub.
    split; [done|]. split; [|by intros _; apply Hu]. done.
  - split; [done|]. split; [done|]. intros Hub. split; [done|]. split; [done|done].
  - split; [done|]. split; [done|]. intros Hub. by destruct (Hb Hub).
Qed.

(** The start of the services in SMM. The search through the tables of the parts ends at the first one that fits the part,
    and unlocks it: from then on the controller is ready for the commands of the firmware volume services, and the contents of the
    flash are what they were. *)
Theorem SmmSpiInit_ready t pre post s :
  at_rcrb s -> idle s -> (regs_of s.(bridge)).(scl) = false -> unblocked ->
  Forall table_ok (pre ++ [t]) -> Forall (fun t' => table_id t' <> jedec_id) pre -> table_id t = jedec_id -> sector_table t ->
  wp (SmmSpiInit BaseAddress LimitAddress (pre ++ t :: post)) (fun st s' =>
    st = EFI_SUCCESS /\ ready s' /\ s'.(Instance).(SpiInitTable) = t /\ s'.(Instance).(InitDone) = true /\ quietly s s') s.
Proof.
  intros Hs Hi Hl Hu Hok Hne Hid Hst. pose proof Hst as [_ _ (e & E2 & W2) Hul Hp _ _].
  apply (SmmSpiInit_spec BaseAddress LimitAddress t pre post e); [done..|]. intros s' HI.
  split; [done|]. split; [|by destruct HI as [? ? ? ? ? []]]. eapply (initialised_ready t); [|done|exact HI].
  apply Forall_app in Hok as [_ Hok]. by apply Forall_cons_1 in Hok as [Hok _].
Qed.

(** ** The lock *)

Inductive spi_call :=
  | CallExecute (OpcodeIndex PrefixOpcodeIndex : Z) (DataCycle Atomic ShiftOut : bool) (Address DataByteCount : Z) (Buffer : list Z) (SpiRegionType : SPI_REGION_TYPE)
  | CallLock
  | CallInfo (This InitInfoPtr : bool).

Definition run_call (c : spi_call) : M (spi D) unit :=
  match c with
  | CallExecute op p dc at_ so A n b region => _ ← SpiProtocolExecute op p dc at_ so A n b region; mret tt
  | CallLock => _ ← SpiProtocolLock; mret tt
  | CallInfo This Ptr => _ ← SpiProtocolInfo This Ptr; mret tt
  end.

(** A command that the program may send. *)
Definition call_ok s (c : spi_call) : Prop :=
  match c with
  | CallExecute op p dc at_ so A n b region =>
      0 <= op /\ (op < 8 -> opcode_ok s op) /\ address_ok s A n region /\ 0 <= n /\ (Z.to_nat n <= length b)%nat
  | _ => True
  end.

(** The state that the lock keeps. *)
Definition kept_locked s s' : Prop :=
  s'.(Instance) = s.(Instance) /\ (forall r, s'.(sb).(regs) r = s.(sb).(regs) r) /\ (regs_of s'.(bridge)).(scl) = true /\
  same_setup (set_scl true (regs_of s.(bridge))) (regs_of s'.(bridge)).

Lemma kept_locked_restored s s1 s2 : kept_locked s s1 -> restored s1 s2 -> kept_locked s s2.
Proof.
  intros (K1 & K2 & K3 & K4) [R1 R2 R3]. split; [congruence|]. split; [intros r; by rewrite R2|]. split; [|by eapply same_setup_trans].
  destruct R3 as (f & a & ->). done.
Qed.

Lemma SpiProtocolLock_spec (Q : EFI_STATUS -> spi D -> Prop) s :
  at_rcrb s -> (forall s', kept_locked s s' -> Q (if (regs_of s.(bridge)).(scl) then EFI_ACCESS_DENIED else EFI_SUCCESS) s') ->
  wp SpiProtocolLock Q s.
Proof.
  intros Hs HQ. apply wp_bind, wp_Reg; [done|by unfold R_QNC_RCRB_SPIS, R_QNC_RCRB_SPIBASE|].
  apply wp_bind, wp_on_bridge. eapply wp_mono; [apply spis_read|]. intros v d1 (_ & H15 & [f1 E1] & _).
  change B_QNC_RCRB_SPIS_SCL with (2 ^ 15). rewrite flag_test, H15 by lia. destruct (scl (regs_of s.(bridge))) eqn:El.
  - apply wp_ret, HQ. split; [done|]. split; [done|]. cbn [bridge]. rewrite E1. split; [done|].
    exists f1, (regs_of s.(bridge)).(spia). unfold set_scl, set_spia, set_spid. cbn. by rewrite orb_true_r, El.
  - apply wp_bind, wp_on_bridge. eapply wp_mono; [apply spis_or|]. intros [] d2 [E2 _]. cbn [bridge] in *.
    change (Z.testbit (2 ^ 15) 15) with true in E2.
    apply wp_bind, wp_on_bridge. eapply wp_mono; [apply spis_read|]. intros v3 d3 (_ & H15' & [f3 E3] & _). cbn [bridge] in *.
    assert (Ht : scl (regs_of d2) = true) by (rewrite E2; apply orb_true_r). rewrite Ht in H15'.
    pose proof (flag_test v3 15 ltac:(lia)) as Hf. rewrite H15' in Hf. apply negb_true_iff in Hf. rewrite Hf.
    apply wp_bind, wp_on_bridge. eapply wp_mono; [apply script_law|]. intros [] d4 [E4 _]. cbn [bridge] in *. unfold id in E4.
    apply wp_ret, HQ. split; [done|]. split; [done|]. cbn [bridge]. rewrite E4, E3. split; [done|]. rewrite E2, E1.
    by exists f3, (regs_of s.(bridge)).(spia).
Qed.

(** With the lock set nothing can be initialised: the driver stops at its assertion. *)
Lemma SpiProtocolInit_locked Smm t s : at_rcrb s -> (regs_of s.(bridge)).(scl) = true -> SpiProtocolInit BaseAddress LimitAddress Smm (Some t) s = None.
Proof.
  intros Hs Hl. cbn [SpiProtocolInit]. unfold mbind, M_bind, update_instance, modify. cbn beta iota.
  unfold Reg, gets. cbn [Instance PchRootComplexBar set_table bridge]. unfold at_rcrb in Hs. rewrite Hs. pose proof rcrb_range.
  rewrite (wrap_small 32 (rcrb + R_QNC_RCRB_SPIS)) by (unfold R_QNC_RCRB_SPIS, R_QNC_RCRB_SPIBASE; lia).
  destruct (spis_read s.(bridge)) as (v & d & Hr & (_ & H15 & _)). unfold on_bridge. cbn [bridge]. rewrite Hr.
  change B_QNC_RCRB_SPIS_SCL with (2 ^ 15). by rewrite flag_test, H15, Hl by lia.
Qed.

(** C14: The lock of the configuration is final. It always gets set, once; then, whatever commands are sent and however often the
    lock is asked for again, the prefixes, types and opcodes of the menu are what they were, with SMIs and the write protection as
    before, and initialising the controller again stops the driver. *)
Theorem SpiProtocolLock_final calls s :
  at_rcrb s -> Forall (call_ok s) calls ->
  wp (st ← SpiProtocolLock; _ ← for_each calls run_call; mret st) (fun st s' =>
    st = (if (regs_of s.(bridge)).(scl) then EFI_ACCESS_DENIED else EFI_SUCCESS) /\ kept_locked s s' /\
    wp SpiProtocolLock (fun st' _ => st' = EFI_ACCESS_DENIED) s' /\
    forall Smm t, SpiProtocolInit BaseAddress LimitAddress Smm (Some t) s' = None) s.
Proof.
  intros Hs Hc. apply wp_bind, SpiProtocolLock_spec; [done|]. intros s1 H1. apply wp_bind.
  apply (wp_for_each (fun _ s' => kept_locked s s')); [done| |].
  - intros pre c post s2 Hcalls H2. assert (Hat : at_rcrb s2) by (unfold at_rcrb; by rewrite (proj1 H2)).
    assert (Hcc : call_ok s c) by (rewrite Hcalls in Hc; apply Forall_app in Hc as [_ Hc]; by apply Forall_cons_1 in Hc as [Hc _]).
    destruct c as [op p dc at_ so A n b region| |This Ptr]; cbn [run_call].
    + destruct Hcc as (C1 & C2 & C3 & C4 & C5). apply wp_bind. eapply wp_mono; [apply execute_any; [done|done| | |done|done]|].
      * intros H8. destruct (C2 H8) as (O1 & O2 & O3). unfold opcode_ok. destruct H2 as (K1 & _ & _ & (f & a & K4)). rewrite K1, K4. done.
      * unfold address_ok. by rewrite (proj1 H2).
      * intros [st b'] s3 [HR _]. apply wp_ret. by eapply kept_locked_restored.
    + apply wp_bind, SpiProtocolLock_spec; [done|]. intros s3 (K1 & K2 & K3 & K4). apply wp_ret.
      destruct H2 as (L1 & L2 & L3 & L4). split; [congruence|]. split; [intros r; by rewrite K2|]. split; [done|].
      eapply same_setup_trans; [exact L4|]. unfold set_scl in K4. by destruct (regs_of s2.(bridge)); cbn in *; rewrite L3 in K4 |- *.
    + apply wp_bind. unfold SpiProtocolInfo. destruct (negb This || negb Ptr); [by apply wp_ret, wp_ret|]. apply wp_bind, wp_gets.
      destruct (negb _); [by apply wp_ret, wp_ret|]. by destruct (negb _); apply wp_ret, wp_ret.
  - intros s' H'. apply wp_ret. split; [done|]. split; [done|]. assert (Hat : at_rcrb s') by (unfold at_rcrb; by rewrite (proj1 H')).
    split; [|intros Smm t; by apply SpiProtocolInit_locked; [|apply H']].
    apply SpiProtocolLock_spec; [done|]. intros s2 _. destruct H' as (_ & _ & -> & _). done.
Qed.
End Commands.
