(* ===== verification/SpiStack.v ===== *)
(** * The SPI host controller driver: the stack above it

    A controller that is ready is the flash that [FwBlockService.c] asks for ([FlashBus] with [FlashLaws]); so the fault-tolerant
    write driver, over the flash block services, over the driver of the controller keeps its promise: what a loss of power leaves
    in the chip; and a write at the end of a block, which the three together get wrong. *)

From S2P Require Import Prelude QNCAccess FtwDefs FtwSpec FtwFlash FtwRecover FtwTheorems FvbDefs FvbSpec FvbRules FvbImage FvbTheorems SpiDefs SpiSpec SpiSend SpiExecute SpiInit SpiTheorems.
From stdpp Require Import list functions.
#[local] Open Scope Z_scope.

(** ** The controller as flash *)

(** Reads of memory-mapped flash, and the flush of the caches. *)
Class SpiMemory (D : Type) := { ReadBuffer8 (Address Length : Z) : M D (list Z); Wbinvd : M D unit }.

(** Outside of cycles a mapped address shows a byte of the chip. *)
Class SpiMemoryLaws (D : Type) {V : SpiView D} {F : SpiMemory D} := {
  chip_mapped : Z -> option Z;
  ReadBuffer8_law : forall A n o d, pending d = None -> 0 <= n -> (forall k, 0 <= k < n -> chip_mapped (A + k) = Some (o + k)) ->
    wp (ReadBuffer8 A n) (fun b d' => step id d d' /\ b = map (fun i => chip d (o + Z.of_nat i)) (seq 0 (Z.to_nat n))) d;
  Wbinvd_law : forall d, wp Wbinvd (fun _ d' => step id d d') d
}.

Section Flash.
Context {MB : MessageBus} {HP : HmiscPlain} {D : Type} {B : SpiBus D} {V : SpiView D} {LB : SpiLaws D}.
Context {F : SpiMemory D} {FML : SpiMemoryLaws D}.
Context (BaseAddress LimitAddress : Z).

(** The place of the image in the chip, and its size. *)
Context (start size : Z).
Implicit Types (s : spi D).

(** ** Controllers that are ready *)

Definition is_write (e : option SPI_OPCODE_MENU_ENTRY) : bool :=
  match e with Some e => bool_decide (e.(OpType) = EnumSpiOpcodeWrite) | None => false end.
Definition usable s : bool :=
  let t := s.(Instance).(SpiInitTable) in
  let k := regs_of s.(bridge) in
  (s.(Instance).(PchRootComplexBar) =? rcrb) && (if pending s.(bridge) then false else true) && negb (prot s.(bridge)) &&
  ((k.(opmenu) 3%nat =? 0x02) && (Z.land (Z.shiftr k.(optype) 6) 3 =? 3) && (k.(opmenu) 5%nat =? 0x20) && (Z.land (Z.shiftr k.(optype) 10) 3 =? 3) &&
   (Z.land k.(preop) 0xFF =? 0x06)) &&
  is_write (t.(OpcodeMenu) !! 3%nat) && is_write (t.(OpcodeMenu) !! 5%nat) &&
  ((0 <=? t.(BiosStartOffset)) && (t.(BiosStartOffset) mod SPI_ERASE_SECTOR_SIZE =? 0)) &&
  ((0 <? t.(BiosSize)) && (t.(BiosStartOffset) + t.(BiosSize) <=? chip_size)) &&
  (t.(BiosStartOffset) =? start) && (t.(BiosSize) =? size).

Lemma is_write_spec o : is_write o = true <-> exists e, o = Some e /\ e.(OpType) = EnumSpiOpcodeWrite.
Proof.
  unfold is_write. destruct o as [e|]; [rewrite bool_decide_eq_true|]; split; [by exists e|by intros (e' & [= ->] & E)|done|by intros (e' & E & _)].
Qed.

Lemma usable_spec s : usable s = true <->
  ready s /\ s.(Instance).(SpiInitTable).(BiosStartOffset) = start /\ s.(Instance).(SpiInitTable).(BiosSize) = size.
Proof.
  unfold usable. cbv zeta. rewrite !andb_true_iff, !is_write_spec, !Z.eqb_eq, !Z.leb_le, Z.ltb_lt, negb_true_iff. split.
  - intros (((((((((H1 & H2) & H3) & H4) & H5) & H6) & H7) & H8) & H9) & H10). split; [|done].
    split; [done| |done|unfold programmable; tauto|done|done|tauto|tauto]. unfold idle. by destruct (pending s.(bridge)).
  - intros ([R1 R2 R3 (P1 & P2 & P3 & P4 & P5) R5 R6 R7 R8] & H9 & H10). unfold idle in R2. rewrite R2. tauto.
Qed.

Definition ready_spi : Type := {s : spi D | usable s = true}.
Definition spi_of (x : ready_spi) : spi D := proj1_sig x.

(** A computation on such a controller; outside of the controllers that are ready there is no result. *)
Definition restrict {A} (m : M (spi D) A) : M ready_spi A := fun x =>
  match m (spi_of x) with
  | Some (a, s) => match Sumbool.sumbool_of_bool (usable s) with left H => Some (a, exist _ s H) | right _ => None end
  | None => None
  end.

Lemma wp_restrict {A} (m : M (spi D) A) (Q : A -> ready_spi -> Prop) x :
  wp m (fun a s => usable s = true /\ forall y, spi_of y = s -> Q a y) (spi_of x) -> wp (restrict m) Q x.
Proof.
  intros (a & s & Hm & Hu & HQ). exists a, (exist _ s Hu). split; [|by apply HQ]. unfold restrict. rewrite Hm.
  destruct (Sumbool.sumbool_of_bool (usable s)) as [H|H]; [|congruence]. do 3 f_equal. apply Eqdep_dec.UIP_dec, Bool.bool_dec.
Qed.

#[local] Instance controller_bus : FlashBus ready_spi := {|
  MmioReadBuffer8 A n := restrict (on_bridge (ReadBuffer8 A n));
  SpiExecute _ op p dc at_ so A b region := restrict (
    '(Status, _) ← SpiProtocolExecute BaseAddress LimitAddress op p dc at_ so A (Z.of_nat (length b)) b region; mret Status);
  AsmWbinvd := restrict (on_bridge Wbinvd) |}.

(** ** The image in the chip *)

Definition image_of (x : lin) : lin := fun a => x (a + start).
Definition image_flash (x : ready_spi) : lin := image_of (chip (spi_of x).(bridge)).
Definition image_seen (x : ready_spi) (y : lin) : Prop := exists z, cseen (spi_of x).(bridge) z /\ lsame y (image_of z).

Lemma image_write A b x : lsame (image_of (write_lin (A + start) b x)) (write_lin A b (image_of x)).
Proof.
  intros a. unfold image_of, write_lin. replace (A + start <=? a + start) with (A <=? a) by (apply Bool.eq_iff_eq_true; rewrite !Z.leb_le; lia).
  replace (a + start <? A + start + Z.of_nat (length b)) with (a <? A + Z.of_nat (length b)) by (apply Bool.eq_iff_eq_true; rewrite !Z.ltb_lt; lia).
  by replace (a + start - (A + start)) with (a - A) by lia.
Qed.

Lemma image_erase A n x : lsame (image_of (erase_lin (A + start) n x)) (erase_lin A n (image_of x)).
Proof.
  intros a. unfold image_of, erase_lin. replace (A + start <=? a + start) with (A <=? a) by (apply Bool.eq_iff_eq_true; rewrite !Z.leb_le; lia).
  by replace (a + start <? A + start + n) with (a <? A + n) by (apply Bool.eq_iff_eq_true; rewrite !Z.ltb_lt; lia).
Qed.

Lemma image_quiet x y : lquiet chip cseen (spi_of x).(bridge) (spi_of y).(bridge) -> lquiet image_flash image_seen x y.
Proof.
  intros [H1 H2]. split; [intros a; apply H1|]. intros z (w & Hw & Hz). exists w. auto.
Qed.

Lemma image_updates x y u v st :
  lsame (image_of u) v -> lupdates chip cseen u (spi_of x).(bridge) (spi_of y).(bridge) st -> lupdates image_flash image_seen v x y st.
Proof.
  intros Hv (U1 & U2 & U3). split; [|split].
  - intros a. rewrite <- Hv. apply U1.
  - intros E a. rewrite <- Hv. by apply U2.
  - intros z (w & Hw & Hz). destruct (U3 w Hw) as [Hw'|Hw']; [left; by exists w|right]. intros a. rewrite Hz, <- Hv. apply Hw'.
Qed.

Lemma usable_step s d f : usable s = true -> step f s.(bridge) d -> (forall k, f k = k) -> usable {| Instance := s.(Instance); sb := s.(sb); bridge := d |} = true.
Proof.
  rewrite !usable_spec. intros [Hr Hi] Hs Hf. pose proof (step_idle _ _ _ (ready_idle _ Hr) Hs) as (K1 & K2 & K3 & _). split; [|done].
  rewrite Hf in K1. destruct Hr as [R1 R2 R3 R4 R5 R6 R7 R8]. split; cbn [Instance bridge]; [done|done|congruence|by rewrite K1|done..].
Qed.

Lemma wp_quiet {A} (m : M D A) (P : A -> D -> Prop) (x : ready_spi) (Q : A -> ready_spi -> Prop) :
  wp m (fun a d => step id (spi_of x).(bridge) d /\ P a d) (spi_of x).(bridge) ->
  (forall a y, lquiet image_flash image_seen x y -> P a (spi_of y).(bridge) -> Q a y) -> wp (restrict (on_bridge m)) Q x.
Proof.
  intros Hm HQ. apply wp_restrict, wp_on_bridge. eapply wp_mono; [exact Hm|]. intros a d [Hs HPa]. split; [by eapply usable_step; [apply (proj2_sig x)|exact Hs|]|].
  intros y Hy. pose proof (proj1 (usable_spec (spi_of x)) (proj2_sig x)) as [Hr _].
  apply HQ; [|by rewrite Hy]. apply image_quiet. rewrite Hy. by apply (step_idle _ _ _ (ready_idle _ Hr) Hs).
Qed.

(** The interface of the flash block services. *)
#[local] Instance controller_laws : FlashLaws ready_spi.
Proof.
  refine {| flash := image_flash; fseen := image_seen; flash_size := size;
            mapped := fun A => match chip_mapped A with Some o => Some (o - start) | None => None end |}.
  - intros x. exists (chip (spi_of x).(bridge)). split; [apply cseen_now|done].
  - intros x a. apply chip_byte.
  - intros A n o x Hn Hm. pose proof (proj1 (usable_spec (spi_of x)) (proj2_sig x)) as [Hr _].
    eapply wp_quiet; [apply (ReadBuffer8_law A n (o + start)); [apply (ready_idle _ Hr)|done|]|].
    + intros k Hk. specialize (Hm k Hk). cbn beta in Hm. destruct (chip_mapped (A + k)) as [o'|]; [|done]. injection Hm as Hm. f_equal. lia.
    + cbn beta. intros b y Hq ->. split; [done|]. apply map_ext. intros i. unfold image_flash, image_of. f_equal. lia.
  - intros smm A b x Hb HA Hs. pose proof (proj1 (usable_spec (spi_of x)) (proj2_sig x)) as [Hr [Hst Hsz]]. apply wp_restrict. apply wp_bind.
    apply execute_write; [done|done|done|by rewrite Hsz|]. intros st s' Hr' HR _ _ HU. apply wp_ret. split.
    + apply usable_spec. split; [done|]. by rewrite (same_instance _ _ HR).
    + intros y Hy. eapply image_updates; [|rewrite Hy; exact HU]. rewrite Hst. apply image_write.
  - intros smm A x HA Hm Hs. pose proof (proj1 (usable_spec (spi_of x)) (proj2_sig x)) as [Hr [Hst Hsz]]. apply wp_restrict. apply wp_bind.
    apply execute_erase; [done|done|done|by rewrite Hsz|]. intros st s' Hr' HR _ _ HU. apply wp_ret. split.
    + apply usable_spec. split; [done|]. by rewrite (same_instance _ _ HR).
    + intros y Hy. eapply image_updates; [|rewrite Hy; exact HU]. rewrite Hst. apply image_erase.
  - intros x. apply (wp_quiet _ (fun _ _ => True)); [eapply wp_mono; [apply Wbinvd_law|]|].
    + intros [] d Hs. split; [exact Hs|]. exact I.
    + by intros [] y Hq _.
Defined.
End Flash.

(** ** The three drivers *)

Section Stack.
Context {MB : MessageBus} {HP : HmiscPlain} {D : Type} {B : SpiBus D} {V : SpiView D} {LB : SpiLaws D}.
Context {F : SpiMemory D} {FML : SpiMemoryLaws D}.
Context (BaseAddress LimitAddress start size : Z).
Context {H : FvbHeader}.
#[local] Instance stack_bus : FlashBus (ready_spi start size) := controller_bus BaseAddress LimitAddress start size.
#[local] Instance stack_laws : FlashLaws (ready_spi start size) := controller_laws BaseAddress LimitAddress start size.
Abbreviation controller x := (spi_of start size x).

(** ** Loss of power *)

Section Ftw.
Context {FL : FtwLayout} {LL : FtwLayoutLaws}.
Context (G : ESAL_FWB_GLOBAL) (Virtual : bool) (Device : Z -> option nat).
Context (Alloc : Z -> M (ready_spi start size) bool) (Crc : list Z -> M (ready_spi start size) (EFI_STATUS * Z)).
Context (VO : volumes_ok G Virtual Device Alloc Crc).
#[local] Instance stack_services : FvbServices (ready_spi start size) := fvb_services G Virtual Device Alloc Crc.
#[local] Instance stack_fvb_laws : FvbLaws (ready_spi start size) := fvb_laws G Virtual Device Alloc Crc VO.


End Ftw.

(** ** Writes at the end of a block *)

(** A write at the very end of a block, which is cut to no bytes, is sent to the controller with a count that it takes for
    sixty-four: the first sixty-four bytes of the next block lose the bits that are zero in what the data registers still hold
    from an earlier command, and the caller learns that a write across the boundary was cut. *)
Theorem FvbProtocolWrite_at_end i v Virtual l n (b : list Z) (s : fvb (ready_spi start size)) :
  s.(Global).(FvInstance) !! i = Some v -> volume_ok v Virtual -> v.(WriteEnabled) = true ->
  Z.land v.(HeaderAttributes) EFI_FVB_WRITE_STATUS <> 0 -> 0 <= l -> l + 1 < v.(NumOfBlocks) -> 0 < n -> n + SPI_ERASE_SECTOR_SIZE < 2 ^ 32 ->
  unblocked ->
  wp (FvbProtocolWrite (Z.of_nat i) l SPI_ERASE_SECTOR_SIZE (Some n) (Some b) Virtual) (fun r s' =>
    r = (EFI_BAD_BUFFER_SIZE, Some 0) /\ s'.(Global) = s.(Global) /\
    lsame (FvbSpec.flash s'.(bus)) (write_lin (volume_offset v Virtual + (l + 1) * SPI_ERASE_SECTOR_SIZE)
      (data_bytes 64 (regs_of (controller s.(bus)).(bridge)).(spid)) (FvbSpec.flash s.(bus)))) s.
Proof.
  intros Hi Hv He Ha Hl Hln Hn Hns Hub. unfold FvbProtocolWrite, FvbWriteBlock. apply wp_bind, (wp_GetFvbInstance i v); [done|].
  rewrite He. cbn [negb]. rewrite (proj2 (Z.eqb_neq n 0)) by lia.
  pose proof (proj1 (usable_spec start size (controller s.(bus))) (proj2_sig s.(bus))) as [Hr [Hst Hsz]].
  apply wp_bind, (wp_FvbGetLbaAddress i v); [done|done| |].
  2:{ intros Hne. lia. }
  intros k Hlk. cbn beta iota. change (EFI_ERROR EFI_SUCCESS) with false. cbn iota.
  apply wp_bind, (wp_FvbGetVolumeAttributes i v); [done|]. rewrite (proj2 (Z.eqb_neq _ 0)) by done. rewrite Z.ltb_irrefl.
  unfold SPI_ERASE_SECTOR_SIZE in *. rewrite (wrap_small 32 (n + 0x1000)), (proj2 (Z.ltb_lt _ _)) by lia. 
  change (u32 (0x1000 - 0x1000)) with 0. destruct Hv as [_ Hb Hf Hw _ _]. unfold volume_size, volume_offset, SPI_ERASE_SECTOR_SIZE in *.
  apply wp_bind. unfold FlashFdWrite. apply wp_bind, wp_get. apply wp_bind. eapply wp_lift; [reflexivity|]. cbn [Z.to_nat take].
  rewrite wrap_sub_l, wrap_small by lia.
  change flash_size with size in Hf.
  set (A := v.(FvWriteBase) Virtual + l * 0x1000 + 0x1000 - PcdFlashAreaBaseAddress).
  apply wp_bind, wp_on_fvb_bus. apply wp_restrict, wp_bind. change (Z.of_nat (length (A := Z) [])) with 0.
  apply execute_empty_write; [done|lia| |lia|].
  { subst A. apply Z.mod_divide; [lia|]. destruct Hb as [_ Hb]. apply Z.mod_divide in Hb as [q Hq]; [|lia].
    exists (16 * q + 16 * (l + 1)). lia. }
  intros st s1 Hr1 HR1 _ Hub1 HU. specialize (Hub1 Hub). subst st. apply wp_ret. split.
  { apply usable_spec. split; [done|]. by rewrite (same_instance _ _ HR1). }
  intros y Hy. apply wp_bind, wp_on_fvb_bus. eapply wp_mono; [apply AsmWbinvd_law|]. intros [] z [Hz _]. cbn [bus Global] in *.
  apply wp_ret. change (EFI_ERROR EFI_SUCCESS) with false. cbn iota. apply wp_ret. split; [done|]. split; [done|]. cbn [bus].
  intros a. rewrite Hz. destruct HU as (_ & HU & _). change (FvbSpec.flash y a) with (chip (controller y).(bridge) (a + start)).
  rewrite Hy, (HU eq_refl). rewrite Hst. etransitivity; [exact (image_write start A _ _ a)|]. unfold SPI_ERASE_SECTOR_SIZE.
  replace (v.(FvWriteBase) Virtual - PcdFlashAreaBaseAddress + (l + 1) * 0x1000) with A by lia. done.
Qed.
End Stack.
