(* ===== verification/SpiWitness.v ===== *)
(** * The SPI host controller driver: runs on a controller

    A controller with its registers, and a part of eight megabytes whose cycles take a while, which obeys the laws of the
    controller and of the reads of memory-mapped flash. On it the witnesses of the theorems on the driver and on the stack
    above it, and what the driver does with the tables of the program. *)

From S2P Require Import Prelude QNCAccess FtwDefs FtwSpec FtwFlash FtwRecover FtwTheorems FtwWitness FvbDefs FvbSpec FvbRules FvbImage FvbTheorems FvbWitness SpiDefs SpiSpec SpiSend SpiExecute SpiInit SpiTrace SpiTheorems SpiStack.
From stdpp Require Import list functions.
#[local] Open Scope Z_scope.

(** ** The controller *)

Record part := { p_regs : ctl; p_cells : lin; p_log : list (lin * lin); p_prot : bool; p_cycle : option target; p_left : Z }.

Definition part_chip (d : part) : lin := fun a => u8 (d.(p_cells) a).
Definition part_regs (d : part) : ctl := set_cntl (Z.land d.(p_regs).(cntl) CNTL_BITS) d.(p_regs).
Definition byte_target (t : target) : target := {| t_flash := fun a => u8 (t.(t_flash) a); t_prot := t.(t_prot); t_data := t.(t_data) |}.
Definition part_seen (d : part) (x : lin) : Prop := lsame x (part_chip d) \/ Exists (fun e => ltorn e.1 e.2 x) d.(p_log).

Definition w25q64 : list Z := [0xEF; 0x40; 0x17].
Definition bar : Z := 0xFED1C000.
#[local] Instance part_view : SpiView part := {|
  rcrb := bar; chip_size := 0x800000; jedec_id := w25q64; regs_of := part_regs; chip := part_chip; cseen := part_seen;
  prot := p_prot; pending := fun d => option_map byte_target d.(p_cycle); time_left := p_left |}.

(** Registers change; time passes; a cycle starts and ends. *)
Definition act (f : ctl -> ctl) (d : part) : part :=
  {| p_regs := f (part_regs d); p_cells := d.(p_cells); p_log := d.(p_log); p_prot := d.(p_prot); p_cycle := d.(p_cycle); p_left := d.(p_left) |}.
Definition pass (t : Z) (d : part) : part :=
  {| p_regs := d.(p_regs); p_cells := d.(p_cells); p_log := d.(p_log); p_prot := d.(p_prot); p_cycle := d.(p_cycle); p_left := d.(p_left) - t |}.
Definition begin (t : target) (d : part) : part :=
  {| p_regs := d.(p_regs); p_cells := d.(p_cells); p_log := (part_chip d, (byte_target t).(t_flash)) :: d.(p_log); p_prot := d.(p_prot);
     p_cycle := Some t; p_left := 25 |}.
Definition data_of (t : target) (k : ctl) : ctl :=
  match t.(t_data) with Some l => set_spid (fun j => if (j <? length l)%nat then l !!! j else k.(spid) j) k | None => k end.
Definition finish (t : target) (d : part) : part :=
  {| p_regs := data_of t d.(p_regs); p_cells := t.(t_flash); p_log := (part_chip d, (byte_target t).(t_flash)) :: d.(p_log); p_prot := t.(t_prot);
     p_cycle := None; p_left := 0 |}.

Definition spis_value (busy : bool) (d : part) : Z := (if d.(p_regs).(scl) then 0x8000 else 0) + (if busy then 1 else 4).
Definition poll (d : part) : Z * part :=
  match d.(p_cycle) with
  | Some t => if 0 <? d.(p_left) then (spis_value true d, d) else (spis_value false d, finish t d)
  | None => (spis_value false d, d)
  end.

Definition at_menu (A : Z) : bool := (bar + R_QNC_RCRB_SPIOPMENU <=? A) && (A <? bar + R_QNC_RCRB_SPIOPMENU + 8).
Definition at_data (A : Z) : bool := (bar + R_QNC_RCRB_SPID0 <=? A) && (A <? bar + R_QNC_RCRB_SPID0 + 64).
Definition change_ (f : ctl -> ctl) : M part unit := modify (act f).

#[local] Instance part_bus : SpiBus part := {|
  MmioRead8 A := gets (fun d => if at_menu A then d.(p_regs).(opmenu) (Z.to_nat (A - (bar + R_QNC_RCRB_SPIOPMENU)))
    else if at_data A then d.(p_regs).(spid) (Z.to_nat (A - (bar + R_QNC_RCRB_SPID0))) else 0);
  MmioRead16 A := if A =? bar + R_QNC_RCRB_SPIS then fun d => Some (poll d) else mret 0;
  MmioRead32 A := mret 0;
  MmioWrite8 A v := if at_menu A then change_ (set_opmenu (Z.to_nat (A - (bar + R_QNC_RCRB_SPIOPMENU))) (u8 v))
    else if at_data A then change_ (fun k => set_spid (put (Z.to_nat (A - (bar + R_QNC_RCRB_SPID0))) (u8 v) k.(spid)) k) else mret tt;
  MmioWrite16 A v := if A =? bar + R_QNC_RCRB_SPIS then change_ (set_scl (Z.testbit v 15))
    else if A =? bar + R_QNC_RCRB_SPIC then modify (fun d =>
      match part_command 0x800000 w25q64 (part_regs d) (part_chip d) d.(p_prot) (command_of v (part_regs d)) with
      | Some t => if d.(p_cycle) then d else begin t d
      | None => d
      end)
    else if A =? bar + R_QNC_RCRB_SPIPREOP then change_ (set_preop (u16 v))
    else if A =? bar + R_QNC_RCRB_SPIOPTYPE then change_ (set_optype (u16 v)) else mret tt;
  MmioWrite32 A v := if A =? bar + R_QNC_RCRB_SPIA then change_ (set_spia (u32 v)) else mret tt;
  MmioOr16 A v := if A =? bar + R_QNC_RCRB_SPIS then change_ (set_scl (Z.testbit v 15)) else mret tt;
  MmioAnd8 A a := change_ (fun k => set_cntl (Z.land k.(cntl) (Z.lor 0xFF00 a)) k);
  PciRead16 R := gets (fun d => d.(p_regs).(cntl));
  PciOr16 R v := change_ (fun k => set_cntl (Z.lor k.(cntl) (Z.land v CNTL_BITS)) k);
  PciAndThenOr16 R a o := change_ (fun k => set_cntl (Z.lor (Z.land k.(cntl) a) (Z.land o CNTL_BITS)) k);
  MicroSecondDelay t := modify (pass t);
  CopyMem A n := mret (replicate (Z.to_nat n) 0);
  S3BootScriptSaveMemWrite _ _ := mret tt;
  PcdPciExpressBaseAddress := 0xE0000000 |}.

(** Accesses that are not about cycles. *)
Lemma act_step f d : Z.land (f (part_regs d)).(cntl) CNTL_BITS = (f (part_regs d)).(cntl) -> step f d (act f d).
Proof.
  intros Hc. split.
  - cbn [regs_of part_view]. unfold part_regs at 1. cbn [act p_regs]. rewrite Hc. by destruct (f (part_regs d)).
  - cbn [pending part_view]. change (p_cycle (act f d)) with (p_cycle d). destruct (p_cycle d); cbn [option_map].
    + split; [done|]. split; [cbn; lia|]. split; [intros a; by left|]. split; [intros x Hx; by left|by left].
    + split; [done|]. split; [done|]. by split.
Qed.

Lemma pass_step t d : 0 <= t -> step id d (pass t d).
Proof.
  intros Ht. split; [done|]. cbn [pending part_view]. change (p_cycle (pass t d)) with (p_cycle d). destruct (p_cycle d); cbn [option_map].
  - split; [done|]. split; [cbn; lia|]. split; [intros a; by left|]. split; [intros x Hx; by left|by left].
  - split; [done|]. split; [done|]. by split.
Qed.

Lemma cntl_masked d : Z.land (part_regs d).(cntl) CNTL_BITS = (part_regs d).(cntl).
Proof. cbn [part_regs set_cntl cntl]. by rewrite <- Z.land_assoc, Z.land_diag. Qed.

Lemma wp_change f d : Z.land (f (part_regs d)).(cntl) CNTL_BITS = (f (part_regs d)).(cntl) -> wp (change_ f) (fun _ d' => step f d d') d.
Proof. intros Hc. apply wp_modify. by apply act_step. Qed.

Lemma wp_same {A} (a : A) (P : A -> Prop) (d : part) : P a -> wp (mret a) (fun a d' => P a /\ step id d d') d.
Proof. intros HP. apply wp_ret. split; [done|apply step_refl]. Qed.

Lemma at_menu_ok i : (i < 8)%nat -> at_menu (bar + R_QNC_RCRB_SPIOPMENU + Z.of_nat i) = true.
Proof. intros Hi. unfold at_menu. apply andb_true_iff. rewrite Z.leb_le, Z.ltb_lt. lia. Qed.

Lemma at_data_ok i : (i < 64)%nat -> at_data (bar + R_QNC_RCRB_SPID0 + Z.of_nat i) = true /\ at_menu (bar + R_QNC_RCRB_SPID0 + Z.of_nat i) = false.
Proof.
  intros Hi. unfold at_data, at_menu, R_QNC_RCRB_SPID0, R_QNC_RCRB_SPIOPMENU, R_QNC_RCRB_SPIBASE. split.
  - apply andb_true_iff. rewrite Z.leb_le, Z.ltb_lt. lia.
  - apply andb_false_iff. rewrite Z.leb_gt, Z.ltb_ge. lia.
Qed.

Lemma begin_progress t d : progress (byte_target t) d (begin t d).
Proof.
  split; [intros a; by left|]. split; [|by left]. intros x [Hx|Hx]; [by left; left|].
  apply Exists_cons in Hx as [Hx|Hx]; [by right|left; by right].
Qed.

Lemma finish_progress t d : progress (byte_target t) d (finish t d).
Proof.
  split; [intros a; by right|]. split; [|by right]. intros x [Hx|Hx]; [right; intros a; by right|].
  apply Exists_cons in Hx as [Hx|Hx]; [by right|left; by right].
Qed.

Lemma spis_value_bits busy d : in_width 16 (spis_value busy d) /\ Z.testbit (spis_value busy d) 15 = d.(p_regs).(scl) /\
  Z.testbit (spis_value busy d) 0 = busy /\ Z.testbit (spis_value busy d) 3 = false.
Proof. unfold spis_value. by destruct (scl (p_regs d)), busy. Qed.

Lemma data_of_conf t k : exists f, data_of t k = set_spid f k.
Proof. unfold data_of. destruct (t_data t); [by eexists|]. exists k.(spid). by destruct k. Qed.

Lemma data_of_bytes t l k : t.(t_data) = Some l -> data_bytes (Z.of_nat (length l)) (data_of t k).(spid) = l.
Proof.
  intros E. unfold data_of. rewrite E. unfold data_bytes. rewrite Nat2Z.id. apply list_eq_same_length with (length l); [done|by rewrite length_map, length_seq|].
  intros j x y Hj Hx Hy. change (map ?f ?s) with (f <$> s) in Hx. rewrite list_lookup_fmap, lookup_seq_lt in Hx by done. cbn in Hx.
  change (match length l with 0%nat => false | S m' => (j <=? m')%nat end) with (j <? length l)%nat in Hx.
  rewrite (proj2 (Nat.ltb_lt j (length l)) Hj) in Hx. injection Hx as <-. by apply list_lookup_total_correct.
Qed.

Lemma poll_spec d : wp (fun d => Some (poll d)) (fun v d' =>
    (in_width 16 v /\ Z.testbit v 15 = (part_regs d).(scl) /\ (exists f, part_regs d' = set_spid f (part_regs d)) /\
    match pending d with
    | None => Z.testbit v 0 = false /\ step id d d'
    | Some t => progress t d d' /\
        if Z.testbit v 0 then pending d' = Some t /\ 0 < time_left d /\ time_left d' <= time_left d
        else pending d' = None /\ (Z.testbit v 3 = false -> lsame (part_chip d') t.(t_flash) /\ d'.(p_prot) = t.(t_prot) /\
               forall l, t.(t_data) = Some l -> data_bytes (Z.of_nat (length l)) (part_regs d').(spid) = l)
    end) /\ Z.testbit v 3 = false) d.
Proof.
  exists (poll d).1, (poll d).2. split; [by destruct (poll d)|]. unfold poll. cbn [pending part_view].
  assert (Hself : exists f, part_regs d = set_spid f (part_regs d)) by (by exists (part_regs d).(spid)).
  destruct (p_cycle d) as [t|] eqn:E; cbn [option_map]; [destruct (Z.ltb_spec 0 d.(p_left)) as [Hl|Hl]|]; cbn [fst snd].
  - destruct (spis_value_bits true d) as (B1 & B2 & B3 & B4). repeat (split; [done|]). rewrite B3. split; [|done]. rewrite E.
    repeat (split; [done|]). split; [apply progress_refl|]. by cbn [option_map time_left part_view].
  - destruct (spis_value_bits false d) as (B1 & B2 & B3 & B4). split; [|done]. repeat (split; [done|]). rewrite B3. split.
    { destruct (data_of_conf t d.(p_regs)) as [f Hf]. exists f. unfold part_regs. cbn [finish p_regs]. by rewrite Hf. }
    split; [apply finish_progress|]. split; [done|]. intros _. split; [done|]. split; [done|]. intros l El.
    exact (data_of_bytes t l d.(p_regs) El).
  - destruct (spis_value_bits false d) as (B1 & B2 & B3 & B4). split; [|done]. repeat (split; [done|]). apply step_refl.
Qed.

(** A command leaves bytes where there were bytes. *)
Lemma part_command_bytes size id k x p c t : part_command size id k x p c = Some t -> (forall a, in_width 8 (x a)) -> forall a, in_width 8 (t.(t_flash) a).
Proof.
  intros E Hx a. unfold part_command in E. repeat case_match; try discriminate E; injection E as <-; cbn [t_flash]; try apply Hx.
  - unfold erase_lin. destruct ((_ <=? a) && _); [unfold in_width; lia|apply Hx].
  - unfold write_lin. destruct ((_ <=? a) && _); [apply land_in_width; [lia|]|]; apply Hx.
Qed.

#[local] Instance part_laws : SpiLaws part.
Proof.
  split.
  - done.
  - done.
  - done.
  - intros d. by left.
  - intros d x y Hxy [Hx|Hx]; [left; intros a; by rewrite <- Hxy|right]. revert Hx. apply Exists_impl. intros e He a. rewrite <- Hxy. apply He.
  - intros d a. by apply wrap_in_width.
  - apply cntl_masked.
  - intros i d Hi. cbn [MmioRead8 part_bus rcrb part_view]. apply wp_gets. rewrite at_menu_ok by done. split; [|apply step_refl].
    cbn [regs_of part_view part_regs set_cntl opmenu]. f_equal. lia.
  - intros i d Hi. cbn [MmioRead8 part_bus rcrb part_view]. apply wp_gets. destruct (at_data_ok i Hi) as [-> ->]. split; [|apply step_refl].
    cbn [regs_of part_view part_regs set_cntl spid]. f_equal. lia.
  - intros R d HR. cbn [MmioRead16 part_bus rcrb part_view].
    assert (HRR : R = R_QNC_RCRB_SPIC \/ R = R_QNC_RCRB_SPIPREOP \/ R = R_QNC_RCRB_SPIOPTYPE).
    { rewrite !elem_of_cons, elem_of_nil in HR. tauto. }
    destruct HRR as [->|[->| ->]]; apply wp_ret, step_refl.
  - intros d. apply wp_ret, step_refl.
  - intros i v d Hi. cbn [MmioWrite8 part_bus rcrb part_view]. rewrite at_menu_ok by done.
    replace (Z.to_nat (bar + R_QNC_RCRB_SPIOPMENU + Z.of_nat i - (bar + R_QNC_RCRB_SPIOPMENU))) with i by lia. apply wp_change.
    unfold set_opmenu. destruct (scl (part_regs d)); apply cntl_masked.
  - intros i v d Hi. cbn [MmioWrite8 part_bus rcrb part_view]. destruct (at_data_ok i Hi) as [-> ->].
    replace (Z.to_nat (bar + R_QNC_RCRB_SPID0 + Z.of_nat i - (bar + R_QNC_RCRB_SPID0))) with i by lia. apply wp_change, cntl_masked.
  - intros v d. apply wp_change. unfold set_preop. destruct (scl (part_regs d)); apply cntl_masked.
  - intros v d. apply wp_change. unfold set_optype. destruct (scl (part_regs d)); apply cntl_masked.
  - intros v d. apply wp_change, cntl_masked.
  - intros v d. apply wp_change, cntl_masked.
  - intros v d. apply wp_change, cntl_masked.
  - intros d. apply wp_gets. split; [done|apply step_refl].
  - intros v d. apply wp_change. cbn [cntl set_cntl]. rewrite Z.land_lor_distr_l, <- Z.land_assoc, Z.land_diag. f_equal. apply cntl_masked.
  - intros a o d. apply wp_change. cbn [cntl set_cntl]. rewrite Z.land_lor_distr_l, <- (Z.land_assoc o), Z.land_diag. f_equal.
    rewrite <- Z.land_assoc, (Z.land_comm a), Z.land_assoc. f_equal. apply cntl_masked.
  - intros a d. apply wp_change. cbn [cntl set_cntl]. rewrite <- Z.land_assoc, (Z.land_comm _ CNTL_BITS), Z.land_assoc. f_equal. apply cntl_masked.
  - intros t d Ht. apply wp_modify. split; [by apply pass_step|]. intros _. done.
  - intros A n d. apply wp_ret. split; [by rewrite length_replicate|apply step_refl].
  - intros w A d. apply wp_ret, step_refl.
  - intros d. eapply wp_mono; [apply poll_spec|]. intros v d' [Hv _]. exact Hv.
  - intros c d. apply wp_modify. cbn [regs_of chip prot pending part_view].
    destruct (part_command _ _ _ _ _ _) as [t|] eqn:E; [destruct (p_cycle d) as [t0|] eqn:Ec|]; (split; [done|]); intros Hp _ t' Ht'; [done| |done].
    injection Ht' as <-. exists (byte_target t). split; [|split; [done|split; [done|apply begin_progress]]].
    split; [|done]. intros a. cbn [byte_target t_flash]. apply wrap_small, (part_command_bytes _ _ _ _ _ _ _ E). intros j. by apply wrap_in_width.
Qed.

(** No cycle of this part is blocked. *)
Lemma part_unblocked : unblocked (D := part).
Proof. intros d. eapply wp_mono; [apply poll_spec|]. by intros v d' [_ Hv]. Qed.

(** ** The part in memory *)

#[local] Instance part_memory : SpiMemory part := {|
  ReadBuffer8 A n := gets (fun d => map (fun i => part_chip d (A - 0xFF800000 + Z.of_nat i)) (seq 0 (Z.to_nat n)));
  Wbinvd := mret tt |}.

#[local] Instance part_memory_laws : SpiMemoryLaws part.
Proof.
  refine {| chip_mapped := fun A => if (0xFF800000 <=? A) && (A <? 0x100000000) then Some (A - 0xFF800000) else None |}.
  - intros A n o d _ Hn Hm. apply wp_gets. split; [apply step_refl|]. apply map_ext_in. intros i Hi. apply in_seq in Hi.
    assert (Hk : 0 <= Z.of_nat i < n) by lia. specialize (Hm _ Hk). cbn beta in Hm. destruct (_ && _); [|discriminate Hm].
    cbn [chip part_view]. f_equal. injection Hm. lia.
  - intros d. apply wp_ret, step_refl.
Defined.

#[local] Existing Instances PlainBus pi_header part_view part_bus part_laws part_memory part_memory_laws.
#[local] Instance plain_hmisc : HmiscPlain.
Proof. done. Qed.

(** ** The tables of the program *)

Lemma part_menu_ok v d0 d1 p1 f read erase op start size :
  in_width 8 p1 -> 0 < erase < 256 -> op <> EnumSpiOperationJedecId -> op <> EnumSpiOperationWriteStatus ->
  0 <= start < 2 ^ 32 - 256 -> start mod 256 = 0 -> size <> 0 ->
  table_ok (Build_SPI_INIT_TABLE v d0 d1 [0x06; p1] (part_menu f read erase op) start size).
Proof.
  intros Hp He Hj Hw Hs Hm Hz. split; cbn [PrefixOpcode OpcodeMenu BiosStartOffset BiosSize]; [by exists p1|done| | | |done|done].
  - repeat constructor; cbn [Code]; lia.
  - eexists _, _. split; [reflexivity|]. repeat (split; [done|]). repeat (apply Forall_cons_2; [done|]). by apply Forall_nil_2.
  - repeat (apply Forall_cons_2; [cbn [Operation Code OpType]; first [done|by intros E; destruct (Hw E)]|]). by apply Forall_nil_2.
Qed.

(** Every table of the program is one that the driver can be initialised with. *)
Lemma tables_ok : Forall table_ok mSpiInitTable.
Proof. repeat (apply Forall_cons_2; [apply part_menu_ok; [by_compute|lia|done|done|by_compute|done|done]|]). by apply Forall_nil_2. Qed.

(** The part is the eleventh. *)
Definition w25_table : SPI_INIT_TABLE :=
  Build_SPI_INIT_TABLE 0xEF 0x40 0x17 [0x06; 0x50] (menu_4K EnumSpiCycle50MHz) (u32 (0x800000 - FLASH_SIZE)) FLASH_SIZE.
Lemma w25_ok : table_ok w25_table.
Proof. apply part_menu_ok; [by_compute|lia|done|done|by_compute|done|done]. Qed.
Lemma w25_sectors : sector_table w25_table.
Proof. split; [by eexists..|done|by right|done|by split]. Qed.

(** ** The start of the services *)

Definition part_new : part :=
  {| p_regs := {| scl := false; preop := 0; optype := 0; opmenu := fun _ => 0; spia := 0; spid := fun _ => 7; cntl := 0 |};
     p_cells := fun a => a; p_log := []; p_prot := true; p_cycle := None; p_left := 0 |}.
Definition plain_sb : msgbus := {| MDR := 0; MEA := 0; QNCAccess.DeviceId := 0x0958; regs := fun _ => 0x80000; writes := [] |}.
Definition no_table : SPI_INIT_TABLE := Build_SPI_INIT_TABLE 0 0 0 [] [] 0 0.
Definition instance_new : SPI_INSTANCE :=
  {| Signature := PCH_SPI_PRIVATE_DATA_SIGNATURE; SpiInitTable := no_table; PchRootComplexBar := bar; InitDone := false; InitInfo := no_info |}.
Definition spi_new : SpiDefs.spi part := {| Instance := instance_new; sb := plain_sb; bridge := part_new |}.

Lemma SpiProtocolInit_identifies_witness :
  wp (SpiProtocolInit 0 0 true (Some w25_table)) (fun st s' => st = EFI_SUCCESS /\ configured w25_table 8 (regs_of s'.(bridge))) spi_new.
Proof.
  eapply wp_mono; [apply (SpiProtocolInit_identifies 0 0 true w25_table spi_new); [reflexivity|reflexivity|reflexivity|exact w25_ok]|].
  intros st s' (_ & _ & H1 & _ & H2). destruct (H2 part_unblocked) as [[_ H3] _].
  assert (st = EFI_SUCCESS) as -> by (apply H3; reflexivity). split; [reflexivity|]. apply H1. reflexivity.
Defined.

Lemma SmmSpiInit_ready_witness :
  wp (SmmSpiInit 0 0 mSpiInitTable) (fun st s' => st = EFI_SUCCESS /\ ready s' /\ s'.(Instance).(SpiInitTable) = w25_table) spi_new.
Proof.
  eapply wp_mono; [apply (SmmSpiInit_ready 0 0 w25_table (take 10 mSpiInitTable) (drop 11 mSpiInitTable) spi_new)|].
  - reflexivity.
  - reflexivity.
  - reflexivity.
  - exact part_unblocked.
  - exact (Forall_take table_ok 11 mSpiInitTable tables_ok).
  - by_compute.
  - reflexivity.
  - exact w25_sectors.
  - intros st s' (H1 & H2 & H3 & _). split; [exact H1|]; split; [exact H2|exact H3].
Defined.

(** ** Commands *)

(** The controller as it is after the start, with the data of a command that went before. *)
Definition part_ready : part :=
  {| p_regs := {| scl := false; preop := 0x5006; optype := opcode_types (OpcodeMenu w25_table) 0 0;
                  opmenu := fun i => from_option Code 0 (OpcodeMenu w25_table !! i); spia := 0; spid := fun _ => 0x7F; cntl := 0 |};
     p_cells := fun a => a; p_log := []; p_prot := false; p_cycle := None; p_left := 0 |}.
Definition instance_ready : SPI_INSTANCE :=
  {| Signature := PCH_SPI_PRIVATE_DATA_SIGNATURE; SpiInitTable := w25_table; PchRootComplexBar := bar; InitDone := true;
     InitInfo := fill_info (OpcodeMenu w25_table) 0 no_info |}.
Definition spi_ready : SpiDefs.spi part := {| Instance := instance_ready; sb := plain_sb; bridge := part_ready |}.

Lemma spi_is_ready : ready spi_ready.
Proof. split; [done|done|done| |by eexists|by eexists|by split|by split]. by repeat split. Qed.

Lemma spi_opcode_ok op : 0 <= op < 8 -> opcode_ok spi_ready op.
Proof.
  intros Hop. assert (op = 0 \/ op = 1 \/ op = 2 \/ op = 3 \/ op = 4 \/ op = 5 \/ op = 6 \/ op = 7) as E by lia.
  unfold opcode_ok. repeat (destruct E as [->|E]; [cbn; split; [lia|done]|]). subst. cbn. split; [lia|done].
Qed.

Lemma SpiProtocolExecute_restores_witness :
  exists st b' s' reads,
    SpiProtocolExecute 0 0 6 1 true false false 0 1 [0] EnumSpiRegionAll spi_ready = Some ((st, b'), s') /\
    SpiProtocolExecute (B := recording (rcrb + R_QNC_RCRB_SPIS)) 0 0 6 1 true false false 0 1 [0] EnumSpiRegionAll (recorded [] spi_ready) =
      Some ((st, b'), recorded reads s') /\
    restored spi_ready s' /\ length b' = 1%nat /\ outcome False 6 1 st reads.
Proof.
  destruct (SpiProtocolExecute_restores 0 0 6 1 true false false 0 1 [0] EnumSpiRegionAll spi_ready) as (st & b' & s' & reads & H1 & H2 & H3 & H4 & H5).
  - reflexivity.
  - lia.
  - intros H. apply spi_opcode_ok. lia.
  - split; vm_compute; congruence.
  - lia.
  - cbn. lia.
  - exists st, b', s', reads. split; [exact H1|]. split; [exact H2|]. split; [exact H3|]. split; [exact H4|].
    inversion H5 as [H6|w H6 H7 Hw|w st' w' H6 H7 Hw Hs]; subst; [apply out_invalid; exact H6|apply out_occupied; assumption|].
    apply out_sent; [assumption..|]. inversion Hs as [[Hr _]|ws Hd Hn Hws|ws w2 Hd Hws Hf]; subst; [discriminate Hr|apply sent_all|apply sent_failed]; tauto.
Defined.

(** The part with another answer of the status register: the wait for an earlier cycle passes over a mark that it was blocked, the wait
    for the cycle of the command does not. *)
Definition answering (v : Z) : SpiBus part := {|
  MmioRead8 := MmioRead8; MmioRead16 A := if A =? rcrb + R_QNC_RCRB_SPIS then mret v else MmioRead16 A; MmioRead32 := MmioRead32;
  MmioWrite8 := MmioWrite8; MmioWrite16 := MmioWrite16; MmioWrite32 := MmioWrite32; MmioOr16 := MmioOr16; MmioAnd8 := MmioAnd8;
  PciRead16 := PciRead16; PciOr16 := PciOr16; PciAndThenOr16 := PciAndThenOr16; MicroSecondDelay := MicroSecondDelay; CopyMem := CopyMem;
  S3BootScriptSaveMemWrite := S3BootScriptSaveMemWrite; PcdPciExpressBaseAddress := PcdPciExpressBaseAddress |}.
Definition status_and_reads (v : Z) : option (EFI_STATUS * list Z) :=
  '(st, _, s') ← SpiProtocolExecute (B := recording (B := answering v) (rcrb + R_QNC_RCRB_SPIS)) 0 0 6 1 true false false 0 1 [0] EnumSpiRegionAll
    (recorded [] spi_ready);
  Some (st, s'.(bridge).2).
Example blocked_cycle_is_an_error : status_and_reads 4 = Some (EFI_SUCCESS, [4; 4]) /\ status_and_reads 12 = Some (EFI_DEVICE_ERROR, [12; 12]).
Proof. split; vm_compute; reflexivity. Qed.

Lemma SpiProtocolExecute_refines_flash_witness :
  wp (SpiProtocolExecute 0 0 SPI_OPCODE_WRITE_INDEX 0 true true true 0x10FE 4 [1; 2; 3; 4] EnumSpiRegionBios) (fun '(st, b') s' =>
    st = EFI_SUCCESS /\ lsame (chip s'.(bridge)) (write_lin 0x10FE [1; 2; 3; 4] (part_chip part_ready))) spi_ready.
Proof.
  pose proof (SpiProtocolExecute_refines_flash 0 0 spi_ready 0x10FE spi_is_ready) as [H _]; [lia|].
  eapply wp_mono; [apply (H [1; 2; 3; 4]); [discriminate|vm_compute; discriminate]|].
  intros [st b'] s' (_ & _ & _ & Hs & (_ & Hu & _)). specialize (Hs part_unblocked). subst st. split; [reflexivity|]. exact (Hu eq_refl).
Defined.

Lemma SpiProtocolLock_final_witness :
  Forall (call_ok 0 0 spi_ready) [CallInfo true true; CallExecute 3 0 true true true 0x20 1 [9] EnumSpiRegionBios; CallLock] /\
  wp (st ← SpiProtocolLock; _ ← for_each [CallInfo true true; CallExecute 3 0 true true true 0x20 1 [9] EnumSpiRegionBios; CallLock] (run_call 0 0); mret st)
    (fun st s' => st = EFI_SUCCESS /\ kept_locked spi_ready s') spi_ready.
Proof.
  assert (Hc : Forall (call_ok 0 0 spi_ready) [CallInfo true true; CallExecute 3 0 true true true 0x20 1 [9] EnumSpiRegionBios; CallLock]).
  { repeat (apply Forall_cons_2; [try exact I|]); [|apply Forall_nil_2].
    split; [lia|]. split; [intros _; apply spi_opcode_ok; lia|]. split; [split; vm_compute; congruence|]. split; [lia|cbn; lia]. }
  split; [exact Hc|]. eapply wp_mono; [apply (SpiProtocolLock_final 0 0 _ spi_ready); [reflexivity|exact Hc]|].
  intros st s' (H1 & H2 & _). split; [exact H1|exact H2].
Defined.

(** ** The stack on this controller *)

Section Stack.
#[local] Existing Instances stack_bus stack_laws small_layout small_layout_laws pi_header_ok.
Abbreviation machine := (ready_spi 0 0x800000).

(** The work space is at the beginning of the volume, the spare block next to it. *)
Definition machine_with (working spare : list Z) : SpiDefs.spi part :=
  {| Instance := instance_ready; sb := plain_sb;
     bridge := {| p_regs := part_ready.(p_regs); p_cells := spi_cells (spi_with working spare); p_log := []; p_prot := false; p_cycle := None; p_left := 0 |} |}.
Definition on_machine (working spare : list Z) : machine := exist _ (machine_with working spare) eq_refl.

#[local] Instance machine_bus : FlashBus machine := stack_bus 0 0 0 0x800000.
#[local] Instance machine_laws : FlashLaws machine := stack_laws 0 0 0 0x800000.
Definition machine_pool (n : Z) : M machine bool := mret true.
Definition machine_crc (b : list Z) : M machine (EFI_STATUS * Z) := mret (EFI_SUCCESS, 305419896).

Lemma machine_volume_ok : volume_ok (LB := machine_laws) nv_volume false.
Proof.
  split; unfold volume_offset, volume_size, SPI_ERASE_SECTOR_SIZE; cbn [FvBase FvWriteBase NumOfBlocks nv_volume PcdFlashAreaBaseAddress pi_header].
  - exists [(4, 0x1000)]. split; [done|]. split; [|done]. apply Forall_cons_2; [by split|by apply Forall_nil_2].
  - split; [done|reflexivity].
  - done.
  - split; [lia|]. split; [done|lia].
  - split; [lia|done].
  - intros k Hk. cbn [mapped machine_laws stack_laws controller_laws chip_mapped part_memory_laws].
    rewrite (proj2 (Z.leb_le _ _)), (proj2 (Z.ltb_lt _ _)) by lia. cbn [andb]. f_equal. lia.
Qed.

Lemma machine_volumes_ok : volumes_ok one_volume false handle machine_pool machine_crc.
Proof.
  split.
  - intros [|i] v Hi; [|done]. injection Hi as <-. split; [apply machine_volume_ok|cbn; lia].
  - intros [|i] [|j] v w Hij Hi Hj; done.
  - intros f i Hf. unfold handle in Hf. destruct (f =? 1); [|done]. injection Hf as <-. cbn. eauto.
  - intros f f' i Hf Hf'. unfold handle in *. destruct (Z.eqb_spec f 1), (Z.eqb_spec f' 1); congruence.
  - intros n d. apply wp_ret. split; [done | auto].
  - intros b d _. apply wp_ret. split; [done|]. split; [done | auto].
Qed.



#[local] Instance machine_services : FvbServices machine := fvb_services one_volume false handle machine_pool machine_crc.
#[local] Instance machine_fvb_laws : FvbLaws machine := fvb_laws one_volume false handle machine_pool machine_crc machine_volumes_ok.





Lemma FvbProtocolWrite_at_end_witness :
  wp (FvbProtocolWrite 0 1 0x1000 (Some 4) (Some [1; 2; 3; 4]) false) (fun r s' =>
    r = (EFI_BAD_BUFFER_SIZE, Some 0) /\ FvbSpec.flash s'.(bus) 0x102000 = 0x7F) {| Global := one_volume; bus := on_machine [] [] |}.
Proof.
  eapply wp_mono; [apply (FvbProtocolWrite_at_end 0 0 0 0x800000 0 nv_volume false 1 4 [1; 2; 3; 4] {| Global := one_volume; bus := on_machine [] [] |});
    [reflexivity|exact machine_volume_ok|reflexivity|discriminate|lia|reflexivity|lia|reflexivity|exact part_unblocked]|].
  intros r s' (H1 & _ & H2). split; [exact H1|]. rewrite H2. vm_compute. reflexivity.
Defined.
End Stack.

(** ** What the tables and the checks let through *)

(** The firmware volume services erase sectors of 4096 bytes with the opcode at index 5; in five tables that opcode erases
    sixty-four kilobytes. *)
Example tables_with_large_erase :
  map (fun t => from_option Code 0 (t.(OpcodeMenu) !! 5%nat)) mSpiInitTable = [0xD8; 0x20; 0x20; 0xD8; 0xD8; 0x20; 0x20; 0x20; 0x20; 0xD8; 0x20; 0x20; 0xD8].
Proof. reflexivity. Qed.

(** For a part of four megabytes the image starts below zero: the addresses of its first half are near the top of 32 bits, where
    the end of the last page is zero, and a cycle of ten bytes becomes one of sixty-four. *)
Example start_below_zero : map BiosStartOffset (take 4 mSpiInitTable) = replicate 4 0xFFC00000.
Proof. reflexivity. Qed.
Example cycle_count_wraps : cycle_count 0xFFFFFF10 10 = 64.
Proof. reflexivity. Qed.

(** A read of the image goes to memory, to an address that has whatever the variable held that should be the base of the region. *)
#[local] Instance copy_log : SpiBus (list (Z * Z)) := {|
  MmioRead8 _ := mret 3; MmioRead16 _ := mret 0; MmioRead32 _ := mret 0;
  MmioWrite8 _ _ := mret tt; MmioWrite16 _ _ := mret tt; MmioWrite32 _ _ := mret tt; MmioOr16 _ _ := mret tt; MmioAnd8 _ _ := mret tt;
  PciRead16 _ := mret 0; PciOr16 _ _ := mret tt; PciAndThenOr16 _ _ _ := mret tt; MicroSecondDelay _ := mret tt;
  CopyMem A n := fun d => Some (replicate (Z.to_nat n) 0, (A, n) :: d);
  S3BootScriptSaveMemWrite _ _ := mret tt; PcdPciExpressBaseAddress := 0xE0000000 |}.
Example SendSpiCmd_base_unset : forall BaseAddress,
  option_map (fun r => r.2.(bridge)) (SendSpiCmd BaseAddress 0 4 0 true false false 0x1000 1 [0] EnumSpiRegionBios
    {| Instance := instance_ready; sb := plain_sb; bridge := [] : list (Z * Z) |}) = Some [(u32 (u32 (0x1000 - BaseAddress) + 0xFF800000), 1)].
Proof. intros BaseAddress. reflexivity. Qed.
