(* ===== verification/UartDefs.v ===== *)
(** * The serial port driver: definitions

    Models [QuarkSocPkg/QuarkSouthCluster/Uart/Dxe/Serial.c]: the software queues and the services of the serial I/O
    protocol. The status codes that are reported for the console are left out. *)

From S2P Require Import Prelude.
From stdpp Require Import list.
#[local] Open Scope Z_scope.

(** ** Constants *)

Definition SERIAL_MAX_BUFFER_SIZE : Z := 16.
Definition TIMEOUT_STALL_INTERVAL : Z := 10.
Definition SERIAL_PORT_DEFAULT_RECEIVE_FIFO_DEPTH : Z := 1.
Definition SERIAL_PORT_DEFAULT_TIMEOUT : Z := 1000000.
Definition SERIAL_PORT_MAX_BAUD_RATE : Z := 115400.
Definition SERIAL_PORT_MIN_BAUD_RATE : Z := 50.
Definition SERIAL_PORT_MAX_RECEIVE_FIFO_DEPTH : Z := 16.
Definition SERIAL_PORT_MIN_TIMEOUT : Z := 1.
Definition SERIAL_PORT_MAX_TIMEOUT : Z := 100000000.
Definition SERIAL_REGISTER_THR : Z := 0.
Definition SERIAL_REGISTER_RBR : Z := 0.
Definition SERIAL_REGISTER_DLL : Z := 0.
Definition SERIAL_REGISTER_DLM : Z := 4.
Definition SERIAL_REGISTER_IER : Z := 4.
Definition SERIAL_REGISTER_FCR : Z := 8.
Definition SERIAL_REGISTER_LCR : Z := 12.
Definition SERIAL_REGISTER_MCR : Z := 16.
Definition SERIAL_REGISTER_LSR : Z := 20.
Definition SERIAL_REGISTER_MSR : Z := 24.
Definition SERIAL_REGISTER_SCR : Z := 28.

(** The fields of the registers, by their bits. *)
Definition Lsr_Dr : Z := 0.
Definition Lsr_Pe : Z := 2.
Definition Lsr_Fe : Z := 3.
Definition Lsr_Bi : Z := 4.
Definition Lsr_Thre : Z := 5.
Definition Lsr_FIFOe : Z := 7.
Definition Msr_Cts : Z := 4.
Definition Msr_Dsr : Z := 5.
Definition Msr_Ri : Z := 6.
Definition Msr_Dcd : Z := 7.
Definition Mcr_DtrC : Z := 0.
Definition Mcr_Rts : Z := 1.
Definition Mcr_Out1 : Z := 2.
Definition Mcr_Out2 : Z := 3.
Definition Mcr_Lme : Z := 4.
Definition Lcr_StopB : Z := 2.
Definition Lcr_ParEn : Z := 3.
Definition Lcr_EvenPar : Z := 4.
Definition Lcr_SticPar : Z := 5.
Definition Lcr_DLab : Z := 7.
Definition set_field (i : Z) (v : bool) (x : Z) : Z := if v then Z.lor x (2 ^ i) else Z.ldiff x (2 ^ i).

(** The protocol of the UEFI specification. *)
Definition DefaultParity : Z := 0.
Definition NoParity : Z := 1.
Definition EvenParity : Z := 2.
Definition OddParity : Z := 3.
Definition MarkParity : Z := 4.
Definition SpaceParity : Z := 5.
Definition DefaultStopBits : Z := 0.
Definition OneStopBit : Z := 1.
Definition OneFiveStopBits : Z := 2.
Definition TwoStopBits : Z := 3.
Definition EFI_SERIAL_DATA_TERMINAL_READY : Z := 0x0001.
Definition EFI_SERIAL_REQUEST_TO_SEND : Z := 0x0002.
Definition EFI_SERIAL_CLEAR_TO_SEND : Z := 0x0010.
Definition EFI_SERIAL_DATA_SET_READY : Z := 0x0020.
Definition EFI_SERIAL_RING_INDICATE : Z := 0x0040.
Definition EFI_SERIAL_CARRIER_DETECT : Z := 0x0080.
Definition EFI_SERIAL_INPUT_BUFFER_EMPTY : Z := 0x0100.
Definition EFI_SERIAL_OUTPUT_BUFFER_EMPTY : Z := 0x0200.
Definition EFI_SERIAL_HARDWARE_LOOPBACK_ENABLE : Z := 0x1000.
Definition EFI_SERIAL_SOFTWARE_LOOPBACK_ENABLE : Z := 0x2000.
Definition EFI_SERIAL_HARDWARE_FLOW_CONTROL_ENABLE : Z := 0x4000.
Definition TPL_NOTIFY : Z := 16.

(** ** Data *)

Record SERIAL_DEV_FIFO := { First : Z; Last : Z; Surplus : Z; Data : list Z }.
Record EFI_SERIAL_IO_MODE := { ControlMask : Z; Timeout : Z; BaudRate : Z; ReceiveFifoDepth : Z; DataBits : Z; Parity : Z; StopBits : Z }.
Record UART_DEVICE_PATH := { path_BaudRate : Z; path_DataBits : Z; path_Parity : Z; path_StopBits : Z }.

(** What is outside: the accesses to the port, the boot services and the settings of the platform. A pointer is a
    number, and 0 when it is NULL. *)
Class SerialBus (D : Type) := {
  MmioRead8 (Address : Z) : M D Z;
  IoRead8 (Address : Z) : M D Z;
  MmioWrite8 (Address Value : Z) : M D unit;
  IoWrite8 (Address Value : Z) : M D unit;
  Stall (MicroSeconds : Z) : M D unit;
  gBS_RaiseTPL (NewTpl : Z) : M D Z;
  gBS_RestoreTPL (OldTpl : Z) : M D unit;
  AppendDevicePathNode (Node : UART_DEVICE_PATH) : M D Z;
  ReinstallProtocolInterface (OldPath NewPath : Z) : M D EFI_STATUS;
  FreePool (Buffer : Z) : M D unit;
  DivU64x32Remainder (Dividend Divisor : Z) : Z;
  PcdIohUartUseMmio : bool;
  PcdIsaBusSerialUseHalfHandshake : bool;
  PcdIohUartClkFreq : Z;
  PcdUartDefaultBaudRate : Z;
  PcdUartDefaultDataBits : Z;
  PcdUartDefaultParity : Z;
  PcdUartDefaultStopBits : Z
}.

Inductive access := Read (Offset v : Z) | Write (Offset v : Z).

(** The device, with a log of the accesses to its port (the last one first), which the code does not keep. *)
Record SERIAL_DEV (D : Type) := {
  Handle : Z;
  SerialMode : EFI_SERIAL_IO_MODE;
  DevicePath : Z;
  UartDevicePath : UART_DEVICE_PATH;
  BaseAddress : Z;
  Receive : SERIAL_DEV_FIFO;
  Transmit : SERIAL_DEV_FIFO;
  SoftwareLoopbackEnable : bool;
  HardwareFlowControl : bool;
  log : list access;
  port : D
}.
Arguments Handle {D} _.
Arguments SerialMode {D} _.
Arguments DevicePath {D} _.
Arguments UartDevicePath {D} _.
Arguments BaseAddress {D} _.
Arguments Receive {D} _.
Arguments Transmit {D} _.
Arguments SoftwareLoopbackEnable {D} _.
Arguments HardwareFlowControl {D} _.
Arguments log {D} _.
Arguments port {D} _.

(** ** The software queues *)

Definition IohSerialFifoFull (Fifo : SERIAL_DEV_FIFO) : bool := Fifo.(Surplus) =? 0.
Definition IohSerialFifoEmpty (Fifo : SERIAL_DEV_FIFO) : bool := Fifo.(Surplus) =? SERIAL_MAX_BUFFER_SIZE.

(** [None] when the array is accessed out of range. *)
Definition IohSerialFifoAdd (Fifo : SERIAL_DEV_FIFO) (b : Z) : option (EFI_STATUS * SERIAL_DEV_FIFO) :=
  if IohSerialFifoFull Fifo then Some (EFI_OUT_OF_RESOURCES, Fifo) else
  if bool_decide (is_Some (Fifo.(Data) !! Z.to_nat Fifo.(Last))) then
    let Last := u32 (Fifo.(Last) + 1) in
    Some (EFI_SUCCESS, {| First := Fifo.(First); Last := if Last =? SERIAL_MAX_BUFFER_SIZE then 0 else Last;
                          Surplus := u32 (Fifo.(Surplus) - 1); Data := <[Z.to_nat Fifo.(UartDefs.Last) := b]> Fifo.(Data) |})
  else None.

(** The byte is stored only when there is one. *)
Definition IohSerialFifoRemove (Fifo : SERIAL_DEV_FIFO) : option (EFI_STATUS * option Z * SERIAL_DEV_FIFO) :=
  if IohSerialFifoEmpty Fifo then Some (EFI_OUT_OF_RESOURCES, None, Fifo) else
  b ← Fifo.(Data) !! Z.to_nat Fifo.(First);
  let First := u32 (Fifo.(First) + 1) in
  Some (EFI_SUCCESS, Some b, {| First := if First =? SERIAL_MAX_BUFFER_SIZE then 0 else First; Last := Fifo.(Last);
                                Surplus := u32 (Fifo.(Surplus) + 1); Data := Fifo.(Data) |}).

Section Driver.
Context {D : Type} {B : SerialBus D}.
Abbreviation dev := (SERIAL_DEV D).

(** ** Access to the device *)

Definition with_queues (r t : SERIAL_DEV_FIFO) (s : dev) : dev :=
  {| Handle := s.(Handle); SerialMode := s.(SerialMode); DevicePath := s.(DevicePath); UartDevicePath := s.(UartDevicePath);
     BaseAddress := s.(BaseAddress); Receive := r; Transmit := t; SoftwareLoopbackEnable := s.(SoftwareLoopbackEnable);
     HardwareFlowControl := s.(HardwareFlowControl); log := s.(log); port := s.(port) |}.
Definition with_port (l : list access) (p : D) (s : dev) : dev :=
  {| Handle := s.(Handle); SerialMode := s.(SerialMode); DevicePath := s.(DevicePath); UartDevicePath := s.(UartDevicePath);
     BaseAddress := s.(BaseAddress); Receive := s.(Receive); Transmit := s.(Transmit); SoftwareLoopbackEnable := s.(SoftwareLoopbackEnable);
     HardwareFlowControl := s.(HardwareFlowControl); log := l; port := p |}.
Definition with_control (loopback flow : bool) (s : dev) : dev :=
  {| Handle := s.(Handle); SerialMode := s.(SerialMode); DevicePath := s.(DevicePath); UartDevicePath := s.(UartDevicePath);
     BaseAddress := s.(BaseAddress); Receive := s.(Receive); Transmit := s.(Transmit); SoftwareLoopbackEnable := loopback;
     HardwareFlowControl := flow; log := s.(log); port := s.(port) |}.
Definition with_mode (m : EFI_SERIAL_IO_MODE) (s : dev) : dev :=
  {| Handle := s.(Handle); SerialMode := m; DevicePath := s.(DevicePath); UartDevicePath := s.(UartDevicePath);
     BaseAddress := s.(BaseAddress); Receive := s.(Receive); Transmit := s.(Transmit); SoftwareLoopbackEnable := s.(SoftwareLoopbackEnable);
     HardwareFlowControl := s.(HardwareFlowControl); log := s.(log); port := s.(port) |}.
Definition with_path (p : Z) (n : UART_DEVICE_PATH) (s : dev) : dev :=
  {| Handle := s.(Handle); SerialMode := s.(SerialMode); DevicePath := p; UartDevicePath := n;
     BaseAddress := s.(BaseAddress); Receive := s.(Receive); Transmit := s.(Transmit); SoftwareLoopbackEnable := s.(SoftwareLoopbackEnable);
     HardwareFlowControl := s.(HardwareFlowControl); log := s.(log); port := s.(port) |}.

Definition on_port {A} (m : M D A) : M dev A := fun s =>
  match m s.(port) with Some (a, p) => Some (a, with_port s.(log) p s) | None => None end.
Definition note (a : access) : M dev unit := modify (fun s => with_port (a :: s.(log)) s.(port) s).

Definition IohSerialReadPort (Offset : Z) : M dev Z :=
  A ← gets (fun s => u32 (s.(BaseAddress) + Offset));
  v ← on_port (if PcdIohUartUseMmio then MmioRead8 A else IoRead8 A);
  _ ← note (Read Offset v);
  mret v.
Definition IohSerialWritePort (Offset Data : Z) : M dev unit :=
  A ← gets (fun s => u32 (s.(BaseAddress) + Offset));
  _ ← on_port (if PcdIohUartUseMmio then MmioWrite8 A Data else IoWrite8 A Data);
  note (Write Offset Data).

(** The register macros. *)
Abbreviation READ_RBR := (IohSerialReadPort SERIAL_REGISTER_RBR).
Abbreviation READ_IER := (IohSerialReadPort SERIAL_REGISTER_IER).
Abbreviation READ_LCR := (IohSerialReadPort SERIAL_REGISTER_LCR).
Abbreviation READ_MCR := (IohSerialReadPort SERIAL_REGISTER_MCR).
Abbreviation READ_LSR := (IohSerialReadPort SERIAL_REGISTER_LSR).
Abbreviation READ_MSR := (IohSerialReadPort SERIAL_REGISTER_MSR).
Abbreviation READ_SCR := (IohSerialReadPort SERIAL_REGISTER_SCR).
Abbreviation WRITE_THR := (IohSerialWritePort SERIAL_REGISTER_THR).
Abbreviation WRITE_DLL := (IohSerialWritePort SERIAL_REGISTER_DLL).
Abbreviation WRITE_DLM := (IohSerialWritePort SERIAL_REGISTER_DLM).
Abbreviation WRITE_IER := (IohSerialWritePort SERIAL_REGISTER_IER).
Abbreviation WRITE_FCR := (IohSerialWritePort SERIAL_REGISTER_FCR).
Abbreviation WRITE_LCR := (IohSerialWritePort SERIAL_REGISTER_LCR).
Abbreviation WRITE_MCR := (IohSerialWritePort SERIAL_REGISTER_MCR).
Abbreviation WRITE_SCR := (IohSerialWritePort SERIAL_REGISTER_SCR).

(** A register is read, a field of it changed, and written back. *)
Definition change_mcr (f : Z -> Z) : M dev unit := v ← READ_MCR; WRITE_MCR (f v).

(** The queues of the device; the byte taken out is the value of the local variable, which is 0 at first. *)
Definition add_receive (b : Z) : M dev EFI_STATUS :=
  s ← get; '(Status, r) ← lift (IohSerialFifoAdd s.(Receive) b); _ ← modify (with_queues r s.(Transmit)); mret Status.
Definition add_transmit (b : Z) : M dev EFI_STATUS :=
  s ← get; '(Status, t) ← lift (IohSerialFifoAdd s.(Transmit) b); _ ← modify (with_queues s.(Receive) t); mret Status.
Definition remove_receive : M dev (EFI_STATUS * option Z) :=
  s ← get; '(Status, b, r) ← lift (IohSerialFifoRemove s.(Receive)); _ ← modify (with_queues r s.(Transmit)); mret (Status, b).
Definition remove_transmit (b : Z) : M dev Z :=
  s ← get; '(_, b', t) ← lift (IohSerialFifoRemove s.(Transmit)); _ ← modify (with_queues s.(Receive) t); mret (default b b').

(** ** Reading and writing all that is there *)

(** The loop with the software loopback: [fuel] rounds are enough when the queue has fewer bytes. *)
Fixpoint loopback (fuel : nat) : M dev EFI_STATUS :=
  match fuel with
  | O => stop
  | S fuel =>
      s ← get;
      let ReceiveFifoFull := IohSerialFifoFull s.(Receive) in
      go ← (if negb (IohSerialFifoEmpty s.(Transmit)) then
              b ← remove_transmit 0;
              if ReceiveFifoFull then mret false else _ ← add_receive b; mret true
            else mret true);
      if negb go then mret EFI_OUT_OF_RESOURCES else
      s ← get;
      if IohSerialFifoEmpty s.(Transmit) then mret EFI_SUCCESS else loopback fuel
  end.

(** The wait for CTS: the modem status that it ends with. *)
Fixpoint wait_cts (n : nat) (Msr : Z) : M dev Z :=
  if Z.testbit Msr Msr_Dcd && xorb (negb (Z.testbit Msr Msr_Cts)) PcdIsaBusSerialUseHalfHandshake then
    _ ← on_port (Stall TIMEOUT_STALL_INTERVAL);
    match n with O => mret Msr | S n => v ← READ_MSR; wait_cts n v end
  else mret Msr.

(** What the transmission of a byte does with the handshake. *)
Definition transmit : M dev unit :=
  s ← get;
  if s.(HardwareFlowControl) then
    _ ← (if PcdIsaBusSerialUseHalfHandshake then change_mcr (set_field Mcr_Rts false) else mret tt);
    v ← READ_MSR;
    Msr ← wait_cts 5 v;
    _ ← (if negb (Z.testbit Msr Msr_Dcd) || xorb (Z.testbit Msr Msr_Cts) PcdIsaBusSerialUseHalfHandshake then
           b ← remove_transmit 0; WRITE_THR b
         else mret tt);
    if PcdIsaBusSerialUseHalfHandshake then change_mcr (set_field Mcr_Rts true) else mret tt
  else b ← remove_transmit 0; WRITE_THR b.

(** A byte with its errors is taken from the port and forgotten. *)
Definition broken (Lsr : Z) : bool :=
  Z.testbit Lsr Lsr_FIFOe || Z.testbit Lsr Lsr_Pe || Z.testbit Lsr Lsr_Fe || Z.testbit Lsr Lsr_Bi.
Definition receive (Lsr : Z) : M dev unit :=
  b ← READ_RBR;
  if broken Lsr then mret tt else
  _ ← add_receive b;
  s ← get;
  if s.(HardwareFlowControl) && negb PcdIsaBusSerialUseHalfHandshake && IohSerialFifoFull s.(Receive)
  then change_mcr (set_field Mcr_Rts false) else mret tt.

(** One round: the line status, and what the variable [ReceiveFifoFull] becomes. *)
Definition round (ReceiveFifoFull : bool) : M dev (Z * bool) :=
  Lsr ← READ_LSR;
  s ← get;
  let Full := if Z.testbit Lsr Lsr_Dr && negb ReceiveFifoFull then IohSerialFifoFull s.(Receive) else ReceiveFifoFull in
  _ ← (if Z.testbit Lsr Lsr_Dr && negb ReceiveFifoFull && negb Full then receive Lsr
       else if Z.testbit Lsr Lsr_Thre && negb (IohSerialFifoEmpty s.(Transmit)) then transmit else mret tt);
  mret (Lsr, Full).

Fixpoint rounds (fuel : nat) (ReceiveFifoFull : bool) : M dev EFI_STATUS :=
  match fuel with
  | O => stop
  | S fuel =>
      '(Lsr, Full) ← round ReceiveFifoFull;
      s ← get;
      if Z.testbit Lsr Lsr_Thre && negb (IohSerialFifoEmpty s.(Transmit)) then rounds fuel Full else mret EFI_SUCCESS
  end.

(** The number of rounds after which a run is given up. *)
Context (Rounds : nat).

Definition IohSerialReceiveTransmit : M dev EFI_STATUS :=
  s ← get;
  if s.(SoftwareLoopbackEnable) then loopback (S (Z.to_nat SERIAL_MAX_BUFFER_SIZE)) else
  let ReceiveFifoFull := IohSerialFifoFull s.(Receive) in
  _ ← (if s.(HardwareFlowControl) && negb PcdIsaBusSerialUseHalfHandshake && negb ReceiveFifoFull
       then change_mcr (set_field Mcr_Rts true) else mret tt);
  rounds Rounds ReceiveFifoFull.

(** ** Attributes *)

(** The rate that is used for a rate that is allowed. *)
Definition baud_rate (BaudRate : Z) : Z :=
  if BaudRate <? 75 then 50 else if BaudRate <? 110 then 75 else if BaudRate <? 134 then 110 else if BaudRate <? 150 then 134
  else if BaudRate <? 300 then 150 else if BaudRate <? 600 then 300 else if BaudRate <? 1200 then 600 else if BaudRate <? 1800 then 1200
  else if BaudRate <? 2000 then 1800 else if BaudRate <? 2400 then 2000 else if BaudRate <? 3600 then 2400 else if BaudRate <? 4800 then 3600
  else if BaudRate <? 7200 then 4800 else if BaudRate <? 9600 then 7200 else if BaudRate <? 19200 then 9600 else if BaudRate <? 38400 then 19200
  else if BaudRate <? 57600 then 38400 else if BaudRate <? 115200 then 57600
  else if BaudRate <=? SERIAL_PORT_MAX_BAUD_RATE then 115200 else BaudRate.

(** The fields of the line control register. *)
Definition parity_fields (Parity Lcr : Z) : Z :=
  if Parity =? NoParity then set_field Lcr_SticPar false (set_field Lcr_EvenPar false (set_field Lcr_ParEn false Lcr))
  else if Parity =? EvenParity then set_field Lcr_SticPar false (set_field Lcr_EvenPar true (set_field Lcr_ParEn true Lcr))
  else if Parity =? OddParity then set_field Lcr_SticPar false (set_field Lcr_EvenPar false (set_field Lcr_ParEn true Lcr))
  else if Parity =? SpaceParity then set_field Lcr_SticPar true (set_field Lcr_EvenPar true (set_field Lcr_ParEn true Lcr))
  else if Parity =? MarkParity then set_field Lcr_SticPar true (set_field Lcr_EvenPar false (set_field Lcr_ParEn true Lcr))
  else Lcr.
Definition stop_field (StopBits Lcr : Z) : Z :=
  if StopBits =? OneStopBit then set_field Lcr_StopB false Lcr
  else if (StopBits =? OneFiveStopBits) || (StopBits =? TwoStopBits) then set_field Lcr_StopB true Lcr else Lcr.
Definition data_field (DataBits Lcr : Z) : Z := Z.lor (Z.ldiff Lcr 3) (Z.land (u8 (DataBits - 5)) 3).

(** The divisor, and the line control register on the way. *)
Definition program_line (Divisor Parity DataBits StopBits : Z) : M dev unit :=
  v ← READ_LCR;
  let Lcr := set_field Lcr_DLab true v in
  _ ← WRITE_LCR Lcr;
  _ ← WRITE_DLL (Z.land Divisor 0xff);
  _ ← WRITE_DLM (Z.land (Z.shiftr Divisor 8) 0xff);
  WRITE_LCR (data_field DataBits (stop_field StopBits (parity_fields Parity (set_field Lcr_DLab false Lcr)))).

(** The end of [IohSerialSetAttributes]: the device path follows the attributes. *)
Definition update_path (BaudRate DataBits Parity StopBits : Z) : M dev EFI_STATUS :=
  s ← get;
  let n := s.(UartDevicePath) in
  if (n.(path_BaudRate) =? BaudRate) && (n.(path_DataBits) =? DataBits) && (n.(path_Parity) =? Parity) && (n.(path_StopBits) =? StopBits)
  then mret EFI_SUCCESS else
  let n := {| path_BaudRate := BaudRate; path_DataBits := DataBits; path_Parity := u8 Parity; path_StopBits := u8 StopBits |} in
  _ ← modify (with_path s.(DevicePath) n);
  NewDevicePath ← on_port (AppendDevicePathNode n);
  if NewDevicePath =? 0 then mret EFI_DEVICE_ERROR else
  Status ← (if negb (s.(Handle) =? 0) then on_port (ReinstallProtocolInterface s.(DevicePath) NewDevicePath) else mret EFI_SUCCESS);
  if EFI_ERROR Status then mret Status else
  _ ← (if negb (s.(DevicePath) =? 0) then on_port (FreePool s.(DevicePath)) else mret tt);
  _ ← modify (with_path NewDevicePath n);
  mret EFI_SUCCESS.

Definition IohSerialSetAttributes (BaudRate ReceiveFifoDepth Timeout Parity DataBits StopBits : Z) : M dev EFI_STATUS :=
  let BaudRate := if BaudRate =? 0 then PcdUartDefaultBaudRate else BaudRate in
  let ReceiveFifoDepth := if ReceiveFifoDepth =? 0 then SERIAL_PORT_DEFAULT_RECEIVE_FIFO_DEPTH else ReceiveFifoDepth in
  let Timeout := if Timeout =? 0 then SERIAL_PORT_DEFAULT_TIMEOUT else Timeout in
  let Parity := if Parity =? DefaultParity then PcdUartDefaultParity else Parity in
  let DataBits := if DataBits =? 0 then PcdUartDefaultDataBits else DataBits in
  let StopBits := if StopBits =? DefaultStopBits then PcdUartDefaultStopBits else StopBits in
  if (DataBits =? 5) || (DataBits =? 6) then mret EFI_INVALID_PARAMETER else
  if (SERIAL_PORT_MAX_BAUD_RATE <? BaudRate) || (BaudRate <? SERIAL_PORT_MIN_BAUD_RATE) then mret EFI_INVALID_PARAMETER else
  let BaudRate := baud_rate BaudRate in
  if (ReceiveFifoDepth <? 1) || (SERIAL_PORT_MAX_RECEIVE_FIFO_DEPTH <? ReceiveFifoDepth) then mret EFI_INVALID_PARAMETER else
  if (Timeout <? SERIAL_PORT_MIN_TIMEOUT) || (SERIAL_PORT_MAX_TIMEOUT <? Timeout) then mret EFI_INVALID_PARAMETER else
  if (Parity <? NoParity) || (SpaceParity <? Parity) then mret EFI_INVALID_PARAMETER else
  if (DataBits <? 5) || (8 <? DataBits) then mret EFI_INVALID_PARAMETER else
  if (StopBits <? OneStopBit) || (TwoStopBits <? StopBits) then mret EFI_INVALID_PARAMETER else
  if (6 <=? DataBits) && (DataBits <=? 8) && (StopBits =? OneFiveStopBits) then mret EFI_INVALID_PARAMETER else
  let Divisor := u32 (DivU64x32Remainder PcdIohUartClkFreq (u32 (u32 BaudRate * 16))) in
  if (Divisor =? 0) || negb (Z.land Divisor 0xffff0000 =? 0) then mret EFI_INVALID_PARAMETER else
  Tpl ← on_port (gBS_RaiseTPL TPL_NOTIFY);
  _ ← program_line Divisor Parity DataBits StopBits;
  _ ← modify (fun s => with_mode {| ControlMask := s.(SerialMode).(ControlMask); Timeout := Timeout; BaudRate := BaudRate;
                                    ReceiveFifoDepth := ReceiveFifoDepth; DataBits := DataBits; Parity := Parity; StopBits := StopBits |} s);
  Status ← update_path BaudRate DataBits Parity StopBits;
  _ ← on_port (gBS_RestoreTPL Tpl);
  mret Status.

(** ** Control bits *)

Definition has (Control Mask : Z) : bool := Z.land Control Mask =? Mask.

Definition IohSerialSetControl (Control : Z) : M dev EFI_STATUS :=
  if negb (Z.land Control 0xffff8ffc =? 0) then mret EFI_UNSUPPORTED else
  Tpl ← on_port (gBS_RaiseTPL TPL_NOTIFY);
  Mcr ← READ_MCR;
  let Mcr := set_field Mcr_Lme false (set_field Mcr_Rts false (set_field Mcr_DtrC false Mcr)) in
  _ ← modify (with_control false false);
  let Mcr := if has Control EFI_SERIAL_DATA_TERMINAL_READY then set_field Mcr_DtrC true Mcr else Mcr in
  let Mcr := if has Control EFI_SERIAL_REQUEST_TO_SEND then set_field Mcr_Rts true Mcr else Mcr in
  let Mcr := if has Control EFI_SERIAL_HARDWARE_LOOPBACK_ENABLE then set_field Mcr_Lme true Mcr else Mcr in
  _ ← (if has Control EFI_SERIAL_HARDWARE_FLOW_CONTROL_ENABLE then modify (with_control false true) else mret tt);
  _ ← WRITE_MCR Mcr;
  _ ← (if has Control EFI_SERIAL_SOFTWARE_LOOPBACK_ENABLE then modify (fun s => with_control true s.(HardwareFlowControl) s) else mret tt);
  _ ← on_port (gBS_RestoreTPL Tpl);
  mret EFI_SUCCESS.

Definition flag (b : bool) (Mask Control : Z) : Z := if b then Z.lor Control Mask else Control.

Definition IohSerialGetControl : M dev (EFI_STATUS * Z) :=
  Tpl ← on_port (gBS_RaiseTPL TPL_NOTIFY);
  Msr ← READ_MSR;
  let Control := flag (Z.testbit Msr Msr_Cts) EFI_SERIAL_CLEAR_TO_SEND 0 in
  let Control := flag (Z.testbit Msr Msr_Dsr) EFI_SERIAL_DATA_SET_READY Control in
  let Control := flag (Z.testbit Msr Msr_Ri) EFI_SERIAL_RING_INDICATE Control in
  let Control := flag (Z.testbit Msr Msr_Dcd) EFI_SERIAL_CARRIER_DETECT Control in
  Mcr ← READ_MCR;
  let Control := flag (Z.testbit Mcr Mcr_DtrC) EFI_SERIAL_DATA_TERMINAL_READY Control in
  let Control := flag (Z.testbit Mcr Mcr_Rts) EFI_SERIAL_REQUEST_TO_SEND Control in
  let Control := flag (Z.testbit Mcr Mcr_Lme) EFI_SERIAL_HARDWARE_LOOPBACK_ENABLE Control in
  s ← get;
  let Control := flag s.(HardwareFlowControl) EFI_SERIAL_HARDWARE_FLOW_CONTROL_ENABLE Control in
  _ ← IohSerialReceiveTransmit;
  s ← get;
  let Control := flag (IohSerialFifoEmpty s.(Transmit)) EFI_SERIAL_OUTPUT_BUFFER_EMPTY Control in
  _ ← IohSerialReceiveTransmit;
  s ← get;
  let Control := flag (IohSerialFifoEmpty s.(Receive)) EFI_SERIAL_INPUT_BUFFER_EMPTY Control in
  let Control := flag s.(SoftwareLoopbackEnable) EFI_SERIAL_SOFTWARE_LOOPBACK_ENABLE Control in
  _ ← on_port (gBS_RestoreTPL Tpl);
  mret (EFI_SUCCESS, Control).

(** ** Reset *)

Definition empty_queue (f : SERIAL_DEV_FIFO) : SERIAL_DEV_FIFO :=
  {| First := 0; Last := 0; Surplus := SERIAL_MAX_BUFFER_SIZE; Data := f.(Data) |}.

(** [Fcr] is what the local variable holds that nobody sets. *)
Definition IohSerialReset (Fcr : Z) : M dev EFI_STATUS :=
  Tpl ← on_port (gBS_RaiseTPL TPL_NOTIFY);
  Lcr ← READ_LCR;
  _ ← WRITE_LCR (set_field Lcr_DLab false Lcr);
  Ier ← READ_IER;
  _ ← WRITE_IER (Z.ldiff Ier 0x0f);
  let Fcr := set_field 0 false Fcr in
  _ ← WRITE_FCR Fcr;
  Mcr ← READ_MCR;
  _ ← WRITE_MCR (set_field Mcr_Lme false (set_field Mcr_Out2 false (set_field Mcr_Out1 false Mcr)));
  _ ← WRITE_SCR 0;
  s ← get;
  let m := s.(SerialMode) in
  Status ← IohSerialSetAttributes m.(BaudRate) m.(ReceiveFifoDepth) m.(Timeout) m.(Parity) (u8 m.(DataBits)) m.(StopBits);
  if EFI_ERROR Status then _ ← on_port (gBS_RestoreTPL Tpl); mret EFI_DEVICE_ERROR else
  s ← get;
  Status ← IohSerialSetControl s.(SerialMode).(ControlMask);
  if EFI_ERROR Status then _ ← on_port (gBS_RestoreTPL Tpl); mret EFI_DEVICE_ERROR else
  _ ← WRITE_FCR (Z.lor Fcr 7);
  _ ← modify (fun s => with_queues (empty_queue s.(Receive)) (empty_queue s.(Transmit)) s);
  _ ← on_port (gBS_RestoreTPL Tpl);
  mret EFI_SUCCESS.

(** ** Writing and reading *)

(** The wait until a byte is gone: whether it is, in time. *)
Fixpoint write_wait (fuel : nat) (Elapsed : Z) : M dev bool :=
  match fuel with
  | O => stop
  | S fuel =>
      Status ← IohSerialReceiveTransmit;
      s ← get;
      if bool_decide (Status = EFI_SUCCESS) && IohSerialFifoEmpty s.(Transmit) then mret true else
      if s.(SerialMode).(Timeout) <=? Elapsed then mret false else
      _ ← on_port (Stall TIMEOUT_STALL_INTERVAL);
      write_wait fuel (u32 (Elapsed + TIMEOUT_STALL_INTERVAL))
  end.

(** The number of waits within a time. *)
Definition wait_fuel (Timeout : Z) : nat := S (S (Z.to_nat (Timeout / TIMEOUT_STALL_INTERVAL))).

(** The bytes from [Index] on, [n] of them. *)
Fixpoint write_bytes (n : nat) (Index BufferSize : Z) (Buffer : list Z) : M dev (EFI_STATUS * Z) :=
  match n with
  | O => mret (EFI_SUCCESS, BufferSize)
  | S n =>
      b ← lift (Buffer !! Z.to_nat Index);
      _ ← add_transmit b;
      s ← get;
      ok ← write_wait (wait_fuel s.(SerialMode).(Timeout)) 0;
      if negb ok then mret (EFI_TIMEOUT, Index) else write_bytes n (Index + 1) BufferSize Buffer
  end.

(** The results are the status and what [BufferSize] points to afterwards. *)
Definition IohSerialWrite (BufferSize : Z) (Buffer : option (list Z)) : M dev (EFI_STATUS * Z) :=
  if BufferSize =? 0 then mret (EFI_SUCCESS, BufferSize) else
  match Buffer with
  | None => mret (EFI_DEVICE_ERROR, BufferSize)
  | Some Buffer =>
      Tpl ← on_port (gBS_RaiseTPL TPL_NOTIFY);
      r ← write_bytes (Z.to_nat BufferSize) 0 BufferSize Buffer;
      _ ← on_port (gBS_RestoreTPL Tpl);
      mret r
  end.

(** The wait for a byte: the byte, or the status that ends the call. *)
Fixpoint read_wait (fuel : nat) (Elapsed : Z) : M dev (EFI_STATUS * Z) :=
  match fuel with
  | O => stop
  | S fuel =>
      '(Status, b) ← remove_receive;
      if bool_decide (Status = EFI_SUCCESS) then mret (EFI_SUCCESS, default 0 b) else
      s ← get;
      if s.(SerialMode).(Timeout) <=? Elapsed then mret (EFI_TIMEOUT, 0) else
      _ ← on_port (Stall TIMEOUT_STALL_INTERVAL);
      Status ← IohSerialReceiveTransmit;
      if bool_decide (Status = EFI_DEVICE_ERROR) then mret (EFI_DEVICE_ERROR, 0) else
      read_wait fuel (u32 (Elapsed + TIMEOUT_STALL_INTERVAL))
  end.

(** The status, the value of [BufferSize] and the bytes that are stored in the buffer. *)
Fixpoint read_bytes (n : nat) (Index BufferSize : Z) : M dev (EFI_STATUS * Z * list Z) :=
  match n with
  | O => mret (EFI_SUCCESS, BufferSize, [])
  | S n =>
      s ← get;
      '(Status, b) ← read_wait (wait_fuel s.(SerialMode).(Timeout)) 0;
      if bool_decide (Status = EFI_SUCCESS) then
        '(Status, Size, l) ← read_bytes n (Index + 1) BufferSize;
        mret (Status, Size, b :: l)
      else mret (Status, Index, [])
  end.

(** [Buffer] is false when it is NULL. *)
Definition IohSerialRead (BufferSize : Z) (Buffer : bool) : M dev (EFI_STATUS * Z * list Z) :=
  if BufferSize =? 0 then mret (EFI_SUCCESS, BufferSize, []) else
  if negb Buffer then mret (EFI_DEVICE_ERROR, BufferSize, []) else
  Tpl ← on_port (gBS_RaiseTPL TPL_NOTIFY);
  Status ← IohSerialReceiveTransmit;
  if EFI_ERROR Status then _ ← on_port (gBS_RestoreTPL Tpl); mret (EFI_DEVICE_ERROR, 0, []) else
  '(Status, Size, l) ← read_bytes (Z.to_nat BufferSize) 0 BufferSize;
  _ ← (if bool_decide (Status = EFI_SUCCESS) then _ ← IohSerialReceiveTransmit; mret tt else mret tt);
  _ ← on_port (gBS_RestoreTPL Tpl);
  mret (Status, Size, l).

(** ** The test for the port *)

Definition IohSerialPortPresent : M dev bool :=
  Temp ← READ_SCR;
  _ ← WRITE_SCR 0xAA;
  v1 ← READ_SCR;
  _ ← WRITE_SCR 0x55;
  v2 ← READ_SCR;
  _ ← WRITE_SCR Temp;
  mret ((v1 =? 0xAA) && (v2 =? 0x55)).
End Driver.
