(* ===== verification/UartRules.v ===== *)
(** * The serial port driver: specification and rules

    The software queue is a bounded queue of bytes ([contents]). The log of the accesses tells which bytes came in and went
    out. The port is anything that answers; [noise] bounds how often it still reports a broken byte or a peer that is
    not ready. The rules say what one access, one round and one run of [IohSerialReceiveTransmit] do (a run comes to an end when
    the port stops complaining), what writing and reading do, and what no mode changes. *)

From S2P Require Import Prelude UartDefs.
From stdpp Require Import list.
#[local] Open Scope Z_scope.

(** ** The queue *)

Record fifo_wf (f : SERIAL_DEV_FIFO) : Prop := {
  wf_first : 0 <= f.(First) < SERIAL_MAX_BUFFER_SIZE;
  wf_surplus : 0 <= f.(Surplus) <= SERIAL_MAX_BUFFER_SIZE;
  wf_last : f.(Last) = (f.(First) + (SERIAL_MAX_BUFFER_SIZE - f.(Surplus))) mod SERIAL_MAX_BUFFER_SIZE;
  wf_data : length f.(Data) = Z.to_nat SERIAL_MAX_BUFFER_SIZE
}.

(** The place of the [i]-th byte. *)
Definition slot (f : SERIAL_DEV_FIFO) (i : nat) : nat := Z.to_nat ((f.(First) + Z.of_nat i) mod SERIAL_MAX_BUFFER_SIZE).
Definition contents (f : SERIAL_DEV_FIFO) : list Z :=
  map (fun i => f.(Data) !!! slot f i) (seq 0 (Z.to_nat (SERIAL_MAX_BUFFER_SIZE - f.(Surplus)))).

Lemma mod_16 x : 0 <= x < 32 -> x mod 16 = if x <? 16 then x else x - 16.
Proof.
  intros Hx. destruct (Z.ltb_spec x 16); [apply Z.mod_small; lia|].
  symmetry. apply (Z.mod_unique x 16 1); [left; lia|lia].
Qed.

Lemma length_contents f : fifo_wf f -> Z.of_nat (length (contents f)) = SERIAL_MAX_BUFFER_SIZE - f.(Surplus).
Proof. intros [H1 H2 _ _]. unfold contents. rewrite length_map, length_seq. lia. Qed.

Lemma full_contents f : fifo_wf f -> IohSerialFifoFull f = bool_decide (length (contents f) = 16%nat).
Proof.
  intros Hf. pose proof (length_contents f Hf) as Hl. unfold IohSerialFifoFull, SERIAL_MAX_BUFFER_SIZE in *. pose proof (wf_surplus f Hf).
  apply Bool.eq_iff_eq_true. rewrite Z.eqb_eq, bool_decide_eq_true. lia.
Qed.

Lemma empty_contents f : fifo_wf f -> IohSerialFifoEmpty f = bool_decide (contents f = []).
Proof.
  intros Hf. pose proof (length_contents f Hf) as Hl. unfold IohSerialFifoEmpty, SERIAL_MAX_BUFFER_SIZE in *. pose proof (wf_surplus f Hf).
  apply Bool.eq_iff_eq_true. rewrite Z.eqb_eq, bool_decide_eq_true. split; [intros E; apply length_zero_iff_nil; lia|intros E; rewrite E in Hl; cbn in Hl; lia].
Qed.

Lemma add_full f b : fifo_wf f -> length (contents f) = 16%nat -> IohSerialFifoAdd f b = Some (EFI_OUT_OF_RESOURCES, f).
Proof. intros Hf Hl. unfold IohSerialFifoAdd. by rewrite full_contents, bool_decide_true. Qed.

Lemma add_contents f b : fifo_wf f -> (length (contents f) < 16)%nat ->
  exists f', IohSerialFifoAdd f b = Some (EFI_SUCCESS, f') /\ fifo_wf f' /\ contents f' = contents f ++ [b].
Proof.
  intros Hf Hl. pose proof (length_contents f Hf) as Hn. pose proof Hf as [H1 H2 H3 H4]. unfold IohSerialFifoAdd.
  rewrite full_contents, bool_decide_false by (done || lia). unfold SERIAL_MAX_BUFFER_SIZE in *.
  assert (Hx : 0 <= f.(Last) < 16) by (rewrite H3; apply Z.mod_pos_bound; lia).
  rewrite bool_decide_true by (apply lookup_lt_is_Some; lia). eexists. split; [reflexivity|].
  rewrite !wrap_small by lia. split.
  - split; cbn [First Surplus Last Data]; unfold SERIAL_MAX_BUFFER_SIZE; [done|lia| |by rewrite length_insert].
    rewrite H3, !mod_16 by lia. bools.
  - unfold contents. cbn [Surplus]. unfold SERIAL_MAX_BUFFER_SIZE.
    replace (Z.to_nat (16 - (f.(Surplus) - 1))) with (S (length (contents f))) by lia.
    replace (Z.to_nat (16 - f.(Surplus))) with (length (contents f)) by lia. rewrite seq_S, map_app. cbn [map]. f_equal.
    + apply map_ext_in. intros i Hi. apply in_seq in Hi. unfold slot. cbn [First Data]. apply list_lookup_total_insert_ne.
      unfold SERIAL_MAX_BUFFER_SIZE. rewrite H3, !mod_16 by lia. bools.
    + f_equal. unfold slot. cbn [First Data]. unfold SERIAL_MAX_BUFFER_SIZE.
      replace (Z.to_nat ((f.(First) + Z.of_nat (0 + length (contents f))) mod 16)) with (Z.to_nat f.(Last)) by (f_equal; rewrite H3; f_equal; lia).
      rewrite list_lookup_total_insert, decide_True; [done|split; [done|lia]].
Qed.

Lemma remove_empty f : fifo_wf f -> contents f = [] -> IohSerialFifoRemove f = Some (EFI_OUT_OF_RESOURCES, None, f).
Proof. intros Hf Hl. unfold IohSerialFifoRemove. by rewrite empty_contents, bool_decide_true. Qed.

Lemma remove_contents f b l : fifo_wf f -> contents f = b :: l ->
  exists f', IohSerialFifoRemove f = Some (EFI_SUCCESS, Some b, f') /\ fifo_wf f' /\ contents f' = l.
Proof.
  intros Hf Hl. pose proof (length_contents f Hf) as Hn. rewrite Hl in Hn. cbn [length] in Hn. pose proof Hf as [H1 H2 H3 H4].
  unfold IohSerialFifoRemove. rewrite empty_contents, bool_decide_false by (done || by rewrite Hl). unfold SERIAL_MAX_BUFFER_SIZE in *.
  unfold contents, SERIAL_MAX_BUFFER_SIZE in Hl. replace (Z.to_nat (16 - f.(Surplus))) with (S (length l)) in Hl by lia.
  rewrite <- cons_seq in Hl. cbn [map] in Hl. injection Hl as Hb Hl. unfold slot in Hb. unfold SERIAL_MAX_BUFFER_SIZE in Hb.
  rewrite Z.add_0_r, Z.mod_small in Hb by lia.
  rewrite (list_lookup_lookup_total_lt (f.(Data)) (Z.to_nat f.(First))), Hb by lia. eexists. split; [reflexivity|].
  rewrite !wrap_small by lia. split.
  - split; cbn [First Surplus Last Data]; unfold SERIAL_MAX_BUFFER_SIZE; [bools|lia| |done].
    rewrite H3, !mod_16 by (bools; lia). bools.
  - unfold contents. cbn [Surplus]. unfold SERIAL_MAX_BUFFER_SIZE.
    replace (Z.to_nat (16 - (f.(Surplus) + 1))) with (length l) by lia.
    etransitivity; [|exact Hl]. rewrite <- seq_shift, map_map. apply map_ext_in. intros i Hi. apply in_seq in Hi. unfold slot. cbn [First Data].
    unfold SERIAL_MAX_BUFFER_SIZE. do 2 f_equal. rewrite !mod_16 by (bools; lia). bools.
Qed.

(** ** The log of the port *)

Definition is_at (a b : Z) : bool := a =? b.

(** The bytes that arrived, oldest first: reads of the buffer, except of a byte that the line status reported as broken. *)
Fixpoint arrived (l : list access) : list Z :=
  match l with
  | Read A b :: ((Read A' v :: _) as rest) =>
      arrived rest ++ (if is_at A SERIAL_REGISTER_RBR && is_at A' SERIAL_REGISTER_LSR && negb (broken v) then [b] else [])
  | _ :: rest => arrived rest
  | [] => []
  end.

(** The bytes that were given to the transmitter, oldest first. *)
Fixpoint sent (l : list access) : list Z :=
  match l with
  | Write A b :: rest => sent rest ++ (if is_at A SERIAL_REGISTER_THR then [b] else [])
  | _ :: rest => sent rest
  | [] => []
  end.

(** The value that the line control register was given last. *)
Fixpoint line_control (l : list access) : option Z :=
  match l with
  | Write A v :: rest => if is_at A SERIAL_REGISTER_LCR then Some v else line_control rest
  | _ :: rest => line_control rest
  | [] => None
  end.

Definition is_data_read (a : access) : bool := match a with Read A _ => is_at A SERIAL_REGISTER_RBR | Write _ _ => false end.

Lemma arrived_other a l : is_data_read a = false -> arrived (a :: l) = arrived l.
Proof.
  destruct a as [A v|A v]; [|done]. cbn [is_data_read arrived]. intros ->. destruct l as [|[A' v'|A' v'] l]; [done| |done].
  cbn [andb]. by rewrite app_nil_r.
Qed.

(** ** The port *)

(** A report that a round ends with nothing done: a broken byte, or a peer that is not ready. *)
Definition complaint {D} {B : SerialBus D} (Offset v : Z) : bool :=
  is_at Offset SERIAL_REGISTER_LSR && Z.testbit v Lsr_Dr && broken v ||
  is_at Offset SERIAL_REGISTER_MSR && Z.testbit v Msr_Dcd && xorb (negb (Z.testbit v Msr_Cts)) PcdIsaBusSerialUseHalfHandshake.

Definition read_port {D} {B : SerialBus D} (A : Z) : M D Z := if PcdIohUartUseMmio then MmioRead8 A else IoRead8 A.
Definition write_port {D} {B : SerialBus D} (A v : Z) : M D unit := if PcdIohUartUseMmio then MmioWrite8 A v else IoWrite8 A v.

Class SerialLaws (D : Type) {B : SerialBus D} := {
  serial_base : Z;
  noise : D -> nat;
  tpl : D -> Z;
  mcr : D -> Z;
  (** Nothing else than accesses to the modem control register changes it, and it keeps its five bits. *)
  read_law : forall Offset d, 0 <= Offset < 32 -> wp (read_port (u32 (serial_base + Offset))) (fun v d' =>
    in_width 8 v /\ tpl d' = tpl d /\ mcr d' = mcr d /\ (noise d' + Nat.b2n (complaint Offset v) <= noise d)%nat /\
    (Offset = SERIAL_REGISTER_MCR -> Z.land v 0x1f = mcr d)) d;
  write_law : forall Offset v d, 0 <= Offset < 32 -> wp (write_port (u32 (serial_base + Offset)) v) (fun _ d' =>
    tpl d' = tpl d /\ (noise d' <= noise d)%nat /\ mcr d' = if is_at Offset SERIAL_REGISTER_MCR then Z.land v 0x1f else mcr d) d;
  stall_law : forall n d, wp (Stall n) (fun _ d' => tpl d' = tpl d /\ mcr d' = mcr d /\ (noise d' <= noise d)%nat) d;
  raise_law : forall n d, wp (gBS_RaiseTPL n) (fun old d' => old = tpl d /\ tpl d' = n /\ mcr d' = mcr d /\ (noise d' <= noise d)%nat) d;
  restore_law : forall n d, wp (gBS_RestoreTPL n) (fun _ d' => tpl d' = n /\ mcr d' = mcr d /\ (noise d' <= noise d)%nat) d;
  append_law : forall n d, wp (AppendDevicePathNode n) (fun _ d' => tpl d' = tpl d /\ mcr d' = mcr d /\ (noise d' <= noise d)%nat) d;
  reinstall_law : forall p q d, wp (ReinstallProtocolInterface p q) (fun _ d' => tpl d' = tpl d /\ mcr d' = mcr d /\ (noise d' <= noise d)%nat) d;
  free_law : forall p d, wp (FreePool p) (fun _ d' => tpl d' = tpl d /\ mcr d' = mcr d /\ (noise d' <= noise d)%nat) d;
  div_law : forall x y, 0 <= x -> 0 < y -> DivU64x32Remainder x y = x / y;
  clock_range : in_width 32 PcdIohUartClkFreq
}.

(** ** What an operation may do *)

Section Moves.
Context {D : Type} {B : SerialBus D} {L : SerialLaws D}.
Implicit Types (s : SERIAL_DEV D).

Definition received s : list Z := contents s.(Receive).
Definition waiting s : list Z := contents s.(Transmit).

(** The state of a device at work: queues that are queues, a time limit in range. *)
Record serial_ok s : Prop := {
  ok_base : s.(BaseAddress) = serial_base;
  ok_receive : fifo_wf s.(Receive);
  ok_transmit : fifo_wf s.(Transmit);
  ok_timeout : SERIAL_PORT_MIN_TIMEOUT <= s.(SerialMode).(Timeout) <= SERIAL_PORT_MAX_TIMEOUT
}.

(** Bytes move from the port to one queue and from the other queue to the port, each once and in order; on the way the bytes
    [a] are added to be sent, and the bytes [g] are taken out. Nothing else changes but the port. *)
Record moves (a g : list Z) s s' : Prop := {
  moves_frame : s' = with_queues s'.(Receive) s'.(Transmit) (with_port s'.(log) s'.(port) s);
  moves_receive : fifo_wf s.(Receive) -> fifo_wf s'.(Receive);
  moves_transmit : fifo_wf s.(Transmit) -> fifo_wf s'.(Transmit);
  moves_in : exists r, received s ++ r = g ++ received s' /\ arrived s'.(log) = arrived s.(log) ++ r;
  moves_out : exists w, waiting s ++ a = w ++ waiting s' /\ sent s'.(log) = sent s.(log) ++ w;
  moves_line : line_control s'.(log) = line_control s.(log);
  moves_noise : (noise s'.(port) <= noise s.(port))%nat;
  moves_tpl : tpl s'.(port) = tpl s.(port)
}.

Lemma moves_refl s : moves [] [] s s.
Proof. split; [by destruct s|done|done|exists []; by rewrite !app_nil_r|exists []; by rewrite !app_nil_r|done|done|done]. Qed.

Lemma moves_trans a g a' g' s s1 s2 : moves a g s s1 -> moves a' g' s1 s2 -> moves (a ++ a') (g ++ g') s s2.
Proof.
  intros [F1 R1 T1 (r1 & I1 & J1) (w1 & O1 & P1) C1 N1 L1] [F2 R2 T2 (r2 & I2 & J2) (w2 & O2 & P2) C2 N2 L2]. split.
  - rewrite F2 at 1. rewrite F1. done.
  - auto.
  - auto.
  - exists (r1 ++ r2). split; [by rewrite app_assoc, I1, <- app_assoc, I2, app_assoc|by rewrite J2, J1, app_assoc].
  - exists (w1 ++ w2). split; [by rewrite app_assoc, O1, <- app_assoc, O2, app_assoc|by rewrite P2, P1, app_assoc].
  - congruence.
  - lia.
  - congruence.
Qed.

Lemma moves_then s s1 s2 : moves [] [] s s1 -> moves [] [] s1 s2 -> moves [] [] s s2.
Proof. apply moves_trans. Qed.

Lemma moves_ok a g s s' : serial_ok s -> moves a g s s' -> serial_ok s'.
Proof.
  intros [K1 K2 K3 K4] [F R T _ _ _ _ _]. split; [by rewrite F|auto|auto|by rewrite F].
Qed.

Lemma moves_same a g s s' : moves a g s s' -> s'.(SerialMode) = s.(SerialMode) /\ s'.(SoftwareLoopbackEnable) = s.(SoftwareLoopbackEnable) /\
  s'.(HardwareFlowControl) = s.(HardwareFlowControl) /\ s'.(BaseAddress) = s.(BaseAddress).
Proof. intros [F _ _ _ _ _ _ _]. by rewrite F. Qed.

Lemma length_queue f : fifo_wf f -> (length (contents f) <= 16)%nat.
Proof. intros Hf. pose proof (length_contents f Hf). pose proof (wf_surplus f Hf). unfold SERIAL_MAX_BUFFER_SIZE in *. lia. Qed.
End Moves.

(** The offset of a register. *)
Ltac offset :=
  unfold SERIAL_REGISTER_THR, SERIAL_REGISTER_RBR, SERIAL_REGISTER_DLL, SERIAL_REGISTER_DLM, SERIAL_REGISTER_IER, SERIAL_REGISTER_FCR,
    SERIAL_REGISTER_LCR, SERIAL_REGISTER_MCR, SERIAL_REGISTER_LSR, SERIAL_REGISTER_MSR, SERIAL_REGISTER_SCR; lia.

Section Rules.
Context {D : Type} {B : SerialBus D} {L : SerialLaws D}.
Implicit Types (s : SERIAL_DEV D).

(** ** Accesses *)

Lemma wp_on_port {A} (m : M D A) (Q : A -> SERIAL_DEV D -> Prop) s :
  wp m (fun a p => Q a (with_port s.(log) p s)) s.(port) -> wp (on_port m) Q s.
Proof. intros (a & p & Hm & HQ). exists a, (with_port s.(log) p s). split; [|done]. unfold on_port. by rewrite Hm. Qed.

Lemma wp_IohSerialReadPort Offset (Q : Z -> SERIAL_DEV D -> Prop) s :
  s.(BaseAddress) = serial_base -> 0 <= Offset < 32 ->
  (forall v p, in_width 8 v -> tpl p = tpl s.(port) -> mcr p = mcr s.(port) -> (noise p + Nat.b2n (complaint Offset v) <= noise s.(port))%nat ->
     (Offset = SERIAL_REGISTER_MCR -> Z.land v 0x1f = mcr s.(port)) -> Q v (with_port (Read Offset v :: s.(log)) p s)) ->
  wp (IohSerialReadPort Offset) Q s.
Proof.
  intros Hb Ho HQ. unfold IohSerialReadPort. apply wp_bind, wp_gets. rewrite Hb. apply wp_bind, wp_on_port.
  eapply wp_mono; [apply (read_law Offset s.(port) Ho)|]. intros v p (H1 & H2 & H3 & H4 & H5). apply wp_bind, wp_modify, wp_ret. by apply HQ.
Qed.

Lemma wp_IohSerialWritePort Offset v (Q : unit -> SERIAL_DEV D -> Prop) s :
  s.(BaseAddress) = serial_base -> 0 <= Offset < 32 ->
  (forall p, tpl p = tpl s.(port) -> (noise p <= noise s.(port))%nat ->
     mcr p = (if is_at Offset SERIAL_REGISTER_MCR then Z.land v 0x1f else mcr s.(port)) -> Q tt (with_port (Write Offset v :: s.(log)) p s)) ->
  wp (IohSerialWritePort Offset v) Q s.
Proof.
  intros Hb Ho HQ. unfold IohSerialWritePort. apply wp_bind, wp_gets. rewrite Hb. apply wp_bind, wp_on_port.
  eapply wp_mono; [apply (write_law Offset v s.(port) Ho)|]. intros [] p (H1 & H2 & H3). apply wp_modify. by apply HQ.
Qed.

(** Accesses that are about no data. *)
Lemma moves_port l p s : arrived l = arrived s.(log) -> sent l = sent s.(log) -> line_control l = line_control s.(log) ->
  (noise p <= noise s.(port))%nat -> tpl p = tpl s.(port) -> moves [] [] s (with_port l p s).
Proof.
  intros H1 H2 H3 H4 H5. split; cbn [with_port log port]; [done|done|done| | |done|done|done].
  - exists []. by rewrite !app_nil_r.
  - exists []. by rewrite !app_nil_r.
Qed.

Lemma moves_read Offset v p s : is_at Offset SERIAL_REGISTER_RBR = false -> (noise p <= noise s.(port))%nat -> tpl p = tpl s.(port) ->
  moves [] [] s (with_port (Read Offset v :: s.(log)) p s).
Proof. intros Ho Hn Ht. apply moves_port; [by apply arrived_other|done|done|done|done]. Qed.

Lemma moves_write Offset v p s : is_at Offset SERIAL_REGISTER_THR = false -> is_at Offset SERIAL_REGISTER_LCR = false ->
  (noise p <= noise s.(port))%nat -> tpl p = tpl s.(port) -> moves [] [] s (with_port (Write Offset v :: s.(log)) p s).
Proof.
  intros H1 H2 Hn Ht. apply moves_port; [done| | |done|done]; cbn [sent line_control]; rewrite ?H1, ?H2; [by rewrite app_nil_r|done].
Qed.

Lemma wp_change_mcr f (Q : unit -> SERIAL_DEV D -> Prop) s :
  s.(BaseAddress) = serial_base ->
  (forall s', moves [] [] s s' -> received s' = received s -> waiting s' = waiting s -> Q tt s') -> wp (change_mcr f) Q s.
Proof.
  intros Hb HQ. unfold change_mcr. apply wp_bind, wp_IohSerialReadPort; [done|offset|].
  intros v p _ Ht _ Hn _. apply wp_IohSerialWritePort; [done|offset|]. intros p' Ht' Hn' _. apply HQ; [|done|done].
  eapply moves_then; [|apply moves_write; [done|done|exact Hn'|exact Ht']]. apply moves_read; [done|lia|done].
Qed.

(** ** One byte *)

Lemma wp_send b l (Q : unit -> SERIAL_DEV D -> Prop) s :
  serial_ok s -> waiting s = b :: l ->
  (forall s', moves [] [] s s' -> received s' = received s -> waiting s' = l -> Q tt s') ->
  wp (b ← remove_transmit 0; IohSerialWritePort SERIAL_REGISTER_THR b) Q s.
Proof.
  intros [Hb Hr Ht _] Hw HQ. unfold remove_transmit. destruct (remove_contents _ b l Ht Hw) as (t & Ht1 & Ht2 & Ht3).
  apply wp_bind, wp_bind, wp_get. apply wp_bind. eapply wp_lift; [exact Ht1|]. cbn beta iota. apply wp_bind, wp_modify, wp_ret. cbn [default].
  apply wp_IohSerialWritePort; [done|offset|]. intros p Hp Hn _. apply HQ; [|done|done].
  split; cbn [with_port with_queues Receive Transmit log port]; [done|done|done| | |done|done|done].
  - exists []. by rewrite !app_nil_r.
  - exists [b]. unfold waiting in *. cbn [Transmit with_port with_queues]. by rewrite app_nil_r, Hw, Ht3.
Qed.

Lemma wp_add_receive b (Q : EFI_STATUS -> SERIAL_DEV D -> Prop) s :
  fifo_wf s.(Receive) -> (length (received s) < 16)%nat ->
  (forall r, fifo_wf r -> contents r = received s ++ [b] -> Q EFI_SUCCESS (with_queues r s.(Transmit) s)) -> wp (add_receive b) Q s.
Proof.
  intros Hr Hl HQ. unfold add_receive. destruct (add_contents _ b Hr Hl) as (r & H1 & H2 & H3). apply wp_bind, wp_get, wp_bind.
  eapply wp_lift; [exact H1|]. apply wp_bind, wp_modify, wp_ret. by apply HQ.
Qed.

Lemma wp_add_transmit b (Q : EFI_STATUS -> SERIAL_DEV D -> Prop) s :
  fifo_wf s.(Transmit) -> (length (waiting s) < 16)%nat ->
  (forall t, fifo_wf t -> contents t = waiting s ++ [b] -> Q EFI_SUCCESS (with_queues s.(Receive) t s)) -> wp (add_transmit b) Q s.
Proof.
  intros Ht Hl HQ. unfold add_transmit. destruct (add_contents _ b Ht Hl) as (t & H1 & H2 & H3). apply wp_bind, wp_get, wp_bind.
  eapply wp_lift; [exact H1|]. apply wp_bind, wp_modify, wp_ret. by apply HQ.
Qed.

(** A byte is taken from the port when the last access read the line status. *)
Lemma wp_receive Lsr l (Q : unit -> SERIAL_DEV D -> Prop) s :
  serial_ok s -> s.(log) = Read SERIAL_REGISTER_LSR Lsr :: l -> (length (received s) < 16)%nat ->
  (forall s', moves [] [] s s' -> waiting s' = waiting s -> (broken Lsr = false -> length (received s') = S (length (received s))) -> Q tt s') ->
  wp (receive Lsr) Q s.
Proof.
  intros [Hb Hr Ht _] Hl Hn HQ. unfold receive. apply wp_bind, wp_IohSerialReadPort; [done|offset|].
  intros b p _ Hp _ Hnp _. destruct (broken Lsr) eqn:Hbr.
  - apply wp_ret, HQ; [|done|done]. apply moves_port; [|done|done|lia|done]. rewrite Hl. cbn [arrived]. rewrite Hbr, andb_false_r. by rewrite app_nil_r.
  - apply wp_bind, wp_add_receive; [done|done|]. intros r Hrw Hrc.
    set (s1 := with_queues _ _ _).
    assert (H1 : moves [] [] s s1 /\ waiting s1 = waiting s /\ length (received s1) = S (length (received s))).
    { split; [|split; [done|by unfold received in *; cbn [s1 with_queues Receive]; rewrite Hrc, length_app, Nat.add_comm]].
      split; cbn [s1 with_port with_queues Receive Transmit log port]; [done|done|done| | |done|lia|done].
      - exists [b]. unfold received in *. cbn [s1 Receive with_queues with_port]. split; [by rewrite Hrc|]. rewrite Hl. cbn [arrived]. by rewrite Hbr.
      - exists []. by rewrite !app_nil_r. }
    destruct H1 as (M1 & W1 & R1). clearbody s1. apply wp_bind, wp_get. destruct (_ && _).
    + apply wp_change_mcr; [pose proof (moves_same _ _ _ _ M1) as (_ & _ & _ & ->); done|]. intros s2 M2 R2 W2. apply HQ; [by eapply moves_then|congruence|].
      intros _. congruence.
    + apply wp_ret. apply HQ; [done|done|done].
Qed.

(** ** The handshake *)

Definition blocks (Msr : Z) : bool := Z.testbit Msr Msr_Dcd && xorb (negb (Z.testbit Msr Msr_Cts)) PcdIsaBusSerialUseHalfHandshake.

Lemma wp_wait_cts n v (Q : Z -> SERIAL_DEV D -> Prop) s :
  serial_ok s ->
  (forall v' s', moves [] [] s s' -> received s' = received s -> waiting s' = waiting s -> (blocks v = false -> v' = v) -> Q v' s') ->
  wp (wait_cts n v) Q s.
Proof.
  revert v s. induction n as [|n IH]; intros v s Hs HQ; cbn [wait_cts]; fold (blocks v); (destruct (blocks v) eqn:Hv;
    [apply wp_bind, wp_on_port; eapply wp_mono; [apply stall_law|]; intros [] p (Hp & _ & Hn)
    |apply wp_ret, HQ; [apply moves_refl|done|done|done]]).
  all: assert (Hm : moves [] [] s (with_port s.(log) p s)) by (by apply moves_port).
  - apply wp_ret, HQ; [done|done|done|done].
  - pose proof (moves_ok _ _ _ _ Hs Hm) as Hs1. apply wp_bind, wp_IohSerialReadPort; [apply Hs1|offset|].
    intros v1 p1 _ Hp1 _ Hn1 _. eapply IH.
    + eapply moves_ok; [exact Hs1|]. apply moves_read; [done|cbn [port] in *; lia|done].
    + intros v' s' M' R' W' _. apply HQ; [|done|done|done]. eapply moves_then; [exact Hm|]. eapply moves_then; [|exact M'].
      apply moves_read; [done|cbn [port] in *; lia|done].
Qed.

(** What a round brings nearer to its end. *)
Definition left_over s : nat := (16 - length (received s)) + length (waiting s) + noise s.(port).

Lemma wp_handshake {A} (half : bool) f (k : M (SERIAL_DEV D) A) (Q : A -> SERIAL_DEV D -> Prop) s :
  s.(BaseAddress) = serial_base ->
  (forall s', moves [] [] s s' -> received s' = received s -> waiting s' = waiting s -> wp k Q s') ->
  wp (_ ← (if half then change_mcr f else mret tt); k) Q s.
Proof.
  intros Hb HQ. apply wp_bind. destruct half; [by apply wp_change_mcr|]. apply wp_ret, HQ; [apply moves_refl|done|done].
Qed.

Lemma wp_handshake_end (half : bool) f (Q : unit -> SERIAL_DEV D -> Prop) s :
  s.(BaseAddress) = serial_base ->
  (forall s', moves [] [] s s' -> received s' = received s -> waiting s' = waiting s -> Q tt s') ->
  wp (if half then change_mcr f else mret tt) Q s.
Proof. intros Hb HQ. destruct half; [by apply wp_change_mcr|]. apply wp_ret, HQ; [apply moves_refl|done|done]. Qed.

(** The wait for the peer: when the peer is ready at once nothing was reported, otherwise something was. *)
Lemma wp_transmit (Q : unit -> SERIAL_DEV D -> Prop) s :
  serial_ok s -> waiting s <> [] ->
  (forall s', moves [] [] s s' -> received s' = received s -> (left_over s' < left_over s)%nat -> Q tt s') -> wp transmit Q s.
Proof.
  intros Hs Hw HQ. destruct (waiting s) as [|b l] eqn:E; [done|]. unfold transmit. apply wp_bind, wp_get.
  destruct (HardwareFlowControl s).
  2:{ apply (wp_send b l); [done|done|]. intros s' M' R' W'. apply HQ; [done|done|]. unfold left_over. rewrite R', W', E. cbn [length].
      pose proof (moves_noise _ _ _ _ M'). lia. }
  apply wp_handshake; [apply Hs|]. intros s1 M1 R1 W1. pose proof (moves_ok _ _ _ _ Hs M1) as K1.
  apply wp_bind, wp_IohSerialReadPort; [apply K1|offset|]. intros v p _ Hp _ Hn _.
  assert (M2 : moves [] [] s1 (with_port (Read SERIAL_REGISTER_MSR v :: s1.(log)) p s1)) by (apply moves_read; [done|lia|done]).
  set (s2 := with_port _ _ _) in *. assert (N2 : (noise s2.(port) + Nat.b2n (blocks v) <= noise s1.(port))%nat) by exact Hn.
  assert (R2 : received s2 = received s1) by done. assert (W2 : waiting s2 = waiting s1) by done. clearbody s2.
  apply wp_bind, wp_wait_cts; [by eapply moves_ok|]. intros v' s3 M3 R3 W3 Hv. pose proof (moves_noise _ _ _ _ M1) as N1.
  pose proof (moves_noise _ _ _ _ M3) as N3. assert (K3 : serial_ok s3) by (eapply moves_ok; [eapply moves_ok; [exact K1|exact M2]|exact M3]).
  assert (M : moves [] [] s s3) by (eapply moves_then; [exact M1|eapply moves_then; [exact M2|exact M3]]).
  assert (Hq : forall s4, moves [] [] s3 s4 -> received s4 = received s3 -> (length (waiting s4) <= length (waiting s3))%nat ->
    (blocks v = true \/ (length (waiting s4) < length (waiting s3))%nat) ->
    wp (if PcdIsaBusSerialUseHalfHandshake then change_mcr (set_field Mcr_Rts true) else mret tt) Q s4).
  { intros s4 M4 R4 L4 Hd. apply wp_handshake_end; [eapply moves_ok; [exact K3|exact M4]|]. intros s5 M5 R5 W5.
    pose proof (moves_noise _ _ _ _ M4). pose proof (moves_noise _ _ _ _ M5).
    apply HQ; [eapply moves_then; [exact M|by eapply moves_then]|congruence|]. unfold left_over.
    rewrite R5, R4, R3, R2, R1, W5. rewrite W3, W2, W1 in *. destruct Hd as [Hd|Hd]; [rewrite Hd in N2; cbn [Nat.b2n] in N2|]; lia. }
  apply wp_bind. destruct (negb (Z.testbit v' Msr_Dcd) || _) eqn:Hready.
  - apply (wp_send b l); [done|congruence|]. intros s4 M4 R4 W4. apply Hq; [done|done|rewrite W4, W3, W2, W1, E; cbn; lia|].
    right. rewrite W4, W3, W2, W1, E. cbn. lia.
  - apply wp_ret, Hq; [apply moves_refl|done|lia|]. left. destruct (blocks v) eqn:Ev; [done|]. rewrite Hv in Hready by done.
    revert Hready Ev. unfold blocks. by destruct (Z.testbit v Msr_Dcd), (Z.testbit v Msr_Cts), PcdIsaBusSerialUseHalfHandshake.
Qed.

(** ** Rounds *)

Lemma suffix_waiting a s s' : moves [] a s s' -> waiting s' <> [] -> waiting s <> [].
Proof. intros [_ _ _ _ (w & H & _) _ _ _] Hw E. rewrite E in H. destruct w; [by destruct (waiting s')|done]. Qed.

Lemma wp_round Full (Q : Z * bool -> SERIAL_DEV D -> Prop) s :
  serial_ok s ->
  (forall Lsr Full' s', moves [] [] s s' ->
     (Z.testbit Lsr Lsr_Thre = true -> waiting s' <> [] -> (left_over s' < left_over s)%nat) -> Q (Lsr, Full') s') ->
  wp (round Full) Q s.
Proof.
  intros Hs HQ. unfold round. apply wp_bind, wp_IohSerialReadPort; [apply Hs|offset|]. intros v p _ Hp _ Hn _.
  assert (M1 : moves [] [] s (with_port (Read SERIAL_REGISTER_LSR v :: s.(log)) p s)) by (apply moves_read; [done|lia|done]).
  set (s1 := with_port _ _ _) in *. assert (R1 : received s1 = received s) by done. assert (W1 : waiting s1 = waiting s) by done.
  assert (N1 : (noise s1.(port) + Nat.b2n (Z.testbit v Lsr_Dr && broken v) <= noise s.(port))%nat).
  { unfold complaint in Hn. change (is_at _ SERIAL_REGISTER_LSR) with true in Hn. change (is_at _ SERIAL_REGISTER_MSR) with false in Hn.
    cbn [andb] in Hn. by rewrite orb_false_r in Hn. }
  assert (G1 : s1.(log) = Read SERIAL_REGISTER_LSR v :: s.(log)) by done. clearbody s1.
  pose proof (moves_ok _ _ _ _ Hs M1) as K1. apply wp_bind, wp_get, wp_bind.
  rewrite (full_contents _ (ok_receive _ K1)), (empty_contents _ (ok_transmit _ K1)). fold (received s1) (waiting s1).
  destruct (Z.testbit v Lsr_Dr && negb Full && _) eqn:Hrecv.
  - apply andb_true_iff in Hrecv as [Hrecv Hfull]. rewrite Hrecv in Hfull. apply andb_true_iff in Hrecv as [Hdr _].
    apply negb_true_iff, bool_decide_eq_false in Hfull. pose proof (length_queue _ (ok_receive _ K1)) as Hl16. unfold received in Hfull.
    apply (wp_receive v s.(log)); [done|done|unfold received; lia|]. intros s2 M2 W2 Hgot.
    apply wp_ret, HQ; [by eapply moves_then|]. intros _ _. pose proof (moves_noise _ _ _ _ M2) as N2. unfold left_over. rewrite W2, W1.
    destruct (broken v) eqn:Eb; [|specialize (Hgot eq_refl); rewrite Hgot, R1; unfold received in *; rewrite R1 in Hl16, Hfull; lia].
    rewrite Hdr in N1. cbn [andb Nat.b2n] in N1. destruct (moves_in _ _ _ _ M2) as (r & Hr & _). apply (f_equal length) in Hr.
    rewrite app_nil_l, length_app, R1 in Hr. lia.
  - destruct (Z.testbit v Lsr_Thre) eqn:Hthre; cbn [andb]; [destruct (bool_decide_reflect (waiting s1 = [])) as [Hw|Hw]; cbn [negb]|].
    + apply wp_ret, wp_ret, HQ; [done|done].
    + apply wp_transmit; [done|done|]. intros s2 M2 _ Hl. apply wp_ret, HQ; [by eapply moves_then|]. intros _ _.
      unfold left_over in *. rewrite R1, W1 in Hl. lia.
    + apply wp_ret, wp_ret, HQ; [done|congruence].
Qed.

Lemma wp_rounds fuel Full (Q : EFI_STATUS -> SERIAL_DEV D -> Prop) s :
  serial_ok s -> (left_over s < fuel)%nat -> (forall s', moves [] [] s s' -> Q EFI_SUCCESS s') -> wp (rounds fuel Full) Q s.
Proof.
  revert Full s. induction fuel as [|fuel IH]; intros Full s Hs Hl HQ; [lia|]. cbn [rounds]. apply wp_bind, wp_round; [done|].
  intros Lsr Full' s1 M1 Hd. pose proof (moves_ok _ _ _ _ Hs M1) as K1. cbn beta iota. apply wp_bind, wp_get.
  rewrite (empty_contents _ (ok_transmit _ K1)). fold (waiting s1).
  destruct (Z.testbit Lsr Lsr_Thre && _) eqn:E; [|by apply wp_ret, HQ]. apply andb_true_iff in E as [E1 E2].
  apply negb_true_iff, bool_decide_eq_false in E2. apply IH; [done|specialize (Hd E1 E2); lia|]. intros s' M'. apply HQ. by eapply moves_then.
Qed.

(** ** A whole run *)

Context (Rounds : nat).
Abbreviation IohSerialReceiveTransmit := (IohSerialReceiveTransmit Rounds).

(** Enough rounds for all that the port may still complain about. *)
Definition enough s : Prop := (32 + noise s.(port) < Rounds)%nat.

Lemma enough_moves a g s s' : enough s -> moves a g s s' -> enough s'.
Proof. unfold enough. intros H M. pose proof (moves_noise _ _ _ _ M). lia. Qed.

Lemma left_over_enough s : serial_ok s -> enough s -> (left_over s < Rounds)%nat.
Proof. intros [_ Hr Ht _] H. unfold left_over, enough in *. pose proof (length_queue _ Ht). unfold waiting. lia. Qed.

Lemma wp_IohSerialReceiveTransmit (Q : EFI_STATUS -> SERIAL_DEV D -> Prop) s :
  serial_ok s -> enough s -> s.(SoftwareLoopbackEnable) = false ->
  (forall s', moves [] [] s s' -> Q EFI_SUCCESS s') -> wp IohSerialReceiveTransmit Q s.
Proof.
  intros Hs He Hl HQ. unfold UartDefs.IohSerialReceiveTransmit. apply wp_bind, wp_get. rewrite Hl.
  apply wp_handshake; [apply Hs|]. intros s1 M1 _ _. pose proof (moves_ok _ _ _ _ Hs M1) as K1.
  apply wp_rounds; [done|apply left_over_enough; [done|by eapply enough_moves]|]. intros s' M'. apply HQ. by eapply moves_then.
Qed.

(** The software loopback: bytes pass from one queue to the other; the byte that finds the other queue full is lost. *)
Lemma wp_loopback fuel w (Q : EFI_STATUS -> SERIAL_DEV D -> Prop) s :
  serial_ok s -> waiting s = w -> (length w < fuel)%nat ->
  (forall r t, fifo_wf r -> fifo_wf t ->
     let room := (16 - length (received s))%nat in
     contents r = received s ++ take room w -> contents t = drop (S room) w ->
     Q (if bool_decide (length w <= room)%nat then EFI_SUCCESS else EFI_OUT_OF_RESOURCES) (with_queues r t s)) ->
  wp (loopback fuel) Q s.
Proof.
  revert w s. induction fuel as [|fuel IH]; intros w s Hs Hw Hl HQ; [lia|]. cbn [loopback]. apply wp_bind, wp_get.
  pose proof Hs as [Hb Hr Ht Hm]. rewrite (full_contents _ Hr), (empty_contents _ Ht). fold (received s) (waiting s).
  pose proof (length_queue _ Hr) as H16. fold (received s) in H16. destruct w as [|b w].
  - rewrite bool_decide_true by done. cbn [negb]. apply wp_bind, wp_ret. cbn [negb]. apply wp_bind, wp_get.
    rewrite (empty_contents _ Ht). fold (waiting s). rewrite bool_decide_true by done. apply wp_ret.
    assert (E : with_queues s.(Receive) s.(Transmit) s = s) by (by destruct s).
    specialize (HQ s.(Receive) s.(Transmit) Hr Ht). cbn zeta in HQ. rewrite take_nil, drop_nil, app_nil_r in HQ.
    rewrite bool_decide_true, E in HQ by (cbn; lia). by apply HQ.
  - rewrite (bool_decide_false (waiting s = [])) by (by rewrite Hw). cbn [negb]. destruct (remove_contents _ b w Ht Hw) as (t & Ht1 & Ht2 & Ht3).
    apply wp_bind, wp_bind. unfold remove_transmit. apply wp_bind, wp_get, wp_bind. eapply wp_lift; [exact Ht1|]. cbn beta iota.
    apply wp_bind, wp_modify, wp_ret. cbn [default]. destruct (bool_decide_reflect (length (received s) = 16%nat)) as [Hf|Hf].
    + apply wp_ret. cbn [negb]. apply wp_ret. specialize (HQ s.(Receive) t Hr Ht2). cbn zeta in HQ. rewrite Hf in HQ. cbn [Nat.sub take drop] in HQ.
      rewrite bool_decide_false in HQ by (cbn; lia). rewrite app_nil_r in HQ. by apply HQ.
    + apply wp_bind, wp_add_receive; [done|unfold received in *; cbn [with_queues Receive]; lia|]. intros r Hrw Hrc.
      apply wp_ret. cbn [negb]. apply wp_bind, wp_get. set (s1 := with_queues _ _ _).
      assert (K1 : serial_ok s1) by (by split). rewrite (empty_contents _ (ok_transmit _ K1)). fold (waiting s1).
      assert (R1 : received s1 = received s ++ [b]) by exact Hrc. assert (W1 : waiting s1 = w) by exact Ht3.
      assert (L1 : length (received s1) = S (length (received s))) by (rewrite R1, length_app; cbn; lia).
      assert (HQ1 : forall r' t', fifo_wf r' -> fifo_wf t' -> let room := (16 - length (received s1))%nat in
        contents r' = received s1 ++ take room w -> contents t' = drop (S room) w ->
        Q (if bool_decide (length w <= room)%nat then EFI_SUCCESS else EFI_OUT_OF_RESOURCES) (with_queues r' t' s1)).
      { intros r' t' Hr' Ht' room Hcr Hct. specialize (HQ r' t' Hr' Ht'). cbn zeta in HQ.
        replace (16 - length (received s))%nat with (S room) in HQ by (subst room; lia). cbn [take drop length] in HQ.
        rewrite (bool_decide_ext (length w <= room)%nat (S (length w) <= S room)%nat) by lia. apply HQ; [|done].
        by rewrite Hcr, R1, <- app_assoc. }
      destruct (bool_decide_reflect (waiting s1 = [])) as [Hn|Hn]; [|apply (IH w); [done|done|cbn in Hl; lia|done]].
      rewrite W1 in Hn. subst w. apply wp_ret. rewrite Hn in HQ1. specialize (HQ1 s1.(Receive) s1.(Transmit) Hrw Ht2). cbn zeta in HQ1.
      rewrite take_nil, drop_nil, app_nil_r in HQ1. rewrite bool_decide_true in HQ1 by (cbn; lia).
      apply HQ1; [done|]. cbn [s1 with_queues Transmit]. congruence.
Qed.

(** What holds in any mode: the queues stay queues, settings and line control the same. *)
Record kept s s' : Prop := {
  kept_ok : serial_ok s -> serial_ok s';
  kept_mode : s'.(SerialMode) = s.(SerialMode);
  kept_loop : s'.(SoftwareLoopbackEnable) = s.(SoftwareLoopbackEnable);
  kept_line : line_control s'.(log) = line_control s.(log);
  kept_noise : (noise s'.(port) <= noise s.(port))%nat;
  kept_tpl : tpl s'.(port) = tpl s.(port)
}.

Lemma kept_refl s : kept s s.
Proof. by split. Qed.

Lemma kept_trans s s1 s2 : kept s s1 -> kept s1 s2 -> kept s s2.
Proof. intros [] []. split; [auto|congruence|congruence|congruence|lia|congruence]. Qed.

Lemma kept_moves a g s s' : moves a g s s' -> kept s s'.
Proof.
  intros M. pose proof (moves_same _ _ _ _ M) as (H1 & H2 & _). split; [intros Hs; by eapply moves_ok|done|done|apply M|apply M|apply M].
Qed.

Lemma kept_queues r t s : fifo_wf r -> fifo_wf t -> kept s (with_queues r t s).
Proof. intros Hr Ht. split; [|done|done|done|done|done]. intros [K1 _ _ K4]. by split. Qed.

Lemma enough_kept s s' : enough s -> kept s s' -> enough s'.
Proof. unfold enough. intros H K. pose proof (kept_noise _ _ K). lia. Qed.

Lemma wp_run_loopback (Q : EFI_STATUS -> SERIAL_DEV D -> Prop) s :
  serial_ok s -> s.(SoftwareLoopbackEnable) = true ->
  (forall r t, fifo_wf r -> fifo_wf t ->
     let room := (16 - length (received s))%nat in
     contents r = received s ++ take room (waiting s) -> contents t = drop (S room) (waiting s) ->
     Q (if bool_decide (length (waiting s) <= room)%nat then EFI_SUCCESS else EFI_OUT_OF_RESOURCES) (with_queues r t s)) ->
  wp IohSerialReceiveTransmit Q s.
Proof.
  intros Hs Hl HQ. unfold UartDefs.IohSerialReceiveTransmit. apply wp_bind, wp_get. rewrite Hl. apply (wp_loopback _ (waiting s)); [done|done| |done].
  pose proof (length_queue _ (ok_transmit _ Hs)). unfold waiting, SERIAL_MAX_BUFFER_SIZE. lia.
Qed.

Lemma wp_run_kept (Q : EFI_STATUS -> SERIAL_DEV D -> Prop) s :
  serial_ok s -> enough s ->
  (forall st s', kept s s' -> st = EFI_SUCCESS \/ st = EFI_OUT_OF_RESOURCES -> Q st s') -> wp IohSerialReceiveTransmit Q s.
Proof.
  intros Hs He HQ. destruct (SoftwareLoopbackEnable s) eqn:El.
  - apply wp_run_loopback; [done|done|]. intros r t Hr Ht room _ _. apply HQ; [by apply kept_queues|]. destruct (bool_decide _); auto.
  - apply wp_IohSerialReceiveTransmit; [done..|]. intros s' M. apply HQ; [by eapply kept_moves|auto].
Qed.

(** ** The wait of a write *)

Lemma wp_write_wait (P : SERIAL_DEV D -> Prop) (looped : bool) T (fuel : nat) Elapsed (Q : bool -> SERIAL_DEV D -> Prop) s :
  (forall s, P s -> serial_ok s /\ s.(SerialMode).(Timeout) = T) ->
  (forall s, P s -> wp IohSerialReceiveTransmit (fun st s' => P s' /\ (st = EFI_SUCCESS \/ looped = true)) s) ->
  (forall s p, P s -> tpl p = tpl s.(port) -> (noise p <= noise s.(port))%nat -> P (with_port s.(log) p s)) ->
  P s -> 0 <= Elapsed -> T + 10 < 2 ^ 32 -> Elapsed < T + 10 -> T <= Elapsed + 10 * (Z.of_nat fuel - 1) ->
  (forall (ok : bool) s', P s' -> (if ok then waiting s' = [] else waiting s' <> [] \/ looped = true) -> Q ok s') ->
  wp (write_wait Rounds fuel Elapsed) Q s.
Proof.
  intros HP HR Hstall. revert Elapsed s. induction fuel as [|fuel IH]; intros e s Hs He HT Heb Hf HQ; [lia|]. cbn [write_wait].
  apply wp_bind. eapply wp_mono; [by apply HR|]. intros st s1 [H1 Hst]. destruct (HP s1 H1) as [K1 T1]. apply wp_bind, wp_get.
  rewrite (empty_contents _ (ok_transmit _ K1)), T1. fold (waiting s1).
  destruct (bool_decide_reflect (st = EFI_SUCCESS)) as [E|E], (bool_decide_reflect (waiting s1 = [])) as [W|W]; cbn [andb]; [by apply wp_ret, HQ| | |].
  all: destruct (Z.leb_spec T e) as [Ht|Ht]; [apply wp_ret, HQ; [done|tauto]|].
  all: apply wp_bind, wp_on_port; eapply wp_mono; [apply stall_law|]; intros [] p (Hp & _ & Hn).
  all: unfold TIMEOUT_STALL_INTERVAL; rewrite wrap_small by lia; apply IH; [by apply Hstall|lia|lia|lia|lia|done].
Qed.

Lemma moves_stall a g s0 s p : moves a g s0 s -> tpl p = tpl s.(port) -> (noise p <= noise s.(port))%nat -> moves a g s0 (with_port s.(log) p s).
Proof.
  intros M Hp Hn. rewrite <- (app_nil_r a), <- (app_nil_r g). eapply moves_trans; [exact M|]. by apply moves_port.
Qed.

Lemma wait_fuel_enough T : 1 <= T -> T <= 0 + 10 * (Z.of_nat (wait_fuel T) - 1).
Proof. intros HT. unfold wait_fuel, TIMEOUT_STALL_INTERVAL. pose proof (Z.div_mod T 10 ltac:(lia)). pose proof (Z.mod_pos_bound T 10 ltac:(lia)). pose proof (Z.div_pos T 10). lia. Qed.

(** Of the bytes of a write, the first is dropped when there is no room in the queue; the others find it empty. *)
Definition entered s (l : list Z) : list Z := if bool_decide (length (waiting s) < 16)%nat then l else tail l.

Lemma entered_cons s b l : entered s (b :: l) = entered s [b] ++ l.
Proof. unfold entered. by case_bool_decide. Qed.

Lemma entered_empty s l : waiting s = [] -> entered s l = l.
Proof. intros E. unfold entered. by rewrite E. Qed.

Lemma wp_add_transmit_entered b (Q : EFI_STATUS -> SERIAL_DEV D -> Prop) s :
  serial_ok s -> (forall st s', moves (entered s [b]) [] s s' -> Q st s') -> wp (add_transmit b) Q s.
Proof.
  intros [_ Hr Ht _] HQ. unfold entered in HQ. case_bool_decide as Hl.
  - apply wp_add_transmit; [done|done|]. intros t Htw Htc. apply HQ.
    split; cbn [with_queues Receive Transmit log port]; [by destruct s|done|done| | |done|lia|done].
    + exists []. by rewrite !app_nil_r.
    + exists []. unfold waiting in *. cbn [Transmit with_queues]. by rewrite Htc, app_nil_r.
  - unfold add_transmit. pose proof (length_queue _ Ht) as H16. unfold waiting in Hl. apply wp_bind, wp_get, wp_bind.
    eapply wp_lift; [apply add_full; [done|lia]|]. apply wp_bind, wp_modify, wp_ret, HQ.
    assert (E : with_queues s.(Receive) s.(Transmit) s = s) by (by destruct s). rewrite E. apply moves_refl.
Qed.

(** A byte is written: with no loopback it is sent, or it stays in the queue when time is up. *)
Lemma wp_write_byte {A} b (k : bool -> M (SERIAL_DEV D) A) (Q : A -> SERIAL_DEV D -> Prop) s :
  serial_ok s -> enough s -> s.(SoftwareLoopbackEnable) = false ->
  (forall (ok : bool) s', moves (entered s [b]) [] s s' -> (if ok then waiting s' = [] else waiting s' <> []) -> wp (k ok) Q s') ->
  wp (_ ← add_transmit b; s ← get; ok ← write_wait Rounds (wait_fuel s.(SerialMode).(Timeout)) 0; k ok) Q s.
Proof.
  intros Hs He Hl HQ. pose proof (ok_timeout _ Hs) as HT. unfold SERIAL_PORT_MIN_TIMEOUT, SERIAL_PORT_MAX_TIMEOUT in HT.
  apply wp_bind, wp_add_transmit_entered; [done|]. intros st s1 M1. apply wp_bind, wp_get. rewrite (proj1 (moves_same _ _ _ _ M1)).
  apply wp_bind, (wp_write_wait (fun s' => moves (entered s [b]) [] s s') false (s.(SerialMode).(Timeout))).
  - intros s2 M2. split; [by eapply moves_ok|]. by rewrite (proj1 (moves_same _ _ _ _ M2)).
  - intros s2 M2. apply wp_IohSerialReceiveTransmit; [by eapply moves_ok|by eapply enough_moves| |].
    + by rewrite (proj1 (proj2 (moves_same _ _ _ _ M2))).
    + intros s3 M3. split; [|by left]. rewrite <- (app_nil_r (entered s [b])). exact (moves_trans _ _ _ _ _ _ _ M2 M3).
  - intros s2 p M2 Hp Hn. by apply moves_stall.
  - done.
  - lia.
  - lia.
  - lia.
  - apply wait_fuel_enough. exact (proj1 HT).
  - intros ok s' M' Hd. apply HQ; [done|]. destruct ok; [done|]. by destruct Hd.
Qed.
End Rules.

Section Ops.
Context {D : Type} {B : SerialBus D} {L : SerialLaws D}.
Context (Rounds : nat).
Implicit Types (s : SERIAL_DEV D).
Abbreviation enough := (enough Rounds).

(** ** Writes *)

Lemma take_drop_one (l : list Z) i b : l !! i = Some b -> take 1 (drop i l) = [b].
Proof. intros H. by rewrite (drop_S _ _ _ H). Qed.

(** The bytes from [Index] on. When time is up, the last of the bytes that were added has not left. *)
Lemma wp_write_bytes n Index Size Buffer (Q : EFI_STATUS * Z -> SERIAL_DEV D -> Prop) s :
  serial_ok s -> enough s -> s.(SoftwareLoopbackEnable) = false ->
  0 <= Index -> (Z.to_nat Index + n <= length Buffer)%nat ->
  (forall s', moves (entered s (take n (drop (Z.to_nat Index) Buffer))) [] s s' -> (n <> 0%nat -> waiting s' = []) -> Q (EFI_SUCCESS, Size) s') ->
  (forall k s', (k < n)%nat -> moves (entered s (take (S k) (drop (Z.to_nat Index) Buffer))) [] s s' -> waiting s' <> [] -> Q (EFI_TIMEOUT, Index + Z.of_nat k) s') ->
  wp (write_bytes Rounds n Index Size Buffer) Q s.
Proof.
  revert Index s. induction n as [|n IH]; intros Index s Hs He Hl HI Hn HQ HT; cbn [write_bytes].
  - apply wp_ret, HQ; [|done]. unfold entered. case_bool_decide; apply moves_refl.
  - destruct (lookup_lt_is_Some_2 Buffer (Z.to_nat Index)) as [b Hb]; [lia|]. rewrite (drop_S _ _ _ Hb) in HQ, HT.
    apply wp_bind. eapply wp_lift; [exact Hb|]. apply wp_write_byte; [done..|]. intros ok s1 M1 Hok. pose proof (moves_ok _ _ _ _ Hs M1) as K1.
    destruct ok; cbn [negb].
    2:{ apply wp_ret. rewrite <- (Z.add_0_r Index). apply (HT 0%nat); [lia|exact M1|done]. }
    replace (Z.to_nat Index + S n)%nat with (Z.to_nat (Index + 1) + n)%nat in Hn by lia.
    replace (S (Z.to_nat Index)) with (Z.to_nat (Index + 1)) in HQ, HT by lia.
    apply IH; [done|by eapply enough_moves| |lia|done| |]; try setoid_rewrite (entered_empty s1); try done.
    + by rewrite (proj1 (proj2 (moves_same _ _ _ _ M1))).
    + intros s' M' W'. apply HQ; [cbn [take]; rewrite entered_cons; exact (moves_trans _ _ _ _ _ _ _ M1 M')|]. intros _. destruct n as [|n]; [|by apply W'].
      destruct (moves_out _ _ _ _ M') as (w & Hw' & _). rewrite Hok in Hw'. destruct w; [by destruct (waiting s')|done].
    + intros k s' Hk M' W'. replace (Index + 1 + Z.of_nat k) with (Index + Z.of_nat (S k)) by lia.
      apply HT; [lia| |done]. rewrite firstn_cons, entered_cons. exact (moves_trans _ _ _ _ _ _ _ M1 M').
Qed.

(** Raising and restoring the priority. *)
Lemma wp_RaiseTPL {A} (k : Z -> M (SERIAL_DEV D) A) (Q : A -> SERIAL_DEV D -> Prop) s :
  (forall p, tpl p = TPL_NOTIFY -> mcr p = mcr s.(port) -> (noise p <= noise s.(port))%nat -> wp (k (tpl s.(port))) Q (with_port s.(log) p s)) ->
  wp (Tpl ← on_port (gBS_RaiseTPL TPL_NOTIFY); k Tpl) Q s.
Proof.
  intros HQ. apply wp_bind, wp_on_port. eapply wp_mono; [apply raise_law|]. intros old p (-> & H1 & H2 & H3). by apply HQ.
Qed.

Lemma wp_RestoreTPL {A} t (a : A) (Q : A -> SERIAL_DEV D -> Prop) s :
  (forall p, tpl p = t -> mcr p = mcr s.(port) -> (noise p <= noise s.(port))%nat -> Q a (with_port s.(log) p s)) ->
  wp (_ ← on_port (gBS_RestoreTPL t); mret a) Q s.
Proof.
  intros HQ. apply wp_bind, wp_on_port. eapply wp_mono; [apply restore_law|]. intros [] p (H1 & H2 & H3). by apply wp_ret, HQ.
Qed.

(** What lies between the two. *)
Lemma moves_raised a g s p1 s2 p3 :
  (noise p1 <= noise s.(port))%nat -> moves a g (with_port s.(log) p1 s) s2 -> tpl p3 = tpl s.(port) -> (noise p3 <= noise s2.(port))%nat ->
  moves a g s (with_port s2.(log) p3 s2).
Proof.
  intros N1 [F R T I O C N _] H3 N3. split; cbn [with_port log port] in *; [|done|done|done|done|done|lia|done].
  rewrite F. reflexivity.
Qed.

Lemma wp_IohSerialWrite Buffer (Q : EFI_STATUS * Z -> SERIAL_DEV D -> Prop) s :
  serial_ok s -> enough s -> s.(SoftwareLoopbackEnable) = false -> Buffer <> [] ->
  (forall s', moves (entered s Buffer) [] s s' -> waiting s' = [] -> Q (EFI_SUCCESS, Z.of_nat (length Buffer)) s') ->
  (forall k s', (k < length Buffer)%nat -> moves (entered s (take (S k) Buffer)) [] s s' -> waiting s' <> [] -> Q (EFI_TIMEOUT, Z.of_nat k) s') ->
  wp (IohSerialWrite Rounds (Z.of_nat (length Buffer)) (Some Buffer)) Q s.
Proof.
  intros Hs He Hl Hb HQ HT. unfold IohSerialWrite. assert (Hn : length Buffer <> 0%nat) by (by destruct Buffer).
  rewrite (proj2 (Z.eqb_neq _ 0)) by lia. apply wp_RaiseTPL. intros p1 _ _ N1. rewrite Nat2Z.id.
  apply wp_bind, wp_write_bytes; [by destruct Hs; split|unfold UartRules.enough in *; cbn [port with_port]; lia|done|lia|cbn; lia| |].
  - intros s2 M2 W2. rewrite drop_0, take_ge in M2 by done. apply wp_RestoreTPL. intros p3 T3 _ N3.
    apply HQ; [by eapply moves_raised|by apply W2].
  - intros k s2 Hk M2 W2. rewrite drop_0 in M2. apply wp_RestoreTPL. intros p3 T3 _ N3. apply HT; [done|by eapply moves_raised|done].
Qed.

(** ** Reads *)

Lemma wp_remove_receive (Q : EFI_STATUS * option Z -> SERIAL_DEV D -> Prop) s :
  fifo_wf s.(Receive) ->
  (received s = [] -> Q (EFI_OUT_OF_RESOURCES, None) s) ->
  (forall b l r, received s = b :: l -> fifo_wf r -> contents r = l -> moves [] [b] s (with_queues r s.(Transmit) s) ->
     Q (EFI_SUCCESS, Some b) (with_queues r s.(Transmit) s)) ->
  wp remove_receive Q s.
Proof.
  intros Hr HE HQ. unfold remove_receive. apply wp_bind, wp_get, wp_bind. destruct (received s) as [|b l] eqn:E.
  - eapply wp_lift; [by apply remove_empty|]. apply wp_bind, wp_modify, wp_ret.
    assert (Hq : with_queues s.(Receive) s.(Transmit) s = s) by (by destruct s). rewrite Hq. by apply HE.
  - destruct (remove_contents _ b l Hr E) as (r & H1 & H2 & H3). eapply wp_lift; [exact H1|]. apply wp_bind, wp_modify, wp_ret.
    apply (HQ b l r); [done|done|done|]. split; cbn [with_queues Receive Transmit log port]; [by destruct s|done|done| | |done|lia|done].
    + exists []. unfold received in *. cbn [with_queues Receive]. by rewrite E, H3, !app_nil_r.
    + exists []. by rewrite !app_nil_r.
Qed.

Lemma wp_read_wait T fuel Elapsed (Q : EFI_STATUS * Z -> SERIAL_DEV D -> Prop) s :
  serial_ok s -> enough s -> s.(SoftwareLoopbackEnable) = false -> s.(SerialMode).(Timeout) = T ->
  0 <= Elapsed -> T + 10 < 2 ^ 32 -> Elapsed < T + 10 -> T <= Elapsed + 10 * (Z.of_nat fuel - 1) ->
  (forall b s', moves [] [b] s s' -> Q (EFI_SUCCESS, b) s') ->
  (forall s', moves [] [] s s' -> received s' = [] -> Q (EFI_TIMEOUT, 0) s') ->
  wp (read_wait Rounds fuel Elapsed) Q s.
Proof.
  revert Elapsed s. induction fuel as [|fuel IH]; intros e s Hs He Hl HT H0 Hmax Heb Hf HQ HO; [lia|]. cbn [read_wait].
  apply wp_bind, wp_remove_receive; [apply Hs| |].
  2:{ intros b l r _ _ _ M. rewrite bool_decide_true by done. cbn [default]. by apply wp_ret, HQ. }
  intros Hnil. rewrite bool_decide_false by done. apply wp_bind, wp_get. rewrite HT.
  destruct (Z.leb_spec T e) as [Ht|Ht]; [apply wp_ret, HO; [apply moves_refl|done]|].
  apply wp_bind, wp_on_port. eapply wp_mono; [apply stall_law|]. intros [] p (Hp & _ & Hn). cbn beta.
  assert (M1 : moves [] [] s (with_port s.(log) p s)) by (by apply moves_port).
  pose proof (moves_ok _ _ _ _ Hs M1) as K1. apply wp_bind, wp_IohSerialReceiveTransmit; [done|by eapply enough_moves|done|].
  intros s2 M2. rewrite bool_decide_false by done. unfold TIMEOUT_STALL_INTERVAL. rewrite wrap_small by lia.
  assert (M : moves [] [] s s2) by (by eapply moves_then). destruct (moves_same _ _ _ _ M) as (S1 & S2 & _).
  apply IH; [by eapply moves_ok|by eapply enough_moves|congruence|by rewrite S1|lia|lia|lia|lia| |].
  - intros b s' M'. apply HQ. exact (moves_trans _ _ _ _ _ _ _ M M').
  - intros s' M' Hr'. apply HO; [exact (moves_trans _ _ _ _ _ _ _ M M')|done].
Qed.

Lemma wp_read_bytes n Index Size (Q : EFI_STATUS * Z * list Z -> SERIAL_DEV D -> Prop) s :
  serial_ok s -> enough s -> s.(SoftwareLoopbackEnable) = false -> 0 <= Index ->
  (forall l s', moves [] l s s' -> length l = n -> Q (EFI_SUCCESS, Size, l) s') ->
  (forall l s', moves [] l s s' -> (length l < n)%nat -> received s' = [] -> Q (EFI_TIMEOUT, Index + Z.of_nat (length l), l) s') ->
  wp (read_bytes Rounds n Index Size) Q s.
Proof.
  revert Index s Q. induction n as [|n IH]; intros Index s Q Hs He Hl HI HQ HT; cbn [read_bytes].
  - apply wp_ret, HQ; [apply moves_refl|done].
  - pose proof (ok_timeout _ Hs) as Hto. unfold SERIAL_PORT_MIN_TIMEOUT, SERIAL_PORT_MAX_TIMEOUT in Hto.
    apply wp_bind, wp_get, wp_bind, (wp_read_wait (s.(SerialMode).(Timeout))); [done..|lia|lia|lia|apply wait_fuel_enough; lia| |].
    + intros b s1 M1. cbn beta iota. rewrite bool_decide_true by done. pose proof (moves_ok _ _ _ _ Hs M1) as K1. apply wp_bind, IH;
        [done|by eapply enough_moves| |lia| |].
      * by rewrite (proj1 (proj2 (moves_same _ _ _ _ M1))).
      * intros l s' M' Hn. apply wp_ret, HQ; [exact (moves_trans _ _ _ _ _ _ _ M1 M')|cbn; lia].
      * intros l s' M' Hn Hr. apply wp_ret. replace (Index + 1 + Z.of_nat (length l)) with (Index + Z.of_nat (length (b :: l))) by (cbn [length]; lia).
        apply HT; [exact (moves_trans _ _ _ _ _ _ _ M1 M')|cbn; lia|done].
    + intros s1 M1 Hr. cbn beta iota. rewrite bool_decide_false by done. apply wp_ret. rewrite <- (Z.add_0_r Index). apply (HT []); [done|cbn; lia|done].
Qed.

Lemma wp_IohSerialRead (n : nat) (Q : EFI_STATUS * Z * list Z -> SERIAL_DEV D -> Prop) s :
  serial_ok s -> enough s -> s.(SoftwareLoopbackEnable) = false -> n <> 0%nat ->
  (forall l s', moves [] l s s' -> length l = n -> Q (EFI_SUCCESS, Z.of_nat n, l) s') ->
  (forall l s', moves [] l s s' -> (length l < n)%nat -> received s' = [] -> Q (EFI_TIMEOUT, Z.of_nat (length l), l) s') ->
  wp (IohSerialRead Rounds (Z.of_nat n) true) Q s.
Proof.
  intros Hs He Hl Hn HQ HT. unfold IohSerialRead. rewrite (proj2 (Z.eqb_neq _ 0)) by lia. cbn [negb].
  apply wp_RaiseTPL. intros p1 _ _ N1. set (s1 := with_port _ _ _).
  assert (K1 : serial_ok s1) by (by destruct Hs; split). assert (E1 : enough s1) by (unfold UartRules.enough in *; cbn [s1 port with_port]; lia).
  apply wp_bind, wp_IohSerialReceiveTransmit; [done..|]. intros s2 M2. change (EFI_ERROR EFI_SUCCESS) with false. cbn beta iota.
  rewrite Nat2Z.id. apply wp_bind, wp_read_bytes; [by eapply moves_ok|by eapply enough_moves| |lia| |].
  - by rewrite (proj1 (proj2 (moves_same _ _ _ _ M2))).
  - intros l s3 M3 Hlen. cbn beta iota. rewrite bool_decide_true by done. pose proof (moves_trans _ _ _ _ _ _ _ M2 M3) as M.
    apply wp_bind, wp_bind, wp_IohSerialReceiveTransmit; [by eapply moves_ok|by eapply enough_moves| |].
    + by rewrite (proj1 (proj2 (moves_same _ _ _ _ M))).
    + intros s4 M4. apply wp_ret, wp_RestoreTPL. intros p T4 _ N4. apply HQ; [|done]. eapply (moves_raised _ _ s p1); [done| |done|exact N4].
      pose proof (moves_trans _ _ _ _ _ _ _ M M4) as M'. cbn [app] in M'. by rewrite app_nil_r in M'.
  - intros l s3 M3 Hlen Hr. cbn beta iota. rewrite bool_decide_false by done. pose proof (moves_trans _ _ _ _ _ _ _ M2 M3) as M.
    apply wp_bind, wp_ret, wp_RestoreTPL. intros p T4 _ N4. apply HT; [|done|done]. by eapply (moves_raised _ _ s p1).
Qed.
End Ops.

Section Modes.
Context {D : Type} {B : SerialBus D} {L : SerialLaws D}.
Context (Rounds : nat).
Implicit Types (s : SERIAL_DEV D).
Abbreviation enough := (enough Rounds).

(** ** The software loopback *)

(** What a call in this mode does: bytes change queues, and time passes. *)
Definition looped (q : list Z) s s' : Prop := received s' = q /\ waiting s' = [] /\ s'.(log) = s.(log) /\ kept s s'.

Lemma looped_trans q q' s s1 s2 : looped q s s1 -> looped q' s1 s2 -> looped q' s s2.
Proof. intros (_ & _ & L1 & K1) (R2 & W2 & L2 & K2). split; [done|]. split; [done|]. split; [congruence|by eapply kept_trans]. Qed.

Lemma kept_port p s : (noise p <= noise s.(port))%nat -> tpl p = tpl s.(port) -> kept s (with_port s.(log) p s).
Proof. intros Hn Ht. eapply kept_moves, moves_port; done. Qed.

Lemma wp_write_byte_looped {A} b (k : bool -> M (SERIAL_DEV D) A) (Q : A -> SERIAL_DEV D -> Prop) s :
  serial_ok s -> s.(SoftwareLoopbackEnable) = true -> waiting s = [] ->
  (forall s', looped (take 16 (received s ++ [b])) s s' -> wp (k true) Q s') ->
  wp (_ ← add_transmit b; s ← get; ok ← write_wait Rounds (wait_fuel s.(SerialMode).(Timeout)) 0; k ok) Q s.
Proof.
  intros Hs Hl Hw HQ. pose proof Hs as [Hb Hr Ht HT]. unfold SERIAL_PORT_MIN_TIMEOUT, SERIAL_PORT_MAX_TIMEOUT in HT.
  pose proof (length_queue _ Hr) as H16. fold (received s) in H16.
  apply wp_bind, wp_add_transmit; [done|rewrite Hw; cbn; lia|]. intros t Htw Htc. rewrite Hw in Htc. cbn [app] in Htc.
  apply wp_bind, wp_get. set (s1 := with_queues _ _ _). assert (K1 : serial_ok s1) by (by split).
  assert (W1 : waiting s1 = [b]) by exact Htc. assert (R1 : received s1 = received s) by done.
  unfold wait_fuel. cbn [write_wait]. apply wp_bind, wp_bind, wp_run_loopback; [done|done|]. intros r t2 Hr2 Ht2 room Hrc Htc2.
  rewrite W1, R1 in *. apply wp_bind, wp_get. cbn [length]. set (s2 := with_queues r t2 s1).
  assert (W2 : waiting s2 = []) by (unfold waiting; cbn [s2 with_queues Transmit]; rewrite Htc2; cbn [drop]; apply drop_nil).
  assert (K2 : kept s s2) by (eapply kept_trans; [by apply (kept_queues s.(Receive) t)|by apply kept_queues]).
  rewrite (empty_contents (Transmit s2) Ht2). fold (waiting s2). rewrite W2, (bool_decide_true ([] = [])) by done.
  assert (R2 : received s2 = take 16 (received s ++ [b])).
  { unfold received at 1. cbn [s2 with_queues Receive]. rewrite Hrc. rewrite take_app. by rewrite (take_ge (received s)) by lia. }
  destruct (bool_decide_reflect (1 <= room)%nat) as [Hroom|Hroom].
  - rewrite bool_decide_true by done. cbn [andb]. apply wp_ret, HQ. by split.
  - rewrite bool_decide_false by done. cbn [andb]. change (SerialMode s2) with (SerialMode s). rewrite (proj2 (Z.leb_gt _ _)) by lia.
    apply wp_bind, wp_on_port. eapply wp_mono; [apply stall_law|]. intros [] p (Hp & _ & Hn). cbn beta. set (s3 := with_port _ _ _).
    assert (K3 : kept s s3) by (eapply kept_trans; [exact K2|by apply kept_port]).
    apply wp_bind, wp_run_loopback; [by apply K3|done|]. intros r3 t3 Hr3 Ht3 room3 Hrc3 Htc3.
    change (waiting s3) with (waiting s2) in *. change (received s3) with (received s2) in *. rewrite W2 in *.
    rewrite take_nil, app_nil_r in Hrc3. rewrite drop_nil in Htc3. rewrite (bool_decide_true (length [] <= room3)%nat) by (cbn; lia). apply wp_bind, wp_get.
    cbn [with_queues Transmit]. rewrite (empty_contents t3 Ht3), Htc3, !bool_decide_true by done. cbn [andb]. apply wp_ret, HQ.
    split; [unfold received at 1; cbn [with_queues Receive]; by rewrite Hrc3|]. split; [done|]. split; [done|].
    eapply kept_trans; [exact K3|by apply kept_queues].
Qed.

Lemma take_16_app (q l : list Z) b : take 16 (take 16 (q ++ [b]) ++ l) = take 16 (q ++ b :: l).
Proof.
  replace (q ++ b :: l) with ((q ++ [b]) ++ l) by (by rewrite <- app_assoc). generalize (q ++ [b]). intros x.
  rewrite !take_app, take_take, length_take. f_equal. f_equal. lia.
Qed.

Lemma wp_write_bytes_looped n Index Size Buffer (Q : EFI_STATUS * Z -> SERIAL_DEV D -> Prop) s :
  serial_ok s -> s.(SoftwareLoopbackEnable) = true -> waiting s = [] -> 0 <= Index -> (Z.to_nat Index + n <= length Buffer)%nat ->
  (forall s', looped (take 16 (received s ++ take n (drop (Z.to_nat Index) Buffer))) s s' -> Q (EFI_SUCCESS, Size) s') ->
  wp (write_bytes Rounds n Index Size Buffer) Q s.
Proof.
  revert Index s. induction n as [|n IH]; intros Index s Hs Hl Hw HI Hn HQ; cbn [write_bytes].
  - apply wp_ret, HQ. rewrite take_0, app_nil_r, take_ge by (apply (length_queue _ (ok_receive _ Hs))). split; [done|]. split; [done|]. split; [done|apply kept_refl].
  - destruct (lookup_lt_is_Some_2 Buffer (Z.to_nat Index)) as [b Hb]; [lia|]. rewrite (drop_S _ _ _ Hb) in HQ. cbn [take] in HQ.
    apply wp_bind. eapply wp_lift; [exact Hb|]. apply wp_write_byte_looped; [done..|]. intros s1 L1. pose proof L1 as (R1 & W1 & _ & K1). cbn [negb].
    replace (S (Z.to_nat Index)) with (Z.to_nat (Index + 1)) in HQ by lia.
    apply IH; [by apply K1|by rewrite (kept_loop _ _ K1)|done|lia|lia|]. intros s' L'. apply HQ.
    eapply looped_trans; [exact L1|]. by rewrite R1, take_16_app in L'.
Qed.

Lemma kept_raised s p1 s2 p3 :
  (noise p1 <= noise s.(port))%nat -> kept (with_port s.(log) p1 s) s2 -> tpl p3 = tpl s.(port) -> (noise p3 <= noise s2.(port))%nat ->
  kept s (with_port s2.(log) p3 s2).
Proof.
  intros N1 [O M Lp Ln N _] H3 N3. split; cbn [with_port log port SerialMode SoftwareLoopbackEnable] in *; [|done|done|done|lia|done].
  intros [K1 K2 K3 K4]. destruct O as [O1 O2 O3 O4]; by split.
Qed.

Lemma wp_IohSerialWrite_looped Buffer (Q : EFI_STATUS * Z -> SERIAL_DEV D -> Prop) s :
  serial_ok s -> s.(SoftwareLoopbackEnable) = true -> waiting s = [] -> Buffer <> [] ->
  (forall s', looped (take 16 (received s ++ Buffer)) s s' -> Q (EFI_SUCCESS, Z.of_nat (length Buffer)) s') ->
  wp (IohSerialWrite Rounds (Z.of_nat (length Buffer)) (Some Buffer)) Q s.
Proof.
  intros Hs Hl Hw Hb HQ. unfold IohSerialWrite. assert (Hn : length Buffer <> 0%nat) by (by destruct Buffer).
  rewrite (proj2 (Z.eqb_neq _ 0)) by lia. apply wp_RaiseTPL. intros p1 _ _ N1. rewrite Nat2Z.id.
  apply wp_bind, wp_write_bytes_looped; [by destruct Hs; split|done|done|lia|cbn; lia|]. rewrite drop_0, (take_ge Buffer) by done.
  intros s2 (R2 & W2 & L2 & K2). apply wp_RestoreTPL. intros p3 T3 _ N3. apply HQ. split; [done|]. split; [done|]. split; [done|].
  by eapply kept_raised.
Qed.

(** Bytes that are there are read without a wait. *)
Lemma wp_read_bytes_ready (n : nat) Index Size (Q : EFI_STATUS * Z * list Z -> SERIAL_DEV D -> Prop) s :
  fifo_wf s.(Receive) -> (n <= length (received s))%nat ->
  (forall r, fifo_wf r -> contents r = drop n (received s) -> Q (EFI_SUCCESS, Size, take n (received s)) (with_queues r s.(Transmit) s)) ->
  wp (read_bytes Rounds n Index Size) Q s.
Proof.
  revert Index s Q. induction n as [|n IH]; intros Index s Q Hr Hn HQ; cbn [read_bytes].
  - apply wp_ret. assert (E : with_queues s.(Receive) s.(Transmit) s = s) by (by destruct s). specialize (HQ s.(Receive) Hr eq_refl).
    rewrite E in HQ. exact HQ.
  - apply wp_bind, wp_get, wp_bind. unfold wait_fuel. cbn [read_wait]. apply wp_bind, wp_remove_receive; [done| |].
    + intros E. rewrite E in Hn. cbn in Hn. lia.
    + intros b l r E Hrw Hrc _. rewrite bool_decide_true by done. cbn [default]. apply wp_ret. cbn beta iota. rewrite bool_decide_true by done.
      rewrite E in Hn, HQ. cbn [length take drop] in *. apply wp_bind, IH; [done|unfold received; cbn [with_queues Receive]; rewrite Hrc; lia|].
      change (received (with_queues r s.(Transmit) s)) with (contents r). rewrite Hrc. intros r2 Hrw2 Hrc2. apply wp_ret. by apply HQ.
Qed.

Lemma wp_IohSerialRead_looped (n : nat) (Q : EFI_STATUS * Z * list Z -> SERIAL_DEV D -> Prop) s :
  serial_ok s -> s.(SoftwareLoopbackEnable) = true -> waiting s = [] -> (n <= length (received s))%nat -> n <> 0%nat ->
  (forall s', looped (drop n (received s)) s s' -> Q (EFI_SUCCESS, Z.of_nat n, take n (received s)) s') ->
  wp (IohSerialRead Rounds (Z.of_nat n) true) Q s.
Proof.
  intros Hs Hl Hw Hn Hz HQ. unfold IohSerialRead. rewrite (proj2 (Z.eqb_neq _ 0)) by lia. cbn [negb].
  apply wp_RaiseTPL. intros p1 _ _ N1. set (s1 := with_port _ _ _). assert (K1 : serial_ok s1) by (by destruct Hs; split).
  assert (Hrun : forall s2 (Q' : EFI_STATUS -> SERIAL_DEV D -> Prop), serial_ok s2 -> s2.(SoftwareLoopbackEnable) = true -> waiting s2 = [] ->
    (forall r t, fifo_wf r -> fifo_wf t -> contents r = received s2 -> contents t = [] -> Q' EFI_SUCCESS (with_queues r t s2)) ->
    wp (IohSerialReceiveTransmit Rounds) Q' s2).
  { intros s2 Q' K2 L2 W2 HQ'. apply wp_run_loopback; [done|done|]. intros r t Hr Ht room Hrc Htc. rewrite W2 in *.
    rewrite take_nil, app_nil_r in Hrc. rewrite drop_nil in Htc. rewrite bool_decide_true by (cbn; lia). by apply HQ'. }
  apply wp_bind, Hrun; [done|done|done|]. intros r t Hr Ht Hrc Htc. change (EFI_ERROR EFI_SUCCESS) with false. cbn beta iota. rewrite Nat2Z.id.
  change (received s1) with (received s) in Hrc.
  apply wp_bind, wp_read_bytes_ready; [done|unfold received at 1; cbn [with_queues Receive]; by rewrite Hrc|].
  change (received (with_queues r t s1)) with (contents r). rewrite Hrc. intros r2 Hr2 Hrc2. cbn beta iota. rewrite bool_decide_true by done.
  assert (K2 : kept s1 (with_queues r2 t (with_queues r t s1))) by (eapply kept_trans; by apply kept_queues).
  apply wp_bind, wp_bind, Hrun; [by apply K2|done|done|]. intros r3 t3 Hr3 Ht3 Hrc3 Htc3. apply wp_ret, wp_RestoreTPL. intros p3 T3 _ N3.
  apply HQ. split; [unfold received at 1; cbn [with_port with_queues Receive]; rewrite Hrc3; exact Hrc2|]. split; [exact Htc3|]. split; [done|].
  eapply (kept_raised s p1); [done| |done|exact N3]. eapply kept_trans; [exact K2|by apply kept_queues].
Qed.

(** ** Any mode *)

Lemma wp_add_transmit_any b (Q : EFI_STATUS -> SERIAL_DEV D -> Prop) s :
  serial_ok s -> (forall st s', kept s s' -> Q st s') -> wp (add_transmit b) Q s.
Proof.
  intros [_ Hr Ht _] HQ. destruct (decide (length (waiting s) < 16)%nat) as [Hl|Hl].
  - apply wp_add_transmit; [done|done|]. intros t Htw _. by apply HQ, kept_queues.
  - unfold add_transmit. pose proof (length_queue _ Ht) as H16. unfold waiting in Hl. apply wp_bind, wp_get, wp_bind.
    eapply wp_lift; [apply add_full; [done|lia]|]. by apply wp_bind, wp_modify, wp_ret, HQ, kept_queues.
Qed.

Lemma wp_write_bytes_any n Index Size Buffer (Q : EFI_STATUS * Z -> SERIAL_DEV D -> Prop) s :
  serial_ok s -> enough s -> 0 <= Index -> (Z.to_nat Index + n <= length Buffer)%nat ->
  (forall r s', kept s s' -> Q r s') -> wp (write_bytes Rounds n Index Size Buffer) Q s.
Proof.
  revert Index s. induction n as [|n IH]; intros Index s Hs He HI Hn HQ; cbn [write_bytes]; [apply wp_ret, HQ, kept_refl|].
  destruct (lookup_lt_is_Some_2 Buffer (Z.to_nat Index)) as [b Hb]; [lia|]. apply wp_bind. eapply wp_lift; [exact Hb|].
  apply wp_bind, wp_add_transmit_any; [done|]. intros st s1 K1. pose proof (kept_ok _ _ K1 Hs) as O1.
  pose proof (ok_timeout _ O1) as Hto. unfold SERIAL_PORT_MIN_TIMEOUT, SERIAL_PORT_MAX_TIMEOUT in Hto.
  apply wp_bind, wp_get, wp_bind, (wp_write_wait Rounds (fun s' => kept s1 s') true (s1.(SerialMode).(Timeout))).
  - intros s2 K2. split; [by apply K2|by rewrite (kept_mode _ _ K2)].
  - intros s2 K2. apply wp_run_kept; [by apply K2|eapply enough_kept; [by eapply enough_kept|done]|].
    intros st' s3 K3 _. split; [by eapply kept_trans|by right].
  - intros s2 p K2 Hp Hnp. eapply kept_trans; [exact K2|by apply kept_port].
  - apply kept_refl.
  - lia.
  - lia.
  - lia.
  - apply wait_fuel_enough. lia.
  - intros ok s2 K2 _. assert (K : kept s s2) by (by eapply kept_trans). destruct ok; cbn [negb]; [|by apply wp_ret, HQ].
    apply IH; [by apply K|by eapply enough_kept|lia|lia|]. intros r s' K'. apply HQ. by eapply kept_trans.
Qed.

Lemma wp_IohSerialWrite_any Size Buffer (Q : EFI_STATUS * Z -> SERIAL_DEV D -> Prop) s :
  serial_ok s -> enough s -> 0 <= Size -> (forall l, Buffer = Some l -> (Z.to_nat Size <= length l)%nat) ->
  (forall r s', kept s s' -> Q r s') -> wp (IohSerialWrite Rounds Size Buffer) Q s.
Proof.
  intros Hs He HS Hb HQ. unfold IohSerialWrite. destruct (Size =? 0); [apply wp_ret, HQ, kept_refl|].
  destruct Buffer as [l|]; [|apply wp_ret, HQ, kept_refl]. apply wp_RaiseTPL. intros p1 _ _ N1.
  apply wp_bind, wp_write_bytes_any; [by destruct Hs; split|unfold UartRules.enough in *; cbn [port with_port]; lia|lia|by apply Hb|].
  intros r s2 K2. apply wp_RestoreTPL. intros p3 T3 _ N3. apply HQ. by eapply kept_raised.
Qed.

Lemma wp_remove_receive_any (Q : EFI_STATUS * option Z -> SERIAL_DEV D -> Prop) s :
  serial_ok s -> (forall r s', kept s s' -> Q r s') -> wp remove_receive Q s.
Proof.
  intros Hs HQ. apply wp_remove_receive; [apply Hs|intros _; apply HQ, kept_refl|]. intros b l r _ Hr _ _. apply HQ. apply kept_queues; [done|apply Hs].
Qed.

Lemma wp_read_wait_any T fuel Elapsed (Q : EFI_STATUS * Z -> SERIAL_DEV D -> Prop) s :
  serial_ok s -> enough s -> s.(SerialMode).(Timeout) = T ->
  0 <= Elapsed -> T + 10 < 2 ^ 32 -> Elapsed < T + 10 -> T <= Elapsed + 10 * (Z.of_nat fuel - 1) ->
  (forall r s', kept s s' -> Q r s') -> wp (read_wait Rounds fuel Elapsed) Q s.
Proof.
  revert Elapsed s. induction fuel as [|fuel IH]; intros e s Hs He HT H0 Hmax Heb Hf HQ; [lia|]. cbn [read_wait].
  apply wp_bind, wp_remove_receive_any; [done|]. intros [st b] s1 K1. destruct (bool_decide _); [by apply wp_ret, HQ|].
  apply wp_bind, wp_get. rewrite (kept_mode _ _ K1), HT. destruct (Z.leb_spec T e) as [Ht|Ht]; [by apply wp_ret, HQ|].
  apply wp_bind, wp_on_port. eapply wp_mono; [apply stall_law|]. intros [] p (Hp & _ & Hn). cbn beta.
  assert (K2 : kept s (with_port s1.(log) p s1)) by (eapply kept_trans; [exact K1|by apply kept_port]).
  apply wp_bind, wp_run_kept; [by apply K2|by eapply enough_kept|]. intros st' s3 K3 Hst. rewrite bool_decide_false by (by destruct Hst as [->| ->]).
  unfold TIMEOUT_STALL_INTERVAL. rewrite wrap_small by lia. assert (K : kept s s3) by (by eapply kept_trans).
  apply IH; [by apply K|by eapply enough_kept|by rewrite (kept_mode _ _ K)|lia|lia|lia|lia|]. intros r s' K'. apply HQ. by eapply kept_trans.
Qed.

Lemma wp_read_bytes_any n Index Size (Q : EFI_STATUS * Z * list Z -> SERIAL_DEV D -> Prop) s :
  serial_ok s -> enough s -> (forall r s', kept s s' -> Q r s') -> wp (read_bytes Rounds n Index Size) Q s.
Proof.
  revert Index s Q. induction n as [|n IH]; intros Index s Q Hs He HQ; cbn [read_bytes]; [apply wp_ret, HQ, kept_refl|].
  pose proof (ok_timeout _ Hs) as Hto. unfold SERIAL_PORT_MIN_TIMEOUT, SERIAL_PORT_MAX_TIMEOUT in Hto.
  apply wp_bind, wp_get, wp_bind, (wp_read_wait_any (s.(SerialMode).(Timeout))); [done|done|done|lia|lia|lia|apply wait_fuel_enough; lia|].
  intros [st b] s1 K1. destruct (bool_decide _); [|by apply wp_ret, HQ]. apply wp_bind, IH; [by apply K1|by eapply enough_kept|].
  intros [[st' sz] l] s' K'. apply wp_ret, HQ. by eapply kept_trans.
Qed.

Lemma wp_IohSerialRead_any Size Buffer (Q : EFI_STATUS * Z * list Z -> SERIAL_DEV D -> Prop) s :
  serial_ok s -> enough s -> (forall r s', kept s s' -> Q r s') -> wp (IohSerialRead Rounds Size Buffer) Q s.
Proof.
  intros Hs He HQ. unfold IohSerialRead. destruct (Size =? 0); [apply wp_ret, HQ, kept_refl|]. destruct Buffer; cbn [negb]; [|apply wp_ret, HQ, kept_refl].
  apply wp_RaiseTPL. intros p1 _ _ N1. set (s1 := with_port _ _ _).
  assert (O1 : serial_ok s1) by (by destruct Hs; split). assert (E1 : enough s1) by (unfold UartRules.enough in *; cbn [s1 port with_port]; lia).
  apply wp_bind, wp_run_kept; [done|done|]. intros st s2 K2 _. destruct (EFI_ERROR st).
  { apply wp_RestoreTPL. intros p3 T3 _ N3. apply HQ. by eapply (kept_raised s p1). }
  apply wp_bind, wp_read_bytes_any; [by apply K2|by eapply enough_kept|]. intros [[st' sz] l] s3 K3. pose proof (kept_trans _ _ _ K2 K3) as K.
  apply wp_bind. destruct (bool_decide _).
  - apply wp_bind, wp_run_kept; [by apply K|by eapply enough_kept|]. intros st4 s4 K4 _. apply wp_ret, wp_RestoreTPL. intros p5 T5 _ N5.
    apply HQ. eapply (kept_raised s p1); [done| |done|exact N5]. by eapply kept_trans.
  - apply wp_ret, wp_RestoreTPL. intros p5 T5 _ N5. apply HQ. by eapply (kept_raised s p1).
Qed.
End Modes.
