(* ===== verification/UartSettings.v ===== *)
(** * The serial port driver: settings, and a peer that is never ready

    Control bits, attributes and reset, and the rule for any call. The wait of [IohSerialWrite] has a limit, but one run of
    [IohSerialReceiveTransmit] has none: with flow control the run goes on as long as a byte is to be sent, and the byte stays
    where it is while the peer is not ready. *)

From S2P Require Import Prelude UartDefs UartRules.
From stdpp Require Import list.
#[local] Open Scope Z_scope.

(** ** Fields *)

Lemma set_field_bit i v x j : 0 <= i -> 0 <= j -> Z.testbit (set_field i v x) j = if j =? i then v else Z.testbit x j.
Proof.
  intros Hi Hj. unfold set_field. destruct v; rewrite ?Z.lor_spec, ?Z.ldiff_spec, Z.pow2_bits_eqb by done; rewrite (Z.eqb_sym i j).
  - destruct (j =? i); [apply orb_true_r|apply orb_false_r].
  - destruct (j =? i); [apply andb_false_r|apply andb_true_r].
Qed.

Lemma set_field_width w i v x : 0 <= i < w -> in_width w x -> in_width w (set_field i v x).
Proof.
  intros Hi Hx. assert (Hp : in_width w (2 ^ i)) by (unfold in_width; split; [lia|apply Z.pow_lt_mono_r; lia]).
  unfold set_field. destruct v; [apply lor_in_width; [lia|done|done]|].
  apply in_width_of_bits; [lia| |].
  - apply Z.ldiff_nonneg. left. unfold in_width in *. lia.
  - intros j Hj. rewrite Z.ldiff_spec. by rewrite (in_width_bit w x) by done.
Qed.

Lemma has_bit c k : 0 <= k -> has c (2 ^ k) = Z.testbit c k.
Proof.
  intros Hk. unfold has. apply Bool.eq_iff_eq_true. rewrite Z.eqb_eq. split; intros E.
  - apply (f_equal (fun y => Z.testbit y k)) in E. rewrite Z.land_spec, Z.pow2_bits_true, andb_true_r in E by done. done.
  - apply Z.bits_inj'. intros j Hj. rewrite Z.land_spec, Z.pow2_bits_eqb by done. destruct (Z.eqb_spec k j) as [<-|]; [by rewrite E|apply andb_false_r].
Qed.

(** ** Control bits *)

(** The bits that can be set. *)
Definition control_ok (c : Z) : bool := Z.land c 0xffff8ffc =? 0.

Definition control_value (dtr rts lme loop flow : bool) : Z :=
  flag loop EFI_SERIAL_SOFTWARE_LOOPBACK_ENABLE (flag flow EFI_SERIAL_HARDWARE_FLOW_CONTROL_ENABLE (flag lme EFI_SERIAL_HARDWARE_LOOPBACK_ENABLE
    (flag rts EFI_SERIAL_REQUEST_TO_SEND (flag dtr EFI_SERIAL_DATA_TERMINAL_READY 0)))).

Lemma control_bits c : in_width 32 c -> control_ok c = true ->
  c = control_value (Z.testbit c 0) (Z.testbit c 1) (Z.testbit c 12) (Z.testbit c 13) (Z.testbit c 14).
Proof.
  intros Hc Hok. apply Z.eqb_eq in Hok.
  assert (E : c = Z.land c 0x7003).
  { transitivity (Z.land c (Z.lor 0xffff8ffc 0x7003)).
    - change (Z.lor 0xffff8ffc 0x7003) with (Z.ones 32). rewrite Z.land_ones by lia. symmetry. by apply Z.mod_small.
    - by rewrite Z.land_lor_distr_r, Hok, Z.lor_0_l. }
  assert (F : forall k, 0 <= k -> Z.land c (2 ^ k) = if Z.testbit c k then 2 ^ k else 0).
  { intros k Hk. apply Z.bits_inj'. intros j Hj. rewrite Z.land_spec, Z.pow2_bits_eqb by done. destruct (Z.eqb_spec k j) as [<-|Hne].
    - rewrite andb_true_r. destruct (Z.testbit c k); [by rewrite Z.pow2_bits_true|by rewrite Z.testbit_0_l].
    - rewrite andb_false_r. destruct (Z.testbit c k); [by rewrite Z.pow2_bits_false by lia|by rewrite Z.testbit_0_l]. }
  rewrite E at 1. change 0x7003 with (Z.lor (2 ^ 0) (Z.lor (2 ^ 1) (Z.lor (2 ^ 12) (Z.lor (2 ^ 13) (2 ^ 14))))).
  rewrite !Z.land_lor_distr_r, !F by lia. clear E F Hok.
  by destruct (Z.testbit c 0), (Z.testbit c 1), (Z.testbit c 12), (Z.testbit c 13), (Z.testbit c 14).
Qed.

Lemma flag_land b m c k : Z.land (flag b m c) k = flag b (Z.land m k) (Z.land c k).
Proof. destruct b; [apply Z.land_lor_distr_l|done]. Qed.
Lemma flag_0 b c : flag b 0 c = c.
Proof. destruct b; [apply Z.lor_0_r|done]. Qed.

Section Settings.
Context {D : Type} {B : SerialBus D} {L : SerialLaws D}.
Context (Rounds : nat).
Implicit Types (s : SERIAL_DEV D).
Abbreviation enough := (enough Rounds).

(** The registers that a value of the control bits stands for. *)
Definition controlled (c : Z) s s' : Prop :=
  s'.(SoftwareLoopbackEnable) = Z.testbit c 13 /\ s'.(HardwareFlowControl) = Z.testbit c 14 /\
  Z.testbit (mcr s'.(port)) 0 = Z.testbit c 0 /\ Z.testbit (mcr s'.(port)) 1 = Z.testbit c 1 /\ Z.testbit (mcr s'.(port)) 4 = Z.testbit c 12 /\
  exists l p, s' = with_control (Z.testbit c 13) (Z.testbit c 14) (with_port l p s) /\ arrived l = arrived s.(log) /\ sent l = sent s.(log) /\
    line_control l = line_control s.(log) /\ (noise p <= noise s.(port))%nat /\ tpl p = tpl s.(port).

Lemma wp_IohSerialSetControl c (Q : EFI_STATUS -> SERIAL_DEV D -> Prop) s :
  serial_ok s -> (control_ok c = false -> Q EFI_UNSUPPORTED s) -> (forall s', control_ok c = true -> controlled c s s' -> Q EFI_SUCCESS s') ->
  wp (IohSerialSetControl c) Q s.
Proof.
  intros Hs HE HQ. unfold IohSerialSetControl. fold (control_ok c). destruct (control_ok c) eqn:E; cbn [negb]; [|by apply wp_ret, HE].
  apply wp_RaiseTPL. intros p1 _ _ N1. apply wp_bind, wp_IohSerialReadPort; [apply Hs|offset|]. intros v p2 _ T2 _ N2 _.
  apply wp_bind, wp_modify.
  change EFI_SERIAL_DATA_TERMINAL_READY with (2 ^ 0). change EFI_SERIAL_REQUEST_TO_SEND with (2 ^ 1).
  change EFI_SERIAL_HARDWARE_LOOPBACK_ENABLE with (2 ^ 12). change EFI_SERIAL_HARDWARE_FLOW_CONTROL_ENABLE with (2 ^ 14).
  change EFI_SERIAL_SOFTWARE_LOOPBACK_ENABLE with (2 ^ 13). rewrite !has_bit by lia.
  set (m0 := set_field Mcr_Lme false _). set (m1 := if Z.testbit c 12 then _ else _).
  assert (Hm : Z.testbit (Z.land m1 0x1f) 0 = Z.testbit c 0 /\ Z.testbit (Z.land m1 0x1f) 1 = Z.testbit c 1 /\ Z.testbit (Z.land m1 0x1f) 4 = Z.testbit c 12).
  { rewrite !Z.land_spec. change (Z.testbit 0x1f 0) with true. change (Z.testbit 0x1f 1) with true. change (Z.testbit 0x1f 4) with true.
    rewrite !andb_true_r. subst m1 m0. unfold Mcr_DtrC, Mcr_Rts, Mcr_Lme.
    by destruct (Z.testbit c 12), (Z.testbit c 1), (Z.testbit c 0); rewrite !set_field_bit by lia. }
  clearbody m1. apply wp_bind.
  assert (HF : forall Q' : unit -> SERIAL_DEV D -> Prop, Q' tt (with_control false (Z.testbit c 14) (with_port (Read SERIAL_REGISTER_MCR v :: s.(log)) p2 s)) ->
    wp (if Z.testbit c 14 then modify (with_control false true) else mret tt) Q' (with_control false false (with_port (Read SERIAL_REGISTER_MCR v :: s.(log)) p2 s))).
  { intros Q' H. destruct (Z.testbit c 14); [by apply wp_modify|by apply wp_ret]. }
  apply HF. apply wp_bind, wp_IohSerialWritePort; [apply Hs|offset|]. intros p3 T3 N3 M3. change (is_at SERIAL_REGISTER_MCR SERIAL_REGISTER_MCR) with true in M3.
  cbn [with_port with_control log port HardwareFlowControl] in *. apply wp_bind.
  assert (HG : forall p, tpl p = tpl s.(port) -> mcr p = mcr p3 -> (noise p <= noise p3)%nat ->
    Q EFI_SUCCESS (with_control (Z.testbit c 13) (Z.testbit c 14) (with_port (Write SERIAL_REGISTER_MCR m1 :: Read SERIAL_REGISTER_MCR v :: s.(log)) p s))).
  { intros p Tp Mp Np. apply HQ; [done|]. unfold controlled. cbn [with_port with_control SoftwareLoopbackEnable HardwareFlowControl port].
    rewrite Mp, M3. split; [done|]. split; [done|]. split; [apply Hm|]. split; [apply Hm|]. split; [apply Hm|]. eexists _, _. split; [done|].
    split; [by rewrite !arrived_other|]. split; [cbn [sent]; by rewrite app_nil_r|]. split; [done|]. split; [lia|done]. }
  destruct (Z.testbit c 13).
  - apply wp_modify. apply wp_RestoreTPL. intros p Tp Mp Np. by apply HG.
  - apply wp_ret. apply wp_RestoreTPL. intros p Tp Mp Np. by apply HG.
Qed.

(** What is read back: bits of the modem status and of the queues beside those that were set. *)
Lemma wp_IohSerialGetControl (Q : EFI_STATUS * Z -> SERIAL_DEV D -> Prop) s :
  serial_ok s -> enough s ->
  (forall v s', kept s s' ->
     Z.land v 0x7003 = control_value (Z.testbit (mcr s.(port)) 0) (Z.testbit (mcr s.(port)) 1) (Z.testbit (mcr s.(port)) 4)
       s.(SoftwareLoopbackEnable) s.(HardwareFlowControl) -> Q (EFI_SUCCESS, v) s') ->
  wp (IohSerialGetControl Rounds) Q s.
Proof.
  intros Hs He HQ. unfold IohSerialGetControl. apply wp_RaiseTPL. intros p1 _ M1 N1.
  apply wp_bind, wp_IohSerialReadPort; [apply Hs|offset|]. intros msr p2 _ T2 M2 N2 _.
  apply wp_bind, wp_IohSerialReadPort; [apply Hs|offset|]. intros v p3 _ T3 M3 N3 Hv. specialize (Hv eq_refl).
  cbn [with_port port log] in *. apply wp_bind, wp_get.
  set (s1 := with_port _ _ _). set (c0 := flag _ EFI_SERIAL_HARDWARE_FLOW_CONTROL_ENABLE _).
  assert (Hb : forall i, 0 <= i < 5 -> Z.testbit v i = Z.testbit (mcr s.(port)) i).
  { intros i Hi. rewrite <- M1, <- M2, <- Hv, Z.land_spec. change 0x1f with (Z.ones 5). rewrite ones_bit by lia. bools. done. }
  assert (K1 : kept (with_port s.(log) p1 s) s1).
  { set (s0 := with_port s.(log) p1 s). set (s2 := with_port (Read SERIAL_REGISTER_MSR msr :: s0.(log)) p2 s0).
    apply (kept_trans _ s2); [apply (kept_moves [] []), moves_read; [done|cbn [s0 port with_port]; lia|done]|].
    apply (kept_moves [] []), (moves_read SERIAL_REGISTER_MCR v p3 s2); [done|cbn [s2 port with_port]; lia|done]. }
  assert (O1 : serial_ok s1) by (apply K1; by destruct Hs; split).
  assert (E1 : enough s1) by (unfold UartRules.enough in *; cbn [s1 port with_port]; lia).
  apply wp_bind, wp_run_kept; [done|done|]. intros st2 s2 K2 _. apply wp_bind, wp_get.
  apply wp_bind, wp_run_kept; [by apply K2|by eapply enough_kept|]. intros st3 s3 K3 _. apply wp_bind, wp_get.
  assert (K : kept (with_port s.(log) p1 s) s3) by (eapply kept_trans; [exact K1|by eapply kept_trans]).
  apply wp_RestoreTPL. intros p4 T4 _ N4. apply HQ; [by eapply kept_raised|].
  rewrite (kept_loop _ _ K). cbn [SoftwareLoopbackEnable with_port]. subst c0. cbn [s1 HardwareFlowControl with_port].
  unfold Mcr_DtrC, Mcr_Rts, Mcr_Lme. rewrite !Hb by lia. unfold control_value. rewrite !flag_land.
  repeat match goal with |- context [Z.land ?a 0x7003] => let x := eval vm_compute in (Z.land a 0x7003) in change (Z.land a 0x7003) with x end.
  rewrite !flag_0. done.
Qed.

(** ** Attributes *)

(** Values that the port can be set to. *)
Definition valid_attributes (BaudRate ReceiveFifoDepth Timeout Parity DataBits StopBits : Z) : Prop :=
  (DataBits = 7 \/ DataBits = 8) /\ SERIAL_PORT_MIN_BAUD_RATE <= BaudRate <= SERIAL_PORT_MAX_BAUD_RATE /\
  1 <= ReceiveFifoDepth <= SERIAL_PORT_MAX_RECEIVE_FIFO_DEPTH /\ SERIAL_PORT_MIN_TIMEOUT <= Timeout <= SERIAL_PORT_MAX_TIMEOUT /\
  NoParity <= Parity <= SpaceParity /\ (StopBits = OneStopBit \/ StopBits = TwoStopBits) /\
  0 < PcdIohUartClkFreq / (16 * baud_rate BaudRate) < 2 ^ 16.

(** What the line control register says of a line. *)
Definition line_fields (Lcr Parity DataBits StopBits : Z) : Prop :=
  Z.land Lcr 3 = DataBits - 5 /\ Z.testbit Lcr Lcr_StopB = negb (StopBits =? OneStopBit) /\ Z.testbit Lcr Lcr_ParEn = negb (Parity =? NoParity) /\
  Z.testbit Lcr Lcr_EvenPar = (Parity =? EvenParity) || (Parity =? SpaceParity) /\
  Z.testbit Lcr Lcr_SticPar = (Parity =? MarkParity) || (Parity =? SpaceParity) /\ Z.testbit Lcr Lcr_DLab = false.

Lemma data_field_fields n v : n = 7 \/ n = 8 -> Z.land (data_field n v) 3 = n - 5 /\ forall i, 2 <= i -> Z.testbit (data_field n v) i = Z.testbit v i.
Proof.
  intros Hn. unfold data_field. assert (E : Z.land (u8 (n - 5)) 3 = n - 5) by (by destruct Hn as [->| ->]). rewrite E. split.
  - rewrite Z.land_lor_distr_l. replace (Z.land (Z.ldiff v 3) 3) with 0 by (symmetry; apply Z.land_ldiff). rewrite Z.lor_0_l. by destruct Hn as [->| ->].
  - intros i Hi. rewrite Z.lor_spec, Z.ldiff_spec, (in_width_bit 2 3), (in_width_bit 2 (n - 5)) by (unfold in_width; lia). by rewrite andb_true_r, orb_false_r.
Qed.

Lemma program_fields Parity DataBits StopBits v :
  NoParity <= Parity <= SpaceParity -> (DataBits = 7 \/ DataBits = 8) -> (StopBits = OneStopBit \/ StopBits = TwoStopBits) ->
  line_fields (data_field DataBits (stop_field StopBits (parity_fields Parity (set_field Lcr_DLab false v)))) Parity DataBits StopBits.
Proof.
  unfold NoParity, SpaceParity, OneStopBit, TwoStopBits. intros Hp Hd Hst.
  destruct (data_field_fields DataBits (stop_field StopBits (parity_fields Parity (set_field Lcr_DLab false v))) Hd) as [H1 H2].
  unfold line_fields. split; [exact H1|]. unfold Lcr_StopB, Lcr_ParEn, Lcr_EvenPar, Lcr_SticPar, Lcr_DLab in *. rewrite !H2 by lia. clear H1 H2.
  assert (Parity = 1 \/ Parity = 2 \/ Parity = 3 \/ Parity = 4 \/ Parity = 5) as E by lia.
  destruct Hst as [->| ->]; (destruct E as [->|[->|[->|[->| ->]]]]); cbn [stop_field parity_fields];
    unfold stop_field, parity_fields, Lcr_StopB, Lcr_ParEn, Lcr_EvenPar, Lcr_SticPar, Lcr_DLab; cbn [Z.eqb Pos.eqb OneStopBit OneFiveStopBits TwoStopBits NoParity EvenParity OddParity SpaceParity MarkParity orb];
    rewrite !set_field_bit by lia; done.
Qed.

(** The accesses that set a line. *)
Definition line_log (Divisor Lcr v : Z) (l : list access) : list access :=
  Write SERIAL_REGISTER_LCR Lcr :: Write SERIAL_REGISTER_DLM (Z.shiftr Divisor 8) :: Write SERIAL_REGISTER_DLL (Z.land Divisor 0xff) ::
  Write SERIAL_REGISTER_LCR (set_field Lcr_DLab true v) :: Read SERIAL_REGISTER_LCR v :: l.

Lemma wp_program_line Divisor Parity DataBits StopBits (Q : unit -> SERIAL_DEV D -> Prop) s :
  s.(BaseAddress) = serial_base -> 0 < Divisor < 2 ^ 16 -> NoParity <= Parity <= SpaceParity -> (DataBits = 7 \/ DataBits = 8) ->
  (StopBits = OneStopBit \/ StopBits = TwoStopBits) ->
  (forall Lcr v p, line_fields Lcr Parity DataBits StopBits -> (noise p <= noise s.(port))%nat -> tpl p = tpl s.(port) ->
     Q tt (with_port (line_log Divisor Lcr v s.(log)) p s)) ->
  wp (program_line Divisor Parity DataBits StopBits) Q s.
Proof.
  intros Hb Hdiv Hp Hd Hst HQ. unfold program_line. apply wp_bind, wp_IohSerialReadPort; [done|offset|]. intros v p1 _ T1 _ N1 _.
  apply wp_bind, wp_IohSerialWritePort; [done|offset|]. intros p2 T2 N2 _. apply wp_bind, wp_IohSerialWritePort; [done|offset|]. intros p3 T3 N3 _.
  apply wp_bind, wp_IohSerialWritePort; [done|offset|]. intros p4 T4 N4 _. apply wp_IohSerialWritePort; [done|offset|]. intros p5 T5 N5 _.
  cbn [with_port port log] in *.
  assert (E : Z.land (Z.shiftr Divisor 8) 0xff = Z.shiftr Divisor 8).
  { change 0xff with (Z.ones 8). rewrite Z.land_ones by lia. apply Z.mod_small. rewrite Z.shiftr_div_pow2 by lia. split; [apply Z.div_pos; lia|].
    apply Z.div_lt_upper_bound; lia. }
  rewrite E. apply (HQ _ v p5); [by apply program_fields|lia|congruence].
Qed.

Lemma wp_update_path b n p st (Q : EFI_STATUS -> SERIAL_DEV D -> Prop) s :
  (forall r P N q, (noise q <= noise s.(port))%nat -> tpl q = tpl s.(port) -> Q r (with_path P N (with_port s.(log) q s))) ->
  wp (update_path b n p st) Q s.
Proof.
  intros HQ. unfold update_path. apply wp_bind, wp_get.
  assert (E : with_path s.(DevicePath) s.(UartDevicePath) (with_port s.(log) s.(port) s) = s) by (by destruct s).
  destruct (_ && _); [apply wp_ret; rewrite <- E at 1; by apply HQ|]. apply wp_bind, wp_modify. apply wp_bind, wp_on_port.
  eapply wp_mono; [apply append_law|]. intros new q1 (T1 & _ & N1). cbn [with_path port] in *. destruct (new =? 0).
  { apply wp_ret. by apply (HQ _ _ _ q1). }
  assert (Hend : forall q (Status : EFI_STATUS), tpl q = tpl s.(port) -> (noise q <= noise s.(port))%nat ->
    wp (if EFI_ERROR Status then mret Status else
          _ ← (if negb (s.(DevicePath) =? 0) then on_port (FreePool s.(DevicePath)) else mret tt);
          _ ← modify (with_path new {| path_BaudRate := b; path_DataBits := n; path_Parity := u8 p; path_StopBits := u8 st |}); mret EFI_SUCCESS) Q
      (with_path s.(DevicePath) {| path_BaudRate := b; path_DataBits := n; path_Parity := u8 p; path_StopBits := u8 st |} (with_port s.(log) q s))).
  { intros q Status T N. destruct (EFI_ERROR Status); [apply wp_ret; by apply (HQ _ _ _ q)|]. apply wp_bind. destruct (negb _).
    - apply wp_on_port. eapply wp_mono; [apply free_law|]. intros [] q2 (T2 & _ & N2). apply wp_bind, wp_modify, wp_ret.
      apply (HQ _ _ _ q2); [cbn [with_path with_port port] in *; lia|by rewrite T2].
    - apply wp_ret, wp_bind, wp_modify, wp_ret. by apply (HQ _ _ _ q). }
  apply wp_bind. destruct (negb (s.(Handle) =? 0)).
  - apply wp_on_port. eapply wp_mono; [apply reinstall_law|]. intros Status q2 (T2 & _ & N2). cbn [with_path with_port port log] in *.
    apply (Hend q2 Status); [congruence|lia].
  - apply wp_ret. by apply (Hend q1 EFI_SUCCESS).
Qed.

Definition or_default (x none d : Z) : Z := if x =? none then d else x.

(** The device after attributes were accepted. *)
Definition attributed (b d t p n st : Z) s s' : Prop :=
  s'.(SerialMode) = {| ControlMask := s.(SerialMode).(ControlMask); Timeout := t; BaudRate := baud_rate b; ReceiveFifoDepth := d;
                       DataBits := n; Parity := p; StopBits := st |} /\
  (exists Lcr v, line_fields Lcr p n st /\ s'.(log) = line_log (PcdIohUartClkFreq / (16 * baud_rate b)) Lcr v s.(log)) /\
  s'.(Receive) = s.(Receive) /\ s'.(Transmit) = s.(Transmit) /\ s'.(BaseAddress) = s.(BaseAddress) /\
  s'.(SoftwareLoopbackEnable) = s.(SoftwareLoopbackEnable) /\ s'.(HardwareFlowControl) = s.(HardwareFlowControl) /\
  (noise s'.(port) <= noise s.(port))%nat /\ tpl s'.(port) = tpl s.(port).

Lemma baud_rate_range b : SERIAL_PORT_MIN_BAUD_RATE <= b <= SERIAL_PORT_MAX_BAUD_RATE -> 50 <= baud_rate b <= 115200.
Proof. unfold SERIAL_PORT_MIN_BAUD_RATE, SERIAL_PORT_MAX_BAUD_RATE, baud_rate, SERIAL_PORT_MAX_BAUD_RATE. intros Hb. bools; lia. Qed.

Lemma high_half x : 0 <= x < 2 ^ 32 -> negb (Z.land x 0xffff0000 =? 0) = (2 ^ 16 <=? x).
Proof.
  intros Hx. apply Bool.eq_iff_eq_true. rewrite negb_true_iff, Z.eqb_neq, Z.leb_le.
  assert (E : Z.land x 0xffff0000 = Z.shiftl (Z.shiftr x 16) 16).
  { change 0xffff0000 with (Z.lxor (Z.ones 32) (Z.ones 16)). bits i Hi. bools;
      first [done|by rewrite (in_width_bit 32 x) by (done || lia)|f_equal; lia]. }
  rewrite E, Z.shiftl_eq_0_iff, Z.shiftr_div_pow2 by lia. split; intros H.
  - destruct (Z.le_gt_cases (2 ^ 16) x); [done|]. destruct H. apply Z.div_small. lia.
  - intros H0. pose proof (Z.div_mod x (2 ^ 16) ltac:(lia)). pose proof (Z.mod_pos_bound x (2 ^ 16) ltac:(lia)). lia.
Qed.

(** Attributes are accepted when they are valid, and otherwise nothing is touched; what happens to the device path decides on the
    status of attributes that were accepted. *)
Lemma wp_IohSerialSetAttributes b d t p n st (Q : EFI_STATUS -> SERIAL_DEV D -> Prop) s :
  s.(BaseAddress) = serial_base ->
  let b' := or_default b 0 PcdUartDefaultBaudRate in
  let d' := or_default d 0 SERIAL_PORT_DEFAULT_RECEIVE_FIFO_DEPTH in
  let t' := or_default t 0 SERIAL_PORT_DEFAULT_TIMEOUT in
  let p' := or_default p DefaultParity PcdUartDefaultParity in
  let n' := or_default n 0 PcdUartDefaultDataBits in
  let st' := or_default st DefaultStopBits PcdUartDefaultStopBits in
  (~ valid_attributes b' d' t' p' n' st' -> Q EFI_INVALID_PARAMETER s) ->
  (forall r s', valid_attributes b' d' t' p' n' st' -> attributed b' d' t' p' n' st' s s' -> Q r s') ->
  wp (IohSerialSetAttributes b d t p n st) Q s.
Proof.
  intros Hb b' d' t' p' n' st' HE HQ. unfold IohSerialSetAttributes.
  fold (or_default b 0 PcdUartDefaultBaudRate) (or_default d 0 SERIAL_PORT_DEFAULT_RECEIVE_FIFO_DEPTH) (or_default t 0 SERIAL_PORT_DEFAULT_TIMEOUT)
    (or_default p DefaultParity PcdUartDefaultParity) (or_default n 0 PcdUartDefaultDataBits) (or_default st DefaultStopBits PcdUartDefaultStopBits).
  fold b' d' t' p' n' st'. clearbody b' d' t' p' n' st'. cbv zeta. unfold valid_attributes, SERIAL_PORT_MIN_BAUD_RATE, SERIAL_PORT_MAX_BAUD_RATE,
    SERIAL_PORT_MAX_RECEIVE_FIFO_DEPTH, SERIAL_PORT_MIN_TIMEOUT, SERIAL_PORT_MAX_TIMEOUT, NoParity, SpaceParity, OneStopBit, OneFiveStopBits, TwoStopBits in *.
  destruct (Z.eqb_spec n' 5), (Z.eqb_spec n' 6); cbn [orb]; try (apply wp_ret, HE; lia).
  destruct (Z.ltb_spec 115400 b'), (Z.ltb_spec b' 50); cbn [orb]; try (apply wp_ret, HE; lia).
  destruct (Z.ltb_spec d' 1), (Z.ltb_spec 16 d'); cbn [orb]; try (apply wp_ret, HE; lia).
  destruct (Z.ltb_spec t' 1), (Z.ltb_spec 100000000 t'); cbn [orb]; try (apply wp_ret, HE; lia).
  destruct (Z.ltb_spec p' 1), (Z.ltb_spec 5 p'); cbn [orb]; try (apply wp_ret, HE; lia).
  destruct (Z.ltb_spec n' 5), (Z.ltb_spec 8 n'); cbn [orb]; try (apply wp_ret, HE; lia).
  destruct (Z.ltb_spec st' 1), (Z.ltb_spec 3 st'); cbn [orb]; try (apply wp_ret, HE; lia).
  rewrite (proj2 (Z.leb_le 6 n')), (proj2 (Z.leb_le n' 8)) by lia. cbn [andb].
  destruct (Z.eqb_spec st' 2); [apply wp_ret, HE; lia|].
  pose proof (baud_rate_range b' ltac:(unfold SERIAL_PORT_MIN_BAUD_RATE, SERIAL_PORT_MAX_BAUD_RATE; lia)) as Hbr.
  pose proof clock_range as Hc. unfold in_width in Hc. rewrite (wrap_small 32 (baud_rate b')), (wrap_small 32 (baud_rate b' * 16)) by lia.
  rewrite div_law by lia. rewrite (Z.mul_comm (baud_rate b') 16). set (div := PcdIohUartClkFreq / (16 * baud_rate b')) in *.
  assert (Hdiv : 0 <= div < 2 ^ 32).
  { subst div. split; [apply Z.div_pos; lia|]. apply Z.div_lt_upper_bound; nia. }
  rewrite (wrap_small 32 div), high_half by lia.
  destruct (Z.eqb_spec div 0), (Z.leb_spec (2 ^ 16) div); cbn [orb]; try (apply wp_ret, HE; lia).
  assert (HV : valid_attributes b' d' t' p' n' st').
  { unfold valid_attributes, SERIAL_PORT_MIN_BAUD_RATE, SERIAL_PORT_MAX_BAUD_RATE, SERIAL_PORT_MAX_RECEIVE_FIFO_DEPTH, SERIAL_PORT_MIN_TIMEOUT,
      SERIAL_PORT_MAX_TIMEOUT, NoParity, SpaceParity, OneStopBit, TwoStopBits. fold div. lia. }
  apply wp_RaiseTPL. intros p1 _ _ N1. apply wp_bind, wp_program_line; [done|lia|apply HV|apply HV|apply HV|].
  intros Lcr v p2 Hf N2 _. apply wp_bind, wp_modify. apply wp_bind, wp_update_path. intros r P N q Nq _. apply wp_RestoreTPL. intros p3 T3 _ N3.
  cbn [with_path with_port with_mode port log] in *. apply HQ; [exact HV|]. split; [done|]. split; [by exists Lcr, v|].
  repeat (split; [done|]). split; [|done]. cbn [with_path with_port with_mode port]. lia.
Qed.

(** ** What every service leaves in order *)

(** The settings that the device can have. *)
Record mode_ok (m : EFI_SERIAL_IO_MODE) : Prop := {
  mode_timeout : SERIAL_PORT_MIN_TIMEOUT <= m.(Timeout) <= SERIAL_PORT_MAX_TIMEOUT;
  mode_baud : 50 <= m.(BaudRate) <= 115200 /\ baud_rate m.(BaudRate) = m.(BaudRate);
  mode_depth : 1 <= m.(ReceiveFifoDepth) <= SERIAL_PORT_MAX_RECEIVE_FIFO_DEPTH;
  mode_parity : NoParity <= m.(Parity) <= SpaceParity;
  mode_data : m.(DataBits) = 7 \/ m.(DataBits) = 8;
  mode_stop : m.(StopBits) = OneStopBit \/ m.(StopBits) = TwoStopBits
}.

(** The registers at offsets 0 and 4 are those for data, not the divisor. *)
Definition data_mode (l : list access) : Prop := forall v, line_control l = Some v -> Z.testbit v Lcr_DLab = false.

Record device_ok s : Prop := { dev_serial : serial_ok s; dev_mode : mode_ok s.(SerialMode); dev_data : data_mode s.(log) }.

Definition in_order s s' : Prop := (device_ok s -> device_ok s') /\ (noise s'.(port) <= noise s.(port))%nat.

Lemma in_order_trans s s1 s2 : in_order s s1 -> in_order s1 s2 -> in_order s s2.
Proof. intros [H1 N1] [H2 N2]. split; [auto|lia]. Qed.

Lemma in_order_kept s s' : kept s s' -> in_order s s'.
Proof.
  intros K. split; [|apply K]. intros [D1 D2 D3]. split; [by apply K|by rewrite (kept_mode _ _ K)|]. unfold data_mode. by rewrite (kept_line _ _ K).
Qed.

Lemma in_order_port p s : (noise p <= noise s.(port))%nat -> in_order s (with_port s.(log) p s).
Proof. intros N. split; [|done]. intros [[K1 K2 K3 K4] M D']. split; [by split|done|done]. Qed.

Lemma baud_rate_idem b : SERIAL_PORT_MIN_BAUD_RATE <= b <= SERIAL_PORT_MAX_BAUD_RATE -> baud_rate (baud_rate b) = baud_rate b.
Proof.
  unfold SERIAL_PORT_MIN_BAUD_RATE, SERIAL_PORT_MAX_BAUD_RATE. intros Hb. unfold baud_rate at 2 3, SERIAL_PORT_MAX_BAUD_RATE.
  repeat match goal with |- context [b <? ?k] => destruct (Z.ltb_spec b k); [done|] end. by rewrite (proj2 (Z.leb_le _ _)) by lia.
Qed.

Lemma in_order_attributed b d t p n st s s' : valid_attributes b d t p n st -> attributed b d t p n st s s' -> in_order s s'.
Proof.
  intros (V1 & V2 & V3 & V4 & V5 & V6 & _) (A1 & (Lcr & v & (_ & _ & _ & _ & _ & Hd) & A2) & A3 & A4 & A5 & A6 & A7 & A8 & A9). split; [|done].
  intros [[K1 K2 K3 K4] _ _]. split.
  - split; [congruence|congruence|congruence|by rewrite A1].
  - rewrite A1. split; [done|split; [by apply baud_rate_range|by apply baud_rate_idem]|done|done|done|done].
  - rewrite A2. intros v' [= <-]. done.
Qed.

Lemma in_order_controlled c s s' : controlled c s s' -> in_order s s'.
Proof.
  intros (_ & _ & _ & _ & _ & l & p & E & _ & _ & H1 & H2 & H3). rewrite E. split; [|done].
  intros [[K1 K2 K3 K4] M D']. split; [by split|done|]. unfold data_mode in *. cbn [with_control with_port log]. by rewrite H1.
Qed.

(** A register of the reset is read and written. *)
Lemma wp_reset_register Offset f {A} (k : M (SERIAL_DEV D) A) (Q : A -> SERIAL_DEV D -> Prop) s :
  s.(BaseAddress) = serial_base -> 0 <= Offset < 32 -> (Offset = SERIAL_REGISTER_LCR -> forall v, Z.testbit (f v) Lcr_DLab = false) ->
  (forall s', in_order s s' -> s'.(BaseAddress) = serial_base -> tpl s'.(port) = tpl s.(port) -> s'.(SerialMode) = s.(SerialMode) -> wp k Q s') ->
  wp (v ← IohSerialReadPort Offset; _ ← IohSerialWritePort Offset (f v); k) Q s.
Proof.
  intros Hb Ho Hf HQ. apply wp_bind, wp_IohSerialReadPort; [done|done|]. intros v p _ T _ N _.
  apply wp_bind, wp_IohSerialWritePort; [done|done|]. intros p' T' N' _. cbn [with_port port log] in *. apply HQ; [|done|exact (eq_trans T' T)|done].
  split; [|cbn [with_port port]; lia]. intros [[K1 K2 K3 K4] M D']. split; [by split|done|]. intros v'. cbn [with_port log line_control].
  destruct (Z.eqb_spec Offset SERIAL_REGISTER_LCR) as [E|E]; unfold is_at.
  - rewrite (proj2 (Z.eqb_eq _ _) E). intros [= <-]. by apply Hf.
  - rewrite (proj2 (Z.eqb_neq _ _) E). apply D'.
Qed.

Lemma wp_reset_write Offset v {A} (k : M (SERIAL_DEV D) A) (Q : A -> SERIAL_DEV D -> Prop) s :
  s.(BaseAddress) = serial_base -> 0 <= Offset < 32 -> Offset <> SERIAL_REGISTER_LCR ->
  (forall s', in_order s s' -> s'.(BaseAddress) = serial_base -> tpl s'.(port) = tpl s.(port) -> s'.(SerialMode) = s.(SerialMode) -> wp k Q s') ->
  wp (_ ← IohSerialWritePort Offset v; k) Q s.
Proof.
  intros Hb Ho Hne HQ. apply wp_bind, wp_IohSerialWritePort; [done|done|]. intros p T N _. apply HQ; [|done|done|done].
  split; [|done]. intros [[K1 K2 K3 K4] M D']. split; [by split|done|]. intros v'. cbn [with_port log line_control].
  unfold is_at. rewrite (proj2 (Z.eqb_neq _ _) Hne). apply D'.
Qed.

Lemma empty_queue_wf f : fifo_wf f -> fifo_wf (empty_queue f) /\ contents (empty_queue f) = [].
Proof. intros [_ _ _ H]. by repeat split. Qed.

(** Whatever the outcome of a reset, the device is in order; after success the queues are empty. *)
Lemma wp_IohSerialReset Fcr (Q : EFI_STATUS -> SERIAL_DEV D -> Prop) s :
  device_ok s ->
  (forall r s', in_order s s' -> tpl s'.(port) = tpl s.(port) -> (r = EFI_SUCCESS -> received s' = [] /\ waiting s' = []) ->
     r = EFI_SUCCESS \/ r = EFI_DEVICE_ERROR -> Q r s') ->
  wp (IohSerialReset Fcr) Q s.
Proof.
  intros Hs HQ. unfold IohSerialReset. apply wp_RaiseTPL. intros p1 T1 _ N1. set (s1 := with_port s.(log) p1 s).
  assert (I1 : in_order s s1) by (by apply in_order_port). assert (B1 : s1.(BaseAddress) = serial_base) by (apply Hs).
  clearbody s1. apply wp_reset_register; [done|offset|intros _ v; by rewrite set_field_bit by (unfold Lcr_DLab; lia)|]. intros s2 I2 B2 _ _.
  apply (wp_reset_register _ (fun v => Z.ldiff v 0x0f)); [done|offset|done|]. intros s3 I3 B3 _ _.
  apply wp_reset_write; [done|offset|done|]. intros s4 I4 B4 _ _. apply wp_reset_register; [done|offset|done|]. intros s5 I5 B5 _ _.
  apply wp_reset_write; [done|offset|done|]. intros s6 I6 B6 _ _. apply wp_bind, wp_get.
  assert (I : in_order s s6) by (do 5 (eapply in_order_trans; [|eassumption]); exact I1). clear I1 I2 I3 I4 I5 I6.
  assert (HE : forall r s7, in_order s s7 -> (r = EFI_SUCCESS -> received s7 = [] /\ waiting s7 = []) -> r = EFI_SUCCESS \/ r = EFI_DEVICE_ERROR ->
    wp (_ ← on_port (gBS_RestoreTPL (tpl s.(port))); mret r) Q s7).
  { intros r s7 I7 Hq Hr. apply wp_RestoreTPL. intros p T _ N. apply HQ; [|done|done|done].
    by eapply in_order_trans, in_order_port. }
  apply wp_bind, wp_IohSerialSetAttributes; [done| |].
  { intros _. change (EFI_ERROR EFI_INVALID_PARAMETER) with true. cbn iota. apply HE; [done|done|by right]. }
  intros r s7 V A7. pose proof (in_order_attributed _ _ _ _ _ _ _ _ V A7) as I7. assert (J7 : in_order s s7) by (by eapply in_order_trans).
  destruct (EFI_ERROR r); [apply HE; [done|done|by right]|]. apply wp_bind, wp_get. pose proof (proj1 J7 Hs) as O7.
  apply wp_bind, wp_IohSerialSetControl; [apply O7| |].
  { intros _. change (EFI_ERROR EFI_UNSUPPORTED) with true. cbn iota. apply HE; [done|done|by right]. }
  intros s8 _ C8. change (EFI_ERROR EFI_SUCCESS) with false. cbn iota. assert (J8 : in_order s s8) by (eapply in_order_trans; [exact J7|by eapply in_order_controlled]).
  apply wp_reset_write; [apply (proj1 J8 Hs)|offset|done|]. intros s9 I9 _ _ _. assert (J9 : in_order s s9) by (by eapply in_order_trans).
  destruct (proj1 J9 Hs) as [[K1 K2 K3 K4] M9 D9].
  destruct (empty_queue_wf _ K2) as [R1 R2], (empty_queue_wf _ K3) as [W1 W2]. apply wp_bind, wp_modify. apply HE; [|done|by left].
  split; [|apply J9]. intros _. split; [by split|done|done].
Qed.

(** ** Calls *)

Inductive serial_call :=
  | CallReset (Fcr : Z)
  | CallSetAttributes (BaudRate ReceiveFifoDepth Timeout Parity DataBits StopBits : Z)
  | CallSetControl (Control : Z)
  | CallGetControl
  | CallWrite (BufferSize : Z) (Buffer : option (list Z))
  | CallRead (BufferSize : Z) (Buffer : bool).

Definition run_call (c : serial_call) : M (SERIAL_DEV D) unit :=
  match c with
  | CallReset Fcr => _ ← IohSerialReset Fcr; mret tt
  | CallSetAttributes b d t p n st => _ ← IohSerialSetAttributes b d t p n st; mret tt
  | CallSetControl c => _ ← IohSerialSetControl c; mret tt
  | CallGetControl => _ ← IohSerialGetControl Rounds; mret tt
  | CallWrite Size Buffer => _ ← IohSerialWrite Rounds Size Buffer; mret tt
  | CallRead Size Buffer => _ ← IohSerialRead Rounds Size Buffer; mret tt
  end.

(** A buffer that is not NULL has as many bytes as the caller says. *)
Definition call_ok (c : serial_call) : Prop :=
  match c with CallWrite Size Buffer => 0 <= Size /\ forall l, Buffer = Some l -> (Z.to_nat Size <= length l)%nat | _ => True end.

Lemma wp_run_call c (Q : unit -> SERIAL_DEV D -> Prop) s :
  device_ok s -> enough s -> call_ok c ->
  (forall s', device_ok s' -> enough s' -> tpl s'.(port) = tpl s.(port) -> Q tt s') -> wp (run_call c) Q s.
Proof.
  intros Hs He Hc HQ.
  assert (HO : forall s', in_order s s' -> tpl s'.(port) = tpl s.(port) -> Q tt s').
  { intros s' [I N] T. apply HQ; [by apply I|unfold UartRules.enough in *; lia|done]. }
  assert (HK : forall s', kept s s' -> Q tt s') by (intros s' K; apply HO; [by apply in_order_kept|apply K]).
  destruct c as [Fcr|b d t p n st|c| |Size Buffer|Size Buffer]; cbn [run_call call_ok] in *; apply wp_bind.
  - apply wp_IohSerialReset; [done|]. intros r s' I T _ _. by apply wp_ret, HO.
  - apply wp_IohSerialSetAttributes; [apply Hs|intros _; apply wp_ret, HK, kept_refl|]. intros r s' V A. apply wp_ret, HO; [by eapply in_order_attributed|apply A].
  - apply wp_IohSerialSetControl; [apply Hs|intros _; apply wp_ret, HK, kept_refl|]. intros s' _ C. apply wp_ret, HO; [by eapply in_order_controlled|].
    destruct C as (_ & _ & _ & _ & _ & l & p & -> & _ & _ & _ & _ & T). done.
  - apply wp_IohSerialGetControl; [apply Hs|done|]. intros v s' K _. by apply wp_ret, HK.
  - apply wp_IohSerialWrite_any; [apply Hs|done|apply Hc|apply Hc|]. intros r s' K. by apply wp_ret, HK.
  - apply wp_IohSerialRead_any; [apply Hs|done|]. intros r s' K. by apply wp_ret, HK.
Qed.
End Settings.

(** A port whose transmitter is ready, that has no byte, and whose peer is there and never clear to send; everything else
    answers anything. *)
Record never_ready (D : Type) (B : SerialBus D) (base : Z) : Prop := {
  never_read : forall Offset d, 0 <= Offset < 32 -> wp (read_port (u32 (base + Offset))) (fun v _ =>
    (Offset = SERIAL_REGISTER_LSR -> Z.testbit v Lsr_Thre = true /\ Z.testbit v Lsr_Dr = false) /\
    (Offset = SERIAL_REGISTER_MSR -> Z.testbit v Msr_Dcd = true /\ Z.testbit v Msr_Cts = false)) d;
  never_write : forall Offset v d, 0 <= Offset < 32 -> wp (write_port (u32 (base + Offset)) v) (fun _ _ => True) d;
  never_stall : forall n d, wp (Stall n) (fun _ _ => True) d;
  never_raise : forall n d, wp (gBS_RaiseTPL n) (fun _ _ => True) d
}.

Section Hangs.
Context {D : Type} {B : SerialBus D} (base : Z) (N : never_ready D B base) (Half : PcdIsaBusSerialUseHalfHandshake = false).
Implicit Types (s : SERIAL_DEV D).

(** A byte is to be sent, with flow control. *)
Record stuck s : Prop := {
  stuck_base : s.(BaseAddress) = base;
  stuck_loop : s.(SoftwareLoopbackEnable) = false;
  stuck_flow : s.(HardwareFlowControl) = true;
  stuck_queue : fifo_wf s.(Transmit);
  stuck_waiting : waiting s <> []
}.

Lemma stuck_port l p s : stuck s -> stuck (with_port l p s).
Proof. by intros []. Qed.

Lemma stuck_full s : stuck s -> IohSerialFifoEmpty s.(Transmit) = false.
Proof. intros []. by rewrite empty_contents, bool_decide_false by done. Qed.

Lemma wp_never_read Offset (Q : Z -> SERIAL_DEV D -> Prop) s :
  stuck s -> 0 <= Offset < 32 ->
  (forall v s', stuck s' -> (Offset = SERIAL_REGISTER_LSR -> Z.testbit v Lsr_Thre = true /\ Z.testbit v Lsr_Dr = false) ->
     (Offset = SERIAL_REGISTER_MSR -> Z.testbit v Msr_Dcd = true /\ Z.testbit v Msr_Cts = false) -> Q v s') ->
  wp (IohSerialReadPort Offset) Q s.
Proof.
  intros Hs Ho HQ. unfold IohSerialReadPort. apply wp_bind, wp_gets. rewrite (stuck_base s Hs). apply wp_bind, wp_on_port.
  eapply wp_mono; [by apply (never_read _ _ _ N)|]. intros v p [H1 H2]. apply wp_bind, wp_modify, wp_ret. apply HQ; [|done|done].
  by do 2 apply stuck_port.
Qed.

Lemma wp_never_write Offset v (Q : unit -> SERIAL_DEV D -> Prop) s :
  stuck s -> 0 <= Offset < 32 -> (forall s', stuck s' -> Q tt s') -> wp (IohSerialWritePort Offset v) Q s.
Proof.
  intros Hs Ho HQ. unfold IohSerialWritePort. apply wp_bind, wp_gets. rewrite (stuck_base s Hs). apply wp_bind, wp_on_port.
  eapply wp_mono; [by apply (never_write _ _ _ N)|]. intros [] p _. apply wp_modify, HQ. by do 2 apply stuck_port.
Qed.

Lemma wp_never_cts n v (Q : Z -> SERIAL_DEV D -> Prop) s :
  stuck s -> Z.testbit v Msr_Dcd = true -> Z.testbit v Msr_Cts = false ->
  (forall v s', stuck s' -> Z.testbit v Msr_Dcd = true -> Z.testbit v Msr_Cts = false -> Q v s') -> wp (wait_cts n v) Q s.
Proof.
  intros Hs Hd Hc HQ. revert v s Hs Hd Hc. induction n as [|n IH]; intros v s Hs Hd Hc; cbn [wait_cts]; rewrite Hd, Hc, Half; cbn [xorb negb andb];
    apply wp_bind, wp_on_port; (eapply wp_mono; [apply (never_stall _ _ _ N)|]); intros [] p _; cbn beta.
  - apply wp_ret, HQ; [by apply stuck_port|done|done].
  - apply wp_bind, wp_never_read; [by apply stuck_port|offset|]. intros v' s' Hs' _ Hv. by apply IH; [|apply Hv..].
Qed.

Lemma wp_never_transmit (Q : unit -> SERIAL_DEV D -> Prop) s : stuck s -> (forall s', stuck s' -> Q tt s') -> wp transmit Q s.
Proof.
  intros Hs HQ. unfold transmit. apply wp_bind, wp_get. rewrite (stuck_flow s Hs), Half. apply wp_bind, wp_ret.
  apply wp_bind, wp_never_read; [done|offset|]. intros v s1 H1 _ Hv. destruct (Hv eq_refl) as [Hd Hc]. apply wp_bind, wp_never_cts; [done..|].
  intros v' s2 H2 Hd' Hc'. rewrite Hd', Hc'. cbn [negb xorb orb]. apply wp_bind, wp_ret, wp_ret. by apply HQ.
Qed.

Lemma wp_never_round Full (Q : Z * bool -> SERIAL_DEV D -> Prop) s :
  stuck s -> (forall Lsr Full' s', stuck s' -> Z.testbit Lsr Lsr_Thre = true -> Q (Lsr, Full') s') -> wp (round Full) Q s.
Proof.
  intros Hs HQ. unfold round. apply wp_bind, wp_never_read; [done|offset|]. intros v s1 H1 Hv _. destruct (Hv eq_refl) as [Ht Hd].
  apply wp_bind, wp_get. rewrite Hd, Ht, (stuck_full s1 H1). cbn [andb negb]. apply wp_bind, wp_never_transmit; [done|]. intros s2 H2.
  apply wp_ret. by apply HQ.
Qed.

Lemma rounds_hang fuel Full s : stuck s -> rounds fuel Full s = None.
Proof.
  revert Full s. induction fuel as [|fuel IH]; intros Full s Hs; [done|]. cbn [rounds]. apply bind_hangs, wp_never_round; [done|].
  intros Lsr Full' s1 H1 Ht. apply bind_hangs, wp_get. rewrite Ht, (stuck_full s1 H1). cbn [andb negb]. by apply IH.
Qed.

Lemma IohSerialReceiveTransmit_hangs Rounds s : stuck s -> IohSerialReceiveTransmit Rounds s = None.
Proof.
  intros Hs. unfold IohSerialReceiveTransmit. apply bind_hangs, wp_get. rewrite (stuck_loop s Hs). apply bind_hangs.
  destruct (_ && _); [|apply wp_ret; by apply rounds_hang]. unfold change_mcr. apply wp_bind, wp_never_read; [done|offset|]. intros v s1 H1 _ _.
  apply wp_never_write; [done|offset|]. intros s2 H2. by apply rounds_hang.
Qed.

Lemma write_bytes_hangs Rounds n Index Size b s :
  s.(BaseAddress) = base -> s.(SoftwareLoopbackEnable) = false -> s.(HardwareFlowControl) = true -> fifo_wf s.(Transmit) ->
  (length (waiting s) < 16)%nat -> is_Some (b !! Z.to_nat Index) -> write_bytes Rounds (S n) Index Size b s = None.
Proof.
  intros Hb Hl Hf Ht Hw [x Hx]. cbn [write_bytes]. apply bind_hangs. eapply wp_lift; [exact Hx|].
  apply bind_hangs, wp_add_transmit; [done|done|]. intros t T1 T2. apply bind_hangs, wp_get.
  assert (Hs : stuck (with_queues s.(Receive) t s)) by (split; [done|done|done|done|by unfold waiting; cbn [Transmit with_queues]; rewrite T2; destruct (waiting s)]).
  unfold wait_fuel. cbn [write_wait]. apply first_hangs, first_hangs. by apply IohSerialReceiveTransmit_hangs.
Qed.
End Hangs.
