(* ===== verification/UartTheorems.v ===== *)
(** * The serial port driver: theorems

    The queues are queues; every sequence of calls leaves the device in order and returns; bytes are neither lost nor doubled
    without the software loopback, and lost with it when a queue is full; settings are read back; and what flow control
    does when the peer is never ready. Then the theorems at concrete calls, on a port with bytes on the line, some of them broken,
    a transmitter that is busy for a while and a peer that is not ready for a while, and on a port whose peer is never ready. *)

From S2P Require Import Prelude UartDefs UartRules UartSettings.
From stdpp Require Import list.
#[local] Open Scope Z_scope.

(** ** The queue *)

Inductive fifo_op := Add (b : Z) | Remove.

Fixpoint run_fifo (ops : list fifo_op) (f : SERIAL_DEV_FIFO) : option (list (EFI_STATUS * option Z) * SERIAL_DEV_FIFO) :=
  match ops with
  | [] => Some ([], f)
  | Add b :: ops => '(st, f) ← IohSerialFifoAdd f b; '(l, f) ← run_fifo ops f; Some ((st, None) :: l, f)
  | Remove :: ops => '(st, b, f) ← IohSerialFifoRemove f; '(l, f) ← run_fifo ops f; Some ((st, b) :: l, f)
  end.

(** A queue of at most sixteen bytes. *)
Fixpoint run_queue (ops : list fifo_op) (q : list Z) : list (EFI_STATUS * option Z) * list Z :=
  match ops with
  | [] => ([], q)
  | Add b :: ops =>
      let full := bool_decide (length q = 16%nat) in
      let r := run_queue ops (if full then q else q ++ [b]) in
      ((if full then EFI_OUT_OF_RESOURCES else EFI_SUCCESS, None) :: r.1, r.2)
  | Remove :: ops =>
      let r := run_queue ops (tail q) in
      ((match q with [] => (EFI_OUT_OF_RESOURCES, None) | b :: _ => (EFI_SUCCESS, Some b) end) :: r.1, r.2)
  end.

(** The ring of sixteen bytes is a bounded queue: whatever bytes are added and removed, the array is never accessed out of
    range, a byte is refused exactly when there are sixteen, and what is removed is what was added, in order. *)
Theorem IohSerialFifo_refines_queue ops f : fifo_wf f ->
  exists f', run_fifo ops f = Some ((run_queue ops (contents f)).1, f') /\ fifo_wf f' /\ contents f' = (run_queue ops (contents f)).2.
Proof.
  revert f. induction ops as [|[b|] ops IH]; intros f Hf; cbn [run_fifo run_queue]; [by exists f| |].
  - pose proof (length_queue f Hf) as H16. destruct (bool_decide_reflect (length (contents f) = 16%nat)) as [E|E].
    + rewrite add_full by done. cbn [mbind option_bind]. destruct (IH f Hf) as (f' & -> & H). by exists f'.
    + destruct (add_contents f b Hf) as (f1 & -> & W1 & C1); [lia|]. cbn [mbind option_bind]. destruct (IH f1 W1) as (f' & -> & H). rewrite C1 in *. by exists f'.
  - destruct (contents f) as [|b l] eqn:E.
    + rewrite remove_empty by done. cbn [mbind option_bind]. destruct (IH f Hf) as (f' & -> & H). rewrite E in *. by exists f'.
    + destruct (remove_contents f b l Hf E) as (f1 & -> & W1 & C1). cbn [mbind option_bind]. destruct (IH f1 W1) as (f' & -> & H). rewrite C1 in *. by exists f'.
Qed.

Section Theorems.
Context {D : Type} {B : SerialBus D} {L : SerialLaws D}.
Context (Rounds : nat).
Implicit Types (s : SERIAL_DEV D).
Abbreviation enough := (enough Rounds).

(** C29: Over every sequence of calls of the services, with any parameters and whatever the port answers, the device stays
    well-formed (its queues are queues, its settings are values that the port can have, the divisor latch is closed), every
    call returns, and the task priority is the caller's again. The port may report only finitely many broken bytes and
    waits for its peer; the rounds of a run are more than that number and the bytes in the queues. *)
Theorem IohSerial_calls_in_order calls s :
  device_ok s -> enough s -> Forall call_ok calls ->
  wp (for_each calls (run_call Rounds)) (fun _ s' => device_ok s' /\ tpl s'.(port) = tpl s.(port)) s.
Proof.
  intros Hs He Hc. apply (wp_for_each (fun _ s' => device_ok s' /\ enough s' /\ tpl s'.(port) = tpl s.(port))); [done| |by intros s' (H1 & _ & H2)].
  intros pre c post s1 Hl (O1 & E1 & T1). apply wp_run_call; [done|done| |intros s' O' E' T'; split; [done|split; [done|congruence]]].
  rewrite Hl in Hc. apply Forall_app in Hc as [_ Hc]. by apply Forall_cons_1 in Hc as [Hc _].
Qed.

(** C21: Without the software loopback no byte is doubled or reordered, and one kind of byte is lost: the first byte of a write that
    finds sixteen bytes still waiting, left there by writes whose time was up, is dropped ([entered]). A write sends what was waiting
    and then, that byte apart, the buffer, and says that all of it was written, the byte that was dropped included; or, when time is
    up after [k] bytes, it says so, but the byte after them has been taken too (or dropped, if it is the first) and waits in the
    queue, from where a later call sends it. A read returns the bytes that were waiting and then those that arrived unbroken, as
    many as asked for or, when time is up, all there are. The port may report only finitely many broken bytes and waits for its
    peer; the rounds of a run are more than that number and the bytes in the queues ([enough]). *)
Theorem IohSerialWrite_IohSerialRead_bytes s :
  serial_ok s -> enough s -> s.(SoftwareLoopbackEnable) = false ->
  (forall b, b <> [] ->
     wp (IohSerialWrite Rounds (Z.of_nat (length b)) (Some b)) (fun '(st, k) s' =>
       (st = EFI_SUCCESS /\ k = Z.of_nat (length b) /\ moves (entered s b) [] s s' /\ waiting s' = []) \/
       (st = EFI_TIMEOUT /\ 0 <= k < Z.of_nat (length b) /\ moves (entered s (take (S (Z.to_nat k)) b)) [] s s' /\ waiting s' <> [])) s) /\
  (forall n, n <> 0%nat ->
     wp (IohSerialRead Rounds (Z.of_nat n) true) (fun '(st, k, l) s' =>
       k = Z.of_nat (length l) /\ moves [] l s s' /\
       ((st = EFI_SUCCESS /\ length l = n) \/ (st = EFI_TIMEOUT /\ (length l < n)%nat /\ received s' = []))) s).
Proof.
  intros Hs He Hl. split.
  - intros b Hb. apply wp_IohSerialWrite; [done..| |].
    + intros s' M W. by left.
    + intros k s' Hk M W. right. split; [done|]. split; [lia|]. by rewrite Nat2Z.id.
  - intros n Hn. apply wp_IohSerialRead; [done..| |].
    + intros l s' M Hlen. split; [by rewrite Hlen|]. split; [done|]. by left.
    + intros l s' M Hlen Hr. split; [done|]. split; [done|]. by right.
Qed.

(** With the software loopback what is written can be read back, and the port is not touched - up to sixteen bytes. Every byte
    beyond is lost, while the write reports all of them as written. *)
Theorem IohSerial_loopback_roundtrip b n s :
  serial_ok s -> s.(SoftwareLoopbackEnable) = true -> waiting s = [] -> b <> [] -> n <> 0%nat -> (n <= length (take 16 (received s ++ b)))%nat ->
  wp (r ← IohSerialWrite Rounds (Z.of_nat (length b)) (Some b); x ← IohSerialRead Rounds (Z.of_nat n) true; mret (r, x)) (fun '(r, x) s' =>
    r = (EFI_SUCCESS, Z.of_nat (length b)) /\ x = (EFI_SUCCESS, Z.of_nat n, take n (received s ++ b)) /\
    received s' = drop n (take 16 (received s ++ b)) /\ waiting s' = [] /\ s'.(log) = s.(log)) s.
Proof.
  intros Hs Hl Hw Hb Hn Hlen. apply wp_bind, wp_IohSerialWrite_looped; [done..|]. intros s1 (R1 & W1 & L1 & K1).
  apply wp_bind, wp_IohSerialRead_looped; [by apply K1|by rewrite (kept_loop _ _ K1)|done|by rewrite R1|done|].
  intros s2 (R2 & W2 & L2 & _). apply wp_ret. split; [done|]. split; [|split; [by rewrite R2, R1|split; [done|congruence]]].
  rewrite R1, take_take. rewrite length_take in Hlen. by rewrite Nat.min_l by lia.
Qed.

(** Control bits can be set exactly when they are among the five that can be, otherwise nothing changes; read back, they are what
    was set. *)
Theorem IohSerialSetControl_GetControl c s :
  serial_ok s -> enough s -> in_width 32 c ->
  wp (IohSerialSetControl c) (fun st s' =>
    if control_ok c then st = EFI_SUCCESS /\ wp (IohSerialGetControl Rounds) (fun '(st, v) _ => st = EFI_SUCCESS /\ Z.land v 0x7003 = c) s'
    else st = EFI_UNSUPPORTED /\ s' = s) s.
Proof.
  intros Hs He Hc. apply wp_IohSerialSetControl; [done|by intros ->|]. intros s' Hok C. rewrite Hok. split; [done|].
  destruct C as (C1 & C2 & C3 & C4 & C5 & l & p & E & _ & _ & _ & N & _). apply wp_IohSerialGetControl.
  - destruct Hs. rewrite E. by split.
  - unfold UartRules.enough in *. rewrite E. cbn [with_control with_port port]. lia.
  - intros v s2 _ Hv. split; [done|]. rewrite Hv, C1, C2, C3, C4, C5. symmetry. by apply control_bits.
Qed.

(** C31: Attributes are accepted exactly when they are valid after zeros are replaced by defaults; otherwise the status is
    EFI_INVALID_PARAMETER and nothing is touched. Five and six data bits are among the refused, with EFI_INVALID_PARAMETER as for
    every other: a comment in the body of the code says so too, while the comment at the head of the function promises
    EFI_UNSUPPORTED for them, a status that the code never returns. When they are accepted, the divisor of the rate and the fields of the line are
    programmed, with the divisor latch closed at the end, and the mode says what was set, whatever becomes of the device
    path. *)
Theorem IohSerialSetAttributes_exact b d t p n st s :
  s.(BaseAddress) = serial_base ->
  let b' := or_default b 0 PcdUartDefaultBaudRate in
  let d' := or_default d 0 SERIAL_PORT_DEFAULT_RECEIVE_FIFO_DEPTH in
  let t' := or_default t 0 SERIAL_PORT_DEFAULT_TIMEOUT in
  let p' := or_default p DefaultParity PcdUartDefaultParity in
  let n' := or_default n 0 PcdUartDefaultDataBits in
  let st' := or_default st DefaultStopBits PcdUartDefaultStopBits in
  wp (IohSerialSetAttributes b d t p n st) (fun r s' =>
    (valid_attributes b' d' t' p' n' st' /\ attributed b' d' t' p' n' st' s s') \/
    (~ valid_attributes b' d' t' p' n' st' /\ r = EFI_INVALID_PARAMETER /\ s' = s)) s.
Proof.
  intros Hb b' d' t' p' n' st'. apply wp_IohSerialSetAttributes; [done| |].
  - intros HV. by right.
  - intros r s' HV HA. by left.
Qed.
End Theorems.

(** C30: With flow control, a write to a peer that never becomes ready does not return, whatever the time limit of the device: the
    limit is looked at between two runs of [IohSerialReceiveTransmit], and the first run does not end, however many rounds
    it is given. *)
Theorem IohSerialWrite_hangs {D} {B : SerialBus D} base Rounds b (s : SERIAL_DEV D) :
  never_ready D B base -> PcdIsaBusSerialUseHalfHandshake = false -> s.(BaseAddress) = base ->
  s.(SoftwareLoopbackEnable) = false -> s.(HardwareFlowControl) = true -> fifo_wf s.(Transmit) -> (length (waiting s) < 16)%nat -> b <> [] ->
  IohSerialWrite Rounds (Z.of_nat (length b)) (Some b) s = None.
Proof.
  intros N Hh Hb Hl Hf Ht Hw Hn. destruct b as [|x b]; [done|]. unfold IohSerialWrite.
  assert (E : (Z.of_nat (length (x :: b)) =? 0) = false) by (apply Z.eqb_neq; cbn [length]; lia). rewrite E, Nat2Z.id.
  apply bind_hangs, wp_on_port. eapply wp_mono; [apply (never_raise _ _ _ N)|]. intros old p _. apply first_hangs.
  by eapply write_bytes_hangs.
Qed.

(** ** A port *)

Definition uart_base : Z := 0x9000F000.

(** The bytes that arrive, with whether they are broken, the number of times that the transmitter is found busy and the peer not
    ready, the task priority and the modem control register. *)
Record uart := { line : list (Z * bool); busy : nat; absent : nat; u_tpl : Z; u_mcr : Z }.

Definition with_line (l : list (Z * bool)) (busy absent : nat) (d : uart) : uart :=
  {| line := l; busy := busy; absent := absent; u_tpl := d.(u_tpl); u_mcr := d.(u_mcr) |}.

(** Reading the line status clears the errors, as it does in a 16550. *)
Definition uart_read (Offset : Z) (d : uart) : Z * uart :=
  if Offset =? SERIAL_REGISTER_RBR then
    match d.(line) with [] => (0, d) | (b, _) :: l => (u8 b, with_line l d.(busy) d.(absent) d) end
  else if Offset =? SERIAL_REGISTER_LSR then
    let Thre := if (d.(busy) =? 0)%nat then 0x20 else 0 in
    match d.(line) with
    | [] => (Thre, with_line [] (pred d.(busy)) d.(absent) d)
    | (b, e) :: l => (Thre + (if e then 0x89 else 1), with_line ((b, false) :: l) (pred d.(busy)) d.(absent) d)
    end
  else if Offset =? SERIAL_REGISTER_MSR then
    match d.(absent) with O => (0x90, d) | S n => (0x80, with_line d.(line) d.(busy) n d) end
  else if Offset =? SERIAL_REGISTER_MCR then (Z.land d.(u_mcr) 0x1f, d)
  else (0, d).
Definition uart_write (Offset v : Z) (d : uart) : uart :=
  if Offset =? SERIAL_REGISTER_MCR then {| line := d.(line); busy := d.(busy); absent := d.(absent); u_tpl := d.(u_tpl); u_mcr := v |} else d.
Definition uart_raise (n : Z) (d : uart) : uart := {| line := d.(line); busy := d.(busy); absent := d.(absent); u_tpl := n; u_mcr := d.(u_mcr) |}.

#[local] Instance uart_bus : SerialBus uart := {|
  MmioRead8 := fun A d => Some (uart_read (A - uart_base) d);
  IoRead8 := fun A d => Some (0xff, d);
  MmioWrite8 := fun A v d => Some (tt, uart_write (A - uart_base) v d);
  IoWrite8 := fun A v d => Some (tt, d);
  Stall := fun _ d => Some (tt, d);
  gBS_RaiseTPL := fun n d => Some (d.(u_tpl), uart_raise n d);
  gBS_RestoreTPL := fun n d => Some (tt, uart_raise n d);
  AppendDevicePathNode := fun _ d => Some (0x7000, d);
  ReinstallProtocolInterface := fun _ _ d => Some (EFI_SUCCESS, d);
  FreePool := fun _ d => Some (tt, d);
  DivU64x32Remainder := Z.div;
  PcdIohUartUseMmio := true;
  PcdIsaBusSerialUseHalfHandshake := false;
  PcdIohUartClkFreq := 44236800;
  PcdUartDefaultBaudRate := 115200;
  PcdUartDefaultDataBits := 8;
  PcdUartDefaultParity := 1;
  PcdUartDefaultStopBits := 1 |}.

Fixpoint broken_bytes (l : list (Z * bool)) : nat := match l with [] => 0 | (_, e) :: l => Nat.b2n e + broken_bytes l end.
Definition uart_noise (d : uart) : nat := broken_bytes d.(line) + d.(absent).

Lemma uart_address Offset : 0 <= Offset < 32 -> u32 (uart_base + Offset) - uart_base = Offset.
Proof. intros Ho. rewrite wrap_small by (unfold uart_base; lia). lia. Qed.

(** What is complained about is known. *)
Ltac report :=
  repeat match goal with |- context [complaint ?A ?v] => let c := eval vm_compute in (complaint A v) in change (complaint A v) with c end;
  cbn [Nat.b2n]; lia.

Lemma uart_reads Offset d : 0 <= Offset < 32 ->
  let '(v, d') := uart_read Offset d in
  in_width 8 v /\ d'.(u_tpl) = d.(u_tpl) /\ d'.(u_mcr) = d.(u_mcr) /\ (uart_noise d' + Nat.b2n (complaint Offset v) <= uart_noise d)%nat /\
  (Offset = SERIAL_REGISTER_MCR -> Z.land v 0x1f = Z.land d.(u_mcr) 0x1f).
Proof.
  intros _. destruct d as [l n a t m]. unfold uart_read. cbn [line busy absent u_tpl u_mcr].
  assert (HN : forall A (v : Z), A <> SERIAL_REGISTER_LSR -> A <> SERIAL_REGISTER_MSR -> complaint A v = false).
  { intros A v H1 H2. unfold complaint, is_at. by rewrite (proj2 (Z.eqb_neq _ _) H1), (proj2 (Z.eqb_neq _ _) H2). }
  destruct (Z.eqb_spec Offset SERIAL_REGISTER_RBR) as [->|H1].
  { destruct l as [|[b e] l]; cbn -[complaint wrap]; rewrite HN by done; unfold uart_noise; cbn -[wrap];
      (split; [|split; [done|split; [done|split; [lia|done]]]]); [done|by apply wrap_in_width]. }
  destruct (Z.eqb_spec Offset SERIAL_REGISTER_LSR) as [->|H2].
  { unfold uart_noise. destruct l as [|[b []] l], n; cbn; (split; [by split|split; [done|split; [done|split; [report|done]]]]). }
  destruct (Z.eqb_spec Offset SERIAL_REGISTER_MSR) as [->|H3].
  { unfold uart_noise. destruct a; cbn; (split; [by split|split; [done|split; [done|split; [report|done]]]]). }
  destruct (Z.eqb_spec Offset SERIAL_REGISTER_MCR) as [->|H4]; cbn [u_tpl u_mcr]; rewrite HN by done; cbn [Nat.b2n]; (split; [|split; [done|split; [done|split; [lia|]]]]).
  - change 0x1f with (Z.ones 5). rewrite Z.land_ones by lia. pose proof (Z.mod_pos_bound m (2 ^ 5)). unfold in_width. lia.
  - intros _. by rewrite <- Z.land_assoc.
  - by split.
  - intros E. by destruct (H4 E).
Qed.

#[local] Instance uart_laws : SerialLaws uart.
Proof.
  refine {| serial_base := uart_base; noise := uart_noise; tpl := u_tpl; mcr := fun d => Z.land d.(u_mcr) 0x1f |}.
  - intros Offset d Ho. unfold read_port, MmioRead8, uart_bus, PcdIohUartUseMmio. rewrite uart_address by done. pose proof (uart_reads Offset d Ho) as H.
    destruct (uart_read Offset d) as [v d'] eqn:E. destruct H as (H1 & H2 & H3 & H4 & H5). exists v, d'. rewrite E, H3. split; [done|].
    split; [done|]. split; [done|]. split; [done|]. by split.
  - intros Offset v d Ho. eexists tt, _. split; [reflexivity|]. cbn beta. rewrite uart_address by done. unfold uart_write, is_at. by destruct (Offset =? _).
  - intros n d. by eexists tt, _.
  - intros n d. by eexists _, _.
  - intros n d. by eexists tt, _.
  - intros n d. by eexists _, _.
  - intros p q d. by eexists _, _.
  - intros p d. by eexists tt, _.
  - done.
  - by split.
Defined.

(** ** A device *)

Definition queue_at (i : Z) : SERIAL_DEV_FIFO := {| First := i; Last := i; Surplus := 16; Data := repeat 0 16 |}.
Lemma queue_at_wf i : 0 <= i < 16 -> fifo_wf (queue_at i).
Proof. intros Hi. split; cbn [queue_at First Last Surplus Data]; unfold SERIAL_MAX_BUFFER_SIZE; [done|lia| |done]. rewrite Z.sub_diag, Z.add_0_r. symmetry. by apply Z.mod_small. Qed.

Definition usual_mode : EFI_SERIAL_IO_MODE :=
  {| ControlMask := 0x7003; Timeout := 1000000; BaudRate := 115200; ReceiveFifoDepth := 1; DataBits := 8; Parity := 1; StopBits := 1 |}.
Definition device {D} (mode : EFI_SERIAL_IO_MODE) (loop flow : bool) (d : D) : SERIAL_DEV D :=
  {| Handle := 0x6000; SerialMode := mode; DevicePath := 0x6100;
     UartDevicePath := {| path_BaudRate := 9600; path_DataBits := 8; path_Parity := 1; path_StopBits := 1 |};
     BaseAddress := uart_base; Receive := queue_at 14; Transmit := queue_at 15; SoftwareLoopbackEnable := loop; HardwareFlowControl := flow;
     log := []; port := d |}.

(** Four bytes are on the line, the second broken; the transmitter is busy twice and the peer once not ready. *)
Definition busy_port : uart := {| line := [(0x61, false); (0x62, true); (0x63, false); (0x64, false)]; busy := 2; absent := 1; u_tpl := 4; u_mcr := 0 |}.

Lemma device_serial_ok mode loop flow (d : uart) :
  SERIAL_PORT_MIN_TIMEOUT <= mode.(Timeout) <= SERIAL_PORT_MAX_TIMEOUT -> serial_ok (device mode loop flow d).
Proof. intros Ht. split; [done|by apply queue_at_wf|by apply queue_at_wf|done]. Qed.

Lemma usual_device_ok loop flow (d : uart) : device_ok (device usual_mode loop flow d).
Proof.
  split; [apply device_serial_ok; by split| |done]. split; cbn [device SerialMode usual_mode Timeout BaudRate ReceiveFifoDepth Parity DataBits StopBits].
  - by split.
  - by split.
  - by split.
  - by split.
  - by right.
  - by left.
Qed.

(** ** The theorems *)

Lemma IohSerialFifo_refines_queue_witness : fifo_wf (queue_at 14) /\
  exists f', run_fifo (map UartTheorems.Add (seqZ 0 17) ++ [Remove; Remove; UartTheorems.Add 99]) (queue_at 14) = Some (repeat (EFI_SUCCESS, None) 16 ++
      [(EFI_OUT_OF_RESOURCES, None); (EFI_SUCCESS, Some 0); (EFI_SUCCESS, Some 1); (EFI_SUCCESS, None)], f') /\
    contents f' = seqZ 2 14 ++ [99].
Proof.
  split; [by apply queue_at_wf|].
  destruct (IohSerialFifo_refines_queue (map UartTheorems.Add (seqZ 0 17) ++ [Remove; Remove; UartTheorems.Add 99]) (queue_at 14)) as (f' & H1 & _ & H2).
  { apply queue_at_wf. lia. }
  exists f'. split; [exact H1|exact H2].
Defined.

Definition some_calls : list serial_call :=
  [CallReset 0; CallSetAttributes 9600 1 0 2 7 3; CallSetControl 0x4003; CallWrite 3 (Some [1; 2; 3]); CallRead 2 true; CallGetControl; CallWrite 0 None].

Lemma IohSerial_calls_in_order_witness :
  wp (for_each some_calls (run_call 64)) (fun _ s' => device_ok s' /\ s'.(port).(u_tpl) = 4) (device usual_mode false true busy_port).
Proof.
  eapply wp_mono; [apply (IohSerial_calls_in_order 64 some_calls (device usual_mode false true busy_port))|].
  - apply usual_device_ok.
  - vm_compute. lia.
  - repeat (apply Forall_cons_2; [try exact I|]); [| |apply Forall_nil_2]; (split; [lia|]); intros l H; [injection H as <-; cbn; lia|discriminate H].
  - intros a s' H. exact H.
Defined.

(** Sixteen bytes are waiting: of three that are written, and reported as written, the first is dropped. *)
Definition full_device : SERIAL_DEV uart :=
  with_queues (queue_at 14) {| First := 0; Last := 0; Surplus := 0; Data := seqZ 0x30 16 |} (device usual_mode false true busy_port).

Lemma IohSerialWrite_IohSerialRead_bytes_witness :
  wp (IohSerialWrite 64 3 (Some [1; 2; 3])) (fun '(st, k) s' =>
    (st = EFI_SUCCESS /\ k = 3 /\ moves [1; 2; 3] [] (device usual_mode false true busy_port) s' /\ waiting s' = []) \/
    (st = EFI_TIMEOUT /\ 0 <= k < 3 /\ moves (take (S (Z.to_nat k)) [1; 2; 3]) [] (device usual_mode false true busy_port) s' /\ waiting s' <> []))
    (device usual_mode false true busy_port) /\
  match IohSerialWrite 64 3 (Some [1; 2; 3]) full_device with
  | Some (r, s') => r = (EFI_SUCCESS, 3) /\ sent s'.(log) = seqZ 0x30 16 ++ [2; 3] | None => False
  end /\
  wp (IohSerialWrite 64 3 (Some [1; 2; 3])) (fun '(st, k) s' =>
    (st = EFI_SUCCESS /\ k = 3 /\ moves [2; 3] [] full_device s' /\ waiting s' = []) \/
    (st = EFI_TIMEOUT /\ 0 <= k < 3 /\ moves (entered full_device (take (S (Z.to_nat k)) [1; 2; 3])) [] full_device s' /\ waiting s' <> [])) full_device.
Proof.
  split; [|split; [vm_compute; split; reflexivity|]].
  - destruct (IohSerialWrite_IohSerialRead_bytes 64 (device usual_mode false true busy_port)) as [H _].
    + apply device_serial_ok. by_compute.
    + vm_compute. lia.
    + reflexivity.
    + apply (H [1; 2; 3]). discriminate.
  - destruct (IohSerialWrite_IohSerialRead_bytes 64 full_device) as [H _].
    + split; [reflexivity|by apply queue_at_wf|by split|by_compute].
    + vm_compute. lia.
    + reflexivity.
    + apply (H [1; 2; 3]). discriminate.
Defined.

(** More than sixteen bytes: all are reported as written, sixteen can be read. *)
Lemma IohSerial_loopback_roundtrip_witness :
  wp (r ← IohSerialWrite 64 20 (Some (seqZ 0 20)); x ← IohSerialRead 64 16 true; mret (r, x)) (fun '(r, x) s' =>
    r = (EFI_SUCCESS, 20) /\ x = (EFI_SUCCESS, 16, seqZ 0 16) /\ received s' = []) (device usual_mode true false busy_port).
Proof.
  eapply wp_mono; [apply (IohSerial_loopback_roundtrip 64 (seqZ 0 20) 16 (device usual_mode true false busy_port))|].
  - apply device_serial_ok. by_compute.
  - reflexivity.
  - reflexivity.
  - discriminate.
  - discriminate.
  - vm_compute. lia.
  - intros [r x] s' (H1 & H2 & H3 & _). split; [exact H1|]. split; [exact H2|exact H3].
Defined.

Lemma IohSerialSetControl_GetControl_witness :
  wp (IohSerialSetControl 0x4003) (fun st s' =>
    st = EFI_SUCCESS /\ wp (IohSerialGetControl 64) (fun '(st, v) _ => st = EFI_SUCCESS /\ Z.land v 0x7003 = 0x4003) s') (device usual_mode true false busy_port).
Proof.
  apply (IohSerialSetControl_GetControl 64 0x4003 (device usual_mode true false busy_port)).
  - apply device_serial_ok. by_compute.
  - vm_compute. lia.
  - by_compute.
Defined.

Lemma IohSerialSetAttributes_exact_witness :
  wp (IohSerialSetAttributes 9600 1 0 EvenParity 7 TwoStopBits) (fun _ s' =>
    attributed 9600 1 1000000 EvenParity 7 TwoStopBits (device usual_mode false false busy_port) s') (device usual_mode false false busy_port).
Proof.
  eapply wp_mono; [apply (IohSerialSetAttributes_exact 9600 1 0 EvenParity 7 TwoStopBits (device usual_mode false false busy_port)); reflexivity|].
  intros r s' [[_ H]|[H _]]; [exact H|]. exfalso. apply H. split; [by left|]. do 3 (split; [by_compute|]). split; [by_compute|]. split; [by right|by_compute].
Defined.

(** ** What the calls do here *)

(** Three bytes are read; the broken one is not among them. *)
Example read_drops_broken :
  (fun r => r.1) <$> IohSerialRead 64 3 true (device usual_mode false false busy_port) = Some (EFI_SUCCESS, 3, [0x61; 0x63; 0x64]).
Proof. by vm_compute. Qed.

(** A byte that was reported as not written is sent by the next write, before the byte of that write. *)
Definition hurried_mode : EFI_SERIAL_IO_MODE :=
  {| ControlMask := 0; Timeout := 1; BaudRate := 115200; ReceiveFifoDepth := 1; DataBits := 8; Parity := 1; StopBits := 1 |}.
Definition slow_port : uart := {| line := []; busy := 2; absent := 0; u_tpl := 4; u_mcr := 0 |}.
Example late_byte :
  (fun r => (r.1, sent r.2.(log))) <$> (r ← IohSerialWrite 64 1 (Some [0x41]); x ← IohSerialWrite 64 1 (Some [0x42]); mret (r, x))
    (device hurried_mode false false slow_port) = Some ((EFI_TIMEOUT, 0, (EFI_SUCCESS, 1)), [0x41; 0x42]).
Proof. by vm_compute. Qed.

(** After a reset the port has the attributes of the mode and the queues are empty. *)
Example reset_port :
  (fun r => (r.1, received r.2, waiting r.2, line_control r.2.(log))) <$> (_ ← IohSerialWrite 64 1 (Some [0x41]); IohSerialReset 0)
    (device usual_mode true false busy_port) = Some (EFI_SUCCESS, [], [], Some 3).
Proof. by vm_compute. Qed.

(** ** A peer that is never ready *)

Section Never.
#[local] Instance never_bus : SerialBus unit := {|
  MmioRead8 := fun A d => Some (if A - uart_base =? SERIAL_REGISTER_LSR then 0x20 else 0x80, d);
  IoRead8 := fun A d => Some (0xff, d);
  MmioWrite8 := fun A v d => Some (tt, d);
  IoWrite8 := fun A v d => Some (tt, d);
  Stall := fun _ d => Some (tt, d);
  gBS_RaiseTPL := fun n d => Some (4, d);
  gBS_RestoreTPL := fun n d => Some (tt, d);
  AppendDevicePathNode := fun _ d => Some (0x7000, d);
  ReinstallProtocolInterface := fun _ _ d => Some (EFI_SUCCESS, d);
  FreePool := fun _ d => Some (tt, d);
  DivU64x32Remainder := Z.div;
  PcdIohUartUseMmio := true;
  PcdIsaBusSerialUseHalfHandshake := false;
  PcdIohUartClkFreq := 44236800;
  PcdUartDefaultBaudRate := 115200;
  PcdUartDefaultDataBits := 8;
  PcdUartDefaultParity := 1;
  PcdUartDefaultStopBits := 1 |}.

Lemma never_bus_ready : never_ready unit never_bus uart_base.
Proof.
  split.
  - intros Offset d Ho. unfold read_port, MmioRead8, never_bus, PcdIohUartUseMmio. rewrite uart_address by done. eexists _, d. split; [reflexivity|].
    split; intros ->; by split.
  - intros Offset v d Ho. by exists tt, d.
  - intros n d. by exists tt, d.
  - intros n d. by exists 4, d.
Qed.

Lemma IohSerialWrite_hangs_witness : IohSerialWrite 1000 1 (Some [0x41]) (device usual_mode false true tt) = None.
Proof.
  apply (IohSerialWrite_hangs uart_base 1000 [0x41] (device usual_mode false true tt)).
  - exact never_bus_ready.
  - reflexivity.
  - reflexivity.
  - reflexivity.
  - reflexivity.
  - apply queue_at_wf. lia.
  - vm_compute. lia.
  - discriminate.
Defined.
End Never.
