(* ===== verification/SmiDefs.v ===== *)
(** * The dispatcher of SMIs: definitions

    Models [QuarkNorthCluster/Smm/DxeSmm/QncSmmDispatcher]: the descriptions of sources and the accesses to their bits
    ([QNCSmmHelpers.c], [QNC/QNCSmmHelpers.c]), the sources ([QNC/QNCSmm*.c]), the database of children and the dispatcher
    ([QNCSmmCore.c]). *)

From S2P Require Import Prelude QNCAccess.
From stdpp Require Import gmap list.
#[local] Open Scope Z_scope.

(** ** Registers *)

Definition R_QNC_PM1BLK_PM1S : Z := 0x00.
Definition S_QNC_PM1BLK_PM1S : Z := 2.
Definition B_QNC_PM1BLK_PM1S_WAKE : Z := 2 ^ 15.
Definition B_QNC_PM1BLK_PM1S_PCIEWSTS : Z := 2 ^ 14.
Definition B_QNC_PM1BLK_PM1S_RTC : Z := 2 ^ 10.
Definition B_QNC_PM1BLK_PM1S_GLOB : Z := 2 ^ 5.
Definition B_QNC_PM1BLK_PM1S_TO : Z := 2 ^ 0.
Definition N_QNC_PM1BLK_PM1S_RTC : Z := 10.
Definition R_QNC_PM1BLK_PM1E : Z := 0x02.
Definition S_QNC_PM1BLK_PM1E : Z := 2.
Definition N_QNC_PM1BLK_PM1E_RTC : Z := 10.
Definition R_QNC_PM1BLK_PM1C : Z := 0x04.
Definition B_QNC_PM1BLK_PM1C_SLPEN : Z := 2 ^ 13.
Definition B_QNC_PM1BLK_PM1C_SLPTP : Z := 2 ^ 12 + 2 ^ 11 + 2 ^ 10.
Definition V_S0 : Z := 0x00000000.
Definition V_S3 : Z := 0x00001400.
Definition V_S4 : Z := 0x00001800.
Definition V_S5 : Z := 0x00001C00.
Definition B_QNC_PM1BLK_PM1C_SCIEN : Z := 2 ^ 0.
Definition R_QNC_LPC_GPE0BLK : Z := 0x4C.
Definition R_QNC_GPE0BLK_GPE0S : Z := 0x00.
Definition S_QNC_GPE0BLK_GPE0S : Z := 4.
Definition B_QNC_GPE0BLK_GPE0S_ALL : Z := 0x00003F800.
Definition N_QNC_GPE0BLK_GPE0S_THRM : Z := 12.
Definition R_QNC_GPE0BLK_GPE0E : Z := 0x04.
Definition S_QNC_GPE0BLK_GPE0E : Z := 4.
Definition N_QNC_GPE0BLK_GPE0E_THRM : Z := 12.
Definition R_QNC_GPE0BLK_SMIE : Z := 0x10.
Definition S_QNC_GPE0BLK_SMIE : Z := 4.
Definition B_QNC_GPE0BLK_SMIE_SLP : Z := 2 ^ 2.
Definition N_QNC_GPE0BLK_SMIE_GPIO : Z := 9.
Definition N_QNC_GPE0BLK_SMIE_APM : Z := 4.
Definition N_QNC_GPE0BLK_SMIE_SLP : Z := 2.
Definition N_QNC_GPE0BLK_SMIE_SWT : Z := 1.
Definition R_QNC_GPE0BLK_SMIS : Z := 0x14.
Definition S_QNC_GPE0BLK_SMIS : Z := 4.
Definition B_QNC_GPE0BLK_SMIS_ALL : Z := 0x0003871F.
Definition B_QNC_GPE0BLK_SMIS_EOS : Z := 2 ^ 31.
Definition N_QNC_GPE0BLK_SMIS_GPIO : Z := 9.
Definition N_QNC_GPE0BLK_SMIS_APM : Z := 4.
Definition N_QNC_GPE0BLK_SMIS_SLP : Z := 2.
Definition N_QNC_GPE0BLK_SMIS_SWT : Z := 1.
Definition R_QNC_GPE0BLK_PMCW : Z := 0x28.
Definition B_QNC_GPE0BLK_PMCW_PSE : Z := 2 ^ 31.
Definition R_APM_CNT : Z := 0xB2.
Definition R_QNC_LPC_BIOS_CNTL : Z := 0xD8.
Definition S_QNC_LPC_BIOS_CNTL : Z := 4.
Definition N_QNC_LPC_BIOS_CNTL_BLE : Z := 1.
Definition N_QNC_LPC_BIOS_CNTL_BIOSWE : Z := 0.
Definition PCI_BUS_NUMBER_QNC : Z := 0.
Definition PCI_DEVICE_NUMBER_QNC_LPC : Z := 31.
Definition PCI_FUNCTION_NUMBER_QNC_LPC : Z := 0.
Definition EFI_PCI_ADDRESS_PORT : Z := 0xcf8.

(** ** Data *)

Inductive QNC_SMM_PROTOCOL_TYPE := SxType | SwType | GpiType | QNCnType | PowerButtonType | PeriodicTimerType.
Inductive ADDR_TYPE := ACPI_ADDR_TYPE | GPE_ADDR_TYPE | MEMORY_MAPPED_IO_ADDRESS_TYPE | PCI_ADDR_TYPE | QNC_SMM_ADDR_TYPE_NULL.
#[export] Instance ADDR_TYPE_dec : EqDecision ADDR_TYPE.
Proof. solve_decision. Defined.
#[export] Instance PROTOCOL_TYPE_dec : EqDecision QNC_SMM_PROTOCOL_TYPE.
Proof. solve_decision. Defined.

Record QNC_SMM_BIT_DESC := { Type_ : ADDR_TYPE; raw : Z; SizeInBytes : Z; Bit : Z }.
Definition IS_BIT_DESC_NULL (BitDesc : QNC_SMM_BIT_DESC) : bool := bool_decide (BitDesc.(Type_) = QNC_SMM_ADDR_TYPE_NULL).
Definition NULL_BIT_DESC_INITIALIZER : QNC_SMM_BIT_DESC := {| Type_ := QNC_SMM_ADDR_TYPE_NULL; raw := 0; SizeInBytes := 0; Bit := 0 |}.

Definition QNC_SMM_NO_FLAGS : Z := 0.
Definition QNC_SMM_SCI_EN_DEPENDENT : Z := 2 ^ 0.
Definition QNC_SMM_CLEAR_WITH_ZERO : Z := 2 ^ 6.

#[export] Instance BIT_DESC_dec : EqDecision QNC_SMM_BIT_DESC.
Proof. solve_decision. Defined.
(** The arrays have two elements and one. *)
Record QNC_SMM_SOURCE_DESC := { Flags : Z; En : list QNC_SMM_BIT_DESC; Sts : list QNC_SMM_BIT_DESC }.
#[export] Instance SOURCE_DESC_dec : EqDecision QNC_SMM_SOURCE_DESC.
Proof. solve_decision. Defined.
Definition NULL_SOURCE_DESC_INITIALIZER : QNC_SMM_SOURCE_DESC :=
  {| Flags := QNC_SMM_NO_FLAGS; En := [NULL_BIT_DESC_INITIALIZER; NULL_BIT_DESC_INITIALIZER]; Sts := [NULL_BIT_DESC_INITIALIZER] |}.

(** The contexts of the protocols; every protocol has its own. The types and phases are numbers of the PI specification. *)
Definition SxS0 : Z := 0.
Definition SxS3 : Z := 3.
Definition SxS4 : Z := 4.
Definition SxS5 : Z := 5.
Definition EfiMaximumSleepType : Z := 6.
Definition SxEntry : Z := 0.
Definition EfiMaximumPhase : Z := 2.
Definition IchnMch : Z := 0.

Inductive QNC_SMM_CONTEXT :=
  | Sx (Type_ Phase : Z)
  | Sw (SwSmiInputValue : Z)
  | Gpi (GpiNum : Z)
  | QNCn (Type_ : Z)
  | PowerButton (Phase : Z)
  | PeriodicTimer (Period SmiTickInterval : Z).
Definition protocol_of (c : QNC_SMM_CONTEXT) : QNC_SMM_PROTOCOL_TYPE :=
  match c with Sx _ _ => SxType | Sw _ => SwType | Gpi _ => GpiType | QNCn _ => QNCnType | PowerButton _ => PowerButtonType
  | PeriodicTimer _ _ => PeriodicTimerType end.

Inductive QNC_SMM_CLEAR_SOURCE := QNCSmmQNCnClearSource | QNCSmmPeriodicTimerClearSource.

(** A record of the database. [CommBuffer] is the first word of the union: the processor of a software SMI, the elapsed time of a
    timer. A [Callback] is the address of a function, 0 when it is NULL. *)
Record DATABASE_RECORD := {
  Signature : bool;
  SrcDesc : QNC_SMM_SOURCE_DESC;
  Callback : Z;
  ChildContext : QNC_SMM_CONTEXT;
  CommBuffer : Z;
  HasBuffer : bool;
  ClearSource : option QNC_SMM_CLEAR_SOURCE;
  ProtocolType : QNC_SMM_PROTOCOL_TYPE
}.
Definition with_CommBuffer (b : Z) (r : DATABASE_RECORD) : DATABASE_RECORD :=
  {| Signature := r.(Signature); SrcDesc := r.(SrcDesc); Callback := r.(Callback); ChildContext := r.(ChildContext); CommBuffer := b;
     HasBuffer := r.(HasBuffer); ClearSource := r.(ClearSource); ProtocolType := r.(ProtocolType) |}.

Record TIMER_INFO := { NumChildren : Z; MinReqInterval : Z; CurrentSetting : Z }.

(** What children do when they are called: they change the hardware, register and unregister children. *)
Inductive act (D : Type) := Device (f : D -> D) | ARegister (c : QNC_SMM_CONTEXT) (Callback : Z) | AUnRegister (Handle : Z).
Arguments Device {D} f.
Arguments ARegister {D} c Callback.
Arguments AUnRegister {D} Handle.

(** What is outside: the accesses, the memory services (with the set of records in use), the services of the SMM core and of the
    processor driver, and the children. *)
Class SmiBus (D : Type) := {
  IoRead8 (A : Z) : M D Z;
  IoRead16 (A : Z) : M D Z;
  IoRead32 (A : Z) : M D Z;
  IoWrite32 (A v : Z) : M D unit;
  IoOr16 (A v : Z) : M D unit;
  IoOr32 (A v : Z) : M D Z;
  IoAnd16 (A v : Z) : M D unit;
  IoAndThenOr8 (A AndData OrData : Z) : M D unit;
  IoAndThenOr16 (A AndData OrData : Z) : M D unit;
  IoAndThenOr32 (A AndData OrData : Z) : M D unit;
  PciRead8 (A : Z) : M D Z;
  PciRead16 (A : Z) : M D Z;
  PciRead32 (A : Z) : M D Z;
  PciAndThenOr8 (A AndData OrData : Z) : M D unit;
  PciAndThenOr16 (A AndData OrData : Z) : M D unit;
  PciAndThenOr32 (A AndData OrData : Z) : M D unit;
  PCI_LIB_ADDRESS (Bus Device Function Register : Z) : Z;
  LpcPciCfg32 (Register : Z) : M D Z;
  MmioRead (A Size : Z) : M D Z;
  MmioWrite (A Size v : Z) : M D unit;
  AsmWbinvd : M D unit;
  PcdPm1blkIoBaseAddress : Z;
  AllocateZeroPool (used : gset Z) : M D Z;
  SmmLocateProtocol : M D (EFI_STATUS * Z);
  NumberOfCpus : M D Z;
  ReadSaveState_Io (Index : Z) : M D (EFI_STATUS * Z);
  children (Callback Handle : Z) (Context : QNC_SMM_CONTEXT) (Buffer : option Z) : list (act D)
}.

(** The module's variables, the memory of the records by the addresses of their links, the hardware; and the calls of children
    (the last one first), which the code does not keep. *)
Record call := { call_Callback : Z; call_Handle : Z; call_Context : QNC_SMM_CONTEXT; call_Buffer : option Z }.
Record smi (D : Type) := {
  CallbackDataBase : list Z;
  records : gmap Z DATABASE_RECORD;
  mTimers : TIMER_INFO;
  mPciAddress : Z;
  mSmmCpu : Z;
  calls : list call;
  hw : D
}.
Arguments CallbackDataBase {D} _.
Arguments records {D} _.
Arguments mTimers {D} _.
Arguments mPciAddress {D} _.
Arguments mSmmCpu {D} _.
Arguments calls {D} _.
Arguments hw {D} _.

(** ** Sources *)

Definition smi_source (en sts : Z) : QNC_SMM_SOURCE_DESC :=
  {| Flags := QNC_SMM_NO_FLAGS;
     En := [{| Type_ := GPE_ADDR_TYPE; raw := R_QNC_GPE0BLK_SMIE; SizeInBytes := S_QNC_GPE0BLK_SMIE; Bit := en |}; NULL_BIT_DESC_INITIALIZER];
     Sts := [{| Type_ := GPE_ADDR_TYPE; raw := R_QNC_GPE0BLK_SMIS; SizeInBytes := S_QNC_GPE0BLK_SMIS; Bit := sts |}] |}.
Definition SX_SOURCE_DESC : QNC_SMM_SOURCE_DESC := smi_source N_QNC_GPE0BLK_SMIE_SLP N_QNC_GPE0BLK_SMIS_SLP.
Definition SW_SOURCE_DESC : QNC_SMM_SOURCE_DESC := smi_source N_QNC_GPE0BLK_SMIE_APM N_QNC_GPE0BLK_SMIS_APM.
Definition GPI_SOURCE_DESC : QNC_SMM_SOURCE_DESC := smi_source N_QNC_GPE0BLK_SMIE_GPIO N_QNC_GPE0BLK_SMIS_GPIO.
Definition mTIMER_SOURCE_DESC : QNC_SMM_SOURCE_DESC := smi_source N_QNC_GPE0BLK_SMIE_SWT N_QNC_GPE0BLK_SMIS_SWT.

Definition LPC_BIOS_CNTL : Z :=
  Z.lor (Z.lor (Z.lor (Z.shiftl PCI_BUS_NUMBER_QNC 24) (Z.shiftl PCI_DEVICE_NUMBER_QNC_LPC 16)) (Z.shiftl PCI_FUNCTION_NUMBER_QNC_LPC 8)) R_QNC_LPC_BIOS_CNTL.
Definition rtc_source : QNC_SMM_SOURCE_DESC :=
  {| Flags := QNC_SMM_NO_FLAGS;
     En := [{| Type_ := ACPI_ADDR_TYPE; raw := R_QNC_PM1BLK_PM1E; SizeInBytes := S_QNC_PM1BLK_PM1E; Bit := N_QNC_PM1BLK_PM1E_RTC |}; NULL_BIT_DESC_INITIALIZER];
     Sts := [{| Type_ := ACPI_ADDR_TYPE; raw := R_QNC_PM1BLK_PM1S; SizeInBytes := S_QNC_PM1BLK_PM1S; Bit := N_QNC_PM1BLK_PM1S_RTC |}] |}.
Definition bios_wp_source : QNC_SMM_SOURCE_DESC :=
  {| Flags := QNC_SMM_CLEAR_WITH_ZERO;
     En := [{| Type_ := PCI_ADDR_TYPE; raw := LPC_BIOS_CNTL; SizeInBytes := S_QNC_LPC_BIOS_CNTL; Bit := N_QNC_LPC_BIOS_CNTL_BLE |}; NULL_BIT_DESC_INITIALIZER];
     Sts := [{| Type_ := PCI_ADDR_TYPE; raw := LPC_BIOS_CNTL; SizeInBytes := S_QNC_LPC_BIOS_CNTL; Bit := N_QNC_LPC_BIOS_CNTL_BIOSWE |}] |}.
Definition thermal_source : QNC_SMM_SOURCE_DESC :=
  {| Flags := QNC_SMM_SCI_EN_DEPENDENT;
     En := [{| Type_ := GPE_ADDR_TYPE; raw := R_QNC_GPE0BLK_GPE0E; SizeInBytes := S_QNC_GPE0BLK_GPE0E; Bit := N_QNC_GPE0BLK_GPE0E_THRM |}; NULL_BIT_DESC_INITIALIZER];
     Sts := [{| Type_ := GPE_ADDR_TYPE; raw := R_QNC_GPE0BLK_GPE0S; SizeInBytes := S_QNC_GPE0BLK_GPE0S; Bit := N_QNC_GPE0BLK_GPE0S_THRM |}] |}.

(** Forty-three sources, of which three exist. *)
Definition QNCN_SOURCE_DESCS : list QNC_SMM_SOURCE_DESC :=
  repeat NULL_SOURCE_DESC_INITIALIZER 2 ++ [rtc_source] ++ repeat NULL_SOURCE_DESC_INITIALIZER 8 ++ [bios_wp_source] ++
  repeat NULL_SOURCE_DESC_INITIALIZER 2 ++ [thermal_source] ++ repeat NULL_SOURCE_DESC_INITIALIZER 28.
Definition NUM_ICHN_TYPES : Z := Z.of_nat (length QNCN_SOURCE_DESCS).

Definition bit_eqb (b1 b2 : QNC_SMM_BIT_DESC) : bool :=
  (b1.(Bit) =? b2.(Bit)) && bool_decide (b1.(Type_) = b2.(Type_)) && (b1.(raw) =? b2.(raw)).
Definition CompareEnables (Src1 Src2 : QNC_SMM_SOURCE_DESC) : bool := forallb (fun b => bit_eqb b.1 b.2) (combine Src1.(En) Src2.(En)).
Definition CompareStatuses (Src1 Src2 : QNC_SMM_SOURCE_DESC) : bool := forallb (fun b => bit_eqb b.1 b.2) (combine Src1.(Sts) Src2.(Sts)).
Definition CompareSources (Src1 Src2 : QNC_SMM_SOURCE_DESC) : bool := CompareEnables Src1 Src2 && CompareStatuses Src1 Src2.

(** ** Timers *)

Definition TIME_64s : Z := 640000000.
Definition TIME_32s : Z := 320000000.
Definition TIME_16s : Z := 160000000.
Definition TIME_8s : Z := 80000000.
Definition TIME_64ms : Z := 640000.
Definition TIME_32ms : Z := 320000.
Definition TIME_16ms : Z := 160000.
Definition TIME_1_5ms : Z := 15000.

(** The intervals by their numbers; there is one timer. *)
Definition mSmmPeriodicTimerIntervals : list Z := [TIME_1_5ms; TIME_16ms; TIME_32ms; TIME_64ms; TIME_8s; TIME_16s; TIME_32s; TIME_64s].
Definition INDEX_TIME_MAX : Z := Z.of_nat (length mSmmPeriodicTimerIntervals).

Fixpoint find_interval (Period SmiTickInterval : Z) (l : list Z) : option Z :=
  match l with
  | [] => None
  | i :: l => if (SmiTickInterval =? 0) && (i <=? Period) || (SmiTickInterval =? i) then Some i else find_interval Period SmiTickInterval l
  end.
(** For a context of a timer. *)
Definition ContextToTimerInterval (RegisterContext : QNC_SMM_CONTEXT) : option Z :=
  match RegisterContext with PeriodicTimer p t => find_interval p t mSmmPeriodicTimerIntervals | _ => None end.

(** The number that the rate has in the register. *)
Fixpoint index_of (x i : Z) (l : list Z) : option Z :=
  match l with [] => None | y :: l => if x =? y then Some i else index_of x (i + 1) l end.

(** The next interval: [None] is NULL, and otherwise the position in the table; the result is [None] for EFI_INVALID_PARAMETER. *)
Definition QNCSmmPeriodicTimerDispatchGetNextShorterInterval (SmiTickInterval : option Z) : EFI_STATUS * option Z :=
  match SmiTickInterval with
  | None => (EFI_SUCCESS, Some 0)
  | Some i =>
      if i =? INDEX_TIME_MAX - 1 then (EFI_SUCCESS, None)
      else if (0 <=? i) && (i <? INDEX_TIME_MAX - 1) then (EFI_SUCCESS, Some (i + 1)) else (EFI_INVALID_PARAMETER, SmiTickInterval)
  end.

Section Dispatcher.
Context {D : Type} {B : SmiBus D}.
Abbreviation st := (smi D).

(** ** Access to the state *)

Definition with_db (l : list Z) (m : gmap Z DATABASE_RECORD) (s : st) : st :=
  {| CallbackDataBase := l; records := m; mTimers := s.(mTimers); mPciAddress := s.(mPciAddress); mSmmCpu := s.(mSmmCpu); calls := s.(calls); hw := s.(hw) |}.
Definition with_timers (t : TIMER_INFO) (s : st) : st :=
  {| CallbackDataBase := s.(CallbackDataBase); records := s.(records); mTimers := t; mPciAddress := s.(mPciAddress); mSmmCpu := s.(mSmmCpu);
     calls := s.(calls); hw := s.(hw) |}.
Definition with_pci (a : Z) (s : st) : st :=
  {| CallbackDataBase := s.(CallbackDataBase); records := s.(records); mTimers := s.(mTimers); mPciAddress := a; mSmmCpu := s.(mSmmCpu);
     calls := s.(calls); hw := s.(hw) |}.
Definition with_cpu (c : Z) (s : st) : st :=
  {| CallbackDataBase := s.(CallbackDataBase); records := s.(records); mTimers := s.(mTimers); mPciAddress := s.(mPciAddress); mSmmCpu := c;
     calls := s.(calls); hw := s.(hw) |}.
Definition with_call (c : call) (s : st) : st :=
  {| CallbackDataBase := s.(CallbackDataBase); records := s.(records); mTimers := s.(mTimers); mPciAddress := s.(mPciAddress); mSmmCpu := s.(mSmmCpu);
     calls := c :: s.(calls); hw := s.(hw) |}.
Definition with_hw (d : D) (s : st) : st :=
  {| CallbackDataBase := s.(CallbackDataBase); records := s.(records); mTimers := s.(mTimers); mPciAddress := s.(mPciAddress); mSmmCpu := s.(mSmmCpu);
     calls := s.(calls); hw := d |}.
Definition on_hw {A} (m : M D A) : M st A := fun s => match m s.(hw) with Some (a, d) => Some (a, with_hw d s) | None => None end.

(** A record: memory that was given back is not read. *)
Definition record_at (h : Z) : M st DATABASE_RECORD := s ← get; lift (s.(records) !! h).
Definition set_record (h : Z) (r : DATABASE_RECORD) : M st unit := modify (fun s => with_db s.(CallbackDataBase) (<[h := r]> s.(records)) s).
Definition DATABASE_RECORD_FROM_LINK (h : Z) : M st DATABASE_RECORD := r ← record_at h; _ ← ASSERT r.(Signature); mret r.

(** The next node of a list: the successor in the list, [None] at its head; of a node that is not in it nothing is known. *)
Fixpoint successor (h : Z) (l : list Z) : option (option Z) :=
  match l with [] => None | x :: l => if x =? h then Some (head l) else successor h l end.
Definition GetFirstNode : M st (option Z) := gets (fun s => head s.(CallbackDataBase)).
Definition GetNextNode (h : Z) : M st (option Z) := s ← get; lift (successor h s.(CallbackDataBase)).

(** ** Bits of registers *)

Definition read_io (Size A : Z) : M D Z := if Size =? 1 then IoRead8 A else if Size =? 2 then IoRead16 A else if Size =? 4 then IoRead32 A else stop.
Definition read_pci (Size A : Z) : M D Z := if Size =? 1 then PciRead8 A else if Size =? 2 then PciRead16 A else if Size =? 4 then PciRead32 A else stop.
Definition change_io (Size A AndVal OrVal : Z) : M D unit :=
  if Size =? 1 then IoAndThenOr8 A (u8 AndVal) (u8 OrVal) else if Size =? 2 then IoAndThenOr16 A (u16 AndVal) (u16 OrVal)
  else if Size =? 4 then IoAndThenOr32 A (u32 AndVal) (u32 OrVal) else stop.
Definition change_pci (Size A AndVal OrVal : Z) : M D unit :=
  if Size =? 1 then PciAndThenOr8 A (u8 AndVal) (u8 OrVal) else if Size =? 2 then PciAndThenOr16 A (u16 AndVal) (u16 OrVal)
  else if Size =? 4 then PciAndThenOr32 A (u32 AndVal) (u32 OrVal) else stop.
Definition gpe0 : M D Z := v ← LpcPciCfg32 R_QNC_LPC_GPE0BLK; mret (u16 (Z.land v 0xFFFF)).
Definition pci_address (Raw : Z) : Z :=
  PCI_LIB_ADDRESS (u8 (Z.shiftr Raw 24)) (u8 (Z.shiftr Raw 16)) (u8 (Z.shiftr Raw 8)) (u8 Raw).
Definition base_ok (b : Z) : bool := negb (b =? 0) && negb (Z.land b 1 =? 1).

Definition ReadBitDesc (BitDesc : QNC_SMM_BIT_DESC) : M D bool :=
  _ ← ASSERT (negb (IS_BIT_DESC_NULL BitDesc));
  match BitDesc.(Type_) with
  | ACPI_ADDR_TYPE =>
      _ ← ASSERT (base_ok PcdPm1blkIoBaseAddress);
      Register ← read_io BitDesc.(SizeInBytes) (PcdPm1blkIoBaseAddress + u16 BitDesc.(raw));
      mret (negb (Z.land Register (u64 (Z.shiftl 1 BitDesc.(Bit))) =? 0))
  | GPE_ADDR_TYPE =>
      b ← gpe0;
      _ ← ASSERT (base_ok b);
      b ← gpe0;
      Register ← read_io BitDesc.(SizeInBytes) (b + u16 BitDesc.(raw));
      mret (negb (Z.land Register (u64 (Z.shiftl 1 BitDesc.(Bit))) =? 0))
  | MEMORY_MAPPED_IO_ADDRESS_TYPE =>
      _ ← ASSERT (BitDesc.(SizeInBytes) <=? 8);
      Register ← MmioRead BitDesc.(raw) BitDesc.(SizeInBytes);
      mret (negb (Z.land Register (u64 (Z.shiftl 1 BitDesc.(Bit))) =? 0))
  | PCI_ADDR_TYPE =>
      Register ← read_pci BitDesc.(SizeInBytes) (pci_address BitDesc.(raw));
      mret (negb (Z.land Register (u64 (Z.shiftl 1 BitDesc.(Bit))) =? 0))
  | QNC_SMM_ADDR_TYPE_NULL => stop
  end.

Definition WriteBitDesc (BitDesc : QNC_SMM_BIT_DESC) (ValueToWrite : bool) : M D unit :=
  _ ← ASSERT (negb (IS_BIT_DESC_NULL BitDesc));
  let AndVal := u64 (Z.lnot (Z.shiftl 1 BitDesc.(Bit))) in
  let OrVal := u32 (Z.shiftl (Z.b2z ValueToWrite) BitDesc.(Bit)) in
  match BitDesc.(Type_) with
  | ACPI_ADDR_TYPE =>
      _ ← ASSERT (base_ok PcdPm1blkIoBaseAddress);
      change_io BitDesc.(SizeInBytes) (PcdPm1blkIoBaseAddress + u16 BitDesc.(raw)) AndVal OrVal
  | GPE_ADDR_TYPE =>
      b ← gpe0;
      _ ← ASSERT (base_ok b);
      b ← gpe0;
      change_io BitDesc.(SizeInBytes) (b + u16 BitDesc.(raw)) AndVal OrVal
  | MEMORY_MAPPED_IO_ADDRESS_TYPE =>
      _ ← ASSERT (BitDesc.(SizeInBytes) <=? 8);
      Register ← MmioRead BitDesc.(raw) BitDesc.(SizeInBytes);
      MmioWrite BitDesc.(raw) BitDesc.(SizeInBytes) (Z.lor (Z.land Register AndVal) OrVal)
  | PCI_ADDR_TYPE => change_pci BitDesc.(SizeInBytes) (pci_address BitDesc.(raw)) AndVal OrVal
  | QNC_SMM_ADDR_TYPE_NULL => stop
  end.

Definition QNCSmmSetAndCheckEos : M D bool :=
  b ← gpe0; _ ← IoOr32 (b + R_QNC_GPE0BLK_SMIS) B_QNC_GPE0BLK_SMIS_EOS; mret true.
Definition QNCSmmGetSciEn : M D bool :=
  Pm1Cnt ← IoRead32 (PcdPm1blkIoBaseAddress + R_QNC_PM1BLK_PM1C);
  mret (Z.land Pm1Cnt B_QNC_PM1BLK_PM1C_SCIEN =? B_QNC_PM1BLK_PM1C_SCIEN).
Definition QNCSmmClearSmi : M D unit :=
  SciEn ← QNCSmmGetSciEn;
  _ ← (if negb SciEn then
         _ ← IoOr16 (PcdPm1blkIoBaseAddress + R_QNC_PM1BLK_PM1S)
               (Z.lor (Z.lor (Z.lor (Z.lor B_QNC_PM1BLK_PM1S_WAKE B_QNC_PM1BLK_PM1S_PCIEWSTS) B_QNC_PM1BLK_PM1S_RTC) B_QNC_PM1BLK_PM1S_GLOB) B_QNC_PM1BLK_PM1S_TO);
         b ← gpe0;
         _ ← IoOr32 (b + R_QNC_GPE0BLK_GPE0S) B_QNC_GPE0BLK_GPE0S_ALL;
         mret tt
       else mret tt);
  b ← gpe0;
  SmiSts ← IoRead32 (b + R_QNC_GPE0BLK_SMIS);
  b ← gpe0;
  _ ← IoWrite32 (b + R_QNC_GPE0BLK_SMIS) (Z.lor SmiSts B_QNC_GPE0BLK_SMIS_ALL);
  EosSet ← QNCSmmSetAndCheckEos;
  ASSERT EosSet.

(** The bits of a list, until one is zero. *)
Fixpoint all_set (l : list QNC_SMM_BIT_DESC) : M D bool :=
  match l with
  | [] => mret true
  | b :: l => if IS_BIT_DESC_NULL b then all_set l else v ← ReadBitDesc b; if negb v then mret false else all_set l
  end.
Definition SourceIsActive (Src : QNC_SMM_SOURCE_DESC) : M D bool :=
  SciEn ← QNCSmmGetSciEn;
  if negb (Z.land Src.(Flags) QNC_SMM_SCI_EN_DEPENDENT =? 0) && SciEn then mret false else
  IsActive ← all_set Src.(En);
  if negb IsActive then mret false else all_set Src.(Sts).

Definition write_bits (v : bool) (l : list QNC_SMM_BIT_DESC) : M D unit :=
  for_each l (fun b => if IS_BIT_DESC_NULL b then mret tt else WriteBitDesc b v).
Definition QNCSmmClearSource (SrcDesc : QNC_SMM_SOURCE_DESC) : M D unit :=
  write_bits (Z.land SrcDesc.(Flags) QNC_SMM_CLEAR_WITH_ZERO =? 0) SrcDesc.(Sts).
Definition QNCSmmEnableSource (SrcDesc : QNC_SMM_SOURCE_DESC) : M D unit := _ ← write_bits true SrcDesc.(En); QNCSmmClearSource SrcDesc.
Definition QNCSmmDisableSource (SrcDesc : QNC_SMM_SOURCE_DESC) : M D unit := write_bits false SrcDesc.(En).

(** ** Contexts *)

(** [Context] is what the variable holds before. *)
Definition SxGetContext : M D QNC_SMM_CONTEXT :=
  Pm1Cnt ← IoRead32 (PcdPm1blkIoBaseAddress + R_QNC_PM1BLK_PM1C);
  let t := Z.land Pm1Cnt B_QNC_PM1BLK_PM1C_SLPTP in
  if t =? V_S0 then mret (Sx SxS0 SxEntry) else if t =? V_S3 then mret (Sx SxS3 SxEntry)
  else if t =? V_S4 then mret (Sx SxS4 SxEntry) else if t =? V_S5 then mret (Sx SxS5 SxEntry) else stop.
Definition SxCmpContext (Context1 Context2 : QNC_SMM_CONTEXT) : bool :=
  match Context1, Context2 with Sx t1 _, Sx t2 _ => t1 =? t2 | _, _ => false end.
Definition SwGetContext : M D QNC_SMM_CONTEXT := v ← IoRead8 R_APM_CNT; mret (Sw v).
Definition SwCmpContext (Context1 Context2 : QNC_SMM_CONTEXT) : bool :=
  match Context1, Context2 with Sw v1, Sw v2 => v1 =? v2 | _, _ => false end.
Definition PeriodicTimerGetContext (h : Z) (Context : QNC_SMM_CONTEXT) : M st QNC_SMM_CONTEXT :=
  r ← record_at h;
  _ ← ASSERT (bool_decide (r.(ProtocolType) = PeriodicTimerType));
  match ContextToTimerInterval r.(ChildContext) with
  | Some i => _ ← set_record h (with_CommBuffer (u64 (r.(CommBuffer) + i)) r); mret r.(ChildContext)
  | None => mret Context
  end.
Definition PeriodicTimerCmpContext (h : Z) : M st bool :=
  r ← DATABASE_RECORD_FROM_LINK h;
  mret (match r.(ChildContext) with PeriodicTimer p _ => p <=? r.(CommBuffer) | _ => false end).

(** The processor that wrote to the port: the first whose saved state says so, and 0 if there is none. *)
Fixpoint find_cpu (n : nat) (Index : Z) : M D Z :=
  match n with
  | O => mret 0
  | S n => '(Status, IoPort) ← ReadSaveState_Io Index;
           if negb (EFI_ERROR Status) && (IoPort =? R_APM_CNT) then mret Index else find_cpu n (Index + 1)
  end.
Definition SwGetBuffer (h : Z) : M st unit :=
  s ← get;
  _ ← (if s.(mSmmCpu) =? 0 then
         '(Status, c) ← on_hw SmmLocateProtocol; _ ← modify (with_cpu c); ASSERT (negb (EFI_ERROR Status))
       else mret tt);
  n ← on_hw NumberOfCpus;
  CpuIndex ← on_hw (find_cpu (Z.to_nat n) 0);
  r ← record_at h;
  set_record h (with_CommBuffer CpuIndex r).

(** The functions of [mContextFunctions]. *)
Definition GetContext (t : QNC_SMM_PROTOCOL_TYPE) (h : Z) (Context : QNC_SMM_CONTEXT) : option (M st QNC_SMM_CONTEXT) :=
  match t with
  | SxType => Some (on_hw SxGetContext)
  | SwType => Some (on_hw SwGetContext)
  | PeriodicTimerType => Some (PeriodicTimerGetContext h Context)
  | GpiType | QNCnType | PowerButtonType => None
  end.
Definition CmpContext (t : QNC_SMM_PROTOCOL_TYPE) (Context : QNC_SMM_CONTEXT) (h : Z) (ChildContext : QNC_SMM_CONTEXT) : option (M st bool) :=
  match t with
  | SxType => Some (mret (SxCmpContext Context ChildContext))
  | SwType => Some (mret (SwCmpContext Context ChildContext))
  | PeriodicTimerType => Some (PeriodicTimerCmpContext h)
  | GpiType | QNCnType | PowerButtonType => None
  end.
Definition GetBuffer (t : QNC_SMM_PROTOCOL_TYPE) (h : Z) : option (M st unit) :=
  match t with SwType => Some (SwGetBuffer h) | PeriodicTimerType => Some (mret tt) | SxType | GpiType | QNCnType | PowerButtonType => None end.

(** ** The timer *)

(** The smallest interval asked for, and the number of children. *)
Fixpoint required (l : list Z) (Min Num : Z) : M st (Z * Z) :=
  match l with
  | [] => mret (Min, Num)
  | h :: l =>
      r ← DATABASE_RECORD_FROM_LINK h;
      match r.(ProtocolType), r.(ChildContext), ContextToTimerInterval r.(ChildContext) with
      | PeriodicTimerType, PeriodicTimer _ t, Some _ => required l (if t <? Min then t else Min) (u32 (Num + 1))
      | _, _, _ => required l Min Num
      end
  end.
Definition QNCSmmPeriodicTimerProgramTimers : M st unit :=
  s ← get;
  '(Min, Num) ← required s.(CallbackDataBase) (2 ^ 64 - 1) 0;
  _ ← modify (with_timers {| NumChildren := Num; MinReqInterval := Min; CurrentSetting := s.(mTimers).(CurrentSetting) |});
  if 0 <? Num then
    i ← lift (index_of Min 0 mSmmPeriodicTimerIntervals);
    _ ← modify (with_timers {| NumChildren := Num; MinReqInterval := Min; CurrentSetting := i |});
    b ← on_hw gpe0;
    _ ← on_hw (IoOr32 (b + R_QNC_GPE0BLK_PMCW) (Z.lor i B_QNC_GPE0BLK_PMCW_PSE));
    on_hw (QNCSmmClearSource mTIMER_SOURCE_DESC)
  else on_hw (QNCSmmDisableSource mTIMER_SOURCE_DESC).
Definition MapPeriodicTimerToSrcDesc (RegisterContext : QNC_SMM_CONTEXT) : M st (option QNC_SMM_SOURCE_DESC) :=
  match ContextToTimerInterval RegisterContext with
  | None => mret None
  | Some _ => _ ← QNCSmmPeriodicTimerProgramTimers; mret (Some mTIMER_SOURCE_DESC)
  end.

(** The elapsed times of the children that were called start again. *)
Definition reset_elapsed (h : Z) : M st unit :=
  r ← DATABASE_RECORD_FROM_LINK h;
  match r.(ProtocolType), r.(ChildContext) with
  | PeriodicTimerType, PeriodicTimer p _ => if p <=? r.(CommBuffer) then set_record h (with_CommBuffer 0 r) else mret tt
  | _, _ => mret tt
  end.
Definition clear_timer : M st unit :=
  _ ← QNCSmmPeriodicTimerProgramTimers; s ← get; for_each s.(CallbackDataBase) reset_elapsed.

(** The function of a record, or the default. *)
Definition clear_source (c : option QNC_SMM_CLEAR_SOURCE) (SrcDesc : QNC_SMM_SOURCE_DESC) : M st unit :=
  match c with Some QNCSmmPeriodicTimerClearSource => clear_timer | Some QNCSmmQNCnClearSource | None => on_hw (QNCSmmClearSource SrcDesc) end.

(** ** Registration *)

Definition MAXIMUM_SWI_VALUE : Z := 0xFF.

Fixpoint duplicate (v : Z) (l : list Z) : M st bool :=
  match l with
  | [] => mret false
  | h :: l =>
      r ← DATABASE_RECORD_FROM_LINK h;
      match r.(ProtocolType), r.(ChildContext) with
      | SwType, Sw v' => if v' =? v then mret true else duplicate v l
      | _, _ => duplicate v l
      end
  end.
Definition SmiInputValueDuplicateCheck (FedSwSmiInputValue : Z) : M st EFI_STATUS :=
  s ← get; d ← duplicate FedSwSmiInputValue s.(CallbackDataBase); mret (if d : bool then EFI_INVALID_PARAMETER else EFI_SUCCESS).

(** The first value from [Index] on, of [n], that is not in use. *)
Fixpoint free_value (n : nat) (Index : Z) : M st (option Z) :=
  match n with
  | O => mret None
  | S n => Status ← SmiInputValueDuplicateCheck Index; if negb (EFI_ERROR Status) then mret (Some Index) else free_value n (Index + 1)
  end.

Definition InsertTailList (h : Z) (r : DATABASE_RECORD) : M st unit :=
  modify (fun s => with_db (s.(CallbackDataBase) ++ [h]) (<[h := r]> s.(records)) s).
Definition FreePool (h : Z) : M st unit := modify (fun s => with_db s.(CallbackDataBase) (delete h s.(records)) s).

(** What a registration fills in. *)
Definition new_record (DispatchFunction : Z) (c : QNC_SMM_CONTEXT) (d : QNC_SMM_SOURCE_DESC) (buffer : bool) (clear : option QNC_SMM_CLEAR_SOURCE) : DATABASE_RECORD :=
  {| Signature := true; SrcDesc := d; Callback := DispatchFunction; ChildContext := c; CommBuffer := 0; HasBuffer := buffer; ClearSource := clear;
     ProtocolType := protocol_of c |}.

(** The cases of the protocols: the record, or [None] for the error; the context may be changed. *)
Definition describe (DispatchFunction : Z) (c : QNC_SMM_CONTEXT) : M st (option DATABASE_RECORD) :=
  match c with
  | Sx t p =>
      if (t <? SxS0) || (EfiMaximumSleepType <=? t) || (p <? SxEntry) || (EfiMaximumPhase <=? p) then mret None
      else mret (Some (new_record DispatchFunction c SX_SOURCE_DESC false None))
  | Sw v =>
      if MAXIMUM_SWI_VALUE <? v then mret None else
      Status ← SmiInputValueDuplicateCheck v;
      if EFI_ERROR Status then mret None else mret (Some (new_record DispatchFunction c SW_SOURCE_DESC true None))
  | Gpi _ => mret (Some (new_record DispatchFunction c GPI_SOURCE_DESC false None))
  | QNCn t =>
      if (t <? IchnMch) || (NUM_ICHN_TYPES <=? t) then mret None else
      d ← lift (QNCN_SOURCE_DESCS !! Z.to_nat t); mret (Some (new_record DispatchFunction c d false (Some QNCSmmQNCnClearSource)))
  | PeriodicTimer _ _ =>
      d ← MapPeriodicTimerToSrcDesc c;
      mret ((fun d => new_record DispatchFunction c d true (Some QNCSmmPeriodicTimerClearSource)) <$> d)
  | PowerButton _ => mret None
  end.

(** The value -1 of a software SMI asks for one that is not in use: [None] if there is none. *)
Definition assign_value (c : QNC_SMM_CONTEXT) : M st (option QNC_SMM_CONTEXT) :=
  match c with
  | Sw v => if v =? 2 ^ 32 - 1 then v ← free_value (Z.to_nat (MAXIMUM_SWI_VALUE - 1)) 1; mret (Sw <$> v) else mret (Some c)
  | _ => mret (Some c)
  end.

(** The status, the handle (0 when none is stored) and what [RegisterContext] points to afterwards. A parameter is false when it is
    NULL. *)
Definition QNCSmmCoreRegister (This : bool) (DispatchFunction : Z) (RegisterContext : option QNC_SMM_CONTEXT) (DispatchHandle : bool) :
    M st (EFI_STATUS * Z * option QNC_SMM_CONTEXT) :=
  match RegisterContext with
  | None => mret (EFI_INVALID_PARAMETER, 0, None)
  | Some c =>
      if negb This || negb DispatchHandle then mret (EFI_INVALID_PARAMETER, 0, Some c) else
      s ← get;
      h ← on_hw (AllocateZeroPool (dom s.(records)));
      if h =? 0 then mret (EFI_OUT_OF_RESOURCES, 0, Some c) else
      _ ← set_record h (new_record DispatchFunction c NULL_SOURCE_DESC_INITIALIZER false None);
      c' ← assign_value c;
      match c' with
      | None => _ ← FreePool h; mret (EFI_OUT_OF_RESOURCES, 0, Some c)
      | Some c =>
          r ← describe DispatchFunction c;
          match r with
          | None => _ ← FreePool h; mret (EFI_INVALID_PARAMETER, 0, Some c)
          | Some r =>
              _ ← InsertTailList h r;
              _ ← clear_source r.(ClearSource) r.(SrcDesc);
              _ ← on_hw (QNCSmmEnableSource r.(SrcDesc));
              mret (EFI_SUCCESS, h, Some c)
          end
      end
  end.

(** Whether no record of the list uses the enable bits of a source. *)
Fixpoint safe_to_disable (d : QNC_SMM_SOURCE_DESC) (l : list Z) : M st bool :=
  match l with
  | [] => mret true
  | h :: l => r ← DATABASE_RECORD_FROM_LINK h; if CompareEnables d r.(SrcDesc) then mret false else safe_to_disable d l
  end.

Definition QNCSmmCoreUnRegister (DispatchHandle : Z) : M st EFI_STATUS :=
  if DispatchHandle =? 0 then mret EFI_INVALID_PARAMETER else
  r ← record_at DispatchHandle;
  if negb r.(Signature) then mret EFI_INVALID_PARAMETER else
  _ ← modify (fun s => with_db (List.filter (fun h => negb (h =? DispatchHandle)) s.(CallbackDataBase)) s.(records) s);
  s ← get;
  SafeToDisable ← safe_to_disable r.(SrcDesc) s.(CallbackDataBase);
  _ ← (if SafeToDisable : bool then on_hw (QNCSmmDisableSource r.(SrcDesc)) else mret tt);
  _ ← FreePool DispatchHandle;
  mret EFI_SUCCESS.

(** ** Dispatch *)

(** A child runs. *)
Definition run_act (a : act D) : M st unit :=
  match a with
  | Device f => modify (fun s => with_hw (f s.(hw)) s)
  | ARegister c fn => _ ← QNCSmmCoreRegister true fn (Some c) true; mret tt
  | AUnRegister h => _ ← QNCSmmCoreUnRegister h; mret tt
  end.
Definition call_child (Callback h : Z) (Context : QNC_SMM_CONTEXT) (Buffer : option Z) : M st unit :=
  _ ← modify (with_call {| call_Callback := Callback; call_Handle := h; call_Context := Context; call_Buffer := Buffer |});
  for_each (children Callback h Context Buffer) run_act.

(** What the loop over the children carries: the variable [Context], whether a child was called, whether one for sleep. *)
Record flags := { Context_ : QNC_SMM_CONTEXT; ChildWasDispatched : bool; SxChildWasDispatched : bool }.

(** The context that the source has now, and whether it is that of the child. *)
Definition contexts_match (h : Z) (r : DATABASE_RECORD) (Context : QNC_SMM_CONTEXT) : M st (QNC_SMM_CONTEXT * bool) :=
  match GetContext r.(ProtocolType) h Context with
  | Some m =>
      c ← m;
      r ← record_at h;
      cmp ← lift (CmpContext r.(ProtocolType) c h r.(ChildContext));
      b ← cmp;
      mret (c, b)
  | None => _ ← ASSERT (negb (r.(Callback) =? 0)); mret (r.(ChildContext), true)
  end.

(** One record of the source. *)
Definition dispatch_record (h : Z) (r : DATABASE_RECORD) (f : flags) : M st flags :=
  '(c, m) ← contexts_match h r f.(Context_);
  if negb m then mret {| Context_ := c; ChildWasDispatched := f.(ChildWasDispatched); SxChildWasDispatched := f.(SxChildWasDispatched) |} else
  Buffer ← (if r.(HasBuffer) then
              g ← lift (GetBuffer r.(ProtocolType) h);
              _ ← g;
              r ← record_at h;
              mret (Some r.(CommBuffer))
            else mret None);
  _ ← ASSERT (negb (r.(Callback) =? 0));
  _ ← call_child r.(Callback) h c Buffer;
  r ← record_at h;
  mret {| Context_ := c; ChildWasDispatched := true;
          SxChildWasDispatched := f.(SxChildWasDispatched) || bool_decide (r.(ProtocolType) = SxType) |}.

(** The rest of the queue, from [Link] on; [fuel] records at most. *)
Fixpoint exhaust (fuel : nat) (ActiveSource : QNC_SMM_SOURCE_DESC) (Link : option Z) (f : flags) : M st flags :=
  match Link with
  | None => mret f
  | Some h =>
      match fuel with
      | O => stop
      | S fuel =>
          r ← DATABASE_RECORD_FROM_LINK h;
          f ← (if CompareSources r.(SrcDesc) ActiveSource then dispatch_record h r f else mret f);
          Link ← GetNextNode h;
          exhaust fuel ActiveSource Link f
      end
  end.

(** The first record from [l] on whose source is active. *)
Fixpoint find_active (l : list Z) : M st (option Z) :=
  match l with
  | [] => mret None
  | h :: l =>
      r ← DATABASE_RECORD_FROM_LINK h;
      a ← on_hw (SourceIsActive r.(SrcDesc));
      if a : bool then mret (Some h) else find_active l
  end.

Inductive interrupt_status := HANDLED | EFI_WARN_INTERRUPT_SOURCE_QUIESCED | EFI_WARN_INTERRUPT_SOURCE_PENDING.

(** The number of records after which the search of the queue is given up. *)
Context (Rounds : nat).

(** One pass over the database. *)
Definition dispatch_pass (Status : interrupt_status) (f : flags) : M st (interrupt_status * flags) :=
  s ← get;
  Link ← find_active s.(CallbackDataBase);
  match Link with
  | None => mret (Status, f)
  | Some h =>
      r ← record_at h;
      let f := {| Context_ := f.(Context_); ChildWasDispatched := f.(ChildWasDispatched);
                  SxChildWasDispatched := f.(SxChildWasDispatched) || bool_decide (r.(ProtocolType) = SxType) |} in
      f ← exhaust Rounds r.(SrcDesc) (Some h) f;
      r' ← record_at h;
      _ ← clear_source r'.(ClearSource) r.(SrcDesc);
      mret (if f.(ChildWasDispatched) then HANDLED else EFI_WARN_INTERRUPT_SOURCE_QUIESCED, f)
  end.

(** The result has what is left of [EscapeCount]. *)
Fixpoint dispatch_loop (EscapeCount : nat) (Status : interrupt_status) (f : flags) : M st (interrupt_status * flags * nat) :=
  match EscapeCount with
  | O => mret (Status, f, O)
  | S n =>
      '(Status, f) ← dispatch_pass Status f;
      EosSet ← on_hw QNCSmmSetAndCheckEos;
      if EosSet : bool then mret (Status, f, n) else dispatch_loop n Status f
  end.

Definition SaveState : M st unit := a ← on_hw (IoRead32 EFI_PCI_ADDRESS_PORT); modify (with_pci a).
Definition RestoreState : M st unit := s ← get; on_hw (IoWrite32 EFI_PCI_ADDRESS_PORT s.(mPciAddress)).

Definition QNCSmmSxGoToSleep : M D unit :=
  _ ← AsmWbinvd;
  _ ← QNCSmmClearSource SX_SOURCE_DESC;
  _ ← QNCSmmDisableSource SX_SOURCE_DESC;
  b ← gpe0;
  _ ← IoAnd16 (b + R_QNC_GPE0BLK_SMIE) (u16 (Z.lnot B_QNC_GPE0BLK_SMIE_SLP));
  b ← gpe0;
  _ ← IoAnd16 (b + R_QNC_GPE0BLK_SMIS) (u16 S_QNC_GPE0BLK_SMIS);
  _ ← IoOr32 (PcdPm1blkIoBaseAddress + R_QNC_PM1BLK_PM1C) B_QNC_PM1BLK_PM1C_SLPEN;
  Pm1Cnt ← IoRead32 (PcdPm1blkIoBaseAddress + R_QNC_PM1BLK_PM1C);
  _ ← (if Z.land Pm1Cnt B_QNC_PM1BLK_PM1C_SCIEN =? 0
       then IoWrite32 (PcdPm1blkIoBaseAddress + R_QNC_PM1BLK_PM1C) (Z.lor (Z.ldiff Pm1Cnt B_QNC_PM1BLK_PM1C_SLPTP) V_S0) else mret tt);
  _ ← QNCSmmClearSource SX_SOURCE_DESC;
  QNCSmmEnableSource SX_SOURCE_DESC.

(** [Context] is what the local variable holds at first. *)
Definition QNCSmmCoreDispatcher (Context : QNC_SMM_CONTEXT) : M st interrupt_status :=
  let f := {| Context_ := Context; ChildWasDispatched := false; SxChildWasDispatched := false |} in
  _ ← SaveState;
  s ← get;
  '(Status, f, EscapeCount) ← (match s.(CallbackDataBase) with
                               | [] => mret (EFI_WARN_INTERRUPT_SOURCE_PENDING, f, 100%nat)
                               | _ :: _ => dispatch_loop 100 EFI_WARN_INTERRUPT_SOURCE_PENDING f
                               end);
  _ ← ASSERT (0 <? Z.of_nat EscapeCount);
  _ ← RestoreState;
  _ ← (if f.(SxChildWasDispatched) then on_hw QNCSmmSxGoToSleep else mret tt);
  mret Status.
End Dispatcher.
