(* ===== verification/SmiRules.v ===== *)
(** * The dispatcher of SMIs: registers, the database, and rules

    Registers are numbers by their place; in a status register the bits of a mask are cleared by writing ones. A source is active
    when its bits are set. The database is well-formed when every record is as a registration leaves it. *)

From S2P Require Import Prelude QNCAccess SmiDefs.
From stdpp Require Import gmap list.
#[local] Open Scope Z_scope.

(** ** Registers *)

Class SmiView (D : Type) := {
  reg_io : D -> Z -> Z;
  reg_pci : D -> Z -> Z;
  gpe_base : Z;
  (** The bits of a port that are cleared by ones. *)
  w1c : Z -> Z
}.

Definition same {D} {V : SmiView D} (d d' : D) : Prop := (forall A, reg_io d' A = reg_io d A) /\ (forall A, reg_pci d' A = reg_pci d A).
Definition stored (m old v : bool) : bool := if m then old && negb v else v.
(** The low [n] bytes of [v] are written at [A]. *)
Definition wrote {D} {V : SmiView D} (n A v : Z) (d d' : D) : Prop :=
  (forall i, 0 <= i -> Z.testbit (reg_io d' A) i =
     if i <? 8 * n then stored (Z.testbit (w1c A) i) (Z.testbit (reg_io d A) i) (Z.testbit v i) else Z.testbit (reg_io d A) i) /\
  (forall A', A' <> A -> reg_io d' A' = reg_io d A') /\ (forall A', reg_pci d' A' = reg_pci d A').
Definition wrote_pci {D} {V : SmiView D} (n A v : Z) (d d' : D) : Prop :=
  (forall i, 0 <= i -> Z.testbit (reg_pci d' A) i = if i <? 8 * n then Z.testbit v i else Z.testbit (reg_pci d A) i) /\
  (forall A', A' <> A -> reg_pci d' A' = reg_pci d A') /\ (forall A', reg_io d' A' = reg_io d A').

Class SmiLaws (D : Type) {B : SmiBus D} {V : SmiView D} := {
  base_law : base_ok gpe_base = true /\ base_ok PcdPm1blkIoBaseAddress = true;
  (** The blocks of ports are apart from each other and from the other ports. *)
  block_law : 0x1000 <= gpe_base < 2 ^ 16 /\ 0x1000 <= PcdPm1blkIoBaseAddress < 2 ^ 16 /\
              (gpe_base + 64 <= PcdPm1blkIoBaseAddress \/ PcdPm1blkIoBaseAddress + 16 <= gpe_base);
  (** The status bits of the sources. *)
  w1c_law : (forall i, Z.testbit (w1c (gpe_base + R_QNC_GPE0BLK_SMIS)) i = Z.testbit B_QNC_GPE0BLK_SMIS_ALL i) /\
            w1c (gpe_base + R_QNC_GPE0BLK_SMIE) = 0 /\ w1c (gpe_base + R_QNC_GPE0BLK_PMCW) = 0 /\ w1c (gpe_base + R_QNC_GPE0BLK_GPE0E) = 0 /\
            w1c (PcdPm1blkIoBaseAddress + R_QNC_PM1BLK_PM1E) = 0 /\ w1c (PcdPm1blkIoBaseAddress + R_QNC_PM1BLK_PM1C) = 0 /\
            Z.testbit (w1c (PcdPm1blkIoBaseAddress + R_QNC_PM1BLK_PM1S)) N_QNC_PM1BLK_PM1S_RTC = true /\
            Z.testbit (w1c (gpe_base + R_QNC_GPE0BLK_GPE0S)) N_QNC_GPE0BLK_GPE0S_THRM = true;
  lpc_law : forall d, wp (LpcPciCfg32 R_QNC_LPC_GPE0BLK) (fun v d' => u16 (Z.land v 0xFFFF) = gpe_base /\ same d d') d;
  read_law : forall n A d, (n = 1 \/ n = 2 \/ n = 4) -> wp (read_io n A) (fun v d' => v = wrap (8 * n) (reg_io d A) /\ same d d') d;
  read_pci_law : forall n A d, (n = 1 \/ n = 2 \/ n = 4) -> wp (read_pci n A) (fun v d' => v = wrap (8 * n) (reg_pci d A) /\ same d d') d;
  change_law : forall n A a o d, (n = 1 \/ n = 2 \/ n = 4) ->
    wp (change_io n A a o) (fun _ d' => wrote n A (Z.lor (Z.land (reg_io d A) a) o) d d') d;
  change_pci_law : forall n A a o d, (n = 1 \/ n = 2 \/ n = 4) ->
    wp (change_pci n A a o) (fun _ d' => wrote_pci n A (Z.lor (Z.land (reg_pci d A) a) o) d d') d;
  write_law : forall A v d, wp (IoWrite32 A v) (fun _ d' => wrote 4 A v d d') d;
  or_law : forall A o d, wp (IoOr32 A o) (fun _ d' => wrote 4 A (Z.lor (reg_io d A) o) d d') d;
  and_law : forall A a d, wp (IoAnd16 A a) (fun _ d' => wrote 2 A (Z.land (reg_io d A) a) d d') d;
  wbinvd_law : forall d, wp AsmWbinvd (fun _ d' => same d d') d;
  alloc_law : forall used d, wp (AllocateZeroPool used) (fun h d' => (h = 0 \/ h ∉ used) /\ same d d') d;
  locate_law : forall d, wp SmmLocateProtocol (fun r d' => r.1 = EFI_SUCCESS /\ same d d') d;
  cpus_law : forall d, wp NumberOfCpus (fun _ d' => same d d') d;
  save_law : forall i d, wp (ReadSaveState_Io i) (fun _ d' => same d d') d
}.

Section Registers.
Context {D : Type} {B : SmiBus D} {V : SmiView D} {L : SmiLaws D}.
Implicit Types (d : D) (b : QNC_SMM_BIT_DESC).

Lemma same_refl d : same d d.
Proof. by split. Qed.
Lemma same_trans d d1 d2 : same d d1 -> same d1 d2 -> same d d2.
Proof. intros [H1 H2] [H3 H4]. split; intros A; [by rewrite H3|by rewrite H4]. Qed.

(** The place of a register. *)
Inductive place := Io (A : Z) | Pci (A : Z).
#[export] Instance place_dec : EqDecision place.
Proof. solve_decision. Defined.
Definition place_of b : option place :=
  match b.(Type_) with
  | ACPI_ADDR_TYPE => Some (Io (PcdPm1blkIoBaseAddress + u16 b.(raw)))
  | GPE_ADDR_TYPE => Some (Io (gpe_base + u16 b.(raw)))
  | PCI_ADDR_TYPE => Some (Pci (pci_address b.(raw)))
  | MEMORY_MAPPED_IO_ADDRESS_TYPE | QNC_SMM_ADDR_TYPE_NULL => None
  end.
Definition reg_at d (p : place) : Z := match p with Io A => reg_io d A | Pci A => reg_pci d A end.
Definition w1c_at (p : place) : Z := match p with Io A => w1c A | Pci _ => 0 end.

Definition desc_ok b : bool :=
  match b.(Type_) with
  | ACPI_ADDR_TYPE | GPE_ADDR_TYPE | PCI_ADDR_TYPE =>
      ((b.(SizeInBytes) =? 1) || (b.(SizeInBytes) =? 2) || (b.(SizeInBytes) =? 4)) && (0 <=? b.(Bit)) && (b.(Bit) <? 8 * b.(SizeInBytes))
  | MEMORY_MAPPED_IO_ADDRESS_TYPE => false
  | QNC_SMM_ADDR_TYPE_NULL => true
  end.
Definition desc_bit d b : bool := match place_of b with Some p => Z.testbit (reg_at d p) b.(Bit) | None => true end.

Lemma wp_gpe0 (Q : Z -> D -> Prop) d : (forall d', same d d' -> Q gpe_base d') -> wp gpe0 Q d.
Proof.
  intros HQ. unfold gpe0. apply wp_bind. eapply wp_mono; [apply lpc_law|]. intros v d' [Hv Hd]. apply wp_ret. rewrite Hv. by apply HQ.
Qed.

Lemma bit_masked (n i r : Z) : 0 <= i < 8 * n -> n = 1 \/ n = 2 \/ n = 4 -> negb (Z.land (wrap (8 * n) r) (u64 (Z.shiftl 1 i)) =? 0) = Z.testbit r i.
Proof.
  intros Hi Hn. rewrite Z.shiftl_1_l, (wrap_small 64) by (split; [by apply Z.pow_nonneg|apply Z.pow_lt_mono_r; lia]).
  assert (E : Z.land (wrap (8 * n) r) (2 ^ i) = if Z.testbit r i then 2 ^ i else 0).
  { apply Z.bits_inj'. intros k Hk. rewrite Z.land_spec, wrap_bit, Z.pow2_bits_eqb by lia.
    destruct (Z.eqb_spec i k) as [<-|Hne]; [|rewrite andb_false_r; destruct (Z.testbit r i); [by rewrite Z.pow2_bits_false by lia|by rewrite Z.bits_0]].
    rewrite (proj2 (Z.ltb_lt i (8 * n))), !andb_true_r by lia. destruct (Z.testbit r i); [by rewrite Z.pow2_bits_true by lia|by rewrite Z.bits_0]. }
  rewrite E. pose proof (Z.pow_pos_nonneg 2 i). destruct (Z.testbit r i); [|done]. apply negb_true_iff, Z.eqb_neq. lia.
Qed.

(** A descriptor that can be used, by cases. *)
Lemma desc_cases b : desc_ok b = true -> IS_BIT_DESC_NULL b = false ->
  (b.(SizeInBytes) = 1 \/ b.(SizeInBytes) = 2 \/ b.(SizeInBytes) = 4) /\ 0 <= b.(Bit) < 8 * b.(SizeInBytes) /\
  (b.(Type_) = ACPI_ADDR_TYPE \/ b.(Type_) = GPE_ADDR_TYPE \/ b.(Type_) = PCI_ADDR_TYPE).
Proof.
  unfold desc_ok, IS_BIT_DESC_NULL. intros H Hn. apply bool_decide_eq_false in Hn.
  destruct (Type_ b); [| |done| |done]; rewrite !andb_true_iff, !orb_true_iff, !Z.eqb_eq, Z.leb_le, Z.ltb_lt in H; (split; [tauto|]); (split; [lia|tauto]).
Qed.

Lemma wp_ReadBitDesc b (Q : bool -> D -> Prop) d :
  desc_ok b = true -> IS_BIT_DESC_NULL b = false -> (forall d', same d d' -> Q (desc_bit d b) d') -> wp (ReadBitDesc b) Q d.
Proof.
  intros Hb Hn HQ. destruct (desc_cases b Hb Hn) as (Hs & Hi & Ht). destruct base_law as [Hg Hp]. unfold ReadBitDesc.
  apply wp_bind, wp_assert; [by rewrite Hn|]. unfold desc_bit, place_of in HQ. destruct Ht as [E|[E|E]]; rewrite E in HQ |- *; cbn [reg_at] in HQ.
  - apply wp_bind, wp_assert; [done|]. apply wp_bind. eapply wp_mono; [by apply read_law|]. intros v d' [-> Hd]. apply wp_ret. rewrite bit_masked by done. by apply HQ.
  - apply wp_bind, wp_gpe0. intros d1 H1. apply wp_bind, wp_assert; [done|]. apply wp_bind, wp_gpe0. intros d2 H2.
    apply wp_bind. eapply wp_mono; [by apply read_law|]. intros v d' [-> Hd]. apply wp_ret. rewrite bit_masked by done.
    rewrite (proj1 (same_trans _ _ _ H1 H2)). apply HQ. by do 2 (eapply same_trans; [|eassumption]).
  - apply wp_bind. eapply wp_mono; [by apply read_pci_law|]. intros v d' [-> Hd]. apply wp_ret. rewrite bit_masked by done. by apply HQ.
Qed.

(** Writing a bit: it gets the value, or is cleared by a one; in a register with such bits, the others are cleared too. *)
Definition wrote_bit b (v : bool) d d' : Prop :=
  exists p, place_of b = Some p /\
  (forall i, 0 <= i < 8 * b.(SizeInBytes) -> Z.testbit (reg_at d' p) i =
     stored (Z.testbit (w1c_at p) i) (Z.testbit (reg_at d p) i) (if i =? b.(Bit) then v else Z.testbit (reg_at d p) i)) /\
  (forall i, 8 * b.(SizeInBytes) <= i -> Z.testbit (reg_at d' p) i = Z.testbit (reg_at d p) i) /\
  (forall p', p' <> p -> reg_at d' p' = reg_at d p').

Lemma b2z_bit (v : bool) j : Z.testbit (Z.b2z v) j = v && (j =? 0).
Proof. destruct v; cbn [Z.b2z andb]; [change 1 with (2 ^ 0); rewrite Z.pow2_bits_eqb by lia; apply Z.eqb_sym|apply Z.bits_0]. Qed.

Lemma changed_bit (n i : Z) (v : bool) r k : 0 <= i < 8 * n -> n = 1 \/ n = 2 \/ n = 4 -> 0 <= k < 8 * n ->
  Z.testbit (Z.lor (Z.land r (u64 (Z.lnot (Z.shiftl 1 i)))) (u32 (Z.shiftl (Z.b2z v) i))) k = if k =? i then v else Z.testbit r k.
Proof.
  intros Hi Hn Hk. rewrite Z.lor_spec, Z.land_spec, !wrap_bit, Z.lnot_spec, Z.shiftl_1_l, Z.pow2_bits_eqb, Z.shiftl_spec, b2z_bit by lia.
  rewrite (proj2 (Z.ltb_lt k 64)), (proj2 (Z.ltb_lt k 32)), !andb_true_r by lia.
  destruct (Z.eqb_spec k i) as [->|Hne].
  - rewrite Z.eqb_refl, Z.sub_diag. cbn [negb Z.eqb]. by rewrite andb_false_r, andb_true_r.
  - rewrite (proj2 (Z.eqb_neq i k)), (proj2 (Z.eqb_neq (k - i) 0)) by lia. cbn [negb]. by rewrite andb_false_r, orb_false_r, andb_true_r.
Qed.

Lemma wp_WriteBitDesc b v (Q : unit -> D -> Prop) d :
  desc_ok b = true -> IS_BIT_DESC_NULL b = false -> (forall d', wrote_bit b v d d' -> Q tt d') -> wp (WriteBitDesc b v) Q d.
Proof.
  intros Hb Hn HQ. destruct (desc_cases b Hb Hn) as (Hs & Hi & Ht). destruct base_law as [Hg Hp]. unfold WriteBitDesc.
  apply wp_bind, wp_assert; [by rewrite Hn|]. unfold wrote_bit, place_of in HQ.
  assert (HIo : forall A d0 d', same d d0 -> wrote b.(SizeInBytes) A (Z.lor (Z.land (reg_io d0 A) (u64 (Z.lnot (Z.shiftl 1 b.(Bit))))) (u32 (Z.shiftl (Z.b2z v) b.(Bit)))) d0 d' ->
    (forall i, 0 <= i < 8 * b.(SizeInBytes) -> Z.testbit (reg_at d' (Io A)) i =
       stored (Z.testbit (w1c_at (Io A)) i) (Z.testbit (reg_at d (Io A)) i) (if i =? b.(Bit) then v else Z.testbit (reg_at d (Io A)) i)) /\
    (forall i, 8 * b.(SizeInBytes) <= i -> Z.testbit (reg_at d' (Io A)) i = Z.testbit (reg_at d (Io A)) i) /\
    (forall p', p' <> Io A -> reg_at d' p' = reg_at d p')).
  { intros A d0 d' [S1 S2] (H1 & H2 & H3). cbn [reg_at w1c_at]. split; [|split].
    - intros i Hr. rewrite H1, (proj2 (Z.ltb_lt _ _)) by lia. rewrite (changed_bit b.(SizeInBytes)) by (done || lia). by rewrite S1.
    - intros i Hr. rewrite H1, (proj2 (Z.ltb_ge _ _)) by lia. by rewrite S1.
    - intros [A'|A'] Hne; cbn [reg_at]; [rewrite H2, S1; [done|congruence]|by rewrite H3, S2]. }
  destruct Ht as [E|[E|E]]; rewrite E in HQ |- *.
  - apply wp_bind, wp_assert; [done|]. eapply wp_mono; [by apply change_law|]. intros [] d' Hw. apply HQ. eexists. split; [done|]. by apply (HIo _ d).
  - apply wp_bind, wp_gpe0. intros d1 H1. apply wp_bind, wp_assert; [done|]. apply wp_bind, wp_gpe0. intros d2 H2.
    eapply wp_mono; [by apply change_law|]. intros [] d' Hw. apply HQ. eexists. split; [done|]. apply (HIo _ d2); [by eapply same_trans|done].
  - eapply wp_mono; [by apply change_pci_law|]. intros [] d' (W1 & W2 & W3). apply HQ. eexists. split; [done|]. cbn [reg_at w1c_at]. split; [|split].
    + intros i Hr. rewrite W1, (proj2 (Z.ltb_lt _ _)) by lia. rewrite (changed_bit b.(SizeInBytes)) by (done || lia). by rewrite Z.bits_0.
    + intros i Hr. by rewrite W1, (proj2 (Z.ltb_ge _ _)) by lia.
    + intros [A'|A'] Hne; cbn [reg_at]; [by rewrite W3|rewrite W2; [done|congruence]].
Qed.

(** ** Sources *)

Definition sci d : bool := Z.testbit (reg_io d (PcdPm1blkIoBaseAddress + R_QNC_PM1BLK_PM1C)) 0.
Definition enabled d (s : QNC_SMM_SOURCE_DESC) : bool := forallb (desc_bit d) s.(En).
Definition pending d (s : QNC_SMM_SOURCE_DESC) : bool := forallb (desc_bit d) s.(Sts).
Definition active d (s : QNC_SMM_SOURCE_DESC) : bool :=
  negb (negb (Z.land s.(Flags) QNC_SMM_SCI_EN_DEPENDENT =? 0) && sci d) && enabled d s && pending d s.
Definition source_ok (s : QNC_SMM_SOURCE_DESC) : bool := forallb desc_ok s.(En) && forallb desc_ok s.(Sts).

Lemma desc_bit_same d d' b : same d d' -> desc_bit d' b = desc_bit d b.
Proof. intros [H1 H2]. unfold desc_bit. destruct (place_of b) as [[A|A]|]; cbn [reg_at]; [by rewrite H1|by rewrite H2|done]. Qed.
Lemma forallb_same d d' l : same d d' -> forallb (desc_bit d') l = forallb (desc_bit d) l.
Proof. intros H. induction l as [|b l IH]; [done|]. cbn [forallb]. by rewrite IH, (desc_bit_same d d'). Qed.
Lemma sci_same d d' : same d d' -> sci d' = sci d.
Proof. intros [H _]. unfold sci. by rewrite H. Qed.
Lemma active_same d d' s : same d d' -> active d' s = active d s.
Proof. intros H. unfold active, enabled, pending. by rewrite !(forallb_same d d'), (sci_same d d'). Qed.

Lemma null_bit d b : IS_BIT_DESC_NULL b = true -> desc_bit d b = true.
Proof. unfold IS_BIT_DESC_NULL, desc_bit, place_of. rewrite bool_decide_eq_true. by intros ->. Qed.

Lemma wp_all_set l (Q : bool -> D -> Prop) d :
  forallb desc_ok l = true -> (forall d', same d d' -> Q (forallb (desc_bit d) l) d') -> wp (all_set l) Q d.
Proof.
  revert d Q. induction l as [|b l IH]; intros d Q Hl HQ; cbn [all_set forallb] in *; [apply wp_ret, HQ, same_refl|].
  apply andb_true_iff in Hl as [Hb Hl]. destruct (IS_BIT_DESC_NULL b) eqn:En_.
  - rewrite null_bit in HQ by done. by apply IH.
  - apply wp_bind, wp_ReadBitDesc; [done|done|]. intros d1 H1. destruct (desc_bit d b); cbn [negb andb] in *.
    + apply IH; [done|]. intros d' H'. rewrite (forallb_same d d1) by done. apply HQ. by eapply same_trans.
    + by apply wp_ret, HQ.
Qed.

Lemma wp_QNCSmmGetSciEn (Q : bool -> D -> Prop) d : (forall d', same d d' -> Q (sci d) d') -> wp QNCSmmGetSciEn Q d.
Proof.
  intros HQ. unfold QNCSmmGetSciEn. apply wp_bind. eapply wp_mono; [apply (read_law 4); tauto|]. intros v d' [-> Hd]. apply wp_ret.
  assert (E : (Z.land (wrap (8 * 4) (reg_io d (PcdPm1blkIoBaseAddress + R_QNC_PM1BLK_PM1C))) B_QNC_PM1BLK_PM1C_SCIEN =? B_QNC_PM1BLK_PM1C_SCIEN) = sci d).
  { pose proof (bit_masked 4 0 (reg_io d (PcdPm1blkIoBaseAddress + R_QNC_PM1BLK_PM1C)) ltac:(lia) ltac:(tauto)) as E. unfold sci. rewrite <- E.
    change (u64 (Z.shiftl 1 0)) with 1. change B_QNC_PM1BLK_PM1C_SCIEN with 1.
    set (x := wrap _ _). change 1 with (Z.ones 1). rewrite Z.land_ones by lia. pose proof (Z.mod_pos_bound x 2). change (2 ^ 1) with 2.
    change (Z.ones 1) with 1. destruct (Z.eqb_spec (x mod 2) 0), (Z.eqb_spec (x mod 2) 1); done || lia. }
  rewrite E. by apply HQ.
Qed.

Lemma wp_SourceIsActive s (Q : bool -> D -> Prop) d :
  source_ok s = true -> (forall d', same d d' -> Q (active d s) d') -> wp (SourceIsActive s) Q d.
Proof.
  intros Hs HQ. apply andb_true_iff in Hs as [He Hs]. unfold SourceIsActive. apply wp_bind, wp_QNCSmmGetSciEn. intros d1 H1.
  unfold active, enabled, pending in HQ. destruct (negb _ && sci d) eqn:E1; [by apply wp_ret, HQ|]. cbn [negb andb] in HQ.
  apply wp_bind, wp_all_set; [done|]. intros d2 H2. rewrite (forallb_same d d1) by done.
  assert (H12 : same d d2) by by eapply same_trans. destruct (forallb (desc_bit d) (En s)); cbn [negb andb] in *; [|by apply wp_ret, HQ].
  apply wp_all_set; [done|]. intros d3 H3. rewrite (forallb_same d d2) by done. apply HQ. by eapply same_trans.
Qed.

(** ** Writing to sources *)

Fixpoint writes (v : bool) (l : list QNC_SMM_BIT_DESC) d d' : Prop :=
  match l with
  | [] => d' = d
  | b :: l => if IS_BIT_DESC_NULL b then writes v l d d' else exists d1, wrote_bit b v d d1 /\ writes v l d1 d'
  end.

Lemma wp_write_bits v l (Q : unit -> D -> Prop) d : forallb desc_ok l = true -> (forall d', writes v l d d' -> Q tt d') -> wp (write_bits v l) Q d.
Proof.
  unfold write_bits. revert d. induction l as [|b l IH]; intros d Hl HQ; cbn [for_each forallb writes] in *; [by apply wp_ret, HQ|].
  apply andb_true_iff in Hl as [Hb Hl]. apply wp_bind. destruct (IS_BIT_DESC_NULL b) eqn:E; [by apply wp_ret, IH|].
  apply wp_WriteBitDesc; [done|done|]. intros d1 H1. apply IH; [done|]. intros d' H'. apply HQ. by exists d1.
Qed.

(** The sources of the program. *)
Definition sources : list QNC_SMM_SOURCE_DESC :=
  [SX_SOURCE_DESC; SW_SOURCE_DESC; GPI_SOURCE_DESC; mTIMER_SOURCE_DESC; rtc_source; bios_wp_source; thermal_source; NULL_SOURCE_DESC_INITIALIZER].

Lemma known_ok s : s ∈ sources -> source_ok s = true.
Proof. intros H. assert (F : forallb source_ok sources = true) by done. rewrite forallb_forall in F. apply F. by apply list_elem_of_In. Qed.

(** The registers that no source has a bit in: the type of sleep and the value of a software SMI. *)
Definition pm1c : Z := PcdPm1blkIoBaseAddress + R_QNC_PM1BLK_PM1C.
Definition smis : Z := gpe_base + R_QNC_GPE0BLK_SMIS.
Definition calm d d' : Prop := reg_io d' pm1c = reg_io d pm1c /\ reg_io d' R_APM_CNT = reg_io d R_APM_CNT.

Lemma calm_refl d : calm d d.
Proof. by split. Qed.
Lemma calm_trans d d1 d2 : calm d d1 -> calm d1 d2 -> calm d d2.
Proof. intros [H1 H2] [H3 H4]. split; congruence. Qed.
Lemma calm_same d d' : same d d' -> calm d d'.
Proof. intros [H _]. split; apply H. Qed.
Lemma calm_wrote n A v d d' : A <> pm1c -> A <> R_APM_CNT -> wrote n A v d d' -> calm d d'.
Proof. intros H1 H2 (_ & H & _). split; apply H; congruence. Qed.

Lemma calm_writes v l d d' :
  Forall (fun b => place_of b <> Some (Io pm1c) /\ place_of b <> Some (Io R_APM_CNT)) l -> writes v l d d' -> calm d d'.
Proof.
  revert d. induction l as [|b l IH]; intros d Hl; cbn [writes]; [intros ->; apply calm_refl|]. apply Forall_cons in Hl as [[H1 H2] Hl].
  destruct (IS_BIT_DESC_NULL b); [by apply IH|]. intros (d1 & (p & Hp & _ & _ & Ho) & Hw). eapply calm_trans; [|by eapply IH].
  rewrite Hp in H1, H2. split; [apply (Ho (Io pm1c))|apply (Ho (Io R_APM_CNT))]; congruence.
Qed.

End Registers.

(** Ports are different. *)
Ltac ports := pose proof block_law; unfold pm1c, smis, R_APM_CNT, R_QNC_PM1BLK_PM1C, R_QNC_PM1BLK_PM1S, R_QNC_PM1BLK_PM1E, R_QNC_GPE0BLK_SMIE,
  R_QNC_GPE0BLK_SMIS, R_QNC_GPE0BLK_GPE0S, R_QNC_GPE0BLK_GPE0E, R_QNC_GPE0BLK_PMCW, EFI_PCI_ADDRESS_PORT in *; lia.

Section Writing.
Context {D : Type} {B : SmiBus D} {V : SmiView D} {L : SmiLaws D}.
Implicit Types (d : D) (b : QNC_SMM_BIT_DESC).

Lemma known_calm s : s ∈ sources -> Forall (fun b => place_of b <> Some (Io pm1c) /\ place_of b <> Some (Io R_APM_CNT)) (En s ++ Sts s).
Proof.
  intros H. unfold sources in H. rewrite !elem_of_cons, elem_of_nil in H.
  repeat destruct H as [->|H]; [..|destruct H]; repeat (apply Forall_cons_2; [unfold place_of; cbn; split; intros E; try discriminate E; injection E as E; try change (u16 _) with 0 in E|]); try apply Forall_nil_2.
  all: repeat match type of E with context [u16 ?x] => let y := eval vm_compute in (u16 x) in change (u16 x) with y in E end; ports.
Qed.

Lemma wp_QNCSmmClearSource s (Q : unit -> D -> Prop) d :
  s ∈ sources -> (forall d', calm d d' -> writes (Z.land s.(Flags) QNC_SMM_CLEAR_WITH_ZERO =? 0) s.(Sts) d d' -> Q tt d') -> wp (QNCSmmClearSource s) Q d.
Proof.
  intros Hs HQ. pose proof (known_calm s Hs) as Hc. apply Forall_app in Hc as [_ Hc]. pose proof (known_ok s Hs) as Hk. apply andb_true_iff in Hk as [_ Hk].
  apply wp_write_bits; [done|]. intros d' Hw. apply HQ; [by eapply calm_writes|done].
Qed.

Lemma wp_QNCSmmDisableSource s (Q : unit -> D -> Prop) d :
  s ∈ sources -> (forall d', calm d d' -> writes false s.(En) d d' -> Q tt d') -> wp (QNCSmmDisableSource s) Q d.
Proof.
  intros Hs HQ. pose proof (known_calm s Hs) as Hc. apply Forall_app in Hc as [Hc _]. pose proof (known_ok s Hs) as Hk. apply andb_true_iff in Hk as [Hk _].
  apply wp_write_bits; [done|]. intros d' Hw. apply HQ; [by eapply calm_writes|done].
Qed.

Lemma wp_QNCSmmEnableSource s (Q : unit -> D -> Prop) d :
  s ∈ sources ->
  (forall d1 d', calm d d' -> writes true s.(En) d d1 -> writes (Z.land s.(Flags) QNC_SMM_CLEAR_WITH_ZERO =? 0) s.(Sts) d1 d' -> Q tt d') ->
  wp (QNCSmmEnableSource s) Q d.
Proof.
  intros Hs HQ. pose proof (known_calm s Hs) as Hc. apply Forall_app in Hc as [Hc _]. pose proof (known_ok s Hs) as Hk. apply andb_true_iff in Hk as [Hk _].
  unfold QNCSmmEnableSource. apply wp_bind, wp_write_bits; [done|]. intros d1 H1. apply wp_QNCSmmClearSource; [done|]. intros d' C' H'.
  eapply HQ; [|done|done]. eapply calm_trans; [by eapply calm_writes|done].
Qed.

(** Status bits of SMIs are never set by writing. *)
Definition silent d : Prop := forall i, Z.testbit B_QNC_GPE0BLK_SMIS_ALL i = true -> Z.testbit (reg_io d smis) i = false.

Lemma smis_range i : Z.testbit B_QNC_GPE0BLK_SMIS_ALL i = true -> 0 <= i < 18.
Proof.
  intros H. destruct (Z.lt_ge_cases i 0); [by rewrite Z.testbit_neg_r in H|]. split; [done|]. apply Z.nle_gt. intros Hi.
  by rewrite (in_width_bit 18) in H.
Qed.

Lemma w1c_smis i : Z.testbit (w1c smis) i = Z.testbit B_QNC_GPE0BLK_SMIS_ALL i.
Proof. apply w1c_law. Qed.

Lemma silent_same d d' : same d d' -> silent d -> silent d'.
Proof. intros [H _] Hs i Hi. rewrite H. by apply Hs. Qed.
Lemma silent_wrote n A v d d' : wrote n A v d d' -> silent d -> silent d'.
Proof.
  intros (H1 & H2 & _) Hs i Hi. pose proof (smis_range i Hi) as Hr. destruct (decide (A = smis)) as [->|Hne]; [|rewrite H2 by congruence; by apply Hs].
  rewrite H1, w1c_smis, Hi by lia. cbn [stored]. by destruct (i <? 8 * n); rewrite (Hs i Hi).
Qed.
Lemma silent_wrote_bit b v d d' : wrote_bit b v d d' -> silent d -> silent d'.
Proof.
  intros (p & Hp & H1 & H2 & H3) Hs i Hi. pose proof (smis_range i Hi) as Hr.
  destruct (decide (p = Io smis)) as [->|Hne]; [|change (reg_io d' smis) with (reg_at d' (Io smis)); rewrite H3 by congruence; by apply Hs].
  cbn [reg_at w1c_at] in *. destruct (Z.lt_ge_cases i (8 * SizeInBytes b)); [rewrite H1 by lia|rewrite H2 by lia; by apply Hs].
  rewrite w1c_smis, Hi. cbn [stored]. by rewrite (Hs i Hi).
Qed.
Lemma silent_writes v l d d' : writes v l d d' -> silent d -> silent d'.
Proof.
  revert d. induction l as [|b l IH]; intros d; cbn [writes]; [by intros ->|]. destruct (IS_BIT_DESC_NULL b); [by apply IH|].
  intros (d1 & Hb & Hw) Hs. eapply IH; [done|]. by eapply silent_wrote_bit.
Qed.

(** The end of an SMI clears all of them. *)
Lemma wp_QNCSmmSetAndCheckEos (Q : bool -> D -> Prop) d : (forall d', calm d d' -> silent d' -> Q true d') -> wp QNCSmmSetAndCheckEos Q d.
Proof.
  intros HQ. unfold QNCSmmSetAndCheckEos. apply wp_bind, wp_gpe0. intros d1 H1. apply wp_bind. eapply wp_mono; [apply or_law|]. intros v d' Hw. apply wp_ret, HQ.
  - eapply calm_trans; [by apply calm_same|]. eapply calm_wrote; [| |exact Hw]; ports.
  - intros i Hi. pose proof (smis_range i Hi) as Hr. destruct Hw as (Hw & _). fold smis in Hw. rewrite Hw, w1c_smis, Hi by lia.
    rewrite (proj2 (Z.ltb_lt i (8 * 4))) by lia. cbn [stored]. rewrite Z.lor_spec. by destruct (Z.testbit (reg_io d1 smis) i).
Qed.

(** A source that was enabled is, and is not pending. *)
Lemma bit_written b v d d' : wrote_bit b v d d' -> 0 <= b.(Bit) < 8 * b.(SizeInBytes) ->
  (forall p, place_of b = Some p -> Z.testbit (w1c_at p) b.(Bit) = false) -> desc_bit d' b = v.
Proof. intros (p & Hp & H1 & _) Hb Hm. unfold desc_bit. rewrite Hp, H1, (Hm p Hp), Z.eqb_refl by done. done. Qed.
Lemma bit_cleared b d d' : wrote_bit b true d d' -> 0 <= b.(Bit) < 8 * b.(SizeInBytes) ->
  (forall p, place_of b = Some p -> Z.testbit (w1c_at p) b.(Bit) = true) -> desc_bit d' b = false.
Proof. intros (p & Hp & H1 & _) Hb Hm. unfold desc_bit. rewrite Hp, H1, (Hm p Hp), Z.eqb_refl by done. apply andb_false_r. Qed.
Lemma bit_other b b' v d d' : wrote_bit b v d d' ->
  (place_of b' <> place_of b \/ 0 <= b'.(Bit) < 8 * b.(SizeInBytes) /\ b'.(Bit) <> b.(Bit) /\ (forall p, place_of b' = Some p -> Z.testbit (w1c_at p) b'.(Bit) = false)) ->
  desc_bit d' b' = desc_bit d b'.
Proof.
  intros (p & Hp & H1 & H2 & H3) Ho. unfold desc_bit. destruct (place_of b') as [p'|] eqn:E; [|done].
  destruct (decide (p' = p)) as [->|Hne]; [|by rewrite H3]. destruct Ho as [Ho|(Hr & Hne & Hm)]; [congruence|].
  rewrite H1, (Hm p eq_refl), (proj2 (Z.eqb_neq _ _)) by done. done.
Qed.

Lemma enable_one b c z d d1 d' :
  0 <= b.(Bit) < 8 * c.(SizeInBytes) -> 0 <= b.(Bit) < 8 * b.(SizeInBytes) -> 0 <= c.(Bit) < 8 * c.(SizeInBytes) ->
  (forall p, place_of b = Some p -> Z.testbit (w1c_at p) b.(Bit) = false) -> (forall p, place_of c = Some p -> Z.testbit (w1c_at p) c.(Bit) = z) ->
  (place_of b <> place_of c \/ b.(Bit) <> c.(Bit)) -> wrote_bit b true d d1 -> wrote_bit c z d1 d' ->
  desc_bit d' b = true /\ desc_bit d' c = false.
Proof.
  intros H0 Hb Hc Mb Mc Hne Wb Wc. split.
  - rewrite (bit_other c b z d1); [by eapply bit_written|done|]. destruct Hne; [by left|by right].
  - destruct z; [by eapply bit_cleared|by eapply bit_written].
Qed.

Lemma enable_bits s : s ∈ sources -> s <> NULL_SOURCE_DESC_INITIALIZER ->
  exists b, s.(En) = [b; NULL_BIT_DESC_INITIALIZER] /\ IS_BIT_DESC_NULL b = false /\ 0 <= b.(Bit) < 8 * b.(SizeInBytes) /\
            (forall p, place_of b = Some p -> w1c_at p = 0).
Proof.
  intros H Hn. pose proof w1c_law as (_ & W2 & _ & W4 & W5 & _). unfold sources in H. rewrite !elem_of_cons, elem_of_nil in H.
  repeat destruct H as [->|H]; [..|by destruct Hn|destruct H]; eexists; (split; [reflexivity|]); (split; [done|]); (split; [cbn; by_compute|]);
    intros p E; injection E as <-; cbn [w1c_at]; first [done|exact W2|exact W4|exact W5].
Qed.

Lemma status_bits s : s ∈ sources -> s <> NULL_SOURCE_DESC_INITIALIZER ->
  exists c, s.(Sts) = [c] /\ IS_BIT_DESC_NULL c = false /\ desc_ok c = true /\ 0 <= c.(Bit) < 8 * c.(SizeInBytes) /\
            (forall p, place_of c = Some p -> Z.testbit (w1c_at p) c.(Bit) = (Z.land s.(Flags) QNC_SMM_CLEAR_WITH_ZERO =? 0)).
Proof.
  intros H Hn. pose proof w1c_law as (W1 & _ & _ & _ & _ & _ & W6 & W7). unfold sources in H. rewrite !elem_of_cons, elem_of_nil in H.
  repeat destruct H as [->|H]; [..|by destruct Hn|destruct H]; eexists; (split; [reflexivity|]); do 2 (split; [done|]); (split; [cbn; by_compute|]);
    intros p E; injection E as <-; cbn [w1c_at]; first [exact W6|exact W7|apply W1|apply Z.bits_0].
Qed.

Lemma enable_status_apart s b c l : s ∈ sources -> s <> NULL_SOURCE_DESC_INITIALIZER -> s.(En) = b :: l -> s.(Sts) = [c] ->
  0 <= b.(Bit) < 8 * c.(SizeInBytes) /\ (place_of b <> place_of c \/ b.(Bit) <> c.(Bit)).
Proof.
  intros H Hn E1 E2. unfold sources in H. rewrite !elem_of_cons, elem_of_nil in H.
  repeat destruct H as [->|H]; [..|by destruct Hn|destruct H]; injection E1 as <- _; injection E2 as <-; (split; [cbn; by_compute|]);
    first [right; cbn; discriminate|left; unfold place_of; cbn; intros E; injection E as E].
  all: repeat match type of E with context [u16 ?x] => let y := eval vm_compute in (u16 x) in change (u16 x) with y in E end; ports.
Qed.

Lemma enable_source s d d1 d' :
  s ∈ sources -> s <> NULL_SOURCE_DESC_INITIALIZER ->
  writes true s.(En) d d1 -> writes (Z.land s.(Flags) QNC_SMM_CLEAR_WITH_ZERO =? 0) s.(Sts) d1 d' -> enabled d' s = true /\ pending d' s = false.
Proof.
  intros H Hn. destruct (enable_bits s H Hn) as (b & E1 & Nb & Hb & Mb), (status_bits s H Hn) as (c & E2 & Nc & _ & Hc & Mc).
  destruct (enable_status_apart s b c _ H Hn E1 E2) as [H0 Hne]. unfold enabled, pending. rewrite E1, E2.
  cbn [writes forallb]. rewrite Nb, Nc. change (IS_BIT_DESC_NULL NULL_BIT_DESC_INITIALIZER) with true.
  change (desc_bit d' NULL_BIT_DESC_INITIALIZER) with true. rewrite !andb_true_r.
  intros (e & We & ->) (f & Wf & ->). eapply enable_one; [done..| |exact Mc|exact Hne|exact We|exact Wf]. intros p Hp. rewrite (Mb p Hp). apply Z.bits_0.
Qed.

(** A source that was disabled is, and no other with other enable bits. *)
Lemma enable_apart s s' b b' l l' : s ∈ sources -> s' ∈ sources -> CompareEnables s s' = false -> s.(En) = b :: l -> s'.(En) = b' :: l' ->
  IS_BIT_DESC_NULL b' = false -> place_of b' = place_of b -> 0 <= b'.(Bit) < 8 * b.(SizeInBytes) /\ b'.(Bit) <> b.(Bit).
Proof.
  intros H H' HC E E' Hn HP. unfold sources in H, H'. rewrite !elem_of_cons, elem_of_nil in H, H'.
  repeat destruct H as [->|H]; [..|done]; injection E as <- _; (repeat destruct H' as [->|H']; [..|done]); injection E' as <- _;
    first [discriminate HC|discriminate Hn|by_compute|exfalso; unfold place_of in HP; cbn in HP].
  all: try discriminate HP; injection HP as HP.
  all: repeat match type of HP with context [u16 ?x] => let y := eval vm_compute in (u16 x) in change (u16 x) with y in HP end; ports.
Qed.

Lemma disable_source s d d' : s ∈ sources -> s <> NULL_SOURCE_DESC_INITIALIZER -> writes false s.(En) d d' ->
  enabled d' s = false /\ forall s', s' ∈ sources -> CompareEnables s s' = false -> enabled d' s' = enabled d s'.
Proof.
  intros H Hn. destruct (enable_bits s H Hn) as (b & E & Nb & Hb & Mb). unfold enabled at 1. rewrite E. cbn [writes forallb]. rewrite Nb.
  change (IS_BIT_DESC_NULL NULL_BIT_DESC_INITIALIZER) with true. intros (d1 & W & ->). split.
  - rewrite (bit_written b false d); [done|done|done|]. intros p Hp. rewrite (Mb p Hp). apply Z.bits_0.
  - intros s' H' HC. destruct (decide (s' = NULL_SOURCE_DESC_INITIALIZER)) as [->|Hn']; [done|].
    destruct (enable_bits s' H' Hn') as (b' & E' & Nb' & _ & Mb'). unfold enabled. rewrite E'. cbn [forallb]. rewrite (bit_other b b' false d); [done|done|].
    destruct (decide (place_of b' = place_of b)) as [HP|HP]; [|by left]. right. destruct (enable_apart s s' b b' _ _ H H' HC E E' Nb' HP) as [H1 H2].
    split; [done|]. split; [done|]. intros p Hp. rewrite (Mb' p Hp). apply Z.bits_0.
Qed.
End Writing.
