(* ===== verification/SmiData.v ===== *)
(** * The dispatcher of SMIs: the database

    A database is well-formed when every record is as a registration leaves it and no two children have the same software SMI. The
    rules of registration and of its end. *)

From S2P Require Import Prelude QNCAccess SmiDefs SmiRules.
From stdpp Require Import gmap list.
#[local] Open Scope Z_scope.

(** ** Records *)

(** What the protocol of a context says of a record: the source, whether there is a buffer, the function that clears the source. *)
Definition shape (c : QNC_SMM_CONTEXT) : option (QNC_SMM_SOURCE_DESC * bool * option QNC_SMM_CLEAR_SOURCE) :=
  match c with
  | Sx t p => if (t <? SxS0) || (EfiMaximumSleepType <=? t) || (p <? SxEntry) || (EfiMaximumPhase <=? p) then None else Some (SX_SOURCE_DESC, false, None)
  | Sw v => if MAXIMUM_SWI_VALUE <? v then None else Some (SW_SOURCE_DESC, true, None)
  | Gpi _ => Some (GPI_SOURCE_DESC, false, None)
  | QNCn t =>
      if (t <? IchnMch) || (NUM_ICHN_TYPES <=? t) then None else (fun d => (d, false, Some QNCSmmQNCnClearSource)) <$> QNCN_SOURCE_DESCS !! Z.to_nat t
  | PeriodicTimer _ _ => (fun _ => (mTIMER_SOURCE_DESC, true, Some QNCSmmPeriodicTimerClearSource)) <$> ContextToTimerInterval c
  | PowerButton _ => None
  end.

(** What clients may ask for: a timer with an interval. *)
Definition context_ok (c : QNC_SMM_CONTEXT) : Prop := match c with PeriodicTimer _ t => t <> 0 | _ => True end.

Record record_ok (r : DATABASE_RECORD) : Prop := {
  rec_signature : r.(Signature) = true;
  rec_callback : r.(Callback) <> 0;
  rec_protocol : r.(ProtocolType) = protocol_of r.(ChildContext);
  rec_shape : shape r.(ChildContext) = Some (r.(SrcDesc), r.(HasBuffer), r.(ClearSource));
  rec_context : context_ok r.(ChildContext)
}.

Lemma record_ok_buffer x r : record_ok r -> record_ok (with_CommBuffer x r).
Proof. by intros []. Qed.

Lemma shape_known c d b f : shape c = Some (d, b, f) -> d ∈ sources.
Proof.
  assert (HQ : forall i d, QNCN_SOURCE_DESCS !! i = Some d -> d ∈ [rtc_source; bios_wp_source; thermal_source; NULL_SOURCE_DESC_INITIALIZER]).
  { intros i e. unfold QNCN_SOURCE_DESCS. rewrite !lookup_app. repeat case_match.
    all: intros; repeat match goal with
      | H : repeat _ _ !! _ = Some _ |- _ => apply list_elem_of_lookup_2, list_elem_of_In, repeat_spec in H
      | H : [_] !! _ = Some _ |- _ => apply list_elem_of_lookup_2, list_elem_of_singleton in H end; simplify_eq; set_solver. }
  destruct c; cbn [shape]; repeat case_match; intros HE; try discriminate HE.
  - injection HE as <- _ _. unfold sources. set_solver.
  - injection HE as <- _ _. unfold sources. set_solver.
  - injection HE as <- _ _. unfold sources. set_solver.
  - apply fmap_Some in HE as (e & He & Hx). injection Hx as -> _ _. apply HQ in He. unfold sources. set_solver.
  - apply fmap_Some in HE as (e & He & Hx). injection Hx as -> _ _. unfold sources. set_solver.
Qed.

Lemma record_known r : record_ok r -> r.(SrcDesc) ∈ sources.
Proof. intros []. by eapply shape_known. Qed.

Lemma interval_in p t i : find_interval p t mSmmPeriodicTimerIntervals = Some i -> t <> 0 -> t ∈ mSmmPeriodicTimerIntervals.
Proof.
  intros H Ht. assert (E : (t =? 0) = false) by by apply Z.eqb_neq. revert H.
  induction mSmmPeriodicTimerIntervals as [|x l IH]; cbn [find_interval]; [done|]. rewrite E. cbn [andb orb].
  destruct (Z.eqb_spec t x) as [->|Hne]; [intros; constructor|]. intros H. apply list_elem_of_further. by apply IH.
Qed.

Lemma index_of_in x i l : x ∈ l -> is_Some (index_of x i l).
Proof.
  revert i. induction l as [|y l IH]; intros i H; [by apply not_elem_of_nil in H|]. cbn [index_of]. destruct (Z.eqb_spec x y) as [->|Hne]; [by eexists|].
  apply IH. by apply elem_of_cons in H as [H|H].
Qed.

Section Database.
Context {D : Type} {B : SmiBus D} {V : SmiView D} {L : SmiLaws D}.
Implicit Types (s : smi D) (h : Z) (r : DATABASE_RECORD).

(** ** The database *)

Definition uses (m : gmap Z DATABASE_RECORD) (v : Z) (l : list Z) : bool :=
  existsb (fun h => match m !! h with Some r => match r.(ChildContext) with Sw v' => v' =? v | _ => false end | None => false end) l.

Record db_ok s : Prop := {
  db_nodup : NoDup s.(CallbackDataBase);
  db_records : forall h, h ∈ s.(CallbackDataBase) -> h <> 0 /\ exists r, s.(records) !! h = Some r /\ record_ok r;
  db_unique : forall h1 h2 r1 r2 v, h1 ∈ s.(CallbackDataBase) -> h2 ∈ s.(CallbackDataBase) -> s.(records) !! h1 = Some r1 -> s.(records) !! h2 = Some r2 ->
    r1.(ChildContext) = Sw v -> r2.(ChildContext) = Sw v -> h1 = h2
}.

Lemma wp_in_hw {A} (m : M D A) (Q : A -> smi D -> Prop) s : wp m (fun a d => Q a (with_hw d s)) s.(hw) -> wp (on_hw m) Q s.
Proof. intros (a & d & Hm & HQ). exists a, (with_hw d s). split; [|done]. unfold on_hw. by rewrite Hm. Qed.

Lemma wp_record_at h r (Q : DATABASE_RECORD -> smi D -> Prop) s : s.(records) !! h = Some r -> Q r s -> wp (record_at h) Q s.
Proof. intros Hr HQ. apply wp_bind, wp_get. by eapply wp_lift. Qed.

Lemma wp_from_link h r (Q : DATABASE_RECORD -> smi D -> Prop) s :
  s.(records) !! h = Some r -> record_ok r -> Q r s -> wp (DATABASE_RECORD_FROM_LINK h) Q s.
Proof. intros Hr Ho HQ. unfold DATABASE_RECORD_FROM_LINK. apply wp_bind. eapply wp_record_at; [done|]. apply wp_bind, wp_assert; [apply Ho|]. by apply wp_ret. Qed.

(** A list of registered records. *)
Definition listed s (l : list Z) : Prop := Forall (fun h => exists r, s.(records) !! h = Some r /\ record_ok r) l.
Lemma db_listed s : db_ok s -> listed s s.(CallbackDataBase).
Proof. intros H. apply Forall_forall. intros h Hh. by apply (db_records s H). Qed.

Lemma wp_duplicate v l (Q : bool -> smi D -> Prop) s : listed s l -> Q (uses s.(records) v l) s -> wp (duplicate v l) Q s.
Proof.
  intros Hl. revert Q. induction l as [|h l IH]; intros Q HQ; cbn [duplicate uses existsb] in *; [by apply wp_ret|].
  apply Forall_cons in Hl as [(r & Hr & Ho) Hl]. apply wp_bind. eapply wp_from_link; [done|done|]. rewrite Hr in HQ.
  rewrite (rec_protocol r Ho). destruct (ChildContext r) as [| v' | | | |]; cbn [protocol_of] in *; try (by apply IH).
  destruct (v' =? v); [by apply wp_ret|by apply IH].
Qed.

Lemma wp_check v (Q : EFI_STATUS -> smi D -> Prop) s : db_ok s ->
  Q (if uses s.(records) v s.(CallbackDataBase) then EFI_INVALID_PARAMETER else EFI_SUCCESS) s -> wp (SmiInputValueDuplicateCheck v) Q s.
Proof. intros Hs HQ. apply wp_bind, wp_get. apply wp_bind, wp_duplicate; [by apply db_listed|]. by apply wp_ret. Qed.

(** The first value that is not in use. *)
Fixpoint first_free (f : Z -> bool) (n : nat) (i : Z) : option Z :=
  match n with O => None | S n => if f i then first_free f n (i + 1) else Some i end.
Lemma first_free_range f n i v : first_free f n i = Some v -> i <= v < i + Z.of_nat n /\ f v = false /\ forall k, i <= k < v -> f k = true.
Proof.
  revert i. induction n as [|n IH]; intros i; cbn [first_free]; [done|]. destruct (f i) eqn:E; [|intros [= <-]; split; [lia|split; [done|lia]]].
  intros H. destruct (IH _ H) as (H1 & H2 & H3). split; [lia|]. split; [done|]. intros k Hk. destruct (decide (k = i)) as [->|]; [done|]. apply H3. lia.
Qed.
Lemma first_free_none f n i : first_free f n i = None -> forall k, i <= k < i + Z.of_nat n -> f k = true.
Proof.
  revert i. induction n as [|n IH]; intros i; cbn [first_free]; [lia|]. destruct (f i) eqn:E; [|done]. intros H k Hk.
  destruct (decide (k = i)) as [->|]; [done|]. apply (IH (i + 1)); [done|lia].
Qed.

Lemma first_free_ext f g n i : (forall k, f k = g k) -> first_free f n i = first_free g n i.
Proof. intros H. revert i. induction n as [|n IH]; intros i; [done|]. cbn [first_free]. by rewrite H, IH. Qed.

Definition in_use s (v : Z) : bool := uses s.(records) v s.(CallbackDataBase).

Lemma wp_free_value n i (Q : option Z -> smi D -> Prop) s : db_ok s -> Q (first_free (in_use s) n i) s -> wp (free_value n i) Q s.
Proof.
  intros Hs. revert i Q. induction n as [|n IH]; intros i Q HQ; cbn [free_value first_free] in *; [by apply wp_ret|].
  apply wp_bind, wp_check; [done|]. fold (in_use s i). destruct (in_use s i); [by apply IH|by apply wp_ret].
Qed.

(** ** The timer *)

Definition tick s h : option Z := r ← s.(records) !! h; match r.(ChildContext) with PeriodicTimer _ t => Some t | _ => None end.
Definition ticks s (l : list Z) : list Z := omap (tick s) l.

Lemma wp_required l Min Num (Q : Z * Z -> smi D -> Prop) s :
  listed s l -> Q (foldl Z.min Min (ticks s l), match ticks s l with [] => Num | t => u32 (Num + Z.of_nat (length t)) end) s -> wp (required l Min Num) Q s.
Proof.
  intros Hl. revert Min Num Q. induction l as [|h l IH]; intros Min Num Q HQ; cbn [required ticks omap list_omap foldl] in *; [by apply wp_ret|].
  apply Forall_cons in Hl as [(r & Hr & Ho) Hl]. apply wp_bind. eapply wp_from_link; [done|done|].
  assert (E : tick s h = match ChildContext r with PeriodicTimer _ t => Some t | _ => None end) by (unfold tick; by rewrite Hr).
  pose proof (rec_shape r Ho) as Hsh. rewrite (rec_protocol r Ho). destruct (ChildContext r) as [| | | | |p t] eqn:Ec; cbn [protocol_of] in *; rewrite E in HQ; try (by apply IH).
  destruct (ContextToTimerInterval (PeriodicTimer p t)) eqn:Ei; [|by unfold shape in Hsh; rewrite Ei in Hsh].
  cbn [foldl length] in HQ. apply IH; [done|].
  assert (Em : (if t <? Min then t else Min) = Z.min Min t) by (bools; lia). rewrite Em.
  match goal with |- Q (?a, ?b) s => match type of HQ with Q (_, ?c) _ => replace b with c; [done|] end end. fold (ticks s l).
  destruct (ticks s l) as [|x k]; [cbn; f_equal; lia|]. unfold wrap. rewrite Zplus_mod_idemp_l. f_equal. cbn [length]. lia.
Qed.

(** The smallest interval is one of the table. *)
Lemma foldl_min_in x l Min : foldl Z.min Min (x :: l) = Min \/ foldl Z.min Min (x :: l) ∈ x :: l.
Proof.
  revert x Min. induction l as [|y l IH]; intros x Min.
  - cbn. destruct (Z.min_spec Min x) as [[_ ->]|[_ ->]]; [by left|right; set_solver].
  - change (foldl Z.min Min (x :: y :: l)) with (foldl Z.min (Z.min Min x) (y :: l)). destruct (IH y (Z.min Min x)) as [->|H]; [|right; set_solver].
    destruct (Z.min_spec Min x) as [[_ ->]|[_ ->]]; [by left|right; set_solver].
Qed.
Lemma foldl_min_le l Min : foldl Z.min Min l <= Min /\ Forall (fun x => foldl Z.min Min l <= x) l.
Proof.
  revert Min. induction l as [|x l IH]; intros Min; cbn [foldl]; [split; [lia|constructor]|]. destruct (IH (Z.min Min x)) as [H1 H2]. split; [lia|].
  apply Forall_cons_2; [lia|done].
Qed.

Lemma ticks_in s l : listed s l -> Forall (fun t => t ∈ mSmmPeriodicTimerIntervals) (ticks s l).
Proof.
  intros Hl. unfold ticks. apply Forall_forall. intros t Ht. apply list_elem_of_omap in Ht as (h & Hh & Ht).
  unfold listed in Hl. rewrite Forall_forall in Hl. destruct (Hl h Hh) as (r & Hr & Ho). unfold tick in Ht. rewrite Hr in Ht. cbn [mbind option_bind] in Ht.
  pose proof (rec_shape r Ho) as Hsh. pose proof (rec_context r Ho) as Hc. destruct (ChildContext r) as [| | | | |p t'] eqn:E; try discriminate. injection Ht as ->.
  cbn [shape ContextToTimerInterval fmap option_fmap option_map context_ok] in *. destruct (find_interval _ _ _) eqn:Ei; [|discriminate]. by eapply interval_in.
Qed.

(** The interval that is needed. *)
Definition needed s : Z := foldl Z.min (2 ^ 64 - 1) (ticks s s.(CallbackDataBase)).
Lemma needed_in s : db_ok s -> ticks s s.(CallbackDataBase) <> [] -> needed s ∈ mSmmPeriodicTimerIntervals.
Proof.
  intros Hs Hne. pose proof (ticks_in s _ (db_listed s Hs)) as Ht. unfold needed. destruct (ticks s (CallbackDataBase s)) as [|x l]; [done|].
  pose proof (foldl_min_le (x :: l) (2 ^ 64 - 1)) as [_ Hle]. destruct (foldl_min_in x l (2 ^ 64 - 1)) as [E|H]; [|by apply (proj1 (Forall_forall _ _) Ht)].
  rewrite E in Hle. apply Forall_cons in Hle as [Hle _]. apply Forall_cons in Ht as [Ht _]. unfold mSmmPeriodicTimerIntervals in Ht.
  rewrite !elem_of_cons in Ht. unfold TIME_1_5ms, TIME_16ms, TIME_32ms, TIME_64ms, TIME_8s, TIME_16s, TIME_32s, TIME_64s in Ht.
  exfalso. repeat destruct Ht as [->|Ht]; try lia. by apply not_elem_of_nil in Ht.
Qed.

Lemma timer_known : mTIMER_SOURCE_DESC ∈ sources.
Proof. unfold sources. set_solver. Qed.

(** The register of the rate. *)
Definition pmcw : Z := gpe_base + R_QNC_GPE0BLK_PMCW.

(** The timer is programmed: hardware and variables change, nothing else; the number of the rate is added to the bits that are set. *)
Lemma wp_ProgramTimers (Q : unit -> smi D -> Prop) s :
  db_ok s ->
  (forall t d, calm s.(hw) d ->
     (ticks s s.(CallbackDataBase) <> [] -> Z.of_nat (length s.(CallbackDataBase)) < 2 ^ 32 ->
      exists i, index_of (needed s) 0 mSmmPeriodicTimerIntervals = Some i /\ Z.land (reg_io d pmcw) 7 = Z.lor (Z.land (reg_io s.(hw) pmcw) 7) i) ->
     Q tt (with_timers t (with_hw d s))) -> wp QNCSmmPeriodicTimerProgramTimers Q s.
Proof.
  intros Hs HQ. unfold QNCSmmPeriodicTimerProgramTimers. apply wp_bind, wp_get. apply wp_bind, wp_required; [by apply db_listed|].
  set (Num := match ticks s _ with [] => 0 | _ => _ end). cbn beta iota. fold (needed s).
  assert (Hpos : ticks s (CallbackDataBase s) <> [] -> Z.of_nat (length (CallbackDataBase s)) < 2 ^ 32 -> 0 < Num).
  { intros Hne Hlen. unfold Num. assert (Hl : (length (ticks s (CallbackDataBase s)) <= length (CallbackDataBase s))%nat).
    { unfold ticks. generalize (CallbackDataBase s). intros l. induction l as [|h l IH]; [done|]. cbn [omap list_omap]. destruct (tick s h); cbn [length]; unfold omap in *; lia. }
    destruct (ticks s (CallbackDataBase s)) as [|x l]; [done|]. cbn [length] in *. rewrite wrap_small; lia. }
  apply wp_bind, wp_modify. destruct (Z.ltb_spec 0 Num) as [Hp|Hz].
  - assert (Hne : ticks s (CallbackDataBase s) <> []) by (intros E; unfold Num in Hp; rewrite E in Hp; lia).
    destruct (index_of_in (needed s) 0 mSmmPeriodicTimerIntervals (needed_in s Hs Hne)) as [i Hi].
    apply wp_bind. eapply wp_lift; [exact Hi|]. apply wp_bind, wp_modify. apply wp_bind, wp_in_hw, wp_gpe0. intros d1 H1. apply wp_bind, wp_in_hw.
    eapply wp_mono; [apply or_law|]. intros v d2 W2. apply wp_in_hw, wp_QNCSmmClearSource; [apply timer_known|]. intros d3 C3 W3. cbn [with_hw with_timers hw] in *.
    apply HQ; [eapply calm_trans; [by apply calm_same|]; eapply calm_trans; [|exact C3]; eapply calm_wrote; [| |exact W2]; ports|].
    intros _ _. exists i. split; [done|]. cbn [mTIMER_SOURCE_DESC smi_source Sts Flags writes IS_BIT_DESC_NULL] in W3. destruct W3 as (d4 & (p & Hp' & _ & _ & Ho) & ->).
    change (reg_io d4 pmcw) with (reg_at d4 (Io pmcw)). rewrite Ho; cbn [reg_at].
    2: { unfold place_of in Hp'. cbn in Hp'. injection Hp' as <-. intros E. injection E as E. change (u16 R_QNC_GPE0BLK_SMIS) with 20 in E. unfold pmcw in E. ports. }
    assert (Hi7 : 0 <= i < 8).
    { clear -Hi. revert Hi. unfold mSmmPeriodicTimerIntervals. cbn [index_of]. repeat (destruct (_ =? _); [intros [= <-]; lia|]). done. }
    destruct W2 as (W2 & _). destruct H1 as [H1 _]. apply Z.bits_inj'. intros k Hk. rewrite Z.lor_spec, !Z.land_spec.
    destruct (decide (k < 3)) as [Hk3|Hk3].
    + fold pmcw in W2. rewrite W2 by lia. assert (Ew : w1c pmcw = 0) by apply w1c_law. rewrite Ew, Z.bits_0, (proj2 (Z.ltb_lt k (8 * 4))) by lia.
      cbn [stored]. rewrite !Z.lor_spec, H1. unfold B_QNC_GPE0BLK_PMCW_PSE. rewrite Z.pow2_bits_false by lia.
      assert (E7 : Z.testbit 7 k = true) by (assert (k = 0 \/ k = 1 \/ k = 2) as [->|[->| ->]] by lia; done). rewrite E7. by rewrite orb_false_r, !andb_true_r.
    + rewrite (in_width_bit 3 7), (in_width_bit 3 i) by (unfold in_width; lia). by rewrite !andb_false_r.
  - apply wp_in_hw, wp_QNCSmmDisableSource; [apply timer_known|]. intros d C _. apply HQ; [done|]. intros H1 H2. specialize (Hpos H1 H2). lia.
Qed.

(** ** What may change *)

(** Records but for their buffers. *)
Definition erase r : DATABASE_RECORD := with_CommBuffer 0 r.
Lemma erase_buffer x r : erase (with_CommBuffer x r) = erase r.
Proof. done. Qed.
Lemma erase_ok r r' : erase r' = erase r -> record_ok r -> record_ok r' /\ r'.(ChildContext) = r.(ChildContext) /\ r'.(SrcDesc) = r.(SrcDesc) /\
  r'.(Callback) = r.(Callback) /\ r'.(ClearSource) = r.(ClearSource) /\ r'.(ProtocolType) = r.(ProtocolType) /\ r'.(HasBuffer) = r.(HasBuffer).
Proof.
  destruct r, r'. unfold erase, with_CommBuffer. cbn. intros E. injection E as -> -> -> -> -> -> ->. intros []. split; [by split|]. by repeat split.
Qed.

(** The records of the database stay, and those of [l] come after them. *)
Record extends (l : list Z) s s' : Prop := {
  ext_db : s'.(CallbackDataBase) = s.(CallbackDataBase) ++ l;
  ext_records : forall h, h ∈ s.(CallbackDataBase) -> erase <$> s'.(records) !! h = erase <$> s.(records) !! h;
  ext_calm : calm s.(hw) s'.(hw)
}.

Lemma extends_refl s : extends [] s s.
Proof. split; [by rewrite app_nil_r|done|apply calm_refl]. Qed.
Lemma extends_trans l l' s s1 s2 : extends l s s1 -> extends l' s1 s2 -> extends (l ++ l') s s2.
Proof.
  intros [D1 R1 C1] [D2 R2 C2]. split; [by rewrite D2, D1, app_assoc| |by eapply calm_trans].
  intros h Hh. rewrite R2, R1; [done|done|]. rewrite D1. apply elem_of_app. by left.
Qed.
Lemma extends_then l s s1 s2 : extends l s s1 -> extends [] s1 s2 -> extends l s s2.
Proof. intros H1 H2. rewrite <- (app_nil_r l). by eapply extends_trans. Qed.

Lemma extends_record l s s' h r : extends l s s' -> h ∈ s.(CallbackDataBase) -> s.(records) !! h = Some r -> record_ok r ->
  exists r', s'.(records) !! h = Some r' /\ erase r' = erase r /\ record_ok r'.
Proof.
  intros H Hh Hr Ho. pose proof (ext_records _ _ _ H h Hh) as E. rewrite Hr in E. destruct (records s' !! h) as [r'|]; [|done]. apply (inj Some) in E.
  exists r'. split; [done|]. split; [done|]. by apply (erase_ok r r').
Qed.

Lemma extends_ok s s' : extends [] s s' -> db_ok s -> db_ok s'.
Proof.
  intros H Hs. pose proof (ext_db _ _ _ H) as E. rewrite app_nil_r in E. split; rewrite E.
  - apply Hs.
  - intros h Hh. destruct (db_records s Hs h Hh) as (H0 & r & Hr & Ho). split; [done|]. destruct (extends_record _ _ _ _ _ H Hh Hr Ho) as (r' & H1 & _ & H2). by exists r'.
  - intros h1 h2 r1 r2 v I1 I2 E1 E2 C1 C2.
    destruct (db_records s Hs h1 I1) as (_ & q1 & Q1 & O1), (db_records s Hs h2 I2) as (_ & q2 & Q2 & O2).
    destruct (extends_record _ _ _ _ _ H I1 Q1 O1) as (p1 & P1 & F1 & _), (extends_record _ _ _ _ _ H I2 Q2 O2) as (p2 & P2 & F2 & _).
    assert (p1 = r1) as -> by congruence. assert (p2 = r2) as -> by congruence.
    destruct (erase_ok q1 r1 F1 O1) as (_ & G1 & _), (erase_ok q2 r2 F2 O2) as (_ & G2 & _).
    eapply (db_unique s Hs h1 h2 q1 q2 v); congruence.
Qed.

Lemma extends_hw t d s : calm s.(hw) d -> extends [] s (with_timers t (with_hw d s)).
Proof. intros H. split; [by rewrite app_nil_r|done|done]. Qed.
Lemma extends_on_hw d s : calm s.(hw) d -> extends [] s (with_hw d s).
Proof. intros H. split; [by rewrite app_nil_r|done|done]. Qed.
Lemma extends_buffer h x r s : s.(records) !! h = Some r -> extends [] s (with_db s.(CallbackDataBase) (<[h := with_CommBuffer x r]> s.(records)) s).
Proof.
  intros Hr. split; cbn [with_db CallbackDataBase records hw]; [by rewrite app_nil_r| |apply calm_refl].
  intros k Hk. destruct (decide (k = h)) as [->|Hne]; [by rewrite lookup_insert_eq, Hr|by rewrite lookup_insert_ne].
Qed.

(** ** Clearing a source *)

Lemma wp_clear_timer (Q : unit -> smi D -> Prop) s :
  db_ok s -> (forall s', extends [] s s' -> s'.(calls) = s.(calls) -> Q tt s') -> wp clear_timer Q s.
Proof.
  intros Hs HQ. unfold clear_timer. apply wp_bind, wp_ProgramTimers; [done|]. intros t d C _. apply wp_bind, wp_get.
  apply (wp_for_each (fun _ s' => extends [] s s' /\ s'.(calls) = s.(calls))).
  - split; [by apply extends_hw|done].
  - intros pre h post s1 El [E1 C1]. cbn [with_timers with_hw CallbackDataBase] in El.
    assert (Hh : h ∈ CallbackDataBase s) by (rewrite El; set_solver). destruct (db_records s Hs h Hh) as (_ & r & Hr & Ho).
    destruct (extends_record _ _ _ _ _ E1 Hh Hr Ho) as (r1 & Hr1 & _ & Ho1). unfold reset_elapsed. apply wp_bind. eapply wp_from_link; [done|done|].
    assert (HR : wp (mret tt) (fun _ s' => extends [] s s' /\ s'.(calls) = s.(calls)) s1) by (by apply wp_ret).
    destruct (ProtocolType r1), (ChildContext r1) as [| | | | |p k]; try exact HR. destruct (p <=? CommBuffer r1); [|exact HR].
    apply wp_modify. split; [|done]. eapply (extends_then []); [done|]. by apply extends_buffer.
  - intros s1 [E1 C1]. by apply HQ.
Qed.

Lemma wp_clear_source c src (Q : unit -> smi D -> Prop) s :
  db_ok s -> src ∈ sources -> (forall s', extends [] s s' -> s'.(calls) = s.(calls) -> Q tt s') -> wp (clear_source c src) Q s.
Proof.
  intros Hs Hk HQ.
  assert (HD : wp (on_hw (QNCSmmClearSource src)) Q s).
  { apply wp_in_hw, wp_QNCSmmClearSource; [done|]. intros d C _. apply HQ; [by apply extends_on_hw|done]. }
  destruct c as [[|]|]; cbn [clear_source]; [exact HD|by apply wp_clear_timer|exact HD].
Qed.

(** ** Registration *)

Lemma uses_ext m m' v l : (forall h, h ∈ l -> m' !! h = m !! h) -> uses m' v l = uses m v l.
Proof.
  induction l as [|h l IH]; intros H; [done|]. cbn [uses existsb]. rewrite H by set_solver. f_equal. apply IH. intros k Hk. apply H. set_solver.
Qed.
Lemma uses_false m v l h r : uses m v l = false -> h ∈ l -> m !! h = Some r -> r.(ChildContext) <> Sw v.
Proof.
  induction l as [|k l IH]; intros H Hh Hr; [by apply not_elem_of_nil in Hh|]. cbn [uses existsb] in H. apply orb_false_iff in H as [H1 H2].
  apply elem_of_cons in Hh as [<-|Hh]; [|by apply IH]. rewrite Hr in H1. intros E. rewrite E in H1. by rewrite Z.eqb_refl in H1.
Qed.

Definition assigned s (c : QNC_SMM_CONTEXT) : option QNC_SMM_CONTEXT :=
  match c with Sw v => if v =? 2 ^ 32 - 1 then Sw <$> first_free (in_use s) (Z.to_nat (MAXIMUM_SWI_VALUE - 1)) 1 else Some c | _ => Some c end.
(** The record that a registration makes, if it is accepted. *)
Definition proposal s (fn : Z) (c : QNC_SMM_CONTEXT) : option DATABASE_RECORD :=
  match shape c with
  | Some (d, b, f) => if (match c with Sw v => in_use s v | _ => false end) then None else Some (new_record fn c d b f)
  | None => None
  end.

Lemma proposal_ok s fn c r : fn <> 0 -> context_ok c -> proposal s fn c = Some r -> record_ok r /\ r.(ChildContext) = c /\ r.(Callback) = fn.
Proof.
  unfold proposal. intros Hf Hc. destruct (shape c) as [[[d b] f]|] eqn:E; [|done]. destruct (match c with Sw v => in_use s v | _ => false end); [done|].
  intros [= <-]. split; [by split|done].
Qed.

(** Another record, which is not in the database. *)
Definition beside s s' : Prop :=
  s'.(CallbackDataBase) = s.(CallbackDataBase) /\ (forall h, h ∈ s.(CallbackDataBase) -> s'.(records) !! h = s.(records) !! h).
Lemma beside_ok s s' : beside s s' -> db_ok s -> db_ok s'.
Proof.
  intros [E R] [H1 H2 H3]. split; rewrite E; [done| |].
  - intros h Hh. destruct (H2 h Hh) as (H0 & r & Hr & Ho). split; [done|]. exists r. by rewrite R.
  - intros h1 h2 r1 r2 v I1 I2 E1 E2. rewrite R in E1, E2 by done. by eapply H3.
Qed.
Lemma beside_in_use s s' v : beside s s' -> in_use s' v = in_use s v.
Proof. intros [E R]. unfold in_use. rewrite E. by apply uses_ext. Qed.
Lemma beside_assigned s s' c : beside s s' -> assigned s' c = assigned s c.
Proof.
  intros H. destruct c; try done. cbn [assigned]. destruct (_ =? _); [|done]. f_equal. apply first_free_ext. intros i. by apply beside_in_use.
Qed.
Lemma beside_proposal s s' fn c : beside s s' -> proposal s' fn c = proposal s fn c.
Proof. intros H. unfold proposal. destruct (shape c) as [[[]]|]; [|done]. destruct c; try done. by rewrite (beside_in_use s s' SwSmiInputValue H). Qed.

Lemma wp_assign_value c (Q : option QNC_SMM_CONTEXT -> smi D -> Prop) s : db_ok s -> Q (assigned s c) s -> wp (assign_value c) Q s.
Proof.
  intros Hs HQ. destruct c as [|v| | | |]; cbn [assign_value assigned] in *; try (by apply wp_ret). destruct (v =? 2 ^ 32 - 1); [|by apply wp_ret].
  apply wp_bind, wp_free_value; [done|]. by apply wp_ret.
Qed.

Lemma wp_describe fn c (Q : option DATABASE_RECORD -> smi D -> Prop) s :
  db_ok s -> (forall t d, calm s.(hw) d -> Q (proposal s fn c) (with_timers t (with_hw d s))) -> wp (describe fn c) Q s.
Proof.
  intros Hs HQ. assert (Hsame : with_timers s.(mTimers) (with_hw s.(hw) s) = s) by (by destruct s).
  assert (HQ0 : Q (proposal s fn c) s) by (rewrite <- Hsame; apply HQ, calm_refl). unfold proposal in HQ0, HQ.
  destruct c as [t p|v|g|t|p|p t]; cbn [describe shape] in *.
  - destruct ((t <? SxS0) || (EfiMaximumSleepType <=? t) || (p <? SxEntry) || (EfiMaximumPhase <=? p)); by apply wp_ret.
  - destruct (MAXIMUM_SWI_VALUE <? v); [by apply wp_ret|]. apply wp_bind, wp_check; [done|]. fold (in_use s v). destruct (in_use s v); by apply wp_ret.
  - by apply wp_ret.
  - destruct ((t <? IchnMch) || (NUM_ICHN_TYPES <=? t)) eqn:E; [by apply wp_ret|].
    assert (Hd : is_Some (QNCN_SOURCE_DESCS !! Z.to_nat t)).
    { apply lookup_lt_is_Some. apply orb_false_iff in E as [E1 E2]. apply Z.ltb_ge in E1. apply Z.leb_gt in E2. unfold NUM_ICHN_TYPES, IchnMch in *. lia. }
    destruct Hd as [d Hd]. rewrite Hd in HQ0. apply wp_bind. eapply wp_lift; [exact Hd|]. by apply wp_ret.
  - by apply wp_ret.
  - apply wp_bind. unfold MapPeriodicTimerToSrcDesc. destruct (ContextToTimerInterval (PeriodicTimer p t)); cbn [fmap option_fmap option_map] in *; [|by do 2 apply wp_ret].
    apply wp_bind, wp_ProgramTimers; [done|]. intros u d C _. do 2 apply wp_ret. by apply HQ.
Qed.

(** A registration that is refused changes no record. *)
Record unchanged s s' : Prop := {
  unch_db : s'.(CallbackDataBase) = s.(CallbackDataBase);
  unch_records : s'.(records) = s.(records);
  unch_calls : s'.(calls) = s.(calls);
  unch_calm : calm s.(hw) s'.(hw)
}.
Record registered h r s s' : Prop := {
  reg_fresh : h ∉ dom s.(records);
  reg_null : h <> 0;
  reg_extends : extends [h] s s';
  reg_record : exists r', s'.(records) !! h = Some r' /\ erase r' = erase r;
  reg_ok : db_ok s';
  reg_calls : s'.(calls) = s.(calls);
  reg_enabled : r.(SrcDesc) <> NULL_SOURCE_DESC_INITIALIZER -> enabled s'.(hw) r.(SrcDesc) = true /\ pending s'.(hw) r.(SrcDesc) = false
}.

(** A record at the end. *)
Lemma insert_ok h r s : db_ok s -> h <> 0 -> h ∉ s.(CallbackDataBase) -> record_ok r ->
  (forall v, r.(ChildContext) = Sw v -> in_use s v = false) ->
  db_ok (with_db (s.(CallbackDataBase) ++ [h]) (<[h := r]> s.(records)) s).
Proof.
  intros [H1 H2 H3] H0 Hn Ho Hu. split; cbn [with_db CallbackDataBase records].
  - apply NoDup_app. split; [done|]. split; [set_solver|apply NoDup_singleton].
  - intros k Hk. apply elem_of_app in Hk as [Hk|Hk].
    + rewrite lookup_insert_ne by (intros ->; done). by apply H2.
    + apply list_elem_of_singleton in Hk as ->. split; [done|]. exists r. by rewrite lookup_insert_eq.
  - assert (HX : forall k q v, k ∈ CallbackDataBase s -> <[h := r]> (records s) !! k = Some q -> ChildContext q = Sw v -> ChildContext r <> Sw v).
    { intros k q v Hk Hq Hc Hr. rewrite lookup_insert_ne in Hq by (intros ->; done). by eapply (uses_false _ v _ k q (Hu v Hr)). }
    intros h1 h2 r1 r2 v I1 I2 E1 E2 C1 C2. apply elem_of_app in I1, I2.
    destruct I1 as [I1|I1%list_elem_of_singleton], I2 as [I2|I2%list_elem_of_singleton]; subst.
    + rewrite lookup_insert_ne in E1, E2 by (intros ->; done). by eapply H3.
    + rewrite lookup_insert_eq in E2. simplify_eq. by destruct (HX _ _ _ I1 E1 C1).
    + rewrite lookup_insert_eq in E1. simplify_eq. by destruct (HX _ _ _ I2 E2 C2).
    + done.
Qed.
End Database.
