(* ===== verification/SmiDispatch.v ===== *)
(** * The dispatcher of SMIs: rules of registration and dispatch

    What registrations and their end do, and what a dispatch does: with children that register others, it keeps the database
    well-formed and returns; with children that only work on their own devices, it calls exactly those whose context is there. *)

From S2P Require Import Prelude QNCAccess SmiDefs SmiRules SmiData.
From stdpp Require Import gmap list.
#[local] Open Scope Z_scope.

Section Registration.
Context {D : Type} {B : SmiBus D} {V : SmiView D} {L : SmiLaws D}.
Implicit Types (s : smi D) (h : Z) (r : DATABASE_RECORD).

Lemma not_listed s h : db_ok s -> h ∉ dom s.(records) -> h ∉ s.(CallbackDataBase).
Proof. intros Hs Hn Hh. destruct (db_records s Hs h Hh) as (_ & r & Hr & _). apply Hn. apply elem_of_dom. by exists r. Qed.

(** A record is in memory and not in the database. *)
Lemma beside_insert s h r d : db_ok s -> h ∉ dom s.(records) -> beside s (with_db s.(CallbackDataBase) (<[h := r]> s.(records)) (with_hw d s)).
Proof.
  intros Hs Hn. split; [done|]. intros k Hk. cbn [with_db with_hw records]. apply lookup_insert_ne. intros ->. by eapply not_listed.
Qed.

Lemma wp_finish {A} (x : A) h r (Q : A -> smi D -> Prop) s :
  db_ok s -> h <> 0 -> h ∉ s.(CallbackDataBase) -> record_ok r -> (forall v, r.(ChildContext) = Sw v -> in_use s v = false) ->
  (forall s', extends [h] s s' -> (exists r', s'.(records) !! h = Some r' /\ erase r' = erase r) -> db_ok s' -> s'.(calls) = s.(calls) ->
     (r.(SrcDesc) <> NULL_SOURCE_DESC_INITIALIZER -> enabled s'.(hw) r.(SrcDesc) = true /\ pending s'.(hw) r.(SrcDesc) = false) -> Q x s') ->
  wp (_ ← InsertTailList h r; _ ← clear_source r.(ClearSource) r.(SrcDesc); _ ← on_hw (QNCSmmEnableSource r.(SrcDesc)); mret x) Q s.
Proof.
  intros Hs H0 Hn Ho Hu HQ. apply wp_bind, wp_modify. set (s1 := with_db _ _ _).
  assert (O1 : db_ok s1) by by apply insert_ok. assert (E1 : extends [h] s s1).
  { split; [done| |apply calm_refl]. intros k Hk. unfold s1. cbn [with_db records]. rewrite lookup_insert_ne; [done|]. by intros ->. }
  assert (I1 : h ∈ CallbackDataBase s1) by (unfold s1; cbn [with_db CallbackDataBase]; set_solver).
  assert (R1 : records s1 !! h = Some r) by (unfold s1; cbn [with_db records]; apply lookup_insert_eq).
  apply wp_bind, wp_clear_source; [done|by apply record_known|]. intros s2 E2 C2. apply wp_bind, wp_in_hw, wp_QNCSmmEnableSource; [by apply record_known|].
  intros d1 d' C W1 W2. apply wp_ret.
  assert (E3 : extends [] s1 (with_hw d' s2)) by (eapply (extends_then []); [exact E2|by apply extends_on_hw]).
  apply HQ; [by eapply extends_then| |by eapply extends_ok|by cbn [with_hw calls]; rewrite C2|].
  - destruct (extends_record _ _ _ _ _ E3 I1 R1 Ho) as (r' & H1 & H2 & _). by exists r'.
  - intros Hne. cbn [with_hw hw]. by eapply enable_source; [apply record_known|..].
Qed.

(** The three results of a registration. *)
Lemma wp_QNCSmmCoreRegister fn c (Q : EFI_STATUS * Z * option QNC_SMM_CONTEXT -> smi D -> Prop) s :
  db_ok s -> fn <> 0 -> context_ok c ->
  (forall s', unchanged s s' -> Q (EFI_OUT_OF_RESOURCES, 0, Some c) s') ->
  (forall c' s', unchanged s s' -> assigned s c = Some c' -> proposal s fn c' = None -> Q (EFI_INVALID_PARAMETER, 0, Some c') s') ->
  (forall c' h r s', assigned s c = Some c' -> proposal s fn c' = Some r -> registered h r s s' -> Q (EFI_SUCCESS, h, Some c') s') ->
  wp (QNCSmmCoreRegister true fn (Some c) true) Q s.
Proof.
  intros Hs Hf Hc HO HI HS. unfold QNCSmmCoreRegister. cbn [negb orb]. apply wp_bind, wp_get. apply wp_bind, wp_in_hw.
  eapply wp_mono; [apply alloc_law|]. intros h d [Hh Hd]. apply calm_same in Hd. destruct (Z.eqb_spec h 0) as [->|H0]; [by apply wp_ret, HO|].
  destruct Hh as [Hh|Hh]; [done|]. apply wp_bind, wp_modify.
  set (s1 := with_db _ _ _). assert (B1 : beside s s1) by exact (beside_insert s h _ d Hs Hh). assert (O1 : db_ok s1) by by eapply beside_ok.
  assert (Hback : forall t d', delete h (records (with_timers t (with_hw d' s1))) = records s).
  { intros t d'. unfold s1. cbn [with_timers with_hw with_db records]. apply delete_insert_id. by apply not_elem_of_dom. }
  apply wp_bind, wp_assign_value; [done|]. rewrite (beside_assigned s s1) by done. destruct (assigned s c) as [c'|] eqn:Ea.
  2: { apply wp_bind, wp_modify, wp_ret, HO. split; [done| |done|done]. cbn [with_db records]. apply (Hback (mTimers s1) (hw s1)). }
  assert (Hc' : context_ok c').
  { destruct c as [|v| | | |]; cbn [assigned] in Ea; try (by simplify_eq). destruct (_ =? _); [|by simplify_eq]. apply fmap_Some in Ea as (w & _ & ->). done. }
  apply wp_bind, wp_describe; [done|]. intros t d' C. rewrite (beside_proposal s s1) by done. change (hw s1) with d in C.
  assert (Cd : calm (hw s) d') by by eapply calm_trans. destruct (proposal s fn c') as [r|] eqn:Ep.
  2: { apply wp_bind, wp_modify, wp_ret, HI; [|done|done]. split; [done| |done|done]. cbn [with_db records]. apply Hback. }
  destruct (proposal_ok s fn c' r Hf Hc' Ep) as (Ho & Ec & _). set (s2 := with_timers t (with_hw d' s1)).
  assert (B2 : beside s s2) by exact B1. assert (O2 : db_ok s2) by by eapply beside_ok.
  assert (Hn : h ∉ CallbackDataBase s2) by exact (not_listed s h Hs Hh).
  assert (Hu : forall v, r.(ChildContext) = Sw v -> in_use s2 v = false).
  { intros v Ev. rewrite (beside_in_use s s2) by done. assert (E : c' = Sw v) by congruence. rewrite E in Ep. clear Ec Hc' Ea. unfold proposal in Ep. destruct (shape (Sw v)) as [[[]]|]; [|done]. by destruct (in_use s v). }
  apply wp_finish; [done..|]. intros s' E R O C' En_. apply HS with r; [done|done|]. split; [done|done| |done|done|done|done].
  destruct E as [E1 E2 E3]. split; [done| |].
  - intros k Hk. rewrite E2 by done. unfold s2, s1. cbn [with_timers with_hw with_db records]. rewrite lookup_insert_ne; [done|]. intros <-. exact (not_listed s h Hs Hh Hk).
  - by eapply calm_trans.
Qed.

(** ** The end of a registration *)

(** Whether another record has the same enable bits. *)
Definition shared s h r : bool :=
  existsb (fun k => match s.(records) !! k with Some q => CompareEnables r.(SrcDesc) q.(SrcDesc) | None => false end)
    (List.filter (fun k => negb (k =? h)) s.(CallbackDataBase)).

Lemma wp_safe_to_disable d l (Q : bool -> smi D -> Prop) s :
  listed s l -> Q (negb (existsb (fun k => match s.(records) !! k with Some q => CompareEnables d q.(SrcDesc) | None => false end) l)) s ->
  wp (safe_to_disable d l) Q s.
Proof.
  intros Hl. revert Q. induction l as [|h l IH]; intros Q HQ; cbn [safe_to_disable existsb] in *; [by apply wp_ret|].
  apply Forall_cons in Hl as [(r & Hr & Ho) Hl]. apply wp_bind. eapply wp_from_link; [done|done|]. rewrite Hr in HQ.
  destruct (CompareEnables d (SrcDesc r)); [by apply wp_ret|by apply IH].
Qed.

Lemma wp_QNCSmmCoreUnRegister h r (Q : EFI_STATUS -> smi D -> Prop) s :
  db_ok s -> h ∈ s.(CallbackDataBase) -> s.(records) !! h = Some r ->
  (forall d s', s' = with_db (List.filter (fun k => negb (k =? h)) s.(CallbackDataBase)) (delete h s.(records)) (with_hw d s) ->
     (if shared s h r then d = s.(hw) else writes false r.(SrcDesc).(En) s.(hw) d) -> calm s.(hw) d -> db_ok s' -> Q EFI_SUCCESS s') ->
  wp (QNCSmmCoreUnRegister h) Q s.
Proof.
  intros Hs Hh Hr HQ. destruct (db_records s Hs h Hh) as (H0 & r' & Hr' & Ho). simplify_eq. unfold QNCSmmCoreUnRegister.
  rewrite (proj2 (Z.eqb_neq h 0)) by done. apply wp_bind. eapply wp_record_at; [done|]. rewrite (rec_signature r Ho). cbn [negb].
  apply wp_bind, wp_modify. apply wp_bind, wp_get.
  assert (HX : forall k, k ∈ List.filter (fun k => negb (k =? h)) (CallbackDataBase s) -> k ∈ CallbackDataBase s /\ k <> h).
  { intros k Hk. apply list_elem_of_In, filter_In in Hk as [Hk1 Hk2]. split; [by apply list_elem_of_In|]. intros ->. by rewrite Z.eqb_refl in Hk2. }
  assert (HO : forall d, db_ok (with_db (List.filter (fun k => negb (k =? h)) s.(CallbackDataBase)) (delete h s.(records)) (with_hw d s))).
  { intros d. split; cbn [with_db with_hw CallbackDataBase records].
    - apply NoDup_ListNoDup, List.NoDup_filter, NoDup_ListNoDup, Hs.
    - intros k Hk. apply HX in Hk as [Hk Hne]. destruct (db_records s Hs k Hk) as (K0 & q & Hq & Oq). split; [done|]. exists q. by rewrite lookup_delete_ne.
    - intros h1 h2 r1 r2 v I1 I2 E1 E2. apply HX in I1 as [I1 N1], I2 as [I2 N2]. rewrite lookup_delete_ne in E1, E2 by done. by eapply (db_unique s Hs). }
  apply wp_bind, wp_safe_to_disable.
  { apply Forall_forall. intros k Hk. cbn [with_db CallbackDataBase records] in *. apply HX in Hk as [Hk _]. by apply (db_records s Hs). }
  cbn [with_db CallbackDataBase records]. fold (shared s h r). destruct (shared s h r) eqn:Es; cbn [negb] in *.
  - apply wp_bind, wp_ret. apply wp_bind, wp_modify, wp_ret. eapply (HQ (hw s)); [by destruct s|done|apply calm_refl|].
    specialize (HO (hw s)). by destruct s.
  - apply wp_bind, wp_in_hw, wp_QNCSmmDisableSource; [by apply record_known|]. intros d C W. apply wp_bind, wp_modify, wp_ret. apply (HQ d); [done|exact W|exact C|apply HO].
Qed.
End Registration.

Section Contexts.
Context {D : Type} {B : SmiBus D} {V : SmiView D} {L : SmiLaws D}.
Implicit Types (s : smi D) (h : Z) (r : DATABASE_RECORD) (d : D).

(** ** Contexts *)

(** The type of sleep that the register asks for; one of the four that exist. *)
Definition sleep_bits d : Z := Z.land (wrap 32 (reg_io d pm1c)) B_QNC_PM1BLK_PM1C_SLPTP.
Definition sleep_ok d : Prop := sleep_bits d = V_S0 \/ sleep_bits d = V_S3 \/ sleep_bits d = V_S4 \/ sleep_bits d = V_S5.
Definition sleep_type d : Z :=
  if sleep_bits d =? V_S0 then SxS0 else if sleep_bits d =? V_S3 then SxS3 else if sleep_bits d =? V_S4 then SxS4 else SxS5.
Lemma sleep_calm d d' : calm d d' -> sleep_bits d' = sleep_bits d.
Proof. intros [E _]. unfold sleep_bits. by rewrite E. Qed.
Lemma sleep_ok_calm d d' : calm d d' -> sleep_ok d -> sleep_ok d'.
Proof. intros H. unfold sleep_ok. by rewrite (sleep_calm d d'). Qed.

Definition apm d : Z := u8 (reg_io d R_APM_CNT).
Definition delivered d r : QNC_SMM_CONTEXT :=
  match r.(ChildContext) with Sx _ _ => Sx (sleep_type d) SxEntry | Sw _ => Sw (apm d) | c => c end.
Definition elapsed r : Z := match ContextToTimerInterval r.(ChildContext) with Some i => u64 (r.(CommBuffer) + i) | None => r.(CommBuffer) end.
(** Whether a child of an active source is to be called. *)
Definition matches d r : bool :=
  match r.(ChildContext) with
  | Sx t _ => sleep_type d =? t | Sw v => apm d =? v | PeriodicTimer p _ => p <=? elapsed r | Gpi _ | QNCn _ | PowerButton _ => true
  end.
Lemma matches_calm d d' r : calm d d' -> matches d' r = matches d r /\ delivered d' r = delivered d r.
Proof.
  intros C. pose proof (sleep_calm d d' C) as E. destruct C as [_ E2]. unfold matches, delivered, sleep_type, apm. by rewrite E, E2.
Qed.

(** Only the buffer of one record changes. *)
Record touched h s s' : Prop := {
  tch_db : s'.(CallbackDataBase) = s.(CallbackDataBase);
  tch_calls : s'.(calls) = s.(calls);
  tch_hw : same s.(hw) s'.(hw);
  tch_other : forall k, k <> h -> s'.(records) !! k = s.(records) !! k;
  tch_record : erase <$> s'.(records) !! h = erase <$> s.(records) !! h
}.
Lemma touched_trans h s s1 s2 : touched h s s1 -> touched h s1 s2 -> touched h s s2.
Proof.
  intros [D1 C1 H1 O1 R1] [D2 C2 H2 O2 R2]. split; [congruence|congruence|by eapply same_trans|intros k Hk; by rewrite O2, O1|congruence].
Qed.
Lemma touched_extends h s s' : touched h s s' -> extends [] s s'.
Proof.
  intros [D1 C1 H1 O1 R1]. split; [by rewrite D1, app_nil_r| |by apply calm_same].
  intros k Hk. destruct (decide (k = h)) as [->|Hne]; [done|by rewrite O1].
Qed.
Lemma touched_hw h d s : same s.(hw) d -> touched h s (with_hw d s).
Proof. by split. Qed.
Lemma touched_buffer h x r d c s : s.(records) !! h = Some r -> same s.(hw) d ->
  touched h s (with_db s.(CallbackDataBase) (<[h := with_CommBuffer x r]> s.(records)) (with_hw d (with_cpu c s))).
Proof.
  intros Hr Hd. split; cbn [with_db with_hw with_cpu CallbackDataBase records hw calls]; [done|done|done|intros k Hk; by rewrite lookup_insert_ne|].
  by rewrite lookup_insert_eq, Hr.
Qed.

Lemma wp_SxGetContext (Q : QNC_SMM_CONTEXT -> D -> Prop) d :
  sleep_ok d -> (forall d', same d d' -> Q (Sx (sleep_type d) SxEntry) d') -> wp SxGetContext Q d.
Proof.
  intros Hs HQ. unfold SxGetContext. apply wp_bind. eapply wp_mono; [apply (read_law 4); tauto|]. intros v d' [-> Hd].
  change (wp (if sleep_bits d =? V_S0 then mret (Sx SxS0 SxEntry) else if sleep_bits d =? V_S3 then mret (Sx SxS3 SxEntry)
    else if sleep_bits d =? V_S4 then mret (Sx SxS4 SxEntry) else if sleep_bits d =? V_S5 then mret (Sx SxS5 SxEntry) else stop) Q d').
  specialize (HQ d' Hd). unfold sleep_type in HQ. destruct Hs as [E|[E|[E|E]]]; rewrite E in *; by apply wp_ret.
Qed.

(** The context of a child, and whether it is there. *)
Lemma wp_contexts_match h r Context (Q : QNC_SMM_CONTEXT * bool -> smi D -> Prop) s :
  s.(records) !! h = Some r -> record_ok r -> sleep_ok s.(hw) ->
  (forall s', touched h s s' -> Q (delivered s.(hw) r, matches s.(hw) r) s') -> wp (contexts_match h r Context) Q s.
Proof.
  intros Hr Ho Hs HQ. unfold contexts_match. rewrite (rec_protocol r Ho). pose proof (rec_shape r Ho) as Hsh. unfold delivered, matches in HQ.
  assert (HD : r.(Callback) <> 0 -> wp (_ ← ASSERT (negb (Callback r =? 0)); mret (ChildContext r, true)) Q s ->
               wp (_ ← ASSERT (negb (Callback r =? 0)); mret (ChildContext r, true)) Q s) by done. clear HD.
  assert (HD : Q (ChildContext r, true) s -> wp (_ ← ASSERT (negb (Callback r =? 0)); mret (ChildContext r, true)) Q s).
  { intros H. apply wp_bind, wp_assert; [apply negb_true_iff, Z.eqb_neq, Ho|]. by apply wp_ret. }
  destruct (ChildContext r) as [t p|v|g|t|p|p t] eqn:Ec; cbn [protocol_of GetContext] in *.
  - apply wp_bind, wp_in_hw, wp_SxGetContext; [done|]. intros d Hd. apply wp_bind. eapply wp_record_at; [exact Hr|].
    apply wp_bind. eapply wp_lift; [by rewrite (rec_protocol r Ho), Ec|]. apply wp_bind, wp_ret. apply wp_ret. cbn [SxCmpContext]. apply HQ, touched_hw, Hd.
  - apply wp_bind, wp_in_hw. unfold SwGetContext. apply wp_bind. eapply wp_mono; [apply (read_law 1); tauto|]. intros w d [-> Hd]. apply wp_ret.
    apply wp_bind. eapply wp_record_at; [exact Hr|]. apply wp_bind. eapply wp_lift; [by rewrite (rec_protocol r Ho), Ec|]. apply wp_bind, wp_ret. apply wp_ret.
    cbn [SwCmpContext]. apply HQ, touched_hw, Hd.
  - apply HD, HQ. by split.
  - apply HD, HQ. by split.
  - apply HD, HQ. by split.
  - unfold PeriodicTimerGetContext. apply wp_bind, wp_bind. eapply wp_record_at; [exact Hr|].
    apply wp_bind, wp_assert; [by rewrite (rec_protocol r Ho), Ec|]. rewrite Ec. unfold elapsed in HQ. rewrite Ec in HQ. unfold shape in Hsh.
    destruct (ContextToTimerInterval (PeriodicTimer p t)) as [i|]; [|done]. apply wp_bind, wp_modify, wp_ret. set (r1 := with_CommBuffer _ r).
    apply wp_bind. eapply (wp_record_at h r1); [cbn [with_db records]; apply lookup_insert_eq|]. apply wp_bind.
    eapply wp_lift; [by unfold r1; cbn [with_CommBuffer ProtocolType]; rewrite (rec_protocol r Ho), Ec|]. unfold PeriodicTimerCmpContext.
    apply wp_bind, wp_bind. eapply (wp_from_link h r1); [cbn [with_db records]; apply lookup_insert_eq|by apply record_ok_buffer|]. apply wp_ret, wp_ret.
    unfold r1. cbn [with_CommBuffer ChildContext CommBuffer]. rewrite Ec. apply HQ.
    pose proof (touched_buffer h (u64 (CommBuffer r + i)) r (hw s) (mSmmCpu s) s Hr (same_refl _)) as T. by destruct s.
Qed.

Lemma wp_find_cpu n i (Q : Z -> D -> Prop) d : (forall c d', same d d' -> Q c d') -> wp (find_cpu n i) Q d.
Proof.
  revert i d. induction n as [|n IH]; intros i d HQ; cbn [find_cpu]; [apply wp_ret, HQ, same_refl|]. apply wp_bind. eapply wp_mono; [apply save_law|].
  intros [st p] d1 H1. cbn beta iota. destruct (_ && _); [by apply wp_ret, HQ|]. apply IH. intros c d' H'. apply HQ. by eapply same_trans.
Qed.

Lemma wp_SwGetBuffer h r (Q : unit -> smi D -> Prop) s :
  s.(records) !! h = Some r -> (forall s', touched h s s' -> Q tt s') -> wp (SwGetBuffer h) Q s.
Proof.
  intros Hr HQ. unfold SwGetBuffer. apply wp_bind, wp_get. apply wp_bind.
  assert (HC : forall c d, same (hw s) d -> wp (n ← on_hw NumberOfCpus; CpuIndex ← on_hw (find_cpu (Z.to_nat n) 0);
    r ← record_at h; set_record h (with_CommBuffer CpuIndex r)) Q (with_hw d (with_cpu c s))).
  { intros c d Hd. apply wp_bind, wp_in_hw. eapply wp_mono; [apply cpus_law|]. intros n d1 H1. apply wp_bind, wp_in_hw, wp_find_cpu. intros x d2 H2.
    apply wp_bind. eapply (wp_record_at h r); [exact Hr|]. apply wp_modify, HQ.
    exact (touched_buffer h x r d2 c s Hr (same_trans _ _ _ (same_trans _ _ _ Hd H1) H2)). }
  destruct (mSmmCpu s =? 0).
  - apply wp_bind, wp_in_hw. eapply wp_mono; [apply locate_law|]. intros [st c] d [Est Hd]. cbn [fst] in Est. subst st. cbn beta iota.
    apply wp_bind, wp_modify. apply wp_assert; [done|]. by apply (HC c d).
  - apply wp_ret. specialize (HC (mSmmCpu s) (hw s) (same_refl _)). by destruct s.
Qed.

(** One record: nothing, or a call of the child, after which its record is still there. *)
Lemma wp_dispatch_record h r f (Q : flags -> smi D -> Prop) s :
  s.(records) !! h = Some r -> record_ok r -> sleep_ok s.(hw) ->
  (forall s', touched h s s' -> if matches s.(hw) r then
     forall Buffer, wp (call_child r.(Callback) h (delivered s.(hw) r) Buffer) (fun _ s2 =>
       exists r2, s2.(records) !! h = Some r2 /\ record_ok r2 /\ r2.(ProtocolType) = r.(ProtocolType) /\
       Q {| Context_ := delivered s.(hw) r; ChildWasDispatched := true;
            SxChildWasDispatched := f.(SxChildWasDispatched) || bool_decide (r.(ProtocolType) = SxType) |} s2) s'
   else Q {| Context_ := delivered s.(hw) r; ChildWasDispatched := f.(ChildWasDispatched); SxChildWasDispatched := f.(SxChildWasDispatched) |} s') ->
  wp (dispatch_record h r f) Q s.
Proof.
  intros Hr Ho Hs HQ. unfold dispatch_record. apply wp_bind, (wp_contexts_match h r); [done..|]. intros s1 T1. cbn beta iota.
  destruct (matches (hw s) r); cbn [negb]; [|by apply wp_ret, HQ].
  assert (Hcb : negb (Callback r =? 0) = true) by apply negb_true_iff, Z.eqb_neq, Ho.
  assert (HC : forall b s2, touched h s s2 -> wp (_ ← ASSERT (negb (Callback r =? 0)); _ ← call_child (Callback r) h (delivered (hw s) r) b; r' ← record_at h;
    mret {| Context_ := delivered (hw s) r; ChildWasDispatched := true; SxChildWasDispatched := SxChildWasDispatched f || bool_decide (ProtocolType r' = SxType) |}) Q s2).
  { intros b s2 T2. apply wp_bind, wp_assert; [done|]. apply wp_bind. eapply wp_mono; [by apply HQ|]. intros [] s3 (r3 & R3 & _ & P3 & H3).
    apply wp_bind. eapply wp_record_at; [exact R3|]. apply wp_ret. rewrite P3. exact H3. }
  assert (R1 : exists r1, records s1 !! h = Some r1 /\ erase r1 = erase r).
  { pose proof (tch_record _ _ _ T1) as E. rewrite Hr in E. destruct (records s1 !! h) as [r1|]; [|done]. exists r1. split; [done|by apply (inj Some)]. }
  destruct R1 as (r1 & R1 & _). apply wp_bind. destruct (HasBuffer r) eqn:Eb; [|by apply wp_ret, HC].
  pose proof (rec_shape r Ho) as Hsh. rewrite Eb in Hsh. rewrite (rec_protocol r Ho).
  destruct (ChildContext r) as [t p|v|g|t|p|p t]; cbn [shape protocol_of GetBuffer] in *.
  - by repeat case_match.
  - apply wp_bind. eapply wp_lift; [done|]. apply wp_bind, (wp_SwGetBuffer h r1); [done|]. intros s2 T2.
    assert (T : touched h s s2) by by eapply touched_trans. pose proof (tch_record _ _ _ T) as E. rewrite Hr in E. destruct (records s2 !! h) as [r2|] eqn:R2; [|done].
    apply wp_bind. eapply wp_record_at; [exact R2|]. by apply wp_ret, HC.
  - done.
  - destruct ((t <? IchnMch) || (NUM_ICHN_TYPES <=? t)); [done|]. by destruct (QNCN_SOURCE_DESCS !! Z.to_nat t).
  - done.
  - apply wp_bind. eapply wp_lift; [done|]. apply wp_bind, wp_ret. apply wp_bind. eapply wp_record_at; [exact R1|]. by apply wp_ret, HC.
Qed.
End Contexts.

(** ** The pass over the database *)

Lemma successor_at h pre post : NoDup (pre ++ h :: post) -> successor h (pre ++ h :: post) = Some (head post).
Proof.
  induction pre as [|x pre IH]; cbn [app successor]; intros Hn; [by rewrite Z.eqb_refl|]. apply NoDup_cons in Hn as [Hx Hn].
  rewrite (proj2 (Z.eqb_neq x h)); [by apply IH|]. intros ->. apply Hx. set_solver.
Qed.

Section Pass.
Context {D : Type} {B : SmiBus D} {V : SmiView D} {L : SmiLaws D}.
Implicit Types (s : smi D) (h : Z) (r : DATABASE_RECORD) (d : D).

Definition source_of s h : QNC_SMM_SOURCE_DESC := from_option SrcDesc NULL_SOURCE_DESC_INITIALIZER (s.(records) !! h).
Definition callback_of s h : Z := from_option Callback 0 (s.(records) !! h).

Definition is_active s h : bool := active s.(hw) (source_of s h).
Fixpoint first_active s (l : list Z) : option Z := match l with [] => None | h :: l => if is_active s h then Some h else first_active s l end.

Lemma wp_find_active l (Q : option Z -> smi D -> Prop) s :
  listed s l -> (forall d, same s.(hw) d -> Q (first_active s l) (with_hw d s)) -> wp (find_active l) Q s.
Proof.
  intros Hl HQ. assert (HG : forall d, same s.(hw) d -> wp (find_active l) Q (with_hw d s)).
  { revert Q HQ. induction l as [|h l IH]; intros Q HQ d Hd; cbn [find_active first_active] in *; [by apply wp_ret, HQ|].
    apply Forall_cons in Hl as [(r & Hr & Ho) Hl]. apply wp_bind. eapply wp_from_link; [exact Hr|done|].
    apply wp_bind, wp_in_hw, wp_SourceIsActive; [by apply known_ok, record_known|]. intros d' Hd'. cbn [with_hw hw] in *.
    rewrite (active_same (hw s) d) by done. assert (H2 : same (hw s) d') by by eapply same_trans.
    unfold is_active, source_of in HQ. rewrite Hr in HQ. cbn [from_option] in HQ. destruct (active (hw s) (SrcDesc r)); [by apply wp_ret, HQ|].
    by apply (IH Hl Q HQ d'). }
  specialize (HG (hw s) (same_refl _)). by destruct s.
Qed.

Lemma first_active_split s l h : first_active s l = Some h ->
  exists pre post, l = pre ++ h :: post /\ is_active s h = true /\ Forall (fun k => is_active s k = false) pre.
Proof.
  induction l as [|k l IH]; cbn [first_active]; [done|]. destruct (is_active s k) eqn:E.
  - intros [= ->]. by exists [], l.
  - intros H. destruct (IH H) as (pre & post & -> & H1 & H2). exists (k :: pre), post. split; [done|]. split; [done|]. by constructor.
Qed.

(** ** Children that register others *)

Context (weight : Z -> nat).

Definition is_register (a : act D) : bool := match a with ARegister _ _ => true | Device _ | AUnRegister _ => false end.
Definition act_ok (a : act D) : Prop :=
  match a with
  | Device f => forall d, sleep_ok d -> sleep_ok (f d)
  | ARegister c fn => fn <> 0 /\ context_ok c /\ weight fn = 1%nat
  | AUnRegister _ => False
  end.
(** A child registers fewer others than its weight, of weight one; it ends no registration while it is called. *)
Definition good_children : Prop :=
  forall fn h c b, Forall act_ok (children fn h c b) /\ (length (List.filter is_register (children fn h c b)) < weight fn)%nat.

(** At most [n] children are new, all of weight one. *)
Record grown (n : nat) s s' : Prop := {
  grown_db : exists l, s'.(CallbackDataBase) = s.(CallbackDataBase) ++ l /\ (length l <= n)%nat /\
                       Forall (fun h => weight (callback_of s' h) = 1%nat) l;
  grown_records : forall h, h ∈ s.(CallbackDataBase) -> erase <$> s'.(records) !! h = erase <$> s.(records) !! h;
  grown_ok : db_ok s';
  grown_sleep : sleep_ok s'.(hw)
}.

Lemma callback_erase s s' h : erase <$> s'.(records) !! h = erase <$> s.(records) !! h -> callback_of s' h = callback_of s h.
Proof.
  unfold callback_of. intros E. destruct (records s' !! h) as [r'|], (records s !! h) as [r|]; try done. apply (inj Some) in E. cbn [from_option].
  change (Callback r') with (Callback (erase r')). by rewrite E.
Qed.

Lemma grown_refl s : db_ok s -> sleep_ok s.(hw) -> grown 0 s s.
Proof. intros H1 H2. split; [|done|done|done]. exists []. rewrite app_nil_r. split; [done|]. split; [done|constructor]. Qed.

Lemma grown_trans n n' s s1 s2 : grown n s s1 -> grown n' s1 s2 -> grown (n + n') s s2.
Proof.
  intros [(l1 & E1 & N1 & F1) R1 O1 S1] [(l2 & E2 & N2 & F2) R2 O2 S2]. split; [|intros h Hh; rewrite R2, R1; [done|done|rewrite E1; set_solver]|done|done].
  exists (l1 ++ l2). split; [by rewrite E2, E1, app_assoc|]. split; [rewrite length_app; lia|]. apply Forall_app. split; [|done].
  apply Forall_forall. intros h Hh. rewrite Forall_forall in F1. rewrite <- (F1 h Hh). f_equal. apply callback_erase, R2. rewrite E1. set_solver.
Qed.

Lemma grown_extends s s' : db_ok s -> sleep_ok s.(hw) -> extends [] s s' -> grown 0 s s'.
Proof.
  intros Hs Hp H. split; [|apply H|by eapply extends_ok|by eapply sleep_ok_calm; [apply H|]].
  exists []. split; [apply H|]. split; [done|constructor].
Qed.

Lemma grown_record n s s' h r : grown n s s' -> h ∈ s.(CallbackDataBase) -> s.(records) !! h = Some r -> record_ok r ->
  exists r', s'.(records) !! h = Some r' /\ erase r' = erase r /\ record_ok r'.
Proof.
  intros H Hh Hr Ho. pose proof (grown_records _ _ _ H h Hh) as E. rewrite Hr in E. destruct (records s' !! h) as [r'|]; [|done]. apply (inj Some) in E.
  exists r'. split; [done|]. split; [done|]. by apply (erase_ok r r').
Qed.

Lemma wp_run_acts l (Q : unit -> smi D -> Prop) s :
  db_ok s -> sleep_ok s.(hw) -> Forall act_ok l ->
  (forall s', grown (length (List.filter is_register l)) s s' -> Q tt s') -> wp (for_each l run_act) Q s.
Proof.
  revert s Q. induction l as [|a l IH]; intros s Q Hs Hp Hl HQ; cbn [for_each List.filter length] in *; [by apply wp_ret, HQ, grown_refl|].
  apply Forall_cons in Hl as [Ha Hl]. apply wp_bind. destruct a as [f|c fn|h]; cbn [run_act is_register act_ok length] in *; [| |done].
  - apply wp_modify. apply IH; [by destruct Hs|by apply Ha|done|]. intros s' G. apply HQ. by destruct G.
  - destruct Ha as (Hf & Hc & Hw).
    assert (HN : forall s1, unchanged s s1 -> wp (for_each l run_act) Q s1).
    { intros s1 [U1 U2 U3 U4]. assert (E : extends [] s s1) by (split; [by rewrite U1, app_nil_r|by rewrite U2|done]).
      apply IH; [by eapply extends_ok|by eapply sleep_ok_calm|done|]. intros s' G. apply HQ.
      pose proof (grown_trans _ _ _ _ _ (grown_extends _ _ Hs Hp E) G) as [(k & K1 & K2 & K3) K4 K5 K6]. split; [|done|done|done]. exists k. split; [done|]. split; [lia|done]. }
    apply wp_bind. apply wp_QNCSmmCoreRegister; [done..|intros s1 U; by apply wp_ret, HN|intros c' s1 U _ _; by apply wp_ret, HN|].
    intros c' h r s1 Hc' Hr R. apply wp_ret. destruct (proposal_ok s fn c' r) as (Or & _ & Cr); [done| |done|].
    { destruct c as [|v| | | |]; cbn [assigned] in Hc'; try (by simplify_eq). destruct (_ =? _); [|by simplify_eq]. by apply fmap_Some in Hc' as (w & _ & ->). }
    assert (G : grown 1 s s1).
    { split; [|apply R|apply R|eapply sleep_ok_calm; [apply R|done]]. exists [h]. split; [apply R|]. split; [done|]. apply Forall_singleton.
      destruct (reg_record _ _ _ _ R) as (r' & R1 & R2). unfold callback_of. rewrite R1. cbn [from_option].
      change (Callback r') with (Callback (erase r')). rewrite R2. change (Callback (erase r)) with (Callback r). by rewrite Cr. }
    apply IH; [apply G|apply G|done|]. intros s' G'. apply HQ. exact (grown_trans 1 _ _ _ _ G G').
Qed.

Lemma wp_call_child fn h c b (Q : unit -> smi D -> Prop) s :
  good_children -> db_ok s -> sleep_ok s.(hw) ->
  (forall k s', (k < weight fn)%nat -> grown k s s' -> Q tt s') -> wp (call_child fn h c b) Q s.
Proof.
  intros HG Hs Hp HQ. unfold call_child. apply wp_bind, wp_modify. destruct (HG fn h c b) as [G1 G2]. apply wp_run_acts; [by destruct Hs|done|done|].
  intros s' G. eapply HQ; [exact G2|]. by destruct G.
Qed.

(** The records that a pass looks at, with those that are registered on the way. *)
Definition cost s (l : list Z) : nat := foldr (fun h n => (weight (callback_of s h) + n)%nat) 0%nat l.

Lemma cost_grown n s s' l : grown n s s' -> (forall h, h ∈ l -> h ∈ s.(CallbackDataBase)) -> cost s' l = cost s l.
Proof.
  intros G. induction l as [|h l IH]; intros Hl; [done|]. cbn [cost foldr]. rewrite (callback_erase s s'); [|apply G, Hl; set_solver]. f_equal. apply IH. intros k Hk. apply Hl. set_solver.
Qed.
Lemma cost_app s l l' : cost s (l ++ l') = (cost s l + cost s l')%nat.
Proof. induction l as [|h l IH]; [done|]. cbn [app cost foldr] in *. fold (cost s (l ++ l')). fold (cost s l). rewrite IH. lia. Qed.
Lemma cost_ones s l : Forall (fun h => weight (callback_of s h) = 1%nat) l -> cost s l = length l.
Proof. induction 1 as [|h l H _ IH]; [done|]. cbn [cost foldr length]. fold (cost s l). rewrite H, IH. done. Qed.

Lemma wp_exhaust fuel src pre rest f (Q : flags -> smi D -> Prop) s :
  good_children -> db_ok s -> sleep_ok s.(hw) -> s.(CallbackDataBase) = pre ++ rest -> (cost s rest <= fuel)%nat ->
  (forall n f' s', grown n s s' -> Q f' s') -> wp (exhaust fuel src (head rest) f) Q s.
Proof.
  intros HG. revert pre rest f s Q. induction fuel as [|fuel IH]; intros pre rest f s Q Hs Hp Hd Hc HQ; (destruct rest as [|h rest]; cbn [head exhaust]; [by eapply wp_ret, HQ, grown_refl|]).
  - exfalso. cbn [cost foldr] in Hc. assert (Hh : h ∈ CallbackDataBase s) by (rewrite Hd; set_solver). destruct (HG (callback_of s h) h (Gpi 0) None) as [_ H]. lia.
  - assert (Hh : h ∈ CallbackDataBase s) by (rewrite Hd; set_solver). destruct (db_records s Hs h Hh) as (_ & r & Hr & Ho).
    cbn [cost foldr] in Hc. fold (cost s rest) in Hc. assert (Ew : callback_of s h = Callback r) by (unfold callback_of; by rewrite Hr). rewrite Ew in Hc.
    destruct (HG (Callback r) h (Gpi 0) None) as [_ Hpos].
    assert (HN : forall k f' s1, (k < weight (Callback r))%nat -> grown k s s1 -> wp (Link ← GetNextNode h; exhaust fuel src Link f') Q s1).
    { intros k f' s1 Hk G. pose proof (grown_db _ _ _ G) as (l & El & Nl & Fl). apply wp_bind. unfold GetNextNode. apply wp_bind, wp_get.
      assert (Ed : CallbackDataBase s1 = pre ++ h :: (rest ++ l)) by by rewrite El, Hd, <- app_assoc.
      eapply wp_lift; [rewrite Ed; apply successor_at; rewrite <- Ed; apply G|]. apply (IH (pre ++ [h])); [apply G|apply G|by rewrite Ed, <- app_assoc| |].
      - rewrite cost_app, (cost_ones s1 l Fl), (cost_grown k s s1 rest G); [lia|]. intros x Hx. rewrite Hd. set_solver.
      - intros n f2 s2 G2. eapply HQ. by eapply grown_trans. }
    apply wp_bind. eapply wp_from_link; [exact Hr|done|]. apply wp_bind. destruct (CompareSources (SrcDesc r) src); [|apply wp_ret, (HN 0%nat); [lia|by apply grown_refl]].
    apply (wp_dispatch_record h r); [done..|]. intros s1 T1. pose proof (touched_extends _ _ _ T1) as E1. pose proof (grown_extends _ _ Hs Hp E1) as G1.
    destruct (matches (hw s) r); [|apply (HN 0%nat); [lia|exact G1]]. intros b. apply wp_call_child; [done|apply G1|apply G1|]. intros k s2 Hk G2.
    pose proof (grown_trans _ _ _ _ _ G1 G2) as G. destruct (grown_record _ _ _ _ _ G Hh Hr Ho) as (r2 & R2 & X2 & O2). exists r2. split; [done|]. split; [done|].
    split; [by apply (erase_ok r r2)|]. apply (HN k); [done|exact G].
Qed.

Lemma wp_dispatch_pass Rounds st f (Q : interrupt_status * flags -> smi D -> Prop) s :
  good_children -> db_ok s -> sleep_ok s.(hw) -> (cost s s.(CallbackDataBase) <= Rounds)%nat ->
  (forall n x s', grown n s s' -> Q x s') -> wp (dispatch_pass Rounds st f) Q s.
Proof.
  intros HG Hs Hp Hc HQ. unfold dispatch_pass. apply wp_bind, wp_get. apply wp_bind, wp_find_active; [by apply db_listed|]. intros d Hd.
  assert (E0 : extends [] s (with_hw d s)) by by apply extends_on_hw, calm_same. pose proof (grown_extends _ _ Hs Hp E0) as G0.
  destruct (first_active s (CallbackDataBase s)) as [h|] eqn:Ef; [|by eapply wp_ret, HQ].
  destruct (first_active_split _ _ _ Ef) as (pre & post & El & _). assert (Hh : h ∈ CallbackDataBase s) by (rewrite El; set_solver).
  destruct (db_records s Hs h Hh) as (_ & r & Hr & Ho). apply wp_bind. eapply wp_record_at; [exact Hr|]. apply wp_bind.
  apply (wp_exhaust Rounds (SrcDesc r) pre (h :: post)); [done|apply G0|apply G0|done| |].
  { rewrite (cost_grown 0 s); [|exact G0|intros k Hk; rewrite El; set_solver]. rewrite El, cost_app in Hc. lia. }
  intros n f' s1 G1. pose proof (grown_trans _ _ _ _ _ G0 G1) as G. destruct (grown_record _ _ _ _ _ G Hh Hr Ho) as (r1 & R1 & _ & O1).
  apply wp_bind. eapply wp_record_at; [exact R1|]. apply wp_bind, wp_clear_source; [apply G|by apply record_known|]. intros s2 E2 _. eapply wp_ret, HQ.
  eapply grown_trans; [exact G|]. apply grown_extends; [apply G|apply G|done].
Qed.
End Pass.

(** ** The end of a dispatch *)

Section Sleep.
Context {D : Type} {B : SmiBus D} {V : SmiView D} {L : SmiLaws D}.
Implicit Types (s : smi D) (d : D).

(** What a change of the registers may do to the type of sleep and the status of SMIs. *)
Definition gentle d d' : Prop := (sleep_ok d -> sleep_ok d') /\ (silent d -> silent d').
Lemma gentle_trans d d1 d2 : gentle d d1 -> gentle d1 d2 -> gentle d d2.
Proof. intros [H1 H2] [H3 H4]. split; auto. Qed.
Lemma gentle_same d d' : same d d' -> gentle d d'.
Proof. intros H. split; [by apply sleep_ok_calm, calm_same|by apply silent_same]. Qed.
Lemma gentle_wrote n A v d d' : A <> pm1c -> A <> R_APM_CNT -> wrote n A v d d' -> gentle d d'.
Proof. intros H1 H2 W. split; [by eapply sleep_ok_calm, calm_wrote|by eapply silent_wrote]. Qed.
Lemma gentle_writes v l d d' : calm d d' -> writes v l d d' -> gentle d d'.
Proof. intros C W. split; [by apply sleep_ok_calm|by eapply silent_writes]. Qed.

Lemma bits_slptp x y : (forall i, 10 <= i < 13 -> Z.testbit x i = Z.testbit y i) ->
  Z.land (wrap 32 x) B_QNC_PM1BLK_PM1C_SLPTP = Z.land (wrap 32 y) B_QNC_PM1BLK_PM1C_SLPTP.
Proof.
  intros H. apply Z.bits_inj'. intros i Hi. rewrite !Z.land_spec, !wrap_bit by lia. destruct (decide (10 <= i < 13)); [by rewrite H|].
  assert (E : Z.testbit B_QNC_PM1BLK_PM1C_SLPTP i = false); [|by rewrite E, !andb_false_r].
  change B_QNC_PM1BLK_PM1C_SLPTP with (Z.shiftl 7 10). rewrite Z.shiftl_spec by lia. destruct (Z.lt_ge_cases i 10); [by apply Z.testbit_neg_r; lia|].
  apply (in_width_bit 3); [by split|lia].
Qed.

Lemma pm1c_plain : w1c pm1c = 0.
Proof. apply w1c_law. Qed.

Lemma gentle_pm1c v d d' : wrote 4 pm1c v d d' ->
  (sleep_ok d -> (forall i, 10 <= i < 13 -> Z.testbit v i = Z.testbit (reg_io d pm1c) i) \/ (forall i, 10 <= i < 13 -> Z.testbit v i = false)) -> gentle d d'.
Proof.
  intros W H. split; [|by eapply silent_wrote]. intros Hp. destruct W as (W & _).
  assert (E : forall i, 10 <= i < 13 -> Z.testbit (reg_io d' pm1c) i = Z.testbit v i).
  { intros i Hi. rewrite W, pm1c_plain, Z.bits_0, (proj2 (Z.ltb_lt i (8 * 4))) by lia. done. }
  unfold sleep_ok, sleep_bits in *. destruct (H Hp) as [H1|H1].
  - rewrite (bits_slptp (reg_io d' pm1c) (reg_io d pm1c)); [done|]. intros i Hi. by rewrite E, H1.
  - left. rewrite (bits_slptp (reg_io d' pm1c) 0); [done|]. intros i Hi. by rewrite E, H1, Z.bits_0.
Qed.

Lemma wp_gentle_clear src (Q : unit -> D -> Prop) d : src ∈ sources -> (forall d', gentle d d' -> Q tt d') -> wp (QNCSmmClearSource src) Q d.
Proof. intros Hs HQ. apply wp_QNCSmmClearSource; [done|]. intros d' C W. apply HQ. by eapply gentle_writes. Qed.
Lemma wp_gentle_disable src (Q : unit -> D -> Prop) d : src ∈ sources -> (forall d', gentle d d' -> Q tt d') -> wp (QNCSmmDisableSource src) Q d.
Proof. intros Hs HQ. apply wp_QNCSmmDisableSource; [done|]. intros d' C W. apply HQ. by eapply gentle_writes. Qed.
Lemma wp_gentle_enable src (Q : unit -> D -> Prop) d : src ∈ sources -> (forall d', gentle d d' -> Q tt d') -> wp (QNCSmmEnableSource src) Q d.
Proof.
  intros Hs HQ. apply wp_QNCSmmEnableSource; [done|]. intros d1 d' C W1 W2. apply HQ. split; [by apply sleep_ok_calm|].
  intros H. eapply silent_writes; [exact W2|]. by eapply silent_writes.
Qed.

Lemma sx_known : SX_SOURCE_DESC ∈ sources.
Proof. unfold sources. set_solver. Qed.

Lemma wp_QNCSmmSxGoToSleep (Q : unit -> D -> Prop) d : (forall d', gentle d d' -> Q tt d') -> wp QNCSmmSxGoToSleep Q d.
Proof.
  intros HQ. unfold QNCSmmSxGoToSleep. apply wp_bind. eapply wp_mono; [apply wbinvd_law|]. intros [] d1 H1%gentle_same.
  apply wp_bind, wp_gentle_clear; [apply sx_known|]. intros d2 H2. apply wp_bind, wp_gentle_disable; [apply sx_known|]. intros d3 H3.
  apply wp_bind, wp_gpe0. intros d4 H4%gentle_same. apply wp_bind. eapply wp_mono; [apply and_law|]. intros [] d5 H5%gentle_wrote; [|ports|ports].
  apply wp_bind, wp_gpe0. intros d6 H6%gentle_same. apply wp_bind. eapply wp_mono; [apply and_law|]. intros [] d7 H7%gentle_wrote; [|ports|ports].
  apply wp_bind. fold pm1c. eapply wp_mono; [apply or_law|]. intros w d8 H8.
  assert (G8 : gentle d7 d8).
  { eapply gentle_pm1c; [exact H8|]. intros _. left. intros i Hi. rewrite Z.lor_spec. unfold B_QNC_PM1BLK_PM1C_SLPEN. rewrite Z.pow2_bits_false by lia. apply orb_false_r. }
  apply wp_bind. eapply wp_mono; [apply (read_law 4); tauto|]. intros v d9 [-> H9].
  assert (G9 : gentle d d9) by (eapply gentle_trans; [|by apply gentle_same]; do 7 (eapply gentle_trans; [|eassumption]); exact H1).
  assert (HK : forall da, gentle d da -> wp (_ ← QNCSmmClearSource SX_SOURCE_DESC; QNCSmmEnableSource SX_SOURCE_DESC) Q da).
  { intros da Ga. apply wp_bind, wp_gentle_clear; [apply sx_known|]. intros db Gb. apply wp_gentle_enable; [apply sx_known|]. intros dc Gc. apply HQ.
    do 2 (eapply gentle_trans; [|eassumption]). exact Ga. }
  apply wp_bind. destruct (_ =? 0); [|apply wp_ret, HK, G9]. eapply wp_mono; [apply write_law|]. intros [] da Wa. apply HK. eapply gentle_trans; [exact G9|].
  eapply gentle_pm1c; [exact Wa|]. intros _. right. intros i Hi. rewrite Z.lor_spec, Z.ldiff_spec. unfold V_S0. rewrite Z.bits_0, orb_false_r.
  change B_QNC_PM1BLK_PM1C_SLPTP with (Z.shiftl (Z.ones 3) 10). rewrite Z.shiftl_spec, Z.ones_spec_low by lia. apply andb_false_r.
Qed.

(** The whole dispatch around the pass: the loop ends after one, every status is cleared then. *)
Lemma wp_QNCSmmCoreDispatcher Rounds Context (Q : interrupt_status -> smi D -> Prop) s :
  db_ok s ->
  (forall s1, same s.(hw) s1.(hw) -> s1.(CallbackDataBase) = s.(CallbackDataBase) -> s1.(records) = s.(records) -> s1.(calls) = s.(calls) ->
     (s.(CallbackDataBase) = [] -> forall d, gentle s1.(hw) d -> Q EFI_WARN_INTERRUPT_SOURCE_PENDING (with_hw d s1)) /\
     (s.(CallbackDataBase) <> [] ->
      wp (dispatch_pass Rounds EFI_WARN_INTERRUPT_SOURCE_PENDING {| Context_ := Context; ChildWasDispatched := false; SxChildWasDispatched := false |})
        (fun x s2 => forall d, (sleep_ok s2.(hw) -> sleep_ok d) -> silent d -> Q x.1 (with_hw d s2)) s1)) ->
  wp (QNCSmmCoreDispatcher Rounds Context) Q s.
Proof.
  intros Hs HQ. unfold QNCSmmCoreDispatcher. apply wp_bind. unfold SaveState. apply wp_bind, wp_in_hw. eapply wp_mono; [apply (read_law 4); tauto|].
  intros a d [_ Hd]. apply wp_modify. apply wp_bind, wp_get. set (s1 := with_pci a _).
  destruct (HQ s1) as [H0 H1]; [done|done|done|done|]. change (CallbackDataBase s1) with (CallbackDataBase s).
  assert (HR : forall st n (f : flags) s2, (forall d, (sleep_ok s2.(hw) -> sleep_ok d) -> (silent s2.(hw) -> silent d) -> Q st (with_hw d s2)) -> (0 < n)%nat ->
    wp (_ ← ASSERT (0 <? Z.of_nat n); _ ← RestoreState; _ ← (if f.(SxChildWasDispatched) then on_hw QNCSmmSxGoToSleep else mret tt); mret st) Q s2).
  { intros st n f s2 H2 Hn. apply wp_bind, wp_assert; [apply Z.ltb_lt; lia|]. apply wp_bind. unfold RestoreState. apply wp_bind, wp_get, wp_in_hw.
    eapply wp_mono; [apply write_law|]. intros [] d1 W%gentle_wrote; [|ports|ports]. apply wp_bind. destruct (SxChildWasDispatched f).
    - apply wp_in_hw, wp_QNCSmmSxGoToSleep. intros d2 G2. apply wp_ret. change (with_hw d2 (with_hw d1 s2)) with (with_hw d2 s2).
      pose proof (gentle_trans _ _ _ W G2) as [G3 G4]. by apply H2.
    - apply wp_ret, wp_ret. destruct W as [W1 W2]. by apply H2. }
  apply wp_bind. destruct (CallbackDataBase s) as [|h l] eqn:El.
  - apply wp_ret. cbn beta iota. apply HR; [|lia]. intros d' G1 G2. apply H0; [done|by split].
  - cbn [dispatch_loop]. apply wp_bind. eapply wp_mono; [by apply H1|]. intros [st f] s2 H2. cbn beta iota. apply wp_bind, wp_in_hw, wp_QNCSmmSetAndCheckEos.
    intros d2 C2 S2. apply wp_ret. cbn beta iota. apply HR; [|lia]. intros d3 G1 G2. change (with_hw d3 (with_hw d2 s2)) with (with_hw d3 s2). apply H2; [|by apply G2].
    intros Hp. apply G1. cbn [with_hw hw]. by eapply sleep_ok_calm.
Qed.
End Sleep.

(** ** Children that do nothing to the dispatcher and its registers *)

Section Quiet.
Context {D : Type} {B : SmiBus D} {V : SmiView D} {L : SmiLaws D}.
Implicit Types (s : smi D) (h : Z) (r : DATABASE_RECORD) (d : D).

Definition quiet_children : Prop := forall fn h c b, Forall (fun a => exists f, a = Device f /\ forall d, same d (f d)) (children (D := D) fn h c b).

(** A call, without the buffer. *)
Definition who (c : call) : Z * Z * QNC_SMM_CONTEXT := (c.(call_Callback), c.(call_Handle), c.(call_Context)).
(** The calls for a source, in the order of registration. *)
Definition due s src h : option (Z * Z * QNC_SMM_CONTEXT) :=
  r ← s.(records) !! h;
  if CompareSources r.(SrcDesc) src && matches s.(hw) r then Some (r.(Callback), h, delivered s.(hw) r) else None.
Definition called s src (l : list Z) : list (Z * Z * QNC_SMM_CONTEXT) := omap (due s src) l.

Lemma due_same s0 s src h : same s0.(hw) s.(hw) -> s.(records) !! h = s0.(records) !! h -> due s src h = due s0 src h.
Proof.
  intros Hd Hr. unfold due. rewrite Hr. destruct (records s0 !! h) as [r|]; [|done]. cbn [mbind option_bind].
  destruct (matches_calm (hw s0) (hw s) r (calm_same _ _ Hd)) as [-> ->]. done.
Qed.

Lemma wp_quiet_child fn h c b (Q : unit -> smi D -> Prop) s :
  quiet_children ->
  (forall d, same s.(hw) d -> Q tt (with_hw d (with_call {| call_Callback := fn; call_Handle := h; call_Context := c; call_Buffer := b |} s))) ->
  wp (call_child fn h c b) Q s.
Proof.
  intros HG HQ. unfold call_child. apply wp_bind, wp_modify. specialize (HG fn h c b). revert HQ.
  set (s1 := with_call _ s). intros HQ. assert (H : forall d, same (hw s) d -> wp (for_each (children fn h c b) run_act) Q (with_hw d s1)).
  { revert HG. induction (children fn h c b) as [|a l IH]; intros HG d Hd; cbn [for_each]; [by apply wp_ret, HQ|].
    apply Forall_cons in HG as [(f & -> & Hf) HG]. apply wp_bind, wp_modify. cbn [with_hw hw].
    change (with_hw (f d) (with_hw d s1)) with (with_hw (f d) s1). apply IH; [done|]. eapply same_trans; [exact Hd|apply Hf]. }
  specialize (H (hw s) (same_refl _)). unfold s1 in *. by destruct s.
Qed.

Lemma touched_ok h s s' : touched h s s' -> db_ok s -> db_ok s'.
Proof. intros T. by apply extends_ok, touched_extends with h. Qed.

Lemma wp_exhaust_quiet fuel src pre rest f (Q : flags -> smi D -> Prop) s0 s :
  quiet_children -> db_ok s -> sleep_ok s0.(hw) -> s.(CallbackDataBase) = pre ++ rest -> (length rest <= fuel)%nat -> same s0.(hw) s.(hw) ->
  (forall h, h ∈ rest -> s.(records) !! h = s0.(records) !! h) ->
  (forall f' s', s'.(CallbackDataBase) = s.(CallbackDataBase) -> db_ok s' -> same s0.(hw) s'.(hw) ->
     map who s'.(calls) = rev (called s0 src rest) ++ map who s.(calls) ->
     f'.(ChildWasDispatched) = f.(ChildWasDispatched) || negb (bool_decide (called s0 src rest = [])) ->
     (forall h r, h ∈ pre ++ rest -> s.(records) !! h = Some r -> exists r', s'.(records) !! h = Some r' /\ erase r' = erase r) -> Q f' s') ->
  wp (exhaust fuel src (head rest) f) Q s.
Proof.
  intros HG. revert pre rest f s Q. induction fuel as [|fuel IH]; intros pre rest f s Q Hs Hp Hd Hc Hsame Hrec HQ.
  all: destruct rest as [|h rest]; cbn [head exhaust]; [apply wp_ret, HQ; [done|done|done|done|by rewrite orb_false_r|by eauto]|].
  - cbn in Hc. lia.
  - assert (Hh : h ∈ CallbackDataBase s) by (rewrite Hd; set_solver). destruct (db_records s Hs h Hh) as (_ & r & Hr & Ho).
    pose proof (db_nodup s Hs) as Hnd. rewrite Hd in Hnd.
    assert (Hps : sleep_ok (hw s)) by (eapply sleep_ok_calm; [by apply calm_same|done]).
    assert (Edue : due s src h = due s0 src h) by (apply due_same; [done|apply Hrec; set_solver]). unfold due in Edue at 1. rewrite Hr in Edue. cbn [mbind option_bind] in Edue.
    assert (HN : forall f' s1, s1.(CallbackDataBase) = s.(CallbackDataBase) -> db_ok s1 -> same s0.(hw) s1.(hw) -> (forall k, k <> h -> s1.(records) !! k = s.(records) !! k) ->
      erase <$> s1.(records) !! h = erase <$> s.(records) !! h ->
      map who s1.(calls) = option_list (due s0 src h) ++ map who s.(calls) ->
      f'.(ChildWasDispatched) = f.(ChildWasDispatched) || bool_decide (is_Some (due s0 src h)) ->
      wp (Link ← GetNextNode h; exhaust fuel src Link f') Q s1).
    { intros f' s1 D1 O1 S1 R1 R1h C1 F1. apply wp_bind. unfold GetNextNode. apply wp_bind, wp_get.
      eapply wp_lift; [rewrite D1, Hd; by apply successor_at|]. apply (IH (pre ++ [h])); [done|done|by rewrite D1, Hd, <- app_assoc|cbn in Hc; lia|done| |].
      - intros k Hk. rewrite R1; [apply Hrec; set_solver|]. intros ->. apply NoDup_app in Hnd as (_ & _ & Hnd). apply NoDup_cons in Hnd as [Hnd _]. done.
      - intros f2 s2 D2 O2 S2 C2 F2 K2. apply HQ; [congruence|done|done| | |].
        + unfold called. cbn [omap list_omap]. rewrite C2, C1. destruct (due s0 src h); cbn [option_list app rev]; [by rewrite <- app_assoc|done].
        + rewrite F2, F1. unfold called. cbn [omap list_omap]. destruct (due s0 src h) as [x|]; cbn [bool_decide]; [|by rewrite orb_false_r].
          rewrite bool_decide_true by by eexists. rewrite (bool_decide_false (x :: _ = [])) by done. by rewrite !orb_true_r.
        + intros k q Hk Hq. assert (H1 : exists q1, records s1 !! k = Some q1 /\ erase q1 = erase q).
          { destruct (decide (k = h)) as [->|Hne]; [|exists q; by rewrite R1]. rewrite Hq in R1h. destruct (records s1 !! h) as [q1|]; [|done]. exists q1. split; [done|]. by apply (inj Some). }
          destruct H1 as (q1 & Hq1 & E1). destruct (K2 k q1) as (q2 & Hq2 & E2); [by rewrite <- app_assoc|done|]. exists q2. split; [done|congruence]. }
    apply wp_bind. eapply wp_from_link; [exact Hr|done|]. apply wp_bind. destruct (CompareSources (SrcDesc r) src); cbn [andb] in Edue.
    2: { apply wp_ret, HN; [done|done|done|done|done|by rewrite <- Edue|rewrite <- Edue; by rewrite orb_false_r]. }
    apply (wp_dispatch_record h r); [done..|]. intros s1 T1. destruct (matches (hw s) r).
    + intros b. apply wp_quiet_child; [done|]. intros d Hd1. set (s2 := with_hw d _).
      assert (Es : exists r2, records s1 !! h = Some r2 /\ erase r2 = erase r).
      { pose proof (tch_record _ _ _ T1) as E. rewrite Hr in E. destruct (records s1 !! h) as [r2|]; [|done]. exists r2. split; [done|]. by apply (inj Some). }
      destruct Es as (r2 & Hr2 & Er2). destruct (erase_ok r r2 Er2 Ho) as (O2 & _ & _ & _ & _ & P2 & _). exists r2. split; [exact Hr2|]. split; [done|]. split; [done|].
      apply HN; [apply T1|pose proof (touched_ok _ _ _ T1 Hs) as []; by split| |intros k Hk; by apply (tch_other _ _ _ T1)|apply T1| |].
      * eapply same_trans; [exact Hsame|]. eapply same_trans; [apply T1|exact Hd1].
      * rewrite <- Edue. unfold s2. cbn [with_hw with_call calls map option_list app]. by rewrite (tch_calls _ _ _ T1).
      * rewrite <- Edue. cbn [ChildWasDispatched]. rewrite bool_decide_true by by eexists. by rewrite orb_true_r.
    + apply HN; [apply T1|by eapply touched_ok|by eapply same_trans; [|apply T1]|apply T1|apply T1|rewrite <- Edue; by rewrite (tch_calls _ _ _ T1)|].
      rewrite <- Edue. cbn [ChildWasDispatched]. by rewrite bool_decide_false, orb_false_r by (by intros [? ?]).
Qed.
End Quiet.
