(* ===== verification/SmiTheorems.v ===== *)
(** * The dispatcher of SMIs: theorems

    Sequences of registrations, their ends and dispatches keep the database in order; a dispatch calls exactly the children of the
    first active source, and clears the others that are pending; what a registration and its end do; a child that ends its own
    registration; the rate of the timer. Then the theorems at a concrete chipset. *)

From S2P Require Import Prelude QNCAccess SmiDefs SmiRules SmiData SmiDispatch.
From stdpp Require Import gmap list.
#[local] Open Scope Z_scope.

(** ** Sources are compared by their bits *)

Lemma compare_known a b : a ∈ sources -> b ∈ sources -> CompareSources a b = true -> a = b.
Proof.
  intros Ha Hb. unfold sources in Ha, Hb. rewrite !elem_of_cons, elem_of_nil in Ha, Hb.
  repeat destruct Ha as [->|Ha]; [..|done]; (repeat destruct Hb as [->|Hb]; [..|done]); (done || (vm_compute; discriminate)).
Qed.

(** The sources whose status is a bit of the status register of SMIs. *)
Definition smi_sources : list QNC_SMM_SOURCE_DESC := [SX_SOURCE_DESC; SW_SOURCE_DESC; GPI_SOURCE_DESC; mTIMER_SOURCE_DESC].

Section Theorems.
Context {D : Type} {B : SmiBus D} {V : SmiView D} {L : SmiLaws D}.
Implicit Types (s : smi D) (h : Z) (r : DATABASE_RECORD) (d : D).

Lemma silent_source d src : src ∈ smi_sources -> silent d -> pending d src = false.
Proof.
  intros H Hd. unfold smi_sources in H. rewrite !elem_of_cons, elem_of_nil in H. unfold pending, desc_bit.
  repeat destruct H as [->|H]; [..|destruct H]; cbn [forallb smi_source Sts SX_SOURCE_DESC SW_SOURCE_DESC GPI_SOURCE_DESC mTIMER_SOURCE_DESC place_of Type_ raw Bit reg_at];
    change (gpe_base + u16 R_QNC_GPE0BLK_SMIS) with smis; rewrite Hd by reflexivity; done.
Qed.

(** ** Sequences of calls *)

Inductive op := CallRegister (c : QNC_SMM_CONTEXT) (fn : Z) | CallUnRegister (i : nat) | CallDispatch (Context : QNC_SMM_CONTEXT).
Definition run_op (weight : Z -> nat) (o : op) : M (smi D) unit :=
  match o with
  | CallRegister c fn => _ ← QNCSmmCoreRegister true fn (Some c) true; mret tt
  | CallUnRegister i => s ← get; _ ← QNCSmmCoreUnRegister (default 0 (s.(CallbackDataBase) !! i)); mret tt
  | CallDispatch Context => s ← get; _ ← QNCSmmCoreDispatcher (cost weight s s.(CallbackDataBase)) Context; mret tt
  end.
Definition op_ok (o : op) : Prop := match o with CallRegister c fn => fn <> 0 /\ context_ok c | CallUnRegister _ | CallDispatch _ => True end.

(** C17: Over every sequence of registrations, ends of registrations and dispatches, in any order, with children that change their
    devices and register others while they are called, every call returns and the database stays well-formed: its records are in
    memory, each as its protocol says, and no two children have the same software SMI. *)
Theorem SmiDispatch_calls_in_order weight ops s :
  good_children weight -> db_ok s -> sleep_ok s.(hw) -> Forall op_ok ops ->
  wp (for_each ops (run_op weight)) (fun _ s' => db_ok s' /\ sleep_ok s'.(hw)) s.
Proof.
  intros HG Hs Hp Hops. apply (wp_for_each (fun _ s' => db_ok s' /\ sleep_ok s'.(hw))); [done| |done].
  intros pre o post s1 E [O1 P1]. assert (Ho : op_ok o) by (rewrite E in Hops; apply Forall_app in Hops as [_ H]; by apply Forall_cons in H as [H _]).
  destruct o as [c fn|i|Context]; cbn [run_op op_ok] in *.
  - destruct Ho as [Hf Hc].
    assert (HU : forall s2, unchanged s1 s2 -> db_ok s2 /\ sleep_ok s2.(hw)).
    { intros s2 [U1 U2 _ U4]. split; [|by eapply sleep_ok_calm]. eapply extends_ok; [|exact O1]. split; [by rewrite U1, app_nil_r|by rewrite U2|done]. }
    apply wp_bind, wp_QNCSmmCoreRegister; [done..|intros; by apply wp_ret, HU|intros; by apply wp_ret, HU|].
    intros c' h r s2 _ _ R. apply wp_ret. split; [apply R|]. eapply sleep_ok_calm; [apply R|done].
  - apply wp_bind, wp_get. destruct (CallbackDataBase s1 !! i) as [h|] eqn:Eh; cbn [default]; [|by apply wp_bind, wp_ret, wp_ret].
    apply list_elem_of_lookup_2 in Eh. destruct (db_records s1 O1 h Eh) as (_ & r & Hr & _).
    apply wp_bind, (wp_QNCSmmCoreUnRegister h r); [done..|]. intros d s2 -> _ C O2. apply wp_ret. split; [done|]. by eapply sleep_ok_calm.
  - apply wp_bind, wp_get. apply wp_bind, wp_QNCSmmCoreDispatcher; [done|]. intros s2 S2 D2 R2 _.
    assert (O2 : db_ok s2) by (destruct O1; split; rewrite ?D2, ?R2; eauto). assert (P2 : sleep_ok s2.(hw)) by (eapply sleep_ok_calm; [by apply calm_same|done]).
    split; [intros _ d [G _]; apply wp_ret; split; [by destruct O2|by apply G]|]. intros _.
    apply (wp_dispatch_pass weight); [done|done|done| |].
    { rewrite D2. unfold cost, callback_of. by rewrite R2. }
    intros n x s3 G d Hd _. apply wp_ret. split; [destruct G as [_ _ [] _]; by split|by apply Hd, G].
Qed.

(** ** One dispatch *)

(** The source that is served. *)
Definition served s : option QNC_SMM_SOURCE_DESC := source_of s <$> first_active s s.(CallbackDataBase).
(** The calls that are made for it. *)
Definition calls_due s : list (Z * Z * QNC_SMM_CONTEXT) := from_option (fun src => called s src s.(CallbackDataBase)) [] (served s).

Lemma known_source s h : db_ok s -> h ∈ s.(CallbackDataBase) -> exists r, s.(records) !! h = Some r /\ record_ok r /\ source_of s h = r.(SrcDesc) /\ source_of s h ∈ sources.
Proof.
  intros Hs Hh. destruct (db_records s Hs h Hh) as (_ & r & Hr & Ho). exists r. assert (E : source_of s h = SrcDesc r) by (unfold source_of; by rewrite Hr).
  rewrite E. do 3 (split; [done|]). by apply record_known.
Qed.

(** The records before the first active one have other sources. *)
Lemma called_from s h pre post : db_ok s -> s.(CallbackDataBase) = pre ++ h :: post -> is_active s h = true -> Forall (fun k => is_active s k = false) pre ->
  called s (source_of s h) s.(CallbackDataBase) = called s (source_of s h) (h :: post).
Proof.
  intros Hs E Ha Hf. assert (Hin : forall k, k ∈ pre -> k ∈ CallbackDataBase s) by (intros k Hk; rewrite E; set_solver).
  destruct (known_source s h Hs) as (_ & _ & _ & _ & Kh); [rewrite E; set_solver|].
  unfold called. rewrite E, omap_app. assert (H0 : omap (due s (source_of s h)) pre = []); [|by rewrite H0]. clear E.
  induction pre as [|k pre IH]; [done|].
  apply Forall_cons in Hf as [Hk Hf]. cbn [omap list_omap]. rewrite IH; [|done|intros x Hx; apply Hin; set_solver].
  destruct (known_source s k Hs) as (r & Hr & _ & Er & Kr); [apply Hin; set_solver|]. unfold due. rewrite Hr. cbn [mbind option_bind].
  destruct (CompareSources (SrcDesc r) (source_of s h)) eqn:Ec; [|done]. exfalso. revert Hk. unfold is_active in *. rewrite <- Er in Ec.
  rewrite (compare_known _ _ Kr Kh Ec). by rewrite Ha.
Qed.

Lemma wp_pass_quiet Rounds Context (Q : interrupt_status * flags -> smi D -> Prop) s :
  quiet_children -> db_ok s -> sleep_ok s.(hw) -> (length s.(CallbackDataBase) <= Rounds)%nat ->
  (forall f s', s'.(CallbackDataBase) = s.(CallbackDataBase) -> db_ok s' -> sleep_ok s'.(hw) -> map who s'.(calls) = rev (calls_due s) ++ map who s.(calls) ->
     Q (match served s with None => EFI_WARN_INTERRUPT_SOURCE_PENDING
        | Some _ => if bool_decide (calls_due s = []) then EFI_WARN_INTERRUPT_SOURCE_QUIESCED else HANDLED end, f) s') ->
  wp (dispatch_pass Rounds EFI_WARN_INTERRUPT_SOURCE_PENDING {| Context_ := Context; ChildWasDispatched := false; SxChildWasDispatched := false |}) Q s.
Proof.
  intros HG Hs Hp Hl HQ. unfold dispatch_pass. apply wp_bind, wp_get. apply wp_bind, wp_find_active; [by apply db_listed|]. intros d Hd.
  unfold calls_due, served in HQ. set (s1 := with_hw d s). assert (O1 : db_ok s1) by (by destruct Hs).
  destruct (first_active s (CallbackDataBase s)) as [h|] eqn:Ef; cbn [fmap option_fmap option_map from_option] in HQ.
  2: { apply wp_ret, HQ; [done|done| |done]. eapply sleep_ok_calm; [by apply calm_same|done]. }
  destruct (first_active_split _ _ _ Ef) as (pre & post & El & Ha & Hf). rewrite (called_from s h pre post) in HQ by done.
  assert (Hh : h ∈ CallbackDataBase s) by (rewrite El; set_solver). destruct (known_source s h Hs Hh) as (r & Hr & Ho & Er & Kr). rewrite Er in HQ, Kr.
  apply wp_bind. eapply wp_record_at; [exact Hr|]. apply wp_bind.
  apply (wp_exhaust_quiet Rounds (SrcDesc r) pre (h :: post) _ _ s s1); [done|done|done|done|rewrite El, length_app in Hl; lia|done|done|].
  intros f' s2 D2 O2 S2 C2 F2 K2. destruct (K2 h r) as (r2 & R2 & E2); [set_solver|done|].
  apply wp_bind. eapply wp_record_at; [exact R2|]. apply wp_bind, wp_clear_source; [done|done|]. intros s3 E3 C3. apply wp_ret.
  rewrite F2. cbn [ChildWasDispatched orb]. pose proof (ext_db _ _ _ E3) as D3. rewrite app_nil_r in D3.
  specialize (HQ f' s3). destruct (bool_decide _); apply HQ; try done; try (by rewrite D3, D2); try (by eapply extends_ok); try (by rewrite C3, C2).
  all: eapply sleep_ok_calm; [apply E3|]; eapply sleep_ok_calm; [by apply calm_same|done].
Qed.

Lemma wp_dispatch_quiet Rounds Context (Q : interrupt_status -> smi D -> Prop) s :
  quiet_children -> db_ok s -> sleep_ok s.(hw) -> (length s.(CallbackDataBase) <= Rounds)%nat ->
  (forall s', s'.(CallbackDataBase) = s.(CallbackDataBase) -> db_ok s' -> sleep_ok s'.(hw) -> map who s'.(calls) = rev (calls_due s) ++ map who s.(calls) ->
     (s.(CallbackDataBase) <> [] -> silent s'.(hw)) ->
     Q (match served s with None => EFI_WARN_INTERRUPT_SOURCE_PENDING
        | Some _ => if bool_decide (calls_due s = []) then EFI_WARN_INTERRUPT_SOURCE_QUIESCED else HANDLED end) s') ->
  wp (QNCSmmCoreDispatcher Rounds Context) Q s.
Proof.
  intros HG Hs Hp Hl HQ. apply wp_QNCSmmCoreDispatcher; [done|]. intros s1 S1 D1 R1 C1.
  assert (O1 : db_ok s1) by (destruct Hs; split; rewrite ?D1, ?R1; eauto). assert (P1 : sleep_ok s1.(hw)) by (eapply sleep_ok_calm; [by apply calm_same|done]).
  split.
  - intros E d [G1 _]. unfold calls_due, served in HQ. rewrite E in HQ. cbn [first_active fmap option_fmap option_map from_option] in HQ.
    apply HQ; [by rewrite <- E|by destruct O1|by apply G1|cbn [with_hw calls]; by rewrite C1|done].
  - intros Hne. assert (Es : first_active s1 s1.(CallbackDataBase) = first_active s s.(CallbackDataBase)).
    { rewrite D1. clear -S1 R1. induction (CallbackDataBase s) as [|h l IH]; [done|]. cbn [first_active]. unfold is_active, source_of. by rewrite R1, (active_same _ _ _ S1), IH. }
    assert (Esrc : served s1 = served s) by (unfold served; rewrite Es; unfold source_of; by rewrite R1).
    assert (Ecd : calls_due s1 = calls_due s).
    { unfold calls_due. rewrite Esrc, D1. destruct (served s) as [src|]; [|done]. cbn [from_option]. unfold called. apply list_omap_ext. apply Forall2_same_length_lookup_2; [done|].
      intros i x y Hx Hy. assert (x = y) as -> by congruence. apply due_same; [done|by rewrite R1]. }
    apply wp_pass_quiet; [done|done|done|by rewrite D1|]. intros f s2 D2 O2 P2 C2 d Hd Sd. cbn [fst]. rewrite Esrc, Ecd in *. rewrite C1 in C2.
    apply HQ; [by rewrite <- D1|by destruct O2|by apply Hd|done|done].
Qed.

(** C18: With children that only work on their own devices, a dispatch calls exactly the children of the first active source, by the
    order of registration, whose context is the one that the registers give, in this order and each once; it returns whether one was
    called, and it leaves the database as it was and no SMI pending. *)
Theorem QNCSmmCoreDispatcher_exact Rounds Context s :
  quiet_children -> db_ok s -> sleep_ok s.(hw) -> (length s.(CallbackDataBase) <= Rounds)%nat ->
  wp (QNCSmmCoreDispatcher Rounds Context) (fun Status s' =>
    s'.(CallbackDataBase) = s.(CallbackDataBase) /\ db_ok s' /\ map who s'.(calls) = rev (calls_due s) ++ map who s.(calls) /\
    (s.(CallbackDataBase) <> [] -> silent s'.(hw)) /\
    Status = match served s with None => EFI_WARN_INTERRUPT_SOURCE_PENDING
             | Some _ => if bool_decide (calls_due s = []) then EFI_WARN_INTERRUPT_SOURCE_QUIESCED else HANDLED end) s.
Proof. intros HG Hs Hp Hl. by apply wp_dispatch_quiet. Qed.

(** C25: A second source that is active is lost: after the dispatch it is not pending any more and none of its children was called,
    since the end of an SMI writes back, as ones, the status bits that it has read. *)
Theorem QNCSmmCoreDispatcher_drops_pending Rounds Context h k s :
  quiet_children -> db_ok s -> sleep_ok s.(hw) -> (length s.(CallbackDataBase) <= Rounds)%nat ->
  first_active s s.(CallbackDataBase) = Some h -> k ∈ s.(CallbackDataBase) -> is_active s k = true -> source_of s k ∈ smi_sources -> source_of s k <> source_of s h ->
  wp (QNCSmmCoreDispatcher Rounds Context) (fun _ s' =>
    pending s'.(hw) (source_of s k) = false /\ exists l, map who s'.(calls) = l ++ map who s.(calls) /\ Forall (fun c => c.1.2 <> k) l) s.
Proof.
  intros HG Hs Hp Hl Hf Hk _ Hsrc Hne. apply wp_dispatch_quiet; [done..|]. intros s' _ _ _ C Hsil. split.
  - apply silent_source; [done|]. apply Hsil. intros E. rewrite E in Hk. by apply not_elem_of_nil in Hk.
  - eexists. split; [exact C|]. apply Forall_rev. unfold calls_due, served. rewrite Hf. cbn [fmap option_fmap option_map from_option]. apply Forall_forall.
    intros x Hx. unfold called in Hx. apply list_elem_of_omap in Hx as (j & Hj & Hx). unfold due in Hx.
    destruct (known_source s h Hs) as (_ & _ & _ & _ & Kh).
    { destruct (first_active_split _ _ _ Hf) as (pre & post & E & _). rewrite E. set_solver. }
    destruct (known_source s j Hs Hj) as (r & Hr & _ & Er & Kj). rewrite Hr in Hx. cbn [mbind option_bind] in Hx.
    destruct (CompareSources (SrcDesc r) (source_of s h)) eqn:Ec; [|done]. cbn [andb] in Hx. destruct (matches (hw s) r); [|done]. injection Hx as <-. cbn.
    intros ->. apply Hne. apply compare_known; [done|done|by rewrite Er].
Qed.
(** ** A registration and its end *)

(** C26: A registration is refused, and then changes no record, when memory is short, no software SMI is free, or the protocol does not
    accept the context (a software SMI that another child has among these). Otherwise the record is put at the end under a handle
    that is not in use, its source is enabled and not pending, all other records stay; and the value -1 of a software SMI gives
    the least one, from 1 to 254, that no child has. *)
Theorem QNCSmmCoreRegister_exact fn c s :
  db_ok s -> fn <> 0 -> context_ok c ->
  wp (QNCSmmCoreRegister true fn (Some c) true) (fun '(Status, h, c') s' =>
    (Status = EFI_OUT_OF_RESOURCES /\ unchanged s s') \/
    (Status = EFI_INVALID_PARAMETER /\ unchanged s s' /\ exists c1, c' = Some c1 /\ assigned s c = Some c1 /\ proposal s fn c1 = None) \/
    (Status = EFI_SUCCESS /\ exists c1 r, c' = Some c1 /\ assigned s c = Some c1 /\ proposal s fn c1 = Some r /\ registered h r s s' /\
     (c = Sw (2 ^ 32 - 1) -> exists v, c1 = Sw v /\ 1 <= v <= 254 /\ in_use s v = false /\ forall k, 1 <= k < v -> in_use s k = true))) s.
Proof.
  intros Hs Hf Hc. apply wp_QNCSmmCoreRegister; [done..|intros s' U; by left| |].
  - intros c' s' U Ha Hp. right. left. split; [done|]. split; [done|]. by exists c'.
  - intros c' h r s' Ha Hp R. right. right. split; [done|]. exists c', r. do 4 (split; [done|]). intros ->. cbn [assigned] in Ha.
    rewrite Z.eqb_refl in Ha. apply fmap_Some in Ha as (v & Hv & ->). apply first_free_range in Hv as (H1 & H2 & H3). exists v.
    change (Z.of_nat (Z.to_nat (MAXIMUM_SWI_VALUE - 1))) with 254 in H1. split; [done|]. split; [lia|done].
Qed.

(** C27: The end of a registration removes exactly its record; its source is disabled if and only if no other child has the same enable
    bits, and no other source is. *)
Theorem QNCSmmCoreUnRegister_exact h r s :
  db_ok s -> h ∈ s.(CallbackDataBase) -> s.(records) !! h = Some r ->
  wp (QNCSmmCoreUnRegister h) (fun Status s' =>
    Status = EFI_SUCCESS /\ s'.(CallbackDataBase) = List.filter (fun k => negb (k =? h)) s.(CallbackDataBase) /\ s'.(records) = delete h s.(records) /\
    db_ok s' /\ s'.(calls) = s.(calls) /\
    (if shared s h r then s'.(hw) = s.(hw)
     else r.(SrcDesc) <> NULL_SOURCE_DESC_INITIALIZER ->
       enabled s'.(hw) r.(SrcDesc) = false /\
       forall src, src ∈ sources -> CompareEnables r.(SrcDesc) src = false -> enabled s'.(hw) src = enabled s.(hw) src)) s.
Proof.
  intros Hs Hh Hr. destruct (known_source s h Hs Hh) as (r' & Hr' & Ho & _). simplify_eq.
  apply (wp_QNCSmmCoreUnRegister h r); [done..|]. intros d s' -> W C O. do 5 (split; [done|]). cbn [with_db with_hw hw].
  destruct (shared s h r); [done|]. intros Hn. apply disable_source; [by apply record_known|done|done].
Qed.

(** ** A child that ends its own registration *)

Lemma dispatch_record_hangs h r f s :
  db_ok s -> h ∈ s.(CallbackDataBase) -> s.(records) !! h = Some r -> sleep_ok s.(hw) -> matches s.(hw) r = true ->
  (forall c b, children r.(Callback) h c b = [AUnRegister h]) -> dispatch_record h r f s = None.
Proof.
  intros Hs Hh Hr Hp Hm Hc. destruct (known_source s h Hs Hh) as (r' & Hr' & Ho & _). simplify_eq. unfold dispatch_record.
  apply bind_hangs, (wp_contexts_match h r); [done..|]. intros s1 T1. cbn beta iota. rewrite Hm. cbn [negb].
  assert (HC : forall b s2, touched h s s2 -> (_ ← ASSERT (negb (Callback r =? 0)); _ ← call_child (Callback r) h (delivered (hw s) r) b; r' ← record_at h;
    mret {| Context_ := delivered (hw s) r; ChildWasDispatched := true; SxChildWasDispatched := SxChildWasDispatched f || bool_decide (ProtocolType r' = SxType) |}) s2 = None).
  { intros b s2 T2. apply bind_hangs, wp_assert; [apply negb_true_iff, Z.eqb_neq, Ho|]. apply bind_hangs. unfold call_child. apply wp_bind, wp_modify.
    rewrite Hc. cbn [for_each]. apply wp_bind. cbn [run_act]. set (s3 := with_call _ s2).
    assert (T3 : db_ok s3) by (destruct (touched_ok _ _ _ T2 Hs); by split).
    assert (Hh3 : h ∈ CallbackDataBase s3) by (cbn [s3 with_call CallbackDataBase]; by rewrite (tch_db _ _ _ T2)).
    destruct (known_source s3 h T3 Hh3) as (r3 & R3 & _). apply wp_bind, (wp_QNCSmmCoreUnRegister h r3); [done..|]. intros d s4 -> _ _ _.
    apply wp_ret, wp_ret. apply first_hangs. unfold record_at. apply bind_hangs, wp_get. cbn [with_db records]. by rewrite lookup_delete_eq. }
  apply bind_hangs. destruct (HasBuffer r) eqn:Eb; [|by apply wp_ret, HC].
  destruct (known_source s1 h (touched_ok _ _ _ T1 Hs)) as (r1 & R1 & _); [by rewrite (tch_db _ _ _ T1)|].
  pose proof (rec_shape r Ho) as Hsh. rewrite Eb in Hsh. rewrite (rec_protocol r Ho).
  destruct (ChildContext r) as [t p|v|g|t|p|p t]; cbn [shape protocol_of GetBuffer] in *.
  - by repeat case_match.
  - apply wp_bind. eapply wp_lift; [done|]. apply wp_bind, (wp_SwGetBuffer h r1); [done|]. intros s2 T2. pose proof (touched_trans _ _ _ _ T1 T2) as T.
    destruct (known_source s2 h (touched_ok _ _ _ T Hs)) as (r2 & R2 & _); [by rewrite (tch_db _ _ _ T)|]. apply wp_bind. eapply wp_record_at; [exact R2|]. by apply wp_ret, HC.
  - done.
  - destruct ((t <? IchnMch) || (NUM_ICHN_TYPES <=? t)); [done|]. by destruct (QNCN_SOURCE_DESCS !! Z.to_nat t).
  - done.
  - apply wp_bind. eapply wp_lift; [done|]. apply wp_bind, wp_ret. apply wp_bind. eapply wp_record_at; [exact R1|]. by apply wp_ret, HC.
Qed.

(** C28: A child of the served source that ends its own registration while it is called makes the dispatcher read its record after the
    memory was given back, and the run stops there. *)
Theorem QNCSmmCoreDispatcher_self_unregister Rounds Context h r s :
  db_ok s -> sleep_ok s.(hw) -> first_active s s.(CallbackDataBase) = Some h -> s.(records) !! h = Some r -> matches s.(hw) r = true ->
  (forall c b, children r.(Callback) h c b = [AUnRegister h]) -> QNCSmmCoreDispatcher Rounds Context s = None.
Proof.
  intros Hs Hp Hf Hr Hm Hc. destruct (first_active_split _ _ _ Hf) as (pre & post & El & Ha & Hpre).
  assert (Hh : h ∈ CallbackDataBase s) by (rewrite El; set_solver). destruct (known_source s h Hs Hh) as (r' & Hr' & Ho & _). simplify_eq.
  unfold QNCSmmCoreDispatcher. apply bind_hangs. unfold SaveState. apply wp_bind, wp_in_hw. eapply wp_mono; [apply (read_law 4); tauto|].
  intros a d [_ Hd]. apply wp_modify. apply bind_hangs, wp_get. set (s1 := with_pci a _). change (CallbackDataBase s1) with (CallbackDataBase s).
  assert (O1 : db_ok s1) by (by destruct Hs). apply first_hangs. destruct (CallbackDataBase s) as [|x l] eqn:E; [by apply not_elem_of_nil in Hh|].
  cbn [dispatch_loop]. apply first_hangs. unfold dispatch_pass. apply bind_hangs, wp_get. apply bind_hangs, wp_find_active; [by apply db_listed|]. intros d1 Hd1.
  assert (S1 : same (hw s) d1) by (eapply same_trans; [exact Hd|exact Hd1]).
  assert (Ef : first_active s1 (CallbackDataBase s1) = Some h).
  { rewrite <- Hf. change (CallbackDataBase s1) with (CallbackDataBase s). rewrite E. clear -Hd. induction (x :: l) as [|k q IH]; [done|].
    cbn [first_active]. unfold is_active, source_of. rewrite (active_same (hw s) (hw s1)) by done. cbn [s1 with_pci with_hw records]. by rewrite IH. }
  rewrite Ef. apply bind_hangs. eapply wp_record_at; [exact Hr|]. apply first_hangs. destruct Rounds as [|n]; [done|]. cbn [exhaust].
  apply bind_hangs. eapply wp_from_link; [exact Hr|done|]. apply first_hangs.
  assert (HC : CompareSources (SrcDesc r) (SrcDesc r) = true).
  { clear -Ho L. assert (F : forallb (fun x => CompareSources x x) sources = true) by done. rewrite forallb_forall in F. apply F, list_elem_of_In. by apply record_known. }
  rewrite HC. set (s2 := with_hw d1 s1). assert (O2 : db_ok s2) by (by destruct O1). apply dispatch_record_hangs; [done| |done| | |done].
  - change (CallbackDataBase s2) with (CallbackDataBase s). by rewrite E.
  - eapply sleep_ok_calm; [by apply calm_same|done].
  - rewrite <- Hm. apply (matches_calm (hw s) (hw s2)). by apply calm_same.
Qed.

(** ** The rate of the timer *)

(** C37: When timers are asked for, the rate that is programmed is that of the smallest interval, but its number is added to the bits
    that the register has: it never becomes smaller, so that a timer is never made faster than before. *)
Theorem QNCSmmPeriodicTimerProgramTimers_rate s :
  db_ok s -> ticks s s.(CallbackDataBase) <> [] -> Z.of_nat (length s.(CallbackDataBase)) < 2 ^ 32 ->
  Forall (fun t => needed s <= t) (ticks s s.(CallbackDataBase)) /\
  wp QNCSmmPeriodicTimerProgramTimers (fun _ s' => exists i, index_of (needed s) 0 mSmmPeriodicTimerIntervals = Some i /\
    Z.land (reg_io s'.(hw) pmcw) 7 = Z.lor (Z.land (reg_io s.(hw) pmcw) 7) i /\ Z.land (reg_io s.(hw) pmcw) 7 <= Z.land (reg_io s'.(hw) pmcw) 7) s.
Proof.
  intros Hs Hne Hl. split; [apply foldl_min_le|]. apply wp_ProgramTimers; [done|]. intros t d C H. destruct (H Hne Hl) as (i & Hi & E). exists i.
  split; [done|]. split; [done|]. cbn [with_timers with_hw hw]. rewrite E.
  assert (Hi0 : 0 <= i).
  { clear -Hi. revert Hi. unfold mSmmPeriodicTimerIntervals. cbn [index_of]. repeat (destruct (_ =? _); [intros [= <-]; lia|]). done. }
  apply Z.ldiff_le; [apply Z.lor_nonneg; split; [by apply Z.land_nonneg; right|done]|]. apply Z.bits_inj'. intros k Hk. rewrite Z.ldiff_spec, Z.lor_spec, Z.bits_0.
  by destruct (Z.testbit (Z.land _ 7) k), (Z.testbit i k).
Qed.
End Theorems.

(** ** A chipset *)

(** Ports and a configuration space; the blocks of ports are at 0x1000 and 0x1100. *)
Record chip := { ports_of : Z -> Z; config_of : Z -> Z }.
Definition chip_gpe : Z := 0x1100.
Definition chip_pm1 : Z := 0x1000.
Definition chip_w1c (A : Z) : Z :=
  if A =? 0x1114 then B_QNC_GPE0BLK_SMIS_ALL else if A =? 0x1000 then 0xC421 else if A =? 0x1100 then B_QNC_GPE0BLK_GPE0S_ALL else 0.
Definition put (n m old v : Z) : Z := Z.lor (Z.ldiff old (Z.ones (8 * n))) (Z.land (Z.ones (8 * n)) (Z.lor (Z.land m (Z.ldiff old v)) (Z.ldiff v m))).
Definition write_port (n A v : Z) (d : chip) : chip :=
  {| ports_of := fun A' => if A' =? A then put n (chip_w1c A) (d.(ports_of) A) v else d.(ports_of) A'; config_of := d.(config_of) |}.
Definition write_config (n A v : Z) (d : chip) : chip :=
  {| ports_of := d.(ports_of); config_of := fun A' => if A' =? A then put n 0 (d.(config_of) A) v else d.(config_of) A' |}.
Definition change_port (n A a o : Z) : M chip unit := fun d => Some (tt, write_port n A (Z.lor (Z.land (d.(ports_of) A) a) o) d).
Definition change_config (n A a o : Z) : M chip unit := fun d => Some (tt, write_config n A (Z.lor (Z.land (d.(config_of) A) a) o) d).

Definition chip_bus (children : Z -> Z -> QNC_SMM_CONTEXT -> option Z -> list (act chip)) : SmiBus chip := {|
  IoRead8 := fun A d => Some (wrap 8 (d.(ports_of) A), d);
  IoRead16 := fun A d => Some (wrap 16 (d.(ports_of) A), d);
  IoRead32 := fun A d => Some (wrap 32 (d.(ports_of) A), d);
  IoWrite32 := fun A v d => Some (tt, write_port 4 A v d);
  IoOr16 := fun A o d => Some (tt, write_port 2 A (Z.lor (d.(ports_of) A) o) d);
  IoOr32 := fun A o d => Some (0, write_port 4 A (Z.lor (d.(ports_of) A) o) d);
  IoAnd16 := fun A a d => Some (tt, write_port 2 A (Z.land (d.(ports_of) A) a) d);
  IoAndThenOr8 := change_port 1;
  IoAndThenOr16 := change_port 2;
  IoAndThenOr32 := change_port 4;
  PciRead8 := fun A d => Some (wrap 8 (d.(config_of) A), d);
  PciRead16 := fun A d => Some (wrap 16 (d.(config_of) A), d);
  PciRead32 := fun A d => Some (wrap 32 (d.(config_of) A), d);
  PciAndThenOr8 := change_config 1;
  PciAndThenOr16 := change_config 2;
  PciAndThenOr32 := change_config 4;
  PCI_LIB_ADDRESS := fun b d f r => b * 2 ^ 20 + d * 2 ^ 15 + f * 2 ^ 12 + r;
  LpcPciCfg32 := fun _ d => Some (2 ^ 31 + chip_gpe, d);
  MmioRead := fun _ _ d => Some (0, d);
  MmioWrite := fun _ _ _ d => Some (tt, d);
  AsmWbinvd := fun d => Some (tt, d);
  PcdPm1blkIoBaseAddress := chip_pm1;
  AllocateZeroPool := fun used d => Some (set_fold Z.max 0 used + 1, d);
  SmmLocateProtocol := fun d => Some (EFI_SUCCESS, 0x5000, d);
  NumberOfCpus := fun d => Some (2, d);
  ReadSaveState_Io := fun i d => Some (EFI_SUCCESS, if i =? 1 then R_APM_CNT else 0, d);
  SmiDefs.children := children
|}.
#[local] Instance chip_view : SmiView chip := {| reg_io := ports_of; reg_pci := config_of; gpe_base := chip_gpe; w1c := chip_w1c |}.

Lemma put_bit n m old v i : 0 <= n -> 0 <= i ->
  Z.testbit (put n m old v) i = if i <? 8 * n then stored (Z.testbit m i) (Z.testbit old i) (Z.testbit v i) else Z.testbit old i.
Proof.
  intros Hn Hi. unfold put. rewrite !Z.lor_spec, !Z.land_spec, !Z.lor_spec, !Z.land_spec, !Z.ldiff_spec, !ones_bit by lia. unfold stored.
  rewrite (proj2 (Z.leb_le 0 i)) by done. by destruct (i <? 8 * n), (Z.testbit m i), (Z.testbit old i), (Z.testbit v i).
Qed.

Lemma write_port_wrote n A v w d : 0 <= n -> (forall i, 0 <= i < 8 * n -> Z.testbit w i = Z.testbit v i) -> wrote n A v d (write_port n A w d).
Proof.
  intros Hn Hw. split; [|split; [|done]]; cbn [reg_io chip_view write_port ports_of w1c].
  - intros i Hi. rewrite Z.eqb_refl, put_bit by lia. destruct (Z.ltb_spec i (8 * n)); [by rewrite Hw|done].
  - intros A' Hne. by rewrite (proj2 (Z.eqb_neq A' A)).
Qed.

Lemma write_config_wrote n A v w d : 0 <= n -> (forall i, 0 <= i < 8 * n -> Z.testbit w i = Z.testbit v i) -> wrote_pci n A v d (write_config n A w d).
Proof.
  intros Hn Hw. split; [|split; [|done]]; cbn [reg_pci chip_view write_config config_of].
  - intros i Hi. rewrite Z.eqb_refl, put_bit, Z.bits_0 by lia. destruct (Z.ltb_spec i (8 * n)); [by rewrite Hw|done].
  - intros A' Hne. by rewrite (proj2 (Z.eqb_neq A' A)).
Qed.

Lemma masked_bits n x a o i : 0 <= i < 8 * n -> Z.testbit (Z.lor (Z.land x (wrap (8 * n) a)) (wrap (8 * n) o)) i = Z.testbit (Z.lor (Z.land x a) o) i.
Proof. intros Hi. rewrite !Z.lor_spec, !Z.land_spec, !wrap_bit by lia. by rewrite (proj2 (Z.ltb_lt i (8 * n))), !andb_true_r by lia. Qed.

Lemma fresh_handle (used : gset Z) : set_fold Z.max 0 used + 1 ∉ used.
Proof.
  assert (H : forall h, h ∈ used -> h <= set_fold Z.max 0 used); [|intros Hu; apply H in Hu; lia].
  apply (set_fold_ind_L (fun m (X : gset Z) => forall h, h ∈ X -> h <= m)); [set_solver|]. intros x X m Hx IH h Hh.
  apply elem_of_union in Hh as [->%elem_of_singleton|Hh]; [lia|]. specialize (IH h Hh). lia.
Qed.

Lemma chip_laws children : @SmiLaws chip (chip_bus children) chip_view.
Proof.
  split.
  - by split.
  - by split; [|split; [|right]].
  - split; [done|]. by repeat split.
  - intros d. by eexists _, _.
  - intros n A d [->|[->| ->]]; by eexists _, _.
  - intros n A d [->|[->| ->]]; by eexists _, _.
  - intros n A a o d [->|[->| ->]]; eexists _, _; (split; [reflexivity|]); apply write_port_wrote; [lia|apply (masked_bits 1)|lia|apply (masked_bits 2)|lia|apply (masked_bits 4)].
  - intros n A a o d [->|[->| ->]]; eexists _, _; (split; [reflexivity|]); apply write_config_wrote; [lia|apply (masked_bits 1)|lia|apply (masked_bits 2)|lia|apply (masked_bits 4)].
  - intros A v d. eexists _, _. split; [reflexivity|]. by apply write_port_wrote.
  - intros A v d. eexists _, _. split; [reflexivity|]. by apply write_port_wrote.
  - intros A v d. eexists _, _. split; [reflexivity|]. by apply write_port_wrote.
  - intros d. by eexists _, _.
  - intros used d. eexists _, _. split; [reflexivity|]. split; [right; apply fresh_handle|apply same_refl].
  - intros d. by eexists _, _.
  - intros d. by eexists _, _.
  - intros i d. by eexists _, _.
Qed.

(** ** A database *)

Definition gpi_child (fn g : Z) : DATABASE_RECORD := new_record fn (Gpi g) GPI_SOURCE_DESC false None.
Definition sw_child (fn v : Z) : DATABASE_RECORD := new_record fn (Sw v) SW_SOURCE_DESC true None.
Definition timer_child (fn p t : Z) : DATABASE_RECORD := new_record fn (PeriodicTimer p t) mTIMER_SOURCE_DESC true (Some QNCSmmPeriodicTimerClearSource).

(** The handles are 1, 2, ... *)
Definition database (l : list DATABASE_RECORD) (d : chip) : smi chip :=
  {| CallbackDataBase := seqZ 1 (Z.of_nat (length l)); records := list_to_map (zip (seqZ 1 (Z.of_nat (length l))) l);
     mTimers := {| NumChildren := 0; MinReqInterval := 0; CurrentSetting := 0 |}; mPciAddress := 0; mSmmCpu := 0; calls := []; hw := d |}.

(** The registers: GPIO and software SMIs enabled and pending, the value 7 of a software SMI, the rate 4. *)
Definition both_pending : chip :=
  {| ports_of := fun A => if A =? 0x1110 then 0x210 else if A =? 0x1114 then 0x210 else if A =? R_APM_CNT then 7 else if A =? 0x1128 then 4 else 0;
     config_of := fun _ => 0 |}.
Definition three_children : smi chip := database [gpi_child 0x12 0; sw_child 0x11 7; gpi_child 0x13 1] both_pending.
Definition two_timers : smi chip := database [timer_child 0x14 TIME_64ms TIME_16ms; timer_child 0x15 TIME_32s TIME_8s] both_pending.

Lemma three_children_ok : db_ok three_children.
Proof.
  assert (HR : forall h, h ∈ [1; 2; 3] -> exists r, three_children.(records) !! h = Some r /\ record_ok r /\ (forall v, r.(ChildContext) = Sw v -> h = 2)).
  { intros h Hh. rewrite !elem_of_cons, elem_of_nil in Hh. destruct Hh as [->|[->|[->|[]]]]; (eexists; split; [vm_compute; reflexivity|]); by repeat split. }
  split; change (CallbackDataBase three_children) with [1; 2; 3].
  - by_compute.
  - intros h Hh. destruct (HR h Hh) as (r & Hr & Ho & _). split; [by intros ->; vm_compute in Hr|]. by exists r.
  - intros h1 h2 r1 r2 v I1 I2 E1 E2 C1 C2. destruct (HR h1 I1) as (q1 & Q1 & _ & S1), (HR h2 I2) as (q2 & Q2 & _ & S2). simplify_eq. by rewrite (S1 v), (S2 v).
Qed.

Lemma two_timers_ok : db_ok two_timers.
Proof.
  assert (HR : forall h, h ∈ [1; 2] -> exists r, two_timers.(records) !! h = Some r /\ record_ok r /\ (forall v, r.(ChildContext) <> Sw v)).
  { intros h Hh. rewrite !elem_of_cons, elem_of_nil in Hh. destruct Hh as [->|[->|[]]]; (eexists; split; [vm_compute; reflexivity|]); by repeat split. }
  split; change (CallbackDataBase two_timers) with [1; 2].
  - by_compute.
  - intros h Hh. destruct (HR h Hh) as (r & Hr & Ho & _). split; [by intros ->; vm_compute in Hr|]. by exists r.
  - intros h1 h2 r1 r2 v I1 _ E1 _ C1. destruct (HR h1 I1) as (q1 & Q1 & _ & S1). simplify_eq. by destruct (S1 v).
Qed.

(** Children that do nothing; one that registers another and raises an SMI; one that ends its registration. *)
Definition idle_child (fn h : Z) (c : QNC_SMM_CONTEXT) (b : option Z) : list (act chip) := [Device id].
Definition raise_gpi (d : chip) : chip := {| ports_of := fun A => if A =? 0x1114 then Z.lor (d.(ports_of) A) 0x200 else d.(ports_of) A; config_of := d.(config_of) |}.
Definition busy_child (fn h : Z) (c : QNC_SMM_CONTEXT) (b : option Z) : list (act chip) :=
  if fn =? 0x12 then [Device raise_gpi; ARegister (Gpi 5) 0x11; ARegister (Sw 7) 0x11] else [].
Definition leaving_child (fn h : Z) (c : QNC_SMM_CONTEXT) (b : option Z) : list (act chip) := [AUnRegister h].
Definition busy_weight (fn : Z) : nat := if fn =? 0x12 then 3%nat else 1%nat.

Lemma idle_quiet : @quiet_children chip (chip_bus idle_child) chip_view.
Proof. intros fn h c b. apply Forall_singleton. exists id. split; [done|]. intros d. apply same_refl. Qed.

(** ** The theorems *)

Lemma SmiDispatch_calls_in_order_witness :
  wp (for_each [CallRegister (Sw 7) 0x11; CallRegister (Sw (2 ^ 32 - 1)) 0x11; CallRegister (QNCn 0) 0x12; CallDispatch (Gpi 0); CallUnRegister 1; CallDispatch (Gpi 0)]
    (@run_op chip (chip_bus busy_child) busy_weight)) (fun _ s' => db_ok s' /\ @sleep_ok chip (chip_bus busy_child) chip_view s'.(hw)) (database [] both_pending).
Proof.
  apply (@SmiDispatch_calls_in_order chip (chip_bus busy_child) chip_view (chip_laws busy_child) busy_weight).
  - intros fn h c b. cbn [chip_bus SmiDefs.children]. unfold busy_child, busy_weight. destruct (fn =? 0x12); [|split; [constructor|cbn; lia]].
    split; [|cbn; lia]. repeat apply Forall_cons_2; [|done|done|constructor]. intros d H. exact H.
  - split; [constructor|intros h Hh; by apply not_elem_of_nil in Hh|intros h1 h2 r1 r2 v I1; by apply not_elem_of_nil in I1].
  - by left.
  - repeat apply Forall_cons_2; try exact I; [by split..|constructor].
Defined.

Lemma QNCSmmCoreDispatcher_exact_witness :
  wp (@QNCSmmCoreDispatcher chip (chip_bus idle_child) 3 (Gpi 0)) (fun Status s' =>
    Status = HANDLED /\ map who s'.(calls) = [(0x13, 3, Gpi 1); (0x12, 1, Gpi 0)] /\ Z.land (s'.(hw).(ports_of) 0x1114) 0x210 = 0) three_children.
Proof.
  eapply wp_mono; [apply (@QNCSmmCoreDispatcher_exact chip (chip_bus idle_child) chip_view (chip_laws idle_child) 3 (Gpi 0) three_children)|].
  - apply idle_quiet.
  - apply three_children_ok.
  - by left.
  - apply le_n.
  - intros Status s' (_ & _ & H1 & H2 & H3). split; [rewrite H3; vm_compute; reflexivity|]. split; [rewrite H1; vm_compute; reflexivity|].
    specialize (H2 ltac:(discriminate)). change 0x210 with (Z.lor (2 ^ 4) (2 ^ 9)). apply Z.bits_inj'. intros i Hi.
    rewrite Z.land_spec, Z.lor_spec, !Z.pow2_bits_eqb, Z.bits_0 by lia.
    assert (E : Z.testbit (ports_of (hw s') 0x1114) 4 = false /\ Z.testbit (ports_of (hw s') 0x1114) 9 = false) by (split; by apply H2).
    destruct (Z.eqb_spec 4 i) as [<-|H4]; [by rewrite (proj1 E)|]. destruct (Z.eqb_spec 9 i) as [<-|H9]; [by rewrite (proj2 E)|]. apply andb_false_r.
Defined.

Lemma QNCSmmCoreDispatcher_drops_pending_witness :
  wp (@QNCSmmCoreDispatcher chip (chip_bus idle_child) 3 (Gpi 0)) (fun _ s' =>
    @pending chip (chip_bus idle_child) chip_view s'.(hw) SW_SOURCE_DESC = false /\
    exists l, map who s'.(calls) = l ++ [] /\ Forall (fun c => c.1.2 <> 2) l) three_children.
Proof.
  apply (@QNCSmmCoreDispatcher_drops_pending chip (chip_bus idle_child) chip_view (chip_laws idle_child) 3 (Gpi 0) 1 2 three_children).
  - apply idle_quiet.
  - apply three_children_ok.
  - by left.
  - apply le_n.
  - vm_compute. reflexivity.
  - by_compute.
  - vm_compute. reflexivity.
  - right. left.
  - discriminate.
Defined.

(** The value that is given is the least one. *)
Lemma QNCSmmCoreRegister_exact_witness :
  fst <$> @QNCSmmCoreRegister chip (chip_bus idle_child) true 0x16 (Some (Sw (2 ^ 32 - 1))) true three_children = Some (EFI_SUCCESS, 4, Some (Sw 1)) /\
  wp (@QNCSmmCoreRegister chip (chip_bus idle_child) true 0x16 (Some (Sw 7)) true) (fun x s' =>
    x.1.1 <> EFI_SUCCESS /\ @unchanged chip (chip_bus idle_child) chip_view three_children s') three_children.
Proof.
  split; [vm_compute; reflexivity|].
  eapply wp_mono; [apply (@QNCSmmCoreRegister_exact chip (chip_bus idle_child) chip_view (chip_laws idle_child) 0x16 (Sw 7) three_children)|].
  - apply three_children_ok.
  - discriminate.
  - exact I.
  - intros [[Status h] c'] s' [[-> H]|[(-> & H & _)|(_ & c1 & r & _ & Ha & Hp & _)]]; [by split|by split|]. injection Ha as <-. vm_compute in Hp. discriminate Hp.
Defined.

(** The enable bit of the software SMIs is cleared, that of the GPIOs stays. *)
Lemma QNCSmmCoreUnRegister_exact_witness :
  wp (@QNCSmmCoreUnRegister chip (chip_bus idle_child) 2) (fun Status s' => Status = EFI_SUCCESS /\ s'.(CallbackDataBase) = [1; 3] /\
    @enabled chip (chip_bus idle_child) chip_view s'.(hw) SW_SOURCE_DESC = false /\
    @enabled chip (chip_bus idle_child) chip_view s'.(hw) GPI_SOURCE_DESC = true) three_children.
Proof.
  eapply wp_mono; [apply (@QNCSmmCoreUnRegister_exact chip (chip_bus idle_child) chip_view (chip_laws idle_child) 2 (sw_child 0x11 7) three_children)|].
  - apply three_children_ok.
  - by_compute.
  - vm_compute. reflexivity.
  - intros Status s' (-> & H1 & _ & _ & _ & H2). split; [reflexivity|]. split; [rewrite H1; vm_compute; reflexivity|].
    assert (E : shared three_children 2 (sw_child 0x11 7) = false) by (vm_compute; reflexivity). rewrite E in H2.
    destruct (H2 ltac:(discriminate)) as [H3 H4]. split; [exact H3|]. rewrite H4; [vm_compute; reflexivity|do 2 right; left|reflexivity].
Defined.

Lemma QNCSmmCoreDispatcher_self_unregister_witness :
  @QNCSmmCoreDispatcher chip (chip_bus leaving_child) 3 (Gpi 0) three_children = None.
Proof.
  apply (@QNCSmmCoreDispatcher_self_unregister chip (chip_bus leaving_child) chip_view (chip_laws leaving_child) 3 (Gpi 0) 1 (gpi_child 0x12 0) three_children).
  - apply three_children_ok.
  - by left.
  - vm_compute. reflexivity.
  - vm_compute. reflexivity.
  - vm_compute. reflexivity.
  - reflexivity.
Defined.

(** The rate 4 (eight seconds) becomes 5 (sixteen seconds), though a child needs 1 (sixteen milliseconds). *)
Lemma QNCSmmPeriodicTimerProgramTimers_rate_witness :
  wp (@QNCSmmPeriodicTimerProgramTimers chip (chip_bus idle_child)) (fun _ s' => Z.land (s'.(hw).(ports_of) 0x1128) 7 = 5) two_timers.
Proof.
  destruct (@QNCSmmPeriodicTimerProgramTimers_rate chip (chip_bus idle_child) chip_view (chip_laws idle_child) two_timers) as [_ H].
  - apply two_timers_ok.
  - vm_compute. discriminate.
  - reflexivity.
  - eapply wp_mono; [exact H|]. intros _ s' (i & Hi & E & _). vm_compute in Hi. injection Hi as <-. exact E.
Defined.
