(* ===== verification/SmiControl.v ===== *)
(** * Software SMIs: raising, recognising and clearing them

    Models the software SMIs of [QNCSmmLib.c], the services of [SmmControlDriver.c] and [SmmControlPei.c], and the start of the
    dispatcher of SMIs. An SMI that a child is registered for reaches it, and it alone; what a caller passes is what the handler sees. *)

From S2P Require Import Prelude QNCAccess SpiDefs SpiExecute SmiDefs SmiRules SmiData SmiDispatch SmiTheorems.
From stdpp Require Import gmap list functions.
#[local] Open Scope Z_scope.

Definition B_QNC_GPE0BLK_SMIE_APM : Z := 2 ^ 4.
Definition B_QNC_GPE0BLK_SMIS_APM : Z := 2 ^ 4.
Definition BOOT_SERVICE_SOFTWARE_SMI_DATA : Z := 0.
Definition RUNTIME_SOFTWARE_SMI_DATA : Z := 1.
Definition NUM_PROTOCOLS : Z := 6.

Class SmiControl (D : Type) := {
  IoWrite8 (A v : Z) : M D unit;
  PcdGpe0blkIoBaseAddress : Z;
  PcdSmmActivationPort : Z;
  PcdSmmDataPort : Z;
  PcdSmmActivationData : Z;
  SmmInstallProtocolInterface (Index : Z) : M D EFI_STATUS;
  SmiHandlerRegister : M D EFI_STATUS
}.

(** The message bus beside the state of the dispatcher. *)
Record platform (D : Type) := { sideband : msgbus; dispatcher : smi D }.
Arguments sideband {D} _.
Arguments dispatcher {D} _.

Section Control.
Context {MB : MessageBus} {D : Type} {B : SmiBus D} {C : SmiControl D}.
Abbreviation st := (platform D).

Definition on_sideband {A} (m : M msgbus A) : M st A := fun s =>
  match m s.(sideband) with Some (a, b) => Some (a, {| sideband := b; dispatcher := s.(dispatcher) |}) | None => None end.
Definition on_dispatcher {A} (m : M (smi D) A) : M st A := fun s =>
  match m s.(dispatcher) with Some (a, d) => Some (a, {| sideband := s.(sideband); dispatcher := d |}) | None => None end.
Definition on_ports {A} (m : M D A) : M st A := on_dispatcher (on_hw m).

(** ** [QNCSmmLib.c] *)

Definition QNCSmmEnableGlobalSmiBit : M st EFI_STATUS :=
  NewValue ← on_sideband (QNCPortRead QUARK_NC_HOST_BRIDGE_SB_PORT_ID QNC_MSG_FSBIC_REG_HMISC);
  _ ← on_sideband (QNCPortWrite QUARK_NC_HOST_BRIDGE_SB_PORT_ID QNC_MSG_FSBIC_REG_HMISC (Z.lor NewValue SMI_EN));
  mret EFI_SUCCESS.

(** Until the SMI is generated; [None] where the data port is not written. *)
Definition generate (GPE0BLK_Base : Z) (Data : option Z) (Command : Z) : M st unit :=
  _ ← on_ports (IoOr32 (GPE0BLK_Base + R_QNC_GPE0BLK_SMIE) B_QNC_GPE0BLK_SMIE_APM);
  _ ← QNCSmmEnableGlobalSmiBit;
  _ ← match Data with Some Data => on_ports (IoWrite8 PcdSmmDataPort Data) | None => mret tt end;
  on_ports (IoWrite8 PcdSmmActivationPort Command).
(** [smi] is what runs when the SMI is generated. *)
Definition InternalTriggerSmi (smi : M st unit) (Data : Z) : M st unit :=
  GPE0BLK_Base ← on_ports gpe0;
  _ ← generate GPE0BLK_Base (Some Data) PcdSmmActivationData;
  _ ← smi;
  _ ← on_ports (IoWrite32 (GPE0BLK_Base + R_QNC_GPE0BLK_SMIS) B_QNC_GPE0BLK_SMIS_APM);
  _ ← on_ports (IoOr32 (GPE0BLK_Base + R_QNC_GPE0BLK_SMIS) B_QNC_GPE0BLK_SMIS_EOS);
  mret tt.
Definition TriggerBootServiceSoftwareSmi (smi : M st unit) : M st unit := InternalTriggerSmi smi BOOT_SERVICE_SOFTWARE_SMI_DATA.
Definition TriggerRuntimeSoftwareSmi (smi : M st unit) : M st unit := InternalTriggerSmi smi RUNTIME_SOFTWARE_SMI_DATA.

Definition InternalGetSwSmiData : M st Z :=
  GPE0BLK_Base ← on_ports gpe0;
  SmiStatus ← on_ports (IoRead8 (GPE0BLK_Base + R_QNC_GPE0BLK_SMIS));
  if negb (Z.land SmiStatus B_QNC_GPE0BLK_SMIS_APM =? 0) then
    v ← on_ports (IoRead8 PcdSmmActivationPort);
    if v =? PcdSmmActivationData then on_ports (IoRead8 PcdSmmDataPort) else mret (-1)
  else mret (-1).
Definition IsBootServiceSoftwareSmi : M st bool := v ← InternalGetSwSmiData; mret (v =? BOOT_SERVICE_SOFTWARE_SMI_DATA).
Definition IsRuntimeSoftwareSmi : M st bool := v ← InternalGetSwSmiData; mret (v =? RUNTIME_SOFTWARE_SMI_DATA).
Definition ClearSmi : M st unit :=
  GPE0BLK_Base ← on_ports gpe0;
  _ ← on_ports (IoOr16 (GPE0BLK_Base + R_QNC_GPE0BLK_SMIS) B_QNC_GPE0BLK_SMIS_APM);
  _ ← on_ports (IoOr32 (GPE0BLK_Base + R_QNC_GPE0BLK_SMIS) B_QNC_GPE0BLK_SMIS_EOS);
  mret tt.

(** ** [SmmControlDriver.c] and [SmmControlPei.c] *)

Definition SmmClear : M st EFI_STATUS :=
  _ ← on_ports (IoWrite32 (PcdGpe0blkIoBaseAddress + R_QNC_GPE0BLK_SMIS) B_QNC_GPE0BLK_SMIS_APM);
  _ ← on_ports (IoOr32 (PcdGpe0blkIoBaseAddress + R_QNC_GPE0BLK_SMIS) B_QNC_GPE0BLK_SMIS_EOS);
  mret EFI_SUCCESS.
Definition Activate (smi : M st unit) (CommandPort DataPort : option Z) (Periodic : bool) : M st EFI_STATUS :=
  if Periodic then mret EFI_INVALID_PARAMETER else
  Status ← SmmClear;
  if EFI_ERROR Status then mret EFI_DEVICE_ERROR else
  _ ← generate PcdGpe0blkIoBaseAddress (Some (default 0xFF DataPort)) (default 0xFF CommandPort);
  _ ← smi;
  mret EFI_SUCCESS.
Definition Deactivate (Periodic : bool) : M st EFI_STATUS := if Periodic then mret EFI_INVALID_PARAMETER else SmmClear.

Definition SmmTrigger (smi : M st unit) (Data : Z) : M st EFI_STATUS :=
  _ ← generate PcdGpe0blkIoBaseAddress None Data;
  _ ← smi;
  mret EFI_SUCCESS.
(** [ArgumentBuffer] is the byte that is pointed to. *)
Definition PeiActivate (smi : M st unit) (ArgumentBuffer ArgumentBufferSize : option Z) (Periodic : bool) : M st EFI_STATUS :=
  if Periodic then mret EFI_INVALID_PARAMETER else
  let trigger Data := Status ← SmmClear; if EFI_ERROR Status then mret Status else SmmTrigger smi (u8 Data) in
  match ArgumentBuffer, ArgumentBufferSize with
  | None, _ => trigger 0xFF
  | Some Data, Some n => if n =? 1 then trigger Data else mret EFI_INVALID_PARAMETER
  | Some _, None => mret EFI_INVALID_PARAMETER
  end.
Definition PeiDeactivate (Periodic : bool) : M st EFI_STATUS := if Periodic then mret EFI_INVALID_PARAMETER else SmmClear.

(** ** The start of the dispatcher *)

Definition QNCSmmPublishDispatchProtocols : M st unit :=
  for_each (seqZ 0 NUM_PROTOCOLS) (fun Index => Status ← on_ports (SmmInstallProtocolInterface Index); ASSERT (negb (EFI_ERROR Status))).
Definition QNCSmmInitHardware : M st EFI_STATUS :=
  _ ← on_ports QNCSmmClearSmi;
  Status ← QNCSmmEnableGlobalSmiBit;
  _ ← ASSERT (negb (EFI_ERROR Status));
  _ ← on_ports QNCSmmClearSmi;
  mret EFI_SUCCESS.
Definition InitializeQNCSmmDispatcher : M st EFI_STATUS :=
  _ ← QNCSmmPublishDispatchProtocols;
  Status ← on_ports SmiHandlerRegister;
  _ ← ASSERT (negb (EFI_ERROR Status));
  _ ← on_dispatcher (modify (fun s => with_db [] s.(records) s));
  _ ← QNCSmmInitHardware;
  mret EFI_SUCCESS.

(** The reads that are waited for. *)
Fixpoint wait_clear (fuel : nat) (b : QNC_SMM_BIT_DESC) : M D unit :=
  match fuel with O => stop | S fuel => IsSet ← ReadBitDesc b; if IsSet : bool then wait_clear fuel b else mret tt end.
Definition QNCSmmClearSourceAndBlock (fuel : nat) (SrcDesc : QNC_SMM_SOURCE_DESC) : M D unit :=
  for_each SrcDesc.(Sts) (fun b =>
    if IS_BIT_DESC_NULL b then mret tt
    else _ ← WriteBitDesc b (Z.land SrcDesc.(Flags) QNC_SMM_CLEAR_WITH_ZERO =? 0); wait_clear fuel b).
End Control.

(** ** What the ports do *)

(** Writing to the activation port latches the value and, if software SMIs are enabled, sets their status. *)
Definition activated {D} {V : SmiView D} (v : Z) (d d' : D) : Prop :=
  u8 (reg_io d' R_APM_CNT) = u8 v /\
  (forall i, 0 <= i -> Z.testbit (reg_io d' (gpe_base + R_QNC_GPE0BLK_SMIS)) i =
     Z.testbit (reg_io d (gpe_base + R_QNC_GPE0BLK_SMIS)) i || (i =? 4) && Z.testbit (reg_io d (gpe_base + R_QNC_GPE0BLK_SMIE)) 4) /\
  (forall A, A <> R_APM_CNT -> A <> gpe_base + R_QNC_GPE0BLK_SMIS -> reg_io d' A = reg_io d A) /\ (forall A, reg_pci d' A = reg_pci d A).

Class SmiControlLaws (D : Type) {B : SmiBus D} {V : SmiView D} {C : SmiControl D} := {
  gpe0blk_law : PcdGpe0blkIoBaseAddress = gpe_base;
  activation_port_law : PcdSmmActivationPort = R_APM_CNT /\ in_width 8 PcdSmmActivationData;
  data_port_law : PcdSmmDataPort <> R_APM_CNT /\ 0 <= PcdSmmDataPort < 0x1000 /\ w1c PcdSmmDataPort = 0;
  data_law : forall v d, wp (IoWrite8 PcdSmmDataPort v) (fun _ d' => wrote 1 PcdSmmDataPort v d d') d;
  activation_law : forall v d, wp (IoWrite8 PcdSmmActivationPort v) (fun _ d' => activated v d d') d;
  or16_law : forall A o d, wp (IoOr16 A o) (fun _ d' => wrote 2 A (Z.lor (reg_io d A) o) d d') d;
  install_law : forall i d, wp (SmmInstallProtocolInterface i) (fun st d' => st = EFI_SUCCESS /\ same d d') d;
  handler_law : forall d, wp SmiHandlerRegister (fun st d' => st = EFI_SUCCESS /\ same d d') d
}.

Section Rules.
Context {MB : MessageBus} {HP : HmiscPlain} {D : Type} {B : SmiBus D} {V : SmiView D} {L : SmiLaws D} {C : SmiControl D} {K : SmiControlLaws D}.
Implicit Types (p : platform D) (s : smi D) (d : D).

Definition ports_of_platform p : D := p.(dispatcher).(hw).
Definition on_port_state d p : platform D := {| sideband := p.(sideband); dispatcher := with_hw d p.(dispatcher) |}.
(** SMIs are enabled globally. *)
Definition smi_en p : bool := Z.testbit (p.(sideband).(regs) hmisc) 19.

Lemma wp_on_ports {A} (m : M D A) (Q : A -> platform D -> Prop) p :
  wp m (fun a d => Q a (on_port_state d p)) (ports_of_platform p) -> wp (on_ports m) Q p.
Proof.
  intros (a & d & Hm & HQ). exists a, (on_port_state d p). split; [|done]. unfold on_ports, on_dispatcher, on_hw. unfold ports_of_platform in Hm. by rewrite Hm.
Qed.

Lemma wp_on_dispatcher {A} (m : M (smi D) A) (Q : A -> platform D -> Prop) p :
  wp m (fun a s => Q a {| sideband := p.(sideband); dispatcher := s |}) p.(dispatcher) -> wp (on_dispatcher m) Q p.
Proof. intros (a & s & Hm & HQ). eexists _, _. split; [|exact HQ]. unfold on_dispatcher. by rewrite Hm. Qed.

Lemma wp_on_sideband {A} (m : M msgbus A) (Q : A -> platform D -> Prop) p :
  wp m (fun a b => Q a {| sideband := b; dispatcher := p.(dispatcher) |}) p.(sideband) -> wp (on_sideband m) Q p.
Proof. intros (a & b & Hm & HQ). eexists _, _. split; [|exact HQ]. unfold on_sideband. by rewrite Hm. Qed.

Lemma wp_EnableGlobalSmiBit (Q : EFI_STATUS -> platform D -> Prop) p :
  (forall p', p'.(dispatcher) = p.(dispatcher) -> smi_en p' = true -> Q EFI_SUCCESS p') -> wp QNCSmmEnableGlobalSmiBit Q p.
Proof.
  intros HQ. unfold QNCSmmEnableGlobalSmiBit. apply wp_bind, wp_on_sideband. apply (wp_port_read SpReg); [done|done|]. intros b1 E1 _ _.
  apply wp_bind, wp_on_sideband. apply (wp_port_write SpReg); [done|done|]. intros b2 E2 _ _. apply wp_ret, HQ; [done|]. unfold smi_en. cbn [sideband] in *.
  rewrite E2, E1. fold hmisc. rewrite fn_lookup_insert, hmisc_stores, Z.lor_spec. change (Z.testbit SMI_EN 19) with true. apply orb_true_r.
Qed.

Lemma elsewhere_smis n v d d' : wrote n smis v d d' -> forall A, A <> smis -> reg_io d' A = reg_io d A.
Proof. intros (_ & H & _). exact H. Qed.

(** The end of an SMI: all status bits are read and written back. *)
Lemma wp_end_of_smi (Q : unit -> D -> Prop) d :
  (forall d', silent d' -> (forall A, A <> smis -> reg_io d' A = reg_io d A) -> (forall A, reg_pci d' A = reg_pci d A) -> Q tt d') ->
  wp (_ ← IoOr32 smis B_QNC_GPE0BLK_SMIS_EOS; mret tt) Q d.
Proof.
  intros HQ. apply wp_bind. eapply wp_mono; [apply or_law|]. intros v d' W. apply wp_ret, HQ; [|apply W|apply W].
  intros i Hi. pose proof (smis_range i Hi) as Hr. destruct W as (W & _). rewrite W, w1c_smis, Hi by lia.
  rewrite (proj2 (Z.ltb_lt i (8 * 4))) by lia. cbn [stored]. rewrite Z.lor_spec. by destruct (Z.testbit (reg_io d smis) i).
Qed.

Lemma wp_SmmClear (Q : EFI_STATUS -> platform D -> Prop) p :
  (forall d, silent d -> (forall A, A <> smis -> reg_io d A = reg_io (ports_of_platform p) A) -> (forall A, reg_pci d A = reg_pci (ports_of_platform p) A) ->
     Q EFI_SUCCESS (on_port_state d p)) -> wp SmmClear Q p.
Proof.
  intros HQ. unfold SmmClear. rewrite gpe0blk_law. fold smis. apply wp_bind, wp_on_ports. eapply wp_mono; [apply write_law|]. intros [] d1 W1.
  apply wp_bind, wp_on_ports. eapply wp_mono; [apply or_law|]. intros v d2 W2. apply wp_ret.
  change (on_port_state d2 (on_port_state d1 p)) with (on_port_state d2 p). apply HQ.
  - intros i Hi. pose proof (smis_range i Hi) as Hr. destruct W2 as (W & _). change (ports_of_platform (on_port_state d1 p)) with d1 in W.
    rewrite W, w1c_smis, Hi by lia. rewrite (proj2 (Z.ltb_lt i (8 * 4))) by lia. cbn [stored]. rewrite Z.lor_spec. by destruct (Z.testbit (reg_io d1 smis) i).
  - intros A HA. rewrite (elsewhere_smis _ _ _ _ W2) by done. by rewrite (elsewhere_smis _ _ _ _ W1).
  - intros A. destruct W1 as (_ & _ & W1), W2 as (_ & _ & W2). by rewrite W2, W1.
Qed.

(** A software SMI was raised. *)
Definition smie : Z := gpe_base + R_QNC_GPE0BLK_SMIE.
Record raised (Data : option Z) (Command : Z) d d' : Prop := {
  rsd_command : u8 (reg_io d' R_APM_CNT) = u8 Command;
  rsd_data : forall v, Data = Some v -> u8 (reg_io d' PcdSmmDataPort) = u8 v;
  rsd_enabled : Z.testbit (reg_io d' smie) 4 = true;
  rsd_pending : forall i, 0 <= i -> Z.testbit (reg_io d' smis) i = Z.testbit (reg_io d smis) i || (i =? 4);
  rsd_other : forall A, A <> R_APM_CNT -> A <> smis -> A <> smie -> A <> PcdSmmDataPort -> reg_io d' A = reg_io d A;
  rsd_pci : forall A, reg_pci d' A = reg_pci d A
}.

Lemma low_bits n x y : 0 <= n -> (forall i, 0 <= i < n -> Z.testbit x i = Z.testbit y i) -> wrap n x = wrap n y.
Proof.
  intros Hn H. apply Z.bits_inj'. intros i Hi. rewrite !wrap_bit by lia. destruct (Z.ltb_spec i n); [by rewrite H by lia|by rewrite !andb_false_r].
Qed.

Lemma wp_generate Data Command (Q : unit -> platform D -> Prop) p :
  (forall p' d, p'.(dispatcher) = with_hw d p.(dispatcher) -> smi_en p' = true -> raised Data Command (ports_of_platform p) d -> Q tt p') ->
  wp (generate gpe_base Data Command) Q p.
Proof.
  intros HQ. destruct activation_port_law as [_ _], data_port_law as (Hp1 & Hp2 & Hp3). unfold generate. fold smie.
  apply wp_bind, wp_on_ports. eapply wp_mono; [apply or_law|]. intros v d1 W1. apply wp_bind, wp_EnableGlobalSmiBit. intros p1 E1 S1. cbn [on_port_state dispatcher] in E1.
  assert (HA : forall p2 d2, p2.(dispatcher) = with_hw d2 p.(dispatcher) -> smi_en p2 = true ->
    (forall v, Data = Some v -> u8 (reg_io d2 PcdSmmDataPort) = u8 v) ->
    (forall A, A <> PcdSmmDataPort -> reg_io d2 A = reg_io d1 A) -> (forall A, reg_pci d2 A = reg_pci d1 A) -> wp (on_ports (IoWrite8 PcdSmmActivationPort Command)) Q p2).
  { intros p2 d2 E2 S2 Hd Hio Hpci. apply wp_on_ports. eapply wp_mono; [apply activation_law|]. intros [] d3 (A1 & A2 & A3 & A4).
    unfold ports_of_platform in *. rewrite E2 in A2, A3, A4. cbn [with_hw hw] in A2, A3, A4. fold smis smie in A2, A3. destruct W1 as (W1 & W2 & W3).
    assert (Hse : Z.testbit (reg_io d2 smie) 4 = true).
    { rewrite Hio by (unfold smie; ports). rewrite W1 by lia. cbn [Z.ltb Z.mul Z.compare Pos.mul Pos.compare Pos.compare_cont].
      assert (Ew : w1c smie = 0) by apply w1c_law. rewrite Ew, Z.bits_0. cbn [stored]. rewrite Z.lor_spec. apply orb_true_r. }
    apply (HQ _ d3); [unfold on_port_state; cbn [dispatcher]; by rewrite E2|exact S2|]. split.
    - exact A1.
    - intros w Hw. rewrite A3; [by apply Hd|done|ports].
    - rewrite A3; [done|unfold smie; ports|unfold smie; ports].
    - intros i Hi. rewrite A2, Hse, andb_true_r, Hio, W2; [done|unfold smie; ports|ports|done].
    - intros A N1 N2 N3 N4. by rewrite A3, Hio, W2.
    - intros A. by rewrite A4, Hpci, W3. }
  apply wp_bind. destruct Data as [v0|]; [|apply wp_ret, (HA p1 d1); [exact E1|exact S1|done|done|done]].
  apply wp_on_ports. eapply wp_mono; [apply data_law|]. intros [] d2 (D1 & D2 & D3).
  assert (E : ports_of_platform p1 = d1) by (unfold ports_of_platform; by rewrite E1). rewrite E in D1, D2, D3.
  apply (HA (on_port_state d2 p1) d2); [unfold on_port_state; cbn [dispatcher]; by rewrite E1|exact S1| |done|done].
  intros w [= <-]. apply low_bits; [lia|]. intros i Hi. rewrite D1, Hp3, Z.bits_0 by lia. by rewrite (proj2 (Z.ltb_lt i (8 * 1))) by lia.
Qed.

(** ** The children of a software SMI *)

Lemma sw_shape c b f : shape c = Some (SW_SOURCE_DESC, b, f) -> exists v, c = Sw v.
Proof.
  assert (HQ : forallb (fun x => negb (bool_decide (x = SW_SOURCE_DESC))) QNCN_SOURCE_DESCS = true) by by vm_compute.
  destruct c as [t q|v|g|t|q|q t]; cbn [shape]; [repeat case_match; discriminate|by exists v|discriminate| |discriminate|by destruct (ContextToTimerInterval _)].
  destruct ((t <? IchnMch) || (NUM_ICHN_TYPES <=? t)); [done|]. destruct (QNCN_SOURCE_DESCS !! Z.to_nat t) as [x|] eqn:E; [|done]. intros H. injection H as -> _ _.
  rewrite forallb_forall in HQ. apply list_elem_of_lookup_2, list_elem_of_In, HQ in E. by rewrite bool_decide_true in E.
Qed.

Lemma omap_single {A A'} (f : A -> option A') l h x : NoDup l -> h ∈ l -> f h = Some x -> (forall k, k ∈ l -> k <> h -> f k = None) -> omap f l = [x].
Proof.
  intros Hn Hh Hf Ho. induction l as [|k l IH]; [by apply not_elem_of_nil in Hh|]. apply list.NoDup_cons in Hn as [Hk Hn]. cbn [omap list_omap].
  assert (HX : forall l', (forall j, j ∈ l' -> j <> h /\ j ∈ k :: l) -> omap f l' = []).
  { intros l'. induction l' as [|j l' IH']; intros Hl; [done|]. cbn [omap list_omap]. destruct (Hl j) as [H1 H2]; [set_solver|]. rewrite (Ho j) by done. apply IH'. set_solver. }
  apply elem_of_cons in Hh as [<-|Hh]; [rewrite Hf; f_equal; apply HX; intros j Hj; split; [by intros ->|set_solver]|].
  rewrite (Ho k); [|set_solver|by intros ->]. apply IH; [done|done|intros j Hj; apply Ho; set_solver].
Qed.

(** The first record, before all of software SMIs, of an active source whose status is not in the status register of SMIs. *)
Fixpoint overtaker s (l : list Z) : option Z :=
  match l with
  | [] => None
  | k :: l =>
      if bool_decide (source_of s k = SW_SOURCE_DESC) then None
      else if bool_decide (source_of s k ∉ smi_sources) && is_active s k then Some k else overtaker s l
  end.

Lemma overtaker_source s l k : overtaker s l = Some k -> k ∈ l /\ source_of s k ∉ smi_sources.
Proof.
  induction l as [|j l IH]; cbn [overtaker]; [done|]. case_bool_decide; [done|]. case_bool_decide; cbn [andb]; [destruct (is_active s j)|].
  - intros [= <-]. split; [by left|done].
  - intros E. destruct (IH E). split; [by right|done].
  - intros E. destruct (IH E). split; [by right|done].
Qed.

(** When the software SMI is active, and of the other sources those outside of the register that were active before, it is served
    unless there is such a record. *)
Lemma first_active_raised s d l h :
  h ∈ l -> source_of s h = SW_SOURCE_DESC -> active d SW_SOURCE_DESC = true ->
  (forall k, k ∈ l -> source_of s k <> SW_SOURCE_DESC -> is_active (with_hw d s) k = bool_decide (source_of s k ∉ smi_sources) && is_active s k) ->
  exists k, first_active (with_hw d s) l = Some k /\
    match overtaker s l with Some k' => k = k' | None => source_of s k = SW_SOURCE_DESC end.
Proof.
  intros Hh Es Ha Ho. induction l as [|j l IH]; [by apply not_elem_of_nil in Hh|]. cbn [first_active overtaker].
  case_bool_decide as Ej; [|rewrite (Ho j) by (done || by left); destruct (_ && _); [by exists j|]].
  - assert (E : is_active (with_hw d s) j = true) by (unfold is_active, source_of in *; cbn [with_hw hw records]; by rewrite Ej).
    rewrite E. by exists j.
  - apply elem_of_cons in Hh as [->|Hh]; [done|]. apply IH; [done|]. intros k Hk. apply Ho. by right.
Qed.

(** When it is served, one child is called. *)
Lemma calls_of_command s h r v k :
  db_ok s -> h ∈ s.(CallbackDataBase) -> s.(records) !! h = Some r -> r.(ChildContext) = Sw v -> apm s.(hw) = v ->
  first_active s s.(CallbackDataBase) = Some k -> source_of s k = SW_SOURCE_DESC -> calls_due s = [(r.(Callback), h, Sw v)].
Proof.
  intros Hs Hh Hr Hc Hv Hf Ek. destruct (known_source s h Hs Hh) as (r' & Hr' & Or & Es & _). assert (r' = r) as -> by congruence. clear Hr'.
  assert (Esrc : SrcDesc r = SW_SOURCE_DESC).
  { pose proof (rec_shape r Or) as Hsh. rewrite Hc in Hsh. cbn [shape] in Hsh. destruct (_ <? _); [done|]. by injection Hsh as <- _ _. }
  unfold calls_due, served. rewrite Hf. cbn [fmap option_fmap option_map from_option]. rewrite Ek. unfold called.
  assert (HS : CompareSources SW_SOURCE_DESC SW_SOURCE_DESC = true) by done.
  apply (omap_single _ _ h); [apply Hs|done| |].
  - unfold due. rewrite Hr. cbn [mbind option_bind]. rewrite Esrc, HS. unfold matches, delivered. rewrite Hc, Hv, Z.eqb_refl. done.
  - intros j Hj Hne. destruct (known_source s j Hs Hj) as (q & Hq & Oq & _). unfold due. rewrite Hq. cbn [mbind option_bind].
    destruct (CompareSources (SrcDesc q) SW_SOURCE_DESC) eqn:EC; [|done]. apply compare_known in EC; [|by apply record_known|unfold sources; set_solver].
    pose proof (rec_shape q Oq) as Hsh. rewrite EC in Hsh. destruct (sw_shape _ _ _ Hsh) as [w Hw]. cbn [andb]. unfold matches. rewrite Hw.
    destruct (Z.eqb_spec (apm (hw s)) w) as [E|E]; [|done]. destruct Hne. eapply (db_unique s Hs j h q r w); [done..|]. rewrite Hc. congruence.
Qed.

(** Every child that is called is one of the source that is served. *)
Lemma calls_of_source s k :
  db_ok s -> first_active s s.(CallbackDataBase) = Some k -> Forall (fun c => source_of s c.1.2 = source_of s k) (calls_due s).
Proof.
  intros Hs Hf. assert (Hk : k ∈ CallbackDataBase s) by (destruct (first_active_split _ _ _ Hf) as (pre & post & E & _); rewrite E; set_solver).
  destruct (known_source s k Hs Hk) as (_ & _ & _ & _ & Kk). apply list.Forall_forall. intros x Hx.
  unfold calls_due, served in Hx. rewrite Hf in Hx. cbn [fmap option_fmap option_map from_option] in Hx.
  unfold called in Hx. apply list_elem_of_omap in Hx as (j & Hj & Hx). unfold due in Hx.
  destruct (known_source s j Hs Hj) as (r & Hr & _ & Er & Kj). rewrite Hr in Hx. cbn [mbind option_bind] in Hx.
  destruct (CompareSources (SrcDesc r) (source_of s k)) eqn:Ec; [|done]. cbn [andb] in Hx. destruct (matches (hw s) r); [|done]. injection Hx as <-. cbn.
  rewrite Er. apply compare_known; [by rewrite <- Er|done|done].
Qed.

(** The registers of the other sources are apart. *)
Lemma elsewhere_active Data Command d0 d d' src :
  silent d -> (forall A, A <> smis -> reg_io d A = reg_io d0 A) -> (forall A, reg_pci d A = reg_pci d0 A) -> raised Data Command d d' ->
  src ∈ sources -> src <> SW_SOURCE_DESC -> active d' src = bool_decide (src ∉ smi_sources) && active d0 src.
Proof.
  intros Hsil Hio Hpci R Hsrc Hne. pose proof data_port_law as (Hp1 & Hp2 & _).
  destruct (decide (src ∈ smi_sources)) as [Hin|Hout].
  - rewrite bool_decide_false by tauto. unfold active. apply andb_false_iff. right. unfold smi_sources in Hin. rewrite !elem_of_cons, elem_of_nil in Hin. unfold pending, desc_bit.
    destruct Hin as [->|[->|[->|[->|[]]]]]; [|done| |]; cbn [forallb smi_source Sts SX_SOURCE_DESC GPI_SOURCE_DESC mTIMER_SOURCE_DESC place_of Type_ raw Bit reg_at];
      change (gpe_base + u16 R_QNC_GPE0BLK_SMIS) with smis; rewrite (rsd_pending _ _ _ _ R) by done; by rewrite Hsil.
  - rewrite bool_decide_true by done. cbn [andb]. unfold active, enabled, pending, sci, desc_bit.
    assert (HR : forall A, A <> R_APM_CNT -> A <> smis -> A <> smie -> A <> PcdSmmDataPort -> reg_io d' A = reg_io d0 A).
    { intros A N1 N2 N3 N4. by rewrite (rsd_other _ _ _ _ R), Hio. }
    assert (HPci : forall A, reg_pci d' A = reg_pci d0 A) by (intros A; by rewrite (rsd_pci _ _ _ _ R), Hpci).
    unfold sources in Hsrc. rewrite !elem_of_cons, elem_of_nil in Hsrc.
    repeat destruct Hsrc as [->|Hsrc]; [exfalso; apply Hout; unfold smi_sources; set_solver|done|exfalso; apply Hout; unfold smi_sources; set_solver|
      exfalso; apply Hout; unfold smi_sources; set_solver|..|done]; cbn [forallb En Sts rtc_source bios_wp_source thermal_source NULL_SOURCE_DESC_INITIALIZER place_of Type_ raw Bit reg_at NULL_BIT_DESC_INITIALIZER].
    all: repeat match goal with |- context [u16 ?x] => let y := eval vm_compute in (u16 x) in change (u16 x) with y end.
    all: rewrite ?HPci, !HR by (unfold smie; ports); reflexivity.
Qed.

(** ** From the activation to the child *)

(** The SMI is taken if it is enabled, globally and by its source. *)
Definition taken (m : M (platform D) unit) : M (platform D) unit :=
  p ← get; if smi_en p && active (ports_of_platform p) SW_SOURCE_DESC then m else mret tt.
Definition dispatch (Rounds : nat) (Context : QNC_SMM_CONTEXT) : M (platform D) unit :=
  _ ← on_dispatcher (QNCSmmCoreDispatcher Rounds Context); mret tt.

(** A child waits for the command. *)
Record waits_for Command h r p : Prop := {
  wf_ok : db_ok p.(dispatcher);
  wf_sleep : sleep_ok (ports_of_platform p);
  wf_listed : h ∈ p.(dispatcher).(CallbackDataBase);
  wf_record : p.(dispatcher).(records) !! h = Some r;
  wf_context : r.(ChildContext) = Sw Command
}.
(** It was called, once, and no other. *)
Definition reached Command h r p (Status : EFI_STATUS) p' : Prop :=
  Status = EFI_SUCCESS /\ map who p'.(dispatcher).(calls) = (r.(Callback), h, Sw Command) :: map who p.(dispatcher).(calls) /\
  p'.(dispatcher).(CallbackDataBase) = p.(dispatcher).(CallbackDataBase) /\ db_ok p'.(dispatcher) /\ silent (ports_of_platform p').

(** The SMI was taken, but the children that were called, if any, are of the source of [k]; nothing is pending after it. *)
Definition passed_over h k p (Status : EFI_STATUS) p' : Prop :=
  Status = EFI_SUCCESS /\
  (exists l, map who p'.(dispatcher).(calls) = l ++ map who p.(dispatcher).(calls) /\
     Forall (fun c => c.1.2 <> h /\ source_of p.(dispatcher) c.1.2 = source_of p.(dispatcher) k) l) /\
  p'.(dispatcher).(CallbackDataBase) = p.(dispatcher).(CallbackDataBase) /\ db_ok p'.(dispatcher) /\ silent (ports_of_platform p').
Definition activation_outcome Command h r p : EFI_STATUS -> platform D -> Prop :=
  match overtaker p.(dispatcher) p.(dispatcher).(CallbackDataBase) with
  | None => reached Command h r p
  | Some k => passed_over h k p
  end.

(** The dispatch of the software SMI. *)
Lemma dispatch_raised Rounds Context Data Command h r p p1 d d1 :
  quiet_children -> (length p.(dispatcher).(CallbackDataBase) <= Rounds)%nat -> waits_for (u8 Command) h r p ->
  silent d -> (forall A, A <> smis -> reg_io d A = reg_io (ports_of_platform p) A) -> (forall A, reg_pci d A = reg_pci (ports_of_platform p) A) ->
  p1.(dispatcher) = with_hw d1 p.(dispatcher) -> raised Data Command d d1 -> active d1 SW_SOURCE_DESC = true ->
  wp (dispatch Rounds Context) (fun _ => activation_outcome (u8 Command) h r p EFI_SUCCESS) p1.
Proof.
  intros HG Hl [W1 W2 W3 W4 W5] S1 Hio Hpci E1 R Hsw.
  destruct (known_source _ h W1 W3) as (r' & Hr' & Or & Es & _). assert (r' = r) as -> by congruence. clear Hr'.
  assert (Esrc : source_of (dispatcher p) h = SW_SOURCE_DESC).
  { rewrite Es. pose proof (rec_shape r Or) as Hsh. rewrite W5 in Hsh. cbn [shape] in Hsh. destruct (_ <? _); [done|]. by injection Hsh as <- _ _. }
  assert (O1 : db_ok (dispatcher p1)) by (rewrite E1; by destruct W1).
  assert (P1 : sleep_ok (hw (dispatcher p1))).
  { rewrite E1. cbn [with_hw hw]. unfold sleep_ok, sleep_bits in *. pose proof data_port_law as (_ & Hp2 & _).
    rewrite (rsd_other _ _ _ _ R), Hio; [done|ports|ports|ports|unfold smie; ports|ports]. }
  destruct (first_active_raised (dispatcher p) d1 (CallbackDataBase (dispatcher p)) h) as (k & Hk & Hover); [done..| |].
  { intros k Hk Hne. destruct (known_source _ k W1 Hk) as (q & Hq & _ & _ & Kq).
    by apply (elsewhere_active Data Command (ports_of_platform p) d d1). }
  assert (Hk1 : first_active (dispatcher p1) (CallbackDataBase (dispatcher p1)) = Some k) by by rewrite E1.
  unfold dispatch. apply wp_bind, wp_on_dispatcher, wp_dispatch_quiet; [done|done|done|rewrite E1; exact Hl|]. intros s2 D2 O2 P2 C2 S2. apply wp_ret.
  assert (S3 : silent (hw s2)).
  { apply S2. rewrite E1. cbn [with_hw CallbackDataBase]. intros E. rewrite E in W3. by apply not_elem_of_nil in W3. }
  unfold activation_outcome. destruct (overtaker _ _) as [k'|] eqn:Eo; unfold passed_over, reached, ports_of_platform; cbn [dispatcher].
  - subst k'. destruct (overtaker_source _ _ _ Eo) as [_ Hout]. split; [done|]. split; [|split; [by rewrite D2, E1|done]].
    exists (rev (calls_due (dispatcher p1))). split; [by rewrite C2, E1|]. apply Forall_rev.
    eapply list.Forall_impl; [exact (calls_of_source _ _ O1 Hk1)|]. intros c Hc. cbn beta in Hc.
    assert (Hc' : source_of (dispatcher p) c.1.2 = source_of (dispatcher p) k) by (unfold source_of in *; by rewrite E1 in Hc).
    split; [|done]. intros E. rewrite E, Esrc in Hc'. apply Hout. rewrite <- Hc'. unfold smi_sources. set_solver.
  - rewrite (calls_of_command (dispatcher p1) h r (u8 Command) k) in C2; rewrite ?E1; try done; [|by rewrite <- E1|exact (rsd_command _ _ _ _ R)].
    split; [done|]. split; [by rewrite C2, E1|]. split; [by rewrite D2, E1|done].
Qed.

Lemma wp_reach Rounds Context Data Command h r p :
  quiet_children -> (length p.(dispatcher).(CallbackDataBase) <= Rounds)%nat -> waits_for (u8 Command) h r p ->
  wp (Status ← SmmClear; if EFI_ERROR Status then mret EFI_DEVICE_ERROR else
      _ ← generate PcdGpe0blkIoBaseAddress Data Command; _ ← taken (dispatch Rounds Context); mret EFI_SUCCESS) (activation_outcome (u8 Command) h r p) p.
Proof.
  intros HG Hl HW. apply wp_bind, wp_SmmClear. intros d S1 Hio Hpci. cbn [EFI_ERROR]. change (EFI_ERROR EFI_SUCCESS) with false. cbn iota.
  rewrite gpe0blk_law. apply wp_bind, wp_generate. intros p1 d1 E1 En1 R. change (ports_of_platform (on_port_state d p)) with d in R.
  change (dispatcher (on_port_state d p)) with (with_hw d p.(dispatcher)) in E1. change (with_hw d1 (with_hw d (dispatcher p))) with (with_hw d1 (dispatcher p)) in E1.
  assert (Hsw : active d1 SW_SOURCE_DESC = true).
  { unfold active, enabled, pending, desc_bit. cbn [forallb smi_source En Sts Flags SW_SOURCE_DESC place_of Type_ raw Bit reg_at NULL_BIT_DESC_INITIALIZER].
    change (gpe_base + u16 R_QNC_GPE0BLK_SMIS) with smis. change (gpe_base + u16 R_QNC_GPE0BLK_SMIE) with smie. unfold N_QNC_GPE0BLK_SMIE_APM, N_QNC_GPE0BLK_SMIS_APM.
    rewrite (rsd_enabled _ _ _ _ R), (rsd_pending _ _ _ _ R) by done. by rewrite orb_true_r. }
  unfold taken. apply wp_bind, wp_bind, wp_get. assert (Ep : ports_of_platform p1 = d1) by (unfold ports_of_platform; by rewrite E1). rewrite En1, Ep, Hsw. cbn [andb].
  eapply wp_mono; [by apply (dispatch_raised Rounds Context Data Command h r p p1 d d1)|]. intros [] p2 H. by apply wp_ret.
Qed.

(** C19: A command that is passed to the SMM control protocol, or to the PPI of the same name, raises an SMI that is taken, whatever
    SMIs were pending or disabled before: the status is cleared, software SMIs are enabled, and the dispatcher runs. It calls the
    child that is registered for the command, once, with the command as its context, and no other child, exactly when no
    registered child comes before those of software SMIs ([overtaker]) whose source is active and has its status outside of the
    status register of SMIs (the clock, writes to the flash, the thermal sensor, and the empty source, which is always active):
    the activation does not clear those. When there is such a child, only children of its source are called, the one that waits for
    the command is not, and the SMI is not pending any more: the command is lost, and the caller gets EFI_SUCCESS all the same.
    Assumed: the children only work on their own devices, the sleep type register holds one of its four types, and the dispatcher has rounds enough for the
    children that are registered. *)
Theorem Activate_reaches_child Rounds Context CommandPort DataPort h r p :
  quiet_children -> (length p.(dispatcher).(CallbackDataBase) <= Rounds)%nat -> waits_for (u8 (default 0xFF CommandPort)) h r p ->
  wp (Activate (taken (dispatch Rounds Context)) CommandPort DataPort false) (activation_outcome (u8 (default 0xFF CommandPort)) h r p) p /\
  wp (PeiActivate (taken (dispatch Rounds Context)) CommandPort (Some 1) false) (activation_outcome (u8 (default 0xFF CommandPort)) h r p) p.
Proof.
  intros HG Hl Hw. split; [by apply wp_reach|].
  assert (HE : forall x, u8 x = u8 (default 0xFF CommandPort) ->
    wp (Status ← SmmClear; if EFI_ERROR Status then mret Status else SmmTrigger (taken (dispatch Rounds Context)) (u8 x)) (activation_outcome (u8 (default 0xFF CommandPort)) h r p) p).
  { intros x Hx. assert (Hu : u8 (u8 x) = u8 x) by (unfold wrap; by rewrite Zmod_mod). rewrite <- Hx, <- Hu in Hw |- *.
    pose proof (wp_reach Rounds Context None (u8 x) h r p HG Hl Hw) as H. rewrite Hu in *. unfold SmmTrigger.
    unfold wp, mbind, M_bind in *. destruct H as (a & s' & Hm & HQ). exists a, s'. split; [|exact HQ]. rewrite <- Hm.
    destruct (SmmClear p) as [[st p1]|] eqn:E; [|done]. cbn iota. unfold SmmClear, mbind, M_bind in E.
    destruct (on_ports _ p) as [[? p2]|]; [|done]. destruct (on_ports _ p2) as [[? p3]|]; [|done]. injection E as <- <-. done. }
  unfold PeiActivate. destruct CommandPort as [x|]; [|by apply HE]. by apply HE.
Qed.

(** ** What the handler finds *)

Definition sw_data d : Z :=
  if Z.testbit (reg_io d smis) 4 then if u8 (reg_io d R_APM_CNT) =? PcdSmmActivationData then u8 (reg_io d PcdSmmDataPort) else -1 else -1.

Lemma wp_InternalGetSwSmiData (Q : Z -> platform D -> Prop) p :
  (forall d, same (ports_of_platform p) d -> Q (sw_data (ports_of_platform p)) (on_port_state d p)) -> wp InternalGetSwSmiData Q p.
Proof.
  intros HQ. unfold InternalGetSwSmiData. apply wp_bind, wp_on_ports, wp_gpe0. intros d1 H1. fold smis.
  apply wp_bind, wp_on_ports. eapply wp_mono; [apply (read_law 1); tauto|]. intros v d2 [-> H2]. cbn [on_port_state] in *.
  change (ports_of_platform _) with d1 in H2 |- *. change (on_port_state d2 (on_port_state d1 p)) with (on_port_state d2 p).
  change B_QNC_GPE0BLK_SMIS_APM with (u64 (Z.shiftl 1 4)). rewrite (bit_masked 1 4) by (done || lia || tauto). unfold sw_data in HQ. rewrite (proj1 H1).
  assert (H12 : same (ports_of_platform p) d2) by by eapply same_trans.
  destruct (Z.testbit (reg_io (ports_of_platform p) smis) 4); [|by apply wp_ret, HQ].
  destruct activation_port_law as [Ea _]. rewrite Ea. apply wp_bind, wp_on_ports. eapply wp_mono; [apply (read_law 1); tauto|]. intros v d3 [-> H3].
  change (ports_of_platform (on_port_state d2 p)) with d2 in H3 |- *. change (on_port_state d3 (on_port_state d2 p)) with (on_port_state d3 p). rewrite (proj1 H12).
  assert (H13 : same (ports_of_platform p) d3) by by eapply same_trans. change (8 * 1) with 8.
  destruct (u8 (reg_io (ports_of_platform p) R_APM_CNT) =? PcdSmmActivationData); [|by apply wp_ret, HQ].
  apply wp_on_ports. eapply wp_mono; [apply (read_law 1); tauto|]. intros v d4 [-> H4]. change (ports_of_platform (on_port_state d3 p)) with d3 in H4 |- *.
  rewrite (proj1 H13). apply HQ. by eapply same_trans.
Qed.

Lemma sw_data_same d d' : same d d' -> sw_data d' = sw_data d.
Proof. intros [H _]. unfold sw_data. by rewrite !H. Qed.

(** C32: What is passed as the data of a software SMI is what its handler finds, and whether it is of boot or of run time; after the
    trigger has returned there is none. *)
Theorem SoftwareSmi_roundtrip Data p :
  wp (g ← on_ports gpe0; _ ← generate g (Some Data) PcdSmmActivationData; v ← InternalGetSwSmiData; b ← IsBootServiceSoftwareSmi; t ← IsRuntimeSoftwareSmi; mret (v, b, t))
    (fun x _ => x = (u8 Data, u8 Data =? 0, u8 Data =? 1)) p /\
  wp (_ ← InternalTriggerSmi (mret tt) Data; InternalGetSwSmiData) (fun v _ => v = -1) p.
Proof.
  split.
  - apply wp_bind, wp_on_ports, wp_gpe0. intros d H. apply wp_bind, wp_generate. intros p1 d1 E1 _ R. destruct activation_port_law as [_ Hw].
    assert (Ep : ports_of_platform p1 = d1) by (unfold ports_of_platform; by rewrite E1).
    assert (Ed : sw_data d1 = u8 Data).
    { unfold sw_data. rewrite (rsd_pending _ _ _ _ R), (rsd_command _ _ _ _ R), (rsd_data _ _ _ _ R Data), orb_true_r, wrap_small, Z.eqb_refl by done. done. }
    apply wp_bind, wp_InternalGetSwSmiData. rewrite Ep, Ed. intros d2 H2. apply wp_bind. unfold IsBootServiceSoftwareSmi. apply wp_bind, wp_InternalGetSwSmiData.
    change (ports_of_platform (on_port_state d2 p1)) with d2. rewrite (sw_data_same d1 d2), Ed by done. intros d3 H3. apply wp_ret.
    apply wp_bind. unfold IsRuntimeSoftwareSmi. apply wp_bind, wp_InternalGetSwSmiData. change (ports_of_platform (on_port_state d3 _)) with d3.
    rewrite (sw_data_same d2 d3), (sw_data_same d1 d2), Ed by done. intros d4 H4. by do 2 apply wp_ret.
  - apply wp_bind. unfold InternalTriggerSmi. apply wp_bind, wp_on_ports, wp_gpe0. intros d H. apply wp_bind, wp_generate. intros p1 d1 E1 _ R.
    apply wp_bind, wp_ret. fold smis. apply wp_bind, wp_on_ports. eapply wp_mono; [apply write_law|]. intros [] d2 W2.
    apply wp_bind, wp_on_ports. eapply wp_mono; [apply or_law|]. intros v d3 W3. apply wp_ret, wp_InternalGetSwSmiData. intros d4 H4. unfold sw_data.
    change (ports_of_platform (on_port_state d3 _)) with d3. change (ports_of_platform (on_port_state d2 p1)) with d2 in W3.
    destruct W3 as (W3 & _). rewrite W3, w1c_smis by done. change (Z.testbit B_QNC_GPE0BLK_SMIS_ALL 4) with true. change (4 <? 8 * 4) with true. cbn [stored].
    rewrite Z.lor_spec. by destruct (Z.testbit (reg_io d2 smis) 4).
Qed.

(** ** The start of the dispatcher *)

Lemma wp_QNCSmmClearSmi (Q : unit -> D -> Prop) d : (forall d', silent d' -> Q tt d') -> wp QNCSmmClearSmi Q d.
Proof.
  intros HQ. unfold QNCSmmClearSmi. apply wp_bind, wp_QNCSmmGetSciEn. intros d1 _. apply wp_bind.
  assert (HT : forall d2, wp (b ← gpe0; SmiSts ← IoRead32 (b + R_QNC_GPE0BLK_SMIS); b ← gpe0;
    _ ← IoWrite32 (b + R_QNC_GPE0BLK_SMIS) (Z.lor SmiSts B_QNC_GPE0BLK_SMIS_ALL); EosSet ← QNCSmmSetAndCheckEos; ASSERT EosSet) Q d2).
  { intros d2. apply wp_bind, wp_gpe0. intros d3 _. apply wp_bind. eapply wp_mono; [apply (read_law 4); tauto|]. intros v d4 _. apply wp_bind, wp_gpe0. intros d5 _.
    apply wp_bind. eapply wp_mono; [apply write_law|]. intros [] d6 _. apply wp_bind, wp_QNCSmmSetAndCheckEos. intros d7 _ S7. by apply wp_assert, HQ. }
  destruct (negb (sci d)); [|apply wp_ret, HT]. apply wp_bind. eapply wp_mono; [apply or16_law|]. intros [] d2 _. apply wp_bind, wp_gpe0. intros d3 _.
  apply wp_bind. eapply wp_mono; [apply or_law|]. intros v d4 _. apply wp_ret, HT.
Qed.

(** After its start the dispatcher has no children, SMIs are enabled globally, and none is pending. *)
Theorem InitializeQNCSmmDispatcher_ready p :
  wp InitializeQNCSmmDispatcher (fun Status p' => Status = EFI_SUCCESS /\ p'.(dispatcher).(CallbackDataBase) = [] /\ db_ok p'.(dispatcher) /\
    smi_en p' = true /\ silent (ports_of_platform p')) p.
Proof.
  unfold InitializeQNCSmmDispatcher. apply wp_bind. unfold QNCSmmPublishDispatchProtocols. apply (wp_for_each (fun _ _ => True)); [done| |].
  { intros pre i post p1 _ _. apply wp_bind, wp_on_ports. eapply wp_mono; [apply install_law|]. intros st d [-> _]. by apply wp_assert. }
  intros p1 _. apply wp_bind, wp_on_ports. eapply wp_mono; [apply handler_law|]. intros st d [-> _]. apply wp_bind, wp_assert; [done|].
  apply wp_bind, wp_on_dispatcher, wp_modify. apply wp_bind. unfold QNCSmmInitHardware. apply wp_bind, wp_on_ports, wp_QNCSmmClearSmi. intros d1 _.
  apply wp_bind, wp_EnableGlobalSmiBit. intros p2 E2 S2. apply wp_bind, wp_assert; [done|]. apply wp_bind, wp_on_ports, wp_QNCSmmClearSmi. intros d2 H2.
  do 2 apply wp_ret. cbn [on_port_state dispatcher with_hw CallbackDataBase]. rewrite E2. split; [done|]. split; [done|]. split; [|by split].
  split; cbn [with_db with_hw CallbackDataBase].
  - constructor.
  - intros h Hh. by apply not_elem_of_nil in Hh.
  - intros h1 h2 r1 r2 v Hh. by apply not_elem_of_nil in Hh.
Qed.

(** The wait for a source to clear ends at the first read. *)
Lemma QNCSmmClearSourceAndBlock_returns fuel src d :
  src ∈ sources -> src <> NULL_SOURCE_DESC_INITIALIZER -> (0 < fuel)%nat -> wp (QNCSmmClearSourceAndBlock fuel src) (fun _ d' => pending d' src = false) d.
Proof.
  intros H Hn Hf. destruct (status_bits src H Hn) as (c & E & Nc & Oc & Hc & Mc). unfold QNCSmmClearSourceAndBlock, pending. rewrite E. cbn [for_each forallb]. rewrite Nc.
  apply wp_bind, wp_bind, wp_WriteBitDesc; [done|done|]. intros d1 W.
  assert (Hb : desc_bit d1 c = false).
  { destruct (Z.land (Flags src) QNC_SMM_CLEAR_WITH_ZERO =? 0); [by eapply bit_cleared|by eapply bit_written]. }
  destruct fuel as [|fuel]; [lia|]. cbn [wait_clear]. apply wp_bind, wp_ReadBitDesc; [done|done|]. intros d2 S2. rewrite Hb. do 2 apply wp_ret.
  by rewrite (desc_bit_same d1 d2), Hb.
Qed.
End Rules.

(** ** A platform *)

#[local] Existing Instance chip_view.
#[local] Instance plain_bus : MessageBus := {| sb_store := fun _ _ v => v |}.
#[local] Instance plain_hmisc : HmiscPlain.
Proof. by split. Qed.

Definition activate_port (v : Z) (d : chip) : chip :=
  {| ports_of := fun A => if A =? R_APM_CNT then v else
       if A =? 0x1114 then Z.lor (d.(ports_of) A) (if Z.testbit (d.(ports_of) 0x1110) 4 then 2 ^ 4 else 0) else d.(ports_of) A; config_of := d.(config_of) |}.
#[local] Instance chip_control : SmiControl chip := {|
  IoWrite8 := fun A v d => Some (tt, if A =? R_APM_CNT then activate_port v d else write_port 1 A v d);
  PcdGpe0blkIoBaseAddress := 0x1100;
  PcdSmmActivationPort := 0xB2;
  PcdSmmDataPort := 0xB3;
  PcdSmmActivationData := 0x55;
  SmmInstallProtocolInterface := fun _ d => Some (EFI_SUCCESS, d);
  SmiHandlerRegister := fun d => Some (EFI_SUCCESS, d)
|}.

Lemma chip_control_laws children : @SmiControlLaws chip (chip_bus children) chip_view chip_control.
Proof.
  split.
  - done.
  - by split.
  - by split.
  - intros v d. eexists _, _. split; [reflexivity|]. by apply write_port_wrote.
  - intros v d. eexists _, _. split; [reflexivity|]. cbn [PcdSmmActivationPort chip_control]. change (0xB2 =? R_APM_CNT) with true. cbn iota.
    split; [done|]. split; [|split; [|done]].
    + intros i Hi. cbn [reg_io chip_view activate_port ports_of gpe_base chip_gpe]. change (chip_gpe + R_QNC_GPE0BLK_SMIS) with 0x1114. change (chip_gpe + R_QNC_GPE0BLK_SMIE) with 0x1110.
      change (0x1114 =? R_APM_CNT) with false. change (0x1114 =? 0x1114) with true. cbn iota. rewrite Z.lor_spec. f_equal.
      destruct (Z.testbit (ports_of d 0x1110) 4); [|by rewrite Z.bits_0, andb_false_r]. rewrite Z.pow2_bits_eqb, andb_true_r by lia. apply Z.eqb_sym.
    + intros A H1 H2. cbn [reg_io chip_view activate_port ports_of gpe_base] in *. change (chip_gpe + R_QNC_GPE0BLK_SMIS) with 0x1114 in H2.
      by rewrite (proj2 (Z.eqb_neq _ _) H1), (proj2 (Z.eqb_neq _ _) H2).
  - intros A o d. eexists _, _. split; [reflexivity|]. by apply write_port_wrote.
  - intros i d. by eexists _, _.
  - intros d. by eexists _, _.
Qed.

(** No SMI is enabled; a GPIO is pending. *)
Definition off : chip := {| ports_of := fun A => if A =? 0x1114 then 0x200 else 0; config_of := fun _ => 0 |}.
Definition off_platform : platform chip :=
  {| sideband := {| MDR := 0; MEA := 0; DeviceId := 0; regs := fun _ => 0; QNCAccess.writes := [] |}; dispatcher := with_hw off three_children |}.

(** A child of an empty source before the one that waits for the command 7. *)
Definition empty_child (fn : Z) : DATABASE_RECORD := new_record fn (QNCn IchnMch) NULL_SOURCE_DESC_INITIALIZER false (Some QNCSmmQNCnClearSource).
Definition overtaken : smi chip := database [empty_child 0x14; sw_child 0x11 7] off.
Definition overtaken_platform : platform chip :=
  {| sideband := {| MDR := 0; MEA := 0; DeviceId := 0; regs := fun _ => 0; QNCAccess.writes := [] |}; dispatcher := overtaken |}.

Lemma overtaken_ok : db_ok overtaken.
Proof.
  assert (HR : forall h, h ∈ [1; 2] -> exists r, overtaken.(records) !! h = Some r /\ record_ok r /\ (forall v, r.(ChildContext) = Sw v -> h = 2)).
  { intros h Hh. rewrite !elem_of_cons, elem_of_nil in Hh. destruct Hh as [->|[->|[]]]; (eexists; split; [vm_compute; reflexivity|]); by repeat split. }
  split; change (CallbackDataBase overtaken) with [1; 2].
  - by_compute.
  - intros h Hh. destruct (HR h Hh) as (r & Hr & Ho & _). split; [by intros ->; vm_compute in Hr|]. by exists r.
  - intros h1 h2 r1 r2 v I1 I2 E1 E2 C1 C2. destruct (HR h1 I1) as (q1 & Q1 & _ & S1), (HR h2 I2) as (q2 & Q2 & _ & S2). simplify_eq. by rewrite (S1 v), (S2 v).
Qed.

(** The second of three children has the command 7, and is called by either service; behind a child of an empty source it is not. *)
Lemma Activate_reaches_child_witness :
  wp (@Activate plain_bus chip (chip_bus idle_child) chip_control (taken (B := chip_bus idle_child) (dispatch (B := chip_bus idle_child) 3 (Gpi 0))) (Some 7) None false)
    (fun Status p' => Status = EFI_SUCCESS /\ map who p'.(dispatcher).(calls) = [(0x11, 2, Sw 7)]) off_platform /\
  wp (@PeiActivate plain_bus chip (chip_bus idle_child) chip_control (taken (B := chip_bus idle_child) (dispatch (B := chip_bus idle_child) 3 (Gpi 0))) (Some 7) (Some 1) false)
    (fun Status p' => Status = EFI_SUCCESS /\ map who p'.(dispatcher).(calls) = [(0x11, 2, Sw 7)]) off_platform /\
  wp (@Activate plain_bus chip (chip_bus idle_child) chip_control (taken (B := chip_bus idle_child) (dispatch (B := chip_bus idle_child) 2 (Gpi 0))) (Some 7) None false)
    (fun Status p' => Status = EFI_SUCCESS /\ (exists l, map who p'.(dispatcher).(calls) = l ++ [] /\ Forall (fun c => c.1.2 <> 2) l) /\
       Z.testbit (p'.(dispatcher).(hw).(ports_of) 0x1114) 4 = false) overtaken_platform.
Proof.
  destruct (@Activate_reaches_child plain_bus plain_hmisc chip (chip_bus idle_child) chip_view (chip_laws idle_child) chip_control (chip_control_laws idle_child)
    3 (Gpi 0) (Some 7) None 2 (sw_child 0x11 7) off_platform) as [H1 H2].
  - apply idle_quiet.
  - apply le_n.
  - split; [pose proof three_children_ok as []; by split|by left|by_compute|vm_compute; reflexivity|reflexivity].
  - destruct (@Activate_reaches_child plain_bus plain_hmisc chip (chip_bus idle_child) chip_view (chip_laws idle_child) chip_control (chip_control_laws idle_child)
      2 (Gpi 0) (Some 7) None 2 (sw_child 0x11 7) overtaken_platform) as [H3 _].
    + apply idle_quiet.
    + apply le_n.
    + split; [exact overtaken_ok|by left|by_compute|vm_compute; reflexivity|reflexivity].
    + assert (E1 : overtaker (B := chip_bus idle_child) off_platform.(dispatcher) off_platform.(dispatcher).(CallbackDataBase) = None) by (vm_compute; reflexivity).
      assert (E2 : overtaker (B := chip_bus idle_child) overtaken_platform.(dispatcher) overtaken_platform.(dispatcher).(CallbackDataBase) = Some 1) by (vm_compute; reflexivity).
      unfold activation_outcome in H1, H2, H3. rewrite E1 in H1, H2. rewrite E2 in H3. split; [|split].
      * eapply wp_mono; [exact H1|]. intros Status p' (-> & E & _). split; [reflexivity|]. rewrite E. vm_compute. reflexivity.
      * eapply wp_mono; [exact H2|]. intros Status p' (-> & E & _). split; [reflexivity|]. rewrite E. vm_compute. reflexivity.
      * eapply wp_mono; [exact H3|]. intros Status p' (-> & (l & E & Hl) & _ & _ & S). split; [reflexivity|]. split; [|by apply S].
        exists l. split; [exact E|]. eapply list.Forall_impl; [exact Hl|]. by intros c [Hc _].
Defined.

(** A software SMI with the data 1 is one of run time, and after it there is none. *)
Lemma SoftwareSmi_roundtrip_witness :
  wp (g ← on_ports (gpe0 (B := chip_bus idle_child)); _ ← generate (B := chip_bus idle_child) g (Some RUNTIME_SOFTWARE_SMI_DATA) PcdSmmActivationData;
      v ← InternalGetSwSmiData (B := chip_bus idle_child); b ← IsBootServiceSoftwareSmi (B := chip_bus idle_child);
      t ← IsRuntimeSoftwareSmi (B := chip_bus idle_child); mret (v, b, t)) (fun x _ => x = (1, false, true)) off_platform /\
  wp (_ ← InternalTriggerSmi (B := chip_bus idle_child) (mret tt) RUNTIME_SOFTWARE_SMI_DATA; InternalGetSwSmiData (B := chip_bus idle_child)) (fun v _ => v = -1) off_platform.
Proof.
  exact (@SoftwareSmi_roundtrip plain_bus plain_hmisc chip (chip_bus idle_child) chip_view (chip_laws idle_child) chip_control (chip_control_laws idle_child)
    RUNTIME_SOFTWARE_SMI_DATA off_platform).
Defined.
